(* ===== verification/_CoqProject ===== *)
-Q . S2P
Prelude.v
Kernel.v
UioTypes.v
UioAttr.v
UioDevice.v
UioFile.v
UioMmap.v
UioTables.v
HypervVmbus.v
HvUio.v
KLogic.v
CoreStep.v
UioInv.v
UioSpec.v
UioRead.v
UioOpen.v
UioAttrSpec.v
UioSysfs.v
UioReg.v
UioSystem.v
ModuleSpec.v
UioEvents.v
UioAbstract.v
HvSpec.v
HvCallbacks.v
HvProbe.v
HvProbeSpec.v
HvSystem.v
HvAbstract.v
Scenario.v
VmbusSpec.v
VmbusProps.v
UioProps.v
HvProps.v
UioWait.v
CLayout.v
CLayoutSpec.v
CAccess.v
GuestInterface.v
GuestProtocols.v
TlfsBase.v
TlfsState.v
TlfsPartition.v
TlfsSymbols.v
TlfsCpuid.v
TlfsCalls.v
VMBusDevices.v
HypervLayout.v
Arm64.v
HeaderFacts.v
HeaderProps.v
Ring.v
RingSpec.v
RingProps.v
HvTrace.v
HvTraceProps.v
Native.v
ProtocolProps.v
UserDevice.v
UserSpec.v
SynthRdp.v
SynthRdpLoop.v
UserProps.v
InterruptProps.v
RdpLoopProps.v
PosixHelpers.v
PortableTypes.v
