(* ===== verification/Prelude.v ===== *)
(** * A verification library for HvGin

    HvGin gives user space on a Linux guest access to the VMBus devices of
    Hyper-V.  This library models its kernel modules, the headers that declare
    what guest and host exchange, and the part of the user-space programs that
    works on rings and devices, and proves what makes them correct.

    ** The program

    - [uio_hv_generic/uio.c], the UIO core: a character device per registered
      device, with files that are opened, polled, read (waiting for an event),
      written (switching the interrupt) and mapped; attributes in sysfs;
      registration and unregistration, which may happen while files are open.
    - [uio_hv_generic/uio_hv_generic.c], a driver under the VMBus core and above
      the UIO core: probe allocates the ring and two buffers shared with the
      host and registers a UIO device whose five regions are the rings, the
      interrupt page, the monitor page and the buffers; callbacks run when the
      host signals, rescinds the channel or offers a subchannel.
    - [uio_hv_generic/hyperv_vmbus.h]: the VMBus core's structures and inline
      functions; [uio_hv_generic/hv_trace.h]: its trace points.
    - [Native/HvGin/Mile.HyperV/*.h]: the declarations of the hypervisor
      interface and of the VMBus protocols, compiled by GCC in the guest and by
      MSVC on the host.
    - [Native/HvGin/main.cpp], a library with two exported functions, and
      [HvGin/*.cs], the application that maps a device's rings and exchanges
      packets with the host on them.

    VMBus calls the driver, the driver calls [__uio_register_device],
    [uio_unregister_device] and [uio_event_notify] of the core, the core calls
    the driver back through the function pointers of its info ([open],
    [release], [irqcontrol]).  A host signal becomes an increment of the event
    counter and a wake-up; a read returns when the counter differs from the
    value the file saw last.

    ** How it is modelled

    A C function is a computation of the monad [K D] ([UioTypes]): it runs on a
    [world], the slab objects at their addresses, the infos, the files' private
    data, the globals, the state [D] of the driver and the history of kernel
    calls.  A dereference of an address with no object is [None], a fault.
    Pointers are addresses, so aliasing and use after free are visible.  A call
    to the kernel appends to the history and is answered by the class [Kernel],
    an arbitrary function of the history: allocation and every other fallible
    call may fail whenever the kernel likes.  What theorems need of the kernel's
    documented behaviour is [KernelOk] (fresh addresses, unused minor numbers in
    range) and, for VMBus, [HvKernelOk]; [Kernel.Sample] and [Scenario] satisfy
    them.  Reference counts, locks, interrupts, rings and GPADLs are ghost
    functions of the history ([dev_refs], [lock_depth], [gpadl_live], ...).

    The driver below the core is the class [UioDriver] and what the core relies
    on is [UioDriverOk]; the core is proved against the class, and [HvSpec] is
    its instance for [uio_hv_generic.c].

    A C integer is a [Z] with its wrap-around written out; the event counter
    wraps at 32 bits, addresses at 64.

    ** The files

    - [Kernel]: kernel calls, histories, ghost functions, [KernelOk], a sample.
      [UioTypes]: structures of [uio.c], memory, the monad, the driver class.
    - [UioAttr], [UioDevice], [UioFile], [UioMmap]: the functions of [uio.c], in
      the order of the file; [UioTables]: the structures through which the kernel
      reaches them.  [HypervVmbus]: the functions and enumerations of
      [hyperv_vmbus.h]; [HypervLayout]: its records.
      [HvUio]: the functions of [uio_hv_generic.c].  Labels reached by [goto]
      are functions named after the label.
    - [KLogic]: the weakest-precondition rules.  [UioInv]: the invariant
      [core_inv w F], [F] the open files, and the driver interface.  [UioSpec],
      [UioRead], [UioOpen], [UioAttrSpec], [UioReg]: a specification per
      operation.  [UioSystem]: sequences of operations from an empty system.
      [ModuleSpec]: loading and unloading, and what the operations do not leak.
      [UioEvents]: the service the core promises, as a transition system of devices
      with event counters and files with the count they saw; [UioAbstract]: the core
      implements it.  [CoreStep]: what registration leaves alone.  [HvSpec], [HvCallbacks],
      [HvProbe], [HvProbeSpec]: the driver's invariant and its operations.
      [HvSystem]: sequences of operations on a bound device; [HvAbstract]: their trace,
      in which a signal of the host is an event of the service.
      [VmbusSpec]: the map of allocated CPUs.  [Scenario]: a concrete system.
    - [UioWait]: the read loop, notification, unregistration and signals as
      single steps that interleave.  What the scheduler does to a task is the
      class [WaitQueue].
    - [CLayout], [CLayoutSpec], [CAccess]: the layout of C objects, with
      bit-fields, packing and unions, under the ABIs of GCC and MSVC; reading
      and writing members.  [GuestInterface], [GuestProtocols], [TlfsBase],
      [TlfsState], [TlfsPartition], [TlfsSymbols], [TlfsCpuid], [TlfsCalls],
      [VMBusDevices]: the declarations of the headers, one definition per
      record, enumeration, constant or macro, with its name in C.
      [Arm64]: what they declare for ARM64 where it differs; the other files are for
      x64.  [HeaderFacts]: tables of all of them and the decision procedures.
    - [HvTrace]: the trace events of [hv_trace.h]; [HvTraceProps]: their text
      (C37).
    - [Ring], [RingSpec]: [PushPipePacket] and [PopPipePacket] of the C#
      application.  [Native]: [main.cpp] over the answers of the C library.
    - [UioSysfs]: the directories registration leaves in sysfs.  [UserDevice]:
      finding and opening a device from user space ([UioHv.cs],
      [UioHvDevice.cs]); [UserSpec]: the attribute files of the UIO core as the
      file system it reads.  [SynthRdp]: the remote-desktop service; [SynthRdpLoop]: its
      loop, its two threads per connection, the host and the server as a state machine
      whose actions interleave.
    - [PosixHelpers]: [Mile.Helpers.CppBase.cpp].  [PortableTypes]: the portable
      type headers.  Their theorems are at the end of the files: integers read
      back from text, sizes rounded up, variable arguments read back.
    - [UioProps], [HvProps], [VmbusProps], [HeaderProps], [RingProps],
      [ProtocolProps], [UserProps], [InterruptProps], [RdpLoopProps], and the end of [UioWait]: the properties,
      numbered C1 to C40 in the order of importance, and for each one with
      hypotheses an instance in which they hold.

    ** What is shown

    - Safety of the system (C1): any sequence of operations from an
      empty core runs without a fault and keeps the invariant, with locks free and
      references balanced.
    - The core's life (C3): what loading acquires is given back by
      a failed load and by unloading, and no operation leaks memory in between.
    - The abstract specification (C2): every run of the core is, in what
      it answers, a run of an event service without memory, references or locks; so no
      event is lost or made up over any sequence of operations (C5).
    - All or nothing: open, registration, probe (C8,
      C12, C11), C32;
      what is acquired is given back: register and unregister, release
      (C7, C15).
    - The life of a VMBus device (C4): from probe to remove, whatever
      users and the host do in between.
    - Events: no wake-up of a notification is lost (C9),
      reads end (C10) and deliver (C14), the small
      steps and the function agree (C13), poll agrees with read
      (C16).
      The wake-up of unregistration can be lost (C35).
    - Hanging up: after unregistration and after a rescind files get -EIO, from poll as a mask
      (C20, C21).  Mappings stay inside
      their regions (C18, C19).
    - The driver: the ring is connected while a file is open
      (C17), every signal of the host is
      counted and read (C6), a signal that comes before the end of
      probe, on a device already open, faults (C36).  The map of allocated CPUs
      (C31).
    - Declarations: agreement of the two ABIs and its exceptions (C34),
      the sizes of messages, pages and hypercall inputs (C33); [HeaderProps]
      also has the records whose integer views are too short and whose sizes depend on
      the architecture, [ProtocolProps] the enumerators that share a value.
    - User space finds what the driver set up (C22): through
      registration, the attribute files and their parsing to the two rings.  What it
      writes to control interrupts reaches the channel (C38).  A signal of the host
      reaches the application and the channel is unmasked again (C23).
    - Rings: a queue (C24), a packet that fills the ring
      (C39).  The remote-desktop service: forwarding keeps the
      bytes and their order (C25), the exchange of versions
      (C30).  Its loop and its threads: what a client sends reaches
      the server (C26), its first packet patched or not
      (C29), what a closed connection still does
      (C27), what [Stop] waits for (C28).
      The native library: C40.

    ** Fuel and bounds

    [read_loop] takes fuel.  C10 shows that it suffices that the fuel exceeds by
    more than one the rank of the state, a measure the rest of the system lowers
    while the reader sleeps without an event: a reader to whom no event ever
    comes sleeps forever, in the model as in the kernel.  The walks along the
    channel lists are bounded by the length of the list.  The other loops
    recurse on the arrays of an info, whose lengths are [MAX_UIO_MAPS] and
    [MAX_UIO_PORT_REGIONS].  Layouts recurse on the type.  The loop of
    [GetDeviceInformation] over the directories of a device has fuel; C22
    shows that six passes are enough for a device of the driver.

    ** Parameters

    The kernel ([Kernel]), constants of its headers ([Uapi], with [UapiOk]) and
    of the VMBus headers ([HvApi], [HvApiOk]), the scheduler ([WaitQueue]), the
    C library ([stdio], [net] in [Native]), the kernel's printing of GUIDs
    ([Printk]) and of addresses ([FmtPaOk]), the file system and the memory
    behind an array of the C# application ([filesystem], [rdp_env]), the host at the other
    side of the rings ([Host], with [HostOk]).  None of that code is in the
    repository.

    ** Not modelled

    - The bodies of kernel functions, of the C and the .NET library.  A sleep in
      [uio_read] is the only point of [UioFile] where other code runs; [UioWait]
      has the interleavings of readers, notifiers and unregistration.
    - The prototypes of [hyperv_vmbus.h], whose bodies are in the VMBus core.
    - The parts of the portable type headers that detect the compiler and its
      annotations, and the reading of variable arguments through compiler builtins.
      For ARM64 the layout of GCC is taken to be that for x64; the two rules differ
      only in unnamed bit-fields, which here stand beside named ones of the same type.
    - The messages the kernel modules log ([dev_err], [dev_warn], [printk]), and those
      [main.cpp] and the C# application print.
    - Of the remote-desktop service: the bodies of the .NET socket and thread classes;
      a turn of a forwarding thread, from one test of [ShouldRunning] to the next, is one
      action, so two threads inside their turns on the same ring are not torn apart.
      Project and build files. *)

From stdpp Require Export base tactics numbers list gmap strings pretty.
From Stdlib Require Export ZArith Lia.

#[global] Open Scope Z_scope.
#[global] Set Default Proof Using "Type".

(** ** Machine integers

    A C integer is a [Z]; every place where the source relies on the width of
    a type writes the wrap-around out with one of these. *)

Definition u16 (z : Z) : Z := z mod 2 ^ 16.
Definition u32 (z : Z) : Z := z mod 2 ^ 32.
Definition u64 (z : Z) : Z := z mod 2 ^ 64.
Definition s32 (z : Z) : Z := (z + 2 ^ 31) mod 2 ^ 32 - 2 ^ 31.

(** [!x] of C. *)
Definition c_not (z : Z) : Z := if z =? 0 then 1 else 0.

(** [a + b] is the next number above [a] congruent to the sum: the width
    lemmas the components use. *)
Lemma s32_range z : - 2 ^ 31 <= s32 z < 2 ^ 31.
Proof. unfold s32. pose proof (Z.mod_pos_bound (z + 2 ^ 31) (2 ^ 32)). lia. Qed.

Lemma s32_id z : - 2 ^ 31 <= z < 2 ^ 31 -> s32 z = z.
Proof. intros. unfold s32. rewrite Z.mod_small; lia. Qed.

Lemma s32_eq_iff x y : s32 x = s32 y <-> (x - y) mod 2 ^ 32 = 0.
Proof.
  unfold s32. split; intros H.
  - replace (x - y) with ((x + 2 ^ 31) - (y + 2 ^ 31)) by lia.
    rewrite Zminus_mod. replace ((x + 2 ^ 31) mod 2 ^ 32) with ((y + 2 ^ 31) mod 2 ^ 32) by lia.
    rewrite Z.sub_diag. reflexivity.
  - apply Z.mod_divide in H; [|lia]. destruct H as [k Hk].
    replace (x + 2 ^ 31) with ((y + 2 ^ 31) + k * 2 ^ 32) by lia.
    rewrite Z.mod_add; lia.
Qed.

Lemma s32_add_l x y : s32 (s32 x + y) = s32 (x + y).
Proof.
  apply s32_eq_iff. unfold s32.
  pose proof (Z_div_mod_eq_full (x + 2 ^ 31) (2 ^ 32)) as E.
  replace ((x + 2 ^ 31) mod 2 ^ 32 - 2 ^ 31 + y - (x + y))
    with ((- ((x + 2 ^ 31) / 2 ^ 32)) * 2 ^ 32) by lia.
  apply Z.mod_mul. lia.
Qed.

Lemma u64_range z : 0 <= u64 z < 2 ^ 64.
Proof. apply Z.mod_pos_bound. lia. Qed.

Lemma u64_id z : 0 <= z < 2 ^ 64 -> u64 z = z.
Proof. apply Z.mod_small. Qed.

Lemma u32_range z : 0 <= u32 z < 2 ^ 32.
Proof. apply Z.mod_pos_bound. lia. Qed.

Lemma u32_id z : 0 <= z < 2 ^ 32 -> u32 z = z.
Proof. apply Z.mod_small. Qed.

Lemma c_not_bool z : c_not z = 0 \/ c_not z = 1.
Proof. unfold c_not. destruct (z =? 0); auto. Qed.

(** ** Error numbers (the Linux user-space ABI values) *)

Definition EINTR := 4.
Definition EIO := 5.
Definition EAGAIN := 11.
Definition ENOMEM := 12.
Definition EFAULT := 14.
Definition EEXIST := 17.
Definition ENODEV := 19.
Definition EINVAL := 22.
Definition ENOSPC := 28.
Definition ENOSYS := 38.
Definition ERESTARTSYS := 512.
Definition EPROBE_DEFER := 517.

(** An address; [NULL] is 0. *)
Definition NULL := 0.

(** ** printf pieces of the C library the source uses *)

Definition nl : string := String (Ascii.ascii_of_nat 10) EmptyString.

(** [%d], [%u] *)
Definition fmt_d (z : Z) : string := pretty z.

Definition hex_digit (d : Z) : Ascii.ascii :=
  Ascii.ascii_of_N (Z.to_N (if d <? 10 then 48 + d else 87 + d)).

Fixpoint hex_go (fuel : nat) (z : Z) (acc : string) : string :=
  match fuel with
  | O => acc
  | S f => let acc' := String (hex_digit (z mod 16)) acc in
           if z / 16 =? 0 then acc' else hex_go f (z / 16) acc'
  end.

(** [%lx], [%llx]: sixteen digits are enough for a 64-bit value. *)
Definition fmt_x (z : Z) : string := hex_go 16 z EmptyString.

(** ** Generic list lemmas *)

Lemma lookup_replicate_some {A} (x y : A) n i :
  replicate n x !! i = Some y -> y = x.
Proof. intros [-> _]%lookup_replicate. reflexivity. Qed.

(** ** Automation *)

(** Break the matches and tests of a hypothesis that runs a definition. *)
Ltac break_match_hyp :=
  match goal with
  | H : context [match ?x with _ => _ end] |- _ =>
      lazymatch x with
      | context [match _ with _ => _ end] => fail
      | _ => let E := fresh "E" in destruct x eqn:E
      end
  end.

Ltac break_match_goal :=
  match goal with
  | |- context [match ?x with _ => _ end] =>
      lazymatch x with
      | context [match _ with _ => _ end] => fail
      | _ => let E := fresh "E" in destruct x eqn:E
      end
  end.

(** Turn boolean comparisons on [Z] into propositions. *)
Ltac zify_bool :=
  repeat match goal with
  | H : (_ =? _) = true |- _ => apply Z.eqb_eq in H
  | H : (_ =? _) = false |- _ => apply Z.eqb_neq in H
  | H : (_ <? _) = true |- _ => apply Z.ltb_lt in H
  | H : (_ <? _) = false |- _ => apply Z.ltb_ge in H
  | H : (_ <=? _) = true |- _ => apply Z.leb_le in H
  | H : (_ <=? _) = false |- _ => apply Z.leb_gt in H
  | H : negb _ = true |- _ => apply negb_true_iff in H
  | H : negb _ = false |- _ => apply negb_false_iff in H
  | H : andb _ _ = true |- _ => apply andb_true_iff in H; destruct H
  | H : orb _ _ = false |- _ => apply orb_false_iff in H; destruct H
  end.
