(* ===== verification/Kernel.v ===== *)
(** * The kernel around the two modules

    Nothing of the Linux kernel is under [src/]; the modules call it through the
    functions listed in [kcall].  A kernel is a parameter of the whole
    development: any function that answers a call, given the history of the
    calls made before it.  [KernelOk] collects the documented behaviour some
    theorems rely on, stated on ghost functions of the history ([live],
    [idr_of], [dev_refs], [gpadl_live], ...), and [Sample] gives a concrete
    kernel that satisfies it. *)

From S2P Require Import Prelude.

(** ** Calls *)

Variant lock := MinorLock | InfoLock (idev : Z).
Variant task_state := TASK_RUNNING | TASK_INTERRUPTIBLE.
Variant fasync_band := POLL_IN | POLL_HUP.

(** The objects the modules allocate. *)
Variant obj := OUioDevice | OUioListener | OUioMap | OUioPortio | OHvPdata.

(** One constructor per kernel function the two files call; pointer arguments
    are addresses, callbacks are left out when they are fixed by the source. *)
Inductive kcall :=
(* slab and vmalloc *)
| Kzalloc (o : obj) | Kmalloc (o : obj) | Kfree (p : Z)
| Vzalloc (size : Z) | Vfree (p : Z) | DevmKzalloc (dev : Z)
(* locking, waiting, signalling *)
| MutexInit (l : lock) | MutexLock (l : lock) | MutexUnlock (l : lock)
| InitWaitqueueHead (idev : Z) | AddWaitQueue (idev : Z) | RemoveWaitQueue (idev : Z)
| WakeUpInterruptible (idev : Z) | KillFasync (idev : Z) (b : fasync_band)
| FasyncHelper (fd filep on idev : Z) | PollWait (filep idev : Z)
| SetCurrentState (s : task_state) | SignalPending | Schedule | VirtMb
(* user memory *)
| CopyToUser (v : Z) (count : Z) | CopyFromUser (count : Z)
(* kobjects, sysfs, device model *)
| KobjectCreateAndAdd (name : string) (parent : Z) | KobjectInit (p : Z)
| KobjectAdd (p parent : Z) (name : string) | KobjectUevent (p : Z) | KobjectPut (p : Z)
| SysfsCreateBinFile (kobj : Z) | SysfsRemoveBinFile (kobj : Z)
| DeviceInitialize (p : Z) | DevSetDrvdata (p d : Z) | DevGetDrvdata (p : Z)
| DevSetName (p : Z) (name : string)
| DeviceAdd (p : Z) | DeviceDel (p : Z) | DeviceUnregister (p : Z)
| GetDevice (p : Z) | PutDevice (p : Z)
| ClassRegister | ClassUnregister
| DevresAlloc | DevresFree (p : Z) | DevresAdd (parent p : Z)
(* modules, minors, character devices, interrupts *)
| TryModuleGet (m : Z) | ModulePut (m : Z)
| IdrAlloc (p lo hi : Z) | IdrFind (n : Z) | IdrRemove (n : Z) | IdrDestroy
| AllocChrdevRegion (base count : Z) | UnregisterChrdevRegion (dev count : Z)
| CdevSetOps (cdev : Z) (* cdev->owner and cdev->ops are set *)
| CdevAlloc | CdevAdd (cdev dev count : Z) | CdevDel (cdev : Z)
| KobjectSetName (p : Z) (name : string)
| RequestThreadedIrq (irq flags : Z) (name : string) (idev : Z) | FreeIrq (irq idev : Z)
(* memory management *)
| VmFlagsSet (vma : Z) | VirtToPage (a : Z) | VmallocToPage (a : Z) | GetPage (page : Z)
| PgprotNoncached (prot : Z) | RemapPfnRange (vma start pfn size prot : Z)
| DmaMmapCoherent (dev vma pgoff addr dma size : Z)
| VmIomapMemory (vma phys size : Z) | PageAddress (page : Z) | VirtToPhys (a : Z)
(* VMBus core; a store to the ring's interrupt mask is visible to the host *)
| StoreInterruptMask (ch v : Z)
| VmbusSetevent (ch : Z) | VmbusDeviceUnregister (dev : Z)
| VmbusOpen (ch send recv : Z) | VmbusClose (ch : Z) | SetChannelReadMode (ch mode : Z)
| VmbusSetRescindCallback (ch : Z) | VmbusSetScCreateCallback (ch : Z)
| VmbusConnectRing (ch : Z) | VmbusDisconnectRing (ch : Z)
| VmbusAllocRing (ch send recv : Z) | VmbusFreeRing (ch : Z)
| VmbusEstablishGpadl (ch buf size : Z) | VmbusTeardownGpadl (ch gpadl : Z)
| VmbusDriverRegister | VmbusDriverUnregister.

(** An answered call: the value returned, and the words the kernel stored
    through the call's output pointers. *)
Record event := Ev { ev_call : kcall; ev_ret : Z; ev_out : list Z }.

(** The calls made so far, newest first. *)
Abbreviation hist := (list event).

(** A kernel: how it answers a call after a history. *)
Class Kernel := {
  kernel : hist -> kcall -> Z;
  kernel_out : hist -> kcall -> list Z }.

(** ** Ghost functions of a history *)

(** Addresses handed out by the slab allocator and not given back. *)
Definition live_ev (e : event) (s : gset Z) : gset Z :=
  match ev_call e with
  | Kzalloc _ | Kmalloc _ | DevmKzalloc _ => if ev_ret e =? 0 then s else {[ev_ret e]} ∪ s
  | Kfree p => s ∖ {[p]}
  | _ => s
  end.

Definition live (h : hist) : gset Z := foldr live_ev ∅ h.

(** The same for [vzalloc], whose addresses are in a range of their own. *)
Definition vlive_ev (e : event) (s : gset Z) : gset Z :=
  match ev_call e with
  | Vzalloc _ => if ev_ret e =? 0 then s else {[ev_ret e]} ∪ s
  | Vfree p => s ∖ {[p]}
  | _ => s
  end.

Definition vlive (h : hist) : gset Z := foldr vlive_ev ∅ h.

(** The minor-number table behind [idr_alloc], [idr_find], [idr_remove]. *)
Definition idr_ev (e : event) (m : gmap Z Z) : gmap Z Z :=
  match ev_call e with
  | IdrAlloc p _ _ => if ev_ret e <? 0 then m else <[ev_ret e := p]> m
  | IdrRemove n => delete n m
  | IdrDestroy => ∅
  | _ => m
  end.

Definition idr_of (h : hist) : gmap Z Z := foldr idr_ev ∅ h.

(** The driver data of each device. *)
Definition drvdata_ev (e : event) (m : gmap Z Z) : gmap Z Z :=
  match ev_call e with
  | DevSetDrvdata p d => <[p := d]> m
  | _ => m
  end.

Definition drvdata_of (h : hist) : gmap Z Z := foldr drvdata_ev ∅ h.

(** A counter kept by matching calls: [delta e] is what one event adds. *)
Definition count_of (delta : event -> Z) (h : hist) : Z :=
  foldr (fun e n => delta e + n) 0 h.

(** References on the [struct device] at [p]. *)
Definition dev_delta (p : Z) (e : event) : Z :=
  match ev_call e with
  | DeviceInitialize q | GetDevice q => if q =? p then 1 else 0
  | PutDevice q | DeviceUnregister q => if q =? p then -1 else 0
  | _ => 0
  end.
Definition dev_refs (p : Z) : hist -> Z := count_of (dev_delta p).

(** References on module [m]. *)
Definition mod_delta (m : Z) (e : event) : Z :=
  match ev_call e with
  | TryModuleGet n => if (n =? m) && negb (ev_ret e =? 0) then 1 else 0
  | ModulePut n => if n =? m then -1 else 0
  | _ => 0
  end.
Definition mod_refs (m : Z) : hist -> Z := count_of (mod_delta m).

(** How often a lock is held. *)
#[global] Instance lock_eq_dec : EqDecision lock.
Proof. solve_decision. Defined.

Definition lock_delta (l : lock) (e : event) : Z :=
  match ev_call e with
  | MutexLock l' => if decide (l' = l) then 1 else 0
  | MutexUnlock l' => if decide (l' = l) then -1 else 0
  | _ => 0
  end.
Definition lock_depth (l : lock) : hist -> Z := count_of (lock_delta l).

(** Entries on the wait queue of a device. *)
Definition waitq_delta (p : Z) (e : event) : Z :=
  match ev_call e with
  | AddWaitQueue q => if q =? p then 1 else 0
  | RemoveWaitQueue q => if q =? p then -1 else 0
  | _ => 0
  end.
Definition waitq_len (p : Z) : hist -> Z := count_of (waitq_delta p).

(** References on the kobject at [p], [p] not NULL ([kobject_put(NULL)] does
    nothing). *)
Definition kobj_delta (p : Z) (e : event) : Z :=
  match ev_call e with
  | KobjectInit q => if q =? p then 1 else 0
  | KobjectCreateAndAdd _ _ => if ev_ret e =? p then 1 else 0
  | KobjectPut q => if q =? p then -1 else 0
  | _ => 0
  end.
Definition kobj_refs (p : Z) : hist -> Z := count_of (kobj_delta p).

(** A name of the device model that is added and deleted: [device_add] and
    [device_del] ([device_unregister] deletes too). *)
Definition dev_added_delta (p : Z) (e : event) : Z :=
  match ev_call e with
  | DeviceAdd q => if (q =? p) && (ev_ret e =? 0) then 1 else 0
  | DeviceDel q | DeviceUnregister q => if q =? p then -1 else 0
  | _ => 0
  end.
Definition dev_added (p : Z) : hist -> Z := count_of (dev_added_delta p).

(** Interrupt lines requested for [idev] and not freed. *)
Definition irq_delta (p : Z) (e : event) : Z :=
  match ev_call e with
  | RequestThreadedIrq _ _ _ q => if (q =? p) && (ev_ret e =? 0) then 1 else 0
  | FreeIrq _ q => if q =? p then -1 else 0
  | _ => 0
  end.
Definition irq_held (p : Z) : hist -> Z := count_of (irq_delta p).

(** VMBus resources of a channel: the ring, the connection on it, the GPADLs. *)
Definition ring_delta (ch : Z) (e : event) : Z :=
  match ev_call e with
  | VmbusAllocRing c _ _ => if (c =? ch) && (ev_ret e =? 0) then 1 else 0
  | VmbusFreeRing c => if c =? ch then -1 else 0
  | _ => 0
  end.
Definition ring_allocated (ch : Z) : hist -> Z := count_of (ring_delta ch).

Definition conn_delta (ch : Z) (e : event) : Z :=
  match ev_call e with
  | VmbusConnectRing c => if (c =? ch) && (ev_ret e =? 0) then 1 else 0
  | VmbusDisconnectRing c => if c =? ch then -1 else 0
  | _ => 0
  end.
Definition ring_connected (ch : Z) : hist -> Z := count_of (conn_delta ch).

Definition gpadl_delta (ch : Z) (e : event) : Z :=
  match ev_call e with
  | VmbusEstablishGpadl c _ _ => if (c =? ch) && (ev_ret e =? 0) then 1 else 0
  | VmbusTeardownGpadl c _ => if c =? ch then -1 else 0
  | _ => 0
  end.
Definition gpadl_live (ch : Z) : hist -> Z := count_of (gpadl_delta ch).

(** ** Lemmas on counters *)

Lemma count_of_app d h1 h2 : count_of d (h1 ++ h2) = count_of d h1 + count_of d h2.
Proof. induction h1 as [|e h1 IH]; simpl; [reflexivity|]. rewrite IH. lia. Qed.

Lemma count_of_cons d e h : count_of d (e :: h) = d e + count_of d h.
Proof. reflexivity. Qed.

Lemma count_of_zero d h : Forall (fun e => d e = 0) h -> count_of d h = 0.
Proof. induction 1 as [|e h He _ IH]; simpl; [reflexivity|]. rewrite He, IH. lia. Qed.

(** ** Documented behaviour *)

Definition is_alloc (c : kcall) : Prop :=
  match c with Kzalloc _ | Kmalloc _ | DevmKzalloc _ => True | _ => False end.

Class KernelOk `{Kernel} := {
  (** An allocator returns NULL or an address that is not in use. *)
  alloc_fresh h c : is_alloc c -> kernel h c = 0 \/ (0 < kernel h c /\ kernel h c ∉ live h);
  vzalloc_fresh h n : kernel h (Vzalloc n) = 0 \/ (0 < kernel h (Vzalloc n) /\ kernel h (Vzalloc n) ∉ vlive h);
  (** [idr_alloc] returns an unused number of the range, or an error. *)
  idr_alloc_spec h p lo hi :
    (lo <= kernel h (IdrAlloc p lo hi) < hi /\ idr_of h !! kernel h (IdrAlloc p lo hi) = None)
    \/ -4095 <= kernel h (IdrAlloc p lo hi) < 0;
  (** [idr_find] returns the pointer stored under the number, or NULL. *)
  idr_find_spec h n : kernel h (IdrFind n) = default 0 (idr_of h !! n);
  (** [dev_get_drvdata] returns what [dev_set_drvdata] stored, or NULL. *)
  drvdata_spec h p : kernel h (DevGetDrvdata p) = default 0 (drvdata_of h !! p) }.

(** ** A concrete kernel

    Every call succeeds; an allocation returns one more than every live
    address; [idr_alloc] returns the first number above every used one.
    [fault h c] lets a caller override an answer. *)
Module Sample.

Definition max_of (l : list Z) : Z := foldr Z.max 0 l.
Definition next_addr (h : hist) : Z := max_of (elements (live h)) + 1.
Definition next_vaddr (h : hist) : Z := Z.max 3000000 (max_of (elements (vlive h)) + 1).
Definition next_id (h : hist) (lo : Z) : Z :=
  Z.max lo (max_of (map_to_list (idr_of h)).*1 + 1).

Definition sample_answer (h : hist) (c : kcall) : Z :=
  match c with
  | Kzalloc _ | Kmalloc _ | DevmKzalloc _ => next_addr h
  | Vzalloc _ => next_vaddr h
  | KobjectCreateAndAdd _ _ => next_addr h + 1000000
  | CdevAlloc => 77
  | DevresAlloc => 88
  | TryModuleGet _ => 1
  | IdrAlloc _ lo hi => if next_id h lo <? hi then next_id h lo else - ENOSPC
  | IdrFind n => default 0 (idr_of h !! n)
  | DevGetDrvdata p => default 0 (drvdata_of h !! p)
  | _ => 0
  end.

Lemma max_of_ge l x : x ∈ l -> x <= max_of l.
Proof.
  induction l as [|y l IH]; intros Hx; [by apply not_elem_of_nil in Hx|].
  simpl. apply elem_of_cons in Hx as [->|Hx]; [lia|]. specialize (IH Hx). lia.
Qed.

Lemma max_of_nonneg l : 0 <= max_of l.
Proof. induction l; simpl; lia. Qed.

Lemma next_addr_fresh h : 0 < next_addr h /\ next_addr h ∉ live h.
Proof.
  unfold next_addr. split; [pose proof (max_of_nonneg (elements (live h))); lia|].
  intros Hin%elem_of_elements%max_of_ge. lia.
Qed.

Lemma next_vaddr_fresh h : 0 < next_vaddr h /\ next_vaddr h ∉ vlive h.
Proof.
  unfold next_vaddr. split; [lia|]. intros Hin%elem_of_elements%max_of_ge. lia.
Qed.

Lemma next_id_fresh h lo : lo <= next_id h lo /\ idr_of h !! next_id h lo = None.
Proof.
  unfold next_id. split; [lia|].
  destruct (idr_of h !! _) as [p|] eqn:E; [|reflexivity]. exfalso.
  apply elem_of_map_to_list in E.
  apply (list_elem_of_fmap_2 fst) in E. apply max_of_ge in E. simpl in E. lia.
Qed.

(** The sample kernel with chosen answers overridden. *)
Definition sample_kernel (fault : hist -> kcall -> option Z) (out : hist -> kcall -> list Z) : Kernel :=
  {| kernel h c := default (sample_answer h c) (fault h c); kernel_out := out |}.

(** Overrides that stay within the documented behaviour. *)
Definition fault_ok (fault : hist -> kcall -> option Z) : Prop :=
  forall h c r, fault h c = Some r ->
    match c with
    | Kzalloc _ | Kmalloc _ | Vzalloc _ | DevmKzalloc _ => r = 0
    | IdrAlloc _ _ _ => -4095 <= r < 0
    | IdrFind _ | DevGetDrvdata _ => False
    | _ => True
    end.

Lemma sample_kernel_ok fault out : fault_ok fault -> @KernelOk (sample_kernel fault out).
Proof.
  intros Hf. split; simpl.
  - intros h c Hc. destruct (fault h c) as [r|] eqn:E; simpl.
    + specialize (Hf _ _ _ E). destruct c; try done; auto.
    + right. destruct c; try done; apply next_addr_fresh.
  - intros h n. destruct (fault h _) as [r|] eqn:E; simpl; [|right; apply next_vaddr_fresh].
    left. exact (Hf _ _ _ E).
  - intros h p lo hi. destruct (fault h _) as [r|] eqn:E; simpl.
    + right. exact (Hf _ _ _ E).
    + pose proof (next_id_fresh h lo) as [H1 H2].
      destruct (next_id h lo <? hi) eqn:Hlt; zify_bool; [left; auto|right; unfold ENOSPC; lia].
  - intros h n. destruct (fault h _) as [r|] eqn:E; simpl; [|reflexivity].
    destruct (Hf _ _ _ E).
  - intros h p. destruct (fault h _) as [r|] eqn:E; simpl; [|reflexivity].
    destruct (Hf _ _ _ E).
Qed.

(** No override at all. *)
Definition no_fault (h : hist) (c : kcall) : option Z := None.
Definition no_out (h : hist) (c : kcall) : list Z := [].

Lemma no_fault_ok : fault_ok no_fault.
Proof. intros h c r H. discriminate H. Qed.

End Sample.
