(* ===== verification/UioTypes.v ===== *)
(** * Data of the UIO core and the monad its functions run in

    The structures of [uio_hv_generic/uio.c] (and the fields of the structures
    of [<linux/uio_driver.h>] the file uses), the memory the functions work on,
    and a state monad in which an access to memory that is not there is a
    failure ([None], a kernel oops), never a default value. *)

From S2P Require Import Prelude Kernel.

(** ** Virtual memory areas *)

Variant vm_operations := VmOpsNone | uio_logical_vm_ops | uio_physical_vm_ops.

(** [struct vm_area_struct], as far as the core uses it. *)
Record vma := Vma {
  vma_id : Z; vm_start : Z; vm_end : Z; vm_pgoff : Z; vm_private_data : Z;
  vm_ops : vm_operations; vm_page_prot : Z }.

(** ** Constants of kernel headers the two files use *)

Class Uapi := {
  PAGE_SHIFT : Z;
  MINORBITS : Z;
  MAX_UIO_MAPS : nat;
  MAX_UIO_PORT_REGIONS : nat;
  UIO_PORT_OTHER : Z;
  UIO_IRQ_CUSTOM : Z;
  (** the text [%pa] prints for a physical address *)
  fmt_pa : Z -> string;
  (** [vma_pages] of [<linux/mm.h>] *)
  vma_pages : vma -> Z }.

Definition PAGE_SIZE `{Uapi} : Z := Z.shiftl 1 PAGE_SHIFT.

(** What the headers say about these constants. *)
Class UapiOk `{Uapi} := {
  page_shift_ok : 0 < PAGE_SHIFT < 64;
  minorbits_ok : 0 <= MINORBITS < 32;
  port_other_ok : 0 <= UIO_PORT_OTHER < 4;
  irq_custom_ok : UIO_IRQ_CUSTOM < 0;
  max_maps_ok : MAX_UIO_MAPS = 5%nat;
  vma_pages_ok v : vma_pages v = Z.shiftr (u64 (vm_end v - vm_start v)) PAGE_SHIFT }.

(** [UIO_MEM_*]; any other value of the field is [UIO_MEM_OTHER]. *)
Variant memtype :=
| UIO_MEM_NONE | UIO_MEM_PHYS | UIO_MEM_LOGICAL | UIO_MEM_VIRTUAL | UIO_MEM_IOVA
| UIO_MEM_DMA_COHERENT | UIO_MEM_OTHER (n : Z).

#[global] Instance memtype_eq_dec : EqDecision memtype.
Proof. solve_decision. Defined.

(** ** Structures *)

Record uio_mem := UioMem {
  m_name : option string; m_addr : Z; m_dma_addr : Z; m_offs : Z; m_size : Z;
  m_memtype : memtype; m_dma_device : Z; m_map : Z }.

Record uio_port := UioPort {
  p_name : option string; p_start : Z; p_size : Z; p_porttype : Z; p_portio : Z }.

(** Function pointers are addresses; 0 is a missing callback. *)
Record uio_info := UioInfo {
  i_uio_dev : Z; i_name : option string; i_version : option string;
  i_mem : list uio_mem; i_port : list uio_port;
  i_irq : Z; i_irq_flags : Z;
  i_handler : Z; i_mmap : Z; i_open : Z; i_release : Z; i_irqcontrol : Z; i_priv : Z }.

(** [struct uio_device]; [d_info] is NULL (0) once unregistered. *)
Record uio_device := UioDevice {
  d_owner : Z; d_info : Z; d_minor : Z; d_event : Z; d_map_dir : Z; d_portio_dir : Z;
  d_devt : Z; d_parent : Z }.

Record uio_listener := UioListener { l_dev : Z; l_event_count : Z }.

(** [struct uio_map] and [struct uio_portio] point at an entry of the
    [mem] / [port] array of an info. *)
Record uio_map := UioMap { map_mem : Z * nat }.
Record uio_portio := UioPortio { portio_port : Z * nat }.

(** The file-scope variables of uio.c. *)
Record uio_globals := UioGlobals {
  g_uio_major : Z; g_uio_cdev : Z; g_uio_class_registered : bool }.

(** ** Memory

    The slab objects the core allocates live in one heap, so that an address
    denotes one object; the infos belong to the driver; [w_priv] is
    [filep->private_data]; [w_drv] is the state of the driver behind the
    callbacks. *)
Variant hobj :=
| HIdev (d : uio_device) | HLsn (l : uio_listener)
| HMap (m : uio_map) | HPortio (q : uio_portio).

Record world (D : Type) := World {
  w_heap : gmap Z hobj; w_info : gmap Z uio_info; w_priv : gmap Z Z;
  w_glob : uio_globals; w_drv : D; w_hist : hist }.
Arguments World {D}. Arguments w_heap {D}. Arguments w_info {D}. Arguments w_priv {D}.
Arguments w_glob {D}. Arguments w_drv {D}. Arguments w_hist {D}.

Section updates.
Context {D : Type}.
Implicit Types w : world D.
Definition set_heap f w := World (f (w_heap w)) (w_info w) (w_priv w) (w_glob w) (w_drv w) (w_hist w).
Definition set_info f w := World (w_heap w) (f (w_info w)) (w_priv w) (w_glob w) (w_drv w) (w_hist w).
Definition set_priv f w := World (w_heap w) (w_info w) (f (w_priv w)) (w_glob w) (w_drv w) (w_hist w).
Definition set_glob f w := World (w_heap w) (w_info w) (w_priv w) (f (w_glob w)) (w_drv w) (w_hist w).
Definition set_drv (f : D -> D) w := World (w_heap w) (w_info w) (w_priv w) (w_glob w) (f (w_drv w)) (w_hist w).
Definition set_hist f w := World (w_heap w) (w_info w) (w_priv w) (w_glob w) (w_drv w) (f (w_hist w)).
End updates.

Definition as_idev (o : option hobj) : option uio_device :=
  match o with Some (HIdev d) => Some d | _ => None end.
Definition as_lsn (o : option hobj) : option uio_listener :=
  match o with Some (HLsn l) => Some l | _ => None end.
Definition as_map (o : option hobj) : option uio_map :=
  match o with Some (HMap m) => Some m | _ => None end.
Definition as_portio (o : option hobj) : option uio_portio :=
  match o with Some (HPortio q) => Some q | _ => None end.

(** Field updates of the structures. *)
Definition upd_event f d := UioDevice (d_owner d) (d_info d) (d_minor d) (f (d_event d)) (d_map_dir d) (d_portio_dir d) (d_devt d) (d_parent d).
Definition upd_dinfo i d := UioDevice (d_owner d) i (d_minor d) (d_event d) (d_map_dir d) (d_portio_dir d) (d_devt d) (d_parent d).
Definition upd_minor m d := UioDevice (d_owner d) (d_info d) m (d_event d) (d_map_dir d) (d_portio_dir d) (d_devt d) (d_parent d).
Definition upd_map_dir p d := UioDevice (d_owner d) (d_info d) (d_minor d) (d_event d) p (d_portio_dir d) (d_devt d) (d_parent d).
Definition upd_portio_dir p d := UioDevice (d_owner d) (d_info d) (d_minor d) (d_event d) (d_map_dir d) p (d_devt d) (d_parent d).
Definition upd_dev t q d := UioDevice (d_owner d) (d_info d) (d_minor d) (d_event d) (d_map_dir d) (d_portio_dir d) t q.
Definition upd_mmap m (x : uio_mem) := UioMem (m_name x) (m_addr x) (m_dma_addr x) (m_offs x) (m_size x) (m_memtype x) (m_dma_device x) m.
Definition upd_mname n (x : uio_mem) := UioMem n (m_addr x) (m_dma_addr x) (m_offs x) (m_size x) (m_memtype x) (m_dma_device x) (m_map x).
Definition upd_pportio q (x : uio_port) := UioPort (p_name x) (p_start x) (p_size x) (p_porttype x) q.
Definition upd_pname n (x : uio_port) := UioPort n (p_start x) (p_size x) (p_porttype x) (p_portio x).
Definition upd_uio_dev p i := UioInfo p (i_name i) (i_version i) (i_mem i) (i_port i) (i_irq i) (i_irq_flags i) (i_handler i) (i_mmap i) (i_open i) (i_release i) (i_irqcontrol i) (i_priv i).
Definition upd_mem f i := UioInfo (i_uio_dev i) (i_name i) (i_version i) (f (i_mem i)) (i_port i) (i_irq i) (i_irq_flags i) (i_handler i) (i_mmap i) (i_open i) (i_release i) (i_irqcontrol i) (i_priv i).
Definition upd_port f i := UioInfo (i_uio_dev i) (i_name i) (i_version i) (i_mem i) (f (i_port i)) (i_irq i) (i_irq_flags i) (i_handler i) (i_mmap i) (i_open i) (i_release i) (i_irqcontrol i) (i_priv i).
Definition upd_irq q i := UioInfo (i_uio_dev i) (i_name i) (i_version i) (i_mem i) (i_port i) q (i_irq_flags i) (i_handler i) (i_mmap i) (i_open i) (i_release i) (i_irqcontrol i) (i_priv i).

(** ** The monad *)

Definition K (D A : Type) : Type := world D -> option (A * world D).

#[global] Instance K_ret D : MRet (K D) := fun A a w => Some (a, w).
#[global] Instance K_bind D : MBind (K D) :=
  fun A B f m w => match m w with Some (a, w') => f a w' | None => None end.

Section primitives.
Context `{Kernel} {D : Type}.
Implicit Types w : world D.

(** A memory fault. *)
Definition oops {A} : K D A := fun _ => None.

(** Call the kernel. *)
Definition call_out (c : kcall) : K D (Z * list Z) := fun w =>
  let r := kernel (w_hist w) c in let o := kernel_out (w_hist w) c in
  Some ((r, o), set_hist (cons (Ev c r o)) w).
Definition call (c : kcall) : K D Z := ro ← call_out c; mret (fst ro).
Definition do_ (c : kcall) : K D unit := _ ← call_out c; mret tt.

Definition gets {A} (f : world D -> A) : K D A := fun w => Some (f w, w).
Definition modify (f : world D -> world D) : K D unit := fun w => Some (tt, f w).

(** Dereference. *)
Definition get_some {A} (f : world D -> option A) : K D A := fun w =>
  match f w with Some a => Some (a, w) | None => None end.
Definition load_idev (p : Z) : K D uio_device := get_some (fun w => as_idev (w_heap w !! p)).
Definition load_info (p : Z) : K D uio_info := get_some (fun w => w_info w !! p).
Definition load_lsn (p : Z) : K D uio_listener := get_some (fun w => as_lsn (w_heap w !! p)).
Definition load_map (p : Z) : K D uio_map := get_some (fun w => as_map (w_heap w !! p)).
Definition load_portio (p : Z) : K D uio_portio := get_some (fun w => as_portio (w_heap w !! p)).
Definition load_priv (f : Z) : K D Z := get_some (fun w => w_priv w !! f).

(** Read-modify-write through a pointer. *)
Definition mod_idev (p : Z) (f : uio_device -> uio_device) : K D unit :=
  d ← load_idev p; modify (set_heap (insert p (HIdev (f d)))).
Definition mod_info (p : Z) (f : uio_info -> uio_info) : K D unit :=
  i ← load_info p; modify (set_info (insert p (f i))).
Definition mod_lsn (p : Z) (f : uio_listener -> uio_listener) : K D unit :=
  l ← load_lsn p; modify (set_heap (insert p (HLsn (f l)))).

(** Initialise a freshly allocated object. *)
Definition init_obj (p : Z) (o : hobj) : K D unit := modify (set_heap (insert p o)).

(** [kfree]: nothing for NULL, a fault for an address that is not allocated. *)
Definition kfree (p : Z) : K D unit :=
  if p =? NULL then do_ (Kfree p) else
  _ ← get_some (fun w => w_heap w !! p);
  do_ (Kfree p);; modify (set_heap (delete p)).
End primitives.

(** A result computed without touching memory. *)
Definition run {D A} (m : K D A) (w : world D) : option (A * world D) := m w.

(** ** The driver below the core

    What the core calls through the function pointers of an info.  The frame
    law says that a callback keeps the core's memory and only makes calls the
    core's counters do not see. *)

Variant irqreturn := IRQ_NONE | IRQ_HANDLED | IRQ_WAKE_THREAD.

#[global] Instance irqreturn_eq_dec : EqDecision irqreturn.
Proof. solve_decision. Defined.

Class UioDriver (D : Type) := {
  drv_open : Z -> Z -> Z -> K D Z;
  drv_release : Z -> Z -> Z -> K D Z;
  drv_irqcontrol : Z -> Z -> Z -> K D Z;
  drv_mmap : Z -> Z -> vma -> K D (Z * vma);
  drv_handler : Z -> Z -> Z -> K D irqreturn }.
