(* ===== verification/UioAttr.v ===== *)
(** * Sysfs attributes of a UIO device ([uio.c], lines 39 to 400)

    The show functions of the [maps/mapN], [portio/portN] and device
    attributes, and the two functions that create and remove the [mapN] and
    [portN] directories with their error paths. *)

From S2P Require Import Prelude Kernel UioTypes.

Section attr.
Context `{Kernel, Uapi} {D : Type}.

(** [sprintf(buf, ...)]: the length returned and the text stored. *)
Definition sprintf (s : string) : Z * string := (Z.of_nat (String.length s), s).
(** A negative return; the buffer is not written. *)
Definition show_err (e : Z) : Z * string := (- e, EmptyString).

(** [struct uio_mem *]: an info and an index into its [mem] array. *)
Definition load_mem (p : Z * nat) : K D uio_mem :=
  i ← load_info (fst p); get_some (fun _ => i_mem i !! snd p).
Definition mod_mem (p : Z * nat) (f : uio_mem -> uio_mem) : K D unit :=
  m ← load_mem p; mod_info (fst p) (upd_mem (insert (snd p) (f m))).
Definition load_port (p : Z * nat) : K D uio_port :=
  i ← load_info (fst p); get_some (fun _ => i_port i !! snd p).
Definition mod_port (p : Z * nat) (f : uio_port -> uio_port) : K D unit :=
  m ← load_port p; mod_info (fst p) (upd_port (insert (snd p) (f m))).

Definition c_string (o : option string) : string := default "(null)" o.

(** ** maps *)

Definition map_name_show (mem : Z * nat) : K D (Z * string) :=
  m ← load_mem mem;
  (match m_name m with
   | None => mod_mem mem (upd_mname (Some EmptyString))
   | Some _ => mret tt
   end);;
  m ← load_mem mem;
  mret (sprintf (c_string (m_name m) +:+ nl)).

Definition map_addr_show (mem : Z * nat) : K D (Z * string) :=
  m ← load_mem mem; mret (sprintf (fmt_pa (m_addr m) +:+ nl)).

Definition map_size_show (mem : Z * nat) : K D (Z * string) :=
  m ← load_mem mem; mret (sprintf (fmt_pa (m_size m) +:+ nl)).

Definition map_offset_show (mem : Z * nat) : K D (Z * string) :=
  m ← load_mem mem; mret (sprintf ("0x" +:+ fmt_x (u64 (m_offs m)) +:+ nl)).

(** [struct map_sysfs_entry]; [store] is NULL in every entry. *)
Record map_sysfs_entry := MapEntry {
  me_name : string; me_show : option (Z * nat -> K D (Z * string)) }.

Definition name_attribute := MapEntry "name" (Some map_name_show).
Definition addr_attribute := MapEntry "addr" (Some map_addr_show).
Definition size_attribute := MapEntry "size" (Some map_size_show).
Definition offset_attribute := MapEntry "offset" (Some map_offset_show).

Definition map_attrs : list map_sysfs_entry :=
  [name_attribute; addr_attribute; size_attribute; offset_attribute].

Definition map_release (kobj : Z) : K D unit :=
  _ ← load_map kobj; kfree kobj.

Definition map_type_show (kobj : Z) (entry : map_sysfs_entry) : K D (Z * string) :=
  map ← load_map kobj;
  let mem := map_mem map in
  match me_show entry with
  | None => mret (show_err EIO)
  | Some show => show mem
  end.

(** ** portio *)

Definition portio_name_show (port : Z * nat) : K D (Z * string) :=
  p ← load_port port;
  (match p_name p with
   | None => mod_port port (upd_pname (Some EmptyString))
   | Some _ => mret tt
   end);;
  p ← load_port port;
  mret (sprintf (c_string (p_name p) +:+ nl)).

Definition portio_start_show (port : Z * nat) : K D (Z * string) :=
  p ← load_port port; mret (sprintf ("0x" +:+ fmt_x (u64 (p_start p)) +:+ nl)).

Definition portio_size_show (port : Z * nat) : K D (Z * string) :=
  p ← load_port port; mret (sprintf ("0x" +:+ fmt_x (u64 (p_size p)) +:+ nl)).

Definition porttypes : list string := ["none"; "x86"; "gpio"; "other"].

Definition portio_porttype_show (port : Z * nat) : K D (Z * string) :=
  p ← load_port port;
  if (p_porttype p <? 0) || (p_porttype p >? UIO_PORT_OTHER) then mret (show_err EINVAL) else
  t ← get_some (fun _ => porttypes !! Z.to_nat (p_porttype p));
  mret (sprintf ("port_" +:+ t +:+ nl)).

Record portio_sysfs_entry := PortioEntry {
  pe_name : string; pe_show : option (Z * nat -> K D (Z * string)) }.

Definition portio_name_attribute := PortioEntry "name" (Some portio_name_show).
Definition portio_start_attribute := PortioEntry "start" (Some portio_start_show).
Definition portio_size_attribute := PortioEntry "size" (Some portio_size_show).
Definition portio_porttype_attribute := PortioEntry "porttype" (Some portio_porttype_show).

Definition portio_attrs : list portio_sysfs_entry :=
  [portio_name_attribute; portio_start_attribute; portio_size_attribute; portio_porttype_attribute].

Definition portio_release (kobj : Z) : K D unit :=
  _ ← load_portio kobj; kfree kobj.

Definition portio_type_show (kobj : Z) (entry : portio_sysfs_entry) : K D (Z * string) :=
  portio ← load_portio kobj;
  let port := portio_port portio in
  match pe_show entry with
  | None => mret (show_err EIO)
  | Some show => show port
  end.

(** ** Device attributes *)

Definition name_show (dev : Z) : K D (Z * string) :=
  idev ← call (DevGetDrvdata dev);
  do_ (MutexLock (InfoLock idev));;
  d ← load_idev idev;
  ret ← (if d_info d =? NULL then mret (show_err EINVAL)
         else i ← load_info (d_info d); mret (sprintf (c_string (i_name i) +:+ nl)));
  do_ (MutexUnlock (InfoLock idev));;
  mret ret.

Definition version_show (dev : Z) : K D (Z * string) :=
  idev ← call (DevGetDrvdata dev);
  do_ (MutexLock (InfoLock idev));;
  d ← load_idev idev;
  ret ← (if d_info d =? NULL then mret (show_err EINVAL)
         else i ← load_info (d_info d); mret (sprintf (c_string (i_version i) +:+ nl)));
  do_ (MutexUnlock (InfoLock idev));;
  mret ret.

Definition event_show (dev : Z) : K D (Z * string) :=
  idev ← call (DevGetDrvdata dev);
  d ← load_idev idev;
  mret (sprintf (fmt_d (u32 (d_event d)) +:+ nl)).

Definition uio_attrs : list (string * (Z -> K D (Z * string))) :=
  [("name", name_show); ("version", version_show); ("event", event_show)].

(** ** Creating the attribute directories *)

(** How a loop of [uio_dev_add_attributes] ends: it fell through (with the
    value of the loop variable), or jumped to [err_map]/[err_portio] (the
    object of this index does not exist) or to the [_kobj] label after it
    (it exists). *)
Inductive attr_exit :=
| AttrDone (k : nat)
| GotoErr (k : nat) (ret : Z)
| GotoErrKobj (k : nat) (ret : Z).

(** [for (mi = 0; mi < MAX_UIO_MAPS; mi++)], [n] iterations left. *)
Fixpoint add_maps (n mi : nat) (map_found : bool) (idev : Z) : K D attr_exit :=
  match n with
  | O => mret (AttrDone mi)
  | S n' =>
      d ← load_idev idev;
      let mem := (d_info d, mi) in
      m ← load_mem mem;
      if m_size m =? 0 then mret (AttrDone mi) else
      dir_ok ← (if map_found then mret true else
                dir ← call (KobjectCreateAndAdd "maps" idev);
                mod_idev idev (upd_map_dir dir);;
                mret (negb (dir =? NULL)));
      if negb dir_ok then mret (GotoErr mi (- ENOMEM)) else
      map ← call (Kzalloc OUioMap);
      if map =? NULL then mret (GotoErr mi (- ENOMEM)) else
      do_ (KobjectInit map);;
      init_obj map (HMap (UioMap mem));;
      mod_mem mem (upd_mmap map);;
      d ← load_idev idev;
      ret ← call (KobjectAdd map (d_map_dir d) ("map" +:+ fmt_d (Z.of_nat mi)));
      if negb (ret =? 0) then mret (GotoErrKobj mi ret) else
      ret ← call (KobjectUevent map);
      if negb (ret =? 0) then mret (GotoErrKobj mi ret) else
      add_maps n' (S mi) true idev
  end.

(** [for (pi = 0; pi < MAX_UIO_PORT_REGIONS; pi++)] *)
Fixpoint add_ports (n pi : nat) (portio_found : bool) (idev : Z) : K D attr_exit :=
  match n with
  | O => mret (AttrDone pi)
  | S n' =>
      d ← load_idev idev;
      let port := (d_info d, pi) in
      p ← load_port port;
      if p_size p =? 0 then mret (AttrDone pi) else
      dir_ok ← (if portio_found then mret true else
                dir ← call (KobjectCreateAndAdd "portio" idev);
                mod_idev idev (upd_portio_dir dir);;
                mret (negb (dir =? NULL)));
      if negb dir_ok then mret (GotoErr pi (- ENOMEM)) else
      portio ← call (Kzalloc OUioPortio);
      if portio =? NULL then mret (GotoErr pi (- ENOMEM)) else
      do_ (KobjectInit portio);;
      init_obj portio (HPortio (UioPortio port));;
      mod_port port (upd_pportio portio);;
      d ← load_idev idev;
      ret ← call (KobjectAdd portio (d_portio_dir d) ("port" +:+ fmt_d (Z.of_nat pi)));
      if negb (ret =? 0) then mret (GotoErrKobj pi ret) else
      ret ← call (KobjectUevent portio);
      if negb (ret =? 0) then mret (GotoErrKobj pi ret) else
      add_ports n' (S pi) true idev
  end.

(** The clean-up loops: entries [n - 1] down to 0. *)
Fixpoint put_maps (n : nat) (idev : Z) : K D unit :=
  match n with
  | O => mret tt
  | S n' =>
      d ← load_idev idev;
      m ← load_mem (d_info d, n');
      do_ (KobjectPut (m_map m));;
      put_maps n' idev
  end.

Fixpoint put_ports (n : nat) (idev : Z) : K D unit :=
  match n with
  | O => mret tt
  | S n' =>
      d ← load_idev idev;
      p ← load_port (d_info d, n');
      do_ (KobjectPut (p_portio p));;
      put_ports n' idev
  end.

(** [err_map_kobj:] with [mi = n - 1]; [err_map:] decrements [mi] first. *)
Definition err_map_kobj (n : nat) (ret : Z) (idev : Z) : K D Z :=
  put_maps n idev;;
  d ← load_idev idev;
  do_ (KobjectPut (d_map_dir d));;
  mret ret.

(** [err_portio_kobj:] with [pi = n - 1]; falls through to [err_map:], where
    [mi] is the value the first loop left. *)
Definition err_portio_kobj (n mi : nat) (ret : Z) (idev : Z) : K D Z :=
  put_ports n idev;;
  d ← load_idev idev;
  do_ (KobjectPut (d_portio_dir d));;
  err_map_kobj mi ret idev.

Definition uio_dev_add_attributes (idev : Z) : K D Z :=
  x ← add_maps MAX_UIO_MAPS 0 false idev;
  match x with
  | GotoErr mi ret => err_map_kobj mi ret idev
  | GotoErrKobj mi ret => err_map_kobj (S mi) ret idev
  | AttrDone mi =>
      y ← add_ports MAX_UIO_PORT_REGIONS 0 false idev;
      match y with
      | GotoErr pi ret => err_portio_kobj pi mi ret idev
      | GotoErrKobj pi ret => err_portio_kobj (S pi) mi ret idev
      | AttrDone _ => mret 0
      end
  end.

(** ** Removing them *)

Fixpoint del_maps (n i : nat) (idev : Z) : K D unit :=
  match n with
  | O => mret tt
  | S n' =>
      d ← load_idev idev;
      m ← load_mem (d_info d, i);
      if m_size m =? 0 then mret tt else
      do_ (KobjectPut (m_map m));;
      del_maps n' (S i) idev
  end.

Fixpoint del_ports (n i : nat) (idev : Z) : K D unit :=
  match n with
  | O => mret tt
  | S n' =>
      d ← load_idev idev;
      p ← load_port (d_info d, i);
      if p_size p =? 0 then mret tt else
      do_ (KobjectPut (p_portio p));;
      del_ports n' (S i) idev
  end.

Definition uio_dev_del_attributes (idev : Z) : K D unit :=
  del_maps MAX_UIO_MAPS 0 idev;;
  d ← load_idev idev;
  do_ (KobjectPut (d_map_dir d));;
  del_ports MAX_UIO_PORT_REGIONS 0 idev;;
  d ← load_idev idev;
  do_ (KobjectPut (d_portio_dir d)).
End attr.
