(* ===== verification/UioDevice.v ===== *)
(** * Devices of the UIO core ([uio.c], lines 402 to 469 and 891 to 1149)

    Minor numbers, event notification and the interrupt handlers, the class
    and character-device set-up, registration and unregistration. *)

From S2P Require Import Prelude Kernel UioTypes UioAttr.

Section device.
Context `{Kernel, Uapi} {D : Type} `{!UioDriver D}.

Definition UIO_MAX_DEVICES : Z := Z.shiftl 1 MINORBITS.

Definition uio_get_minor (idev : Z) : K D Z :=
  do_ (MutexLock MinorLock);;
  retval ← call (IdrAlloc idev 0 UIO_MAX_DEVICES);
  retval ← (if retval >=? 0 then mod_idev idev (upd_minor retval);; mret 0
            else if retval =? - ENOSPC then mret (- EINVAL)
            else mret retval);
  do_ (MutexUnlock MinorLock);;
  mret retval.

Definition uio_free_minor (minor : Z) : K D unit :=
  do_ (MutexLock MinorLock);;
  do_ (IdrRemove minor);;
  do_ (MutexUnlock MinorLock).

(** [atomic_inc] on the 32-bit event counter. *)
Definition atomic_inc (x : Z) : Z := s32 (x + 1).

Definition uio_event_notify (info : Z) : K D unit :=
  i ← load_info info;
  let idev := i_uio_dev i in
  mod_idev idev (upd_event atomic_inc);;
  do_ (WakeUpInterruptible idev);;
  do_ (KillFasync idev POLL_IN).

Definition uio_interrupt_handler (irq dev_id : Z) : K D irqreturn :=
  let idev := dev_id in
  d ← load_idev idev;
  i ← load_info (d_info d);
  ret ← drv_handler (i_handler i) irq (d_info d);
  mret (if decide (ret = IRQ_HANDLED) then IRQ_WAKE_THREAD else ret).

Definition uio_interrupt_thread (irq dev_id : Z) : K D irqreturn :=
  let idev := dev_id in
  d ← load_idev idev;
  uio_event_notify (d_info d);;
  mret IRQ_HANDLED.

(** ** Character device and class *)

(** [MKDEV(major, 0)] and [MAJOR(dev)]; [alloc_chrdev_region] stores the
    first number through its output pointer. *)
Definition MKDEV (major minor : Z) : Z := Z.lor (Z.shiftl major MINORBITS) minor.
Definition MAJOR (dev : Z) : Z := Z.shiftr dev MINORBITS.
Definition out_word (o : list Z) (old : Z) : Z := default old (head o).

Definition set_major f g := UioGlobals (f (g_uio_major g)) (g_uio_cdev g) (g_uio_class_registered g).
Definition set_cdev f g := UioGlobals (g_uio_major g) (f (g_uio_cdev g)) (g_uio_class_registered g).
Definition set_registered b g := UioGlobals (g_uio_major g) (g_uio_cdev g) b.

Definition uio_major_init : K D Z :=
  ro ← call_out (AllocChrdevRegion 0 UIO_MAX_DEVICES);
  let uio_dev := out_word (snd ro) 0 in
  if negb (fst ro =? 0) then mret (fst ro) else
  let out_unregister result := do_ (UnregisterChrdevRegion uio_dev UIO_MAX_DEVICES);; mret result in
  cdev ← call CdevAlloc;
  if cdev =? NULL then out_unregister (- ENOMEM) else
  do_ (CdevSetOps cdev);;
  do_ (KobjectSetName cdev "uio");;
  result ← call (CdevAdd cdev uio_dev UIO_MAX_DEVICES);
  if negb (result =? 0) then do_ (KobjectPut cdev);; out_unregister result else
  modify (set_glob (set_major (fun _ => MAJOR uio_dev)));;
  modify (set_glob (set_cdev (fun _ => cdev)));;
  mret 0.

Definition uio_major_cleanup : K D unit :=
  g ← gets w_glob;
  do_ (UnregisterChrdevRegion (MKDEV (g_uio_major g) 0) UIO_MAX_DEVICES);;
  do_ (CdevDel (g_uio_cdev g)).

Definition init_uio_class : K D Z :=
  ret ← uio_major_init;
  if negb (ret =? 0) then mret ret else
  ret ← call ClassRegister;
  if negb (ret =? 0) then uio_major_cleanup;; mret ret else
  modify (set_glob (set_registered true));;
  mret 0.

Definition release_uio_class : K D unit :=
  modify (set_glob (set_registered false));;
  do_ ClassUnregister;;
  uio_major_cleanup.

Definition uio_init : K D Z := init_uio_class.

Definition uio_exit : K D unit :=
  release_uio_class;;
  do_ IdrDestroy.

(** The release callback of the device: the driver core runs it when the
    last reference is dropped. *)
Definition uio_device_release (dev : Z) : K D unit :=
  idev ← call (DevGetDrvdata dev);
  kfree idev.

(** ** Registration *)

Definition err_device_create (idev ret : Z) : K D Z :=
  d ← load_idev idev;
  uio_free_minor (d_minor d);;
  do_ (PutDevice idev);;
  mret ret.

Definition err_uio_dev_add_attributes (idev ret : Z) : K D Z :=
  do_ (DeviceDel idev);;
  err_device_create idev ret.

Definition err_request_irq (idev ret : Z) : K D Z :=
  uio_dev_del_attributes idev;;
  err_uio_dev_add_attributes idev ret.

(** [info->irq && (info->irq != UIO_IRQ_CUSTOM)] *)
Definition wants_irq (i : uio_info) : bool :=
  negb (i_irq i =? 0) && negb (i_irq i =? UIO_IRQ_CUSTOM).

(** [!parent || !info || !info->name || !info->version]; the later tests
    dereference [info]. *)
Definition register_args_bad (parent info : Z) : K D bool :=
  if (parent =? NULL) || (info =? NULL) then mret true else
  i ← load_info info;
  mret (match i_name i, i_version i with Some _, Some _ => false | _, _ => true end).

Definition __uio_register_device (owner parent info : Z) : K D Z :=
  g ← gets w_glob;
  if negb (g_uio_class_registered g) then mret (- EPROBE_DEFER) else
  bad ← register_args_bad parent info;
  if (bad : bool) then mret (- EINVAL) else
  mod_info info (upd_uio_dev NULL);;
  idev ← call (Kzalloc OUioDevice);
  if idev =? NULL then mret (- ENOMEM) else
  init_obj idev (HIdev (UioDevice owner info 0 0 0 0 0 0));;
  do_ (MutexInit (InfoLock idev));;
  do_ (InitWaitqueueHead idev);;
  ret ← uio_get_minor idev;
  if negb (ret =? 0) then kfree idev;; mret ret else
  do_ (DeviceInitialize idev);;
  mod_idev idev (fun d => upd_dev (MKDEV (g_uio_major g) (d_minor d)) parent d);;
  do_ (DevSetDrvdata idev idev);;
  d ← load_idev idev;
  ret ← call (DevSetName idev ("uio" +:+ fmt_d (d_minor d)));
  if negb (ret =? 0) then err_device_create idev ret else
  ret ← call (DeviceAdd idev);
  if negb (ret =? 0) then err_device_create idev ret else
  ret ← uio_dev_add_attributes idev;
  if negb (ret =? 0) then err_uio_dev_add_attributes idev ret else
  mod_info info (upd_uio_dev idev);;
  i ← load_info info;
  if wants_irq i then
    ret ← call (RequestThreadedIrq (i_irq i) (i_irq_flags i) (c_string (i_name i)) idev);
    if negb (ret =? 0) then
      mod_info info (upd_uio_dev NULL);;
      err_request_irq idev ret
    else mret 0
  else mret 0.

Definition uio_unregister_device (info : Z) : K D unit :=
  if info =? NULL then mret tt else
  i ← load_info info;
  if i_uio_dev i =? NULL then mret tt else
  let idev := i_uio_dev i in
  d ← load_idev idev;
  let minor := d_minor d in
  do_ (MutexLock (InfoLock idev));;
  uio_dev_del_attributes idev;;
  i ← load_info info;
  (if wants_irq i then do_ (FreeIrq (i_irq i) idev) else mret tt);;
  mod_idev idev (upd_dinfo NULL);;
  do_ (MutexUnlock (InfoLock idev));;
  do_ (WakeUpInterruptible idev);;
  do_ (KillFasync idev POLL_HUP);;
  uio_free_minor minor;;
  do_ (DeviceUnregister idev).

(** ** Managed registration: [*ptr = info] is the resource. *)

Definition devm_uio_unregister_device (res : Z) : K D unit := uio_unregister_device res.

Definition __devm_uio_register_device (owner parent info : Z) : K D Z :=
  ptr ← call DevresAlloc;
  if ptr =? NULL then mret (- ENOMEM) else
  ret ← __uio_register_device owner parent info;
  if negb (ret =? 0) then do_ (DevresFree ptr);; mret ret else
  do_ (DevresAdd parent ptr);;
  mret 0.
End device.
