(* ===== verification/UioFile.v ===== *)
(** * File operations of the UIO core ([uio.c], lines 471 to 670)

    [open], [fasync], [release], [poll], [read], [write]; [mmap] is in
    [UioMmap].  [uio_read] sleeps: between two iterations of its loop the rest
    of the system runs, and [others] is what it does to memory. *)

From S2P Require Import Prelude Kernel UioTypes UioAttr UioDevice.

Section file.
Context `{Kernel, Uapi} {D : Type} `{!UioDriver D}.

(** ** open *)

Definition err_module_get (idev ret : Z) : K D Z :=
  do_ (PutDevice idev);;
  mret ret.

Definition err_alloc_listener (idev ret : Z) : K D Z :=
  d ← load_idev idev;
  do_ (ModulePut (d_owner d));;
  err_module_get idev ret.

Definition err_infoopen (listener idev ret : Z) : K D Z :=
  kfree listener;;
  err_alloc_listener idev ret.

Definition uio_open (minor inode filep : Z) : K D Z :=
  do_ (MutexLock MinorLock);;
  idev ← call (IdrFind minor);
  if idev =? NULL then do_ (MutexUnlock MinorLock);; mret (- ENODEV) else
  do_ (GetDevice idev);;
  do_ (MutexUnlock MinorLock);;
  d ← load_idev idev;
  got ← call (TryModuleGet (d_owner d));
  if got =? 0 then err_module_get idev (- ENODEV) else
  listener ← call (Kmalloc OUioListener);
  if listener =? NULL then err_alloc_listener idev (- ENOMEM) else
  d ← load_idev idev;
  init_obj listener (HLsn (UioListener idev (d_event d)));;
  modify (set_priv (insert filep listener));;
  do_ (MutexLock (InfoLock idev));;
  d ← load_idev idev;
  if d_info d =? NULL then
    do_ (MutexUnlock (InfoLock idev));;
    err_infoopen listener idev (- EINVAL)
  else
  i ← load_info (d_info d);
  ret ← (if i_open i =? NULL then mret 0 else drv_open (i_open i) (d_info d) inode);
  do_ (MutexUnlock (InfoLock idev));;
  if negb (ret =? 0) then err_infoopen listener idev ret else
  mret 0.

(** ** fasync *)

Definition uio_fasync (fd filep on : Z) : K D Z :=
  listener ← load_priv filep;
  l ← load_lsn listener;
  let idev := l_dev l in
  call (FasyncHelper fd filep on idev).

(** ** release *)

Definition uio_release (inode filep : Z) : K D Z :=
  listener ← load_priv filep;
  l ← load_lsn listener;
  let idev := l_dev l in
  do_ (MutexLock (InfoLock idev));;
  d ← load_idev idev;
  ret ← (if d_info d =? NULL then mret 0 else
         i ← load_info (d_info d);
         if i_release i =? NULL then mret 0 else drv_release (i_release i) (d_info d) inode);
  do_ (MutexUnlock (InfoLock idev));;
  d ← load_idev idev;
  do_ (ModulePut (d_owner d));;
  kfree listener;;
  do_ (PutDevice idev);;
  mret ret.

(** ** poll *)

(** A [__poll_t] is an unsigned mask of 32 bits, into which an error is converted. *)
Definition EPOLLIN : Z := 1.
Definition EPOLLRDNORM : Z := 64.

(** [!idev->info || !idev->info->irq], under the lock. *)
Definition no_irq (idev : Z) : K D bool :=
  d ← load_idev idev;
  if d_info d =? NULL then mret true else
  i ← load_info (d_info d);
  mret (i_irq i =? 0).

Definition uio_poll (filep : Z) : K D Z :=
  listener ← load_priv filep;
  l ← load_lsn listener;
  let idev := l_dev l in
  do_ (MutexLock (InfoLock idev));;
  gone ← no_irq idev;
  let ret := if (gone : bool) then u32 (- EIO) else 0 in
  do_ (MutexUnlock (InfoLock idev));;
  if negb (ret =? 0) then mret ret else
  do_ (PollWait filep idev);;
  l ← load_lsn listener;
  d ← load_idev idev;
  if negb (l_event_count l =? d_event d) then mret (Z.lor EPOLLIN EPOLLRDNORM) else
  mret 0.

(** ** read *)

Definition sizeof_s32 : Z := 4.

(** How an iteration of the loop of [uio_read] ends. *)
Inductive read_exit := ReadBreak (retval : Z) | ReadAgain.

(** One iteration; [nonblock] is [filep->f_flags & O_NONBLOCK]. *)
Definition read_iter (listener idev count : Z) (nonblock : bool) : K D read_exit :=
  do_ (MutexLock (InfoLock idev));;
  gone ← no_irq idev;
  if (gone : bool) then
    do_ (MutexUnlock (InfoLock idev));;
    mret (ReadBreak (- EIO))
  else
  do_ (MutexUnlock (InfoLock idev));;
  do_ (SetCurrentState TASK_INTERRUPTIBLE);;
  d ← load_idev idev;
  let event_count := d_event d in
  l ← load_lsn listener;
  if negb (event_count =? l_event_count l) then
    do_ (SetCurrentState TASK_RUNNING);;
    left ← call (CopyToUser event_count count);
    if negb (left =? 0) then mret (ReadBreak (- EFAULT)) else
    mod_lsn listener (fun l => UioListener (l_dev l) event_count);;
    mret (ReadBreak count)
  else
  if nonblock then mret (ReadBreak (- EAGAIN)) else
  sig ← call SignalPending;
  if negb (sig =? 0) then mret (ReadBreak (- ERESTARTSYS)) else
  do_ Schedule;;
  mret ReadAgain.

Section read.
Context (others : world D -> world D).

(** The loop; [None] when [fuel] iterations were not enough, that is,
    while the reader is still asleep. *)
Fixpoint read_loop (fuel : nat) (listener idev count : Z) (nonblock : bool) : K D (option Z) :=
  match fuel with
  | O => mret None
  | S f =>
      x ← read_iter listener idev count nonblock;
      match x with
      | ReadBreak retval => mret (Some retval)
      | ReadAgain => modify others;; read_loop f listener idev count nonblock
      end
  end.

Definition uio_read (fuel : nat) (filep count : Z) (nonblock : bool) : K D (option Z) :=
  listener ← load_priv filep;
  l ← load_lsn listener;
  let idev := l_dev l in
  if negb (count =? sizeof_s32) then mret (Some (- EINVAL)) else
  do_ (AddWaitQueue idev);;
  r ← read_loop fuel listener idev count nonblock;
  match r with
  | None => mret None
  | Some retval =>
      do_ (SetCurrentState TASK_RUNNING);;
      do_ (RemoveWaitQueue idev);;
      mret (Some retval)
  end.
End read.

(** ** write *)

Definition uio_write (filep count : Z) : K D Z :=
  listener ← load_priv filep;
  l ← load_lsn listener;
  let idev := l_dev l in
  if negb (count =? sizeof_s32) then mret (- EINVAL) else
  ro ← call_out (CopyFromUser count);
  if negb (fst ro =? 0) then mret (- EFAULT) else
  let irq_on := s32 (out_word (snd ro) 0) in
  do_ (MutexLock (InfoLock idev));;
  d ← load_idev idev;
  retval ← (if d_info d =? NULL then mret (- EINVAL) else
            i ← load_info (d_info d);
            if i_irq i =? 0 then mret (- EIO) else
            if i_irqcontrol i =? NULL then mret (- ENOSYS) else
            drv_irqcontrol (i_irqcontrol i) (d_info d) irq_on);
  do_ (MutexUnlock (InfoLock idev));;
  mret (if negb (retval =? 0) then retval else sizeof_s32).
End file.
