(* ===== verification/UioMmap.v ===== *)
(** * Memory mappings of the UIO core ([uio.c], lines 672 to 877)

    The index lookup, the page-fault handler of logical mappings, and [mmap]
    with its three ways of installing a mapping. *)

From S2P Require Import Prelude Kernel UioTypes UioAttr.

Section mmap.
Context `{Kernel, Uapi} {D : Type} `{!UioDriver D}.

(** [x & ~PAGE_MASK] *)
Definition page_offset (x : Z) : Z := Z.land x (PAGE_SIZE - 1).

Definition set_vm_ops o v := Vma (vma_id v) (vm_start v) (vm_end v) (vm_pgoff v) (vm_private_data v) o (vm_page_prot v).
Definition set_vm_pgoff n v := Vma (vma_id v) (vm_start v) (vm_end v) n (vm_private_data v) (vm_ops v) (vm_page_prot v).
Definition set_vm_prot p v := Vma (vma_id v) (vm_start v) (vm_end v) (vm_pgoff v) (vm_private_data v) (vm_ops v) p.
Definition set_vm_private d v := Vma (vma_id v) (vm_start v) (vm_end v) (vm_pgoff v) d (vm_ops v) (vm_page_prot v).

(** [vma->vm_end - vma->vm_start], an unsigned long. *)
Definition vm_len (v : vma) : Z := u64 (vm_end v - vm_start v).

Definition uio_find_mem_index (v : vma) : K D Z :=
  let idev := vm_private_data v in
  if vm_pgoff v <? Z.of_nat MAX_UIO_MAPS then
    d ← load_idev idev;
    m ← load_mem (d_info d, Z.to_nat (vm_pgoff v));
    if m_size m =? 0 then mret (-1) else
    mret (vm_pgoff v)
  else mret (-1).

Definition VM_FAULT_SIGBUS : Z := 2.

(** [vmf->vma], [vmf->pgoff]; the result pairs the return value with
    [vmf->page]. *)
Definition uio_vma_fault (v : vma) (pgoff : Z) : K D (Z * option Z) :=
  let idev := vm_private_data v in
  do_ (MutexLock (InfoLock idev));;
  d ← load_idev idev;
  r ← (if d_info d =? NULL then mret (VM_FAULT_SIGBUS, None) else
       mi ← uio_find_mem_index v;
       if mi <? 0 then mret (VM_FAULT_SIGBUS, None) else
       let offset := u64 (Z.shiftl (pgoff - mi) PAGE_SHIFT) in
       m ← load_mem (d_info d, Z.to_nat mi);
       let addr := u64 (m_addr m + offset) in
       page ← (if decide (m_memtype m = UIO_MEM_LOGICAL) then call (VirtToPage addr)
               else call (VmallocToPage addr));
       do_ (GetPage page);;
       mret (0, Some page));
  do_ (MutexUnlock (InfoLock idev));;
  mret r.

Definition uio_mmap_logical (v : vma) : K D (Z * vma) :=
  do_ (VmFlagsSet (vma_id v));;
  mret (0, set_vm_ops uio_logical_vm_ops v).

Definition uio_mmap_physical (v : vma) : K D (Z * vma) :=
  let idev := vm_private_data v in
  mi ← uio_find_mem_index v;
  if mi <? 0 then mret (- EINVAL, v) else
  d ← load_idev idev;
  m ← load_mem (d_info d, Z.to_nat mi);
  if negb (page_offset (m_addr m) =? 0) then mret (- ENODEV, v) else
  if vm_len v >? m_size m then mret (- EINVAL, v) else
  let v := set_vm_ops uio_physical_vm_ops v in
  v ← (if decide (m_memtype m = UIO_MEM_PHYS) then
         p ← call (PgprotNoncached (vm_page_prot v)); mret (set_vm_prot p v)
       else mret v);
  r ← call (RemapPfnRange (vma_id v) (vm_start v) (Z.shiftr (m_addr m) PAGE_SHIFT)
                          (vm_len v) (vm_page_prot v));
  mret (r, v).

Definition uio_mmap_dma_coherent (v : vma) : K D (Z * vma) :=
  let idev := vm_private_data v in
  mi ← uio_find_mem_index v;
  if mi <? 0 then mret (- EINVAL, v) else
  d ← load_idev idev;
  m ← load_mem (d_info d, Z.to_nat mi);
  if negb (page_offset (m_addr m) =? 0) then mret (- ENODEV, v) else
  if negb (page_offset (m_dma_addr m) =? 0) then mret (- ENODEV, v) else
  if m_dma_device m =? NULL then mret (- ENODEV, v) else
  if vm_len v >? m_size m then mret (- EINVAL, v) else
  let v := set_vm_pgoff 0 v in
  ret ← call (DmaMmapCoherent (m_dma_device m) (vma_id v) (vm_pgoff v) (m_addr m)
                              (m_dma_addr m) (vm_len v));
  mret (ret, set_vm_pgoff mi v).

Definition uio_mmap (filep : Z) (v : vma) : K D (Z * vma) :=
  listener ← load_priv filep;
  l ← load_lsn listener;
  let idev := l_dev l in
  if vm_end v <? vm_start v then mret (- EINVAL, v) else
  let v := set_vm_private idev v in
  do_ (MutexLock (InfoLock idev));;
  d ← load_idev idev;
  r ← (if d_info d =? NULL then mret (- EINVAL, v) else
       mi ← uio_find_mem_index v;
       if mi <? 0 then mret (- EINVAL, v) else
       i ← load_info (d_info d);
       m ← load_mem (d_info d, Z.to_nat mi);
       let requested_pages := vma_pages v in
       let actual_pages :=
         Z.shiftr (u64 (page_offset (m_addr m) + m_size m + PAGE_SIZE - 1)) PAGE_SHIFT in
       if requested_pages >? actual_pages then mret (- EINVAL, v) else
       if negb (i_mmap i =? NULL) then drv_mmap (i_mmap i) (d_info d) v else
       match m_memtype m with
       | UIO_MEM_IOVA | UIO_MEM_PHYS => uio_mmap_physical v
       | UIO_MEM_LOGICAL | UIO_MEM_VIRTUAL => uio_mmap_logical v
       | UIO_MEM_DMA_COHERENT => uio_mmap_dma_coherent v
       | _ => mret (- EINVAL, v)
       end);
  do_ (MutexUnlock (InfoLock idev));;
  mret r.
End mmap.
