(* ===== verification/UioTables.v ===== *)
(** * The tables of the UIO core

    The structures of [uio.c] through which the kernel reaches its functions: file
    operations, the operations of a mapping, the types of the [mapN] and [portN]
    directories, and the class with its attributes. *)

From S2P Require Import Prelude Kernel UioTypes UioAttr UioFile UioMmap.

Section tables.
Context `{Kernel, Uapi} {D : Type} `{!UioDriver D}.

(** [struct file_operations], as far as [uio_fops] fills it; [llseek] does nothing. *)
Record file_operations := FileOperations {
  fop_open : Z -> Z -> Z -> K D Z;
  fop_release : Z -> Z -> K D Z;
  fop_read : (world D -> world D) -> nat -> Z -> Z -> bool -> K D (option Z);
  fop_write : Z -> Z -> K D Z;
  fop_mmap : Z -> vma -> K D (Z * vma);
  fop_poll : Z -> K D Z;
  fop_fasync : Z -> Z -> Z -> K D Z }.

Definition uio_fops : file_operations :=
  FileOperations uio_open uio_release uio_read uio_write uio_mmap uio_poll uio_fasync.

(** The [fault] member of the operations of a mapping. *)
Definition vm_fault (ops : vm_operations) : option (vma -> Z -> K D (Z * option Z)) :=
  match ops with
  | uio_logical_vm_ops => Some uio_vma_fault
  | uio_physical_vm_ops | VmOpsNone => None
  end.

(** [struct kobj_type] with its [sysfs_ops]. *)
Record kobj_type (A : Type) := KobjType {
  kt_release : Z -> K D unit; kt_show : Z -> A -> K D (Z * string); kt_groups : list A }.
Arguments KobjType {A}.

Definition map_attr_type : kobj_type map_sysfs_entry := KobjType map_release map_type_show map_attrs.
Definition portio_attr_type : kobj_type portio_sysfs_entry := KobjType portio_release portio_type_show portio_attrs.

Record class_type := ClassType { class_name : string; class_dev_groups : list (string * (Z -> K D (Z * string))) }.
Definition uio_class : class_type := ClassType "uio" uio_attrs.
End tables.
Arguments file_operations D : clear implicits.
Arguments kobj_type D A : clear implicits.
Arguments class_type D : clear implicits.
Arguments KobjType {D A}. Arguments kt_release {D A}. Arguments kt_show {D A}. Arguments kt_groups {D A}.
