(* ===== verification/HypervVmbus.v ===== *)
(** * [hyperv_vmbus.h]: VMBus data and inline helpers

    The channel and connection structures as far as the two source files and
    the inline functions of the header use them, and those functions. *)

From S2P Require Import Prelude Kernel.

(** ** Enumerations *)

(** The anonymous enum of connection, port and SINT numbers. *)
Definition VMBUS_MESSAGE_CONNECTION_ID := 1.
Definition VMBUS_MESSAGE_CONNECTION_ID_4 := 4.
Definition VMBUS_MESSAGE_PORT_ID := 1.
Definition VMBUS_EVENT_CONNECTION_ID := 2.
Definition VMBUS_EVENT_PORT_ID := 2.
Definition VMBUS_MONITOR_CONNECTION_ID := 3.
Definition VMBUS_MONITOR_PORT_ID := 3.
Definition VMBUS_MESSAGE_SINT := 2.

Definition HV_UTIL_TIMEOUT := 30.
Definition HV_UTIL_NEGO_TIMEOUT := 55.

Variant vmbus_connect_state := DISCONNECTED | CONNECTING | CONNECTED | DISCONNECTING.
Variant vmbus_message_handler_type := VMHT_BLOCKING | VMHT_NON_BLOCKING.
Variant hvutil_device_state :=
| HVUTIL_DEVICE_INIT | HVUTIL_READY | HVUTIL_HOSTMSG_RECEIVED | HVUTIL_USERSPACE_REQ
| HVUTIL_USERSPACE_RECV | HVUTIL_DEVICE_DYING.
Variant delay := INTERRUPT_DELAY | MESSAGE_DELAY.

(** ** Structures *)

(** [channel->state]; the header compares it with [CHANNEL_OPENED_STATE] only. *)
Variant channel_state := CHANNEL_OPENED_STATE | CHANNEL_STATE_OTHER.

(** [struct vmbus_channel].  [ch_inbound] is [inbound.ring_buffer]: NULL
    ([None]) or the control block, of which only [interrupt_mask] is written. *)
Record vmbus_channel := VmbusChannel {
  ch_device_obj : Z; ch_primary_channel : Z; ch_monitor_allocated : bool;
  ch_inbound : option Z; ch_state : channel_state;
  ch_ringbuffer_page : Z; ch_ringbuffer_pagecount : Z;
  ch_device_id : Z; ch_target_cpu : Z; ch_sc_list : list Z }.

Definition set_ch_inbound m c := VmbusChannel (ch_device_obj c) (ch_primary_channel c) (ch_monitor_allocated c) m (ch_state c) (ch_ringbuffer_page c) (ch_ringbuffer_pagecount c) (ch_device_id c) (ch_target_cpu c) (ch_sc_list c).
Definition set_ch_ring p n c := VmbusChannel (ch_device_obj c) (ch_primary_channel c) (ch_monitor_allocated c) (ch_inbound c) (ch_state c) p n (ch_device_id c) (ch_target_cpu c) (ch_sc_list c).

Definition set_ch_target_cpu n c := VmbusChannel (ch_device_obj c) (ch_primary_channel c) (ch_monitor_allocated c) (ch_inbound c) (ch_state c) (ch_ringbuffer_page c) (ch_ringbuffer_pagecount c) (ch_device_id c) n (ch_sc_list c).

(** [struct vmbus_connection]: the fields the code reads or writes.
    [send_int_page] is a bitmap, kept as the integer of its bits. *)
Record vmbus_connection := VmbusConnection {
  vc_conn_state : vmbus_connect_state;
  vc_int_page : Z; vc_send_int_page : Z; vc_recv_int_page : Z;
  vc_monitor_pages : Z * Z; vc_chn_list : list Z }.

(** [vmbus_devs[]], a table of the VMBus core. *)
Record vmbus_device := VmbusDevice { perf_device : bool; pref_ring_size : Z }.

Class HvApi := {
  vmbus_devs : Z -> vmbus_device;
  cpu_to_node : Z -> Z;
  HV_HYP_PAGE_SIZE : Z;
  HV_EVENT_FLAGS_COUNT : Z;
  HV_CALL_ISR : Z;
  THIS_MODULE : Z }.

Class HvApiOk `{HvApi} := {
  hyp_page_size_ok : HV_HYP_PAGE_SIZE = 4096;
  event_flags_ok : HV_EVENT_FLAGS_COUNT = 2048 }.

(** [hv_context.hv_numa_map]: a set of CPUs per node. *)
Abbreviation numa_map := (gmap Z (gset Z)).

Section header.
Context `{HvApi}.

(** Half of the interrupt page, one bit per channel. *)
Definition MAX_NUM_CHANNELS : Z := Z.shiftl (Z.shiftr HV_HYP_PAGE_SIZE 1) 3.
Definition MAX_NUM_CHANNELS_SUPPORTED : Z := 256.
Definition MAX_CHANNEL_RELIDS : Z := Z.max MAX_NUM_CHANNELS_SUPPORTED HV_EVENT_FLAGS_COUNT.
Definition VMBUS_CONNECT_CPU : Z := 0.

(** [sync_set_bit(relid, vmbus_connection.send_int_page)] *)
Definition vmbus_send_interrupt (relid : Z) (vc : vmbus_connection) : vmbus_connection :=
  VmbusConnection (vc_conn_state vc) (vc_int_page vc) (Z.setbit (vc_send_int_page vc) relid)
    (vc_recv_int_page vc) (vc_monitor_pages vc) (vc_chn_list vc).

(** [cb] is applied to the channel unless the pointer is NULL. *)
Definition hv_poll_channel {S} (channel : Z) (cb : Z -> S -> S) (s : S) : S :=
  if channel =? NULL then s else cb channel s.

Definition hv_is_perf_channel (channel : vmbus_channel) : bool :=
  perf_device (vmbus_devs (ch_device_id channel)).

Definition hv_dev_ring_size (channel : vmbus_channel) : Z :=
  pref_ring_size (vmbus_devs (ch_device_id channel)).

(** ** CPU allocation

    [chn_list] and [sc_list] are lists of channel addresses, [chans] the
    channels; a dangling entry is a fault ([None]). *)
Section cpus.
Context (chans : gmap Z vmbus_channel).

(** [list_for_each_entry(sc, &channel->sc_list, sc_list)] *)
Fixpoint sc_on_cpu (scs : list Z) (cpu : Z) : option bool :=
  match scs with
  | [] => Some false
  | s :: scs' => sc ← chans !! s; if ch_target_cpu sc =? cpu then Some true else sc_on_cpu scs' cpu
  end.

(** [list_for_each_entry(channel, &vmbus_connection.chn_list, listentry)] *)
Fixpoint chn_on_cpu (chns : list Z) (cpu : Z) : option bool :=
  match chns with
  | [] => Some false
  | c :: chns' =>
      channel ← chans !! c;
      if negb (hv_is_perf_channel channel) then chn_on_cpu chns' cpu else
      if ch_target_cpu channel =? cpu then Some true else
      found ← sc_on_cpu (ch_sc_list channel) cpu;
      if (found : bool) then Some true else chn_on_cpu chns' cpu
  end.

Definition hv_is_allocated_cpu (vc : vmbus_connection) (cpu : Z) : option bool :=
  chn_on_cpu (vc_chn_list vc) cpu.

Definition node_cpus (m : numa_map) (node : Z) : gset Z := default ∅ (m !! node).

Definition hv_set_allocated_cpu (cpu : Z) (m : numa_map) : numa_map :=
  <[cpu_to_node cpu := node_cpus m (cpu_to_node cpu) ∪ {[cpu]}]> m.

Definition hv_clear_allocated_cpu (vc : vmbus_connection) (cpu : Z) (m : numa_map) : option numa_map :=
  allocated ← hv_is_allocated_cpu vc cpu;
  if (allocated : bool) then Some m else
  Some (<[cpu_to_node cpu := node_cpus m (cpu_to_node cpu) ∖ {[cpu]}]> m).

Definition hv_update_allocated_cpus (vc : vmbus_connection) (old_cpu new_cpu : Z) (m : numa_map) : option numa_map :=
  hv_clear_allocated_cpu vc old_cpu (hv_set_allocated_cpu new_cpu m).
End cpus.
End header.
