(* ===== verification/HvUio.v ===== *)
(** * [uio_hv_generic.c]: the UIO driver for VMBus devices

    The driver's private data, the callbacks it gives to the UIO core, the
    callbacks it gives to VMBus, and probe and remove with their clean-up. *)

From S2P Require Import Prelude Kernel UioTypes UioAttr UioDevice UioFile UioMmap HypervVmbus.

Definition SZ_2M : Z := 2 * 1024 * 1024.
Definition SEND_BUFFER_SIZE : Z := 16 * 1024 * 1024.
Definition RECV_BUFFER_SIZE : Z := 31 * 1024 * 1024.
Definition DRIVER_VERSION : string := "0.02.1".

(** [enum hv_uio_map] *)
Definition TXRX_RING_MAP : nat := 0.
Definition INT_PAGE_MAP : nat := 1.
Definition MON_PAGE_MAP : nat := 2.
Definition RECV_BUF_MAP : nat := 3.
Definition SEND_BUF_MAP : nat := 4.

(** [struct vmbus_gpadl]: the fields the driver reads. *)
Record vmbus_gpadl := VmbusGpadl { gpadl_handle : Z; decrypted : bool }.

(** [struct hv_uio_private_data]; its first field [info] is in [w_info] under
    the same address. *)
Record hv_uio_private_data := HvPdata {
  pd_device : Z; pd_refcnt : Z;
  pd_recv_buf : Z; pd_recv_gpadl : vmbus_gpadl; pd_recv_name : string;
  pd_send_buf : Z; pd_send_gpadl : vmbus_gpadl; pd_send_name : string }.

Definition set_pd_device x p := HvPdata x (pd_refcnt p) (pd_recv_buf p) (pd_recv_gpadl p) (pd_recv_name p) (pd_send_buf p) (pd_send_gpadl p) (pd_send_name p).
Definition set_pd_refcnt x p := HvPdata (pd_device p) x (pd_recv_buf p) (pd_recv_gpadl p) (pd_recv_name p) (pd_send_buf p) (pd_send_gpadl p) (pd_send_name p).
Definition set_recv_buf x p := HvPdata (pd_device p) (pd_refcnt p) x (pd_recv_gpadl p) (pd_recv_name p) (pd_send_buf p) (pd_send_gpadl p) (pd_send_name p).
Definition set_recv_gpadl x p := HvPdata (pd_device p) (pd_refcnt p) (pd_recv_buf p) x (pd_recv_name p) (pd_send_buf p) (pd_send_gpadl p) (pd_send_name p).
Definition set_recv_name x p := HvPdata (pd_device p) (pd_refcnt p) (pd_recv_buf p) (pd_recv_gpadl p) x (pd_send_buf p) (pd_send_gpadl p) (pd_send_name p).
Definition set_send_buf x p := HvPdata (pd_device p) (pd_refcnt p) (pd_recv_buf p) (pd_recv_gpadl p) (pd_recv_name p) x (pd_send_gpadl p) (pd_send_name p).
Definition set_send_gpadl x p := HvPdata (pd_device p) (pd_refcnt p) (pd_recv_buf p) (pd_recv_gpadl p) (pd_recv_name p) (pd_send_buf p) x (pd_send_name p).
Definition set_send_name x p := HvPdata (pd_device p) (pd_refcnt p) (pd_recv_buf p) (pd_recv_gpadl p) (pd_recv_name p) (pd_send_buf p) (pd_send_gpadl p) x.

(** [struct hv_device]: its primary channel. *)
Record hv_device := HvDevice { hd_channel : Z }.

(** The memory of the driver: private data, devices, channels, the connection
    of the VMBus core, and the [vzalloc]ed buffers. *)
Record hv_state := HvState {
  hs_pdata : gmap Z hv_uio_private_data; hs_dev : gmap Z hv_device;
  hs_chan : gmap Z vmbus_channel; hs_conn : vmbus_connection; hs_vm : gset Z }.

Definition set_hs_pdata f s := HvState (f (hs_pdata s)) (hs_dev s) (hs_chan s) (hs_conn s) (hs_vm s).
Definition set_hs_chan f s := HvState (hs_pdata s) (hs_dev s) (f (hs_chan s)) (hs_conn s) (hs_vm s).
Definition set_hs_vm f s := HvState (hs_pdata s) (hs_dev s) (hs_chan s) (hs_conn s) (f (hs_vm s)).

(** [snprintf(buf, n, ...)]: at most [n - 1] characters are kept. *)
Definition snprintf (n : nat) (s : string) : string := String.substring 0 (n - 1) s.

Section driver.
Context `{Kernel, Uapi, HvApi}.
Abbreviation HK := (K hv_state).

Definition load_pdata (p : Z) : HK hv_uio_private_data := get_some (fun w => hs_pdata (w_drv w) !! p).
Definition mod_pdata (p : Z) (f : hv_uio_private_data -> hv_uio_private_data) : HK unit :=
  x ← load_pdata p; modify (set_drv (set_hs_pdata (insert p (f x)))).
Definition load_hvdev (p : Z) : HK hv_device := get_some (fun w => hs_dev (w_drv w) !! p).
Definition load_chan (c : Z) : HK vmbus_channel := get_some (fun w => hs_chan (w_drv w) !! c).
Definition mod_chan (c : Z) (f : vmbus_channel -> vmbus_channel) : HK unit :=
  x ← load_chan c; modify (set_drv (set_hs_chan (insert c (f x)))).

(** [chan->inbound.ring_buffer->interrupt_mask = v] *)
Definition store_interrupt_mask (c v : Z) : HK unit :=
  x ← load_chan c;
  _ ← get_some (fun _ => ch_inbound x);
  mod_chan c (set_ch_inbound (Some v));;
  do_ (StoreInterruptMask c v).

(** The VMBus core maps the control block when a ring is connected, and
    reports its interrupt mask; it unmaps it when the ring is freed
    ([vmbus_close] frees it too). *)
Definition ring_mapped (c : Z) (ret : Z) (o : list Z) : HK unit :=
  if ret =? 0 then mod_chan c (set_ch_inbound (head o)) else mret tt.
Definition vmbus_connect_ring (c : Z) : HK Z :=
  ro ← call_out (VmbusConnectRing c);
  ring_mapped c (fst ro) (snd ro);; mret (fst ro).
Definition vmbus_open (c send recv : Z) : HK Z :=
  ro ← call_out (VmbusOpen c send recv);
  ring_mapped c (fst ro) (snd ro);; mret (fst ro).
Definition vmbus_free_ring (c : Z) : HK unit :=
  do_ (VmbusFreeRing c);; mod_chan c (set_ch_inbound None).
Definition vmbus_close (c : Z) : HK unit :=
  do_ (VmbusClose c);; mod_chan c (set_ch_inbound None).
(** [vmbus_alloc_ring] sets the channel's ring pages. *)
Definition vmbus_alloc_ring (c send recv : Z) : HK Z :=
  ro ← call_out (VmbusAllocRing c send recv);
  match snd ro with
  | page :: n :: _ => mod_chan c (set_ch_ring page n)
  | _ => mret tt
  end;;
  mret (fst ro).

(** [vzalloc], [vfree]: freeing an address that is not allocated faults. *)
Definition vzalloc (size : Z) : HK Z :=
  p ← call (Vzalloc size);
  (if p =? NULL then mret tt else modify (set_drv (set_hs_vm (fun s => {[p]} ∪ s))));;
  mret p.
Definition vfree (p : Z) : HK unit :=
  if p =? NULL then do_ (Vfree p) else
  _ ← get_some (fun w => if decide (p ∈ hs_vm (w_drv w)) then Some tt else None);
  do_ (Vfree p);; modify (set_drv (set_hs_vm (fun s => s ∖ {[p]}))).

(** What the VMBus core stored in a [struct vmbus_gpadl]. *)
Definition stored_gpadl (o : list Z) (old : vmbus_gpadl) : vmbus_gpadl :=
  match o with
  | h :: d :: _ => VmbusGpadl (u32 h) (negb (d =? 0))
  | _ => old
  end.

(** ** Callbacks of the UIO core *)

Definition hv_uio_irqcontrol (info irq_state : Z) : HK Z :=
  i ← load_info info;
  let pdata := i_priv i in
  p ← load_pdata pdata;
  d ← load_hvdev (pd_device p);
  store_interrupt_mask (hd_channel d) (c_not irq_state);;
  do_ VirtMb;;
  c ← load_chan (hd_channel d);
  (if negb (ch_monitor_allocated c) && negb (irq_state =? 0)
   then do_ (VmbusSetevent (hd_channel d)) else mret tt);;
  mret 0.

Definition hv_uio_open (info inode : Z) : HK Z :=
  let pdata := info in
  p ← load_pdata pdata;
  d ← load_hvdev (pd_device p);
  let refcnt := s32 (pd_refcnt p + 1) in
  mod_pdata pdata (set_pd_refcnt refcnt);;
  if negb (refcnt =? 1) then mret 0 else
  do_ (VmbusSetRescindCallback (hd_channel d));;
  do_ (VmbusSetScCreateCallback (hd_channel d));;
  ret ← vmbus_connect_ring (hd_channel d);
  (if ret =? 0 then store_interrupt_mask (hd_channel d) 1
   else mod_pdata pdata (fun p => set_pd_refcnt (s32 (pd_refcnt p - 1)) p));;
  mret ret.

Definition hv_uio_release (info inode : Z) : HK Z :=
  let pdata := info in
  p ← load_pdata pdata;
  d ← load_hvdev (pd_device p);
  let refcnt := s32 (pd_refcnt p - 1) in
  mod_pdata pdata (set_pd_refcnt refcnt);;
  if refcnt =? 0 then call (VmbusDisconnectRing (hd_channel d)) else mret 0.

(** Addresses of the callbacks. *)
Definition hv_uio_irqcontrol_fn : Z := 1.
Definition hv_uio_open_fn : Z := 2.
Definition hv_uio_release_fn : Z := 3.

#[export] Instance hv_uio_driver : UioDriver hv_state := {
  drv_open fn info inode := if fn =? hv_uio_open_fn then hv_uio_open info inode else oops;
  drv_release fn info inode := if fn =? hv_uio_release_fn then hv_uio_release info inode else oops;
  drv_irqcontrol fn info s := if fn =? hv_uio_irqcontrol_fn then hv_uio_irqcontrol info s else oops;
  drv_mmap _ _ _ := oops;
  drv_handler _ _ _ := oops }.

(** ** Callbacks of VMBus *)

Definition hv_uio_channel_cb (context : Z) : HK unit :=
  chan ← load_chan context;
  let hv_dev := ch_device_obj chan in
  pdata ← call (DevGetDrvdata hv_dev);
  store_interrupt_mask context 1;;
  do_ VirtMb;;
  uio_event_notify pdata.

Definition hv_uio_rescind (channel : Z) : HK unit :=
  c ← load_chan channel;
  let hv_dev := ch_device_obj c in
  pdata ← call (DevGetDrvdata hv_dev);
  mod_info pdata (upd_irq 0);;
  uio_event_notify pdata;;
  do_ (VmbusDeviceUnregister hv_dev).

(** [kobj] is embedded in the channel at [channel]; the size is an [u32]
    shifted, then widened. *)
Definition hv_uio_ring_mmap (channel : Z) (v : vma) : HK Z :=
  c ← load_chan channel;
  ring_buffer ← call (PageAddress (ch_ringbuffer_page c));
  if negb (if ch_state c is CHANNEL_OPENED_STATE then true else false) then mret (- ENODEV) else
  phys ← call (VirtToPhys ring_buffer);
  call (VmIomapMemory (vma_id v) phys (u32 (Z.shiftl (ch_ringbuffer_pagecount c) PAGE_SHIFT))).

Definition hv_uio_new_channel (new_sc : Z) : HK unit :=
  c ← load_chan new_sc;
  p ← load_chan (ch_primary_channel c);
  let hv_dev := ch_device_obj p in
  let ring_bytes := SZ_2M in
  ret ← vmbus_open new_sc ring_bytes ring_bytes;
  if negb (ret =? 0) then mret tt else
  store_interrupt_mask new_sc 1;;
  do_ (SetChannelReadMode new_sc HV_CALL_ISR);;
  ret ← call (SysfsCreateBinFile new_sc);
  if negb (ret =? 0) then vmbus_close new_sc else mret tt.

(** ** Probe and remove *)

Definition hv_uio_cleanup (dev pdata : Z) : HK unit :=
  d ← load_hvdev dev;
  p ← load_pdata pdata;
  (if negb (gpadl_handle (pd_send_gpadl p) =? 0) then
     ro ← call_out (VmbusTeardownGpadl (hd_channel d) (gpadl_handle (pd_send_gpadl p)));
     mod_pdata pdata (fun p => set_send_gpadl (stored_gpadl (snd ro) (pd_send_gpadl p)) p);;
     p ← load_pdata pdata;
     if negb (decrypted (pd_send_gpadl p)) then vfree (pd_send_buf p) else mret tt
   else mret tt);;
  p ← load_pdata pdata;
  if negb (gpadl_handle (pd_recv_gpadl p) =? 0) then
    ro ← call_out (VmbusTeardownGpadl (hd_channel d) (gpadl_handle (pd_recv_gpadl p)));
    mod_pdata pdata (fun p => set_recv_gpadl (stored_gpadl (snd ro) (pd_recv_gpadl p)) p);;
    p ← load_pdata pdata;
    if negb (decrypted (pd_recv_gpadl p)) then vfree (pd_recv_buf p) else mret tt
  else mret tt.

Definition fail_free_ring (dev ret : Z) : HK Z :=
  d ← load_hvdev dev;
  vmbus_free_ring (hd_channel d);;
  mret ret.

Definition fail_close (dev pdata ret : Z) : HK Z :=
  hv_uio_cleanup dev pdata;;
  fail_free_ring dev ret.

Definition zero_mem : uio_mem := UioMem None 0 0 0 0 UIO_MEM_NONE 0 0.
Definition zero_port : uio_port := UioPort None 0 0 0 0.
Definition zero_info : uio_info :=
  UioInfo 0 None None (replicate MAX_UIO_MAPS zero_mem) (replicate MAX_UIO_PORT_REGIONS zero_port)
    0 0 0 0 0 0 0 0.
Definition zero_pdata : hv_uio_private_data :=
  HvPdata 0 0 0 (VmbusGpadl 0 false) EmptyString 0 (VmbusGpadl 0 false) EmptyString.

(** The general fields of the info. *)
Definition general_info (i : uio_info) : uio_info :=
  UioInfo (i_uio_dev i) (Some "uio_hv_generic") (Some DRIVER_VERSION) (i_mem i) (i_port i)
    UIO_IRQ_CUSTOM (i_irq_flags i) (i_handler i) (i_mmap i)
    hv_uio_open_fn hv_uio_release_fn hv_uio_irqcontrol_fn (i_priv i).
Definition upd_priv q i := UioInfo (i_uio_dev i) (i_name i) (i_version i) (i_mem i) (i_port i) (i_irq i) (i_irq_flags i) (i_handler i) (i_mmap i) (i_open i) (i_release i) (i_irqcontrol i) q.

(** [pdata->info.mem[k].{name,addr,size,memtype} = ...]; an index past the
    array faults. *)
Definition fill_mem (pdata : Z) (k : nat) (name : string) (addr size : Z) (t : memtype) : HK unit :=
  mod_mem (pdata, k) (fun m => UioMem (Some name) addr (m_dma_addr m) (m_offs m) size t (m_dma_device m) (m_map m)).

(** Lines 322 to 360: the send buffer, registration, the ring file. *)
Definition probe_send (dev channel pdata : Z) : HK Z :=
  send_buf ← vzalloc SEND_BUFFER_SIZE;
  mod_pdata pdata (set_send_buf send_buf);;
  if send_buf =? NULL then fail_close dev pdata (- ENOMEM) else
  ro ← call_out (VmbusEstablishGpadl channel send_buf SEND_BUFFER_SIZE);
  let ret := fst ro in
  mod_pdata pdata (fun p => set_send_gpadl (stored_gpadl (snd ro) (pd_send_gpadl p)) p);;
  p ← load_pdata pdata;
  if negb (ret =? 0) then
    (if negb (decrypted (pd_send_gpadl p)) then vfree (pd_send_buf p) else mret tt);;
    fail_close dev pdata ret
  else
  mod_pdata pdata (set_send_name (snprintf 32 ("send:" +:+ fmt_d (gpadl_handle (pd_send_gpadl p)))));;
  p ← load_pdata pdata;
  fill_mem pdata SEND_BUF_MAP (pd_send_name p) (pd_send_buf p) SEND_BUFFER_SIZE UIO_MEM_VIRTUAL;;
  mod_info pdata (upd_priv pdata);;
  mod_pdata pdata (set_pd_device dev);;
  ret ← __uio_register_device THIS_MODULE dev pdata;
  if negb (ret =? 0) then fail_close dev pdata ret else
  _ ← call (SysfsCreateBinFile channel);
  do_ (DevSetDrvdata dev pdata);;
  mret 0.

(** Lines 299 to 320: the receive buffer. *)
Definition probe_recv (dev channel pdata : Z) : HK Z :=
  recv_buf ← vzalloc RECV_BUFFER_SIZE;
  mod_pdata pdata (set_recv_buf recv_buf);;
  if recv_buf =? NULL then fail_free_ring dev (- ENOMEM) else
  ro ← call_out (VmbusEstablishGpadl channel recv_buf RECV_BUFFER_SIZE);
  let ret := fst ro in
  mod_pdata pdata (fun p => set_recv_gpadl (stored_gpadl (snd ro) (pd_recv_gpadl p)) p);;
  p ← load_pdata pdata;
  if negb (ret =? 0) then
    (if negb (decrypted (pd_recv_gpadl p)) then vfree (pd_recv_buf p) else mret tt);;
    fail_close dev pdata ret
  else
  mod_pdata pdata (set_recv_name (snprintf 32 ("recv:" +:+ fmt_d (gpadl_handle (pd_recv_gpadl p)))));;
  p ← load_pdata pdata;
  fill_mem pdata RECV_BUF_MAP (pd_recv_name p) (pd_recv_buf p) RECV_BUFFER_SIZE UIO_MEM_VIRTUAL;;
  probe_send dev channel pdata.

Definition hv_uio_probe (dev : Z) : HK Z :=
  d ← load_hvdev dev;
  let channel := hd_channel d in
  c ← load_chan channel;
  let ring_size := hv_dev_ring_size c in
  let ring_size := if ring_size =? 0 then SZ_2M else ring_size in
  pdata ← call (DevmKzalloc dev);
  if pdata =? NULL then mret (- ENOMEM) else
  modify (set_info (insert pdata zero_info));;
  modify (set_drv (set_hs_pdata (insert pdata zero_pdata)));;
  ret ← vmbus_alloc_ring channel ring_size ring_size;
  if negb (ret =? 0) then mret ret else
  do_ (SetChannelReadMode channel HV_CALL_ISR);;
  mod_info pdata general_info;;
  mod_pdata pdata (set_pd_refcnt 0);;
  c ← load_chan channel;
  ring_buffer ← call (PageAddress (ch_ringbuffer_page c));
  phys ← call (VirtToPhys ring_buffer);
  fill_mem pdata TXRX_RING_MAP "txrx_rings" phys
    (u32 (Z.shiftl (ch_ringbuffer_pagecount c) PAGE_SHIFT)) UIO_MEM_IOVA;;
  conn ← gets (fun w => hs_conn (w_drv w));
  fill_mem pdata INT_PAGE_MAP "int_page" (vc_int_page conn) PAGE_SIZE UIO_MEM_LOGICAL;;
  fill_mem pdata MON_PAGE_MAP "monitor_page" (snd (vc_monitor_pages conn)) PAGE_SIZE UIO_MEM_LOGICAL;;
  probe_recv dev channel pdata.

Definition hv_uio_remove (dev : Z) : HK unit :=
  pdata ← call (DevGetDrvdata dev);
  if pdata =? NULL then mret tt else
  d ← load_hvdev dev;
  do_ (SysfsRemoveBinFile (hd_channel d));;
  uio_unregister_device pdata;;
  hv_uio_cleanup dev pdata;;
  d ← load_hvdev dev;
  vmbus_free_ring (hd_channel d).

(** ** The tables of the driver *)

(** [struct bin_attribute]: the file of the ring in the channel's directory. *)
Record bin_attribute := BinAttribute { ba_name : string; ba_mode : Z; ba_size : Z; ba_mmap : Z -> vma -> HK Z }.
Definition ring_buffer_bin_attr : bin_attribute := BinAttribute "ring" 384 (2 * SZ_2M) hv_uio_ring_mmap.

(** [struct hv_driver]; the table of identifiers is empty. *)
Record hv_driver := HvDriver { hdr_name : string; hdr_probe : Z -> HK Z; hdr_remove : Z -> HK unit }.
Definition hv_uio_drv : hv_driver := HvDriver "uio_hv_generic" hv_uio_probe hv_uio_remove.

(** ** Module *)

Definition hyperv_module_init : HK Z := call VmbusDriverRegister.
Definition hyperv_module_exit : HK unit := do_ VmbusDriverUnregister.
End driver.
