(* ===== verification/KLogic.v ===== *)
(** * Reasoning about computations in the monad

    [wp m w Q]: run from [w], [m] does not fault and ends in a state and with
    a value that satisfy [Q].  The rules below are applied by [kstep]. *)

From S2P Require Import Prelude Kernel UioTypes.

Definition wp {D A} (m : K D A) (w : world D) (Q : A -> world D -> Prop) : Prop :=
  exists a w', m w = Some (a, w') /\ Q a w'.

Section rules.
Context `{Kernel} {D : Type}.
Implicit Types w : world D.

Lemma wp_ret {A} (a : A) w (Q : A -> world D -> Prop) : Q a w -> wp (mret a) w Q.
Proof. intros HQ. exists a, w. split; [reflexivity|exact HQ]. Qed.

Lemma wp_bind {A B} (m : K D A) (f : A -> K D B) w Q :
  wp m w (fun a w' => wp (f a) w' Q) -> wp (m ≫= f) w Q.
Proof.
  intros (a & w1 & Hm & b & w2 & Hf & HQ). exists b, w2. split; [|exact HQ].
  unfold mbind, K_bind. rewrite Hm. exact Hf.
Qed.

(** A computation that faults after [m]. *)
Lemma bind_fault {A B} (m : K D A) (f : A -> K D B) w :
  wp m w (fun a w' => f a w' = None) -> (m ≫= f) w = None.
Proof. intros (a & w' & Hm & Hf). unfold mbind, K_bind. by rewrite Hm. Qed.

Lemma bind_fault_l {A B} (m : K D A) (f : A -> K D B) w : m w = None -> (m ≫= f) w = None.
Proof. intros Hm. unfold mbind, K_bind. by rewrite Hm. Qed.

Lemma wp_mono {A} (m : K D A) w (Q R : A -> world D -> Prop) :
  wp m w Q -> (forall a w', Q a w' -> R a w') -> wp m w R.
Proof. intros (a & w1 & Hm & HQ) HR. exists a, w1. eauto. Qed.

(** What a run does is what [wp] says, and the other way round. *)
Lemma wp_run {A} (m : K D A) w Q a w' : wp m w Q -> m w = Some (a, w') -> Q a w'.
Proof. intros (b & w1 & Hm & HQ) Hr. rewrite Hm in Hr. by inversion Hr; subst. Qed.

Lemma wp_intro {A} (m : K D A) w (Q : A -> world D -> Prop) a w' :
  m w = Some (a, w') -> Q a w' -> wp m w Q.
Proof. intros Hm HQ. exists a, w'. auto. Qed.

Definition logged (c : kcall) w : world D :=
  set_hist (cons (Ev c (kernel (w_hist w) c) (kernel_out (w_hist w) c))) w.

Lemma wp_call_out c w Q :
  Q (kernel (w_hist w) c, kernel_out (w_hist w) c) (logged c w) -> wp (call_out c) w Q.
Proof. intros HQ. by eexists _, _. Qed.

Lemma call_run c w : call c w = Some (kernel (w_hist w) c, logged c w).
Proof. reflexivity. Qed.

Lemma do_run c w : do_ c w = Some (tt, logged c w).
Proof. reflexivity. Qed.

Lemma wp_call c w Q : Q (kernel (w_hist w) c) (logged c w) -> wp (call c) w Q.
Proof. intros HQ. by eexists _, _. Qed.

Lemma wp_do c w (Q : unit -> world D -> Prop) : Q tt (logged c w) -> wp (do_ c) w Q.
Proof. intros HQ. by eexists _, _. Qed.

Lemma wp_gets {A} (f : world D -> A) w Q : Q (f w) w -> wp (gets f) w Q.
Proof. intros HQ. by eexists _, _. Qed.

Lemma wp_modify f w (Q : unit -> world D -> Prop) : Q tt (f w) -> wp (modify f) w Q.
Proof. intros HQ. by eexists _, _. Qed.

Lemma wp_get_some {A} (f : world D -> option A) w Q a :
  f w = Some a -> Q a w -> wp (get_some f) w Q.
Proof. intros Hf HQ. exists a, w. unfold get_some. rewrite Hf. auto. Qed.

Lemma wp_load_idev p d w Q : w_heap w !! p = Some (HIdev d) -> Q d w -> wp (load_idev p) w Q.
Proof. intros Hp. apply wp_get_some. by rewrite Hp. Qed.

Lemma wp_load_lsn p l w Q : w_heap w !! p = Some (HLsn l) -> Q l w -> wp (load_lsn p) w Q.
Proof. intros Hp. apply wp_get_some. by rewrite Hp. Qed.

Lemma wp_load_map p m w Q : w_heap w !! p = Some (HMap m) -> Q m w -> wp (load_map p) w Q.
Proof. intros Hp. apply wp_get_some. by rewrite Hp. Qed.

Lemma wp_load_info p i w Q : w_info w !! p = Some i -> Q i w -> wp (load_info p) w Q.
Proof. apply (wp_get_some (fun w => w_info w !! p)). Qed.

Lemma wp_load_priv f l w Q : w_priv w !! f = Some l -> Q l w -> wp (load_priv f) w Q.
Proof. apply (wp_get_some (fun w => w_priv w !! f)). Qed.

Lemma wp_mod_idev p d f w (Q : unit -> world D -> Prop) :
  w_heap w !! p = Some (HIdev d) -> Q tt (set_heap (insert p (HIdev (f d))) w) -> wp (mod_idev p f) w Q.
Proof. intros Hp HQ. eapply wp_bind, wp_load_idev, wp_modify; eauto. Qed.

Lemma wp_mod_lsn p l f w (Q : unit -> world D -> Prop) :
  w_heap w !! p = Some (HLsn l) -> Q tt (set_heap (insert p (HLsn (f l))) w) -> wp (mod_lsn p f) w Q.
Proof. intros Hp HQ. eapply wp_bind, wp_load_lsn, wp_modify; eauto. Qed.

Lemma wp_mod_info p i f w (Q : unit -> world D -> Prop) :
  w_info w !! p = Some i -> Q tt (set_info (insert p (f i)) w) -> wp (mod_info p f) w Q.
Proof. intros Hp HQ. eapply wp_bind, wp_load_info, wp_modify; eauto. Qed.

Lemma wp_init_obj p o w (Q : unit -> world D -> Prop) :
  Q tt (set_heap (insert p o) w) -> wp (init_obj p o) w Q.
Proof. apply wp_modify. Qed.

Lemma wp_kfree p o w (Q : unit -> world D -> Prop) :
  p <> 0 -> w_heap w !! p = Some o ->
  Q tt (set_heap (delete p) (logged (Kfree p) w)) -> wp (kfree p) w Q.
Proof.
  intros Hp Ho HQ. unfold kfree, NULL. rewrite (proj2 (Z.eqb_neq p 0) Hp).
  eapply wp_bind, wp_get_some; [exact Ho|]. apply wp_bind, wp_do. by apply wp_modify.
Qed.
End rules.

(** ** What a computation keeps

    [keeps R m]: whenever [m] ends, the state before and after are related by
    the preorder [R]; nothing is said about faults. *)
Section keeps.
Context `{Kernel} {D : Type} (R : world D -> world D -> Prop) `{!PreOrder R}.

Definition keeps {A} (m : K D A) : Prop := forall w a w', m w = Some (a, w') -> R w w'.

Lemma keeps_ret {A} (a : A) : keeps (mret a).
Proof using All. intros w b w' [= <- <-]. reflexivity. Qed.

Lemma keeps_bind {A B} (m : K D A) (f : A -> K D B) :
  keeps m -> (forall a, keeps (f a)) -> keeps (m ≫= f).
Proof using All.
  intros Hm Hf w b w' Hr. unfold mbind, K_bind in Hr. destruct (m w) as [[a w1]|] eqn:E; [|done].
  transitivity w1; [by eapply Hm|by eapply Hf].
Qed.

Lemma keeps_get {A} (f : world D -> option A) : keeps (get_some f).
Proof using All. intros w a w'. unfold get_some. case_match; [|done]. intros [= <- <-]. reflexivity. Qed.

Lemma keeps_do c : (forall w, R w (logged c w)) -> keeps (do_ c).
Proof using All. intros Hc w a w' [= <- <-]. apply Hc. Qed.

Lemma keeps_wp {A} (m : K D A) w (Q : A -> world D -> Prop) :
  keeps m -> wp m w Q -> wp m w (fun a w' => Q a w' /\ R w w').
Proof using All. intros Hk (a & w' & Hm & HQ). exists a, w'. split_and!; [done..|]. by eapply Hk. Qed.
End keeps.

(** ** Projections of an updated state

    The updates stay folded, so that a state is linear in the number of the
    steps that led to it; these equations read a field of it. *)
Section projections.
Context `{Kernel} {D : Type}.
Implicit Types w : world D.
Lemma heap_set_heap f w : w_heap (set_heap f w) = f (w_heap w). Proof. reflexivity. Qed.
Lemma info_set_heap f w : w_info (set_heap f w) = w_info w. Proof. reflexivity. Qed.
Lemma priv_set_heap f w : w_priv (set_heap f w) = w_priv w. Proof. reflexivity. Qed.
Lemma glob_set_heap f w : w_glob (set_heap f w) = w_glob w. Proof. reflexivity. Qed.
Lemma drv_set_heap f w : w_drv (set_heap f w) = w_drv w. Proof. reflexivity. Qed.
Lemma hist_set_heap f w : w_hist (set_heap f w) = w_hist w. Proof. reflexivity. Qed.
Lemma heap_set_info f w : w_heap (set_info f w) = w_heap w. Proof. reflexivity. Qed.
Lemma info_set_info f w : w_info (set_info f w) = f (w_info w). Proof. reflexivity. Qed.
Lemma priv_set_info f w : w_priv (set_info f w) = w_priv w. Proof. reflexivity. Qed.
Lemma glob_set_info f w : w_glob (set_info f w) = w_glob w. Proof. reflexivity. Qed.
Lemma drv_set_info f w : w_drv (set_info f w) = w_drv w. Proof. reflexivity. Qed.
Lemma hist_set_info f w : w_hist (set_info f w) = w_hist w. Proof. reflexivity. Qed.
Lemma heap_set_priv f w : w_heap (set_priv f w) = w_heap w. Proof. reflexivity. Qed.
Lemma info_set_priv f w : w_info (set_priv f w) = w_info w. Proof. reflexivity. Qed.
Lemma priv_set_priv f w : w_priv (set_priv f w) = f (w_priv w). Proof. reflexivity. Qed.
Lemma glob_set_priv f w : w_glob (set_priv f w) = w_glob w. Proof. reflexivity. Qed.
Lemma drv_set_priv f w : w_drv (set_priv f w) = w_drv w. Proof. reflexivity. Qed.
Lemma hist_set_priv f w : w_hist (set_priv f w) = w_hist w. Proof. reflexivity. Qed.
Lemma heap_set_glob f w : w_heap (set_glob f w) = w_heap w. Proof. reflexivity. Qed.
Lemma info_set_glob f w : w_info (set_glob f w) = w_info w. Proof. reflexivity. Qed.
Lemma priv_set_glob f w : w_priv (set_glob f w) = w_priv w. Proof. reflexivity. Qed.
Lemma glob_set_glob f w : w_glob (set_glob f w) = f (w_glob w). Proof. reflexivity. Qed.
Lemma drv_set_glob f w : w_drv (set_glob f w) = w_drv w. Proof. reflexivity. Qed.
Lemma hist_set_glob f w : w_hist (set_glob f w) = w_hist w. Proof. reflexivity. Qed.
Lemma heap_set_drv f w : w_heap (set_drv f w) = w_heap w. Proof. reflexivity. Qed.
Lemma info_set_drv f w : w_info (set_drv f w) = w_info w. Proof. reflexivity. Qed.
Lemma priv_set_drv f w : w_priv (set_drv f w) = w_priv w. Proof. reflexivity. Qed.
Lemma glob_set_drv f w : w_glob (set_drv f w) = w_glob w. Proof. reflexivity. Qed.
Lemma drv_set_drv f w : w_drv (set_drv f w) = f (w_drv w). Proof. reflexivity. Qed.
Lemma hist_set_drv f w : w_hist (set_drv f w) = w_hist w. Proof. reflexivity. Qed.
Lemma heap_set_hist f w : w_heap (set_hist f w) = w_heap w. Proof. reflexivity. Qed.
Lemma info_set_hist f w : w_info (set_hist f w) = w_info w. Proof. reflexivity. Qed.
Lemma priv_set_hist f w : w_priv (set_hist f w) = w_priv w. Proof. reflexivity. Qed.
Lemma glob_set_hist f w : w_glob (set_hist f w) = w_glob w. Proof. reflexivity. Qed.
Lemma drv_set_hist f w : w_drv (set_hist f w) = w_drv w. Proof. reflexivity. Qed.
Lemma hist_set_hist f w : w_hist (set_hist f w) = f (w_hist w). Proof. reflexivity. Qed.
Lemma heap_logged c w : w_heap (logged c w) = w_heap w. Proof. reflexivity. Qed.
Lemma info_logged c w : w_info (logged c w) = w_info w. Proof. reflexivity. Qed.
Lemma priv_logged c w : w_priv (logged c w) = w_priv w. Proof. reflexivity. Qed.
Lemma glob_logged c w : w_glob (logged c w) = w_glob w. Proof. reflexivity. Qed.
Lemma drv_logged c w : w_drv (logged c w) = w_drv w. Proof. reflexivity. Qed.
Lemma hist_logged c w : w_hist (logged c w) = Ev c (kernel (w_hist w) c) (kernel_out (w_hist w) c) :: w_hist w.
Proof. reflexivity. Qed.

(** A counter of the history after one more call. *)
Lemma count_logged d c w :
  count_of d (w_hist (logged c w)) =
  d (Ev c (kernel (w_hist w) c) (kernel_out (w_hist w) c)) + count_of d (w_hist w).
Proof. reflexivity. Qed.

Lemma live_logged c w :
  live (w_hist (logged c w)) =
  live_ev (Ev c (kernel (w_hist w) c) (kernel_out (w_hist w) c)) (live (w_hist w)).
Proof. reflexivity. Qed.

Lemma lock_logged l c w :
  lock_depth l (w_hist (logged c w)) =
  (match c with
   | MutexLock l' => if decide (l' = l) then 1 else 0
   | MutexUnlock l' => if decide (l' = l) then -1 else 0
   | _ => 0
   end) + lock_depth l (w_hist w).
Proof. unfold lock_depth. rewrite count_logged. by destruct c. Qed.

Lemma dev_refs_logged p c w :
  dev_refs p (w_hist (logged c w)) =
  (match c with
   | DeviceInitialize q | GetDevice q => if q =? p then 1 else 0
   | PutDevice q | DeviceUnregister q => if q =? p then -1 else 0
   | _ => 0
   end) + dev_refs p (w_hist w).
Proof. unfold dev_refs. rewrite count_logged. by destruct c. Qed.

Lemma waitq_logged p c w :
  waitq_len p (w_hist (logged c w)) =
  (match c with
   | AddWaitQueue q => if q =? p then 1 else 0
   | RemoveWaitQueue q => if q =? p then -1 else 0
   | _ => 0
   end) + waitq_len p (w_hist w).
Proof. unfold waitq_len. rewrite count_logged. by destruct c. Qed.

Lemma kobj_refs_logged p c w :
  kobj_refs p (w_hist (logged c w)) =
  (match c with
   | KobjectInit q => if q =? p then 1 else 0
   | KobjectCreateAndAdd _ _ => if kernel (w_hist w) c =? p then 1 else 0
   | KobjectPut q => if q =? p then -1 else 0
   | _ => 0
   end) + kobj_refs p (w_hist w).
Proof. unfold kobj_refs. rewrite count_logged. by destruct c. Qed.

Lemma irq_held_logged p c w :
  irq_held p (w_hist (logged c w)) =
  (match c with
   | RequestThreadedIrq _ _ _ q => if (q =? p) && (kernel (w_hist w) c =? 0) then 1 else 0
   | FreeIrq _ q => if q =? p then -1 else 0
   | _ => 0
   end) + irq_held p (w_hist w).
Proof. unfold irq_held. rewrite count_logged. by destruct c. Qed.

Lemma dev_added_logged p c w :
  dev_added p (w_hist (logged c w)) =
  (match c with
   | DeviceAdd q => if (q =? p) && (kernel (w_hist w) c =? 0) then 1 else 0
   | DeviceDel q | DeviceUnregister q => if q =? p then -1 else 0
   | _ => 0
   end) + dev_added p (w_hist w).
Proof. unfold dev_added. rewrite count_logged. by destruct c. Qed.

Lemma mod_refs_logged m c w :
  mod_refs m (w_hist (logged c w)) =
  (match c with
   | TryModuleGet n => if (n =? m) && negb (kernel (w_hist w) c =? 0) then 1 else 0
   | ModulePut n => if n =? m then -1 else 0
   | _ => 0
   end) + mod_refs m (w_hist w).
Proof. unfold mod_refs. rewrite count_logged. by destruct c. Qed.

Lemma drvdata_logged c w :
  drvdata_of (w_hist (logged c w)) =
  (match c with DevSetDrvdata p d => <[p := d]> (drvdata_of (w_hist w)) | _ => drvdata_of (w_hist w) end).
Proof. by destruct c. Qed.

Lemma live_logged_case c w :
  live (w_hist (logged c w)) =
  (match c with
   | Kzalloc _ | Kmalloc _ | DevmKzalloc _ =>
       if kernel (w_hist w) c =? 0 then live (w_hist w) else {[kernel (w_hist w) c]} ∪ live (w_hist w)
   | Kfree p => live (w_hist w) ∖ {[p]}
   | _ => live (w_hist w)
   end).
Proof. by destruct c. Qed.

Lemma vlive_logged c w :
  vlive (w_hist (logged c w)) =
  (match c with
   | Vzalloc _ => if kernel (w_hist w) c =? 0 then vlive (w_hist w) else {[kernel (w_hist w) c]} ∪ vlive (w_hist w)
   | Vfree p => vlive (w_hist w) ∖ {[p]}
   | _ => vlive (w_hist w)
   end).
Proof. by destruct c. Qed.

Lemma idr_logged_case c w :
  idr_of (w_hist (logged c w)) =
  (match c with
   | IdrAlloc p _ _ => if kernel (w_hist w) c <? 0 then idr_of (w_hist w)
                       else <[kernel (w_hist w) c := p]> (idr_of (w_hist w))
   | IdrRemove n => delete n (idr_of (w_hist w))
   | IdrDestroy => ∅
   | _ => idr_of (w_hist w)
   end).
Proof. by destruct c. Qed.

Lemma idr_logged c w :
  idr_of (w_hist (logged c w)) =
  idr_ev (Ev c (kernel (w_hist w) c) (kernel_out (w_hist w) c)) (idr_of (w_hist w)).
Proof. reflexivity. Qed.
End projections.

Create Rewrite HintDb world.
#[export] Hint Rewrite @heap_set_heap @info_set_heap @priv_set_heap @glob_set_heap @drv_set_heap @hist_set_heap
  @heap_set_info @info_set_info @priv_set_info @glob_set_info @drv_set_info @hist_set_info
  @heap_set_priv @info_set_priv @priv_set_priv @glob_set_priv @drv_set_priv @hist_set_priv
  @heap_set_glob @info_set_glob @priv_set_glob @glob_set_glob @drv_set_glob @hist_set_glob
  @heap_set_drv @info_set_drv @priv_set_drv @glob_set_drv @drv_set_drv @hist_set_drv
  @heap_set_hist @info_set_hist @priv_set_hist @glob_set_hist @drv_set_hist @hist_set_hist
  @heap_logged @info_logged @priv_logged @glob_logged @drv_logged : world.

#[global] Opaque logged set_heap set_info set_priv set_glob set_drv set_hist.

(** The counters of a state that ends in a list of calls. *)
Create Rewrite HintDb ghost.
#[export] Hint Rewrite @lock_logged @dev_refs_logged @mod_refs_logged @waitq_logged @drvdata_logged
  @live_logged_case @vlive_logged @idr_logged_case @kobj_refs_logged
  @irq_held_logged @dev_added_logged : ghost.

Ltac gsimpl := autorewrite with world ghost; cbn beta iota.

Ltac wsimpl := autorewrite with world in *; cbn [fst snd] in *.
Ltac wsimpl_goal := autorewrite with world; cbn [fst snd].

(** Find an object in an updated heap. *)
Ltac wlookup :=
  wsimpl_goal;
  first
    [ eassumption
    | match goal with
      | E : w_heap ?w = _ |- context [w_heap ?w] => rewrite E; wlookup
      | E : w_info ?w = _ |- context [w_info ?w] => rewrite E; wlookup
      | E : w_priv ?w = _ |- context [w_priv ?w] => rewrite E; wlookup
      end
    | rewrite lookup_insert_eq; reflexivity
    | rewrite lookup_insert_ne by (first [assumption | congruence]); wlookup
    | rewrite lookup_delete_ne by (first [assumption | congruence]); wlookup ].

(** One rule, chosen by the head of the computation; side conditions that are
    hypotheses are discharged, the others are left. *)
Ltac kstep :=
  cbn beta;
  lazymatch goal with
  | |- wp (_ ≫= _) _ _ => apply wp_bind
  | |- wp (mret _) _ _ => apply wp_ret
  | |- wp (call_out _) _ _ => apply wp_call_out
  | |- wp (call _) _ _ => apply wp_call
  | |- wp (do_ _) _ _ => apply wp_do
  | |- wp (gets _) _ _ => apply wp_gets
  | |- wp (modify _) _ _ => apply wp_modify
  | |- wp (init_obj _ _) _ _ => apply wp_init_obj
  | |- wp (load_idev _) _ _ => eapply wp_load_idev; [wlookup|]
  | |- wp (load_lsn _) _ _ => eapply wp_load_lsn; [wlookup|]
  | |- wp (load_map _) _ _ => eapply wp_load_map; [wlookup|]
  | |- wp (load_info _) _ _ => eapply wp_load_info; [wlookup|]
  | |- wp (load_priv _) _ _ => eapply wp_load_priv; [wlookup|]
  | |- wp (mod_idev _ _) _ _ => eapply wp_mod_idev; [wlookup|]
  | |- wp (mod_lsn _ _) _ _ => eapply wp_mod_lsn; [wlookup|]
  | |- wp (mod_info _ _) _ _ => eapply wp_mod_info; [wlookup|]
  | |- wp (get_some _) _ _ => eapply wp_get_some; [wlookup|]
  end.

Ltac ksteps := repeat kstep.

(** Split on the test of a conditional computation. *)
Ltac kif E :=
  cbn beta;
  lazymatch goal with
  | |- wp (if ?b then _ else _) _ _ => destruct b eqn:E
  end.

(** Decide a closed test. *)
Ltac kred :=
  cbv beta zeta;
  lazymatch goal with
  | |- wp (if ?b then _ else _) _ _ =>
      let v := eval vm_compute in b in
      lazymatch v with
      | true => change b with true
      | false => change b with false
      end; cbv iota
  end.
