(* ===== verification/CoreStep.v ===== *)
(** * What registration and unregistration leave alone

    [core_step X w w']: the driver's state, the open files and the globals are
    the same; the slab objects of others (live addresses the core has no object
    at) stay; the fields of an info the driver filled in stay; no VMBus or
    vmalloc call was made.  [X] are addresses the core has just allocated. *)

From S2P Require Import Prelude Kernel UioTypes UioAttr UioDevice KLogic.

(** A call the two functions may make. *)
Definition core_call (c : kcall) : bool :=
  match c with
  | Vzalloc _ | Vfree _ | VmbusConnectRing _ | VmbusDisconnectRing _ | VmbusAllocRing _ _ _ | VmbusFreeRing _
  | VmbusEstablishGpadl _ _ _ | VmbusTeardownGpadl _ _ => false
  | _ => true
  end.

(** What a driver filled in. *)
Definition mem_static (m : uio_mem) := (m_name m, m_addr m, m_dma_addr m, m_offs m, m_size m, m_memtype m, m_dma_device m).
Definition port_static (p : uio_port) := (p_name p, p_start p, p_size p, p_porttype p).
Definition info_static (i : uio_info) :=
  (i_name i, i_version i, map mem_static (i_mem i), map port_static (i_port i), i_irq i, i_irq_flags i,
   i_handler i, i_mmap i, (i_open i, i_release i, i_irqcontrol i, i_priv i)).

Section step.
Context `{Kernel, Uapi} {D : Type}.
Implicit Types (w : world D) (X : gset Z).

Record core_step X w w' : Prop := CoreStep {
  cs_drv : w_drv w' = w_drv w;
  cs_priv : w_priv w' = w_priv w;
  cs_glob : w_glob w' = w_glob w;
  cs_other p : p <> 0 -> p ∈ live (w_hist w) -> w_heap w !! p = None -> p ∉ X ->
    p ∈ live (w_hist w') /\ w_heap w' !! p = None /\
    drvdata_of (w_hist w') !! p = drvdata_of (w_hist w) !! p;
  cs_info p : info_static <$> w_info w' !! p = info_static <$> w_info w !! p;
  cs_hist : exists evs, w_hist w' = evs ++ w_hist w /\ Forall (fun e => core_call (ev_call e) = true) evs }.

#[export] Instance core_step_preorder X : PreOrder (core_step X).
Proof.
  split.
  - intros w. split; auto. by exists [].
  - intros w1 w2 w3 [E1 E2 E3 E4 E5 (v1 & E6 & E7)] [G1 G2 G3 G4 G5 (v2 & G6 & G7)].
    split; [congruence|congruence|congruence| |intros; by rewrite G5|].
    + intros p Hnz H1 H2 H3. destruct (E4 p) as (? & ? & <-); auto.
    + exists (v2 ++ v1). rewrite G6, E6, app_assoc. split; [done|]. by apply Forall_app.
Qed.

Lemma core_step_mono X Y w w' : X ⊆ Y -> core_step X w w' -> core_step Y w w'.
Proof. intros HX [E1 E2 E3 E4 E5 E6]. split; auto. Qed.

(** Calls that change neither [live] nor the driver data. *)
Definition plain_call (c : kcall) : bool :=
  core_call c && match c with Kfree _ | DevSetDrvdata _ _ => false | _ => true end.

Lemma core_step_logged X c w : plain_call c = true -> core_step X w (logged c w).
Proof.
  intros Hc. split; try by wsimpl_goal.
  - intros p Hnz Hp Hn HX. rewrite drvdata_logged, live_logged_case. wsimpl_goal. split_and!; [|done|by destruct c].
    destruct c; try done; case_match; set_solver.
  - eexists [_]. split; [by wsimpl_goal|]. constructor; [|done]. by destruct c.
Qed.

Lemma keeps_call_step X c : plain_call c = true -> keeps (core_step X) (call (D:=D) c).
Proof. intros Hc w a w'. rewrite call_run. intros [= <- <-]. by apply core_step_logged. Qed.

Lemma keeps_do_step X c : plain_call c = true -> keeps (core_step X) (do_ (D:=D) c).
Proof. intros Hc. apply keeps_do; [apply _|]. intros w. by apply core_step_logged. Qed.

Lemma keeps_set_drvdata X p : p ∈ X -> keeps (core_step X) (do_ (D:=D) (DevSetDrvdata p p)).
Proof.
  intros Hp. apply keeps_do; [apply _|]. intros w. split; try by wsimpl_goal.
  - intros q Hnz Hq Hn HX. rewrite drvdata_logged, live_logged_case. wsimpl_goal. split_and!; [done..|].
    rewrite lookup_insert_ne; [done|]. by intros ->.
  - eexists [_]. split; [by wsimpl_goal|]. by repeat constructor.
Qed.

Lemma keeps_init X p o : p ∈ X -> keeps (core_step X) (init_obj (D:=D) p o).
Proof.
  intros Hp w a w' [= <- <-]. split; try by wsimpl_goal.
  - intros q Hnz Hq Hn HX. wsimpl_goal. rewrite lookup_insert_ne; [done|]. by intros ->.
  - exists []. split; [by wsimpl_goal|done].
Qed.

Lemma keeps_mod_idev X p f : keeps (core_step X) (mod_idev (D:=D) p f).
Proof.
  intros w a w'. unfold mod_idev, load_idev, get_some, modify, mbind, K_bind.
  destruct (w_heap w !! p) as [[d|?|?|?]|] eqn:E; cbn; intros [= <- <-]. split; try by wsimpl_goal.
  - intros q Hnz Hq Hn HX. wsimpl_goal. rewrite lookup_insert_ne; [done|]. intros ->. congruence.
  - exists []. split; [by wsimpl_goal|done].
Qed.

Lemma keeps_mod_info X p f : (forall i, info_static (f i) = info_static i) -> keeps (core_step X) (mod_info (D:=D) p f).
Proof.
  intros Hf w a w'. unfold mod_info, load_info, get_some, modify, mbind, K_bind.
  destruct (w_info w !! p) as [i|] eqn:E; cbn; intros [= <- <-]. split; try by wsimpl_goal.
  - intros q. wsimpl_goal. destruct (decide (p = q)) as [<-|]; [|by rewrite lookup_insert_ne].
    rewrite lookup_insert_eq, E. cbn. by rewrite Hf.
  - exists []. split; [by wsimpl_goal|done].
Qed.

Lemma keeps_kfree X p : keeps (core_step X) (kfree (D:=D) p).
Proof.
  intros w a w'. unfold kfree. destruct (Z.eqb_spec p NULL) as [->|Hp].
  - rewrite do_run. intros [= <- <-]. split; try by wsimpl_goal.
    + intros q Hnz Hq Hn HX. gsimpl. split_and!; [set_solver|done|done].
    + eexists [_]. split; [by wsimpl_goal|]. by repeat constructor.
  - unfold get_some, modify, mbind, K_bind. destruct (w_heap w !! p) as [o|] eqn:E; [|done].
    rewrite do_run. cbn. intros [= <- <-]. split; try by wsimpl_goal.
    + intros q Hnz Hq Hn HX. gsimpl. assert (p <> q) by congruence.
      rewrite lookup_delete_ne by done. split_and!; [set_solver|done|done].
    + eexists [_]. split; [by wsimpl_goal|]. by repeat constructor.
Qed.

(** An allocation: the new address is fresh. *)
Lemma keeps_kzalloc `{!KernelOk} {A} X o (f : K D A) (g : Z -> K D A) :
  keeps (core_step X) f -> (forall p, keeps (core_step ({[p]} ∪ X)) (g p)) ->
  keeps (core_step X) (p ← call (Kzalloc o); if p =? NULL then f else g p).
Proof.
  intros Hf Hg w a w' Hr. unfold mbind, K_bind in Hr. rewrite call_run in Hr.
  set (p := kernel (w_hist w) (Kzalloc o)) in *. set (w1 := logged (Kzalloc o) w) in Hr.
  assert (S : core_step X w w1) by by apply (core_step_logged X (Kzalloc o)).
  destruct (Z.eqb_spec p NULL) as [E|E].
  { etransitivity; [exact S|]. by eapply Hf. }
  pose proof (Hg p w1 a w' Hr) as [E1 E2 E3 E4 E5 (v & E6 & E7)].
  destruct S as [S1 S2 S3 S4 S5 (v' & S6 & S7)].
  split; [congruence|congruence|congruence| |intros; by rewrite E5|].
  - intros q Hnz Hq Hn HX. destruct (S4 q) as (? & ? & <-); auto. apply E4; auto.
    intros [->%elem_of_singleton|?]%elem_of_union; [|done].
    destruct (alloc_fresh (w_hist w) (Kzalloc o) I) as [?|[_ ?]]; done.
  - exists (v ++ v'). rewrite E6, S6, app_assoc. split; [done|]. by apply Forall_app.
Qed.

Lemma keeps_load X {A} (f : world D -> option A) : keeps (core_step X) (get_some f).
Proof using All. apply keeps_get, _. Qed.
Lemma keeps_ret_step X {A} (a : A) : keeps (core_step X) (mret a).
Proof using All. apply keeps_ret, _. Qed.
Lemma keeps_bind_step X {A B} (m : K D A) (f : A -> K D B) :
  keeps (core_step X) m -> (forall a, keeps (core_step X) (f a)) -> keeps (core_step X) (m ≫= f).
Proof using All. apply keeps_bind, _. Qed.
Lemma keeps_gets X {A} (f : world D -> A) : keeps (core_step X) (gets f).
Proof using All. intros w a w' [= <- <-]. reflexivity. Qed.
End step.

(** A computation of primitives, one step at a time. *)
Ltac core_keep :=
  first
    [ apply keeps_ret_step | apply keeps_gets | apply keeps_load
    | apply keeps_mod_idev | apply keeps_mod_info; reflexivity | apply keeps_kfree
    | apply keeps_init; set_solver | apply keeps_set_drvdata; set_solver
    | apply keeps_do_step; reflexivity | apply keeps_call_step; reflexivity
    | apply keeps_kzalloc; [|intros]
    | apply keeps_bind_step; [|intros]
    | case_match | progress cbn beta zeta ].

Section reg_step.
Context `{HK : Kernel, HKok : !KernelOk, HU : Uapi} {D : Type}.
Set Default Proof Using "All".
Implicit Types (w : world D) (X : gset Z).

Lemma map_static_insert l k m f :
  l !! k = Some m -> mem_static (f m) = mem_static m -> map mem_static (<[k := f m]> l) = map mem_static l.
Proof.
  intros Hk Hf. rewrite list_fmap_insert, Hf. apply list_insert_id. rewrite list_lookup_fmap. by rewrite Hk.
Qed.
Lemma port_static_insert l k m f :
  l !! k = Some m -> port_static (f m) = port_static m -> map port_static (<[k := f m]> l) = map port_static l.
Proof.
  intros Hk Hf. rewrite list_fmap_insert, Hf. apply list_insert_id. rewrite list_lookup_fmap. by rewrite Hk.
Qed.

Lemma keeps_load_mem_step X p : keeps (core_step X) (load_mem (D:=D) p).
Proof. unfold load_mem, load_info. repeat core_keep. Qed.
Lemma keeps_load_port_step X p : keeps (core_step X) (load_port (D:=D) p).
Proof. unfold load_port, load_info. repeat core_keep. Qed.

(** A store to an entry of the arrays that keeps what the driver filled in. *)
Lemma keeps_mod_mem X p f : (forall m, mem_static (f m) = mem_static m) -> keeps (core_step X) (mod_mem (D:=D) p f).
Proof.
  intros Hf w a w'. unfold mod_mem, load_mem, mod_info, load_info, get_some, modify, mbind, K_bind.
  destruct (w_info w !! p.1) as [i|] eqn:E; cbn; [|done].
  destruct (i_mem i !! p.2) as [m|] eqn:Em; cbn; [|done]. rewrite E. intros [= <- <-]. split; try by wsimpl_goal.
  - intros q. wsimpl_goal. destruct (decide (p.1 = q)) as [<-|]; [|by rewrite lookup_insert_ne].
    rewrite lookup_insert_eq, E. cbn. unfold info_static, upd_mem. cbn. by rewrite map_static_insert.
  - exists []. split; [by wsimpl_goal|done].
Qed.
Lemma keeps_mod_port X p f : (forall m, port_static (f m) = port_static m) -> keeps (core_step X) (mod_port (D:=D) p f).
Proof.
  intros Hf w a w'. unfold mod_port, load_port, mod_info, load_info, get_some, modify, mbind, K_bind.
  destruct (w_info w !! p.1) as [i|] eqn:E; cbn; [|done].
  destruct (i_port i !! p.2) as [m|] eqn:Em; cbn; [|done]. rewrite E. intros [= <- <-]. split; try by wsimpl_goal.
  - intros q. wsimpl_goal. destruct (decide (p.1 = q)) as [<-|]; [|by rewrite lookup_insert_ne].
    rewrite lookup_insert_eq, E. cbn. unfold info_static, upd_port. cbn. by rewrite port_static_insert.
  - exists []. split; [by wsimpl_goal|done].
Qed.

Ltac reg_keep :=
  first
    [ apply keeps_load_mem_step | apply keeps_load_port_step
    | apply keeps_mod_mem; reflexivity | apply keeps_mod_port; reflexivity
    | core_keep | unfold load_idev, load_info; core_keep ].

Lemma keeps_add_maps idev n : forall X k b, keeps (core_step X) (add_maps (D:=D) n k b idev).
Proof. induction n as [|n IH]; intros X k b; cbn [add_maps]; repeat (apply IH || reg_keep). Qed.
Lemma keeps_add_ports idev n : forall X k b, keeps (core_step X) (add_ports (D:=D) n k b idev).
Proof. induction n as [|n IH]; intros X k b; cbn [add_ports]; repeat (apply IH || reg_keep). Qed.
Lemma keeps_put_maps X idev n : keeps (core_step X) (put_maps (D:=D) n idev).
Proof. induction n as [|n IH]; cbn [put_maps]; repeat (apply IH || reg_keep). Qed.
Lemma keeps_put_ports X idev n : keeps (core_step X) (put_ports (D:=D) n idev).
Proof. induction n as [|n IH]; cbn [put_ports]; repeat (apply IH || reg_keep). Qed.
Lemma keeps_step_del_maps X idev n : forall k, keeps (core_step X) (del_maps (D:=D) n k idev).
Proof. induction n as [|n IH]; intros k; cbn [del_maps]; repeat (apply IH || reg_keep). Qed.
Lemma keeps_step_del_ports X idev n : forall k, keeps (core_step X) (del_ports (D:=D) n k idev).
Proof. induction n as [|n IH]; intros k; cbn [del_ports]; repeat (apply IH || reg_keep). Qed.

Lemma keeps_add_attributes X idev : keeps (core_step X) (uio_dev_add_attributes (D:=D) idev).
Proof.
  unfold uio_dev_add_attributes, err_portio_kobj, err_map_kobj.
  repeat (apply keeps_add_maps || apply keeps_add_ports || apply keeps_put_maps || apply keeps_put_ports || reg_keep).
Qed.
Lemma keeps_del_attributes X idev : keeps (core_step X) (uio_dev_del_attributes (D:=D) idev).
Proof.
  unfold uio_dev_del_attributes. repeat (apply keeps_step_del_maps || apply keeps_step_del_ports || reg_keep).
Qed.

Lemma keeps_register X owner parent info : keeps (core_step X) (__uio_register_device (D:=D) owner parent info).
Proof.
  unfold __uio_register_device, register_args_bad, uio_get_minor, err_request_irq, err_uio_dev_add_attributes,
    err_device_create, uio_free_minor.
  repeat (apply keeps_add_attributes || apply keeps_del_attributes || reg_keep).
Qed.
Lemma keeps_unregister X info : keeps (core_step X) (uio_unregister_device (D:=D) info).
Proof.
  unfold uio_unregister_device, uio_free_minor. repeat (apply keeps_del_attributes || reg_keep).
Qed.
End reg_step.
