(* ===== verification/UioInv.v ===== *)
(** * The invariant of the UIO core and the interface of a driver

    [core_inv w F]: the memory and the history of the core fit together, [F]
    being the set of files that are open on UIO devices.  [UioDriverOk] is what
    a driver promises for its callbacks; [UioSpec] proves the core against it
    and [HvSpec] gives the instance of the VMBus driver. *)

From S2P Require Import Prelude Kernel UioTypes UioAttr UioDevice UioFile UioMmap KLogic.

(** ** Calls a driver callback may make

    None of them is seen by the ghost functions of the core. *)
Definition driver_call (c : kcall) : bool :=
  match c with
  | StoreInterruptMask _ _ | VirtMb | VmbusSetevent _ | VmbusOpen _ _ _ | VmbusClose _
  | SetChannelReadMode _ _ | VmbusSetRescindCallback _ | VmbusSetScCreateCallback _
  | VmbusConnectRing _ | VmbusDisconnectRing _ | VmIomapMemory _ _ _
  | VmbusAllocRing _ _ _ | VmbusFreeRing _ | VmbusEstablishGpadl _ _ _ | VmbusTeardownGpadl _ _
  | VmbusDeviceUnregister _ | Vzalloc _ | Vfree _ | SysfsCreateBinFile _ | SysfsRemoveBinFile _
  | DevGetDrvdata _ | PageAddress _ | VirtToPhys _ => true
  | _ => false
  end.

Definition driver_event (e : event) : Prop := driver_call (ev_call e) = true.

(** A callback leaves the core's memory alone. *)
Record core_frame {D} (w w' : world D) : Prop := CoreFrame {
  cf_heap : w_heap w' = w_heap w;
  cf_info : w_info w' = w_info w;
  cf_priv : w_priv w' = w_priv w;
  cf_glob : w_glob w' = w_glob w;
  cf_hist : exists evs, w_hist w' = evs ++ w_hist w /\ Forall driver_event evs }.

(** The fields of an info a driver may rely on. *)
Definition drv_fields (i : uio_info) : Z * Z * Z * Z * Z * Z * Z :=
  (i_irq i, i_handler i, i_mmap i, i_open i, i_release i, i_irqcontrol i, i_priv i).

(** How many opens a driver can count. *)
Definition max_opens : nat := Z.to_nat (2 ^ 31 - 2).

Lemma max_opens_val : Z.of_nat max_opens = 2 ^ 31 - 2.
Proof. unfold max_opens. by rewrite Z2Nat.id by lia. Qed.
#[global] Opaque max_opens.

(** The promise of a driver.  [drv_inv σ w] is its own invariant: [σ] maps each
    registered info to the number of times it is open. *)
Class UioDriverOk `{Kernel, Uapi} (D : Type) `{!UioDriver D} := {
  drv_inv : gmap Z nat -> world D -> Prop;
  drv_inv_core σ w w' :
    w_drv w' = w_drv w ->
    (forall p, drv_fields <$> w_info w' !! p = drv_fields <$> w_info w !! p) ->
    drv_inv σ w -> drv_inv σ w';
  drv_inv_del σ w p : drv_inv σ w -> drv_inv (delete p σ) w;
  (** a driver is ready to have an info registered *)
  drv_ready : Z -> world D -> Prop;
  drv_inv_ready σ w p : drv_ready p w -> drv_inv σ w -> drv_inv (<[p := 0%nat]> σ) w;
  drv_inv_null_open σ w p i n :
    w_info w !! p = Some i -> i_open i = 0 -> σ !! p = Some n ->
    drv_inv σ w -> drv_inv (<[p := S n]> σ) w;
  drv_inv_null_release σ w p i n :
    w_info w !! p = Some i -> i_release i = 0 -> σ !! p = Some (S n) ->
    drv_inv σ w -> drv_inv (<[p := n]> σ) w;
  drv_open_ok σ w p i n inode :
    w_info w !! p = Some i -> i_open i <> 0 -> σ !! p = Some n -> (n <= max_opens)%nat ->
    drv_inv σ w ->
    wp (drv_open (i_open i) p inode) w (fun r w' =>
      core_frame w w' /\ drv_inv (if r =? 0 then <[p := S n]> σ else σ) w');
  drv_release_ok σ w p i n inode :
    w_info w !! p = Some i -> i_release i <> 0 -> σ !! p = Some (S n) ->
    drv_inv σ w ->
    wp (drv_release (i_release i) p inode) w (fun _ w' =>
      core_frame w w' /\ drv_inv (<[p := n]> σ) w');
  drv_irqcontrol_ok σ w p i n s :
    w_info w !! p = Some i -> i_irqcontrol i <> 0 -> σ !! p = Some (S n) ->
    drv_inv σ w ->
    wp (drv_irqcontrol (i_irqcontrol i) p s) w (fun _ w' => core_frame w w' /\ drv_inv σ w');
  drv_mmap_ok σ w p i n v :
    w_info w !! p = Some i -> i_mmap i <> 0 -> σ !! p = Some (S n) ->
    drv_inv σ w ->
    wp (drv_mmap (i_mmap i) p v) w (fun _ w' => core_frame w w' /\ drv_inv σ w');
  drv_handler_ok σ w p i n irq :
    w_info w !! p = Some i -> σ !! p = Some n -> i_irq i <> 0 -> i_irq i <> UIO_IRQ_CUSTOM ->
    drv_inv σ w ->
    wp (drv_handler (i_handler i) irq p) w (fun _ w' => core_frame w w' /\ drv_inv σ w') }.

Arguments UioDriverOk {_ _} D {_}.

(** ** Frames *)

Section frame.
Context {D : Type}.
Implicit Types w : world D.

Lemma core_frame_refl w : core_frame w w.
Proof. split; auto. by exists []. Qed.

Lemma core_frame_trans w1 w2 w3 : core_frame w1 w2 -> core_frame w2 w3 -> core_frame w1 w3.
Proof.
  intros [? ? ? ? (e1 & H1 & F1)] [? ? ? ? (e2 & H2 & F2)]. split; try congruence.
  exists (e2 ++ e1). rewrite H2, H1, app_assoc. split; [reflexivity|]. by apply Forall_app.
Qed.

Lemma frame_count d w w' :
  (forall e, driver_event e -> d e = 0) -> core_frame w w' ->
  count_of d (w_hist w') = count_of d (w_hist w).
Proof.
  intros Hd [? ? ? ? (evs & -> & Hevs)]. rewrite count_of_app, count_of_zero; [lia|].
  eapply Forall_impl; eauto.
Qed.

Lemma driver_event_neutral e :
  driver_event e ->
  (forall s, live_ev e s = s) /\ (forall m, idr_ev e m = m) /\
  (forall p, dev_delta p e = 0) /\ (forall m, mod_delta m e = 0) /\
  (forall l, lock_delta l e = 0) /\ (forall p, waitq_delta p e = 0) /\
  (forall m, drvdata_ev e m = m).
Proof.
  destruct e as [c r o]. unfold driver_event, driver_call. cbn.
  destruct c; intros He; try discriminate He; repeat split.
Qed.

Lemma frame_live w w' : core_frame w w' -> live (w_hist w') = live (w_hist w).
Proof.
  intros [? ? ? ? (evs & -> & Hevs)]. induction Hevs as [|e evs He _ IH]; [reflexivity|].
  simpl. rewrite IH. by apply driver_event_neutral.
Qed.

Lemma frame_idr w w' : core_frame w w' -> idr_of (w_hist w') = idr_of (w_hist w).
Proof.
  intros [? ? ? ? (evs & -> & Hevs)]. induction Hevs as [|e evs He _ IH]; [reflexivity|].
  simpl. rewrite IH. by apply driver_event_neutral.
Qed.

Lemma frame_drvdata w w' : core_frame w w' -> drvdata_of (w_hist w') = drvdata_of (w_hist w).
Proof.
  intros [? ? ? ? (evs & -> & Hevs)]. induction Hevs as [|e evs He _ IH]; [reflexivity|].
  simpl. rewrite IH. by apply driver_event_neutral.
Qed.

Lemma frame_dev_refs p w w' : core_frame w w' -> dev_refs p (w_hist w') = dev_refs p (w_hist w).
Proof. apply frame_count. intros e He. by apply driver_event_neutral. Qed.
Lemma frame_mod_refs p w w' : core_frame w w' -> mod_refs p (w_hist w') = mod_refs p (w_hist w).
Proof. apply frame_count. intros e He. by apply driver_event_neutral. Qed.
Lemma frame_dev_added p w w' : core_frame w w' -> dev_added p (w_hist w') = dev_added p (w_hist w).
Proof. apply frame_count. intros [c r o]. by destruct c. Qed.
Lemma frame_irq_held p w w' : core_frame w w' -> irq_held p (w_hist w') = irq_held p (w_hist w).
Proof. apply frame_count. intros [c r o]. by destruct c. Qed.
Lemma frame_kobj_refs p w w' : core_frame w w' -> kobj_refs p (w_hist w') = kobj_refs p (w_hist w).
Proof. apply frame_count. intros [c r o]. by destruct c. Qed.
Lemma frame_lock_depth l w w' : core_frame w w' -> lock_depth l (w_hist w') = lock_depth l (w_hist w).
Proof. apply frame_count. intros e He. by apply driver_event_neutral. Qed.
End frame.

(** ** The invariant *)

(** How many files of [F] the function [k] sends to [x]. *)
Definition count_files (k : Z -> option Z) (F : gset Z) (x : Z) : nat :=
  size (filter (fun f => k f = Some x) F).

Section count.
Implicit Types (k : Z -> option Z) (F : gset Z).

Lemma count_ext k k' F x :
  (forall f, f ∈ F -> k' f = k f) -> count_files k' F x = count_files k F x.
Proof.
  intros Hs. unfold count_files. f_equal. apply set_eq. intros f. rewrite !elem_of_filter.
  split; intros [Hd Hf]; split; auto; [rewrite <- Hs|rewrite Hs]; auto.
Qed.

Lemma count_pos k F f x : f ∈ F -> k f = Some x -> (0 < count_files k F x)%nat.
Proof.
  intros Hf Hd. unfold count_files.
  destruct (decide (size (filter (fun g => k g = Some x) F) = 0%nat)) as [Hz|]; [|lia].
  apply size_empty_inv in Hz. exfalso.
  apply (not_elem_of_empty (C:=gset Z) f), (Hz f). by apply elem_of_filter.
Qed.

Lemma count_add k k' F f x y :
  f ∉ F -> k' f = Some y -> (forall g, g ∈ F -> k' g = k g) ->
  count_files k' ({[f]} ∪ F) x = (if decide (y = x) then S (count_files k F x) else count_files k F x).
Proof.
  intros Hf Hd Hs. rewrite <- (count_ext k k' F x Hs). unfold count_files.
  case_decide as Hq.
  - replace (filter _ ({[f]} ∪ F)) with ({[f]} ∪ filter (fun g => k' g = Some x) F).
    + rewrite size_union, size_singleton; [lia|]. intros z Hz%elem_of_singleton Hz2%elem_of_filter.
      subst z. tauto.
    + apply set_eq. intros z. rewrite elem_of_union, !elem_of_filter, elem_of_union, elem_of_singleton.
      split; [intros [->|[? ?]]; [split; [congruence|auto]|auto]|]. intros [? [->|?]]; auto.
  - f_equal. apply set_eq. intros z. rewrite !elem_of_filter, elem_of_union, elem_of_singleton.
    split; [|intros [? ?]; auto]. intros [Hz [->|?]]; [congruence|auto].
Qed.

Lemma count_remove k k' F f x y :
  f ∈ F -> k f = Some y -> (forall g, g ∈ F -> g <> f -> k' g = k g) ->
  count_files k F x =
  (if decide (y = x) then S (count_files k' (F ∖ {[f]}) x) else count_files k' (F ∖ {[f]}) x).
Proof.
  intros Hf Hd Hs. rewrite (count_ext k k' (F ∖ {[f]}) x) by (intros g ?; apply Hs; set_solver).
  rewrite <- (count_add k k (F ∖ {[f]}) f x y) by (try set_solver; auto).
  f_equal. apply set_eq. intros z. destruct (decide (z = f)); set_solver.
Qed.
End count.

Section inv.
Context `{Kernel, Uapi} {D : Type} `{!UioDriver D, !UioDriverOk D}.
Implicit Types (w : world D) (F : gset Z) (σ : gmap Z nat).

(** The device a file is open on, and the module that owns it. *)
Definition dev_of w (f : Z) : option Z :=
  l ← w_priv w !! f; lst ← as_lsn (w_heap w !! l); Some (l_dev lst).
Definition owner_of w (f : Z) : option Z :=
  p ← dev_of w f; d ← as_idev (w_heap w !! p); Some (d_owner d).

(** How many open files a device, and a module, has. *)
Definition opens w F : Z -> nat := count_files (dev_of w) F.
Definition owner_opens w F : Z -> nat := count_files (owner_of w) F.

(** The device is the owner of its minor number. *)
Definition registered w (p : Z) (d : uio_device) : Prop :=
  idr_of (w_hist w) !! d_minor d = Some p.

#[export] Instance registered_dec w p d : Decision (registered w p d).
Proof. unfold registered. apply _. Defined.

Definition reg_count w p d : Z := if decide (registered w p d) then 1 else 0.

Lemma reg_count_ext w w' p d d' :
  (registered w' p d' <-> registered w p d) -> reg_count w' p d' = reg_count w p d.
Proof. intros Hr. unfold reg_count. do 2 case_decide; tauto. Qed.

(** The arrays of an info have the sizes the header declares. *)
Definition info_shape (i : uio_info) : Prop :=
  length (i_mem i) = MAX_UIO_MAPS /\ length (i_port i) = MAX_UIO_PORT_REGIONS.

(** Objects are at live addresses. *)
Definition heap_live w : Prop :=
  forall p o, w_heap w !! p = Some o -> 0 < p /\ p ∈ live (w_hist w).

Record core_inv w F σ : Prop := CoreInv {
  ci_live : heap_live w;
  ci_file f : f ∈ F -> exists l lst d,
    w_priv w !! f = Some l /\ w_heap w !! l = Some (HLsn lst) /\
    w_heap w !! l_dev lst = Some (HIdev d);
  ci_inj f g l : f ∈ F -> g ∈ F -> w_priv w !! f = Some l -> w_priv w !! g = Some l -> f = g;
  ci_idr m p : idr_of (w_hist w) !! m = Some p -> exists d i,
    w_heap w !! p = Some (HIdev d) /\ d_minor d = m /\ d_info d <> 0 /\
    w_info w !! d_info d = Some i /\ i_uio_dev i = p /\ info_shape i;
  ci_info p d : w_heap w !! p = Some (HIdev d) -> d_info d <> 0 ->
    registered w p d \/ dev_refs p (w_hist w) = 0;
  ci_refs p d : w_heap w !! p = Some (HIdev d) ->
    dev_refs p (w_hist w) = reg_count w p d + Z.of_nat (opens w F p);
  ci_norefs p : (forall d, w_heap w !! p <> Some (HIdev d)) -> dev_refs p (w_hist w) = 0;
  ci_mods m : mod_refs m (w_hist w) = Z.of_nat (owner_opens w F m);
  ci_drvdata p d : w_heap w !! p = Some (HIdev d) -> drvdata_of (w_hist w) !! p = Some p;
  ci_lock l : lock_depth l (w_hist w) = 0;
  ci_drv : drv_inv σ w;
  ci_opens p d : w_heap w !! p = Some (HIdev d) -> registered w p d ->
    σ !! d_info d = Some (opens w F p) }.

(** An open file keeps its device, its listener and, while the device has an
    info, the registration. *)
Lemma dev_of_some w f l lst :
  w_priv w !! f = Some l -> w_heap w !! l = Some (HLsn lst) -> dev_of w f = Some (l_dev lst).
Proof. intros Hp Hl. unfold dev_of. rewrite Hp. simpl. by rewrite Hl. Qed.

Lemma owner_of_some w f p d :
  dev_of w f = Some p -> w_heap w !! p = Some (HIdev d) -> owner_of w f = Some (d_owner d).
Proof. intros Hp Hl. unfold owner_of. rewrite Hp. simpl. by rewrite Hl. Qed.

Lemma open_file w F σ f : core_inv w F σ -> f ∈ F -> exists l lst d,
  w_priv w !! f = Some l /\ w_heap w !! l = Some (HLsn lst) /\
  w_heap w !! l_dev lst = Some (HIdev d) /\ dev_of w f = Some (l_dev lst) /\
  (d_info d <> 0 -> registered w (l_dev lst) d).
Proof.
  intros Hi Hf. destruct (ci_file _ _ _ Hi f Hf) as (l & lst & d & Hp & Hl & Hd).
  pose proof (dev_of_some _ _ _ _ Hp Hl) as Hdev.
  exists l, lst, d. repeat split; auto. intros Hn.
  destruct (ci_info _ _ _ Hi _ _ Hd Hn) as [Hr|Hz]; [exact Hr|].
  rewrite (ci_refs _ _ _ Hi _ _ Hd) in Hz. pose proof (count_pos _ F f _ Hf Hdev) as Hpos.
  fold (opens w F (l_dev lst)) in Hpos. unfold reg_count in Hz. case_decide; lia.
Qed.

Lemma registered_info w F σ p d : core_inv w F σ -> w_heap w !! p = Some (HIdev d) ->
  registered w p d -> exists i,
  d_info d <> 0 /\ w_info w !! d_info d = Some i /\ i_uio_dev i = p /\ info_shape i.
Proof.
  intros Hi Hp Hr. destruct (ci_idr _ _ _ Hi _ _ Hr) as (d' & i & Hp' & ? & ? & ? & ? & ?).
  rewrite Hp in Hp'. injection Hp' as <-. eauto.
Qed.

(** *** Steps that change nothing the invariant sees *)

(** What the invariant sees of a heap object and of an info. *)
Definition hview (o : option hobj) : option (Z * Z * Z + Z) :=
  match o with
  | Some (HIdev d) => Some (inl (d_owner d, d_info d, d_minor d))
  | Some (HLsn l) => Some (inr (l_dev l))
  | _ => None
  end.

Definition iview (i : uio_info) := (i_uio_dev i, length (i_mem i), length (i_port i), drv_fields i).

Lemma iview_upd_mem k m i : iview (upd_mem (insert k m) i) = iview i.
Proof. unfold iview, upd_mem. cbn. by rewrite length_insert. Qed.

Lemma iview_upd_port k m i : iview (upd_port (insert k m) i) = iview i.
Proof. unfold iview, upd_port. cbn. by rewrite length_insert. Qed.

Record quiet F w w' : Prop := Quiet {
  q_idr : idr_of (w_hist w') = idr_of (w_hist w);
  q_refs p : dev_refs p (w_hist w') = dev_refs p (w_hist w);
  q_mods m : mod_refs m (w_hist w') = mod_refs m (w_hist w);
  q_drvdata : drvdata_of (w_hist w') = drvdata_of (w_hist w);
  q_lock l : lock_depth l (w_hist w') = lock_depth l (w_hist w);
  q_heap p : hview (w_heap w' !! p) = hview (w_heap w !! p);
  q_alive : heap_live w -> heap_live w';
  q_priv f : f ∈ F -> w_priv w' !! f = w_priv w !! f;
  q_info p : iview <$> w_info w' !! p = iview <$> w_info w !! p }.

Lemma hview_idev o d : hview o = hview (Some (HIdev d)) ->
  exists d', o = Some (HIdev d') /\ d_owner d' = d_owner d /\ d_info d' = d_info d /\ d_minor d' = d_minor d.
Proof.
  destruct o as [[d'|l|m|q]|]; simpl; intros Hv; try discriminate. injection Hv as E1 E2 E3. eauto.
Qed.

Lemma hview_lsn o l : hview o = hview (Some (HLsn l)) -> exists l', o = Some (HLsn l') /\ l_dev l' = l_dev l.
Proof. destruct o as [[d'|l'|m|q]|]; simpl; intros Hv; try discriminate. injection Hv as E1. eauto. Qed.

Lemma dev_of_view w w' f :
  w_priv w' !! f = w_priv w !! f -> (forall p, hview (w_heap w' !! p) = hview (w_heap w !! p)) ->
  dev_of w' f = dev_of w f.
Proof.
  intros Hp Hv. unfold dev_of. rewrite Hp. destruct (w_priv w !! f) as [l|]; simpl; [|reflexivity].
  specialize (Hv l). destruct (w_heap w !! l) as [[d|lst|m|q]|] eqn:E; simpl in *.
  2: { apply (hview_lsn _ lst) in Hv as (l' & -> & Hl). simpl. congruence. }
  all: destruct (w_heap w' !! l) as [[]|]; simpl in *; congruence.
Qed.

Lemma owner_of_view w w' f :
  w_priv w' !! f = w_priv w !! f -> (forall p, hview (w_heap w' !! p) = hview (w_heap w !! p)) ->
  owner_of w' f = owner_of w f.
Proof.
  intros Hp Hv. unfold owner_of. rewrite (dev_of_view w w') by auto.
  destruct (dev_of w f) as [p|]; simpl; [|reflexivity].
  specialize (Hv p). destruct (w_heap w !! p) as [[d|lst|m|q]|] eqn:E; simpl in *.
  1: { apply (hview_idev _ d) in Hv as (d' & -> & ? & _). simpl. congruence. }
  all: destruct (w_heap w' !! p) as [[]|]; simpl in *; congruence.
Qed.

(** An object of the new state seen from the old one. *)
Lemma quiet_back F w w' p d : quiet F w w' -> w_heap w' !! p = Some (HIdev d) -> exists d0,
  w_heap w !! p = Some (HIdev d0) /\ d_owner d0 = d_owner d /\ d_info d0 = d_info d /\ d_minor d0 = d_minor d.
Proof. intros Hq E. apply hview_idev. rewrite <- E. symmetry. apply (q_heap _ _ _ Hq). Qed.

Lemma quiet_fwd F w w' p d : quiet F w w' -> w_heap w !! p = Some (HIdev d) -> exists d',
  w_heap w' !! p = Some (HIdev d') /\ d_owner d' = d_owner d /\ d_info d' = d_info d /\ d_minor d' = d_minor d.
Proof. intros Hq E. apply hview_idev. rewrite <- E. apply (q_heap _ _ _ Hq). Qed.

Lemma quiet_fwd_info F w w' p i : quiet F w w' -> w_info w !! p = Some i -> exists i',
  w_info w' !! p = Some i' /\ iview i' = iview i.
Proof.
  intros Hq E. pose proof (q_info _ _ _ Hq p) as Hv. rewrite E in Hv.
  destruct (w_info w' !! p) as [i'|]; [|discriminate]. cbn in Hv. exists i'. split; congruence.
Qed.

Lemma iview_shape i i' : iview i' = iview i -> info_shape i -> info_shape i'.
Proof. intros [=] [? ?]. split; congruence. Qed.

Lemma iview_drv i i' : iview i' = iview i -> drv_fields i' = drv_fields i.
Proof. unfold iview. congruence. Qed.

Lemma inv_quiet w w' F σ : core_inv w F σ -> quiet F w w' -> drv_inv σ w' -> core_inv w' F σ.
Proof.
  intros Hi Hq Hdrv.
  assert (Hop : forall p, opens w' F p = opens w F p).
  { intros p. apply count_ext. intros f Hf. apply dev_of_view; [by apply (q_priv _ _ _ Hq)|apply Hq]. }
  assert (Hown : forall p, owner_opens w' F p = owner_opens w F p).
  { intros p. apply count_ext. intros f Hf. apply owner_of_view; [by apply (q_priv _ _ _ Hq)|apply Hq]. }
  assert (Hreg : forall p d d', d_minor d' = d_minor d -> registered w' p d' <-> registered w p d).
  { intros p d d' E. unfold registered. by rewrite (q_idr _ _ _ Hq), E. }
  split; auto.
  - exact (q_alive _ _ _ Hq (ci_live _ _ _ Hi)).
  - intros f Hf. destruct (ci_file _ _ _ Hi f Hf) as (l & lst & d & E1 & E2 & E3).
    pose proof (q_heap _ _ _ Hq l) as V1. rewrite E2 in V1. apply hview_lsn in V1 as (lst' & V1 & V2).
    destruct (quiet_fwd _ _ _ _ _ Hq E3) as (d' & V3 & _).
    exists l, lst', d'. rewrite (q_priv _ _ _ Hq f Hf), V2. auto.
  - intros f g l Hf Hg. rewrite (q_priv _ _ _ Hq f Hf), (q_priv _ _ _ Hq g Hg). by apply (ci_inj _ _ _ Hi).
  - intros m p. rewrite (q_idr _ _ _ Hq). intros E.
    destruct (ci_idr _ _ _ Hi _ _ E) as (d & i & E1 & E2 & E3 & E4 & E5 & E6).
    destruct (quiet_fwd _ _ _ _ _ Hq E1) as (d' & V1 & V2 & V3 & V4).
    destruct (quiet_fwd_info _ _ _ _ _ Hq E4) as (i' & V5 & V6).
    exists d', i'. split_and!; try congruence; [by unfold iview in V6; congruence|by eapply iview_shape].
  - intros p d E Hn. destruct (quiet_back _ _ _ _ _ Hq E) as (d0 & E1 & E2 & E3 & E4).
    rewrite (Hreg p d0 d), (q_refs _ _ _ Hq) by auto. apply (ci_info _ _ _ Hi p d0); [auto|congruence].
  - intros p d E. destruct (quiet_back _ _ _ _ _ Hq E) as (d0 & E1 & E2 & E3 & E4).
    rewrite (q_refs _ _ _ Hq), Hop, (ci_refs _ _ _ Hi _ _ E1). f_equal. symmetry. by apply reg_count_ext, Hreg.
  - intros p Hn. rewrite (q_refs _ _ _ Hq). apply (ci_norefs _ _ _ Hi). intros d E.
    destruct (quiet_fwd _ _ _ _ _ Hq E) as (d' & V1 & _). by apply (Hn d').
  - intros m. rewrite (q_mods _ _ _ Hq), Hown. apply (ci_mods _ _ _ Hi).
  - intros p d E. destruct (quiet_back _ _ _ _ _ Hq E) as (d0 & E1 & _).
    rewrite (q_drvdata _ _ _ Hq). by apply (ci_drvdata _ _ _ Hi p d0).
  - intros l. rewrite (q_lock _ _ _ Hq). apply (ci_lock _ _ _ Hi).
  - intros p d E Hr. destruct (quiet_back _ _ _ _ _ Hq E) as (d0 & E1 & E2 & E3 & E4).
    rewrite Hop, <- E3. apply (ci_opens _ _ _ Hi); [auto|]. by apply (Hreg p d0 d).
Qed.

(** *** Building [quiet] step by step

    [calm] is [quiet] without the locks, which are balanced only at the end
    of an operation. *)
Record calm w w' : Prop := Calm {
  c_idr : idr_of (w_hist w') = idr_of (w_hist w);
  c_refs p : dev_refs p (w_hist w') = dev_refs p (w_hist w);
  c_mods m : mod_refs m (w_hist w') = mod_refs m (w_hist w);
  c_drvdata : drvdata_of (w_hist w') = drvdata_of (w_hist w);
  c_heap p : hview (w_heap w' !! p) = hview (w_heap w !! p);
  c_alive : heap_live w -> heap_live w';
  c_priv : w_priv w' = w_priv w;
  c_info p : iview <$> w_info w' !! p = iview <$> w_info w !! p }.

Lemma calm_quiet F w w' :
  calm w w' -> (forall l, lock_depth l (w_hist w') = lock_depth l (w_hist w)) -> quiet F w w'.
Proof. intros [] Hl. split; auto. congruence. Qed.

Lemma calm_refl w : calm w w.
Proof. by split. Qed.

Lemma calm_trans w1 w2 w3 : calm w1 w2 -> calm w2 w3 -> calm w1 w3.
Proof. intros [] []. split; try intros; try congruence; auto. Qed.

Lemma calm_of_frame w w' : core_frame w w' -> calm w w'.
Proof.
  intros Hf. pose proof Hf as [E1 E2 E3 _ _]. split; intros.
  - by apply frame_idr.
  - by apply frame_dev_refs.
  - by apply frame_mod_refs.
  - by apply frame_drvdata.
  - by rewrite E1.
  - rename select (heap_live w) into Hl. intros p o. rewrite E1, (frame_live _ _ Hf). apply Hl.
  - done.
  - by rewrite E2.
Qed.

(** Calls no ghost of the invariant sees; an allocation only adds to [live]. *)
Definition calm_call (c : kcall) : bool :=
  match c with
  | Kfree _ | IdrAlloc _ _ _ | IdrRemove _ | IdrDestroy | DevSetDrvdata _ _
  | DeviceInitialize _ | GetDevice _ | PutDevice _ | DeviceUnregister _
  | TryModuleGet _ | ModulePut _ => false
  | _ => true
  end.

Lemma calm_logged c w w1 : calm_call c = true -> calm w w1 -> calm w (logged c w1).
Proof.
  intros Hc Hq. apply (calm_trans _ w1); [exact Hq|]. split; try intros; wsimpl_goal; try done.
  - destruct c; try discriminate Hc; reflexivity.
  - unfold dev_refs. rewrite count_logged. destruct c; try discriminate Hc; reflexivity.
  - unfold mod_refs. rewrite count_logged. destruct c; try discriminate Hc; reflexivity.
  - destruct c; try discriminate Hc; reflexivity.
  - intros p o Ho. rewrite heap_logged in Ho. rename select (heap_live w1) into Hl.
    destruct (Hl p o Ho) as [H1 H2]. split; [exact H1|]. rewrite live_logged.
    destruct c; try discriminate Hc; try exact H2; unfold live_ev; cbn [ev_call ev_ret]; case_match; set_solver.
Qed.

(** A store that keeps what the invariant sees of the object. *)
Lemma calm_store p o o' w w1 :
  w_heap w1 !! p = Some o -> hview (Some o') = hview (Some o) ->
  calm w w1 -> calm w (set_heap (insert p o') w1).
Proof.
  intros Ho Hv Hq. apply (calm_trans _ w1); [exact Hq|]. split; try intros; wsimpl_goal; try done.
  - destruct (decide (p = p0)) as [<-|].
    + by rewrite lookup_insert_eq, Ho.
    + by rewrite lookup_insert_ne.
  - intros q o1. wsimpl_goal. rename select (heap_live w1) into Hl.
    destruct (decide (p = q)) as [<-|].
    + intros _. by apply (Hl p o).
    + rewrite lookup_insert_ne by done. apply Hl.
Qed.

(** A new object of a kind the invariant does not see. *)
Lemma calm_new p o w w1 :
  w_heap w1 !! p = None -> hview (Some o) = None -> 0 < p -> p ∈ live (w_hist w1) ->
  calm w w1 -> calm w (set_heap (insert p o) w1).
Proof.
  intros Ho Hv Hp Hlive Hq. apply (calm_trans _ w1); [exact Hq|]. split; try intros; wsimpl_goal; try done.
  - destruct (decide (p = p0)) as [<-|].
    + by rewrite lookup_insert_eq, Ho.
    + by rewrite lookup_insert_ne.
  - intros q o1. wsimpl_goal. rename select (heap_live w1) into Hl.
    destruct (decide (p = q)) as [<-|]; [auto|].
    rewrite lookup_insert_ne by done. apply Hl.
Qed.

(** Freeing such an object. *)
Lemma calm_free p o w w1 :
  w_heap w1 !! p = Some o -> hview (Some o) = None ->
  calm w w1 -> calm w (set_heap (delete p) (logged (Kfree p) w1)).
Proof.
  intros Ho Hv Hq. apply (calm_trans _ w1); [exact Hq|]. split; try intros; wsimpl_goal; try done.
  - destruct (decide (p = p0)) as [<-|].
    + by rewrite lookup_delete_eq, Ho.
    + by rewrite lookup_delete_ne.
  - intros q o1. wsimpl_goal. rename select (heap_live w1) into Hl.
    destruct (decide (p = q)) as [<-|]; [by rewrite lookup_delete_eq|].
    rewrite lookup_delete_ne by done. intros Hq1. destruct (Hl _ _ Hq1).
    rewrite live_logged. unfold live_ev. cbn [ev_call]. split; [done|]. set_solver.
Qed.

Lemma calm_info p i i' w w1 :
  w_info w1 !! p = Some i -> iview i' = iview i ->
  calm w w1 -> calm w (set_info (insert p i') w1).
Proof.
  intros Ho Hv Hq. apply (calm_trans _ w1); [exact Hq|]. split; try intros; wsimpl_goal; try done.
  - destruct (decide (p = p0)) as [<-|].
    + rewrite lookup_insert_eq, Ho. cbn. by rewrite Hv.
    + by rewrite lookup_insert_ne.
Qed.

Lemma calm_frame w w1 w2 : core_frame w1 w2 -> calm w w1 -> calm w w2.
Proof. intros Hf Hq. apply (calm_trans _ w1); [exact Hq|]. by apply calm_of_frame. Qed.

(** When the driver's state is untouched too. *)
Lemma inv_quiet_drv w w' F σ :
  core_inv w F σ -> quiet F w w' -> w_drv w' = w_drv w -> core_inv w' F σ.
Proof.
  intros Hi Hq Hd. apply (inv_quiet w); auto. apply (drv_inv_core _ w); [auto| |apply Hi].
  intros p. pose proof (q_info _ _ _ Hq p) as Hv.
  destruct (w_info w' !! p), (w_info w !! p); try discriminate; [|reflexivity].
  apply (inj Some) in Hv. cbn. f_equal. by apply iview_drv.
Qed.
End inv.
