(* ===== verification/UioSpec.v ===== *)
(** * Specifications of the operations of the UIO core

    Every operation, run from a state that satisfies the invariant, does not
    fault, ends in a state that satisfies it again, and returns what the state
    says it should. *)

From S2P Require Import Prelude Kernel UioTypes UioAttr UioDevice UioFile UioMmap KLogic UioInv.

(** Prove [calm w w'] for a [w'] built from [w] by calls and stores. *)
Ltac calm_step :=
  first
    [ apply calm_refl
    | apply calm_logged; [reflexivity|]
    | eapply calm_store; [wlookup|reflexivity|]
    | eapply calm_info; [wlookup|first [reflexivity|apply iview_upd_mem|apply iview_upd_port]|]
    | eapply calm_frame; [eassumption|] ].

Ltac locks_tac :=
  let l := fresh "l" in
  intros l; gsimpl;
  repeat (match goal with
          | Hf : core_frame ?a ?b |- context [lock_depth ?x (w_hist ?b)] =>
              rewrite (frame_lock_depth x a b Hf)
          end; gsimpl);
  repeat case_decide; lia.

Ltac quiet_tac := apply calm_quiet; [repeat calm_step | locks_tac].

(** Compute the counters of a state through calls and driver callbacks. *)
Ltac gall :=
  intros; gsimpl;
  repeat (match goal with
          | Hf : core_frame ?a ?b |- context [lock_depth ?x (w_hist ?b)] => rewrite (frame_lock_depth x a b Hf)
          | Hf : core_frame ?a ?b |- context [dev_refs ?x (w_hist ?b)] => rewrite (frame_dev_refs x a b Hf)
          | Hf : core_frame ?a ?b |- context [mod_refs ?x (w_hist ?b)] => rewrite (frame_mod_refs x a b Hf)
          | Hf : core_frame ?a ?b |- context [live (w_hist ?b)] => rewrite (frame_live a b Hf)
          | Hf : core_frame ?a ?b |- context [idr_of (w_hist ?b)] => rewrite (frame_idr a b Hf)
          | Hf : core_frame ?a ?b |- context [drvdata_of (w_hist ?b)] => rewrite (frame_drvdata a b Hf)
          end; gsimpl).

(** Turn a [core_frame] into the equations [wlookup] uses. *)
Ltac use_frame Hf :=
  let E1 := fresh "Eheap" in let E2 := fresh "Einfo" in let E3 := fresh "Epriv" in
  pose proof (cf_heap _ _ Hf) as E1; pose proof (cf_info _ _ Hf) as E2; pose proof (cf_priv _ _ Hf) as E3.

Lemma atomic_inc_neq x : atomic_inc x <> x.
Proof.
  unfold atomic_inc. intros H. apply (f_equal s32) in H. rewrite s32_id in H by apply s32_range.
  apply s32_eq_iff in H. by replace (x + 1 - x) with 1 in H by lia.
Qed.

Section spec.
Context `{Kernel, Uapi} {D : Type} `{!UioDriver D, !UioDriverOk D}.
Implicit Types (w : world D) (F : gset Z) (σ : gmap Z nat).

(** ** What an operation on an open file reads *)

(** The device is unregistered or has no interrupt. *)
Definition idev_gone w (p : Z) : bool :=
  match as_idev (w_heap w !! p) with
  | Some d => if d_info d =? 0 then true else
              match w_info w !! d_info d with Some i => i_irq i =? 0 | None => true end
  | None => true
  end.

(** The counter of the device, and the value the file has seen last. *)
Definition dev_event_count w (f : Z) : option Z :=
  p ← dev_of w f; d_event <$> as_idev (w_heap w !! p).
Definition seen_event_count w (f : Z) : option Z :=
  l ← w_priv w !! f; l_event_count <$> as_lsn (w_heap w !! l).
Definition event_pending w f : bool :=
  bool_decide (dev_event_count w f <> seen_event_count w f).
Definition file_gone w f : bool :=
  match dev_of w f with Some p => idev_gone w p | None => true end.

Lemma dev_event_count_eq w f p d :
  dev_of w f = Some p -> w_heap w !! p = Some (HIdev d) -> dev_event_count w f = Some (d_event d).
Proof. intros Hp Hd. unfold dev_event_count. rewrite Hp. simpl. by rewrite Hd. Qed.

Lemma seen_event_count_eq w f l lst :
  w_priv w !! f = Some l -> w_heap w !! l = Some (HLsn lst) ->
  seen_event_count w f = Some (l_event_count lst).
Proof. intros Hp Hd. unfold seen_event_count. rewrite Hp. simpl. by rewrite Hd. Qed.

Lemma event_pending_eq w f p d l lst :
  dev_of w f = Some p -> w_heap w !! p = Some (HIdev d) ->
  w_priv w !! f = Some l -> w_heap w !! l = Some (HLsn lst) ->
  event_pending w f = negb (l_event_count lst =? d_event d).
Proof.
  intros H1 H2 H3 H4. unfold event_pending.
  rewrite (dev_event_count_eq _ _ _ _ H1 H2), (seen_event_count_eq _ _ _ _ H3 H4).
  destruct (Z.eqb_spec (l_event_count lst) (d_event d)).
  - rewrite bool_decide_eq_false_2; [done|]. intros Hne. apply Hne. congruence.
  - rewrite bool_decide_eq_true_2; [done|]. congruence.
Qed.

(** Everything an operation on an open file needs. *)
Lemma open_file_full w F σ f : core_inv w F σ -> f ∈ F -> exists l lst d,
  w_priv w !! f = Some l /\ w_heap w !! l = Some (HLsn lst) /\
  w_heap w !! l_dev lst = Some (HIdev d) /\ dev_of w f = Some (l_dev lst) /\
  (d_info d <> 0 -> exists i n, registered w (l_dev lst) d /\
     w_info w !! d_info d = Some i /\ i_uio_dev i = l_dev lst /\ info_shape i /\
     σ !! d_info d = Some (S n)).
Proof.
  intros Hi Hf. destruct (open_file _ _ _ _ Hi Hf) as (l & lst & d & Hp & Hl & Hd & Hdev & Hr).
  exists l, lst, d. repeat split; auto. intros Hn. specialize (Hr Hn).
  destruct (registered_info _ _ _ _ _ Hi Hd Hr) as (i & _ & Hinfo & Hu & Hs).
  pose proof (count_pos _ F f _ Hf Hdev) as Hpos.
  exists i, (pred (opens w F (l_dev lst))). split_and!; auto.
  rewrite (ci_opens _ _ _ Hi _ _ Hd Hr). f_equal. unfold opens in *. lia.
Qed.

Lemma idev_gone_logged c w p : idev_gone (logged c w) p = idev_gone w p.
Proof. unfold idev_gone. by wsimpl_goal. Qed.

Lemma idev_gone_eq w p d i : w_heap w !! p = Some (HIdev d) -> d_info d <> 0 ->
  w_info w !! d_info d = Some i -> idev_gone w p = (i_irq i =? 0).
Proof.
  intros Hp Hn Hinfo. unfold idev_gone. rewrite Hp. cbn.
  rewrite (proj2 (Z.eqb_neq _ _) Hn). by rewrite Hinfo.
Qed.

Lemma idev_gone_null w p d : w_heap w !! p = Some (HIdev d) -> d_info d = 0 -> idev_gone w p = true.
Proof. intros Hp Hn. unfold idev_gone. rewrite Hp. cbn. by rewrite Hn. Qed.

Lemma wp_no_irq w p d (Q : bool -> world D -> Prop) :
  w_heap w !! p = Some (HIdev d) -> (d_info d <> 0 -> exists i, w_info w !! d_info d = Some i) ->
  Q (idev_gone w p) w -> wp (no_irq p) w Q.
Proof.
  intros Hp Hr. unfold no_irq, idev_gone. rewrite Hp. cbn [as_idev]. intros HQ.
  kstep. eapply wp_load_idev; [exact Hp|]. unfold NULL. destruct (d_info d =? 0) eqn:E.
  - by kstep.
  - zify_bool. destruct (Hr E) as (i & Hinfo).
    rewrite Hinfo in HQ. kstep. eapply wp_load_info; [exact Hinfo|]. by kstep.
Qed.

(** ** Event notification and interrupts *)

Lemma wp_uio_event_notify w F σ info i p d :
  core_inv w F σ -> w_info w !! info = Some i -> i_uio_dev i = p -> w_heap w !! p = Some (HIdev d) ->
  wp (uio_event_notify info) w (fun _ w' => core_inv w' F σ /\ w_drv w' = w_drv w /\
    w_info w' = w_info w /\ w_priv w' = w_priv w /\
    w_heap w' = <[p := HIdev (upd_event atomic_inc d)]> (w_heap w) /\
    (exists h, w_hist w' = h ++ w_hist w)).
Proof.
  intros Hi Hinfo <- Hp. unfold uio_event_notify. ksteps. split.
  - apply (inv_quiet_drv w); [exact Hi| |by wsimpl_goal]. quiet_tac.
  - wsimpl_goal. split_and!; auto. rewrite !hist_logged. wsimpl_goal.
    by eexists [_; _].
Qed.

(** ** poll *)

Lemma wp_uio_poll w F σ f :
  core_inv w F σ -> f ∈ F ->
  wp (uio_poll f) w (fun r w' => core_inv w' F σ /\
    r = (if file_gone w f then u32 (- EIO)
         else if event_pending w f then Z.lor EPOLLIN EPOLLRDNORM else 0)).
Proof.
  intros Hi Hf. destruct (open_file_full _ _ _ _ Hi Hf) as (l & lst & d & Hp & Hl & Hd & Hdev & Hr).
  unfold uio_poll. unfold file_gone. rewrite Hdev. ksteps.
  eapply wp_no_irq; [wlookup| |].
  { intros Hn. destruct (Hr Hn) as (i & n & _ & Hinfo & _). exists i. by wsimpl_goal. }
  rewrite idev_gone_logged. ksteps. destruct (idev_gone w (l_dev lst)) eqn:G.
  - kred. kstep. split; [|done]. apply (inv_quiet_drv w); [exact Hi|quiet_tac|by wsimpl_goal].
  - kred. ksteps.
    rewrite (event_pending_eq _ _ _ _ _ _ Hdev Hd Hp Hl).
    destruct (negb _) eqn:En; kstep; (split; [|done]);
      (apply (inv_quiet_drv w); [exact Hi|quiet_tac|by wsimpl_goal]).
Qed.

(** ** read *)

(** What one pass of the read loop does, [e] being the device's counter. *)
Definition read_step_post w (f count : Z) (nonblock : bool) (r : read_exit) w' : Prop :=
  if file_gone w f then r = ReadBreak (- EIO) /\ w_heap w' = w_heap w
  else if event_pending w f then
    (exists e o h, dev_event_count w f = Some e /\
       w_hist w' = Ev (CopyToUser e count) 0 o :: h /\ r = ReadBreak count /\
       seen_event_count w' f = Some e /\ dev_event_count w' f = Some e /\ file_gone w' f = false) \/
    (r = ReadBreak (- EFAULT) /\ w_heap w' = w_heap w /\
     exists e n o h, dev_event_count w f = Some e /\ w_hist w' = Ev (CopyToUser e count) n o :: h /\ n <> 0)
  else (r = (if nonblock then ReadBreak (- EAGAIN) else ReadBreak (- ERESTARTSYS)) \/
        (nonblock = false /\ r = ReadAgain)) /\ w_heap w' = w_heap w.

Ltac finish_quiet w Hi := apply (inv_quiet_drv w); [exact Hi|quiet_tac|by wsimpl_goal].

Lemma wp_read_iter w F σ f l lst count nonblock :
  core_inv w F σ -> f ∈ F -> w_priv w !! f = Some l -> w_heap w !! l = Some (HLsn lst) ->
  wp (read_iter l (l_dev lst) count nonblock) w (fun r w' => core_inv w' F σ /\
    w_priv w' = w_priv w /\ w_info w' = w_info w /\ (forall p, waitq_len p (w_hist w') = waitq_len p (w_hist w)) /\
    (exists lst', w_heap w' !! l = Some (HLsn lst') /\ l_dev lst' = l_dev lst) /\
    read_step_post w f count nonblock r w').
Proof.
  intros Hi Hf Hp Hl. destruct (open_file_full _ _ _ _ Hi Hf) as (l' & lst' & d & Hp' & Hl' & Hd & Hdev & Hr).
  assert (l' = l) as -> by congruence. assert (lst' = lst) as -> by congruence. clear Hp' Hl'.
  unfold read_iter, read_step_post, file_gone. rewrite Hdev, (dev_event_count_eq _ _ _ _ Hdev Hd).
  rewrite (event_pending_eq _ _ _ _ _ _ Hdev Hd Hp Hl). ksteps.
  eapply wp_no_irq; [wlookup| |].
  { intros Hn. destruct (Hr Hn) as (i & n & _ & Hinfo & _). exists i. by wsimpl_goal. }
  rewrite idev_gone_logged. destruct (idev_gone w (l_dev lst)) eqn:G; cbv iota; ksteps.
  { split_and!; [finish_quiet w Hi|by wsimpl_goal|by wsimpl_goal|intros; by gsimpl|wsimpl_goal; eauto|done|by wsimpl_goal]. }
  rewrite Z.eqb_sym. kif E; [|kif E2; [|ksteps; kif E3]]; ksteps.
  2-4: split_and!; [finish_quiet w Hi|by wsimpl_goal|by wsimpl_goal|intros; by gsimpl|wsimpl_goal; eauto|eauto|by wsimpl_goal].
  kif E2; ksteps.
  { split_and!; [finish_quiet w Hi|by wsimpl_goal|by wsimpl_goal|intros; by gsimpl|wsimpl_goal; eauto|].
    right. split; [done|]. split; [by wsimpl_goal|]. zify_bool. rewrite hist_logged. by eexists _, _, _, _. }
  split_and!; [finish_quiet w Hi|by wsimpl_goal|by wsimpl_goal|intros; by gsimpl| |].
  - eexists. split; [wlookup|done].
  - left. zify_bool. eexists _, _, _. split_and!; [done| |done|..].
    + rewrite hist_set_heap, hist_logged. by rewrite E2.
    + apply (seen_event_count_eq _ _ l (UioListener (l_dev lst) (d_event d))); [by wsimpl_goal|wlookup].
    + apply (dev_event_count_eq _ _ (l_dev lst)); [|wlookup].
      apply (dev_of_some _ _ l (UioListener (l_dev lst) (d_event d))); [by wsimpl_goal|wlookup].
    + unfold file_gone. rewrite (dev_of_some _ _ l (UioListener (l_dev lst) (d_event d))); [|by wsimpl_goal|wlookup].
      cbn [l_dev]. revert G. unfold idev_gone. wsimpl_goal. rewrite lookup_insert_ne; [done|]. intros ->. congruence.
Qed.

(** ** fasync and write *)

Lemma wp_uio_fasync w F σ fd f on :
  core_inv w F σ -> f ∈ F ->
  wp (uio_fasync fd f on) w (fun r w' => core_inv w' F σ /\
    exists p, dev_of w f = Some p /\ w' = logged (FasyncHelper fd f on p) w /\
              r = kernel (w_hist w) (FasyncHelper fd f on p)).
Proof.
  intros Hi Hf. destruct (open_file_full _ _ _ _ Hi Hf) as (l & lst & d & Hp & Hl & Hd & Hdev & Hr).
  unfold uio_fasync. ksteps. split; [finish_quiet w Hi|]. eauto.
Qed.

(** The driver state changes only through the callback. *)
Lemma inv_quiet_frame w w1 w2 w3 F σ :
  core_inv w F σ -> calm w w1 -> w_drv w1 = w_drv w ->
  core_frame w1 w2 -> drv_inv σ w2 -> calm w w3 -> w_drv w3 = w_drv w2 ->
  (forall p, iview <$> w_info w3 !! p = iview <$> w_info w2 !! p) ->
  (forall l, lock_depth l (w_hist w3) = lock_depth l (w_hist w)) -> core_inv w3 F σ.
Proof.
  intros Hi H1 D1 Hf Hd H3 D3 Hv Hl. apply (inv_quiet w); [exact Hi|by apply calm_quiet|].
  apply (drv_inv_core _ w2); [exact D3| |exact Hd].
  intros p. specialize (Hv p). destruct (w_info w3 !! p), (w_info w2 !! p); try discriminate; [|reflexivity].
  apply (inj Some) in Hv. cbn. f_equal. by apply iview_drv.
Qed.

Lemma drv_inv_quiet σ w w' :
  calm w w' -> w_drv w' = w_drv w -> drv_inv σ w -> drv_inv σ w'.
Proof.
  intros Hq Hd. apply drv_inv_core; [exact Hd|]. intros p. pose proof (c_info _ _ Hq p) as Hv.
  destruct (w_info w' !! p), (w_info w !! p); try discriminate; [|reflexivity].
  apply (inj Some) in Hv. cbn. f_equal. by apply iview_drv.
Qed.

(** How [uio_write] answers before it reaches the driver. *)
Definition write_check w (f : Z) : option Z :=
  p ← dev_of w f; d ← as_idev (w_heap w !! p);
  if d_info d =? 0 then Some (- EINVAL) else
  i ← w_info w !! d_info d;
  if i_irq i =? 0 then Some (- EIO) else
  if i_irqcontrol i =? 0 then Some (- ENOSYS) else Some 0.

Lemma wp_uio_write w F σ f count :
  core_inv w F σ -> f ∈ F ->
  wp (uio_write f count) w (fun r w' => core_inv w' F σ /\
    (count <> sizeof_s32 -> r = - EINVAL /\ w' = w) /\
    (count = sizeof_s32 -> r <> - EFAULT -> r < 0 \/ r = 4 \/ write_check w f = Some 0) /\
    (count = sizeof_s32 -> forall e, write_check w f = Some e -> e <> 0 ->
       (r = - EFAULT \/ r = e) /\ w_drv w' = w_drv w)).
Proof.
  intros Hi Hf. destruct (open_file_full _ _ _ _ Hi Hf) as (l & lst & d & Hp & Hl & Hd & Hdev & Hr).
  unfold uio_write, write_check. rewrite Hdev. cbn [mbind option_bind]. rewrite Hd. cbn [mbind option_bind as_idev].
  ksteps. kif E; [ksteps; zify_bool|].
  { split_and!; [done|done|congruence|congruence]. }
  zify_bool. ksteps. kif E2; [ksteps|].
  { split_and!; [finish_quiet w Hi|congruence|congruence|]. intros. split; [by left|by wsimpl_goal]. }
  ksteps. unfold NULL. destruct (Z.eqb_spec (d_info d) 0) as [Hn|Hn].
  { kstep. kstep. kstep. kstep. cbn beta.
    split_and!; [finish_quiet w Hi|congruence|intros; left; vm_compute; done|].
    intros _ e [= <-] _. split; [by right|by wsimpl_goal]. }
  destruct (Hr Hn) as (i & n & Hreg & Hinfo & Hu & Hs & Hσ). rewrite Hinfo. cbn [mbind option_bind].
  ksteps. destruct (Z.eqb_spec (i_irq i) 0) as [Hirq|Hirq].
  { kstep. kstep. kstep. kstep.
    split_and!; [finish_quiet w Hi|congruence|intros; left; vm_compute; done|].
    intros _ e [= <-] _. split; [by right|by wsimpl_goal]. }
  destruct (Z.eqb_spec (i_irqcontrol i) 0) as [Hc|Hc].
  { kstep. kstep. kstep. kstep.
    split_and!; [finish_quiet w Hi|congruence|intros; left; vm_compute; done|].
    intros _ e [= <-] _. split; [by right|by wsimpl_goal]. }
  eapply wp_mono.
  { eapply (drv_irqcontrol_ok σ _ _ i n); [wlookup|exact Hc|exact Hσ|].
    eapply drv_inv_quiet; [|by wsimpl_goal|apply (ci_drv _ _ _ Hi)]. repeat calm_step. }
  cbn beta. intros r w2 [Hfr Hdrv]. use_frame Hfr. ksteps.
  split_and!; [|congruence|intros; by right; right|intros _ e [= <-]; done].
  eapply (inv_quiet_frame w); [exact Hi| | |exact Hfr|exact Hdrv| | | |locks_tac];
    try (repeat calm_step); try (by wsimpl_goal).
Qed.

(** ** Memory mappings *)

Lemma wp_load_mem w p k i m (Q : uio_mem -> world D -> Prop) :
  w_info w !! p = Some i -> i_mem i !! k = Some m -> Q m w -> wp (load_mem (p, k)) w Q.
Proof. intros Hi Hm HQ. unfold load_mem. kstep. eapply wp_load_info; [exact Hi|]. eapply wp_get_some; [exact Hm|done]. Qed.

Lemma wp_mod_mem w p k i m f (Q : unit -> world D -> Prop) :
  w_info w !! p = Some i -> i_mem i !! k = Some m ->
  Q tt (set_info (insert p (upd_mem (insert k (f m)) i)) w) -> wp (mod_mem (p, k) f) w Q.
Proof.
  intros Hi Hm HQ. unfold mod_mem. kstep. eapply wp_load_mem; [exact Hi|exact Hm|].
  eapply wp_mod_info; [exact Hi|done].
Qed.

Lemma wp_mod_port w p k i m f (Q : unit -> world D -> Prop) :
  w_info w !! p = Some i -> i_port i !! k = Some m ->
  Q tt (set_info (insert p (upd_port (insert k (f m)) i)) w) -> wp (mod_port (p, k) f) w Q.
Proof.
  intros Hi Hm HQ. unfold mod_port. kstep. unfold load_port. kstep. eapply wp_load_info; [exact Hi|].
  cbn [fst snd]. eapply wp_get_some; [exact Hm|]. eapply wp_mod_info; [exact Hi|done].
Qed.

Lemma wp_load_port w p k i m (Q : uio_port -> world D -> Prop) :
  w_info w !! p = Some i -> i_port i !! k = Some m -> Q m w -> wp (load_port (p, k)) w Q.
Proof. intros Hi Hm HQ. unfold load_port. kstep. eapply wp_load_info; [exact Hi|]. eapply wp_get_some; [exact Hm|done]. Qed.

(** The region a mapping asks for: the one whose index is the page offset,
    when it has a size. *)
Definition mem_index (i : uio_info) (v : vma) : option (nat * uio_mem) :=
  if vm_pgoff v <? Z.of_nat MAX_UIO_MAPS then
    m ← i_mem i !! Z.to_nat (vm_pgoff v);
    if m_size m =? 0 then None else Some (Z.to_nat (vm_pgoff v), m)
  else None.

Lemma mem_index_some i v k m : mem_index i v = Some (k, m) ->
  k = Z.to_nat (vm_pgoff v) /\ i_mem i !! k = Some m /\ m_size m <> 0.
Proof.
  unfold mem_index. destruct (_ <? _) eqn:E; [|discriminate]. zify_bool.
  destruct (i_mem i !! _) as [m'|] eqn:Em; [|discriminate]. simpl.
  destruct (m_size m' =? 0) eqn:Es; [discriminate|]. zify_bool. intros [= <- <-].
  auto.
Qed.

Lemma wp_uio_find_mem_index w v d i (Q : Z -> world D -> Prop) :
  w_heap w !! vm_private_data v = Some (HIdev d) -> w_info w !! d_info d = Some i ->
  info_shape i -> 0 <= vm_pgoff v ->
  Q (match mem_index i v with Some (k, _) => Z.of_nat k | None => -1 end) w ->
  wp (uio_find_mem_index v) w Q.
Proof.
  intros Hd Hi [Hs _] Hp HQ. unfold uio_find_mem_index, mem_index in *.
  destruct (vm_pgoff v <? _) eqn:E; [|by kstep]. zify_bool.
  destruct (i_mem i !! Z.to_nat (vm_pgoff v)) as [m|] eqn:Em.
  2: { apply lookup_ge_None in Em. lia. }
  kstep. eapply wp_load_idev; [exact Hd|]. kstep. eapply wp_load_mem; [exact Hi|exact Em|].
  simpl in HQ. destruct (m_size m =? 0); kstep; [exact HQ|]. by rewrite Z2Nat.id in HQ.
Qed.

Lemma mem_index_neg i v :
  (match mem_index i v with Some (k, _) => Z.of_nat k | None => -1 end <? 0) =
  (match mem_index i v with Some _ => false | None => true end).
Proof. destruct (mem_index i v) as [[k m]|]; [apply Z.ltb_ge; lia|done]. Qed.

(** Looking the region up again by its number. *)
Lemma wp_load_index w p i v k m (Q : uio_mem -> world D -> Prop) :
  w_info w !! p = Some i -> mem_index i v = Some (k, m) -> Q m w ->
  wp (load_mem (p, Z.to_nat (Z.of_nat k))) w Q.
Proof.
  intros Hi Hm. apply mem_index_some in Hm as (_ & Hm & _). rewrite Nat2Z.id.
  by apply (wp_load_mem w p k i).
Qed.

(** A page fault in a logical mapping. *)
Definition fault_addr (m : uio_mem) (v : vma) (pgoff : Z) : Z :=
  u64 (m_addr m + u64 (Z.shiftl (pgoff - vm_pgoff v) PAGE_SHIFT)).
Definition fault_call (m : uio_mem) (a : Z) : kcall :=
  if decide (m_memtype m = UIO_MEM_LOGICAL) then VirtToPage a else VmallocToPage a.

Lemma wp_uio_vma_fault w F σ v pgoff p d :
  core_inv w F σ -> vm_private_data v = p -> w_heap w !! p = Some (HIdev d) ->
  (d_info d <> 0 -> registered w p d) -> 0 <= vm_pgoff v ->
  wp (uio_vma_fault v pgoff) w (fun r w' => core_inv w' F σ /\
    match (if d_info d =? 0 then None else i ← w_info w !! d_info d; mem_index i v) with
    | None => r = (VM_FAULT_SIGBUS, None)
    | Some (_, m) => let c := fault_call m (fault_addr m v pgoff) in
        let page := kernel (w_hist (logged (MutexLock (InfoLock p)) w)) c in
        r = (0, Some page) /\
        map ev_call (w_hist w') = [MutexUnlock (InfoLock p); GetPage page; c; MutexLock (InfoLock p)] ++ map ev_call (w_hist w)
    end).
Proof.
  intros Hi Hv Hd Hr Hp. unfold uio_vma_fault. rewrite Hv. ksteps. unfold NULL.
  destruct (d_info d =? 0) eqn:E; ksteps.
  { split; [finish_quiet w Hi|done]. }
  zify_bool. destruct (registered_info _ _ _ _ _ Hi Hd (Hr E)) as (i & _ & Hinfo & Hu & Hs).
  rewrite Hinfo. cbn [mbind option_bind].
  eapply wp_uio_find_mem_index; [rewrite Hv; wlookup|wlookup|exact Hs|exact Hp|].
  rewrite mem_index_neg. destruct (mem_index i v) as [[k m]|] eqn:Em; ksteps.
  2: { split; [finish_quiet w Hi|done]. }
  eapply wp_load_index; [wlookup|exact Em|].
  apply mem_index_some in Em as (Ek & _ & _).
  replace (Z.of_nat k) with (vm_pgoff v) by lia. fold (fault_addr m v pgoff).
  unfold fault_call. destruct (decide (m_memtype m = UIO_MEM_LOGICAL)); ksteps;
    (split; [finish_quiet w Hi|]); rewrite !hist_logged; split; reflexivity.
Qed.

(** The pages a region covers, as [uio_mmap] counts them. *)
Definition region_pages (m : uio_mem) : Z :=
  Z.shiftr (u64 (page_offset (m_addr m) + m_size m + PAGE_SIZE - 1)) PAGE_SHIFT.

(** A page-frame or coherent mapping lies inside the region [m], starting at
    its first byte; other calls map nothing. *)
Definition maps_inside (m : uio_mem) (v : vma) (e : event) : Prop :=
  match ev_call e with
  | RemapPfnRange id start pfn size _ =>
      id = vma_id v /\ start = vm_start v /\ size = vm_len v /\
      Z.shiftl pfn PAGE_SHIFT = m_addr m /\ size <= m_size m
  | DmaMmapCoherent dev id pgoff addr dma size =>
      id = vma_id v /\ pgoff = 0 /\ size = vm_len v /\ addr = m_addr m /\ dma = m_dma_addr m /\
      page_offset addr = 0 /\ page_offset dma = 0 /\ dev = m_dma_device m /\ dev <> 0 /\ size <= m_size m
  | _ => True
  end.

(** What a way of installing a mapping leaves: only calls inside the region,
    and the page offset of the area as it was. *)
Definition installed (m : uio_mem) (v : vma) w (r : Z * vma) w' : Prop :=
  calm w w' /\ w_drv w' = w_drv w /\ w_info w' = w_info w /\
  (forall l, lock_depth l (w_hist w') = lock_depth l (w_hist w)) /\
  vm_pgoff (snd r) = vm_pgoff v /\
  exists evs, w_hist w' = evs ++ w_hist w /\ Forall (maps_inside m v) evs.

Lemma installed_id m v w e : installed m v w (e, v) w.
Proof. split_and!; try done. exists []. by split. Qed.

Lemma page_offset_mod `{!UapiOk} x : page_offset x = x mod 2 ^ PAGE_SHIFT.
Proof.
  destruct page_shift_ok. unfold page_offset, PAGE_SIZE. rewrite Z.shiftl_1_l.
  rewrite <- Z.land_ones by lia. by rewrite Z.ones_equiv, <- Z.sub_1_r.
Qed.

Lemma pfn_of_aligned `{!UapiOk} x : page_offset x = 0 -> Z.shiftl (Z.shiftr x PAGE_SHIFT) PAGE_SHIFT = x.
Proof.
  rewrite page_offset_mod. destruct page_shift_ok. intros Hm.
  rewrite Z.shiftr_div_pow2, Z.shiftl_mul_pow2 by lia.
  pose proof (Z_div_mod_eq_full x (2 ^ PAGE_SHIFT)). lia.
Qed.

Section install.
Context `{!UapiOk} (w : world D) (v : vma) (d : uio_device) (i : uio_info) (k : nat) (m : uio_mem).
Hypothesis Hd : w_heap w !! vm_private_data v = Some (HIdev d).
Hypothesis Hi : w_info w !! d_info d = Some i.
Hypothesis Hs : info_shape i.
Hypothesis Hp : 0 <= vm_pgoff v.
Hypothesis Hm : mem_index i v = Some (k, m).

Lemma wp_uio_mmap_logical : wp (uio_mmap_logical v) w (fun r w' =>
  installed m v w r w' /\ fst r = 0 /\ vm_ops (snd r) = uio_logical_vm_ops).
Proof using Type.
  unfold uio_mmap_logical. ksteps. split; [|done].
  split_and!; [repeat calm_step|by wsimpl_goal|by wsimpl_goal|locks_tac|done|].
  rewrite hist_logged. eexists [_]. split; [done|]. by repeat constructor.
Qed.

Lemma wp_uio_mmap_physical : wp (uio_mmap_physical v) w (installed m v w).
Proof using All.
  unfold uio_mmap_physical. ksteps. eapply wp_uio_find_mem_index; eauto. rewrite Hm.
  kif E; [zify_bool; lia|]. ksteps. eapply wp_load_index; [exact Hi|exact Hm|].
  kif E2; [ksteps; apply installed_id|]. kif E3; [ksteps; apply installed_id|].
  rewrite Z.gtb_ltb in E3. zify_bool. ksteps.
  destruct (decide (m_memtype m = UIO_MEM_PHYS)); ksteps; wsimpl_goal;
    (split_and!; [repeat calm_step|by wsimpl_goal|by wsimpl_goal|locks_tac|done|]); rewrite !hist_logged.
  - eexists [_; _]. split; [reflexivity|].
    constructor; [|by repeat constructor]. cbn. by rewrite pfn_of_aligned.
  - eexists [_]. split; [reflexivity|].
    constructor; [|by repeat constructor]. cbn. by rewrite pfn_of_aligned.
Qed.

Lemma wp_uio_mmap_dma_coherent : wp (uio_mmap_dma_coherent v) w (installed m v w).
Proof using All.
  unfold uio_mmap_dma_coherent. ksteps. eapply wp_uio_find_mem_index; eauto. rewrite Hm.
  kif E; [zify_bool; lia|]. ksteps. eapply wp_load_index; [exact Hi|exact Hm|].
  kif E2; [ksteps; apply installed_id|]. kif E3; [ksteps; apply installed_id|].
  kif E4; [ksteps; apply installed_id|]. kif E5; [ksteps; apply installed_id|].
  rewrite Z.gtb_ltb in E5. unfold NULL in E4. zify_bool. ksteps.
  split_and!; [repeat calm_step|by wsimpl_goal|by wsimpl_goal|locks_tac| |].
  - cbn. apply mem_index_some in Hm as (-> & _). by rewrite Z2Nat.id.
  - rewrite hist_logged. eexists [_]. split; [reflexivity|].
    constructor; [|by constructor]. cbn. by split_and!.
Qed.
End install.

(** What a successful [uio_mmap] on the device at [p] promises. *)
Definition mmap_ok w p v (r : Z * vma) w' : Prop :=
  exists d i k m,
    w_heap w !! p = Some (HIdev d) /\ d_info d <> 0 /\ w_info w !! d_info d = Some i /\
    mem_index i v = Some (k, m) /\
    Z.shiftr (vm_len v) PAGE_SHIFT <= region_pages m /\
    (i_mmap i = 0 -> vm_pgoff (snd r) = vm_pgoff v /\
       m_memtype m ∈ [UIO_MEM_PHYS; UIO_MEM_IOVA; UIO_MEM_LOGICAL; UIO_MEM_VIRTUAL; UIO_MEM_DMA_COHERENT] /\
       exists evs, w_hist w' = evs ++ w_hist w /\ Forall (maps_inside m v) evs).

Lemma wp_uio_mmap `{!UapiOk} w F σ f v :
  core_inv w F σ -> f ∈ F -> 0 <= vm_pgoff v ->
  wp (uio_mmap f v) w (fun r w' => core_inv w' F σ /\
    (vm_end v < vm_start v -> r = (- EINVAL, v) /\ w' = w) /\
    (fst r = 0 -> exists p, dev_of w f = Some p /\ mmap_ok w p v r w')).
Proof.
  intros Hi Hf Hpg. destruct (open_file_full _ _ _ _ Hi Hf) as (l & lst & d & Hp & Hl & Hd & Hdev & Hr).
  unfold uio_mmap. ksteps. kif E; [ksteps; by split_and!|]. zify_bool.
  ksteps. unfold NULL. destruct (Z.eqb_spec (d_info d) 0) as [Hn|Hn]; ksteps.
  { split_and!; [finish_quiet w Hi|lia|discriminate]. }
  destruct (Hr Hn) as (i & n & Hreg & Hinfo & Hu & Hs & Hσ).
  eapply wp_uio_find_mem_index; [wlookup|wlookup|exact Hs|done|].
  rewrite mem_index_neg. destruct (mem_index i (set_vm_private _ v)) as [[k m]|] eqn:Em; ksteps.
  2: { split_and!; [finish_quiet w Hi|lia|discriminate]. }
  eapply wp_load_index; [wlookup|exact Em|]. fold (region_pages m).
  rewrite vma_pages_ok. cbn [vm_end vm_start set_vm_private]. fold (vm_len v).
  destruct (_ >? _) eqn:E2; ksteps.
  { split_and!; [finish_quiet w Hi|lia|discriminate]. }
  rewrite Z.gtb_ltb in E2. zify_bool.
  destruct (Z.eqb_spec (i_mmap i) 0) as [Hc|Hc]; cbn [negb].
  2: { eapply wp_mono.
    { eapply (drv_mmap_ok σ _ _ i n); [wlookup|exact Hc|exact Hσ|].
      eapply drv_inv_quiet; [|by wsimpl_goal|apply (ci_drv _ _ _ Hi)]. repeat calm_step. }
    cbn beta. intros r w2 [Hfr Hdrv]. ksteps. split_and!; [|lia|].
    - eapply (inv_quiet_frame w); [exact Hi| | |exact Hfr|exact Hdrv| | | |locks_tac];
        try (repeat calm_step); try (by wsimpl_goal).
    - intros _. exists (l_dev lst). split; [done|]. exists d, i, k, m. by split_and!. }
  assert (Hfin : forall r w2,
    installed m (set_vm_private (l_dev lst) v) (logged (MutexLock (InfoLock (l_dev lst))) w) r w2 ->
    m_memtype m ∈ [UIO_MEM_PHYS; UIO_MEM_IOVA; UIO_MEM_LOGICAL; UIO_MEM_VIRTUAL; UIO_MEM_DMA_COHERENT] ->
    core_inv (logged (MutexUnlock (InfoLock (l_dev lst))) w2) F σ /\
    (vm_end v < vm_start v -> r = (- EINVAL, v) /\ logged (MutexUnlock (InfoLock (l_dev lst))) w2 = w) /\
    (fst r = 0 -> exists p, dev_of w f = Some p /\
       mmap_ok w p v r (logged (MutexUnlock (InfoLock (l_dev lst))) w2))).
  { intros r w2 (Hc2 & Hd2 & Hi2 & Hl2 & Hpg2 & evs & Hh & Hevs) Ht. split_and!; [|lia|].
    - apply (inv_quiet_drv w); [exact Hi| |by rewrite drv_logged, Hd2; wsimpl_goal].
      apply calm_quiet.
      + apply calm_logged; [done|]. eapply calm_trans; [|exact Hc2]. repeat calm_step.
      + intros lk. gsimpl. rewrite Hl2. gsimpl. repeat case_decide; lia.
    - intros _. exists (l_dev lst). split; [done|]. exists d, i, k, m. split_and!; auto. intros _.
      split_and!; auto. rewrite hist_logged, Hh, hist_logged.
      eexists (_ :: evs ++ [_]). split; [simpl; by rewrite <- app_assoc|].
      constructor; [done|]. apply Forall_app. split; [exact Hevs|by repeat constructor]. }
  assert (Hother : forall n, m_memtype m = n -> n ∈ [UIO_MEM_NONE] \/ (exists z, n = UIO_MEM_OTHER z) ->
    wp (mret (- EINVAL, set_vm_private (l_dev lst) v)) (logged (MutexLock (InfoLock (l_dev lst))) w)
    (fun r w2 => wp (_ ← do_ (MutexUnlock (InfoLock (l_dev lst))); mret r) w2
       (fun r w' => core_inv w' F σ /\ (vm_end v < vm_start v -> r = (- EINVAL, v) /\ w' = w) /\
         (fst r = 0 -> exists p, dev_of w f = Some p /\ mmap_ok w p v r w')))).
  { intros. ksteps. split_and!; [finish_quiet w Hi|lia|discriminate]. }
  destruct (m_memtype m) eqn:Et.
  all: try (apply (Hother _ eq_refl); (left; by constructor) || (right; by eexists)).
  all: (eapply wp_mono;
         [first [apply wp_uio_mmap_logical
                |eapply wp_uio_mmap_physical; [wlookup|wlookup|exact Hs|done|exact Em]
                |eapply wp_uio_mmap_dma_coherent; [wlookup|wlookup|exact Hs|done|exact Em]]|]).
  all: cbn beta; intros r w2 Hin; ksteps; apply Hfin; first [exact Hin|by apply Hin|rewrite !elem_of_cons; tauto].
Qed.
End spec.
