(* ===== verification/UioRead.v ===== *)
(** * The read loop of the UIO core

    [uio_read] sleeps between two iterations; the rest of the system, [others],
    runs meanwhile.  It is assumed to keep the invariant with the file open, and
    to bring the device closer to an event. *)

From S2P Require Import Prelude Kernel UioTypes UioAttr UioDevice UioFile KLogic UioInv UioSpec.

Section read.
Context `{HK : Kernel, HU : Uapi} {D : Type} `{HD : !UioDriver D, HDok : !UioDriverOk D}.
Implicit Types (w : world D) (F : gset Z) (σ : gmap Z nat).

(** There is something to return. *)
Definition readable w f : bool := file_gone w f || event_pending w f.

(** The rest of the system while the reader sleeps: the file stays open, and
    [rank] falls until the file is readable. *)
Record wakes (F : gset Z) (f : Z) (others : world D -> world D) (rank : world D -> nat) : Prop := Wakes {
  wk_inv w σ : core_inv w F σ -> exists σ', core_inv (others w) F σ';
  wk_priv w : w_priv (others w) !! f = w_priv w !! f;
  wk_dev w l lst : w_priv w !! f = Some l -> w_heap w !! l = Some (HLsn lst) ->
    exists lst', w_heap (others w) !! l = Some (HLsn lst') /\ l_dev lst' = l_dev lst;
  wk_waitq w p : waitq_len p (w_hist (others w)) = waitq_len p (w_hist w);
  wk_progress w : readable w f = false -> readable (others w) f = true \/ (rank (others w) < rank w)%nat;
  wk_mem w w' : w_heap w' = w_heap w -> w_info w' = w_info w -> w_priv w' = w_priv w -> rank w' = rank w }.

(** What a finished read returns. *)
Definition read_result (count v : Z) : Prop :=
  v = count \/ v = - EIO \/ v = - EFAULT \/ v = - EAGAIN \/ v = - ERESTARTSYS.

Lemma readable_mem w w' f :
  w_heap w' = w_heap w -> w_info w' = w_info w -> w_priv w' = w_priv w -> readable w' f = readable w f.
Proof.
  intros E1 E2 E3. unfold readable, file_gone, event_pending, dev_event_count, seen_event_count, idev_gone, dev_of.
  by rewrite E1, E2, E3.
Qed.

(** One iteration ends the loop when the file is readable. *)
Lemma read_step_readable w f count nb r w' :
  read_step_post w f count nb r w' -> readable w f = true -> exists v, r = ReadBreak v /\ read_result count v.
Proof.
  unfold read_step_post, readable, read_result. destruct (file_gone w f); cbn [orb].
  - intros [-> _] _. eauto 10.
  - intros Hp E. rewrite E in Hp. destruct Hp as [(e & o & h & _ & _ & -> & _)|[-> _]]; eauto 10.
Qed.

Lemma read_step_cases w f count nb r w' :
  read_step_post w f count nb r w' ->
  (exists v, r = ReadBreak v /\ read_result count v) \/ (r = ReadAgain /\ readable w f = false /\ w_heap w' = w_heap w).
Proof.
  intros Hp. destruct (readable w f) eqn:E; [left; by eapply read_step_readable|].
  unfold readable in E. apply orb_false_iff in E as [E1 E2]. unfold read_step_post in Hp. rewrite E1, E2 in Hp.
  destruct Hp as [[->|[-> ->]] Hh]; [left|right; by split_and!].
  unfold read_result. destruct nb; eauto 10.
Qed.

Section loop.
Context (F : gset Z) (f : Z) (others : world D -> world D) (rank : world D -> nat).
Hypothesis Hf : f ∈ F.
Hypothesis Hw : wakes F f others rank.

Lemma wp_read_loop l count nb : forall fuel w σ lst,
  core_inv w F σ -> w_priv w !! f = Some l -> w_heap w !! l = Some (HLsn lst) ->
  (fuel > (if readable w f then 0 else S (rank w)))%nat ->
  wp (read_loop others fuel l (l_dev lst) count nb) w (fun r w' =>
    (exists v, r = Some v /\ read_result count v) /\ (exists σ', core_inv w' F σ') /\
    (forall p, waitq_len p (w_hist w') = waitq_len p (w_hist w))).
Proof using All.
  induction fuel as [|fuel IH]; intros w σ lst Hi Hp Hl Hfuel; [lia|]. cbn [read_loop].
  kstep. eapply wp_mono; [by apply (wp_read_iter w F σ f l lst)|]. cbn beta.
  intros r w1 (Hi1 & Hp1 & Hinfo & Hq1 & (lst1 & Hl1 & Hd1) & Hpost).
  destruct (read_step_cases _ _ _ _ _ _ Hpost) as [(v & -> & Hv)|(-> & Hr & Hh)].
  { ksteps. eauto 10. }
  ksteps. rewrite Hr in Hfuel. destruct (wk_inv _ _ _ _ Hw _ _ Hi1) as [σ2 Hi2].
  destruct (wk_dev _ _ _ _ Hw w1 l lst1) as (lst2 & Hl2 & Hd2); [by rewrite Hp1|done|].
  rewrite <- Hd1, <- Hd2. eapply wp_mono.
  { apply (IH _ σ2 lst2 Hi2); [by rewrite (wk_priv _ _ _ _ Hw), Hp1|done|].
    destruct (wk_progress _ _ _ _ Hw w1) as [->|Hlt]; [by rewrite (readable_mem w)|lia|].
    rewrite (wk_mem _ _ _ _ Hw w w1) in Hlt by done. case_match; lia. }
  cbn beta. intros r w2 (Hv & Hi3 & Hq2). split_and!; auto. intros p. by rewrite Hq2, (wk_waitq _ _ _ _ Hw), Hq1.
Qed.
End loop.

(** All of [uio_read]: with enough iterations it returns, it leaves the wait
    queue as it was, and it returns one of the documented values. *)
Lemma wp_uio_read F f others rank fuel count nb w σ :
  f ∈ F -> wakes F f others rank -> core_inv w F σ -> (fuel > S (rank w))%nat ->
  wp (uio_read others fuel f count nb) w (fun r w' =>
    (count <> sizeof_s32 -> r = Some (- EINVAL) /\ w' = w) /\
    (count = sizeof_s32 -> exists v, r = Some v /\ read_result count v) /\
    (exists σ', core_inv w' F σ') /\ (forall p, waitq_len p (w_hist w') = waitq_len p (w_hist w))).
Proof.
  intros Hf Hw Hi Hfuel. destruct (open_file_full _ _ _ _ Hi Hf) as (l & lst & d & Hp & Hl & Hd & Hdev & Hr).
  unfold uio_read. ksteps. destruct (Z.eqb_spec count sizeof_s32) as [E|E]; cbn [negb]; ksteps.
  2: { split_and!; [done|done|by exists σ|done]. }
  eapply wp_mono.
  { apply (wp_read_loop F f others rank Hf Hw l count nb fuel _ σ lst); try by wsimpl_goal.
    - apply (inv_quiet_drv w); [done|quiet_tac|by wsimpl_goal].
    - rewrite (readable_mem w) by by wsimpl_goal. rewrite (wk_mem _ _ _ _ Hw w) by by wsimpl_goal. case_match; lia. }
  cbn beta. intros r w1 ((v & -> & Hv) & [σ1 Hi1] & Hq). ksteps. split_and!; [done|eauto| |].
  - exists σ1. apply (inv_quiet_drv w1); [done|quiet_tac|by wsimpl_goal].
  - intros p. gsimpl. rewrite Hq. gsimpl. case_match; lia.
Qed.
End read.
