(* ===== verification/UioOpen.v ===== *)
(** * open and release

    The two operations that change the set of open files: the invariant moves
    from [F] to [{[f]} ∪ F] on a successful open, stays at [F] on every failed
    one, and moves back on release. *)

From S2P Require Import Prelude Kernel UioTypes UioAttr UioDevice UioFile UioMmap KLogic UioInv UioSpec.

Section open.
Context `{Kernel, Uapi} {D : Type} `{!UioDriver D, !UioDriverOk D}.
Implicit Types (w : world D) (F : gset Z) (σ : gmap Z nat).

(** A file that keeps its listener keeps its device. *)
Lemma dev_of_same w w' g l :
  w_priv w' !! g = w_priv w !! g -> w_priv w !! g = Some l -> w_heap w' !! l = w_heap w !! l ->
  dev_of w' g = dev_of w g.
Proof. intros Hp Hl Hh. unfold dev_of. by rewrite Hp, Hl; simpl; rewrite Hh. Qed.

Lemma owner_of_same w w' g p :
  dev_of w' g = dev_of w g -> dev_of w g = Some p -> w_heap w' !! p = w_heap w !! p ->
  owner_of w' g = owner_of w g.
Proof. intros Hp Hl Hh. unfold owner_of. by rewrite Hp, Hl; simpl; rewrite Hh. Qed.

(** *** One more open file *)
Section add.
Context (w w' : world D) (F : gset Z) (σ : gmap Z nat) (f l p : Z) (d : uio_device) (lst : uio_listener) (n : nat).
Hypothesis Hi : core_inv w F σ.
Hypothesis Hf : f ∉ F.
Hypothesis Hd : w_heap w !! p = Some (HIdev d).
Hypothesis Hreg : registered w p d.
Hypothesis Hl : w_heap w !! l = None.
Hypothesis Hlst : l_dev lst = p.
Hypothesis Hlive : 0 < l /\ l ∈ live (w_hist w').
Hypothesis Hsub : live (w_hist w) ⊆ live (w_hist w').
Hypothesis Hheap : w_heap w' = <[l := HLsn lst]> (w_heap w).
Hypothesis Hinfo : w_info w' = w_info w.
Hypothesis Hpriv : w_priv w' = <[f := l]> (w_priv w).
Hypothesis Hidr : idr_of (w_hist w') = idr_of (w_hist w).
Hypothesis Hrefs : forall q, dev_refs q (w_hist w') = (if p =? q then 1 else 0) + dev_refs q (w_hist w).
Hypothesis Hmods : forall m, mod_refs m (w_hist w') = (if d_owner d =? m then 1 else 0) + mod_refs m (w_hist w).
Hypothesis Hdata : drvdata_of (w_hist w') = drvdata_of (w_hist w).
Hypothesis Hlock : forall x, lock_depth x (w_hist w') = lock_depth x (w_hist w).
Hypothesis Hn : σ !! d_info d = Some n.
Hypothesis Hdrv : drv_inv (<[d_info d := S n]> σ) w'.

Lemma add_lookup q o : w_heap w !! q = Some o -> w_heap w' !! q = Some o.
Proof using Hl Hheap. intros Hq. rewrite Hheap, lookup_insert_ne; congruence. Qed.

Lemma add_idev q d' : w_heap w' !! q = Some (HIdev d') <-> w_heap w !! q = Some (HIdev d').
Proof using Hl Hheap.
  split; [|apply add_lookup]. rewrite Hheap. destruct (decide (l = q)) as [<-|].
  - rewrite lookup_insert_eq. discriminate.
  - by rewrite lookup_insert_ne.
Qed.

Lemma add_reg q d' : registered w' q d' <-> registered w q d'.
Proof using Hidr. unfold registered. by rewrite Hidr. Qed.

Lemma add_dev_new : dev_of w' f = Some p.
Proof using Hheap Hpriv Hlst.
  unfold dev_of. rewrite Hpriv, lookup_insert_eq. simpl. rewrite Hheap, lookup_insert_eq. simpl. by rewrite Hlst.
Qed.

Lemma add_dev_old g : g ∈ F -> dev_of w' g = dev_of w g.
Proof using Hi Hf Hheap Hpriv Hl.
  intros Hg. destruct (ci_file _ _ _ Hi g Hg) as (lg & lstg & dg & E1 & E2 & E3).
  apply (dev_of_same _ _ _ lg); [|done|].
  - rewrite Hpriv, lookup_insert_ne; [done|]. intros ->. done.
  - rewrite E2. by apply add_lookup.
Qed.

Lemma add_owner_old g : g ∈ F -> owner_of w' g = owner_of w g.
Proof using Hi Hf Hheap Hpriv Hl.
  intros Hg. destruct (ci_file _ _ _ Hi g Hg) as (lg & lstg & dg & E1 & E2 & E3).
  apply (owner_of_same _ _ _ (l_dev lstg)); [by apply add_dev_old|by eapply dev_of_some|].
  rewrite E3. by apply add_lookup.
Qed.

Lemma add_opens q : opens w' ({[f]} ∪ F) q = (if decide (p = q) then S (opens w F q) else opens w F q).
Proof using Hi Hf Hheap Hpriv Hl Hlst.
  apply count_add; [done|apply add_dev_new|]. intros. by apply add_dev_old.
Qed.

Lemma add_owner_opens m :
  owner_opens w' ({[f]} ∪ F) m = (if decide (d_owner d = m) then S (owner_opens w F m) else owner_opens w F m).
Proof using Hi Hf Hheap Hpriv Hl Hlst Hd.
  apply count_add; [done| |intros; by apply add_owner_old].
  apply (owner_of_some _ _ p); [apply add_dev_new|by apply add_lookup].
Qed.

Lemma inv_add : core_inv w' ({[f]} ∪ F) (<[d_info d := S n]> σ).
Proof using All.
  split.
  - intros q o. rewrite Hheap. destruct (decide (l = q)) as [<-|]; [done|].
    rewrite lookup_insert_ne by done. intros Hq. destruct (ci_live _ _ _ Hi _ _ Hq). auto.
  - intros g [->%elem_of_singleton|Hg]%elem_of_union.
    + exists l, lst, d. rewrite Hpriv, Hheap, Hlst, !lookup_insert_eq. split_and!; auto.
      rewrite <- Hheap. by apply add_lookup.
    + destruct (ci_file _ _ _ Hi g Hg) as (lg & lstg & dg & E1 & E2 & E3).
      exists lg, lstg, dg. split_and!; [|by apply add_lookup..].
      rewrite Hpriv, lookup_insert_ne; [done|]. intros ->. done.
  - assert (Hold : forall g, g ∈ F -> w_priv w !! g <> Some l).
    { intros g Hg E. destruct (ci_file _ _ _ Hi g Hg) as (lg & ? & ? & ? & ? & ?). congruence. }
    intros g h x Hg Hh. rewrite Hpriv.
    apply elem_of_union in Hg as [->%elem_of_singleton|Hg], Hh as [->%elem_of_singleton|Hh]; auto.
    + rewrite lookup_insert_eq, lookup_insert_ne by (intros ->; done). intros [= <-] E.
      by destruct (Hold h Hh).
    + rewrite lookup_insert_ne, lookup_insert_eq by (intros ->; done). intros E [= <-].
      by destruct (Hold g Hg).
    + rewrite !lookup_insert_ne by (intros ->; done). by apply (ci_inj _ _ _ Hi).
  - intros m q. rewrite Hidr. intros E. destruct (ci_idr _ _ _ Hi _ _ E) as (d' & i & E1 & E2).
    exists d', i. split; [by apply add_lookup|]. by rewrite Hinfo.
  - intros q d' Hq%add_idev Hnn. destruct (ci_info _ _ _ Hi _ _ Hq Hnn) as [Hr|Hz]; [left; by apply add_reg|].
    rewrite Hrefs. destruct (Z.eqb_spec p q) as [<-|]; [|right; lia]. left. apply add_reg. by replace d' with d by congruence.
  - intros q d' Hq%add_idev. rewrite Hrefs, add_opens, (ci_refs _ _ _ Hi _ _ Hq).
    rewrite (reg_count_ext w w' q d' d') by apply add_reg.
    destruct (Z.eqb_spec p q), (decide (p = q)); try congruence; lia.
  - intros q Hq. rewrite Hrefs.
    assert (Hq' : forall d', w_heap w !! q <> Some (HIdev d')) by (intros d'; rewrite <- add_idev; apply Hq).
    rewrite (ci_norefs _ _ _ Hi q Hq'). destruct (Z.eqb_spec p q) as [<-|]; [|done]. by destruct (Hq' d).
  - intros m. rewrite Hmods, add_owner_opens, (ci_mods _ _ _ Hi).
    destruct (Z.eqb_spec (d_owner d) m), (decide (d_owner d = m)); try congruence; lia.
  - intros q d' Hq%add_idev. rewrite Hdata. by apply (ci_drvdata _ _ _ Hi q d').
  - intros x. rewrite Hlock. apply (ci_lock _ _ _ Hi).
  - exact Hdrv.
  - intros q d' Hq%add_idev Hr%add_reg. rewrite add_opens.
    destruct (decide (p = q)) as [<-|Hne].
    + replace d' with d by congruence. rewrite lookup_insert_eq. f_equal.
      pose proof (ci_opens _ _ _ Hi _ _ Hd Hreg). congruence.
    + rewrite lookup_insert_ne; [by apply (ci_opens _ _ _ Hi)|]. intros E.
      destruct (registered_info _ _ _ _ _ Hi Hd Hreg) as (i1 & _ & I1 & U1 & _).
      destruct (registered_info _ _ _ _ _ Hi Hq Hr) as (i2 & _ & I2 & U2 & _). congruence.
Qed.
End add.

(** *** One open file less *)
Section remove.
Context (w w' : world D) (F : gset Z) (σ σ' : gmap Z nat) (f l p : Z) (d : uio_device) (lst : uio_listener).
Hypothesis Hi : core_inv w F σ.
Hypothesis Hf : f ∈ F.
Hypothesis Hd : w_heap w !! p = Some (HIdev d).
Hypothesis Hl : w_heap w !! l = Some (HLsn lst).
Hypothesis Hlst : l_dev lst = p.
Hypothesis Hpf : w_priv w !! f = Some l.
Hypothesis Hlive : live (w_hist w) ∖ {[l]} ⊆ live (w_hist w').
Hypothesis Hheap : w_heap w' = delete l (w_heap w).
Hypothesis Hinfo : w_info w' = w_info w.
Hypothesis Hpriv : w_priv w' = w_priv w.
Hypothesis Hidr : idr_of (w_hist w') = idr_of (w_hist w).
Hypothesis Hrefs : forall q, dev_refs q (w_hist w') = (if p =? q then -1 else 0) + dev_refs q (w_hist w).
Hypothesis Hmods : forall m, mod_refs m (w_hist w') = (if d_owner d =? m then -1 else 0) + mod_refs m (w_hist w).
Hypothesis Hdata : drvdata_of (w_hist w') = drvdata_of (w_hist w).
Hypothesis Hlock : forall x, lock_depth x (w_hist w') = lock_depth x (w_hist w).
Hypothesis Hσ : forall k, k <> d_info d -> σ' !! k = σ !! k.
Hypothesis Hσd : registered w p d -> exists n, σ !! d_info d = Some (S n) /\ σ' !! d_info d = Some n.
Hypothesis Hdrv : drv_inv σ' w'.

Lemma remove_lookup q o : q <> l -> w_heap w !! q = Some o -> w_heap w' !! q = Some o.
Proof using Hheap. intros Hq. by rewrite Hheap, lookup_delete_ne. Qed.

Lemma remove_idev q d' : w_heap w' !! q = Some (HIdev d') <-> w_heap w !! q = Some (HIdev d').
Proof using Hl Hheap.
  rewrite Hheap. destruct (decide (l = q)) as [<-|].
  - rewrite lookup_delete_eq, Hl. split; discriminate.
  - by rewrite lookup_delete_ne.
Qed.

Lemma remove_reg q d' : registered w' q d' <-> registered w q d'.
Proof using Hidr. unfold registered. by rewrite Hidr. Qed.

Lemma remove_lsn g lg lstg : g ∈ F -> g <> f -> w_priv w !! g = Some lg ->
  w_heap w !! lg = Some (HLsn lstg) -> w_heap w' !! lg = Some (HLsn lstg).
Proof using Hi Hf Hpf Hheap.
  intros Hg Hne E1 E2. apply remove_lookup; [|done]. intros ->. apply Hne.
  by apply (ci_inj _ _ _ Hi g f l).
Qed.

Lemma remove_dev_old g : g ∈ F -> g <> f -> dev_of w' g = dev_of w g.
Proof using Hi Hf Hpf Hheap Hpriv.
  intros Hg Hne. destruct (ci_file _ _ _ Hi g Hg) as (lg & lstg & dg & E1 & E2 & E3).
  apply (dev_of_same _ _ _ lg); [by rewrite Hpriv|done|].
  rewrite E2. by eapply remove_lsn.
Qed.

Lemma remove_owner_old g : g ∈ F -> g <> f -> owner_of w' g = owner_of w g.
Proof using Hi Hf Hpf Hheap Hpriv Hl.
  intros Hg Hne. destruct (ci_file _ _ _ Hi g Hg) as (lg & lstg & dg & E1 & E2 & E3).
  apply (owner_of_same _ _ _ (l_dev lstg)); [by apply remove_dev_old|by eapply dev_of_some|].
  rewrite E3. by apply remove_idev.
Qed.

Lemma remove_dev : dev_of w f = Some p.
Proof using Hpf Hl Hlst. rewrite <- Hlst. by eapply dev_of_some. Qed.

Lemma remove_opens q :
  opens w F q = (if decide (p = q) then S (opens w' (F ∖ {[f]}) q) else opens w' (F ∖ {[f]}) q).
Proof using Hi Hf Hpf Hheap Hpriv Hl Hlst.
  apply count_remove; [done|apply remove_dev|]. intros. by apply remove_dev_old.
Qed.

Lemma remove_owner_opens m :
  owner_opens w F m = (if decide (d_owner d = m) then S (owner_opens w' (F ∖ {[f]}) m) else owner_opens w' (F ∖ {[f]}) m).
Proof using Hi Hf Hpf Hheap Hpriv Hl Hlst Hd.
  apply count_remove; [done| |intros; by apply remove_owner_old].
  apply (owner_of_some _ _ p); [apply remove_dev|done].
Qed.

Lemma inv_remove : core_inv w' (F ∖ {[f]}) σ'.
Proof using All.
  split.
  - intros q o. rewrite Hheap. destruct (decide (l = q)) as [<-|]; [by rewrite lookup_delete_eq|].
    rewrite lookup_delete_ne by done. intros Hq. destruct (ci_live _ _ _ Hi _ _ Hq). set_solver.
  - intros g [Hg Hne]%elem_of_difference. rewrite not_elem_of_singleton in Hne.
    destruct (ci_file _ _ _ Hi g Hg) as (lg & lstg & dg & E1 & E2 & E3).
    exists lg, lstg, dg. rewrite Hpriv, remove_idev. split_and!; auto. by eapply remove_lsn.
  - intros g h x [Hg _]%elem_of_difference [Hh _]%elem_of_difference. rewrite Hpriv.
    by apply (ci_inj _ _ _ Hi).
  - intros m q. rewrite Hidr. intros E. destruct (ci_idr _ _ _ Hi _ _ E) as (d' & i & E1 & E2).
    exists d', i. rewrite remove_idev. split; [done|]. by rewrite Hinfo.
  - intros q d' Hq%remove_idev Hnn. destruct (ci_info _ _ _ Hi _ _ Hq Hnn) as [Hr|Hz]; [left; by apply remove_reg|].
    destruct (Z.eqb_spec p q) as [<-|Hne]; [|right; rewrite Hrefs; destruct (Z.eqb_spec p q); lia].
    rewrite (ci_refs _ _ _ Hi _ _ Hq), remove_opens in Hz. unfold reg_count in Hz.
    destruct (decide (p = p)); [|done]. case_decide; lia.
  - intros q d' Hq%remove_idev. rewrite Hrefs, (ci_refs _ _ _ Hi _ _ Hq), remove_opens.
    rewrite (reg_count_ext w w' q d' d') by apply remove_reg.
    destruct (Z.eqb_spec p q), (decide (p = q)); try congruence; lia.
  - intros q Hq. rewrite Hrefs.
    assert (Hq' : forall d', w_heap w !! q <> Some (HIdev d')) by (intros d'; rewrite <- remove_idev; apply Hq).
    rewrite (ci_norefs _ _ _ Hi q Hq'). destruct (Z.eqb_spec p q) as [<-|]; [|done]. by destruct (Hq' d).
  - intros m. rewrite Hmods, (ci_mods _ _ _ Hi), remove_owner_opens.
    destruct (Z.eqb_spec (d_owner d) m), (decide (d_owner d = m)); try congruence; lia.
  - intros q d' Hq%remove_idev. rewrite Hdata. by apply (ci_drvdata _ _ _ Hi q d').
  - intros x. rewrite Hlock. apply (ci_lock _ _ _ Hi).
  - exact Hdrv.
  - intros q d' Hq%remove_idev Hr%remove_reg. pose proof (ci_opens _ _ _ Hi _ _ Hq Hr) as Ho.
    rewrite remove_opens in Ho. destruct (decide (p = q)) as [<-|Hne].
    + replace d' with d in * by congruence. destruct (Hσd Hr) as (n & E1 & E2). congruence.
    + rewrite Hσ; [done|]. intros E.
      destruct (registered_info _ _ _ _ _ Hi Hq Hr) as (i2 & N2 & I2 & U2 & _).
      destruct (ci_info _ _ _ Hi _ _ Hd) as [Hr1|Hz]; [congruence| |].
      * destruct (registered_info _ _ _ _ _ Hi Hd Hr1) as (i1 & _ & I1 & U1 & _). congruence.
      * rewrite (ci_refs _ _ _ Hi _ _ Hd), remove_opens in Hz. unfold reg_count in Hz.
        destruct (decide (p = p)); [|done]. case_decide; lia.
Qed.
End remove.

(** Nothing the invariant sees has changed, files outside [F] apart. *)
Lemma inv_restore w w' F σ :
  core_inv w F σ -> w_heap w' = w_heap w -> w_info w' = w_info w ->
  (forall f, f ∈ F -> w_priv w' !! f = w_priv w !! f) ->
  live (w_hist w) ⊆ live (w_hist w') -> idr_of (w_hist w') = idr_of (w_hist w) ->
  (forall q, dev_refs q (w_hist w') = dev_refs q (w_hist w)) ->
  (forall m, mod_refs m (w_hist w') = mod_refs m (w_hist w)) ->
  drvdata_of (w_hist w') = drvdata_of (w_hist w) ->
  (forall x, lock_depth x (w_hist w') = lock_depth x (w_hist w)) ->
  drv_inv σ w' -> core_inv w' F σ.
Proof.
  intros Hi Hh Hinfo Hp Hlive E1 E2 E3 E4 E5 Hd. apply (inv_quiet w); [exact Hi| |exact Hd].
  split; auto.
  - intros p. by rewrite Hh.
  - intros Hl p o. rewrite Hh. intros Hpo. destruct (Hl p o Hpo). auto.
  - intros p. by rewrite Hinfo.
Qed.

Definition opened w f minor F w' : Prop :=
  exists p σ', idr_of (w_hist w) !! minor = Some p /\ core_inv w' ({[f]} ∪ F) σ' /\
    dev_of w' f = Some p /\ event_pending w' f = false /\ file_gone w' f = idev_gone w p.

Definition not_opened w F σ w' : Prop :=
  core_inv w' F σ /\ w_heap w' = w_heap w /\ w_info w' = w_info w /\ live (w_hist w') = live (w_hist w) /\
  (forall f, f ∈ F -> w_priv w' !! f = w_priv w !! f).

Lemma drv_inv_keep σ w w' :
  w_info w' = w_info w -> w_drv w' = w_drv w -> drv_inv σ w -> drv_inv σ w'.
Proof. intros Hi Hd. apply drv_inv_core; [exact Hd|]. intros p. by rewrite Hi. Qed.

(** The goals of [inv_restore] for a state reached from [w] by balanced
    calls; the counters that need an argument of their own are left. *)
Ltac restore w Hi :=
  apply (inv_restore w); [exact Hi|..]; wsimpl_goal; try done; try (by gall);
  try lazymatch goal with
  | |- drv_inv _ _ => apply (drv_inv_keep _ w); [by wsimpl_goal..|apply (ci_drv _ _ _ Hi)]
  | |- forall x : lock, _ => gall; repeat case_decide; lia
  end.

(** *** The end of [uio_open], the listener being allocated

    [held x] is what is added to the depth of lock [x]. *)
Record opening w f p d l (held : lock -> Z) w1 : Prop := Opening {
  op_heap : w_heap w1 = <[l := HLsn (UioListener p (d_event d))]> (w_heap w);
  op_info : w_info w1 = w_info w;
  op_priv : w_priv w1 = <[f := l]> (w_priv w);
  op_live : live (w_hist w1) = {[l]} ∪ live (w_hist w);
  op_idr : idr_of (w_hist w1) = idr_of (w_hist w);
  op_refs q : dev_refs q (w_hist w1) = (if p =? q then 1 else 0) + dev_refs q (w_hist w);
  op_mods n : mod_refs n (w_hist w1) = (if d_owner d =? n then 1 else 0) + mod_refs n (w_hist w);
  op_data : drvdata_of (w_hist w1) = drvdata_of (w_hist w);
  op_lock x : lock_depth x (w_hist w1) = held x + lock_depth x (w_hist w) }.

Section tail.
Context (w : world D) (F : gset Z) (σ : gmap Z nat) (f p minor inode l : Z) (d : uio_device) (i : uio_info).
Hypothesis Hi : core_inv w F σ.
Hypothesis Hf : f ∉ F.
Hypothesis Hidr : idr_of (w_hist w) !! minor = Some p.
Hypothesis Hd : w_heap w !! p = Some (HIdev d).
Hypothesis Hreg : registered w p d.
Hypothesis Hinfo : w_info w !! d_info d = Some i.
Hypothesis Hl0 : 0 < l.
Hypothesis Hfresh : l ∉ live (w_hist w).
Hypothesis Hmax : (opens w F p <= max_opens)%nat.

Let post (r : Z) w' : Prop := (r = 0 -> opened w f minor F w') /\ (r <> 0 -> not_opened w F σ w').

Lemma tail_fresh : w_heap w !! l = None.
Proof using Hi Hfresh.
  destruct (w_heap w !! l) as [o|] eqn:E; [|done]. by destruct (ci_live _ _ _ Hi _ _ E).
Qed.

Lemma wp_err_infoopen r w1 :
  r <> 0 -> opening w f p d l (fun _ => 0) w1 -> drv_inv σ w1 -> wp (err_infoopen l p r) w1 post.
Proof using All.
  intros Hr [Hh Hw Hp Hlive Hid Hrefs Hmods Hdata Hlock] Hdrv. pose proof tail_fresh as Hl.
  unfold err_infoopen, err_alloc_listener, err_module_get. kstep.
  eapply wp_kfree; [lia|rewrite Hh; apply lookup_insert_eq|]. kstep. eapply wp_load_idev.
  { wsimpl_goal. rewrite Hh, lookup_delete_ne, lookup_insert_ne by congruence. exact Hd. }
  ksteps. split; [done|]. intros _.
  assert (Heq : delete l (w_heap w1) = w_heap w) by (rewrite Hh; by apply delete_insert_id).
  assert (Hpr : forall g, g ∈ F -> w_priv w1 !! g = w_priv w !! g).
  { intros g Hg. rewrite Hp, lookup_insert_ne; [done|]. by intros ->. }
  assert (Hlv : ({[l]} ∪ live (w_hist w)) ∖ {[l]} = live (w_hist w)) by (apply set_eq; intros x; rewrite elem_of_difference, elem_of_union, elem_of_singleton;
      split; [intros [[?|?] ?]; done|intros Hx; split; [by right|by intros ->]]).
  split_and!; wsimpl_goal; try done; [|gall; by rewrite Hlive].
  apply (inv_restore w); [exact Hi|..]; wsimpl_goal; try done.
  - gall. by rewrite Hlive, Hlv.
  - gall. rewrite Hrefs. destruct (p =? q); lia.
  - gall. rewrite Hmods. destruct (d_owner d =? m); lia.
  - apply (drv_inv_keep _ w1); [by wsimpl_goal..|done].
Qed.

Lemma opened_final w1 : opening w f p d l (fun _ => 0) w1 ->
  drv_inv (<[d_info d := S (opens w F p)]> σ) w1 -> opened w f minor F w1.
Proof using All.
  intros [Hh Hw Hp Hlive Hid Hrefs Hmods Hdata Hlock] Hdrv. pose proof tail_fresh as Hl.
  assert (dev_of w1 f = Some p) as E4.
  { unfold dev_of. rewrite Hp, lookup_insert_eq. simpl. by rewrite Hh, lookup_insert_eq. }
  assert (w_heap w1 !! p = Some (HIdev d)) as E5 by (rewrite Hh, lookup_insert_ne; congruence).
  exists p, (<[d_info d := S (opens w F p)]> σ). split_and!; try done.
  - eapply (inv_add w w1 F σ f l p d _ (opens w F p)); try done.
    + reflexivity.
    + split; [done|]. rewrite Hlive. apply elem_of_union_l, elem_of_singleton_2. done.
    + rewrite Hlive. clear. set_solver.
    + by apply (ci_opens _ _ _ Hi).
  - rewrite (event_pending_eq _ _ p d l (UioListener p (d_event d))); try done.
    + cbn. by rewrite Z.eqb_refl.
    + by rewrite Hp, lookup_insert_eq.
    + by rewrite Hh, lookup_insert_eq.
  - unfold file_gone, idev_gone. rewrite E4, E5, Hd. cbn. by rewrite Hw.
Qed.

Lemma opening_frame held w1 w2 :
  core_frame w1 w2 -> opening w f p d l held w1 -> opening w f p d l held w2.
Proof using All.
  intros Hfr [Hh Hw Hp Hlive Hid Hrefs Hmods Hdata Hlock]. pose proof Hfr as [E1 E2 E3 _ _].
  split; intros; try congruence; gall; auto.
Qed.

Lemma opening_unlock w1 :
  opening w f p d l (fun x => if decide (InfoLock p = x) then 1 else 0) w1 ->
  opening w f p d l (fun _ => 0) (logged (MutexUnlock (InfoLock p)) w1).
Proof using All.
  intros [Hh Hw Hp Hlive Hid Hrefs Hmods Hdata Hlock].
  split; intros; wsimpl_goal; try done; gsimpl.
  - apply Hrefs.
  - apply Hmods.
  - rewrite Hlock. case_decide; lia.
Qed.

Lemma wp_open_tail w1 :
  opening w f p d l (fun x => if decide (InfoLock p = x) then 1 else 0) w1 -> w_drv w1 = w_drv w ->
  wp (if i_open i =? 0 then mret 0 else drv_open (i_open i) (d_info d) inode) w1 (fun ret w2 =>
    wp (do_ (MutexUnlock (InfoLock p));;
        if negb (ret =? 0) then err_infoopen l p ret else mret 0) w2 post).
Proof using All.
  intros Ho Hdrv. pose proof Ho as [Hh Hw Hp Hlive Hid Hrefs Hmods Hdata Hlock].
  assert (Hn1 : σ !! d_info d = Some (opens w F p)) by by apply (ci_opens _ _ _ Hi).
  assert (Hinv1 : drv_inv σ w1) by (apply (drv_inv_keep _ w); [done..|apply (ci_drv _ _ _ Hi)]).
  apply (wp_mono _ _ (fun r w2 => core_frame w1 w2 /\
    drv_inv (if r =? 0 then <[d_info d := S (opens w F p)]> σ else σ) w2)).
  - destruct (Z.eqb_spec (i_open i) 0) as [Hz|Hz].
    + kstep. split; [apply core_frame_refl|]. cbn.
      apply (drv_inv_null_open σ _ _ i); try done. by rewrite Hw.
    + apply (drv_open_ok σ _ _ i); try done. by rewrite Hw.
  - cbn beta. intros r w2 [Hfr Hinv2]. pose proof (opening_frame _ _ _ Hfr Ho) as Ho2.
    apply opening_unlock in Ho2. ksteps. destruct (Z.eqb_spec r 0) as [->|Hr]; cbn [negb].
    + kstep. split; [|done]. intros _. apply opened_final; [done|].
      apply (drv_inv_keep _ w2); [by wsimpl_goal..|done].
    + apply wp_err_infoopen; [done..|]. apply (drv_inv_keep _ w2); [by wsimpl_goal..|done].
Qed.
End tail.

Lemma wp_uio_open `{!KernelOk} w F σ minor inode f :
  core_inv w F σ -> f ∉ F -> (forall p, (opens w F p <= max_opens)%nat) ->
  wp (uio_open minor inode f) w (fun r w' =>
    (r = 0 -> opened w f minor F w') /\ (r <> 0 -> not_opened w F σ w')).
Proof.
  intros Hi Hf Hmax. unfold uio_open. ksteps.
  rewrite idr_find_spec. gsimpl.
  destruct (idr_of (w_hist w) !! minor) as [p|] eqn:Hidr; cbn [default from_option].
  2: { kred. ksteps. split; [discriminate|]. intros _. split_and!; try (by gall).
       restore w Hi. }
  destruct (ci_idr _ _ _ Hi _ _ Hidr) as (d & i & Hd & Hm & Hn & Hinfo & Hu & Hs).
  assert (Hreg : registered w p d) by (unfold registered; by rewrite Hm).
  destruct (ci_live _ _ _ Hi _ _ Hd) as [Hp _]. unfold NULL. change (id p) with p.
  destruct (Z.eqb_spec p 0); [lia|]. ksteps.
  kif Etry.
  { unfold err_module_get. ksteps. split; [discriminate|]. intros _. split_and!; try (by gall).
    restore w Hi.
    - gall. destruct (p =? q); lia.
    - gall. rewrite Etry. by rewrite andb_false_r. }
  ksteps. kif Emal.
  { unfold err_alloc_listener, err_module_get. ksteps.
    split; [discriminate|]. intros _.
    split_and!; try (by gall; rewrite ?Emal).
    restore w Hi.
    - by gall; rewrite Emal.
    - gall. destruct (p =? q); lia.
    - gall. rewrite Etry. cbn. destruct (d_owner d =? m); cbn; lia. }
  match goal with |- context [kernel ?h (Kmalloc OUioListener)] =>
    destruct (alloc_fresh h (Kmalloc OUioListener) I) as [Hbad|[Hl0 Hfresh]] end.
  { rewrite Hbad in Emal. discriminate. }
  match type of Hl0 with 0 < ?x => remember x as l eqn:El end.
  revert Hfresh. gsimpl. intros Hfresh.
  assert (Hl : w_heap w !! l = None).
  { destruct (w_heap w !! l) as [o|] eqn:E; [|done]. by destruct (ci_live _ _ _ Hi _ _ E). }
  ksteps. destruct (Z.eqb_spec (d_info d) 0); [done|]. ksteps.
  apply (wp_open_tail w F σ f p minor inode l d i); try done.
  - split; intros; wsimpl_goal; try done; gall; try done.
    + by rewrite <- El, Emal.
    + rewrite Etry, andb_true_r. case_match; lia.
    + repeat case_decide; lia.
Qed.

(** *** release *)

Definition released w f F w' : Prop :=
  exists l p, w_priv w !! f = Some l /\ dev_of w f = Some p /\
    w_heap w' = delete l (w_heap w) /\ w_info w' = w_info w /\
    (exists σ', core_inv w' (F ∖ {[f]}) σ') /\
    dev_refs p (w_hist w') = dev_refs p (w_hist w) - 1.

Lemma wp_uio_release w F σ inode f :
  core_inv w F σ -> f ∈ F ->
  wp (uio_release inode f) w (fun r w' => released w f F w').
Proof.
  intros Hi Hf. destruct (open_file_full _ _ _ _ Hi Hf) as (l & lst & d & Hp & Hl & Hd & Hdev & Hr).
  destruct (ci_live _ _ _ Hi _ _ Hl) as [Hl0 _].
  unfold uio_release. ksteps. unfold NULL.
  apply (wp_mono _ _ (fun r w2 => core_frame (logged (MutexLock (InfoLock (l_dev lst))) w) w2 /\
    exists σ', drv_inv σ' w2 /\ (forall k, k <> d_info d -> σ' !! k = σ !! k) /\
      (d_info d <> 0 -> exists n, σ !! d_info d = Some (S n) /\ σ' !! d_info d = Some n))).
  - destruct (Z.eqb_spec (d_info d) 0) as [Hn|Hn].
    + kstep. split; [apply core_frame_refl|]. exists σ. split; [|done].
      apply (drv_inv_keep _ w); [by wsimpl_goal..|apply (ci_drv _ _ _ Hi)].
    + destruct (Hr Hn) as (i & n & _ & Hinfo & _ & _ & Hσ). ksteps.
      assert (Hk : forall σ1, σ1 = <[d_info d := n]> σ ->
        (forall k, k <> d_info d -> σ1 !! k = σ !! k) /\
        (d_info d <> 0 -> exists n, σ !! d_info d = Some (S n) /\ σ1 !! d_info d = Some n)).
      { intros σ1 ->. split; [intros; by rewrite lookup_insert_ne|]. exists n. by rewrite lookup_insert_eq. }
      assert (Hdrv : drv_inv σ (logged (MutexLock (InfoLock (l_dev lst))) w)).
      { apply (drv_inv_keep _ w); [by wsimpl_goal..|apply (ci_drv _ _ _ Hi)]. }
      destruct (Z.eqb_spec (i_release i) 0) as [Hz|Hz].
      * kstep. split; [apply core_frame_refl|]. eexists. split; [|by apply Hk].
        by apply (drv_inv_null_release σ _ _ i); [wlookup|..].
      * eapply wp_mono; [by apply (drv_release_ok σ _ _ i n); [wlookup|..]|].
        cbn beta. intros _ w2 [Hfr Hdrv2]. split; [done|]. eexists. split; [done|by apply Hk].
  - cbn beta. intros r w2 [Hfr (σ' & Hdrv & Hσ & Hσd)]. use_frame Hfr. wsimpl. ksteps.
    eapply wp_kfree; [lia|wlookup|]. ksteps.
    exists l, (l_dev lst). split_and!; [done..|by wsimpl_goal; rewrite Eheap|by wsimpl_goal| |].
    + exists σ'. eapply (inv_remove w _ F σ σ' f l (l_dev lst) d lst); try done; wsimpl_goal; try done.
      * gall. done.
      * by rewrite Eheap.
      * by gall.
      * gall. done.
      * gall. done.
      * by gall.
      * gall. repeat case_decide; lia.
      * intros Hreg. apply Hσd. by destruct (registered_info _ _ _ _ _ Hi Hd Hreg) as (i & Hn & _).
      * apply (drv_inv_keep _ w2); [by wsimpl_goal..|done].
    + gall. rewrite Z.eqb_refl. lia.
Qed.
End open.
