(* ===== verification/UioAttrSpec.v ===== *)
(** * Specification of the attribute directories

    [uio_dev_add_attributes] and [uio_dev_del_attributes] are loops over the
    regions of an info that create and drop kobjects.  The account kept here is
    the number of references of every kobject: [mapsum] and [portsum] count the
    references the arrays of an info hold. *)

From S2P Require Import Prelude Kernel UioTypes UioAttr UioDevice KLogic UioInv UioSpec.

(** ** References held by the arrays *)

Definition hit (p q : Z) : Z := if q =? p then 1 else 0.

Definition mapsum (l : list uio_mem) (k : nat) (p : Z) : Z :=
  foldr (fun m n => hit p (m_map m) + n) 0 (take k l).
Definition portsum (l : list uio_port) (k : nat) (p : Z) : Z :=
  foldr (fun m n => hit p (p_portio m) + n) 0 (take k l).

(** Regions before the first one of size 0. *)
Fixpoint leading (sizes : list Z) : nat :=
  match sizes with
  | [] => 0
  | z :: l => if z =? 0 then 0 else S (leading l)
  end.

Definition map_count (i : uio_info) : nat := leading (m_size <$> i_mem i).
Definition port_count (i : uio_info) : nat := leading (p_size <$> i_port i).

Lemma foldr_hit_app {A} (f : A -> Z) l1 l2 :
  foldr (fun m n => f m + n) 0 (l1 ++ l2) =
  foldr (fun m n => f m + n) 0 l1 + foldr (fun m n => f m + n) 0 l2.
Proof. induction l1 as [|x l1 IH]; simpl; [reflexivity|]. rewrite IH. lia. Qed.

Lemma mapsum_S l k m p : l !! k = Some m -> mapsum l (S k) p = mapsum l k p + hit p (m_map m).
Proof. intros Hk. unfold mapsum. erewrite take_S_r by exact Hk. rewrite foldr_hit_app. simpl. lia. Qed.

Lemma portsum_S l k m p : l !! k = Some m -> portsum l (S k) p = portsum l k p + hit p (p_portio m).
Proof. intros Hk. unfold portsum. erewrite take_S_r by exact Hk. rewrite foldr_hit_app. simpl. lia. Qed.

Lemma mapsum_insert l j k m p : (k <= j)%nat -> mapsum (<[j := m]> l) k p = mapsum l k p.
Proof. intros Hj. unfold mapsum. by rewrite take_insert_ge. Qed.

Lemma portsum_insert l j k m p : (k <= j)%nat -> portsum (<[j := m]> l) k p = portsum l k p.
Proof. intros Hj. unfold portsum. by rewrite take_insert_ge. Qed.

Lemma leading_spec l k :
  (forall j, (j < k)%nat -> exists z, l !! j = Some z /\ z <> 0) ->
  (l !! k = None \/ l !! k = Some 0) -> leading l = k.
Proof.
  revert k. induction l as [|z l IH]; intros k Hk He; simpl.
  - destruct k; [done|]. destruct (Hk 0%nat) as (? & ? & _); [lia|done].
  - destruct k.
    + destruct He as [|[= ->]]; done.
    + destruct (Hk 0%nat) as (z' & [= <-] & Hz); [lia|]. rewrite (proj2 (Z.eqb_neq _ _) Hz).
      f_equal. apply IH; [|done]. intros j Hj. apply (Hk (S j)). lia.
Qed.

Lemma leading_lt l j : (j < leading l)%nat -> exists z, l !! j = Some z /\ z <> 0.
Proof.
  revert j. induction l as [|z l IH]; intros j Hj; simpl in *; [lia|].
  destruct (Z.eqb_spec z 0); [lia|]. destruct j; [by exists z|]. apply IH. lia.
Qed.

Lemma leading_end l : l !! leading l = None \/ l !! leading l = Some 0.
Proof.
  induction l as [|z l IH]; simpl; [by left|]. destruct (Z.eqb_spec z 0) as [->|]; [by right|done].
Qed.

Lemma leading_le l : (leading l <= length l)%nat.
Proof. induction l; simpl; [lia|]. case_match; simpl; lia. Qed.

(** ** Calls the loops make *)

Definition attr_call (c : kcall) : bool :=
  match c with
  | KobjectCreateAndAdd _ _ | Kzalloc _ | KobjectInit _ | KobjectAdd _ _ _ | KobjectUevent _
  | KobjectPut _ => true
  | _ => false
  end.

(** The kernel objects the loops work on: the device at [idev], its info at
    [inf], the sizes of the regions. *)
Definition sizes_of (i : uio_info) : list Z * list Z := (m_size <$> i_mem i, p_size <$> i_port i).

(** The fields of a device the loops never write. *)
Definition d_fixed (d : uio_device) : Z * Z * Z * Z * Z * Z :=
  (d_owner d, d_info d, d_minor d, d_event d, d_devt d, d_parent d).

(** An account: the references the device and its info hold on the kobject at
    [p], and what is known of the device compared with the one at the start. *)
Record account := Account {
  a_refs :> uio_device -> uio_info -> Z -> Z;
  a_dev : uio_device -> uio_device -> Prop }.

(** What stays true while the loops run, from [w0]; [acc] accounts for the
    references made so far. *)
Record attr_run {D} `{Kernel, Uapi} (w0 : world D) (idev : Z) (acc : account) (w : world D) : Prop := AttrRun {
  ar_calm : calm w0 w;
  ar_drv : w_drv w = w_drv w0;
  ar_glob : w_glob w = w_glob w0;
  ar_hist : exists evs, w_hist w = evs ++ w_hist w0 /\ Forall (fun e => attr_call (ev_call e) = true) evs;
  ar_state : exists d0 i0 d i,
    w_heap w0 !! idev = Some (HIdev d0) /\ w_info w0 !! d_info d0 = Some i0 /\
    w_heap w !! idev = Some (HIdev d) /\ w_info w !! d_info d = Some i /\
    d_info d = d_info d0 /\ d_fixed d = d_fixed d0 /\ sizes_of i = sizes_of i0 /\
    info_shape i /\ wants_irq i = wants_irq i0 /\ a_dev acc d0 d /\
    forall p, p <> 0 -> kobj_refs p (w_hist w) = kobj_refs p (w_hist w0) + acc d i p }.


Section attrs.
Context `{Kernel, Uapi} {D : Type} `{!UioDriver D, !UioDriverOk D}.
Implicit Types (w : world D) (acc : account).

Definition any_dev (d0 d : uio_device) : Prop := True.
Definition acc_maps (k : nat) : account := Account
  (fun d i p => hit p (d_map_dir d) + mapsum (i_mem i) k p)
  (fun d0 d => d_portio_dir d = d_portio_dir d0).
Definition acc_ports (k mi : nat) : account := Account
  (fun d i p => acc_maps mi d i p + hit p (d_portio_dir d) + portsum (i_port i) k p) any_dev.

(** An event of the loops appended. *)
Lemma ar_event w0 w c : (exists evs, w_hist w = evs ++ w_hist w0 /\ Forall (fun e => attr_call (ev_call e) = true) evs) ->
  attr_call c = true ->
  exists evs, w_hist (logged c w) = evs ++ w_hist w0 /\ Forall (fun e => attr_call (ev_call e) = true) evs.
Proof.
  intros (evs & Hh & Hevs) Hc. rewrite hist_logged, Hh. eexists (_ :: evs). split; [reflexivity|].
  by constructor.
Qed.

Lemma attr_run_mono w0 idev acc acc' w :
  (forall d i p, p <> 0 -> w_heap w !! idev = Some (HIdev d) -> acc' d i p = acc d i p) ->
  (forall d0 d, w_heap w0 !! idev = Some (HIdev d0) -> a_dev acc d0 d -> a_dev acc' d0 d) ->
  attr_run w0 idev acc w -> attr_run w0 idev acc' w.
Proof.
  intros Ha Hb [C1 C2 C3 C4 (d0 & i0 & d & i & ? & ? & ? & ? & ? & ? & ? & ? & ? & ? & Hk)]. split; auto.
  exists d0, i0, d, i. split_and!; auto. intros p Hp. rewrite Ha by done. auto.
Qed.

(** A fresh object at the address an allocation returned. *)
Lemma alloc_none `{!KernelOk} w c :
  heap_live w -> is_alloc c -> kernel (w_hist w) c <> 0 ->
  0 < kernel (w_hist w) c /\ w_heap w !! kernel (w_hist w) c = None /\
  kernel (w_hist w) c ∈ live (w_hist (logged c w)).
Proof.
  intros Hl Hc Hne. destruct (alloc_fresh (w_hist w) c Hc) as [?|[Hpos Hfresh]]; [done|].
  split_and!; [done| |].
  - destruct (w_heap w !! _) as [o|] eqn:E; [|done]. by destruct (Hl _ _ E).
  - rewrite live_logged_case. destruct c; try done; rewrite (proj2 (Z.eqb_neq _ 0)) by done; set_solver.
Qed.

Ltac run_split Hrun :=
  let d0 := fresh "d0" in let i0 := fresh "i0" in let d := fresh "d" in let i := fresh "i" in
  destruct Hrun as [Hcalm Hdrv Hglob Hhist (d0 & i0 & d & i & Hd0 & Hi0 & Hd & Hi & Einf & Eev & Esz & Hshape & Ewant & Hdev & Hacc)].

Lemma sizes_mem i i0 k m : sizes_of i = sizes_of i0 -> i_mem i !! k = Some m ->
  (m_size <$> i_mem i0) !! k = Some (m_size m).
Proof. intros [= E _] Hm. rewrite <- E, list_lookup_fmap, Hm. done. Qed.

Lemma sizes_port i i0 k m : sizes_of i = sizes_of i0 -> i_port i !! k = Some m ->
  (p_size <$> i_port i0) !! k = Some (p_size m).
Proof. intros [= _ E] Hm. rewrite <- E, list_lookup_fmap, Hm. done. Qed.

Lemma sizes_upd_mem k m x i : i_mem i !! k = Some m -> m_size x = m_size m ->
  sizes_of (upd_mem (insert k x) i) = sizes_of i.
Proof.
  intros Hm Hs. unfold sizes_of, upd_mem. cbn. f_equal. rewrite list_fmap_insert, Hs.
  apply list_insert_id. by rewrite list_lookup_fmap, Hm.
Qed.

Lemma sizes_upd_port k m x i : i_port i !! k = Some m -> p_size x = p_size m ->
  sizes_of (upd_port (insert k x) i) = sizes_of i.
Proof.
  intros Hm Hs. unfold sizes_of, upd_port. cbn. f_equal. rewrite list_fmap_insert, Hs.
  apply list_insert_id. by rewrite list_lookup_fmap, Hm.
Qed.

(** *** One pass of the first loop *)

(** The object of region [mi]: allocated, initialised, linked. *)
Lemma attr_run_map `{!KernelOk} w0 idev w mi m d i :
  attr_run w0 idev (acc_maps mi) w -> heap_live w0 ->
  w_heap w !! idev = Some (HIdev d) -> w_info w !! d_info d = Some i -> i_mem i !! mi = Some m ->
  kernel (w_hist w) (Kzalloc OUioMap) <> 0 ->
  let map := kernel (w_hist w) (Kzalloc OUioMap) in
  attr_run w0 idev (acc_maps (S mi))
    (set_info (insert (d_info d) (upd_mem (insert mi (upd_mmap map m)) i))
      (set_heap (insert map (HMap (UioMap (d_info d, mi)))) (logged (KobjectInit map) (logged (Kzalloc OUioMap) w)))).
Proof.
  intros Hrun Hlive Hd' Hi' Hm Hne map. run_split Hrun.
  assert (d1 = d) as -> by congruence. assert (i1 = i) as -> by congruence.
  destruct (alloc_none w (Kzalloc OUioMap) (c_alive _ _ Hcalm Hlive) I Hne) as (Hpos & Hnone & Hin).
  fold map in Hpos, Hnone, Hin, Hne.
  assert (idev <> map) by congruence.
  split.
  - eapply calm_info; [wlookup|apply iview_upd_mem|].
    apply calm_new; [by wsimpl_goal|done|done|by gsimpl|].
    apply calm_logged; [done|]. by apply calm_logged.
  - by wsimpl_goal.
  - by wsimpl_goal.
  - wsimpl_goal. apply ar_event; [|done]. by apply ar_event.
  - exists d0, i0, d, (upd_mem (insert mi (upd_mmap map m)) i).
    split_and!; try done; try wlookup.
    + rewrite <- Esz. by apply (sizes_upd_mem mi m).
    + destruct Hshape. split; [cbn; by rewrite length_insert|done].
    + intros p Hp. gsimpl. rewrite Hacc by done. cbn [acc_maps a_refs].
      cbn [i_mem upd_mem]. rewrite (mapsum_S _ mi (upd_mmap map m)).
      2: { apply list_lookup_insert_eq. apply lookup_lt_Some in Hm. done. }
      rewrite mapsum_insert by lia. cbn [m_map upd_mmap]. unfold hit. lia.
Qed.

(** A call that moves no reference. *)
Definition no_ref (c : kcall) : bool :=
  match c with Kzalloc _ | KobjectAdd _ _ _ | KobjectUevent _ => true | _ => false end.

Lemma attr_run_call w0 idev acc w c :
  no_ref c = true -> attr_run w0 idev acc w -> attr_run w0 idev acc (logged c w).
Proof.
  intros Hc Hrun. run_split Hrun. split.
  - apply calm_logged; [by destruct c|done].
  - by wsimpl_goal.
  - by wsimpl_goal.
  - apply ar_event; [done|by destruct c].
  - exists d0, i0, d, i. split_and!; try done; try wlookup.
    intros p Hp. rewrite kobj_refs_logged, <- Hacc by done. by destruct c.
Qed.

(** Dropping a reference. *)
Lemma attr_run_put w0 idev acc acc' w q :
  attr_run w0 idev acc w ->
  (forall d i p, p <> 0 -> w_heap w !! idev = Some (HIdev d) -> w_info w !! d_info d = Some i ->
     acc d i p = acc' d i p + hit p q) ->
  (forall d0 d, a_dev acc d0 d -> a_dev acc' d0 d) ->
  attr_run w0 idev acc' (logged (KobjectPut q) w).
Proof.
  intros Hrun Ha Hb. run_split Hrun. split.
  - by apply calm_logged.
  - by wsimpl_goal.
  - by wsimpl_goal.
  - by apply ar_event.
  - exists d0, i0, d, i. split_and!; try done; try wlookup; [by auto|].
    intros p Hp. gsimpl. rewrite Hacc, (Ha d i p) by done. unfold hit. case_match; lia.
Qed.

(** The directory is created once. *)
Lemma attr_run_map_dir w0 idev w d :
  attr_run w0 idev (acc_maps 0) w -> w_heap w !! idev = Some (HIdev d) -> d_map_dir d = 0 ->
  attr_run w0 idev (acc_maps 0)
    (set_heap (insert idev (HIdev (upd_map_dir (kernel (w_hist w) (KobjectCreateAndAdd "maps" idev)) d)))
      (logged (KobjectCreateAndAdd "maps" idev) w)).
Proof.
  intros Hrun Hd' Hz. run_split Hrun. assert (d1 = d) as -> by congruence. split.
  - eapply calm_store; [wlookup|reflexivity|]. by apply calm_logged.
  - by wsimpl_goal.
  - by wsimpl_goal.
  - wsimpl_goal. by apply ar_event.
  - exists d0, i0, (upd_map_dir (kernel (w_hist w) (KobjectCreateAndAdd "maps" idev)) d), i.
    split_and!; try done; try wlookup.
    intros p Hp. gsimpl. rewrite Hacc by done. cbn [acc_maps a_refs]. unfold hit. cbn. rewrite Hz.
    destruct (Z.eqb_spec 0 p); [lia|]. lia.
Qed.

Definition maps_post w0 idev (x : attr_exit) w' : Prop :=
  match x with
  | AttrDone k => attr_run w0 idev (acc_maps k) w' /\
      forall d0 i0, w_heap w0 !! idev = Some (HIdev d0) -> w_info w0 !! d_info d0 = Some i0 -> k = map_count i0
  | GotoErr k ret => attr_run w0 idev (acc_maps k) w' /\ (k <= MAX_UIO_MAPS)%nat /\ ret <> 0
  | GotoErrKobj k ret => attr_run w0 idev (acc_maps (S k)) w' /\ (S k <= MAX_UIO_MAPS)%nat /\ ret <> 0
  end.

(** What is known of the device at the start of a pass. *)
Lemma attr_run_dev w0 idev acc w : attr_run w0 idev acc w -> exists d i,
  w_heap w !! idev = Some (HIdev d) /\ w_info w !! d_info d = Some i /\ info_shape i.
Proof. intros Hrun. run_split Hrun. eauto. Qed.

Definition nonzero_upto w0 idev mi : Prop :=
  forall d0 i0 j, w_heap w0 !! idev = Some (HIdev d0) -> w_info w0 !! d_info d0 = Some i0 -> (j < mi)%nat ->
    exists z, (m_size <$> i_mem i0) !! j = Some z /\ z <> 0.

Lemma attr_run_count w0 idev acc w mi d i :
  attr_run w0 idev acc w -> w_heap w !! idev = Some (HIdev d) -> w_info w !! d_info d = Some i ->
  nonzero_upto w0 idev mi ->
  (i_mem i !! mi = None \/ exists m, i_mem i !! mi = Some m /\ m_size m = 0) ->
  forall d0 i0, w_heap w0 !! idev = Some (HIdev d0) -> w_info w0 !! d_info d0 = Some i0 -> mi = map_count i0.
Proof.
  intros Hrun Hd' Hi' Hnz He d2 i2 Hd2 Hi2. run_split Hrun.
  assert (d1 = d) as -> by congruence. assert (i1 = i) as -> by congruence.
  assert (d2 = d0) as -> by congruence. assert (i2 = i0) as -> by congruence.
  symmetry. apply leading_spec; [intros j Hj; by apply (Hnz d0)|].
  injection Esz as E _. rewrite <- E, list_lookup_fmap. 
  destruct He as [He|(m & He & Hz)]; rewrite He; cbn; rewrite ?Hz; auto.
Qed.

(** [map_found] says that the directory exists. *)
Definition dir_state w idev (found : bool) (mi : nat) : Prop :=
  found = false -> mi = 0%nat /\ forall d, w_heap w !! idev = Some (HIdev d) -> d_map_dir d = 0.

Lemma nonzero_S w0 idev acc w mi d i m :
  attr_run w0 idev acc w -> w_heap w !! idev = Some (HIdev d) -> w_info w !! d_info d = Some i ->
  i_mem i !! mi = Some m -> m_size m <> 0 -> nonzero_upto w0 idev mi -> nonzero_upto w0 idev (S mi).
Proof.
  intros Hrun Hd' Hi' Hm Hz Hnz d2 i2 j Hd2 Hi2 Hj. destruct (decide (j = mi)) as [->|]; [|apply (Hnz d2); auto; lia].
  run_split Hrun. assert (d1 = d) as -> by congruence. assert (i1 = i) as -> by congruence.
  assert (d2 = d0) as -> by congruence. assert (i2 = i0) as -> by congruence.
  exists (m_size m). split; [|done]. by eapply sizes_mem.
Qed.

Lemma wp_add_maps `{!KernelOk} w0 idev n : heap_live w0 -> forall mi found w,
  attr_run w0 idev (acc_maps mi) w -> (mi + n = MAX_UIO_MAPS)%nat -> dir_state w idev found mi ->
  nonzero_upto w0 idev mi ->
  wp (add_maps n mi found idev) w (maps_post w0 idev).
Proof.
  intros Hlive. induction n as [|n IH]; intros mi found w Hrun Hn Hdir Hnz; cbn [add_maps].
  { kstep. split; [done|]. destruct (attr_run_dev _ _ _ _ Hrun) as (d & i & Hd & Hi & [Hs _]).
    eapply attr_run_count; eauto. left. apply lookup_ge_None. lia. }
  destruct (attr_run_dev _ _ _ _ Hrun) as (d & i & Hd & Hi & [Hs Hs2]). ksteps.
  destruct (lookup_lt_is_Some_2 (i_mem i) mi) as [m Hm]; [lia|].
  eapply wp_load_mem; [exact Hi|exact Hm|]. destruct (Z.eqb_spec (m_size m) 0) as [Hz|Hz].
  { kstep. split; [done|]. eapply attr_run_count; eauto. }
  kstep. apply (wp_mono _ _ (fun ok w1 => attr_run w0 idev (acc_maps mi) w1 /\ w_info w1 = w_info w /\
    exists d1, w_heap w1 !! idev = Some (HIdev d1) /\ d_info d1 = d_info d)).
  { destruct found; [kstep; by eauto|].
    destruct (Hdir eq_refl) as [-> Hdz]. ksteps. split_and!; [|by wsimpl_goal|].
    - apply attr_run_map_dir; auto.
    - eexists. split; [wlookup|done]. }
  cbn beta. intros ok w1 (Hrun1 & Einfo & d1 & Hd1 & Einf1). destruct ok; cbn [negb].
  2: { kstep. split_and!; [done|lia|done]. }
  rewrite <- Einf1 in Hi |- *. rewrite <- Einfo in Hi. clear Hrun Hdir Hd.
  ksteps. unfold NULL. kif Enull; [kstep|zify_bool].
  { split_and!; [by apply attr_run_call|lia|done]. }
  pose proof (attr_run_map _ _ _ _ _ _ _ Hrun1 Hlive Hd1 Hi Hm Enull) as Hrun2.
  assert (Hne : kernel (w_hist w1) (Kzalloc OUioMap) <> idev).
  { destruct (alloc_none w1 (Kzalloc OUioMap)) as (_ & Hno & _); [|done|done|congruence].
    by apply (c_alive _ _ (ar_calm _ _ _ _ Hrun1)). }
  ksteps. eapply wp_mod_mem; [wlookup|exact Hm|]. ksteps.
  kif Eadd; [kstep; split_and!; [by apply attr_run_call|lia|by zify_bool]|].
  ksteps. kif Eev; [kstep; split_and!; [by do 2 (apply attr_run_call; [done|])|lia|by zify_bool]|].
  apply IH; [by do 2 (apply attr_run_call; [done|])|lia|done|].
  by apply (nonzero_S w0 idev (acc_maps mi) w1 mi d1 i m).
Qed.

(** *** The second loop, with [mi] regions of the first one done *)

Lemma attr_run_port `{!KernelOk} w0 idev w mi pi m d i :
  attr_run w0 idev (acc_ports pi mi) w -> heap_live w0 ->
  w_heap w !! idev = Some (HIdev d) -> w_info w !! d_info d = Some i -> i_port i !! pi = Some m ->
  kernel (w_hist w) (Kzalloc OUioPortio) <> 0 ->
  let portio := kernel (w_hist w) (Kzalloc OUioPortio) in
  attr_run w0 idev (acc_ports (S pi) mi)
    (set_info (insert (d_info d) (upd_port (insert pi (upd_pportio portio m)) i))
      (set_heap (insert portio (HPortio (UioPortio (d_info d, pi)))) (logged (KobjectInit portio) (logged (Kzalloc OUioPortio) w)))).
Proof.
  intros Hrun Hlive Hd' Hi' Hm Hne portio. run_split Hrun.
  assert (d1 = d) as -> by congruence. assert (i1 = i) as -> by congruence.
  destruct (alloc_none w (Kzalloc OUioPortio) (c_alive _ _ Hcalm Hlive) I Hne) as (Hpos & Hnone & Hin).
  fold portio in Hpos, Hnone, Hin, Hne.
  assert (idev <> portio) by congruence.
  split.
  - eapply calm_info; [wlookup|apply iview_upd_port|].
    apply calm_new; [by wsimpl_goal|done|done|by gsimpl|].
    apply calm_logged; [done|]. by apply calm_logged.
  - by wsimpl_goal.
  - by wsimpl_goal.
  - wsimpl_goal. apply ar_event; [|done]. by apply ar_event.
  - exists d0, i0, d, (upd_port (insert pi (upd_pportio portio m)) i).
    split_and!; try done; try wlookup.
    + rewrite <- Esz. by apply (sizes_upd_port pi m).
    + destruct Hshape. split; [done|cbn; by rewrite length_insert].
    + intros p Hp. gsimpl. rewrite Hacc by done. cbn [acc_ports acc_maps a_refs].
      cbn [i_mem i_port upd_port]. rewrite (portsum_S _ pi (upd_pportio portio m)).
      2: { apply list_lookup_insert_eq. apply lookup_lt_Some in Hm. done. }
      rewrite portsum_insert by lia. cbn [p_portio upd_pportio]. unfold hit. lia.
Qed.

Lemma attr_run_port_dir w0 idev w mi d :
  attr_run w0 idev (acc_ports 0 mi) w -> w_heap w !! idev = Some (HIdev d) -> d_portio_dir d = 0 ->
  attr_run w0 idev (acc_ports 0 mi)
    (set_heap (insert idev (HIdev (upd_portio_dir (kernel (w_hist w) (KobjectCreateAndAdd "portio" idev)) d)))
      (logged (KobjectCreateAndAdd "portio" idev) w)).
Proof.
  intros Hrun Hd' Hz. run_split Hrun. assert (d1 = d) as -> by congruence. split.
  - eapply calm_store; [wlookup|reflexivity|]. by apply calm_logged.
  - by wsimpl_goal.
  - by wsimpl_goal.
  - wsimpl_goal. by apply ar_event.
  - exists d0, i0, (upd_portio_dir (kernel (w_hist w) (KobjectCreateAndAdd "portio" idev)) d), i.
    split_and!; try done; try wlookup.
    intros p Hp. gsimpl. rewrite Hacc by done. cbn [acc_ports acc_maps a_refs]. unfold hit. cbn. rewrite Hz.
    destruct (Z.eqb_spec 0 p); [lia|]. lia.
Qed.

Definition ports_post w0 idev (mi : nat) (x : attr_exit) w' : Prop :=
  match x with
  | AttrDone k => attr_run w0 idev (acc_ports k mi) w' /\
      forall d0 i0, w_heap w0 !! idev = Some (HIdev d0) -> w_info w0 !! d_info d0 = Some i0 -> k = port_count i0
  | GotoErr k ret => attr_run w0 idev (acc_ports k mi) w' /\ (k <= MAX_UIO_PORT_REGIONS)%nat /\ ret <> 0
  | GotoErrKobj k ret => attr_run w0 idev (acc_ports (S k) mi) w' /\ (S k <= MAX_UIO_PORT_REGIONS)%nat /\ ret <> 0
  end.

Definition pnonzero_upto w0 idev pi : Prop :=
  forall d0 i0 j, w_heap w0 !! idev = Some (HIdev d0) -> w_info w0 !! d_info d0 = Some i0 -> (j < pi)%nat ->
    exists z, (p_size <$> i_port i0) !! j = Some z /\ z <> 0.

Lemma attr_run_pcount w0 idev acc w pi d i :
  attr_run w0 idev acc w -> w_heap w !! idev = Some (HIdev d) -> w_info w !! d_info d = Some i ->
  pnonzero_upto w0 idev pi ->
  (i_port i !! pi = None \/ exists m, i_port i !! pi = Some m /\ p_size m = 0) ->
  forall d0 i0, w_heap w0 !! idev = Some (HIdev d0) -> w_info w0 !! d_info d0 = Some i0 -> pi = port_count i0.
Proof.
  intros Hrun Hd' Hi' Hnz He d2 i2 Hd2 Hi2. run_split Hrun.
  assert (d1 = d) as -> by congruence. assert (i1 = i) as -> by congruence.
  assert (d2 = d0) as -> by congruence. assert (i2 = i0) as -> by congruence.
  symmetry. apply leading_spec; [intros j Hj; by apply (Hnz d0)|].
  injection Esz as _ E. rewrite <- E, list_lookup_fmap.
  destruct He as [He|(m & He & Hz)]; rewrite He; cbn; rewrite ?Hz; auto.
Qed.

Definition pdir_state w idev (found : bool) (pi : nat) : Prop :=
  found = false -> pi = 0%nat /\ forall d, w_heap w !! idev = Some (HIdev d) -> d_portio_dir d = 0.

Lemma pnonzero_S w0 idev acc w pi d i m :
  attr_run w0 idev acc w -> w_heap w !! idev = Some (HIdev d) -> w_info w !! d_info d = Some i ->
  i_port i !! pi = Some m -> p_size m <> 0 -> pnonzero_upto w0 idev pi -> pnonzero_upto w0 idev (S pi).
Proof.
  intros Hrun Hd' Hi' Hm Hz Hnz d2 i2 j Hd2 Hi2 Hj. destruct (decide (j = pi)) as [->|]; [|apply (Hnz d2); auto; lia].
  run_split Hrun. assert (d1 = d) as -> by congruence. assert (i1 = i) as -> by congruence.
  assert (d2 = d0) as -> by congruence. assert (i2 = i0) as -> by congruence.
  exists (p_size m). split; [|done]. by eapply sizes_port.
Qed.

Lemma wp_add_ports `{!KernelOk} w0 idev mi n : heap_live w0 -> forall pi found w,
  attr_run w0 idev (acc_ports pi mi) w -> (pi + n = MAX_UIO_PORT_REGIONS)%nat -> pdir_state w idev found pi ->
  pnonzero_upto w0 idev pi ->
  wp (add_ports n pi found idev) w (ports_post w0 idev mi).
Proof.
  intros Hlive. induction n as [|n IH]; intros pi found w Hrun Hn Hdir Hnz; cbn [add_ports].
  { kstep. split; [done|]. destruct (attr_run_dev _ _ _ _ Hrun) as (d & i & Hd & Hi & [_ Hs]).
    eapply attr_run_pcount; eauto. left. apply lookup_ge_None. lia. }
  destruct (attr_run_dev _ _ _ _ Hrun) as (d & i & Hd & Hi & [Hs2 Hs]). ksteps.
  destruct (lookup_lt_is_Some_2 (i_port i) pi) as [m Hm]; [lia|].
  eapply wp_load_port; [exact Hi|exact Hm|]. destruct (Z.eqb_spec (p_size m) 0) as [Hz|Hz].
  { kstep. split; [done|]. eapply attr_run_pcount; eauto. }
  kstep. apply (wp_mono _ _ (fun ok w1 => attr_run w0 idev (acc_ports pi mi) w1 /\ w_info w1 = w_info w /\
    exists d1, w_heap w1 !! idev = Some (HIdev d1) /\ d_info d1 = d_info d)).
  { destruct found; [kstep; by eauto|].
    destruct (Hdir eq_refl) as [-> Hdz]. ksteps. split_and!; [|by wsimpl_goal|].
    - apply attr_run_port_dir; auto.
    - eexists. split; [wlookup|done]. }
  cbn beta. intros ok w1 (Hrun1 & Einfo & d1 & Hd1 & Einf1). destruct ok; cbn [negb].
  2: { kstep. split_and!; [done|lia|done]. }
  rewrite <- Einf1 in Hi |- *. rewrite <- Einfo in Hi. clear Hrun Hdir Hd.
  ksteps. unfold NULL. kif Enull; [kstep|zify_bool].
  { split_and!; [by apply attr_run_call|lia|done]. }
  pose proof (attr_run_port _ _ _ _ _ _ _ _ Hrun1 Hlive Hd1 Hi Hm Enull) as Hrun2.
  assert (Hne : kernel (w_hist w1) (Kzalloc OUioPortio) <> idev).
  { destruct (alloc_none w1 (Kzalloc OUioPortio)) as (_ & Hno & _); [|done|done|congruence].
    by apply (c_alive _ _ (ar_calm _ _ _ _ Hrun1)). }
  ksteps. eapply wp_mod_port; [wlookup|exact Hm|]. ksteps.
  kif Eadd; [kstep; split_and!; [by apply attr_run_call|lia|by zify_bool]|].
  ksteps. kif Eev; [kstep; split_and!; [by do 2 (apply attr_run_call; [done|])|lia|by zify_bool]|].
  apply IH; [by do 2 (apply attr_run_call; [done|])|lia|done|].
  by apply (pnonzero_S w0 idev (acc_ports pi mi) w1 pi d1 i m).
Qed.

(** *** Dropping the references again *)

Lemma wp_put_maps w0 idev acc n w :
  (n <= MAX_UIO_MAPS)%nat ->
  attr_run w0 idev (Account (fun d i p => acc d i p + mapsum (i_mem i) n p) (a_dev acc)) w ->
  wp (put_maps n idev) w (fun _ w' => attr_run w0 idev acc w').
Proof.
  revert w. induction n as [|n IH]; intros w Hn Hrun; cbn [put_maps].
  { kstep. eapply attr_run_mono; [| |exact Hrun]; [|done]. intros. cbn. unfold mapsum. simpl. lia. }
  destruct (attr_run_dev _ _ _ _ Hrun) as (d & i & Hd & Hi & [Hs _]).
  destruct (lookup_lt_is_Some_2 (i_mem i) n) as [m Hm]; [lia|].
  ksteps. eapply wp_load_mem; [exact Hi|exact Hm|]. ksteps. apply IH; [lia|].
  eapply attr_run_put; [exact Hrun| |done]. intros d' i' p Hp Hd' Hi'.
  assert (d' = d) as -> by congruence. assert (i' = i) as -> by congruence.
  cbn. rewrite (mapsum_S _ n m) by done. lia.
Qed.

Lemma wp_put_ports w0 idev acc n w :
  (n <= MAX_UIO_PORT_REGIONS)%nat ->
  attr_run w0 idev (Account (fun d i p => acc d i p + portsum (i_port i) n p) (a_dev acc)) w ->
  wp (put_ports n idev) w (fun _ w' => attr_run w0 idev acc w').
Proof.
  revert w. induction n as [|n IH]; intros w Hn Hrun; cbn [put_ports].
  { kstep. eapply attr_run_mono; [| |exact Hrun]; [|done]. intros. cbn. unfold portsum. simpl. lia. }
  destruct (attr_run_dev _ _ _ _ Hrun) as (d & i & Hd & Hi & [_ Hs]).
  destruct (lookup_lt_is_Some_2 (i_port i) n) as [m Hm]; [lia|].
  ksteps. eapply wp_load_port; [exact Hi|exact Hm|]. ksteps. apply IH; [lia|].
  eapply attr_run_put; [exact Hrun| |done]. intros d' i' p Hp Hd' Hi'.
  assert (d' = d) as -> by congruence. assert (i' = i) as -> by congruence.
  cbn. rewrite (portsum_S _ n m) by done. lia.
Qed.

Definition no_acc : account := Account (fun _ _ _ => 0) any_dev.

Lemma wp_err_map_kobj w0 idev n ret w :
  (n <= MAX_UIO_MAPS)%nat -> attr_run w0 idev (Account (acc_maps n) any_dev) w ->
  wp (err_map_kobj n ret idev) w (fun r w' => r = ret /\ attr_run w0 idev no_acc w').
Proof.
  intros Hn Hrun. unfold err_map_kobj. kstep.
  eapply wp_mono; [apply (wp_put_maps w0 idev (Account (fun d i p => hit p (d_map_dir d)) any_dev)); [done|]|];
    [by eapply attr_run_mono; [| |exact Hrun]|].
  cbn beta. intros _ w1 Hrun1. destruct (attr_run_dev _ _ _ _ Hrun1) as (d & i & Hd & Hi & _). ksteps.
  split; [done|]. eapply attr_run_put; [exact Hrun1| |done]. intros d' i' p Hp Hd' Hi'. cbn.
  assert (d' = d) as -> by congruence. unfold no_acc. lia.
Qed.

Lemma wp_err_portio_kobj w0 idev n mi ret w :
  (n <= MAX_UIO_PORT_REGIONS)%nat -> (mi <= MAX_UIO_MAPS)%nat -> attr_run w0 idev (acc_ports n mi) w ->
  wp (err_portio_kobj n mi ret idev) w (fun r w' => r = ret /\ attr_run w0 idev no_acc w').
Proof.
  intros Hn Hmi Hrun. unfold err_portio_kobj. kstep.
  eapply wp_mono; [apply (wp_put_ports w0 idev (Account (fun d i p => acc_maps mi d i p + hit p (d_portio_dir d)) any_dev)); [done|exact Hrun]|].
  cbn beta. intros _ w1 Hrun1. destruct (attr_run_dev _ _ _ _ Hrun1) as (d & i & Hd & Hi & _). ksteps.
  apply wp_err_map_kobj; [done|]. eapply attr_run_put; [exact Hrun1| |done]. intros d' i' p Hp Hd' Hi'. cbn.
  assert (d' = d) as -> by congruence. lia.
Qed.

(** *** The whole function *)

(** All the references the attribute directories of a device hold. *)
Definition attr_refs : account := Account
  (fun d i p => acc_ports (port_count i) (map_count i) d i p) any_dev.

Lemma attr_run_refl w idev d i : w_heap w !! idev = Some (HIdev d) -> w_info w !! d_info d = Some i ->
  info_shape i -> attr_run w idev no_acc w.
Proof.
  intros Hd Hi Hs. split; [apply calm_refl|done|done|by exists []|].
  exists d, i, d, i. split_and!; try done. intros p _. cbn. lia.
Qed.

Lemma count_sizes i i0 : sizes_of i = sizes_of i0 -> map_count i = map_count i0 /\ port_count i = port_count i0.
Proof. unfold map_count, port_count. intros [= -> ->]. done. Qed.

Lemma map_count_le i : info_shape i -> (map_count i <= MAX_UIO_MAPS)%nat /\ (port_count i <= MAX_UIO_PORT_REGIONS)%nat.
Proof.
  intros [H1 H2]. unfold map_count, port_count. split.
  - rewrite <- H1, <- (length_fmap m_size). apply leading_le.
  - rewrite <- H2, <- (length_fmap p_size). apply leading_le.
Qed.

Lemma wp_uio_dev_add_attributes `{!KernelOk} w idev d i :
  heap_live w -> w_heap w !! idev = Some (HIdev d) -> w_info w !! d_info d = Some i -> info_shape i ->
  d_map_dir d = 0 -> d_portio_dir d = 0 ->
  wp (uio_dev_add_attributes idev) w (fun r w' =>
    attr_run w idev (if r =? 0 then attr_refs else no_acc) w').
Proof.
  intros Hlive Hd Hi Hs Hz1 Hz2. unfold uio_dev_add_attributes. kstep.
  assert (Hz : forall p, p <> 0 -> hit p 0 = 0) by (intros p Hp; unfold hit; destruct (Z.eqb_spec 0 p); lia).
  assert (Hrun0 : attr_run w idev (acc_maps 0) w).
  { split; [apply calm_refl|done|done|by exists []|]. exists d, i, d, i. split_and!; try done.
    intros p Hp. cbn. unfold mapsum. simpl. rewrite Hz1, Hz by done. lia. }
  eapply wp_mono.
  { apply (wp_add_maps w idev); [done|exact Hrun0|lia| |].
    - intros _. split; [done|]. intros d' Hd'. congruence.
    - intros ? ? ? ? ? ?. lia. }
  cbn beta. intros [mi|mi ret|mi ret] w1; cbn [maps_post].
  2,3: intros (Hrun & Hmi & Hret); eapply wp_mono;
       [apply (wp_err_map_kobj w); [done|by eapply attr_run_mono; [| |exact Hrun]]|];
       cbn beta; intros r w2 [-> Hrun2]; by rewrite (proj2 (Z.eqb_neq _ _) Hret).
  intros (Hrun & Hmi). specialize (Hmi d i Hd Hi). destruct (map_count_le i Hs) as [Hle1 Hle2]. kstep.
  assert (Hp0 : forall d', w_heap w1 !! idev = Some (HIdev d') -> d_portio_dir d' = 0).
  { intros d' Hd'. pose proof (ar_state _ _ _ _ Hrun) as (e0 & j0 & e & j & E1 & _ & E2 & _ & _ & _ & _ & _ & _ & E3 & _).
    cbn in E3. congruence. }
  eapply wp_mono.
  { apply (wp_add_ports w idev mi); [done| |lia| |].
    - eapply attr_run_mono; [| |exact Hrun]; [|by intros]. intros d' i' p Hp Hd'. cbn. unfold portsum. simpl.
      rewrite (Hp0 d'), Hz by done. lia.
    - intros _. by split.
    - intros ? ? ? ? ? ?. lia. }
  cbn beta. intros [pi|pi ret|pi ret] w2; cbn [ports_post].
  2,3: intros (Hrun2 & Hpi & Hret); eapply wp_mono; [apply (wp_err_portio_kobj w idev _ mi); [done|lia|done]|];
       cbn beta; intros r w3 [-> Hrun3]; by rewrite (proj2 (Z.eqb_neq _ _) Hret).
  intros (Hrun2 & Hpi). specialize (Hpi d i Hd Hi). kstep. cbn [Z.eqb].
  destruct Hrun2 as [C1 C2 C3 C4 (d0 & i0 & d2 & i2 & E1 & E2 & E3 & E4 & E5 & E6 & E7 & E8 & E9 & E10 & Hk)].
  split; try done. exists d0, i0, d2, i2. split_and!; try done. intros p Hp. rewrite Hk by done.
  assert (i0 = i) as -> by congruence. destruct (count_sizes _ _ E7) as [F1 F2].
  cbn [attr_refs a_refs]. by rewrite F1, F2, Hmi, Hpi.
Qed.

(** *** Removal *)

Lemma leading_fmap_stop {A} (f : A -> Z) l k x :
  l !! k = Some x -> f x = 0 -> (leading (f <$> l) <= k)%nat.
Proof.
  intros Hk Hf. destruct (decide (k < leading (f <$> l))%nat) as [Hlt|]; [|lia].
  destruct (leading_lt _ _ Hlt) as (z & Hz & Hnz). rewrite list_lookup_fmap, Hk in Hz. naive_solver.
Qed.

Lemma leading_fmap_go {A} (f : A -> Z) l k x :
  (k <= leading (f <$> l))%nat -> l !! k = Some x -> f x <> 0 -> (S k <= leading (f <$> l))%nat.
Proof.
  intros Hle Hk Hf. destruct (decide (k = leading (f <$> l))) as [->|]; [|lia].
  destruct (leading_end (f <$> l)) as [He|He]; rewrite list_lookup_fmap, Hk in He; naive_solver.
Qed.

(** References still to be dropped from entry [k] on. *)
Definition maps_left acc (k : nat) : account := Account
  (fun d i p => acc d i p + (mapsum (i_mem i) (map_count i) p - mapsum (i_mem i) k p)) any_dev.
Definition ports_left acc (k : nat) : account := Account
  (fun d i p => acc d i p + (portsum (i_port i) (port_count i) p - portsum (i_port i) k p)) any_dev.

Lemma wp_del_maps w0 idev acc n : a_dev acc = any_dev -> forall k w,
  (k + n = MAX_UIO_MAPS)%nat -> attr_run w0 idev (maps_left acc k) w ->
  (forall d i, w_heap w !! idev = Some (HIdev d) -> w_info w !! d_info d = Some i -> (k <= map_count i)%nat) ->
  wp (del_maps n k idev) w (fun _ w' => attr_run w0 idev acc w').
Proof.
  intros Ha. induction n as [|n IH]; intros k w Hn Hrun Hk; cbn [del_maps];
    destruct (attr_run_dev _ _ _ _ Hrun) as (d & i & HD & HI & HS); destruct (map_count_le i HS) as [Hle _];
    specialize (Hk d i HD HI); pose proof (proj1 HS) as Hlen.
  - assert (Hfin : attr_run w0 idev acc w); [|by kstep].
    run_split Hrun. split; auto. assert (d1 = d) as -> by congruence. assert (i1 = i) as -> by congruence.
    exists d0, i0, d, i. split_and!; try done; [by rewrite Ha|]. intros p Hp. rewrite Hacc by done.
    cbn. replace (map_count i) with k by lia. lia.
  - destruct (lookup_lt_is_Some_2 (i_mem i) k) as [m Hm]; [lia|].
    ksteps. eapply wp_load_mem; [exact HI|exact Hm|]. destruct (Z.eqb_spec (m_size m) 0) as [Hz|Hz].
    + kstep. pose proof (leading_fmap_stop m_size _ _ _ Hm Hz) as Hc. fold (map_count i) in Hc.
      run_split Hrun. split; auto. assert (d1 = d) as -> by congruence. assert (i1 = i) as -> by congruence.
      exists d0, i0, d, i. split_and!; try done; [by rewrite Ha|]. intros p Hp. rewrite Hacc by done.
      cbn. replace (map_count i) with k by lia. lia.
    + ksteps. apply IH; [lia| |].
      * eapply attr_run_put; [exact Hrun| |done]. intros d' i' p Hp Hd' Hi'.
        assert (d' = d) as -> by congruence. assert (i' = i) as -> by congruence.
        cbn. rewrite (mapsum_S _ k m) by done. lia.
      * intros d' i'. wsimpl_goal. intros Hd' Hi'.
        assert (d' = d) as -> by congruence. assert (i' = i) as -> by congruence.
        by apply (leading_fmap_go m_size _ _ m).
Qed.

Lemma wp_del_ports w0 idev acc n : a_dev acc = any_dev -> forall k w,
  (k + n = MAX_UIO_PORT_REGIONS)%nat -> attr_run w0 idev (ports_left acc k) w ->
  (forall d i, w_heap w !! idev = Some (HIdev d) -> w_info w !! d_info d = Some i -> (k <= port_count i)%nat) ->
  wp (del_ports n k idev) w (fun _ w' => attr_run w0 idev acc w').
Proof.
  intros Ha. induction n as [|n IH]; intros k w Hn Hrun Hk; cbn [del_ports];
    destruct (attr_run_dev _ _ _ _ Hrun) as (d & i & HD & HI & HS); destruct (map_count_le i HS) as [_ Hle];
    specialize (Hk d i HD HI); pose proof (proj2 HS) as Hlen.
  - assert (Hfin : attr_run w0 idev acc w); [|by kstep].
    run_split Hrun. split; auto. assert (d1 = d) as -> by congruence. assert (i1 = i) as -> by congruence.
    exists d0, i0, d, i. split_and!; try done; [by rewrite Ha|]. intros p Hp. rewrite Hacc by done.
    cbn. replace (port_count i) with k by lia. lia.
  - destruct (lookup_lt_is_Some_2 (i_port i) k) as [m Hm]; [lia|].
    ksteps. eapply wp_load_port; [exact HI|exact Hm|]. destruct (Z.eqb_spec (p_size m) 0) as [Hz|Hz].
    + kstep. pose proof (leading_fmap_stop p_size _ _ _ Hm Hz) as Hc. fold (port_count i) in Hc.
      run_split Hrun. split; auto. assert (d1 = d) as -> by congruence. assert (i1 = i) as -> by congruence.
      exists d0, i0, d, i. split_and!; try done; [by rewrite Ha|]. intros p Hp. rewrite Hacc by done.
      cbn. replace (port_count i) with k by lia. lia.
    + ksteps. apply IH; [lia| |].
      * eapply attr_run_put; [exact Hrun| |done]. intros d' i' p Hp Hd' Hi'.
        assert (d' = d) as -> by congruence. assert (i' = i) as -> by congruence.
        cbn. rewrite (portsum_S _ k m) by done. lia.
      * intros d' i'. wsimpl_goal. intros Hd' Hi'.
        assert (d' = d) as -> by congruence. assert (i' = i) as -> by congruence.
        by apply (leading_fmap_go p_size _ _ m).
Qed.

(** Every reference of the directories is dropped once: the account [minus] of
    a device is what [uio_dev_del_attributes] takes away. *)
Definition minus_refs : account := Account (fun d i p => - attr_refs d i p) any_dev.

Lemma wp_uio_dev_del_attributes w idev d i :
  w_heap w !! idev = Some (HIdev d) -> w_info w !! d_info d = Some i -> info_shape i ->
  wp (uio_dev_del_attributes idev) w (fun _ w' => attr_run w idev minus_refs w').
Proof.
  intros Hd Hi Hs. unfold uio_dev_del_attributes. kstep.
  pose (acc2 := Account (fun d i p => minus_refs d i p) any_dev).
  pose (acc1 := Account (fun d i p => acc2 d i p + hit p (d_portio_dir d)) any_dev).
  pose (acc0 := Account (fun d i p => ports_left acc1 0 d i p + hit p (d_map_dir d)) any_dev).
  eapply wp_mono.
  { apply (wp_del_maps w idev acc0); [done|lia| |intros; lia].
    split; [apply calm_refl|done|done|by exists []|]. exists d, i, d, i. split_and!; try done.
    intros p _. cbn. unfold mapsum at 1 3, portsum at 1. simpl. unfold portsum, mapsum. simpl. lia. }
  cbn beta. intros _ w1 Hrun1. destruct (attr_run_dev _ _ _ _ Hrun1) as (d1 & i1 & Hd1 & Hi1 & Hs1). ksteps.
  eapply wp_mono.
  { apply (wp_del_ports w idev acc1); [done|lia| |intros; lia].
    eapply attr_run_put; [exact Hrun1| |done]. intros d' i' p Hp Hd' Hi'.
    assert (d' = d1) as -> by congruence. cbn. lia. }
  cbn beta. intros _ w2 Hrun2. destruct (attr_run_dev _ _ _ _ Hrun2) as (d2 & i2 & Hd2 & Hi2 & Hs2). ksteps.
  eapply attr_run_put; [exact Hrun2| |done]. intros d' i' p Hp Hd' Hi'.
  assert (d' = d2) as -> by congruence. cbn. lia.
Qed.

(** Removal changes no object. *)
Definition same_mem w w' : Prop := w_heap w' = w_heap w /\ w_info w' = w_info w.

#[export] Instance same_mem_preorder : PreOrder same_mem.
Proof. split; [by split|]. intros x y z [E1 E2] [E3 E4]. split; congruence. Qed.

Lemma same_mem_logged c w : same_mem w (logged c w).
Proof. split; by wsimpl_goal. Qed.

Lemma keeps_load_mem p : keeps same_mem (load_mem p).
Proof using H. apply keeps_bind; [apply _|apply keeps_get; apply _|]. intros. apply keeps_get; apply _. Qed.
Lemma keeps_load_port p : keeps same_mem (load_port p).
Proof using H. apply keeps_bind; [apply _|apply keeps_get; apply _|]. intros. apply keeps_get; apply _. Qed.

Ltac keep_step :=
  first [ apply keeps_load_mem | apply keeps_load_port
        | apply keeps_ret; apply _ | apply keeps_get; apply _
        | apply keeps_do; [apply _|apply same_mem_logged]
        | apply keeps_bind; [apply _| |intros] | case_match | progress cbn beta ].

Lemma keeps_del_maps idev n : forall k, keeps same_mem (del_maps n k idev).
Proof using H. induction n as [|n IH]; intros k; cbn [del_maps]; repeat (apply IH || keep_step). Qed.
Lemma keeps_del_ports idev n : forall k, keeps same_mem (del_ports n k idev).
Proof using H. induction n as [|n IH]; intros k; cbn [del_ports]; repeat (apply IH || keep_step). Qed.

Lemma keeps_uio_dev_del_attributes idev : keeps same_mem (uio_dev_del_attributes idev).
Proof using H. unfold uio_dev_del_attributes. repeat (apply keeps_del_maps || apply keeps_del_ports || keep_step). Qed.
End attrs.
