(* ===== verification/UioSysfs.v ===== *)
(** * The attribute directories user space sees

    What the calls of [uio_dev_add_attributes] leave in sysfs: the names in the
    [maps] and [portio] directories of a registered device, as a function of the
    history, and that they are the leading regions of the info. *)

From S2P Require Import Prelude Kernel UioTypes UioAttr UioDevice KLogic UioInv UioSpec UioAttrSpec.

(** The entries of the directory at [dir], newest first: those added to it since
    it was created. *)
Fixpoint dir_entries (dir : Z) (h : hist) : list string :=
  match h with
  | [] => []
  | Ev (KobjectCreateAndAdd _ _) r _ :: h => if r =? dir then [] else dir_entries dir h
  | Ev (KobjectAdd _ parent name) r _ :: h =>
      if (parent =? dir) && (r =? 0) then name :: dir_entries dir h else dir_entries dir h
  | _ :: h => dir_entries dir h
  end.

Definition numbered (prefix : string) (k : nat) : list string :=
  (fun j => prefix +:+ fmt_d (Z.of_nat j)) <$> seq 0 k.

Lemma numbered_S prefix k : numbered prefix (S k) = numbered prefix k ++ [prefix +:+ fmt_d (Z.of_nat k)].
Proof. unfold numbered. by rewrite seq_S, fmap_app. Qed.

(** ** Partial correctness

    [wlp m w Q]: if [m] ends, [Q] holds. *)
Definition wlp {D A} (m : K D A) (w : world D) (Q : A -> world D -> Prop) : Prop :=
  forall a w', m w = Some (a, w') -> Q a w'.

Section wlp.
Context `{Kernel} {D : Type}.
Implicit Types w : world D.

Lemma wlp_wp {A} (m : K D A) w (Q R : A -> world D -> Prop) :
  wp m w Q -> wlp m w R -> wp m w (fun a w' => Q a w' /\ R a w').
Proof. intros (a & w' & Hm & HQ) HR. exists a, w'. auto. Qed.

Lemma wlp_of_wp {A} (m : K D A) w (Q : A -> world D -> Prop) : wp m w Q -> wlp m w Q.
Proof. intros HQ a w' Hm. by eapply wp_run. Qed.

Lemma wlp_and {A} (m : K D A) w (Q R : A -> world D -> Prop) :
  wlp m w Q -> wlp m w R -> wlp m w (fun a w' => Q a w' /\ R a w').
Proof. intros HQ HR a w' Hm. split; [by apply HQ|by apply HR]. Qed.

Lemma wlp_any {A} (m : K D A) w : wlp m w (fun _ _ => True).
Proof. intros a w' _. exact I. Qed.

Lemma wlp_mono {A} (m : K D A) w (Q R : A -> world D -> Prop) :
  wlp m w Q -> (forall a w', Q a w' -> R a w') -> wlp m w R.
Proof. intros HQ HR a w' Hm. by apply HR, HQ. Qed.

Lemma wlp_ret {A} (a : A) w (Q : A -> world D -> Prop) : Q a w -> wlp (mret a) w Q.
Proof. intros HQ b w' [= <- <-]. exact HQ. Qed.

Lemma wlp_bind {A B} (m : K D A) (f : A -> K D B) w Q :
  wlp m w (fun a w' => wlp (f a) w' Q) -> wlp (m ≫= f) w Q.
Proof.
  intros Hm b w' Hr. unfold mbind, K_bind in Hr. destruct (m w) as [[a w1]|] eqn:E; [|done]. by apply (Hm a w1 E).
Qed.

Lemma wlp_call c w Q : Q (kernel (w_hist w) c) (logged c w) -> wlp (call c) w Q.
Proof. intros HQ a w'. rewrite call_run. by intros [= <- <-]. Qed.

Lemma wlp_do c w (Q : unit -> world D -> Prop) : Q tt (logged c w) -> wlp (do_ c) w Q.
Proof. intros HQ a w'. rewrite do_run. by intros [= <- <-]. Qed.

Lemma wlp_get_some {A} (f : world D -> option A) w Q : (forall a, f w = Some a -> Q a w) -> wlp (get_some f) w Q.
Proof. intros HQ a w'. unfold get_some. destruct (f w) as [b|] eqn:E; [|done]. intros [= <- <-]. by apply HQ. Qed.

Lemma wlp_gets {A} (f : world D -> A) w Q : Q (f w) w -> wlp (gets f) w Q.
Proof. intros HQ a w' [= <- <-]. exact HQ. Qed.

Lemma wlp_modify f w (Q : unit -> world D -> Prop) : Q tt (f w) -> wlp (modify f) w Q.
Proof. intros HQ a w' [= <- <-]. exact HQ. Qed.

Lemma wlp_load_idev p w Q : (forall d, w_heap w !! p = Some (HIdev d) -> Q d w) -> wlp (load_idev p) w Q.
Proof.
  intros HQ. apply wlp_get_some. intros d. destruct (w_heap w !! p) as [[]|] eqn:E; try done. intros [= <-]. by apply HQ.
Qed.

Lemma wlp_mod_idev p f w (Q : unit -> world D -> Prop) :
  (forall d, w_heap w !! p = Some (HIdev d) -> Q tt (set_heap (insert p (HIdev (f d))) w)) -> wlp (mod_idev p f) w Q.
Proof. intros HQ. apply wlp_bind, wlp_load_idev. intros d Hd. by apply wlp_modify, HQ. Qed.

Lemma wlp_mod_info p f w (Q : unit -> world D -> Prop) :
  (forall i, w_info w !! p = Some i -> Q tt (set_info (insert p (f i)) w)) -> wlp (mod_info p f) w Q.
Proof. intros HQ. apply wlp_bind, wlp_get_some. intros i Hi. by apply wlp_modify, HQ. Qed.

Lemma wlp_load_mem p w Q :
  (forall i m, w_info w !! p.1 = Some i -> i_mem i !! p.2 = Some m -> Q m w) -> wlp (load_mem p) w Q.
Proof. intros HQ. apply wlp_bind, wlp_get_some. intros i Hi. apply wlp_get_some. eauto. Qed.

Lemma wlp_load_port p w Q :
  (forall i m, w_info w !! p.1 = Some i -> i_port i !! p.2 = Some m -> Q m w) -> wlp (load_port p) w Q.
Proof. intros HQ. apply wlp_bind, wlp_get_some. intros i Hi. apply wlp_get_some. eauto. Qed.
End wlp.

(** ** The loops *)

(** A directory that holds the first [k] entries; without entries it was not made. *)
Definition dir_ok (prefix : string) (dir : Z) (k : nat) (h : hist) : Prop :=
  if k is O then dir = 0 else dir <> 0 /\ dir_entries dir h = rev (numbered prefix k).

(** Calls that change no directory. *)
Definition dir_neutral (c : kcall) : bool := match c with KobjectCreateAndAdd _ _ | KobjectAdd _ _ _ => false | _ => true end.

Section dirs.
Context `{Kernel, Uapi} {D : Type}.
Implicit Types w : world D.

Lemma entries_logged dir c w : dir_neutral c = true -> dir_entries dir (w_hist (logged c w)) = dir_entries dir (w_hist w).
Proof. rewrite hist_logged. by destruct c. Qed.

Lemma entries_created dir name p w :
  dir_entries dir (w_hist (logged (KobjectCreateAndAdd name p) w)) =
  if kernel (w_hist w) (KobjectCreateAndAdd name p) =? dir then [] else dir_entries dir (w_hist w).
Proof. reflexivity. Qed.

Lemma entries_added dir p parent name w :
  dir_entries dir (w_hist (logged (KobjectAdd p parent name) w)) =
  if (parent =? dir) && (kernel (w_hist w) (KobjectAdd p parent name) =? 0) then name :: dir_entries dir (w_hist w)
  else dir_entries dir (w_hist w).
Proof. reflexivity. Qed.

Lemma dir_ok_entries prefix dir k h h' :
  dir_entries dir h' = dir_entries dir h -> dir_ok prefix dir k h -> dir_ok prefix dir k h'.
Proof. intros E. destruct k; [done|]. unfold dir_ok. by rewrite E. Qed.

Lemma dir_ok_logged prefix dir k c w : dir_neutral c = true ->
  dir_ok prefix dir k (w_hist w) -> dir_ok prefix dir k (w_hist (logged c w)).
Proof. intros Hc. destruct k; [done|]. unfold dir_ok. by rewrite entries_logged. Qed.

(** One more entry. *)
Lemma dir_ok_add prefix dir k p w : dir <> 0 -> (k <> 0%nat -> dir_ok prefix dir k (w_hist w)) ->
  (k = 0%nat -> dir_entries dir (w_hist w) = []) ->
  let c := KobjectAdd p dir (prefix +:+ fmt_d (Z.of_nat k)) in
  kernel (w_hist w) c = 0 -> dir_ok prefix dir (S k) (w_hist (logged c w)).
Proof.
  intros Hd Hk He c Hr. split; [done|]. unfold c. rewrite entries_added, Z.eqb_refl. fold c. rewrite Hr. cbn [andb Z.eqb].
  rewrite numbered_S, rev_app_distr. cbn [rev app]. f_equal. destruct k as [|k]; [by apply He|].
  by destruct Hk.
Qed.

(** An entry of another directory, or the creation of one. *)
Lemma dir_ok_other prefix dir k c w :
  match c with KobjectAdd _ parent _ => parent <> dir | KobjectCreateAndAdd _ _ => kernel (w_hist w) c <> dir | _ => True end ->
  dir_ok prefix dir k (w_hist w) -> dir_ok prefix dir k (w_hist (logged c w)).
Proof.
  intros Hc. destruct (dir_neutral c) eqn:E; [by apply dir_ok_logged|]. destruct k; [done|]. unfold dir_ok.
  destruct c; try done; [rewrite entries_created|rewrite entries_added]; by rewrite (proj2 (Z.eqb_neq _ _) Hc).
Qed.

(** [found]: the directory exists, with the entries up to [k]. *)
Definition dir_upto (prefix : string) (found : bool) (dir : Z) (k : nat) (h : hist) : Prop :=
  (found = false -> k = 0%nat) /\ (found = true -> k <> 0%nat) /\ (k <> 0%nat -> dir_ok prefix dir k h).

Lemma wlp_add_maps idev n : forall mi found w d,
  w_heap w !! idev = Some (HIdev d) -> dir_upto "map" found (d_map_dir d) mi (w_hist w) ->
  (mi = 0%nat -> d_map_dir d = 0) ->
  wlp (add_maps n mi found idev) w (fun x w' => forall k, x = AttrDone k ->
    exists d', w_heap w' !! idev = Some (HIdev d') /\ dir_ok "map" (d_map_dir d') k (w_hist w')).
Proof.
  induction n as [|n IH]; intros mi found w d Hd (Hf & Ht & Hok) Hz; cbn [add_maps].
  { apply wlp_ret. intros k [= <-]. exists d. split; [done|]. destruct mi; [by apply Hz|by apply Hok]. }
  apply wlp_bind, wlp_load_idev. intros d1 Hd1. assert (d1 = d) as -> by congruence.
  apply wlp_bind, wlp_load_mem. intros i m _ _. destruct (m_size m =? 0).
  { apply wlp_ret. intros k [= <-]. exists d. split; [done|]. destruct mi; [by apply Hz|by apply Hok]. }
  apply wlp_bind. apply (wlp_mono _ _ (fun ok w1 => ok = true -> exists d1, w_heap w1 !! idev = Some (HIdev d1) /\
    d_map_dir d1 <> 0 /\ (mi <> 0%nat -> dir_ok "map" (d_map_dir d1) mi (w_hist w1)) /\
    (mi = 0%nat -> dir_entries (d_map_dir d1) (w_hist w1) = []))).
  { destruct found.
    - apply wlp_ret. intros _. exists d. specialize (Ht eq_refl). destruct mi as [|mi]; [done|].
      split_and!; try done; by apply Hok.
    - rewrite (Hf eq_refl). apply wlp_bind, wlp_call. set (dir := kernel _ _). apply wlp_bind, wlp_mod_idev.
      intros d2 Hd2. autorewrite with world in Hd2. apply wlp_ret. intros Hdir. eexists.
      split; [wsimpl_goal; by rewrite lookup_insert_eq|]. cbn [upd_map_dir d_map_dir].
      unfold NULL in Hdir. zify_bool. split_and!; try done. intros _. wsimpl_goal. rewrite entries_created.
      fold dir. by rewrite Z.eqb_refl. }
  intros ok w1 Hok1. destruct ok; cbn [negb]; [|by apply wlp_ret]. destruct (Hok1 eq_refl) as (d1 & E1 & E2 & E3 & E4).
  clear Hok1 Hd Hf Ht Hok Hz Hd1. apply wlp_bind, wlp_call. set (mp := kernel _ _).
  destruct (mp =? NULL); [by apply wlp_ret|]. apply wlp_bind, wlp_do, wlp_bind, wlp_modify.
  apply wlp_bind, wlp_bind, wlp_load_mem. intros i1 m1 Hi1 Hm1. apply wlp_mod_info. intros i2 Hi2. apply wlp_bind, wlp_load_idev.
  intros d2 Hd2. autorewrite with world in Hd2.
  assert (d2 = d1 /\ mp <> idev) as [-> Hne].
  { destruct (decide (mp = idev)) as [E|E]; [by rewrite E, lookup_insert_eq in Hd2|]. rewrite lookup_insert_ne in Hd2 by done.
    split; [congruence|done]. }
  apply wlp_bind, wlp_call. set (r := kernel _ (KobjectAdd _ _ _)). destruct (Z.eqb_spec r 0) as [Er|]; cbn [negb]; [|by apply wlp_ret].
  apply wlp_bind, wlp_call. set (r2 := kernel _ (KobjectUevent _)). destruct (r2 =? 0); cbn [negb]; [|by apply wlp_ret].
  apply (IH _ _ _ d1); [wsimpl_goal; by rewrite lookup_insert_ne| |done].
  split_and!; [done|done|]. intros _. apply dir_ok_logged; [done|]. apply dir_ok_add; [done| | |exact Er].
  - intros Hmi. wsimpl_goal. do 2 (apply dir_ok_logged; [done|]). by apply E3.
  - intros Hmi. wsimpl_goal. rewrite !entries_logged by done. by apply E4.
Qed.

(** What the first loop left, as long as the second directory is another one. *)
Definition maps_kept (k pi : nat) (d : uio_device) (h : hist) : Prop :=
  pi = 0%nat \/ d_portio_dir d <> d_map_dir d -> dir_ok "map" (d_map_dir d) k h.

Lemma wlp_add_ports idev k n : forall pi found w d,
  w_heap w !! idev = Some (HIdev d) -> dir_upto "port" found (d_portio_dir d) pi (w_hist w) ->
  (pi = 0%nat -> d_portio_dir d = 0) -> maps_kept k pi d (w_hist w) ->
  wlp (add_ports n pi found idev) w (fun x w' => forall pi', x = AttrDone pi' ->
    exists d', w_heap w' !! idev = Some (HIdev d') /\ dir_ok "port" (d_portio_dir d') pi' (w_hist w') /\
      maps_kept k pi' d' (w_hist w')).
Proof.
  induction n as [|n IH]; intros pi found w d Hd (Hf & Ht & Hok) Hz Hm; cbn [add_ports].
  { apply wlp_ret. intros pi' [= <-]. exists d. split_and!; [done| |done]. destruct pi; [by apply Hz|by apply Hok]. }
  apply wlp_bind, wlp_load_idev. intros d1 Hd1. assert (d1 = d) as -> by congruence.
  apply wlp_bind, wlp_load_port. intros i m _ _. destruct (p_size m =? 0).
  { apply wlp_ret. intros pi' [= <-]. exists d. split_and!; [done| |done]. destruct pi; [by apply Hz|by apply Hok]. }
  apply wlp_bind. apply (wlp_mono _ _ (fun ok w1 => ok = true -> exists d1, w_heap w1 !! idev = Some (HIdev d1) /\
    d_portio_dir d1 <> 0 /\ (pi <> 0%nat -> dir_ok "port" (d_portio_dir d1) pi (w_hist w1)) /\
    (pi = 0%nat -> dir_entries (d_portio_dir d1) (w_hist w1) = []) /\
    (d_portio_dir d1 <> d_map_dir d1 -> dir_ok "map" (d_map_dir d1) k (w_hist w1)))).
  { destruct found.
    - apply wlp_ret. intros _. exists d. specialize (Ht eq_refl). destruct pi as [|pi]; [done|].
      split_and!; try done; try by apply Hok. intros Hne. apply Hm. by right.
    - rewrite (Hf eq_refl) in *. apply wlp_bind, wlp_call. set (dir := kernel _ _). apply wlp_bind, wlp_mod_idev.
      intros d2 Hd2. autorewrite with world in Hd2. apply wlp_ret. intros Hdir. eexists.
      split; [wsimpl_goal; by rewrite lookup_insert_eq|]. cbn [upd_portio_dir d_portio_dir d_map_dir].
      unfold NULL in Hdir. zify_bool. assert (d2 = d) as -> by congruence. split_and!; try done.
      + intros _. wsimpl_goal. rewrite entries_created. fold dir. by rewrite Z.eqb_refl.
      + intros Hne. wsimpl_goal. apply dir_ok_other; [exact Hne|]. apply Hm. by left. }
  intros ok w1 Hok1. destruct ok; cbn [negb]; [|by apply wlp_ret]. destruct (Hok1 eq_refl) as (d1 & E1 & E2 & E3 & E4 & E5).
  clear Hok1 Hd Hf Ht Hok Hz Hd1 Hm. apply wlp_bind, wlp_call. set (mp := kernel _ _).
  destruct (mp =? NULL); [by apply wlp_ret|]. apply wlp_bind, wlp_do, wlp_bind, wlp_modify.
  apply wlp_bind, wlp_bind, wlp_load_port. intros i1 m1 Hi1 Hm1. apply wlp_mod_info. intros i2 Hi2. apply wlp_bind, wlp_load_idev.
  intros d2 Hd2. autorewrite with world in Hd2.
  assert (d2 = d1 /\ mp <> idev) as [-> Hne].
  { destruct (decide (mp = idev)) as [E|E]; [by rewrite E, lookup_insert_eq in Hd2|]. rewrite lookup_insert_ne in Hd2 by done.
    split; [congruence|done]. }
  apply wlp_bind, wlp_call. set (r := kernel _ (KobjectAdd _ _ _)). destruct (Z.eqb_spec r 0) as [Er|]; cbn [negb]; [|by apply wlp_ret].
  apply wlp_bind, wlp_call. set (r2 := kernel _ (KobjectUevent _)). destruct (r2 =? 0); cbn [negb]; [|by apply wlp_ret].
  apply (IH _ _ _ d1); [wsimpl_goal; by rewrite lookup_insert_ne| |done|].
  - split_and!; [done|done|]. intros _. apply dir_ok_logged; [done|]. apply dir_ok_add; [done| | |exact Er].
    + intros Hmi. wsimpl_goal. do 2 (apply dir_ok_logged; [done|]). by apply E3.
    + intros Hmi. wsimpl_goal. rewrite !entries_logged by done. by apply E4.
  - intros [?|Hdiff]; [done|]. apply dir_ok_logged; [done|]. apply dir_ok_other; [done|]. wsimpl_goal.
    do 2 (apply dir_ok_logged; [done|]). by apply E5.
Qed.

End dirs.

(** ** Registration *)

Section registration.
Context `{HK : Kernel, HKok : !KernelOk, HU : Uapi} {D : Type} `{HD : !UioDriver D, HDok : !UioDriverOk D}.
Set Default Proof Using "All".
Implicit Types w : world D.

(** Both directories of the device list exactly the leading regions of its info. *)
Definition dirs_listed (d : uio_device) (i : uio_info) (h : hist) : Prop :=
  dir_ok "port" (d_portio_dir d) (port_count i) h /\ maps_kept (map_count i) (port_count i) d h.

Lemma dirs_listed_entries d i h h' :
  (forall dir, dir_entries dir h' = dir_entries dir h) -> dirs_listed d i h -> dirs_listed d i h'.
Proof.
  intros E [Hp Hm]. split; [|intros Hk]; (eapply dir_ok_entries; [apply E|]); [exact Hp|exact (Hm Hk)].
Qed.

(** The clean-up returns the error it was given. *)
Lemma wlp_err_map_kobj idev n ret w : wlp (err_map_kobj n ret idev) w (fun r _ => r = ret).
Proof.
  apply wlp_bind. eapply wlp_mono; [apply wlp_any|]. intros _ w1 _. apply wlp_bind, wlp_load_idev. intros d _.
  by apply wlp_bind, wlp_do, wlp_ret.
Qed.
Lemma wlp_err_portio_kobj idev n mi ret w : wlp (err_portio_kobj n mi ret idev) w (fun r _ => r = ret).
Proof.
  apply wlp_bind. eapply wlp_mono; [apply wlp_any|]. intros _ w1 _. apply wlp_bind, wlp_load_idev. intros d _.
  apply wlp_bind, wlp_do, wlp_err_map_kobj.
Qed.

Lemma wlp_uio_dev_add_attributes w idev d i :
  heap_live w -> w_heap w !! idev = Some (HIdev d) -> w_info w !! d_info d = Some i -> info_shape i ->
  d_map_dir d = 0 -> d_portio_dir d = 0 ->
  wlp (uio_dev_add_attributes idev) w (fun r w' => r = 0 -> exists d', w_heap w' !! idev = Some (HIdev d') /\
    dirs_listed d' i (w_hist w')).
Proof.
  intros Hlive Hd Hi Hs Hz1 Hz2. unfold uio_dev_add_attributes. apply wlp_bind.
  assert (Hrun0 : attr_run w idev (acc_maps 0) w).
  { split; [apply calm_refl|done|done|by exists []|]. exists d, i, d, i. split_and!; try done.
    intros p Hp. cbn. unfold mapsum. simpl. rewrite Hz1. unfold hit. destruct (Z.eqb_spec 0 p); lia. }
  eapply wlp_mono.
  { apply wlp_and; [apply wlp_of_wp, (wp_add_maps w idev); [done|exact Hrun0|lia| |]|
      apply (wlp_add_maps _ _ 0 false w d); [done| |done]].
    - intros _. split; [done|]. intros d' Hd'. congruence.
    - intros ? ? ? ? ? ?. lia.
    - by split_and!. }
  intros [mi|mi ret|mi ret] w1 [Hp Hl]; cbn [maps_post] in Hp.
  2,3: destruct Hp as (_ & _ & Hret); eapply wlp_mono; [apply wlp_err_map_kobj|]; intros r w2 ->; done.
  destruct Hp as (Hrun & Hmi). specialize (Hmi d i Hd Hi). destruct (Hl mi eq_refl) as (d1 & Hd1 & Hmaps).
  assert (Hp0 : d_portio_dir d1 = 0).
  { pose proof (ar_state _ _ _ _ Hrun) as (e0 & j0 & e & j & E1 & _ & E2 & _ & _ & _ & _ & _ & _ & E3 & _).
    cbn in E3. congruence. }
  destruct (map_count_le i Hs) as [Hle1 Hle2]. apply wlp_bind. eapply wlp_mono.
  { apply wlp_and; [apply wlp_of_wp, (wp_add_ports w idev mi); [done| |lia| |]|
      apply (wlp_add_ports _ mi _ 0 false w1 d1); [done| |by intros|by intros _]].
    - eapply attr_run_mono; [| |exact Hrun]; [|by intros]. intros d' i' p Hp Hd'. cbn. unfold portsum. simpl.
      assert (d' = d1) as -> by congruence. rewrite Hp0. unfold hit. destruct (Z.eqb_spec 0 p); lia.
    - intros _. split; [done|]. intros d' Hd'. congruence.
    - intros ? ? ? ? ? ?. lia.
    - by split_and!. }
  intros [pi|pi ret|pi ret] w2 [Hp Hl2]; cbn [ports_post] in Hp.
  2,3: destruct Hp as (_ & _ & Hret); eapply wlp_mono; [apply wlp_err_portio_kobj|]; intros r w3 ->; done.
  destruct Hp as (_ & Hpi). specialize (Hpi d i Hd Hi). destruct (Hl2 pi eq_refl) as (d2 & Hd2 & Hports & Hkept).
  apply wlp_ret. intros _. exists d2. split; [done|]. unfold dirs_listed. by rewrite <- Hpi, <- Hmi.
Qed.
End registration.
