(* ===== verification/UioReg.v ===== *)
(** * Registration, unregistration and the release of a device

    The invariant across the operations that change the set of devices.  Each
    proof compares the state the code reaches with a small one in which the
    attribute loops have not run: they are calm, and calm steps keep the
    invariant. *)

From S2P Require Import Prelude Kernel UioTypes UioAttr UioDevice UioFile KLogic UioInv UioSpec UioOpen UioAttrSpec UioSysfs.

Section reg.
Context `{Kernel, Uapi} {D : Type} `{!UioDriver D, !UioDriverOk D}.
Implicit Types (w : world D) (F : gset Z) (σ : gmap Z nat).

(** *** Calm steps under the same change on both sides *)

Lemma calm_inv w w' F σ :
  core_inv w F σ -> calm w w' -> (forall l, lock_depth l (w_hist w') = lock_depth l (w_hist w)) ->
  w_drv w' = w_drv w -> core_inv w' F σ.
Proof. intros Hi Hc Hl Hd. apply (inv_quiet_drv w); [done|by apply calm_quiet|done]. Qed.

Definition same_call (c : kcall) : bool :=
  match c with IdrRemove _ | PutDevice _ | DeviceUnregister _ => true | _ => false end.

Lemma calm_log_both c w1 w2 : same_call c = true -> calm w1 w2 -> calm (logged c w1) (logged c w2).
Proof.
  intros Hc [C1 C2 C3 C4 C5 C6 C7 C8]. split; intros; wsimpl_goal; try done.
  - rewrite !idr_logged_case. destruct c; try done. by rewrite C1.
  - rewrite !dev_refs_logged, C2. by destruct c.
  - rewrite !mod_refs_logged, C3. by destruct c.
  - rewrite !drvdata_logged. by destruct c.
  - intros p o. rewrite heap_logged. intros Ho.
    assert (Hl : live (w_hist (logged c w2)) = live (w_hist w2)) by (rewrite live_logged_case; by destruct c).
    rewrite Hl. apply (C6 ltac:(intros q o' Hq; destruct (H1 q o') as [? Hin];
      [by rewrite heap_logged|split; [done|]; rewrite live_logged_case in Hin; by destruct c]) p o Ho).
Qed.

Lemma calm_store_both p o1 o2 d1 d2 w1 w2 :
  w_heap w1 !! p = Some d1 -> w_heap w2 !! p = Some d2 -> hview (Some o2) = hview (Some o1) ->
  calm w1 w2 -> calm (set_heap (insert p o1) w1) (set_heap (insert p o2) w2).
Proof.
  intros Hp1 Hp2 Hv [C1 C2 C3 C4 C5 C6 C7 C8]. split; intros; wsimpl_goal; try done.
  - destruct (decide (p = p0)) as [<-|]; [by rewrite !lookup_insert_eq|by rewrite !lookup_insert_ne].
  - assert (Hl1 : heap_live w1).
    { intros q o' Hq. specialize (H1 q). revert H1. wsimpl_goal. destruct (decide (p = q)) as [<-|].
      - rewrite lookup_insert_eq. intros Hx. by apply (Hx o1).
      - rewrite lookup_insert_ne by done. intros Hx. by apply (Hx o'). }
    specialize (C6 Hl1). intros q o'. wsimpl_goal. destruct (decide (p = q)) as [<-|].
    + intros _. by apply (C6 p d2).
    + rewrite lookup_insert_ne by done. apply C6.
Qed.

Lemma calm_uio_dev_both p q i1 i2 w1 w2 :
  w_info w1 !! p = Some i1 -> w_info w2 !! p = Some i2 -> calm w1 w2 ->
  calm (set_info (insert p (upd_uio_dev q i1)) w1) (set_info (insert p (upd_uio_dev q i2)) w2).
Proof.
  intros Hp1 Hp2 [C1 C2 C3 C4 C5 C6 C7 C8]. split; try done.
  intros p0. wsimpl_goal. destruct (decide (p = p0)) as [<-|]; [|by rewrite !lookup_insert_ne].
  rewrite !lookup_insert_eq. specialize (C8 p). rewrite Hp1, Hp2 in C8.
  injection C8 as E1 E2 E3 E4. cbn. unfold iview, drv_fields in *. cbn. congruence.
Qed.

(** *** Infos that are not registered *)

Definition unregistered w (info : Z) : Prop :=
  forall m p d, idr_of (w_hist w) !! m = Some p -> w_heap w !! p = Some (HIdev d) -> d_info d <> info.

Lemma inv_info_unreg w F σ info i q :
  core_inv w F σ -> unregistered w info -> w_info w !! info = Some i ->
  core_inv (set_info (insert info (upd_uio_dev q i)) w) F σ.
Proof.
  intros Hi Hun Hinfo. destruct Hi as [I1 I2 I3 I4 I5 I6 I7 I8 I9 I10 I11 I12].
  split; wsimpl_goal; try done.
  - intros m p Hm. destruct (I4 m p Hm) as (d & j & E1 & E2 & E3 & E4 & E5 & E6).
    exists d, j. rewrite lookup_insert_ne by (intros ->; by apply (Hun m p d)). by wsimpl_goal.
  - apply (drv_inv_core _ w); [by wsimpl_goal| |done]. intros p. wsimpl_goal.
    destruct (decide (info = p)) as [<-|]; [by rewrite lookup_insert_eq, Hinfo|by rewrite lookup_insert_ne].
Qed.

(** *** A device that has just been set up *)

(** From [w], the device [d] was allocated at [p], given a minor number,
    initialised and linked to itself; [w] has no trace of it. *)
Record device_new w (p : Z) (d : uio_device) w1 : Prop := DeviceNew {
  dn_pos : 0 < p;
  dn_fresh : w_heap w !! p = None;
  dn_inf : d_info d <> 0;
  dn_heap : w_heap w1 = <[p := HIdev d]> (w_heap w);
  dn_info : w_info w1 = w_info w;
  dn_priv : w_priv w1 = w_priv w;
  dn_drv : w_drv w1 = w_drv w;
  dn_live : live (w_hist w1) = {[p]} ∪ live (w_hist w);
  dn_minor : idr_of (w_hist w) !! d_minor d = None;
  dn_idr : idr_of (w_hist w1) = <[d_minor d := p]> (idr_of (w_hist w));
  dn_refs q : dev_refs q (w_hist w1) = (if p =? q then 1 else 0) + dev_refs q (w_hist w);
  dn_mods m : mod_refs m (w_hist w1) = mod_refs m (w_hist w);
  dn_data : drvdata_of (w_hist w1) = <[p := p]> (drvdata_of (w_hist w));
  dn_lock l : lock_depth l (w_hist w1) = lock_depth l (w_hist w) }.

Section device_new.
Context w F σ (p : Z) (d : uio_device) w1.
Hypothesis Hi : core_inv w F σ.
Hypothesis Hn : device_new w p d w1.

Lemma dn_lookup q o : w_heap w !! q = Some o -> w_heap w1 !! q = Some o.
Proof using Hn. destruct Hn. intros Hq. rewrite dn_heap0, lookup_insert_ne; congruence. Qed.

Lemma dn_idev q d' : w_heap w1 !! q = Some (HIdev d') <-> (q = p /\ d' = d) \/ w_heap w !! q = Some (HIdev d').
Proof using Hn.
  destruct Hn. rewrite dn_heap0. destruct (decide (p = q)) as [<-|].
  - rewrite lookup_insert_eq, dn_fresh0. naive_solver.
  - rewrite lookup_insert_ne by done. naive_solver.
Qed.

Lemma dn_files f : f ∈ F -> dev_of w1 f = dev_of w f /\ owner_of w1 f = owner_of w f /\ dev_of w f <> Some p.
Proof using Hi Hn.
  intros Hf. destruct (ci_file _ _ _ Hi f Hf) as (l & lst & df & E1 & E2 & E3).
  assert (Hd : dev_of w1 f = dev_of w f).
  { apply (dev_of_same _ _ _ l); [by rewrite (dn_priv _ _ _ _ Hn)|done|]. rewrite E2. by apply dn_lookup. }
  pose proof (dev_of_some _ _ _ _ E1 E2) as Hdev. split_and!; [done| |].
  - apply (owner_of_same _ _ _ (l_dev lst)); [done|done|]. rewrite E3. by apply dn_lookup.
  - rewrite Hdev. intros [= Hp]. rewrite Hp, (dn_fresh _ _ _ _ Hn) in E3. discriminate.
Qed.

Lemma dn_opens q : opens w1 F q = opens w F q.
Proof using Hi Hn. apply count_ext. intros f Hf. by apply dn_files. Qed.
Lemma dn_owner_opens m : owner_opens w1 F m = owner_opens w F m.
Proof using Hi Hn. apply count_ext. intros f Hf. by apply dn_files. Qed.

Lemma dn_no_opens : opens w F p = 0%nat.
Proof using Hi Hn.
  unfold opens, count_files. apply size_empty_iff, elem_of_equiv_empty. intros f Hf%elem_of_filter.
  destruct Hf as [Hd Hf]. by destruct (dn_files f Hf) as (_ & _ & ?).
Qed.

Lemma dn_refs_old : dev_refs p (w_hist w) = 0.
Proof using Hi Hn. apply (ci_norefs _ _ _ Hi). intros d'. by rewrite (dn_fresh _ _ _ _ Hn). Qed.

Lemma dn_live_all : heap_live w1.
Proof using Hi Hn.
  intros q o. destruct Hn. rewrite dn_heap0, dn_live0. destruct (decide (p = q)) as [<-|].
  - intros _. split; [done|]. apply elem_of_union_l. by apply elem_of_singleton.
  - rewrite lookup_insert_ne by done. intros Hq. destruct (ci_live _ _ _ Hi _ _ Hq).
    split; [done|by apply elem_of_union_r].
Qed.

(** An old device is registered as before: its minor is another one. *)
Lemma dn_reg_old q d' : w_heap w !! q = Some (HIdev d') -> q <> p ->
  registered w1 q d' <-> registered w q d'.
Proof using Hi Hn.
  intros Hq Hne. unfold registered. rewrite (dn_idr _ _ _ _ Hn).
  destruct (decide (d_minor d = d_minor d')) as [E|E].
  - rewrite E, lookup_insert_eq, <- E, (dn_minor _ _ _ _ Hn). split; [intros [= ->]; done|done].
  - by rewrite lookup_insert_ne.
Qed.

Lemma dn_ne q d' : w_heap w !! q = Some (HIdev d') -> q <> p.
Proof using Hn. destruct Hn. intros Hq ->. congruence. Qed.

(** *** It is registered *)

Lemma inv_register i : w_info w !! d_info d = Some i -> info_shape i -> unregistered w (d_info d) ->
  drv_inv (<[d_info d := 0%nat]> σ) w ->
  core_inv (set_info (insert (d_info d) (upd_uio_dev p i)) w1) F (<[d_info d := 0%nat]> σ).
Proof using Hi Hn.
  intros Hinfo Hs Hun Hdrv. pose proof Hn as [N1 N2 N3 N4 N5 N6 N7 N8 N9 N10 N11 N12 N13 N14].
  assert (Hreg : registered w1 p d) by (unfold registered; by rewrite N10, lookup_insert_eq).
  set (w2 := set_info _ w1).
  assert (Hop : forall q, opens w2 F q = opens w F q) by (intros q; rewrite <- dn_opens; by apply count_ext).
  assert (Hown : forall q, owner_opens w2 F q = owner_opens w F q) by (intros q; rewrite <- dn_owner_opens; by apply count_ext).
  assert (Hr2 : forall q d', registered w2 q d' <-> registered w1 q d').
  { intros q d'. unfold registered. subst w2. by wsimpl_goal. }
  assert (Hrc : forall q d', w_heap w !! q = Some (HIdev d') -> reg_count w2 q d' = reg_count w q d').
  { intros q d' Hq. apply reg_count_ext. rewrite Hr2. apply dn_reg_old; [done|by eapply dn_ne]. }
  split; subst w2; wsimpl_goal.
  - exact dn_live_all.
  - intros f Hf. rewrite N6. destruct (ci_file _ _ _ Hi f Hf) as (l & lst & df & E1 & E2 & E3).
    exists l, lst, df. by split_and!; [|apply dn_lookup..].
  - rewrite N6. apply (ci_inj _ _ _ Hi).
  - intros m q. rewrite N10. destruct (decide (d_minor d = m)) as [<-|Hm].
    + rewrite lookup_insert_eq. intros [= <-]. exists d, (upd_uio_dev p i). rewrite N4, !lookup_insert_eq. by split_and!.
    + rewrite lookup_insert_ne by done. intros E. destruct (ci_idr _ _ _ Hi _ _ E) as (d' & j & E1 & E2 & E3 & E4 & E5 & E6).
      exists d', j. rewrite lookup_insert_ne, N5 by (intros Hx; by apply (Hun m q d')).
      split_and!; try done. by apply dn_lookup.
  - intros q d' [[-> ->]|Hq]%dn_idev Hnn; [left; by apply Hr2|]. pose proof (dn_ne _ _ Hq).
    destruct (ci_info _ _ _ Hi _ _ Hq Hnn) as [Hr|Hz]; [left; by apply Hr2, dn_reg_old|].
    right. rewrite N11. destruct (Z.eqb_spec p q); [congruence|lia].
  - intros q d' [[-> ->]|Hq]%dn_idev; rewrite N11, Hop.
    + rewrite Z.eqb_refl, dn_refs_old, dn_no_opens. unfold reg_count. rewrite decide_True by by apply Hr2. lia.
    + pose proof (dn_ne _ _ Hq). rewrite (ci_refs _ _ _ Hi _ _ Hq), Hrc by done.
      destruct (Z.eqb_spec p q); [congruence|lia].
  - intros q Hq. rewrite N11. destruct (Z.eqb_spec p q) as [<-|].
    + destruct (Hq d). rewrite N4. apply lookup_insert_eq.
    + rewrite (ci_norefs _ _ _ Hi q); [lia|]. intros d' Hd'. apply (Hq d'). by apply dn_lookup.
  - intros m. rewrite N12, Hown. apply (ci_mods _ _ _ Hi).
  - intros q d' [[-> ->]|Hq]%dn_idev; rewrite N13; [apply lookup_insert_eq|].
    pose proof (dn_ne _ _ Hq). rewrite lookup_insert_ne by done. by apply (ci_drvdata _ _ _ Hi q d').
  - intros l. rewrite N14. apply (ci_lock _ _ _ Hi).
  - apply (drv_inv_core _ w); [by wsimpl_goal| |done]. intros q. wsimpl_goal. rewrite N5.
    destruct (decide (d_info d = q)) as [<-|]; [by rewrite lookup_insert_eq, Hinfo|by rewrite lookup_insert_ne].
  - intros q d' [[-> ->]|Hq]%dn_idev Hr; rewrite Hop; [by rewrite lookup_insert_eq, dn_no_opens|].
    pose proof (dn_ne _ _ Hq) as Hne. apply Hr2, (dn_reg_old q d' Hq Hne) in Hr.
    rewrite lookup_insert_ne by (intros Hx; by apply (Hun (d_minor d') q d')).
    by apply (ci_opens _ _ _ Hi).
Qed.

(** *** It is given up: the minor number is freed, the reference is dropped *)

Lemma inv_orphan :
  core_inv (logged (PutDevice p) (logged (IdrRemove (d_minor d)) w1)) F σ.
Proof using Hi Hn.
  pose proof Hn as [N1 N2 N3 N4 N5 N6 N7 N8 N9 N10 N11 N12 N13 N14].
  set (w2 := logged _ _).
  assert (Hidr : idr_of (w_hist w2) = idr_of (w_hist w)).
  { subst w2. gsimpl. rewrite N10. by apply delete_insert_id. }
  assert (Hrefs : forall q, dev_refs q (w_hist w2) = dev_refs q (w_hist w)).
  { intros q. subst w2. gsimpl. rewrite N11. destruct (p =? q); lia. }
  assert (Hheap : w_heap w2 = w_heap w1) by (subst w2; by wsimpl_goal).
  assert (Hpriv : w_priv w2 = w_priv w) by (subst w2; by wsimpl_goal).
  assert (Hfiles : forall f, f ∈ F -> dev_of w2 f = dev_of w f /\ owner_of w2 f = owner_of w f).
  { intros f Hf. destruct (dn_files f Hf) as (E1 & E2 & _). by rewrite <- E1, <- E2. }
  assert (Hop : forall q, opens w2 F q = opens w F q) by (intros q; apply count_ext; intros f Hf; by apply Hfiles).
  assert (Hown : forall q, owner_opens w2 F q = owner_opens w F q) by (intros q; apply count_ext; intros f Hf; by apply Hfiles).
  assert (Hreg : forall q d', registered w2 q d' <-> registered w q d') by (intros q d'; unfold registered; by rewrite Hidr).
  assert (Hnp : ~ registered w p d) by (unfold registered; by rewrite N9).
  split; rewrite ?Hheap, ?Hpriv.
  - intros q o Hq. destruct (dn_live_all q o) as [? Hin]; [by rewrite <- Hheap|]. split; [done|].
    subst w2. by gsimpl.
  - intros f Hf. destruct (ci_file _ _ _ Hi f Hf) as (l & lst & df & E1 & E2 & E3).
    exists l, lst, df. by split_and!; [|apply dn_lookup..].
  - apply (ci_inj _ _ _ Hi).
  - intros m q. rewrite Hidr. intros E. destruct (ci_idr _ _ _ Hi _ _ E) as (d' & j & E1 & E2).
    exists d', j. split; [by apply dn_lookup|]. subst w2. wsimpl_goal. by rewrite N5.
  - intros q d' [[-> ->]|Hq]%dn_idev Hnn; rewrite Hrefs, Hreg; [right; apply dn_refs_old|].
    by apply (ci_info _ _ _ Hi q d').
  - intros q d' [[-> ->]|Hq]%dn_idev; rewrite Hrefs, Hop.
    + rewrite dn_refs_old, dn_no_opens. unfold reg_count. rewrite decide_False by by rewrite Hreg. done.
    + rewrite (ci_refs _ _ _ Hi _ _ Hq). f_equal. symmetry. apply reg_count_ext. apply Hreg.
  - intros q Hq. rewrite Hrefs. apply (ci_norefs _ _ _ Hi). intros d' Hd'. apply (Hq d'). by apply dn_lookup.
  - intros m. subst w2. gsimpl. rewrite N12. rewrite Hown. apply (ci_mods _ _ _ Hi).
  - intros q d' [[-> ->]|Hq]%dn_idev; (replace (drvdata_of (w_hist w2)) with (drvdata_of (w_hist w1)) by (subst w2; by gsimpl));
      rewrite N13; [apply lookup_insert_eq|].
    pose proof (dn_ne _ _ Hq). rewrite lookup_insert_ne by done. by apply (ci_drvdata _ _ _ Hi q d').
  - intros l. subst w2. gsimpl. rewrite N14. apply (ci_lock _ _ _ Hi).
  - apply (drv_inv_keep _ w); [subst w2; by wsimpl_goal..|apply (ci_drv _ _ _ Hi)].
  - intros q d' [[-> ->]|Hq]%dn_idev Hr%Hreg; [done|]. rewrite Hop. by apply (ci_opens _ _ _ Hi).
Qed.
End device_new.

(** *** A registered device is taken out *)

Lemma inv_unregister w F σ p d :
  core_inv w F σ -> w_heap w !! p = Some (HIdev d) -> registered w p d ->
  core_inv (logged (DeviceUnregister p) (logged (IdrRemove (d_minor d))
    (set_heap (insert p (HIdev (upd_dinfo NULL d))) w))) F (delete (d_info d) σ).
Proof.
  intros Hi Hd Hreg. set (w2 := logged _ _).
  assert (Hheap : w_heap w2 = <[p := HIdev (upd_dinfo NULL d)]> (w_heap w)) by (subst w2; by wsimpl_goal).
  assert (Hinfo : w_info w2 = w_info w) by (subst w2; by wsimpl_goal).
  assert (Hpriv : w_priv w2 = w_priv w) by (subst w2; by wsimpl_goal).
  assert (Hidr : idr_of (w_hist w2) = delete (d_minor d) (idr_of (w_hist w))) by (subst w2; by gsimpl).
  assert (Hrefs : forall q, dev_refs q (w_hist w2) = (if p =? q then -1 else 0) + dev_refs q (w_hist w)).
  { intros q. subst w2. gsimpl. lia. }
  assert (Hlsn : forall l o, l <> p -> w_heap w !! l = Some o -> w_heap w2 !! l = Some o).
  { intros l o Hl. by rewrite Hheap, lookup_insert_ne. }
  assert (Hfiles : forall f, f ∈ F -> dev_of w2 f = dev_of w f /\ owner_of w2 f = owner_of w f).
  { intros f Hf. destruct (ci_file _ _ _ Hi f Hf) as (l & lst & df & E1 & E2 & E3).
    assert (l <> p) by congruence. pose proof (dev_of_some _ _ _ _ E1 E2) as Hdev.
    assert (Hdev2 : dev_of w2 f = dev_of w f).
    { apply (dev_of_same _ _ _ l); [by rewrite Hpriv|done|]. rewrite E2. by apply Hlsn. }
    split; [done|]. rewrite (owner_of_some w f (l_dev lst) df) by done.
    destruct (decide (l_dev lst = p)) as [Hp|Hp].
    - replace (d_owner df) with (d_owner (upd_dinfo NULL d)) by (cbn; congruence).
      apply (owner_of_some _ _ p); [congruence|]. rewrite Hheap. apply lookup_insert_eq.
    - apply (owner_of_some _ _ (l_dev lst)); [congruence|]. by apply Hlsn. }
  assert (Hop : forall q, opens w2 F q = opens w F q) by (intros q; apply count_ext; intros f Hf; by apply Hfiles).
  assert (Hown : forall q, owner_opens w2 F q = owner_opens w F q) by (intros q; apply count_ext; intros f Hf; by apply Hfiles).
  assert (Hidev : forall q d', w_heap w2 !! q = Some (HIdev d') ->
    (q = p /\ d' = upd_dinfo NULL d) \/ (q <> p /\ w_heap w !! q = Some (HIdev d'))).
  { intros q d'. rewrite Hheap. destruct (decide (p = q)) as [<-|Hne].
    - rewrite lookup_insert_eq. intros [= <-]. by left.
    - rewrite lookup_insert_ne by done. by right. }
  assert (Hr2 : forall q d', q <> p -> registered w2 q d' <-> registered w q d').
  { intros q d' Hq. unfold registered in *. rewrite Hidr. destruct (decide (d_minor d = d_minor d')) as [E|E].
    - rewrite <- E, lookup_delete_eq, Hreg. naive_solver.
    - by rewrite lookup_delete_ne. }
  assert (Hnr : ~ registered w2 p (upd_dinfo NULL d)).
  { unfold registered. cbn [d_minor upd_dinfo]. by rewrite Hidr, lookup_delete_eq. }
  destruct (registered_info _ _ _ _ _ Hi Hd Hreg) as (i & Hn & Hii & Hu & _).
  split; rewrite ?Hpriv.
  - intros q o. rewrite Hheap. intros Hq.
    assert (Hl : live (w_hist w2) = live (w_hist w)) by (subst w2; by gsimpl). rewrite Hl.
    destruct (decide (p = q)) as [<-|]; [by apply (ci_live _ _ _ Hi p _ Hd)|].
    rewrite lookup_insert_ne in Hq by done. by apply (ci_live _ _ _ Hi q o).
  - intros f Hf. destruct (ci_file _ _ _ Hi f Hf) as (l & lst & df & E1 & E2 & E3). exists l, lst.
    assert (l <> p) by congruence. destruct (decide (l_dev lst = p)) as [->|Hp].
    + exists (upd_dinfo NULL d). split_and!; [done|by apply Hlsn|]. rewrite Hheap. apply lookup_insert_eq.
    + exists df. split_and!; [done|by apply Hlsn..].
  - apply (ci_inj _ _ _ Hi).
  - intros m q. rewrite Hidr. intros [Hm E]%lookup_delete_Some.
    destruct (ci_idr _ _ _ Hi _ _ E) as (d' & j & E1 & E2 & E3).
    exists d', j. rewrite Hinfo. split_and!; try apply E3; [|done]. apply Hlsn; [|done]. intros ->. congruence.
  - intros q d' [[-> ->]|[Hne Hq]]%Hidev Hnn; [done|]. rewrite Hr2, Hrefs by done.
    destruct (ci_info _ _ _ Hi _ _ Hq Hnn); [by left|right]. destruct (Z.eqb_spec p q); [congruence|lia].
  - intros q d' [[-> ->]|[Hne Hq]]%Hidev; rewrite Hrefs, Hop.
    + rewrite Z.eqb_refl, (ci_refs _ _ _ Hi _ _ Hd). unfold reg_count.
      rewrite decide_True, decide_False by done. lia.
    + rewrite (ci_refs _ _ _ Hi _ _ Hq). destruct (Z.eqb_spec p q); [congruence|].
      assert (reg_count w2 q d' = reg_count w q d') as -> by by apply reg_count_ext, Hr2. lia.
  - intros q Hq. rewrite Hrefs. destruct (Z.eqb_spec p q) as [<-|Hne].
    + destruct (Hq (upd_dinfo NULL d)). rewrite Hheap. apply lookup_insert_eq.
    + rewrite (ci_norefs _ _ _ Hi q); [lia|]. intros d' Hd'. apply (Hq d'). by apply Hlsn.
  - intros m. rewrite Hown. subst w2. gsimpl. apply (ci_mods _ _ _ Hi).
  - intros q d' [[-> ->]|[Hne Hq]]%Hidev; subst w2; gsimpl; by eapply (ci_drvdata _ _ _ Hi).
  - intros l. subst w2. gsimpl. apply (ci_lock _ _ _ Hi).
  - apply drv_inv_del. apply (drv_inv_keep _ w); [done|subst w2; by wsimpl_goal|apply (ci_drv _ _ _ Hi)].
  - intros q d' [[-> ->]|[Hne Hq]]%Hidev Hr; [done|]. rewrite Hop. apply Hr2 in Hr; [|done].
    rewrite lookup_delete_ne; [by apply (ci_opens _ _ _ Hi)|]. intros E.
    destruct (registered_info _ _ _ _ _ Hi Hq Hr) as (i2 & _ & Hi2 & Hu2 & _). congruence.
Qed.

(** *** A device nobody refers to is freed *)

Lemma inv_device_release w F σ p d :
  core_inv w F σ -> w_heap w !! p = Some (HIdev d) -> dev_refs p (w_hist w) = 0 ->
  core_inv (set_heap (delete p) (logged (Kfree p) w)) F σ.
Proof.
  intros Hi Hd Hz. set (w2 := set_heap _ _).
  assert (Hheap : w_heap w2 = delete p (w_heap w)) by (subst w2; by wsimpl_goal).
  assert (Hpriv : w_priv w2 = w_priv w) by (subst w2; by wsimpl_goal).
  rewrite (ci_refs _ _ _ Hi _ _ Hd) in Hz. unfold reg_count in Hz.
  assert (Hnr : ~ registered w p d) by (intros Hr; rewrite decide_True in Hz by done; lia).
  assert (Hno : opens w F p = 0%nat) by (case_decide; lia).
  assert (Hnone : forall f, f ∈ F -> dev_of w f <> Some p).
  { intros f Hf E. pose proof (count_pos _ _ _ _ Hf E) as Hpos. unfold opens in Hno. lia. }
  assert (Hkeep : forall q o, q <> p -> w_heap w !! q = Some o -> w_heap w2 !! q = Some o).
  { intros q o Hq. by rewrite Hheap, lookup_delete_ne. }
  assert (Hback : forall q o, w_heap w2 !! q = Some o -> q <> p /\ w_heap w !! q = Some o).
  { intros q o. rewrite Hheap. intros [? ?]%lookup_delete_Some. done. }
  assert (Hfile : forall f, f ∈ F -> exists l lst df, w_priv w !! f = Some l /\ w_heap w2 !! l = Some (HLsn lst) /\
    w_heap w2 !! l_dev lst = Some (HIdev df) /\ dev_of w2 f = dev_of w f /\ owner_of w2 f = owner_of w f).
  { intros f Hf. destruct (ci_file _ _ _ Hi f Hf) as (l & lst & df & E1 & E2 & E3).
    pose proof (dev_of_some _ _ _ _ E1 E2) as Hdev. specialize (Hnone f Hf). rewrite Hdev in Hnone.
    assert (l <> p) by congruence. assert (l_dev lst <> p) by congruence.
    assert (Hdev2 : dev_of w2 f = dev_of w f).
    { apply (dev_of_same _ _ _ l); [by rewrite Hpriv|done|]. rewrite E2. by apply Hkeep. }
    exists l, lst, df. split_and!; [done|by apply Hkeep..|done|].
    apply (owner_of_same _ _ _ (l_dev lst)); [done|done|]. rewrite E3. by apply Hkeep. }
  assert (Hop : forall q, opens w2 F q = opens w F q).
  { intros q. apply count_ext. intros f Hf. by destruct (Hfile f Hf) as (? & ? & ? & ? & ? & ? & ? & ?). }
  assert (Hown : forall q, owner_opens w2 F q = owner_opens w F q).
  { intros q. apply count_ext. intros f Hf. by destruct (Hfile f Hf) as (? & ? & ? & ? & ? & ? & ? & ?). }
  assert (Hidr : idr_of (w_hist w2) = idr_of (w_hist w)) by (subst w2; by gsimpl).
  assert (Hrefs : forall q, dev_refs q (w_hist w2) = dev_refs q (w_hist w)) by (intros q; subst w2; by gsimpl).
  split; rewrite ?Hpriv.
  - intros q o [Hne Hq]%Hback. destruct (ci_live _ _ _ Hi _ _ Hq) as [? Hin]. split; [done|].
    subst w2. gsimpl. apply elem_of_difference. split; [done|]. by rewrite elem_of_singleton.
  - intros f Hf. destruct (Hfile f Hf) as (l & lst & df & ? & ? & ? & _). exists l, lst, df. by split_and!.
  - apply (ci_inj _ _ _ Hi).
  - intros m q. rewrite Hidr. intros E. destruct (ci_idr _ _ _ Hi _ _ E) as (d' & j & E1 & E2 & E3).
    exists d', j. replace (w_info w2) with (w_info w) by (subst w2; by wsimpl_goal).
    split_and!; try apply E3; [|done]. apply Hkeep; [|done]. intros ->. apply Hnr. unfold registered. congruence.
  - intros q d' [Hne Hq]%Hback Hnn. rewrite Hrefs. unfold registered. rewrite Hidr. by apply (ci_info _ _ _ Hi q d').
  - intros q d' [Hne Hq]%Hback. rewrite Hrefs, Hop, (ci_refs _ _ _ Hi _ _ Hq).
    assert (reg_count w2 q d' = reg_count w q d') as ->; [|done].
    apply reg_count_ext. unfold registered. by rewrite Hidr.
  - intros q Hq. rewrite Hrefs. destruct (decide (q = p)) as [->|Hne].
    + rewrite (ci_refs _ _ _ Hi _ _ Hd). unfold reg_count. by rewrite Hno, decide_False.
    + apply (ci_norefs _ _ _ Hi). intros d' Hd'. apply (Hq d'). by apply Hkeep.
  - intros m. rewrite Hown. subst w2. gsimpl. apply (ci_mods _ _ _ Hi).
  - intros q d' [Hne Hq]%Hback. subst w2. gsimpl. by eapply (ci_drvdata _ _ _ Hi).
  - intros l. subst w2. gsimpl. apply (ci_lock _ _ _ Hi).
  - apply (drv_inv_keep _ w); [subst w2; by wsimpl_goal..|apply (ci_drv _ _ _ Hi)].
  - intros q d' [Hne Hq]%Hback Hr. rewrite Hop. apply (ci_opens _ _ _ Hi); [done|].
    unfold registered in *. by rewrite <- Hidr.
Qed.

(** *** Counters across the attribute loops *)

Lemma attr_run_count_of w0 idev acc w d :
  attr_run w0 idev acc w -> (forall e, attr_call (ev_call e) = true -> d e = 0) ->
  count_of d (w_hist w) = count_of d (w_hist w0).
Proof.
  intros Hrun Hd. destruct (ar_hist _ _ _ _ Hrun) as (evs & -> & Hevs).
  rewrite count_of_app, count_of_zero; [lia|]. eapply Forall_impl; [exact Hevs|]. cbn. auto.
Qed.

Lemma attr_run_irq w0 idev acc w q : attr_run w0 idev acc w -> irq_held q (w_hist w) = irq_held q (w_hist w0).
Proof. intros Hrun. eapply attr_run_count_of; [exact Hrun|]. intros [c r z]; destruct c; done. Qed.
Lemma attr_run_added w0 idev acc w q : attr_run w0 idev acc w -> dev_added q (w_hist w) = dev_added q (w_hist w0).
Proof. intros Hrun. eapply attr_run_count_of; [exact Hrun|]. intros [c r z]; destruct c; done. Qed.
Lemma attr_run_lock w0 idev acc w q : attr_run w0 idev acc w -> lock_depth q (w_hist w) = lock_depth q (w_hist w0).
Proof. intros Hrun. eapply attr_run_count_of; [exact Hrun|]. intros [c r z]; destruct c; done. Qed.

(** *** unregister *)

(** [info] names no device, or the device it is registered as. *)
Definition may_unregister w (info : Z) (i : uio_info) : Prop :=
  i_uio_dev i = 0 \/ exists d, w_heap w !! i_uio_dev i = Some (HIdev d) /\ registered w (i_uio_dev i) d /\
    d_info d = info.

Record unregistered_post w F σ info i p d w' : Prop := UnregisteredPost {
  up_inv : core_inv w' F (delete info σ);
  up_heap : w_heap w' = <[p := HIdev (upd_dinfo NULL d)]> (w_heap w);
  up_info : w_info w' = w_info w;
  up_priv : w_priv w' = w_priv w;
  up_idr : idr_of (w_hist w') = delete (d_minor d) (idr_of (w_hist w));
  up_refs : dev_refs p (w_hist w') = Z.of_nat (opens w F p);
  up_added q : dev_added q (w_hist w') = dev_added q (w_hist w) - (if p =? q then 1 else 0);
  up_irq q : irq_held q (w_hist w') = irq_held q (w_hist w) - (if (p =? q) && wants_irq i then 1 else 0);
  up_kobj q : q <> 0 -> kobj_refs q (w_hist w') = kobj_refs q (w_hist w) - attr_refs d i q }.

Lemma wp_uio_unregister_device w F σ info i :
  core_inv w F σ -> info <> 0 -> w_info w !! info = Some i -> may_unregister w info i ->
  wp (uio_unregister_device info) w (fun _ w' =>
    (i_uio_dev i = 0 -> w' = w) /\
    (i_uio_dev i <> 0 -> exists d, w_heap w !! i_uio_dev i = Some (HIdev d) /\
       unregistered_post w F σ info i (i_uio_dev i) d w')).
Proof.
  intros Hi Hnz Hinfo Hmay. unfold uio_unregister_device, NULL. rewrite (proj2 (Z.eqb_neq _ _) Hnz). ksteps.
  destruct (Z.eqb_spec (i_uio_dev i) 0) as [Hz|Hz]; [by kstep|].
  destruct Hmay as [?|(d & Hd & Hreg & Hdi)]; [done|]. set (p := i_uio_dev i) in *.
  destruct (registered_info _ _ _ _ _ Hi Hd Hreg) as (i' & _ & Hinfo' & _ & Hs).
  assert (i' = i) as -> by congruence. clear Hinfo'. ksteps.
  eapply wp_mono.
  { apply keeps_wp with (R := same_mem); [apply _|apply keeps_uio_dev_del_attributes|].
    eapply (wp_uio_dev_del_attributes _ p d i); [wlookup|wsimpl_goal; congruence|done]. }
  cbn beta. intros _ w2 [Hrun [Eheap Einfo]]. wsimpl.
  destruct (ar_state _ _ _ _ Hrun) as (d0 & i0 & d2 & i2 & E1 & E2 & E3 & E4 & _ & _ & _ & _ & _ & _ & Hk).
  rewrite heap_logged in E1. rewrite info_logged in E2. rewrite Eheap in E3. rewrite Einfo in E4.
  assert (d0 = d) as -> by congruence. assert (d2 = d) as -> by congruence.
  assert (i0 = i) as -> by congruence. assert (i2 = i) as -> by congruence. clear E1 E2 E3 E4.
  pose proof (ar_calm _ _ _ _ Hrun) as Hcalm. pose proof (ar_drv _ _ _ _ Hrun) as Hdrv.
  assert (Epriv : w_priv w2 = w_priv w) by (rewrite (c_priv _ _ Hcalm); by wsimpl_goal).
  assert (Hcalm0 : calm w w2) by (eapply calm_trans; [|exact Hcalm]; repeat calm_step).
  ksteps.
  assert (Hcommon : forall w3, calm w2 w3 -> w_heap w3 = w_heap w2 -> w_info w3 = w_info w2 -> w_drv w3 = w_drv w2 ->
    (forall l, lock_depth l (w_hist w3) = lock_depth l (w_hist w2)) ->
    (forall q, dev_added q (w_hist w3) = dev_added q (w_hist w2)) ->
    (forall q, irq_held q (w_hist w3) = irq_held q (w_hist w2) - (if (p =? q) && wants_irq i then 1 else 0)) ->
    (forall q, kobj_refs q (w_hist w3) = kobj_refs q (w_hist w2)) ->
    wp (mod_idev p (upd_dinfo 0);; do_ (MutexUnlock (InfoLock p));; do_ (WakeUpInterruptible p);;
        do_ (KillFasync p POLL_HUP);; uio_free_minor (d_minor d);; do_ (DeviceUnregister p)) w3
      (fun _ w' => (i_uio_dev i = 0 -> w' = w) /\
        (i_uio_dev i <> 0 -> exists d, w_heap w !! p = Some (HIdev d) /\ unregistered_post w F σ info i p d w'))).
  { intros w3 Hc3 Eh3 Ei3 Ed3 El3 Ea3 Eq3 Ek3.
    assert (Hd3 : w_heap w3 !! p = Some (HIdev d)) by congruence.
    unfold uio_free_minor. ksteps. split; [done|]. intros _. exists d. split; [done|].
    pose proof (inv_unregister w F σ p d Hi Hd Hreg) as Hinv. rewrite Hdi in Hinv.
    split; intros; wsimpl_goal.
    - eapply calm_inv; [exact Hinv| | |].
      + apply calm_log_both; [done|]. apply calm_logged; [done|]. apply calm_log_both; [done|].
        do 4 (apply calm_logged; [done|]). eapply calm_store_both; [exact Hd|exact Hd3|done|].
        by eapply calm_trans.
      + intros l. gsimpl. rewrite El3, (attr_run_lock _ _ _ _ _ Hrun). gsimpl. repeat case_decide; lia.
      + wsimpl_goal. by rewrite Ed3, Hdrv; wsimpl_goal.
    - by rewrite Eh3, Eheap.
    - by rewrite Ei3.
    - rewrite (c_priv _ _ Hc3). done.
    - gsimpl. by rewrite (c_idr _ _ Hc3), (c_idr _ _ Hcalm0).
    - gsimpl. rewrite (c_refs _ _ Hc3), (c_refs _ _ Hcalm0), (ci_refs _ _ _ Hi _ _ Hd), Z.eqb_refl.
      unfold reg_count. rewrite decide_True by done. lia.
    - gsimpl. rewrite Ea3, (attr_run_added _ _ _ _ _ Hrun). gsimpl. case_match; lia.
    - gsimpl. rewrite Eq3, (attr_run_irq _ _ _ _ _ Hrun). gsimpl. lia.
    - gsimpl. rewrite Ek3, Hk by done. gsimpl. cbn [minus_refs a_refs]. lia. }
  destruct (wants_irq i) eqn:Ew; kstep; apply Hcommon; try (by wsimpl_goal); try (by intros; gsimpl).
  - intros q. gsimpl. destruct (p =? q); cbn; lia.
  - intros q. rewrite andb_false_r. lia.
Qed.

(** *** register *)

(** Everything a failed registration leaves as it found it; a device that was
    initialised is left to the release callback, without a reference. *)
Record register_failed w F σ w' : Prop := RegisterFailed {
  rf_inv : core_inv w' F σ;
  rf_idr : idr_of (w_hist w') = idr_of (w_hist w);
  rf_added q : dev_added q (w_hist w') = dev_added q (w_hist w);
  rf_irq q : irq_held q (w_hist w') = irq_held q (w_hist w);
  rf_kobj q : q <> 0 -> kobj_refs q (w_hist w') = kobj_refs q (w_hist w);
  rf_heap q d : w_heap w' !! q = Some (HIdev d) ->
    (exists d0, w_heap w !! q = Some (HIdev d0)) \/ dev_refs q (w_hist w') = 0 }.

(** The counters of [w'] are those of [w], [n] devices being added at [p]. *)
Record counters w w' (p : Z) (n : Z) (k : Z -> Z) : Prop := Counters {
  ct_added q : dev_added q (w_hist w') = (if p =? q then n else 0) + dev_added q (w_hist w);
  ct_irq q : irq_held q (w_hist w') = irq_held q (w_hist w);
  ct_kobj q : q <> 0 -> kobj_refs q (w_hist w') = k q + kobj_refs q (w_hist w) }.

Section fail.
Context w F σ (p : Z) (d : uio_device) w1.
Hypothesis Hi : core_inv w F σ.
Hypothesis Hn : device_new w p d w1.

Lemma wp_err_device_create r d2 w2 :
  calm w1 w2 -> w_heap w2 !! p = Some (HIdev d2) -> d_minor d2 = d_minor d ->
  w_drv w2 = w_drv w1 -> (forall l, lock_depth l (w_hist w2) = lock_depth l (w_hist w1)) ->
  counters w w2 p 0 (fun _ => 0) ->
  wp (err_device_create p r) w2 (fun r' w' => r' = r /\ register_failed w F σ w').
Proof using Hi Hn.
  intros Hc Hd2 Hm Hdrv Hl [Ca Cq Ck]. unfold err_device_create, uio_free_minor. ksteps.
  split; [done|]. rewrite Hm.
  pose proof (inv_orphan w F σ p d w1 Hi Hn) as Hinv.
  split; intros; wsimpl_goal.
  - eapply calm_inv; [exact Hinv| | |].
    + apply calm_log_both; [done|]. apply calm_logged; [done|]. apply calm_log_both; [done|]. by apply calm_logged.
    + intros l. gsimpl. rewrite Hl. repeat case_decide; lia.
    + by wsimpl_goal.
  - gsimpl. rewrite (c_idr _ _ Hc), (dn_idr _ _ _ _ Hn). apply delete_insert_id, Hn.
  - gsimpl. rewrite Ca. case_match; lia.
  - gsimpl. apply Cq.
  - gsimpl. rewrite Ck by done. lia.
  - wsimpl. destruct (w_heap w !! q) as [o|] eqn:E.
    + left. destruct o as [dq| | |]; [by exists dq|exfalso..];
        pose proof (c_heap _ _ Hc q) as Hv; rewrite H1, (dn_heap _ _ _ _ Hn), lookup_insert_ne, E in Hv; try discriminate;
        intros ->; rewrite (dn_fresh _ _ _ _ Hn) in E; discriminate.
    + right. destruct (decide (q = p)) as [->|Hne].
      * gsimpl. rewrite (c_refs _ _ Hc), (dn_refs _ _ _ _ Hn), Z.eqb_refl.
        rewrite (ci_norefs _ _ _ Hi p); [done|]. intros d' E'. congruence.
      * pose proof (c_heap _ _ Hc q) as Hv. rewrite H1, (dn_heap _ _ _ _ Hn), lookup_insert_ne, E in Hv by done. discriminate.
Qed.

Lemma wp_err_uio_dev_add_attributes r d2 w2 :
  calm w1 w2 -> w_heap w2 !! p = Some (HIdev d2) -> d_minor d2 = d_minor d ->
  w_drv w2 = w_drv w1 -> (forall l, lock_depth l (w_hist w2) = lock_depth l (w_hist w1)) ->
  counters w w2 p 1 (fun _ => 0) ->
  wp (err_uio_dev_add_attributes p r) w2 (fun r' w' => r' = r /\ register_failed w F σ w').
Proof using Hi Hn.
  intros Hc Hd2 Hm Hdrv Hl [Ca Cq Ck]. unfold err_uio_dev_add_attributes. kstep. kstep.
  eapply wp_err_device_create; [by apply calm_logged|by wsimpl_goal|done|by wsimpl_goal|by intros; gsimpl; apply Hl|].
  split; intros; gsimpl; [rewrite Ca; case_match; lia|by rewrite Cq|by rewrite Ck].
Qed.

Lemma wp_err_request_irq r d2 i2 w2 :
  calm w1 w2 -> w_heap w2 !! p = Some (HIdev d2) -> d_minor d2 = d_minor d ->
  w_info w2 !! d_info d2 = Some i2 -> info_shape i2 ->
  w_drv w2 = w_drv w1 -> (forall l, lock_depth l (w_hist w2) = lock_depth l (w_hist w1)) ->
  counters w w2 p 1 (attr_refs d2 i2) ->
  wp (err_request_irq p r) w2 (fun r' w' => r' = r /\ register_failed w F σ w').
Proof using Hi Hn.
  intros Hc Hd2 Hm Hi2 Hs Hdrv Hl [Ca Cq Ck]. unfold err_request_irq. kstep.
  eapply wp_mono.
  { apply keeps_wp with (R := same_mem); [apply _|apply keeps_uio_dev_del_attributes|].
    by eapply (wp_uio_dev_del_attributes _ p d2 i2). }
  cbn beta. intros _ w3 [Hrun [Eheap Einfo]].
  destruct (ar_state _ _ _ _ Hrun) as (d0 & i0 & d3 & i3 & E1 & E2 & E3 & E4 & _ & _ & _ & _ & _ & _ & Hk).
  assert (d3 = d2) as -> by congruence. assert (i3 = i2) as -> by congruence.
  eapply (wp_err_uio_dev_add_attributes _ d2).
  - eapply calm_trans; [exact Hc|apply Hrun].
  - by rewrite Eheap.
  - done.
  - rewrite (ar_drv _ _ _ _ Hrun). done.
  - intros l. rewrite (attr_run_lock _ _ _ _ _ Hrun). apply Hl.
  - split; intros.
    + by rewrite (attr_run_added _ _ _ _ _ Hrun).
    + by rewrite (attr_run_irq _ _ _ _ _ Hrun).
    + rewrite Hk, Ck by done. cbn [minus_refs a_refs]. lia.
Qed.
End fail.

(** What a successful registration sets up. *)
Record register_done w F σ owner parent info i p d w' : Prop := RegisterDone {
  rd_inv : core_inv w' F (<[info := 0%nat]> σ);
  rd_new : w_heap w !! p = None;
  rd_heap : w_heap w' !! p = Some (HIdev d);
  rd_reg : registered w' p d;
  rd_fields : d_owner d = owner /\ d_info d = info /\ d_event d = 0 /\ d_parent d = parent /\
    0 <= d_minor d < UIO_MAX_DEVICES /\ d_devt d = MKDEV (g_uio_major (w_glob w)) (d_minor d);
  rd_link : exists i', w_info w' !! info = Some i' /\ i_uio_dev i' = p /\ wants_irq i' = wants_irq i;
  rd_idr : idr_of (w_hist w) !! d_minor d = None /\ idr_of (w_hist w') = <[d_minor d := p]> (idr_of (w_hist w));
  rd_added q : dev_added q (w_hist w') = (if p =? q then 1 else 0) + dev_added q (w_hist w);
  rd_irq q : irq_held q (w_hist w') = (if (p =? q) && wants_irq i then 1 else 0) + irq_held q (w_hist w);
  rd_kobj q : q <> 0 -> exists i', w_info w' !! info = Some i' /\
    kobj_refs q (w_hist w') = attr_refs d i' q + kobj_refs q (w_hist w);
  rd_dirs : dirs_listed d i (w_hist w') }.

Section register.
Context w F σ (owner parent info p : Z) (i : uio_info) (m : Z) w1.
Hypothesis Hi : core_inv w F σ.
Hypothesis Hinfo : w_info w !! info = Some (upd_uio_dev NULL i).
Hypothesis Hs : info_shape i.
Hypothesis Hun : unregistered w info.
Hypothesis Hready : drv_inv (<[info := 0%nat]> σ) w.
Let d : uio_device := UioDevice owner info m 0 0 0 (MKDEV (g_uio_major (w_glob w)) m) parent.
Hypothesis Hn : device_new w p d w1.
Hypothesis Hm : 0 <= m < UIO_MAX_DEVICES.
Hypothesis Hk1 : counters w w1 p 0 (fun _ => 0).

(** From [device_add] on. *)
Lemma wp_register_tail `{!KernelOk} w2 :
  calm w1 w2 -> w_heap w2 = w_heap w1 -> w_info w2 = w_info w1 -> w_drv w2 = w_drv w1 ->
  (forall l, lock_depth l (w_hist w2) = lock_depth l (w_hist w1)) -> counters w w2 p 1 (fun _ => 0) ->
  wp (ret ← uio_dev_add_attributes p;
      if negb (ret =? 0) then err_uio_dev_add_attributes p ret else
      mod_info info (upd_uio_dev p);;
      i ← load_info info;
      if wants_irq i then
        ret ← call (RequestThreadedIrq (i_irq i) (i_irq_flags i) (c_string (i_name i)) p);
        if negb (ret =? 0) then
          mod_info info (upd_uio_dev NULL);;
          err_request_irq p ret
        else mret 0
      else mret 0) w2 (fun r w' =>
    (r = 0 -> exists d', register_done w F σ owner parent info i p d' w') /\
    (r <> 0 -> register_failed w F σ w')).
Proof using All.
  intros Hc Eh Ei Edrv El [Ca Cq Ck].
  assert (Hd2 : w_heap w2 !! p = Some (HIdev d)) by (rewrite Eh, (dn_heap _ _ _ _ Hn); apply lookup_insert_eq).
  assert (Hi2 : w_info w2 !! info = Some (upd_uio_dev NULL i)) by (rewrite Ei, (dn_info _ _ _ _ Hn); done).
  kstep. eapply wp_mono.
  { assert (heap_live w2) by (apply (c_alive _ _ Hc); by eapply (dn_live_all w F σ)).
    apply wlp_wp; [by apply (wp_uio_dev_add_attributes w2 p d (upd_uio_dev NULL i))|
      by apply (wlp_uio_dev_add_attributes w2 p d (upd_uio_dev NULL i))]. }
  cbn beta. intros r w3 [Hrun Hdirs].
  destruct (ar_state _ _ _ _ Hrun) as (d0 & i0 & d3 & i3 & E1 & E2 & E3 & E4 & E5 & E6 & E7 & E8 & E9 & _ & Hk).
  assert (d0 = d) as -> by congruence. assert (i0 = upd_uio_dev NULL i) as -> by (cbn in E2; congruence).
  change (d_info d) with info in *. rewrite E5 in E4.
  assert (Hc3 : calm w1 w3) by (eapply calm_trans; [exact Hc|apply Hrun]).
  assert (Edrv3 : w_drv w3 = w_drv w1) by (rewrite (ar_drv _ _ _ _ Hrun); done).
  assert (El3 : forall l, lock_depth l (w_hist w3) = lock_depth l (w_hist w1)).
  { intros l. rewrite (attr_run_lock _ _ _ _ _ Hrun). apply El. }
  destruct (Z.eqb_spec r 0) as [->|Hr]; cbn [negb].
  2: { eapply wp_mono.
    { apply (wp_err_uio_dev_add_attributes w F σ p d w1 Hi Hn r d3); try done.
      - unfold d_fixed in E6. cbn in E6. cbn. congruence.
      - split; intros.
        + by rewrite (attr_run_added _ _ _ _ _ Hrun).
        + by rewrite (attr_run_irq _ _ _ _ _ Hrun).
        + rewrite Hk by done. cbn [no_acc a_refs]. rewrite Ck by done. lia. }
    cbn beta. intros r' w4 [-> Hf]. by split. }
  ksteps. change (wants_irq (upd_uio_dev p i3)) with (wants_irq i3). rewrite E9.
  change (wants_irq (upd_uio_dev NULL i)) with (wants_irq i).
  destruct (quiet_fwd_info F w2 w3 info (upd_uio_dev NULL i)) as (i4 & E10 & E11);
    [apply calm_quiet; [apply Hrun|by intros; eapply attr_run_lock]|done|].
  assert (i4 = i3) as -> by congruence.
  assert (Hdone : forall w5, calm (set_info (insert info (upd_uio_dev p i3)) w3) w5 ->
    w_heap w5 = w_heap w3 -> w_info w5 = <[info := upd_uio_dev p i3]> (w_info w3) -> w_drv w5 = w_drv w3 ->
    (forall l, lock_depth l (w_hist w5) = lock_depth l (w_hist w3)) ->
    (forall q, dev_added q (w_hist w5) = dev_added q (w_hist w3)) ->
    (forall q, irq_held q (w_hist w5) = (if (p =? q) && wants_irq i then 1 else 0) + irq_held q (w_hist w3)) ->
    (forall q, kobj_refs q (w_hist w5) = kobj_refs q (w_hist w3)) ->
    (forall dir, dir_entries dir (w_hist w5) = dir_entries dir (w_hist w3)) ->
    register_done w F σ owner parent info i p d3 w5).
  { intros w5 Hc5 Eh5 Ei5 Ed5 El5 Ea5 Eq5 Ek5 Es5.
    assert (Hc4 : calm (set_info (insert info (upd_uio_dev p (upd_uio_dev NULL i))) w1) w5).
    { eapply calm_trans; [|exact Hc5]. apply calm_uio_dev_both; [congruence|done|done]. }
    injection E6 as F1 F2 F3 F4 F5 F6.
    assert (Hidr : idr_of (w_hist w5) = idr_of (w_hist w1)) by (rewrite (c_idr _ _ Hc4); by wsimpl_goal).
    split.
    - eapply calm_inv; [|exact Hc4| |].
      + apply (inv_register w F σ p d w1 Hi Hn); try done.
      + intros l. wsimpl_goal. by rewrite El5, El3.
      + wsimpl_goal. by rewrite Ed5, Edrv3.
    - apply Hn.
    - by rewrite Eh5.
    - unfold registered. rewrite Hidr, (dn_idr _ _ _ _ Hn), F3. apply lookup_insert_eq.
    - rewrite F3. split_and!; try done; apply Hm.
    - exists (upd_uio_dev p i3). split_and!; [rewrite Ei5; apply lookup_insert_eq|done|exact E9].
    - rewrite Hidr, (dn_idr _ _ _ _ Hn), F3. split; [apply (dn_minor _ _ _ _ Hn)|done].
    - intros q. by rewrite Ea5, (attr_run_added _ _ _ _ _ Hrun), Ca.
    - intros q. by rewrite Eq5, (attr_run_irq _ _ _ _ _ Hrun), Cq.
    - intros q Hq. exists (upd_uio_dev p i3). split; [rewrite Ei5; apply lookup_insert_eq|].
      rewrite Ek5, Hk, Ck by done. cbn [Z.eqb]. change (attr_refs d3 (upd_uio_dev p i3) q) with (attr_refs d3 i3 q). lia.
    - destruct (Hdirs eq_refl) as (d4 & E12 & Hdl). assert (d4 = d3) as -> by congruence.
      eapply dirs_listed_entries; [exact Es5|exact Hdl]. }
  destruct (wants_irq i) eqn:Ew; ksteps.
  - kif Eirq.
    2: { kstep. split; [|done]. intros _. exists d3. apply Hdone; wsimpl_goal; try done; try (by intros; gsimpl).
      intros q. gsimpl. apply negb_false_iff in Eirq. autorewrite with world in Eirq. by rewrite Eirq. }
    zify_bool. ksteps. eapply wp_mono.
    { eapply (wp_err_request_irq w F σ p d w1 Hi Hn _ d3 (upd_uio_dev NULL (upd_uio_dev p i3))); wsimpl_goal; try done.
      - eapply calm_trans; [exact Hc3|]. split; intros; wsimpl_goal; try done; try (by gsimpl).
        destruct (decide (info = p0)) as [<-|]; [|by rewrite !lookup_insert_ne].
        rewrite lookup_insert_eq, E4. cbn. f_equal. unfold iview in *. cbn. injection E11 as -> -> -> Ef.
          unfold drv_fields in *. cbn. congruence.
      - by injection E6.
      - rewrite E5. apply lookup_insert_eq.
      - split; intros; gsimpl.
        + rewrite (attr_run_added _ _ _ _ _ Hrun), Ca. lia.
        + autorewrite with world in Eirq. rewrite (attr_run_irq _ _ _ _ _ Hrun), Cq, (proj2 (Z.eqb_neq _ 0) Eirq).
          rewrite andb_false_r. lia.
        + rewrite Hk, Ck by done. cbn [Z.eqb].
          change (attr_refs d3 (upd_uio_dev NULL (upd_uio_dev p i3)) q) with (attr_refs d3 i3 q). lia. }
    cbn beta. intros r' w4 [-> Hf]. by split.
  - split; [|done]. intros _. exists d3. apply Hdone; wsimpl_goal; try done.
    intros q. by rewrite andb_false_r.
Qed.
End register.

(** Lines up to the first call of [device_add], and all of it together. *)
Lemma wp_uio_register_device `{!KernelOk} w F σ owner parent info i :
  core_inv w F σ -> w_info w !! info = Some i -> info_shape i -> unregistered w info -> drv_ready info w ->
  wp (__uio_register_device owner parent info) w (fun r w' =>
    (r = 0 -> exists p d, register_done w F σ owner parent info i p d w') /\
    (r <> 0 -> register_failed w F σ w')).
Proof.
  intros Hi Hinfo Hs Hun Hready. unfold __uio_register_device.
  assert (Hsame : register_failed w F σ w).
  { split; try done. intros q d Hq. left. by eexists. }
  ksteps. kif Ereg; [by kstep|]. kstep.
  apply (wp_mono _ _ (fun bad w' => w' = w /\ (bad = false -> info <> 0))).
  { unfold register_args_bad, NULL.
    destruct (Z.eqb_spec parent 0), (Z.eqb_spec info 0); cbn [orb]; ksteps; by split. }
  cbn beta. intros bad w' [-> Hnz]. destruct bad; [by kstep|]. specialize (Hnz eq_refl). ksteps.
  set (w0 := set_info (insert info (upd_uio_dev NULL i)) w).
  assert (Hi0 : core_inv w0 F σ) by by apply inv_info_unreg.
  assert (Hinfo0 : w_info w0 !! info = Some (upd_uio_dev NULL i)) by (subst w0; wsimpl_goal; apply lookup_insert_eq).
  assert (Hun0 : unregistered w0 info) by (intros m q d; subst w0; wsimpl_goal; apply Hun).
  assert (Hready0 : drv_inv (<[info := 0%nat]> σ) w0).
  { apply (drv_inv_core _ w); [subst w0; by wsimpl_goal| |by apply drv_inv_ready; [|apply (ci_drv _ _ _ Hi)]].
    intros q. subst w0. wsimpl_goal. destruct (decide (info = q)) as [<-|]; [|by rewrite lookup_insert_ne].
    by rewrite lookup_insert_eq, Hinfo. }
  assert (Hfail : forall w', register_failed w0 F σ w' -> register_failed w F σ w').
  { intros w' [R1 R2 R3 R4 R5 R6]. by split. }
  assert (Hdone : forall p d w', register_done w0 F σ owner parent info i p d w' ->
    register_done w F σ owner parent info i p d w').
  { intros p d w' [R1 R2 R3 R4 R5 R6 R7 R8 R9 R10 R11]. by split. }
  assert (Hkz : kernel (w_hist w) (Kzalloc OUioDevice) = kernel (w_hist w0) (Kzalloc OUioDevice)) by (subst w0; by wsimpl_goal).
  fold w0. unfold NULL. kif Enull.
  { kstep. split; [done|]. intros _. apply Hfail. zify_bool.
    split; intros; wsimpl_goal; try (by gsimpl).
    - eapply calm_inv; [exact Hi0| | |by wsimpl_goal]; [by apply calm_logged, calm_refl|by intros; gsimpl].
    - left. eexists. by wsimpl. }
  zify_bool.
  destruct (alloc_none w0 (Kzalloc OUioDevice) (ci_live _ _ _ Hi0) I Enull) as (Hp0 & Hpn & Hpl).
  set (p := kernel (w_hist w0) (Kzalloc OUioDevice)) in *. clear Hkz.
  ksteps. unfold uio_get_minor. ksteps.
  set (h0 := w_hist _). set (m := kernel h0 (IdrAlloc p 0 UIO_MAX_DEVICES)).
  assert (Hidr0 : idr_of h0 = idr_of (w_hist w0)) by (subst h0; by gsimpl).
  destruct (idr_alloc_spec h0 p 0 UIO_MAX_DEVICES) as [[Hm Hmn]|Hm]; fold m in Hm.
  2: { rewrite (proj1 (Z.leb_gt 0 m) ltac:(lia)) || rewrite Z.geb_leb, (proj2 (Z.leb_gt 0 m)) by lia.
       assert (Hret : forall (k : K D Z) r w2, r <> 0 -> w2 = logged (IdrAlloc p 0 UIO_MAX_DEVICES) (logged (MutexLock MinorLock)
           (logged (InitWaitqueueHead p) (logged (MutexInit (InfoLock p))
             (set_heap (insert p (HIdev (UioDevice owner info 0 0 0 0 0 0))) (logged (Kzalloc OUioDevice) w0))))) ->
         wp (do_ (MutexUnlock MinorLock);; mret r) w2 (fun ret w3 =>
           wp (if negb (ret =? 0) then kfree p;; mret ret else k) w3 (fun r w' =>
             (r = 0 -> exists p d, register_done w F σ owner parent info i p d w') /\
             (r <> 0 -> register_failed w F σ w')))).
       { intros k r w2 Hr ->. ksteps. rewrite (proj2 (Z.eqb_neq _ _) Hr). cbn [negb]. ksteps.
         eapply wp_kfree; [lia|wlookup|]. ksteps. split; [done|]. intros _. apply Hfail.
         assert (Hh : delete p (<[p := HIdev (UioDevice owner info 0 0 0 0 0 0)]> (w_heap w0)) = w_heap w0)
           by by apply delete_insert_id.
         split; intros; wsimpl_goal; try (by gsimpl).
         - apply (inv_restore w0); [exact Hi0|..]; wsimpl_goal; try done; try (by gall).
           + gall. fold p. rewrite (proj2 (Z.eqb_neq _ _) Enull). intros x Hx. apply elem_of_difference.
             split; [by apply elem_of_union_r|]. intros ->%elem_of_singleton.
             destruct (alloc_fresh (w_hist w0) (Kzalloc OUioDevice) I) as [?|[_ Hfr]]; done.
           + gall. fold h0 m. by rewrite (proj2 (Z.ltb_lt m 0)) by lia.
           + gall. repeat case_decide; lia.
           + apply (drv_inv_keep _ w0); [by wsimpl_goal..|apply (ci_drv _ _ _ Hi0)].
         - gsimpl. fold h0 m. by rewrite (proj2 (Z.ltb_lt m 0)) by lia.
         - left. exists d. wsimpl. by rewrite <- Hh. }
       destruct (Z.eqb_spec m (- ENOSPC)) as [Em|Em]; kstep; apply Hret; [done|reflexivity|lia|reflexivity]. }
  fold m in Hmn. rewrite Hidr0 in Hmn. rewrite (proj2 (Z.geb_le m 0)) by lia. ksteps. kred. ksteps.
  set (d := UioDevice owner info m 0 0 0 (MKDEV (g_uio_major (w_glob w0)) m) parent).
  match goal with |- wp _ (logged (DevSetName _ _) ?W) _ => set (w1 := W) end.
  assert (Hh1 : w_heap w1 = <[p := HIdev d]> (w_heap w0)).
  { subst w1. wsimpl_goal. by rewrite !insert_insert_eq. }
  assert (Hcore : live (w_hist w1) = {[p]} ∪ live (w_hist w0) /\ idr_of (w_hist w1) = <[m := p]> (idr_of (w_hist w0)) /\
    drvdata_of (w_hist w1) = <[p := p]> (drvdata_of (w_hist w0))).
  { subst w1. split_and!; gsimpl.
    - fold p. by rewrite (proj2 (Z.eqb_neq _ _) Enull).
    - fold h0 m. by rewrite (proj2 (Z.ltb_ge m 0)) by lia.
    - done. }
  destruct Hcore as (Hlive1 & Hidr1 & Hdata1).
  assert (Hn : device_new w0 p d w1).
  { split; try done; subst w1; wsimpl_goal; try done; intros; gsimpl; try done; repeat case_decide; try lia. }
  assert (Hk1 : counters w0 w1 p 0 (fun _ => 0)).
  { subst w1. split; intros; gsimpl; try done. case_match; lia. }
  clearbody w1.
  assert (Hd1 : w_heap w1 !! p = Some (HIdev d)) by (rewrite Hh1; apply lookup_insert_eq).
  kif Ename.
  { zify_bool. eapply wp_mono.
    { eapply (wp_err_device_create w0 F σ p d w1 Hi0 Hn _ d); wsimpl_goal; try done; try (by intros; gsimpl).
      destruct Hk1 as [Ka Kq Kk]. split; intros; gsimpl; [by rewrite Ka|by rewrite Kq|by rewrite Kk]. }
    cbn beta. intros r w' [-> Hf]. split; [done|]. intros _. by apply Hfail. }
  ksteps. kif Eadd.
  { zify_bool. eapply wp_mono.
    { eapply (wp_err_device_create w0 F σ p d w1 Hi0 Hn _ d); wsimpl_goal; try done; try (by intros; gsimpl).
      destruct Hk1 as [Ka Kq Kk]. split; intros; gsimpl; [|by rewrite Kq|by rewrite Kk].
      rewrite (proj2 (Z.eqb_neq _ 0) Eadd), andb_false_r. rewrite Ka. lia. }
    cbn beta. intros r w' [-> Hf]. split; [done|]. intros _. by apply Hfail. }
  eapply wp_mono.
  { apply (wp_register_tail w0 F σ owner parent info p i m w1); try done; wsimpl_goal; try done; try (by intros; gsimpl).
    destruct Hk1 as [Ka Kq Kk]. split; intros; gsimpl; [|by rewrite Kq|by rewrite Kk].
    zify_bool. rewrite Eadd, andb_true_r, Ka. case_match; lia. }
  cbn beta. intros r w' [Hok Hbad]. split; [|by auto].
  intros Hr. destruct (Hok Hr) as (d' & Hd'). exists p, d'. by apply Hdone.
Qed.
End reg.
