(* ===== verification/UioSystem.v ===== *)
(** * The UIO core as a system

    The operations the kernel and user space can start, each guarded by what
    its caller guarantees ([admissible]), and the theorem that a system that
    starts empty never faults and keeps the invariant, whatever the order of
    the operations and whatever the kernel answers within [KernelOk]. *)

From S2P Require Import Prelude Kernel UioTypes UioAttr UioDevice UioFile UioMmap UioTables KLogic UioInv UioSpec UioOpen UioAttrSpec UioReg.

Section system.
Context `{HK : Kernel, HKok : !KernelOk, HU : Uapi, HUok : !UapiOk} {D : Type} `{HD : !UioDriver D, HDok : !UioDriverOk D}.
Set Default Proof Using "All".
Implicit Types (w : world D) (F : gset Z) (σ : gmap Z nat).

(** ** Operations *)

Inductive uop :=
| OpOpen (minor inode f : Z)
| OpRelease (inode f : Z)
| OpPoll (f : Z)
| OpReadPass (f count : Z) (nonblock : bool)
| OpWrite (f count : Z)
| OpFasync (fd f on : Z)
| OpMmap (f : Z) (v : vma)
| OpFault (f : Z) (v : vma) (pgoff : Z)
| OpNotify (info : Z)
| OpIrqHandler (irq dev : Z)
| OpIrqThread (irq dev : Z)
| OpRegister (owner parent info : Z)
| OpUnregister (info : Z)
| OpDeviceRelease (dev : Z)
| OpMapRelease (kobj : Z)
| OpPortioRelease (kobj : Z)
| OpShow (attr : nat) (dev : Z)
| OpMapShow (attr : nat) (kobj : Z)
| OpPortioShow (attr : nat) (kobj : Z).

(** One pass of the loop of [uio_read] for an open file. *)
Definition read_pass (f count : Z) (nonblock : bool) : K D read_exit :=
  listener ← load_priv f;
  l ← load_lsn listener;
  read_iter listener (l_dev l) count nonblock.

(** The operation, through the table by which the kernel finds it, and the set of open files
    after it.  A fault in a mapping without a handler does not reach the core. *)
Definition do_op (op : uop) (F : gset Z) : K D (gset Z) :=
  match op with
  | OpOpen minor inode f => r ← fop_open uio_fops minor inode f; mret (if r =? 0 then {[f]} ∪ F else F)
  | OpRelease inode f => _ ← fop_release uio_fops inode f; mret (F ∖ {[f]})
  | OpPoll f => _ ← fop_poll uio_fops f; mret F
  | OpReadPass f count nb => _ ← read_pass f count nb; mret F
  | OpWrite f count => _ ← fop_write uio_fops f count; mret F
  | OpFasync fd f on => _ ← fop_fasync uio_fops fd f on; mret F
  | OpMmap f v => _ ← fop_mmap uio_fops f v; mret F
  | OpFault _ v pgoff => match vm_fault (vm_ops v) with Some fault => _ ← fault v pgoff; mret F | None => mret F end
  | OpNotify info => _ ← uio_event_notify info; mret F
  | OpIrqHandler irq dev => _ ← uio_interrupt_handler irq dev; mret F
  | OpIrqThread irq dev => _ ← uio_interrupt_thread irq dev; mret F
  | OpRegister owner parent info => _ ← __uio_register_device owner parent info; mret F
  | OpUnregister info => _ ← uio_unregister_device info; mret F
  | OpDeviceRelease dev => _ ← uio_device_release dev; mret F
  | OpMapRelease kobj => _ ← kt_release map_attr_type kobj; mret F
  | OpPortioRelease kobj => _ ← kt_release portio_attr_type kobj; mret F
  | OpShow n dev =>
      match class_dev_groups uio_class !! n with
      | Some (_, show) => show dev ≫= (fun _ => mret F)
      | None => mret F
      end
  | OpMapShow n kobj =>
      match kt_groups map_attr_type !! n with Some entry => kt_show map_attr_type kobj entry ≫= (fun _ => mret F) | None => mret F end
  | OpPortioShow n kobj =>
      match kt_groups portio_attr_type !! n with Some entry => kt_show portio_attr_type kobj entry ≫= (fun _ => mret F) | None => mret F end
  end.

(** What the caller of an operation guarantees: system calls name files that
    are open (the VFS), callbacks come for objects that exist (the driver
    core), a driver registers an info once. *)
Definition admissible (op : uop) w F : Prop :=
  match op with
  | OpOpen _ _ f => (f ∉ F) /\ (size F <= max_opens)%nat
  | OpRelease _ f | OpPoll f | OpReadPass f _ _ | OpWrite f _ | OpFasync _ f _ => f ∈ F
  | OpMmap f v => (f ∈ F) /\ 0 <= vm_pgoff v
  | OpFault f v _ => (f ∈ F) /\ dev_of w f = Some (vm_private_data v) /\ 0 <= vm_pgoff v
  | OpNotify info => exists i d, w_info w !! info = Some i /\ w_heap w !! i_uio_dev i = Some (HIdev d)
  | OpIrqHandler _ dev => exists d i, w_heap w !! dev = Some (HIdev d) /\ registered w dev d /\
      w_info w !! d_info d = Some i /\ wants_irq i = true
  | OpIrqThread _ dev => exists d, w_heap w !! dev = Some (HIdev d) /\ registered w dev d
  | OpRegister _ _ info => unregistered w info /\ drv_ready info w /\
      exists i, w_info w !! info = Some i /\ info_shape i
  | OpUnregister info => info <> 0 /\ exists i, w_info w !! info = Some i /\ may_unregister w info i
  | OpDeviceRelease dev => dev_refs dev (w_hist w) = 0 /\ exists d, w_heap w !! dev = Some (HIdev d)
  | OpMapRelease kobj => exists m, w_heap w !! kobj = Some (HMap m)
  | OpPortioRelease kobj => exists q, w_heap w !! kobj = Some (HPortio q)
  | OpShow _ dev => exists d, w_heap w !! dev = Some (HIdev d) /\ (d_info d <> 0 -> registered w dev d)
  | OpMapShow _ kobj => exists m i x, w_heap w !! kobj = Some (HMap m) /\
      w_info w !! (map_mem m).1 = Some i /\ i_mem i !! (map_mem m).2 = Some x
  | OpPortioShow _ kobj => exists q i x, w_heap w !! kobj = Some (HPortio q) /\
      w_info w !! (portio_port q).1 = Some i /\ i_port i !! (portio_port q).2 = Some x
  end.

(** ** The remaining operations *)

Lemma wp_uio_device_release w F σ p d :
  core_inv w F σ -> w_heap w !! p = Some (HIdev d) -> dev_refs p (w_hist w) = 0 ->
  wp (uio_device_release p) w (fun _ w' => core_inv w' F σ /\ w_heap w' = delete p (w_heap w)).
Proof.
  intros Hi Hd Hz. unfold uio_device_release. ksteps.
  rewrite drvdata_spec, (ci_drvdata _ _ _ Hi _ _ Hd). cbn [default from_option].
  destruct (ci_live _ _ _ Hi _ _ Hd) as [Hp _].
  eapply wp_kfree; [change (id p) with p; lia|wlookup|]. split; [|by wsimpl_goal].
  assert (Hi2 : core_inv (logged (DevGetDrvdata p) w) F σ).
  { apply (inv_quiet_drv w); [done| |by wsimpl_goal]. quiet_tac. }
  eapply inv_device_release; [exact Hi2|wlookup|by gsimpl].
Qed.

Ltac finish_quiet w Hi := apply (inv_quiet_drv w); [exact Hi|quiet_tac|by wsimpl_goal].

Lemma wp_release_free w F σ kobj o :
  core_inv w F σ -> w_heap w !! kobj = Some o -> hview (Some o) = None ->
  wp (kfree kobj) w (fun _ w' => core_inv w' F σ).
Proof.
  intros Hi Ho Hv. destruct (ci_live _ _ _ Hi _ _ Ho) as [Hp _].
  eapply wp_kfree; [lia|exact Ho|]. apply (inv_quiet_drv w); [exact Hi| |by wsimpl_goal].
  apply calm_quiet; [|locks_tac]. eapply calm_free; [exact Ho|exact Hv|apply calm_refl].
Qed.

Lemma wp_show w F σ n dev d nm show :
  core_inv w F σ -> w_heap w !! dev = Some (HIdev d) -> (d_info d <> 0 -> registered w dev d) ->
  uio_attrs !! n = Some (nm, show) -> wp (show dev) w (fun _ w' => core_inv w' F σ).
Proof.
  intros Hi Hd Hr Hn.
  assert (Hinfo : d_info d <> 0 -> exists i, w_info w !! d_info d = Some i).
  { intros Hx. destruct (registered_info _ _ _ _ _ Hi Hd (Hr Hx)) as (i & _ & ? & _). eauto. }
  assert (Hdata : kernel (w_hist w) (DevGetDrvdata dev) = dev).
  { by rewrite drvdata_spec, (ci_drvdata _ _ _ Hi _ _ Hd). }
  destruct n as [|[|[|n]]]; simpl in Hn; try discriminate; injection Hn as <- <-;
    unfold name_show, version_show, event_show; ksteps; rewrite Hdata; ksteps;
    unfold NULL; try (destruct (Z.eqb_spec (d_info d) 0) as [Hz|Hz]; [|destruct (Hinfo Hz) as [i Hii]]; ksteps).
  all: finish_quiet w Hi.
Qed.

(** The files of a region and of a port, which are there as long as the info is. *)
Lemma wp_map_type_show w F σ kobj m i x entry :
  core_inv w F σ -> w_heap w !! kobj = Some (HMap m) -> w_info w !! (map_mem m).1 = Some i -> i_mem i !! (map_mem m).2 = Some x ->
  entry ∈ map_attrs -> wp (map_type_show kobj entry) w (fun _ w' => core_inv w' F σ).
Proof.
  intros Hi Hm Hinfo Hx He. unfold map_attrs in He. rewrite !elem_of_cons, elem_of_nil in He.
  destruct He as [->|[->|[->|[->|[]]]]]; unfold map_type_show; cbn [me_show name_attribute addr_attribute size_attribute offset_attribute];
    unfold map_name_show, map_addr_show, map_size_show, map_offset_show, load_mem, mod_mem; ksteps; [|exact Hi..].
  destruct (m_name x) eqn:En; [ksteps; exact Hi|]. unfold load_mem, mod_info. ksteps.
  eapply (wp_get_some _ _ _ (upd_mname (Some EmptyString) x)); [apply list_lookup_insert_eq; by eapply lookup_lt_Some|].
  kstep. finish_quiet w Hi.
Qed.

Lemma wp_portio_type_show w F σ kobj q i x entry :
  core_inv w F σ -> w_heap w !! kobj = Some (HPortio q) -> w_info w !! (portio_port q).1 = Some i -> i_port i !! (portio_port q).2 = Some x ->
  entry ∈ portio_attrs -> wp (portio_type_show kobj entry) w (fun _ w' => core_inv w' F σ).
Proof.
  intros Hi Hm Hinfo Hx He. unfold portio_attrs in He. rewrite !elem_of_cons, elem_of_nil in He.
  unfold portio_type_show, load_portio. kstep. eapply (wp_get_some _ _ _ q); [by rewrite Hm|].
  destruct He as [->|[->|[->|[->|[]]]]]; cbn [pe_show portio_name_attribute portio_start_attribute portio_size_attribute portio_porttype_attribute];
    unfold portio_name_show, portio_start_show, portio_size_show, portio_porttype_show, load_port, mod_port; ksteps; try exact Hi.
  - destruct (p_name x) eqn:En; [ksteps; exact Hi|]. unfold load_port, mod_info. ksteps.
    eapply (wp_get_some _ _ _ (upd_pname (Some EmptyString) x)); [apply list_lookup_insert_eq; by eapply lookup_lt_Some|].
    kstep. finish_quiet w Hi.
  - destruct ((p_porttype x <? 0) || (p_porttype x >? UIO_PORT_OTHER)) eqn:E; ksteps; [exact Hi|].
    apply orb_false_iff in E as [E1 E2]. apply Z.ltb_ge in E1. rewrite Z.gtb_ltb in E2. apply Z.ltb_ge in E2. pose proof port_other_ok.
    destruct (lookup_lt_is_Some_2 porttypes (Z.to_nat (p_porttype x))) as [t Ht]; [cbn; lia|].
    eapply (wp_get_some _ _ _ t); [exact Ht|]. kstep. exact Hi.
Qed.

Lemma wp_uio_interrupt_handler w F σ irq dev d i :
  core_inv w F σ -> w_heap w !! dev = Some (HIdev d) -> registered w dev d ->
  w_info w !! d_info d = Some i -> wants_irq i = true ->
  wp (uio_interrupt_handler irq dev) w (fun r w' => core_inv w' F σ /\ r <> IRQ_HANDLED).
Proof.
  intros Hi Hd Hr Hinfo Hw. unfold uio_interrupt_handler. ksteps.
  unfold wants_irq in Hw. zify_bool.
  eapply wp_mono.
  { eapply (drv_handler_ok σ _ _ i); [exact Hinfo|by apply (ci_opens _ _ _ Hi)|done|done|apply (ci_drv _ _ _ Hi)]. }
  cbn beta. intros r w2 [Hfr Hdrv]. ksteps. split.
  - eapply (inv_quiet_frame w); [exact Hi|apply calm_refl|done|exact Hfr|exact Hdrv| |done|done|].
    + by apply calm_of_frame.
    + intros l. by apply frame_lock_depth.
  - case_decide; congruence.
Qed.

Lemma size_opens w F p : (opens w F p <= size F)%nat.
Proof. unfold opens, count_files. apply subseteq_size. intros f. rewrite elem_of_filter. tauto. Qed.

(** *** Every admissible operation is safe *)

Lemma do_op_ok op w F σ :
  core_inv w F σ -> admissible op w F ->
  wp (do_op op F) w (fun F' w' => exists σ', core_inv w' F' σ').
Proof.
  intros Hi Ha. destruct op; cbn [do_op admissible uio_fops fop_open fop_release fop_poll fop_write fop_fasync fop_mmap
    map_attr_type portio_attr_type kt_release kt_show kt_groups uio_class class_dev_groups] in *.
  - destruct Ha as [Hf Hs]. kstep. eapply wp_mono.
    { apply (wp_uio_open w F σ); [done|done|]. intros p. pose proof (size_opens w F p). lia. }
    cbn beta. intros r w' [Hok Hbad]. kstep. destruct (Z.eqb_spec r 0) as [Hr|Hr].
    + destruct (Hok Hr) as (p & σ' & _ & Hi' & _). eauto.
    + destruct (Hbad Hr) as (Hi' & _). eauto.
  - kstep. eapply wp_mono; [by apply (wp_uio_release w F σ)|]. cbn beta.
    intros r w' (l & p & _ & _ & _ & _ & (σ' & Hi') & _). kstep. eauto.
  - kstep. eapply wp_mono; [by apply (wp_uio_poll w F σ)|]. cbn beta. intros r w' [Hi' _]. kstep. eauto.
  - unfold read_pass. destruct (open_file _ _ _ _ Hi Ha) as (l & lst & d & Hp & Hl & _). ksteps.
    eapply wp_mono; [by apply (wp_read_iter w F σ f)|]. cbn beta. intros r w' [Hi' _]. kstep. eauto.
  - kstep. eapply wp_mono; [by apply (wp_uio_write w F σ)|]. cbn beta. intros r w' [Hi' _]. kstep. eauto.
  - kstep. eapply wp_mono; [by apply (wp_uio_fasync w F σ)|]. cbn beta. intros r w' [Hi' _]. kstep. eauto.
  - destruct Ha as [Hf Hv]. kstep. eapply wp_mono; [by apply (wp_uio_mmap w F σ)|].
    cbn beta. intros r w' [Hi' _]. kstep. eauto.
  - destruct Ha as (Hf & Hdev & Hv). destruct (open_file _ _ _ _ Hi Hf) as (l & lst & d & _ & _ & Hd & Hdev' & Hr).
    rewrite Hdev in Hdev'. injection Hdev' as E. rewrite <- E in Hd, Hr.
    destruct (vm_ops v); cbn [vm_fault]; [kstep; eauto| |kstep; eauto].
    kstep. eapply wp_mono; [exact (wp_uio_vma_fault w F σ v pgoff _ d Hi eq_refl Hd Hr Hv)|]. cbn beta. intros r w' [Hi' _]. kstep. eauto.
  - destruct Ha as (i & d & Hinfo & Hd). kstep.
    eapply wp_mono; [by eapply (wp_uio_event_notify w F σ)|]. cbn beta. intros r w' [Hi' _]. kstep. eauto.
  - destruct Ha as (d & i & Hd & Hr & Hinfo & Hw). kstep.
    eapply wp_mono; [by eapply (wp_uio_interrupt_handler w F σ)|]. cbn beta. intros r w' [Hi' _]. kstep. eauto.
  - destruct Ha as (d & Hd & Hr). destruct (registered_info _ _ _ _ _ Hi Hd Hr) as (i & _ & Hinfo & Hu & _).
    unfold uio_interrupt_thread. ksteps.
    eapply wp_mono; [by eapply (wp_uio_event_notify w F σ)|]. cbn beta. intros r w' [Hi' _]. ksteps. eauto.
  - destruct Ha as (Hun & Hready & i & Hinfo & Hs). kstep.
    eapply wp_mono; [by apply (wp_uio_register_device w F σ _ _ _ i)|]. cbn beta. intros r w' [Hok Hbad]. kstep.
    destruct (decide (r = 0)) as [Hr|Hr].
    + destruct (Hok Hr) as (p & d & Hd). exists (<[info := 0%nat]> σ). apply Hd.
    + exists σ. by apply Hbad.
  - destruct Ha as (Hnz & i & Hinfo & Hm). kstep.
    eapply wp_mono; [by apply (wp_uio_unregister_device w F σ _ i)|]. cbn beta. intros r w' [Hz Hok]. kstep.
    destruct (decide (i_uio_dev i = 0)) as [E|E].
    + rewrite (Hz E). eauto.
    + destruct (Hok E) as (d & _ & Hu). exists (delete info σ). apply Hu.
  - destruct Ha as (Hz & d & Hd). kstep. eapply wp_mono; [by eapply (wp_uio_device_release w F σ)|].
    cbn beta. intros r w' [Hi' _]. kstep. eauto.
  - destruct Ha as (m & Hm). unfold map_release. ksteps.
    eapply wp_mono; [by eapply (wp_release_free w F σ)|]. cbn beta. intros r w' Hi'. kstep. eauto.
  - destruct Ha as (q & Hq). unfold portio_release, load_portio. kstep. kstep.
    eapply (wp_get_some _ _ _ q); [by rewrite Hq|].
    eapply wp_mono; [by eapply (wp_release_free w F σ)|]. cbn beta. intros r w' Hi'. kstep. eauto.
  - destruct Ha as (d & Hd & Hr). destruct (uio_attrs !! attr) as [[nm show]|] eqn:E; [|kstep; eauto].
    kstep. eapply wp_mono; [by eapply (wp_show w F σ)|]. cbn beta. intros r w' Hi'. kstep. eauto.
  - destruct Ha as (m & i & x & Hm & Hinfo & Hx). destruct (map_attrs !! attr) as [e|] eqn:E; [|kstep; eauto].
    kstep. eapply wp_mono; [eapply (wp_map_type_show w F σ); [done..|by eapply list_elem_of_lookup_2]|]. cbn beta. intros r w' Hi'. kstep. eauto.
  - destruct Ha as (q & i & x & Hq & Hinfo & Hx). destruct (portio_attrs !! attr) as [e|] eqn:E; [|kstep; eauto].
    kstep. eapply wp_mono; [eapply (wp_portio_type_show w F σ); [done..|by eapply list_elem_of_lookup_2]|]. cbn beta. intros r w' Hi'. kstep. eauto.
Qed.

(** ** Sequences of operations *)

Fixpoint run_ops (ops : list uop) (F : gset Z) : K D (gset Z) :=
  match ops with
  | [] => mret F
  | op :: ops' => F' ← do_op op F; run_ops ops' F'
  end.

(** Each operation is admissible in the state it starts from. *)
Fixpoint admissible_run (ops : list uop) (F : gset Z) w : Prop :=
  match ops with
  | [] => True
  | op :: ops' => admissible op w F /\
      forall F' w', do_op op F w = Some (F', w') -> admissible_run ops' F' w'
  end.

Lemma run_ops_ok ops : forall F w σ, core_inv w F σ -> admissible_run ops F w ->
  wp (run_ops ops F) w (fun F' w' => exists σ', core_inv w' F' σ').
Proof.
  induction ops as [|op ops IH]; intros F w σ Hi Ha; cbn [run_ops].
  - kstep. eauto.
  - destruct Ha as [Hop Hrest]. kstep. destruct (do_op_ok op w F σ Hi Hop) as (F' & w' & Hrun & σ' & Hi').
    exists F', w'. split; [exact Hrun|]. by eapply IH; [|apply Hrest].
Qed.

(** The state at load time: no device, no open file, any infos; [g] says whether
    [uio_init] has run. *)
Definition initial_world (g : uio_globals) (infos : gmap Z uio_info) (s : D) : world D :=
  World ∅ infos ∅ g s [].

Lemma initial_inv g infos s : drv_inv ∅ (initial_world g infos s) -> core_inv (initial_world g infos s) ∅ ∅.
Proof.
  intros Hd. split; try done; intros p d; cbn; by rewrite lookup_empty.
Qed.
End system.
