(* ===== verification/ModuleSpec.v ===== *)
(** * Loading and unloading the UIO core

    What [uio_init] acquires and [uio_exit] gives back, and what every operation in
    between leaves alone: the character devices, the class, the globals, and the
    set of slab addresses that are allocated without being an object of the heap. *)

From S2P Require Import Prelude Kernel UioTypes UioAttr UioDevice UioFile UioMmap UioTables KLogic UioInv UioSpec UioOpen UioAttrSpec UioReg UioSystem.

(** ** Counters of the registrations *)

(** Regions of device numbers that start at [dev], character devices added, references
    on the character device at [p], registrations of the class. *)
Definition region_delta (dev : Z) (e : event) : Z :=
  match ev_call e with
  | AllocChrdevRegion _ _ => if (ev_ret e =? 0) && (out_word (ev_out e) 0 =? dev) then 1 else 0
  | UnregisterChrdevRegion d _ => if d =? dev then -1 else 0
  | _ => 0
  end.
Definition region_held (dev : Z) : hist -> Z := count_of (region_delta dev).

Definition cdev_delta (p : Z) (e : event) : Z :=
  match ev_call e with
  | CdevAdd q _ _ => if (q =? p) && (ev_ret e =? 0) then 1 else 0
  | CdevDel q => if q =? p then -1 else 0
  | _ => 0
  end.
Definition cdev_added (p : Z) : hist -> Z := count_of (cdev_delta p).

Definition cdev_ref_delta (p : Z) (e : event) : Z :=
  match ev_call e with
  | CdevAlloc => if ev_ret e =? p then 1 else 0
  | KobjectPut q | CdevDel q => if q =? p then -1 else 0
  | _ => 0
  end.
Definition cdev_refs (p : Z) : hist -> Z := count_of (cdev_ref_delta p).

Definition class_delta (e : event) : Z :=
  match ev_call e with
  | ClassRegister => if ev_ret e =? 0 then 1 else 0
  | ClassUnregister => -1
  | _ => 0
  end.
Definition class_count : hist -> Z := count_of class_delta.

(** The calls of [uio_init] and [uio_exit]. *)
Definition module_call (c : kcall) : bool :=
  match c with
  | AllocChrdevRegion _ _ | UnregisterChrdevRegion _ _ | CdevAlloc | CdevSetOps _ | CdevAdd _ _ _ | CdevDel _
  | KobjectSetName _ _ | ClassRegister | ClassUnregister | IdrDestroy => true
  | _ => false
  end.

(** What [alloc_chrdev_region] documents: on success it stores a first number with the
    minor asked for. *)
Class ChrdevOk `{Kernel, Uapi} := {
  alloc_region_ok h base count : 0 <= base < 2 ^ MINORBITS -> kernel h (AllocChrdevRegion base count) = 0 ->
    exists dev o, kernel_out h (AllocChrdevRegion base count) = dev :: o /\
      Z.land dev (Z.ones MINORBITS) = base }.

Section counters.
Context `{Kernel} {D : Type}.
Implicit Types w : world D.

Lemma region_logged dev c w :
  region_held dev (w_hist (logged c w)) =
  (match c with
   | AllocChrdevRegion _ _ =>
       if (kernel (w_hist w) c =? 0) && (out_word (kernel_out (w_hist w) c) 0 =? dev) then 1 else 0
   | UnregisterChrdevRegion d _ => if d =? dev then -1 else 0
   | _ => 0
   end) + region_held dev (w_hist w).
Proof. unfold region_held. rewrite count_logged. by destruct c. Qed.

Lemma cdev_logged p c w :
  cdev_added p (w_hist (logged c w)) =
  (match c with
   | CdevAdd q _ _ => if (q =? p) && (kernel (w_hist w) c =? 0) then 1 else 0
   | CdevDel q => if q =? p then -1 else 0
   | _ => 0
   end) + cdev_added p (w_hist w).
Proof. unfold cdev_added. rewrite count_logged. by destruct c. Qed.

Lemma cdev_refs_logged p c w :
  cdev_refs p (w_hist (logged c w)) =
  (match c with
   | CdevAlloc => if kernel (w_hist w) c =? p then 1 else 0
   | KobjectPut q | CdevDel q => if q =? p then -1 else 0
   | _ => 0
   end) + cdev_refs p (w_hist w).
Proof. unfold cdev_refs. rewrite count_logged. by destruct c. Qed.

Lemma class_logged c w :
  class_count (w_hist (logged c w)) =
  (match c with
   | ClassRegister => if kernel (w_hist w) c =? 0 then 1 else 0
   | ClassUnregister => -1
   | _ => 0
   end) + class_count (w_hist w).
Proof. unfold class_count. rewrite count_logged. by destruct c. Qed.

(** A stretch of history without these calls. *)
Lemma module_counters v h :
  Forall (fun e => module_call (ev_call e) = false) v ->
  (forall dev, region_held dev (v ++ h) = region_held dev h) /\
  (forall p, cdev_added p (v ++ h) = cdev_added p h) /\ class_count (v ++ h) = class_count h.
Proof.
  intros Hv. unfold region_held, cdev_added, class_count. split_and!; intros;
    rewrite count_of_app, count_of_zero; try lia; (eapply Forall_impl; [exact Hv|]);
    intros [c r o] Hc; destruct c; done.
Qed.
End counters.

#[export] Hint Rewrite @region_logged @cdev_logged @cdev_refs_logged @class_logged : ghost.

(** ** What an operation leaves alone *)

(** Allocated addresses at which the heap has no object. *)
Definition leaked {D} (w : world D) : gset Z := live (w_hist w) ∖ dom (w_heap w).

Record session_step {D} (w w' : world D) : Prop := SessionStep {
  ss_leak : leaked w' ⊆ leaked w;
  ss_glob : w_glob w' = w_glob w;
  ss_hist : exists v, w_hist w' = v ++ w_hist w /\ Forall (fun e => module_call (ev_call e) = false) v }.

(** The driver's callbacks leave the core's memory alone, whatever they are called for. *)
Class UioDriverFrame `{Kernel} (D : Type) `{!UioDriver D} := {
  frame_open fn info inode : keeps core_frame (drv_open fn info inode);
  frame_release fn info inode : keeps core_frame (drv_release fn info inode);
  frame_irqcontrol fn info s : keeps core_frame (drv_irqcontrol fn info s);
  frame_mmap fn info v : keeps core_frame (drv_mmap fn info v);
  frame_handler fn irq info : keeps core_frame (drv_handler fn irq info) }.

Section session.
Context `{HK : Kernel} {D : Type}.
Set Default Proof Using "All".
Implicit Types w : world D.

#[export] Instance session_preorder : PreOrder (@session_step D).
Proof.
  split; [intros w; split; [done|done|by exists []]|].
  intros w1 w2 w3 [A1 A2 (v & A3 & A4)] [B1 B2 (u & B3 & B4)].
  split; [set_solver|congruence|]. exists (u ++ v). rewrite B3, A3, app_assoc. split; [done|]. by apply Forall_app.
Qed.

(** A step that makes no call and keeps every object. *)
Lemma session_store w w' :
  w_hist w' = w_hist w -> w_glob w' = w_glob w -> dom (w_heap w) ⊆ dom (w_heap w') -> session_step w w'.
Proof.
  intros Eh Eg Ed. split; [unfold leaked; rewrite Eh; set_solver|done|]. by exists [].
Qed.

(** A call that allocates nothing. *)
Definition quiet_call (c : kcall) : bool :=
  negb (module_call c) && match c with Kzalloc _ | Kmalloc _ | DevmKzalloc _ => false | _ => true end.

Lemma session_logged c w : quiet_call c = true -> session_step w (logged c w).
Proof.
  intros Hc. split; [|by wsimpl_goal|eexists [_]; split; [by wsimpl_goal|constructor; [by destruct c|done]]].
  unfold leaked. gsimpl. destruct c; try done; set_solver.
Qed.

Lemma driver_events_live v h : Forall driver_event v -> live (v ++ h) = live h.
Proof.
  induction 1 as [|[c r o] v Hc _ IH]; [done|]. unfold live in *. cbn. rewrite IH. by destruct c.
Qed.

Lemma session_frame w w' : core_frame w w' -> session_step w w'.
Proof.
  intros [E1 _ _ E4 (v & E5 & E6)]. split; [|done|].
  - unfold leaked. by rewrite E1, E5, driver_events_live.
  - exists v. split; [done|]. eapply Forall_impl; [exact E6|]. intros [c r o]. unfold driver_event. by destruct c.
Qed.

Lemma sess_ret {A} (a : A) : keeps session_step (mret (M:=K D) a).
Proof. apply keeps_ret, _. Qed.
Lemma sess_bind {A B} (m : K D A) (f : A -> K D B) :
  keeps session_step m -> (forall a, keeps session_step (f a)) -> keeps session_step (m ≫= f).
Proof. apply keeps_bind, _. Qed.
Lemma sess_get {A} (f : world D -> option A) : keeps session_step (get_some f).
Proof. apply keeps_get, _. Qed.
Lemma sess_gets {A} (f : world D -> A) : keeps session_step (gets f).
Proof. intros w a w' [= <- <-]. reflexivity. Qed.
Lemma sess_oops {A} : keeps session_step (oops (D:=D) (A:=A)).
Proof. intros w a w' [=]. Qed.
Lemma sess_call_out c : quiet_call c = true -> keeps session_step (call_out (D:=D) c).
Proof.
  intros Hc w a w' Hr. refine (wp_run _ _ (fun _ w'' => session_step w w'') _ _ _ Hr).
  by apply wp_call_out, session_logged.
Qed.
Lemma sess_call c : quiet_call c = true -> keeps session_step (call (D:=D) c).
Proof. intros Hc w a w'. rewrite call_run. intros [= <- <-]. by apply session_logged. Qed.
Lemma sess_do c : quiet_call c = true -> keeps session_step (do_ (D:=D) c).
Proof. intros Hc. apply keeps_do; [apply _|]. intros w. by apply session_logged. Qed.
Lemma sess_frame {A} (m : K D A) : keeps core_frame m -> keeps session_step m.
Proof. intros Hm w a w' Hr. by eapply session_frame, Hm. Qed.
Lemma sess_priv f : keeps session_step (modify (D:=D) (set_priv f)).
Proof. intros w a w' [= <- <-]. apply session_store; by wsimpl_goal. Qed.

(** A read-modify-write of an object that is there. *)
Lemma sess_modify {A} (f : world D -> option A) (g : A -> world D -> world D) :
  (forall a w, f w = Some a -> session_step w (g a w)) -> keeps session_step (a ← get_some f; modify (g a)).
Proof.
  intros Hg w a w'. unfold get_some, modify, mbind, K_bind. destruct (f w) as [x|] eqn:E; [|done].
  intros [= <- <-]. by apply Hg.
Qed.

Lemma session_insert p o o' w : w_heap w !! p = Some o -> session_step w (set_heap (insert p o') w).
Proof. intros Ho. apply session_store; wsimpl_goal; [done..|]. rewrite dom_insert. set_solver. Qed.

Lemma sess_mod_idev p f : keeps session_step (mod_idev (D:=D) p f).
Proof.
  apply (sess_modify (fun w => as_idev (w_heap w !! p)) (fun d => set_heap (insert p (HIdev (f d))))).
  intros d w Hd. destruct (w_heap w !! p) as [o|] eqn:E; [|done]. by eapply session_insert.
Qed.
Lemma sess_mod_lsn p f : keeps session_step (mod_lsn (D:=D) p f).
Proof.
  apply (sess_modify (fun w => as_lsn (w_heap w !! p)) (fun d => set_heap (insert p (HLsn (f d))))).
  intros d w Hd. destruct (w_heap w !! p) as [o|] eqn:E; [|done]. by eapply session_insert.
Qed.
Lemma sess_mod_info p f : keeps session_step (mod_info (D:=D) p f).
Proof.
  apply (sess_modify (fun w => w_info w !! p) (fun d => set_info (insert p (f d)))).
  intros d w Hd. apply session_store; by wsimpl_goal.
Qed.
Lemma sess_mod_mem p f : keeps session_step (mod_mem (D:=D) p f).
Proof. unfold mod_mem, load_mem, load_info. repeat first [apply sess_mod_info | apply sess_get | apply sess_bind; [|intros]]. Qed.
Lemma sess_mod_port p f : keeps session_step (mod_port (D:=D) p f).
Proof. unfold mod_port, load_port, load_info. repeat first [apply sess_mod_info | apply sess_get | apply sess_bind; [|intros]]. Qed.

Lemma sess_kfree p : keeps session_step (kfree (D:=D) p).
Proof.
  intros w a w'. unfold kfree. destruct (Z.eqb_spec p NULL) as [->|Hp].
  - rewrite do_run. intros [= <- <-]. by apply session_logged.
  - unfold get_some, modify, mbind, K_bind. destruct (w_heap w !! p) as [o|] eqn:E; [|done].
    rewrite do_run. cbn. intros [= <- <-]. transitivity (logged (Kfree p) w); [by apply session_logged|].
    split; [|by wsimpl_goal|by exists []]. unfold leaked. gsimpl. rewrite dom_delete. set_solver.
Qed.

(** *** An allocation is followed by the initialisation of the object *)

Definition owns (p : Z) {A} (m : K D A) : Prop := forall w a w', m w = Some (a, w') ->
  session_step w w' /\ leaked w' ⊆ leaked w ∖ {[p]}.

Lemma owns_bind p {A B} (m : K D A) (f : A -> K D B) :
  keeps session_step m -> (forall a, owns p (f a)) -> owns p (m ≫= f).
Proof.
  intros Hm Hf w b w' Hr. unfold mbind, K_bind in Hr. destruct (m w) as [[a w1]|] eqn:E; [|done].
  pose proof (Hm _ _ _ E) as S1. destruct (Hf _ _ _ _ Hr) as [S2 L2].
  split; [by transitivity w1|]. pose proof (ss_leak _ _ S1). set_solver.
Qed.

Lemma owns_init p o {B} (f : unit -> K D B) : (forall u, keeps session_step (f u)) -> owns p (init_obj p o ≫= f).
Proof.
  intros Hf w b w' Hr. unfold init_obj, modify, mbind, K_bind in Hr.
  set (w1 := set_heap _ w) in Hr. pose proof (Hf _ _ _ _ Hr) as S2.
  assert (S1 : session_step w w1).
  { apply session_store; subst w1; wsimpl_goal; [done..|]. rewrite dom_insert. set_solver. }
  split; [by transitivity w1|]. pose proof (ss_leak _ _ S2) as L2. revert L2. unfold leaked at 2. subst w1.
  wsimpl_goal. rewrite dom_insert. unfold leaked. set_solver.
Qed.

Lemma sess_alloc c {A} (f : K D A) (g : Z -> K D A) :
  is_alloc c -> keeps session_step f -> (forall p, owns p (g p)) ->
  keeps session_step (p ← call c; if p =? NULL then f else g p).
Proof.
  intros Hc Hf Hg w a w' Hr. unfold mbind, K_bind in Hr. rewrite call_run in Hr.
  set (p := kernel (w_hist w) c) in *. set (w1 := logged c w) in Hr.
  assert (H1 : leaked w1 ⊆ {[p]} ∪ leaked w /\ (p = 0 -> leaked w1 ⊆ leaked w) /\ w_glob w1 = w_glob w /\
    exists v, w_hist w1 = v ++ w_hist w /\ Forall (fun e => module_call (ev_call e) = false) v).
  { subst w1. split_and!; [| |by wsimpl_goal|eexists [_]; split; [by wsimpl_goal|constructor; [by destruct c|done]]].
    all: unfold leaked; gsimpl; fold p; destruct c; try done; destruct (Z.eqb_spec p 0); set_solver. }
  destruct H1 as (L1 & L0 & G1 & v & Hv & Fv).
  assert (session_step w1 w' /\ leaked w' ⊆ leaked w) as [S2 L2].
  { destruct (Z.eqb_spec p NULL) as [E|E].
    - pose proof (Hf _ _ _ Hr) as S2. split; [done|]. pose proof (ss_leak _ _ S2). set_solver.
    - destruct (Hg _ _ _ _ Hr) as [S2 L2]. split; [done|]. set_solver. }
  destruct S2 as [_ G2 (u & Hu & Fu)]. split; [done|congruence|].
  exists (u ++ v). rewrite Hu, Hv, app_assoc. split; [done|]. by apply Forall_app.
Qed.
End session.

(** One step of a computation; allocations are met before plain calls. *)
Ltac sess_keep :=
  first
    [ apply sess_ret | apply sess_gets | apply sess_get | apply sess_oops
    | apply sess_mod_idev | apply sess_mod_info | apply sess_mod_mem | apply sess_mod_port | apply sess_mod_lsn
    | apply sess_priv | apply sess_kfree
    | apply sess_alloc; [done| |intros]
    | apply owns_init; intros | apply owns_bind; [|intros]
    | apply sess_do; reflexivity | apply sess_call; reflexivity | apply sess_call_out; reflexivity
    | apply sess_bind; [|intros]
    | case_match | progress cbn beta zeta ].

Section operations.
Context `{HK : Kernel, HU : Uapi} {D : Type} `{HD : !UioDriver D, HF : !UioDriverFrame D}.
Set Default Proof Using "All".
Implicit Types (w : world D) (F : gset Z).

Ltac sess1 :=
  first [ apply sess_frame; first [ apply frame_open | apply frame_release | apply frame_irqcontrol
                                   | apply frame_mmap | apply frame_handler ]
         | sess_keep | unfold load_idev, load_lsn, load_info, load_priv, load_mem, load_port, load_map, load_portio ].
Ltac sess := repeat sess1.

Lemma sess_add_maps idev n : forall k b, keeps session_step (add_maps (D:=D) n k b idev).
Proof. induction n as [|n IH]; intros k b; cbn [add_maps]; repeat (apply IH || sess1). Qed.
Lemma sess_add_ports idev n : forall k b, keeps session_step (add_ports (D:=D) n k b idev).
Proof. induction n as [|n IH]; intros k b; cbn [add_ports]; repeat (apply IH || sess1). Qed.
Lemma sess_put_maps idev n : keeps session_step (put_maps (D:=D) n idev).
Proof. induction n as [|n IH]; cbn [put_maps]; repeat (apply IH || sess1). Qed.
Lemma sess_put_ports idev n : keeps session_step (put_ports (D:=D) n idev).
Proof. induction n as [|n IH]; cbn [put_ports]; repeat (apply IH || sess1). Qed.
Lemma sess_del_maps idev n : forall k, keeps session_step (del_maps (D:=D) n k idev).
Proof. induction n as [|n IH]; intros k; cbn [del_maps]; repeat (apply IH || sess1). Qed.
Lemma sess_del_ports idev n : forall k, keeps session_step (del_ports (D:=D) n k idev).
Proof. induction n as [|n IH]; intros k; cbn [del_ports]; repeat (apply IH || sess1). Qed.

Lemma sess_add_attributes idev : keeps session_step (uio_dev_add_attributes (D:=D) idev).
Proof.
  unfold uio_dev_add_attributes, err_portio_kobj, err_map_kobj.
  repeat (apply sess_add_maps || apply sess_add_ports || apply sess_put_maps || apply sess_put_ports || sess1).
Qed.
Lemma sess_del_attributes idev : keeps session_step (uio_dev_del_attributes (D:=D) idev).
Proof. unfold uio_dev_del_attributes. repeat (apply sess_del_maps || apply sess_del_ports || sess1). Qed.

Lemma sess_register owner parent info : keeps session_step (__uio_register_device (D:=D) owner parent info).
Proof.
  unfold __uio_register_device, register_args_bad, uio_get_minor, err_request_irq, err_uio_dev_add_attributes,
    err_device_create, uio_free_minor.
  repeat (apply sess_add_attributes || apply sess_del_attributes || sess1).
Qed.
Lemma sess_unregister info : keeps session_step (uio_unregister_device (D:=D) info).
Proof. unfold uio_unregister_device, uio_free_minor. repeat (apply sess_del_attributes || sess1). Qed.

Lemma sess_open minor inode f : keeps session_step (uio_open (D:=D) minor inode f).
Proof. unfold uio_open, err_infoopen, err_alloc_listener, err_module_get. sess. Qed.
Lemma sess_release inode f : keeps session_step (uio_release (D:=D) inode f).
Proof. unfold uio_release. sess. Qed.
Lemma sess_poll f : keeps session_step (uio_poll (D:=D) f).
Proof. unfold uio_poll, no_irq. sess. Qed.
Lemma sess_read_pass f count nb : keeps session_step (read_pass (D:=D) f count nb).
Proof. unfold read_pass, read_iter, no_irq. sess. Qed.
Lemma sess_write f count : keeps session_step (uio_write (D:=D) f count).
Proof. unfold uio_write. sess. Qed.
Lemma sess_mmap f v : keeps session_step (uio_mmap (D:=D) f v).
Proof.
  unfold uio_mmap, uio_mmap_physical, uio_mmap_logical, uio_mmap_dma_coherent, uio_find_mem_index. sess.
Qed.
Lemma sess_fault v pgoff : keeps session_step (uio_vma_fault (D:=D) v pgoff).
Proof. unfold uio_vma_fault, uio_find_mem_index. sess. Qed.
Lemma sess_notify info : keeps session_step (uio_event_notify (D:=D) info).
Proof. unfold uio_event_notify. sess. Qed.
Lemma sess_show n nm show dev : uio_attrs (D:=D) !! n = Some (nm, show) -> keeps session_step (show dev).
Proof.
  intros Hn. destruct n as [|[|[|n]]]; simpl in Hn; try discriminate; injection Hn as <- <-;
    unfold name_show, version_show, event_show; sess.
Qed.

Lemma sess_map_show n entry kobj : map_attrs (D:=D) !! n = Some entry -> keeps session_step (map_type_show kobj entry).
Proof.
  intros Hn. destruct n as [|[|[|[|n]]]]; simpl in Hn; try discriminate; injection Hn as <-;
    unfold map_type_show; cbn [me_show name_attribute addr_attribute size_attribute offset_attribute];
    unfold map_name_show, map_addr_show, map_size_show, map_offset_show, mod_mem, load_mem; sess.
Qed.
Lemma sess_portio_show n entry kobj : portio_attrs (D:=D) !! n = Some entry -> keeps session_step (portio_type_show kobj entry).
Proof.
  intros Hn. destruct n as [|[|[|[|n]]]]; simpl in Hn; try discriminate; injection Hn as <-;
    unfold portio_type_show; cbn [pe_show portio_name_attribute portio_start_attribute portio_size_attribute portio_porttype_attribute];
    unfold portio_name_show, portio_start_show, portio_size_show, portio_porttype_show, mod_port, load_port; sess.
Qed.

Lemma sess_op op F : keeps session_step (do_op (D:=D) op F).
Proof.
  destruct op; cbn [do_op uio_fops fop_open fop_release fop_poll fop_write fop_fasync fop_mmap
    map_attr_type portio_attr_type kt_release kt_show kt_groups uio_class class_dev_groups]; unfold uio_fasync, uio_interrupt_handler, uio_interrupt_thread, uio_device_release,
    map_release, portio_release.
  17: { destruct (uio_attrs !! attr) as [[nm show]|] eqn:E; [|apply sess_ret].
        apply sess_bind; [by eapply sess_show|intros; apply sess_ret]. }
  17: { destruct (map_attrs !! attr) eqn:E; [|apply sess_ret].
        apply sess_bind; [by eapply sess_map_show|intros; apply sess_ret]. }
  17: { destruct (portio_attrs !! attr) eqn:E; [|apply sess_ret].
        apply sess_bind; [by eapply sess_portio_show|intros; apply sess_ret]. }
  all: try match goal with |- context [vm_fault (vm_ops ?v)] => destruct (vm_ops v); cbn [vm_fault] end.
  all: repeat (first [ apply sess_register | apply sess_unregister | apply sess_open | apply sess_release
                     | apply sess_poll | apply sess_read_pass | apply sess_write | apply sess_mmap | apply sess_fault
                     | apply sess_notify | sess1 ]).
Qed.

Lemma sess_ops ops : forall F, keeps session_step (run_ops (D:=D) ops F).
Proof.
  induction ops as [|op ops IH]; intros F; cbn [run_ops]; [apply sess_ret|]. apply sess_bind; [apply sess_op|apply IH].
Qed.
End operations.

(** ** Loading and unloading *)

(** The module holds nothing. *)
Record module_gone {D} (w : world D) : Prop := ModuleGone {
  mg_live : live (w_hist w) = ∅;
  mg_idr : idr_of (w_hist w) = ∅;
  mg_region dev : region_held dev (w_hist w) = 0;
  mg_cdev p : cdev_added p (w_hist w) = 0;
  mg_class : class_count (w_hist w) = 0;
  mg_flag : g_uio_class_registered (w_glob w) = false;
  mg_locks l : lock_depth l (w_hist w) = 0;
  mg_devs p : dev_refs p (w_hist w) = 0;
  mg_mods m : mod_refs m (w_hist w) = 0 }.

Section lifecycle.
Context `{HK : Kernel, HU : Uapi, HUok : !UapiOk, HC : !ChrdevOk} {D : Type} `{HD : !UioDriver D, HDok : !UioDriverOk D}.
Set Default Proof Using "All".
Implicit Types (w : world D) (F : gset Z).

(** [MKDEV(MAJOR(dev), 0)] is [dev] when its minor is 0. *)
Lemma major_roundtrip dev : Z.land dev (Z.ones MINORBITS) = 0 -> MKDEV (MAJOR dev) 0 = dev.
Proof.
  intros Hl. pose proof minorbits_ok as Hm. unfold MKDEV, MAJOR. rewrite Z.lor_0_r.
  rewrite Z.land_ones in Hl by lia. rewrite Z.shiftl_mul_pow2, Z.shiftr_div_pow2 by lia.
  pose proof (Z.div_mod dev (2 ^ MINORBITS)) as E. lia.
Qed.

(** An empty heap and counters at zero satisfy the invariant. *)
Lemma blank_inv w :
  w_heap w = ∅ -> idr_of (w_hist w) = ∅ -> (forall p, dev_refs p (w_hist w) = 0) ->
  (forall m, mod_refs m (w_hist w) = 0) -> (forall l, lock_depth l (w_hist w) = 0) -> drv_inv ∅ w ->
  core_inv w ∅ ∅.
Proof.
  intros Eh Ei Hd Hm Hl Hdrv. split; try done.
  - intros p o. by rewrite Eh.
  - intros m p. by rewrite Ei.
  - intros p d. by rewrite Eh.
  - intros p d. by rewrite Eh.
  - intros p d. by rewrite Eh.
  - intros p d. by rewrite Eh.
Qed.

(** What [uio_init] leaves when it succeeds: [dev] is the first number, [cdev] the
    character device. *)
Record module_loaded dev cdev w : Prop := ModuleLoaded {
  ml_glob : w_glob w = UioGlobals (MAJOR dev) cdev true;
  ml_minor : Z.land dev (Z.ones MINORBITS) = 0;
  ml_region d : region_held d (w_hist w) = if dev =? d then 1 else 0;
  ml_cdev p : cdev_added p (w_hist w) = if cdev =? p then 1 else 0;
  ml_class : class_count (w_hist w) = 1;
  ml_live : leaked w = ∅;
  ml_inv : core_inv w ∅ ∅ }.

(** What loading and unloading do not change. *)
Record core_same w w' : Prop := CoreSame {
  cs_heap : w_heap w' = w_heap w;
  cs_info : w_info w' = w_info w;
  cs_drv : w_drv w' = w_drv w;
  cs_live : live (w_hist w') = live (w_hist w);
  cs_devs p : dev_refs p (w_hist w') = dev_refs p (w_hist w);
  cs_mods m : mod_refs m (w_hist w') = mod_refs m (w_hist w);
  cs_locks l : lock_depth l (w_hist w') = lock_depth l (w_hist w) }.

(** Close a counter of a state reached by a few calls. *)
Ltac counted :=
  intros; gsimpl;
  repeat match goal with
  | E : kernel ?h ?c = _ |- context [kernel ?h ?c] => rewrite E
  | E : kernel_out ?h ?c = _ |- context [kernel_out ?h ?c] => rewrite E
  end;
  cbn [out_word default head from_option id];
  repeat match goal with |- context [?x =? ?y] => destruct (Z.eqb_spec x y) end;
  cbn [andb negb]; try done; try congruence; try lia.

(** Split on a test for 0. *)
Ltac kzero E :=
  cbn beta;
  lazymatch goal with
  | |- wp (if negb (?x =? _) then _ else _) _ _ => destruct (Z.eqb_spec x 0) as [E|E]; cbn [negb]
  | |- wp (if ?x =? _ then _ else _) _ _ => destruct (Z.eqb_spec x 0) as [E|E]
  end.

Lemma wp_uio_major_init w :
  wp uio_major_init w (fun r w' => core_same w w' /\ idr_of (w_hist w') = idr_of (w_hist w) /\
    class_count (w_hist w') = class_count (w_hist w) /\
    (r <> 0 -> w_glob w' = w_glob w /\ (forall d, region_held d (w_hist w') = region_held d (w_hist w)) /\
      (forall p, cdev_added p (w_hist w') = cdev_added p (w_hist w)) /\
      forall p, p <> 0 -> cdev_refs p (w_hist w') = cdev_refs p (w_hist w)) /\
    (r = 0 -> exists dev cdev, Z.land dev (Z.ones MINORBITS) = 0 /\ cdev <> 0 /\
      w_glob w' = UioGlobals (MAJOR dev) cdev (g_uio_class_registered (w_glob w)) /\
      (forall d, region_held d (w_hist w') = (if dev =? d then 1 else 0) + region_held d (w_hist w)) /\
      (forall p, cdev_added p (w_hist w') = (if cdev =? p then 1 else 0) + cdev_added p (w_hist w)) /\
      forall p, cdev_refs p (w_hist w') = (if cdev =? p then 1 else 0) + cdev_refs p (w_hist w))).
Proof.
  unfold uio_major_init, NULL. kstep. kstep. cbn [fst snd]. kzero E1.
  2: { ksteps. split_and!; [split| | | |]; try by counted. intros _. split_and!; by counted. }
  assert (Hb : 0 <= 0 < 2 ^ MINORBITS) by (pose proof minorbits_ok; split; [done|by apply Z.pow_pos_nonneg; lia]).
  destruct (alloc_region_ok _ _ _ Hb E1) as (dev & o & E2 & E3). rewrite E2. cbn [out_word default head].
  kstep. kstep. kzero E4.
  { ksteps. split_and!; [split| | | |]; try by counted. intros _. split_and!; by counted. }
  do 3 (kstep; kstep). kzero E5.
  - ksteps. split_and!; [split| | | |]; try by counted. intros _. do 2 eexists. split_and!; [exact E3|exact E4| | | |]; by counted.
  - ksteps. split_and!; [split| | | |]; try by counted. intros _. split_and!; by counted.
Qed.

(** The state before the module is loaded. *)
Definition unloaded w : Prop := module_gone w /\ w_heap w = ∅ /\ drv_inv ∅ w /\ forall p, cdev_refs p (w_hist w) = 0.

Lemma initial_unloaded g infos (s : D) :
  g_uio_class_registered g = false -> drv_inv ∅ (initial_world g infos s) -> unloaded (initial_world g infos s).
Proof. intros Hg Hd. by repeat split. Qed.

Lemma gone_step w w' :
  module_gone w -> core_same w w' -> idr_of (w_hist w') = idr_of (w_hist w) ->
  (forall d, region_held d (w_hist w') = 0) -> (forall p, cdev_added p (w_hist w') = 0) ->
  class_count (w_hist w') = 0 -> g_uio_class_registered (w_glob w') = false -> module_gone w'.
Proof.
  intros Hg [] Ei Hr Hc Hk Hf. split; try done; intros;
    [rewrite cs_live0|rewrite Ei|rewrite cs_locks0|rewrite cs_devs0|rewrite cs_mods0]; apply Hg.
Qed.

Lemma wp_uio_init w :
  unloaded w ->
  wp uio_init w (fun r w' =>
    (r <> 0 -> module_gone w' /\ forall p, p <> 0 -> cdev_refs p (w_hist w') = 0) /\
    (r = 0 -> exists dev cdev, module_loaded dev cdev w')).
Proof.
  intros (Hg & Hh & Hdrv & Hrefs). unfold uio_init, init_uio_class, uio_major_cleanup. kstep.
  eapply wp_mono; [apply wp_uio_major_init|]. cbn beta. intros r w1 (Hs & Ei & Ek & Hbad & Hok). kzero E1.
  2: { kstep. split; [intros _|done]. destruct (Hbad E1) as (G & R & C & P). split.
       - apply (gone_step w); [done..| | | |by rewrite G; apply Hg]; intros; rewrite ?R, ?C, ?Ek; apply Hg.
       - intros p Hp. rewrite P by done. apply Hrefs. }
  destruct (Hok E1) as (dev & cdev & Hm & Hnz & G & R & C & P). clear Hok Hbad.
  pose proof Hs as []. rewrite (mg_class _ Hg) in Ek.
  assert (R' : forall d, region_held d (w_hist w1) = if dev =? d then 1 else 0).
  { intros d. rewrite R, (mg_region _ Hg). lia. }
  assert (C' : forall p, cdev_added p (w_hist w1) = if cdev =? p then 1 else 0).
  { intros p. rewrite C, (mg_cdev _ Hg). lia. }
  assert (P' : forall p, cdev_refs p (w_hist w1) = if cdev =? p then 1 else 0).
  { intros p. rewrite P, Hrefs. lia. }
  kstep. kstep. kzero E2.
  - ksteps. split; [done|intros _]. exists dev, cdev.
    split; [by rewrite glob_set_glob, glob_logged, G|done| | | | |].
    + intros d. gsimpl. apply R'.
    + intros p. gsimpl. apply C'.
    + gsimpl. by rewrite E2, Ek.
    + unfold leaked. gsimpl. rewrite cs_live0, (mg_live _ Hg). set_solver.
    + apply blank_inv; intros; gsimpl; rewrite ?cs_heap0, ?Ei, ?cs_devs0, ?cs_mods0, ?cs_locks0; try apply Hg; [done|].
      apply (drv_inv_core _ w); [by wsimpl_goal|intros q; by rewrite info_set_glob, info_logged, cs_info0|done].
  - ksteps. split; [intros _|done]. wsimpl_goal. rewrite G. cbn [g_uio_major g_uio_cdev].
    rewrite (major_roundtrip dev Hm). split.
    + split; intros; gsimpl; rewrite ?cs_live0, ?Ei, ?cs_devs0, ?cs_mods0, ?cs_locks0, ?R', ?C', ?Ek; try apply Hg.
      all: try (case_match; lia).
      rewrite G. apply Hg.
    + intros p Hp. gsimpl. rewrite P'. case_match; lia.
Qed.

(** Everything is given back when the heap is empty again. *)
Lemma wp_uio_exit w w0 dev cdev F σ :
  module_loaded dev cdev w0 -> session_step w0 w -> core_inv w F σ -> w_heap w = ∅ ->
  wp uio_exit w (fun _ w' => F = ∅ /\ module_gone w').
Proof.
  intros Hl [S1 S2 (v & S3 & S4)] Hi Hh. pose proof (ml_glob _ _ _ Hl) as G.
  destruct (module_counters v (w_hist w0) S4) as (R & C & K). rewrite <- S3 in R, C, K.
  assert (HF : F = ∅).
  { apply set_eq. intros f. split; [|set_solver]. intros Hf. destruct (ci_file _ _ _ Hi f Hf) as (l & lst & d & _ & Hx & _).
    by rewrite Hh in Hx. }
  unfold uio_exit, release_uio_class, uio_major_cleanup. ksteps. wsimpl_goal. rewrite S2, G.
  unfold set_registered. cbn [g_uio_major g_uio_cdev]. rewrite (major_roundtrip dev) by apply Hl.
  split; [done|]. split; intros; gsimpl; rewrite ?R, ?C, ?K, ?(ml_region _ _ _ Hl), ?(ml_cdev _ _ _ Hl), ?(ml_class _ _ _ Hl);
    try apply Hi; try (case_match; lia); try done.
  - pose proof S1 as L. rewrite (ml_live _ _ _ Hl) in L. unfold leaked in L. rewrite Hh, dom_empty_L in L. set_solver.
  - intros d. by rewrite Hh.
  - rewrite (ci_mods _ _ _ Hi), HF. done.
Qed.

(** Load, any operations, and unload once nothing is left. *)
Lemma module_session `{!KernelOk, !UioDriverFrame D} w :
  unloaded w ->
  wp uio_init w (fun r w1 =>
    (r <> 0 -> module_gone w1 /\ forall p, p <> 0 -> cdev_refs p (w_hist w1) = 0) /\
    (r = 0 -> g_uio_class_registered (w_glob w1) = true /\
      forall ops, admissible_run ops ∅ w1 ->
      wp (run_ops ops ∅) w1 (fun F w2 => live (w_hist w2) = dom (w_heap w2) /\
        (w_heap w2 = ∅ -> wp uio_exit w2 (fun _ w3 => F = ∅ /\ module_gone w3))))).
Proof.
  intros Hu. eapply wp_mono; [by apply wp_uio_init|]. cbn beta. intros r w1 [Hbad Hok]. split; [exact Hbad|].
  intros Hr. destruct (Hok Hr) as (dev & cdev & Hl). split; [by rewrite (ml_glob _ _ _ Hl)|]. intros ops Ha.
  eapply wp_mono.
  { apply (keeps_wp session_step); [apply (sess_ops ops ∅)|]. apply (run_ops_ok ops ∅ w1 ∅); [apply Hl|exact Ha]. }
  cbn beta. intros F w2 [[σ Hi] Hs]. split.
  - pose proof (ss_leak _ _ Hs) as L. rewrite (ml_live _ _ _ Hl) in L. unfold leaked in L.
    apply set_eq. intros p. split.
    + intros Hp. destruct (decide (p ∈ dom (w_heap w2))); [done|]. set_solver.
    + intros [o Ho]%elem_of_dom. by apply (ci_live _ _ _ Hi p o).
  - intros Hh. by eapply wp_uio_exit.
Qed.
End lifecycle.
