(* ===== verification/UioEvents.v ===== *)
(** * The UIO core as an event service

    What the core promises to user space and to drivers, without memory,
    references, locks or the kernel below it: devices with a counter of events,
    files that remember the count they have seen, and what every operation
    answers.  [UioAbstract] proves that the core implements it; here is what
    follows from it for any sequence of operations: no event is lost. *)

From S2P Require Import Prelude Kernel UioTypes UioAttr UioDevice UioFile UioSystem.

(** ** State *)

(** A device with the info it serves (0 once unregistered) and its event counter; an
    info with its interrupt and the device made for it; a file with the device it is
    open on and the count it has seen. *)
Record adev := ADev { a_info : Z; a_count : Z }.
Record ainfo := AInfo { a_irq : Z; a_dev : Z }.
Record afile := AFile { a_on : Z; a_seen : Z }.
Record astate := AState {
  a_devs : gmap Z adev; a_minors : gmap Z Z; a_infos : gmap Z ainfo; a_files : gmap Z afile }.

(** The device has no interrupt, or none any more. *)
Definition a_gone (A : astate) (p : Z) : bool :=
  match a_devs A !! p with
  | Some d => if a_info d =? 0 then true else
              match a_infos A !! a_info d with Some i => a_irq i =? 0 | None => true end
  | None => true
  end.

(** A device stays as long as it has a minor number or a file is open on it. *)
Definition in_use (A : astate) (p : Z) : Prop :=
  map_Exists (fun _ q => q = p) (a_minors A) \/ map_Exists (fun _ x => a_on x = p) (a_files A).
#[export] Instance in_use_dec A p : Decision (in_use A p).
Proof. apply _. Defined.
Definition reap (A : astate) : astate :=
  AState (filter (fun pd => in_use A (pd.1)) (a_devs A)) (a_minors A) (a_infos A) (a_files A).

Definition count_event (d : adev) : adev := ADev (a_info d) (atomic_inc (a_count d)).
Definition signal (p : Z) (A : astate) : astate :=
  AState (alter count_event p (a_devs A)) (a_minors A) (a_infos A) (a_files A).
Definition on_files (h : gmap Z afile -> gmap Z afile) (A : astate) : astate :=
  AState (a_devs A) (a_minors A) (a_infos A) (h (a_files A)).

(** ** Answers *)

(** A number; the word user space was given; nothing yet; an event of a device; a new
    device; a file open on a device; nothing to see. *)
Inductive obs :=
| ORet (r : Z) | OWord (e : option Z) | OAsleep | OEvent (p : Z) | ONew (p : Z) | OOn (p : Z) | ONone.

(** Operations that neither change the service nor have an answer here. *)
Definition silent (op : uop) : bool :=
  match op with
  | OpFasync _ _ _ | OpMmap _ _ | OpFault _ _ _ | OpIrqHandler _ _ | OpDeviceRelease _
  | OpMapRelease _ | OpPortioRelease _ | OpShow _ _ | OpMapShow _ _ | OpPortioShow _ _ => true
  | _ => false
  end.

(** ** Steps *)

Inductive astep : uop -> obs -> astate -> astate -> Prop :=
| a_open A minor inode f p d :
    a_minors A !! minor = Some p -> a_devs A !! p = Some d -> a_files A !! f = None ->
    astep (OpOpen minor inode f) (OOn p) A (on_files (insert f (AFile p (a_count d))) A)
| a_open_fails A minor inode f r : r <> 0 -> astep (OpOpen minor inode f) (ORet r) A A
| a_release A inode f x :
    a_files A !! f = Some x -> astep (OpRelease inode f) ONone A (reap (on_files (delete f) A))
| a_poll A f x d :
    a_files A !! f = Some x -> a_devs A !! a_on x = Some d ->
    astep (OpPoll f) (ORet (if a_gone A (a_on x) then u32 (- EIO)
                            else if a_seen x =? a_count d then 0 else Z.lor EPOLLIN EPOLLRDNORM)) A A
| a_read_gone A f nb x :
    a_files A !! f = Some x -> a_gone A (a_on x) = true ->
    astep (OpReadPass f sizeof_s32 nb) (ORet (- EIO)) A A
| a_read A f nb x d :
    a_files A !! f = Some x -> a_devs A !! a_on x = Some d -> a_gone A (a_on x) = false -> a_seen x <> a_count d ->
    astep (OpReadPass f sizeof_s32 nb) (OWord (Some (a_count d))) A
      (on_files (insert f (AFile (a_on x) (a_count d))) A)
| a_read_fault A f nb x d :
    a_files A !! f = Some x -> a_devs A !! a_on x = Some d -> a_gone A (a_on x) = false -> a_seen x <> a_count d ->
    astep (OpReadPass f sizeof_s32 nb) (ORet (- EFAULT)) A A
| a_read_waits A f (nb : bool) x d o :
    a_files A !! f = Some x -> a_devs A !! a_on x = Some d -> a_gone A (a_on x) = false -> a_seen x = a_count d ->
    o = ORet (if nb then - EAGAIN else - ERESTARTSYS) \/ (nb = false /\ o = OAsleep) ->
    astep (OpReadPass f sizeof_s32 nb) o A A
| a_write A f count x r :
    a_files A !! f = Some x -> (count <> sizeof_s32 -> r = - EINVAL) ->
    (count = sizeof_s32 -> a_gone A (a_on x) = true -> r = - EFAULT \/ r = - EINVAL \/ r = - EIO) ->
    astep (OpWrite f count) (ORet r) A A
| a_notify A info i :
    a_infos A !! info = Some i -> astep (OpNotify info) (OEvent (a_dev i)) A (signal (a_dev i) A)
| a_interrupt A irq p : astep (OpIrqThread irq p) (OEvent p) A (signal p A)
| a_register A owner parent info i p m :
    a_infos A !! info = Some i -> a_minors A !! m = None -> a_devs A !! p = None ->
    astep (OpRegister owner parent info) (ONew p) A
      (AState (<[p := ADev info 0]> (a_devs A)) (<[m := p]> (a_minors A)) (<[info := AInfo (a_irq i) p]> (a_infos A)) (a_files A))
| a_register_fails A owner parent info i q r :
    r <> 0 -> a_infos A !! info = Some i ->
    astep (OpRegister owner parent info) (ORet r) A
      (AState (a_devs A) (a_minors A) (<[info := AInfo (a_irq i) q]> (a_infos A)) (a_files A))
| a_unregister A info i m :
    a_infos A !! info = Some i -> a_dev i <> 0 -> a_minors A !! m = Some (a_dev i) ->
    astep (OpUnregister info) ONone A
      (reap (AState (alter (fun d => ADev 0 (a_count d)) (a_dev i) (a_devs A)) (delete m (a_minors A)) (a_infos A) (a_files A)))
| a_unregister_none A info i :
    a_infos A !! info = Some i -> a_dev i = 0 -> astep (OpUnregister info) ONone A A
| a_silent A op : silent op = true -> astep op ONone A A.

(** Runs, the newest step first. *)
Inductive arun (A0 : astate) : list (uop * obs) -> astate -> Prop :=
| arun_nil : arun A0 [] A0
| arun_step tr A op o A' : arun A0 tr A -> astep op o A A' -> arun A0 ((op, o) :: tr) A'.

(** ** What a trace says about events *)

(** The events of device [p] since it was registered. *)
Fixpoint events (p : Z) (tr : list (uop * obs)) : Z :=
  match tr with
  | [] => 0
  | (_, OEvent q) :: tr' => if q =? p then events p tr' + 1 else events p tr'
  | (_, ONew q) :: tr' => if q =? p then 0 else events p tr'
  | _ :: tr' => events p tr'
  end.

(** The device the file is open on. *)
Fixpoint file_on (f : Z) (tr : list (uop * obs)) : option Z :=
  match tr with
  | [] => None
  | (OpOpen _ _ g, OOn p) :: tr' => if g =? f then Some p else file_on f tr'
  | (OpRelease _ g, _) :: tr' => if g =? f then None else file_on f tr'
  | _ :: tr' => file_on f tr'
  end.

(** The events of device [p] since the file was opened or last given a word. *)
Fixpoint unread (f p : Z) (tr : list (uop * obs)) : Z :=
  match tr with
  | [] => 0
  | (OpOpen _ _ g, OOn _) :: tr' => if g =? f then 0 else unread f p tr'
  | (OpReadPass g _ _, OWord _) :: tr' => if g =? f then 0 else unread f p tr'
  | (_, OEvent q) :: tr' => if q =? p then unread f p tr' + 1 else unread f p tr'
  | _ :: tr' => unread f p tr'
  end.

(** A word given to a reader of device [p] is the number of its events, modulo [2 ^ 32],
    and was given because some of them were unread. *)
Definition word_ok (f p : Z) (e : option Z) (tr : list (uop * obs)) : Prop :=
  file_on f tr = Some p /\ e = Some (s32 (events p tr)) /\ unread f p tr mod 2 ^ 32 <> 0.

(** Every word given to a reader of a device of [P] is. *)
Fixpoint words_ok (P : Z -> Prop) (tr : list (uop * obs)) : Prop :=
  match tr with
  | [] => True
  | (OpReadPass f _ _, OWord e) :: tr' => words_ok P tr' /\
      exists p, (P p -> word_ok f p e tr') /\ forall q, P q -> file_on f tr' = Some q -> q = p
  | _ :: tr' => words_ok P tr'
  end.

(** All devices. *)
Definition everywhere (_ : Z) : Prop := True.

(** ** No event is lost *)

Section counted.
Context (P : Z -> Prop).

(** What a trace and the state it leads to agree on, for the devices of [P]. *)
Record counted (tr : list (uop * obs)) (A : astate) : Prop := Counted {
  co_dev p d : P p -> a_devs A !! p = Some d -> a_count d = s32 (events p tr);
  co_on f p : P p -> a_on <$> a_files A !! f = Some p <-> file_on f tr = Some p;
  co_file f x : a_files A !! f = Some x -> exists d, a_devs A !! a_on x = Some d /\
    (P (a_on x) -> a_seen x = s32 (events (a_on x) tr - unread f (a_on x) tr));
  co_minor m p : a_minors A !! m = Some p -> exists d, a_devs A !! p = Some d;
  co_words : words_ok P tr }.

(** The infos do not matter. *)
Lemma counted_ext tr A A' :
  counted tr A -> a_devs A' = a_devs A -> a_minors A' = a_minors A -> a_files A' = a_files A -> counted tr A'.
Proof. intros [] E1 E2 E3. split; rewrite ?E1, ?E2, ?E3; done. Qed.

Lemma reap_lookup A p : a_devs (reap A) !! p = (if decide (in_use A p) then a_devs A !! p else None).
Proof.
  unfold reap. cbn [a_devs]. case_decide as Hk; rewrite ?map_lookup_filter.
  - destruct (a_devs A !! p); [|done]. cbn. by rewrite option_guard_True.
  - destruct (a_devs A !! p); [|done]. cbn. by rewrite option_guard_False.
Qed.

Lemma in_use_file A f x : a_files A !! f = Some x -> in_use A (a_on x).
Proof. intros Hf. right. by exists f, x. Qed.
Lemma in_use_minor A m p : a_minors A !! m = Some p -> in_use A p.
Proof. intros Hm. left. by exists m, p. Qed.

(** Reaping keeps the devices of files and minor numbers. *)
Lemma counted_reap tr A : counted tr A -> counted tr (reap A).
Proof.
  intros [H1 H2 H3 H4 H5]. split; try done.
  - intros p d Hp. rewrite reap_lookup. case_decide; [by apply H1|done].
  - intros f x Hf. destruct (H3 f x Hf) as (d & Hd & Hs). exists d. split; [|done].
    rewrite reap_lookup, decide_True; [done|]. by apply (in_use_file A f).
  - intros m p Hm. destruct (H4 m p Hm) as [d Hd]. exists d. rewrite reap_lookup, decide_True; [done|].
    by apply (in_use_minor A m).
Qed.

(** A step that adds nothing to the trace's counts and keeps the state they speak of. *)
Lemma counted_same tr A A' op o :
  counted tr A -> (forall p, a_count <$> a_devs A' !! p = a_count <$> a_devs A !! p) ->
  (forall m p, a_minors A' !! m = Some p -> a_minors A !! m = Some p) -> a_files A' = a_files A ->
  (forall p, events p ((op, o) :: tr) = events p tr) -> (forall f, file_on f ((op, o) :: tr) = file_on f tr) ->
  (forall f p, unread f p ((op, o) :: tr) = unread f p tr) -> words_ok P ((op, o) :: tr) ->
  counted ((op, o) :: tr) A'.
Proof.
  intros [H1 H2 H3 H4 H5] Ed Em Ef He Ho Hu Hw.
  assert (Hd : forall p d, a_devs A !! p = Some d -> exists d', a_devs A' !! p = Some d').
  { intros p d E. specialize (Ed p). rewrite E in Ed. destruct (a_devs A' !! p); [by eexists|done]. }
  split; [| | | |done].
  - intros p d Hp E. specialize (Ed p). rewrite E in Ed. destruct (a_devs A !! p) as [d0|] eqn:E0; [|done].
    cbn in Ed. injection Ed as ->. rewrite He. by apply H1.
  - intros f p Hp. rewrite Ef, Ho. by apply H2.
  - intros f x. rewrite Ef. intros Hf. destruct (H3 f x Hf) as (d & E & Hs). destruct (Hd _ _ E) as [d' E'].
    exists d'. by rewrite He, Hu.
  - intros m p Hm%Em. destruct (H4 m p Hm) as [d E]. by eapply Hd.
Qed.

(** An event of device [p]. *)
Lemma counted_signal tr A op p :
  counted tr A -> (forall f, file_on f ((op, OEvent p) :: tr) = file_on f tr) ->
  (forall f q, unread f q ((op, OEvent p) :: tr) = if p =? q then unread f q tr + 1 else unread f q tr) ->
  words_ok P ((op, OEvent p) :: tr) -> counted ((op, OEvent p) :: tr) (signal p A).
Proof.
  intros [H1 H2 H3 H4 H5] Ho Hu Hw. split; [| | | |done]; cbn [a_devs a_files a_minors signal].
  - intros q d Hq. cbn [events]. destruct (Z.eqb_spec p q) as [<-|Hne].
    + rewrite lookup_alter_eq. destruct (a_devs A !! p) as [d0|] eqn:E; [|done]. cbn. intros [= <-]. cbn.
      rewrite (H1 _ _ Hq E). unfold atomic_inc. by rewrite s32_add_l.
    + rewrite lookup_alter_ne by done. by apply H1.
  - intros f q Hq. rewrite Ho. by apply H2.
  - intros f x Hf. destruct (H3 f x Hf) as (d & E & Hs). rewrite Hu. cbn [events].
    destruct (Z.eqb_spec p (a_on x)) as [->|Hne].
    + rewrite lookup_alter_eq, E. eexists. split; [done|]. intros HP. rewrite (Hs HP). f_equal. lia.
    + rewrite lookup_alter_ne by done. eauto.
  - intros m q Hm. destruct (H4 m q Hm) as [d E]. destruct (decide (q = p)) as [->|Hne].
    + rewrite lookup_alter_eq, E. by eexists.
    + rewrite lookup_alter_ne by done. by eexists.
Qed.

(** The file takes the count of its device. *)
Lemma counted_take tr A op o f p d :
  counted tr A -> a_devs A !! p = Some d -> (forall q, events q ((op, o) :: tr) = events q tr) ->
  (forall g q, P q -> file_on g ((op, o) :: tr) = Some q <-> if f =? g then p = q else file_on g tr = Some q) ->
  (forall g q, unread g q ((op, o) :: tr) = if f =? g then 0 else unread g q tr) -> words_ok P ((op, o) :: tr) ->
  counted ((op, o) :: tr) (on_files (insert f (AFile p (a_count d))) A).
Proof.
  intros [H1 H2 H3 H4 H5] Hd He Ho Hu Hw. split; [| | |done|done]; cbn [a_devs a_files on_files].
  - intros q d' Hq E. rewrite He. by apply H1.
  - intros g q Hq. rewrite (Ho g q Hq). destruct (Z.eqb_spec f g) as [<-|].
    + rewrite lookup_insert_eq. cbn. split; [by intros [= ->]|by intros ->].
    + rewrite lookup_insert_ne by done. by apply H2.
  - intros g x. rewrite Hu, He. destruct (Z.eqb_spec f g) as [<-|].
    + rewrite lookup_insert_eq. intros [= <-]. cbn. exists d. split; [done|]. intros Hp. rewrite (H1 _ _ Hp Hd). f_equal. lia.
    + rewrite lookup_insert_ne by done. apply H3.
Qed.

(** Something is unread exactly when the counts differ. *)
Lemma unread_iff tr A f x d :
  counted tr A -> P (a_on x) -> a_files A !! f = Some x -> a_devs A !! a_on x = Some d ->
  (a_seen x = a_count d <-> unread f (a_on x) tr mod 2 ^ 32 = 0).
Proof.
  intros Hc Hp Hf Hd. destruct (co_file _ _ Hc _ _ Hf) as (d' & Hd' & E). rewrite (E Hp), (co_dev _ _ Hc _ _ Hp Hd), (comm eq (s32 _)), s32_eq_iff.
  by replace (events (a_on x) tr - (events (a_on x) tr - unread f (a_on x) tr)) with (unread f (a_on x) tr) by lia.
Qed.

Lemma counted_step tr A op o A' : counted tr A -> astep op o A A' -> counted ((op, o) :: tr) A'.
Proof.
  intros Hc Hs. pose proof (co_words _ _ Hc) as Hw. destruct Hs; try (apply (counted_same tr A); done).
  - apply counted_take; try done. intros g q _. cbn [file_on]. destruct (f =? g); [|done]. split; [by intros [= ->]|by intros ->].
  - apply counted_reap. destruct Hc as [H1 H2 H3 H4 H5]. split; cbn [a_devs a_files a_minors on_files]; try done.
    + intros g q Hq. cbn [file_on]. destruct (Z.eqb_spec f g) as [<-|]; [by rewrite lookup_delete_eq|].
      rewrite lookup_delete_ne by done. by apply H2.
    + intros g y. destruct (decide (f = g)) as [<-|]; [by rewrite lookup_delete_eq|]. rewrite lookup_delete_ne by done. apply H3.
  - apply counted_take; try done.
    + intros g q Hq. cbn [file_on]. destruct (Z.eqb_spec f g) as [<-|]; [|done].
      rewrite <- (co_on _ _ Hc f q Hq), H. cbn. split; [by intros [= ->]|by intros ->].
    + cbn [words_ok]. split; [done|]. exists (a_on x). split.
      * intros Hp. split; [by apply (co_on _ _ Hc f _ Hp); rewrite H|].
        split; [by rewrite (co_dev _ _ Hc _ _ Hp H0)|by rewrite <- (unread_iff tr A f x d)].
      * intros q Hq Hon. apply (co_on _ _ Hc f q Hq) in Hon. rewrite H in Hon. cbn in Hon. congruence.
  - destruct H3 as [->|[-> ->]]; apply (counted_same tr A); try done.
  - apply counted_signal; try done. 
  - apply counted_signal; try done.
  - destruct Hc as [C1 C2 C3 C4 C5]. split; cbn [a_devs a_files a_minors words_ok file_on unread]; try done.
    + intros q d Hq. cbn [events]. destruct (Z.eqb_spec p q) as [<-|]; [rewrite lookup_insert_eq; by intros [= <-]|].
      rewrite lookup_insert_ne by done. by apply C1.
    + intros f x Hf. destruct (C3 f x Hf) as (d & Hd & Hs). exists d. cbn [events].
      assert (p <> a_on x) by congruence. rewrite lookup_insert_ne by done. by rewrite (proj2 (Z.eqb_neq _ _)).
    + intros k q. destruct (decide (m = k)) as [<-|].
      * rewrite lookup_insert_eq. intros [= <-]. rewrite lookup_insert_eq. by eexists.
      * rewrite lookup_insert_ne by done. intros Hk. destruct (C4 k q Hk) as [d Hd]. exists d.
        rewrite lookup_insert_ne; [done|]. congruence.
  - apply counted_reap, (counted_same tr A); try done; cbn [a_devs a_minors].
    + intros q. destruct (decide (a_dev i = q)) as [<-|]; [|by rewrite lookup_alter_ne].
      rewrite lookup_alter_eq. by destruct (a_devs A !! a_dev i).
    + intros k q. rewrite lookup_delete_Some. by intros [_ ?].
  - destruct op; try discriminate H; by apply (counted_same tr A).
Qed.

(** From a service without devices and files. *)
Definition a_empty (A : astate) : Prop := a_devs A = ∅ /\ a_minors A = ∅ /\ a_files A = ∅.

Lemma arun_counted A0 tr A : a_empty A0 -> arun A0 tr A -> counted tr A.
Proof.
  intros (E1 & E2 & E3). induction 1; [|by eapply counted_step].
  split; rewrite ?E1, ?E2, ?E3; intros; try done; rewrite lookup_empty in *; done.
Qed.
End counted.
