(* ===== verification/UioAbstract.v ===== *)
(** * The UIO core implements the event service

    [abs] reads the state of [UioEvents] off the memory and the minor numbers of the
    core; [exec] runs an operation and shows its answer.  Every step of the core is a
    step of the service, so every run of the core is a run of the service. *)

From S2P Require Import Prelude Kernel UioTypes UioAttr UioDevice UioFile UioMmap UioTables KLogic UioInv UioSpec UioOpen UioAttrSpec UioReg UioSystem ModuleSpec UioEvents.

(** ** The service's view of the core *)

Definition info_view (i : uio_info) : ainfo := AInfo (i_irq i) (i_uio_dev i).

Section view.
Context {D : Type}.
Implicit Types (w : world D) (F : gset Z).

(** A device the core still holds a reference on. *)
Definition dev_view w (p : Z) (o : hobj) : option adev :=
  d ← as_idev (Some o); if dev_refs p (w_hist w) =? 0 then None else Some (ADev (d_info d) (d_event d)).
Definition file_view w F (f l : Z) : option afile :=
  if decide (f ∈ F) then lst ← as_lsn (w_heap w !! l); Some (AFile (l_dev lst) (l_event_count lst)) else None.

Definition abs w F : astate := AState
  (map_imap (dev_view w) (w_heap w)) (idr_of (w_hist w)) (info_view <$> w_info w)
  (map_imap (file_view w F) (w_priv w)).

Lemma abs_files w F f :
  a_files (abs w F) !! f = (l ← w_priv w !! f; file_view w F f l).
Proof. apply map_lookup_imap. Qed.

Lemma abs_devs w F p : a_devs (abs w F) !! p = (o ← w_heap w !! p; dev_view w p o).
Proof. apply map_lookup_imap. Qed.

Lemma abs_infos w F x : a_infos (abs w F) !! x = info_view <$> w_info w !! x.
Proof. apply lookup_fmap. Qed.

(** What the service sees of an object. *)
Definition hcore (o : option hobj) : option (Z * Z + Z * Z) :=
  match o with
  | Some (HIdev d) => Some (inl (d_info d, d_event d))
  | Some (HLsn l) => Some (inr (l_dev l, l_event_count l))
  | _ => None
  end.

Lemma dev_view_core w w' F F' p :
  hcore (w_heap w' !! p) = hcore (w_heap w !! p) -> dev_refs p (w_hist w') = dev_refs p (w_hist w) ->
  a_devs (abs w' F') !! p = a_devs (abs w F) !! p.
Proof.
  intros Hc Hr. rewrite !abs_devs. unfold dev_view.
  destruct (w_heap w' !! p) as [[]|], (w_heap w !! p) as [[]|]; cbn in *; try done.
  injection Hc as -> ->. by rewrite Hr.
Qed.

Lemma file_view_core w w' F F' f :
  w_priv w' !! f = w_priv w !! f -> (forall l, w_priv w !! f = Some l -> f ∈ F -> hcore (w_heap w' !! l) = hcore (w_heap w !! l)) ->
  (f ∈ F' <-> f ∈ F) -> a_files (abs w' F') !! f = a_files (abs w F) !! f.
Proof.
  intros Hp Hc HF. rewrite !abs_files, Hp. destruct (w_priv w !! f) as [l|]; [|done]. specialize (Hc l eq_refl).
  cbn [mbind option_bind]. unfold file_view. destruct (decide (f ∈ F)) as [HfF|HfF]; [|rewrite decide_False; [done|tauto]].
  rewrite decide_True by tauto. specialize (Hc HfF).
  destruct (w_heap w' !! l) as [[]|], (w_heap w !! l) as [[]|]; cbn in *; try done. by injection Hc as -> ->.
Qed.

(** Two worlds the service cannot tell apart. *)
Lemma abs_eq w F A :
  (forall p, a_devs (abs w F) !! p = a_devs A !! p) -> idr_of (w_hist w) = a_minors A ->
  (forall x, a_infos (abs w F) !! x = a_infos A !! x) -> (forall f, a_files (abs w F) !! f = a_files A !! f) ->
  abs w F = A.
Proof.
  intros H1%map_eq H2 H3%map_eq H4%map_eq. destruct A. unfold abs in *. cbn in *. by subst.
Qed.
End view.

(** ** Operations with their answers *)

Section exec.
Context `{HK : Kernel, HU : Uapi} {D : Type} `{HD : !UioDriver D}.
Set Default Proof Using "All".
Implicit Types (w : world D) (F : gset Z).

(** The word of the last [copy_to_user], when it succeeded. *)
Definition given (h : hist) : option Z :=
  match h with
  | Ev (CopyToUser e _) r _ :: _ => if r =? 0 then Some e else None
  | _ => None
  end.

(** [do_op] with the answer of the operation. *)
Definition exec (op : uop) (F : gset Z) : K D (obs * gset Z) :=
  match op with
  | OpOpen minor inode f =>
      r ← fop_open uio_fops minor inode f;
      p ← gets (fun w => default 0 (dev_of w f));
      mret (if r =? 0 then (OOn p, {[f]} ∪ F) else (ORet r, F))
  | OpPoll f => r ← fop_poll uio_fops f; mret (ORet r, F)
  | OpReadPass f count nb =>
      x ← read_pass f count nb;
      e ← gets (fun w => given (w_hist w));
      mret (match x with ReadBreak v => if v =? count then OWord e else ORet v | ReadAgain => OAsleep end, F)
  | OpWrite f count => r ← fop_write uio_fops f count; mret (ORet r, F)
  | OpNotify info => i ← load_info info; uio_event_notify info;; mret (OEvent (i_uio_dev i), F)
  | OpIrqThread irq dev => _ ← uio_interrupt_thread irq dev; mret (OEvent dev, F)
  | OpRegister owner parent info =>
      r ← __uio_register_device owner parent info;
      p ← gets (fun w => default 0 (i_uio_dev <$> w_info w !! info));
      mret (if r =? 0 then ONew p else ORet r, F)
  | _ => F' ← do_op op F; mret (ONone, F')
  end.

(** [exec] is [do_op]. *)
Lemma exec_do op F w :
  do_op op F w = match exec op F w with Some ((_, F'), w') => Some (F', w') | None => None end.
Proof.
  destruct op; cbn [exec]; unfold mbind, K_bind; try (by destruct (do_op _ F w) as [[]|]);
    cbn [do_op uio_fops fop_open fop_poll fop_write]; unfold mbind, K_bind, gets, mret, K_ret.
  - destruct (uio_open _ _ _ w) as [[r w1]|]; [|done]. by destruct (r =? 0).
  - by destruct (uio_poll _ w) as [[]|].
  - by destruct (read_pass _ _ _ w) as [[]|].
  - by destruct (uio_write _ _ w) as [[]|].
  - unfold uio_event_notify, mbind, K_bind. destruct (load_info info w) as [[i w1]|] eqn:E; [|done].
    assert (w1 = w) as -> by (revert E; unfold load_info, get_some; destruct (w_info w !! info); congruence).
    rewrite E. by destruct (mod_idev _ _ w) as [[]|].
  - by destruct (uio_interrupt_thread _ _ w) as [[]|].
  - by destruct (__uio_register_device _ _ _ w) as [[]|].
Qed.

(** A run with its trace, the newest operation first. *)
Fixpoint run_trace (ops : list uop) (tr : list (uop * obs)) (F : gset Z) : K D (list (uop * obs) * gset Z) :=
  match ops with
  | [] => mret (tr, F)
  | op :: ops' => oF ← exec op F; run_trace ops' ((op, oF.1) :: tr) oF.2
  end.

Lemma run_trace_ops ops : forall tr F w,
  run_ops ops F w = match run_trace ops tr F w with Some ((_, F'), w') => Some (F', w') | None => None end.
Proof.
  induction ops as [|op ops IH]; intros tr F w; [done|]. cbn [run_ops run_trace]. unfold mbind, K_bind.
  rewrite exec_do. destruct (exec op F w) as [[[o F'] w']|]; [|done]. cbn [fst snd]. apply IH.
Qed.

Lemma run_trace_fst ops : forall tr F w tr' F' w',
  run_trace ops tr F w = Some ((tr', F'), w') -> tr'.*1 = rev ops ++ tr.*1.
Proof.
  induction ops as [|op ops IH]; intros tr F w tr' F' w' Hr; cbn [run_trace] in Hr.
  - by injection Hr as -> _ _.
  - unfold mbind, K_bind in Hr. destruct (exec op F w) as [[[o F1] w1]|]; [|done].
    rewrite (IH _ _ _ _ _ _ Hr). cbn. by rewrite <- app_assoc.
Qed.
End exec.

(** ** What an operation leaves alone

    [spares S al okM okI okF]: objects at addresses of [S], the bindings of the infos of
    [okI], the private data of the files of [okF] and, with [okM], the minor numbers stay
    as they are; if the operation allocates ([al]), [S] is allocated memory. *)
Section spares.
Context `{HK : Kernel} {D : Type}.
Context (S : Z -> Prop) (al okM : Prop) (okI okF : Z -> Prop).
Set Default Proof Using "All".
Implicit Types w : world D.

Definition covered w : Prop := al -> forall q, S q -> q ∈ live (w_hist w).

Record spared w w' : Prop := Spared {
  sp_cover : covered w';
  sp_heap q : S q -> hcore (w_heap w' !! q) = hcore (w_heap w !! q);
  sp_idr : okM -> idr_of (w_hist w') = idr_of (w_hist w);
  sp_irq x : i_irq <$> w_info w' !! x = i_irq <$> w_info w !! x;
  sp_bind x : okI x -> i_uio_dev <$> w_info w' !! x = i_uio_dev <$> w_info w !! x;
  sp_priv f : okF f -> w_priv w' !! f = w_priv w !! f }.

Definition spares w w' : Prop := covered w -> spared w w'.

#[export] Instance spares_preorder : PreOrder spares.
Proof.
  split; [intros w Hc; by split|]. intros w1 w2 w3 H1 H2 Hc. destruct (H1 Hc) as [A1 A2 A3 A4 A5 A6].
  destruct (H2 A1) as [B1 B2 B3 B4 B5 B6].
  split; [done|..]; intros; [rewrite B2, A2|rewrite B3, A3|rewrite B4, A4|rewrite B5, A5|rewrite B6, A6]; done.
Qed.

Lemma spares_logged c w :
  match c with
  | Kzalloc _ | Kmalloc _ | DevmKzalloc _ => False
  | Kfree p => ~ S p
  | IdrAlloc _ _ _ | IdrRemove _ | IdrDestroy => ~ okM
  | _ => True
  end ->
  spares w (logged c w).
Proof.
  intros Hc Hw. split; intros; wsimpl_goal; try done; [|gsimpl; by destruct c].
  intros Ha q Hq. specialize (Hw Ha q Hq). gsimpl.
  destruct c; try done. apply elem_of_difference. split; [done|]. intros ->%elem_of_singleton. done.
Qed.

Lemma spares_store p o w : ~ S p -> spares w (set_heap (insert p o) w).
Proof.
  intros Hp Hw. split; intros; wsimpl_goal; try done.
  rewrite lookup_insert_ne; [done|]. by intros ->.
Qed.

Lemma spares_info p i i' w :
  w_info w !! p = Some i -> i_irq i' = i_irq i -> (okI p -> i_uio_dev i' = i_uio_dev i) -> spares w (set_info (insert p i') w).
Proof.
  intros Hi H1 H2 Hw. split; intros; wsimpl_goal; try done;
    (destruct (decide (p = x)) as [<-|]; [rewrite lookup_insert_eq, Hi; cbn|by rewrite lookup_insert_ne]).
  - by rewrite H1.
  - by rewrite H2.
Qed.

Lemma spares_frame w w' : core_frame w w' -> spares w w'.
Proof.
  intros Hf Hw. pose proof Hf as [E1 E2 E3 _ _]. split; intros; rewrite ?E1, ?E2, ?E3; try done.
  - unfold covered. by rewrite (frame_live _ _ Hf).
  - by apply frame_idr.
Qed.

(** *** Computations *)

Lemma spare_ret {A} (a : A) : keeps spares (mret (M:=K D) a).
Proof. apply keeps_ret, _. Qed.
Lemma spare_bind {A B} (m : K D A) (f : A -> K D B) :
  keeps spares m -> (forall a, keeps spares (f a)) -> keeps spares (m ≫= f).
Proof. apply keeps_bind, _. Qed.
Lemma spare_get {A} (f : world D -> option A) : keeps spares (get_some f).
Proof. apply keeps_get, _. Qed.
Lemma spare_gets {A} (f : world D -> A) : keeps spares (gets f).
Proof. intros w a w' [= <- <-]. reflexivity. Qed.
Lemma spare_oops {A} : keeps spares (oops (D:=D) (A:=A)).
Proof. intros w a w' [=]. Qed.
Definition spare_call_ok (c : kcall) : bool :=
  match c with Kzalloc _ | Kmalloc _ | DevmKzalloc _ | Kfree _ => false | _ => true end.
Definition idr_call (c : kcall) : bool :=
  match c with IdrAlloc _ _ _ | IdrRemove _ | IdrDestroy => true | _ => false end.
Lemma spares_ok_call c w : spare_call_ok c = true -> idr_call c = false \/ ~ okM -> spares w (logged c w).
Proof. intros Hc Hm. apply spares_logged. destruct c; try done; by destruct Hm. Qed.
Lemma spare_call_out c : spare_call_ok c = true -> idr_call c = false \/ ~ okM -> keeps spares (call_out (D:=D) c).
Proof.
  intros Hc Hm w a w' Hr. refine (wp_run _ _ (fun _ w'' => spares w w'') _ _ _ Hr).
  by apply wp_call_out, spares_ok_call.
Qed.
Lemma spare_call c : spare_call_ok c = true -> idr_call c = false \/ ~ okM -> keeps spares (call (D:=D) c).
Proof. intros Hc Hm w a w'. rewrite call_run. intros [= <- <-]. by apply spares_ok_call. Qed.
Lemma spare_do c : spare_call_ok c = true -> idr_call c = false \/ ~ okM -> keeps spares (do_ (D:=D) c).
Proof. intros Hc Hm. apply keeps_do; [apply _|]. intros w. by apply spares_ok_call. Qed.
Lemma spare_frame {A} (m : K D A) : keeps core_frame m -> keeps spares m.
Proof. intros Hm w a w' Hr. by eapply spares_frame, Hm. Qed.
Lemma spare_init p o : ~ S p -> keeps spares (init_obj (D:=D) p o).
Proof. intros Hp w a w' [= <- <-]. by apply spares_store. Qed.
Lemma spare_priv f l : ~ okF f -> keeps spares (modify (D:=D) (set_priv (insert f l))).
Proof.
  intros Hf w a w' [= <- <-] Hw. split; intros; wsimpl_goal; try done.
  rewrite lookup_insert_ne; [done|]. by intros ->.
Qed.
Lemma spare_mod_idev p f : ~ S p -> keeps spares (mod_idev (D:=D) p f).
Proof. intros Hp. apply spare_bind; [apply spare_get|]. intros d w a w' [= <- <-]. by apply spares_store. Qed.
Lemma spare_mod_lsn p f : ~ S p -> keeps spares (mod_lsn (D:=D) p f).
Proof. intros Hp. apply spare_bind; [apply spare_get|]. intros d w a w' [= <- <-]. by apply spares_store. Qed.
Lemma spare_mod_info p f :
  (forall i, i_irq (f i) = i_irq i) -> (okI p -> forall i, i_uio_dev (f i) = i_uio_dev i) -> keeps spares (mod_info (D:=D) p f).
Proof.
  intros H1 H2 w a w'. unfold mod_info, load_info, get_some, modify, mbind, K_bind.
  destruct (w_info w !! p) as [i|] eqn:E; [|done]. intros [= <- <-]. eapply spares_info; eauto.
Qed.
Lemma spare_mod_mem p f : keeps spares (mod_mem (D:=D) p f).
Proof. unfold mod_mem, load_mem, load_info. repeat first [by apply spare_mod_info | apply spare_get | apply spare_bind; [|intros]]. Qed.
Lemma spare_mod_port p f : keeps spares (mod_port (D:=D) p f).
Proof. unfold mod_port, load_port, load_info. repeat first [by apply spare_mod_info | apply spare_get | apply spare_bind; [|intros]]. Qed.

Lemma spare_kfree p : ~ S p -> keeps spares (kfree (D:=D) p).
Proof.
  intros Hp. unfold kfree. destruct (p =? NULL).
  - apply keeps_do; [apply _|]. intros w. by apply spares_logged.
  - apply spare_bind; [apply spare_get|]. intros _. apply spare_bind; [apply keeps_do; [apply _|]; intros w; by apply spares_logged|].
    intros _ w a w' [= <- <-] Hw. split; intros; wsimpl_goal; try done.
    rewrite lookup_delete_ne; [done|]. by intros ->.
Qed.

(** Fresh memory is not in [S]. *)
Lemma spare_alloc `{!KernelOk} c {A} (f : K D A) (g : Z -> K D A) :
  al -> is_alloc c -> keeps spares f -> (forall p, ~ S p -> keeps spares (g p)) ->
  keeps spares (p ← call c; if p =? NULL then f else g p).
Proof.
  intros Hal Hc Hf Hg w a w' Hr Hw. unfold mbind, K_bind in Hr. rewrite call_run in Hr.
  assert (Hs : spared w (logged c w)).
  { split; intros; wsimpl_goal; try done; [|gsimpl; by destruct c].
    intros _ q Hq. specialize (Hw Hal q Hq). gsimpl. destruct c; try done; (destruct (_ =? 0); [done|by apply elem_of_union_r]). }
  revert Hs Hr. set (w1 := logged c w). set (p := kernel (w_hist w) c). intros Hs Hr.
  assert (H2 : spares w1 w').
  { destruct (Z.eqb_spec p NULL) as [E|E]; [by apply (Hf _ _ _ Hr)|]. apply (Hg p) with (2 := Hr).
    intros Hp. destruct (alloc_fresh (w_hist w) c Hc) as [?|[_ Hfr]]; [done|]. by apply Hfr, Hw. }
  assert (H1 : spares w w1) by (intros _; exact Hs). by apply (transitivity H1 H2).
Qed.
End spares.

(** Without allocations there is nothing to cover. *)
Lemma spares_free `{Kernel} {D} S okM okI okF (w w' : world D) : spares S False okM okI okF w w' -> spared S False okM okI okF w w'.
Proof. intros Hs. apply Hs. by intros []. Qed.

Ltac spare_idr := first [left; reflexivity | right; tauto].

(** One step of a computation. *)
Ltac spare_keep :=
  first
    [ apply spare_ret | apply spare_gets | apply spare_get | apply spare_oops
    | apply spare_mod_idev; assumption | apply spare_mod_lsn; assumption | apply spare_mod_mem | apply spare_mod_port
    | apply spare_mod_info; [done|done] | apply spare_mod_info; [done|intros; by exfalso]
    | apply spare_init; assumption | apply spare_priv; [tauto || assumption] | apply spare_kfree; assumption
    | apply spare_alloc; [assumption|exact I|exact I| |intros]
    | apply spare_do; [reflexivity|spare_idr] | apply spare_call; [reflexivity|spare_idr]
    | apply spare_call_out; [reflexivity|spare_idr]
    | apply spare_bind; [|intros]
    | case_match | progress cbn beta zeta ].

(** ** The operations, one by one *)

Section operations.
Context `{HK : Kernel, HU : Uapi} {D : Type} `{HD : !UioDriver D, HF : !UioDriverFrame D}.
Set Default Proof Using "All".
Implicit Types (w : world D) (F : gset Z).

Ltac sp1 :=
  first [ apply spare_frame; first [ apply frame_open | apply frame_release | apply frame_irqcontrol
                                   | apply frame_mmap | apply frame_handler ]
         | spare_keep | unfold load_idev, load_lsn, load_info, load_priv, load_mem, load_port, load_map, load_portio ].

(** *** Nothing changes *)

Definition all_z (_ : Z) : Prop := True.
Definition still : world D -> world D -> Prop := spares all_z False True all_z all_z.

Lemma still_poll f : keeps still (uio_poll (D:=D) f).
Proof. unfold uio_poll, no_irq, still. repeat sp1. Qed.
Lemma still_write f count : keeps still (uio_write (D:=D) f count).
Proof. unfold uio_write, still. repeat sp1. Qed.
Lemma still_mmap f v : keeps still (uio_mmap (D:=D) f v).
Proof.
  unfold uio_mmap, uio_mmap_physical, uio_mmap_logical, uio_mmap_dma_coherent, uio_find_mem_index, still. repeat sp1.
Qed.
Lemma still_fault v pgoff : keeps still (uio_vma_fault (D:=D) v pgoff).
Proof. unfold uio_vma_fault, uio_find_mem_index, still. repeat sp1. Qed.
Lemma still_fasync fd f on : keeps still (uio_fasync (D:=D) fd f on).
Proof. unfold uio_fasync, still. repeat sp1. Qed.
Lemma still_handler irq dev : keeps still (uio_interrupt_handler (D:=D) irq dev).
Proof. unfold uio_interrupt_handler, still. repeat sp1. Qed.
Lemma still_show n nm show dev : uio_attrs (D:=D) !! n = Some (nm, show) -> keeps still (show dev).
Proof.
  intros Hn. destruct n as [|[|[|n]]]; simpl in Hn; try discriminate; injection Hn as <- <-;
    unfold name_show, version_show, event_show, still; repeat sp1.
Qed.
Lemma still_map_show n entry kobj : map_attrs (D:=D) !! n = Some entry -> keeps still (map_type_show kobj entry).
Proof.
  intros Hn. destruct n as [|[|[|[|n]]]]; simpl in Hn; try discriminate; injection Hn as <-;
    unfold map_type_show; cbn [me_show name_attribute addr_attribute size_attribute offset_attribute];
    unfold map_name_show, map_addr_show, map_size_show, map_offset_show, still; repeat sp1.
Qed.
Lemma still_portio_show n entry kobj : portio_attrs (D:=D) !! n = Some entry -> keeps still (portio_type_show kobj entry).
Proof.
  intros Hn. destruct n as [|[|[|[|n]]]]; simpl in Hn; try discriminate; injection Hn as <-;
    unfold portio_type_show; cbn [pe_show portio_name_attribute portio_start_attribute portio_size_attribute portio_porttype_attribute];
    unfold portio_name_show, portio_start_show, portio_size_show, portio_porttype_show, still; repeat sp1.
Qed.

(** *** Objects that were there stay *)

Section old.
Context `{!KernelOk} (S : Z -> Prop).

Lemma old_add_maps idev okM okI okF n : ~ S idev -> forall k b, keeps (spares S True okM okI okF) (add_maps (D:=D) n k b idev).
Proof. intros Hi. induction n as [|n IH]; intros k b; cbn [add_maps]; repeat (apply IH || sp1). Qed.
Lemma old_add_ports idev okM okI okF n : ~ S idev -> forall k b, keeps (spares S True okM okI okF) (add_ports (D:=D) n k b idev).
Proof. intros Hi. induction n as [|n IH]; intros k b; cbn [add_ports]; repeat (apply IH || sp1). Qed.
Lemma old_put_maps idev okM okI okF n : keeps (spares S True okM okI okF) (put_maps (D:=D) n idev).
Proof. induction n as [|n IH]; cbn [put_maps]; repeat (apply IH || sp1). Qed.
Lemma old_put_ports idev okM okI okF n : keeps (spares S True okM okI okF) (put_ports (D:=D) n idev).
Proof. induction n as [|n IH]; cbn [put_ports]; repeat (apply IH || sp1). Qed.
Lemma old_del_maps idev okM okI okF n : forall k, keeps (spares S True okM okI okF) (del_maps (D:=D) n k idev).
Proof. induction n as [|n IH]; intros k; cbn [del_maps]; repeat (apply IH || sp1). Qed.
Lemma old_del_ports idev okM okI okF n : forall k, keeps (spares S True okM okI okF) (del_ports (D:=D) n k idev).
Proof. induction n as [|n IH]; intros k; cbn [del_ports]; repeat (apply IH || sp1). Qed.

Lemma old_add_attributes idev okM okI okF : ~ S idev -> keeps (spares S True okM okI okF) (uio_dev_add_attributes (D:=D) idev).
Proof.
  intros Hi. unfold uio_dev_add_attributes, err_portio_kobj, err_map_kobj.
  repeat (apply old_add_maps || apply old_add_ports || apply old_put_maps || apply old_put_ports || assumption || sp1).
Qed.
Lemma old_del_attributes idev okM okI okF : keeps (spares S True okM okI okF) (uio_dev_del_attributes (D:=D) idev).
Proof. unfold uio_dev_del_attributes. repeat (apply old_del_maps || apply old_del_ports || sp1). Qed.

Lemma old_register owner parent info :
  keeps (spares S True False (fun x => x <> info) all_z) (__uio_register_device (D:=D) owner parent info).
Proof.
  unfold __uio_register_device, register_args_bad, uio_get_minor, err_request_irq, err_uio_dev_add_attributes,
    err_device_create, uio_free_minor.
  repeat ((apply old_add_attributes; assumption) || apply old_del_attributes || sp1).
Qed.

Lemma old_open minor inode f : keeps (spares S True True all_z (fun g => g <> f)) (uio_open (D:=D) minor inode f).
Proof. unfold uio_open, err_infoopen, err_alloc_listener, err_module_get. repeat sp1. Qed.
End old.

Lemma priv_release inode f : keeps (spares (fun _ => False) False True all_z all_z) (uio_release (D:=D) inode f).
Proof. unfold uio_release. repeat ((apply spare_kfree; tauto) || sp1). Qed.

Lemma read_spares l idev count nb : keeps (spares (fun q => q <> l) False True all_z all_z) (read_iter (D:=D) l idev count nb).
Proof. unfold read_iter, no_irq. repeat ((apply spare_mod_lsn; tauto) || sp1). Qed.
End operations.

(** ** Reading the service's state off an invariant state *)

Section relate.
Context `{HK : Kernel, HU : Uapi} {D : Type} `{HD : !UioDriver D, HDok : !UioDriverOk D}.
Set Default Proof Using "All".
Implicit Types (w : world D) (F : gset Z) (σ : gmap Z nat).

Definition adev_of (d : uio_device) : adev := ADev (d_info d) (d_event d).

Lemma abs_file w F f l lst :
  f ∈ F -> w_priv w !! f = Some l -> w_heap w !! l = Some (HLsn lst) ->
  a_files (abs w F) !! f = Some (AFile (l_dev lst) (l_event_count lst)).
Proof. intros Hf Hp Hl. rewrite abs_files, Hp. cbn. unfold file_view. by rewrite decide_True, Hl. Qed.

Lemma abs_file_out w F f : f ∉ F -> a_files (abs w F) !! f = None.
Proof. intros Hf. rewrite abs_files. destruct (w_priv w !! f); [|done]. cbn. unfold file_view. by rewrite decide_False. Qed.

Lemma abs_file_in w F f x : a_files (abs w F) !! f = Some x -> f ∈ F /\ dev_of w f = Some (a_on x).
Proof.
  destruct (decide (f ∈ F)) as [Hf|Hf]; [|by rewrite abs_file_out]. rewrite abs_files. unfold dev_of.
  destruct (w_priv w !! f) as [l|]; [|done]. cbn. unfold file_view. rewrite decide_True by done.
  destruct (as_lsn (w_heap w !! l)); [|done]. cbn. by intros [= <-].
Qed.

(** A device is in use exactly when the core holds a reference on it. *)
Lemma in_use_refs w F σ p d :
  core_inv w F σ -> w_heap w !! p = Some (HIdev d) -> (in_use (abs w F) p <-> dev_refs p (w_hist w) <> 0).
Proof.
  intros Hi Hd. rewrite (ci_refs _ _ _ Hi _ _ Hd). unfold reg_count, in_use.
  split.
  - intros [(m & q & Hm & ->)|(f & x & Hx & Hp)].
    + destruct (ci_idr _ _ _ Hi _ _ Hm) as (d' & _ & Hd' & Hm' & _). assert (d' = d) as -> by congruence.
      rewrite decide_True; [lia|]. unfold registered. by rewrite Hm'.
    + apply abs_file_in in Hx as [Hf Hdev]. pose proof (count_pos (dev_of w) F f p Hf) as Hpos. rewrite Hp in Hdev.
      specialize (Hpos Hdev). unfold opens. case_decide; lia.
  - case_decide as Hr; [by left; exists (d_minor d), p|]. intros Hz. right.
    destruct (decide (filter (fun f => dev_of w f = Some p) F = ∅)) as [E|E].
    { exfalso. apply Hz. unfold opens, count_files. by rewrite E. }
    apply set_choose_L in E as [f Hf%elem_of_filter]. destruct Hf as [Hdev Hf].
    destruct (open_file _ _ _ _ Hi Hf) as (l & lst & d' & Hp & Hl & _ & Hdev' & _).
    exists f, (AFile (l_dev lst) (l_event_count lst)). split; [by apply (abs_file w F f l)|]. cbn. congruence.
Qed.

Lemma abs_dev_spec w F σ p : core_inv w F σ ->
  a_devs (abs w F) !! p = (if decide (in_use (abs w F) p) then adev_of <$> as_idev (w_heap w !! p) else None).
Proof.
  intros Hi. rewrite abs_devs. destruct (w_heap w !! p) as [[d|l|m|q]|] eqn:E; cbn; try by case_decide.
  pose proof (in_use_refs w F σ p d Hi E) as Hr. destruct (Z.eqb_spec (dev_refs p (w_hist w)) 0) as [Hz|Hz].
  - rewrite decide_False; [done|]. tauto.
  - rewrite decide_True by tauto. done.
Qed.

Lemma abs_dev w F σ p d : core_inv w F σ -> in_use (abs w F) p -> w_heap w !! p = Some (HIdev d) ->
  a_devs (abs w F) !! p = Some (adev_of d).
Proof. intros Hi Hu Hd. rewrite (abs_dev_spec _ _ _ _ Hi), decide_True, Hd by done. done. Qed.

Lemma in_use_open w F σ f p : core_inv w F σ -> f ∈ F -> dev_of w f = Some p -> in_use (abs w F) p.
Proof.
  intros Hi Hf Hdev. destruct (open_file _ _ _ _ Hi Hf) as (l & lst & d & Hp & Hl & _ & Hdev' & _).
  assert (l_dev lst = p) as <- by congruence. apply (in_use_file (abs w F) f (AFile (l_dev lst) (l_event_count lst))), (abs_file w F f l lst); done.
Qed.

(** The state of the service is [A]. *)
Lemma abs_is w F σ A :
  core_inv w F σ -> idr_of (w_hist w) = a_minors A ->
  (forall x, info_view <$> w_info w !! x = a_infos A !! x) -> (forall f, a_files (abs w F) !! f = a_files A !! f) ->
  (forall p, in_use A p -> a_devs A !! p = adev_of <$> as_idev (w_heap w !! p)) ->
  (forall p, ~ in_use A p -> a_devs A !! p = None) -> abs w F = A.
Proof.
  intros Hi Hm Hx Hf Hin Hout. apply abs_eq; [|done|by intros x; rewrite abs_infos|done].
  intros p. rewrite (abs_dev_spec _ _ _ _ Hi).
  assert (Hu : in_use (abs w F) p <-> in_use A p).
  { unfold in_use. apply map_eq in Hf. by rewrite Hf, <- Hm. }
  destruct (decide (in_use (abs w F) p)); symmetry; [apply Hin|apply Hout]; tauto.
Qed.

Lemma abs_out w F σ p : core_inv w F σ -> ~ in_use (abs w F) p -> a_devs (abs w F) !! p = None.
Proof. intros Hi Hn. by rewrite (abs_dev_spec _ _ _ _ Hi), decide_False. Qed.
Lemma abs_in w F σ p : core_inv w F σ -> in_use (abs w F) p -> a_devs (abs w F) !! p = adev_of <$> as_idev (w_heap w !! p).
Proof. intros Hi Hn. by rewrite (abs_dev_spec _ _ _ _ Hi), decide_True. Qed.

Lemma hcore_adev o o' : hcore o' = hcore o -> adev_of <$> as_idev o' = adev_of <$> as_idev o.
Proof. destruct o as [[]|], o' as [[]|]; cbn; try done. unfold adev_of. by intros [= -> ->]. Qed.

(** The addresses the service sees: devices in use and listeners of open files. *)
Definition seen_at w F (p : Z) : Prop := in_use (abs w F) p \/ exists f, f ∈ F /\ w_priv w !! f = Some p.

Lemma in_use_idev w F σ p : core_inv w F σ -> in_use (abs w F) p -> exists d, w_heap w !! p = Some (HIdev d).
Proof.
  intros Hi [(m & q & Hq & ->)|(f & x & Hf & <-)].
  - destruct (ci_idr _ _ _ Hi _ _ Hq) as (d & _ & Hd & _). eauto.
  - apply abs_file_in in Hf as [Hf Hdev]. destruct (open_file _ _ _ _ Hi Hf) as (l & lst & d & _ & _ & Hd & Hdev' & _).
    exists d. congruence.
Qed.

Lemma seen_at_obj w F σ p : core_inv w F σ -> seen_at w F p -> exists c, hcore (w_heap w !! p) = Some c.
Proof.
  intros Hi [Hu|(f & Hf & Hp)].
  - destruct (in_use_idev _ _ _ _ Hi Hu) as [d ->]. by eexists.
  - destruct (open_file _ _ _ _ Hi Hf) as (l & lst & d & E1 & E2 & _). assert (l = p) as -> by congruence.
    rewrite E2. by eexists.
Qed.

Lemma seen_at_some w F σ p : core_inv w F σ -> seen_at w F p -> is_Some (w_heap w !! p).
Proof. intros Hi Hs. destruct (seen_at_obj _ _ _ _ Hi Hs) as [c Hc]. by destruct (w_heap w !! p). Qed.

(** A file that stays as it is. *)
Lemma abs_file_same w w' F F' σ f :
  core_inv w F σ -> f ∈ F -> (f ∈ F' <-> f ∈ F) -> w_priv w' !! f = w_priv w !! f ->
  (forall l, w_priv w !! f = Some l -> hcore (w_heap w' !! l) = hcore (w_heap w !! l)) ->
  a_files (abs w' F') !! f = a_files (abs w F) !! f.
Proof. intros Hi Hf HF Hp Hl. apply file_view_core; auto. Qed.

(** The service does not see a difference. *)
Lemma abs_same w w' F σ σ' :
  core_inv w F σ -> core_inv w' F σ' -> idr_of (w_hist w') = idr_of (w_hist w) ->
  (forall p, seen_at w F p -> hcore (w_heap w' !! p) = hcore (w_heap w !! p)) ->
  (forall x, info_view <$> w_info w' !! x = info_view <$> w_info w !! x) ->
  (forall f, f ∈ F -> w_priv w' !! f = w_priv w !! f) -> abs w' F = abs w F.
Proof.
  intros Hi Hi' Hm Hh Hx Hp. apply (abs_is w' F σ'); [done|done|by intros x; rewrite abs_infos| | |].
  - intros f. destruct (decide (f ∈ F)) as [Hf|Hf]; [|by rewrite !abs_file_out].
    apply (abs_file_same w w' F F σ); auto. intros l E. apply Hh. right. eauto.
  - intros p Hu. rewrite (abs_in _ _ _ _ Hi Hu). symmetry. by apply hcore_adev, Hh; left.
  - intros p. by apply abs_out with σ.
Qed.

(** The view of an info, by its parts. *)
Lemma info_view_parts (o o' : option uio_info) :
  i_irq <$> o' = i_irq <$> o -> i_uio_dev <$> o' = i_uio_dev <$> o -> info_view <$> o' = info_view <$> o.
Proof. destruct o, o'; cbn; try done. unfold info_view. by intros [= ->] [= ->]. Qed.

Lemma still_abs w w' F σ σ' : core_inv w F σ -> core_inv w' F σ' -> still w w' -> abs w' F = abs w F.
Proof.
  intros Hi Hi' Hs. destruct (spares_free _ _ _ _ _ _ Hs) as [_ H2 H3 H4 H5 H6].
  apply (abs_same w w' F σ σ' Hi Hi' (H3 I)).
  - intros p _. by apply H2.
  - intros x. apply info_view_parts; [apply H4|by apply H5].
  - intros f _. by apply H6.
Qed.

Lemma a_gone_file w F σ f x : core_inv w F σ -> a_files (abs w F) !! f = Some x -> a_gone (abs w F) (a_on x) = file_gone w f.
Proof.
  intros Hi Hf. pose proof (in_use_file _ _ _ Hf) as Hu. apply abs_file_in in Hf as [Hf Hdev].
  unfold a_gone, file_gone, idev_gone. rewrite Hdev, (abs_in _ _ _ _ Hi Hu). unfold adev_of.
  destruct (as_idev _) as [d|]; [|done]. cbn. rewrite lookup_fmap. by destruct (d_info d =? 0), (w_info w !! d_info d).
Qed.
(** *** Counts *)

(** A device that no file is open on and that has counted nothing. *)
Lemma counted_fresh P w F σ q d :
  core_inv w F σ -> w_heap w !! q = Some (HIdev d) -> d_event d = 0 -> opens w F q = 0%nat ->
  (forall p, P p -> p = q) -> counted P [] (abs w F).
Proof.
  intros Hi Hd He Ho HP.
  assert (Hno : forall f p, P p -> a_on <$> a_files (abs w F) !! f <> Some p).
  { intros f p ->%HP Hf. destruct (a_files (abs w F) !! f) as [x|] eqn:E; [|done]. injection Hf as <-.
    apply abs_file_in in E as [Hf Hdev]. pose proof (count_pos _ F f _ Hf Hdev) as Hpos. unfold opens in Ho. lia. }
  split; [| | | |done].
  - intros p d' ->%HP. rewrite (abs_dev_spec _ _ _ _ Hi). case_decide; [|done]. rewrite Hd. intros [= <-]. cbn. rewrite He. by vm_compute.
  - intros f p Hp. split; [|done]. intros E. by destruct (Hno f p Hp).
  - intros f x Hx. pose proof (in_use_file _ _ _ Hx) as Hu. destruct (in_use_idev _ _ _ _ Hi Hu) as [d' Hd'].
    exists (adev_of d'). split; [by apply (abs_dev w F σ)|]. intros Hp. by destruct (Hno f (a_on x) Hp); rewrite Hx.
  - intros m p Hm. destruct (ci_idr _ _ _ Hi _ _ Hm) as (d' & _ & Hd' & _).
    exists (adev_of d'). by apply (abs_dev w F σ); [|by apply (in_use_minor (abs w F) m)|].
Qed.

(** What the counts say about an open file. *)
Lemma counted_file P tr w F σ f q :
  core_inv w F σ -> counted P tr (abs w F) -> P q -> f ∈ F -> dev_of w f = Some q ->
  file_on f tr = Some q /\ dev_event_count w f = Some (s32 (events q tr)) /\
  event_pending w f = negb (unread f q tr mod 2 ^ 32 =? 0).
Proof.
  intros Hi Hc Hq Hf Hon. destruct (open_file _ _ _ _ Hi Hf) as (l & lst & d & Hp & Hl & Hdv & Hdev & _).
  assert (El : l_dev lst = q) by congruence. pose proof (abs_file w F f l lst Hf Hp Hl) as Hx.
  pose proof (abs_dev w F σ _ d Hi (in_use_open w F σ f _ Hi Hf Hdev) Hdv) as Hv.
  split; [by apply (co_on _ _ _ Hc f _ Hq); rewrite Hx, <- El|]. rewrite El in *. split.
  - by rewrite (dev_event_count_eq w f _ d Hon Hdv), <- (co_dev _ _ _ Hc _ _ Hq Hv).
  - rewrite (event_pending_eq w f _ d l lst Hon Hdv Hp Hl). f_equal. apply eq_true_iff_eq. rewrite !Z.eqb_eq.
    exact (unread_iff P tr (abs w F) f (AFile q (l_event_count lst)) (adev_of d) Hc Hq Hx Hv).
Qed.
End relate.

(** ** Every step is a step of the service *)

Lemma bind_inv {D A B} (m : K D A) (f : A -> K D B) (w : world D) b w' :
  (m ≫= f) w = Some (b, w') -> exists a w1, m w = Some (a, w1) /\ f a w1 = Some (b, w').
Proof. unfold mbind, K_bind. destruct (m w) as [[a w1]|]; [eauto|done]. Qed.

Section simulation.
Context `{HK : Kernel, HU : Uapi, HKok : !KernelOk, HUok : !UapiOk} {D : Type} `{HD : !UioDriver D, HDok : !UioDriverOk D, HF : !UioDriverFrame D}.
Set Default Proof Using "All".
Implicit Types (w : world D) (F : gset Z) (σ : gmap Z nat).

(** *** Events *)

(** An event counted by a caller that may change infos as well. *)
Definition with_infos (m : gmap Z ainfo) (A : astate) : astate := AState (a_devs A) (a_minors A) m (a_files A).

Lemma abs_signal_infos w w' F σ σ' p d :
  core_inv w F σ -> core_inv w' F σ' -> w_heap w !! p = Some (HIdev d) ->
  w_heap w' = <[p := HIdev (upd_event atomic_inc d)]> (w_heap w) -> w_priv w' = w_priv w ->
  idr_of (w_hist w') = idr_of (w_hist w) ->
  abs w' F = with_infos (info_view <$> w_info w') (signal p (abs w F)).
Proof.
  intros Hi Hi' Hd Hh Hp Hm. apply (abs_is w' F σ'); [done|done|intros x; symmetry; apply lookup_fmap| | |].
  - intros f. destruct (decide (f ∈ F)) as [Hf|Hf]; [|by cbn [with_infos signal a_files]; rewrite !abs_file_out].
    apply (abs_file_same w w' F F σ); [done..|by rewrite Hp|]. intros l E. rewrite Hh.
    destruct (open_file _ _ _ _ Hi Hf) as (l' & lst & d' & E1 & E2 & _). rewrite lookup_insert_ne; [done|]. congruence.
  - intros q Hu. change (in_use (abs w F) q) in Hu. cbn [with_infos signal a_devs]. rewrite Hh. destruct (decide (p = q)) as [<-|Hne].
    + by rewrite lookup_alter_eq, (abs_dev _ _ _ _ d Hi Hu Hd), lookup_insert_eq.
    + by rewrite lookup_alter_ne, lookup_insert_ne, (abs_in _ _ _ _ Hi Hu).
  - intros q Hu. change (~ in_use (abs w F) q) in Hu. cbn [with_infos signal a_devs]. rewrite lookup_alter.
    case_decide as E; [subst q|]; by rewrite (abs_out _ _ _ _ Hi Hu).
Qed.

Lemma abs_signal w w' F σ σ' p d :
  core_inv w F σ -> core_inv w' F σ' -> w_heap w !! p = Some (HIdev d) ->
  w_heap w' = <[p := HIdev (upd_event atomic_inc d)]> (w_heap w) -> w_info w' = w_info w -> w_priv w' = w_priv w ->
  idr_of (w_hist w') = idr_of (w_hist w) -> abs w' F = signal p (abs w F).
Proof. intros Hi Hi' Hd Hh Hx Hp Hm. rewrite (abs_signal_infos w w' F σ σ' p d) by done. by rewrite Hx. Qed.

Lemma idr_notify info : keeps (spares (fun _ => False) False True (fun _ => False) (fun _ => False)) (uio_event_notify (D:=D) info).
Proof. unfold uio_event_notify. repeat ((apply spare_mod_idev; tauto) || spare_keep || unfold load_info). Qed.

(** What a notification does, for both ways it can come. *)
Lemma notify_signal w F σ info i p d w' :
  core_inv w F σ -> w_info w !! info = Some i -> i_uio_dev i = p -> w_heap w !! p = Some (HIdev d) ->
  uio_event_notify info w = Some (tt, w') -> core_inv w' F σ /\ abs w' F = signal p (abs w F).
Proof.
  intros Hi Hinfo Hp Hd Hr.
  destruct (wp_run _ _ _ _ _ (wp_uio_event_notify w F σ info i p d Hi Hinfo Hp Hd) Hr) as (Hi' & _ & E1 & E2 & E3 & _).
  split; [done|]. apply (abs_signal w w' F σ σ p d); try done. by destruct (spares_free _ _ _ _ _ _ (idr_notify info _ _ _ Hr)) as [_ _ E _ _ _]; apply E.
Qed.

Lemma sim_notify w F σ info i d w' :
  core_inv w F σ -> w_info w !! info = Some i -> w_heap w !! i_uio_dev i = Some (HIdev d) ->
  uio_event_notify info w = Some (tt, w') -> astep (OpNotify info) (OEvent (i_uio_dev i)) (abs w F) (abs w' F).
Proof.
  intros Hi Hinfo Hd Hr. destruct (notify_signal w F σ info i _ d w' Hi Hinfo eq_refl Hd Hr) as [_ ->].
  change (i_uio_dev i) with (a_dev (info_view i)). apply a_notify. by rewrite abs_infos, Hinfo.
Qed.

Lemma sim_irq_thread w F σ irq p d r w' :
  core_inv w F σ -> w_heap w !! p = Some (HIdev d) -> registered w p d ->
  uio_interrupt_thread irq p w = Some (r, w') -> astep (OpIrqThread irq p) (OEvent p) (abs w F) (abs w' F).
Proof.
  intros Hi Hd Hreg Hr. destruct (registered_info _ _ _ _ _ Hi Hd Hreg) as (i & _ & Hinfo & Hu & _).
  apply bind_inv in Hr as (d' & w1 & E & Hr). unfold load_idev, get_some in E. rewrite Hd in E. injection E as <- <-.
  apply bind_inv in Hr as ([] & w2 & E & Hr). injection Hr as _ <-.
  destruct (notify_signal w F σ (d_info d) i p d w2 Hi Hinfo Hu Hd E) as [_ ->]. apply a_interrupt.
Qed.

(** *** poll and write *)

Lemma sim_poll w F σ f r w' :
  core_inv w F σ -> f ∈ F -> uio_poll f w = Some (r, w') -> astep (OpPoll f) (ORet r) (abs w F) (abs w' F).
Proof.
  intros Hi Hf Hr. destruct (wp_run _ _ _ _ _ (wp_uio_poll w F σ f Hi Hf) Hr) as [Hi' ->].
  rewrite (still_abs w w' F σ σ Hi Hi') by by eapply still_poll.
  destruct (open_file _ _ _ _ Hi Hf) as (l & lst & d & Hp & Hl & Hd & Hdev & _).
  pose proof (abs_file w F f l lst Hf Hp Hl) as Hx. pose proof (in_use_open w F σ f _ Hi Hf Hdev) as Hu.
  pose proof (abs_dev w F σ _ d Hi Hu Hd) as Hv.
  rewrite <- (a_gone_file w F σ f _ Hi Hx), (event_pending_eq w f _ d l lst Hdev Hd Hp Hl).
  replace (if negb (l_event_count lst =? d_event d) then Z.lor EPOLLIN EPOLLRDNORM else 0) with
    (if l_event_count lst =? d_event d then 0 else Z.lor EPOLLIN EPOLLRDNORM) by by destruct (_ =? _).
  exact (a_poll (abs w F) f _ _ Hx Hv).
Qed.

Lemma sim_write w F σ f count r w' :
  core_inv w F σ -> f ∈ F -> uio_write f count w = Some (r, w') -> astep (OpWrite f count) (ORet r) (abs w F) (abs w' F).
Proof.
  intros Hi Hf Hr. destruct (wp_run _ _ _ _ _ (wp_uio_write w F σ f count Hi Hf) Hr) as (Hi' & H1 & _ & H3).
  rewrite (still_abs w w' F σ σ Hi Hi') by by eapply still_write.
  destruct (open_file_full _ _ _ _ Hi Hf) as (l & lst & d & Hp & Hl & Hd & Hdev & Hreg).
  pose proof (abs_file w F f l lst Hf Hp Hl) as Hx.
  apply (a_write _ f count _ r Hx); [intros Hc; by apply H1|]. intros Hc Hg.
  rewrite (a_gone_file w F σ f _ Hi Hx) in Hg. unfold file_gone, idev_gone in Hg. rewrite Hdev, Hd in Hg. cbn [as_idev] in Hg.
  unfold write_check in H3. rewrite Hdev in H3. cbn [mbind option_bind] in H3. rewrite Hd in H3. cbn [mbind option_bind as_idev] in H3.
  destruct (Z.eqb_spec (d_info d) 0) as [E|E].
  - destruct (H3 Hc _ eq_refl ltac:(done)) as [[?|?] _]; tauto.
  - destruct (Hreg E) as (i & n & _ & Hinfo & _). rewrite Hinfo in Hg, H3. cbn [mbind option_bind] in H3. rewrite Hg in H3.
    destruct (H3 Hc _ eq_refl ltac:(done)) as [[?|?] _]; tauto.
Qed.
(** *** read *)

(** The file at listener [l] takes the count of its device. *)
Lemma abs_take w w' F σ σ' f l lst d :
  core_inv w F σ -> core_inv w' F σ' -> f ∈ F -> w_priv w !! f = Some l -> w_heap w !! l = Some (HLsn lst) ->
  w_heap w !! l_dev lst = Some (HIdev d) ->
  w_heap w' !! l = Some (HLsn (UioListener (l_dev lst) (d_event d))) ->
  spared (fun q => q <> l) False True all_z all_z w w' ->
  abs w' F = on_files (insert f (AFile (l_dev lst) (d_event d))) (abs w F).
Proof.
  intros Hi Hi' Hf Hp Hl Hd Hl' [_ S2 S3 S4 S5 S6]. pose proof (abs_file w F f l lst Hf Hp Hl) as Hx.
  apply (abs_is w' F σ'); [done|by apply S3| | | |].
  - intros x. change (a_infos (on_files ?h ?A)) with (a_infos A). rewrite abs_infos. apply info_view_parts; [apply S4|by apply S5].
  - intros g. cbn [on_files a_files]. destruct (decide (g = f)) as [->|Hne].
    + rewrite lookup_insert_eq. by rewrite (abs_file w' F f l _ Hf ltac:(by rewrite S6) Hl').
    + rewrite lookup_insert_ne by done. destruct (decide (g ∈ F)) as [Hg|Hg]; [|by rewrite !abs_file_out].
      apply (abs_file_same w w' F F σ); [done..|by apply S6|]. intros lg E. apply S2. intros ->.
      by apply Hne, (ci_inj _ _ _ Hi g f l).
  - intros q Hu. assert (in_use (abs w F) q) as Hu'.
    { destruct Hu as [?|(g & y & Hg & <-)]; [by left|]. cbn [on_files a_files] in Hg. destruct (decide (f = g)) as [<-|Hne].
      - rewrite lookup_insert_eq in Hg. injection Hg as <-. exact (in_use_file _ _ _ Hx).
      - rewrite lookup_insert_ne in Hg by done. exact (in_use_file _ _ _ Hg). }
    cbn [on_files a_devs]. rewrite (abs_in _ _ _ _ Hi Hu'). symmetry. apply hcore_adev, S2. intros ->.
    destruct (in_use_idev _ _ _ _ Hi Hu') as [d' E]. congruence.
  - intros q Hu. cbn [on_files a_devs]. apply (abs_out w F σ q Hi). intros [Hm|(g & y & Hg & <-)]; apply Hu; [by left|right].
    destruct (decide (f = g)) as [<-|Hne].
    + exists f, (AFile (l_dev lst) (d_event d)). split; [apply lookup_insert_eq|]. cbn. rewrite Hx in Hg. by injection Hg as <-.
    + exists g, y. split; [|done]. cbn [on_files a_files]. by rewrite lookup_insert_ne.
Qed.

(** A pass that leaves the heap as it was. *)
Lemma abs_read_same w w' F σ σ' l :
  core_inv w F σ -> core_inv w' F σ' -> spared (fun q => q <> l) False True all_z all_z w w' -> w_heap w' = w_heap w ->
  abs w' F = abs w F.
Proof.
  intros Hi Hi' [_ S2 S3 S4 S5 S6] Hh. apply (abs_same w w' F σ σ' Hi Hi' (S3 I)).
  - intros p _. by rewrite Hh.
  - intros x. apply info_view_parts; [apply S4|by apply S5].
  - intros f _. by apply S6.
Qed.

Definition read_obs (x : read_exit) (h : hist) : obs :=
  match x with ReadBreak v => if v =? sizeof_s32 then OWord (given h) else ORet v | ReadAgain => OAsleep end.

Lemma sim_read w F σ f nb x w' :
  core_inv w F σ -> f ∈ F -> read_pass f sizeof_s32 nb w = Some (x, w') ->
  astep (OpReadPass f sizeof_s32 nb) (read_obs x (w_hist w')) (abs w F) (abs w' F).
Proof.
  intros Hi Hf Hr. destruct (open_file _ _ _ _ Hi Hf) as (l & lst & d & Hp & Hl & Hd & Hdev & _).
  assert (Hit : read_iter l (l_dev lst) sizeof_s32 nb w = Some (x, w')).
  { revert Hr. unfold read_pass, load_priv, load_lsn, get_some, mbind, K_bind. by rewrite Hp, Hl. }
  destruct (wp_run _ _ _ _ _ (wp_read_iter w F σ f l lst sizeof_s32 nb Hi Hf Hp Hl) Hit) as (Hi' & _ & _ & _ & (lst' & Hl' & El') & Hpost).
  pose proof (spares_free _ _ _ _ _ _ (read_spares l _ _ _ _ _ _ Hit)) as Hs.
  pose proof (abs_file w F f l lst Hf Hp Hl) as Hx.
  pose proof (abs_dev w F σ _ d Hi (in_use_open w F σ f _ Hi Hf Hdev) Hd) as Hv.
  pose proof (a_gone_file w F σ f _ Hi Hx) as Hg. unfold read_step_post in Hpost.
  rewrite (event_pending_eq w f _ d l lst Hdev Hd Hp Hl), (dev_event_count_eq w f _ d Hdev Hd) in Hpost.
  destruct (file_gone w f); [destruct Hpost as [-> Hh]; rewrite (abs_read_same w w' F σ σ l Hi Hi' Hs Hh)|].
  { exact (a_read_gone (abs w F) f nb _ Hx Hg). }
  destruct (Z.eqb_spec (l_event_count lst) (d_event d)) as [E|E]; cbn [negb] in Hpost.
  - destruct Hpost as [Ho Hh]. rewrite (abs_read_same w w' F σ σ l Hi Hi' Hs Hh). apply (a_read_waits _ f nb _ _ _ Hx Hv Hg E).
    destruct Ho as [->|[-> ->]]; [left|right; by split]. by destruct nb.
  - destruct Hpost as [(e & o & h & [= <-] & Hhist & -> & Hseen & Hcnt & _)|(-> & Hh & _)].
    + rewrite (seen_event_count_eq w' f l lst') in Hseen; [|by rewrite (sp_priv _ _ _ _ _ _ _ Hs)|done].
      rewrite (abs_take w w' F σ σ f l lst d Hi Hi' Hf Hp Hl Hd); [|rewrite Hl', <- El'; destruct lst'; cbn in *; congruence|done].
      unfold read_obs. rewrite Hhist. exact (a_read (abs w F) f nb _ _ Hx Hv Hg E).
    + rewrite (abs_read_same w w' F σ σ l Hi Hi' Hs Hh). exact (a_read_fault (abs w F) f nb _ _ Hx Hv Hg E).
Qed.
(** *** open and release *)

Definition old w (q : Z) : Prop := is_Some (w_heap w !! q).

Lemma old_spared w w' F σ okM okI okF :
  core_inv w F σ -> spares (old w) True okM okI okF w w' -> spared (old w) True okM okI okF w w'.
Proof. intros Hi Hs. apply Hs. intros _ q [o Ho]. by apply (ci_live _ _ _ Hi q o). Qed.

Lemma sim_open w F σ minor inode f r w' :
  core_inv w F σ -> f ∉ F -> (forall p, (opens w F p <= max_opens)%nat) -> uio_open minor inode f w = Some (r, w') ->
  astep (OpOpen minor inode f) (if r =? 0 then OOn (default 0 (dev_of w' f)) else ORet r) (abs w F)
    (abs w' (if r =? 0 then {[f]} ∪ F else F)).
Proof.
  intros Hi Hf Hmax Hr. destruct (wp_run _ _ _ _ _ (wp_uio_open w F σ minor inode f Hi Hf Hmax) Hr) as [Hok Hbad].
  destruct (old_spared _ _ _ _ _ _ _ Hi (old_open (old w) minor inode f _ _ _ Hr)) as [_ S2 S3 S4 S5 S6].
  destruct (Z.eqb_spec r 0) as [E|E].
  2: { destruct (Hbad E) as (Hi' & Hh & Hx & _ & Hp). rewrite (abs_same w w' F σ σ Hi Hi' (S3 I)); [by apply a_open_fails| | |done].
       - intros p _. by rewrite Hh.
       - intros x. by rewrite Hx. }
  destruct (Hok E) as (p & σ' & Hm & Hi' & Hdev & Hpend & _). rewrite Hdev. cbn [default from_option id].
  destruct (ci_idr _ _ _ Hi _ _ Hm) as (d & i & Hd & _). pose proof (in_use_minor (abs w F) _ _ Hm) as Hu.
  pose proof (abs_dev w F σ p d Hi Hu Hd) as Hv.
  assert (HfF : f ∈ {[f]} ∪ F) by set_solver.
  destruct (open_file _ _ _ _ Hi' HfF) as (l & lst & d' & Hp & Hl & Hd' & Hdev' & _).
  assert (l_dev lst = p) as Ep by congruence. rewrite Ep in Hd'.
  assert (d_info d' = d_info d /\ d_event d' = d_event d) as [_ Ee].
  { specialize (S2 p ltac:(by eexists)). rewrite Hd, Hd' in S2. cbn in S2. by injection S2 as -> ->. }
  rewrite (event_pending_eq w' f p d' l lst Hdev Hd' Hp Hl) in Hpend. apply negb_false_iff, Z.eqb_eq in Hpend.
  assert (Hin : forall q, in_use (on_files (insert f (AFile p (d_event d))) (abs w F)) q <-> in_use (abs w F) q).
  { intros q. split; intros [?|(g & y & Hg & <-)]; try (by left); cbn [on_files a_files] in *.
    - destruct (decide (f = g)) as [<-|Hne].
      + rewrite lookup_insert_eq in Hg. by injection Hg as <-.
      + rewrite lookup_insert_ne in Hg by done. exact (in_use_file _ _ _ Hg).
    - right. exists g, y. split; [|done]. cbn [on_files a_files]. rewrite lookup_insert_ne; [done|]. intros ->. by rewrite abs_file_out in Hg. }
  replace (abs w' ({[f]} ∪ F)) with (on_files (insert f (AFile p (d_event d))) (abs w F)).
  { apply (a_open (abs w F) minor inode f p _ Hm Hv). by apply abs_file_out. }
  symmetry. apply (abs_is w' _ σ'); [done|by apply S3| | | |].
  - intros x. change (a_infos (on_files ?h ?A)) with (a_infos A). rewrite abs_infos. apply info_view_parts; [apply S4|by apply S5].
  - intros g. cbn [on_files a_files]. destruct (decide (f = g)) as [<-|Hne].
    + rewrite lookup_insert_eq, (abs_file w' _ f l lst HfF Hp Hl). congruence.
    + rewrite lookup_insert_ne by done. destruct (decide (g ∈ F)) as [Hg|Hg]; [|by rewrite !abs_file_out by set_solver].
      apply (abs_file_same w w' F _ σ); [done|done|set_solver|by apply S6|]. intros lg Eg. apply S2.
      apply (seen_at_some w F σ lg Hi). right. eauto.
  - intros q Hq%Hin. cbn [on_files a_devs]. rewrite (abs_in _ _ _ _ Hi Hq). symmetry. apply hcore_adev, S2.
    apply (seen_at_some w F σ q Hi). by left.
  - intros q Hq. cbn [on_files a_devs]. apply (abs_out w F σ q Hi). by rewrite <- Hin.
Qed.

Lemma reap_in_use A p : in_use (reap A) p <-> in_use A p.
Proof. reflexivity. Qed.

(** The state of the service is [A] without the devices nobody uses. *)
Lemma abs_is_reap w F σ A :
  core_inv w F σ -> idr_of (w_hist w) = a_minors A ->
  (forall x, info_view <$> w_info w !! x = a_infos A !! x) -> (forall f, a_files (abs w F) !! f = a_files A !! f) ->
  (forall p, in_use A p -> a_devs A !! p = adev_of <$> as_idev (w_heap w !! p)) -> abs w F = reap A.
Proof.
  intros Hi Hm Hx Hf Hd. apply (abs_is w F σ); [done..| |].
  - intros p Hu. rewrite reap_lookup, decide_True by done. by apply Hd.
  - intros p Hu. by rewrite reap_lookup, decide_False.
Qed.

Lemma sim_release w F σ inode f r w' :
  core_inv w F σ -> f ∈ F -> uio_release inode f w = Some (r, w') ->
  astep (OpRelease inode f) ONone (abs w F) (abs w' (F ∖ {[f]})).
Proof.
  intros Hi Hf Hr. destruct (wp_run _ _ _ _ _ (wp_uio_release w F σ inode f Hi Hf) Hr) as (l & p & Hp & Hdev & Hh & Hx & (σ' & Hi') & _).
  destruct (spares_free _ _ _ _ _ _ (priv_release inode f _ _ _ Hr)) as [_ _ S3 _ _ S6].
  destruct (open_file _ _ _ _ Hi Hf) as (l' & lst & d & Hp' & Hl & _). assert (l' = l) as -> by congruence. clear Hp'.
  replace (abs w' (F ∖ {[f]})) with (reap (on_files (delete f) (abs w F))).
  { exact (a_release (abs w F) inode f _ (abs_file w F f l lst Hf Hp Hl)). }
  assert (Hin : forall q, in_use (on_files (delete f) (abs w F)) q -> in_use (abs w F) q).
  { intros q [?|(g & y & Hg & <-)]; [by left|]. cbn [on_files a_files] in Hg. apply lookup_delete_Some in Hg as [_ Hg].
    exact (in_use_file _ _ _ Hg). }
  symmetry. apply (abs_is_reap w' _ σ'); [done|by apply S3| | |].
  - intros x. rewrite Hx. symmetry. apply abs_infos.
  - intros g. cbn [on_files a_files]. destruct (decide (f = g)) as [<-|Hne].
    + rewrite lookup_delete_eq. apply abs_file_out. set_solver.
    + rewrite lookup_delete_ne by done. destruct (decide (g ∈ F)) as [Hg|Hg]; [|by rewrite !abs_file_out by set_solver].
      apply (abs_file_same w w' F _ σ); [done|done|set_solver|by apply S6|]. intros lg Eg. rewrite Hh, lookup_delete_ne; [done|].
      intros <-. by apply Hne, (ci_inj _ _ _ Hi f g l).
  - intros q Hq%Hin. cbn [on_files a_devs]. rewrite (abs_in _ _ _ _ Hi Hq), Hh, lookup_delete_ne; [done|].
    intros <-. destruct (in_use_idev _ _ _ _ Hi Hq) as [d' E]. congruence.
Qed.
(** *** Registration *)

Lemma sim_register w F σ owner parent info i r w' :
  core_inv w F σ -> w_info w !! info = Some i -> info_shape i -> unregistered w info -> drv_ready info w ->
  __uio_register_device owner parent info w = Some (r, w') ->
  astep (OpRegister owner parent info) (if r =? 0 then ONew (default 0 (i_uio_dev <$> w_info w' !! info)) else ORet r)
    (abs w F) (abs w' F).
Proof.
  intros Hi Hinfo Hs Hun Hready Hr.
  destruct (wp_run _ _ _ _ _ (wp_uio_register_device w F σ owner parent info i Hi Hinfo Hs Hun Hready) Hr) as [Hok Hbad].
  destruct (old_spared _ _ _ _ _ _ _ Hi (old_register (old w) owner parent info _ _ _ Hr)) as [_ S2 _ S4 S5 S6].
  assert (Hai : a_infos (abs w F) !! info = Some (info_view i)) by (by rewrite abs_infos, Hinfo).
  assert (Hfile : forall g, a_files (abs w' F) !! g = a_files (abs w F) !! g).
  { intros g. destruct (decide (g ∈ F)) as [Hg|Hg]; [|by rewrite !abs_file_out].
    apply (abs_file_same w w' F F σ); [done..|by apply S6|]. intros lg Eg. apply S2, (seen_at_some w F σ lg Hi). right. eauto. }
  assert (Hdev : forall q, in_use (abs w F) q -> adev_of <$> as_idev (w_heap w' !! q) = a_devs (abs w F) !! q).
  { intros q Hq. rewrite (abs_in _ _ _ _ Hi Hq). apply hcore_adev, S2, (seen_at_some w F σ q Hi). by left. }
  assert (Hinf : forall q x, i_uio_dev <$> w_info w' !! info = Some q ->
    info_view <$> w_info w' !! x = <[info := AInfo (i_irq i) q]> (a_infos (abs w F)) !! x).
  { intros q x Hq. destruct (decide (info = x)) as [<-|Hne].
    - rewrite lookup_insert_eq. specialize (S4 info). rewrite Hinfo in S4. destruct (w_info w' !! info) as [i'|]; [|done].
      cbn in *. injection Hq as <-. injection S4 as S4. unfold info_view. by rewrite S4.
    - rewrite lookup_insert_ne, abs_infos by done. apply info_view_parts; [apply S4|]. apply S5. congruence. }
  destruct (Z.eqb_spec r 0) as [E|E].
  - destruct (Hok E) as (p & d & [Hi' Hnew Hd Hreg (_ & Hdi & He & _) (i' & Hi1 & Hi2 & _) [Hm1 Hm2] _ _ _]).
    rewrite Hi1. cbn [fmap option_fmap option_map default from_option id]. rewrite Hi2.
    assert (Hnp : ~ in_use (abs w F) p).
    { intros Hu. destruct (in_use_idev _ _ _ _ Hi Hu) as [d0 E0]. congruence. }
    match goal with |- astep _ _ _ ?X => replace X with
      (AState (<[p := ADev info 0]> (a_devs (abs w F))) (<[d_minor d := p]> (a_minors (abs w F)))
         (<[info := AInfo (a_irq (info_view i)) p]> (a_infos (abs w F))) (a_files (abs w F))) end.
    { apply a_register; [done|exact Hm1|]. by apply (abs_out w F σ). }
    assert (Hin : forall q, q <> p -> in_use (AState (<[p := ADev info 0]> (a_devs (abs w F))) (<[d_minor d := p]> (a_minors (abs w F)))
         (<[info := AInfo (a_irq (info_view i)) p]> (a_infos (abs w F))) (a_files (abs w F))) q <-> in_use (abs w F) q).
    { intros q Hq. split; intros [(m & q' & Hm & ->)|?]; try (by right); cbn [a_minors] in *.
      - destruct (decide (d_minor d = m)) as [<-|Hne]; [rewrite lookup_insert_eq in Hm; congruence|].
        rewrite lookup_insert_ne in Hm by done. by eapply (in_use_minor (abs w F)).
      - left. exists m, q. split; [|done]. cbn [a_minors]. rewrite lookup_insert_ne; [done|]. intros <-.
        change (a_minors (abs w F)) with (idr_of (w_hist w)) in Hm. congruence. }
    symmetry. apply (abs_is w' F _ _ Hi'); [done|intros x; by apply Hinf; rewrite Hi1; cbn; rewrite Hi2|apply Hfile| |].
    + intros q Hq. cbn [a_devs]. destruct (decide (p = q)) as [<-|Hne].
      * rewrite lookup_insert_eq, Hd. cbn. unfold adev_of. by rewrite Hdi, He.
      * rewrite lookup_insert_ne by done. symmetry. apply Hdev. by apply Hin.
    + intros q Hq. cbn [a_devs]. destruct (decide (p = q)) as [<-|Hne].
      * exfalso. apply Hq. left. exists (d_minor d), p. split; [apply lookup_insert_eq|done].
      * rewrite lookup_insert_ne by done. apply (abs_out w F σ q Hi). intros Hu. by apply Hq, Hin.
  - destruct (Hbad E) as [Hi' Hidr _ _ _ _].
    assert (is_Some (w_info w' !! info)) as [i' Hi1].
    { specialize (S4 info). rewrite Hinfo in S4. destruct (w_info w' !! info); [by eexists|done]. }
    match goal with |- astep _ _ _ ?X => replace X with
      (AState (a_devs (abs w F)) (a_minors (abs w F)) (<[info := AInfo (a_irq (info_view i)) (i_uio_dev i')]> (a_infos (abs w F))) (a_files (abs w F))) end.
    { by apply a_register_fails. }
    symmetry. apply (abs_is w' F _ _ Hi'); [done|intros x; by apply Hinf; rewrite Hi1|apply Hfile| |].
    + intros q Hq. symmetry. by apply Hdev.
    + intros q Hq. by apply (abs_out w F σ q Hi).
Qed.

Lemma sim_unregister w F σ info i r w' :
  core_inv w F σ -> info <> 0 -> w_info w !! info = Some i -> may_unregister w info i ->
  uio_unregister_device info w = Some (r, w') -> astep (OpUnregister info) ONone (abs w F) (abs w' F).
Proof.
  intros Hi Hnz Hinfo Hmay Hr.
  destruct (wp_run _ _ _ _ _ (wp_uio_unregister_device w F σ info i Hi Hnz Hinfo Hmay) Hr) as [Hz Hok].
  assert (Hai : a_infos (abs w F) !! info = Some (info_view i)) by (by rewrite abs_infos, Hinfo).
  destruct (Z.eqb_spec (i_uio_dev i) 0) as [E|E]; [rewrite (Hz E); exact (a_unregister_none (abs w F) info _ Hai E)|].
  destruct (Hok E) as (d & Hd & [Hi' Hh Hx Hp Hidr _ _ _ _]). set (p := i_uio_dev i) in *.
  assert (Hm : a_minors (abs w F) !! d_minor d = Some p).
  { destruct Hmay as [?|(d' & Hd' & Hreg & _)]; [done|]. fold p in Hd', Hreg. assert (d' = d) as -> by congruence. exact Hreg. }
  match goal with |- astep _ _ _ ?X => replace X with
    (reap (AState (alter (fun d => ADev 0 (a_count d)) (a_dev (info_view i)) (a_devs (abs w F)))
       (delete (d_minor d) (a_minors (abs w F))) (a_infos (abs w F)) (a_files (abs w F)))) end.
  { by apply a_unregister. }
  symmetry. apply (abs_is_reap w' F _ _ Hi'); [done|intros x; rewrite Hx; symmetry; apply abs_infos| |].
  - intros g. destruct (decide (g ∈ F)) as [Hg|Hg]; [|cbn [a_files]; by rewrite !abs_file_out].
    apply (abs_file_same w w' F F σ); [done..|by rewrite Hp|]. intros lg Eg. rewrite Hh, lookup_insert_ne; [done|].
    destruct (open_file _ _ _ _ Hi Hg) as (l & lst & d' & E1 & E2 & _). congruence.
  - intros q Hq. assert (in_use (abs w F) q) as Hu.
    { destruct Hq as [(m & q' & Hq & ->)|?]; [|by right]. cbn [a_minors] in Hq. apply lookup_delete_Some in Hq as [_ Hq].
      by eapply (in_use_minor (abs w F)). }
    cbn [a_devs info_view a_dev]. fold p. rewrite Hh. destruct (decide (p = q)) as [<-|Hne].
    + by rewrite lookup_alter_eq, (abs_dev _ _ _ _ d Hi Hu Hd), lookup_insert_eq.
    + by rewrite lookup_alter_ne, lookup_insert_ne, (abs_in _ _ _ _ Hi Hu).
Qed.
(** *** Operations the service does not see *)

Lemma still_then {A B} (m : K D A) (b : B) : keeps still m -> keeps still (_ ← m; mret b).
Proof. intros Hm. apply keeps_bind; [apply _|done|]. intros _. apply keeps_ret, _. Qed.

Definition frees (op : uop) : bool :=
  match op with OpDeviceRelease _ | OpMapRelease _ | OpPortioRelease _ => true | _ => false end.

Lemma still_op op F : silent op = true -> frees op = false -> keeps still (do_op (D:=D) op F).
Proof.
  intros Hs Hn. destruct op; try discriminate Hs; try discriminate Hn; cbn [do_op uio_fops fop_fasync fop_mmap
    map_attr_type portio_attr_type kt_show kt_groups uio_class class_dev_groups].
  - apply still_then, still_fasync.
  - apply still_then, still_mmap.
  - destruct (vm_ops v); cbn [vm_fault]; [apply keeps_ret, _|apply still_then, still_fault|apply keeps_ret, _].
  - apply still_then, still_handler.
  - destruct (uio_attrs !! attr) as [[nm show]|] eqn:E; [by eapply still_then, still_show|apply keeps_ret, _].
  - destruct (map_attrs !! attr) eqn:E; [by eapply still_then, still_map_show|apply keeps_ret, _].
  - destruct (portio_attrs !! attr) eqn:E; [by eapply still_then, still_portio_show|apply keeps_ret, _].
Qed.

Lemma silent_files op F w F' w' : silent op = true -> do_op (D:=D) op F w = Some (F', w') -> F' = F.
Proof.
  intros Hs Hr. destruct op; try discriminate Hs; cbn [do_op] in Hr; try case_match; try case_match;
    repeat match goal with
    | H : (_ ≫= _) _ = Some _ |- _ => apply bind_inv in H as (? & ? & ? & H)
    end; by injection Hr.
Qed.

(** An object the service does not see is freed. *)
Lemma abs_freed w w' F σ σ' p :
  core_inv w F σ -> core_inv w' F σ' -> spared (fun q => q <> p) False True all_z all_z w w' -> ~ seen_at w F p ->
  abs w' F = abs w F.
Proof.
  intros Hi Hi' [_ S2 S3 S4 S5 S6] Hp. apply (abs_same w w' F σ σ' Hi Hi' (S3 I)).
  - intros q Hq. apply S2. by intros ->.
  - intros x. apply info_view_parts; [apply S4|by apply S5].
  - intros f _. by apply S6.
Qed.

Lemma sim_free op F w w' σ σ' :
  frees op = true -> core_inv w F σ -> core_inv w' F σ' -> admissible op w F -> do_op (D:=D) op F w = Some (F, w') ->
  abs w' F = abs w F.
Proof.
  intros Hs Hi Hi' Ha Hr. destruct op; try discriminate Hs; cbn [do_op admissible map_attr_type portio_attr_type kt_release] in *;
    apply bind_inv in Hr as ([] & w1 & Hr & E); injection E as <-.
  - destruct Ha as (Hz & d & Hd). apply (abs_freed w w1 F σ σ' dev Hi Hi').
    + apply spares_free. unfold uio_device_release in Hr. apply bind_inv in Hr as (q & w2 & Hc & Hr).
      rewrite call_run in Hc. injection Hc as <- <-. rewrite drvdata_spec, (ci_drvdata _ _ _ Hi _ _ Hd) in Hr.
      transitivity (logged (DevGetDrvdata dev) w); [by apply spares_logged|].
      eapply spare_kfree; [|exact Hr]. cbn. tauto.
    + intros [Hu|(f & Hf & Hp)].
      * by apply (in_use_refs w F σ dev d Hi Hd) in Hu.
      * destruct (open_file _ _ _ _ Hi Hf) as (l & lst & d' & E1 & E2 & _). congruence.
  - destruct Ha as (m & Hm). apply (abs_freed w w1 F σ σ' kobj Hi Hi').
    + apply spares_free. unfold map_release in Hr. revert Hr.
      match goal with |- ?m w = _ -> _ => assert (keeps (spares (fun q => q <> kobj) False True all_z all_z) m) as Hk end.
      { repeat ((apply spare_kfree; tauto) || spare_keep || unfold load_map). }
      apply Hk.
    + intros Hu. destruct (seen_at_obj _ _ _ _ Hi Hu) as [c Hc]. by rewrite Hm in Hc.
  - destruct Ha as (q & Hq). apply (abs_freed w w1 F σ σ' kobj Hi Hi').
    + apply spares_free. unfold portio_release in Hr. revert Hr.
      match goal with |- ?m w = _ -> _ => assert (keeps (spares (fun q => q <> kobj) False True all_z all_z) m) as Hk end.
      { repeat ((apply spare_kfree; tauto) || spare_keep || unfold load_portio). }
      apply Hk.
    + intros Hu. destruct (seen_at_obj _ _ _ _ Hi Hu) as [c Hc]. by rewrite Hq in Hc.
Qed.

Lemma sim_silent op F w F' w' σ σ' :
  silent op = true -> core_inv w F σ -> core_inv w' F' σ' -> admissible op w F -> do_op op F w = Some (F', w') ->
  astep op ONone (abs w F) (abs w' F').
Proof.
  intros Hs Hi Hi' Ha Hr. pose proof (silent_files _ _ _ _ _ Hs Hr) as ->.
  replace (abs w' F) with (abs w F); [by apply a_silent|]. symmetry. destruct (frees op) eqn:E.
  - by apply (sim_free op F w w' σ σ').
  - apply (still_abs w w' F σ σ' Hi Hi'). by apply (still_op op F Hs E w F w').
Qed.
(** *** One operation *)

(** [uio_read] refuses any other count before it looks at the device. *)
Definition reads_word (op : uop) : Prop :=
  match op with OpReadPass _ count _ => count = sizeof_s32 | _ => True end.

Lemma exec_silent op F : silent op = true -> exec (D:=D) op F = (F' ← do_op op F; mret (ONone, F')).
Proof. by destruct op. Qed.

Lemma exec_sim op F w o F' w' σ σ' :
  exec op F w = Some ((o, F'), w') -> core_inv w F σ -> core_inv w' F' σ' -> admissible op w F -> reads_word op ->
  astep op o (abs w F) (abs w' F').
Proof.
  intros Hr Hi Hi' Ha Hw. destruct (silent op) eqn:Hs.
  { rewrite (exec_silent op F Hs) in Hr. apply bind_inv in Hr as (F1 & w1 & Hr & E). injection E as <- <- <-.
    by apply (sim_silent op F w F1 w1 σ σ'). }
  destruct op; try discriminate Hs; cbn [exec admissible reads_word uio_fops fop_open fop_poll fop_write] in *.
  - apply bind_inv in Hr as (r & w1 & Hr & E). destruct Ha as [Hf Hsz].
    assert (Hmax : forall p, (opens w F p <= max_opens)%nat) by (intros p; pose proof (size_opens w F p); lia).
    pose proof (sim_open w F σ minor inode f r w1 Hi Hf Hmax Hr) as Hst. unfold gets, mret, mbind, K_ret, K_bind in E.
    destruct (r =? 0); injection E as <- <- <-; exact Hst.
  - apply bind_inv in Hr as (F1 & w1 & Hr & E). injection E as <- <- <-. cbn [do_op uio_fops fop_release] in Hr.
    apply bind_inv in Hr as (r & w2 & Hr & E). injection E as <- <-. by apply (sim_release w F σ inode f r w2).
  - apply bind_inv in Hr as (r & w1 & Hr & E). injection E as <- <- <-. by apply (sim_poll w F σ f r w1).
  - subst count. apply bind_inv in Hr as (x & w1 & Hr & E). unfold gets, mret, mbind, K_ret, K_bind in E. injection E as <- <- <-.
    exact (sim_read w F σ f nonblock x w1 Hi Ha Hr).
  - apply bind_inv in Hr as (r & w1 & Hr & E). injection E as <- <- <-. by apply (sim_write w F σ f count r w1).
  - destruct Ha as (i & d & Hinfo & Hd). apply bind_inv in Hr as (i' & w1 & Hl & Hr).
    unfold load_info, get_some in Hl. rewrite Hinfo in Hl. injection Hl as <- <-.
    apply bind_inv in Hr as ([] & w2 & Hr & E). injection E as <- <- <-. by apply (sim_notify w F σ info i d w2).
  - destruct Ha as (d & Hd & Hreg). apply bind_inv in Hr as (r & w1 & Hr & E). injection E as <- <- <-.
    by apply (sim_irq_thread w F σ irq dev d r w1).
  - destruct Ha as (Hun & Hready & i & Hinfo & Hsh). apply bind_inv in Hr as (r & w1 & Hr & E).
    unfold gets, mret, mbind, K_ret, K_bind in E. injection E as <- <- <-. by apply (sim_register w F σ owner parent info i r w1).
  - destruct Ha as (Hnz & i & Hinfo & Hm). apply bind_inv in Hr as (F1 & w1 & Hr & E). injection E as <- <- <-.
    cbn [do_op] in Hr. apply bind_inv in Hr as (r & w2 & Hr & E). injection E as <- <-.
    by apply (sim_unregister w F σ info i r w2).
Qed.

Lemma exec_ok op F w σ :
  core_inv w F σ -> admissible op w F -> reads_word op ->
  wp (exec op F) w (fun oF w' => (exists σ', core_inv w' oF.2 σ') /\ do_op op F w = Some (oF.2, w') /\
    astep op oF.1 (abs w F) (abs w' oF.2)).
Proof.
  intros Hi Ha Hw. destruct (do_op_ok op w F σ Hi Ha) as (F' & w' & Hr & σ' & Hi'). pose proof (exec_do op F w) as He.
  rewrite Hr in He. destruct (exec op F w) as [[[o F1] w1]|] eqn:E; [|done]. injection He as <- <-.
  exists (o, F'), w'. cbn [fst snd]. split_and!; [done|eauto|done|]. by apply (exec_sim op F w o F' w' σ σ').
Qed.

(** *** Runs *)

Lemma run_trace_ok A0 ops : forall tr F w σ,
  core_inv w F σ -> admissible_run ops F w -> Forall reads_word ops -> arun A0 tr (abs w F) ->
  wp (run_trace ops tr F) w (fun tF w' => (exists σ', core_inv w' tF.2 σ') /\ arun A0 tF.1 (abs w' tF.2)).
Proof.
  induction ops as [|op ops IH]; intros tr F w σ Hi Ha Hw Hr; cbn [run_trace].
  - kstep. eauto.
  - destruct Ha as [Ha Hrest]. inversion_clear Hw as [|? ? Hw1 Hw2]. kstep.
    eapply wp_mono; [by apply (exec_ok op F w σ)|]. cbn beta. intros [o F'] w' ([σ' Hi'] & Hdo & Hst). cbn [fst snd] in *.
    apply (IH _ _ _ σ'); [done|by apply Hrest|done|]. by eapply arun_step.
Qed.

(** A core without devices is an empty service. *)
Lemma abs_initial g infos (s : D) : a_empty (abs (initial_world g infos s) ∅).
Proof. split; [done|]. by split. Qed.

Lemma run_from_empty g infos (s : D) ops :
  drv_inv ∅ (initial_world g infos s) -> admissible_run ops ∅ (initial_world g infos s) -> Forall reads_word ops ->
  exists tr F w σ, run_trace ops [] ∅ (initial_world g infos s) = Some ((tr, F), w) /\ core_inv w F σ /\
    arun (abs (initial_world g infos s) ∅) tr (abs w F).
Proof.
  intros Hd Ha Hw. destruct (run_trace_ok (abs (initial_world g infos s) ∅) ops [] ∅ _ ∅ (initial_inv g infos s Hd) Ha Hw
    (arun_nil _)) as ([tr F] & w & Hr & [σ Hi] & Hrun). by exists tr, F, w, σ.
Qed.
End simulation.
