(* ===== verification/HvSpec.v ===== *)
(** * The VMBus driver as a driver of the UIO core

    Rules for the driver's memory, its invariant, and the instance of
    [UioDriverOk]: every promise the core relies on is discharged for
    [hv_uio_open], [hv_uio_release] and [hv_uio_irqcontrol]. *)

From S2P Require Import Prelude Kernel UioTypes UioAttr UioDevice UioFile UioMmap HypervVmbus HvUio KLogic UioInv UioSpec.

(** What the VMBus core promises. *)
Class HvKernelOk `{Kernel} := {
  (** a connected ring has its control blocks mapped *)
  connect_maps h c : kernel h (VmbusConnectRing c) = 0 -> exists m r, kernel_out h (VmbusConnectRing c) = m :: r;
  open_maps h c s r : kernel h (VmbusOpen c s r) = 0 -> exists m x, kernel_out h (VmbusOpen c s r) = m :: x;
  (** a GPADL handle is not 0, and a failed call leaves the structure's handle 0 *)
  gpadl_spec h c b n : exists g d x, kernel_out h (VmbusEstablishGpadl c b n) = g :: d :: x /\
    (kernel h (VmbusEstablishGpadl c b n) = 0 -> u32 g <> 0) /\
    (kernel h (VmbusEstablishGpadl c b n) <> 0 -> u32 g = 0) }.

Section rules.
Context `{HK : Kernel, HU : Uapi, HA : HvApi}.
Implicit Types (w : world hv_state).

Lemma wp_load_pdata p x w (Q : hv_uio_private_data -> world hv_state -> Prop) :
  hs_pdata (w_drv w) !! p = Some x -> Q x w -> wp (load_pdata p) w Q.
Proof. apply (wp_get_some (fun w => hs_pdata (w_drv w) !! p)). Qed.

Lemma wp_load_hvdev p x w (Q : hv_device -> world hv_state -> Prop) :
  hs_dev (w_drv w) !! p = Some x -> Q x w -> wp (load_hvdev p) w Q.
Proof. apply (wp_get_some (fun w => hs_dev (w_drv w) !! p)). Qed.

Lemma wp_load_chan p x w (Q : vmbus_channel -> world hv_state -> Prop) :
  hs_chan (w_drv w) !! p = Some x -> Q x w -> wp (load_chan p) w Q.
Proof. apply (wp_get_some (fun w => hs_chan (w_drv w) !! p)). Qed.

Lemma wp_mod_pdata p x f w (Q : unit -> world hv_state -> Prop) :
  hs_pdata (w_drv w) !! p = Some x -> Q tt (set_drv (set_hs_pdata (insert p (f x))) w) -> wp (mod_pdata p f) w Q.
Proof. intros Hp HQ. unfold mod_pdata. kstep. eapply wp_load_pdata; [exact Hp|]. by kstep. Qed.

Lemma wp_mod_chan p x f w (Q : unit -> world hv_state -> Prop) :
  hs_chan (w_drv w) !! p = Some x -> Q tt (set_drv (set_hs_chan (insert p (f x))) w) -> wp (mod_chan p f) w Q.
Proof. intros Hp HQ. unfold mod_chan. kstep. eapply wp_load_chan; [exact Hp|]. by kstep. Qed.

(** A store through the mapped control block. *)
Lemma wp_store_interrupt_mask c v x m w (Q : unit -> world hv_state -> Prop) :
  hs_chan (w_drv w) !! c = Some x -> ch_inbound x = Some m ->
  Q tt (logged (StoreInterruptMask c v) (set_drv (set_hs_chan (insert c (set_ch_inbound (Some v) x))) w)) ->
  wp (store_interrupt_mask c v) w Q.
Proof.
  intros Hc Hm HQ. unfold store_interrupt_mask. kstep. eapply wp_load_chan; [exact Hc|].
  kstep. eapply wp_get_some; [exact Hm|]. kstep. eapply wp_mod_chan; [exact Hc|]. by kstep.
Qed.
End rules.

(** The VMBus counters after one more call. *)
Section vmbus_ghost.
Context `{HK : Kernel} {D : Type}.
Implicit Types w : world D.

Lemma ring_allocated_logged ch c w :
  ring_allocated ch (w_hist (logged c w)) =
  (match c with
   | VmbusAllocRing q _ _ => if (q =? ch) && (kernel (w_hist w) c =? 0) then 1 else 0
   | VmbusFreeRing q => if q =? ch then -1 else 0
   | _ => 0
   end) + ring_allocated ch (w_hist w).
Proof. unfold ring_allocated. rewrite count_logged. by destruct c. Qed.

Lemma ring_connected_logged ch c w :
  ring_connected ch (w_hist (logged c w)) =
  (match c with
   | VmbusConnectRing q => if (q =? ch) && (kernel (w_hist w) c =? 0) then 1 else 0
   | VmbusDisconnectRing q => if q =? ch then -1 else 0
   | _ => 0
   end) + ring_connected ch (w_hist w).
Proof. unfold ring_connected. rewrite count_logged. by destruct c. Qed.

Lemma gpadl_live_logged ch c w :
  gpadl_live ch (w_hist (logged c w)) =
  (match c with
   | VmbusEstablishGpadl q _ _ => if (q =? ch) && (kernel (w_hist w) c =? 0) then 1 else 0
   | VmbusTeardownGpadl q _ => if q =? ch then -1 else 0
   | _ => 0
   end) + gpadl_live ch (w_hist w).
Proof. unfold gpadl_live. rewrite count_logged. by destruct c. Qed.
End vmbus_ghost.

#[export] Hint Rewrite @ring_allocated_logged @ring_connected_logged @gpadl_live_logged : ghost.

(** What a callback may do, step by step. *)
Section frame_steps.
Context `{HK : Kernel} {D : Type}.
Implicit Types w : world D.

Lemma frame_logged c w w1 : driver_call c = true -> core_frame w w1 -> core_frame w (logged c w1).
Proof.
  intros Hc Hf. apply (core_frame_trans _ w1); [done|]. split; try by wsimpl_goal.
  eexists [_]. split; [by wsimpl_goal|]. by repeat constructor.
Qed.

Lemma frame_set_drv f w w1 : core_frame w w1 -> core_frame w (set_drv f w1).
Proof.
  intros Hf. apply (core_frame_trans _ w1); [done|]. split; try by wsimpl_goal.
  exists []. split; [by wsimpl_goal|done].
Qed.
End frame_steps.

Ltac frame_tac :=
  repeat first [ assumption | apply core_frame_refl | apply frame_set_drv | apply frame_logged; [reflexivity|] ].

(** Find an object of the driver in an updated state. *)
Ltac dlookup :=
  wsimpl_goal; cbn [hs_pdata hs_dev hs_chan hs_conn hs_vm set_hs_pdata set_hs_chan set_hs_vm];
  first
    [ eassumption
    | rewrite lookup_insert_eq; reflexivity
    | rewrite lookup_insert_ne by (first [assumption | congruence]); dlookup ].

(** [kstep] for the accesses of the driver. *)
Ltac dstep :=
  first
    [ kstep
    | lazymatch goal with
      | |- wp (load_pdata _) _ _ => eapply wp_load_pdata; [dlookup|]
      | |- wp (load_hvdev _) _ _ => eapply wp_load_hvdev; [dlookup|]
      | |- wp (load_chan _) _ _ => eapply wp_load_chan; [dlookup|]
      | |- wp (mod_pdata _ _) _ _ => eapply wp_mod_pdata; [dlookup|]
      | |- wp (mod_chan _ _) _ _ => eapply wp_mod_chan; [dlookup|]
      | |- wp (store_interrupt_mask _ _) _ _ => eapply wp_store_interrupt_mask; [dlookup|first [eassumption|reflexivity]|]
      end ].
Ltac dsteps := repeat dstep.

(** ** The invariant of the driver *)

Section inv.
Context `{HK : Kernel, HU : Uapi, HUok : !UapiOk, HA : HvApi, HHk : !HvKernelOk}.
Implicit Types (w : world hv_state) (σ : gmap Z nat).

(** The info at [p] is the one of the private data at [p], its callbacks are the
    driver's, its device and channel exist, it counts [n] opens, and the ring
    of an open device is mapped. *)
Definition hv_ok w (p : Z) (n : nat) : Prop := exists irq h pd dev c,
  drv_fields <$> w_info w !! p =
    Some (irq, h, 0, hv_uio_open_fn, hv_uio_release_fn, hv_uio_irqcontrol_fn, p) /\
  (irq = 0 \/ irq = UIO_IRQ_CUSTOM) /\
  hs_pdata (w_drv w) !! p = Some pd /\ hs_dev (w_drv w) !! pd_device pd = Some dev /\
  hs_chan (w_drv w) !! hd_channel dev = Some c /\ pd_refcnt pd = Z.of_nat n /\
  (n <= S max_opens)%nat /\ (n <> 0%nat -> ch_inbound c <> None).

Definition hv_inv σ w : Prop := forall p n, σ !! p = Some n -> hv_ok w p n.

(** A change of channels and reference counts that keeps the other devices. *)
Lemma hv_ok_frame w w' p n :
  w_info w' = w_info w -> hs_dev (w_drv w') = hs_dev (w_drv w) ->
  hs_pdata (w_drv w') !! p = hs_pdata (w_drv w) !! p ->
  (forall a c, hs_chan (w_drv w) !! a = Some c -> exists c', hs_chan (w_drv w') !! a = Some c' /\
     (ch_inbound c <> None -> ch_inbound c' <> None)) ->
  hv_ok w p n -> hv_ok w' p n.
Proof.
  intros E1 E2 E3 E4 (irq & h & pd & dev & c & H1 & H2 & H3 & H4 & H5 & H6 & Hb & H7).
  destruct (E4 _ _ H5) as (c' & Hc' & Hm). exists irq, h, pd, dev, c'.
  rewrite E1, E2, E3. split_and!; auto.
Qed.

Lemma chan_insert w a x c0 b c :
  hs_chan (w_drv w) !! a = Some c0 -> ch_inbound x <> None ->
  hs_chan (w_drv w) !! b = Some c ->
  exists c', (<[a := x]> (hs_chan (w_drv w))) !! b = Some c' /\ (ch_inbound c <> None -> ch_inbound c' <> None).
Proof.
  intros Ha Hx Hb. destruct (decide (a = b)) as [<-|].
  - exists x. by rewrite lookup_insert_eq.
  - exists c. by rewrite lookup_insert_ne.
Qed.

Lemma fields_info w p x : drv_fields <$> w_info w !! p = Some x -> exists i, w_info w !! p = Some i /\ drv_fields i = x.
Proof. destruct (w_info w !! p) as [i|]; [|discriminate]. intros [= <-]. eauto. Qed.

(** ** The callbacks of the core *)

(** The driver's side of an update that keeps the other devices: what the
    invariant says of [p], the new channel of [p] being [c']. *)
Lemma hv_inv_update σ w w' p n pd dev c pd' c' :
  core_frame w w' -> hs_dev (w_drv w') = hs_dev (w_drv w) ->
  hs_pdata (w_drv w) !! p = Some pd -> hs_dev (w_drv w) !! pd_device pd = Some dev ->
  hs_chan (w_drv w) !! hd_channel dev = Some c ->
  hs_pdata (w_drv w') = <[p := pd']> (hs_pdata (w_drv w)) ->
  hs_chan (w_drv w') = <[hd_channel dev := c']> (hs_chan (w_drv w)) ->
  pd_device pd' = pd_device pd -> pd_refcnt pd' = Z.of_nat n ->
  (n <= S max_opens)%nat -> (ch_inbound c <> None -> ch_inbound c' <> None) -> (n <> 0%nat -> ch_inbound c' <> None) ->
  σ !! p <> None -> hv_inv σ w -> hv_inv (<[p := n]> σ) w'.
Proof.
  intros Hfr Edev Hpd Hdev Hc Epd Ech E1 E2 Hmax Hin Hn Hp Hi q k Hk.
  assert (Hq : exists k', σ !! q = Some k') by (destruct (decide (p = q)) as [<-|];
    [by destruct (σ !! p); eauto|rewrite lookup_insert_ne in Hk by done; eauto]).
  destruct Hq as [k' Hk']. destruct (Hi _ _ Hk') as (irq & h & pdq & dq & cq & H1 & H2 & H3 & H4 & H5 & H6 & Hb & H7).
  rewrite <- (cf_info _ _ Hfr) in H1.
  set (pdq' := if decide (p = q) then pd' else pdq).
  set (cq' := if decide (hd_channel dev = hd_channel dq) then c' else cq).
  assert (G1 : hs_pdata (w_drv w') !! q = Some pdq').
  { rewrite Epd. unfold pdq'. case_decide; [subst; by rewrite lookup_insert_eq|by rewrite lookup_insert_ne]. }
  assert (Hcq : ch_inbound cq <> None -> ch_inbound cq' <> None).
  { unfold cq'. case_decide as E; [|done]. rewrite <- E, Hc in H5. by injection H5 as <-. }
  exists irq, h, pdq', dq, cq'. rewrite Edev. unfold pdq', cq' in *. destruct (decide (p = q)) as [<-|Hne].
  - rewrite Hpd in H3. injection H3 as <-. rewrite Hdev in H4. injection H4 as <-.
    rewrite lookup_insert_eq in Hk. injection Hk as <-. rewrite decide_True in * by done.
    split_and!; auto; [congruence|by rewrite Ech, lookup_insert_eq|..]; auto.
  - rewrite lookup_insert_ne in Hk by done. rewrite Hk in Hk'. injection Hk' as <-.
    split_and!; auto. rewrite Ech. case_decide as E; [by rewrite E, lookup_insert_eq|by rewrite lookup_insert_ne].
Qed.

Lemma hv_ok_device σ w p n : hv_inv σ w -> σ !! p = Some n -> exists pd dev c,
  hs_pdata (w_drv w) !! p = Some pd /\ hs_dev (w_drv w) !! pd_device pd = Some dev /\
  hs_chan (w_drv w) !! hd_channel dev = Some c /\ pd_refcnt pd = Z.of_nat n /\
  (n <= S max_opens)%nat /\ (n <> 0%nat -> ch_inbound c <> None).
Proof. intros Hi Hn. destruct (Hi _ _ Hn) as (irq & h & pd & dev & c & ? & ? & ? & ? & ? & ? & ? & ?). eauto 10. Qed.

Lemma insert_same {A} (m : gmap Z A) k x : m !! k = Some x -> <[k := x]> m = m.
Proof. apply insert_id. Qed.

Lemma wp_hv_uio_open σ w p n inode :
  σ !! p = Some n -> (n <= max_opens)%nat -> hv_inv σ w ->
  wp (hv_uio_open p inode) w (fun r w' => core_frame w w' /\
    hv_inv (if r =? 0 then <[p := S n]> σ else σ) w' /\
    exists pd dev, hs_pdata (w_drv w) !! p = Some pd /\ hs_dev (w_drv w) !! pd_device pd = Some dev /\
    let ch := hd_channel dev in
    ring_connected ch (w_hist w') = ring_connected ch (w_hist w) + (if decide (n = 0%nat /\ r = 0) then 1 else 0) /\
    (n <> 0%nat -> r = 0 /\ w_hist w' = w_hist w) /\
    (n = 0%nat -> r = 0 -> exists c, hs_chan (w_drv w') !! ch = Some c /\ ch_inbound c = Some 1)).
Proof using All.
  intros Hn Hmax Hi. destruct (hv_ok_device _ _ _ _ Hi Hn) as (pd & dev & c & Hpd & Hdev & Hc & Href & Hb & Hmap).
  assert (Hlt : Z.of_nat n + 1 < 2 ^ 31) by (pose proof max_opens_val; lia).
  assert (Hs : s32 (pd_refcnt pd + 1) = Z.of_nat n + 1) by (rewrite Href; apply s32_id; lia).
  unfold hv_uio_open. dsteps. rewrite Hs.
  destruct (Z.eqb_spec (Z.of_nat n + 1) 1) as [Hone|Hone]; cbn [negb].
  2: { dsteps. split_and!; [frame_tac| |].
    - eapply (hv_inv_update σ w _ p (S n) pd dev c (set_pd_refcnt (Z.of_nat n + 1) pd) c);
        [frame_tac|by wsimpl_goal|done..|by wsimpl_goal| |done|cbn; lia|lia|done| |congruence|done].
      + wsimpl_goal. cbn. by rewrite insert_id.
      + intros _. apply Hmap. lia.
    - exists pd, dev. split_and!; try done. wsimpl_goal. rewrite decide_False by lia. lia. lia. }
  assert (n = 0%nat) as -> by lia. dsteps. unfold vmbus_connect_ring. dsteps.
  unfold ring_mapped.
  set (h0 := w_hist _) in *. cbn [fst snd].
  destruct (Z.eqb_spec (kernel h0 (VmbusConnectRing (hd_channel dev))) 0) as [Hr|Hr].
  - destruct (connect_maps _ _ Hr) as (m & x & Hout). rewrite Hout. cbn [head]. dsteps.
    rewrite Hr. cbn [Z.eqb]. dsteps. split_and!; [frame_tac| |].
    + eapply (hv_inv_update σ w _ p 1 pd dev c (set_pd_refcnt (Z.of_nat 0 + 1) pd));
        [frame_tac|by wsimpl_goal|done..|by wsimpl_goal| |done|done|lia| | |congruence|done].
      * wsimpl_goal. cbn. by rewrite insert_insert_eq.
      * done.
      * done.
    + exists pd, dev. split_and!; try done.
      * unfold h0 in Hr. autorewrite with world in Hr. gsimpl. rewrite Hr, !Z.eqb_refl, decide_True by done. cbn [andb]. lia.
      * intros _ _. eexists. wsimpl_goal. cbn. rewrite lookup_insert_eq. done.
  - dsteps. rewrite (proj2 (Z.eqb_neq _ _) Hr). dsteps.
    split_and!; [frame_tac| |].
    + rewrite (proj2 (Z.eqb_neq _ _) Hr), <- (insert_id σ p 0%nat) by done.
      eapply (hv_inv_update σ w _ p 0 pd dev c _ c);
        [frame_tac|by wsimpl_goal|done..|wsimpl_goal; cbn; by rewrite insert_insert_eq| |done| |lia|done|done|congruence|done].
      * wsimpl_goal. cbn. by rewrite insert_id.
      * cbn. rewrite s32_id; lia.
    + exists pd, dev. split_and!; try done.
      unfold h0 in Hr |- *. autorewrite with world in Hr. gsimpl. rewrite (proj2 (Z.eqb_neq _ _) Hr), andb_false_r, decide_False by tauto. lia.
Qed.

Lemma wp_hv_uio_release σ w p n inode :
  σ !! p = Some (S n) -> hv_inv σ w ->
  wp (hv_uio_release p inode) w (fun r w' => core_frame w w' /\ hv_inv (<[p := n]> σ) w' /\
    exists pd dev, hs_pdata (w_drv w) !! p = Some pd /\ hs_dev (w_drv w) !! pd_device pd = Some dev /\
    let ch := hd_channel dev in
    ring_connected ch (w_hist w') = ring_connected ch (w_hist w) - (if decide (n = 0%nat) then 1 else 0) /\
    (n <> 0%nat -> r = 0 /\ w_hist w' = w_hist w)).
Proof.
  intros Hn Hi. destruct (hv_ok_device _ _ _ _ Hi Hn) as (pd & dev & c & Hpd & Hdev & Hc & Href & Hb & Hmap).
  assert (Hlt : Z.of_nat n + 1 < 2 ^ 31) by (pose proof max_opens_val; lia).
  assert (Hs : s32 (pd_refcnt pd - 1) = Z.of_nat n) by (rewrite Href; rewrite s32_id; lia).
  unfold hv_uio_release. dsteps. rewrite Hs.
  assert (Hinv : forall w1, core_frame w w1 -> w_drv w1 = set_hs_pdata <[p := set_pd_refcnt (Z.of_nat n) pd]> (w_drv w) ->
    hv_inv (<[p := n]> σ) w1).
  { intros w1 Hfr E. eapply (hv_inv_update σ w w1 p n pd dev c _ c);
      [done|by rewrite E|done..|by rewrite E| |done|done|lia|done|intros _; by apply Hmap|congruence|done].
    rewrite E. cbn. by rewrite insert_id. }
  destruct (Z.eqb_spec (Z.of_nat n) 0) as [Hz|Hz]; dsteps.
  - split_and!; [frame_tac|apply Hinv; [frame_tac|by wsimpl_goal]|]. exists pd, dev. split_and!; try done; [|lia].
    gsimpl. rewrite Z.eqb_refl, decide_True by lia. lia.
  - split_and!; [frame_tac|apply Hinv; [frame_tac|by wsimpl_goal]|]. exists pd, dev. split_and!; try done.
    gsimpl. rewrite decide_False by lia. lia.
Qed.

Lemma wp_hv_uio_irqcontrol σ w p n s :
  σ !! p = Some (S n) -> hv_inv σ w ->
  wp (hv_uio_irqcontrol p s) w (fun r w' => core_frame w w' /\ hv_inv σ w' /\ r = 0 /\
    exists pd dev c, hs_pdata (w_drv w) !! p = Some pd /\ hs_dev (w_drv w) !! pd_device pd = Some dev /\
    hs_chan (w_drv w) !! hd_channel dev = Some c /\
    hs_chan (w_drv w') !! hd_channel dev = Some (set_ch_inbound (Some (c_not s)) c) /\
    map ev_call (w_hist w') =
      (if negb (ch_monitor_allocated c) && negb (s =? 0) then [VmbusSetevent (hd_channel dev)] else [])
      ++ [VirtMb; StoreInterruptMask (hd_channel dev) (c_not s)] ++ map ev_call (w_hist w)).
Proof.
  intros Hn Hi. destruct (hv_ok_device _ _ _ _ Hi Hn) as (pd & dev & c & Hpd & Hdev & Hc & Href & Hb & Hmap).
  destruct (Hi _ _ Hn) as (irq & h & _ & _ & _ & H1 & _).
  destruct (fields_info _ _ _ H1) as (i & Hinfo & Hf). injection Hf as _ _ _ _ _ _ Hpriv.
  assert (exists m, ch_inbound c = Some m) as [m Hm] by (destruct (ch_inbound c); [eauto|by destruct Hmap]).
  unfold hv_uio_irqcontrol. kstep. kstep. rewrite Hpriv. dsteps.
  change (ch_monitor_allocated (set_ch_inbound (Some (c_not s)) c)) with (ch_monitor_allocated c).
  assert (Hinv : forall w1, core_frame w w1 ->
    w_drv w1 = set_hs_chan <[hd_channel dev := set_ch_inbound (Some (c_not s)) c]> (w_drv w) -> hv_inv σ w1).
  { intros w1 Hfr E. rewrite <- (insert_id σ p (S n)) by done.
    eapply (hv_inv_update σ w w1 p (S n) pd dev c pd (set_ch_inbound (Some (c_not s)) c)); try done; rewrite ?E; try done; [|congruence].
    cbn. by rewrite insert_id. }
  destruct (negb (ch_monitor_allocated c) && negb (s =? 0)) eqn:E; dsteps.
  all: split_and!; [frame_tac|apply Hinv; [frame_tac|by wsimpl_goal]|done|].
  all: exists pd, dev, c; rewrite E; split_and!; try done; wsimpl_goal; first [done|cbn; by rewrite lookup_insert_eq].
Qed.

(** ** The instance *)

Lemma hv_callbacks w p n : hv_ok w p n -> forall i, w_info w !! p = Some i ->
  (i_irq i = 0 \/ i_irq i = UIO_IRQ_CUSTOM) /\ i_mmap i = 0 /\ i_open i = hv_uio_open_fn /\
  i_release i = hv_uio_release_fn /\ i_irqcontrol i = hv_uio_irqcontrol_fn.
Proof.
  intros (irq & h & pd & dev & c & H1 & Hirq & _) i Hi. rewrite Hi in H1. injection H1 as E1 _ E2 E3 E4 E5 _.
  subst irq. auto.
Qed.

#[export] Instance hv_driver_ok : UioDriverOk hv_state.
Proof using All.
  apply (Build_UioDriverOk _ _ _ _ hv_inv) with (drv_ready := fun p w => hv_ok w p 0).
  all: unfold drv_open, drv_release, drv_irqcontrol, drv_mmap, drv_handler, hv_uio_driver.
  - intros σ w w' E1 E2 Hi p n Hn.
    destruct (Hi _ _ Hn) as (irq & h & pd & dev & c & ?). exists irq, h, pd, dev, c. by rewrite E1, E2.
  - intros σ w p Hi q n Hn. apply Hi. by apply lookup_delete_Some in Hn as [_ ?].
  - intros σ w p Hp Hi q n Hn. apply lookup_insert_Some in Hn as [[<- <-]|[_ ?]]; auto.
  - intros σ w p i n Hw Ho Hn Hi. destruct (hv_callbacks _ _ _ (Hi _ _ Hn) i Hw) as (_ & _ & E & _). by rewrite E in Ho.
  - intros σ w p i n Hw Ho Hn Hi. destruct (hv_callbacks _ _ _ (Hi _ _ Hn) i Hw) as (_ & _ & _ & E & _). by rewrite E in Ho.
  - intros σ w p i n inode Hw Ho Hn Hm Hi.
    destruct (hv_callbacks _ _ _ (Hi _ _ Hn) i Hw) as (_ & _ & -> & _). cbn [Z.eqb Pos.eqb].
    eapply wp_mono; [by apply (wp_hv_uio_open σ)|]. cbn beta. tauto.
  - intros σ w p i n inode Hw Ho Hn Hi.
    destruct (hv_callbacks _ _ _ (Hi _ _ Hn) i Hw) as (_ & _ & _ & -> & _). cbn.
    eapply wp_mono; [by apply (wp_hv_uio_release σ)|]. cbn beta. tauto.
  - intros σ w p i n s Hw Ho Hn Hi.
    destruct (hv_callbacks _ _ _ (Hi _ _ Hn) i Hw) as (_ & _ & _ & _ & ->). cbn.
    eapply wp_mono; [by apply (wp_hv_uio_irqcontrol σ _ _ n)|]. cbn beta. tauto.
  - intros σ w p i n v Hw Ho Hn Hi.
    destruct (hv_callbacks _ _ _ (Hi _ _ Hn) i Hw) as (_ & E & _). by rewrite E in Ho.
  - intros σ w p i n irq Hw Hn H1 H2 Hi.
    destruct (hv_callbacks _ _ _ (Hi _ _ Hn) i Hw) as ([E|E] & _); congruence.
Defined.
End inv.
