(* ===== verification/HvCallbacks.v ===== *)
(** * Specification of the callbacks of VMBus

    [hv_uio_channel_cb], [hv_uio_rescind], [hv_uio_new_channel] and
    [hv_uio_ring_mmap]. *)

From S2P Require Import Prelude Kernel UioTypes UioAttr UioDevice UioFile UioMmap HypervVmbus HvUio KLogic UioInv UioSpec UioOpen UioReg UioSystem ModuleSpec HvSpec.

Section callbacks.
Context `{HK : Kernel, HKok : !KernelOk, HU : Uapi, HUok : !UapiOk, HA : HvApi, HHk : !HvKernelOk}.
Set Default Proof Using "All".
Implicit Types (w : world hv_state) (σ : gmap Z nat) (F : gset Z).

(** The driver has bound [hv_dev] to the private data [p], whose device node is
    [idev]. *)
Record bound_to w (hv_dev p : Z) (i : uio_info) (x : uio_device) : Prop := BoundTo {
  bt_data : drvdata_of (w_hist w) !! hv_dev = Some p;
  bt_info : w_info w !! p = Some i;
  bt_idev : w_heap w !! i_uio_dev i = Some (HIdev x) }.

(** A store to a mapped control block keeps the invariant. *)
Lemma inv_store_chan w F σ a c0 x :
  core_inv w F σ -> hs_chan (w_drv w) !! a = Some c0 -> ch_inbound x <> None ->
  core_inv (set_drv (set_hs_chan <[a := x]>) w) F σ.
Proof.
  intros Hi Ha Hx. apply (inv_quiet w); [done|apply calm_quiet; [|by intros; wsimpl_goal]|].
  - apply calm_of_frame. apply frame_set_drv, core_frame_refl.
  - intros q n Hq. eapply (hv_ok_frame w); wsimpl_goal; try done; [|by apply (ci_drv _ _ _ Hi)].
    cbn. intros b c Hb. by eapply chan_insert.
Qed.

(** ** A host signal *)

Lemma wp_hv_uio_channel_cb w F σ ctx c p i x :
  core_inv w F σ -> hs_chan (w_drv w) !! ctx = Some c -> ch_inbound c <> None ->
  bound_to w (ch_device_obj c) p i x ->
  wp (hv_uio_channel_cb ctx) w (fun _ w' => core_inv w' F σ /\
    w_drv w' = set_hs_chan <[ctx := set_ch_inbound (Some 1) c]> (w_drv w) /\
    w_info w' = w_info w /\ w_priv w' = w_priv w /\
    w_heap w' = <[i_uio_dev i := HIdev (upd_event atomic_inc x)]> (w_heap w) /\
    map ev_call (w_hist w') =
      [KillFasync (i_uio_dev i) POLL_IN; WakeUpInterruptible (i_uio_dev i); VirtMb; StoreInterruptMask ctx 1;
       DevGetDrvdata (ch_device_obj c)] ++ map ev_call (w_hist w)).
Proof.
  intros Hi Hc Hm [Bd Bi Bx]. assert (exists m, ch_inbound c = Some m) as [m Em] by (destruct (ch_inbound c); [eauto|done]).
  unfold hv_uio_channel_cb, uio_event_notify. dsteps. rewrite drvdata_spec, Bd. cbn [default from_option]. unfold id. dsteps.
  split_and!; try by wsimpl_goal.
  match goal with |- core_inv (logged _ (logged _ (set_heap _ (logged _ (logged _ (set_drv _ ?W)))))) _ _ => set (w0 := W) end.
  assert (Hi0 : core_inv w0 F σ) by (apply (inv_quiet_drv w); [done|subst w0; quiet_tac|subst w0; by wsimpl_goal]).
  set (w1 := set_drv _ w0). assert (Hi1 : core_inv w1 F σ) by by eapply inv_store_chan.
  apply (inv_quiet_drv w1); [done| |subst w1; by wsimpl_goal].
  assert (w_heap w1 !! i_uio_dev i = Some (HIdev x)) by (subst w1 w0; by wsimpl_goal). clearbody w1. quiet_tac.
Qed.

(** Before [hv_set_drvdata] there is no private data to find. *)
Lemma channel_cb_unbound w ctx c :
  hs_chan (w_drv w) !! ctx = Some c -> ch_inbound c <> None ->
  drvdata_of (w_hist w) !! ch_device_obj c = None -> w_info w !! NULL = None ->
  hv_uio_channel_cb ctx w = None.
Proof.
  intros Hc Hm Hd Hn. assert (exists m, ch_inbound c = Some m) as [m Em] by (destruct (ch_inbound c); [eauto|done]).
  unfold hv_uio_channel_cb. apply bind_fault. dstep. apply bind_fault. kstep.
  rewrite drvdata_spec, Hd. cbn [default from_option]. apply bind_fault. dstep. apply bind_fault. dstep.
  unfold uio_event_notify. apply bind_fault_l. unfold load_info, get_some. wsimpl_goal. unfold NULL in Hn. by rewrite Hn.
Qed.

(** ** Rescind *)

(** Turning the interrupt of an info off. *)
Lemma inv_irq_off w F σ p i :
  core_inv w F σ -> w_info w !! p = Some i -> core_inv (set_info <[p := upd_irq 0 i]> w) F σ.
Proof.
  intros Hi Hp. pose proof Hi as [I1 I2 I3 I4 I5 I6 I7 I8 I9 I10 I11 I12].
  split; try done.
  - intros m q Hm. destruct (I4 m q Hm) as (d & j & E1 & E2 & E3 & E4 & E5 & E6). wsimpl_goal.
    destruct (decide (p = d_info d)) as [->|].
    + exists d, (upd_irq 0 i). wsimpl_goal. rewrite lookup_insert_eq. assert (j = i) as -> by congruence. by split_and!.
    + exists d, j. wsimpl_goal. by rewrite lookup_insert_ne.
  - intros q n Hq. destruct (I11 q n Hq) as (irq & h & pd & d & c & H1 & H2 & H3). wsimpl_goal.
    destruct (decide (p = q)) as [<-|].
    + exists 0, h, pd, d, c. wsimpl_goal. rewrite lookup_insert_eq. rewrite Hp in H1. cbn in *. split; [|split; [by left|done]].
      unfold drv_fields in *. cbn. congruence.
    + exists irq, h, pd, d, c. wsimpl_goal. by rewrite lookup_insert_ne.
Qed.

Lemma wp_hv_uio_rescind w F σ ch c p i x :
  core_inv w F σ -> hs_chan (w_drv w) !! ch = Some c -> bound_to w (ch_device_obj c) p i x ->
  wp (hv_uio_rescind ch) w (fun _ w' => core_inv w' F σ /\
    w_drv w' = w_drv w /\ w_info w' = <[p := upd_irq 0 i]> (w_info w) /\ w_priv w' = w_priv w /\
    w_heap w' = <[i_uio_dev i := HIdev (upd_event atomic_inc x)]> (w_heap w) /\
    map ev_call (w_hist w') =
      [VmbusDeviceUnregister (ch_device_obj c); KillFasync (i_uio_dev i) POLL_IN; WakeUpInterruptible (i_uio_dev i);
       DevGetDrvdata (ch_device_obj c)] ++ map ev_call (w_hist w)).
Proof.
  intros Hi Hc [Bd Bi Bx]. unfold hv_uio_rescind, uio_event_notify. dsteps.
  rewrite drvdata_spec, Bd. cbn [default from_option]. unfold id. dsteps.
  change (i_uio_dev (upd_irq 0 i)) with (i_uio_dev i).
  split_and!; try by wsimpl_goal.
  match goal with |- core_inv (logged _ (logged _ (logged _ (set_heap _ (set_info _ ?W))))) _ _ => set (w0 := W) end.
  assert (Hi0 : core_inv w0 F σ) by (apply (inv_quiet_drv w); [done|subst w0; quiet_tac|subst w0; by wsimpl_goal]).
  assert (Hi1 : core_inv (set_info <[p:=upd_irq 0 i]> w0) F σ) by (apply inv_irq_off; [done|subst w0; by wsimpl_goal]).
  set (w1 := set_info _ w0) in *. apply (inv_quiet_drv w1); [done| |subst w1; by wsimpl_goal].
  assert (w_heap w1 !! i_uio_dev i = Some (HIdev x)) by (subst w1 w0; by wsimpl_goal). clearbody w1. quiet_tac.
Qed.

(** ** A new sub-channel *)

Lemma wp_hv_uio_new_channel w F σ ch c pc :
  core_inv w F σ -> hs_chan (w_drv w) !! ch = Some c -> hs_chan (w_drv w) !! ch_primary_channel c = Some pc ->
  (forall q n pd d, σ !! q = Some n -> hs_pdata (w_drv w) !! q = Some pd ->
     hs_dev (w_drv w) !! pd_device pd = Some d -> hd_channel d <> ch) ->
  wp (hv_uio_new_channel ch) w (fun _ w' => core_inv w' F σ /\ core_frame w w' /\
    exists c', hs_chan (w_drv w') !! ch = Some c' /\
      ((kernel (w_hist w) (VmbusOpen ch SZ_2M SZ_2M) <> 0 /\ c' = c) \/
       (kernel (w_hist w) (VmbusOpen ch SZ_2M SZ_2M) = 0 /\
        exists r o h, let file := Ev (SysfsCreateBinFile ch) r o in
          (r = 0 /\ w_hist w' = file :: h /\ ch_inbound c' = Some 1) \/
          (r <> 0 /\ (exists r' o', w_hist w' = Ev (VmbusClose ch) r' o' :: file :: h) /\ ch_inbound c' = None)))).
Proof.
  intros Hi Hc Hpc Hun. unfold hv_uio_new_channel, vmbus_open. dsteps. unfold ring_mapped. cbn [fst snd].
  destruct (Z.eqb_spec (kernel (w_hist w) (VmbusOpen ch SZ_2M SZ_2M)) 0) as [E|E].
  2: { dsteps. rewrite (proj2 (Z.eqb_neq _ _) E). cbn [negb]. dsteps. assert (Hf : core_frame w (logged (VmbusOpen ch SZ_2M SZ_2M) w)) by frame_tac.
    split_and!; [apply (inv_quiet_drv w); [done|quiet_tac|by wsimpl_goal]|done|].
    exists c. wsimpl_goal. split; [done|]. by left. }
  destruct (open_maps _ _ _ _ E) as (m & l & Eo). rewrite Eo. cbn [head]. dsteps. rewrite E. cbn [Z.eqb negb]. dsteps.
  assert (Hfin : forall w', core_frame w w' -> hs_dev (w_drv w') = hs_dev (w_drv w) -> hs_pdata (w_drv w') = hs_pdata (w_drv w) ->
    (forall a, a <> ch -> hs_chan (w_drv w') !! a = hs_chan (w_drv w) !! a) -> core_inv w' F σ).
  { intros w' Hf E1 E2 E3. apply (inv_quiet w); [done|apply calm_quiet; [by apply calm_of_frame|intros; by apply frame_lock_depth]|].
    intros q n Hq. destruct (ci_drv _ _ _ Hi q n Hq) as (irq & h & pd & d & cc & H1 & H2 & H3 & H4 & H5 & H6).
    exists irq, h, pd, d, cc. rewrite (cf_info _ _ Hf), E1, E2, E3 by eauto. done. }
  match goal with |- wp (if negb (?r =? 0) then _ else _) _ _ => destruct (Z.eqb_spec r 0) as [Er|Er] end; cbn [negb].
  - dsteps. split_and!; [apply Hfin; [frame_tac|by wsimpl_goal|by wsimpl_goal|]|frame_tac|].
    { intros a Ha. wsimpl_goal. cbn. by rewrite !lookup_insert_ne. }
    eexists. wsimpl_goal. cbn. rewrite lookup_insert_eq. split; [done|]. right. split; [done|].
    rewrite hist_logged. do 3 eexists. left. split_and!; [exact Er|reflexivity|done].
  - unfold vmbus_close. dsteps. split_and!; [apply Hfin; [frame_tac|by wsimpl_goal|by wsimpl_goal|]|frame_tac|].
    { intros a Ha. wsimpl_goal. cbn. by rewrite !lookup_insert_ne. }
    eexists. wsimpl_goal. cbn. rewrite lookup_insert_eq. split; [done|]. right. split; [done|].
    do 3 eexists. right. split_and!; [exact Er|by do 2 eexists; rewrite !hist_logged|done].
Qed.

(** ** Mapping a ring *)

Lemma wp_hv_uio_ring_mmap w F σ ch c v :
  core_inv w F σ -> hs_chan (w_drv w) !! ch = Some c ->
  wp (hv_uio_ring_mmap ch v) w (fun r w' => core_inv w' F σ /\ w_drv w' = w_drv w /\
    match ch_state c with
    | CHANNEL_OPENED_STATE => exists h phys o,
        w_hist w' = Ev (VmIomapMemory (vma_id v) phys (u32 (Z.shiftl (ch_ringbuffer_pagecount c) PAGE_SHIFT))) r o :: h
    | _ => r = - ENODEV /\ forall e, e ∈ w_hist w' -> e ∈ w_hist w \/ ev_call e = PageAddress (ch_ringbuffer_page c)
    end).
Proof.
  intros Hi Hc. unfold hv_uio_ring_mmap. dsteps. destruct (ch_state c) eqn:E; cbn [negb]; dsteps.
  - split_and!; [apply (inv_quiet_drv w); [done|quiet_tac|by wsimpl_goal]|by wsimpl_goal|].
    eexists _, _, _. rewrite hist_logged. reflexivity.
  - split_and!; [apply (inv_quiet_drv w); [done|quiet_tac|by wsimpl_goal]|by wsimpl_goal|done|].
    intros e. rewrite hist_logged, elem_of_cons. intros [->|?]; [by right|by left].
Qed.
End callbacks.

(** ** The callbacks of the UIO core leave its memory alone *)

Section frames.
Context `{HK : Kernel, HU : Uapi, HA : HvApi}.
Set Default Proof Using "All".

#[local] Instance core_frame_preorder : PreOrder (@core_frame hv_state).
Proof. split; [intros w; apply core_frame_refl|intros w1 w2 w3; apply core_frame_trans]. Qed.

Lemma frame_load {A} (f : world hv_state -> option A) : keeps core_frame (get_some f).
Proof. apply keeps_get, _. Qed.

Lemma frame_store {A} (f : world hv_state -> option A) (g : A -> hv_state -> hv_state) :
  keeps core_frame (a ← get_some f; modify (set_drv (g a))).
Proof.
  intros w a w'. unfold get_some, modify, mbind, K_bind. destruct (f w); [|done]. intros [= _ <-].
  apply frame_set_drv, core_frame_refl.
Qed.

Lemma frame_do c : driver_call c = true -> keeps core_frame (do_ (D:=hv_state) c).
Proof. intros Hc w a w'. rewrite do_run. intros [= _ <-]. by apply frame_logged, core_frame_refl. Qed.
Lemma frame_call c : driver_call c = true -> keeps core_frame (call (D:=hv_state) c).
Proof. intros Hc w a w'. rewrite call_run. intros [= _ <-]. by apply frame_logged, core_frame_refl. Qed.
Lemma frame_call_out c : driver_call c = true -> keeps core_frame (call_out (D:=hv_state) c).
Proof.
  intros Hc w a w' Hr. refine (wp_run _ _ (fun _ w'' => core_frame w w'') _ _ _ Hr).
  apply wp_call_out. by apply frame_logged, core_frame_refl.
Qed.
Lemma frame_ret {A} (a : A) : keeps core_frame (mret (M:=K hv_state) a).
Proof. apply keeps_ret, _. Qed.
Lemma frame_bind {A B} (m : K hv_state A) (f : A -> K hv_state B) :
  keeps core_frame m -> (forall a, keeps core_frame (f a)) -> keeps core_frame (m ≫= f).
Proof. apply keeps_bind, _. Qed.

Ltac frame_keep :=
  repeat first
    [ apply frame_ret | apply frame_load | apply (frame_store (fun w => hs_pdata (w_drv w) !! _) (fun a => set_hs_pdata (insert _ (_ a))))
    | apply (frame_store (fun w => hs_chan (w_drv w) !! _) (fun a => set_hs_chan (insert _ (_ a))))
    | apply frame_do; reflexivity | apply frame_call; reflexivity | apply frame_call_out; reflexivity
    | apply frame_bind; [|intros] | case_match ].

#[export] Instance hv_uio_frame : UioDriverFrame hv_state.
Proof.
  split; intros; cbn [drv_open drv_release drv_irqcontrol drv_mmap drv_handler hv_uio_driver];
    try case_match; try (by intros w a w' [=]).
  - unfold hv_uio_open, vmbus_connect_ring, ring_mapped, store_interrupt_mask, mod_pdata, mod_chan. frame_keep.
  - unfold hv_uio_release, mod_pdata. frame_keep.
  - unfold hv_uio_irqcontrol, store_interrupt_mask, mod_chan. frame_keep.
Qed.
End frames.
