(* ===== verification/HvProbe.v ===== *)
(** * Probe and remove of the VMBus driver

    What [hv_uio_probe] acquires, what its error labels give back, and what
    [hv_uio_remove] gives back: the ring of the channel, the two GPADLs, the two
    buffers and the registration with the UIO core. *)

From S2P Require Import Prelude Kernel UioTypes UioAttr UioDevice UioFile UioMmap HypervVmbus HvUio KLogic CoreStep UioInv UioSpec UioOpen UioAttrSpec UioReg HvSpec.

Section probe.
Context `{HK : Kernel, HKok : !KernelOk, HU : Uapi, HUok : !UapiOk, HA : HvApi, HHk : !HvKernelOk}.
Set Default Proof Using "All".
Implicit Types (w : world hv_state) (σ : gmap Z nat) (F : gset Z).

(** ** Buffers *)

Lemma wp_vzalloc size w (Q : Z -> world hv_state -> Prop) :
  let p := kernel (w_hist w) (Vzalloc size) in
  (p = 0 -> Q 0 (logged (Vzalloc size) w)) ->
  (0 < p -> p ∉ vlive (w_hist w) -> Q p (set_drv (set_hs_vm (fun s => {[p]} ∪ s)) (logged (Vzalloc size) w))) ->
  wp (vzalloc size) w Q.
Proof.
  intros p H0 H1. unfold vzalloc. ksteps. fold p. unfold NULL. destruct (Z.eqb_spec p 0) as [E|E]; ksteps.
  - rewrite E. auto.
  - destruct (vzalloc_fresh (w_hist w) size) as [?|[? ?]]; [done|]. auto.
Qed.

Lemma wp_vfree p w (Q : unit -> world hv_state -> Prop) :
  p <> 0 -> p ∈ hs_vm (w_drv w) -> Q tt (set_drv (set_hs_vm (fun s => s ∖ {[p]})) (logged (Vfree p) w)) ->
  wp (vfree p) w Q.
Proof.
  intros Hp Hv HQ. unfold vfree, NULL. rewrite (proj2 (Z.eqb_neq _ _) Hp). kstep.
  eapply wp_get_some; [by rewrite decide_True|]. by ksteps.
Qed.

(** ** What the driver holds

    From [w0] to [w]: [ring] rings and [gp] GPADLs of channel [ch] more, and
    the buffers [V]. *)
Record holds w0 w (ch ring gp : Z) (V : gset Z) : Prop := Holds {
  ho_ring c : ring_allocated c (w_hist w) = ring_allocated c (w_hist w0) + (if ch =? c then ring else 0);
  ho_gpadl c : gpadl_live c (w_hist w) = gpadl_live c (w_hist w0) + (if ch =? c then gp else 0);
  ho_vm : hs_vm (w_drv w) = V ∪ hs_vm (w_drv w0);
  ho_vlive : vlive (w_hist w) = V ∪ vlive (w_hist w0);
  ho_new : V ## vlive (w_hist w0) }.

(** What a teardown left allocated: a buffer whose pages the host may still
    read. *)
Definition kept (g : vmbus_gpadl) (b : Z) : gset Z := if decrypted g then {[b]} else ∅.

Definition has (g : vmbus_gpadl) : Z := if gpadl_handle g =? 0 then 0 else 1.

(** [pd'] differs from [pd] in the GPADLs only. *)
Definition same_bufs (pd pd' : hv_uio_private_data) : Prop :=
  pd_device pd' = pd_device pd /\ pd_refcnt pd' = pd_refcnt pd /\
  pd_recv_buf pd' = pd_recv_buf pd /\ pd_send_buf pd' = pd_send_buf pd.

(** Buffers [hv_uio_cleanup] releases. *)
Definition freed (g g' : vmbus_gpadl) (b : Z) : gset Z :=
  if gpadl_handle g =? 0 then ∅ else if decrypted g' then ∅ else {[b]}.

(** From [w] to [w'], [k] GPADLs of [ch] and the buffers [fr] were given up;
    the private data at [p] is [pd']. *)
Record released w (ch p : Z) (pd' : hv_uio_private_data) (fr : gset Z) (k : Z) w' : Prop := Released {
  rl_frame : core_frame w w';
  rl_pdata : hs_pdata (w_drv w') = <[p := pd']> (hs_pdata (w_drv w));
  rl_rest : hs_dev (w_drv w') = hs_dev (w_drv w) /\ hs_chan (w_drv w') = hs_chan (w_drv w) /\
    hs_conn (w_drv w') = hs_conn (w_drv w);
  rl_vm : hs_vm (w_drv w') = hs_vm (w_drv w) ∖ fr;
  rl_vlive : vlive (w_hist w') = vlive (w_hist w) ∖ fr;
  rl_ring c : ring_allocated c (w_hist w') = ring_allocated c (w_hist w);
  rl_gpadl c : gpadl_live c (w_hist w') = gpadl_live c (w_hist w) - (if ch =? c then k else 0) }.

Lemma released_trans w w1 w2 ch p pd1 pd2 fr1 fr2 k1 k2 :
  released w ch p pd1 fr1 k1 w1 -> released w1 ch p pd2 fr2 k2 w2 ->
  released w ch p pd2 (fr1 ∪ fr2) (k1 + k2) w2.
Proof.
  intros [F1 P1 (D1 & C1 & N1) V1 L1 R1 G1] [F2 P2 (D2 & C2 & N2) V2 L2 R2 G2]. split.
  - by eapply core_frame_trans.
  - by rewrite P2, P1, insert_insert_eq.
  - split_and!; congruence.
  - rewrite V2, V1. set_solver.
  - rewrite L2, L1. set_solver.
  - intros c. congruence.
  - intros c. rewrite G2, G1. case_match; lia.
Qed.

Lemma released_none w ch p pd : hs_pdata (w_drv w) !! p = Some pd -> released w ch p pd ∅ 0 w.
Proof.
  intros Hp. split; try done; [apply core_frame_refl|by rewrite insert_id|set_solver|set_solver|].
  intros c. case_match; lia.
Qed.

(** Half of the clean-up, for either buffer. *)
Lemma wp_teardown (get_g : hv_uio_private_data -> vmbus_gpadl) (get_b : hv_uio_private_data -> Z) set_g w ch p pd :
  (forall g x, get_g (set_g g x) = g) -> (forall g x, get_b (set_g g x) = get_b x) ->
  hs_pdata (w_drv w) !! p = Some pd ->
  (gpadl_handle (get_g pd) <> 0 -> get_b pd <> 0 /\ get_b pd ∈ hs_vm (w_drv w)) ->
  wp (if negb (gpadl_handle (get_g pd) =? 0) then
        ro ← call_out (VmbusTeardownGpadl ch (gpadl_handle (get_g pd)));
        mod_pdata p (fun p => set_g (stored_gpadl (snd ro) (get_g p)) p);;
        q ← load_pdata p;
        if negb (decrypted (get_g q)) then vfree (get_b q) else mret tt
      else mret tt) w (fun _ w' => exists g',
    let pd' := if gpadl_handle (get_g pd) =? 0 then pd else set_g g' pd in
    released w ch p pd' (freed (get_g pd) (get_g pd') (get_b pd)) (has (get_g pd)) w').
Proof.
  intros Hg Hb Hp Hv. unfold freed, has.
  destruct (Z.eqb_spec (gpadl_handle (get_g pd)) 0) as [E|E]; cbn [negb].
  { kstep. exists (get_g pd). by apply released_none. }
  destruct (Hv E) as [Hnz Hin]. ksteps. dsteps.
  set (g' := stored_gpadl _ _). rewrite Hg, Hb.
  destruct (decrypted g') eqn:Eg; cbn [negb].
  - kstep. exists g'. rewrite Hg, Eg. split; try (by wsimpl_goal); [frame_tac|..]; wsimpl_goal; try set_solver; intros c; gsimpl; try done. case_match; lia.
  - eapply wp_vfree; [done|by wsimpl_goal|]. exists g'. rewrite Hg, Eg.
    split; try (by wsimpl_goal); [frame_tac|..]; intros; gsimpl; try done. case_match; lia.
Qed.

Lemma wp_hv_uio_cleanup w dev d p pd :
  hs_dev (w_drv w) !! dev = Some d -> hs_pdata (w_drv w) !! p = Some pd ->
  (gpadl_handle (pd_send_gpadl pd) <> 0 -> pd_send_buf pd <> 0 /\ pd_send_buf pd ∈ hs_vm (w_drv w)) ->
  (gpadl_handle (pd_recv_gpadl pd) <> 0 -> pd_recv_buf pd <> 0 /\ pd_recv_buf pd ∈ hs_vm (w_drv w)) ->
  (gpadl_handle (pd_send_gpadl pd) <> 0 -> pd_send_buf pd <> pd_recv_buf pd) ->
  wp (hv_uio_cleanup dev p) w (fun _ w' => exists pd', same_bufs pd pd' /\
    (gpadl_handle (pd_send_gpadl pd) = 0 -> pd_send_gpadl pd' = pd_send_gpadl pd) /\
    (gpadl_handle (pd_recv_gpadl pd) = 0 -> pd_recv_gpadl pd' = pd_recv_gpadl pd) /\
    released w (hd_channel d) p pd'
      (freed (pd_send_gpadl pd) (pd_send_gpadl pd') (pd_send_buf pd) ∪
       freed (pd_recv_gpadl pd) (pd_recv_gpadl pd') (pd_recv_buf pd))
      (has (pd_send_gpadl pd) + has (pd_recv_gpadl pd)) w').
Proof.
  intros Hd Hp Hs Hr Hsr. unfold hv_uio_cleanup. dsteps.
  eapply wp_mono; [by eapply (wp_teardown pd_send_gpadl pd_send_buf set_send_gpadl)|].
  cbn beta zeta. intros _ w1 (g1 & H1). set (pd1 := if _ =? 0 then _ else _) in H1.
  assert (Hpd1 : hs_pdata (w_drv w1) !! p = Some pd1) by (rewrite (rl_pdata _ _ _ _ _ _ _ H1); apply lookup_insert_eq).
  assert (Er : pd_recv_gpadl pd1 = pd_recv_gpadl pd) by (subst pd1; by case_match).
  assert (Eb : pd_recv_buf pd1 = pd_recv_buf pd) by (subst pd1; by case_match).
  dsteps. eapply wp_mono.
  { eapply (wp_teardown pd_recv_gpadl pd_recv_buf set_recv_gpadl); [done|done|exact Hpd1|].
    rewrite Er, Eb, (rl_vm _ _ _ _ _ _ _ H1). intros E. destruct (Hr E) as [? ?]. split; [done|].
    apply elem_of_difference. split; [done|]. unfold freed.
    destruct (Z.eqb_spec (gpadl_handle (pd_send_gpadl pd)) 0); [set_solver|]. specialize (Hsr n). case_match; set_solver. }
  cbn beta zeta. intros _ w2 (g2 & H2). set (pd2 := if _ =? 0 then _ else _) in H2.
  rewrite Er, Eb in H2. exists pd2.
  assert (Es : pd_send_gpadl pd2 = pd_send_gpadl pd1) by (subst pd2; by case_match).
  split; [subst pd2 pd1; unfold same_bufs; do 2 case_match; done|].
  split; [rewrite Es; subst pd1; by intros ->|]. split; [rewrite <- Er; subst pd2; by intros ->|].
  rewrite Es. by eapply released_trans.
Qed.
(** ** The invariant along probe *)

(** No device of [σ] is the one being probed or uses its channel. *)
Definition spare σ (p ch : Z) w : Prop :=
  σ !! p = None /\
  forall q n pd d, σ !! q = Some n -> hs_pdata (w_drv w) !! q = Some pd ->
    hs_dev (w_drv w) !! pd_device pd = Some d -> hd_channel d <> ch.

(** Writes of probe to the driver's memory. *)
Record own_writes (p ch : Z) w w' : Prop := OwnWrites {
  ow_dev : hs_dev (w_drv w') = hs_dev (w_drv w);
  ow_pdata q : q <> p -> hs_pdata (w_drv w') !! q = hs_pdata (w_drv w) !! q;
  ow_chan c : c <> ch -> hs_chan (w_drv w') !! c = hs_chan (w_drv w) !! c;
  ow_info q : q <> p -> drv_fields <$> w_info w' !! q = drv_fields <$> w_info w !! q }.

Lemma own_writes_trans p ch w1 w2 w3 : own_writes p ch w1 w2 -> own_writes p ch w2 w3 -> own_writes p ch w1 w3.
Proof.
  intros [A1 A2 A3 A4] [B1 B2 B3 B4]. split; [congruence|..]; intros q Hq.
  - by rewrite B2, A2.
  - by rewrite B3, A3.
  - by rewrite B4, A4.
Qed.

Lemma hv_inv_own σ p ch w w' : own_writes p ch w w' -> spare σ p ch w -> hv_inv σ w -> hv_inv σ w'.
Proof.
  intros [A1 A2 A3 A4] [Hp Hc] Hi q n Hq. assert (q <> p) by congruence.
  destruct (Hi _ _ Hq) as (irq & h & pd & d & c & H1 & H2 & H3 & H4 & H5 & H6).
  exists irq, h, pd, d, c. rewrite A4, A2, A1, A3 by eauto. tauto.
Qed.

Lemma spare_own σ p ch w w' : own_writes p ch w w' -> spare σ p ch w -> spare σ p ch w'.
Proof.
  intros [A1 A2 A3 A4] [Hp Hc]. split; [done|]. intros q n pd d Hq. assert (q <> p) by congruence.
  rewrite A1, A2 by done. eauto.
Qed.

(** Steps of the driver alone keep the core's invariant. *)
Lemma inv_frame w w' F σ : core_inv w F σ -> core_frame w w' -> hv_inv σ w' -> core_inv w' F σ.
Proof.
  intros Hi Hf Hd. apply (inv_quiet w); [done| |done].
  apply calm_quiet; [by apply calm_of_frame|]. intros l. by apply frame_lock_depth.
Qed.

(** Registration makes none of the calls [holds] counts. *)
Lemma core_step_count X w w' d :
  (forall e, core_call (ev_call e) = true -> d e = 0) -> core_step X w w' ->
  count_of d (w_hist w') = count_of d (w_hist w).
Proof.
  intros Hd [_ _ _ _ _ (evs & -> & Hevs)]. rewrite count_of_app, count_of_zero; [lia|].
  eapply Forall_impl; eauto.
Qed.

Lemma core_step_vlive X w w' : core_step X w w' -> vlive (w_hist w') = vlive (w_hist w).
Proof.
  intros [_ _ _ _ _ (evs & -> & Hevs)]. induction Hevs as [|e evs He _ IH]; [done|]. cbn [app vlive foldr].
  fold (vlive (evs ++ w_hist w)). rewrite IH. destruct e as [c r o]. by destruct c.
Qed.

Lemma holds_core_step X w0 w w' ch r g V : core_step X w w' -> holds w0 w ch r g V -> holds w0 w' ch r g V.
Proof.
  intros Hs [H1 H2 H3 H4 H5]. split; try done.
  - intros c. rewrite <- H1. eapply core_step_count; [|exact Hs]. intros [[] ? ?]; done.
  - intros c. rewrite <- H2. eapply core_step_count; [|exact Hs]. intros [[] ? ?]; done.
  - by rewrite (cs_drv _ _ _ Hs).
  - by rewrite (core_step_vlive _ _ _ Hs).
Qed.

(** ** The error labels *)

(** Buffers the private data at [p] stands for: handed to the host, or kept
    because the host may still read them. *)
Definition held (g : vmbus_gpadl) (b : Z) : gset Z := if gpadl_handle g =? 0 then kept g b else {[b]}.
Definition bufs (pd : hv_uio_private_data) : gset Z :=
  held (pd_recv_gpadl pd) (pd_recv_buf pd) ∪ held (pd_send_gpadl pd) (pd_send_buf pd).
Definition kept_bufs (pd : hv_uio_private_data) : gset Z :=
  kept (pd_recv_gpadl pd) (pd_recv_buf pd) ∪ kept (pd_send_gpadl pd) (pd_send_buf pd).

(** The private data is consistent. *)
Definition pd_ok (pd : hv_uio_private_data) : Prop :=
  (gpadl_handle (pd_recv_gpadl pd) <> 0 -> pd_recv_buf pd <> 0) /\
  (gpadl_handle (pd_send_gpadl pd) <> 0 -> pd_send_buf pd <> 0) /\
  (pd_send_buf pd = pd_recv_buf pd -> bufs pd = ∅).

(** What probe leaves alone until it binds the device: its driver data, the empty info at NULL,
    the device its channel belongs to. *)
Record unbound (dev ch : Z) w w' : Prop := Unbound {
  un_data : drvdata_of (w_hist w') !! dev = drvdata_of (w_hist w) !! dev;
  un_null : w_info w !! NULL = None -> w_info w' !! NULL = None;
  un_obj : ch_device_obj <$> hs_chan (w_drv w') !! ch = ch_device_obj <$> hs_chan (w_drv w) !! ch }.

Lemma unbound_trans dev ch w1 w2 w3 : unbound dev ch w1 w2 -> unbound dev ch w2 w3 -> unbound dev ch w1 w3.
Proof. intros [A1 A2 A3] [B1 B2 B3]. split; [congruence|auto|congruence]. Qed.

Record probing w0 F σ dev d p pd w : Prop := Probing {
  pr_inv : core_inv w F σ;
  pr_holds : holds w0 w (hd_channel d) 1 (has (pd_send_gpadl pd) + has (pd_recv_gpadl pd)) (bufs pd);
  pr_sub : hs_vm (w_drv w0) ⊆ vlive (w_hist w0);
  pr_spare : spare σ p (hd_channel d) w;
  pr_pd : hs_pdata (w_drv w) !! p = Some pd;
  pr_ok : pd_ok pd;
  pr_dev : hs_dev (w_drv w) !! dev = Some d;
  pr_chan : is_Some (hs_chan (w_drv w) !! hd_channel d);
  pr_idr : idr_of (w_hist w) = idr_of (w_hist w0);
  pr_unbound : unbound dev (hd_channel d) w0 w }.

Record probe_failed w0 F σ ch p w' : Prop := ProbeFailed {
  pf_inv : core_inv w' F σ;
  pf_idr : idr_of (w_hist w') = idr_of (w_hist w0);
  pf_res : exists pd, hs_pdata (w_drv w') !! p = Some pd /\ holds w0 w' ch 0 0 (kept_bufs pd) }.

Lemma held_freed pd pd' :
  same_bufs pd pd' -> pd_ok pd ->
  (gpadl_handle (pd_send_gpadl pd) = 0 -> pd_send_gpadl pd' = pd_send_gpadl pd) ->
  (gpadl_handle (pd_recv_gpadl pd) = 0 -> pd_recv_gpadl pd' = pd_recv_gpadl pd) ->
  bufs pd ∖ (freed (pd_send_gpadl pd) (pd_send_gpadl pd') (pd_send_buf pd) ∪
     freed (pd_recv_gpadl pd) (pd_recv_gpadl pd') (pd_recv_buf pd)) = kept_bufs pd'.
Proof.
  intros (_ & _ & E1 & E2) (_ & _ & Hne) Hs Hr. unfold bufs, kept_bufs, held, freed, kept in *. rewrite E1, E2.
  destruct (decide (pd_send_buf pd = pd_recv_buf pd)) as [E|E].
  - specialize (Hne E). rewrite Hne.
    destruct (Z.eqb_spec (gpadl_handle (pd_send_gpadl pd)) 0) as [A|A]; [rewrite (Hs A)|set_solver].
    destruct (Z.eqb_spec (gpadl_handle (pd_recv_gpadl pd)) 0) as [B|B]; [rewrite (Hr B), Hne|]; set_solver.
  - destruct (Z.eqb_spec (gpadl_handle (pd_send_gpadl pd)) 0) as [A|A]; [rewrite (Hs A)|];
      (destruct (Z.eqb_spec (gpadl_handle (pd_recv_gpadl pd)) 0) as [B|B]; [rewrite (Hr B)|]);
      repeat case_match; set_solver.
Qed.

(** The driver holds a ring and what [pd] stands for, and may give it back. *)
Record holding w0 F σ dev d p pd w : Prop := Holding {
  hg_inv : core_inv w F σ;
  hg_holds : holds w0 w (hd_channel d) 1 (has (pd_send_gpadl pd) + has (pd_recv_gpadl pd)) (bufs pd);
  hg_sub : hs_vm (w_drv w0) ⊆ vlive (w_hist w0);
  hg_spare : spare σ p (hd_channel d) w;
  hg_pd : hs_pdata (w_drv w) !! p = Some pd;
  hg_ok : pd_ok pd;
  hg_dev : hs_dev (w_drv w) !! dev = Some d;
  hg_chan : is_Some (hs_chan (w_drv w) !! hd_channel d) }.

Definition give_back (dev p : Z) : K hv_state unit :=
  hv_uio_cleanup dev p;;
  d ← load_hvdev dev;
  vmbus_free_ring (hd_channel d).

Lemma freed_bufs pd pd' :
  freed (pd_send_gpadl pd) (pd_send_gpadl pd') (pd_send_buf pd) ∪
  freed (pd_recv_gpadl pd) (pd_recv_gpadl pd') (pd_recv_buf pd) ⊆ bufs pd.
Proof. unfold freed, bufs, held. repeat case_match; set_solver. Qed.

(** Every buffer, GPADL and ring is given back, except for buffers whose pages
    the host may still read. *)
Lemma wp_give_back w0 F σ dev d p pd w :
  holding w0 F σ dev d p pd w ->
  wp (give_back dev p) w (fun _ w' => core_frame w w' /\ core_inv w' F σ /\
    (exists pd', hs_pdata (w_drv w') !! p = Some pd' /\ holds w0 w' (hd_channel d) 0 0 (kept_bufs pd')) /\
    (exists c, hs_chan (w_drv w') !! hd_channel d = Some c /\ ch_inbound c = None)).
Proof.
  intros [Pi Ph Psub Psp Ppd Pok Pdev [c Pchan]]. pose proof Ph as [Hr Hg Hv Hl Hn]. pose proof Pok as (O1 & O2 & O3).
  unfold give_back. kstep. eapply wp_mono.
  { eapply wp_hv_uio_cleanup; [exact Pdev|exact Ppd|..]; intros A; rewrite ?Hv.
    - split; [by apply O2|]. unfold bufs, held. rewrite (proj2 (Z.eqb_neq (gpadl_handle (pd_send_gpadl pd)) 0)) by done. set_solver.
    - split; [by apply O1|]. unfold bufs, held. rewrite (proj2 (Z.eqb_neq (gpadl_handle (pd_recv_gpadl pd)) 0)) by done. set_solver.
    - intros E. specialize (O3 E). unfold bufs, held in O3.
      rewrite (proj2 (Z.eqb_neq (gpadl_handle (pd_send_gpadl pd)) 0)) in O3 by done. set_solver. }
  cbn beta. intros _ w1 (pd' & Hsame & Es & Er & [Lf Lp (Ld & Lc & Lconn) Lv Ll Lr Lg]).
  pose proof (held_freed pd pd' Hsame Pok Es Er) as Hkept. pose proof (freed_bufs pd pd') as Hsub.
  set (fr := freed _ _ _ ∪ freed _ _ _) in *. unfold vmbus_free_ring.
  assert (Pdev1 : hs_dev (w_drv w1) !! dev = Some d) by (by rewrite Ld).
  assert (Pchan1 : hs_chan (w_drv w1) !! hd_channel d = Some c) by (by rewrite Lc).
  dsteps. match goal with |- core_frame _ ?W /\ _ => set (w2 := W) end.
  assert (Hfr : core_frame w w2) by (subst w2; frame_tac).
  assert (How : own_writes p (hd_channel d) w w2).
  { subst w2. split; wsimpl_goal; cbn; [done|..]; intros q Hq.
    - by rewrite Lp, lookup_insert_ne.
    - by rewrite lookup_insert_ne, Lc.
    - by rewrite (cf_info _ _ Lf). }
  split_and!; [done| | |].
  - apply (inv_frame w); [done|done|]. eapply hv_inv_own; [exact How|done|apply (ci_drv _ _ _ Pi)].
  - exists pd'. split; [subst w2; wsimpl_goal; cbn; by rewrite Lp, lookup_insert_eq|].
    rewrite <- Hkept. split; subst w2; wsimpl_goal; cbn; intros; gsimpl.
    + rewrite Lr, Hr. case_match; lia.
    + rewrite Lg, Hg. case_match; lia.
    + clear -Lv Hv Hsub Hn Psub. rewrite Lv, Hv. set_solver.
    + clear -Ll Hl Hsub Hn. rewrite Ll, Hl. set_solver.
    + clear -Hn. set_solver.
  - eexists. subst w2. wsimpl_goal. cbn. by rewrite lookup_insert_eq.
Qed.

(** [fail_close] *)
Lemma wp_fail_close w0 F σ dev d p pd w ret :
  probing w0 F σ dev d p pd w ->
  wp (fail_close dev p ret) w (fun r w' => r = ret /\ probe_failed w0 F σ (hd_channel d) p w').
Proof.
  intros [Pi Ph Psub Psp Ppd Pok Pdev Pchan Pidr].
  destruct (wp_give_back w0 F σ dev d p pd w) as ([] & w' & Hrun & Hf & Hi & Hres & _); [by split|].
  exists ret, w'. split; [|split; [done|]].
  - unfold give_back, fail_close, fail_free_ring, mbind, K_bind in *.
    destruct (hv_uio_cleanup dev p w) as [[? w1]|]; [|done].
    destruct (load_hvdev dev w1) as [[? w2]|]; [|done].
    destruct (vmbus_free_ring _ w2) as [[? w3]|]; [|done]. injection Hrun as _ ->. reflexivity.
  - split; [done|by rewrite (frame_idr _ _ Hf)|done].
Qed.

(** ** Writes to an info that is not registered *)

Lemma inv_unreg_info w w' F σ p :
  core_inv w F σ -> unregistered w p -> (forall q, q <> p -> w_info w' !! q = w_info w !! q) ->
  w_heap w' = w_heap w -> w_priv w' = w_priv w -> w_hist w' = w_hist w -> hv_inv σ w' -> core_inv w' F σ.
Proof.
  intros [I1 I2 I3 I4 I5 I6 I7 I8 I9 I10 I11 I12] Hun Ei Eh Ep Et Hd.
  assert (Ho : forall f, dev_of w' f = dev_of w f) by (intros f; unfold dev_of; by rewrite Ep, Eh).
  assert (Hw : forall f, owner_of w' f = owner_of w f) by (intros f; unfold owner_of; by rewrite Ho, Eh).
  split; unfold heap_live, registered, reg_count, opens, owner_opens in *; rewrite ?Eh, ?Ep, ?Et; try done.
  - intros m q Hm. destruct (I4 m q Hm) as (d & j & E1 & E2 & E3 & E4 & E5 & E6).
    exists d, j. rewrite Ei by (intros E; by apply (Hun m q d)). done.
  - intros q d Hq. rewrite (count_ext (dev_of w)) by done. rewrite (I6 q d Hq). f_equal.
    apply reg_count_ext. unfold registered. by rewrite Et.
  - intros m. rewrite (count_ext (owner_of w)) by done. apply I8.
  - intros q d Hq Hr. rewrite (count_ext (dev_of w)) by done. by apply I12.
Qed.

(** What probe does before it registers: steps of the driver and writes to the
    info at [p]. *)
Record probe_run (p ch : Z) w w' : Prop := ProbeRun {
  pn_heap : w_heap w' = w_heap w;
  pn_priv : w_priv w' = w_priv w;
  pn_glob : w_glob w' = w_glob w;
  pn_info q : q <> p -> w_info w' !! q = w_info w !! q;
  pn_hist : exists evs, w_hist w' = evs ++ w_hist w /\ Forall driver_event evs;
  pn_dev : hs_dev (w_drv w') = hs_dev (w_drv w);
  pn_conn : hs_conn (w_drv w') = hs_conn (w_drv w);
  pn_pdata q : q <> p -> hs_pdata (w_drv w') !! q = hs_pdata (w_drv w) !! q;
  pn_chan c : c <> ch -> hs_chan (w_drv w') !! c = hs_chan (w_drv w) !! c;
  pn_obj : ch_device_obj <$> hs_chan (w_drv w') !! ch = ch_device_obj <$> hs_chan (w_drv w) !! ch }.

Lemma probe_run_refl p ch w : probe_run p ch w w.
Proof. split; auto. by exists []. Qed.

Ltac run_split :=
  intros [A1 A2 A3 A4 A5 A7 A8 A9 A10 A11]; split; intros; wsimpl_goal; cbn;
  rewrite ?lookup_insert_eq, ?lookup_insert_ne by done; auto.

Lemma probe_run_logged p ch c w w1 : driver_call c = true -> probe_run p ch w w1 -> probe_run p ch w (logged c w1).
Proof.
  intros Hc. run_split. destruct A5 as (evs & A5 & A6). eexists (_ :: evs).
  split; [rewrite hist_logged, A5; reflexivity|]. by constructor.
Qed.
Lemma probe_run_info p ch i w w1 : probe_run p ch w w1 -> probe_run p ch w (set_info (insert p i) w1).
Proof. run_split. Qed.
Lemma probe_run_pdata p ch x w w1 : probe_run p ch w w1 -> probe_run p ch w (set_drv (set_hs_pdata (insert p x)) w1).
Proof. run_split. Qed.
Lemma probe_run_chan p ch x w w1 : ch_device_obj <$> hs_chan (w_drv w1) !! ch = Some (ch_device_obj x) ->
  probe_run p ch w w1 -> probe_run p ch w (set_drv (set_hs_chan (insert ch x)) w1).
Proof. intros Hx. run_split. cbn. congruence. Qed.
Lemma probe_run_vm p ch f w w1 : probe_run p ch w w1 -> probe_run p ch w (set_drv (set_hs_vm f) w1).
Proof. run_split. Qed.

Lemma probe_run_inv p ch w w' F σ :
  core_inv w F σ -> unregistered w p -> spare σ p ch w -> probe_run p ch w w' ->
  core_inv w' F σ /\ unregistered w' p /\ spare σ p ch w'.
Proof.
  intros Hi Hun Hsp Hr. pose proof Hr as [A1 A2 A3 A4 (evs & A5 & A6) A7 A8 A9 A10 A11].
  assert (How : own_writes p ch w w') by (split; auto; intros; by rewrite A4).
  assert (Hd : hv_inv σ w') by (eapply hv_inv_own; [exact How|done|apply (ci_drv _ _ _ Hi)]).
  set (w1 := World (w_heap w) (w_info w') (w_priv w) (w_glob w) (w_drv w') (w_hist w)).
  assert (Hfr : core_frame w1 w') by (split; [done..|by exists evs]).
  split_and!.
  - apply (inv_frame w1); [|done|done]. eapply inv_unreg_info; [exact Hi|exact Hun|done..|].
    intros q n Hq. destruct (Hd q n Hq) as (irq & h & pd & dv & c & ?). by exists irq, h, pd, dv, c.
  - intros m q d. rewrite (frame_idr _ _ Hfr), A1. apply Hun.
  - by eapply spare_own.
Qed.
End probe.

Ltac run_tac :=
  repeat first [ assumption | apply probe_run_refl | apply probe_run_info | apply probe_run_pdata
               | apply probe_run_chan; [by wsimpl_goal; simplify_map_eq|] | apply probe_run_vm | apply probe_run_logged; [reflexivity|] ].
