(* ===== verification/HvProbeSpec.v ===== *)
(** * The probe function of the VMBus driver

    [wp_hv_uio_probe]: on success everything is acquired once and the info
    describes the five regions; on failure everything acquired is given back. *)

From S2P Require Import Prelude Kernel UioTypes UioAttr UioDevice UioFile UioMmap HypervVmbus HvUio KLogic CoreStep UioInv UioSpec UioOpen UioAttrSpec UioReg HvSpec HvProbe UioSysfs.

(** A region, and the info, as probe fills them in. *)
Definition hv_mem (name : string) (addr size : Z) (t : memtype) : uio_mem := UioMem (Some name) addr 0 0 size t 0 0.
Definition hv_info `{Uapi} (mems : list uio_mem) (priv : Z) : uio_info :=
  UioInfo 0 (Some "uio_hv_generic") (Some DRIVER_VERSION) mems (replicate MAX_UIO_PORT_REGIONS zero_port)
    UIO_IRQ_CUSTOM 0 0 0 hv_uio_open_fn hv_uio_release_fn hv_uio_irqcontrol_fn priv.

Section probe.
Context `{HK : Kernel, HKok : !KernelOk, HU : Uapi, HUok : !UapiOk, HA : HvApi, HHk : !HvKernelOk}.
Set Default Proof Using "All".
Implicit Types (w : world hv_state) (σ : gmap Z nat) (F : gset Z).

Lemma wp_fill_mem p k name addr size t mems mems' priv m w (Q : unit -> world hv_state -> Prop) :
  w_info w !! p = Some (hv_info mems priv) -> mems !! k = Some m -> m_dma_addr m = 0 -> m_offs m = 0 ->
  m_dma_device m = 0 -> m_map m = 0 -> <[k := hv_mem name addr size t]> mems = mems' ->
  Q tt (set_info (insert p (hv_info mems' priv)) w) ->
  wp (fill_mem p k name addr size t) w Q.
Proof.
  intros Hp Hk E1 E2 E3 E4 <- HQ. unfold fill_mem. eapply wp_mod_mem; [exact Hp|exact Hk|].
  unfold upd_mem, hv_info, hv_mem in *. cbn. by rewrite E1, E2, E3, E4.
Qed.

(** Everything is in place to go on at [w]. *)
Record ready w0 F σ dev d p pd mems w : Prop := Ready {
  ry_probing : probing w0 F σ dev d p pd w;
  ry_info : w_info w !! p = Some (hv_info mems 0);
  ry_len : length mems = 5%nat;
  ry_unreg : unregistered w p;
  ry_pos : 0 < p;
  ry_dev : dev <> 0 /\ dev ∈ live (w_hist w) /\ w_heap w !! dev = None;
  ry_refcnt : pd_refcnt pd = 0 }.

Lemma probe_run_hist p ch w w' : probe_run p ch w w' ->
  idr_of (w_hist w') = idr_of (w_hist w) /\ live (w_hist w') = live (w_hist w).
Proof.
  intros [A1 A2 A3 A4 A5 A7 A8 A9 A10 A11].
  set (w1 := World (w_heap w') (w_info w') (w_priv w') (w_glob w') (w_drv w') (w_hist w)).
  assert (Hf : core_frame w1 w') by by split.
  split; [apply (frame_idr _ _ Hf)|apply (frame_live _ _ Hf)].
Qed.

Lemma probe_run_unbound p ch dev w w' : p <> 0 -> probe_run p ch w w' -> unbound dev ch w w'.
Proof.
  intros Hp [A1 A2 A3 A4 A5 A7 A8 A9 A10 A11].
  set (w1 := World (w_heap w') (w_info w') (w_priv w') (w_glob w') (w_drv w') (w_hist w)).
  assert (Hf : core_frame w1 w') by by split.
  split; [by rewrite (frame_drvdata _ _ Hf)|by rewrite A4|exact A11].
Qed.

Lemma probe_run_some p ch w w' : probe_run p ch w w' -> is_Some (hs_chan (w_drv w) !! ch) -> is_Some (hs_chan (w_drv w') !! ch).
Proof. intros Hr. by rewrite <- !(fmap_is_Some ch_device_obj), (pn_obj _ _ _ _ Hr). Qed.

Lemma ready_step w0 F σ dev d p pd mems w pd' mems' w' :
  ready w0 F σ dev d p pd mems w -> probe_run p (hd_channel d) w w' ->
  hs_pdata (w_drv w') !! p = Some pd' -> pd_ok pd' -> pd_refcnt pd' = 0 ->
  holds w0 w' (hd_channel d) 1 (has (pd_send_gpadl pd') + has (pd_recv_gpadl pd')) (bufs pd') ->
  w_info w' !! p = Some (hv_info mems' 0) -> length mems' = 5%nat ->
  ready w0 F σ dev d p pd' mems' w'.
Proof.
  intros [[Pi Ph Psub Psp Ppd Pok Pdev Pchan Pidr Pun] Ri Rl Ru Rp (Rd1 & Rd2 & Rd3) Rr] Hrun Hpd Hok Href Hh Hin Hlen.
  destruct (probe_run_inv _ _ _ _ _ _ Pi Ru Psp Hrun) as (G1 & G2 & G3).
  destruct (probe_run_hist _ _ _ _ Hrun) as [G4 G5].
  split; try done.
  - split; try done; [by rewrite (pn_dev _ _ _ _ Hrun)|by apply (probe_run_some _ _ _ _ Hrun)|congruence|].
    eapply unbound_trans; [exact Pun|]. apply (probe_run_unbound p); [lia|done].
  - rewrite G5, (pn_heap _ _ _ _ Hrun). done.
Qed.

(** [holds] after more steps of the driver. *)
Lemma inv_set_drvdata w F σ dev q :
  core_inv w F σ -> (forall d, w_heap w !! dev <> Some (HIdev d)) -> core_inv (logged (DevSetDrvdata dev q) w) F σ.
Proof.
  intros Hi Hdev. destruct Hi as [I1 I2 I3 I4 I5 I6 I7 I8 I9 I10 I11 I12].
  split; try done.
  - intros x d Hx. rewrite drvdata_logged, lookup_insert_ne; [by apply (I9 x d)|]. intros ->. by apply (Hdev d).
Qed.

Record probed w0 F σ dev d p mems w' : Prop := ProbeDone {
  pb_inv : core_inv w' F (<[p := 0%nat]> σ);
  pb_new : σ !! p = None;
  pb_pd : exists pd, hs_pdata (w_drv w') !! p = Some pd /\ pd_device pd = dev /\ pd_refcnt pd = 0 /\
    gpadl_handle (pd_recv_gpadl pd) <> 0 /\ gpadl_handle (pd_send_gpadl pd) <> 0 /\
    pd_recv_buf pd <> pd_send_buf pd /\
    holds w0 w' (hd_channel d) 1 2 {[pd_recv_buf pd; pd_send_buf pd]} /\
    mems !! RECV_BUF_MAP = Some (hv_mem (snprintf 32 ("recv:" +:+ fmt_d (gpadl_handle (pd_recv_gpadl pd))))
      (pd_recv_buf pd) RECV_BUFFER_SIZE UIO_MEM_VIRTUAL) /\
    mems !! SEND_BUF_MAP = Some (hv_mem (snprintf 32 ("send:" +:+ fmt_d (gpadl_handle (pd_send_gpadl pd))))
      (pd_send_buf pd) SEND_BUFFER_SIZE UIO_MEM_VIRTUAL);
  pb_info : exists i, w_info w' !! p = Some i /\ info_static i = info_static (hv_info mems p);
  pb_reg : exists q dd, w_heap w' !! q = Some (HIdev dd) /\ registered w' q dd /\ d_info dd = p /\ d_event dd = 0 /\
    d_owner dd = THIS_MODULE /\ d_parent dd = dev /\ idr_of (w_hist w0) !! d_minor dd = None /\
    idr_of (w_hist w') = <[d_minor dd := q]> (idr_of (w_hist w0)) /\
    dirs_listed dd (hv_info mems p) (w_hist w');
  pb_data : drvdata_of (w_hist w') !! dev = Some p;
  pb_own : 0 < p /\ hs_dev (w_drv w') !! dev = Some d /\ is_Some (hs_chan (w_drv w') !! hd_channel d) /\
    hs_vm (w_drv w0) ⊆ vlive (w_hist w0) /\
    forall q n pq dq, σ !! q = Some n -> hs_pdata (w_drv w') !! q = Some pq ->
      hs_dev (w_drv w') !! pd_device pq = Some dq -> hd_channel dq <> hd_channel d;
  pb_bufs pd : hs_pdata (w_drv w') !! p = Some pd -> pd_ok pd;
  pb_last : exists w1, w' = logged (DevSetDrvdata dev p) w1 /\ core_inv w1 F (<[p := 0%nat]> σ) /\
    unbound dev (hd_channel d) w0 w1 }.

(** ** Registration and what follows it *)

Lemma core_step_unbound dev ch w w' :
  core_step ∅ w w' -> dev <> 0 -> dev ∈ live (w_hist w) -> w_heap w !! dev = None -> unbound dev ch w w'.
Proof.
  intros Hs H1 H2 H3. destruct (cs_other _ _ _ Hs dev H1 H2 H3) as (_ & _ & E); [set_solver|]. split.
  - exact E.
  - intros Hn. pose proof (cs_info _ _ _ Hs NULL) as Ei. rewrite Hn in Ei. by destruct (w_info w' !! NULL).
  - by rewrite (cs_drv _ _ _ Hs).
Qed.

(** A failed registration leaves the driver's resources as they were. *)
Lemma probing_core_step X w0 F σ dev d p pd w w' :
  probing w0 F σ dev d p pd w -> core_step X w w' -> unbound dev (hd_channel d) w w' -> register_failed w F σ w' ->
  probing w0 F σ dev d p pd w'.
Proof.
  intros [Pi Ph Psub Psp Ppd Pok Pdev Pchan Pidr Pun] Hs Hun Hf.
  assert (How : own_writes p (hd_channel d) w w').
  { split; rewrite ?(cs_drv _ _ _ Hs); try done. intros q _. pose proof (cs_info _ _ _ Hs q) as E.
    destruct (w_info w' !! q) as [i'|], (w_info w !! q) as [i|]; cbn in *; try done.
    injection E. intros. unfold drv_fields. congruence. }
  split; rewrite ?(cs_drv _ _ _ Hs); try done.
  - apply Hf.
  - by eapply holds_core_step.
  - by eapply spare_own.
  - by rewrite (rf_idr _ _ _ _ Hf).
  - by eapply unbound_trans.
Qed.

Lemma probe_ready_ok w0 F σ dev d p pd mems w :
  ready w0 F σ dev d p pd mems w ->
  let w' := set_drv (set_hs_pdata <[p := set_pd_device dev pd]>) (set_info <[p := hv_info mems p]> w) in
  core_inv w' F σ /\ unregistered w' p /\ hv_ok w' p 0 /\ probing w0 F σ dev d p (set_pd_device dev pd) w'.
Proof.
  intros [[Pi Ph Psub Psp Ppd Pok Pdev Pchan Pidr Pun] Ri Rl Ru Rp Rd Rr] w'.
  assert (Hrun : probe_run p (hd_channel d) w w') by (subst w'; run_tac).
  destruct (probe_run_inv _ _ _ _ _ _ Pi Ru Psp Hrun) as (G1 & G2 & G3).
  destruct (probe_run_hist _ _ _ _ Hrun) as [G4 G5].
  split_and!; [done|done| |].
  - destruct Pchan as [c Hc]. exists UIO_IRQ_CUSTOM, 0, (set_pd_device dev pd), d, c. subst w'. wsimpl_goal. cbn.
    rewrite !lookup_insert_eq. split_and!; try done; [by right|lia].
  - destruct Ph as [Hr Hg Hv Hl Hn]. destruct (probe_run_unbound p _ dev _ _ ltac:(lia) Hrun) as [U1 U2 U3].
    pose proof (unbound_trans _ _ _ _ _ Pun (Unbound _ _ _ _ U1 U2 U3)) as Pun'.
    clear U1 U2 U3. subst w'. split; try exact Pun'; wsimpl_goal; cbn; try done; try by rewrite lookup_insert_eq.
Qed.

Lemma wp_probe_register w0 F σ dev d p pd mems w :
  ready w0 F σ dev d p pd mems w -> gpadl_handle (pd_recv_gpadl pd) <> 0 -> gpadl_handle (pd_send_gpadl pd) <> 0 ->
  pd_recv_buf pd <> pd_send_buf pd ->
  mems !! RECV_BUF_MAP = Some (hv_mem (snprintf 32 ("recv:" +:+ fmt_d (gpadl_handle (pd_recv_gpadl pd))))
      (pd_recv_buf pd) RECV_BUFFER_SIZE UIO_MEM_VIRTUAL) ->
  mems !! SEND_BUF_MAP = Some (hv_mem (snprintf 32 ("send:" +:+ fmt_d (gpadl_handle (pd_send_gpadl pd))))
      (pd_send_buf pd) SEND_BUFFER_SIZE UIO_MEM_VIRTUAL) ->
  wp (mod_info p (upd_priv p);;
      mod_pdata p (set_pd_device dev);;
      ret ← __uio_register_device THIS_MODULE dev p;
      if negb (ret =? 0) then fail_close dev p ret else
      _ ← call (SysfsCreateBinFile (hd_channel d));
      do_ (DevSetDrvdata dev p);;
      mret 0) w (fun r w' =>
    (r = 0 -> probed w0 F σ dev d p mems w' /\ w_drv w' = set_hs_pdata <[p := set_pd_device dev pd]> (w_drv w)) /\
    (r <> 0 -> probe_failed w0 F σ (hd_channel d) p w')).
Proof.
  intros Hr Hgr Hgs Hne Hmr Hms. destruct (probe_ready_ok _ _ _ _ _ _ _ _ _ Hr) as (G1 & G2 & G3 & G4).
  pose proof Hr as [[_ _ Psub Psp Ppd Pok Pdev Pch _ _] Ri Rl Ru Rp (Rd1 & Rd2 & Rd3) Rr].
  kstep. eapply wp_mod_info; [exact Ri|]. change (upd_priv p (hv_info mems 0)) with (hv_info mems p). dsteps.
  set (w1 := set_drv _ _) in *. eapply wp_mono.
  { apply keeps_wp with (R := core_step ∅); [apply _|apply keeps_register|].
    eapply (wp_uio_register_device w1 F σ _ _ _ (hv_info mems p)); try done.
    - subst w1. wsimpl_goal. apply lookup_insert_eq.
    - split; cbn; [by rewrite Rl, max_maps_ok|apply length_replicate]. }
  cbn beta. intros r w2 [[Hok Hbad] Hs].
  assert (Hun : unbound dev (hd_channel d) w1 w2) by (apply core_step_unbound; [done..| |]; subst w1; by wsimpl_goal).
  destruct (Z.eqb_spec r 0) as [E|E]; cbn [negb].
  2: { eapply wp_mono; [eapply wp_fail_close, probing_core_step; [exact G4|exact Hs|done|by apply Hbad]|].
    cbn beta. intros r' w3 [-> Hf]. by split. }
  destruct (Hok E) as (q & dd & Hd). clear Hok Hbad. dsteps. split; [|done]. intros _.
  destruct (cs_other _ _ _ Hs dev) as (D1 & D2 & _); [done|subst w1; by wsimpl_goal..|set_solver|].
  split; [|by wsimpl_goal; rewrite (cs_drv _ _ _ Hs); subst w1; wsimpl_goal].
  split.
  - apply inv_set_drvdata; [|intros x; wsimpl_goal; by rewrite D2].
    apply (inv_quiet_drv w2); [apply Hd|quiet_tac|by wsimpl_goal].
  - apply Psp.
  - exists (set_pd_device dev pd). wsimpl_goal. rewrite (cs_drv _ _ _ Hs). split_and!; try done.
    + subst w1. wsimpl_goal. apply lookup_insert_eq.
    + pose proof (holds_core_step _ _ _ _ _ _ _ _ Hs (pr_holds _ _ _ _ _ _ _ _ G4)) as [H1 H2 H3 H4 H5].
      unfold bufs, held, has in *. cbn [set_pd_device pd_send_gpadl pd_recv_gpadl pd_recv_buf pd_send_buf] in *.
      rewrite (proj2 (Z.eqb_neq (gpadl_handle (pd_recv_gpadl pd)) 0)) in * by done.
      rewrite (proj2 (Z.eqb_neq (gpadl_handle (pd_send_gpadl pd)) 0)) in * by done.
      split; wsimpl_goal; intros; gsimpl; first [done|apply H5|apply H3|apply H4|rewrite H1; lia|rewrite H2; case_match; lia].
  - pose proof (cs_info _ _ _ Hs p) as Hi. wsimpl_goal. subst w1. autorewrite with world in Hi.
    rewrite lookup_insert_eq in Hi. destruct (w_info w2 !! p) as [i|]; [|done]. exists i. split; [done|].
    cbn [fmap option_fmap option_map] in Hi. congruence.
  - exists q, dd. pose proof (rd_fields _ _ _ _ _ _ _ _ _ _ Hd) as (F1 & F2 & F3 & F4 & _).
    destruct (rd_idr _ _ _ _ _ _ _ _ _ _ Hd) as [M1 M2]. rewrite (pr_idr _ _ _ _ _ _ _ _ G4) in M1, M2.
    split_and!; wsimpl_goal; try done; [apply Hd|unfold registered; gsimpl; apply Hd|].
    eapply dirs_listed_entries; [intros dir; by rewrite !entries_logged|apply Hd].
  - gsimpl. apply lookup_insert_eq.
  - wsimpl_goal. rewrite (cs_drv _ _ _ Hs). subst w1. wsimpl_goal. cbn [set_hs_pdata hs_dev hs_chan hs_pdata].
    split_and!; try done. intros q' n pq dq Hq. rewrite lookup_insert_ne by (destruct Psp; congruence).
    destruct Psp as [_ Pu]. by apply (Pu q' n).
  - intros pd'. wsimpl_goal. rewrite (cs_drv _ _ _ Hs). subst w1. wsimpl_goal. cbn [set_hs_pdata hs_pdata].
    rewrite lookup_insert_eq. intros [= <-]. exact Pok.
  - eexists. split; [reflexivity|]. split; [apply (inv_quiet_drv w2); [apply Hd|quiet_tac|by wsimpl_goal]|].
    eapply unbound_trans; [apply (pr_unbound _ _ _ _ _ _ _ _ G4)|]. eapply unbound_trans; [exact Hun|].
    split; wsimpl_goal; [by gsimpl|done|done].
Qed.
(** ** The send buffer *)

Definition recv_mem (pd : hv_uio_private_data) : uio_mem :=
  hv_mem (snprintf 32 ("recv:" +:+ fmt_d (gpadl_handle (pd_recv_gpadl pd)))) (pd_recv_buf pd) RECV_BUFFER_SIZE UIO_MEM_VIRTUAL.
Definition send_mem (pd : hv_uio_private_data) : uio_mem :=
  hv_mem (snprintf 32 ("send:" +:+ fmt_d (gpadl_handle (pd_send_gpadl pd)))) (pd_send_buf pd) SEND_BUFFER_SIZE UIO_MEM_VIRTUAL.

(** [holds] along the steps of probe. *)
Definition vm_neutral (c : kcall) : bool := driver_call c && core_call c.

Lemma holds_logged c w0 w ch r g V : vm_neutral c = true -> holds w0 w ch r g V -> holds w0 (logged c w) ch r g V.
Proof. intros Hc [H1 H2 H3 H4 H5]. split; intros; gsimpl; try done; destruct c; try done; autorewrite with ghost; cbn beta iota; rewrite ?Z.add_0_l; auto. Qed.
Lemma holds_info f w0 w ch r g V : holds w0 w ch r g V -> holds w0 (set_info f w) ch r g V.
Proof. intros [H1 H2 H3 H4 H5]. split; intros; gsimpl; auto. Qed.
Lemma holds_pdata f w0 w ch r g V : holds w0 w ch r g V -> holds w0 (set_drv (set_hs_pdata f) w) ch r g V.
Proof. intros [H1 H2 H3 H4 H5]. split; intros; gsimpl; auto. Qed.
Lemma holds_chan f w0 w ch r g V : holds w0 w ch r g V -> holds w0 (set_drv (set_hs_chan f) w) ch r g V.
Proof. intros [H1 H2 H3 H4 H5]. split; intros; gsimpl; auto. Qed.
Lemma holds_vzalloc_null n w0 w ch r g V : kernel (w_hist w) (Vzalloc n) = 0 ->
  holds w0 w ch r g V -> holds w0 (logged (Vzalloc n) w) ch r g V.
Proof. intros E [H1 H2 H3 H4 H5]. split; intros; gsimpl; rewrite ?E, ?Z.add_0_l; auto. Qed.
Lemma holds_vzalloc n w0 w ch r g V : let b := kernel (w_hist w) (Vzalloc n) in
  0 < b -> b ∉ vlive (w_hist w) -> holds w0 w ch r g V ->
  holds w0 (set_drv (set_hs_vm (fun s => {[b]} ∪ s)) (logged (Vzalloc n) w)) ch r g (V ∪ {[b]}).
Proof.
  intros b Hb Hf [H1 H2 H3 H4 H5]. split; intros; gsimpl; rewrite ?Z.add_0_l; auto.
  - cbn. rewrite H3. set_solver.
  - fold b. rewrite (proj2 (Z.eqb_neq b 0)) by lia. rewrite H4. set_solver.
  - set_solver.
Qed.
Lemma holds_vfree b w0 w ch r g V : hs_vm (w_drv w0) ⊆ vlive (w_hist w0) -> b ∈ V ->
  holds w0 w ch r g V -> holds w0 (set_drv (set_hs_vm (fun s => s ∖ {[b]})) (logged (Vfree b) w)) ch r g (V ∖ {[b]}).
Proof.
  intros Hsub Hb [H1 H2 H3 H4 H5]. split; intros; gsimpl; rewrite ?Z.add_0_l; auto; [cbn; rewrite H3|rewrite H4|]; set_solver.
Qed.
Lemma holds_establish b n w0 w ch r g V : holds w0 w ch r g V ->
  holds w0 (logged (VmbusEstablishGpadl ch b n) w) ch r
    (g + (if kernel (w_hist w) (VmbusEstablishGpadl ch b n) =? 0 then 1 else 0)) V.
Proof.
  intros [H1 H2 H3 H4 H5]. split; intros; gsimpl; rewrite ?Z.add_0_l; auto. rewrite H2.
  destruct (ch =? c), (kernel _ _ =? 0); cbn; lia.
Qed.

(** What the call stored in the private data. *)
Lemma establish_result h c b n old : exists g dec,
  stored_gpadl (kernel_out h (VmbusEstablishGpadl c b n)) old = VmbusGpadl g dec /\
  (kernel h (VmbusEstablishGpadl c b n) = 0 <-> g <> 0).
Proof.
  destruct (gpadl_spec h c b n) as (g & e & x & E & H1 & H2). rewrite E. exists (u32 g), (negb (e =? 0)).
  split; [done|]. split; [auto|]. intros Hg. destruct (decide (kernel h (VmbusEstablishGpadl c b n) = 0)); [done|].
  by destruct Hg; auto.
Qed.

Ltac holds_tac :=
  repeat first [ assumption | apply holds_info | apply holds_pdata | apply holds_chan
               | apply holds_logged; [reflexivity|] ].

Lemma wp_probe_send w0 F σ dev d p pd a b c w :
  ready w0 F σ dev d p pd [a; b; c; recv_mem pd; zero_mem] w ->
  gpadl_handle (pd_recv_gpadl pd) <> 0 -> pd_send_gpadl pd = VmbusGpadl 0 false -> pd_recv_buf pd <> 0 ->
  wp (probe_send dev (hd_channel d) p) w (fun r w' =>
    (r = 0 -> exists s, probed w0 F σ dev d p [a; b; c; recv_mem pd; s] w' /\ hs_chan (w_drv w') = hs_chan (w_drv w) /\
      hs_conn (w_drv w') = hs_conn (w_drv w)) /\
    (r <> 0 -> probe_failed w0 F σ (hd_channel d) p w')).
Proof.
  intros Hr Hg Hs Hb. pose proof Hr as [[Pi Hh Psub Psp Ppd (O1 & O2 & O3) Pdev Pchan Pidr Pun] Ri Rl Ru Rp Rd Rr].
  assert (Hbufs : bufs pd = {[pd_recv_buf pd]}).
  { unfold bufs, held, kept. rewrite Hs, (proj2 (Z.eqb_neq (gpadl_handle (pd_recv_gpadl pd)) 0)) by done. cbn. set_solver. }
  assert (Hhas : has (pd_send_gpadl pd) + has (pd_recv_gpadl pd) = 1).
  { unfold has. rewrite Hs, (proj2 (Z.eqb_neq (gpadl_handle (pd_recv_gpadl pd)) 0)) by done. done. }
  rewrite Hbufs, Hhas in *.
  unfold probe_send. kstep. apply wp_vzalloc.
  { intros Ez. dsteps. kred. eapply wp_mono.
    { eapply wp_fail_close, (ry_probing _ _ _ _ _ _ (set_send_buf 0 pd) [a; b; c; recv_mem pd; zero_mem]).
      eapply ready_step; [exact Hr|run_tac|..]; wsimpl_goal; cbn; try done; [apply lookup_insert_eq|..].
      - unfold pd_ok. cbn. rewrite Hs. split_and!; [done|done|congruence].
      - rewrite Hhas. replace (bufs _) with (bufs pd) by (unfold bufs, held, kept; cbn; by rewrite Hs). rewrite Hbufs.
        apply holds_pdata. by apply holds_vzalloc_null. }
    cbn beta. intros r w' [-> Hf]. by split. }
  intros Hpos Hfresh. set (sb := kernel _ (Vzalloc _)) in *.
  pose proof (holds_vzalloc SEND_BUFFER_SIZE _ _ _ _ _ _ Hpos Hfresh Hh) as Hh1. fold sb in Hh1.
  assert (Hne : pd_recv_buf pd <> sb).
  { intros E. apply Hfresh. rewrite (ho_vlive _ _ _ _ _ _ Hh), E. set_solver. }
  dsteps. unfold NULL. rewrite (proj2 (Z.eqb_neq sb 0)) by lia.
  match goal with |- wp _ ?W _ => set (w1 := W) end.
  assert (Hpd1 : hs_pdata (w_drv w1) !! p = Some (set_send_buf sb pd)) by (subst w1; wsimpl_goal; apply lookup_insert_eq).
  assert (Hh2 : holds w0 w1 (hd_channel d) 1 1 ({[pd_recv_buf pd]} ∪ {[sb]})) by by apply holds_pdata.
  assert (Hrun1 : probe_run p (hd_channel d) w w1) by (subst w1; run_tac).
  assert (Hrest1 : w_info w1 = w_info w /\ hs_chan (w_drv w1) = hs_chan (w_drv w)) by (subst w1; by wsimpl_goal).
  clearbody w1. kstep. apply wp_call_out. cbn [fst snd]. cbv zeta.
  set (ret := kernel (w_hist w1) _). set (w2 := logged _ w1).
  destruct (establish_result (w_hist w1) (hd_channel d) sb SEND_BUFFER_SIZE (pd_send_gpadl (set_send_buf sb pd)))
    as (g & dec & Eg & Hret). fold ret in Hret.
  pose proof (holds_establish sb SEND_BUFFER_SIZE _ _ _ _ _ _ Hh2) as Hh3. fold w2 ret in Hh3.
  assert (Hpd2 : hs_pdata (w_drv w2) !! p = Some (set_send_buf sb pd)) by (subst w2; by wsimpl_goal).
  assert (Hrun2 : probe_run p (hd_channel d) w w2) by (subst w2; run_tac).
  assert (Hrest2 : w_info w2 = w_info w /\ hs_chan (w_drv w2) = hs_chan (w_drv w)) by (subst w2; by wsimpl_goal).
  clearbody w2 ret. destruct Hrest2 as [Ei2 Ec2].
  dsteps. rewrite Eg. cbn [gpadl_handle decrypted set_send_gpadl pd_send_gpadl pd_send_buf set_send_buf].
  set (pd3 := set_send_gpadl (VmbusGpadl g dec) (set_send_buf sb pd)).
  assert (Hvar : forall nm w3 V, probe_run p (hd_channel d) w w3 -> hs_pdata (w_drv w3) !! p = Some (set_send_name nm pd3) ->
    holds w0 w3 (hd_channel d) 1 (1 + (if ret =? 0 then 1 else 0)) V ->
    V = {[pd_recv_buf pd]} ∪ held (VmbusGpadl g dec) sb ->
    forall mems, w_info w3 !! p = Some (hv_info mems 0) -> length mems = 5%nat ->
    ready w0 F σ dev d p (set_send_name nm pd3) mems w3).
  { intros nm w3 V R1 R2 R3 -> mems R4 R5. apply (ready_step _ _ _ _ _ _ _ _ _ _ _ _ Hr); try done.
    - unfold pd_ok. cbn. split_and!; [done|lia|congruence].
    - replace (has _ + has _) with (1 + (if ret =? 0 then 1 else 0)).
      + replace (bufs _) with ({[pd_recv_buf pd]} ∪ held (VmbusGpadl g dec) sb); [done|].
        unfold bufs. cbn. f_equal. unfold held at 1. by rewrite (proj2 (Z.eqb_neq (gpadl_handle (pd_recv_gpadl pd)) 0)).
      + unfold has. cbn. rewrite (proj2 (Z.eqb_neq (gpadl_handle (pd_recv_gpadl pd)) 0)) by done.
        destruct (Z.eqb_spec ret 0), (Z.eqb_spec g 0); tauto || lia. }
  destruct (Z.eqb_spec ret 0) as [Er|Er]; cbn [negb].
  - assert (Hgn : g <> 0) by tauto. dsteps. cbn [set_send_name pd_send_name pd_send_buf pd3].
    eapply wp_fill_mem; [wsimpl_goal; rewrite Ei2; exact Ri|reflexivity|reflexivity..|].
    match goal with |- wp _ ?W _ => set (w4 := W) end.
    assert (Hready : ready w0 F σ dev d p (set_send_name (snprintf 32 ("send:" +:+ fmt_d g)) pd3)
      [a; b; c; recv_mem pd; send_mem (set_send_name (snprintf 32 ("send:" +:+ fmt_d g)) pd3)] w4).
    { subst w4. eapply Hvar; [run_tac|wsimpl_goal; apply lookup_insert_eq|..|done].
      - apply holds_info, holds_pdata, holds_pdata. done.
      - unfold held. cbn. by rewrite (proj2 (Z.eqb_neq g 0)).
      - wsimpl_goal. apply lookup_insert_eq. }
    eapply wp_mono; [by apply (wp_probe_register _ _ _ _ _ _ _ _ _ Hready)|].
    cbn beta. intros r w5 [H1 H2]. split; [|done]. intros E. destruct (H1 E) as [H3 H4].
    eexists. split; [exact H3|]. rewrite H4. subst w4. wsimpl_goal. cbn. split; [done|]. by rewrite (pn_conn _ _ _ _ Hrun2).
  - assert (Hg0 : g = 0) by (destruct (decide (g = 0)); tauto). subst g.
    assert (Hnm : forall x, pd3 = set_send_name x pd3 -> True) by done. clear Hnm.
    assert (Hpd3 : pd3 = set_send_name (pd_send_name pd3) pd3) by done.
    assert (Hfail : forall w3, probe_run p (hd_channel d) w w3 -> hs_pdata (w_drv w3) !! p = Some pd3 ->
      holds w0 w3 (hd_channel d) 1 1 ({[pd_recv_buf pd]} ∪ held (VmbusGpadl 0 dec) sb) -> w_info w3 = w_info w ->
      wp (fail_close dev p ret) w3 (fun r w' =>
        (r = 0 -> exists s, probed w0 F σ dev d p [a; b; c; recv_mem pd; s] w' /\ hs_chan (w_drv w') = hs_chan (w_drv w) /\
          hs_conn (w_drv w') = hs_conn (w_drv w)) /\
        (r <> 0 -> probe_failed w0 F σ (hd_channel d) p w'))).
    { intros w3 R1 R2 R3 R4. eapply wp_mono.
      { eapply wp_fail_close, (ry_probing _ _ _ _ _ _ (set_send_name (pd_send_name pd3) pd3) [a; b; c; recv_mem pd; zero_mem]).
        eapply Hvar; [done|done|exact R3|done|by rewrite R4|done]. }
      cbn beta. intros r w' [-> Hf]. by split. }
    replace (1 + 0) with 1 in Hh3 by lia.
    destruct dec; cbn [negb]; dsteps.
    + apply Hfail; [run_tac|wsimpl_goal; apply lookup_insert_eq|apply holds_pdata; exact Hh3|by wsimpl_goal].
    + eapply wp_vfree; [lia| |].
      { wsimpl_goal. cbn. rewrite (ho_vm _ _ _ _ _ _ Hh3). set_solver. }
      apply Hfail; [run_tac|wsimpl_goal; apply lookup_insert_eq| |by wsimpl_goal].
      replace ({[pd_recv_buf pd]} ∪ held (VmbusGpadl 0 false) sb) with (({[pd_recv_buf pd]} ∪ {[sb]}) ∖ {[sb]} : gset Z)
        by (unfold held, kept; cbn; set_solver).
      apply holds_vfree; [done|set_solver|]. by apply holds_pdata.
Qed.
(** ** The receive buffer *)

(** Before the receive buffer there is only the ring. *)
Lemma wp_fail_free_ring w0 F σ dev d p pd w ret :
  probing w0 F σ dev d p pd w -> pd_recv_gpadl pd = VmbusGpadl 0 false -> pd_send_gpadl pd = VmbusGpadl 0 false ->
  wp (fail_free_ring dev ret) w (fun r w' => r = ret /\ probe_failed w0 F σ (hd_channel d) p w').
Proof.
  intros [Pi Ph Psub Psp Ppd Pok Pdev [c Pchan] Pidr _] Er Es. pose proof Ph as [Hr Hg Hv Hl Hn].
  unfold fail_free_ring, vmbus_free_ring. dsteps. split; [done|].
  match goal with |- probe_failed _ _ _ _ _ ?W => set (w2 := W) end.
  assert (Hfr : core_frame w w2) by (subst w2; frame_tac).
  assert (How : own_writes p (hd_channel d) w w2).
  { subst w2. split; wsimpl_goal; cbn; try done. intros q Hq. by rewrite lookup_insert_ne. }
  assert (Hk : kept_bufs pd = bufs pd) by (unfold kept_bufs, bufs, held; by rewrite Er, Es).
  split.
  - apply (inv_frame w); [done|done|]. eapply hv_inv_own; [exact How|done|apply (ci_drv _ _ _ Pi)].
  - by rewrite (frame_idr _ _ Hfr).
  - exists pd. split; [subst w2; by wsimpl_goal|]. rewrite Hk.
    unfold has in Hg. rewrite Er, Es in Hg. cbn in Hg. split; subst w2; intros; gsimpl; try done.
    + rewrite Hr. case_match; lia.
    + by rewrite Hg.
Qed.

Lemma wp_probe_recv w0 F σ dev d p pd a b c w :
  ready w0 F σ dev d p pd [a; b; c; zero_mem; zero_mem] w ->
  pd_recv_gpadl pd = VmbusGpadl 0 false -> pd_send_gpadl pd = VmbusGpadl 0 false -> pd_send_buf pd = 0 ->
  wp (probe_recv dev (hd_channel d) p) w (fun r w' =>
    (r = 0 -> exists x y, probed w0 F σ dev d p [a; b; c; x; y] w' /\ hs_chan (w_drv w') = hs_chan (w_drv w) /\
      hs_conn (w_drv w') = hs_conn (w_drv w)) /\
    (r <> 0 -> probe_failed w0 F σ (hd_channel d) p w')).
Proof.
  intros Hr Hgr Hgs Hsb. pose proof Hr as [[Pi Hh Psub Psp Ppd (O1 & O2 & O3) Pdev Pchan Pidr Pun] Ri Rl Ru Rp Rd Rr].
  assert (Hbufs : bufs pd = ∅) by (unfold bufs, held, kept; rewrite Hgr, Hgs; cbn; set_solver).
  assert (Hhas : has (pd_send_gpadl pd) + has (pd_recv_gpadl pd) = 0) by (unfold has; by rewrite Hgr, Hgs).
  rewrite Hbufs, Hhas in *.
  unfold probe_recv. kstep. apply wp_vzalloc.
  { intros Ez. dsteps. kred. eapply wp_mono.
    { eapply wp_fail_free_ring; [eapply (ry_probing _ _ _ _ _ _ (set_recv_buf 0 pd) [a; b; c; zero_mem; zero_mem])|done|done].
      eapply ready_step; [exact Hr|run_tac|..]; wsimpl_goal; cbn; try done; [apply lookup_insert_eq|..].
      - unfold pd_ok, bufs, held, kept. cbn. rewrite Hgr, Hgs. cbn. split_and!; [done|done|]. intros _. set_solver.
      - rewrite Hhas. replace (bufs _) with (bufs pd) by (unfold bufs, held, kept; cbn; by rewrite Hgr). rewrite Hbufs.
        apply holds_pdata. by apply holds_vzalloc_null. }
    cbn beta. intros r w' [-> Hf]. by split. }
  intros Hpos Hfresh. set (rb := kernel _ (Vzalloc _)) in *.
  pose proof (holds_vzalloc RECV_BUFFER_SIZE _ _ _ _ _ _ Hpos Hfresh Hh) as Hh1. fold rb in Hh1.
  dsteps. unfold NULL. rewrite (proj2 (Z.eqb_neq rb 0)) by lia.
  match goal with |- wp _ ?W _ => set (w1 := W) end.
  assert (Hpd1 : hs_pdata (w_drv w1) !! p = Some (set_recv_buf rb pd)) by (subst w1; wsimpl_goal; apply lookup_insert_eq).
  assert (Hh2 : holds w0 w1 (hd_channel d) 1 0 (∅ ∪ {[rb]})) by by apply holds_pdata.
  assert (Hrun1 : probe_run p (hd_channel d) w w1) by (subst w1; run_tac).
  assert (Hrest1 : w_info w1 = w_info w /\ hs_chan (w_drv w1) = hs_chan (w_drv w)) by (subst w1; by wsimpl_goal).
  clearbody w1. kstep. apply wp_call_out. cbn [fst snd]. cbv zeta.
  set (ret := kernel (w_hist w1) _). set (w2 := logged _ w1).
  destruct (establish_result (w_hist w1) (hd_channel d) rb RECV_BUFFER_SIZE (pd_recv_gpadl (set_recv_buf rb pd)))
    as (g & dec & Eg & Hret). fold ret in Hret.
  pose proof (holds_establish rb RECV_BUFFER_SIZE _ _ _ _ _ _ Hh2) as Hh3. fold w2 ret in Hh3.
  assert (Hpd2 : hs_pdata (w_drv w2) !! p = Some (set_recv_buf rb pd)) by (subst w2; by wsimpl_goal).
  assert (Hrun2 : probe_run p (hd_channel d) w w2) by (subst w2; run_tac).
  assert (Hrest2 : w_info w2 = w_info w /\ hs_chan (w_drv w2) = hs_chan (w_drv w)) by (subst w2; by wsimpl_goal).
  clearbody w2 ret. destruct Hrest2 as [Ei2 Ec2].
  dsteps. rewrite Eg. cbn [gpadl_handle decrypted set_recv_gpadl pd_recv_gpadl pd_recv_buf set_recv_buf].
  set (pd3 := set_recv_gpadl (VmbusGpadl g dec) (set_recv_buf rb pd)).
  assert (Hvar : forall nm w3 V, probe_run p (hd_channel d) w w3 -> hs_pdata (w_drv w3) !! p = Some (set_recv_name nm pd3) ->
    holds w0 w3 (hd_channel d) 1 (if ret =? 0 then 1 else 0) V -> V = held (VmbusGpadl g dec) rb ->
    forall mems, w_info w3 !! p = Some (hv_info mems 0) -> length mems = 5%nat ->
    ready w0 F σ dev d p (set_recv_name nm pd3) mems w3).
  { intros nm w3 V R1 R2 R3 -> mems R4 R5. apply (ready_step _ _ _ _ _ _ _ _ _ _ _ _ Hr); try done.
    - unfold pd_ok. cbn. rewrite Hgs, Hsb. split_and!; [lia|done|lia].
    - replace (has _ + has _) with (if ret =? 0 then 1 else 0).
      + replace (bufs _) with (held (VmbusGpadl g dec) rb); [done|].
        unfold bufs. cbn. rewrite Hgs. unfold held at 3, kept. cbn. set_solver.
      + unfold has. cbn. rewrite Hgs. cbn. destruct (Z.eqb_spec ret 0), (Z.eqb_spec g 0); tauto || lia. }
  destruct (Z.eqb_spec ret 0) as [Er|Er]; cbn [negb].
  - assert (Hgn : g <> 0) by tauto. dsteps. cbn [set_recv_name pd_recv_name pd_recv_buf pd3].
    eapply wp_fill_mem; [wsimpl_goal; rewrite Ei2; exact Ri|reflexivity|reflexivity..|].
    match goal with |- wp _ ?W _ => set (w4 := W) end. set (nm := snprintf _ _) in *.
    assert (Hready : ready w0 F σ dev d p (set_recv_name nm pd3)
      [a; b; c; recv_mem (set_recv_name nm pd3); zero_mem] w4).
    { subst w4. eapply Hvar; [run_tac|wsimpl_goal; apply lookup_insert_eq|..|done].
      - apply holds_info, holds_pdata, holds_pdata. exact Hh3.
      - unfold held. cbn. rewrite (proj2 (Z.eqb_neq g 0)) by done. set_solver.
      - wsimpl_goal. apply lookup_insert_eq. }
    eapply wp_mono; [eapply (wp_probe_send _ _ _ _ _ _ _ _ _ _ _ Hready); [done|done|cbn; lia]|].
    cbn beta. intros r w5 [H1 H2]. split; [|done]. intros E. destruct (H1 E) as (s & H3 & H4 & H5).
    do 2 eexists. split; [exact H3|]. rewrite H4, H5. subst w4. wsimpl_goal. cbn. split; [done|]. by rewrite (pn_conn _ _ _ _ Hrun2).
  - assert (Hg0 : g = 0) by (destruct (decide (g = 0)); tauto). subst g.
    assert (Hfail : forall w3, probe_run p (hd_channel d) w w3 -> hs_pdata (w_drv w3) !! p = Some pd3 ->
      holds w0 w3 (hd_channel d) 1 0 (held (VmbusGpadl 0 dec) rb) -> w_info w3 = w_info w ->
      wp (fail_close dev p ret) w3 (fun r w' =>
        (r = 0 -> exists x y, probed w0 F σ dev d p [a; b; c; x; y] w' /\ hs_chan (w_drv w') = hs_chan (w_drv w) /\
          hs_conn (w_drv w') = hs_conn (w_drv w)) /\
        (r <> 0 -> probe_failed w0 F σ (hd_channel d) p w'))).
    { intros w3 R1 R2 R3 R4. eapply wp_mono.
      { eapply wp_fail_close, (ry_probing _ _ _ _ _ _ (set_recv_name (pd_recv_name pd3) pd3) [a; b; c; zero_mem; zero_mem]).
        eapply Hvar; [done|done|exact R3|done|by rewrite R4|done]. }
      cbn beta. intros r w' [-> Hf]. by split. }
    replace (0 + 0) with 0 in Hh3 by lia.
    destruct dec; cbn [negb]; dsteps.
    + apply Hfail; [run_tac|wsimpl_goal; apply lookup_insert_eq| |by wsimpl_goal].
      replace (held (VmbusGpadl 0 true) rb) with (∅ ∪ {[rb]} : gset Z) by (unfold held, kept; cbn; set_solver).
      by apply holds_pdata.
    + eapply wp_vfree; [lia| |].
      { wsimpl_goal. cbn. rewrite (ho_vm _ _ _ _ _ _ Hh3). set_solver. }
      apply Hfail; [run_tac|wsimpl_goal; apply lookup_insert_eq| |by wsimpl_goal].
      replace (held (VmbusGpadl 0 false) rb) with ((∅ ∪ {[rb]}) ∖ {[rb]} : gset Z)
        by (unfold held, kept; cbn; set_solver).
      apply holds_vfree; [done|set_solver|]. by apply holds_pdata.
Qed.
(** ** All of probe *)

(** What the VMBus core guarantees when it calls probe: the device and its
    channel exist, and no registered device uses the channel. *)
Record probe_pre w F σ dev d : Prop := ProbePre {
  pp_inv : core_inv w F σ;
  pp_dev : hs_dev (w_drv w) !! dev = Some d;
  pp_chan : is_Some (hs_chan (w_drv w) !! hd_channel d);
  pp_vm : hs_vm (w_drv w) ⊆ vlive (w_hist w);
  pp_live p : is_Some (w_info w !! p) \/ is_Some (hs_pdata (w_drv w) !! p) -> p ∈ live (w_hist w);
  pp_used q n pd dq : σ !! q = Some n -> hs_pdata (w_drv w) !! q = Some pd ->
    hs_dev (w_drv w) !! pd_device pd = Some dq -> hd_channel dq <> hd_channel d;
  pp_obj : dev <> 0 /\ dev ∈ live (w_hist w) /\ w_heap w !! dev = None }.

(** The private data has been allocated and zeroed. *)
Lemma probe_alloc w F σ dev d p :
  probe_pre w F σ dev d -> p = kernel (w_hist w) (DevmKzalloc dev) -> p <> 0 ->
  let w1 := set_drv (set_hs_pdata <[p := zero_pdata]>) (set_info <[p := zero_info]> (logged (DevmKzalloc dev) w)) in
  core_inv w1 F σ /\ unregistered w1 p /\ spare σ p (hd_channel d) w1 /\ 0 < p /\
  (dev ∈ live (w_hist w1) /\ w_heap w1 !! dev = None) /\ idr_of (w_hist w1) = idr_of (w_hist w) /\
  holds w w1 (hd_channel d) 0 0 ∅ /\ unbound dev (hd_channel d) w w1.
Proof.
  intros [Hi Hdev Hch Hvm Hlive Hused (Hd0 & Hd1 & Hd2)] Hp Hnz w1.
  destruct (alloc_fresh (w_hist w) (DevmKzalloc dev) I) as [?|[Hpos Hfresh]]; [congruence|]. rewrite <- Hp in Hpos, Hfresh.
  assert (Hninfo : w_info w !! p = None).
  { destruct (w_info w !! p) eqn:E; [|done]. destruct Hfresh. apply Hlive. left. by eexists. }
  assert (Hun : unregistered w p).
  { intros m q x Hm Hx E. destruct (ci_idr _ _ _ Hi _ _ Hm) as (x' & i & E1 & E2 & E3 & E4 & _). congruence. }
  assert (Hsp : spare σ p (hd_channel d) w).
  { split; [|exact Hused]. destruct (σ !! p) as [n|] eqn:E; [|done].
    destruct (ci_drv _ _ _ Hi _ _ E) as (irq & h & pd & dv & c & H1 & _). by rewrite Hninfo in H1. }
  assert (How : own_writes p (hd_channel d) w w1).
  { subst w1. split; wsimpl_goal; cbn; try done; intros q Hq; by rewrite lookup_insert_ne. }
  set (w0 := logged (DevmKzalloc dev) w) in *.
  assert (Hi0 : core_inv w0 F σ) by (apply (inv_quiet_drv w); [done|subst w0; quiet_tac|subst w0; by wsimpl_goal]).
  assert (Hc1 : core_inv w1 F σ).
  { pose proof (hv_inv_own _ _ _ _ _ How Hsp (ci_drv _ _ _ Hi)) as Hd.
    set (w2 := set_info <[p := zero_info]> w0). apply (inv_frame w2); [|subst w1; frame_tac|done].
    apply (inv_unreg_info w0 w2 F σ p); subst w2; wsimpl_goal; try done.
    - intros q Hq. by rewrite lookup_insert_ne.
    - apply (hv_inv_own σ p (hd_channel d) w); [|done|apply (ci_drv _ _ _ Hi)]. subst w0.
      split; wsimpl_goal; cbn; try done; intros q Hq; by rewrite lookup_insert_ne. }
  split_and!; try done.
  - by eapply spare_own.
  - subst w1 w0. gsimpl. rewrite <- Hp, (proj2 (Z.eqb_neq p 0)) by done. by apply elem_of_union_r.
  - clear -w1. subst w1 w0. split; intros; gsimpl; cbn; rewrite ?union_empty_l_L; try done; case_match; lia.
  - clear -w1 Hnz. subst w1 w0. split; intros; gsimpl; wsimpl_goal; [done|by rewrite lookup_insert_ne|done].
Qed.

(** How probe fails: the core is as it was; of the resources, only buffers whose
    pages could not be taken back from the host remain. *)
Definition probe_undone w F σ ch p w' : Prop :=
  core_inv w' F σ /\ idr_of (w_hist w') = idr_of (w_hist w) /\
  exists V, holds w w' ch 0 0 V /\
    (V = ∅ \/ exists pd, hs_pdata (w_drv w') !! p = Some pd /\ V = kept_bufs pd).

(** The first three regions. *)
Definition ring_mem (c : vmbus_channel) (phys : Z) : uio_mem :=
  hv_mem "txrx_rings" phys (u32 (Z.shiftl (ch_ringbuffer_pagecount c) PAGE_SHIFT)) UIO_MEM_IOVA.
Definition page_mem (name : string) (a : Z) : uio_mem := hv_mem name a PAGE_SIZE UIO_MEM_LOGICAL.

Lemma probe_failed_undone w F σ ch p w' : probe_failed w F σ ch p w' -> probe_undone w F σ ch p w'.
Proof. intros [P1 P2 (pd & P3 & P4)]. split_and!; [done..|]. exists (kept_bufs pd). eauto. Qed.

Lemma wp_alloc_ring p ch c sz w :
  hs_chan (w_drv w) !! ch = Some c ->
  wp (vmbus_alloc_ring ch sz sz) w (fun ret w' => probe_run p ch w w' /\ w_info w' = w_info w /\
    hs_pdata (w_drv w') = hs_pdata (w_drv w) /\ is_Some (hs_chan (w_drv w') !! ch) /\
    forall w0 r g V, holds w0 w ch r g V -> holds w0 w' ch (r + (if ret =? 0 then 1 else 0)) g V).
Proof.
  intros Hc. unfold vmbus_alloc_ring. kstep. apply wp_call_out. cbn [fst snd].
  set (ret := kernel (w_hist w) _). set (w1 := logged _ w).
  assert (H1 : probe_run p ch w w1 /\ w_info w1 = w_info w /\ hs_pdata (w_drv w1) = hs_pdata (w_drv w) /\
    hs_chan (w_drv w1) !! ch = Some c /\
    forall w0 r g V, holds w0 w ch r g V -> holds w0 w1 ch (r + (if ret =? 0 then 1 else 0)) g V).
  { subst w1. split_and!; try (by wsimpl_goal); [run_tac|]. 
    intros w0 r g V [H1 H2 H3 H4 H5].
    split; intros; gsimpl; rewrite ?Z.add_0_l; auto. rewrite H1. fold ret. match goal with |- context [ch =? ?q] => destruct (ch =? q) end; destruct (ret =? 0); cbn; lia. }
  clearbody w1 ret. destruct H1 as (H1 & H2 & H3 & H4 & H5).
  destruct (kernel_out _ _) as [|page [|n l]]; dsteps.
  1, 2: split_and!; try done; by exists c.
  split_and!; [run_tac|by wsimpl_goal|by wsimpl_goal|wsimpl_goal; cbn; rewrite lookup_insert_eq; by eexists|].
  intros w0 r g V Hh. by apply holds_chan, H5.
Qed.

Lemma wp_hv_uio_probe w F σ dev d :
  probe_pre w F σ dev d ->
  wp (hv_uio_probe dev) w (fun r w' =>
    let p := kernel (w_hist w) (DevmKzalloc dev) in
    (r = 0 -> exists c phys x y, hs_chan (w_drv w') !! hd_channel d = Some c /\
      probed w F σ dev d p [ring_mem c phys; page_mem "int_page" (vc_int_page (hs_conn (w_drv w)));
        page_mem "monitor_page" (snd (vc_monitor_pages (hs_conn (w_drv w)))); x; y] w') /\
    (r <> 0 -> probe_undone w F σ (hd_channel d) p w')).
Proof.
  intros Hpre. pose proof Hpre as [Hi Hdev [c0 Hch] Hvm Hlive Hused (Hd0 & Hd1 & Hd2)].
  unfold hv_uio_probe. dsteps. set (p := kernel (w_hist w) (DevmKzalloc dev)) in *. unfold NULL.
  destruct (Z.eqb_spec p 0) as [Ep|Ep].
  { dsteps. split; [done|]. intros _. split_and!; [apply (inv_quiet_drv w); [done|quiet_tac|by wsimpl_goal]|by gsimpl|].
    exists ∅. split; [|by left]. split; intros; gsimpl; try set_solver; case_match; lia. }
  destruct (probe_alloc _ _ _ _ _ p Hpre eq_refl Ep) as (A1 & A2 & A3 & A4 & A5 & A6 & A7 & A8).
  dsteps. set (w1 := set_drv _ (set_info _ _)) in *.
  assert (Hpd1 : hs_pdata (w_drv w1) !! p = Some zero_pdata) by (subst w1; wsimpl_goal; apply lookup_insert_eq).
  assert (Hi1 : w_info w1 !! p = Some zero_info) by (subst w1; wsimpl_goal; apply lookup_insert_eq).
  assert (Hch1 : hs_chan (w_drv w1) !! hd_channel d = Some c0) by (subst w1; by wsimpl_goal).
  assert (Hdev1 : hs_dev (w_drv w1) !! dev = Some d) by (subst w1; by wsimpl_goal).
  assert (Hconn1 : hs_conn (w_drv w1) = hs_conn (w_drv w)) by (subst w1; by wsimpl_goal).
  clearbody w1. eapply wp_mono; [apply (wp_alloc_ring p _ c0); exact Hch1|].
  cbn beta. intros ret w2 (B1 & B2 & B3 & [c2 B4] & B5). specialize (B5 _ _ _ _ A7).
  destruct (Z.eqb_spec ret 0) as [Er|Er]; cbn [negb].
  2: { kstep. split; [done|]. intros _. destruct (probe_run_inv _ _ _ _ _ _ A1 A2 A3 B1) as (C1 & _ & _).
    destruct (probe_run_hist _ _ _ _ B1) as [C2 _]. split_and!; [done|congruence|]. exists ∅. split; [exact B5|by left]. }
  assert (Hpd2 : hs_pdata (w_drv w2) !! p = Some zero_pdata) by (by rewrite B3).
  assert (Hi2 : w_info w2 !! p = Some zero_info) by (by rewrite B2).
  dsteps. change (general_info zero_info) with (hv_info (replicate MAX_UIO_MAPS zero_mem) 0).
  rewrite max_maps_ok. cbn [replicate]. change (set_pd_refcnt 0 zero_pdata) with zero_pdata.
  match goal with |- wp (fill_mem _ _ _ ?P _ _) ?W _ => set (phys := P); set (w3 := W) end.
  eapply wp_fill_mem; [subst w3; wsimpl_goal; apply lookup_insert_eq|reflexivity..|]. ksteps.
  eapply wp_fill_mem; [wsimpl_goal; apply lookup_insert_eq|reflexivity..|]. ksteps.
  eapply wp_fill_mem; [wsimpl_goal; apply lookup_insert_eq|reflexivity..|].
  match goal with |- wp _ ?W _ => set (w4 := W) end.
  assert (Hrun : probe_run p (hd_channel d) w1 w4) by (subst w4 w3; run_tac).
  destruct (probe_run_inv _ _ _ _ _ _ A1 A2 A3 Hrun) as (C1 & C2 & C3).
  destruct (probe_run_hist _ _ _ _ Hrun) as [C4 C5].
  assert (Hready : ready w F σ dev d p zero_pdata [ring_mem c2 phys; page_mem "int_page" (vc_int_page (hs_conn (w_drv w)));
        page_mem "monitor_page" (snd (vc_monitor_pages (hs_conn (w_drv w)))); zero_mem; zero_mem] w4).
  { assert (Hb : bufs zero_pdata = ∅) by (unfold bufs, held, kept; cbn; set_solver).
    split; [split|..]; try done.
    - rewrite Hb. subst w4 w3. holds_tac.
    - subst w4 w3. wsimpl_goal. apply lookup_insert_eq.
    - by rewrite (pn_dev _ _ _ _ Hrun).
    - congruence.
    - eapply unbound_trans; [exact A8|]. by apply (probe_run_unbound p).
    - subst w4. wsimpl_goal. rewrite !lookup_insert_eq. subst w3. wsimpl_goal. cbn.
      by rewrite (pn_conn _ _ _ _ B1), Hconn1.
    - rewrite C5, (pn_heap _ _ _ _ Hrun). done. }
  eapply wp_mono; [by apply (wp_probe_recv _ _ _ _ _ _ _ _ _ _ _ Hready)|].
  cbn beta. intros r w5 [D1 D2]. split; [|intros E; by apply probe_failed_undone, D2].
  intros E. destruct (D1 E) as (x & y & D3 & D4 & _). exists c2, phys, x, y. split; [|done].
  rewrite D4. subst w4 w3. wsimpl_goal. exact B4.
Qed.
(** ** Remove *)

(** The device [dev] is bound: [p] is its private data, [w0] a state from which
    the driver acquired what it holds. *)
Record bound w0 w F σ dev d p pd i : Prop := Bound {
  bd_inv : core_inv w F σ;
  bd_data : drvdata_of (w_hist w) !! dev = Some p;
  bd_pos : p <> 0;
  bd_info : w_info w !! p = Some i;
  bd_reg : i_uio_dev i <> 0 /\ may_unregister w p i;
  bd_pd : hs_pdata (w_drv w) !! p = Some pd;
  bd_ok : pd_ok pd;
  bd_dev : hs_dev (w_drv w) !! dev = Some d;
  bd_chan : is_Some (hs_chan (w_drv w) !! hd_channel d);
  bd_only q n pq dq : σ !! q = Some n -> q <> p -> hs_pdata (w_drv w) !! q = Some pq ->
    hs_dev (w_drv w) !! pd_device pq = Some dq -> hd_channel dq <> hd_channel d;
  bd_sub : hs_vm (w_drv w0) ⊆ vlive (w_hist w0);
  bd_holds : holds w0 w (hd_channel d) 1 (has (pd_send_gpadl pd) + has (pd_recv_gpadl pd)) (bufs pd) }.

Lemma wp_hv_uio_remove w0 w F σ dev d p pd i :
  bound w0 w F σ dev d p pd i ->
  wp (hv_uio_remove dev) w (fun _ w' =>
    core_inv w' F (delete p σ) /\
    (exists pd', hs_pdata (w_drv w') !! p = Some pd' /\ holds w0 w' (hd_channel d) 0 0 (kept_bufs pd')) /\
    (exists c, hs_chan (w_drv w') !! hd_channel d = Some c /\ ch_inbound c = None) /\
    (exists x, w_heap w !! i_uio_dev i = Some (HIdev x) /\ w_heap w' !! i_uio_dev i = Some (HIdev (upd_dinfo NULL x)) /\
      idr_of (w_hist w') = delete (d_minor x) (idr_of (w_hist w)))).
Proof.
  intros [Bi Bdata Bp Binfo [Bu Breg] Bpd Bok Bdev [c Bch] Bonly Bsub Bh].
  unfold hv_uio_remove. ksteps. rewrite drvdata_spec, Bdata. cbn [default from_option]. unfold id, NULL.
  rewrite (proj2 (Z.eqb_neq p 0)) by done. dsteps.
  match goal with |- wp _ ?W _ => set (w1 := W) end.
  assert (Hi1 : core_inv w1 F σ) by (apply (inv_quiet_drv w); [done|subst w1; quiet_tac|subst w1; by wsimpl_goal]).
  eapply wp_mono.
  { apply keeps_wp with (R := core_step ∅); [apply _|apply keeps_unregister|].
    eapply (wp_uio_unregister_device w1 F σ p i); [done|done|subst w1; by wsimpl_goal|].
    subst w1. unfold may_unregister, registered. gsimpl. exact Breg. }
  cbn beta. intros _ w2 [[_ Hun] Hs]. destruct (Hun Bu) as (x & Hx & [U1 U2 U3 U4 U5 U6 U7 U8 U9]).
  assert (Ed2 : w_drv w2 = w_drv w) by (rewrite (cs_drv _ _ _ Hs); subst w1; by wsimpl_goal).
  assert (Hcs : forall q n, delete p σ !! q = Some n -> σ !! q = Some n /\ q <> p) by (intros q n; rewrite lookup_delete_Some; intros [? ?]; by split).
  eapply wp_mono.
  { apply (wp_give_back w0 F (delete p σ) dev d p pd). split; rewrite ?Ed2; try done; [|].
    - apply (holds_core_step ∅ _ w1); [done|]. subst w1. holds_tac.
    - split; [apply lookup_delete_eq|]. intros q n pq dq Hq. rewrite Ed2. destruct (Hcs _ _ Hq). by apply (Bonly q n). }
  cbn beta. intros _ w3 (Hf & Hi3 & Hres & Hch). split_and!; try done.
  exists x. split; [subst w1; by wsimpl_goal|]. rewrite (cf_heap _ _ Hf), (frame_idr _ _ Hf), U2, U5. split; [apply lookup_insert_eq|].
  subst w1. by gsimpl.
Qed.
End probe.
