(* ===== verification/HvSystem.v ===== *)
(** * A bound device as a system

    Between probe and remove the operations of the UIO core and the callbacks of VMBus
    run in any order.  [hv_step] is what they leave alone of the driver's resources,
    and [bound_kept] that the device is still bound after them. *)

From S2P Require Import Prelude Kernel UioTypes UioAttr UioDevice UioFile UioMmap UioTables HypervVmbus HvUio KLogic CoreStep UioInv UioSpec UioRead UioOpen UioAttrSpec UioReg UioSystem ModuleSpec HvSpec HvCallbacks HvProbe HvProbeSpec.

(** ** What the operations leave alone *)

(** The calls no operation makes: registration, and the resources of probe. *)
Definition bind_call (c : kcall) : bool :=
  match c with
  | IdrAlloc _ _ _ | IdrRemove _ | IdrDestroy | DevSetDrvdata _ _ | Vzalloc _ | Vfree _
  | VmbusAllocRing _ _ _ | VmbusFreeRing _ | VmbusEstablishGpadl _ _ _ | VmbusTeardownGpadl _ _ => true
  | _ => false
  end.

(** The private data but for the reference count; what ties a device to its info. *)
Definition pd_static (pd : hv_uio_private_data) :=
  (pd_device pd, pd_recv_buf pd, pd_send_buf pd, pd_recv_gpadl pd, pd_send_gpadl pd).
Definition idev_key (d : uio_device) : Z * Z := (d_info d, d_minor d).

Record hv_step (w w' : world hv_state) : Prop := HvStep {
  hs_idr : idr_of (w_hist w') = idr_of (w_hist w);
  hs_data : drvdata_of (w_hist w') = drvdata_of (w_hist w);
  hs_vlive : vlive (w_hist w') = vlive (w_hist w);
  hs_ring c : ring_allocated c (w_hist w') = ring_allocated c (w_hist w);
  hs_gpadl c : gpadl_live c (w_hist w') = gpadl_live c (w_hist w);
  hs_idev p d' : w_heap w' !! p = Some (HIdev d') -> exists d, w_heap w !! p = Some (HIdev d) /\ idev_key d = idev_key d';
  hs_devs : hs_dev (w_drv w') = hs_dev (w_drv w);
  hs_bufs : hs_vm (w_drv w') = hs_vm (w_drv w);
  hs_pd p : pd_static <$> hs_pdata (w_drv w') !! p = pd_static <$> hs_pdata (w_drv w) !! p;
  hs_chans c : ch_device_obj <$> hs_chan (w_drv w') !! c = ch_device_obj <$> hs_chan (w_drv w) !! c }.

#[export] Instance hv_step_preorder : PreOrder hv_step.
Proof.
  split; [intros w; split; eauto|]. intros w1 w2 w3 [A1 A2 A3 A4 A5 A6 A7 A8 A9 A10] [B1 B2 B3 B4 B5 B6 B7 B8 B9 B10].
  split; try congruence; try (intros; congruence).
  intros p d3 H3. destruct (B6 _ _ H3) as (d2 & H2 & E2). destruct (A6 _ _ H2) as (d1 & H1 & E1).
  exists d1. split; [done|congruence].
Qed.

Section step.
Context `{HK : Kernel, HU : Uapi, HA : HvApi}.
Set Default Proof Using "All".
Implicit Types w : world hv_state.

Lemma step_logged c w : bind_call c = false -> hv_step w (logged c w).
Proof.
  intros Hc. split.
  - rewrite idr_logged_case. by destruct c.
  - rewrite drvdata_logged. by destruct c.
  - rewrite vlive_logged. by destruct c.
  - intros x. unfold ring_allocated. rewrite count_logged. by destruct c.
  - intros x. unfold gpadl_live. rewrite count_logged. by destruct c.
  - intros p d'. wsimpl_goal. eauto.
  - by wsimpl_goal.
  - by wsimpl_goal.
  - intros p. by wsimpl_goal.
  - intros x. by wsimpl_goal.
Qed.

(** A store to the heap that makes no new device. *)
Lemma step_heap f w :
  (forall p d', f (w_heap w) !! p = Some (HIdev d') -> exists d, w_heap w !! p = Some (HIdev d) /\ idev_key d = idev_key d') ->
  hv_step w (set_heap f w).
Proof. intros Hf. split; try (intros; by wsimpl_goal). intros p d'. wsimpl_goal. apply Hf. Qed.

Lemma step_info f w : hv_step w (set_info f w).
Proof. split; try (intros; by wsimpl_goal). intros p d'. wsimpl_goal. eauto. Qed.
Lemma step_priv f w : hv_step w (set_priv f w).
Proof. split; try (intros; by wsimpl_goal). intros p d'. wsimpl_goal. eauto. Qed.

(** A store to the driver's memory. *)
Lemma step_drv f w :
  hs_dev (f (w_drv w)) = hs_dev (w_drv w) -> hs_vm (f (w_drv w)) = hs_vm (w_drv w) ->
  (forall p, pd_static <$> hs_pdata (f (w_drv w)) !! p = pd_static <$> hs_pdata (w_drv w) !! p) ->
  (forall c, ch_device_obj <$> hs_chan (f (w_drv w)) !! c = ch_device_obj <$> hs_chan (w_drv w) !! c) ->
  hv_step w (set_drv f w).
Proof. intros E1 E2 E3 E4. split; try (intros; wsimpl_goal; solve [done | auto]). intros p d'. wsimpl_goal. eauto. Qed.

Lemma stp_ret {A} (a : A) : keeps hv_step (mret a).
Proof. apply keeps_ret, _. Qed.
Lemma stp_bind {A B} (m : K hv_state A) (f : A -> K hv_state B) :
  keeps hv_step m -> (forall a, keeps hv_step (f a)) -> keeps hv_step (m ≫= f).
Proof. apply keeps_bind, _. Qed.
Lemma stp_get {A} (f : world hv_state -> option A) : keeps hv_step (get_some f).
Proof. apply keeps_get, _. Qed.
Lemma stp_call c : bind_call c = false -> keeps hv_step (call c).
Proof. intros Hc w a w'. rewrite call_run. intros [= _ <-]. by apply step_logged. Qed.
Lemma stp_do c : bind_call c = false -> keeps hv_step (do_ c).
Proof. intros Hc w a w'. rewrite do_run. intros [= _ <-]. by apply step_logged. Qed.
Lemma stp_call_out c : bind_call c = false -> keeps hv_step (call_out c).
Proof.
  intros Hc w a w' Hr. refine (wp_run _ _ (fun _ w'' => hv_step w w'') _ _ _ Hr). by apply wp_call_out, step_logged.
Qed.
Lemma stp_priv f : keeps hv_step (modify (set_priv f)).
Proof. intros w a w' [= _ <-]. apply step_priv. Qed.
Lemma stp_oops {A} : keeps hv_step (oops (A:=A)).
Proof. intros w a w' [=]. Qed.

(** A read-modify-write. *)
Lemma stp_modify {A} (f : world hv_state -> option A) (g : A -> world hv_state -> world hv_state) :
  (forall a w, f w = Some a -> hv_step w (g a w)) -> keeps hv_step (a ← get_some f; modify (g a)).
Proof.
  intros Hg w a w'. unfold get_some, modify, mbind, K_bind. destruct (f w) as [x|] eqn:E; [|done].
  intros [= _ <-]. by apply Hg.
Qed.

Lemma insert_key (m : gmap Z hobj) p o q d' :
  (forall d, o = HIdev d -> exists d0, m !! p = Some (HIdev d0) /\ idev_key d0 = idev_key d) ->
  <[p := o]> m !! q = Some (HIdev d') -> exists d, m !! q = Some (HIdev d) /\ idev_key d = idev_key d'.
Proof.
  intros Ho. destruct (decide (p = q)) as [<-|Hne].
  - rewrite lookup_insert_eq. intros [= Hq]. by apply Ho.
  - rewrite lookup_insert_ne by done. eauto.
Qed.

Lemma stp_mod_idev p f : (forall d, idev_key (f d) = idev_key d) -> keeps hv_step (mod_idev p f).
Proof.
  intros Hf. apply (stp_modify (fun w => as_idev (w_heap w !! p)) (fun d => set_heap (insert p (HIdev (f d))))).
  intros d w Hd. apply step_heap. intros q d'. apply insert_key. intros d1 [= <-].
  destruct (w_heap w !! p) as [[x|?|?|?]|]; try done. injection Hd as <-. exists x. by rewrite Hf.
Qed.
Lemma stp_mod_lsn p f : keeps hv_step (mod_lsn p f).
Proof.
  apply (stp_modify (fun w => as_lsn (w_heap w !! p)) (fun d => set_heap (insert p (HLsn (f d))))).
  intros d w Hd. apply step_heap. intros q d'. by apply insert_key.
Qed.
Lemma stp_init p o : (forall d, o <> HIdev d) -> keeps hv_step (init_obj p o).
Proof.
  intros Ho w a w' [= _ <-]. apply step_heap. intros q d'. apply insert_key. intros d ->. by destruct (Ho d).
Qed.
Lemma stp_mod_info p f : keeps hv_step (mod_info p f).
Proof. apply (stp_modify (fun w => w_info w !! p) (fun d => set_info (insert p (f d)))). intros. apply step_info. Qed.
Lemma stp_kfree p : keeps hv_step (kfree p).
Proof.
  unfold kfree. case_match; [by apply stp_do|]. apply stp_bind; [apply stp_get|intros _].
  apply stp_bind; [by apply stp_do|intros _]. intros w a w' [= _ <-]. apply step_heap. intros q d'.
  rewrite lookup_delete_Some. intros [_ ?]. eauto.
Qed.

Lemma stp_mod_pdata p f : (forall x, pd_static (f x) = pd_static x) -> keeps hv_step (mod_pdata p f).
Proof.
  intros Hf. apply (stp_modify (fun w => hs_pdata (w_drv w) !! p) (fun x => set_drv (set_hs_pdata (insert p (f x))))).
  intros x w Hx. apply step_drv; [done|done| |done]. intros q. cbn. destruct (decide (p = q)) as [<-|].
  - rewrite lookup_insert_eq, Hx. cbn. by rewrite Hf.
  - by rewrite lookup_insert_ne.
Qed.
Lemma stp_mod_chan c f : (forall x, ch_device_obj (f x) = ch_device_obj x) -> keeps hv_step (mod_chan c f).
Proof.
  intros Hf. apply (stp_modify (fun w => hs_chan (w_drv w) !! c) (fun x => set_drv (set_hs_chan (insert c (f x))))).
  intros x w Hx. apply step_drv; [done..|]. intros q. cbn. destruct (decide (c = q)) as [<-|].
  - rewrite lookup_insert_eq, Hx. cbn. by rewrite Hf.
  - by rewrite lookup_insert_ne.
Qed.
End step.

Ltac stp1 :=
  first
    [ apply stp_ret | apply stp_get | apply stp_oops | apply stp_mod_idev; reflexivity | apply stp_mod_lsn
    | apply stp_mod_info | apply stp_mod_pdata; reflexivity | apply stp_mod_chan; reflexivity | apply stp_priv | apply stp_kfree
    | apply stp_init; discriminate
    | apply stp_do; reflexivity | apply stp_call; reflexivity | apply stp_call_out; reflexivity
    | apply stp_bind; [|intros] | case_match | progress cbn beta zeta
    | unfold load_idev, load_lsn, load_info, load_priv, load_mem, load_port, load_map, load_portio, load_pdata, load_hvdev,
        load_chan ].

Section operations.
Context `{HK : Kernel, HKok : !KernelOk, HU : Uapi, HUok : !UapiOk, HA : HvApi, HHk : !HvKernelOk}.
Set Default Proof Using "All".
Implicit Types (w : world hv_state) (F : gset Z).

(** ** The driver's callbacks *)

Lemma stp_drv_open fn info inode : keeps hv_step (drv_open fn info inode).
Proof.
  cbn [drv_open hv_uio_driver]. unfold hv_uio_open, vmbus_connect_ring, ring_mapped, store_interrupt_mask. repeat stp1.
Qed.
Lemma stp_drv_release fn info inode : keeps hv_step (drv_release fn info inode).
Proof. cbn [drv_release hv_uio_driver]. unfold hv_uio_release. repeat stp1. Qed.
Lemma stp_drv_irqcontrol fn info s : keeps hv_step (drv_irqcontrol fn info s).
Proof. cbn [drv_irqcontrol hv_uio_driver]. unfold hv_uio_irqcontrol, store_interrupt_mask. repeat stp1. Qed.
Lemma stp_drv_mmap fn info v : keeps hv_step (drv_mmap fn info v).
Proof. cbn [drv_mmap hv_uio_driver]. repeat stp1. Qed.
Lemma stp_drv_handler fn irq info : keeps hv_step (drv_handler fn irq info).
Proof. cbn [drv_handler hv_uio_driver]. repeat stp1. Qed.

Ltac stp := repeat first
  [ apply stp_drv_open | apply stp_drv_release | apply stp_drv_irqcontrol | apply stp_drv_mmap | apply stp_drv_handler | stp1 ].

(** ** Operations *)

(** An operation of the UIO core that is not registration, or a callback of VMBus: a
    signal of the host, a rescind, the offer of a subchannel, a mapping of the ring file. *)
Inductive hv_op :=
| HvUio (op : uop)
| HvSignal (ch : Z)
| HvRescind (ch : Z)
| HvNewChannel (ch : Z)
| HvRingMmap (ch : Z) (v : vma).

Definition do_hv_op (op : hv_op) F : K hv_state (gset Z) :=
  match op with
  | HvUio op => do_op op F
  | HvSignal ch => hv_uio_channel_cb ch;; mret F
  | HvRescind ch => hv_uio_rescind ch;; mret F
  | HvNewChannel ch => hv_uio_new_channel ch;; mret F
  | HvRingMmap ch v => _ ← ba_mmap ring_buffer_bin_attr ch v; mret F
  end.

Definition user_op (op : uop) : bool :=
  match op with OpRegister _ _ _ | OpUnregister _ => false | _ => true end.

(** VMBus signals and rescinds channels of bound devices, and a signal arrives only while the
    ring is connected; a subchannel is not the channel of a device. *)
Definition hv_admissible (op : hv_op) w F : Prop :=
  match op with
  | HvUio op => user_op op = true /\ admissible op w F
  | HvSignal ch => exists c p i x,
      hs_chan (w_drv w) !! ch = Some c /\ ch_inbound c <> None /\ bound_to w (ch_device_obj c) p i x
  | HvRescind ch => exists c p i x, hs_chan (w_drv w) !! ch = Some c /\ bound_to w (ch_device_obj c) p i x
  | HvNewChannel ch => exists c pc, hs_chan (w_drv w) !! ch = Some c /\
      hs_chan (w_drv w) !! ch_primary_channel c = Some pc /\
      forall dev d, hs_dev (w_drv w) !! dev = Some d -> hd_channel d <> ch
  | HvRingMmap ch v => is_Some (hs_chan (w_drv w) !! ch)
  end.

Fixpoint run_hv_ops (ops : list hv_op) F : K hv_state (gset Z) :=
  match ops with
  | [] => mret F
  | op :: ops' => F' ← do_hv_op op F; run_hv_ops ops' F'
  end.

Fixpoint hv_admissible_run (ops : list hv_op) F w : Prop :=
  match ops with
  | [] => True
  | op :: ops' => hv_admissible op w F /\
      forall F' w', do_hv_op op F w = Some (F', w') -> hv_admissible_run ops' F' w'
  end.

(** *** They keep the resources *)

Lemma stp_show n nm show dev : uio_attrs (D:=hv_state) !! n = Some (nm, show) -> keeps hv_step (show dev).
Proof.
  intros Hn. destruct n as [|[|[|n]]]; simpl in Hn; try discriminate; injection Hn as <- <-;
    unfold name_show, version_show, event_show; stp.
Qed.

Lemma stp_map_show n entry kobj : map_attrs (D:=hv_state) !! n = Some entry -> keeps hv_step (map_type_show kobj entry).
Proof.
  intros Hn. destruct n as [|[|[|[|n]]]]; simpl in Hn; try discriminate; injection Hn as <-;
    unfold map_type_show; cbn [me_show name_attribute addr_attribute size_attribute offset_attribute];
    unfold map_name_show, map_addr_show, map_size_show, map_offset_show, mod_mem, load_mem; stp.
Qed.

Lemma stp_portio_show n entry kobj : portio_attrs (D:=hv_state) !! n = Some entry -> keeps hv_step (portio_type_show kobj entry).
Proof.
  intros Hn. destruct n as [|[|[|[|n]]]]; simpl in Hn; try discriminate; injection Hn as <-;
    unfold portio_type_show; cbn [pe_show portio_name_attribute portio_start_attribute portio_size_attribute portio_porttype_attribute];
    unfold portio_name_show, portio_start_show, portio_size_show, portio_porttype_show, mod_port, load_port; stp.
Qed.

Lemma stp_op op F : user_op op = true -> keeps hv_step (do_op op F).
Proof.
  intros Hop. destruct op; try discriminate Hop; cbn [do_op uio_fops fop_open fop_release fop_poll fop_write fop_fasync fop_mmap
    map_attr_type portio_attr_type kt_release kt_show kt_groups uio_class class_dev_groups].
  15: { destruct (uio_attrs !! attr) as [[nm show]|] eqn:E; [|apply stp_ret].
        apply stp_bind; [by eapply stp_show|intros; apply stp_ret]. }
  15: { destruct (map_attrs !! attr) eqn:E; [|apply stp_ret].
        apply stp_bind; [by eapply stp_map_show|intros; apply stp_ret]. }
  15: { destruct (portio_attrs !! attr) eqn:E; [|apply stp_ret].
        apply stp_bind; [by eapply stp_portio_show|intros; apply stp_ret]. }
  all: try match goal with |- context [vm_fault (vm_ops ?v)] => destruct (vm_ops v); cbn [vm_fault] end.
  all: unfold uio_open, err_infoopen, err_alloc_listener, err_module_get, uio_release, uio_poll, no_irq, read_pass, read_iter,
    uio_write, uio_fasync, uio_mmap, uio_mmap_physical, uio_mmap_logical, uio_mmap_dma_coherent, uio_vma_fault,
    uio_find_mem_index, uio_interrupt_handler, uio_interrupt_thread, uio_event_notify, uio_device_release, map_release,
    portio_release; stp.
Qed.

Lemma stp_hv_op op F w F' w' : hv_admissible op w F -> do_hv_op op F w = Some (F', w') -> hv_step w w'.
Proof.
  intros Ha. assert (K : forall A (m : K hv_state A), keeps hv_step m -> keeps hv_step (m ≫= fun _ => mret F)).
  { intros A m Hm. apply stp_bind; [done|intros; apply stp_ret]. }
  destruct op; cbn [do_hv_op ba_mmap ring_buffer_bin_attr]; [apply stp_op, Ha|..]; apply K.
  - unfold hv_uio_channel_cb, store_interrupt_mask, uio_event_notify. stp.
  - unfold hv_uio_rescind, uio_event_notify. stp.
  - unfold hv_uio_new_channel, vmbus_open, vmbus_close, ring_mapped, store_interrupt_mask. stp.
  - unfold hv_uio_ring_mmap. stp.
Qed.
End operations.

Section system.
Context `{HK : Kernel, HKok : !KernelOk, HU : Uapi, HUok : !UapiOk, HA : HvApi, HHk : !HvKernelOk}.
Set Default Proof Using "All".
Implicit Types (w : world hv_state) (F : gset Z) (σ : gmap Z nat).

(** *** They are safe *)

Lemma do_hv_op_ok op w F σ :
  core_inv w F σ -> hv_admissible op w F -> wp (do_hv_op op F) w (fun F' w' => exists σ', core_inv w' F' σ').
Proof.
  intros Hi Ha. destruct op; cbn [do_hv_op hv_admissible ba_mmap ring_buffer_bin_attr] in *.
  - exact (do_op_ok op w F σ Hi (proj2 Ha)).
  - destruct Ha as (c & p & i & x & Hc & Hm & Hb). kstep.
    eapply wp_mono; [by apply (wp_hv_uio_channel_cb w F σ ch c p i x)|]. cbn beta. intros _ w' [Hi' _]. kstep. eauto.
  - destruct Ha as (c & p & i & x & Hc & Hb). kstep.
    eapply wp_mono; [by apply (wp_hv_uio_rescind w F σ ch c p i x)|]. cbn beta. intros _ w' [Hi' _]. kstep. eauto.
  - destruct Ha as (c & pc & Hc & Hpc & Hun). kstep.
    eapply wp_mono; [apply (wp_hv_uio_new_channel w F σ ch c pc); [done..|by eauto]|].
    cbn beta. intros _ w' [Hi' _]. kstep. eauto.
  - destruct Ha as [c Hc]. kstep.
    eapply wp_mono; [by apply (wp_hv_uio_ring_mmap w F σ ch c)|]. cbn beta. intros r w' [Hi' _]. kstep. eauto.
Qed.

Lemma run_hv_ops_ok ops : forall F w σ, core_inv w F σ -> hv_admissible_run ops F w ->
  wp (run_hv_ops ops F) w (fun F' w' => (exists σ', core_inv w' F' σ') /\ hv_step w w').
Proof.
  induction ops as [|op ops IH]; intros F w σ Hi Ha; cbn [run_hv_ops].
  - kstep. split; [eauto|reflexivity].
  - destruct Ha as [Hop Hrest]. kstep. destruct (do_hv_op_ok op w F σ Hi Hop) as (F' & w' & Hrun & σ' & Hi').
    exists F', w'. split; [exact Hrun|]. pose proof (stp_hv_op _ _ _ _ _ Hop Hrun) as Hs.
    eapply wp_mono; [by eapply IH; [|apply Hrest]|]. cbn beta. intros F2 w2 [Hi2 Hs2]. split; [done|]. by transitivity w'.
Qed.

(** ** The device stays bound *)

(** Only the registered infos matter in the account of opens. *)
Lemma restrict_opens w F σ (S : gset Z) :
  core_inv w F σ -> (forall q x, w_heap w !! q = Some (HIdev x) -> registered w q x -> d_info x ∈ S) ->
  core_inv w F (filter (fun kv => kv.1 ∈ S) σ).
Proof.
  intros [] HS. split; try done.
  - intros p n [Hp _]%map_lookup_filter_Some. by apply ci_drv.
  - intros p d Hd Hr. apply map_lookup_filter_Some. split; [by apply ci_opens|]. by eapply HS.
Qed.

Lemma bound_kept w0 w1 w2 F1 F2 σ1 σ2 dev d p pd i :
  bound w0 w1 F1 σ1 dev d p pd i -> hv_step w1 w2 -> core_inv w2 F2 σ2 ->
  exists σ pd' i', bound w0 w2 F2 σ dev d p pd' i' /\ pd_static pd' = pd_static pd /\ i_uio_dev i' = i_uio_dev i.
Proof.
  intros [Bi Bdata Bp Binfo [Bu Breg] Bpd Bok Bdev Bch Bonly Bsub Bh] Hs Hi.
  destruct Breg as [?|(x & Hx & Hreg & Hxi)]; [done|].
  (* the device is still registered *)
  assert (Hreg2 : idr_of (w_hist w2) !! d_minor x = Some (i_uio_dev i)) by (rewrite (hs_idr _ _ Hs); exact Hreg).
  destruct (ci_idr _ _ _ Hi _ _ Hreg2) as (x2 & i2 & Hx2 & Hm2 & Hnz & Hi2 & Hu2 & Hsh).
  destruct (hs_idev _ _ Hs _ _ Hx2) as (x' & Hx' & Hk). assert (x' = x) as -> by congruence. injection Hk as Hk1 Hk2.
  rewrite <- Hk1, Hxi in Hi2.
  (* its private data *)
  pose proof (hs_pd _ _ Hs p) as Hpd. rewrite Bpd in Hpd. destruct (hs_pdata (w_drv w2) !! p) as [pd2|] eqn:Epd; [|done].
  injection Hpd as P1 P2 P3 P4 P5.
  exists (filter (fun kv => kv.1 ∈ (dom σ1 : gset Z)) σ2), pd2, i2.
  split; [|split; [unfold pd_static; congruence|done]]. split.
  - apply restrict_opens; [done|]. intros q y Hy Hr. destruct (hs_idev _ _ Hs _ _ Hy) as (y1 & Hy1 & Hk).
    injection Hk as E1 E2. rewrite <- E1. apply elem_of_dom. eexists. apply (ci_opens _ _ _ Bi q y1); [done|].
    unfold registered. by rewrite E2, <- (hs_idr _ _ Hs).
  - by rewrite (hs_data _ _ Hs).
  - done.
  - done.
  - rewrite Hu2. split; [done|]. right. exists x2. rewrite Hu2. split; [done|]. split; [|congruence].
    unfold registered. by rewrite Hm2.
  - done.
  - unfold pd_ok, bufs in *. by rewrite P2, P3, P4, P5.
  - by rewrite (hs_devs _ _ Hs).
  - apply (fmap_is_Some ch_device_obj). rewrite (hs_chans _ _ Hs). by apply fmap_is_Some.
  - intros q n pq dq [_ Hq]%map_lookup_filter_Some Hne Hpq Hdq. apply elem_of_dom in Hq as [n1 Hq1].
    pose proof (hs_pd _ _ Hs q) as Eq. rewrite Hpq in Eq. destruct (hs_pdata (w_drv w1) !! q) as [pq1|] eqn:Epq; [|done].
    injection Eq as Q1 _ _ _ _. rewrite (hs_devs _ _ Hs), Q1 in Hdq. by eapply Bonly.
  - done.
  - destruct Bh as [H1 H2 H3 H4 H5]. unfold has, bufs in *. rewrite P2, P3, P4, P5. split; intros.
    + by rewrite (hs_ring _ _ Hs).
    + by rewrite (hs_gpadl _ _ Hs).
    + by rewrite (hs_bufs _ _ Hs).
    + by rewrite (hs_vlive _ _ Hs).
    + done.
Qed.
End system.
