(* ===== verification/HvAbstract.v ===== *)
(** * The host's signals as events

    Between probe and remove the operations of the UIO core run in any order with the
    callbacks of VMBus.  A signal of the host, and a rescind, is an event of the
    service of [UioEvents]; the other callbacks are nothing to it.  So the events that
    user space reads are the signals of the host. *)

From S2P Require Import Prelude Kernel UioTypes UioAttr UioDevice UioFile UioMmap UioTables HypervVmbus HvUio KLogic CoreStep UioInv UioSpec UioOpen UioSystem ModuleSpec UioEvents UioAbstract HvSpec HvCallbacks HvProbeSpec HvSystem.

(** ** Operations with their answers *)

Section exec.
Context `{HK : Kernel, HU : Uapi, HA : HvApi}.
Set Default Proof Using "All".
Implicit Types (w : world hv_state) (F : gset Z).

(** The device that [ch] belongs to, as [hv_uio_channel_cb] and [hv_uio_rescind] find it. *)
Definition signalled (ch : Z) w : list (uop * obs) :=
  match (c ← hs_chan (w_drv w) !! ch; p ← drvdata_of (w_hist w) !! ch_device_obj c;
         i ← w_info w !! p; Some (OpNotify p, OEvent (i_uio_dev i))) with
  | Some e => [e]
  | None => []
  end.

(** [do_hv_op] with what it shows. *)
Definition exec_hv (op : hv_op) F : K hv_state (list (uop * obs) * gset Z) :=
  match op with
  | HvUio op => oF ← exec op F; mret ([(op, oF.1)], oF.2)
  | HvSignal ch | HvRescind ch => e ← gets (signalled ch); F' ← do_hv_op op F; mret (e, F')
  | HvNewChannel _ | HvRingMmap _ _ => F' ← do_hv_op op F; mret ([], F')
  end.

Lemma exec_hv_do op F w :
  do_hv_op op F w = match exec_hv op F w with Some ((_, F'), w') => Some (F', w') | None => None end.
Proof.
  destruct op; cbn [exec_hv]; unfold mbind, K_bind, gets, mret, K_ret;
    try (destruct (do_hv_op _ F w) as [[]|]; done).
  cbn [do_hv_op]. rewrite exec_do. by destruct (exec op F w) as [[[]]|].
Qed.

(** A run with its trace, the newest first. *)
Fixpoint run_hv_trace (ops : list hv_op) (tr : list (uop * obs)) F : K hv_state (list (uop * obs) * gset Z) :=
  match ops with
  | [] => mret (tr, F)
  | op :: ops' => eF ← exec_hv op F; run_hv_trace ops' (eF.1 ++ tr) eF.2
  end.

Lemma run_hv_trace_ops ops : forall tr F w,
  run_hv_ops ops F w = match run_hv_trace ops tr F w with Some ((_, F'), w') => Some (F', w') | None => None end.
Proof.
  induction ops as [|op ops IH]; intros tr F w; [done|]. cbn [run_hv_ops run_hv_trace]. unfold mbind, K_bind.
  rewrite exec_hv_do. destruct (exec_hv op F w) as [[[o F'] w']|]; [|done]. apply IH.
Qed.

Definition hv_reads_word (op : hv_op) : Prop := match op with HvUio op => reads_word op | _ => True end.
End exec.

(** ** Every step counts *)

Section steps.
Context `{HK : Kernel, HKok : !KernelOk, HU : Uapi, HUok : !UapiOk, HA : HvApi, HHk : !HvKernelOk}.
Set Default Proof Using "All".
Implicit Types (w : world hv_state) (F : gset Z) (σ : gmap Z nat).

Lemma signalled_bound ch w c p i x :
  hs_chan (w_drv w) !! ch = Some c -> bound_to w (ch_device_obj c) p i x ->
  signalled ch w = [(OpNotify p, OEvent (i_uio_dev i))].
Proof. intros Hc [Hd Hi _]. unfold signalled. rewrite Hc. cbn [mbind option_bind]. rewrite Hd. cbn [mbind option_bind]. by rewrite Hi. Qed.

(** An event that a callback of VMBus counts, whatever it does to the infos. *)
Lemma callback_counted P tr w w' F σ σ' info p d :
  core_inv w F σ -> core_inv w' F σ' -> w_heap w !! p = Some (HIdev d) ->
  w_heap w' = <[p := HIdev (upd_event atomic_inc d)]> (w_heap w) -> w_priv w' = w_priv w ->
  idr_of (w_hist w') = idr_of (w_hist w) ->
  counted P tr (abs w F) -> counted P ((OpNotify info, OEvent p) :: tr) (abs w' F).
Proof.
  intros Hi Hi' Hd Hh Hp Hm Hc. pose proof (abs_signal_infos w w' F σ σ' p d Hi Hi' Hd Hh Hp Hm) as E.
  apply (counted_ext P _ (signal p (abs w F))); [|by rewrite E..].
  apply counted_signal; try done. exact (co_words _ _ _ Hc).
Qed.

(** An operation the service does not see. *)
Lemma frame_counted P tr w w' F σ σ' :
  core_inv w F σ -> core_inv w' F σ' -> core_frame w w' -> counted P tr (abs w F) -> counted P tr (abs w' F).
Proof.
  intros Hi Hi' Hf. rewrite (still_abs w w' F σ σ' Hi Hi'); [done|]. by apply spares_frame.
Qed.

Lemma frame_ring_mmap ch v : keeps core_frame (hv_uio_ring_mmap ch v).
Proof.
  unfold hv_uio_ring_mmap, load_chan.
  repeat first [apply frame_ret | apply frame_load | apply frame_call; reflexivity | apply frame_bind; [|intros] | case_match].
Qed.

Lemma exec_hv_ok P op tr w F σ :
  core_inv w F σ -> hv_admissible op w F -> hv_reads_word op -> counted P tr (abs w F) ->
  wp (exec_hv op F) w (fun eF w' => (exists σ', core_inv w' eF.2 σ') /\ do_hv_op op F w = Some (eF.2, w') /\
    counted P (eF.1 ++ tr) (abs w' eF.2)).
Proof.
  intros Hi Ha Hw Hc. destruct (do_hv_op_ok op w F σ Hi Ha) as (F' & w' & Hr & σ' & Hi').
  pose proof (exec_hv_do op F w) as He. rewrite Hr in He.
  destruct (exec_hv op F w) as [[[e F1] w1]|] eqn:E; [|done]. injection He as <- <-.
  exists (e, F'), w'. split; [done|]. cbn [fst snd]. split_and!; [by exists σ'|exact Hr|].
  pose proof (stp_hv_op op F w F' w' Ha Hr) as Hs.
  destruct op as [op|ch|ch|ch|ch v]; cbn [exec_hv hv_admissible hv_reads_word do_hv_op ba_mmap ring_buffer_bin_attr] in *.
  - apply bind_inv in E as ([o F2] & w2 & E & E'). injection E' as <- <- <-. cbn [fst snd app] in *.
    eapply counted_step; [exact Hc|]. exact (exec_sim op F w o F2 w2 σ σ' E Hi Hi' (proj2 Ha) Hw).
  - destruct Ha as (c & p & i & x & Hch & Hm & Hb). apply bind_inv in E as (e' & w2 & E1 & E2). injection E1 as <- <-.
    apply bind_inv in E2 as (F2 & w2 & Hr2 & E2). injection E2 as <- <- <-. apply bind_inv in Hr2 as ([] & w3 & Hr2 & E2).
    injection E2 as <- <-. rewrite (signalled_bound ch w c p i x Hch Hb).
    destruct (wp_run _ _ _ _ _ (wp_hv_uio_channel_cb w F σ ch c p i x Hi Hch Hm Hb) Hr2) as (_ & _ & _ & Ep & Eh & _).
    exact (callback_counted P tr w w3 F σ σ' p (i_uio_dev i) x Hi Hi' (bt_idev _ _ _ _ _ Hb) Eh Ep (hs_idr _ _ Hs) Hc).
  - destruct Ha as (c & p & i & x & Hch & Hb). apply bind_inv in E as (e' & w2 & E1 & E2). injection E1 as <- <-.
    apply bind_inv in E2 as (F2 & w2 & Hr2 & E2). injection E2 as <- <- <-. apply bind_inv in Hr2 as ([] & w3 & Hr2 & E2).
    injection E2 as <- <-. rewrite (signalled_bound ch w c p i x Hch Hb).
    destruct (wp_run _ _ _ _ _ (wp_hv_uio_rescind w F σ ch c p i x Hi Hch Hb) Hr2) as (_ & _ & _ & Ep & Eh & _).
    exact (callback_counted P tr w w3 F σ σ' p (i_uio_dev i) x Hi Hi' (bt_idev _ _ _ _ _ Hb) Eh Ep (hs_idr _ _ Hs) Hc).
  - destruct Ha as (c & pc & Hch & Hpc & Hun). apply bind_inv in E as (F2 & w2 & Hr2 & E2). injection E2 as <- <- <-.
    apply bind_inv in Hr2 as ([] & w3 & Hr2 & E2). injection E2 as <- <-.
    destruct (wp_run _ _ _ _ _ (wp_hv_uio_new_channel w F σ ch c pc Hi Hch Hpc ltac:(by eauto)) Hr2) as (_ & Hf & _).
    by apply (frame_counted P tr w w3 F σ σ').
  - apply bind_inv in E as (F2 & w2 & Hr2 & E2). injection E2 as <- <- <-.
    apply bind_inv in Hr2 as (r & w3 & Hr2 & E2). injection E2 as <- <-.
    apply (frame_counted P tr w w3 F σ σ'); [done..| |done]. by apply (frame_ring_mmap ch v w r).
Qed.

Lemma run_hv_trace_ok P ops : forall tr F w σ,
  core_inv w F σ -> hv_admissible_run ops F w -> Forall hv_reads_word ops -> counted P tr (abs w F) ->
  wp (run_hv_trace ops tr F) w (fun tF w' => (exists σ', core_inv w' tF.2 σ') /\ counted P tF.1 (abs w' tF.2)).
Proof.
  induction ops as [|op ops IH]; intros tr F w σ Hi Ha Hw Hc; cbn [run_hv_trace].
  - kstep. eauto.
  - destruct Ha as [Ha Hrest]. inversion_clear Hw as [|? ? Hw1 Hw2]. kstep.
    eapply wp_mono; [by apply (exec_hv_ok P op tr w F σ)|]. cbn beta. intros [e F'] w' ([σ' Hi'] & Hdo & Hst). cbn [fst snd] in *.
    by apply (IH _ _ _ σ'); [|apply Hrest|..].
Qed.

(** *** The host's signals *)

(** A signal or rescind of a channel of [dev]. *)
Definition from_host w (dev : Z) (op : hv_op) : bool :=
  match op with
  | HvSignal ch | HvRescind ch => bool_decide (ch_device_obj <$> hs_chan (w_drv w) !! ch = Some dev)
  | _ => false
  end.
Fixpoint host_signals w (dev : Z) (ops : list hv_op) : Z :=
  match ops with
  | [] => 0
  | op :: ops' => (if from_host w dev op then 1 else 0) + host_signals w dev ops'
  end.

Lemma host_signals_step w w' dev ops : hv_step w w' -> host_signals w' dev ops = host_signals w dev ops.
Proof.
  intros Hs. induction ops as [|op ops IH]; [done|]. cbn [host_signals]. rewrite IH. f_equal.
  destruct op; cbn [from_host]; rewrite ?(hs_chans _ _ Hs); done.
Qed.

(** Only registration makes a new device. *)
Lemma exec_no_new op F w o F' w' p : user_op op = true -> exec op F w = Some ((o, F'), w') -> o <> ONew p.
Proof.
  intros Hu Hr. destruct op; try discriminate Hu; cbn [exec] in Hr;
    repeat match goal with H : (_ ≫= _) _ = Some _ |- _ => apply bind_inv in H as (? & ? & ? & H) end;
    unfold gets, mret, K_ret in *; repeat (case_match || simplify_eq); done.
Qed.

Lemma events_mono q op o tr : (forall p, o <> ONew p) -> events q tr <= events q ((op, o) :: tr).
Proof. intros Ho. destruct o; cbn [events]; try lia; [case_match; lia|by destruct (Ho p)]. Qed.

Lemma exec_hv_events q dev p i op tr w F e F' w' :
  hv_admissible op w F -> drvdata_of (w_hist w) !! dev = Some p -> w_info w !! p = Some i -> i_uio_dev i = q ->
  exec_hv op F w = Some ((e, F'), w') ->
  (if from_host w dev op then 1 else 0) + events q tr <= events q (e ++ tr).
Proof.
  intros Ha Hd Hi Hq E.
  assert (Hsig : forall ch, (if bool_decide (ch_device_obj <$> hs_chan (w_drv w) !! ch = Some dev) then 1 else 0) + events q tr
                   <= events q (signalled ch w ++ tr)).
  { intros ch. unfold signalled. case_bool_decide as Hc.
    - destruct (hs_chan (w_drv w) !! ch) as [c|]; [|done]. injection Hc as Hc. cbn [mbind option_bind]. rewrite Hc, Hd.
      cbn [mbind option_bind]. rewrite Hi. cbn [mbind option_bind app events]. rewrite Hq, Z.eqb_refl. lia.
    - destruct (_ ≫= _) as [e'|] eqn:Hm; [|cbn; lia]. apply bind_Some in Hm as (c & _ & Hm). apply bind_Some in Hm as (p' & _ & Hm).
      apply bind_Some in Hm as (i' & _ & [= <-]). by apply events_mono. }
  destruct op as [op|ch|ch|ch|ch v]; cbn [exec_hv from_host] in *; apply bind_inv in E as (x & w2 & E1 & E).
  - destruct x as [o F2]. injection E as <- _ _. apply events_mono. intros p'. exact (exec_no_new op F w o F2 w2 p' (proj1 Ha) E1).
  - injection E1 as <- <-. apply bind_inv in E as (F2 & w2 & _ & E). injection E as <- _ _. apply Hsig.
  - injection E1 as <- <-. apply bind_inv in E as (F2 & w2 & _ & E). injection E as <- _ _. apply Hsig.
  - injection E as <- _ _. cbn. lia.
  - injection E as <- _ _. cbn. lia.
Qed.

(** ** No signal is lost *)

(** What the trace of a run says about the files that are open on device [q]. *)
Definition files_counted (q : Z) (tr : list (uop * obs)) F w : Prop :=
  forall f, f ∈ F -> dev_of w f = Some q ->
    file_on f tr = Some q /\ dev_event_count w f = Some (s32 (events q tr)) /\
    event_pending w f = negb (unread f q tr mod 2 ^ 32 =? 0).

Lemma run_hv_signals w0 w1 F1 σ1 dev d p pd i ops : bound w0 w1 F1 σ1 dev d p pd i ->
  forall tr F w σ tF w', core_inv w F σ -> hv_step w1 w -> hv_admissible_run ops F w ->
  run_hv_trace ops tr F w = Some (tF, w') -> host_signals w1 dev ops + events (i_uio_dev i) tr <= events (i_uio_dev i) tF.1.
Proof.
  intros Hb. induction ops as [|op ops IH]; intros tr F w σ tF w' Hi Hs Ha Hr; cbn [run_hv_trace host_signals] in *.
  { injection Hr as <- <-. cbn. lia. }
  destruct Ha as [Ha Hrest]. apply bind_inv in Hr as ([e F2] & w2 & E & Hr). cbn [fst snd] in Hr.
  pose proof (exec_hv_do op F w) as Hdo. rewrite E in Hdo.
  destruct (do_hv_op_ok op w F σ Hi Ha) as (F3 & w3 & Hrun & σ2 & Hi2). rewrite Hdo in Hrun. injection Hrun as <- <-.
  pose proof (stp_hv_op op F w F2 w2 Ha Hdo) as Hs2.
  pose proof (IH (e ++ tr) F2 w2 σ2 tF w' Hi2 (transitivity Hs Hs2) (Hrest _ _ Hdo) Hr) as Hle.
  destruct (bound_kept w0 w1 w F1 F σ1 σ dev d p pd i Hb Hs Hi) as (σ' & pd' & i' & Hb' & _ & Hu).
  pose proof (exec_hv_events (i_uio_dev i) dev p i' op tr w F e F2 w2 Ha (bd_data _ _ _ _ _ _ _ _ _ Hb')
    (bd_info _ _ _ _ _ _ _ _ _ Hb') Hu E) as He.
  pose proof (host_signals_step w1 w dev [op] Hs) as Hop. cbn [host_signals] in Hop. lia.
Qed.

Lemma run_hv_counted w0 w F σ dev dv p pd i d ops :
  bound w0 w F σ dev dv p pd i -> w_heap w !! i_uio_dev i = Some (HIdev d) -> d_event d = 0 -> opens w F (i_uio_dev i) = 0%nat ->
  hv_admissible_run ops F w -> Forall hv_reads_word ops ->
  wp (run_hv_trace ops [] F) w (fun tF w' => run_hv_ops ops F w = Some (tF.2, w') /\
    words_ok (eq (i_uio_dev i)) tF.1 /\ files_counted (i_uio_dev i) tF.1 tF.2 w' /\
    host_signals w dev ops <= events (i_uio_dev i) tF.1).
Proof.
  intros Hb Hd He Ho Ha Hw. set (q := i_uio_dev i) in *. pose proof (bd_inv _ _ _ _ _ _ _ _ _ Hb) as Hi.
  assert (Hc : counted (eq q) [] (abs w F)) by by apply (counted_fresh _ w F σ q d).
  destruct (run_hv_trace_ok (eq q) ops [] F w σ Hi Ha Hw Hc) as ([tr F'] & w' & Hr & [σ' Hi'] & Hc').
  exists (tr, F'), w'. split; [exact Hr|]. cbn [fst snd] in *. split_and!.
  - by rewrite (run_hv_trace_ops ops []), Hr.
  - apply Hc'.
  - intros f Hf Hdev. by apply (counted_file (eq q) tr w' F' σ' f q).
  - pose proof (run_hv_signals _ _ _ _ _ _ _ _ _ ops Hb [] F w σ (tr, F') w' Hi ltac:(reflexivity) Ha Hr) as Hle.
    cbn [events fst] in Hle. fold q in Hle. lia.
Qed.
End steps.
