(* ===== verification/Scenario.v ===== *)
(** * A concrete system

    The sample kernel, the constants of a 64-bit Linux, one VMBus device, and the
    states after the driver's probe and after a file was opened on the device:
    the inputs the theorems are tried on. *)

From S2P Require Import Prelude Kernel UioTypes UioAttr UioDevice UioFile UioMmap HypervVmbus HvUio KLogic UioInv UioSpec UioOpen UioAttrSpec UioReg UioSystem HvSpec HvProbe HvProbeSpec.

(** What the sample kernel stores through output pointers. *)
Definition sample_out (h : hist) (c : kcall) : list Z :=
  match c with
  | VmbusConnectRing _ | VmbusOpen _ _ _ => [0]
  | VmbusEstablishGpadl _ _ _ => [7; 0]
  | VmbusAllocRing _ _ _ => [8192; 1024]
  | AllocChrdevRegion base _ => [251658240 + base]
  | CopyFromUser _ => [1]
  | _ => []
  end.

#[export] Instance sample : Kernel := Sample.sample_kernel Sample.no_fault sample_out.
#[export] Instance sample_ok : KernelOk := Sample.sample_kernel_ok _ _ Sample.no_fault_ok.

#[export] Instance linux : Uapi := {|
  PAGE_SHIFT := 12; MINORBITS := 20; MAX_UIO_MAPS := 5; MAX_UIO_PORT_REGIONS := 5; UIO_PORT_OTHER := 3;
  UIO_IRQ_CUSTOM := -1; fmt_pa a := "0x" +:+ fmt_x a;
  vma_pages v := Z.shiftr (u64 (vm_end v - vm_start v)) 12 |}.
#[export] Instance linux_ok : UapiOk.
Proof. by split. Qed.

(** Two CPUs per node; device type 7 is a performance device. *)
#[export] Instance hv_api : HvApi := {|
  vmbus_devs id := VmbusDevice (id =? 7) 0; cpu_to_node c := c / 2;
  HV_HYP_PAGE_SIZE := 4096; HV_EVENT_FLAGS_COUNT := 2048; HV_CALL_ISR := 1; THIS_MODULE := 5 |}.
#[export] Instance hv_api_ok : HvApiOk.
Proof. by split. Qed.

#[export] Instance sample_hv_ok : HvKernelOk.
Proof.
  split.
  - intros h c _. by exists 0, [].
  - intros h c s r _. by exists 0, [].
  - intros h c b n. exists 7, 0, []. by split_and!.
Qed.

(** ** One device, 500, with channel 600; the VMBus core allocated the device. *)

Definition chan0 : vmbus_channel := VmbusChannel 500 0 false None CHANNEL_OPENED_STATE 0 0 7 3 [].
Definition conn0 : vmbus_connection := VmbusConnection CONNECTED 65536 0 0 (69632, 73728) [600].
Definition hv0 : hv_state := HvState ∅ {[ 500 := HvDevice 600 ]} {[ 600 := chan0 ]} conn0 ∅.
Definition w0 : world hv_state :=
  World ∅ ∅ ∅ (UioGlobals 240 77 true) hv0 [Ev (Kzalloc OHvPdata) 500 []].

Lemma inv0 : core_inv w0 ∅ ∅.
Proof.
  split; try done; intros p; cbn; try (intros d; by rewrite lookup_empty).
Qed.

Lemma pre0 : probe_pre w0 ∅ ∅ 500 (HvDevice 600).
Proof.
  split; [exact inv0|done|by eexists|done| |done|done].
  intros p [[x Hx]|[x Hx]]; cbn in Hx; by rewrite lookup_empty in Hx.
Qed.

(** The state after a computation. *)
Definition after {D A} (m : K D A) (w : world D) : world D := match m w with Some (_, w') => w' | None => w end.

(** After probe; the private data is at 501. *)
Definition w1 : world hv_state := after (hv_uio_probe 500) w0.
Lemma run1 : hv_uio_probe 500 w0 = Some (0, w1).
Proof. vm_compute. reflexivity. Qed.

(** After probe, [502] is the device node. *)
Definition p1 : Z := 501.
Definition idev1 : Z := 502.

Lemma inv1 : core_inv w1 ∅ {[ p1 := 0%nat ]}.
Proof.
  pose proof (wp_run _ _ _ _ _ (wp_hv_uio_probe w0 ∅ ∅ 500 (HvDevice 600) pre0) run1) as [H _].
  destruct (H eq_refl) as (c & phys & x & y & _ & Hp). exact (pb_inv _ _ _ _ _ _ _ _ Hp).
Qed.

(** After [open] of its minor number, 1: the file is 9. *)
Definition w2 : world hv_state := after (uio_open 1 8 9) w1.
Lemma run2 : uio_open 1 8 9 w1 = Some (0, w2).
Proof. vm_compute. reflexivity. Qed.

Lemma few_opens w p : (opens (D:=hv_state) w ∅ p <= max_opens)%nat.
Proof. pose proof (size_opens w ∅ p) as H. rewrite size_empty in H. lia. Qed.

Lemma not_open_1 : (9 : Z) ∉ (∅ : gset Z).
Proof. set_solver. Qed.

Lemma inv2 : exists σ, core_inv w2 ({[ 9 ]} ∪ ∅) σ.
Proof.
  pose proof (wp_run _ _ _ _ _ (wp_uio_open w1 ∅ _ 1 8 9 inv1 not_open_1 (few_opens w1)) run2) as [H _].
  destruct (H eq_refl) as (p & σ' & _ & Hi & _). by exists σ'.
Qed.

Lemma open_9 : (9 : Z) ∈ ({[ 9 ]} ∪ ∅ : gset Z).
Proof. set_solver. Qed.

(** ** The core before the registration

    No device, and the info the driver fills in before it registers. *)

Definition i1 : uio_info := default (hv_info [] 0) (w_info w1 !! p1).
Definition wr : world hv_state := initial_world (w_glob w1) {[ p1 := upd_uio_dev 0 i1 ]} (w_drv w1).

Lemma inv_r : core_inv wr ∅ ∅.
Proof. apply initial_inv. intros p n H. by rewrite lookup_empty in H. Qed.

Lemma info_r : w_info wr !! p1 = Some (upd_uio_dev 0 i1).
Proof. apply lookup_insert_eq. Qed.

Lemma shape_r : info_shape (upd_uio_dev 0 i1).
Proof. vm_compute. split; reflexivity. Qed.

Lemma unregistered_r : unregistered wr p1.
Proof. intros m p d H. vm_compute in H. by destruct m. Qed.

Lemma ready_r : hv_ok wr p1 0.
Proof.
  assert (H : exists pd dev c, hs_pdata (w_drv wr) !! p1 = Some pd /\ hs_dev (w_drv wr) !! pd_device pd = Some dev /\
    hs_chan (w_drv wr) !! hd_channel dev = Some c /\ pd_refcnt pd = 0).
  { do 3 eexists. vm_compute. by repeat split. }
  destruct H as (pd & dev & c & H1 & H2 & H3 & H4).
  exists UIO_IRQ_CUSTOM, 0, pd, dev, c.
  split; [rewrite info_r; vm_compute; reflexivity|]. split; [by right|].
  split; [exact H1|]. split; [exact H2|]. split; [exact H3|]. split; [exact H4|]. split; [lia|by intros []].
Qed.
