(* ===== verification/VmbusSpec.v ===== *)
(** * CPU bookkeeping of [hyperv_vmbus.h]

    [hv_numa_map] records, per NUMA node, the CPUs that a performance channel
    or one of its sub-channels targets.  The abstract contents of the map is
    [allocated]; the functions of the header keep the map equal to it. *)

From S2P Require Import Prelude Kernel HypervVmbus.

Section cpus.
Context `{HvApi}.
Implicit Types (chans : gmap Z vmbus_channel) (vc : vmbus_connection) (m : numa_map).

(** [s] is a channel that targets [cpu]. *)
Definition targets chans (s cpu : Z) : Prop :=
  exists c, chans !! s = Some c /\ ch_target_cpu c = cpu.

(** A performance channel or one of its sub-channels targets [cpu]. *)
Definition allocated chans (chns : list Z) (cpu : Z) : Prop :=
  exists a c, a ∈ chns /\ chans !! a = Some c /\ hv_is_perf_channel c = true /\
    (ch_target_cpu c = cpu \/ exists s, s ∈ ch_sc_list c /\ targets chans s cpu).

(** Every address on the lists is a channel. *)
Definition lists_ok chans (chns : list Z) : Prop :=
  forall a, a ∈ chns -> exists c, chans !! a = Some c /\
    forall s, s ∈ ch_sc_list c -> is_Some (chans !! s).

(** The map holds exactly the allocated CPUs, each under its node. *)
Definition numa_exact chans (chns : list Z) m : Prop :=
  forall node cpu, cpu ∈ node_cpus m node <-> node = cpu_to_node cpu /\ allocated chans chns cpu.

Lemma sc_on_cpu_spec chans scs cpu :
  (forall s, s ∈ scs -> is_Some (chans !! s)) ->
  exists b, sc_on_cpu chans scs cpu = Some b /\ (b = true <-> exists s, s ∈ scs /\ targets chans s cpu).
Proof.
  induction scs as [|s scs IH]; intros Hs; simpl.
  - exists false. split; [done|]. split; [done|]. intros (s & []%not_elem_of_nil & _).
  - destruct (Hs s) as [c Hc]; [by left|]. rewrite Hc. simpl.
    destruct IH as (b & -> & Hb). { intros s' Hs'. apply Hs. by right. }
    destruct (Z.eqb_spec (ch_target_cpu c) cpu) as [He|He].
    + exists true. split; [done|]. split; [|done]. intros _. exists s. split; [by left|by exists c].
    + exists b. split; [done|]. rewrite Hb. split.
      * intros (s' & ? & ?). exists s'. split; [by right|done].
      * intros (s' & [->|?]%elem_of_cons & Ht); [|by exists s']. destruct Ht as (c' & ? & ?). congruence.
Qed.

Lemma chn_on_cpu_spec chans chns cpu :
  lists_ok chans chns ->
  exists b, chn_on_cpu chans chns cpu = Some b /\ (b = true <-> allocated chans chns cpu).
Proof.
  induction chns as [|a chns IH]; intros Hok; simpl.
  { exists false. split; [done|]. split; [done|]. intros (a & c & []%not_elem_of_nil & _). }
  destruct (Hok a) as (c & Hc & Hsc); [by left|]. rewrite Hc. simpl.
  destruct IH as (b & -> & Hb). { intros a' Ha'. apply Hok. by right. }
  assert (Hmore : allocated chans (a :: chns) cpu <->
    (hv_is_perf_channel c = true /\ (ch_target_cpu c = cpu \/ exists s, s ∈ ch_sc_list c /\ targets chans s cpu))
    \/ allocated chans chns cpu).
  { split.
    - intros (a' & c' & [->|Ha]%elem_of_cons & E & Hr); [left; by replace c with c' by congruence|].
      right. by exists a', c'.
    - intros [Hr|(a' & c' & Ha & Hr)]; [exists a, c; by split; [left|]|].
      exists a', c'. by split; [right|]. }
  destruct (hv_is_perf_channel c); cbn [negb].
  2: { exists b. split; [done|]. rewrite Hmore, Hb. split; [by right|]. by intros [[? _]|?]. }
  destruct (Z.eqb_spec (ch_target_cpu c) cpu) as [He|He].
  { exists true. split; [done|]. split; [|done]. intros _. apply Hmore. left. auto. }
  destruct (sc_on_cpu_spec chans (ch_sc_list c) cpu Hsc) as (bs & -> & Hbs). simpl.
  destruct bs.
  - exists true. split; [done|]. split; [|done]. intros _. apply Hmore. left. split; [done|]. right. by apply Hbs.
  - exists b. split; [done|]. rewrite Hmore, Hb. split; [by right|].
    intros [[_ [?|Hs]]|?]; [done| |done]. by apply Hbs in Hs.
Qed.

Lemma node_cpus_insert m n n' X :
  node_cpus (<[n := X]> m) n' = if decide (n = n') then X else node_cpus m n'.
Proof.
  unfold node_cpus. case_decide as E; [rewrite E, lookup_insert_eq|rewrite lookup_insert_ne]; done.
Qed.

Lemma elem_hv_set m cpu node c :
  c ∈ node_cpus (hv_set_allocated_cpu cpu m) node <->
  c ∈ node_cpus m node \/ (c = cpu /\ node = cpu_to_node cpu).
Proof.
  unfold hv_set_allocated_cpu. rewrite node_cpus_insert. case_decide as E.
  - rewrite <- E, elem_of_union, elem_of_singleton. naive_solver.
  - split; [auto|]. intros [?|[_ ?]]; [done|congruence].
Qed.

(** The effect of a move on the allocated set. *)
Definition moved chans chans' (chns : list Z) (old new : Z) : Prop :=
  (forall cpu, cpu <> old -> cpu <> new -> allocated chans' chns cpu <-> allocated chans chns cpu) /\
  allocated chans chns old /\ allocated chans' chns new.

Lemma hv_update_moved chans chans' vc m old new :
  lists_ok chans' (vc_chn_list vc) -> moved chans chans' (vc_chn_list vc) old new ->
  numa_exact chans (vc_chn_list vc) m ->
  exists m', hv_update_allocated_cpus chans' vc old new m = Some m' /\ numa_exact chans' (vc_chn_list vc) m'.
Proof.
  intros Hok (Hm & Hold & Hnew) Hex.
  unfold hv_update_allocated_cpus, hv_clear_allocated_cpu, hv_is_allocated_cpu.
  destruct (chn_on_cpu_spec chans' (vc_chn_list vc) old Hok) as (b & -> & Hb). cbn [mbind option_bind].
  assert (Hset : forall node cpu, cpu <> old ->
    cpu ∈ node_cpus (hv_set_allocated_cpu new m) node <->
    node = cpu_to_node cpu /\ allocated chans' (vc_chn_list vc) cpu).
  { intros node cpu Ho. rewrite elem_hv_set, (Hex node cpu). destruct (decide (cpu = new)) as [->|Hn].
    - split; [intros [[? _]|[_ ?]]; auto|]. intros [? _]. auto.
    - rewrite (Hm cpu Ho Hn). split; [intros [?|[? _]]; [done|congruence]|auto]. }
  destruct b; eexists; (split; [reflexivity|]); intros node cpu.
  - destruct (decide (cpu = old)) as [->|Ho]; [|by apply Hset].
    rewrite elem_hv_set, (Hex node old). pose proof (proj1 Hb eq_refl). naive_solver.
  - assert (Hno : ~ allocated chans' (vc_chn_list vc) old) by (rewrite <- Hb; done).
    rewrite node_cpus_insert. destruct (decide (cpu = old)) as [->|Ho].
    + case_decide as E; [rewrite elem_of_difference, elem_of_singleton; tauto|].
      rewrite elem_hv_set, (Hex node old). naive_solver.
    + rewrite <- (Hset node cpu Ho). case_decide as E; [|done].
      rewrite <- E, elem_of_difference, elem_of_singleton. tauto.
Qed.

(** Channel [s], on the list or below a performance channel of the list, is
    given the new CPU. *)
Definition in_use chans (chns : list Z) (s : Z) : Prop :=
  exists a c, a ∈ chns /\ chans !! a = Some c /\ hv_is_perf_channel c = true /\
    (s = a \/ s ∈ ch_sc_list c).

Lemma retarget_lookup chans s c new a c' :
  chans !! s = Some c -> <[s := set_ch_target_cpu new c]> chans !! a = Some c' ->
  exists c0, chans !! a = Some c0 /\ ch_device_id c' = ch_device_id c0 /\ ch_sc_list c' = ch_sc_list c0 /\
    ch_target_cpu c' = (if decide (a = s) then new else ch_target_cpu c0).
Proof.
  intros Hs. case_decide as E; [subst a; rewrite lookup_insert_eq|rewrite lookup_insert_ne by done].
  - intros [= <-]. exists c. auto.
  - intros Ha. exists c'. auto.
Qed.

Lemma retarget_fwd chans s c new a c0 :
  chans !! s = Some c -> chans !! a = Some c0 ->
  exists c', <[s := set_ch_target_cpu new c]> chans !! a = Some c' /\
    ch_device_id c' = ch_device_id c0 /\ ch_sc_list c' = ch_sc_list c0 /\
    ch_target_cpu c' = (if decide (a = s) then new else ch_target_cpu c0).
Proof.
  intros Hs Ha. case_decide as E; [subst a; rewrite lookup_insert_eq|rewrite lookup_insert_ne by done].
  - exists (set_ch_target_cpu new c). assert (c0 = c) as -> by congruence. auto.
  - exists c0. auto.
Qed.

Lemma perf_same c c0 : ch_device_id c = ch_device_id c0 -> hv_is_perf_channel c = hv_is_perf_channel c0.
Proof. unfold hv_is_perf_channel. by intros ->. Qed.

Lemma retarget_moved chans chns s c new :
  chans !! s = Some c -> in_use chans chns s ->
  moved chans (<[s := set_ch_target_cpu new c]> chans) chns (ch_target_cpu c) new.
Proof.
  intros Hs (a & ca & Ha & Hca & Hperf & Hin). split_and!.
  - intros cpu Ho Hn. split; intros (b & cb & Hb & Hcb & Hp & Ht).
    + destruct (retarget_lookup _ _ _ _ _ _ Hs Hcb) as (c0 & E1 & E2 & E3 & E4).
      exists b, c0. rewrite <- (perf_same _ _ E2). split_and!; [done..|].
      destruct Ht as [Ht|(x & Hx & cx & Ecx & Tx)].
      * case_decide; [congruence|]. left. congruence.
      * destruct (retarget_lookup _ _ _ _ _ _ Hs Ecx) as (x0 & F1 & F2 & F3 & F4).
        case_decide; [congruence|]. right. exists x. rewrite <- E3. split; [done|]. exists x0. split; congruence.
    + destruct (retarget_fwd _ _ _ new _ _ Hs Hcb) as (c0 & E1 & E2 & E3 & E4).
      exists b, c0. rewrite (perf_same _ _ E2). split_and!; [done..|].
      destruct Ht as [Ht|(x & Hx & cx & Ecx & Tx)].
      * case_decide; [congruence|]. left. congruence.
      * destruct (retarget_fwd _ _ _ new _ _ Hs Ecx) as (x0 & F1 & F2 & F3 & F4).
        case_decide; [congruence|]. right. exists x. rewrite E3. split; [done|]. exists x0. split; congruence.
  - exists a, ca. split_and!; [done..|]. destruct Hin as [<-|Hin]; [left; congruence|].
    right. exists s. split; [done|]. by exists c.
  - destruct (retarget_fwd _ _ _ new _ _ Hs Hca) as (c0 & E1 & E2 & E3 & E4).
    exists a, c0. rewrite (perf_same _ _ E2). split_and!; [done..|].
    destruct Hin as [<-|Hin]; [left; by rewrite decide_True in E4|].
    right. exists s. rewrite E3. split; [done|]. exists (set_ch_target_cpu new c).
    by rewrite lookup_insert_eq.
Qed.

Lemma retarget_lists_ok chans chns s c new :
  chans !! s = Some c -> lists_ok chans chns -> lists_ok (<[s := set_ch_target_cpu new c]> chans) chns.
Proof.
  intros Hs Hok a Ha. destruct (Hok a Ha) as (c0 & Hc0 & Hsc).
  destruct (retarget_fwd _ _ _ new _ _ Hs Hc0) as (c' & E1 & _ & E3 & _).
  exists c'. split; [done|]. intros x. rewrite E3. intros Hx. destruct (Hsc x Hx) as [cx Hcx].
  destruct (retarget_fwd _ _ _ new _ _ Hs Hcx) as (x' & ? & _). eauto.
Qed.
End cpus.
