(* ===== verification/VmbusProps.v ===== *)
(** * Properties of [hyperv_vmbus.h] *)

From S2P Require Import Prelude Kernel HypervVmbus VmbusSpec.

(** C31. When the map of allocated CPUs is exact and a performance channel (or a
    sub-channel of one) is moved from its CPU to another,
    [hv_update_allocated_cpus] walks the lists without a fault and leaves a map
    that is exact again: the new CPU is in, the old one is out unless another
    channel still targets it. *)
Theorem hv_update_allocated_cpus_exact `{HvApi} chans vc m s c new_cpu :
  lists_ok chans (vc_chn_list vc) -> chans !! s = Some c -> in_use chans (vc_chn_list vc) s ->
  numa_exact chans (vc_chn_list vc) m ->
  exists m', hv_update_allocated_cpus (<[s := set_ch_target_cpu new_cpu c]> chans) vc (ch_target_cpu c) new_cpu m = Some m' /\
    numa_exact (<[s := set_ch_target_cpu new_cpu c]> chans) (vc_chn_list vc) m'.
Proof.
  intros Hok Hs Huse Hex. apply (hv_update_moved chans); [by apply retarget_lists_ok| |done].
  by apply retarget_moved.
Qed.

(** [vmbus_send_interrupt] sets the bit of one channel in the half page of 16384 send
    bits and leaves every other bit and field; the relation IDs of all channels, up to
    the larger of the two limits, fit the half page. *)
Theorem vmbus_send_interrupt_bit `{HvApi, !HvApiOk} relid vc j :
  0 <= relid < MAX_NUM_CHANNELS -> 0 <= vc_send_int_page vc < 2 ^ MAX_NUM_CHANNELS -> 0 <= j ->
  let vc' := vmbus_send_interrupt relid vc in
  Z.testbit (vc_send_int_page vc') j = (j =? relid) || Z.testbit (vc_send_int_page vc) j /\
  0 <= vc_send_int_page vc' < 2 ^ MAX_NUM_CHANNELS /\
  vc_int_page vc' = vc_int_page vc /\ vc_recv_int_page vc' = vc_recv_int_page vc /\ vc_chn_list vc' = vc_chn_list vc /\
  MAX_NUM_CHANNELS = 16384 /\ MAX_NUM_CHANNELS_SUPPORTED mod 32 = 0 /\ MAX_CHANNEL_RELIDS <= MAX_NUM_CHANNELS.
Proof.
  intros Hr Hp Hj vc'. assert (Hmax : MAX_NUM_CHANNELS = 16384) by (unfold MAX_NUM_CHANNELS; by rewrite hyp_page_size_ok).
  assert (Hids : MAX_CHANNEL_RELIDS = 2048) by (unfold MAX_CHANNEL_RELIDS; by rewrite event_flags_ok).
  split; [|split; [|by rewrite Hids, Hmax]].
  - unfold vc'. cbn. rewrite Z.setbit_eqb by lia. by rewrite Z.eqb_sym.
  - unfold vc'. cbn [vmbus_send_interrupt vc_send_int_page]. rewrite Z.setbit_spec'. split.
    + apply Z.lor_nonneg. split; [lia|]. apply Z.pow_nonneg. lia.
    + assert (Hlor : Z.lor (vc_send_int_page vc) (2 ^ relid) = Z.lor (vc_send_int_page vc) (2 ^ relid) mod 2 ^ MAX_NUM_CHANNELS).
      { apply Z.bits_inj'. intros i Hi. destruct (decide (i < MAX_NUM_CHANNELS)).
        - by rewrite Z.mod_pow2_bits_low.
        - rewrite Z.mod_pow2_bits_high by lia. rewrite Z.lor_spec, Z.pow2_bits_eqb by lia.
          rewrite <- (Z.mod_small _ _ Hp), Z.mod_pow2_bits_high by lia. cbn. apply Z.eqb_neq. lia. }
      rewrite Hlor. apply Z.mod_pos_bound, Z.pow_pos_nonneg; lia.
Qed.

Module Witness.
(** One performance channel on CPU 3 of node 1 (two CPUs per node). *)
Definition api : HvApi := {|
  vmbus_devs _ := VmbusDevice true 0; cpu_to_node c := c / 2;
  HV_HYP_PAGE_SIZE := 4096; HV_EVENT_FLAGS_COUNT := 2048; HV_CALL_ISR := 1; THIS_MODULE := 5 |}.
Definition chan : vmbus_channel := VmbusChannel 7 0 false None CHANNEL_OPENED_STATE 0 0 0 3 [].
Definition chans : gmap Z vmbus_channel := {[ 1 := chan ]}.
Definition conn : vmbus_connection := VmbusConnection CONNECTED 0 0 0 (0, 0) [1].
Definition cpus : numa_map := {[ 1 := {[3]} ]}.

Lemma lists : @lists_ok chans [1].
Proof. intros a ->%list_elem_of_singleton. exists chan. split; [done|]. intros s []%not_elem_of_nil. Qed.

Lemma allocated_3 cpu : @allocated api chans [1] cpu <-> cpu = 3.
Proof.
  split.
  - intros (a & c & ->%list_elem_of_singleton & Hc & _ & Ht). injection Hc as <-.
    destruct Ht as [Ht|(s & []%not_elem_of_nil & _)]. by cbn in Ht.
  - intros ->. exists 1, chan. split_and!; [by left|done|done|by left].
Qed.

Lemma exact : @numa_exact api chans [1] cpus.
Proof.
  intros node cpu. rewrite allocated_3. unfold node_cpus, cpus.
  destruct (decide (node = 1)) as [->|Hn].
  - rewrite lookup_singleton_eq. cbn. rewrite elem_of_singleton. split; [by intros ->|by intros [_ ->]].
  - rewrite lookup_singleton_ne by done. cbn. split; [set_solver|]. by intros [-> ->].
Qed.

Lemma hv_update_allocated_cpus_witness :
  exists m', hv_update_allocated_cpus (H := api) (<[1 := set_ch_target_cpu 0 chan]> chans) conn 3 0 cpus = Some m' /\
    @numa_exact api (<[1 := set_ch_target_cpu 0 chan]> chans) [1] m'.
Proof.
  exact (@hv_update_allocated_cpus_exact api chans conn cpus 1 chan 0 lists eq_refl
    (ex_intro _ 1 (ex_intro _ chan (conj (list_elem_of_here _ _) (conj eq_refl (conj eq_refl (or_introl eq_refl)))))) exact).
Defined.

Lemma api_ok : @HvApiOk api.
Proof. by split. Qed.

Example vmbus_send_interrupt_witness : Z.testbit (vc_send_int_page (vmbus_send_interrupt 5 conn)) 5 = true.
Proof.
  destruct (@vmbus_send_interrupt_bit api api_ok 5 conn 5) as [H _].
  - split; [lia|reflexivity].
  - split; [reflexivity|vm_compute; reflexivity].
  - lia.
  - exact H.
Defined.
End Witness.
