(* ===== verification/UioProps.v ===== *)
(** * Properties of the file operations and of the UIO core as a system *)

From S2P Require Import Prelude Kernel UioTypes UioAttr UioDevice UioFile UioMmap HypervVmbus HvUio KLogic UioInv UioSpec UioRead UioOpen UioAttrSpec UioReg UioSystem ModuleSpec UioEvents UioAbstract HvSpec HvCallbacks HvProbe HvProbeSpec Scenario.

Section props.
Context `{HK : Kernel, HU : Uapi} {D : Type} `{HD : !UioDriver D, HDok : !UioDriverOk D}.
Implicit Types (w : world D) (F : gset Z) (σ : gmap Z nat).

(** C1. A UIO core that starts without devices and runs any sequence of its
    operations, each admissible where it starts, never faults, whatever the
    kernel answers.  At the end no lock is held, every module has one reference
    per open file of its devices, every device has one reference per open file
    and one while it is registered, and every open file leads to a device that
    still exists. *)
Theorem uio_system_safe `{!KernelOk, !UapiOk} g infos (s : D) ops :
  drv_inv ∅ (initial_world g infos s) -> admissible_run ops ∅ (initial_world g infos s) ->
  exists F w, run_ops ops ∅ (initial_world g infos s) = Some (F, w) /\
    (forall l, lock_depth l (w_hist w) = 0) /\
    (forall m, mod_refs m (w_hist w) = Z.of_nat (owner_opens w F m)) /\
    (forall p d, w_heap w !! p = Some (HIdev d) ->
       dev_refs p (w_hist w) = reg_count w p d + Z.of_nat (opens w F p)) /\
    (forall f, f ∈ F -> exists p d, dev_of w f = Some p /\ w_heap w !! p = Some (HIdev d)).
Proof.
  intros Hd Ha. destruct (run_ops_ok ops ∅ _ ∅ (initial_inv g infos s Hd) Ha) as (F & w & Hrun & σ & Hi).
  exists F, w. split_and!; [done|apply Hi|apply Hi|apply Hi|].
  intros f Hf. destruct (open_file _ _ _ _ Hi Hf) as (l & lst & d & _ & _ & H1 & H2 & _). eauto.
Qed.

(** C3. Loading the core either fails and holds nothing, or registers its device numbers,
    its character device and its class; then, after any sequence of admissible
    operations, the allocated slab addresses are exactly those of the objects in the
    heap, and once all of them are released unloading gives everything back: no
    memory, minor number, device number, character device, class, lock or reference
    is left. *)
Theorem uio_module_lifecycle `{!KernelOk, !UapiOk, !ChrdevOk, !UioDriverFrame D} g infos (s : D) :
  g_uio_class_registered g = false -> drv_inv ∅ (initial_world g infos s) ->
  wp uio_init (initial_world g infos s) (fun r w1 =>
    (r <> 0 -> module_gone w1 /\ forall p, p <> 0 -> cdev_refs p (w_hist w1) = 0) /\
    (r = 0 -> g_uio_class_registered (w_glob w1) = true /\
      forall ops, admissible_run ops ∅ w1 ->
      wp (run_ops ops ∅) w1 (fun F w2 => live (w_hist w2) = dom (w_heap w2) /\
        (w_heap w2 = ∅ -> wp uio_exit w2 (fun _ w3 => F = ∅ /\ module_gone w3))))).
Proof. intros Hg Hd. by apply module_session, initial_unloaded. Qed.

(** C8. [uio_open] on a registered minor number either succeeds, and then the
    file refers to the device the number stands for and has no event pending, or
    fails, and then every object, every allocation and every reference is as it
    was before. *)
Theorem uio_open_all_or_nothing `{!KernelOk} w F σ minor inode f :
  core_inv w F σ -> f ∉ F -> (forall p, (opens w F p <= max_opens)%nat) ->
  wp (uio_open minor inode f) w (fun r w' =>
    (r = 0 -> opened w f minor F w') /\ (r <> 0 -> not_opened w F σ w')).
Proof. apply wp_uio_open. Qed.

(** C15. [uio_release] frees the listener of the file and gives back one device
    reference and one module reference; all other files, devices and infos are
    untouched. *)
Theorem uio_release_balanced w F σ inode f :
  core_inv w F σ -> f ∈ F ->
  wp (uio_release inode f) w (fun _ w' => UioOpen.released w f F w' /\
    forall m, mod_refs m (w_hist w') = Z.of_nat (owner_opens w' (F ∖ {[f]}) m)).
Proof.
  intros Hi Hf. eapply wp_mono; [by apply (wp_uio_release w F σ)|]. cbn beta. intros _ w' H. split; [exact H|].
  destruct H as (l & p & _ & _ & _ & _ & (σ' & Hi') & _). apply Hi'.
Qed.

(** One direction of an agreement of concrete answers. *)
Ltac agree_tac :=
  let H := fresh in
  intros H; first [ done | by vm_compute | by intros [= ?]; lia | by eauto 10 | by destruct H
    | exfalso; injection H as H; lia | exfalso; destruct H as [[= H]|[= H]]; lia | exfalso; by apply H ].

(** C16. [poll] and a non-blocking [read] agree: poll reports nothing exactly when read
    would block, and reports a readable file exactly when read finds an event, which
    it delivers unless [copy_to_user] fails.  On a device that is gone read fails with
    [-EIO] and poll returns the same error converted to a mask, in which [EPOLLIN] is
    set as well; so [EPOLLIN] says that read does not block, not that it succeeds. *)
Theorem uio_poll_read_agree w F σ f count :
  core_inv w F σ -> f ∈ F -> 0 < count ->
  exists r w1 x w2, uio_poll f w = Some (r, w1) /\ read_pass f count true w = Some (x, w2) /\
    (r = u32 (- EIO) <-> x = ReadBreak (- EIO)) /\
    (r = Z.lor EPOLLIN EPOLLRDNORM <-> x = ReadBreak count \/ x = ReadBreak (- EFAULT)) /\
    (x = ReadBreak (- EFAULT) -> exists e n o h, w_hist w2 = Ev (CopyToUser e count) n o :: h /\ n <> 0) /\
    (r = 0 <-> x = ReadBreak (- EAGAIN)) /\
    (Z.land r EPOLLIN <> 0 <-> x <> ReadBreak (- EAGAIN)).
Proof.
  intros Hi Hf Hc. destruct (wp_uio_poll w F σ f Hi Hf) as (r & w1 & Hr & _ & Hpoll).
  destruct (open_file_full _ _ _ _ Hi Hf) as (l & lst & d & Hp & Hl & _).
  assert (Hread : wp (read_pass f count true) w (fun x w2 => read_step_post w f count true x w2)).
  { unfold read_pass. ksteps. eapply wp_mono; [by apply (wp_read_iter w F σ f)|]. cbn beta. tauto. }
  destruct Hread as (x & w2 & Hx & Hs). exists r, w1, x, w2. split; [exact Hr|]. split; [exact Hx|].
  clear Hx Hr. unfold read_step_post in Hs. unfold EIO, EFAULT, EAGAIN, EPOLLIN, EPOLLRDNORM in *. subst r.
  destruct (file_gone w f); [|destruct (event_pending w f)].
  - destruct Hs as [-> _]. repeat split; agree_tac.
  - destruct Hs as [(e & o & h & _ & _ & -> & _)|(-> & _ & e & n & o & h & _ & Hh & Hn)]; repeat split; agree_tac.
  - destruct Hs as [[->|[? _]] _]; [|done]. repeat split; agree_tac.
Qed.

(** C10. A blocking or non-blocking [read] on an open file ends: if what the rest
    of the system does while the reader sleeps brings an event nearer, enough
    passes of the loop return a documented value; the invariant holds again and
    the reader has left the wait queue it had entered. *)
Theorem uio_read_returns F f others rank fuel count nb w σ :
  f ∈ F -> wakes F f others rank -> core_inv w F σ -> (fuel > S (rank w))%nat ->
  wp (uio_read others fuel f count nb) w (fun r w' =>
    (count <> sizeof_s32 -> r = Some (- EINVAL) /\ w' = w) /\
    (count = sizeof_s32 -> exists v, r = Some v /\ read_result count v) /\
    (exists σ', core_inv w' F σ') /\ (forall p, waitq_len p (w_hist w') = waitq_len p (w_hist w))).
Proof. apply wp_uio_read. Qed.

(** C18. A successful [mmap] of an open file maps memory of the device the file is
    open on: a region that exists, no more pages than the region covers, and every
    page-frame or coherent mapping starts at the region's first byte and is no
    longer than the region; an area that ends before it starts is refused. *)
Theorem uio_mmap_inside_region `{!UapiOk} w F σ f v :
  core_inv w F σ -> f ∈ F -> 0 <= vm_pgoff v ->
  wp (uio_mmap f v) w (fun r w' => core_inv w' F σ /\
    (vm_end v < vm_start v -> r = (- EINVAL, v) /\ w' = w) /\
    (fst r = 0 -> exists p, dev_of w f = Some p /\ mmap_ok w p v r w')).
Proof. apply wp_uio_mmap. Qed.

(** The offset of a page fault inside the mapped pages. *)
Lemma fault_offset `{!UapiOk} m v pgoff :
  vm_pgoff v <= pgoff < vm_pgoff v + Z.shiftr (vm_len v) PAGE_SHIFT ->
  Z.shiftr (vm_len v) PAGE_SHIFT <= region_pages m ->
  let o := Z.shiftl (pgoff - vm_pgoff v) PAGE_SHIFT in
  0 <= o < region_pages m * PAGE_SIZE /\ fault_addr m v pgoff = u64 (m_addr m + o).
Proof.
  intros Hin Hpages. cbn zeta.
  assert (Hps := page_shift_ok). assert (Hsz : 0 < 2 ^ PAGE_SHIFT) by (apply Z.pow_pos_nonneg; lia).
  unfold PAGE_SIZE, fault_addr. rewrite !Z.shiftl_mul_pow2 by lia. split; [nia|]. rewrite (u64_id (_ * _)); [done|].
  pose proof (u64_range (vm_end v - vm_start v)) as Hl. fold (vm_len v) in Hl.
  rewrite Z.shiftr_div_pow2 in Hin by lia. pose proof (Z_div_mod_eq_full (vm_len v) (2 ^ PAGE_SHIFT)).
  pose proof (Z.mod_pos_bound (vm_len v) _ Hsz). nia.
Qed.

(** C19. A page fault at page [pgoff] of a mapping that [mmap] accepted is answered with
    the page of the region that is as far from its start as [pgoff] is from the start
    of the mapping, and that offset is below the number of bytes of the pages the
    region touches; once the device is unregistered every fault ends in a bus error. *)
Theorem uio_fault_inside_region `{!UapiOk} w F σ f v pgoff p d :
  core_inv w F σ -> f ∈ F -> dev_of w f = Some p -> vm_private_data v = p ->
  w_heap w !! p = Some (HIdev d) -> 0 <= vm_pgoff v <= pgoff ->
  wp (uio_vma_fault v pgoff) w (fun r w' => core_inv w' F σ /\
    (d_info d = 0 -> r = (VM_FAULT_SIGBUS, None)) /\
    (forall i k m, d_info d <> 0 -> w_info w !! d_info d = Some i -> mem_index i v = Some (k, m) ->
       Z.shiftr (vm_len v) PAGE_SHIFT <= region_pages m -> pgoff < vm_pgoff v + Z.shiftr (vm_len v) PAGE_SHIFT ->
       let o := Z.shiftl (pgoff - vm_pgoff v) PAGE_SHIFT in
       let c := fault_call m (u64 (m_addr m + o)) in
       let page := kernel (w_hist (logged (MutexLock (InfoLock p)) w)) c in
       0 <= o < region_pages m * PAGE_SIZE /\ r = (0, Some page) /\
       map ev_call (w_hist w') = [MutexUnlock (InfoLock p); GetPage page; c; MutexLock (InfoLock p)] ++ map ev_call (w_hist w))).
Proof.
  intros Hi Hf Hdev Hv Hd Hpg. destruct (open_file _ _ _ _ Hi Hf) as (l & lst & d' & _ & _ & Hd' & Hdev' & Hr).
  assert (l_dev lst = p) as E by congruence. rewrite E in Hd', Hr. assert (d' = d) as -> by congruence.
  eapply wp_mono; [by apply (wp_uio_vma_fault w F σ v pgoff p d); [..|lia]|]. cbn beta.
  intros r w' [Hi' Hpost]. split; [done|]. split.
  - intros Hz. by rewrite Hz in Hpost.
  - intros i k m Hnz Hinfo Hm Hpages Hin. apply Z.eqb_neq in Hnz. rewrite Hnz, Hinfo in Hpost. cbn [mbind option_bind] in Hpost.
    rewrite Hm in Hpost. destruct (fault_offset m v pgoff) as [Ho Ha]; [lia..|]. cbn zeta. rewrite <- Ha. by split.
Qed.

(** C12. [__uio_register_device] either registers the info, with a device that is
    new, owns an unused minor number below [UIO_MAX_DEVICES], is in the device model
    once and has its interrupt and its sysfs directories, or fails, and then no
    minor, device entry, interrupt or kobject reference is left over, at
    whichever of its steps it failed. *)
Theorem uio_register_all_or_nothing `{!KernelOk} w F σ owner parent info i :
  core_inv w F σ -> w_info w !! info = Some i -> info_shape i -> unregistered w info -> drv_ready info w ->
  wp (__uio_register_device owner parent info) w (fun r w' =>
    (r = 0 -> exists p d, register_done w F σ owner parent info i p d w') /\
    (r <> 0 -> register_failed w F σ w')).
Proof. apply wp_uio_register_device. Qed.

(** C7. Registering an info and unregistering it again leaves, whatever the kernel
    answers, every count as it was: the minor numbers, the devices of the device
    model, the interrupt lines and the kobject references; and the locks are free. *)
Theorem uio_register_unregister `{!KernelOk} w F σ owner parent info i :
  core_inv w F σ -> info <> 0 -> w_info w !! info = Some i -> info_shape i -> unregistered w info -> drv_ready info w ->
  σ !! info = None ->
  wp (r ← __uio_register_device owner parent info;
      if r =? 0 then uio_unregister_device info;; mret r else mret r) w (fun _ w' =>
    core_inv w' F σ /\ idr_of (w_hist w') = idr_of (w_hist w) /\
    (forall q, dev_added q (w_hist w') = dev_added q (w_hist w)) /\
    (forall q, irq_held q (w_hist w') = irq_held q (w_hist w)) /\
    (forall q, q <> 0 -> kobj_refs q (w_hist w') = kobj_refs q (w_hist w)) /\
    (forall l, lock_depth l (w_hist w') = 0)).
Proof.
  intros Hi Hnz Hinfo Hs Hun Hready Hσ. kstep. eapply wp_mono; [by apply (wp_uio_register_device w F σ _ _ _ i)|].
  cbn beta. intros r w1 [Hok Hbad]. destruct (Z.eqb_spec r 0) as [Hr|Hr].
  2: { kstep. destruct (Hbad Hr) as [Hi1 H2 H3 H4 H5 _]. split_and!; try done. apply Hi1. }
  destruct (Hok Hr) as (p & d & [Hi1 Hnew Hd Hreg Hf (i' & Hi' & Hp' & Hw) [Hm1 Hm2] Ha Hq Hk]).
  assert (Hpz : p <> 0) by (destruct (ci_live _ _ _ Hi1 _ _ Hd); lia).
  kstep. eapply wp_mono.
  { apply (wp_uio_unregister_device w1 F _ info i' Hi1 Hnz Hi'). right. exists d. rewrite Hp'. split_and!; [done|done|apply Hf]. }
  cbn beta. intros [] w2 [_ Hu]. destruct (Hu ltac:(by rewrite Hp')) as (d' & Hd' & Hpost). clear Hu.
  rewrite Hp', Hd in Hd'. injection Hd' as <-. rewrite Hp' in Hpost.
  destruct Hpost as [Hi2 _ _ _ Hidr _ Ha2 Hq2 Hk2]. kstep. split_and!.
  - by rewrite delete_insert_id in Hi2.
  - by rewrite Hidr, Hm2, delete_insert_id.
  - intros q. rewrite Ha2, Ha. lia.
  - intros q. rewrite Hq2, Hq, Hw. lia.
  - intros q Hqz. destruct (Hk q Hqz) as (i2 & Hi2' & Hk'). rewrite Hi' in Hi2'. injection Hi2' as <-.
    rewrite Hk2, Hk' by done. lia.
  - apply Hi2.
Qed.

(** C20. After [uio_unregister_device] the device is still there for the files that
    are open on it, and for each of them [read] returns [-EIO] without sleeping and [poll]
    the same error, converted to a mask; the device keeps exactly one reference per open file. *)
Theorem uio_unregister_hangs_up w F σ info i f count nb p :
  core_inv w F σ -> info <> 0 -> w_info w !! info = Some i -> may_unregister w info i -> i_uio_dev i = p -> p <> 0 ->
  f ∈ F -> dev_of w f = Some p ->
  wp (uio_unregister_device info) w (fun _ w' =>
    (exists d, w_heap w !! p = Some (HIdev d) /\ unregistered_post w F σ info i p d w') /\
    wp (uio_poll f) w' (fun r _ => r = u32 (- EIO)) /\ wp (read_pass f count nb) w' (fun x _ => x = ReadBreak (- EIO))).
Proof.
  intros Hi Hnz Hinfo Hm <- Hp Hf Hdev. eapply wp_mono; [by apply (wp_uio_unregister_device w F σ info i)|].
  cbn beta. intros _ w' [_ Hu]. destruct (Hu Hp) as (d & Hd & Hpost). split; [by exists d|].
  pose proof (up_inv _ _ _ _ _ _ _ _ Hpost) as Hi'.
  destruct (open_file _ _ _ _ Hi' Hf) as (l & lst & d' & Hpriv & Hl & Hd' & Hdev' & _).
  destruct (open_file _ _ _ _ Hi Hf) as (l0 & lst0 & d0 & Hpriv0 & Hl0 & _ & Hdev0 & _).
  rewrite (up_priv _ _ _ _ _ _ _ _ Hpost), Hpriv0 in Hpriv. injection Hpriv as <-.
  assert (Hgone : dev_of w' f = Some (i_uio_dev i) /\ file_gone w' f = true).
  { pose proof (up_heap _ _ _ _ _ _ _ _ Hpost) as Hh.
    assert (El : l0 <> i_uio_dev i) by congruence. rewrite Hh, lookup_insert_ne in Hl by done. rewrite Hl0 in Hl.
    injection Hl as <-. rewrite Hdev0 in Hdev. injection Hdev as E. rewrite E in Hdev'. split; [done|].
    unfold file_gone, idev_gone. rewrite Hdev', Hh, lookup_insert_eq. done. }
  split.
  - eapply wp_mono; [by apply (wp_uio_poll w' F (delete info σ) f)|]. cbn beta. intros r w2 [_ ->]. by rewrite (proj2 Hgone).
  - unfold read_pass. rewrite <- (up_priv _ _ _ _ _ _ _ _ Hpost) in Hpriv0. ksteps.
    eapply wp_mono; [by apply (wp_read_iter w' F (delete info σ) f)|]. cbn beta. intros x w2 (_ & _ & _ & _ & _ & Hpx).
    unfold read_step_post in Hpx. rewrite (proj2 Hgone) in Hpx. apply Hpx.
Qed.

(** ** Events *)

Fixpoint notify_times (n : nat) (info : Z) : K D unit :=
  match n with O => mret tt | S n => uio_event_notify info;; notify_times n info end.

Lemma wp_notify_times F σ info i p n : forall w d,
  core_inv w F σ -> w_info w !! info = Some i -> i_uio_dev i = p -> w_heap w !! p = Some (HIdev d) ->
  wp (notify_times n info) w (fun _ w' => core_inv w' F σ /\ w_priv w' = w_priv w /\
    w_heap w' = <[p := HIdev (upd_event (fun e => Nat.iter n atomic_inc e) d)]> (w_heap w)).
Proof.
  induction n as [|n IH]; intros w d Hi Hinfo Hp Hd; cbn [notify_times].
  - kstep. split_and!; [done|done|]. cbn [Nat.iter nat_rect]. symmetry. apply insert_id. rewrite Hd. by destruct d.
  - kstep. eapply wp_mono; [by apply (wp_uio_event_notify w F σ info i p d)|]. cbn beta.
    intros _ w1 (Hi1 & _ & Einfo & Epriv & Eh & _).
    eapply wp_mono; [apply (IH w1 (upd_event atomic_inc d)); [done|by rewrite Einfo|done|rewrite Eh; apply lookup_insert_eq]|].
    cbn beta. intros _ w2 (Hi2 & Epriv2 & Eh2). split_and!; [done|congruence|].
    rewrite Eh2, Eh, insert_insert_eq. f_equal. unfold upd_event. cbn. by rewrite Nat.iter_swap.
Qed.

Lemma iter_atomic_inc n e : s32 e = e -> Nat.iter n atomic_inc e = s32 (e + Z.of_nat n).
Proof.
  intros He. induction n as [|n IH]; [by rewrite Z.add_0_r|]. rewrite Nat.iter_succ, IH. unfold atomic_inc.
  rewrite s32_add_l. f_equal. lia.
Qed.

(** C2. The UIO core implements the event service of [UioEvents]: whatever sequence of
    admissible operations runs from a core without devices, and whatever the kernel
    answers, the answers of the operations are a run of the service from the empty state
    to the state [abs] reads off the core's memory.  Memory, references, locks, the
    kernel's answers and the driver below do not show. *)
Theorem uio_core_refines `{!KernelOk, !UapiOk, !UioDriverFrame D} g infos (s : D) ops :
  drv_inv ∅ (initial_world g infos s) -> admissible_run ops ∅ (initial_world g infos s) -> Forall reads_word ops ->
  exists tr F w, run_trace ops [] ∅ (initial_world g infos s) = Some ((tr, F), w) /\
    run_ops ops ∅ (initial_world g infos s) = Some (F, w) /\ tr.*1 = rev ops /\
    a_empty (abs (initial_world g infos s) ∅) /\ arun (abs (initial_world g infos s) ∅) tr (abs w F).
Proof.
  intros Hd Ha Hw. destruct (run_from_empty g infos s ops Hd Ha Hw) as (tr & F & w & σ & Hr & _ & Hrun).
  exists tr, F, w. split_and!; [exact Hr|by rewrite (run_trace_ops ops []), Hr| |apply abs_initial|exact Hrun].
  by rewrite (run_trace_fst _ _ _ _ _ _ _ Hr), app_nil_r.
Qed.

(** C5. No event is lost or made up.  In any such sequence every word a reader is given
    is the number of events of its device since it was registered, modulo [2 ^ 32], and
    is given only if some of them were unread; at the end every open file is on the
    device it was opened on, whose counter is the number of its events, and is readable
    exactly when the number of events since it was opened or last given a word is not a
    multiple of [2 ^ 32]. *)
Theorem uio_events_counted `{!KernelOk, !UapiOk, !UioDriverFrame D} g infos (s : D) ops :
  drv_inv ∅ (initial_world g infos s) -> admissible_run ops ∅ (initial_world g infos s) -> Forall reads_word ops ->
  exists tr F w, run_trace ops [] ∅ (initial_world g infos s) = Some ((tr, F), w) /\ words_ok everywhere tr /\
    forall f, f ∈ F -> exists p, file_on f tr = Some p /\ dev_of w f = Some p /\
      dev_event_count w f = Some (s32 (events p tr)) /\
      event_pending w f = negb (unread f p tr mod 2 ^ 32 =? 0).
Proof.
  intros Hd Ha Hw. destruct (run_from_empty g infos s ops Hd Ha Hw) as (tr & F & w & σ & Hr & Hi & Hrun).
  pose proof (arun_counted everywhere _ _ _ (abs_initial g infos s) Hrun) as Hc.
  exists tr, F, w. split_and!; [exact Hr|apply Hc|]. intros f Hf.
  destruct (open_file _ _ _ _ Hi Hf) as (l & lst & d & _ & _ & _ & Hdev & _).
  destruct (counted_file everywhere tr w F σ f _ Hi Hc I Hf Hdev) as (H1 & H2 & H3). by exists (l_dev lst).
Qed.

(** After [n] notifications a file that had seen all events of its device is
    readable, unless [n] is a multiple of [2 ^ 32], where the 32-bit counter has
    come round and the events are lost. *)
Theorem uio_notify_pending F σ w f info i p d n :
  core_inv w F σ -> f ∈ F -> dev_of w f = Some p -> w_info w !! info = Some i -> i_uio_dev i = p ->
  w_heap w !! p = Some (HIdev d) -> s32 (d_event d) = d_event d -> event_pending w f = false ->
  wp (notify_times n info) w (fun _ w' => core_inv w' F σ /\
    event_pending w' f = negb (Z.of_nat n mod 2 ^ 32 =? 0)).
Proof.
  intros Hi Hf Hdev Hinfo Hp Hd Hs Hpend. destruct (open_file _ _ _ _ Hi Hf) as (l & lst & d' & Hpriv & Hl & _ & Hdev' & _).
  rewrite (event_pending_eq w f p d l lst) in Hpend by done. apply negb_false_iff, Z.eqb_eq in Hpend.
  eapply wp_mono; [by apply (wp_notify_times F σ info i p n w d)|]. cbn beta. intros _ w' (Hi' & Epriv & Eh).
  split; [done|]. assert (Hlp : l <> p) by congruence.
  rewrite (event_pending_eq w' f p (upd_event (fun e => Nat.iter n atomic_inc e) d) l lst).
  - f_equal. unfold upd_event. cbn [d_event]. rewrite iter_atomic_inc, Hpend by done. apply eq_true_iff_eq.
    rewrite !Z.eqb_eq. rewrite <- Hs at 1. rewrite (comm eq (s32 _)), s32_eq_iff.
    by replace (d_event d + Z.of_nat n - d_event d) with (Z.of_nat n) by lia.
  - assert (l_dev lst = p) as <- by congruence. apply (dev_of_some _ _ l); [by rewrite Epriv|].
    by rewrite Eh, lookup_insert_ne.
  - rewrite Eh. apply lookup_insert_eq.
  - by rewrite Epriv.
  - by rewrite Eh, lookup_insert_ne.
Qed.
End props.

(** ** The properties at concrete states *)

Module Witness.

Definition session : list uop := [OpRegister 5 500 p1; OpOpen 1 8 9; OpNotify p1; OpPoll 9; OpRelease 8 9; OpUnregister p1].

Ltac next_op := let F := fresh in let w := fresh in let H := fresh in
  intros F w H; vm_compute in H; injection H as <- <-; cbn [admissible_run]; split.

Lemma session_admissible : admissible_run (D:=hv_state) session ∅ wr.
Proof.
  cbn [session admissible_run]. split.
  { split_and!; [apply unregistered_r|apply ready_r|]. exists (upd_uio_dev 0 i1). split; [apply info_r|apply shape_r]. }
  intros F w H. vm_compute in H. injection H as <- <-. split.
  { split; [by apply (bool_decide_unpack _); vm_compute|]. apply (Nat.le_trans _ 0); [|lia]. apply Nat.eq_le_incl. reflexivity. }
  intros F w H. vm_compute in H. injection H as <- <-. split.
  { do 2 eexists. split; vm_compute; reflexivity. }
  intros F w H. vm_compute in H. injection H as <- <-. split.
  { change (9 ∈ ({[9]} ∪ ∅ : gset Z)). set_solver. }
  intros F w H. vm_compute in H. injection H as <- <-. split.
  { change (9 ∈ ({[9]} ∪ ∅ : gset Z)). set_solver. }
  intros F w H. vm_compute in H. injection H as <- <-. split; [|intros F w _; exact I].
  split; [done|]. eexists. split; [vm_compute; reflexivity|]. right. eexists. split_and!; vm_compute; reflexivity.
Qed.

Example uio_system_safe_witness :
  exists F w, run_ops (D:=hv_state) session ∅ wr = Some (F, w) /\ lock_depth MinorLock (w_hist w) = 0 /\
    forall f, f ∈ F -> exists p d, dev_of w f = Some p /\ w_heap w !! p = Some (HIdev d).
Proof.
  destruct (uio_system_safe (w_glob w1) {[ p1 := upd_uio_dev 0 i1 ]} (w_drv w1) session) as (F & w & H & Hl & _ & _ & Hf).
  - exact (ci_drv _ _ _ inv_r).
  - apply session_admissible.
  - exists F, w. split; [exact H|]. split; [apply Hl|exact Hf].
Defined.

(** The core from load to unload: the device is at 1, its map directories at 2 to 6. *)
Definition wu : world hv_state := initial_world (UioGlobals 0 0 false) {[ p1 := upd_uio_dev 0 i1 ]} (w_drv w1).
Definition wl : world hv_state := after uio_init wu.
Definition teardown : list uop := [OpDeviceRelease 1; OpMapRelease 2; OpMapRelease 3; OpMapRelease 4; OpMapRelease 5; OpMapRelease 6].

Lemma ready_l : hv_ok wl p1 0.
Proof.
  assert (E1 : w_info wl = w_info wr) by (vm_compute; reflexivity).
  assert (E2 : w_drv wl = w_drv wr) by (vm_compute; reflexivity).
  apply (hv_ok_frame wr); rewrite ?E1, ?E2; [done|done|done|by eauto|apply ready_r].
Qed.

Lemma teardown_admissible : admissible_run (D:=hv_state) (session ++ teardown) ∅ wl.
Proof.
  cbn [session teardown app admissible_run]. split.
  { split_and!; [intros m p d H; vm_compute in H; by destruct m|apply ready_l|].
    exists (upd_uio_dev 0 i1). split; [vm_compute; reflexivity|apply shape_r]. }
  next_op.
  { split; [by apply (bool_decide_unpack _); vm_compute|]. apply (Nat.le_trans _ 0); [|lia]. apply Nat.eq_le_incl. reflexivity. }
  next_op. { do 2 eexists. split; vm_compute; reflexivity. }
  next_op. { change (9 ∈ ({[9]} ∪ ∅ : gset Z)). set_solver. }
  next_op. { change (9 ∈ ({[9]} ∪ ∅ : gset Z)). set_solver. }
  next_op. { split; [done|]. eexists. split; [vm_compute; reflexivity|]. right. eexists. split_and!; vm_compute; reflexivity. }
  next_op. { split; [vm_compute; reflexivity|]. eexists. vm_compute. reflexivity. }
  do 5 (next_op; [eexists; vm_compute; reflexivity|]).
  intros F w _. exact I.
Qed.

#[local] Instance sample_chrdev : ChrdevOk.
Proof.
  split. intros h base count Hb _. eexists _, _. split; [reflexivity|].
  change MINORBITS with 20 in *. rewrite Z.land_ones by lia.
  change 251658240 with (240 * 2 ^ 20). rewrite Z.add_comm, Z.mod_add by lia. by apply Z.mod_small.
Qed.

Lemma heap_e F w : run_ops (D:=hv_state) (session ++ teardown) ∅ wl = Some (F, w) -> w_heap w = ∅.
Proof. intros H. vm_compute in H. injection H as _ <-. reflexivity. Qed.

Example uio_module_lifecycle_witness :
  exists F w2 w3, uio_init wu = Some (0, wl) /\ run_ops (D:=hv_state) (session ++ teardown) ∅ wl = Some (F, w2) /\
    uio_exit w2 = Some (tt, w3) /\ module_gone w3.
Proof.
  destruct (uio_module_lifecycle (UioGlobals 0 0 false) {[ p1 := upd_uio_dev 0 i1 ]} (w_drv w1)) as (r & w1' & H & _ & Hok).
  - reflexivity.
  - intros p n H. by rewrite lookup_empty in H.
  - assert (E : uio_init wu = Some (0, wl)) by (vm_compute; reflexivity).
    unfold wu in E. rewrite E in H. injection H as <- <-.
    destruct (Hok eq_refl) as [_ Hs]. destruct (Hs _ teardown_admissible) as (F & w2' & Hr & _ & He).
    destruct (He (heap_e _ _ Hr)) as ([] & w3 & Hx & _ & Hg).
    exists F, w2', w3. split; [exact E|]. split; [exact Hr|]. split; [exact Hx|exact Hg].
Defined.

(** Two events, one of them read. *)
Definition reading : list uop := [OpRegister 5 500 p1; OpOpen 1 8 9; OpNotify p1; OpReadPass 9 4 true; OpNotify p1].

Lemma reading_admissible : admissible_run (D:=hv_state) reading ∅ wr.
Proof.
  cbn [reading admissible_run]. split.
  { split_and!; [apply unregistered_r|apply ready_r|]. exists (upd_uio_dev 0 i1). split; [apply info_r|apply shape_r]. }
  next_op. { split; [by apply (bool_decide_unpack _); vm_compute|]. apply (Nat.le_trans _ 0); [|lia]. apply Nat.eq_le_incl. reflexivity. }
  next_op. { do 2 eexists. split; vm_compute; reflexivity. }
  next_op. { change (9 ∈ ({[9]} ∪ ∅ : gset Z)). set_solver. }
  next_op. { do 2 eexists. split; vm_compute; reflexivity. }
  intros F w _. exact I.
Qed.

Lemma reading_words : Forall reads_word reading.
Proof. by repeat constructor. Qed.

Example uio_core_refines_witness :
  exists tr F w, run_trace (D:=hv_state) reading [] ∅ wr = Some ((tr, F), w) /\ arun (abs wr ∅) tr (abs w F).
Proof.
  destruct (uio_core_refines (w_glob w1) {[ p1 := upd_uio_dev 0 i1 ]} (w_drv w1) reading) as (tr & F & w & H & _ & _ & _ & Hr).
  - exact (ci_drv _ _ _ inv_r).
  - apply reading_admissible.
  - apply reading_words.
  - exists tr, F, w. split; [exact H|exact Hr].
Defined.

(** The trace of these operations: the word read is 1, and one event is unread. *)
Lemma reading_trace tr F w : run_trace (D:=hv_state) reading [] ∅ wr = Some ((tr, F), w) ->
  9 ∈ F /\ tr.*2 = [OEvent 1; OWord (Some 1); OEvent 1; OOn 1; ONew 1] /\ unread 9 1 tr = 1 /\ file_on 9 tr = Some 1.
Proof.
  intros H. vm_compute in H. injection H as <- <- _. split; [change (9 ∈ ({[9]} ∪ ∅ : gset Z)); set_solver|]. by split_and!.
Qed.

Example uio_events_counted_witness :
  exists tr F w, run_trace (D:=hv_state) reading [] ∅ wr = Some ((tr, F), w) /\
    tr.*2 = [OEvent 1; OWord (Some 1); OEvent 1; OOn 1; ONew 1] /\ words_ok everywhere tr /\ event_pending w 9 = true.
Proof.
  destruct (uio_events_counted (w_glob w1) {[ p1 := upd_uio_dev 0 i1 ]} (w_drv w1) reading) as (tr & F & w & H & Hw & Hf).
  - exact (ci_drv _ _ _ inv_r).
  - apply reading_admissible.
  - apply reading_words.
  - destruct (reading_trace _ _ _ H) as (H9 & Ht & Hu & Ho). destruct (Hf 9 H9) as (p & Hp & _ & _ & Hpend).
    rewrite Ho in Hp. injection Hp as <-. rewrite Hu in Hpend.
    exists tr, F, w. split; [exact H|]. split; [exact Ht|]. split; [exact Hw|exact Hpend].
Defined.

Example uio_open_all_or_nothing_witness :
  exists r w', uio_open 1 8 9 w1 = Some (r, w') /\ (r = 0 -> opened w1 9 1 ∅ w').
Proof.
  destruct (uio_open_all_or_nothing w1 ∅ _ 1 8 9 inv1 not_open_1 (few_opens w1)) as (r & w' & H & Hok & _).
  exists r, w'. split; [exact H|exact Hok].
Defined.

Example uio_release_balanced_witness :
  exists r w', uio_release 8 9 w2 = Some (r, w') /\ UioOpen.released w2 9 ({[9]} ∪ ∅) w'.
Proof.
  destruct inv2 as [σ Hi]. destruct (uio_release_balanced w2 _ σ 8 9 Hi open_9) as (r & w' & H & Hr & _).
  exists r, w'. split; [exact H|exact Hr].
Defined.

Example uio_poll_read_agree_witness :
  exists r w', uio_poll 9 w2 = Some (r, w') /\ (r = 0 <-> exists w'', read_pass 9 4 true w2 = Some (ReadBreak (- EAGAIN), w'')).
Proof.
  destruct inv2 as [σ Hi].
  destruct (uio_poll_read_agree w2 _ σ 9 4 Hi open_9 ltac:(lia)) as (r & w' & x & w'' & H1 & H2 & _ & _ & _ & H3 & _).
  exists r, w'. split; [exact H1|]. rewrite H3. split.
  - intros ->. exists w''. exact H2.
  - intros [w3 H4]. rewrite H2 in H4. by injection H4.
Defined.

(** One event while the reader sleeps. *)
Definition event_arrives (w : world hv_state) : world hv_state :=
  match dev_of w 9 with
  | Some p => match w_heap w !! p with
              | Some (HIdev d) => set_heap (insert p (HIdev (upd_event atomic_inc d))) w
              | _ => w
              end
  | None => w
  end.

Lemma event_arrives_cases w : event_arrives w = w /\ (forall p d, dev_of w 9 = Some p -> w_heap w !! p <> Some (HIdev d)) \/
  exists p d, dev_of w 9 = Some p /\ w_heap w !! p = Some (HIdev d) /\
    event_arrives w = set_heap (insert p (HIdev (upd_event atomic_inc d))) w.
Proof.
  unfold event_arrives. destruct (dev_of w 9) as [p|]; [|by left].
  destruct (w_heap w !! p) as [[d|l|m|q]|] eqn:E; try (left; split; [done|]; intros p' d' [= <-]; congruence).
  right. eauto.
Qed.

Lemma event_wakes : wakes ({[9]} ∪ ∅) 9 event_arrives (fun _ => 0%nat).
Proof.
  split.
  - intros w σ Hi. exists σ. destruct (event_arrives_cases w) as [[-> _]|(p & d & _ & Hd & ->)]; [done|].
    apply (inv_quiet_drv w); [done|quiet_tac|by wsimpl_goal].
  - intros w. destruct (event_arrives_cases w) as [[-> _]|(p & d & _ & Hd & ->)]; by wsimpl_goal.
  - intros w l lst Hp Hl. destruct (event_arrives_cases w) as [[-> _]|(p & d & _ & Hd & ->)]; [by exists lst|].
    exists lst. wsimpl_goal. rewrite lookup_insert_ne by congruence. done.
  - intros w p. destruct (event_arrives_cases w) as [[-> _]|(q & d & _ & Hd & ->)]; by wsimpl_goal.
  - intros w Hr. left. unfold readable in *. apply orb_false_iff in Hr as [Hg Hp]. apply orb_true_iff. right.
    destruct (event_arrives_cases w) as [[_ Hno]|(p & d & Hdev & Hd & ->)].
    { unfold file_gone, idev_gone in Hg. destruct (dev_of w 9) as [p|] eqn:E; [|done].
      destruct (w_heap w !! p) as [[d|l|m|q]|] eqn:Eh; try done. by destruct (Hno p d eq_refl). }
    unfold event_pending in *. apply bool_decide_eq_false in Hp. apply dec_stable in Hp. apply bool_decide_eq_true.
    rewrite (dev_event_count_eq w 9 p d) in Hp by done.
    assert (Hlsn : exists l lst, w_priv w !! 9 = Some l /\ w_heap w !! l = Some (HLsn lst) /\ l_dev lst = p).
    { unfold dev_of in Hdev. destruct (w_priv w !! 9) as [l|]; [|done]. cbn in Hdev.
      destruct (w_heap w !! l) as [[|lst| |]|] eqn:El; try done. cbn in Hdev. injection Hdev as E. eauto. }
    destruct Hlsn as (l & lst & Hpriv & Hl & Hdl). assert (Hlp : l <> p) by congruence.
    assert (Hdev' : dev_of (set_heap (insert p (HIdev (upd_event atomic_inc d))) w) 9 = Some p).
    { rewrite <- Hdl. apply (dev_of_some _ _ l); wsimpl_goal; [done|]. by rewrite lookup_insert_ne by congruence. }
    rewrite (dev_event_count_eq _ 9 p (upd_event atomic_inc d)); [|done|wsimpl_goal; apply lookup_insert_eq].
    unfold seen_event_count in *. wsimpl_goal. rewrite Hpriv in *. cbn [mbind option_bind] in *.
    rewrite lookup_insert_ne by done. rewrite <- Hp. intros [= E]. by apply atomic_inc_neq in E.
  - done.
Qed.

Example uio_read_returns_witness :
  exists r w', uio_read event_arrives 2 9 4 false w2 = Some (r, w') /\ exists v, r = Some v /\ read_result 4 v.
Proof.
  destruct inv2 as [σ Hi].
  destruct (uio_read_returns _ 9 event_arrives (fun _ => 0%nat) 2 4 false w2 σ open_9 event_wakes Hi ltac:(cbn beta; lia)) as (r & w' & H & _ & Hr & _).
  exists r, w'. split; [exact H|]. apply Hr. reflexivity.
Defined.

Example uio_mmap_inside_region_witness :
  exists r w', uio_mmap 9 (Vma 1 4096 8192 1 0 VmOpsNone 0) w2 = Some (r, w') /\
    (fst r = 0 -> exists p, dev_of w2 9 = Some p /\ mmap_ok w2 p (Vma 1 4096 8192 1 0 VmOpsNone 0) r w').
Proof.
  destruct inv2 as [σ Hi].
  destruct (uio_mmap_inside_region w2 _ σ 9 (Vma 1 4096 8192 1 0 VmOpsNone 0) Hi open_9) as (r & w' & H & _ & _ & Hr); [cbn; lia|].
  exists r, w'. split; [exact H|exact Hr].
Defined.

Definition d2 : uio_device := UioDevice 5 501 1 0 1000503 0 251658241 500.
Lemma idev_2 : w_heap w2 !! idev1 = Some (HIdev d2).
Proof. vm_compute. reflexivity. Qed.
Lemma dev_of_9 : dev_of w2 9 = Some idev1.
Proof. vm_compute. reflexivity. Qed.

(** The second page of a mapping of the receive buffer, the region at index 3. *)
Definition recv_vma : vma := Vma 1 8192 16384 3 idev1 uio_logical_vm_ops 0.
Definition recv_region : uio_mem := default zero_mem (i_mem i1 !! 3%nat).
Lemma recv_index : mem_index i1 recv_vma = Some (3%nat, recv_region).
Proof. vm_compute. reflexivity. Qed.
Lemma recv_mapped : Z.shiftr (vm_len recv_vma) PAGE_SHIFT <= region_pages recv_region /\ 4 < 3 + Z.shiftr (vm_len recv_vma) PAGE_SHIFT.
Proof. apply (bool_decide_unpack _). vm_compute. exact I. Qed.
Lemma info_of_2 : d_info d2 <> 0 /\ w_info w2 !! d_info d2 = Some i1.
Proof. split; [done|vm_compute; reflexivity]. Qed.
Lemma recv_call : fault_call recv_region (u64 (m_addr recv_region + Z.shiftl (4 - 3) PAGE_SHIFT)) = VmallocToPage (m_addr recv_region + 4096).
Proof. vm_compute. reflexivity. Qed.

Example uio_fault_inside_region_witness : exists w',
  uio_vma_fault recv_vma 4 w2 = Some ((0, Some (kernel (w_hist (logged (MutexLock (InfoLock idev1)) w2))
    (VmallocToPage (m_addr recv_region + 4096)))), w').
Proof.
  destruct inv2 as [σ Hi]. destruct info_of_2 as [Hn Hinfo]. destruct recv_mapped as [Hlen Hin].
  destruct (uio_fault_inside_region w2 _ σ 9 recv_vma 4 idev1 d2 Hi open_9 dev_of_9 eq_refl idev_2) as (r & w' & H & _ & _ & Hr).
  - cbn. lia.
  - destruct (Hr i1 3%nat recv_region Hn Hinfo recv_index Hlen Hin) as (_ & E & _). exists w'.
    rewrite <- recv_call, H, E. reflexivity.
Defined.

Example uio_register_all_or_nothing_witness :
  exists r w', __uio_register_device (D:=hv_state) 5 500 p1 wr = Some (r, w') /\ (r <> 0 -> register_failed wr ∅ ∅ w').
Proof.
  destruct (uio_register_all_or_nothing wr ∅ ∅ 5 500 p1 _ inv_r info_r shape_r unregistered_r ready_r) as (r & w' & H & _ & Hr).
  exists r, w'. split; [exact H|exact Hr].
Defined.

Example uio_register_unregister_witness :
  exists w', (r ← __uio_register_device (D:=hv_state) 5 500 p1; if r =? 0 then uio_unregister_device p1;; mret r else mret r) wr
    = Some (0, w') /\ idr_of (w_hist w') = idr_of (w_hist wr).
Proof.
  destruct (uio_register_unregister wr ∅ ∅ 5 500 p1 _ inv_r ltac:(done) info_r shape_r unregistered_r ready_r eq_refl)
    as (r & w' & H & _ & Hr & _).
  exists w'. split; [|exact Hr]. rewrite H. f_equal. f_equal.
  assert (E : fst <$> (r ← __uio_register_device (D:=hv_state) 5 500 p1; if r =? 0 then uio_unregister_device p1;; mret r else mret r) wr
    = Some 0) by (vm_compute; reflexivity).
  rewrite H in E. cbn in E. by injection E.
Defined.

Lemma info_2 : w_info w2 !! p1 = Some i1.
Proof. vm_compute. reflexivity. Qed.
Lemma may_2 : may_unregister w2 p1 i1.
Proof. right. exists d2. vm_compute. split_and!; reflexivity. Qed.

Example uio_unregister_hangs_up_witness :
  exists w', uio_unregister_device p1 w2 = Some (tt, w') /\ wp (uio_poll 9) w' (fun r _ => r = u32 (- EIO)).
Proof.
  destruct inv2 as [σ Hi].
  destruct (uio_unregister_hangs_up w2 _ σ p1 i1 9 4 true idev1 Hi ltac:(done) info_2 may_2 eq_refl ltac:(done) open_9 dev_of_9)
    as ([] & w' & H & _ & Hr & _).
  exists w'. split; [exact H|exact Hr].
Defined.

Example uio_notify_pending_witness :
  exists w', notify_times 3 p1 w2 = Some (tt, w') /\ event_pending w' 9 = true.
Proof.
  destruct inv2 as [σ Hi].
  destruct (uio_notify_pending _ σ w2 9 p1 i1 idev1 d2 3 Hi open_9 dev_of_9 info_2 eq_refl idev_2 eq_refl)
    as ([] & w' & H & _ & Hr).
  - vm_compute. reflexivity.
  - exists w'. split; [exact H|]. rewrite Hr. reflexivity.
Defined.
End Witness.
