(* ===== verification/HvProps.v ===== *)
(** * Properties of the VMBus driver

    Probe and remove, the callbacks of the UIO core, the callbacks of VMBus. *)

From S2P Require Import Prelude Kernel UioTypes UioAttr UioDevice UioFile UioMmap UioTables HypervVmbus HvUio KLogic CoreStep UioInv UioSpec UioRead UioOpen UioAttrSpec UioReg UioSystem UioEvents UioAbstract HvSpec HvCallbacks HvProbe HvProbeSpec HvSystem HvAbstract Scenario UioProps.

Section props.
Context `{HK : Kernel, HKok : !KernelOk, HU : Uapi, HUok : !UapiOk, HA : HvApi, HHk : !HvKernelOk}.
Implicit Types (w : world hv_state) (σ : gmap Z nat) (F : gset Z).

(** C11. [hv_uio_probe] either binds the device, with the ring, both buffers shared
    with the host, the five memory regions described and the UIO device registered
    and found through the driver data, or fails, and then the ring, the GPADLs and
    the minor numbers are as before and only buffers the host may still read are
    left allocated. *)
Theorem hv_probe_all_or_nothing w F σ dev d :
  probe_pre w F σ dev d ->
  wp (hv_uio_probe dev) w (fun r w' =>
    let p := kernel (w_hist w) (DevmKzalloc dev) in
    (r = 0 -> exists c phys x y, hs_chan (w_drv w') !! hd_channel d = Some c /\
      probed w F σ dev d p [ring_mem c phys; page_mem "int_page" (vc_int_page (hs_conn (w_drv w)));
        page_mem "monitor_page" (snd (vc_monitor_pages (hs_conn (w_drv w)))); x; y] w') /\
    (r <> 0 -> probe_undone w F σ (hd_channel d) p w')).
Proof using All. apply wp_hv_uio_probe. Qed.

(** A probed device can be removed. *)
Lemma probed_bound w F σ dev d p mems w' :
  probed w F σ dev d p mems w' -> exists pd i x,
    bound w w' F (<[p := 0%nat]> σ) dev d p pd i /\ hs_pdata (w_drv w') !! p = Some pd /\
    w_heap w' !! i_uio_dev i = Some (HIdev x) /\ (d_event x = 0 /\ opens w' F (i_uio_dev i) = 0%nat) /\
    idr_of (w_hist w) !! d_minor x = None /\ idr_of (w_hist w') = <[d_minor x := i_uio_dev i]> (idr_of (w_hist w)).
Proof using All.
  intros [Pi Pn (pd & D1 & D2 & D3 & D4 & D5 & D6 & D7 & _) _ (q & dd & R1 & R2 & R3 & R0 & _ & _ & R4 & R5 & _) Pd (O1 & O2 & O3 & O4 & O5) Pb _].
  destruct (registered_info _ _ _ _ _ Pi R1 R2) as (i & I1 & I2 & I3 & _). rewrite R3 in I2.
  assert (Hq : q <> 0) by (destruct (ci_live _ _ _ Pi _ _ R1); lia).
  assert (Ho : opens w' F q = 0%nat).
  { pose proof (ci_opens _ _ _ Pi q dd R1 R2) as E. rewrite R3, lookup_insert_eq in E. congruence. }
  exists pd, i, dd. rewrite I3. split; [|by split_and!]. split; try done.
  - lia.
  - rewrite I3. split; [done|]. right. exists dd. by rewrite I3.
  - by apply Pb.
  - intros q' n pq dq Hn Hne. rewrite lookup_insert_ne in Hn by done. by apply (O5 q' n).
  - unfold has, bufs, held in *. rewrite (proj2 (Z.eqb_neq _ _) D4), (proj2 (Z.eqb_neq _ _) D5). exact D7.
Qed.

(** A device that is probed and removed again, or whose probe fails, leaves the ring,
    the GPADLs, the minor numbers and the UIO core as they were, whatever the kernel
    and the host answer; the buffers that remain allocated are those whose pages the
    host did not give back. *)
Theorem hv_probe_remove w F σ dev d :
  probe_pre w F σ dev d ->
  wp (r ← hv_uio_probe dev; if r =? 0 then hv_uio_remove dev;; mret r else mret r) w (fun _ w' =>
    probe_undone w F σ (hd_channel d) (kernel (w_hist w) (DevmKzalloc dev)) w').
Proof using All.
  intros Hp. kstep. eapply wp_mono; [by apply (wp_hv_uio_probe w F σ dev d)|]. cbn beta zeta.
  intros r w1 [Hok Hbad]. destruct (Z.eqb_spec r 0) as [Hr|Hr]; [|kstep; by apply Hbad].
  destruct (Hok Hr) as (c & phys & x & y & _ & Hd). clear Hok Hbad. set (p := kernel _ _) in *.
  destruct (probed_bound _ _ _ _ _ _ _ _ Hd) as (pd & i & dd & Hb & Hpd & Hdd & _ & Hm1 & Hm2).
  kstep. eapply wp_mono; [apply (wp_hv_uio_remove _ _ _ _ _ _ _ _ _ Hb)|]. cbn beta.
  intros [] w2 (Hi & (pd' & H1 & H2) & _ & (z & Hz & _ & Hidr)). kstep.
  rewrite Hdd in Hz. injection Hz as <-. split_and!.
  - rewrite delete_insert_id in Hi; [done|]. apply (pb_new _ _ _ _ _ _ _ _ Hd).
  - by rewrite Hidr, Hm2, delete_insert_id.
  - exists (kept_bufs pd'). split; [done|]. right. by exists pd'.
Qed.

(** A file that is open on a device without info is hung up. *)
Lemma poll_hung_up w F σ f q x :
  core_inv w F σ -> f ∈ F -> dev_of w f = Some q -> w_heap w !! q = Some (HIdev (upd_dinfo NULL x)) ->
  wp (uio_poll f) w (fun r _ => r = u32 (- EIO)).
Proof using All.
  intros Hi Hf Hdev Hq. eapply wp_mono; [by apply (wp_uio_poll w F σ f)|]. cbn beta. intros r w' [_ ->].
  unfold file_gone, idev_gone. by rewrite Hdev, Hq.
Qed.

(** C4. The life of a device: when [hv_uio_probe] fails, everything is given back.  When it
    succeeds, then after any sequence of admissible operations (files are opened, read,
    mapped and closed, the host signals, rescinds the channel, offers subchannels)
    none of which faults, [hv_uio_remove] gives back the ring, the GPADLs and the minor
    number, whether or not files are still open, and leaves only buffers whose pages
    the host did not give back; [poll] fails on the files that are still open on the
    device. *)
Theorem hv_device_lifecycle w F σ dev d :
  probe_pre w F σ dev d ->
  wp (hv_uio_probe dev) w (fun r w1 =>
    let p := kernel (w_hist w) (DevmKzalloc dev) in
    (r <> 0 -> probe_undone w F σ (hd_channel d) p w1) /\
    (r = 0 -> exists i x, w_info w1 !! p = Some i /\ w_heap w1 !! i_uio_dev i = Some (HIdev x) /\
      registered w1 (i_uio_dev i) x /\ d_info x = p /\
      forall ops, hv_admissible_run ops F w1 ->
      wp (run_hv_ops ops F) w1 (fun F2 w2 => wp (hv_uio_remove dev) w2 (fun _ w3 =>
        (exists σ3, core_inv w3 F2 σ3) /\ idr_of (w_hist w3) = idr_of (w_hist w) /\
        (exists pd, hs_pdata (w_drv w3) !! p = Some pd /\ holds w w3 (hd_channel d) 0 0 (kept_bufs pd)) /\
        forall f, f ∈ F2 -> dev_of w3 f = Some (i_uio_dev i) -> wp (uio_poll f) w3 (fun r _ => r = u32 (- EIO)))))).
Proof using All.
  intros Hpre. eapply wp_mono; [by apply (wp_hv_uio_probe w F σ dev d)|]. cbn beta zeta.
  intros r w1 [Hok Hbad]. split; [exact Hbad|]. intros Hr. destruct (Hok Hr) as (c & phys & x & y & _ & Hd).
  clear Hok Hbad. set (p := kernel _ _) in *.
  destruct (probed_bound _ _ _ _ _ _ _ _ Hd) as (pd & i & dd & Hb & Hpd & Hdd & _ & Hm1 & Hm2).
  destruct (bd_reg _ _ _ _ _ _ _ _ _ Hb) as [Hu [?|(dd' & Hdd' & Hreg & Hdi)]]; [done|].
  assert (dd' = dd) as -> by congruence. exists i, dd. split_and!; [apply Hb|done..|]. intros ops Ha.
  eapply wp_mono; [apply (run_hv_ops_ok ops F w1 _ (pb_inv _ _ _ _ _ _ _ _ Hd) Ha)|]. cbn beta.
  intros F2 w2 [[σ2 Hi2] Hs].
  destruct (bound_kept _ _ _ _ _ _ _ _ _ _ _ _ Hb Hs Hi2) as (σ2' & pd2 & i2 & Hb2 & _ & Hu2).
  eapply wp_mono; [apply (wp_hv_uio_remove _ _ _ _ _ _ _ _ _ Hb2)|]. cbn beta.
  intros [] w3 (Hi3 & (pd3 & H1 & H2) & _ & (z & Hz & Hz3 & Hidr)). rewrite Hu2 in Hz, Hz3.
  split_and!; [by eexists| | |].
  - destruct (hs_idev _ _ Hs _ _ Hz) as (z1 & Hz1 & Hk). assert (z1 = dd) as -> by congruence. injection Hk as _ Hk.
    by rewrite Hidr, (hs_idr _ _ Hs), Hm2, <- Hk, delete_insert_id.
  - by exists pd3.
  - intros f Hf Hdev. by eapply poll_hung_up.
Qed.

(** C6. The signals of the host reach user space.  After a successful probe, whatever
    operations and callbacks follow, every word a reader of the device is given is the
    number of its events since probe, modulo [2 ^ 32], and is given only if some of
    them were unread; a file that is open on the device is readable exactly when the
    number of events since it was opened or last given a word is not a multiple of
    [2 ^ 32]; and every signal and every rescind of a channel of the device is an event. *)
Theorem host_events_counted w F σ dev d :
  probe_pre w F σ dev d ->
  wp (hv_uio_probe dev) w (fun r w1 => r = 0 -> exists i,
    w_info w1 !! kernel (w_hist w) (DevmKzalloc dev) = Some i /\ forall ops,
    hv_admissible_run ops F w1 -> Forall hv_reads_word ops ->
    wp (run_hv_trace ops [] F) w1 (fun tF w2 => run_hv_ops ops F w1 = Some (tF.2, w2) /\
      words_ok (eq (i_uio_dev i)) tF.1 /\ files_counted (i_uio_dev i) tF.1 tF.2 w2 /\
      host_signals w1 dev ops <= events (i_uio_dev i) tF.1)).
Proof using All.
  intros Hpre. eapply wp_mono; [by apply (wp_hv_uio_probe w F σ dev d)|]. cbn beta zeta.
  intros r w1 [Hok _] Hr. destruct (Hok Hr) as (c & phys & x & y & _ & Hd).
  destruct (probed_bound _ _ _ _ _ _ _ _ Hd) as (pd & i & dd & Hb & _ & Hdd & [He Ho] & _).
  exists i. split; [apply Hb|]. intros ops Ha Hw. by apply (run_hv_counted _ _ _ _ _ _ _ _ _ _ _ Hb Hdd He Ho).
Qed.

(** ** Open and close *)

(** The driver's memory up to what [open] and [release] write. *)
Definition same_binding w w' : Prop :=
  hs_dev (w_drv w') = hs_dev (w_drv w) /\
  forall q, pd_device <$> hs_pdata (w_drv w') !! q = pd_device <$> hs_pdata (w_drv w) !! q.

#[local] Instance same_binding_preorder : PreOrder same_binding.
Proof using.
  split; [by intros w|]. intros w1 w2 w3 [A1 B1] [A2 B2]. split; [congruence|]. intros q. by rewrite B2.
Qed.

Lemma keeps_refcnt p f : keeps same_binding (mod_pdata p (fun x => set_pd_refcnt (f x) x)).
Proof using.
  intros w a w' Hr. unfold mod_pdata, load_pdata, get_some, mbind, K_bind, modify in Hr.
  destruct (hs_pdata (w_drv w) !! p) as [x|] eqn:E; [|done]. injection Hr as _ <-.
  split; [done|]. intros q. wsimpl_goal. cbn. destruct (decide (p = q)) as [<-|].
  - by rewrite lookup_insert_eq, E.
  - by rewrite lookup_insert_ne.
Qed.

Lemma keeps_chan c f : keeps same_binding (mod_chan c f).
Proof using.
  intros w a w' Hr. unfold mod_chan, load_chan, get_some, mbind, K_bind, modify in Hr.
  destruct (hs_chan (w_drv w) !! c); [|done]. by injection Hr as _ <-.
Qed.

Lemma keeps_log c : keeps same_binding (do_ c).
Proof using HK. intros w a w' [= _ <-]. done. Qed.

Lemma keeps_call c : keeps same_binding (call c).
Proof using HK. intros w a w' [= _ <-]. done. Qed.

Lemma keeps_seq {A B} (m : K hv_state A) (f : A -> K hv_state B) :
  keeps same_binding m -> (forall a, keeps same_binding (f a)) -> keeps same_binding (m ≫= f).
Proof using HK. apply keeps_bind, _. Qed.

Lemma keeps_binding_load {A} (f : world hv_state -> option A) : keeps same_binding (get_some f).
Proof using HK. apply keeps_get, _. Qed.

Lemma keeps_done {A} (a : A) : keeps same_binding (mret a).
Proof using HK. apply keeps_ret, _. Qed.

Lemma keeps_call_out c : keeps same_binding (call_out c).
Proof using HK. intros w a w' [= _ <-]. done. Qed.

Ltac keeps_binding :=
  repeat first
    [ apply keeps_binding_load | apply keeps_done | apply keeps_log | apply keeps_call | apply keeps_call_out
    | apply keeps_chan | apply (keeps_refcnt _ (fun x => s32 (pd_refcnt x - 1))) | apply (keeps_refcnt _ (fun _ => _))
    | apply keeps_seq; [|intros ?] | case_match ].

Lemma keeps_hv_uio_open p inode : keeps same_binding (hv_uio_open p inode).
Proof using HK HU HA. unfold hv_uio_open, vmbus_connect_ring, ring_mapped, store_interrupt_mask. keeps_binding. Qed.

Lemma keeps_hv_uio_release p inode : keeps same_binding (hv_uio_release p inode).
Proof using HK HU HA. unfold hv_uio_release. keeps_binding. Qed.

Lemma binding_kept w w' p pd dev :
  same_binding w w' -> hs_pdata (w_drv w) !! p = Some pd -> hs_dev (w_drv w) !! pd_device pd = Some dev ->
  exists pd', hs_pdata (w_drv w') !! p = Some pd' /\ hs_dev (w_drv w') !! pd_device pd' = Some dev.
Proof using.
  intros [E1 E2] Hpd Hdev. specialize (E2 p). rewrite Hpd in E2. destruct (hs_pdata (w_drv w') !! p) as [pd'|]; [|done].
  cbn in E2. injection E2 as E2. exists pd'. by rewrite E1, E2.
Qed.

(** A sequence of calls of [hv_uio_open] (true) and [hv_uio_release] (false, called for a
    file that is open), [n] files being open; the result is the number at the end. *)
Fixpoint open_close (l : list bool) (p inode : Z) (n : nat) : K hv_state nat :=
  match l, n with
  | [], _ => mret n
  | true :: l, _ => r ← hv_uio_open p inode; open_close l p inode (if r =? 0 then S n else n)
  | false :: l, O => open_close l p inode O
  | false :: l, S m => _ ← hv_uio_release p inode; open_close l p inode m
  end.

(** The driver holds one connection while files are open. *)
Definition holds_ring (n : nat) : Z := if decide (n = 0%nat) then 0 else 1.

(** C17. The ring is connected to the host by the first open of a device and disconnected
    by the last close: after any sequence of opens, of which some may fail, and closes
    the channel has one connection more than at the start exactly if files are open
    now and none were at the start; the reference count never disagrees. *)
Theorem hv_ring_connected_while_open l p inode dev : forall n σ w pd,
  σ !! p = Some n -> hv_inv σ w -> (n + length l <= max_opens)%nat ->
  hs_pdata (w_drv w) !! p = Some pd -> hs_dev (w_drv w) !! pd_device pd = Some dev ->
  wp (open_close l p inode n) w (fun n' w' =>
    (exists σ', σ' !! p = Some n' /\ hv_inv σ' w') /\ core_frame w w' /\
    ring_connected (hd_channel dev) (w_hist w') - holds_ring n' = ring_connected (hd_channel dev) (w_hist w) - holds_ring n).
Proof using All.
  induction l as [|[] l IH]; intros n σ w pd Hn Hi Hlen Hpd Hdev; cbn [open_close length] in *.
  - kstep. split_and!; [eauto|apply core_frame_refl|done].
  - kstep. eapply wp_mono; [apply keeps_wp with (R := same_binding); [apply _|apply keeps_hv_uio_open|]|].
    { apply (wp_hv_uio_open σ w p n inode); [done|lia|done]. }
    cbn beta. intros r w1 [(Hf & Hi1 & pd0 & dev0 & E1 & E2 & Hring & Hmore & _) Hb].
    assert (pd0 = pd) as -> by congruence. assert (dev0 = dev) as -> by congruence.
    destruct (binding_kept _ _ _ _ _ Hb Hpd Hdev) as (pd1 & F1 & F2).
    eapply wp_mono; [eapply (IH _ (if r =? 0 then <[p := S n]> σ else σ) w1 pd1); try done|].
    + destruct (r =? 0); [apply lookup_insert_eq|done].
    + destruct (r =? 0); lia.
    + cbn beta. intros n' w2 (Hσ & Hf2 & Hr2). split_and!; [done|by eapply core_frame_trans|].
      rewrite Hring in Hr2. unfold holds_ring in *. destruct (Z.eqb_spec r 0) as [->|Hr]; repeat case_decide; try lia; try tauto.
  - destruct n as [|n].
    + apply (IH 0%nat σ w pd); try done. lia.
    + kstep. eapply wp_mono; [apply keeps_wp with (R := same_binding); [apply _|apply keeps_hv_uio_release|]|].
      { by apply (wp_hv_uio_release σ w p n inode). }
      cbn beta. intros r w1 [(Hf & Hi1 & pd0 & dev0 & E1 & E2 & Hring & Hmore) Hb].
      assert (pd0 = pd) as -> by congruence. assert (dev0 = dev) as -> by congruence.
      destruct (binding_kept _ _ _ _ _ Hb Hpd Hdev) as (pd1 & F1 & F2).
      eapply wp_mono; [eapply (IH n (<[p := n]> σ) w1 pd1); try done|].
      * apply lookup_insert_eq.
      * lia.
      * cbn beta. intros n' w2 (Hσ & Hf2 & Hr2). split_and!; [done|by eapply core_frame_trans|].
        rewrite Hring in Hr2. unfold holds_ring in *. repeat case_decide; try lia; try tauto.
Qed.

(** A file that had seen all events of its device has one pending after one more. *)
Lemma one_more_event w w' f q x l lst :
  w_priv w !! f = Some l -> w_heap w !! l = Some (HLsn lst) -> l_dev lst = q -> w_heap w !! q = Some (HIdev x) ->
  w_priv w' = w_priv w -> w_heap w' = <[q := HIdev (upd_event atomic_inc x)]> (w_heap w) ->
  event_pending w f = false -> event_pending w' f = true.
Proof using.
  intros Hp Hl <- Hx Ep Eh Hn. assert (Hlq : l <> l_dev lst) by congruence.
  assert (Hl' : w_heap w' !! l = Some (HLsn lst)) by (by rewrite Eh, lookup_insert_ne).
  assert (Hp' : w_priv w' !! f = Some l) by (by rewrite Ep).
  rewrite (event_pending_eq w f (l_dev lst) x l lst) in Hn by (first [done|by eapply dev_of_some]).
  rewrite (event_pending_eq w' f (l_dev lst) (upd_event atomic_inc x) l lst);
    [|by eapply dev_of_some|rewrite Eh; apply lookup_insert_eq|done|done].
  apply negb_false_iff, Z.eqb_eq in Hn. apply negb_true_iff, Z.eqb_neq. cbn. rewrite Hn. intros E. by apply (atomic_inc_neq (d_event x)).
Qed.

(** ** Interrupts *)

(** [hv_uio_irqcontrol] stores the negated state in the channel's interrupt mask
    before the barrier, and only after it signals the host, which it does exactly when
    the state is not 0 and the channel has no monitor; it returns 0 and touches
    nothing else. *)
Theorem hv_irqcontrol_masks σ w p n s :
  σ !! p = Some (S n) -> hv_inv σ w ->
  wp (hv_uio_irqcontrol p s) w (fun r w' => core_frame w w' /\ hv_inv σ w' /\ r = 0 /\
    exists pd dev c, hs_pdata (w_drv w) !! p = Some pd /\ hs_dev (w_drv w) !! pd_device pd = Some dev /\
    hs_chan (w_drv w) !! hd_channel dev = Some c /\
    hs_chan (w_drv w') !! hd_channel dev = Some (set_ch_inbound (Some (c_not s)) c) /\
    map ev_call (w_hist w') =
      (if negb (ch_monitor_allocated c) && negb (s =? 0) then [VmbusSetevent (hd_channel dev)] else [])
      ++ [VirtMb; StoreInterruptMask (hd_channel dev) (c_not s)] ++ map ev_call (w_hist w)).
Proof using All. apply wp_hv_uio_irqcontrol. Qed.

(** When the host signals, [hv_uio_channel_cb] first masks further interrupts of the
    channel, then counts the event and only then wakes the readers: every file that is
    open on the device and had seen all events is readable afterwards. *)
Theorem hv_channel_cb_delivers w F σ ctx c p i x f :
  core_inv w F σ -> hs_chan (w_drv w) !! ctx = Some c -> ch_inbound c <> None -> bound_to w (ch_device_obj c) p i x ->
  f ∈ F -> dev_of w f = Some (i_uio_dev i) -> event_pending w f = false ->
  wp (hv_uio_channel_cb ctx) w (fun _ w' => core_inv w' F σ /\ event_pending w' f = true /\
    (exists c', hs_chan (w_drv w') !! ctx = Some c' /\ ch_inbound c' = Some 1) /\
    map ev_call (w_hist w') =
      [KillFasync (i_uio_dev i) POLL_IN; WakeUpInterruptible (i_uio_dev i); VirtMb; StoreInterruptMask ctx 1;
       DevGetDrvdata (ch_device_obj c)] ++ map ev_call (w_hist w)).
Proof using All.
  intros Hi Hc Hm Hb Hf Hdev Hp. eapply wp_mono; [by apply (wp_hv_uio_channel_cb w F σ ctx c p i x)|]. cbn beta.
  intros _ w' (Hi' & Ed & _ & Ep & Eh & Ehist). split_and!; [done| | |done].
  - destruct (open_file _ _ _ _ Hi Hf) as (l & lst & d' & Hpriv & Hl & _ & Hdev' & _).
    destruct Hb as [_ _ Hx]. eapply (one_more_event w w' f (i_uio_dev i) x l lst); try done. congruence.
  - rewrite Ed. cbn. rewrite lookup_insert_eq. eauto.
Qed.

(** C21. After the host rescinds the channel, [read] on every file that is open on the device
    fails with [-EIO] and [poll] with the same error, converted to a mask, and the device is given back to the VMBus core
    only after the readers were woken. *)
Theorem hv_rescind_hangs_up w F σ ch c p i x f count nb :
  core_inv w F σ -> hs_chan (w_drv w) !! ch = Some c -> bound_to w (ch_device_obj c) p i x -> d_info x = p ->
  f ∈ F -> dev_of w f = Some (i_uio_dev i) ->
  wp (hv_uio_rescind ch) w (fun _ w' => core_inv w' F σ /\
    map ev_call (w_hist w') =
      [VmbusDeviceUnregister (ch_device_obj c); KillFasync (i_uio_dev i) POLL_IN; WakeUpInterruptible (i_uio_dev i);
       DevGetDrvdata (ch_device_obj c)] ++ map ev_call (w_hist w) /\
    wp (uio_poll f) w' (fun r _ => r = u32 (- EIO)) /\ wp (read_pass f count nb) w' (fun r _ => r = ReadBreak (- EIO))).
Proof using All.
  intros Hi Hc Hb Hxp Hf Hdev. eapply wp_mono; [by apply (wp_hv_uio_rescind w F σ ch c p i x)|]. cbn beta.
  intros _ w' (Hi' & _ & Ei & Ep & Eh & Ehist). split; [done|]. split; [done|].
  destruct (open_file _ _ _ _ Hi Hf) as (l & lst & d' & Hpriv & Hl & _ & Hdev' & _).
  destruct Hb as [_ _ Hx]. assert (Hlp : l <> i_uio_dev i) by congruence.
  assert (Hl' : w_heap w' !! l = Some (HLsn lst)) by (by rewrite Eh, lookup_insert_ne).
  assert (Hpriv' : w_priv w' !! f = Some l) by (by rewrite Ep).
  assert (Hgone : file_gone w' f = true).
  { unfold file_gone, idev_gone. rewrite (dev_of_some _ _ _ _ Hpriv' Hl'). assert (l_dev lst = i_uio_dev i) as -> by congruence.
    rewrite Eh, lookup_insert_eq. cbn. rewrite Hxp, Ei, lookup_insert_eq. by case_match. }
  split.
  - eapply wp_mono; [by apply (wp_uio_poll w' F σ f)|]. cbn beta. intros r w2 [_ ->]. by rewrite Hgone.
  - unfold read_pass. ksteps. eapply wp_mono; [by apply (wp_read_iter w' F σ f)|]. cbn beta.
    intros r w2 (_ & _ & _ & _ & _ & Hpx). unfold read_step_post in Hpx. rewrite Hgone in Hpx. apply Hpx.
Qed.

(** The open file of a driver's device has connected the ring of its channel. *)
Lemma open_connects w1 F σ minor inode f q x p pd d w2 :
  core_inv w1 F σ -> f ∉ F -> (size F <= max_opens)%nat -> idr_of (w_hist w1) !! minor = Some q ->
  w_heap w1 !! q = Some (HIdev x) -> d_info x = p -> p <> 0 -> hs_pdata (w_drv w1) !! p = Some pd ->
  hs_dev (w_drv w1) !! pd_device pd = Some d -> uio_open minor inode f w1 = Some (0, w2) ->
  dev_of w2 f = Some q /\ (forall y, w_info w1 !! y = None -> w_info w2 !! y = None) /\
  exists c, hs_chan (w_drv w2) !! hd_channel d = Some c /\ ch_inbound c <> None.
Proof using All.
  intros Hi Hf Hsz Hm Hx Hp Hnz Hpd Hd Hr.
  assert (Hmax : forall p, (opens w1 F p <= max_opens)%nat) by (intros y; pose proof (size_opens w1 F y); lia).
  destruct (wp_run _ _ _ _ _ (wp_uio_open w1 F σ minor inode f Hi Hf Hmax) Hr) as [Hok _].
  destruct (Hok eq_refl) as (q' & σ2 & Hm' & Hi2 & Hdev & _). assert (q' = q) as -> by congruence.
  destruct (old_spared _ _ _ _ _ _ _ Hi (old_open (old w1) minor inode f _ _ _ Hr)) as [_ S2 _ S4 _ _].
  split; [done|]. split.
  { intros y Hy. specialize (S4 y). rewrite Hy in S4. by destruct (w_info w2 !! y). }
  destruct (open_file_full w2 _ _ f Hi2 ltac:(set_solver)) as (l & lst & x2 & _ & _ & Hx2 & Hdev2 & Hfull).
  assert (El : l_dev lst = q) by congruence. rewrite El in *.
  assert (Ex : d_info x2 = p).
  { specialize (S2 q ltac:(by eexists)). rewrite Hx, Hx2 in S2. cbn in S2. by injection S2 as -> _. }
  destruct Hfull as (i & n & _ & _ & _ & _ & Hσ); [by rewrite Ex|]. rewrite Ex in Hσ.
  destruct (ci_drv _ _ _ Hi2 _ _ Hσ) as (irq & h & pd2 & d2 & c & _ & _ & Hpd2 & Hd2 & Hc & _ & _ & Hin).
  pose proof (stp_op (OpOpen minor inode f) F eq_refl w1 ({[f]} ∪ F) w2
    ltac:(cbn [do_op uio_fops fop_open]; unfold mbind, K_bind; by rewrite Hr)) as Hs.
  pose proof (hs_pd _ _ Hs p) as E. rewrite Hpd, Hpd2 in E. injection E as E _ _ _ _.
  rewrite E, (hs_devs _ _ Hs) in Hd2. assert (d2 = d) as -> by congruence. exists c. split; [done|by apply Hin].
Qed.

(** C36. [hv_set_drvdata] is the last thing a successful probe does, after the device is
    registered.  In the state just before it the device is in place and user space can
    open it; an open that succeeds connects the ring, and a signal of the host then
    makes [hv_uio_channel_cb] dereference a NULL pointer. *)
Theorem hv_channel_cb_before_bind w F σ dev d :
  probe_pre w F σ dev d -> ch_device_obj <$> hs_chan (w_drv w) !! hd_channel d = Some dev ->
  drvdata_of (w_hist w) !! dev = None -> w_info w !! NULL = None ->
  wp (hv_uio_probe dev) w (fun r w' => r = 0 -> exists w1 q x,
    w' = logged (DevSetDrvdata dev (kernel (w_hist w) (DevmKzalloc dev))) w1 /\ core_inv w1 F (<[d_info x := 0%nat]> σ) /\
    w_heap w1 !! q = Some (HIdev x) /\ registered w1 q x /\
    forall inode f, f ∉ F -> (size F <= max_opens)%nat ->
    wp (uio_open (d_minor x) inode f) w1 (fun r2 w2 => r2 = 0 ->
      dev_of w2 f = Some q /\ (exists c, hs_chan (w_drv w2) !! hd_channel d = Some c /\ ch_inbound c <> None) /\
      hv_uio_channel_cb (hd_channel d) w2 = None)).
Proof using All.
  intros Hpre Hobj Hdata Hnull. eapply wp_mono; [by apply (wp_hv_uio_probe w F σ dev d)|]. cbn beta zeta.
  intros r w' [Hok _] Hr. destruct (Hok Hr) as (c0 & phys & y & z & _ & Hd). clear Hok. set (p := kernel _ _) in *.
  destruct Hd as [_ _ (pd & D1 & D2 & _) _ (q & x & R1 & R2 & R3 & _) _ (O1 & O2 & _) _ (w1 & -> & Hi1 & [U1 U2 U3])].
  autorewrite with world in D1, R1, O2.
  assert (Hreg : registered w1 q x) by (revert R2; unfold registered; by gsimpl).
  exists w1, q, x. rewrite R3. split_and!; try done. intros inode f Hf Hsz.
  assert (Hmax : forall p, (opens w1 F p <= max_opens)%nat) by (intros v; pose proof (size_opens w1 F v); lia).
  destruct (wp_uio_open w1 F _ (d_minor x) inode f Hi1 Hf Hmax) as (r2 & w2 & Hopen & _). exists r2, w2. split; [done|].
  intros ->. rewrite <- D2 in O2.
  destruct (open_connects w1 F _ _ inode f q x p pd d w2 Hi1 Hf Hsz Hreg R1 R3 ltac:(lia) D1 O2 Hopen) as (H1 & H2 & c & H3 & H4).
  split; [done|]. split; [eauto|].
  pose proof (stp_op (OpOpen (d_minor x) inode f) F eq_refl w1 ({[f]} ∪ F) w2
    ltac:(cbn [do_op uio_fops fop_open]; unfold mbind, K_bind; by rewrite Hopen)) as Hs.
  pose proof (hs_chans _ _ Hs (hd_channel d)) as Ec. rewrite H3, U3, Hobj in Ec. injection Ec as Ec.
  apply (channel_cb_unbound w2 (hd_channel d) c H3 H4); [|by apply H2, U2].
  by rewrite (hs_data _ _ Hs), Ec, U1.
Qed.

(** ** Subchannels and the ring file *)

(** The VMBus core offers a channel. *)
Lemma inv_add_chan w F σ a x :
  core_inv w F σ -> hs_chan (w_drv w) !! a = None -> core_inv (set_drv (set_hs_chan <[a := x]>) w) F σ.
Proof using All.
  intros Hi Ha. apply (inv_quiet w); [done|apply calm_quiet; [|by intros; wsimpl_goal]|].
  - apply calm_of_frame. apply frame_set_drv, core_frame_refl.
  - intros q n Hq. eapply (hv_ok_frame w); wsimpl_goal; try done; [|by apply (ci_drv _ _ _ Hi)].
    cbn. intros b c Hb. destruct (decide (b = a)) as [->|]; [congruence|]. exists c. by rewrite lookup_insert_ne.
Qed.

(** C32. A new subchannel is left closed and unchanged when it cannot be opened; open, with
    its interrupt masked, when its ring file was created; and closed again when the
    file could not be created. *)
Theorem hv_new_channel_all_or_nothing w F σ ch c pc :
  core_inv w F σ -> hs_chan (w_drv w) !! ch = Some c -> hs_chan (w_drv w) !! ch_primary_channel c = Some pc ->
  (forall q n pd d, σ !! q = Some n -> hs_pdata (w_drv w) !! q = Some pd ->
     hs_dev (w_drv w) !! pd_device pd = Some d -> hd_channel d <> ch) ->
  wp (hv_uio_new_channel ch) w (fun _ w' => core_inv w' F σ /\ core_frame w w' /\
    exists c', hs_chan (w_drv w') !! ch = Some c' /\
      ((kernel (w_hist w) (VmbusOpen ch SZ_2M SZ_2M) <> 0 /\ c' = c) \/
       (kernel (w_hist w) (VmbusOpen ch SZ_2M SZ_2M) = 0 /\
        exists r o h, let file := Ev (SysfsCreateBinFile ch) r o in
          (r = 0 /\ w_hist w' = file :: h /\ ch_inbound c' = Some 1) \/
          (r <> 0 /\ (exists r' o', w_hist w' = Ev (VmbusClose ch) r' o' :: file :: h) /\ ch_inbound c' = None)))).
Proof using All. apply wp_hv_uio_new_channel. Qed.

(** The ring file maps the pages of the channel's ring and nothing else, and only while
    the channel is open; on a closed channel it maps nothing and fails. *)
Theorem hv_ring_mmap_open_only w F σ ch c v :
  core_inv w F σ -> hs_chan (w_drv w) !! ch = Some c ->
  wp (hv_uio_ring_mmap ch v) w (fun r w' => core_inv w' F σ /\ w_drv w' = w_drv w /\
    match ch_state c with
    | CHANNEL_OPENED_STATE => exists h phys o,
        w_hist w' = Ev (VmIomapMemory (vma_id v) phys (u32 (Z.shiftl (ch_ringbuffer_pagecount c) PAGE_SHIFT))) r o :: h
    | _ => r = - ENODEV /\ forall e, e ∈ w_hist w' -> e ∈ w_hist w \/ ev_call e = PageAddress (ch_ringbuffer_page c)
    end).
Proof using All. apply wp_hv_uio_ring_mmap. Qed.
End props.

(** ** The properties at concrete states *)

Module Witness.

Example hv_probe_all_or_nothing_witness :
  exists r w', hv_uio_probe 500 w0 = Some (r, w') /\ (r <> 0 -> probe_undone w0 ∅ ∅ 600 501 w').
Proof.
  destruct (hv_probe_all_or_nothing w0 ∅ ∅ 500 (HvDevice 600) pre0) as (r & w' & H & _ & Hr).
  exists r, w'. split; [exact H|exact Hr].
Defined.

Example hv_probe_remove_witness :
  exists r w', (r ← hv_uio_probe 500; if r =? 0 then hv_uio_remove 500;; mret r else mret r) w0 = Some (r, w') /\
    probe_undone w0 ∅ ∅ 600 501 w'.
Proof.
  destruct (hv_probe_remove w0 ∅ ∅ 500 (HvDevice 600) pre0) as (r & w' & H & Hr).
  exists r, w'. split; [exact H|exact Hr].
Defined.

(** A file is opened, the host signals, the file is read, the channel is rescinded; the file
    is still open when the device is removed. *)
Definition device_session : list hv_op :=
  [HvUio (OpOpen 1 8 9); HvSignal 600; HvUio (OpReadPass 9 4 true); HvRescind 600; HvUio (OpPoll 9)].

Ltac next_hv_op := let F := fresh in let w := fresh in let H := fresh in
  intros F w H; vm_compute in H; injection H as <- <-; cbn [hv_admissible_run hv_admissible admissible]; split.

Lemma device_session_admissible : hv_admissible_run device_session ∅ w1.
Proof.
  cbn [device_session hv_admissible_run hv_admissible admissible]. split.
  { split; [done|]. split; [set_solver|]. rewrite size_empty. lia. }
  next_hv_op. { do 4 eexists. split; [vm_compute; reflexivity|]. split; [done|]. split; vm_compute; reflexivity. }
  next_hv_op. { split; [done|]. change (9 ∈ ({[9]} ∪ ∅ : gset Z)). set_solver. }
  next_hv_op. { do 4 eexists. split; [vm_compute; reflexivity|]. split; vm_compute; reflexivity. }
  next_hv_op. { split; [done|]. change (9 ∈ ({[9]} ∪ ∅ : gset Z)). set_solver. }
  intros F w _. exact I.
Qed.

Lemma dev_of_9_removed F2 w2 w3 : run_hv_ops device_session ∅ w1 = Some (F2, w2) -> hv_uio_remove 500 w2 = Some (tt, w3) ->
  9 ∈ F2 /\ dev_of w3 9 = Some idev1.
Proof.
  intros H. vm_compute in H. injection H as <- <-. intros H. vm_compute in H. injection H as <-.
  split; [change (9 ∈ ({[9]} ∪ ∅ : gset Z)); set_solver|vm_compute; reflexivity].
Qed.

Lemma node_1 i : w_info w1 !! kernel (w_hist w0) (DevmKzalloc 500) = Some i -> i_uio_dev i = idev1.
Proof.
  assert (E : i_uio_dev <$> w_info w1 !! kernel (w_hist w0) (DevmKzalloc 500) = Some idev1) by (vm_compute; reflexivity).
  intros H. rewrite H in E. by injection E.
Qed.

Example hv_device_lifecycle_witness :
  exists F2 w2 w3, run_hv_ops device_session ∅ w1 = Some (F2, w2) /\ hv_uio_remove 500 w2 = Some (tt, w3) /\
    idr_of (w_hist w3) = idr_of (w_hist w0) /\ wp (uio_poll 9) w3 (fun r _ => r = u32 (- EIO)).
Proof.
  pose proof (wp_run _ _ _ _ _ (hv_device_lifecycle w0 ∅ ∅ 500 (HvDevice 600) pre0) run1) as [_ Hok].
  destruct (Hok eq_refl) as (i & x & Hi & _ & _ & _ & Hs).
  destruct (Hs _ device_session_admissible) as (F2 & w2' & Hr & [] & w3 & Hx & _ & Hidr & _ & Hp).
  destruct (dev_of_9_removed _ _ _ Hr Hx) as [Hf Hdev]. rewrite (node_1 i Hi) in Hp.
  exists F2, w2', w3. split; [exact Hr|]. split; [exact Hx|]. split; [exact Hidr|]. by apply Hp.
Defined.

Lemma session_words : Forall hv_reads_word device_session.
Proof. by repeat constructor. Qed.

Lemma session_trace tr F w : run_hv_trace device_session [] ∅ w1 = Some ((tr, F), w) ->
  9 ∈ F /\ dev_of w 9 = Some idev1 /\ tr.*2 = [ORet 0xfffffffb; OEvent idev1; OWord (Some 1); OEvent idev1; OOn idev1] /\
  unread 9 idev1 tr = 1.
Proof.
  intros H. vm_compute in H. injection H as <- <- <-. split; [change (9 ∈ ({[9]} ∪ ∅ : gset Z)); set_solver|].
  by split_and!; vm_compute.
Qed.

Lemma session_signals : host_signals w1 500 device_session = 2.
Proof. by vm_compute. Qed.

Example host_events_counted_witness :
  exists tr F2 w2, run_hv_trace device_session [] ∅ w1 = Some ((tr, F2), w2) /\
    tr.*2 = [ORet 0xfffffffb; OEvent idev1; OWord (Some 1); OEvent idev1; OOn idev1] /\
    2 <= events idev1 tr /\ event_pending w2 9 = true.
Proof.
  pose proof (wp_run _ _ _ _ _ (host_events_counted w0 ∅ ∅ 500 (HvDevice 600) pre0) run1) as Hok.
  destruct (Hok eq_refl) as (i & Hi & Hs). rewrite (node_1 i Hi) in Hs.
  destruct (Hs _ device_session_admissible session_words) as ([tr F2] & w2' & Hr & _ & _ & Hf & Hn).
  destruct (session_trace _ _ _ Hr) as (H9 & Hdev & Ht & Hu). destruct (Hf 9 H9 Hdev) as (_ & _ & Hp). cbn [fst] in *.
  rewrite session_signals in Hn. rewrite Hu in Hp. exists tr, F2, w2'. split; [exact Hr|]. split; [exact Ht|]. split; [exact Hn|exact Hp].
Defined.

Definition pd1 : hv_uio_private_data := HvPdata 500 0 3000000 (VmbusGpadl 7 false) "recv:7" 3000001 (VmbusGpadl 7 false) "send:7".

Lemma count1 : ({[ p1 := 0%nat ]} : gmap Z nat) !! p1 = Some 0%nat.
Proof. reflexivity. Qed.

Example hv_ring_connected_while_open_witness :
  exists n w', open_close [true; true; false; true; false; false] p1 8 0 w1 = Some (n, w') /\
    ring_connected 600 (w_hist w') - holds_ring n = ring_connected 600 (w_hist w1) - holds_ring 0.
Proof.
  destruct (hv_ring_connected_while_open [true; true; false; true; false; false] p1 8 (HvDevice 600) 0 _ w1 pd1 count1
    (ci_drv _ _ _ inv1)) as (n & w' & H & _ & _ & Hr).
  - apply Nat2Z.inj_le. rewrite max_opens_val. cbn. lia.
  - vm_compute. reflexivity.
  - vm_compute. reflexivity.
  - exists n, w'. split; [exact H|exact Hr].
Defined.

Lemma sigma2 : exists σ n, core_inv w2 ({[9]} ∪ ∅) σ /\ σ !! p1 = Some (S n).
Proof.
  destruct inv2 as [σ Hi]. assert (Hreg : registered w2 idev1 UioProps.Witness.d2) by (vm_compute; reflexivity).
  pose proof (ci_opens _ _ _ Hi idev1 UioProps.Witness.d2 UioProps.Witness.idev_2 Hreg) as E.
  pose proof (count_pos (dev_of w2) _ 9 idev1 open_9 UioProps.Witness.dev_of_9) as Hpos. unfold opens in E.
  destruct (count_files (dev_of w2) ({[9]} ∪ ∅) idev1) as [|n]; [lia|]. exists σ, n. split; [exact Hi|exact E].
Qed.

Example hv_irqcontrol_masks_witness :
  exists r w', hv_uio_irqcontrol p1 1 w2 = Some (r, w') /\ r = 0.
Proof.
  destruct sigma2 as (σ & n & Hi & Hn).
  destruct (hv_irqcontrol_masks σ w2 p1 n 1 Hn (ci_drv _ _ _ Hi)) as (r & w' & H & _ & _ & Hr & _).
  exists r, w'. split; [exact H|exact Hr].
Defined.

Definition chan2 : vmbus_channel := default chan0 (hs_chan (w_drv w2) !! 600).
Lemma chan_2 : hs_chan (w_drv w2) !! 600 = Some chan2.
Proof. vm_compute. reflexivity. Qed.
Lemma bound_2 : bound_to w2 (ch_device_obj chan2) p1 i1 UioProps.Witness.d2.
Proof. split; vm_compute; reflexivity. Qed.
Lemma mapped_2 : ch_inbound chan2 <> None.
Proof. by vm_compute. Qed.
Lemma dev_2 : dev_of w2 9 = Some (i_uio_dev i1).
Proof. vm_compute. reflexivity. Qed.
Lemma idle_2 : event_pending w2 9 = false.
Proof. vm_compute. reflexivity. Qed.

Example hv_channel_cb_delivers_witness :
  exists w', hv_uio_channel_cb 600 w2 = Some (tt, w') /\ event_pending w' 9 = true.
Proof.
  destruct inv2 as [σ Hi].
  destruct (hv_channel_cb_delivers w2 _ σ 600 chan2 p1 i1 _ 9 Hi chan_2 mapped_2 bound_2 open_9 dev_2 idle_2) as ([] & w' & H & _ & Hr & _).
  exists w'. split; [exact H|exact Hr].
Defined.

Example hv_rescind_hangs_up_witness :
  exists w', hv_uio_rescind 600 w2 = Some (tt, w') /\ wp (uio_poll 9) w' (fun r _ => r = u32 (- EIO)).
Proof.
  destruct inv2 as [σ Hi].
  destruct (hv_rescind_hangs_up w2 _ σ 600 chan2 p1 i1 _ 9 4 true Hi chan_2 bound_2 eq_refl open_9 dev_2) as ([] & w' & H & _ & _ & Hr & _).
  exists w'. split; [exact H|exact Hr].
Defined.

(** Probe up to [hv_set_drvdata], its last call; the open that follows succeeds. *)
Definition before_bind : world hv_state := set_hist tail w1.

Lemma opens_before_bind : exists w, uio_open 1 8 9 before_bind = Some (0, w).
Proof. eexists. vm_compute. reflexivity. Qed.
Lemma channel_of_500 : ch_device_obj <$> hs_chan (w_drv w0) !! 600 = Some 500.
Proof. vm_compute. reflexivity. Qed.
Lemma nothing_bound : drvdata_of (w_hist w0) !! 500 = None /\ w_info w0 !! NULL = None.
Proof. by vm_compute. Qed.

Lemma logged_tail c (w w' : world hv_state) : w' = logged c w -> set_hist tail w' = w.
Proof. intros ->. by destruct w. Qed.

Lemma minors_before_bind : idr_of (w_hist before_bind) = {[1 := idev1]}.
Proof. vm_compute. reflexivity. Qed.

Lemma no_files : 9 ∉ (∅ : gset Z) /\ (size (∅ : gset Z) <= max_opens)%nat.
Proof. split; [set_solver|rewrite size_empty; lia]. Qed.

Example hv_channel_cb_before_bind_witness : exists w w', hv_uio_probe 500 w0 = Some (0, logged (DevSetDrvdata 500 p1) w) /\
  uio_open 1 8 9 w = Some (0, w') /\ hv_uio_channel_cb 600 w' = None.
Proof.
  pose proof (wp_run _ _ _ _ _ (hv_channel_cb_before_bind w0 ∅ ∅ 500 (HvDevice 600) pre0 channel_of_500
    (proj1 nothing_bound) (proj2 nothing_bound)) run1) as Hok.
  destruct (Hok eq_refl) as (w & q & x & Hw & _ & _ & Hreg & Hopen). pose proof (logged_tail _ _ _ Hw) as E.
  fold before_bind in E. subst w. unfold registered in Hreg. rewrite minors_before_bind in Hreg.
  apply lookup_singleton_Some in Hreg as [Hm _]. rewrite <- Hm in Hopen.
  pose proof (Hopen 8 9 (proj1 no_files) (proj2 no_files)) as (r & w' & Hr & Hcb).
  destruct opens_before_bind as [w'' Hr2]. assert (r = 0) as -> by congruence. destruct (Hcb eq_refl) as (_ & _ & Hn).
  exists before_bind, w'. split; [rewrite run1, Hw; reflexivity|]. split; [exact Hr|exact Hn].
Defined.

(** A subchannel, 700, of the channel. *)
Definition w3 : world hv_state :=
  set_drv (set_hs_chan <[700 := VmbusChannel 0 600 false None CHANNEL_STATE_OTHER 0 0 7 1 []]>) w1.

Lemma inv3 : core_inv w3 ∅ {[ p1 := 0%nat ]}.
Proof. apply inv_add_chan; [exact inv1|vm_compute; reflexivity]. Qed.

Example hv_new_channel_all_or_nothing_witness :
  exists w', hv_uio_new_channel 700 w3 = Some (tt, w') /\ core_frame w3 w'.
Proof.
  destruct (hv_new_channel_all_or_nothing w3 ∅ _ 700 (VmbusChannel 0 600 false None CHANNEL_STATE_OTHER 0 0 7 1 [])
    (default chan0 (hs_chan (w_drv w1) !! 600)) inv3) as ([] & w' & H & _ & Hf & _).
  - vm_compute. reflexivity.
  - vm_compute. reflexivity.
  - intros q n pd d Hq Hpd Hd. apply lookup_singleton_Some in Hq as [<- _]. vm_compute in Hpd. injection Hpd as <-.
    vm_compute in Hd. by injection Hd as <-.
  - exists w'. split; [exact H|exact Hf].
Defined.

Example hv_ring_mmap_open_only_witness :
  exists r w', hv_uio_ring_mmap 600 (Vma 1 4096 8192 0 0 VmOpsNone 0) w2 = Some (r, w') /\ w_drv w' = w_drv w2.
Proof.
  destruct inv2 as [σ Hi].
  destruct (hv_ring_mmap_open_only w2 _ σ 600 chan2 (Vma 1 4096 8192 0 0 VmOpsNone 0) Hi chan_2) as (r & w' & H & _ & Hd & _).
  exists r, w'. split; [exact H|exact Hd].
Defined.
End Witness.
