(* ===== verification/UioWait.v ===== *)
(** * Sleeping readers, one step at a time

    [UioFile] runs [uio_read] up to where it sleeps.  Here the reader, any number of
    callers of [uio_event_notify], one call of [uio_unregister_device] and signals
    interleave at the steps the hardware can: a state machine for the wait queue of
    one device, and what can and cannot be lost in it.  What the scheduler does to a
    task is a parameter ([WaitQueue]) with its documented behaviour ([WaitQueueOk]);
    a mutex is free or held, and a task stays at [mutex_lock] while it is held. *)

From S2P Require Import Prelude Kernel UioTypes UioAttr UioDevice UioFile UioMmap KLogic UioInv UioSpec UioSystem HvSpec Scenario.

(** ** State *)

(** Where the reader is in [uio_read]; a value is what it has loaded so far. *)
Inductive reader :=
| RStart                  (** before [add_wait_queue] *)
| RLock                   (** at [mutex_lock] *)
| RCheck                  (** holds the lock, tests [idev->info] *)
| RUnlock (gone : bool)   (** at [mutex_unlock] *)
| RSetState               (** at [set_current_state(TASK_INTERRUPTIBLE)] *)
| RLoad                   (** at [atomic_read] *)
| RCompare (e : Z)        (** at the comparison with the listener's count *)
| RSignal                 (** at [signal_pending] *)
| RSchedule               (** at [schedule] *)
| RAsleep                 (** inside [schedule] *)
| RExit (retval : Z)      (** after the loop *)
| RDone (retval : Z).     (** returned *)

(** Where [uio_unregister_device] is. *)
Inductive unregister := UStart | ULocked | UCleared | UUnlocked | UDone.

Variant holder := Reader | Unregister.

Record wait := Wait {
  wt_event : Z;            (** [idev->event] *)
  wt_seen : Z;             (** [listener->event_count] *)
  wt_info : bool;          (** [idev->info] is not NULL *)
  wt_lock : option holder; (** [idev->info_lock] *)
  wt_task : task_state;    (** the reader's state *)
  wt_queued : bool;        (** the reader is on [idev->wait] *)
  wt_signal : bool;        (** a signal is pending for the reader *)
  wt_wakes : nat;          (** callers of [uio_event_notify] between increment and wake-up *)
  wt_reader : reader;
  wt_unreg : unregister }.

Definition set_reader r s := match s with Wait e0 n0 i0 h0 t0 q0 g0 k0 _ u0 => Wait e0 n0 i0 h0 t0 q0 g0 k0 r u0 end.
Definition set_unreg u s := match s with Wait e0 n0 i0 h0 t0 q0 g0 k0 r0 _ => Wait e0 n0 i0 h0 t0 q0 g0 k0 r0 u end.
Definition set_task t s := match s with Wait e0 n0 i0 h0 _ q0 g0 k0 r0 u0 => Wait e0 n0 i0 h0 t q0 g0 k0 r0 u0 end.
Definition set_lock h s := match s with Wait e0 n0 i0 _ t0 q0 g0 k0 r0 u0 => Wait e0 n0 i0 h t0 q0 g0 k0 r0 u0 end.
Definition set_queued q s := match s with Wait e0 n0 i0 h0 t0 _ g0 k0 r0 u0 => Wait e0 n0 i0 h0 t0 q g0 k0 r0 u0 end.
Definition set_seen n s := match s with Wait e0 _ i0 h0 t0 q0 g0 k0 r0 u0 => Wait e0 n i0 h0 t0 q0 g0 k0 r0 u0 end.
Definition set_event e k s := match s with Wait _ n0 i0 h0 t0 q0 g0 _ r0 u0 => Wait e n0 i0 h0 t0 q0 g0 k r0 u0 end.
Definition clear_info s := match s with Wait e0 n0 _ h0 t0 q0 g0 k0 r0 u0 => Wait e0 n0 false h0 t0 q0 g0 k0 r0 u0 end.
Definition set_signal s := match s with Wait e0 n0 i0 h0 t0 q0 _ k0 r0 u0 => Wait e0 n0 i0 h0 t0 q0 true k0 r0 u0 end.

(** ** The scheduler *)

(** The state of a task after [wake_up_interruptible] on a queue it is on or not,
    whether [schedule] called in a state puts the task to sleep, and the state after
    a signal. *)
Class WaitQueue := {
  woken : bool -> task_state -> task_state;
  sleeps : task_state -> bool;
  signalled : task_state -> task_state }.

Class WaitQueueOk `{WaitQueue} := {
  woken_queued t : woken true t = TASK_RUNNING;
  sleeps_interruptible : sleeps TASK_INTERRUPTIBLE = true;
  sleeps_running : sleeps TASK_RUNNING = false;
  signalled_runs t : signalled t = TASK_RUNNING }.

Section system.
Context `{WQ : WaitQueue}.

(** [wake_up_interruptible(&idev->wait)] *)
Definition wake_up s : wait := set_task (woken (wt_queued s) (wt_task s)) s.

(** ** Steps *)

(** One step of a blocking [uio_read] of [count] bytes; [copied] says whether
    [copy_to_user] succeeds; [None] while the reader cannot go on. *)
Definition reader_step (count : Z) (copied : bool) s : option wait :=
  match wt_reader s with
  | RStart => Some (set_reader RLock (set_queued true s))
  | RLock => match wt_lock s with None => Some (set_reader RCheck (set_lock (Some Reader) s)) | Some _ => None end
  | RCheck => Some (set_reader (RUnlock (negb (wt_info s))) s)
  | RUnlock gone => Some (set_reader (if gone then RExit (- EIO) else RSetState) (set_lock None s))
  | RSetState => Some (set_reader RLoad (set_task TASK_INTERRUPTIBLE s))
  | RLoad => Some (set_reader (RCompare (wt_event s)) s)
  | RCompare e =>
      if negb (e =? wt_seen s) then
        let s := set_task TASK_RUNNING s in
        Some (if copied then set_reader (RExit count) (set_seen e s) else set_reader (RExit (- EFAULT)) s)
      else Some (set_reader RSignal s)
  | RSignal => Some (set_reader (if wt_signal s then RExit (- ERESTARTSYS) else RSchedule) s)
  | RSchedule => Some (set_reader (if sleeps (wt_task s) then RAsleep else RLock) s)
  | RAsleep => if sleeps (wt_task s) then None else Some (set_reader RLock s)
  | RExit v => Some (set_reader (RDone v) (set_queued false (set_task TASK_RUNNING s)))
  | RDone _ => None
  end.

(** One step of [uio_unregister_device], as far as a reader can see it. *)
Definition unregister_step s : option wait :=
  match wt_unreg s with
  | UStart => match wt_lock s with None => Some (set_unreg ULocked (set_lock (Some Unregister) s)) | Some _ => None end
  | ULocked => Some (set_unreg UCleared (clear_info s))
  | UCleared => Some (set_unreg UUnlocked (set_lock None s))
  | UUnlocked => Some (set_unreg UDone (wake_up s))
  | UDone => None
  end.

(** The two steps of [uio_event_notify]. *)
Definition notify_inc s : wait := set_event (atomic_inc (wt_event s)) (S (wt_wakes s)) s.
Definition notify_wake s : option wait :=
  match wt_wakes s with O => None | S n => Some (wake_up (set_event (wt_event s) n s)) end.

(** A signal wakes an interruptible sleeper. *)
Definition signal_step s : wait := set_task (signalled (wt_task s)) (set_signal s).

Variant label := LReader (copied : bool) | LUnregister | LNotify | LWake | LSignal.

Inductive step (count : Z) : label -> wait -> wait -> Prop :=
| step_reader copied s s' : reader_step count copied s = Some s' -> step count (LReader copied) s s'
| step_unregister s s' : unregister_step s = Some s' -> step count LUnregister s s'
| step_notify s : step count LNotify s (notify_inc s)
| step_wake s s' : notify_wake s = Some s' -> step count LWake s s'
| step_signal s : step count LSignal s (signal_step s).

Inductive steps (count : Z) : list label -> wait -> wait -> Prop :=
| steps_refl s : steps count [] s s
| steps_cons l ls s1 s2 s3 : step count l s1 s2 -> steps count ls s2 s3 -> steps count (l :: ls) s1 s3.

(** A registered device with any event count, and a file whose reader starts. *)
Definition start (event seen : Z) : wait := Wait event seen true None TASK_RUNNING false false 0 RStart UStart.

Definition reachable (count : Z) s : Prop := exists event seen ls, steps count ls (start event seen) s.

(** ** Composition *)

Lemma steps_app count ls1 ls2 s1 s2 s3 : steps count ls1 s1 s2 -> steps count ls2 s2 s3 -> steps count (ls1 ++ ls2) s1 s3.
Proof. induction 1; [done|]. intros. econstructor; eauto. Qed.

(** A list of labels run from a state, where they are enabled. *)
Definition next (count : Z) (l : label) s : option wait :=
  match l with
  | LReader copied => reader_step count copied s
  | LUnregister => unregister_step s
  | LNotify => Some (notify_inc s)
  | LWake => notify_wake s
  | LSignal => Some (signal_step s)
  end.

Fixpoint play (count : Z) (ls : list label) s : option wait :=
  match ls with [] => Some s | l :: ls => s' ← next count l s; play count ls s' end.

Lemma step_next count l s s' : step count l s s' <-> next count l s = Some s'.
Proof.
  split; [by intros []; cbn|]. destruct l; cbn; intros H; try (by constructor); injection H as <-; constructor.
Qed.

Lemma play_steps count ls : forall s s', play count ls s = Some s' -> steps count ls s s'.
Proof.
  induction ls as [|l ls IH]; intros s s' H; cbn in H; [injection H as <-; constructor|].
  destruct (next count l s) as [s1|] eqn:E; [|done]. apply step_next in E. econstructor; [exact E|]. by apply IH.
Qed.

Lemma reachable_ind count (P : wait -> Prop) :
  (forall e n, P (start e n)) -> (forall l s s', P s -> step count l s s' -> P s') -> forall s, reachable count s -> P s.
Proof.
  intros H0 Hs s (e & n & ls & Hls). specialize (H0 e n). induction Hls; [done|]. apply IHHls. by eapply Hs.
Qed.

(** ** Invariants *)

Context `{WQok : !WaitQueueOk}.
Set Default Proof Using "All".

(** The reader has found nothing new: it is about to sleep, or sleeps. *)
Definition idle (r : reader) : bool := match r with RSignal | RSchedule | RAsleep => true | _ => false end.
Definition in_loop (r : reader) : bool := match r with RStart | RDone _ => false | _ => true end.

Record wait_inv s : Prop := WaitInv {
  wi_queued : wt_queued s = in_loop (wt_reader s);
  wi_loaded e : wt_reader s = RCompare e -> e = wt_event s \/ (0 < wt_wakes s)%nat \/ wt_task s = TASK_RUNNING;
  wi_idle : idle (wt_reader s) = true -> wt_seen s = wt_event s \/ (0 < wt_wakes s)%nat \/ wt_task s = TASK_RUNNING;
  wi_lock : wt_lock s = match wt_reader s, wt_unreg s with
                        | (RCheck | RUnlock _), _ => Some Reader
                        | _, (ULocked | UCleared) => Some Unregister
                        | _, _ => None
                        end;
  wi_excl : match wt_reader s, wt_unreg s with (RCheck | RUnlock _), (ULocked | UCleared) => False | _, _ => True end;
  wi_info : wt_info s = match wt_unreg s with UStart | ULocked => true | _ => false end }.

Lemma wait_inv_reader count copied s s' : wait_inv s -> reader_step count copied s = Some s' -> wait_inv s'.
Proof.
  destruct s as [ev seen info lk tk q sg wk r u]. intros [Hq Hl Hi Hk He Hf] Hs.
  unfold reader_step in Hs. cbn in Hq, Hl, Hi, Hk, He, Hf, Hs.
  destruct r; try discriminate; repeat (case_match; try discriminate); simplify_eq; split; cbn; intros; simplify_eq; auto.
  all: try (repeat case_match; done).
  all: match goal with H : negb _ = false |- _ => apply negb_false_iff, Z.eqb_eq in H end; subst;
    destruct (Hl _ eq_refl) as [->|?]; auto.
Qed.

Lemma wait_inv_wake s : wait_inv s -> wait_inv (wake_up s).
Proof.
  destruct s as [ev seen info lk tk q sg wk r u]. intros [Hq Hl Hi Hk He Hf]. unfold wake_up. cbn in *.
  destruct q; rewrite ?woken_queued; split; cbn in *; auto; by destruct r.
Qed.

Lemma wait_inv_step count l s s' : wait_inv s -> step count l s s' -> wait_inv s'.
Proof.
  intros Hw Hst. destruct Hst as [copied w w' Hs|w w' Hs|w|w w' Hs|w].
  - by eapply wait_inv_reader.
  - destruct w as [ev seen info lk tk q sg wk r u]. unfold unregister_step in Hs. cbn in Hs.
    destruct u; simplify_eq.
    + destruct lk; simplify_eq. destruct Hw as [Hq Hl Hi Hk He Hf]. split; cbn in *; auto; by destruct r.
    + destruct Hw as [Hq Hl Hi Hk He Hf]. split; cbn in *; auto.
    + destruct Hw as [Hq Hl Hi Hk He Hf]. split; cbn in *; auto; by destruct r.
    + apply wait_inv_wake in Hw. destruct Hw as [Hq Hl Hi Hk He Hf]. unfold wake_up in *. cbn in *. split; cbn in *; auto.
  - destruct w as [ev seen info lk tk q sg wk r u]. destruct Hw as [Hq Hl Hi Hk He Hf].
    split; cbn in *; auto; intros; right; left; lia.
  - destruct w as [ev seen info lk tk q sg [|wk] r u]; [done|]. unfold notify_wake, wake_up in Hs. cbn in Hs.
    destruct Hw as [Hq Hl Hi Hk He Hf]. cbn in *. simplify_eq. destruct (in_loop r) eqn:Er; rewrite ?woken_queued; split; cbn in *; auto.
    all: by destruct r.
  - destruct w as [ev seen info lk tk q sg wk r u]. destruct Hw as [Hq Hl Hi Hk He Hf].
    split; cbn in *; rewrite ?signalled_runs; auto.
Qed.

Lemma reachable_inv count s : reachable count s -> wait_inv s.
Proof. apply reachable_ind; [intros e n; by split|intros; by eapply wait_inv_step]. Qed.

(** C9. No event is lost to a sleeping reader, however notifications, unregistration and
    signals interleave with it: in every reachable state a reader that sleeps has
    already seen the device's last event, or a notifier that counted a newer one has
    still to wake it. *)
Theorem uio_event_wakeup_not_lost count s :
  reachable count s -> wt_reader s = RAsleep -> wt_task s = TASK_INTERRUPTIBLE ->
  wt_seen s = wt_event s \/ (0 < wt_wakes s)%nat /\ exists s', step count LWake s s' /\ wt_task s' = TASK_RUNNING.
Proof.
  intros Hr Ha Ht. destruct (reachable_inv _ _ Hr) as [Hq _ Hi _ _ _]. rewrite Ha in Hi, Hq.
  destruct (Hi eq_refl) as [?|[Hw|Hw]]; [by left| |congruence]. right. split; [done|].
  destruct (wt_wakes s) as [|n] eqn:En; [lia|]. eexists. split; [constructor; unfold notify_wake; by rewrite En|].
  unfold wake_up. destruct s; cbn in *. by rewrite Hq, woken_queued.
Qed.

(** The steps of a reader that wakes up to a new event. *)
Definition reader_pass : list label := replicate 8 (LReader true).

Lemma only_reader l : l ∈ reader_pass -> l = LWake \/ l = LReader true.
Proof. intros Hl. apply elem_of_replicate in Hl as [-> _]. by right. Qed.

Lemma play_pass count ev seen sg wk : ev <> seen ->
  play count reader_pass (Wait ev seen true None TASK_RUNNING true sg wk RAsleep UStart) =
  Some (Wait ev ev true None TASK_RUNNING false sg wk (RDone count) UStart).
Proof. intros Hne. cbn. rewrite sleeps_running. cbn. by rewrite (proj2 (Z.eqb_neq ev seen) Hne). Qed.

(** C14. A new event is delivered: while the device is registered and no signal is pending, a
    reader that sleeps on a device with an event it has not seen returns it after the
    pending wake-up and steps of its own only. *)
Theorem uio_event_delivered count s :
  reachable count s -> wt_reader s = RAsleep -> wt_event s <> wt_seen s -> wt_unreg s = UStart ->
  exists ls s', steps count ls s s' /\ (forall l, l ∈ ls -> l = LWake \/ l = LReader true) /\
    wt_reader s' = RDone count /\ wt_seen s' = wt_event s /\ wt_queued s' = false.
Proof.
  intros Hr Ha Hne Hu. destruct (reachable_inv _ _ Hr) as [Hq _ Hi Hk _ Hf]. rewrite Ha, Hu in *.
  destruct s as [ev seen info lk tk q sg wk r u]. cbn in *. subst. specialize (Hi eq_refl).
  destruct tk.
  - exists reader_pass. eexists. split; [by apply play_steps, play_pass|]. split_and!; try done. apply only_reader.
  - destruct Hi as [->|[Hw|?]]; [done| |done]. destruct wk as [|wk]; [lia|].
    exists (LWake :: reader_pass), (Wait ev ev true None TASK_RUNNING false sg wk (RDone count) UStart). split; [|split_and!; [|reflexivity..]].
    + econstructor; [by apply step_next|]. unfold wake_up. cbn. rewrite woken_queued. by apply play_steps, play_pass.
    + intros l [->|Hl]%elem_of_cons; [by left|by apply only_reader].
Qed.

(** C35. The wake-up of [uio_unregister_device] can be lost: the reader tests the info before
    it is cleared and marks itself sleeping after the wake-up.  Then the device is
    gone, the reader sleeps, nobody is left to wake it, and only a signal or an event of
    the device that was just unregistered could still end the read. *)
Theorem uio_unregister_wakeup_lost count (e : Z) :
  exists s, reachable count s /\ wt_unreg s = UDone /\ wt_info s = false /\ wt_reader s = RAsleep /\
    wt_task s = TASK_INTERRUPTIBLE /\ wt_wakes s = 0%nat /\
    forall l s', step count l s s' -> l = LNotify \/ l = LSignal.
Proof.
  exists (Wait e e false None TASK_INTERRUPTIBLE true false 0 RAsleep UDone). split; [|split_and!; try done].
  - exists e, e, (replicate 4 (LReader true) ++ replicate 4 LUnregister ++ replicate 5 (LReader true)).
    apply play_steps. cbn. rewrite Z.eqb_refl. cbn. by rewrite sleeps_interruptible.
  - intros l s' Hs. apply step_next in Hs. destruct l; cbn in Hs; try done; auto. by rewrite sleeps_interruptible in Hs.
Qed.

(** Unregistration does wake the readers that sleep when it gets there: a reader that
    sleeps while the wake-up is still to come is made runnable by it and then returns
    [-EIO], whatever events and signals there are. *)
Theorem uio_unregister_wakes_sleepers count s :
  reachable count s -> wt_reader s = RAsleep -> wt_unreg s = UUnlocked ->
  exists s', steps count (LUnregister :: replicate 5 (LReader true)) s s' /\ wt_reader s' = RDone (- EIO).
Proof.
  intros Hr Ha Hu. destruct (reachable_inv _ _ Hr) as [Hq _ _ Hk _ Hf]. rewrite Ha, Hu in *.
  destruct s as [ev seen info lk tk q sg wk r u]. cbn in *. subst. exists (Wait ev seen false None TASK_RUNNING false sg wk (RDone (- EIO)) UDone).
  split; [apply play_steps; cbn; by rewrite woken_queued, sleeps_running|done].
Qed.

End system.

(** ** The steps refine the loop of [uio_read] *)

Section refinement.
Context `{WQ : WaitQueue, WQok : !WaitQueueOk}.
Context `{HK : Kernel, HU : Uapi} {D : Type} `{HD : !UioDriver D, HDok : !UioDriverOk D}.
Implicit Types (w : world D).

(** What a reader of [f] sees of a world: a state of the system above in which the reader is at
    [r] and nobody else has begun anything; an info whose interrupt is 0 counts as gone. *)
Definition view w (f : Z) (t : task_state) (pending : bool) (r : reader) : wait :=
  Wait (default 0 (dev_event_count w f)) (default 0 (seen_event_count w f)) (negb (file_gone w f)) None
    t true pending 0 r UStart.

(** The calls of a pass, the newest first: [copy_to_user] succeeded if [copied],
    [signal_pending] found a signal if [pending]; the state the task was last put in. *)
Definition answered (copied pending : bool) (e : event) : Prop :=
  match ev_call e with
  | CopyToUser _ _ => copied = (ev_ret e =? 0)
  | SignalPending => pending = negb (ev_ret e =? 0)
  | _ => True
  end.
Fixpoint task_after (evs : hist) : task_state :=
  match evs with
  | [] => TASK_RUNNING
  | e :: evs => match ev_call e with SetCurrentState t => t | _ => task_after evs end
  end.

(** Where the reader is after a pass. *)
Definition after_pass (r : read_exit) : reader := match r with ReadBreak v => RExit v | ReadAgain => RAsleep end.

Lemma view_eq w f l lst d t g r :
  w_priv w !! f = Some l -> w_heap w !! l = Some (HLsn lst) -> w_heap w !! l_dev lst = Some (HIdev d) ->
  view w f t g r = Wait (d_event d) (l_event_count lst) (negb (idev_gone w (l_dev lst))) None t true g 0 r UStart.
Proof using Type.
  intros Hp Hl Hd. pose proof (dev_of_some w f l lst Hp Hl) as Hdev. unfold view.
  rewrite (dev_event_count_eq w f _ d Hdev Hd), (seen_event_count_eq w f l lst Hp Hl). unfold file_gone. by rewrite Hdev.
Qed.

(** The invariant survives calls and a store to the listener. *)
Ltac quietly w Hi := split; [apply (inv_quiet_drv w); [exact Hi|quiet_tac|by wsimpl_goal]|].

(** C13. A pass of the loop of a blocking [uio_read] does what some number of steps of the
    reader do when nothing interferes and [copy_to_user] and [signal_pending] answer as
    they answered the pass: from what the reader sees of the world before the pass the
    steps lead to what it sees of the world after it, the device's counter, the
    listener's count and the task's state included, and end with the same value, or
    sleep where the pass sleeps. *)
Theorem uio_read_pass_refines w F σ f count :
  core_inv w F σ -> f ∈ F ->
  wp (read_pass f count false) w (fun r w' => core_inv w' F σ /\ exists evs copied pending n,
    w_hist w' = evs ++ w_hist w /\ Forall (answered copied pending) evs /\
    play count (replicate n (LReader copied)) (view w f TASK_RUNNING pending RLock) =
      Some (view w' f (task_after evs) pending (after_pass r))).
Proof using All.
  intros Hi Hf. destruct (open_file_full _ _ _ _ Hi Hf) as (l & lst & d & Hp & Hl & Hd & _ & Hr).
  unfold read_pass, read_iter. ksteps. eapply wp_no_irq; [wlookup| |].
  { intros Hn. destruct (Hr Hn) as (i & m & _ & Hinfo & _). exists i. by wsimpl_goal. }
  rewrite idev_gone_logged.
  assert (Hview : forall g, view w f TASK_RUNNING g RLock =
    Wait (d_event d) (l_event_count lst) (negb (idev_gone w (l_dev lst))) None TASK_RUNNING true g 0 RLock UStart).
  { intros g. by apply view_eq with l. }
  destruct (idev_gone w (l_dev lst)) eqn:G; cbv iota; ksteps.
  { quietly w Hi. eexists [_; _], false, false, 3%nat. rewrite !hist_logged. split; [reflexivity|].
    split; [by repeat constructor|]. rewrite Hview, (view_eq _ f l lst d); [|by wsimpl_goal..]. by rewrite !idev_gone_logged, G. }
  rewrite Z.eqb_sym. kif E; ksteps; zify_bool.
  - assert (En : (d_event d =? l_event_count lst) = false) by (apply Z.eqb_neq; congruence). kif E2; ksteps.
    + quietly w Hi.
      eexists [_; _; _; _; _], false, false, 6%nat. rewrite !hist_logged. split; [reflexivity|]. split.
      { repeat constructor. unfold answered. cbn [ev_call ev_ret]. by apply negb_true_iff in E2. }
      rewrite Hview, (view_eq _ f l lst d) by by wsimpl_goal. rewrite !idev_gone_logged, G. cbn. by rewrite En.
    + quietly w Hi.
      eexists [_; _; _; _; _], true, false, 6%nat. rewrite hist_set_heap, !hist_logged. split; [reflexivity|]. split.
      { repeat constructor. unfold answered. cbn [ev_call ev_ret]. by apply negb_false_iff in E2. }
      assert (l <> l_dev lst) by congruence.
      rewrite Hview, (view_eq _ f l (UioListener (l_dev lst) (d_event d)) d); [|by wsimpl_goal|wlookup..].
      cbn [l_dev l_event_count]. revert G. unfold idev_gone. wsimpl_goal. rewrite lookup_insert_ne by done. intros ->. cbn. by rewrite En.
  - assert (En : (d_event d =? l_event_count lst) = true) by (apply Z.eqb_eq; congruence). kif E2; ksteps.
    + quietly w Hi.
      eexists [_; _; _; _], false, true, 7%nat. rewrite !hist_logged. split; [reflexivity|]. split.
      { repeat constructor. unfold answered. cbn [ev_call ev_ret]. exact (eq_sym E2). }
      rewrite Hview, (view_eq _ f l lst d) by by wsimpl_goal. rewrite !idev_gone_logged, G. cbn. by rewrite En.
    + quietly w Hi.
      eexists [_; _; _; _; _], false, false, 8%nat. rewrite !hist_logged. split; [reflexivity|]. split.
      { repeat constructor. unfold answered. cbn [ev_call ev_ret]. exact (eq_sym E2). }
      rewrite Hview, (view_eq _ f l lst d) by by wsimpl_goal. rewrite !idev_gone_logged, G. cbn. rewrite En. cbn. by rewrite sleeps_interruptible.
Qed.

End refinement.

Module Witness.
#[local] Instance linux_wait : WaitQueue := {|
  woken q t := if q then TASK_RUNNING else t;
  sleeps t := match t with TASK_INTERRUPTIBLE => true | TASK_RUNNING => false end;
  signalled _ := TASK_RUNNING |}.
#[local] Instance linux_wait_ok : WaitQueueOk.
Proof. by split. Qed.

(** A reader that went to sleep, and an event that was counted but not yet signalled. *)
Definition asleep : wait := Wait 6 5 true None TASK_INTERRUPTIBLE true false 1 RAsleep UStart.

Lemma asleep_reachable : reachable 4 asleep.
Proof. exists 5, 5, (replicate 9 (LReader true) ++ [LNotify]). apply play_steps. reflexivity. Qed.

Example uio_event_wakeup_not_lost_witness : (0 < wt_wakes asleep)%nat.
Proof.
  destruct (uio_event_wakeup_not_lost 4 asleep asleep_reachable eq_refl eq_refl) as [H|[H _]]; [discriminate H|exact H].
Defined.

Example uio_event_delivered_witness : exists ls s', steps 4 ls asleep s' /\ wt_reader s' = RDone 4.
Proof.
  destruct (uio_event_delivered 4 asleep asleep_reachable eq_refl ltac:(done) eq_refl) as (ls & s' & H & _ & Hr & _).
  exists ls, s'. split; [exact H|exact Hr].
Defined.

(** A reader that went to sleep before the device was unregistered. *)
Definition early : wait := Wait 5 5 false None TASK_INTERRUPTIBLE true false 0 RAsleep UUnlocked.

Lemma early_reachable : reachable 4 early.
Proof. exists 5, 5, (replicate 9 (LReader true) ++ replicate 3 LUnregister). apply play_steps. reflexivity. Qed.

Example uio_unregister_wakes_sleepers_witness :
  exists s', steps 4 (LUnregister :: replicate 5 (LReader true)) early s' /\ wt_reader s' = RDone (- EIO).
Proof.
  destruct (uio_unregister_wakes_sleepers 4 early early_reachable eq_refl eq_refl) as (s' & H & Hr).
  exists s'. split; [exact H|exact Hr].
Defined.

Lemma sleeps_2 : fst <$> read_pass 9 4 false w2 = Some ReadAgain.
Proof. vm_compute. reflexivity. Qed.

(** With nothing to read the reader falls asleep, as the steps do. *)
Example uio_read_pass_refines_witness :
  exists w' evs copied pending n, read_pass 9 4 false w2 = Some (ReadAgain, w') /\ w_hist w' = evs ++ w_hist w2 /\
    play 4 (replicate n (LReader copied)) (view w2 9 TASK_RUNNING pending RLock) = Some (view w' 9 (task_after evs) pending RAsleep).
Proof.
  destruct inv2 as [σ Hi]. destruct (uio_read_pass_refines w2 _ σ 9 4 Hi open_9) as (r & w' & H & _ & evs & copied & pending & n & H1 & _ & H2).
  pose proof sleeps_2 as E. rewrite H in E. cbn in E. injection E as ->.
  exists w', evs, copied, pending, n. split; [exact H|]. split; [exact H1|exact H2].
Defined.

Example uio_unregister_wakeup_lost_witness : exists s, reachable 4 s /\ wt_unreg s = UDone /\ wt_reader s = RAsleep.
Proof. destruct (uio_unregister_wakeup_lost 4 0) as (s & H & Hu & _ & Hr & _). exists s. split; [exact H|split; [exact Hu|exact Hr]]. Defined.
End Witness.
