(* ===== verification/CLayout.v ===== *)
(** * The layout of C objects

    The headers of the program declare messages that the guest exchanges with the
    host.  This file gives C object types a meaning: size, alignment and the place
    of every member, bit-fields and packing included, under the two ABIs the
    declarations are compiled for.  [CLayoutSpec] proves what the layout promises
    and [CAccess] reads and writes members in memory. *)

From S2P Require Import Prelude.

(** GCC and Clang for x86-64 Linux, and MSVC for x64. *)
Inductive abi := SysV | MSVC.

#[export] Instance abi_eq_dec : EqDecision abi.
Proof. solve_decision. Defined.

Inductive rec_kind := Struct | Union.

(** Object types.  [CRec k p al ms] is a [struct] or [union] with members [ms],
    declared under [#pragma pack(p)], 0 for no packing, and with
    [HV_DECLSPEC_ALIGN(al)], 1 for no such attribute.  [CAlign a t] is the type of a
    member that is itself declared with [HV_DECLSPEC_ALIGN(a)]: the attribute moves
    the member and does not change its size. *)
Inductive cty :=
  | CInt (signed : bool) (size : Z)
  | CLong (signed : bool)
  | CPtr
  | CArr (t : cty) (n : Z)
  | CAlign (a : Z) (t : cty)
  | CRec (k : rec_kind) (pack al : Z) (ms : members)
with members :=
  | MNil
  | MMem (name : string) (t : cty) (ms : members)
  | MBits (name : string) (t : cty) (width : Z) (ms : members).

Scheme cty_mut := Induction for cty Sort Prop
  with members_mut := Induction for members Sort Prop.
Combined Scheme cty_members_ind from cty_mut, members_mut.

(** The name of a member without one. *)
Definition anonymous : string := "_".

(** A record is declared member by member, the type first, as the source writes it. *)
Definition fld (t : cty) (n : string) : members -> members := MMem n t.
Definition bit (t : cty) (n : string) (w : Z) : members -> members := MBits n t w.
Definition decl (l : list (members -> members)) : members := foldr (fun f ms => f ms) MNil l.
Definition struct (p : Z) (l : list (members -> members)) : cty := CRec Struct p 1 (decl l).
Definition union (p : Z) (l : list (members -> members)) : cty := CRec Union p 1 (decl l).
Definition aligned (a : Z) (t : cty) : cty :=
  match t with CRec k p al ms => CRec k p (Z.max a al) ms | _ => CAlign a t end.

Definition INT8 := CInt true 1.
Definition INT16 := CInt true 2.
Definition INT32 := CInt true 4.
Definition INT64 := CInt true 8.
Definition UINT8 := CInt false 1.
Definition UINT16 := CInt false 2.
Definition UINT32 := CInt false 4.
Definition UINT64 := CInt false 8.

(** ** Placement *)

(** The next multiple of [a] that is at least [x]. *)
Definition round_up (x a : Z) : Z := (x + a - 1) / a * a.

(** The alignment of a member of alignment [a] under packing [p]. *)
Definition cap (p a : Z) : Z := if p =? 0 then a else Z.min p a.

(** The number of elements a trailing array is declared with. *)
Definition HV_ANYSIZE_ARRAY : Z := 1.

Definition u8 (z : Z) : Z := z mod 2 ^ 8.

(** Where the next member goes: the end of the members so far, in bits (for MSVC,
    the end of the last allocated unit), the alignment so far, in bytes, and for
    MSVC the open bit-field unit: its size in bytes and the end of its used part. *)
Record cursor := Cursor { c_pos : Z; c_align : Z; c_unit : option (Z * Z) }.
Definition cursor0 : cursor := Cursor 0 1 None.

(** An ordinary member of size [s] and alignment [a]. *)
Definition place_mem (k : rec_kind) (p : Z) (m : Z * Z) (c : cursor) : Z * cursor :=
  let '(s, a) := m in
  let off := match k with Struct => round_up (c_pos c) (8 * cap p a) | Union => 0 end in
  (off, Cursor (Z.max (c_pos c) (off + 8 * s)) (Z.max (c_align c) (cap p a)) None).

(** A bit-field of [w] bits.  The System V rule places it in the next bits unless
    it would then lie across more storage units than its type has; MSVC places it
    in the open unit when the unit has the size of its type and room, and opens a
    new unit otherwise.  An unnamed bit-field does not count for the alignment under
    System V. *)
Definition crosses (pos w a s : Z) : bool := 8 * s / a <? (pos + w + a - 1) / a - pos / a.
Definition place_bits (b : abi) (k : rec_kind) (p : Z) (n : string) (m : Z * Z) (w : Z) (c : cursor) : Z * cursor :=
  let '(s, a) := m in
  let a' := 8 * cap p a in
  let al := if bool_decide (b = SysV /\ n = anonymous) then c_align c else Z.max (c_align c) (cap p a) in
  match k, b with
  | Union, SysV => (0, Cursor (Z.max (c_pos c) w) al None)
  | Union, MSVC => (0, Cursor (Z.max (c_pos c) (8 * s)) al None)
  | Struct, SysV =>
      let off := if crosses (c_pos c) w a' s then round_up (c_pos c) a' else c_pos c in
      (off, Cursor (off + w) al None)
  | Struct, MSVC =>
      match c_unit c with
      | Some (s', used) =>
          if (s' =? s) && (used + w <=? c_pos c) then (used, Cursor (c_pos c) al (Some (s, used + w)))
          else let off := round_up (c_pos c) a' in (off, Cursor (off + 8 * s) al (Some (s, off + w)))
      | None => let off := round_up (c_pos c) a' in (off, Cursor (off + 8 * s) al (Some (s, off + w)))
      end
  end.

(** Size and alignment of a record, in bytes, once its members are placed. *)
Definition close_rec (al : Z) (c : cursor) : Z * Z :=
  let a := Z.max al (c_align c) in (round_up (c_pos c) (8 * a) / 8, a).

(** ** Size and alignment, in bytes *)

Fixpoint measure (b : abi) (t : cty) : Z * Z :=
  match t with
  | CInt _ n => (n, n)
  | CLong _ => match b with SysV => (8, 8) | MSVC => (4, 4) end
  | CPtr => (8, 8)
  | CArr t n => let '(s, a) := measure b t in (s * n, a)
  | CAlign a t => let '(s, a') := measure b t in (s, Z.max a a')
  | CRec k p al ms => close_rec al (place_all b k p ms cursor0)
  end
with place_all (b : abi) (k : rec_kind) (p : Z) (ms : members) (c : cursor) : cursor :=
  match ms with
  | MNil => c
  | MMem _ t ms => place_all b k p ms (place_mem k p (measure b t) c).2
  | MBits n t w ms => place_all b k p ms (place_bits b k p n (measure b t) w c).2
  end.

Definition sizeof b t : Z := (measure b t).1.
Definition alignof b t : Z := (measure b t).2.

(** The members of a record: name, type, first bit and number of bits. *)
Record placed := Placed { p_name : string; p_type : cty; p_off : Z; p_width : Z; p_bits : bool }.
Definition p_end (m : placed) : Z := p_off m + p_width m.

Fixpoint placed_all (b : abi) (k : rec_kind) (p : Z) (ms : members) (c : cursor) : list placed :=
  match ms with
  | MNil => []
  | MMem n t ms =>
      let '(off, c') := place_mem k p (measure b t) c in
      Placed n t off (8 * sizeof b t) false :: placed_all b k p ms c'
  | MBits n t w ms =>
      let '(off, c') := place_bits b k p n (measure b t) w c in
      Placed n t off w true :: placed_all b k p ms c'
  end.

Definition members_of (b : abi) (t : cty) : list placed :=
  match t with
  | CRec k p _ ms => placed_all b k p ms cursor0
  | _ => []
  end.

(** ** Member access paths

    [find b t x] is the bit offset, the width in bits and the type of [t.x]; the members of
    an unnamed [struct] or [union] are members of the record around it. *)

Fixpoint find (b : abi) (t : cty) (x : string) : option (Z * Z * cty) :=
  match t with
  | CAlign _ t => find b t x
  | CRec k p _ ms => find_in b k p ms cursor0 x
  | _ => None
  end
with find_in (b : abi) (k : rec_kind) (p : Z) (ms : members) (c : cursor) (x : string) : option (Z * Z * cty) :=
  match ms with
  | MNil => None
  | MMem n t ms =>
      let '(off, c') := place_mem k p (measure b t) c in
      if String.eqb n x then Some (off, 8 * sizeof b t, t)
      else match (if String.eqb n anonymous then find b t x else None) with
           | Some (o, w, t') => Some (off + o, w, t')
           | None => find_in b k p ms c' x
           end
  | MBits n t w ms =>
      let '(off, c') := place_bits b k p n (measure b t) w c in
      if String.eqb n x then Some (off, w, t) else find_in b k p ms c' x
  end.

(** A path: a member, or an element of an array. *)
Inductive step := Dot (x : string) | Idx (i : Z).

Fixpoint locate (b : abi) (t : cty) (path : list step) : option (Z * Z * cty) :=
  match path with
  | [] => Some (0, 8 * sizeof b t, t)
  | Dot x :: rest =>
      match find b t x with
      | Some (o, w, t') =>
          match rest with
          | [] => Some (o, w, t')
          | _ => match locate b t' rest with Some (o', w', r) => Some (o + o', w', r) | None => None end
          end
      | None => None
      end
  | Idx i :: rest =>
      match t with
      | CArr t' n =>
          if (0 <=? i) && (i <? n) then
            match locate b t' rest with Some (o', w', r) => Some (8 * sizeof b t' * i + o', w', r) | None => None end
          else None
      | _ => None
      end
  end.

(** [HV_FIELD_OFFSET], [HV_FIELD_SIZE] and [HV_FIELD_SIZE_THROUGH], in bytes;
    a member that does not exist does not compile, here [None]. *)
Definition HV_FIELD_OFFSET (b : abi) (t : cty) (x : string) : option Z :=
  match find b t x with Some (o, _, _) => Some (o / 8) | None => None end.
Definition HV_FIELD_SIZE (b : abi) (t : cty) (x : string) : option Z :=
  match find b t x with Some (_, w, _) => Some (w / 8) | None => None end.
Definition HV_FIELD_SIZE_THROUGH (b : abi) (t : cty) (x : string) : option Z :=
  match HV_FIELD_OFFSET b t x, HV_FIELD_SIZE b t x with
  | Some o, Some s => Some (o + s)
  | _, _ => None
  end.

(** The sum of two such values. *)
Definition option_add (x y : option Z) : option Z :=
  match x, y with Some a, Some b => Some (a + b) | _, _ => None end.

(** [HV_FIELD_CONTAINS(Struct, Size, Field)]: an object that starts at [addr] and has [size] bytes
    holds the field. *)
Definition HV_FIELD_CONTAINS (b : abi) (t : cty) (addr size : Z) (x : string) : option bool :=
  match HV_FIELD_OFFSET b t x, HV_FIELD_SIZE b t x with
  | Some o, Some s => Some (addr + o + s <=? addr + size)
  | _, _ => None
  end.

(** ** What a declaration needs to compile *)

Definition is_align (a : Z) : bool := existsb (Z.eqb a) [1; 2; 4; 8; 16; 32; 64; 128].

Definition is_size (n : Z) : bool := existsb (Z.eqb n) [1; 2; 4; 8].

Fixpoint wf (t : cty) : bool :=
  match t with
  | CInt _ n => is_size n
  | CLong _ | CPtr => true
  | CArr t n => wf t && (0 <=? n)
  | CAlign a t => is_align a && wf t
  | CRec _ p al ms => ((p =? 0) || is_align p) && is_align al && wf_members ms
  end
with wf_members (ms : members) : bool :=
  match ms with
  | MNil => true
  | MMem _ t ms => wf t && wf_members ms
  | MBits _ (CInt _ n) w ms => is_size n && (0 <? w) && (w <=? 8 * n) && wf_members ms
  | MBits _ _ _ _ => false
  end.

(** ** Enumerations

    An enumerator has a value of its own or is one more than the enumerator
    before it, 0 for the first. *)

Inductive enumerator := Is (name : string) (value : Z) | Next (name : string) | As (name of_name : string).

Definition enum := list enumerator.

Definition value_of (env : list (string * Z)) (x : string) : option Z :=
  match List.find (fun p => String.eqb p.1 x) env with Some p => Some p.2 | None => None end.

(** The enumerators declared so far, the last one first. *)
Fixpoint enum_env (e : enum) (env : list (string * Z)) : option (list (string * Z)) :=
  match e with
  | [] => Some env
  | Is x v :: e => enum_env e ((x, v) :: env)
  | Next x :: e => enum_env e ((x, match env with (_, v) :: _ => v + 1 | [] => 0 end) :: env)
  | As x y :: e => match value_of env y with Some v => enum_env e ((x, v) :: env) | None => None end
  end.

Definition enum_values (e : enum) : list (string * Z) :=
  match enum_env e [] with Some env => rev env | None => [] end.

Definition enum_value (e : enum) (x : string) : Z :=
  match value_of (enum_values e) x with Some v => v | None => -1 end.

(** The object type of an enumeration: GCC takes an unsigned type when no enumerator is
    negative, of 8 bytes when one does not fit 4; MSVC takes [int].  The two agree
    on the size of every enumeration of the headers. *)
Definition fits32 (v : Z) : bool := (- 2 ^ 31 <=? v) && (v <? 2 ^ 32).
Definition enum_type (e : enum) : cty :=
  CInt (existsb (fun p => p.2 <? 0) (enum_values e)) (if forallb (fun p => fits32 p.2) (enum_values e) then 4 else 8).

(** [(T)z] for a signed type of [w] bits. *)
Definition to_signed (w z : Z) : Z := (z + 2 ^ (w - 1)) mod 2 ^ w - 2 ^ (w - 1).
Definition UINT64_MAX : Z := 2 ^ 64 - 1.

(** [HV_WCHAR], and the record [HV_GUID] with its values. *)
Definition HV_WCHAR : cty := UINT16.
Definition HV_GUID : cty :=
  struct 0 [fld UINT32 "Data1"; fld UINT16 "Data2"; fld UINT16 "Data3"; fld (CArr UINT8 8) "Data4"].

Record guid := Guid { Data1 : Z; Data2 : Z; Data3 : Z; Data4 : list Z }.

(** A character constant of several characters: GCC and MSVC shift the characters
    in from the left. *)
Definition multi_char (s : string) : Z :=
  fold_left (fun v c => Z.lor (Z.shiftl v 8) (Z.of_N (Ascii.N_of_ascii c))) (String.list_ascii_of_string s) 0.
