(* ===== verification/CLayoutSpec.v ===== *)
(** * What the layout of a C object promises

    The members of a record lie inside it, at aligned offsets; those of a [struct]
    follow each other without overlap, bit-fields included; two ABIs that place
    the members of every nested record alike give every access path the same bits. *)

From Stdlib Require Import Sorted.
From S2P Require Import Prelude CLayout.

(** ** Rounding *)

Lemma round_up_le x a : 0 < a -> x <= round_up x a.
Proof. intros Ha. unfold round_up. pose proof (Z_div_mod_eq_full (x + a - 1) a). pose proof (Z.mod_pos_bound (x + a - 1) a). lia. Qed.

Lemma round_up_lt x a : 0 < a -> round_up x a < x + a.
Proof. intros Ha. unfold round_up. pose proof (Z_div_mod_eq_full (x + a - 1) a). pose proof (Z.mod_pos_bound (x + a - 1) a). lia. Qed.

Lemma round_up_divide x a : (a | round_up x a).
Proof. exists ((x + a - 1) / a). reflexivity. Qed.

Lemma round_up_id x a : 0 < a -> (a | x) -> round_up x a = x.
Proof.
  intros Ha Hx. pose proof (round_up_le x a Ha). pose proof (round_up_lt x a Ha).
  destruct (round_up_divide x a) as [k Hk]. destruct Hx as [j Hj].
  assert (k = j) by nia. congruence.
Qed.

(** The least multiple of [a] above [x]. *)
Lemma round_up_least x a y : 0 < a -> (a | y) -> x <= y -> round_up x a <= y.
Proof.
  intros Ha [j Hj] Hxy. pose proof (round_up_lt x a Ha).
  destruct (round_up_divide x a) as [k Hk]. assert (k <= j) by nia. nia.
Qed.

(** ** Alignments *)

Lemma is_align_cases a : is_align a = true ->
  a = 1 \/ a = 2 \/ a = 4 \/ a = 8 \/ a = 16 \/ a = 32 \/ a = 64 \/ a = 128.
Proof. unfold is_align. cbn. rewrite !orb_true_iff, !Z.eqb_eq. intuition congruence. Qed.

Lemma is_align_pos a : is_align a = true -> 0 < a.
Proof. intros H. apply is_align_cases in H. lia. Qed.

Lemma is_align_max a b : is_align a = true -> is_align b = true -> is_align (Z.max a b) = true.
Proof. intros Ha Hb. destruct (Z.max_spec a b) as [[_ ->]|[_ ->]]; done. Qed.

Lemma is_align_divide a b : is_align a = true -> is_align b = true -> a <= b -> (a | b).
Proof.
  intros Ha Hb Hab. apply is_align_cases in Ha, Hb.
  destruct Ha as [->|[->|[->|[->|[->|[->|[->| ->]]]]]]];
  destruct Hb as [->|[->|[->|[->|[->|[->|[->| ->]]]]]]];
  try lia; first [by apply Z.divide_refl | by apply Z.mod_divide; [lia|]].
Qed.

Definition pack_ok (p : Z) : bool := (p =? 0) || is_align p.

Lemma cap_align p a : pack_ok p = true -> is_align a = true -> is_align (cap p a) = true.
Proof.
  unfold pack_ok, cap. rewrite orb_true_iff. intros [Hp|Hp] Ha.
  - by rewrite Hp.
  - destruct (p =? 0); [done|]. destruct (Z.min_spec p a) as [[_ ->]|[_ ->]]; done.
Qed.

Lemma is_size_align n : is_size n = true -> is_align n = true.
Proof. unfold is_size, is_align. cbn. rewrite !orb_true_iff. intuition. Qed.

(** ** The cursor *)

(** The first bit the next member may take. *)
Definition frontier (c : cursor) : Z := match c_unit c with Some (_, used) => used | None => c_pos c end.

Record cursor_ok (c : cursor) : Prop := {
  co_front : 0 <= frontier c;
  co_pos : frontier c <= c_pos c;
  co_align : is_align (c_align c) = true }.

Lemma cursor0_ok : cursor_ok cursor0.
Proof. by split. Qed.

(** What placing a member of [w] bits at [off] does. *)
Record placed_ok (k : rec_kind) (c : cursor) (off w : Z) (c' : cursor) : Prop := {
  po_ok : cursor_ok c';
  po_front : 0 <= off;
  po_after : k = Struct -> frontier c <= off /\ off + w <= frontier c';
  po_in : off + w <= c_pos c';
  po_pos : c_pos c <= c_pos c';
  po_align : c_align c <= c_align c' }.

Section place.
Context (b : abi) (k : rec_kind) (p : Z) (Hp : pack_ok p = true).
Implicit Types c : cursor.

Lemma place_mem_ok s a c : 0 <= s -> is_align a = true -> cursor_ok c ->
  let '(off, c') := place_mem k p (s, a) c in
  placed_ok k c off (8 * s) c' /\ (8 * cap p a | off) /\ cap p a <= c_align c'.
Proof using Hp.
  intros Hs Ha [Hf Hc Hal]. unfold place_mem.
  pose proof (cap_align p a Hp Ha) as Hcap. pose proof (is_align_pos _ Hcap).
  pose proof (round_up_le (c_pos c) (8 * cap p a) ltac:(lia)).
  split; [|split; [|cbn; lia]].
  - split; [split; unfold frontier|..]; unfold frontier; cbn; try (destruct k; lia).
    + by apply is_align_max.
    + intros ->. fold (frontier c). lia.
  - destruct k; [apply round_up_divide|apply Z.divide_0_r].
Qed.

(** A bit-field of a type of [n] bytes. *)
Lemma place_bits_ok nm n w c : is_size n = true -> 0 < w <= 8 * n -> cursor_ok c ->
  let '(off, c') := place_bits b k p nm (n, n) w c in placed_ok k c off w c'.
Proof using Hp.
  intros Hn Hw [Hf Hc Hal]. unfold place_bits. cbn [fst snd].
  pose proof (cap_align p n Hp (is_size_align _ Hn)) as Hcap. pose proof (is_align_pos _ Hcap).
  pose proof (round_up_le (c_pos c) (8 * cap p n) ltac:(lia)) as Hr.
  set (al := if bool_decide (b = SysV /\ nm = anonymous) then c_align c else Z.max (c_align c) (cap p n)).
  assert (Hal' : is_align al = true) by (unfold al; case_bool_decide; [done|by apply is_align_max]).
  assert (Hle : c_align c <= al) by (unfold al; case_bool_decide; lia).
  clearbody al. set (A := 8 * cap p n) in *. clearbody A. unfold frontier in Hf, Hc.
  destruct k, b; cbn.
  - destruct (crosses (c_pos c) w A n); (split; [split; unfold frontier|..]; unfold frontier; cbn; try done; try lia).
  - destruct (c_unit c) as [[s' used]|] eqn:E; [destruct ((s' =? n) && (used + w <=? c_pos c)) eqn:E2; zify_bool|];
    (split; [split; unfold frontier|..]; unfold frontier; cbn; rewrite ?E; try done; try lia).
  - split; [split; unfold frontier|..]; unfold frontier; cbn; try done; try lia.
  - split; [split; unfold frontier|..]; unfold frontier; cbn; try done; try lia.
Qed.
End place.

(** ** Sizes and alignments of well-formed types *)

Definition ty_ok (b : abi) (t : cty) : Prop := 0 <= sizeof b t /\ is_align (alignof b t) = true.

Lemma wf_bits_cty n t w ms : wf_members (MBits n t w ms) = true ->
  exists sg sz, t = CInt sg sz /\ is_size sz = true /\ 0 < w <= 8 * sz /\ wf_members ms = true.
Proof.
  destruct t; cbn; try done. rewrite !andb_true_iff. intros [[[H1 H2] H3] H4]. zify_bool.
  repeat eexists; try done; lia.
Qed.

(** A pair is the pair of its components. *)
Lemma measure_eta b t : measure b t = (sizeof b t, alignof b t).
Proof. unfold sizeof, alignof. by destruct (measure b t). Qed.

Lemma place_all_ok b : (forall t, wf t = true -> ty_ok b t) /\
  (forall ms, wf_members ms = true -> forall k p c, pack_ok p = true -> cursor_ok c ->
     cursor_ok (place_all b k p ms c) /\ c_pos c <= c_pos (place_all b k p ms c) /\
     c_align c <= c_align (place_all b k p ms c)).
Proof.
  apply cty_members_ind.
  - intros sg n H. unfold ty_ok, sizeof, alignof. cbn in *. pose proof (is_size_align _ H) as Ha.
    pose proof (is_align_pos _ Ha). by split; [lia|].
  - intros sg _. destruct b; done.
  - done.
  - intros t IH n. cbn [wf]. rewrite andb_true_iff. intros [Hw Hn]. zify_bool. destruct (IH Hw) as [H1 H2].
    unfold ty_ok, sizeof, alignof in *. cbn. destruct (measure b t). cbn in *. split; [nia|done].
  - intros a t IH. cbn [wf]. rewrite andb_true_iff. intros [Ha Hw]. destruct (IH Hw) as [H1 H2].
    unfold ty_ok, sizeof, alignof in *. cbn. destruct (measure b t). cbn in *. split; [lia|by apply is_align_max].
  - intros k p al ms IH. cbn [wf]. rewrite !andb_true_iff. intros [[Hp Hal] Hw].
    destruct (IH Hw k p cursor0 Hp cursor0_ok) as ([Hf Hc Ha] & Hpos & _).
    unfold ty_ok, sizeof, alignof. cbn. pose proof (is_align_max _ _ Hal Ha) as Hm. split; [|done].
    pose proof (is_align_pos _ Hm).
    pose proof (round_up_le (c_pos (place_all b k p ms cursor0)) (8 * Z.max al (c_align (place_all b k p ms cursor0))) ltac:(lia)).
    apply Z.div_pos; [cbn in Hpos; lia|lia].
  - intros _ k p c _ Hc. cbn. split_and!; [done|lia|lia].
  - intros n t IHt ms IH. cbn [wf_members]. rewrite andb_true_iff. intros [Hw Hms] k p c Hp Hc.
    cbn [place_all]. destruct (IHt Hw) as [H1 H2]. rewrite measure_eta.
    pose proof (place_mem_ok k p Hp _ _ c H1 H2 Hc) as Hpl. destruct (place_mem _ _ _ _) as [off c']. cbn.
    destruct Hpl as [[Hok _ _ _ Hpo Hal] _]. destruct (IH Hms k p c' Hp Hok) as (? & ? & ?).
    split_and!; [done|lia|lia].
  - intros n t IHt w ms IH Hw k p c Hp Hc. destruct (wf_bits_cty _ _ _ _ Hw) as (sg & sz & -> & Hsz & Hwd & Hms).
    cbn [place_all measure]. pose proof (place_bits_ok b k p Hp n sz w c Hsz Hwd Hc) as Hpl.
    destruct (place_bits _ _ _ _ _ _ _) as [off c']. cbn. destruct Hpl as [Hok _ _ _ Hpo Hal].
    destruct (IH Hms k p c' Hp Hok) as (? & ? & ?). split_and!; [done|lia|lia].
Qed.

Lemma wf_ty_ok b t : wf t = true -> ty_ok b t.
Proof. apply place_all_ok. Qed.

(** ** Members *)

(** The alignment a member is placed at. *)
Definition member_align (b : abi) (p : Z) (m : placed) : Z := cap p (alignof b (p_type m)).

Record in_record (b : abi) (p al : Z) (size : Z) (m : placed) : Prop := {
  ir_lo : 0 <= p_off m;
  ir_width : 0 <= p_width m;
  ir_hi : p_end m <= size;
  ir_bits : p_bits m = false -> p_width m = 8 * sizeof b (p_type m) /\
    (8 * member_align b p m | p_off m) /\ (member_align b p m | al) }.

Lemma placed_all_ok b k p ms c : pack_ok p = true -> wf_members ms = true -> cursor_ok c ->
  let c' := place_all b k p ms c in
  Forall (fun m => in_record b p (c_align c') (c_pos c') m /\ (k = Struct -> frontier c <= p_off m))
    (placed_all b k p ms c) /\
  (k = Struct -> StronglySorted (fun m1 m2 => p_end m1 <= p_off m2) (placed_all b k p ms c)).
Proof.
  intros Hp. revert c. induction ms as [|n t ms IH|n t w ms IH]; intros c Hw Hc.
  - split; [constructor|intros _; constructor].
  - cbn [wf_members] in Hw. apply andb_true_iff in Hw as [Hw Hms]. destruct (wf_ty_ok b t Hw) as [H1 H2].
    cbn [placed_all place_all]. rewrite measure_eta.
    pose proof (place_mem_ok k p Hp _ _ c H1 H2 Hc) as Hpl. destruct (place_mem _ _ _ _) as [off c']. cbn [snd].
    destruct Hpl as ([Hok Hf Ha Hi Hps Hal] & Hd & Hcap). destruct (IH c' Hms Hok) as [IH1 IH2].
    destruct (proj2 (place_all_ok b) ms Hms k p c' Hp Hok) as (Hok2 & Hpos2 & Hal2).
    assert (Hdiv : (cap p (alignof b t) | c_align (place_all b k p ms c'))).
    { apply is_align_divide; [by apply cap_align|apply Hok2|lia]. }
    split.
    + constructor; [split; [split|]; unfold p_end; cbn; try done; try lia; intros Hs; destruct (Ha Hs); lia|].
      eapply Forall_impl; [exact IH1|]. cbn beta. intros m [Hm Hs]. split; [done|]. intros E. destruct (Ha E). specialize (Hs E). lia.
    + intros E. constructor; [by apply IH2|]. eapply Forall_impl; [exact IH1|]. cbn beta. intros m [_ Hs].
      specialize (Hs E). unfold p_end; cbn. destruct (Ha E). lia.
  - destruct (wf_bits_cty _ _ _ _ Hw) as (sg & sz & -> & Hsz & Hwd & Hms).
    cbn [placed_all place_all measure].
    pose proof (place_bits_ok b k p Hp n sz w c Hsz Hwd Hc) as Hpl. destruct (place_bits _ _ _ _ _ _ _) as [off c']. cbn [snd].
    destruct Hpl as [Hok Hf Ha Hi Hps Hal]. destruct (IH c' Hms Hok) as [IH1 IH2].
    destruct (proj2 (place_all_ok b) ms Hms k p c' Hp Hok) as (Hok2 & Hpos2 & Hal2). split.
    + constructor; [split; [split|]; unfold p_end; cbn; try done; try lia; intros Hs; destruct (Ha Hs); lia|].
      eapply Forall_impl; [exact IH1|]. cbn beta. intros m [Hm Hs]. split; [done|]. intros E. destruct (Ha E). specialize (Hs E). lia.
    + intros E. constructor; [by apply IH2|]. eapply Forall_impl; [exact IH1|]. cbn beta. intros m [_ Hs].
      specialize (Hs E). unfold p_end; cbn. destruct (Ha E). lia.
Qed.

Lemma in_record_mono b p al al' size size' m : (al | al') -> size <= size' ->
  in_record b p al size m -> in_record b p al' size' m.
Proof.
  intros Ha Hs [H1 H2 H3 H4]. split; [done|done|lia|]. intros E. destruct (H4 E) as (? & ? & ?).
  split_and!; [done|done|by etrans].
Qed.

(** The size in bits is the end of the members, rounded up. *)
Lemma sizeof_rec b k p al ms : wf (CRec k p al ms) = true ->
  let c := place_all b k p ms cursor0 in
  8 * sizeof b (CRec k p al ms) = round_up (c_pos c) (8 * alignof b (CRec k p al ms)) /\
  (alignof b (CRec k p al ms) | sizeof b (CRec k p al ms)) /\ (c_align c | alignof b (CRec k p al ms)) /\
  c_pos c <= 8 * sizeof b (CRec k p al ms) < c_pos c + 8 * alignof b (CRec k p al ms).
Proof.
  cbn [wf]. rewrite !andb_true_iff. intros [[Hp Hal] Hms]. cbn zeta.
  destruct (proj2 (place_all_ok b) ms Hms k p cursor0 Hp cursor0_ok) as ([_ _ Hca] & _ & _).
  set (c := place_all b k p ms cursor0) in *.
  assert (Es : sizeof b (CRec k p al ms) = round_up (c_pos c) (8 * Z.max al (c_align c)) / 8) by done.
  assert (Ea : alignof b (CRec k p al ms) = Z.max al (c_align c)) by done.
  rewrite Es, Ea. pose proof (is_align_max _ _ Hal Hca) as Hm. pose proof (is_align_pos _ Hm).
  destruct (round_up_divide (c_pos c) (8 * Z.max al (c_align c))) as [j Hj].
  pose proof (round_up_le (c_pos c) (8 * Z.max al (c_align c)) ltac:(lia)).
  pose proof (round_up_lt (c_pos c) (8 * Z.max al (c_align c)) ltac:(lia)).
  assert (E8 : round_up (c_pos c) (8 * Z.max al (c_align c)) / 8 = j * Z.max al (c_align c)).
  { rewrite Hj. replace (j * (8 * Z.max al (c_align c))) with (j * Z.max al (c_align c) * 8) by ring. apply Z.div_mul. lia. }
  split_and!; [lia|exists j; lia| |lia|lia].
  apply is_align_divide; [done|done|lia].
Qed.

(** Every member of a record, its place and its neighbours. *)
Lemma record_members b k p al ms : wf (CRec k p al ms) = true ->
  let t := CRec k p al ms in
  Forall (in_record b p (alignof b t) (8 * sizeof b t)) (members_of b t) /\
  (k = Struct -> StronglySorted (fun m1 m2 => p_end m1 <= p_off m2) (members_of b t)).
Proof.
  intros Hw. destruct (sizeof_rec b _ _ _ _ Hw) as (_ & _ & Hd & Hs & _). cbn zeta in *.
  cbn [wf] in Hw. rewrite !andb_true_iff in Hw. destruct Hw as [[Hp _] Hms].
  destruct (placed_all_ok b k p ms cursor0 Hp Hms cursor0_ok) as [H1 H2]. split; [|exact H2].
  eapply Forall_impl; [exact H1|]. cbn beta. intros m [Hm _]. by eapply in_record_mono.
Qed.

(** ** Access paths stay inside the object *)

Definition inside (b : abi) (size : Z) (r : option (Z * Z * cty)) : Prop :=
  match r with
  | Some (o, w, t) => 0 <= o /\ 0 <= w /\ o + w <= size /\ wf t = true /\ (w = 8 * sizeof b t \/ exists sg n, t = CInt sg n)
  | None => True
  end.

Lemma locate_int b sg n s path : locate b (CInt sg n) (s :: path) = None.
Proof. by destruct s. Qed.

Lemma find_inside b : (forall t, wf t = true -> forall x, inside b (8 * sizeof b t) (find b t x)) /\
  (forall ms, wf_members ms = true -> forall k p c x, pack_ok p = true -> cursor_ok c ->
     inside b (c_pos (place_all b k p ms c)) (find_in b k p ms c x)).
Proof.
  apply cty_members_ind; try done.
  - intros a t IH. cbn [wf]. rewrite andb_true_iff. intros [_ Hw] x. cbn [find].
    replace (sizeof b (CAlign a t)) with (sizeof b t); [by apply IH|].
    unfold sizeof. cbn. by destruct (measure b t).
  - intros k p al ms IH Hw x. pose proof (sizeof_rec b _ _ _ _ Hw) as (_ & _ & _ & Hs & _). cbn zeta in Hs.
    cbn [wf] in Hw. rewrite !andb_true_iff in Hw. destruct Hw as [[Hp _] Hms].
    specialize (IH Hms k p cursor0 x Hp cursor0_ok). cbn [find].
    destruct (find_in b k p ms cursor0 x) as [[[o w] t']|]; [|done]. cbn in *. destruct IH as (? & ? & ? & ? & ?). split_and!; try done; lia.
  - intros n t IHt ms IH. cbn [wf_members]. rewrite andb_true_iff. intros [Hw Hms] k p c x Hp Hc.
    destruct (wf_ty_ok b t Hw) as [H1 H2]. cbn [find_in place_all]. rewrite measure_eta.
    pose proof (place_mem_ok k p Hp _ _ c H1 H2 Hc) as Hpl. destruct (place_mem _ _ _ _) as [off c']. cbn [snd].
    destruct Hpl as ([Hok Hf Ha Hi Hps Hal] & _ & _).
    destruct (proj2 (place_all_ok b) ms Hms k p c' Hp Hok) as (_ & Hpos2 & _).
    specialize (IH Hms k p c' x Hp Hok). specialize (IHt Hw x).
    destruct (String.eqb n x); [cbn; split_and!; [lia|lia|lia|done|by left]|].
    destruct (String.eqb n anonymous); [|done].
    destruct (find b t x) as [[[o w] t']|]; [|done]. cbn in *. destruct IHt as (? & ? & ? & ? & ?). split_and!; try done; lia.
  - intros n t IHt w ms IH Hw k p c x Hp Hc. destruct (wf_bits_cty _ _ _ _ Hw) as (sg & sz & -> & Hsz & Hwd & Hms).
    cbn [find_in place_all measure].
    pose proof (place_bits_ok b k p Hp n sz w c Hsz Hwd Hc) as Hpl. destruct (place_bits _ _ _ _ _ _ _) as [off c']. cbn [snd].
    destruct Hpl as [Hok Hf Ha Hi Hps Hal].
    destruct (proj2 (place_all_ok b) ms Hms k p c' Hp Hok) as (_ & Hpos2 & _).
    specialize (IH Hms k p c' x Hp Hok).
    destruct (String.eqb n x); [cbn; split_and!; [lia|lia|lia|done|by eauto]|done].
Qed.

Lemma locate_inside b t path : wf t = true -> inside b (8 * sizeof b t) (locate b t path).
Proof.
  revert t. induction path as [|[x|i] rest IH]; intros t Hw; cbn [locate].
  - cbn. pose proof (proj1 (wf_ty_ok b t Hw)). split_and!; [lia|lia|lia|done|by left].
  - pose proof (proj1 (find_inside b) t Hw x) as Hf. destruct (find b t x) as [[[o w] t']|]; [|done].
    cbn in Hf. destruct rest as [|st rest]; [done|]. destruct Hf as (H1 & H2 & H3 & H4 & [->|(sg & n & ->)]);
      [|by rewrite locate_int].
    specialize (IH t' H4). destruct (locate b t' (st :: rest)) as [[[o' w'] r]|]; [|done].
    cbn in *. destruct IH as (? & ? & ? & ? & ?). split_and!; try done; lia.
  - destruct t as [| | |t' n| |]; try done. destruct ((0 <=? i) && (i <? n)) eqn:E; [|done]. zify_bool.
    cbn [wf] in Hw. apply andb_true_iff in Hw as [Hw _]. specialize (IH t' Hw).
    destruct (locate b t' rest) as [[[o' w'] r]|]; [|done]. cbn in *.
    pose proof (proj1 (wf_ty_ok b t' Hw)).
    assert (sizeof b (CArr t' n) = sizeof b t' * n) as -> by (unfold sizeof; cbn; by destruct (measure b t')).
    destruct IH as (? & ? & ? & ? & ?). split_and!; try done; nia.
Qed.

(** ** When two ABIs agree *)

(** The two ABIs give a type the same size and alignment. *)
Definition same_size (t : cty) : bool := bool_decide (measure SysV t = measure MSVC t).

(** All that can be named in a type has the same place and the same size in the two
    ABIs; an unnamed record only matters through its members. *)
Fixpoint agree (t : cty) : bool :=
  match t with
  | CArr t _ => same_size t && agree t
  | CAlign _ t => agree t
  | CRec k p _ ms => agree_in k p ms cursor0 cursor0
  | _ => true
  end
with agree_in (k : rec_kind) (p : Z) (ms : members) (c1 c2 : cursor) : bool :=
  match ms with
  | MNil => true
  | MMem n t ms =>
      let '(o1, c1) := place_mem k p (measure SysV t) c1 in
      let '(o2, c2) := place_mem k p (measure MSVC t) c2 in
      (o1 =? o2) && (String.eqb n anonymous || same_size t) && agree t && agree_in k p ms c1 c2
  | MBits n t w ms =>
      let '(o1, c1) := place_bits SysV k p n (measure SysV t) w c1 in
      let '(o2, c2) := place_bits MSVC k p n (measure MSVC t) w c2 in
      (o1 =? o2) && same_size t && agree t && agree_in k p ms c1 c2
  end.

Lemma same_sizeof t : same_size t = true -> sizeof SysV t = sizeof MSVC t.
Proof. unfold same_size, sizeof. intros H%bool_decide_eq_true. by rewrite H. Qed.

(** What a path without unnamed members finds. *)
Definition agree_result (r : option (Z * Z * cty)) : Prop :=
  match r with Some (_, _, t) => agree t = true /\ same_size t = true | None => True end.

Lemma find_agree : (forall t, agree t = true -> forall x, x <> anonymous -> find SysV t x = find MSVC t x /\ agree_result (find SysV t x)) /\
  (forall ms k p c1 c2, agree_in k p ms c1 c2 = true -> forall x, x <> anonymous ->
     find_in SysV k p ms c1 x = find_in MSVC k p ms c2 x /\ agree_result (find_in SysV k p ms c1 x)).
Proof.
  apply cty_members_ind; try (by intros; split).
  - intros a t IH. cbn [agree find]. apply IH.
  - intros k p al ms IH. cbn [agree find]. intros H. by apply IH.
  - intros n t IHt ms IH k p c1 c2. cbn [agree_in find_in].
    destruct (place_mem k p (measure SysV t) c1) as [o1 c1'], (place_mem k p (measure MSVC t) c2) as [o2 c2'].
    rewrite !andb_true_iff, orb_true_iff. intros [[[Ho Hs] Ht] Hms] x Hx. zify_bool. subst o2.
    destruct (IHt Ht x Hx) as [E Hr]. destruct (IH _ _ _ _ Hms x Hx) as [E2 Hr2].
    rewrite E, E2. rewrite E in Hr. rewrite E2 in Hr2. destruct (String.eqb_spec n x) as [->|Hn].
    + destruct Hs as [Hs|Hs]; [by apply String.eqb_eq in Hs|]. by rewrite (same_sizeof _ Hs).
    + destruct (if String.eqb n anonymous then find MSVC t x else None) as [[[o w] t']|] eqn:E3; [|done].
      split; [done|]. destruct (String.eqb n anonymous); [|done]. rewrite E3 in Hr. done.
  - intros n t IHt w ms IH k p c1 c2. cbn [agree_in find_in].
    destruct (place_bits SysV _ _ _ _ _ c1) as [o1 c1'], (place_bits MSVC _ _ _ _ _ c2) as [o2 c2'].
    rewrite !andb_true_iff. intros [[[Ho Hs] Ht] Hms] x Hx. zify_bool. subst o2.
    destruct (IH _ _ _ _ Hms x Hx) as [E2 Hr2]. rewrite E2. rewrite E2 in Hr2. by destruct (String.eqb n x).
Qed.

(** A path the source can write. *)
Definition named (path : list step) : Prop := Forall (fun s => s <> Dot anonymous) path.

Lemma locate_agree t path : named path -> same_size t = true -> agree t = true -> locate SysV t path = locate MSVC t path.
Proof.
  intros Hp. revert t. induction Hp as [|[x|i] rest Hs Hp IH]; intros t Hz Ht; cbn [locate].
  - by rewrite (same_sizeof _ Hz).
  - destruct (proj1 find_agree t Ht x) as [E Hr]; [congruence|]. rewrite E in *.
    destruct (find MSVC t x) as [[[o w] t']|]; [|done]. destruct Hr as [Hr Hz']. by rewrite (IH t' Hz' Hr).
  - destruct t as [| | |t' n| |]; try done. cbn [agree] in Ht. apply andb_true_iff in Ht as [Hz' Ht].
    by rewrite (IH t' Hz' Ht), (same_sizeof _ Hz').
Qed.

(** ** Packed structures have no padding *)

Fixpoint plain (ms : members) : bool :=
  match ms with MNil => true | MMem _ _ ms => plain ms | MBits _ _ _ _ => false end.
Fixpoint member_sizes (b : abi) (ms : members) : list Z :=
  match ms with MNil => [] | MMem _ t ms | MBits _ t _ ms => sizeof b t :: member_sizes b ms end.

(** The sums of what came before, in bits. *)
Fixpoint running (o : Z) (l : list Z) : list Z :=
  match l with [] => [] | s :: l => o :: running (o + 8 * s) l end.

Lemma cap_1 a : is_align a = true -> cap 1 a = 1.
Proof. intros H. pose proof (is_align_pos _ H). unfold cap. cbn. lia. Qed.

Lemma packed_place b ms : wf_members ms = true -> plain ms = true -> forall c,
  c_align c = 1 -> (8 | c_pos c) ->
  let c' := place_all b Struct 1 ms c in
  c_align c' = 1 /\ c_pos c' = c_pos c + 8 * foldr Z.add 0 (member_sizes b ms) /\
  map p_off (placed_all b Struct 1 ms c) = running (c_pos c) (member_sizes b ms).
Proof.
  induction ms as [|n t ms IH|]; try done.
  - intros _ _ c Ha Hd. cbn. split_and!; [done|lia|done].
  - cbn [wf_members plain]. rewrite andb_true_iff. intros [Hw Hms] Hpl c Ha Hd.
    destruct (wf_ty_ok b t Hw) as [H1 H2]. cbn [place_all placed_all]. rewrite measure_eta.
    unfold place_mem. cbn [snd]. rewrite (cap_1 _ H2). change (8 * 1) with 8. rewrite (round_up_id _ 8) by (done || lia). rewrite Ha.
    specialize (IH Hms Hpl (Cursor (Z.max (c_pos c) (c_pos c + 8 * sizeof b t)) (Z.max 1 1) None)).
    destruct IH as (I1 & I2 & I3); cbn; [done|rewrite Z.max_r by lia; apply Z.divide_add_r; [done|by exists (sizeof b t); lia]|].
    cbn [c_pos c_align] in *. rewrite Z.max_r in I1, I2, I3 by lia. change (Z.max 1 1) with 1 in *.
    rewrite Z.max_r by lia. split_and!; [done|rewrite I2; cbn; lia|cbn; by rewrite I3].
Qed.

Lemma packed_struct b ms : wf_members ms = true -> plain ms = true ->
  sizeof b (CRec Struct 1 1 ms) = foldr Z.add 0 (member_sizes b ms) /\
  alignof b (CRec Struct 1 1 ms) = 1 /\
  map p_off (members_of b (CRec Struct 1 1 ms)) = running 0 (member_sizes b ms).
Proof.
  intros Hw Hp. destruct (packed_place b ms Hw Hp cursor0 eq_refl (Z.divide_0_r 8)) as (H1 & H2 & H3).
  cbn [c_pos cursor0] in H2. unfold sizeof, alignof. cbn [measure close_rec]. unfold close_rec. rewrite H1, H2. cbn [fst snd].
  change (Z.max 1 1) with 1. split_and!; [|done|exact H3].
  rewrite round_up_id by (lia || (exists (foldr Z.add 0 (member_sizes b ms)); lia)).
  replace (0 + 8 * foldr Z.add 0 (member_sizes b ms)) with (foldr Z.add 0 (member_sizes b ms) * 8) by lia.
  apply Z.div_mul. lia.
Qed.
