(* ===== verification/CAccess.v ===== *)
(** * Members in memory

    An object is its bytes, least significant first, as both machines of the
    program store them.  Reading a member takes its bits out of the bytes, writing
    it replaces them; the members of a [struct] do not disturb each other. *)

From Stdlib Require Import Sorted.
From S2P Require Import Prelude CLayout CLayoutSpec.

(** ** Bytes and numbers *)

Definition is_byte (x : Z) : Prop := 0 <= x < 256.

Fixpoint le_num (l : list Z) : Z := match l with [] => 0 | x :: l => x + 256 * le_num l end.
Fixpoint le_bytes (n : nat) (z : Z) : list Z :=
  match n with O => [] | S n => z mod 256 :: le_bytes n (z / 256) end.

Lemma le_num_nonneg l : Forall is_byte l -> 0 <= le_num l.
Proof. induction 1 as [|x l [H1 _] _ IH]; cbn; lia. Qed.

Lemma le_num_bound l : Forall is_byte l -> le_num l < 2 ^ (8 * Z.of_nat (length l)).
Proof.
  induction 1 as [|x l H _ IH]; [done|]. cbn [le_num length]. unfold is_byte in H.
  replace (2 ^ (8 * Z.of_nat (S (length l)))) with (256 * 2 ^ (8 * Z.of_nat (length l))); [lia|].
  replace (8 * Z.of_nat (S (length l))) with (8 + 8 * Z.of_nat (length l)) by lia. by rewrite Z.pow_add_r by lia.
Qed.

Lemma length_le_bytes n z : length (le_bytes n z) = n.
Proof. revert z. induction n as [|n IH]; intros z; cbn; [done|]. by rewrite IH. Qed.

Lemma le_bytes_bytes n z : Forall is_byte (le_bytes n z).
Proof.
  revert z. induction n as [|n IH]; intros z; cbn; constructor; [|apply IH].
  apply Z.mod_pos_bound. lia.
Qed.

Lemma le_num_bytes n z : le_num (le_bytes n z) = z mod 2 ^ (8 * Z.of_nat n).
Proof.
  revert z. induction n as [|n IH]; intros z; cbn [le_bytes le_num]; [by rewrite Z.mod_1_r|].
  rewrite IH. replace (8 * Z.of_nat (S n)) with (8 + 8 * Z.of_nat n) by lia. rewrite Z.pow_add_r by lia.
  change (2 ^ 8) with 256. rewrite Z.rem_mul_r by lia. done.
Qed.

Lemma le_bytes_num l : Forall is_byte l -> le_bytes (length l) (le_num l) = l.
Proof.
  induction 1 as [|x l H _ IH]; [done|]. unfold is_byte in H. cbn [length le_bytes le_num].
  replace ((x + 256 * le_num l) mod 256) with x by (symmetry; rewrite Z.mul_comm, Z.mod_add by lia; by apply Z.mod_small).
  replace ((x + 256 * le_num l) / 256) with (le_num l); [by rewrite IH|].
  rewrite Z.mul_comm, Z.div_add by lia. rewrite Z.div_small by lia. lia.
Qed.

(** ** Bits of a number *)

Definition get_bits (o w n : Z) : Z := Z.land (Z.shiftr n o) (Z.ones w).
Definition set_bits (o w v n : Z) : Z :=
  Z.lor (Z.ldiff n (Z.shiftl (Z.ones w) o)) (Z.shiftl (Z.land v (Z.ones w)) o).

Lemma ones_testbit w i : 0 <= w -> 0 <= i -> Z.testbit (Z.ones w) i = (i <? w).
Proof.
  intros Hw Hi. destruct (Z.ltb_spec i w).
  - apply Z.ones_spec_low. lia.
  - apply Z.ones_spec_high. lia.
Qed.

Lemma get_bits_testbit o w n i : 0 <= o -> 0 <= w -> 0 <= i ->
  Z.testbit (get_bits o w n) i = Z.testbit n (i + o) && (i <? w).
Proof. intros. unfold get_bits. by rewrite Z.land_spec, Z.shiftr_spec, ones_testbit. Qed.

Lemma set_bits_testbit o w v n i : 0 <= o -> 0 <= w -> 0 <= i ->
  Z.testbit (set_bits o w v n) i = if (o <=? i) && (i <? o + w) then Z.testbit v (i - o) else Z.testbit n i.
Proof.
  intros Ho Hw Hi. unfold set_bits. rewrite Z.lor_spec, Z.ldiff_spec, !Z.shiftl_spec by done.
  destruct (Z.leb_spec o i); cbn [andb].
  - rewrite Z.land_spec, ones_testbit by lia. destruct (Z.ltb_spec i (o + w)).
    + replace (i - o <? w) with true by (symmetry; apply Z.ltb_lt; lia). rewrite andb_false_r, andb_true_r. done.
    + replace (i - o <? w) with false by (symmetry; apply Z.ltb_ge; lia). rewrite !andb_false_r, orb_false_r, andb_true_r. done.
  - rewrite !(Z.testbit_neg_r _ (i - o)) by lia. by rewrite orb_false_r, andb_true_r.
Qed.

Lemma set_bits_nonneg o w v n : 0 <= n -> 0 <= w -> 0 <= o -> 0 <= set_bits o w v n.
Proof.
  intros Hn Hw Ho. unfold set_bits. apply Z.lor_nonneg. split.
  - apply Z.ldiff_nonneg. by left.
  - apply Z.shiftl_nonneg, Z.land_nonneg. right. rewrite Z.ones_equiv. pose proof (Z.pow_pos_nonneg 2 w). lia.
Qed.

Lemma get_set_same o w v n : 0 <= o -> 0 <= w -> get_bits o w (set_bits o w v n) = v mod 2 ^ w.
Proof.
  intros Ho Hw. rewrite <- Z.land_ones by done. apply Z.bits_inj'. intros i Hi.
  rewrite get_bits_testbit, set_bits_testbit, Z.land_spec, ones_testbit by lia.
  destruct (Z.ltb_spec i w); [|by rewrite !andb_false_r].
  replace (o <=? i + o) with true by (symmetry; apply Z.leb_le; lia).
  replace (i + o <? o + w) with true by (symmetry; apply Z.ltb_lt; lia).
  cbn. by replace (i + o - o) with i by lia.
Qed.

Lemma get_set_other o w v n o' w' : 0 <= o -> 0 <= w -> 0 <= o' -> 0 <= w' ->
  o + w <= o' \/ o' + w' <= o -> get_bits o' w' (set_bits o w v n) = get_bits o' w' n.
Proof.
  intros Ho Hw Ho' Hw' Hd. apply Z.bits_inj'. intros i Hi.
  rewrite !get_bits_testbit, set_bits_testbit by lia. destruct (Z.ltb_spec i w'); [|by rewrite !andb_false_r].
  destruct (Z.leb_spec o (i + o')), (Z.ltb_spec (i + o') (o + w)); cbn; try done. lia.
Qed.

Lemma get_bits_mod o w n m : 0 <= o -> 0 <= w -> o + w <= m -> get_bits o w (n mod 2 ^ m) = get_bits o w n.
Proof.
  intros Ho Hw Hm. rewrite <- Z.land_ones by lia. apply Z.bits_inj'. intros i Hi.
  rewrite !get_bits_testbit, Z.land_spec, ones_testbit by lia. destruct (Z.ltb_spec i w); [|by rewrite !andb_false_r].
  replace (i + o <? m) with true by (symmetry; apply Z.ltb_lt; lia). by rewrite andb_true_r.
Qed.

Lemma get_bits_range o w n : 0 <= w -> 0 <= get_bits o w n < 2 ^ w.
Proof. intros Hw. unfold get_bits. rewrite Z.land_ones by done. apply Z.mod_pos_bound. by apply Z.pow_pos_nonneg. Qed.

(** ** Members of an object *)

Definition load (buf : list Z) (o w : Z) : Z := get_bits o w (le_num buf).
Definition store (buf : list Z) (o w v : Z) : list Z := le_bytes (length buf) (set_bits o w v (le_num buf)).

(** [obj.path] and [obj.path = v], [None] where the source does not compile. *)
Definition read (b : abi) (t : cty) (path : list step) (buf : list Z) : option Z :=
  match locate b t path with
  | Some (o, w, CInt true _) | Some (o, w, CLong true) => Some (to_signed w (load buf o w))
  | Some (o, w, _) => Some (load buf o w)
  | None => None
  end.
Definition write (b : abi) (t : cty) (path : list step) (v : Z) (buf : list Z) : option (list Z) :=
  match locate b t path with Some (o, w, _) => Some (store buf o w v) | None => None end.

Lemma length_store buf o w v : length (store buf o w v) = length buf.
Proof. apply length_le_bytes. Qed.

Lemma store_bytes buf o w v : Forall is_byte (store buf o w v).
Proof. apply le_bytes_bytes. Qed.

Definition within (o w : Z) (buf : list Z) : Prop := 0 <= o /\ 0 <= w /\ o + w <= 8 * Z.of_nat (length buf).

Lemma load_store_same buf o w v : within o w buf -> load (store buf o w v) o w = v mod 2 ^ w.
Proof.
  intros (? & ? & ?). unfold load, store. rewrite le_num_bytes, get_bits_mod by lia. by apply get_set_same.
Qed.

Lemma load_store_other buf o w v o' w' : within o w buf -> within o' w' buf ->
  o + w <= o' \/ o' + w' <= o -> load (store buf o w v) o' w' = load buf o' w'.
Proof.
  intros (? & ? & ?) (? & ? & ?) Hd. unfold load, store. rewrite le_num_bytes, get_bits_mod by lia.
  by apply get_set_other.
Qed.

(** Storing what a member holds changes nothing. *)
Lemma store_load buf o w : Forall is_byte buf -> within o w buf -> store buf o w (load buf o w) = buf.
Proof.
  intros Hb (? & ? & ?). unfold store, load.
  transitivity (le_bytes (length buf) (le_num buf)); [f_equal|by apply le_bytes_num].
  apply Z.bits_inj'. intros i Hi. rewrite set_bits_testbit by lia.
  destruct (Z.leb_spec o i), (Z.ltb_spec i (o + w)); cbn; try done.
  rewrite get_bits_testbit by lia. replace (i - o <? w) with true by (symmetry; apply Z.ltb_lt; lia).
  rewrite andb_true_r. f_equal. lia.
Qed.

Lemma sorted_lookup {A} (R : A -> A -> Prop) l i j x y :
  StronglySorted R l -> l !! i = Some x -> l !! j = Some y -> (i < j)%nat -> R x y.
Proof.
  intros Hs. revert i j. induction Hs as [|z l _ IH Hz]; intros [|i] [|j] Hi Hj Hij; try done; try lia.
  - cbn in Hi, Hj. injection Hi as <-. exact (Forall_lookup_1 _ _ _ _ Hz Hj).
  - apply (IH i j); [done|done|lia].
Qed.

(** Members of a structure do not overlap. *)
Lemma struct_apart b p al ms i j m1 m2 :
  let t := CRec Struct p al ms in
  wf t = true -> members_of b t !! i = Some m1 -> members_of b t !! j = Some m2 -> i <> j ->
  p_end m1 <= p_off m2 \/ p_end m2 <= p_off m1.
Proof.
  intros t Hw Hi Hj Hij. destruct (record_members b Struct p al ms Hw) as [_ Hs]. specialize (Hs eq_refl).
  destruct (decide (i < j)%nat) as [Hlt|Hge].
  - left. by apply (sorted_lookup _ _ i j m1 m2 Hs).
  - right. apply (sorted_lookup _ _ j i m2 m1 Hs); [done|done|lia].
Qed.

Lemma member_within b k p al ms i m buf :
  let t := CRec k p al ms in
  wf t = true -> Z.of_nat (length buf) = sizeof b t -> members_of b t !! i = Some m ->
  within (p_off m) (p_width m) buf.
Proof.
  intros t Hw Hl Hi. destruct (record_members b k p al ms Hw) as [Hf _].
  destruct (Forall_lookup_1 _ _ _ _ Hf Hi) as [H1 H2 H3 _]. unfold within. unfold p_end, t in *. lia.
Qed.

(** Two members of a structure: writing one leaves the other as it was, and
    reading it back gives the value cut to the member's width. *)
Lemma struct_store b p al ms buf i j m1 m2 v :
  let t := CRec Struct p al ms in
  wf t = true -> Z.of_nat (length buf) = sizeof b t ->
  members_of b t !! i = Some m1 -> members_of b t !! j = Some m2 -> i <> j ->
  let buf' := store buf (p_off m1) (p_width m1) v in
  length buf' = length buf /\
  load buf' (p_off m1) (p_width m1) = v mod 2 ^ p_width m1 /\
  load buf' (p_off m2) (p_width m2) = load buf (p_off m2) (p_width m2).
Proof.
  intros t Hw Hl Hi Hj Hij. cbn zeta.
  pose proof (member_within _ _ _ _ _ _ _ _ Hw Hl Hi). pose proof (member_within _ _ _ _ _ _ _ _ Hw Hl Hj).
  split_and!; [apply length_store|by apply load_store_same|].
  apply load_store_other; [done|done|]. by apply (struct_apart b p al ms i j).
Qed.
