(* ===== verification/GuestInterface.v ===== *)
(** * The guest interface of the hypervisor

    Status codes, CPUID leaves, synthetic MSRs, messages, hypercall codes and register
    names of [Mile.HyperV.Guest.Interface.h], for x64.  The two longest enumerations are
    written in parts. *)

From S2P Require Import Prelude CLayout.

Definition HV_STATUS : cty := UINT16.
Definition HV_STATUS_SUCCESS : Z := u16 0x0000.
Definition HV_STATUS_INVALID_HYPERCALL_CODE : Z := u16 0x0002.
Definition HV_STATUS_INVALID_HYPERCALL_INPUT : Z := u16 0x0003.
Definition HV_STATUS_INVALID_ALIGNMENT : Z := u16 0x0004.
Definition HV_STATUS_INVALID_PARAMETER : Z := u16 0x0005.
Definition HV_STATUS_ACCESS_DENIED : Z := u16 0x0006.
Definition HV_STATUS_INVALID_PARTITION_STATE : Z := u16 0x0007.
Definition HV_STATUS_OPERATION_DENIED : Z := u16 0x0008.
Definition HV_STATUS_UNKNOWN_PROPERTY : Z := u16 0x0009.
Definition HV_STATUS_PROPERTY_VALUE_OUT_OF_RANGE : Z := u16 0x000a.
Definition HV_STATUS_INSUFFICIENT_MEMORY : Z := u16 0x000b.
Definition HV_STATUS_PARTITION_TOO_DEEP : Z := u16 0x000c.
Definition HV_STATUS_INVALID_PARTITION_ID : Z := u16 0x000d.
Definition HV_STATUS_INVALID_VP_INDEX : Z := u16 0x000e.
Definition HV_STATUS_NOT_FOUND : Z := u16 0x0010.
Definition HV_STATUS_INVALID_PORT_ID : Z := u16 0x0011.
Definition HV_STATUS_INVALID_CONNECTION_ID : Z := u16 0x0012.
Definition HV_STATUS_INSUFFICIENT_BUFFERS : Z := u16 0x0013.
Definition HV_STATUS_NOT_ACKNOWLEDGED : Z := u16 0x0014.
Definition HV_STATUS_INVALID_VP_STATE : Z := u16 0x0015.
Definition HV_STATUS_ACKNOWLEDGED : Z := u16 0x0016.
Definition HV_STATUS_INVALID_SAVE_RESTORE_STATE : Z := u16 0x0017.
Definition HV_STATUS_INVALID_SYNIC_STATE : Z := u16 0x0018.
Definition HV_STATUS_OBJECT_IN_USE : Z := u16 0x0019.
Definition HV_STATUS_INVALID_PROXIMITY_DOMAIN_INFO : Z := u16 0x001a.
Definition HV_STATUS_NO_DATA : Z := u16 0x001b.
Definition HV_STATUS_INACTIVE : Z := u16 0x001c.
Definition HV_STATUS_NO_RESOURCES : Z := u16 0x001d.
Definition HV_STATUS_FEATURE_UNAVAILABLE : Z := u16 0x001e.
Definition HV_STATUS_PARTIAL_PACKET : Z := u16 0x001f.
Definition HV_STATUS_PROCESSOR_FEATURE_NOT_SUPPORTED : Z := u16 0x0020.
Definition HV_STATUS_PROCESSOR_CACHE_LINE_FLUSH_SIZE_INCOMPATIBLE : Z := u16 0x0030.
Definition HV_STATUS_INSUFFICIENT_BUFFER : Z := u16 0x0033.
Definition HV_STATUS_INCOMPATIBLE_PROCESSOR : Z := u16 0x0037.
Definition HV_STATUS_INSUFFICIENT_DEVICE_DOMAINS : Z := u16 0x0038.
Definition HV_STATUS_CPUID_FEATURE_VALIDATION_ERROR : Z := u16 0x003c.
Definition HV_STATUS_CPUID_XSAVE_FEATURE_VALIDATION_ERROR : Z := u16 0x003d.
Definition HV_STATUS_PROCESSOR_STARTUP_TIMEOUT : Z := u16 0x003e.
Definition HV_STATUS_SMX_ENABLED : Z := u16 0x003f.
Definition HV_STATUS_INVALID_LP_INDEX : Z := u16 0x0041.
Definition HV_STATUS_INVALID_REGISTER_VALUE : Z := u16 0x0050.
Definition HV_STATUS_INVALID_VTL_STATE : Z := u16 0x0051.
Definition HV_STATUS_NX_NOT_DETECTED : Z := u16 0x0055.
Definition HV_STATUS_INVALID_DEVICE_ID : Z := u16 0x0057.
Definition HV_STATUS_INVALID_DEVICE_STATE : Z := u16 0x0058.
Definition HV_STATUS_PENDING_PAGE_REQUESTS : Z := u16 0x0059.
Definition HV_STATUS_PAGE_REQUEST_INVALID : Z := u16 0x0060.
Definition HV_STATUS_KEY_ALREADY_EXISTS : Z := u16 0x0065.
Definition HV_STATUS_DEVICE_ALREADY_IN_DOMAIN : Z := u16 0x0066.
Definition HV_STATUS_INVALID_CPU_GROUP_ID : Z := u16 0x006f.
Definition HV_STATUS_INVALID_CPU_GROUP_STATE : Z := u16 0x0070.
Definition HV_STATUS_OPERATION_FAILED : Z := u16 0x0071.
Definition HV_STATUS_NOT_ALLOWED_WITH_NESTED_VIRT_ACTIVE : Z := u16 0x0072.
Definition HV_STATUS_INSUFFICIENT_ROOT_MEMORY : Z := u16 0x0073.
Definition HV_MAXIMUM_PROCESSORS : Z := 2048.
Definition HV_GPA : cty := UINT64.
Definition HV_GPA_PAGE_NUMBER : cty := UINT64.
Definition HV_GVA : cty := UINT64.
Definition HV_X64_PAGE_SIZE : Z := 4096.
Definition HV_X64_LARGE_PAGE_SIZE : Z := 0x200000.
Definition HV_X64_LARGE_PAGE_SIZE_1GB : Z := 0x40000000.
Definition HV_PAGE_SIZE : Z := HV_X64_PAGE_SIZE.
Definition HV_LARGE_PAGE_SIZE : Z := HV_X64_LARGE_PAGE_SIZE.
Definition HV_LARGE_PAGE_SIZE_1GB : Z := HV_X64_LARGE_PAGE_SIZE_1GB.
Definition HV_PARTITION_ID : cty := UINT64.
Definition HV_PARTITION_ID_INVALID : Z := u64 0x0.
Definition HV_PARTITION_ID_SELF : Z := u64 (- 1).
Definition HV_NANO100_TIME : cty := UINT64.
Definition HV_NANO100_DURATION : cty := UINT64.
Definition HV_NANO100_TIME_NEVER : Z := u64 (- 1).
Definition HV_IOMMU_ID : cty := UINT32.
Definition HV_INTERCEPT_ACCESS_TYPE : cty := UINT8.
Definition HV_VP_INDEX : cty := UINT32.
Definition HV_VTL : cty := UINT8.
Definition HV_MAP_GPA_FLAGS : cty := UINT32.
Definition HV_X64_SEGMENT_REGISTER : cty := struct 0 [
  fld UINT64 "Base";
  fld UINT32 "Limit";
  fld UINT16 "Selector";
  fld (union 0 [
    fld (struct 0 [
      bit UINT16 "SegmentType" 4;
      bit UINT16 "NonSystemSegment" 1;
      bit UINT16 "DescriptorPrivilegeLevel" 2;
      bit UINT16 "Present" 1;
      bit UINT16 "Reserved" 4;
      bit UINT16 "Available" 1;
      bit UINT16 "Long" 1;
      bit UINT16 "Default" 1;
      bit UINT16 "Granularity" 1]) anonymous;
    fld UINT16 "Attributes"]) anonymous].
Definition HV_X64_TABLE_REGISTER : cty := struct 0 [
  fld (CArr UINT16 3) "Pad";
  fld UINT16 "Limit";
  fld UINT64 "Base"].
Definition HV_INITIAL_VP_CONTEXT : cty := struct 0 [
  fld UINT64 "Rip";
  fld UINT64 "Rsp";
  fld UINT64 "Rflags";
  fld HV_X64_SEGMENT_REGISTER "Cs";
  fld HV_X64_SEGMENT_REGISTER "Ds";
  fld HV_X64_SEGMENT_REGISTER "Es";
  fld HV_X64_SEGMENT_REGISTER "Fs";
  fld HV_X64_SEGMENT_REGISTER "Gs";
  fld HV_X64_SEGMENT_REGISTER "Ss";
  fld HV_X64_SEGMENT_REGISTER "Tr";
  fld HV_X64_SEGMENT_REGISTER "Ldtr";
  fld HV_X64_TABLE_REGISTER "Idtr";
  fld HV_X64_TABLE_REGISTER "Gdtr";
  fld UINT64 "Efer";
  fld UINT64 "Cr0";
  fld UINT64 "Cr3";
  fld UINT64 "Cr4";
  fld UINT64 "MsrCrPat"].
Definition HV_MAP_GPA_PERMISSIONS_NONE : Z := 0x0.
Definition HV_MAP_GPA_READABLE : Z := 0x1.
Definition HV_MAP_GPA_WRITABLE : Z := 0x2.
Definition HV_HYPERVISOR_INTERFACE : enum := [
  Is "HvMicrosoftHypervisorInterface" (multi_char "1#vH")].
Definition HV_HYPERVISOR_VERSION_INFO : cty := struct 0 [
  fld UINT32 "BuildNumber";
  bit UINT32 "MinorVersion" 16;
  bit UINT32 "MajorVersion" 16;
  fld UINT32 "ServicePack";
  bit UINT32 "ServiceNumber" 24;
  bit UINT32 "ServiceBranch" 8].
Definition HV_PARTITION_PRIVILEGE_MASK : cty := union 0 [
  fld UINT64 "AsUINT64";
  fld (struct 0 [
    bit UINT64 "AccessVpRunTimeReg" 1;
    bit UINT64 "AccessPartitionReferenceCounter" 1;
    bit UINT64 "AccessSynicRegs" 1;
    bit UINT64 "AccessSyntheticTimerRegs" 1;
    bit UINT64 "AccessIntrCtrlRegs" 1;
    bit UINT64 "AccessHypercallMsrs" 1;
    bit UINT64 "AccessVpIndex" 1;
    bit UINT64 "AccessResetReg" 1;
    bit UINT64 "AccessStatsReg" 1;
    bit UINT64 "AccessPartitionReferenceTsc" 1;
    bit UINT64 "AccessGuestIdleReg" 1;
    bit UINT64 "AccessFrequencyRegs" 1;
    bit UINT64 "AccessDebugRegs" 1;
    bit UINT64 "AccessReenlightenmentControls" 1;
    bit UINT64 "AccessRootSchedulerReg" 1;
    bit UINT64 "Reserved1" 17;
    bit UINT64 "CreatePartitions" 1;
    bit UINT64 "AccessPartitionId" 1;
    bit UINT64 "AccessMemoryPool" 1;
    bit UINT64 "AdjustMessageBuffers" 1;
    bit UINT64 "PostMessages" 1;
    bit UINT64 "SignalEvents" 1;
    bit UINT64 "CreatePort" 1;
    bit UINT64 "ConnectPort" 1;
    bit UINT64 "AccessStats" 1;
    bit UINT64 "Reserved2" 2;
    bit UINT64 "Debugging" 1;
    bit UINT64 "CpuManagement" 1;
    bit UINT64 "ConfigureProfiler" 1;
    bit UINT64 "AccessVpExitTracing" 1;
    bit UINT64 "EnableExtendedGvaRangesForFlushVirtualAddressList" 1;
    bit UINT64 "AccessVsm" 1;
    bit UINT64 "AccessVpRegisters" 1;
    bit UINT64 "UnusedBit" 1;
    bit UINT64 "FastHypercallOutput" 1;
    bit UINT64 "EnableExtendedHypercalls" 1;
    bit UINT64 "StartVirtualProcessor" 1;
    bit UINT64 "Isolation" 1;
    bit UINT64 "Reserved3" 9]) anonymous].
Definition HV_X64_PLATFORM_CAPABILITIES : cty := union 0 [
  fld (CArr UINT64 2) "AsUINT64";
  fld (struct 0 [
    bit UINT32 "AllowRedSignedCode" 1;
    bit UINT32 "AllowKernelModeDebugging" 1;
    bit UINT32 "AllowUserModeDebugging" 1;
    bit UINT32 "AllowTelnetServer" 1;
    bit UINT32 "AllowIOPorts" 1;
    bit UINT32 "AllowFullMsrSpace" 1;
    bit UINT32 "AllowPerfCounters" 1;
    bit UINT32 "AllowHost512MB" 1;
    bit UINT32 "ReservedEax1" 1;
    bit UINT32 "AllowRemoteRecovery" 1;
    bit UINT32 "AllowStreaming" 1;
    bit UINT32 "AllowPushDeployment" 1;
    bit UINT32 "AllowPullDeployment" 1;
    bit UINT32 "AllowProfiling" 1;
    bit UINT32 "AllowJsProfiling" 1;
    bit UINT32 "AllowCrashDump" 1;
    bit UINT32 "AllowVsCrashDump" 1;
    bit UINT32 "AllowToolFileIO" 1;
    bit UINT32 "AllowConsoleMgmt" 1;
    bit UINT32 "AllowTracing" 1;
    bit UINT32 "AllowXStudio" 1;
    bit UINT32 "AllowGestureBuilder" 1;
    bit UINT32 "AllowSpeechLab" 1;
    bit UINT32 "AllowSmartglassStudio" 1;
    bit UINT32 "AllowNetworkTools" 1;
    bit UINT32 "AllowTcrTool" 1;
    bit UINT32 "AllowHostNetworkStack" 1;
    bit UINT32 "AllowSystemUpdateTest" 1;
    bit UINT32 "AllowOffChipPerfCtrStreaming" 1;
    bit UINT32 "AllowToolingMemory" 1;
    bit UINT32 "AllowSystemDowngrade" 1;
    bit UINT32 "AllowGreenDiskLicenses" 1;
    bit UINT32 "IsLiveConnected" 1;
    bit UINT32 "IsMteBoosted" 1;
    bit UINT32 "IsQaSlt" 1;
    bit UINT32 "IsStockImage" 1;
    bit UINT32 "IsMsTestLab" 1;
    bit UINT32 "IsRetailDebugger" 1;
    bit UINT32 "IsXvdSrt" 1;
    bit UINT32 "IsGreenDebug" 1;
    bit UINT32 "IsHwDevTest" 1;
    bit UINT32 "AllowDiskLicenses" 1;
    bit UINT32 "AllowInstrumentation" 1;
    bit UINT32 "AllowWifiTester" 1;
    bit UINT32 "AllowWifiTesterDFS" 1;
    bit UINT32 "IsHwTest" 1;
    bit UINT32 "AllowHostOddTest" 1;
    bit UINT32 "IsLiveUnrestricted" 1;
    bit UINT32 "AllowDiscLicensesWithoutMediaAuth" 1;
    bit UINT32 "ReservedEbx" 15;
    fld UINT32 "ReservedEcx";
    bit UINT32 "ReservedEdx" 31;
    bit UINT32 "UseAlternateXvd" 1]) anonymous].
Definition HV_CPUID_FUNCTION : enum := [
  Is "HvCpuIdFunctionVersionAndFeatures" 0x00000001;
  Is "HvCpuIdFunctionHvVendorAndMaxFunction" 0x40000000;
  Is "HvCpuIdFunctionHvInterface" 0x40000001;
  Is "HvCpuIdFunctionMsHvVersion" 0x40000002;
  Is "HvCpuIdFunctionMsHvFeatures" 0x40000003;
  Is "HvCpuIdFunctionMsHvEnlightenmentInformation" 0x40000004;
  Is "HvCpuIdFunctionMsHvImplementationLimits" 0x40000005;
  Is "HvCpuIdFunctionMsHvHardwareFeatures" 0x40000006;
  Is "HvCpuIdFunctionMsHvCpuManagementFeatures" 0x40000007;
  Is "HvCpuIdFunctionMsHvSvmFeatures" 0x40000008;
  Is "HvCpuIdFunctionMsHvSkipLevelFeatures" 0x40000009;
  Is "HvCpuidFunctionMsHvNestedVirtFeatures" 0x4000000a;
  Is "HvCpuidFunctionMsHvIsolationConfiguration" 0x4000000c;
  Is "HvCpuIdFunctionMaxReserved" 0x4000000c].
Definition HV_VENDOR_AND_MAX_FUNCTION : cty := struct 0 [
  fld UINT32 "MaxFunction";
  fld (CArr UINT8 12) "VendorName"].
Definition HV_HYPERVISOR_INTERFACE_INFO : cty := struct 0 [
  fld UINT32 "Interface";
  fld UINT32 "Reserved1";
  fld UINT32 "Reserved2";
  fld UINT32 "Reserved3"].
Definition HV_X64_HYPERVISOR_FEATURES : cty := struct 0 [
  fld HV_PARTITION_PRIVILEGE_MASK "PartitionPrivileges";
  bit UINT32 "MaxSupportedCState" 4;
  bit UINT32 "HpetNeededForC3PowerState_Deprecated" 1;
  bit UINT32 "Reserved" 27;
  bit UINT32 "MwaitAvailable_Deprecated" 1;
  bit UINT32 "GuestDebuggingAvailable" 1;
  bit UINT32 "PerformanceMonitorsAvailable" 1;
  bit UINT32 "CpuDynamicPartitioningAvailable" 1;
  bit UINT32 "XmmRegistersForFastHypercallAvailable" 1;
  bit UINT32 "GuestIdleAvailable" 1;
  bit UINT32 "HypervisorSleepStateSupportAvailable" 1;
  bit UINT32 "NumaDistanceQueryAvailable" 1;
  bit UINT32 "FrequencyRegsAvailable" 1;
  bit UINT32 "SyntheticMachineCheckAvailable" 1;
  bit UINT32 "GuestCrashRegsAvailable" 1;
  bit UINT32 "DebugRegsAvailable" 1;
  bit UINT32 "Npiep1Available" 1;
  bit UINT32 "DisableHypervisorAvailable" 1;
  bit UINT32 "ExtendedGvaRangesForFlushVirtualAddressListAvailable" 1;
  bit UINT32 "FastHypercallOutputAvailable" 1;
  bit UINT32 "PasidFeaturesAvailable" 1;
  bit UINT32 "SintPollingModeAvailable" 1;
  bit UINT32 "HypercallMsrLockAvailable" 1;
  bit UINT32 "DirectSyntheticTimers" 1;
  bit UINT32 "RegisterPatAvailable" 1;
  bit UINT32 "RegisterBndcfgsAvailable" 1;
  bit UINT32 "WatchdogTimerAvailable" 1;
  bit UINT32 "SyntheticTimeUnhaltedTimerAvailable" 1;
  bit UINT32 "DeviceDomainsAvailable" 1;
  bit UINT32 "S1DeviceDomainsAvailable" 1;
  bit UINT32 "Reserved1" 6].
Definition HV_HYPERVISOR_FEATURES : cty := HV_X64_HYPERVISOR_FEATURES.
Definition HV_X64_ENLIGHTENMENT_INFORMATION : cty := struct 0 [
  bit UINT32 "UseHypercallForAddressSpaceSwitch" 1;
  bit UINT32 "UseHypercallForLocalFlush" 1;
  bit UINT32 "UseHypercallForRemoteFlushAndLocalFlushEntire" 1;
  bit UINT32 "UseApicMsrs" 1;
  bit UINT32 "UseHvRegisterForReset" 1;
  bit UINT32 "UseRelaxedTiming" 1;
  bit UINT32 "UseDmaRemapping_Deprecated" 1;
  bit UINT32 "UseInterruptRemapping_Deprecated" 1;
  bit UINT32 "UseX2ApicMsrs" 1;
  bit UINT32 "DeprecateAutoEoi" 1;
  bit UINT32 "UseSyntheticClusterIpi" 1;
  bit UINT32 "UseExProcessorMasks" 1;
  bit UINT32 "Nested" 1;
  bit UINT32 "UseIntForMbecSystemCalls" 1;
  bit UINT32 "UseVmcsEnlightenments" 1;
  bit UINT32 "UseSyncedTimeline" 1;
  bit UINT32 "Available" 1;
  bit UINT32 "UseDirectLocalFlushEntire" 1;
  bit UINT32 "Reserved" 14;
  fld UINT32 "LongSpinWaitCount";
  fld UINT32 "ReservedEcx";
  fld UINT32 "ReservedEdx"].
Definition HV_ENLIGHTENMENT_INFORMATION : cty := HV_X64_ENLIGHTENMENT_INFORMATION.
Definition HV_IMPLEMENTATION_LIMITS : cty := struct 0 [
  fld UINT32 "MaxVirtualProcessorCount";
  fld UINT32 "MaxLogicalProcessorCount";
  fld UINT32 "MaxInterruptMappingCount";
  fld UINT32 "Reserved"].
Definition HV_X64_HYPERVISOR_HARDWARE_FEATURES : cty := struct 0 [
  bit UINT32 "ApicOverlayAssistInUse" 1;
  bit UINT32 "MsrBitmapsInUse" 1;
  bit UINT32 "ArchitecturalPerformanceCountersInUse" 1;
  bit UINT32 "SecondLevelAddressTranslationInUse" 1;
  bit UINT32 "DmaRemappingInUse" 1;
  bit UINT32 "InterruptRemappingInUse" 1;
  bit UINT32 "MemoryPatrolScrubberPresent" 1;
  bit UINT32 "DmaProtectionInUse" 1;
  bit UINT32 "HpetRequested" 1;
  bit UINT32 "SyntheticTimersVolatile" 1;
  bit UINT32 "HypervisorLevel" 4;
  bit UINT32 "PhysicalDestinationModeRequired" 1;
  bit UINT32 "UseVmfuncForAliasMapSwitch" 1;
  bit UINT32 "HvRegisterForMemoryZeroingSupported" 1;
  bit UINT32 "UnrestrictedGuestSupported" 1;
  bit UINT32 "RdtAFeaturesSupported" 1;
  bit UINT32 "RdtMFeaturesSupported" 1;
  bit UINT32 "ChildPerfmonPmuSupported" 1;
  bit UINT32 "ChildPerfmonLbrSupported" 1;
  bit UINT32 "ChildPerfmonIptSupported" 1;
  bit UINT32 "ApicEmulationSupported" 1;
  bit UINT32 "ChildX2ApicRecommended" 1;
  bit UINT32 "HardwareWatchdogReserved" 1;
  bit UINT32 "DeviceAccessTrackingSupported" 1;
  bit UINT32 "Reserved" 5;
  bit UINT32 "DeviceDomainInputWidth" 8;
  bit UINT32 "ReservedEbx" 24;
  fld UINT32 "ReservedEcx";
  fld UINT32 "ReservedEdx"].
Definition HV_HYPERVISOR_HARDWARE_FEATURES : cty := HV_X64_HYPERVISOR_HARDWARE_FEATURES.
Definition HV_X64_HYPERVISOR_CPU_MANAGEMENT_FEATURES : cty := struct 0 [
  bit UINT32 "StartLogicalProcessor" 1;
  bit UINT32 "CreateRootVirtualProcessor" 1;
  bit UINT32 "PerformanceCounterSync" 1;
  bit UINT32 "Reserved0" 28;
  bit UINT32 "ReservedIdentityBit" 1;
  bit UINT32 "ProcessorPowerManagement" 1;
  bit UINT32 "MwaitIdleStates" 1;
  bit UINT32 "LogicalProcessorIdling" 1;
  bit UINT32 "Reserved1" 29;
  bit UINT32 "RemapGuestUncached" 1;
  bit UINT32 "ReservedZ2" 31;
  fld UINT32 "ReservedEdx"].
Definition HV_HYPERVISOR_CPU_MANAGEMENT_FEATURES : cty := HV_X64_HYPERVISOR_CPU_MANAGEMENT_FEATURES.
Definition HV_HYPERVISOR_SVM_FEATURES : cty := struct 0 [
  bit UINT32 "SvmSupported" 1;
  bit UINT32 "Reserved0" 10;
  bit UINT32 "MaxPasidSpacePasidCount" 21;
  fld UINT32 "MaxPasidSpaceCount";
  fld UINT32 "MaxDevicePrqSize";
  fld UINT32 "Reserved1"].
Definition HV_HYPERVISOR_NESTED_VIRT_FEATURES : cty := struct 0 [
  bit UINT32 "EnlightenedVmcsVersionLow" 8;
  bit UINT32 "EnlightenedVmcsVersionHigh" 8;
  bit UINT32 "FlushGuestPhysicalHypercall_Deprecated" 1;
  bit UINT32 "NestedFlushVirtualHypercall" 1;
  bit UINT32 "FlushGuestPhysicalHypercall" 1;
  bit UINT32 "MsrBitmap" 1;
  bit UINT32 "VirtualizationException" 1;
  bit UINT32 "Reserved0" 11;
  fld UINT32 "ReservedEbx";
  fld UINT32 "ReservedEcx";
  fld UINT32 "ReservedEdx"].
Definition HV_HYPERVISOR_ISOLATION_CONFIGURATION : cty := struct 0 [
  bit UINT32 "ParavisorPresent" 1;
  bit UINT32 "Reserved0" 31;
  bit UINT32 "IsolationType" 4;
  bit UINT32 "Reserved11" 1;
  bit UINT32 "SharedGpaBoundaryActive" 1;
  bit UINT32 "SharedGpaBoundaryBits" 6;
  bit UINT32 "Reserved12" 20;
  fld UINT32 "Reserved2";
  fld UINT32 "Reserved3"].
Definition HV_PARTITION_ISOLATION_TYPE_NONE : Z := 0.
Definition HV_PARTITION_ISOLATION_TYPE_VBS : Z := 1.
Definition HV_PARTITION_ISOLATION_TYPE_SNP : Z := 2.
Definition HV_PARTITION_ISOLATION_TYPE_TDX : Z := 3.
Definition HV_CPUID_RESULT : cty := union 0 [
  fld (CArr UINT32 4) "AsUINT32";
  fld (struct 0 [
    fld UINT32 "Eax";
    fld UINT32 "Ebx";
    fld UINT32 "Ecx";
    fld UINT32 "Edx"]) anonymous;
  fld (struct 0 [
    fld UINT32 "ReservedEax";
    bit UINT32 "ReservedEbx" 24;
    bit UINT32 "InitialApicId" 8;
    bit UINT32 "ReservedEcx" 31;
    bit UINT32 "HypervisorPresent" 1;
    fld UINT32 "ReservedEdx"]) "VersionAndFeatures";
  fld HV_X64_PLATFORM_CAPABILITIES "MsHvPlatformCapabilities";
  fld HV_HYPERVISOR_NESTED_VIRT_FEATURES "MsHvNestedVirtFeatures";
  fld HV_VENDOR_AND_MAX_FUNCTION "HvVendorAndMaxFunction";
  fld HV_HYPERVISOR_INTERFACE_INFO "HvInterface";
  fld HV_HYPERVISOR_VERSION_INFO "MsHvVersion";
  fld HV_HYPERVISOR_FEATURES "MsHvFeatures";
  fld HV_ENLIGHTENMENT_INFORMATION "MsHvEnlightenmentInformation";
  fld HV_IMPLEMENTATION_LIMITS "MsHvImplementationLimits";
  fld HV_HYPERVISOR_HARDWARE_FEATURES "MsHvHardwareFeatures";
  fld HV_HYPERVISOR_CPU_MANAGEMENT_FEATURES "MsHvCpuManagementFeatures";
  fld HV_HYPERVISOR_SVM_FEATURES "MsHvSvmFeatures";
  fld HV_HYPERVISOR_ISOLATION_CONFIGURATION "MsHvIsolationConfiguration"].
Definition HV_GUEST_OS_VENDOR : enum := [
  Is "HvGuestOsVendorMicrosoft" 0x0001].
Definition HV_GUEST_OS_MICROSOFT_IDS : enum := [
  Is "HvGuestOsMicrosoftUndefined" 0x00;
  Is "HvGuestOsMicrosoftMSDOS" 0x01;
  Is "HvGuestOsMicrosoftWindows3x" 0x02;
  Is "HvGuestOsMicrosoftWindows9x" 0x03;
  Is "HvGuestOsMicrosoftWindowsNT" 0x04;
  Is "HvGuestOsMicrosoftWindowsCE" 0x05].
Definition HV_X64_SYNTHETIC_MSR : enum := [
  Is "HvSyntheticMsrGuestOsId" 0x40000000;
  Is "HvSyntheticMsrHypercall" 0x40000001;
  Is "HvSyntheticMsrVpIndex" 0x40000002;
  Is "HvSyntheticMsrReset" 0x40000003;
  Is "HvSyntheticMsrCpuMgmtVersion" 0x40000004;
  Is "XbSyntheticMsrTbFlushHost" 0x40000006;
  Is "XbSyntheticMsrTbFlush" 0x40000007;
  Is "XbSyntheticMsrCrash" 0x40000008;
  Is "XbSyntheticMsrGuestOsType" 0x40000009;
  Is "HvSyntheticMsrVpRuntime" 0x40000010;
  Is "XbSyntheticMsrRefTimeOffset" 0x40000011;
  Is "XbSyntheticMsrRefTscScale" 0x40000012;
  Is "XbSyntheticMsrVpCount" 0x40000013;
  Is "XbSyntheticMsrWbinvd" 0x40000014;
  Is "XbSyntheticMsrFlushWb" 0x40000015;
  Is "XbSyntheticMsrFlushTbCurrent" 0x40000016;
  Is "XbSyntheticMsrKcfgDone" 0x40000017;
  Is "HvSyntheticMsrTimeRefCount" 0x40000020;
  Is "HvSyntheticMsrReferenceTsc" 0x40000021;
  Is "HvSyntheticMsrTscFrequency" 0x40000022;
  Is "HvSyntheticMsrApicFrequency" 0x40000023;
  Is "HvSyntheticMsrNpiepConfig" 0x40000040;
  Is "HvSyntheticMsrEoi" 0x40000070;
  Is "HvSyntheticMsrIcr" 0x40000071;
  Is "HvSyntheticMsrTpr" 0x40000072;
  Is "HvSyntheticMsrVpAssistPage" 0x40000073;
  Is "HvSyntheticMsrSControl" 0x40000080;
  Is "HvSyntheticMsrSVersion" 0x40000081;
  Is "HvSyntheticMsrSiefp" 0x40000082;
  Is "HvSyntheticMsrSimp" 0x40000083;
  Is "HvSyntheticMsrEom" 0x40000084;
  Is "HvSyntheticMsrSirb" 0x40000085;
  Is "HvSyntheticMsrSint0" 0x40000090;
  Is "HvSyntheticMsrSint1" 0x40000091;
  Is "HvSyntheticMsrSint2" 0x40000092;
  Is "HvSyntheticMsrSint3" 0x40000093;
  Is "HvSyntheticMsrSint4" 0x40000094;
  Is "HvSyntheticMsrSint5" 0x40000095;
  Is "HvSyntheticMsrSint6" 0x40000096;
  Is "HvSyntheticMsrSint7" 0x40000097;
  Is "HvSyntheticMsrSint8" 0x40000098;
  Is "HvSyntheticMsrSint9" 0x40000099;
  Is "HvSyntheticMsrSint10" 0x4000009a;
  Is "HvSyntheticMsrSint11" 0x4000009b;
  Is "HvSyntheticMsrSint12" 0x4000009c;
  Is "HvSyntheticMsrSint13" 0x4000009d;
  Is "HvSyntheticMsrSint14" 0x4000009e;
  Is "HvSyntheticMsrSint15" 0x4000009f;
  Is "HvSyntheticMsrSTimer0Config" 0x400000b0;
  Is "HvSyntheticMsrSTimer0Count" 0x400000b1;
  Is "HvSyntheticMsrSTimer1Config" 0x400000b2;
  Is "HvSyntheticMsrSTimer1Count" 0x400000b3;
  Is "HvSyntheticMsrSTimer2Config" 0x400000b4;
  Is "HvSyntheticMsrSTimer2Count" 0x400000b5;
  Is "HvSyntheticMsrSTimer3Config" 0x400000b6;
  Is "HvSyntheticMsrSTimer3Count" 0x400000b7;
  Is "HvSyntheticMsrPerfFeedbackTrigger" 0x400000c1;
  Is "HvSyntheticMsrGuestSchedulerEvent" 0x400000c2;
  Is "HvSyntheticMsrGuestIdle" 0x400000f0;
  Is "HvSyntheticMsrSynthDebugControl" 0x400000f1;
  Is "HvSyntheticMsrSynthDebugStatus" 0x400000f2;
  Is "HvSyntheticMsrSynthDebugSendBuffer" 0x400000f3;
  Is "HvSyntheticMsrSynthDebugReceiveBuffer" 0x400000f4;
  Is "HvSyntheticMsrSynthDebugPendingBuffer" 0x400000f5;
  Is "XbSyntheticMsrSynthDebugTransition" 0x400000f6;
  Is "HvSyntheticMsrDebugDeviceOptions" 0x400000ff;
  Is "HvSyntheticMsrCrashP0" 0x40000100;
  Is "HvSyntheticMsrCrashP1" 0x40000101;
  Is "HvSyntheticMsrCrashP2" 0x40000102;
  Is "HvSyntheticMsrCrashP3" 0x40000103;
  Is "HvSyntheticMsrCrashP4" 0x40000104;
  Is "HvSyntheticMsrCrashCtl" 0x40000105;
  Is "HvSyntheticMsrReenlightenmentControl" 0x40000106;
  Is "HvSyntheticMsrTscEmulationControl" 0x40000107;
  Is "HvSyntheticMsrTscEmulationStatus" 0x40000108;
  Is "HvSyntheticMsrSWatchdogConfig" 0x40000110;
  Is "HvSyntheticMsrSWatchdogCount" 0x40000111;
  Is "HvSyntheticMsrSWatchdogStatus" 0x40000112;
  Is "HvSyntheticMsrSTimeUnhaltedTimerConfig" 0x40000114;
  Is "HvSyntheticMsrSTimeUnhaltedTimerCount" 0x40000115;
  Is "HvSyntheticMsrMemoryZeroingControl" 0x40000116;
  Is "XbSyntheticMsrFsBase" 0x40000122;
  Is "XbSyntheticMsrXOnly" 0x40000123;
  Is "HvSyntheticMsrBelow1MbPage" 0x40000200;
  Is "HvSyntheticMsrNestedVpIndex" 0x40001002;
  Is "HvSyntheticMsrNestedSControl" 0x40001080;
  Is "HvSyntheticMsrNestedSVersion" 0x40001081;
  Is "HvSyntheticMsrNestedSiefp" 0x40001082;
  Is "HvSyntheticMsrNestedSimp" 0x40001083;
  Is "HvSyntheticMsrNestedEom" 0x40001084;
  Is "HvSyntheticMsrNestedSirb" 0x40001085;
  Is "HvSyntheticMsrNestedSint0" 0x40001090;
  Is "HvSyntheticMsrNestedSint1" 0x40001091;
  Is "HvSyntheticMsrNestedSint2" 0x40001092;
  Is "HvSyntheticMsrNestedSint3" 0x40001093;
  Is "HvSyntheticMsrNestedSint4" 0x40001094;
  Is "HvSyntheticMsrNestedSint5" 0x40001095;
  Is "HvSyntheticMsrNestedSint6" 0x40001096;
  Is "HvSyntheticMsrNestedSint7" 0x40001097;
  Is "HvSyntheticMsrNestedSint8" 0x40001098;
  Is "HvSyntheticMsrNestedSint9" 0x40001099;
  Is "HvSyntheticMsrNestedSint10" 0x4000109a;
  Is "HvSyntheticMsrNestedSint11" 0x4000109b;
  Is "HvSyntheticMsrNestedSint12" 0x4000109c;
  Is "HvSyntheticMsrNestedSint13" 0x4000109d;
  Is "HvSyntheticMsrNestedSint14" 0x4000109e;
  Is "HvSyntheticMsrNestedSint15" 0x4000109f].
Definition HV_X64_MSR_GUEST_OS_ID : Z := enum_value HV_X64_SYNTHETIC_MSR "HvSyntheticMsrGuestOsId".
Definition HV_GUEST_OS_ID_CONTENTS : cty := union 0 [
  fld UINT64 "AsUINT64";
  fld (struct 0 [
    bit UINT64 "BuildNumber" 16;
    bit UINT64 "ServiceVersion" 8;
    bit UINT64 "MinorVersion" 8;
    bit UINT64 "MajorVersion" 8;
    bit UINT64 "OsId" 8;
    bit UINT64 "VendorId" 16]) anonymous;
  fld (struct 0 [
    bit UINT64 "VendorSpecific1" 16;
    bit UINT64 "Version" 32;
    bit UINT64 "VendorSpecific2" 8;
    bit UINT64 "OsId" 7;
    bit UINT64 "IsOpenSource" 1]) "OpenSource"].
Definition HV_X64_MSR_HYPERCALL : Z := enum_value HV_X64_SYNTHETIC_MSR "HvSyntheticMsrHypercall".
Definition HV_X64_MSR_HYPERCALL_CONTENTS : cty := union 0 [
  fld UINT64 "AsUINT64";
  fld (struct 0 [
    bit UINT64 "Enable" 1;
    bit UINT64 "Locked" 1;
    bit UINT64 "ReservedP" 10;
    bit UINT64 "GpaPageNumber" 52]) anonymous].
Definition HV_CRASH_MAXIMUM_MESSAGE_SIZE : Z := 4096.
Definition HV_CRASH_CTL_REG_CONTENTS : cty := union 0 [
  fld UINT64 "AsUINT64";
  fld (struct 0 [
    bit UINT64 "Reserved" 58;
    bit UINT64 "PreOSId" 3;
    bit UINT64 "NoCrashDump" 1;
    bit UINT64 "CrashMessage" 1;
    bit UINT64 "CrashNotify" 1]) anonymous].
Definition HV_SYNIC_SINT : cty := union 0 [
  fld UINT64 "AsUINT64";
  fld (struct 0 [
    bit UINT64 "Vector" 8;
    bit UINT64 "ReservedP1" 8;
    bit UINT64 "Masked" 1;
    bit UINT64 "AutoEoi" 1;
    bit UINT64 "Polling" 1;
    bit UINT64 "AsIntercept" 1;
    bit UINT64 "Proxy" 1;
    bit UINT64 "ReservedP2" 43]) anonymous].
Definition HV_SYNIC_STIMER_COUNT : Z := 4.
Definition HV_PORT_ID : cty := union 0 [
  fld UINT32 "AsUINT32";
  fld (struct 0 [
    bit UINT32 "Id" 24;
    bit UINT32 "Reserved" 8]) anonymous].
Definition HV_SYNIC_SINT_INDEX : cty := UINT32.
Definition HV_SYNIC_SINT_COUNT : Z := 16.
Definition HV_MESSAGE_SIZE : Z := 256.
Definition HV_MESSAGE_PAYLOAD_BYTE_COUNT : Z := 240.
Definition HV_MESSAGE_PAYLOAD_QWORD_COUNT : Z := 30.
Definition HV_MESSAGE_TYPE : enum := [
  Is "HvMessageTypeNone" 0x00000000;
  Is "HvMessageTypeUnmappedGpa" 0x80000000;
  Is "HvMessageTypeGpaIntercept" 0x80000001;
  Is "HvMessageTypeUnacceptedGpa" 0x80000003;
  Is "HvMessageTypeGpaAttributeIntercept" 0x80000004;
  Is "HvMessageTimerExpired" 0x80000010;
  Is "HvMessageTypeInvalidVpRegisterValue" 0x80000020;
  Is "HvMessageTypeUnrecoverableException" 0x80000021;
  Is "HvMessageTypeUnsupportedFeature" 0x80000022;
  Is "HvMessageTypeTlbPageSizeMismatch" 0x80000023;
  Is "HvMessageTypeIommuFault" 0x80000024;
  Is "HvMessageTypeEventLogBufferComplete" 0x80000040;
  Is "HvMessageTypeHypercallIntercept" 0x80000050;
  Is "HvMessageTypeSynicEventIntercept" 0x80000060;
  Is "HvMessageTypeSchedulerIdRangeStart" 0x80000100;
  Is "HvMessageTypeSchedulerVpSignalBitset" 0x80000100;
  Is "HvMessageTypeSchedulerVpSignalPair" 0x80000101;
  Is "HvMessageTypeSchedulerIdRangeEnd" 0x800001ff;
  Is "HvMessageTypeMsrIntercept" 0x80010001;
  Is "HvMessageTypeExceptionIntercept" 0x80010003;
  Is "HvMessageTypeRegisterIntercept" 0x80010006;
  Is "HvMessageTypeX64IoPortIntercept" 0x80010000;
  Is "HvMessageTypeX64CpuidIntercept" 0x80010002;
  Is "HvMessageTypeX64ApicEoi" 0x80010004;
  Is "HvMessageTypeX64IommuPrq" 0x80010006;
  Is "HvMessageTypeX64Halt" 0x80010007;
  Is "HvMessageTypeX64InterruptionDeliverable" 0x80010008;
  Is "HvMessageTypeX64SipiIntercept" 0x80010009].
Definition HV_MESSAGE_FLAGS : cty := union 0 [
  fld UINT8 "AsUINT8";
  fld (struct 0 [
    bit UINT8 "MessagePending" 1;
    bit UINT8 "Reserved" 7]) anonymous].
Definition HV_MESSAGE_HEADER : cty := struct 0 [
  fld (enum_type HV_MESSAGE_TYPE) "MessageType";
  fld UINT8 "PayloadSize";
  fld HV_MESSAGE_FLAGS "MessageFlags";
  fld (CArr UINT8 2) "Reserved";
  fld (union 0 [
    fld HV_PARTITION_ID "Sender";
    fld HV_PORT_ID "Port"]) anonymous].
Definition HV_EVENT_FLAGS_COUNT : Z := 256 * 8.
Definition HV_EVENT_FLAGS_BYTE_COUNT : Z := 256.
Definition HV_EVENT_FLAGS_DWORD_COUNT : Z := 256 / (sizeof SysV UINT32).
Definition HV_SYNIC_EVENT_FLAGS : cty := union 0 [
  fld (CArr UINT8 HV_EVENT_FLAGS_BYTE_COUNT) "Flags8";
  fld (CArr UINT32 HV_EVENT_FLAGS_DWORD_COUNT) "Flags32"].
Definition HV_SYNIC_EVENT_FLAGS_PAGE : cty := struct 0 [
  fld (CArr HV_SYNIC_EVENT_FLAGS HV_SYNIC_SINT_COUNT) "SintEventFlags"].
Definition HV_X64_MSR_STIMER_CONFIG_CONTENTS : cty := struct 0 [
  fld (union 0 [
    fld UINT64 "AsUINT64";
    fld (struct 0 [
      bit UINT64 "Enable" 1;
      bit UINT64 "Periodic" 1;
      bit UINT64 "Lazy" 1;
      bit UINT64 "AutoEnable" 1;
      bit UINT64 "ApicVector" 8;
      bit UINT64 "DirectMode" 1;
      bit UINT64 "ReservedZ1" 3;
      bit UINT64 "SINTx" 4;
      bit UINT64 "ReservedZ2" 44]) anonymous]) anonymous].
Definition HV_SYNIC_SIMP : cty := union 0 [
  fld UINT64 "AsUINT64";
  fld (struct 0 [
    bit UINT64 "SimpEnabled" 1;
    bit UINT64 "Preserved" 11;
    bit UINT64 "BaseSimpGpa" 52]) anonymous].
Definition HV_EVENTLOG_BUFFER_INDEX : cty := UINT32.
Definition HV_EVENTLOG_TYPE : enum := [
  Is "HvEventLogTypeGlobalSystemEvents" 0x00000000;
  Is "HvEventLogTypeLocalDiagnostics" 0x00000001;
  Is "HvEventLogTypeMaximum" 0x00000001].
Definition HV_EVENTLOG_MESSAGE_PAYLOAD : cty := struct 0 [
  fld (enum_type HV_EVENTLOG_TYPE) "EventLogType";
  fld HV_EVENTLOG_BUFFER_INDEX "BufferIndex"].
Definition HV_TIMER_MESSAGE_PAYLOAD : cty := struct 0 [
  fld UINT32 "TimerIndex";
  fld UINT32 "Reserved";
  fld HV_NANO100_TIME "ExpirationTime";
  fld HV_NANO100_TIME "DeliveryTime"].
Definition HV_IOMMU_PRQ_MESSAGE_PAYLOAD : cty := struct 0 [
  fld HV_IOMMU_ID "IommuId"].
Definition HV_IOMMU_FAULT_TYPE : enum := [
  Next "HvIommuTranslationFault";
  Next "HvIommuTranslationBlocked";
  Next "HvIommuInterruptFault"].
Definition HV_IOMMU_FAULT_MESSAGE_PAYLOAD : cty := struct 0 [
  fld (enum_type HV_IOMMU_FAULT_TYPE) "Type";
  fld HV_INTERCEPT_ACCESS_TYPE "AccessType";
  fld (struct 0 [
    bit UINT32 "FaultAddressValid" 1;
    bit UINT32 "DeviceIdValid" 1]) "Flags";
  fld UINT64 "LogicalDeviceId";
  fld HV_GVA "FaultAddress"].
Definition HV_MESSAGE : cty := aligned 16 (struct 0 [
  fld HV_MESSAGE_HEADER "Header";
  fld (union 0 [
    fld (CArr UINT64 HV_MESSAGE_PAYLOAD_QWORD_COUNT) "Payload";
    fld HV_TIMER_MESSAGE_PAYLOAD "TimerPayload";
    fld HV_EVENTLOG_MESSAGE_PAYLOAD "TracePayload";
    fld HV_IOMMU_PRQ_MESSAGE_PAYLOAD "IommuPrqPayload";
    fld HV_IOMMU_FAULT_MESSAGE_PAYLOAD "IommuFaultPayload"]) anonymous]).
Definition HV_MESSAGE_PAGE : cty := struct 0 [
  fld (CArr HV_MESSAGE HV_SYNIC_SINT_COUNT) "SintMessage"].
Definition HV_SYNIC_SIEFP : cty := union 0 [
  fld UINT64 "AsUINT64";
  fld (struct 0 [
    bit UINT64 "SiefpEnabled" 1;
    bit UINT64 "ReservedP" 11;
    bit UINT64 "BaseSiefpGpa" 52]) anonymous].
Definition HV_UINT128 : cty := aligned 16 (union 0 [
  fld (struct 0 [
    fld UINT64 "Low64";
    fld UINT64 "High64"]) anonymous;
  fld (CArr UINT32 4) "Dword";
  fld (CArr UINT8 16) "AsUINT8"]).
Definition HV_CALL_ALIGNMENT : Z := 8.
Definition HV_ADDRESS_SPACE_ID : cty := UINT64.
Definition HV_INPUT_SWITCH_VIRTUAL_ADDRESS_SPACE : cty := aligned HV_CALL_ALIGNMENT (struct 0 [
  fld HV_ADDRESS_SPACE_ID "AddressSpace"]).
Definition HV_CONNECTION_ID : cty := union 0 [
  fld UINT32 "AsUINT32";
  fld (struct 0 [
    bit UINT32 "Id" 24;
    bit UINT32 "Reserved" 6;
    bit UINT32 "Scope" 2]) anonymous].
Definition HV_CALL_CODE_1 : enum := [
  Is "HvCallReserved0000" 0x0000;
  Is "HvCallSwitchVirtualAddressSpace" 0x0001;
  Is "HvCallFlushVirtualAddressSpace" 0x0002;
  Is "HvCallFlushVirtualAddressList" 0x0003;
  Is "HvCallGetLogicalProcessorRunTime" 0x0004;
  Is "HvCallUpdateHvProcessorFeatures" 0x0005;
  Is "HvCallSwitchAliasMap" 0x0006;
  Is "HvCallUpdateMicrocode" 0x0007;
  Is "HvCallNotifyLongSpinWait" 0x0008;
  Is "HvCallParkedVirtualProcessors" 0x0009;
  Is "HvCallInvokeHypervisorDebugger" 0x000a;
  Is "HvCallSendSyntheticClusterIpi" 0x000b;
  Is "HvCallModifyVtlProtectionMask" 0x000c;
  Is "HvCallEnablePartitionVtl" 0x000d;
  Is "HvCallDisablePartitionVtl" 0x000e;
  Is "HvCallEnableVpVtl" 0x000f;
  Is "HvCallDisableVpVtl" 0x0010;
  Is "HvCallVtlCall" 0x0011;
  Is "HvCallVtlReturn" 0x0012;
  Is "HvCallFlushVirtualAddressSpaceEx" 0x0013;
  Is "HvCallFlushVirtualAddressListEx" 0x0014;
  Is "HvCallSendSyntheticClusterIpiEx" 0x0015;
  Is "HvCallQueryImageInfo" 0x0016;
  Is "HvCallMapImagePages" 0x0017;
  Is "HvCallCommitPatch" 0x0018;
  Is "HvCallReserved0019" 0x0019;
  Is "HvCallReserved001a" 0x001a;
  Is "HvCallReserved001b" 0x001b;
  Is "HvCallReserved001c" 0x001c;
  Is "HvCallReserved001d" 0x001d;
  Is "HvCallReserved001e" 0x001e;
  Is "HvCallReserved001f" 0x001f;
  Is "HvCallReserved0020" 0x0020;
  Is "HvCallReserved0021" 0x0021;
  Is "HvCallReserved0022" 0x0022;
  Is "HvCallReserved0023" 0x0023;
  Is "HvCallReserved0024" 0x0024;
  Is "HvCallReserved0025" 0x0025;
  Is "HvCallReserved0026" 0x0026;
  Is "HvCallReserved0027" 0x0027;
  Is "HvCallReserved0028" 0x0028;
  Is "HvCallReserved0029" 0x0029;
  Is "HvCallReserved002a" 0x002a;
  Is "HvCallReserved002b" 0x002b;
  Is "HvCallReserved002c" 0x002c;
  Is "HvCallReserved002d" 0x002d;
  Is "HvCallReserved002e" 0x002e;
  Is "HvCallReserved002f" 0x002f;
  Is "HvCallReserved0030" 0x0030;
  Is "HvCallReserved0031" 0x0031;
  Is "HvCallReserved0032" 0x0032;
  Is "HvCallReserved0033" 0x0033;
  Is "HvCallReserved0034" 0x0034;
  Is "HvCallReserved0035" 0x0035;
  Is "HvCallReserved0036" 0x0036;
  Is "HvCallReserved0037" 0x0037;
  Is "HvCallReserved0038" 0x0038;
  Is "HvCallReserved0039" 0x0039;
  Is "HvCallReserved003a" 0x003a;
  Is "HvCallReserved003b" 0x003b;
  Is "HvCallReserved003c" 0x003c;
  Is "HvCallReserved003d" 0x003d;
  Is "HvCallReserved003e" 0x003e;
  Is "HvCallReserved003f" 0x003f;
  Is "HvCallCreatePartition" 0x0040;
  Is "HvCallInitializePartition" 0x0041;
  Is "HvCallFinalizePartition" 0x0042;
  Is "HvCallDeletePartition" 0x0043;
  Is "HvCallGetPartitionProperty" 0x0044;
  Is "HvCallSetPartitionProperty" 0x0045;
  Is "HvCallGetPartitionId" 0x0046;
  Is "HvCallGetNextChildPartition" 0x0047;
  Is "HvCallDepositMemory" 0x0048;
  Is "HvCallWithdrawMemory" 0x0049;
  Is "HvCallGetMemoryBalance" 0x004a;
  Is "HvCallMapGpaPages" 0x004b;
  Is "HvCallUnmapGpaPages" 0x004c;
  Is "HvCallInstallIntercept" 0x004d;
  Is "HvCallCreateVp" 0x004e;
  Is "HvCallDeleteVp" 0x004f;
  Is "HvCallGetVpRegisters" 0x0050;
  Is "HvCallSetVpRegisters" 0x0051;
  Is "HvCallTranslateVirtualAddress" 0x0052;
  Is "HvCallReadGpa" 0x0053;
  Is "HvCallWriteGpa" 0x0054;
  Is "HvCallAssertVirtualInterruptDeprecated" 0x0055;
  Is "HvCallClearVirtualInterrupt" 0x0056;
  Is "HvCallCreatePortDeprecated" 0x0057;
  Is "HvCallDeletePort" 0x0058].
Definition HV_CALL_CODE_2 : enum := [
  Is "HvCallConnectPortDeprecated" 0x0059;
  Is "HvCallGetPortProperty" 0x005a;
  Is "HvCallDisconnectPort" 0x005b;
  Is "HvCallPostMessage" 0x005c;
  Is "HvCallSignalEvent" 0x005d;
  Is "HvCallSavePartitionState" 0x005e;
  Is "HvCallRestorePartitionState" 0x005f;
  Is "HvCallInitializeEventLogBufferGroup" 0x0060;
  Is "HvCallFinalizeEventLogBufferGroup" 0x0061;
  Is "HvCallCreateEventLogBuffer" 0x0062;
  Is "HvCallDeleteEventLogBuffer" 0x0063;
  Is "HvCallMapEventLogBuffer" 0x0064;
  Is "HvCallUnmapEventLogBuffer" 0x0065;
  Is "HvCallSetEventLogGroupSources" 0x0066;
  Is "HvCallReleaseEventLogBuffer" 0x0067;
  Is "HvCallFlushEventLogBuffer" 0x0068;
  Is "HvCallPostDebugData" 0x0069;
  Is "HvCallRetrieveDebugData" 0x006a;
  Is "HvCallResetDebugSession" 0x006b;
  Is "HvCallMapStatsPage" 0x006c;
  Is "HvCallUnmapStatsPage" 0x006d;
  Is "HvCallMapSparseGpaPages" 0x006e;
  Is "HvCallSetSystemProperty" 0x006f;
  Is "HvCallSetPortProperty" 0x0070;
  Is "HvCallOutputDebugCharacter" 0x0071;
  Is "HvCallEchoIncrement" 0x0072;
  Is "HvCallPerfNop" 0x0073;
  Is "HvCallPerfNopInput" 0x0074;
  Is "HvCallPerfNopOutput" 0x0075;
  Is "HvCallAddLogicalProcessor" 0x0076;
  Is "HvCallRemoveLogicalProcessor" 0x0077;
  Is "HvCallQueryNumaDistance" 0x0078;
  Is "HvCallSetLogicalProcessorProperty" 0x0079;
  Is "HvCallGetLogicalProcessorProperty" 0x007a;
  Is "HvCallGetSystemProperty" 0x007b;
  Is "HvCallMapDeviceInterrupt" 0x007c;
  Is "HvCallUnmapDeviceInterrupt" 0x007d;
  Is "HvCallRetargetDeviceInterrupt" 0x007e;
  Is "HvCallRetargetRootDeviceInterrupt" 0x007f;
  Is "HvCallAssertDeviceInterrupt" 0x0080;
  Is "HvCallReserved0081" 0x0081;
  Is "HvCallAttachDevice" 0x0082;
  Is "HvCallDetachDevice" 0x0083;
  Is "HvCallEnterSleepState" 0x0084;
  Is "HvCallNotifyStandbyTransition" 0x0085;
  Is "HvCallPrepareForHibernate" 0x0086;
  Is "HvCallNotifyPartitionEvent" 0x0087;
  Is "HvCallGetLogicalProcessorRegisters" 0x0088;
  Is "HvCallSetLogicalProcessorRegisters" 0x0089;
  Is "HvCallQueryAssociatedLpsForMca" 0x008a;
  Is "HvCallNotifyPortRingEmpty" 0x008b;
  Is "HvCallInjectSyntheticMachineCheck" 0x008c;
  Is "HvCallScrubPartition" 0x008d;
  Is "HvCallCollectLivedump" 0x008e;
  Is "HvCallDisableHypervisor" 0x008f;
  Is "HvCallModifySparseGpaPages" 0x0090;
  Is "HvCallRegisterInterceptResult" 0x0091;
  Is "HvCallUnregisterInterceptResult" 0x0092;
  Is "HvCallGetCoverageData" 0x0093;
  Is "HvCallAssertVirtualInterrupt" 0x0094;
  Is "HvCallCreatePort" 0x0095;
  Is "HvCallConnectPort" 0x0096;
  Is "HvCallGetSpaPageList" 0x0097;
  Is "HvCallArm64GetStartStub" 0x0098;
  Is "HvCallStartVirtualProcessor" 0x0099].
Definition HV_CALL_CODE_3 : enum := [
  Is "HvCallGetVpIndexFromApicId" 0x009a;
  Is "HvCallGetPowerProperty" 0x009b;
  Is "HvCallSetPowerProperty" 0x009c;
  Is "HvCallCreatePasidSpace" 0x009d;
  Is "HvCallDeletePasidSpace" 0x009e;
  Is "HvCallSetPasidAddressSpace" 0x009f;
  Is "HvCallFlushPasidAddressSpace" 0x00a0;
  Is "HvCallFlushPasidAddressList" 0x00a1;
  Is "HvCallAttachPasidSpace" 0x00a2;
  Is "HvCallDetachPasidSpace" 0x00a3;
  Is "HvCallEnablePasid" 0x00a4;
  Is "HvCallDisablePasid" 0x00a5;
  Is "HvCallAcknowledgeDevicePageRequest" 0x00a6;
  Is "HvCallCreateDevicePrQueue" 0x00a7;
  Is "HvCallDeleteDevicePrQueue" 0x00a8;
  Is "HvCallSetDevicePrqProperty" 0x00a9;
  Is "HvCallGetPhysicalDeviceProperty" 0x00aa;
  Is "HvCallSetPhysicalDeviceProperty" 0x00ab;
  Is "HvCallTranslateVirtualAddressEx" 0x00ac;
  Is "HvCallCheckForIoIntercept" 0x00ad;
  Is "HvCallSetGpaPageAttributes" 0x00ae;
  Is "HvCallFlushGuestPhysicalAddressSpace" 0x00af;
  Is "HvCallFlushGuestPhysicalAddressList" 0x00b0;
  Is "HvCallCreateDeviceDomain" 0x00b1;
  Is "HvCallAttachDeviceDomain" 0x00b2;
  Is "HvCallMapDeviceGpaPages" 0x00b3;
  Is "HvCallUnmapDeviceGpaPages" 0x00b4;
  Is "HvCallCreateCpuGroup" 0x00b5;
  Is "HvCallDeleteCpuGroup" 0x00b6;
  Is "HvCallGetCpuGroupProperty" 0x00b7;
  Is "HvCallSetCpuGroupProperty" 0x00b8;
  Is "HvCallGetCpuGroupAffinity" 0x00b9;
  Is "HvCallGetNextCpuGroup" 0x00ba;
  Is "HvCallGetNextCpuGroupPartition" 0x00bb;
  Is "HvCallAddPhysicalMemory" 0x00bc;
  Is "HvCallCompleteIntercept" 0x00bd;
  Is "HvCallPrecommitGpaPages" 0x00be;
  Is "HvCallUncommitGpaPages" 0x00bf;
  Is "HvCallConfigureVirtualInterruptLine" 0x00c0;
  Is "HvCallSetVirtualInterruptLineState" 0x00c1;
  Is "HvCallDispatchVp" 0x00c2;
  Is "HvCallProcessIommuPrq" 0x00c3;
  Is "HvCallDetachDeviceDomain" 0x00c4;
  Is "HvCallDeleteDeviceDomain" 0x00c5;
  Is "HvCallQueryDeviceDomain" 0x00c6;
  Is "HvCallMapSparseDeviceGpaPages" 0x00c7;
  Is "HvCallUnmapSparseDeviceGpaPages" 0x00c8;
  Is "HvCallGetGpaPagesAccessState" 0x00c9;
  Is "HvCallGetSparseGpaPagesAccessState" 0x00ca;
  Is "HvCallInvokeTestFramework" 0x00cb;
  Is "HvCallQueryVtlProtectionMaskRange" 0x00cc;
  Is "HvCallModifyVtlProtectionMaskRange" 0x00cd;
  Is "HvCallConfigureDeviceDomain" 0x00ce;
  Is "HvCallQueryDeviceDomainProperties" 0x00cf;
  Is "HvCallFlushDeviceDomain" 0x00d0;
  Is "HvCallFlushDeviceDomainList" 0x00d1;
  Is "HvCallAcquireSparseGpaPageHostAccess" 0x00d2;
  Is "HvCallReleaseSparseGpaPageHostAccess" 0x00d3;
  Is "HvCallCheckSparseGpaPageVtlAccess" 0x00d4;
  Is "HvCallEnableDeviceInterrupt" 0x00d5;
  Is "HvCallFlushTlb" 0x00d6;
  Is "HvCallAcquireSparseSpaPageHostAccess" 0x00d7;
  Is "HvCallReleaseSparseSpaPageHostAccess" 0x00d8;
  Is "HvCallAcceptGpaPages" 0x00d9;
  Is "HvCallUnacceptGpaPages" 0x00da;
  Is "HvCallModifySparseGpaPageHostVisibility" 0x00db;
  Is "HvCallLockSparseGpaPageMapping" 0x00dc;
  Is "HvCallUnlockSparseGpaPageMapping" 0x00dd;
  Is "HvCallRequestProcessorHalt" 0x00de;
  Is "HvCallGetInterceptData" 0x00df;
  Next "HvCallCount"].
Definition HV_CALL_CODE : enum := HV_CALL_CODE_1 ++ HV_CALL_CODE_2 ++ HV_CALL_CODE_3.
Definition HV_X64_MAX_HYPERCALL_ELEMENTS : Z := (Z.shiftl 1 12) - 1.
Definition HV_HYPERCALL_INPUT : cty := union 0 [
  fld (struct 0 [
    bit UINT32 "CallCode" 16;
    bit UINT32 "IsFast" 1;
    bit UINT32 "Reserved1" 14;
    bit UINT32 "IsNested" 1;
    bit UINT32 "CountOfElements" 12;
    bit UINT32 "Reserved2" 4;
    bit UINT32 "RepStartIndex" 12;
    bit UINT32 "Reserved3" 4]) anonymous;
  fld UINT64 "AsUINT64"].
Definition HV_HYPERCALL_OUTPUT : cty := union 0 [
  fld (struct 0 [
    fld UINT16 "CallStatus";
    fld UINT16 "Reserved1";
    bit UINT32 "ElementsProcessed" 12;
    bit UINT32 "Reserved2" 20]) anonymous;
  fld UINT64 "AsUINT64"].
Definition HV_INPUT_POST_MESSAGE : cty := aligned HV_CALL_ALIGNMENT (struct 0 [
  fld HV_CONNECTION_ID "ConnectionId";
  fld UINT32 "Reserved";
  fld (enum_type HV_MESSAGE_TYPE) "MessageType";
  fld UINT32 "PayloadSize";
  fld (CArr UINT64 HV_MESSAGE_PAYLOAD_QWORD_COUNT) "Payload"]).
Definition HV_INPUT_SIGNAL_EVENT : cty := aligned HV_CALL_ALIGNMENT (struct 0 [
  fld HV_CONNECTION_ID "ConnectionId";
  fld UINT16 "FlagNumber";
  fld (CArr UINT16 3) "RsvdZ"]).
Definition HV_REGISTER_NAME_1 : enum := [
  Is "HvRegisterExplicitSuspend" 0x00000000;
  Is "HvRegisterInterceptSuspend" 0x00000001;
  Is "HvRegisterInstructionEmulationHints" 0x00000002;
  Is "HvRegisterDispatchSuspend" 0x00000003;
  Is "HvRegisterHypervisorVersion" 0x00000100;
  Is "HvRegisterPrivilegesAndFeaturesInfo" 0x00000200;
  Is "HvRegisterFeaturesInfo" 0x00000201;
  Is "HvRegisterImplementationLimitsInfo" 0x00000202;
  Is "HvRegisterHardwareFeaturesInfo" 0x00000203;
  Is "HvRegisterCpuManagementFeaturesInfo" 0x00000204;
  Is "HvRegisterSvmFeaturesInfo" 0x00000205;
  Is "HvRegisterSkipLevelFeaturesInfo" 0x00000206;
  Is "HvRegisterNestedVirtFeaturesInfo" 0x00000207;
  Is "HvRegisterIsolationConfiguration" 0x00000209;
  Is "HvRegisterGuestCrashP0" 0x00000210;
  Is "HvRegisterGuestCrashP1" 0x00000211;
  Is "HvRegisterGuestCrashP2" 0x00000212;
  Is "HvRegisterGuestCrashP3" 0x00000213;
  Is "HvRegisterGuestCrashP4" 0x00000214;
  Is "HvRegisterGuestCrashCtl" 0x00000215;
  Is "HvRegisterPowerStateConfigC1" 0x00000220;
  Is "HvRegisterPowerStateTriggerC1" 0x00000221;
  Is "HvRegisterPowerStateConfigC2" 0x00000222;
  Is "HvRegisterPowerStateTriggerC2" 0x00000223;
  Is "HvRegisterPowerStateConfigC3" 0x00000224;
  Is "HvRegisterPowerStateTriggerC3" 0x00000225;
  Is "HvRegisterProcessorClockFrequency" 0x00000240;
  Is "HvRegisterInterruptClockFrequency" 0x00000241;
  Is "HvRegisterGuestIdle" 0x00000250;
  Is "HvRegisterDebugDeviceOptions" 0x00000260;
  Is "HvRegisterMemoryZeroingControl" 0x00000270;
  Is "HvRegisterPendingInterruption" 0x00010002;
  Is "HvRegisterInterruptState" 0x00010003;
  Is "HvRegisterPendingEvent0" 0x00010004;
  Is "HvRegisterPendingEvent1" 0x00010005;
  Is "HvRegisterVpRuntime" 0x00090000;
  Is "HvRegisterGuestOsId" 0x00090002;
  Is "HvRegisterVpIndex" 0x00090003;
  Is "HvRegisterTimeRefCount" 0x00090004;
  Is "HvRegisterCpuManagementVersion" 0x00090007;
  Is "HvRegisterVpAssistPage" 0x00090013;
  Is "HvRegisterVpRootSignalCount" 0x00090014;
  Is "HvRegisterStatsPartitionRetail" 0x00090020;
  Is "HvRegisterStatsPartitionInternal" 0x00090021;
  Is "HvRegisterStatsVpRetail" 0x00090022;
  Is "HvRegisterStatsVpInternal" 0x00090023;
  Is "HvRegisterNestedVpIndex" 0x00091003;
  Is "HvRegisterSint0" 0x000a0000;
  Is "HvRegisterSint1" 0x000a0001;
  Is "HvRegisterSint2" 0x000a0002;
  Is "HvRegisterSint3" 0x000a0003;
  Is "HvRegisterSint4" 0x000a0004;
  Is "HvRegisterSint5" 0x000a0005;
  Is "HvRegisterSint6" 0x000a0006;
  Is "HvRegisterSint7" 0x000a0007;
  Is "HvRegisterSint8" 0x000a0008;
  Is "HvRegisterSint9" 0x000a0009;
  Is "HvRegisterSint10" 0x000a000a;
  Is "HvRegisterSint11" 0x000a000b;
  Is "HvRegisterSint12" 0x000a000c;
  Is "HvRegisterSint13" 0x000a000d;
  Is "HvRegisterSint14" 0x000a000e;
  Is "HvRegisterSint15" 0x000a000f;
  Is "HvRegisterScontrol" 0x000a0010;
  Is "HvRegisterSversion" 0x000a0011;
  Is "HvRegisterSifp" 0x000a0012;
  Is "HvRegisterSipp" 0x000a0013;
  Is "HvRegisterEom" 0x000a0014;
  Is "HvRegisterSirbp" 0x000a0015;
  Is "HvRegisterNestedSint0" 0x000a1000;
  Is "HvRegisterNestedSint1" 0x000a1001;
  Is "HvRegisterNestedSint2" 0x000a1002;
  Is "HvRegisterNestedSint3" 0x000a1003;
  Is "HvRegisterNestedSint4" 0x000a1004;
  Is "HvRegisterNestedSint5" 0x000a1005;
  Is "HvRegisterNestedSint6" 0x000a1006;
  Is "HvRegisterNestedSint7" 0x000a1007;
  Is "HvRegisterNestedSint8" 0x000a1008;
  Is "HvRegisterNestedSint9" 0x000a1009;
  Is "HvRegisterNestedSint10" 0x000a100a;
  Is "HvRegisterNestedSint11" 0x000a100b;
  Is "HvRegisterNestedSint12" 0x000a100c;
  Is "HvRegisterNestedSint13" 0x000a100d;
  Is "HvRegisterNestedSint14" 0x000a100e;
  Is "HvRegisterNestedSint15" 0x000a100f;
  Is "HvRegisterNestedScontrol" 0x000a1010;
  Is "HvRegisterNestedSversion" 0x000a1011;
  Is "HvRegisterNestedSifp" 0x000a1012;
  Is "HvRegisterNestedSipp" 0x000a1013;
  Is "HvRegisterNestedEom" 0x000a1014;
  Is "HvRegisterNestedSirbp" 0x000a1015;
  Is "HvRegisterStimer0Config" 0x000b0000].
Definition HV_REGISTER_NAME_2 : enum := [
  Is "HvRegisterStimer0Count" 0x000b0001;
  Is "HvRegisterStimer1Config" 0x000b0002;
  Is "HvRegisterStimer1Count" 0x000b0003;
  Is "HvRegisterStimer2Config" 0x000b0004;
  Is "HvRegisterStimer2Count" 0x000b0005;
  Is "HvRegisterStimer3Config" 0x000b0006;
  Is "HvRegisterStimer3Count" 0x000b0007;
  Is "HvRegisterStimeUnhaltedTimerConfig" 0x000b0100;
  Is "HvRegisterStimeUnhaltedTimerCount" 0x000b0101;
  Is "HvRegisterVsmCodePageOffsets" 0x000d0002;
  Is "HvRegisterVsmVpStatus" 0x000d0003;
  Is "HvRegisterVsmPartitionStatus" 0x000d0004;
  Is "HvRegisterVsmVina" 0x000d0005;
  Is "HvRegisterVsmCapabilities" 0x000d0006;
  Is "HvRegisterVsmPartitionConfig" 0x000d0007;
  Is "HvRegisterVsmVpSecureConfigVtl0" 0x000d0010;
  Is "HvRegisterVsmVpSecureConfigVtl1" 0x000d0011;
  Is "HvRegisterVsmVpSecureConfigVtl2" 0x000d0012;
  Is "HvRegisterVsmVpSecureConfigVtl3" 0x000d0013;
  Is "HvRegisterVsmVpSecureConfigVtl4" 0x000d0014;
  Is "HvRegisterVsmVpSecureConfigVtl5" 0x000d0015;
  Is "HvRegisterVsmVpSecureConfigVtl6" 0x000d0016;
  Is "HvRegisterVsmVpSecureConfigVtl7" 0x000d0017;
  Is "HvRegisterVsmVpSecureConfigVtl8" 0x000d0018;
  Is "HvRegisterVsmVpSecureConfigVtl9" 0x000d0019;
  Is "HvRegisterVsmVpSecureConfigVtl10" 0x000d001a;
  Is "HvRegisterVsmVpSecureConfigVtl11" 0x000d001b;
  Is "HvRegisterVsmVpSecureConfigVtl12" 0x000d001c;
  Is "HvRegisterVsmVpSecureConfigVtl13" 0x000d001d;
  Is "HvRegisterVsmVpSecureConfigVtl14" 0x000d001e;
  Is "HvRegisterVsmVpWaitForTlbLock" 0x000d0020;
  Is "HvRegisterIsolationCapabilities" 0x000d0100;
  Is "HvX64RegisterDeliverabilityNotifications" 0x00010006;
  Is "HvX64RegisterRax" 0x00020000;
  Is "HvX64RegisterRcx" 0x00020001;
  Is "HvX64RegisterRdx" 0x00020002;
  Is "HvX64RegisterRbx" 0x00020003;
  Is "HvX64RegisterRsp" 0x00020004;
  Is "HvX64RegisterRbp" 0x00020005;
  Is "HvX64RegisterRsi" 0x00020006;
  Is "HvX64RegisterRdi" 0x00020007;
  Is "HvX64RegisterR8" 0x00020008;
  Is "HvX64RegisterR9" 0x00020009;
  Is "HvX64RegisterR10" 0x0002000a;
  Is "HvX64RegisterR11" 0x0002000b;
  Is "HvX64RegisterR12" 0x0002000c;
  Is "HvX64RegisterR13" 0x0002000d;
  Is "HvX64RegisterR14" 0x0002000e;
  Is "HvX64RegisterR15" 0x0002000f;
  Is "HvX64RegisterRip" 0x00020010;
  Is "HvX64RegisterRflags" 0x00020011;
  Is "HvX64RegisterXmm0" 0x00030000;
  Is "HvX64RegisterXmm1" 0x00030001;
  Is "HvX64RegisterXmm2" 0x00030002;
  Is "HvX64RegisterXmm3" 0x00030003;
  Is "HvX64RegisterXmm4" 0x00030004;
  Is "HvX64RegisterXmm5" 0x00030005;
  Is "HvX64RegisterXmm6" 0x00030006;
  Is "HvX64RegisterXmm7" 0x00030007;
  Is "HvX64RegisterXmm8" 0x00030008;
  Is "HvX64RegisterXmm9" 0x00030009;
  Is "HvX64RegisterXmm10" 0x0003000a;
  Is "HvX64RegisterXmm11" 0x0003000b;
  Is "HvX64RegisterXmm12" 0x0003000c;
  Is "HvX64RegisterXmm13" 0x0003000d;
  Is "HvX64RegisterXmm14" 0x0003000e;
  Is "HvX64RegisterXmm15" 0x0003000f;
  Is "HvX64RegisterFpMmx0" 0x00030010;
  Is "HvX64RegisterFpMmx1" 0x00030011;
  Is "HvX64RegisterFpMmx2" 0x00030012;
  Is "HvX64RegisterFpMmx3" 0x00030013;
  Is "HvX64RegisterFpMmx4" 0x00030014;
  Is "HvX64RegisterFpMmx5" 0x00030015;
  Is "HvX64RegisterFpMmx6" 0x00030016;
  Is "HvX64RegisterFpMmx7" 0x00030017;
  Is "HvX64RegisterFpControlStatus" 0x00030018;
  Is "HvX64RegisterXmmControlStatus" 0x00030019;
  Is "HvX64RegisterCr0" 0x00040000;
  Is "HvX64RegisterCr2" 0x00040001;
  Is "HvX64RegisterCr3" 0x00040002;
  Is "HvX64RegisterCr4" 0x00040003;
  Is "HvX64RegisterCr8" 0x00040004;
  Is "HvX64RegisterXfem" 0x00040005;
  Is "HvX64RegisterIntermediateCr0" 0x00041000;
  Is "HvX64RegisterIntermediateCr4" 0x00041003;
  Is "HvX64RegisterIntermediateCr8" 0x00041004;
  Is "HvX64RegisterDr0" 0x00050000;
  Is "HvX64RegisterDr1" 0x00050001;
  Is "HvX64RegisterDr2" 0x00050002;
  Is "HvX64RegisterDr3" 0x00050003;
  Is "HvX64RegisterDr6" 0x00050004;
  Is "HvX64RegisterDr7" 0x00050005;
  Is "HvX64RegisterEs" 0x00060000;
  Is "HvX64RegisterCs" 0x00060001;
  Is "HvX64RegisterSs" 0x00060002;
  Is "HvX64RegisterDs" 0x00060003;
  Is "HvX64RegisterFs" 0x00060004;
  Is "HvX64RegisterGs" 0x00060005;
  Is "HvX64RegisterLdtr" 0x00060006;
  Is "HvX64RegisterTr" 0x00060007;
  Is "HvX64RegisterIdtr" 0x00070000;
  Is "HvX64RegisterGdtr" 0x00070001;
  Is "HvX64RegisterTsc" 0x00080000;
  Is "HvX64RegisterEfer" 0x00080001;
  Is "HvX64RegisterKernelGsBase" 0x00080002;
  Is "HvX64RegisterApicBase" 0x00080003;
  Is "HvX64RegisterPat" 0x00080004;
  Is "HvX64RegisterSysenterCs" 0x00080005;
  Is "HvX64RegisterSysenterEip" 0x00080006;
  Is "HvX64RegisterSysenterEsp" 0x00080007].
Definition HV_REGISTER_NAME_3 : enum := [
  Is "HvX64RegisterStar" 0x00080008;
  Is "HvX64RegisterLstar" 0x00080009;
  Is "HvX64RegisterCstar" 0x0008000a;
  Is "HvX64RegisterSfmask" 0x0008000b;
  Is "HvX64RegisterInitialApicId" 0x0008000c;
  Is "HvX64RegisterMsrMtrrCap" 0x0008000d;
  Is "HvX64RegisterMsrMtrrDefType" 0x0008000e;
  Is "HvX64RegisterMsrMtrrPhysBase0" 0x00080010;
  Is "HvX64RegisterMsrMtrrPhysBase1" 0x00080011;
  Is "HvX64RegisterMsrMtrrPhysBase2" 0x00080012;
  Is "HvX64RegisterMsrMtrrPhysBase3" 0x00080013;
  Is "HvX64RegisterMsrMtrrPhysBase4" 0x00080014;
  Is "HvX64RegisterMsrMtrrPhysBase5" 0x00080015;
  Is "HvX64RegisterMsrMtrrPhysBase6" 0x00080016;
  Is "HvX64RegisterMsrMtrrPhysBase7" 0x00080017;
  Is "HvX64RegisterMsrMtrrPhysBase8" 0x00080018;
  Is "HvX64RegisterMsrMtrrPhysBase9" 0x00080019;
  Is "HvX64RegisterMsrMtrrPhysBaseA" 0x0008001a;
  Is "HvX64RegisterMsrMtrrPhysBaseB" 0x0008001b;
  Is "HvX64RegisterMsrMtrrPhysBaseC" 0x0008001c;
  Is "HvX64RegisterMsrMtrrPhysBaseD" 0x0008001d;
  Is "HvX64RegisterMsrMtrrPhysBaseE" 0x0008001e;
  Is "HvX64RegisterMsrMtrrPhysBaseF" 0x0008001f;
  Is "HvX64RegisterMsrMtrrPhysMask0" 0x00080040;
  Is "HvX64RegisterMsrMtrrPhysMask1" 0x00080041;
  Is "HvX64RegisterMsrMtrrPhysMask2" 0x00080042;
  Is "HvX64RegisterMsrMtrrPhysMask3" 0x00080043;
  Is "HvX64RegisterMsrMtrrPhysMask4" 0x00080044;
  Is "HvX64RegisterMsrMtrrPhysMask5" 0x00080045;
  Is "HvX64RegisterMsrMtrrPhysMask6" 0x00080046;
  Is "HvX64RegisterMsrMtrrPhysMask7" 0x00080047;
  Is "HvX64RegisterMsrMtrrPhysMask8" 0x00080048;
  Is "HvX64RegisterMsrMtrrPhysMask9" 0x00080049;
  Is "HvX64RegisterMsrMtrrPhysMaskA" 0x0008004a;
  Is "HvX64RegisterMsrMtrrPhysMaskB" 0x0008004b;
  Is "HvX64RegisterMsrMtrrPhysMaskC" 0x0008004c;
  Is "HvX64RegisterMsrMtrrPhysMaskD" 0x0008004d;
  Is "HvX64RegisterMsrMtrrPhysMaskE" 0x0008004e;
  Is "HvX64RegisterMsrMtrrPhysMaskF" 0x0008004f;
  Is "HvX64RegisterMsrMtrrFix64k00000" 0x00080070;
  Is "HvX64RegisterMsrMtrrFix16k80000" 0x00080071;
  Is "HvX64RegisterMsrMtrrFix16kA0000" 0x00080072;
  Is "HvX64RegisterMsrMtrrFix4kC0000" 0x00080073;
  Is "HvX64RegisterMsrMtrrFix4kC8000" 0x00080074;
  Is "HvX64RegisterMsrMtrrFix4kD0000" 0x00080075;
  Is "HvX64RegisterMsrMtrrFix4kD8000" 0x00080076;
  Is "HvX64RegisterMsrMtrrFix4kE0000" 0x00080077;
  Is "HvX64RegisterMsrMtrrFix4kE8000" 0x00080078;
  Is "HvX64RegisterMsrMtrrFix4kF0000" 0x00080079;
  Is "HvX64RegisterMsrMtrrFix4kF8000" 0x0008007a;
  Is "HvX64RegisterTscAux" 0x0008007b;
  Is "HvX64RegisterBndcfgs" 0x0008007c;
  Is "HvX64RegisterDebugCtl" 0x0008007d;
  Is "HvX64RegisterAvailable0008007E" 0x0008007e;
  Is "HvX64RegisterAvailable0008007F" 0x0008007f;
  Is "HvX64RegisterSgxLaunchControl0" 0x00080080;
  Is "HvX64RegisterSgxLaunchControl1" 0x00080081;
  Is "HvX64RegisterSgxLaunchControl2" 0x00080082;
  Is "HvX64RegisterSgxLaunchControl3" 0x00080083;
  Is "HvX64RegisterSpecCtrl" 0x00080084;
  Is "HvX64RegisterPredCmd" 0x00080085;
  Is "HvX64RegisterMsrIa32MiscEnable" 0x000800a0;
  Is "HvX64RegisterIa32FeatureControl" 0x000800a1;
  Is "HvX64RegisterIa32VmxBasic" 0x000800a2;
  Is "HvX64RegisterIa32VmxPinbasedCtls" 0x000800a3;
  Is "HvX64RegisterIa32VmxProcbasedCtls" 0x000800a4;
  Is "HvX64RegisterIa32VmxExitCtls" 0x000800a5;
  Is "HvX64RegisterIa32VmxEntryCtls" 0x000800a6;
  Is "HvX64RegisterIa32VmxMisc" 0x000800a7;
  Is "HvX64RegisterIa32VmxCr0Fixed0" 0x000800a8;
  Is "HvX64RegisterIa32VmxCr0Fixed1" 0x000800a9;
  Is "HvX64RegisterIa32VmxCr4Fixed0" 0x000800aa;
  Is "HvX64RegisterIa32VmxCr4Fixed1" 0x000800ab;
  Is "HvX64RegisterIa32VmxVmcsEnum" 0x000800ac;
  Is "HvX64RegisterIa32VmxProcbasedCtls2" 0x000800ad;
  Is "HvX64RegisterIa32VmxEptVpidCap" 0x000800ae;
  Is "HvX64RegisterIa32VmxTruePinbasedCtls" 0x000800af;
  Is "HvX64RegisterIa32VmxTrueProcbasedCtls" 0x000800b0;
  Is "HvX64RegisterIa32VmxTrueExitCtls" 0x000800b1;
  Is "HvX64RegisterIa32VmxTrueEntryCtls" 0x000800b2;
  Is "HvX64RegisterPerfGlobalCtrl" 0x00081000;
  Is "HvX64RegisterPerfGlobalStatus" 0x00081001;
  Is "HvX64RegisterPerfGlobalInUse" 0x00081002;
  Is "HvX64RegisterFixedCtrCtrl" 0x00081003;
  Is "HvX64RegisterDsArea" 0x00081004;
  Is "HvX64RegisterPebsEnable" 0x00081005;
  Is "HvX64RegisterPebsLdLat" 0x00081006;
  Is "HvX64RegisterPebsFrontend" 0x00081007;
  Is "HvX64RegisterPerfEvtSel0" 0x00081100;
  Is "HvX64RegisterPmc0" 0x00081200;
  Is "HvX64RegisterFixedCtr0" 0x00081300;
  Is "HvX64RegisterLbrTos" 0x00082000;
  Is "HvX64RegisterLbrSelect" 0x00082001;
  Is "HvX64RegisterLerFromLip" 0x00082002;
  Is "HvX64RegisterLerToLip" 0x00082003;
  Is "HvX64RegisterLbrFrom0" 0x00082100;
  Is "HvX64RegisterLbrTo0" 0x00082200;
  Is "HvX64RegisterLbrInfo0" 0x00083300;
  Is "HvX64RegisterHypercall" 0x00090001;
  Is "HvX64RegisterEoi" 0x00090010;
  Is "HvX64RegisterIcr" 0x00090011;
  Is "HvX64RegisterTpr" 0x00090012;
  Is "HvX64RegisterEmulatedTimerPeriod" 0x00090030;
  Is "HvX64RegisterEmulatedTimerControl" 0x00090031;
  Is "HvX64RegisterPmTimerAssist" 0x00090032;
  Is "HvX64RegisterCrInterceptControl" 0x000e0000;
  Is "HvX64RegisterCrInterceptCr0Mask" 0x000e0001;
  Is "HvX64RegisterCrInterceptCr4Mask" 0x000e0002;
  Is "HvX64RegisterCrInterceptIa32MiscEnableMask" 0x000e0003].
Definition HV_REGISTER_NAME : enum := HV_REGISTER_NAME_1 ++ HV_REGISTER_NAME_2 ++ HV_REGISTER_NAME_3.
Definition HV_REGISTER_VALUE : cty := union 0 [
  fld HV_UINT128 "Reg128";
  fld UINT64 "Reg64";
  fld UINT32 "Reg32";
  fld UINT16 "Reg16";
  fld UINT8 "Reg8"].
Definition HV_INPUT_START_VIRTUAL_PROCESSOR : cty := aligned HV_CALL_ALIGNMENT (struct 0 [
  fld HV_PARTITION_ID "PartitionId";
  fld HV_VP_INDEX "VpIndex";
  fld HV_VTL "TargetVtl";
  fld UINT8 "ReservedZ0";
  fld UINT16 "ReservedZ1";
  fld HV_INITIAL_VP_CONTEXT "VpContext"]).
Definition HV_INPUT_MODIFY_SPARSE_GPA_PAGE_HOST_VISIBILITY : cty := aligned HV_CALL_ALIGNMENT (struct 0 [
  fld HV_PARTITION_ID "TargetPartitionId";
  bit UINT32 "HostVisibility" 2;
  bit UINT32 "Reserved0" 30;
  fld UINT32 "Reserved1";
  fld (CAlign HV_CALL_ALIGNMENT (CArr HV_GPA_PAGE_NUMBER HV_ANYSIZE_ARRAY)) "GpaPageList"]).

(** ** The records and enumerations of the file *)

Definition GuestInterface_types : list (string * cty) := [
  ("HV_X64_SEGMENT_REGISTER", HV_X64_SEGMENT_REGISTER);
  ("HV_X64_TABLE_REGISTER", HV_X64_TABLE_REGISTER);
  ("HV_INITIAL_VP_CONTEXT", HV_INITIAL_VP_CONTEXT);
  ("HV_HYPERVISOR_VERSION_INFO", HV_HYPERVISOR_VERSION_INFO);
  ("HV_PARTITION_PRIVILEGE_MASK", HV_PARTITION_PRIVILEGE_MASK);
  ("HV_X64_PLATFORM_CAPABILITIES", HV_X64_PLATFORM_CAPABILITIES);
  ("HV_VENDOR_AND_MAX_FUNCTION", HV_VENDOR_AND_MAX_FUNCTION);
  ("HV_HYPERVISOR_INTERFACE_INFO", HV_HYPERVISOR_INTERFACE_INFO);
  ("HV_X64_HYPERVISOR_FEATURES", HV_X64_HYPERVISOR_FEATURES);
  ("HV_X64_ENLIGHTENMENT_INFORMATION", HV_X64_ENLIGHTENMENT_INFORMATION);
  ("HV_IMPLEMENTATION_LIMITS", HV_IMPLEMENTATION_LIMITS);
  ("HV_X64_HYPERVISOR_HARDWARE_FEATURES", HV_X64_HYPERVISOR_HARDWARE_FEATURES);
  ("HV_X64_HYPERVISOR_CPU_MANAGEMENT_FEATURES", HV_X64_HYPERVISOR_CPU_MANAGEMENT_FEATURES);
  ("HV_HYPERVISOR_SVM_FEATURES", HV_HYPERVISOR_SVM_FEATURES);
  ("HV_HYPERVISOR_NESTED_VIRT_FEATURES", HV_HYPERVISOR_NESTED_VIRT_FEATURES);
  ("HV_HYPERVISOR_ISOLATION_CONFIGURATION", HV_HYPERVISOR_ISOLATION_CONFIGURATION);
  ("HV_CPUID_RESULT", HV_CPUID_RESULT);
  ("HV_GUEST_OS_ID_CONTENTS", HV_GUEST_OS_ID_CONTENTS);
  ("HV_X64_MSR_HYPERCALL_CONTENTS", HV_X64_MSR_HYPERCALL_CONTENTS);
  ("HV_CRASH_CTL_REG_CONTENTS", HV_CRASH_CTL_REG_CONTENTS);
  ("HV_SYNIC_SINT", HV_SYNIC_SINT);
  ("HV_PORT_ID", HV_PORT_ID);
  ("HV_MESSAGE_FLAGS", HV_MESSAGE_FLAGS);
  ("HV_MESSAGE_HEADER", HV_MESSAGE_HEADER);
  ("HV_SYNIC_EVENT_FLAGS", HV_SYNIC_EVENT_FLAGS);
  ("HV_SYNIC_EVENT_FLAGS_PAGE", HV_SYNIC_EVENT_FLAGS_PAGE);
  ("HV_X64_MSR_STIMER_CONFIG_CONTENTS", HV_X64_MSR_STIMER_CONFIG_CONTENTS);
  ("HV_SYNIC_SIMP", HV_SYNIC_SIMP);
  ("HV_EVENTLOG_MESSAGE_PAYLOAD", HV_EVENTLOG_MESSAGE_PAYLOAD);
  ("HV_TIMER_MESSAGE_PAYLOAD", HV_TIMER_MESSAGE_PAYLOAD);
  ("HV_IOMMU_PRQ_MESSAGE_PAYLOAD", HV_IOMMU_PRQ_MESSAGE_PAYLOAD);
  ("HV_IOMMU_FAULT_MESSAGE_PAYLOAD", HV_IOMMU_FAULT_MESSAGE_PAYLOAD);
  ("HV_MESSAGE", HV_MESSAGE);
  ("HV_MESSAGE_PAGE", HV_MESSAGE_PAGE);
  ("HV_SYNIC_SIEFP", HV_SYNIC_SIEFP);
  ("HV_UINT128", HV_UINT128);
  ("HV_INPUT_SWITCH_VIRTUAL_ADDRESS_SPACE", HV_INPUT_SWITCH_VIRTUAL_ADDRESS_SPACE);
  ("HV_CONNECTION_ID", HV_CONNECTION_ID);
  ("HV_HYPERCALL_INPUT", HV_HYPERCALL_INPUT);
  ("HV_HYPERCALL_OUTPUT", HV_HYPERCALL_OUTPUT);
  ("HV_INPUT_POST_MESSAGE", HV_INPUT_POST_MESSAGE);
  ("HV_INPUT_SIGNAL_EVENT", HV_INPUT_SIGNAL_EVENT);
  ("HV_REGISTER_VALUE", HV_REGISTER_VALUE);
  ("HV_INPUT_START_VIRTUAL_PROCESSOR", HV_INPUT_START_VIRTUAL_PROCESSOR);
  ("HV_INPUT_MODIFY_SPARSE_GPA_PAGE_HOST_VISIBILITY", HV_INPUT_MODIFY_SPARSE_GPA_PAGE_HOST_VISIBILITY)].
Definition GuestInterface_enums : list (string * enum) := [
  ("HV_HYPERVISOR_INTERFACE", HV_HYPERVISOR_INTERFACE);
  ("HV_CPUID_FUNCTION", HV_CPUID_FUNCTION);
  ("HV_GUEST_OS_VENDOR", HV_GUEST_OS_VENDOR);
  ("HV_GUEST_OS_MICROSOFT_IDS", HV_GUEST_OS_MICROSOFT_IDS);
  ("HV_X64_SYNTHETIC_MSR", HV_X64_SYNTHETIC_MSR);
  ("HV_MESSAGE_TYPE", HV_MESSAGE_TYPE);
  ("HV_EVENTLOG_TYPE", HV_EVENTLOG_TYPE);
  ("HV_IOMMU_FAULT_TYPE", HV_IOMMU_FAULT_TYPE);
  ("HV_CALL_CODE", HV_CALL_CODE);
  ("HV_REGISTER_NAME", HV_REGISTER_NAME)].
