(* ===== verification/GuestProtocols.v ===== *)
(** * The VMBus protocols of the host

    Channel messages, ring and packet headers and the messages of the video, keyboard,
    storage, network, PCI and file-system services of [Mile.HyperV.Guest.Protocols.h]. *)

From S2P Require Import Prelude CLayout GuestInterface.

(** [(NTSTATUS)z]: the value as a [long] of the ABI. *)
Definition NTSTATUS : cty := CLong true.
Definition to_NTSTATUS (b : abi) (z : Z) : Z := to_signed (8 * sizeof b NTSTATUS) z.

Definition TRUE : Z := u8 (if 1 =? 1 then 1 else 0).
Definition NT_SUCCESS (b : abi) (Status : Z) : bool := 0 <=? to_NTSTATUS b Status.
Definition STATUS_REVISION_MISMATCH (b : abi) : Z := to_NTSTATUS b 0xc0000059.
Definition MAXIMUM_SYNIC_MESSAGE_BYTES : Z := 240.
Definition MAX_USER_DEFINED_BYTES : Z := 120.
Definition GPA_RANGE : cty := struct 0 [
  fld UINT32 "ByteCount";
  fld UINT32 "ByteOffset";
  fld (CArr UINT64 HV_ANYSIZE_ARRAY) "PfnArray"].
Definition GPA_RANGE_MAX_PFN_COUNT : Z := 0xfffff.
Definition VMBUS_MAKE_VERSION (Major Minor : Z) : Z := Z.lor (Z.shiftl Major 16) Minor.
Definition VMBUS_VERSION_V1 : Z := VMBUS_MAKE_VERSION 0 13.
Definition VMBUS_VERSION_WIN7 : Z := VMBUS_MAKE_VERSION 1 1.
Definition VMBUS_VERSION_WIN8 : Z := VMBUS_MAKE_VERSION 2 4.
Definition VMBUS_VERSION_WIN8_1 : Z := VMBUS_MAKE_VERSION 3 0.
Definition VMBUS_VERSION_WIN10 : Z := VMBUS_MAKE_VERSION 4 0.
Definition VMBUS_VERSION_WIN10RS3_0 : Z := VMBUS_MAKE_VERSION 4 1.
Definition VMBUS_VERSION_WIN10RS3_1 : Z := VMBUS_MAKE_VERSION 5 0.
Definition VMBUS_VERSION_WIN10RS4 : Z := VMBUS_MAKE_VERSION 5 1.
Definition VMBUS_VERSION_WIN10RS5 : Z := VMBUS_MAKE_VERSION 5 2.
Definition VMBUS_VERSION_IRON : Z := VMBUS_MAKE_VERSION 5 3.
Definition VMBUS_VERSION_COPPER : Z := VMBUS_MAKE_VERSION 6 0.
Definition VMBUS_VERSION_LATEST : Z := VMBUS_VERSION_COPPER.
Definition VMBUS_VERSION_MULTICLIENT : Z := VMBUS_VERSION_WIN10RS3_1.
Definition VMBUS_FEATURE_FLAG_GUEST_SPECIFIED_SIGNAL_PARAMETERS : Z := 0x1.
Definition VMBUS_FEATURE_FLAG_CHANNEL_INTERRUPT_REDIRECTION : Z := 0x2.
Definition VMBUS_FEATURE_FLAG_MODIFY_CONNECTION : Z := 0x4.
Definition VMBUS_FEATURE_FLAG_CLIENT_ID : Z := 0x8.
Definition VMBUS_FEATURE_FLAG_CONFIDENTIAL_CHANNELS : Z := 0x10.
Definition VMBUS_SUPPORTED_FEATURE_FLAGS_COPPER : Z := Z.lor (Z.lor
  VMBUS_FEATURE_FLAG_GUEST_SPECIFIED_SIGNAL_PARAMETERS
  VMBUS_FEATURE_FLAG_CHANNEL_INTERRUPT_REDIRECTION) VMBUS_FEATURE_FLAG_MODIFY_CONNECTION.
Definition VMBUS_SUPPORTED_FEATURE_FLAGS_DILITHIUM : Z := Z.lor VMBUS_SUPPORTED_FEATURE_FLAGS_COPPER
  VMBUS_FEATURE_FLAG_CLIENT_ID.
Definition VMBUS_CHANNEL_MESSAGE_TYPE : enum := [
  Is "ChannelMessageInvalid" 0;
  Is "ChannelMessageOfferChannel" 1;
  Is "ChannelMessageRescindChannelOffer" 2;
  Is "ChannelMessageRequestOffers" 3;
  Is "ChannelMessageAllOffersDelivered" 4;
  Is "ChannelMessageOpenChannel" 5;
  Is "ChannelMessageOpenChannelResult" 6;
  Is "ChannelMessageCloseChannel" 7;
  Is "ChannelMessageGpadlHeader" 8;
  Is "ChannelMessageGpadlBody" 9;
  Is "ChannelMessageGpadlCreated" 10;
  Is "ChannelMessageGpadlTeardown" 11;
  Is "ChannelMessageGpadlTorndown" 12;
  Is "ChannelMessageRelIdReleased" 13;
  Is "ChannelMessageInitiateContact" 14;
  Is "ChannelMessageVersionResponse" 15;
  Is "ChannelMessageUnload" 16;
  Is "ChannelMessageUnloadComplete" 17;
  Is "ChannelMessageOpenReservedChannel" 18;
  Is "ChannelMessageCloseReservedChannel" 19;
  Is "ChannelMessageCloseReservedResponse" 20;
  Is "ChannelMessageTlConnectRequest" 21;
  Is "ChannelMessageModifyChannel" 22;
  Is "ChannelMessageTlConnectRequestResult" 23;
  Is "ChannelMessageModifyChannelResponse" 24;
  Is "ChannelMessageModifyConnection" 25;
  Is "ChannelMessageModifyConnectionResponse" 26;
  Next "ChannelMessageCount"].
Definition VMBUS_CHANNEL_MESSAGE_HEADER : cty := struct 1 [
  fld (enum_type VMBUS_CHANNEL_MESSAGE_TYPE) "MessageType";
  fld UINT32 "Padding"].
Definition VMBUS_OFFER_FLAG_ENUMERATE_DEVICE_INTERFACE : Z := 0x1.
Definition VMBUS_OFFER_FLAG_CONFIDENTIAL_RING_BUFFER : Z := 0x2.
Definition VMBUS_OFFER_FLAG_CONFIDENTIAL_EXTERNAL_MEMORY : Z := 0x4.
Definition VMBUS_OFFER_FLAG_NAMED_PIPE_MODE : Z := 0x10.
Definition VMBUS_OFFER_FLAG_TLNPI_PROVIDER : Z := 0x2000.
Definition VMBUS_OFFER_FLAGS_WIN6 : Z := Z.lor VMBUS_OFFER_FLAG_ENUMERATE_DEVICE_INTERFACE
  VMBUS_OFFER_FLAG_NAMED_PIPE_MODE.
Definition VMBUS_OFFER_FLAGS_WIN10 : Z := Z.lor VMBUS_OFFER_FLAGS_WIN6 VMBUS_OFFER_FLAG_TLNPI_PROVIDER.
Definition VMBUS_VP_INDEX_DISABLE_INTERRUPT : Z := u32 (- 1).
Definition VMBUS_CHANNEL_OFFER_CHANNEL : cty := struct 1 [
  fld VMBUS_CHANNEL_MESSAGE_HEADER "Header";
  fld HV_GUID "InterfaceType";
  fld HV_GUID "InterfaceInstance";
  fld UINT64 "Reserved";
  fld UINT64 "Reserved2";
  fld UINT16 "Flags";
  fld UINT16 "MmioMegabytes";
  fld (CArr UINT8 MAX_USER_DEFINED_BYTES) "UserDefined";
  fld UINT16 "SubChannelIndex";
  fld UINT16 "MmioMegabytesOptional";
  fld UINT32 "ChildRelId";
  fld UINT8 "MonitorId";
  bit UINT8 "MonitorAllocated" 1;
  bit UINT8 "Reserved4" 7;
  fld (union 1 [
    fld (struct 1 [
      bit UINT16 "IsDedicatedInterrupt" 1;
      bit UINT16 "Reserved5" 15;
      fld UINT32 "ConnectionId"]) anonymous;
    fld UINT8 "Windows6Offset"]) anonymous].
Definition static_assert_VMBUS_CHANNEL_OFFER_CHANNEL (b : abi) : bool := sizeof b
  VMBUS_CHANNEL_OFFER_CHANNEL <=? MAXIMUM_SYNIC_MESSAGE_BYTES.
Definition VMBUS_CHANNEL_OFFER_CHANNEL_SIZE_PRE_WIN7 (b : abi) : option Z :=
  option_map u32 (HV_FIELD_OFFSET b VMBUS_CHANNEL_OFFER_CHANNEL "Windows6Offset").
Definition VMBUS_CHANNEL_RESCIND_OFFER : cty := struct 1 [
  fld VMBUS_CHANNEL_MESSAGE_HEADER "Header";
  fld UINT32 "ChildRelId"].
Definition VMBUS_OPEN_FLAG_REDIRECT_INTERRUPT : Z := 0x1.
Definition VMBUS_CHANNEL_OPEN_CHANNEL : cty := struct 1 [
  fld VMBUS_CHANNEL_MESSAGE_HEADER "Header";
  fld UINT32 "ChildRelId";
  fld UINT32 "OpenId";
  fld UINT32 "RingBufferGpadlHandle";
  fld UINT32 "TargetVp";
  fld UINT32 "DownstreamRingBufferPageOffset";
  fld (CArr UINT8 MAX_USER_DEFINED_BYTES) "UserData";
  fld UINT32 "ConnectionId";
  fld UINT16 "EventFlag";
  fld UINT16 "Flags"].
Definition VMBUS_CHANNEL_OPEN_CHANNEL_MIN_SIZE (b : abi) : option Z :=
  HV_FIELD_OFFSET b VMBUS_CHANNEL_OPEN_CHANNEL "ConnectionId".
Definition VMBUS_CHANNEL_OPEN_RESULT : cty := struct 1 [
  fld VMBUS_CHANNEL_MESSAGE_HEADER "Header";
  fld UINT32 "ChildRelId";
  fld UINT32 "OpenId";
  fld UINT32 "Status"].
Definition VMBUS_CHANNEL_CLOSE_CHANNEL : cty := struct 1 [
  fld VMBUS_CHANNEL_MESSAGE_HEADER "Header";
  fld UINT32 "ChildRelId"].
Definition VMBUS_CHANNEL_MODIFY_CHANNEL : cty := struct 1 [
  fld VMBUS_CHANNEL_MESSAGE_HEADER "Header";
  fld UINT32 "ChildRelId";
  fld UINT32 "TargetVp"].
Definition VMBUS_CHANNEL_MODIFY_CHANNEL_RESPONSE : cty := struct 1 [
  fld VMBUS_CHANNEL_MESSAGE_HEADER "Header";
  fld UINT32 "ChildRelId";
  fld NTSTATUS "Status"].
Definition VMBUS_CHANNEL_GPADL_HEADER : cty := struct 1 [
  fld VMBUS_CHANNEL_MESSAGE_HEADER "Header";
  fld UINT32 "ChildRelId";
  fld UINT32 "Gpadl";
  fld UINT16 "RangeBufLen";
  fld UINT16 "RangeCount";
  fld (CArr GPA_RANGE HV_ANYSIZE_ARRAY) "Range"].
Definition VMBUS_CHANNEL_GPADL_BODY : cty := struct 1 [
  fld VMBUS_CHANNEL_MESSAGE_HEADER "Header";
  fld UINT32 "MessageNumber";
  fld UINT32 "Gpadl";
  fld (CArr UINT64 HV_ANYSIZE_ARRAY) "Pfn"].
Definition VMBUS_CHANNEL_GPADL_CREATED : cty := struct 1 [
  fld VMBUS_CHANNEL_MESSAGE_HEADER "Header";
  fld UINT32 "ChildRelId";
  fld UINT32 "Gpadl";
  fld UINT32 "CreationStatus"].
Definition VMBUS_CHANNEL_GPADL_TEARDOWN : cty := struct 1 [
  fld VMBUS_CHANNEL_MESSAGE_HEADER "Header";
  fld UINT32 "ChildRelId";
  fld UINT32 "Gpadl"].
Definition VMBUS_CHANNEL_GPADL_TORNDOWN : cty := struct 1 [
  fld VMBUS_CHANNEL_MESSAGE_HEADER "Header";
  fld UINT32 "Gpadl"].
Definition VMBUS_CHANNEL_RELID_RELEASED : cty := struct 1 [
  fld VMBUS_CHANNEL_MESSAGE_HEADER "Header";
  fld UINT32 "ChildRelId"].
Definition VMBUS_CHANNEL_INITIATE_CONTACT : cty := struct 1 [
  fld VMBUS_CHANNEL_MESSAGE_HEADER "Header";
  fld UINT32 "VMBusVersionRequested";
  fld UINT32 "TargetMessageVp";
  fld (union 1 [
    fld UINT64 "InterruptPage";
    fld (struct 1 [
      fld UINT8 "TargetSint";
      fld UINT8 "TargetVtl";
      fld (CArr UINT8 2) "Reserved";
      fld UINT32 "FeatureFlags"]) anonymous]) anonymous;
  fld UINT64 "ParentToChildMonitorPageGpa";
  fld UINT64 "ChildToParentMonitorPageGpa";
  fld HV_GUID "ClientId"].
Definition VMBUS_CHANNEL_INITIATE_CONTACT_MIN_SIZE (b : abi) : option Z :=
  HV_FIELD_OFFSET b VMBUS_CHANNEL_INITIATE_CONTACT "ClientId".
Definition VMBUS_CHANNEL_VERSION_RESPONSE : cty := struct 1 [
  fld VMBUS_CHANNEL_MESSAGE_HEADER "Header";
  fld UINT8 "VersionSupported";
  fld UINT8 "ConnectionState";
  fld (CArr UINT8 2) "Pad";
  fld (union 1 [
    fld UINT32 "SelectedVersion";
    fld UINT32 "ConnectionId"]) anonymous;
  fld UINT32 "SupportedFeatures"].
Definition VMBUS_CHANNEL_VERSION_RESPONSE_MIN_SIZE (b : abi) : option Z :=
  HV_FIELD_OFFSET b VMBUS_CHANNEL_VERSION_RESPONSE "SupportedFeatures".
Definition VMBUS_CHANNEL_CONNECTION_STATE : enum := [
  Is "VmbusChannelConnectionSuccessful" 0;
  Is "VmbusChannelConnectionFailedLowResources" 1;
  Is "VmbusChannelConnectionFailedUnknownFailure" 2].
Definition VMBUS_CHANNEL_UNLOAD : cty := VMBUS_CHANNEL_MESSAGE_HEADER.
Definition VMBUS_CHANNEL_UNLOAD_COMPLETE : cty := VMBUS_CHANNEL_MESSAGE_HEADER.
Definition VMBUS_CHANNEL_OPEN_RESERVED_CHANNEL : cty := struct 1 [
  fld VMBUS_CHANNEL_MESSAGE_HEADER "Header";
  fld UINT32 "ChannelId";
  fld UINT32 "TargetVp";
  fld UINT32 "TargetSint";
  fld UINT32 "RingBufferGpadl";
  fld UINT32 "DownstreamPageOffset"].
Definition VMBUS_CHANNEL_CLOSE_RESERVED_CHANNEL : cty := struct 1 [
  fld VMBUS_CHANNEL_MESSAGE_HEADER "Header";
  fld UINT32 "ChannelId";
  fld UINT32 "TargetVp";
  fld UINT32 "TargetSint"].
Definition VMBUS_CHANNEL_CLOSE_RESERVED_RESPONSE : cty := struct 1 [
  fld VMBUS_CHANNEL_MESSAGE_HEADER "Header";
  fld UINT32 "ChannelId"].
Definition VMBUS_CHANNEL_TL_CONNECT_REQUEST : cty := struct 1 [
  fld VMBUS_CHANNEL_MESSAGE_HEADER "Header";
  fld HV_GUID "EndpointId";
  fld HV_GUID "ServiceId";
  fld (union 1 [
    fld HV_GUID "SiloId";
    fld UINT8 "WindowsRS1Offset"]) anonymous].
Definition VMBUS_CHANNEL_TL_CONNECT_REQUEST_PRE_RS5_SIZE (b : abi) : option Z :=
  option_map u32 (HV_FIELD_OFFSET b VMBUS_CHANNEL_TL_CONNECT_REQUEST "WindowsRS1Offset").
Definition VMBUS_CHANNEL_TL_CONNECT_RESULT : cty := struct 1 [
  fld VMBUS_CHANNEL_MESSAGE_HEADER "Header";
  fld HV_GUID "EndpointId";
  fld HV_GUID "ServiceId";
  fld NTSTATUS "Status"].
Definition VMBUS_CHANNEL_MODIFY_CONNECTION : cty := struct 1 [
  fld VMBUS_CHANNEL_MESSAGE_HEADER "Header";
  fld UINT64 "ParentToChildMonitorPageGpa";
  fld UINT64 "ChildToParentMonitorPageGpa"].
Definition VMBUS_CHANNEL_MODIFY_CONNECTION_RESPONSE : cty := struct 1 [
  fld VMBUS_CHANNEL_MESSAGE_HEADER "Header";
  fld UINT8 "ConnectionState"].
Definition VMBUS_MESSAGE_CONNECTION_ID : Z := 1.
Definition VMBUS_MESSAGE_TYPE : Z := 1.
Definition VMBUS_MAX_GPADLS : Z := 256.
Definition VMBUS_MAX_CHANNELS : Z := HV_EVENT_FLAGS_COUNT.
Definition ENDPOINT_TYPE : enum := [
  Is "VmbusServerEndpoint" 0;
  Next "VmbusClientEndpoint";
  Next "VmbusEndpointMaximum"].
Definition VMRCB : cty := struct 1 [
  fld UINT32 "In";
  fld UINT32 "Out";
  fld UINT32 "InterruptMask";
  fld UINT32 "PendingSendSize";
  fld (CArr UINT32 12) "Reserved";
  fld (union 1 [
    fld (struct 1 [
      bit UINT32 "SupportsPendingSendSize" 1]) anonymous;
    fld UINT32 "Value"]) "FeatureBits"].
Definition static_assert_VMRCB (b : abi) : bool := bool_decide (HV_FIELD_OFFSET b VMRCB "FeatureBits" = Some 64).
Definition VMPACKET_DESCRIPTOR : cty := struct 1 [
  fld UINT16 "Type";
  fld UINT16 "DataOffset8";
  fld UINT16 "Length8";
  fld UINT16 "Flags";
  fld UINT64 "TransactionId"].
Definition PREVIOUS_PACKET_OFFSET : cty := union 1 [
  fld (struct 1 [
    fld UINT32 "Reserved";
    fld UINT32 "Offset"]) anonymous;
  fld UINT64 "AsUINT64"].
Definition VMTRANSFER_PAGE_RANGE : cty := struct 1 [
  fld UINT32 "ByteCount";
  fld UINT32 "ByteOffset"].
Definition VMTRANSFER_PAGE_PACKET_HEADER : cty := struct 1 [
  fld VMPACKET_DESCRIPTOR "Descriptor";
  fld UINT16 "TransferPageSetId";
  fld UINT8 "SenderOwnsSet";
  fld UINT8 "Reserved";
  fld UINT32 "RangeCount";
  fld (CArr VMTRANSFER_PAGE_RANGE HV_ANYSIZE_ARRAY) "Ranges"].
Definition VMDATA_GPA_DIRECT : cty := struct 1 [
  fld VMPACKET_DESCRIPTOR "Descriptor";
  fld UINT32 "Reserved";
  fld UINT32 "RangeCount";
  fld (CArr GPA_RANGE HV_ANYSIZE_ARRAY) "Range"].
Definition VMPIPE_PROTOCOL_MESSAGE_TYPE : enum := [
  Is "VmPipeMessageInvalid" 0;
  Is "VmPipeMessageData" 1;
  Is "VmPipeMessagePartial" 2;
  Is "VmPipeMessageSetupGpaDirect" 3;
  Is "VmPipeMessageTeardownGpaDirect" 4;
  Is "VmPipeMessageIndicationComplete" 5].
Definition VMPIPE_PROTOCOL_HEADER : cty := struct 1 [
  fld (enum_type VMPIPE_PROTOCOL_MESSAGE_TYPE) "PacketType";
  fld (union 1 [
    fld UINT32 "DataSize";
    fld (struct 1 [
      fld UINT16 "DataSize";
      fld UINT16 "Offset"]) "Partial"]) anonymous].
Definition VMPIPE_SETUP_GPA_DIRECT_BODY : cty := struct 1 [
  fld UINT32 "Handle";
  fld UINT8 "IsWritable";
  fld UINT32 "RangeCount";
  fld (CArr GPA_RANGE HV_ANYSIZE_ARRAY) "Range"].
Definition VMPIPE_TEARDOWN_GPA_DIRECT_BODY : cty := struct 1 [
  fld UINT32 "Handle"].
Definition VMBUS_PACKET_TYPE : enum := [
  Is "VmbusPacketTypeInvalid" 0x0;
  Is "VmbusPacketTypeDataInBand" 0x6;
  Is "VmbusPacketTypeDataUsingTransferPages" 0x7;
  Is "VmbusPacketTypeDataUsingGpaDirect" 0x9;
  Is "VmbusPacketTypeCancelRequest" 0xa;
  Is "VmbusPacketTypeCompletion" 0xb].
Definition VMBUS_DATA_PACKET_FLAG_COMPLETION_REQUESTED : Z := 1.
Definition VMTRANSFER_PAGE_RANGES : cty := struct 0 [
  fld CPtr "Next";
  fld UINT32 "RangeCount";
  fld (CArr VMTRANSFER_PAGE_RANGE HV_ANYSIZE_ARRAY) "Range"].
Definition SYNTHVID_CLASS_ID : guid := Guid 0xda0a7802 0xe377 0x4aac [0x8e; 0x77; 0x05; 0x58; 0xeb;
  0x10; 0x73; 0xf8].
Definition SYNTHVID_VERSION_MAJOR : Z := 3.
Definition SYNTHVID_VERSION_MINOR : Z := 5.
Definition SYNTHVID_VERSION_CURRENT : Z := Z.lor (Z.shiftl SYNTHVID_VERSION_MINOR 16) SYNTHVID_VERSION_MAJOR.
Definition TRUE_WITH_VERSION_EXCHANGE : Z := TRUE + 1.
Definition SYNTHVID_MESSAGE_TYPE : enum := [
  Is "SynthvidError" 0;
  Is "SynthvidVersionRequest" 1;
  Is "SynthvidVersionResponse" 2;
  Is "SynthvidVramLocation" 3;
  Is "SynthvidVramLocationAck" 4;
  Is "SynthvidSituationUpdate" 5;
  Is "SynthvidSituationUpdateAck" 6;
  Is "SynthvidPointerPosition" 7;
  Is "SynthvidPointerShape" 8;
  Is "SynthvidFeatureChange" 9;
  Is "SynthvidDirt" 10;
  Is "SynthvidBiosInfoRequest" 11;
  Is "SynthvidBiosInfoResponse" 12;
  Is "SynthvidMax" 13].
Definition SYNTHVID_MESSAGE_HEADER : cty := struct 1 [
  fld (enum_type SYNTHVID_MESSAGE_TYPE) "Type";
  fld UINT32 "Size"].
Definition SYNTHVID_MESSAGE : cty := struct 1 [
  fld SYNTHVID_MESSAGE_HEADER "Header";
  fld (CArr UINT8 HV_ANYSIZE_ARRAY) "Data"].
Definition SYNTHVID_VERSION : cty := union 1 [
  fld (struct 1 [
    fld UINT16 "MajorVersion";
    fld UINT16 "MinorVersion"]) anonymous;
  fld UINT32 "AsDWORD"].
Definition SYNTHVID_VERSION_REQUEST_MESSAGE : cty := struct 1 [
  fld SYNTHVID_MESSAGE_HEADER "Header";
  fld SYNTHVID_VERSION "Version"].
Definition SYNTHVID_VERSION_RESPONSE_MESSAGE : cty := struct 1 [
  fld SYNTHVID_MESSAGE_HEADER "Header";
  fld SYNTHVID_VERSION "Version";
  fld UINT8 "IsAccepted";
  fld UINT8 "MaxVideoOutputs"].
Definition SYNTHVID_VRAM_LOCATION_MESSAGE : cty := struct 1 [
  fld SYNTHVID_MESSAGE_HEADER "Header";
  fld UINT64 "UserContext";
  fld UINT8 "IsVramGpaAddressSpecified";
  fld UINT64 "VramGpaAddress"].
Definition SYNTHVID_VRAM_LOCATION_ACK_MESSAGE : cty := struct 1 [
  fld SYNTHVID_MESSAGE_HEADER "Header";
  fld UINT64 "UserContext"].
Definition VIDEO_OUTPUT_SITUATION : cty := struct 1 [
  fld UINT8 "Active";
  fld UINT32 "PrimarySurfaceVramOffset";
  fld UINT8 "DepthBits";
  fld UINT32 "WidthPixels";
  fld UINT32 "HeightPixels";
  fld UINT32 "PitchBytes"].
Definition SYNTHVID_SITUATION_UPDATE_MESSAGE : cty := struct 1 [
  fld SYNTHVID_MESSAGE_HEADER "Header";
  fld UINT64 "UserContext";
  fld UINT8 "VideoOutputCount";
  fld (CArr VIDEO_OUTPUT_SITUATION HV_ANYSIZE_ARRAY) "VideoOutput"].
Definition SYNTHVID_SITUATION_UPDATE_ACK_MESSAGE : cty := struct 1 [
  fld SYNTHVID_MESSAGE_HEADER "Header";
  fld UINT64 "UserContext"].
Definition DEFAULT_VRAM_SIZE_WIN7 : Z := (4 * 1024) * 1024.
Definition DEFAULT_VRAM_SIZE_WIN8 : Z := 2 * DEFAULT_VRAM_SIZE_WIN7.
Definition HK_CLASS_ID : guid := Guid 0xf912ad6d 0x2b17 0x48ea [0xbd; 0x65; 0xf9; 0x27; 0xa6; 0x1c;
  0x76; 0x84].
Definition HK_MAKE_VERSION (Major Minor : Z) : Z := Z.lor (Z.shiftl (u32 Major) 16) (u32 Minor).
Definition HK_VERSION_WIN8 : Z := HK_MAKE_VERSION 1 0.
Definition HK_MESSAGE_TYPE : enum := [
  Is "HkMessageProtocolRequest" 1;
  Is "HkMessageProtocolResponse" 2;
  Is "HkMessageEvent" 3;
  Is "HkMessageSetLedIndicators" 4].
Definition HK_MESSAGE_HEADER : cty := struct 0 [
  fld (enum_type HK_MESSAGE_TYPE) "MessageType"].
Definition HK_MESSAGE_PROTOCOL_REQUEST : cty := struct 0 [
  fld HK_MESSAGE_HEADER "Header";
  fld UINT32 "Version"].
Definition HK_MESSAGE_LED_INDICATORS_STATE : cty := struct 0 [
  fld HK_MESSAGE_HEADER "Header";
  fld UINT16 "LedFlags"].
Definition HK_MESSAGE_PROTOCOL_RESPONSE : cty := struct 0 [
  fld HK_MESSAGE_HEADER "Header";
  bit UINT32 "Accepted" 1;
  bit UINT32 "Reserved" 31].
Definition HK_MESSAGE_KEYSTROKE : cty := struct 0 [
  fld HK_MESSAGE_HEADER "Header";
  fld UINT16 "MakeCode";
  bit UINT32 "IsUnicode" 1;
  bit UINT32 "IsBreak" 1;
  bit UINT32 "IsE0" 1;
  bit UINT32 "IsE1" 1;
  bit UINT32 "Reserved" 28].
Definition HK_MAXIMUM_MESSAGE_SIZE : Z := 256.
Definition VMSCSI_CLASS_ID : guid := Guid 0xba6163d9 0x04a1 0x4d29 [0xb6; 0x05; 0x72; 0xe2; 0xff;
  0xb1; 0xdc; 0x7f].
Definition VMSTOR_PROTOCOL_MAJOR (VERSION_ : Z) : Z := Z.land (Z.shiftr VERSION_ 8) 0xff.
Definition VMSTOR_PROTOCOL_MINOR (VERSION_ : Z) : Z := Z.land VERSION_ 0xff.
Definition VMSTOR_PROTOCOL_VERSION (MAJOR_ MINOR_ : Z) : Z := Z.lor (Z.shiftl (Z.land MAJOR_ 0xff)
  8) (Z.land MINOR_ 0xff).
Definition VMSTOR_INVALID_PROTOCOL_VERSION : Z := - 1.
Definition VMSTOR_PROTOCOL_VERSION_WIN6 : Z := VMSTOR_PROTOCOL_VERSION 2 0.
Definition VMSTOR_PROTOCOL_VERSION_WIN7 : Z := VMSTOR_PROTOCOL_VERSION 4 2.
Definition VMSTOR_PROTOCOL_VERSION_WIN8 : Z := VMSTOR_PROTOCOL_VERSION 5 1.
Definition VMSTOR_PROTOCOL_VERSION_BLUE : Z := VMSTOR_PROTOCOL_VERSION 6 0.
Definition VMSTOR_PROTOCOL_VERSION_CURRENT : Z := VMSTOR_PROTOCOL_VERSION_BLUE.
Definition MAX_TRANSFER_LENGTH : Z := (8 * 1024) * 1024.
Definition VMSTOR_PROPERTY_AN_CAPABLE : Z := 0x1.
Definition VSTOR_PACKET_OPERATION : enum := [
  Is "VStorOperationCompleteIo" 1;
  Is "VStorOperationRemoveDevice" 2;
  Is "VStorOperationExecuteSRB" 3;
  Is "VStorOperationResetLun" 4;
  Is "VStorOperationResetAdapter" 5;
  Is "VStorOperationResetBus" 6;
  Is "VStorOperationBeginInitialization" 7;
  Is "VStorOperationEndInitialization" 8;
  Is "VStorOperationQueryProtocolVersion" 9;
  Is "VStorOperationQueryProperties" 10;
  Is "VStorOperationEnumerateBus" 11;
  Is "VStorOperationFcHbaData" 12;
  Is "VStorOperationCreateSubChannels" 13;
  Is "VStorOperationEventNotification" 14;
  Is "VStorOperationMaximum" 14].
Definition CDB16GENERIC_LENGTH : Z := 0x10.
Definition MAX_DATA_BUFFER_LENGTH_WITH_PADDING : Z := 0x14.
Definition VMSCSI_SENSE_BUFFER_SIZE_REVISION_1 : Z := 0x12.
Definition VMSCSI_SENSE_BUFFER_SIZE : Z := 0x14.
Definition VMSCSI_REQUEST : cty := struct 1 [
  fld UINT16 "Length";
  fld UINT8 "SrbStatus";
  fld UINT8 "ScsiStatus";
  fld UINT8 "Reserved1";
  fld UINT8 "PathId";
  fld UINT8 "TargetId";
  fld UINT8 "Lun";
  fld UINT8 "CdbLength";
  fld UINT8 "SenseInfoExLength";
  fld UINT8 "DataIn";
  fld UINT8 "Properties";
  fld UINT32 "DataTransferLength";
  fld (union 1 [
    fld (CArr UINT8 CDB16GENERIC_LENGTH) "Cdb";
    fld (CArr UINT8 VMSCSI_SENSE_BUFFER_SIZE) "SenseDataEx";
    fld (CArr UINT8 MAX_DATA_BUFFER_LENGTH_WITH_PADDING) "ReservedArray"]) anonymous;
  fld UINT16 "Reserve";
  fld UINT8 "QueueTag";
  fld UINT8 "QueueAction";
  fld UINT32 "SrbFlags";
  fld UINT32 "TimeOutValue";
  fld UINT32 "QueueSortKey"].
Definition static_assert_VMSCSI_REQUEST (b : abi) : bool := (sizeof b VMSCSI_REQUEST mod 4) =? 0.
Definition VMSTORAGE_SIZEOF_VMSCSI_REQUEST_REVISION_1 (b : abi) : option Z :=
  HV_FIELD_OFFSET b VMSCSI_REQUEST "Reserve".
Definition static_assert_VMSTORAGE_SIZEOF_VMSCSI_REQUEST_REVISION_1 (b : abi) : bool := bool_decide
  (VMSTORAGE_SIZEOF_VMSCSI_REQUEST_REVISION_1 b = Some 0x24).
Definition VMSTORAGE_SIZEOF_VMSCSI_REQUEST_REVISION_2 (b : abi) : option Z :=
  HV_FIELD_SIZE_THROUGH b VMSCSI_REQUEST "QueueSortKey".
Definition static_assert_VMSTORAGE_SIZEOF_VMSCSI_REQUEST_REVISION_2 (b : abi) : bool := bool_decide
  (VMSTORAGE_SIZEOF_VMSCSI_REQUEST_REVISION_2 b = Some 0x34).
Definition VMSTORAGE_CHANNEL_PROPERTIES : cty := struct 1 [
  fld UINT32 "Reserved";
  fld UINT16 "MaximumSubChannelCount";
  fld UINT16 "Reserved2";
  fld UINT32 "Flags";
  fld UINT32 "MaxTransferBytes";
  fld UINT64 "Reserved3"].
Definition STORAGE_CHANNEL_SUPPORTS_MULTI_CHANNEL : Z := 0x1.
Definition static_assert_VMSTORAGE_CHANNEL_PROPERTIES (b : abi) : bool := (sizeof b
  VMSTORAGE_CHANNEL_PROPERTIES mod 4) =? 0.
Definition VMSTORAGE_OFFER_PROPERTIES : cty := struct 1 [
  fld UINT16 "Reserved";
  fld UINT8 "PathId";
  fld UINT8 "TargetId";
  fld UINT32 "Reserved2";
  fld UINT32 "Flags";
  fld (CArr UINT32 3) "Reserved3"].
Definition STORAGE_OFFER_EMULATED_IDE_FLAG : Z := 0x2.
Definition VMSTORAGE_PROTOCOL_VERSION : cty := struct 1 [
  fld UINT16 "MajorMinor";
  fld UINT16 "Build"].
Definition static_assert_VMSTORAGE_PROTOCOL_VERSION (b : abi) : bool := (sizeof b
  VMSTORAGE_PROTOCOL_VERSION mod 4) =? 0.
Definition VMFC_WWN_PACKET : cty := struct 1 [
  fld UINT8 "PrimaryWwnActive";
  fld UINT8 "Reserved1";
  fld UINT16 "Reserved2";
  fld (CArr UINT8 8) "PrimaryPortWwn";
  fld (CArr UINT8 8) "PrimaryNodeWwn";
  fld (CArr UINT8 8) "SecondaryPortWwn";
  fld (CArr UINT8 8) "SecondaryNodeWwn"].
Definition static_assert_VMFC_WWN_PACKET (b : abi) : bool := (sizeof b VMFC_WWN_PACKET mod 4) =? 0.
Definition VSTOR_CLIENT_PROPERTIES : cty := struct 1 [
  bit UINT32 "AsyncNotifyCapable" 1;
  bit UINT32 "Reserved" 31].
Definition static_assert_VSTOR_CLIENT_PROPERTIES (b : abi) : bool := (sizeof b
  VSTOR_CLIENT_PROPERTIES mod 4) =? 0.
Definition VSTOR_ASYNC_REGISTER_PACKET : cty := struct 1 [
  fld UINT8 "Lun";
  fld UINT8 "Target";
  fld UINT8 "Path";
  fld UINT8 "Register"].
Definition static_assert_VSTOR_ASYNC_REGISTER_PACKET (b : abi) : bool := (sizeof b
  VSTOR_ASYNC_REGISTER_PACKET mod 4) =? 0.
Definition VSTOR_NOTIFICATION_PACKET : cty := struct 1 [
  fld UINT8 "Lun";
  fld UINT8 "Target";
  fld UINT8 "Path";
  fld UINT8 "Flags"].
Definition static_assert_VSTOR_NOTIFICATION_PACKET (b : abi) : bool := (sizeof b
  VSTOR_NOTIFICATION_PACKET mod 4) =? 0.
Definition VSTOR_PACKET : cty := struct 1 [
  fld (enum_type VSTOR_PACKET_OPERATION) "Operation";
  fld UINT32 "Flags";
  fld UINT32 "Status";
  fld (union 1 [
    fld VMSCSI_REQUEST "VmSrb";
    fld VMSTORAGE_CHANNEL_PROPERTIES "StorageChannelProperties";
    fld VMSTORAGE_PROTOCOL_VERSION "Version";
    fld VMFC_WWN_PACKET "FcWwnPacket";
    fld UINT16 "SubChannelCount";
    fld VSTOR_CLIENT_PROPERTIES "ClientProperties";
    fld VSTOR_NOTIFICATION_PACKET "NotificationPacket";
    fld (CArr UINT8 0x34) "Buffer"]) anonymous].
Definition static_assert_VSTOR_PACKET (b : abi) : bool := (sizeof b VSTOR_PACKET mod 8) =? 0.
Definition VMSTORAGE_SIZEOF_VSTOR_PACKET_REVISION_1 (b : abi) : option Z :=
  option_add (HV_FIELD_SIZE_THROUGH b VSTOR_PACKET "Status") (VMSTORAGE_SIZEOF_VMSCSI_REQUEST_REVISION_1 b).
Definition static_assert_VMSTORAGE_SIZEOF_VSTOR_PACKET_REVISION_1 (b : abi) : bool := bool_decide
  (VMSTORAGE_SIZEOF_VSTOR_PACKET_REVISION_1 b = Some 0x30).
Definition VMSTORAGE_SIZEOF_VSTOR_PACKET_REVISION_2 (b : abi) : option Z :=
  option_add (HV_FIELD_SIZE_THROUGH b VSTOR_PACKET "Status") (VMSTORAGE_SIZEOF_VMSCSI_REQUEST_REVISION_2 b).
Definition static_assert_VMSTORAGE_SIZEOF_VSTOR_PACKET_REVISION_2 (b : abi) : bool := bool_decide
  (VMSTORAGE_SIZEOF_VSTOR_PACKET_REVISION_2 b = Some 0x40).
Definition REQUEST_COMPLETION_FLAG : Z := 0x1.
Definition VSC_LEGAL_FLAGS : Z := REQUEST_COMPLETION_FLAG.
Definition ADAPTER_ADDRESS : cty := struct 0 [
  fld UINT64 "PartitionId";
  fld HV_GUID "ChannelInstanceGUID";
  fld UINT8 "Reserved";
  fld UINT8 "PathId";
  fld UINT8 "TargetId";
  fld UINT8 "Lun";
  fld UINT32 "Flags";
  fld UINT8 "PrimaryWwnActive";
  fld (CArr UINT8 8) "PrimaryPortWwn";
  fld (CArr UINT8 8) "PrimaryNodeWwn";
  fld (CArr UINT8 8) "SecondaryPortWwn";
  fld (CArr UINT8 8) "SecondaryNodeWwn"].
Definition ADAPTER_ADDRESS_EMULATED_DEVICE : Z := 0x1.
Definition ADAPTER_ADDRESS_SYNTHFC_DEVICE : Z := 0x2.
Definition VSTORAGE_ALIGNMENT_MASK : Z := 0x01.
Definition NVSP_CLASS_ID : guid := Guid 0xf8615163 0xdf3e 0x46c5 [0x91; 0x3f; 0xf2; 0xd2; 0xf9;
  0x65; 0xed; 0x0e].
Definition NVSP_INVALID_PROTOCOL_VERSION : Z := u32 0xffffffff.
Definition NVSP_PROTOCOL_MAJOR (VERSION_ : Z) : Z := Z.land (Z.shiftr VERSION_ 16) 0xffff.
Definition NVSP_PROTOCOL_MINOR (VERSION_ : Z) : Z := Z.land VERSION_ 0xffff.
Definition NVSP_PROTOCOL_VERSION (MAJOR_ MINOR_ : Z) : Z := Z.lor (Z.shiftl (Z.land MAJOR_ 0xffff)
  16) (Z.land MINOR_ 0xffff).
Definition NVSP_PROTOCOL_VERSION_1 : Z := NVSP_PROTOCOL_VERSION 0 2.
Definition NVSP_PROTOCOL_VERSION_2 : Z := NVSP_PROTOCOL_VERSION 3 2.
Definition NVSP_PROTOCOL_VERSION_4 : Z := NVSP_PROTOCOL_VERSION 4 0.
Definition NVSP_PROTOCOL_VERSION_5 : Z := NVSP_PROTOCOL_VERSION 5 0.
Definition NVSP_PROTOCOL_VERSION_CURRENT : Z := NVSP_PROTOCOL_VERSION_5.
Definition NVSP_PROTOCOL_VERSION_IS_VALID (_Version_ : Z) : bool := (((_Version_ =?
  NVSP_PROTOCOL_VERSION_5) || (_Version_ =? NVSP_PROTOCOL_VERSION_4)) || (_Version_ =?
  NVSP_PROTOCOL_VERSION_2)) || (_Version_ =? NVSP_PROTOCOL_VERSION_1).
Definition NVSP_OPERATIONAL_STATUS_OK : Z := u32 0x00000000.
Definition NVSP_OPERATIONAL_STATUS_DEGRADED : Z := u32 0x00000001.
Definition NVSP_OPERATIONAL_STATUS_NONRECOVERABLE : Z := u32 0x00000002.
Definition NVSP_OPERATIONAL_STATUS_NO_CONTACT : Z := u32 0x00000003.
Definition NVSP_OPERATIONAL_STATUS_LOST_COMMUNICATION : Z := u32 0x00000004.
Definition NVSP_MAX_PACKETS_PER_RECEIVE : Z := 375.
Definition VMS_SWITCH_RSS_MAX_RSS_PROC_COUNT : Z := 16.
Definition NVSP_MESSAGE_TYPE : enum := [
  Is "NvspMessageTypeNone" 0;
  Is "NvspMessageTypeInit" 1;
  Is "NvspMessageTypeInitComplete" 2;
  Is "NvspVersionMessageStart" 100;
  As "NvspMessage1TypeSendNdisVersion" "NvspVersionMessageStart";
  Next "NvspMessage1TypeSendReceiveBuffer";
  Next "NvspMessage1TypeSendReceiveBufferComplete";
  Next "NvspMessage1TypeRevokeReceiveBuffer";
  Next "NvspMessage1TypeSendSendBuffer";
  Next "NvspMessage1TypeSendSendBufferComplete";
  Next "NvspMessage1TypeRevokeSendBuffer";
  Next "NvspMessage1TypeSendRNDISPacket";
  Next "NvspMessage1TypeSendRNDISPacketComplete";
  As "NvspMessage1Max" "NvspMessage1TypeSendRNDISPacketComplete";
  Next "NvspMessage2TypeSendChimneyDelegatedBuffer";
  Next "NvspMessage2TypeSendChimneyDelegatedBufferComplete";
  Next "NvspMessage2TypeRevokeChimneyDelegatedBuffer";
  Next "NvspMessage2TypeResumeChimneyRXIndication";
  Next "NvspMessage2TypeTerminateChimney";
  Next "NvspMessage2TypeTerminateChimneyComplete";
  Next "NvspMessage2TypeIndicateChimneyEvent";
  Next "NvspMessage2TypeSendChimneyPacket";
  Next "NvspMessage2TypeSendChimneyPacketComplete";
  Next "NvspMessage2TypePostChimneyRecvRequest";
  Next "NvspMessage2TypePostChimneyRecvRequestComplete";
  Next "NvspMessage2TypeAllocateReceiveBufferDeprecated";
  Next "NvspMessage2TypeAllocateReceiveBufferCompleteDeprecated";
  Next "NvspMessage2TypeFreeReceiveBufferDeprecated";
  Next "NvspMessage2SendVmqRndisPacketDeprecated";
  Next "NvspMessage2SendVmqRndisPacketCompleteDeprecated";
  Next "NvspMessage2TypeSendNdisConfig";
  Next "NvspMessage2TypeAllocateChimneyHandle";
  Next "NvspMessage2TypeAllocateChimneyHandleComplete";
  As "NvspMessage2Max" "NvspMessage2TypeAllocateChimneyHandleComplete";
  Next "NvspMessage4TypeSendVFAssociation";
  Next "NvspMessage4TypeSwitchDataPath";
  Next "NvspMessage4TypeUplinkConnectStateDeprecated";
  As "NvspMessage4Max" "NvspMessage4TypeUplinkConnectStateDeprecated";
  Next "NvspMessage5TypeOidQueryEx";
  Next "NvspMessage5TypeOidQueryExComplete";
  Next "NvspMessage5TypeSubChannel";
  Next "NvspMessage5TypeSendIndirectionTable";
  As "NvspMessage5Max" "NvspMessage5TypeSendIndirectionTable"].
Definition NVSP_PROTOCOL_VERSION_1_HANDLER_COUNT : Z := ((enum_value NVSP_MESSAGE_TYPE "NvspMessage1Max") - (enum_value NVSP_MESSAGE_TYPE "NvspVersionMessageStart")) + 1.
Definition NVSP_PROTOCOL_VERSION_2_HANDLER_COUNT : Z := ((enum_value NVSP_MESSAGE_TYPE "NvspMessage2Max") - (enum_value NVSP_MESSAGE_TYPE "NvspVersionMessageStart")) + 1.
Definition NVSP_PROTOCOL_VERSION_4_HANDLER_COUNT : Z := ((enum_value NVSP_MESSAGE_TYPE "NvspMessage4Max") - (enum_value NVSP_MESSAGE_TYPE "NvspVersionMessageStart")) + 1.
Definition NVSP_PROTOCOL_VERSION_5_HANDLER_COUNT : Z := ((enum_value NVSP_MESSAGE_TYPE "NvspMessage5Max") - (enum_value NVSP_MESSAGE_TYPE "NvspVersionMessageStart")) + 1.
Definition NVSP_STATUS : enum := [
  Is "NvspStatusNone" 0;
  Next "NvspStatusSuccess";
  Next "NvspStatusFailure";
  Next "NvspStatusDeprecated1";
  Next "NvspStatusDeprecated2";
  Next "NvspStatusInvalidRndisPacket";
  Next "NvspStatusBusy";
  Next "NvspStatusProtocolVersionUnsupported";
  Next "NvspStatusMax"].
Definition NVSP_MESSAGE_HEADER : cty := struct 1 [
  fld UINT32 "MessageType"].
Definition HV_NDIS_OBJECT_HEADER : cty := struct 1 [
  fld UINT8 "Type";
  fld UINT8 "Revision";
  fld UINT16 "Size"].
Definition NVSP_MESSAGE_INIT : cty := struct 1 [
  fld (union 1 [
    fld (struct 1 [
      fld UINT16 "MinorProtocolVersion";
      fld UINT16 "MajorProtocolVersion"]) anonymous;
    fld UINT32 "ProtocolVersion"]) anonymous;
  fld UINT32 "ProtocolVersion2"].
Definition NVSP_MESSAGE_INIT_COMPLETE : cty := struct 1 [
  fld UINT32 "Deprecated";
  fld UINT32 "MaximumMdlChainLength";
  fld UINT32 "Status"].
Definition NVSP_MESSAGE_INIT_UBER : cty := union 1 [
  fld NVSP_MESSAGE_INIT "Init";
  fld NVSP_MESSAGE_INIT_COMPLETE "InitComplete"].
Definition NVSP_1_MESSAGE_SEND_NDIS_VERSION : cty := struct 1 [
  fld UINT32 "NdisMajorVersion";
  fld UINT32 "NdisMinorVersion"].
Definition NVSP_1_MESSAGE_SEND_RECEIVE_BUFFER : cty := struct 1 [
  fld UINT32 "GpadlHandle";
  fld UINT16 "Id"].
Definition NVSP_1_RECEIVE_BUFFER_SECTION : cty := struct 1 [
  fld UINT32 "Offset";
  fld UINT32 "SubAllocationSize";
  fld UINT32 "NumSubAllocations";
  fld UINT32 "EndOffset"].
Definition NVSP_1_MESSAGE_SEND_RECEIVE_BUFFER_COMPLETE : cty := struct 1 [
  fld UINT32 "Status";
  fld UINT32 "NumSections";
  fld (CArr NVSP_1_RECEIVE_BUFFER_SECTION HV_ANYSIZE_ARRAY) "Sections"].
Definition NVSP_1_MESSAGE_REVOKE_RECEIVE_BUFFER : cty := struct 1 [
  fld UINT16 "Id"].
Definition NVSP_1_MESSAGE_SEND_SEND_BUFFER : cty := struct 1 [
  fld UINT32 "GpadlHandle";
  fld UINT16 "Id"].
Definition NVSP_1_MESSAGE_SEND_SEND_BUFFER_COMPLETE : cty := struct 1 [
  fld UINT32 "Status";
  fld UINT32 "SectionSize"].
Definition NVSP_1_MESSAGE_REVOKE_SEND_BUFFER : cty := struct 1 [
  fld UINT16 "Id"].
Definition NVSP_1_MESSAGE_SEND_RNDIS_PACKET : cty := struct 1 [
  fld UINT32 "ChannelType";
  fld UINT32 "SendBufferSectionIndex";
  fld UINT32 "SendBufferSectionSize"].
Definition NVSP_1_MESSAGE_SEND_RNDIS_PACKET_COMPLETE : cty := struct 1 [
  fld UINT32 "Status"].
Definition NVSP_2_NETVSC_CAPABILITIES : cty := struct 1 [
  fld (union 1 [
    fld UINT64 "AsUINT64";
    fld (struct 1 [
      bit UINT64 "VMQ" 1;
      bit UINT64 "Chimney" 1;
      bit UINT64 "SRIOV" 1;
      bit UINT64 "Ieee8021q" 1;
      bit UINT64 "CorrelationId" 1;
      bit UINT64 "Teaming" 1;
      bit UINT64 "VirtualSubnetId" 1]) anonymous]) anonymous].
Definition NVSP_2_MESSAGE_SEND_NDIS_CONFIG : cty := struct 1 [
  fld UINT32 "MTU";
  fld UINT32 "Reserved";
  fld NVSP_2_NETVSC_CAPABILITIES "Capabilities"].
Definition NVSP_TRANSFER_PAGE_RANGE : cty := struct 1 [
  fld UINT64 "TransferPageSetId";
  fld UINT32 "ByteCount";
  fld UINT32 "ByteOffset"].
Definition NVSP_4_MESSAGE_SEND_VF_ASSOCIATION : cty := struct 1 [
  fld UINT32 "VFAllocated";
  fld UINT32 "SerialNumber"].
Definition NVSP_VM_DATA_PATH : enum := [
  Is "NvspDataPathSynthetic" 0;
  Next "NvspDataPathVF";
  Next "NvspDataPathMax"].
Definition NVSP_4_MESSAGE_SWITCH_DATA_PATH : cty := struct 1 [
  fld (enum_type NVSP_VM_DATA_PATH) "ActiveDataPath"].
Definition NVSP_5_MESSAGE_OID_QUERY_EX : cty := struct 1 [
  fld HV_NDIS_OBJECT_HEADER "Header";
  fld UINT32 "Oid"].
Definition NVSP_5_MESSAGE_OID_QUERY_EX_COMPLETE : cty := struct 1 [
  fld UINT32 "Status";
  fld (union 1 [
    fld UINT32 "BytesWritten";
    fld UINT32 "BytesNeeded"]) anonymous].
Definition NVSP_SUBCHANNEL_OPERATION : enum := [
  Is "NvspSubchannelNone" 0;
  Next "NvspSubchannelAllocate";
  Next "NvspSubchannelMax"].
Definition NVSP_5_MESSAGE_SUBCHANNEL_REQUEST : cty := struct 1 [
  fld (enum_type NVSP_SUBCHANNEL_OPERATION) "Operation";
  fld UINT32 "NumSubChannels"].
Definition NVSP_5_MESSAGE_SUBCHANNEL_COMPLETE : cty := struct 1 [
  fld UINT32 "Status";
  fld UINT32 "NumSubChannels"].
Definition NVSP_5_MESSAGE_SEND_INDIRECTION_TABLE : cty := struct 1 [
  fld UINT32 "TableEntryCount";
  fld UINT32 "TableOffset"].
Definition NVSP_1_MESSAGE_UBER : cty := union 1 [
  fld NVSP_1_MESSAGE_SEND_NDIS_VERSION "SendNdisVersion";
  fld NVSP_1_MESSAGE_SEND_RECEIVE_BUFFER "SendReceiveBuffer";
  fld NVSP_1_MESSAGE_SEND_RECEIVE_BUFFER_COMPLETE "SendReceiveBufferComplete";
  fld NVSP_1_MESSAGE_REVOKE_RECEIVE_BUFFER "RevokeReceiveBuffer";
  fld NVSP_1_MESSAGE_SEND_SEND_BUFFER "SendSendBuffer";
  fld NVSP_1_MESSAGE_SEND_SEND_BUFFER_COMPLETE "SendSendBufferComplete";
  fld NVSP_1_MESSAGE_REVOKE_SEND_BUFFER "RevokeSendBuffer";
  fld NVSP_1_MESSAGE_SEND_RNDIS_PACKET "SendRNDISPacket";
  fld NVSP_1_MESSAGE_SEND_RNDIS_PACKET_COMPLETE "SendRNDISPacketComplete"].
Definition NVSP_2_MESSAGE_UBER : cty := union 1 [
  fld NVSP_2_MESSAGE_SEND_NDIS_CONFIG "SendNdisConfig"].
Definition NVSP_4_MESSAGE_UBER : cty := union 1 [
  fld NVSP_4_MESSAGE_SEND_VF_ASSOCIATION "VFAssociation";
  fld NVSP_4_MESSAGE_SWITCH_DATA_PATH "SwitchDataPath"].
Definition NVSP_5_MESSAGE_UBER : cty := union 1 [
  fld NVSP_5_MESSAGE_OID_QUERY_EX "OidQueryEx";
  fld NVSP_5_MESSAGE_OID_QUERY_EX_COMPLETE "OidQueryExComplete";
  fld NVSP_5_MESSAGE_SUBCHANNEL_REQUEST "SubChannelRequest";
  fld NVSP_5_MESSAGE_SUBCHANNEL_COMPLETE "SubChannelRequestComplete";
  fld NVSP_5_MESSAGE_SEND_INDIRECTION_TABLE "SendTable"].
Definition NVSP_ALL_MESSAGES : cty := union 1 [
  fld NVSP_MESSAGE_INIT_UBER "InitMessages";
  fld NVSP_1_MESSAGE_UBER "Version1Messages";
  fld NVSP_2_MESSAGE_UBER "Version2Messages";
  fld NVSP_4_MESSAGE_UBER "Version4Messages";
  fld NVSP_5_MESSAGE_UBER "Version5Messages"].
Definition NVSP_MESSAGE : cty := struct 1 [
  fld NVSP_MESSAGE_HEADER "Header";
  fld NVSP_ALL_MESSAGES "Messages";
  fld UINT32 "Padding"].
Definition static_assert_NVSP_MESSAGE (b : abi) : bool := sizeof b NVSP_MESSAGE mod 8 =? 0.
Definition RNDIS_REQUEST_ID : cty := UINT32.
Definition RNDIS_HANDLE : cty := UINT32.
Definition RNDIS_STATUS : cty := UINT32.
Definition RNDIS_REQUEST_TYPE : cty := UINT32.
Definition RNDIS_OID : cty := UINT32.
Definition RNDIS_CLASS_ID : cty := UINT32.
Definition RNDIS_MEDIUM : cty := UINT32.
Definition RNDIS_STATUS_SUCCESS : Z := u32 0x00000000.
Definition RNDIS_STATUS_MEDIA_CONNECT : Z := u32 0x4001000b.
Definition RNDIS_STATUS_MEDIA_DISCONNECT : Z := u32 0x4001000c.
Definition NDIS_STATUS_NETWORK_CHANGE : Z := u32 0x40010018.
Definition RNDIS_OID_GEN_CURRENT_PACKET_FILTER : Z := 0x0001010e.
Definition RNDIS_OID_802_3_CURRENT_ADDRESS : Z := 0x01010102.
Definition REMOTE_NDIS_PACKET_MSG : Z := 0x00000001.
Definition REMOTE_NDIS_INITIALIZE_MSG : Z := 0x00000002.
Definition REMOTE_NDIS_HALT_MSG : Z := 0x00000003.
Definition REMOTE_NDIS_QUERY_MSG : Z := 0x00000004.
Definition REMOTE_NDIS_SET_MSG : Z := 0x00000005.
Definition REMOTE_NDIS_RESET_MSG : Z := 0x00000006.
Definition REMOTE_NDIS_INDICATE_STATUS_MSG : Z := 0x00000007.
Definition REMOTE_NDIS_KEEPALIVE_MSG : Z := 0x00000008.
Definition REMOTE_NDIS_SET_EX_MSG : Z := 0x00000009.
Definition REMOTE_CONDIS_MP_CREATE_VC_MSG : Z := 0x00008001.
Definition REMOTE_CONDIS_MP_DELETE_VC_MSG : Z := 0x00008002.
Definition REMOTE_CONDIS_MP_ACTIVATE_VC_MSG : Z := 0x00008005.
Definition REMOTE_CONDIS_MP_DEACTIVATE_VC_MSG : Z := 0x00008006.
Definition REMOTE_CONDIS_INDICATE_STATUS_MSG : Z := 0x00008007.
Definition REMOTE_NDIS_INITIALIZE_CMPLT : Z := 0x80000002.
Definition REMOTE_NDIS_QUERY_CMPLT : Z := 0x80000004.
Definition REMOTE_NDIS_SET_CMPLT : Z := 0x80000005.
Definition REMOTE_NDIS_BUS_MSG : Z := 0xff000001.
Definition RNDIS_MAJOR_VERSION : Z := 0x00000001.
Definition RNDIS_MINOR_VERSION : Z := 0x00000000.
Definition RNDIS_INITIALIZE_REQUEST : cty := struct 0 [
  fld RNDIS_REQUEST_ID "RequestId";
  fld UINT32 "MajorVersion";
  fld UINT32 "MinorVersion";
  fld UINT32 "MaxTransferSize"].
Definition RNDIS_INITIALIZE_COMPLETE : cty := struct 0 [
  fld RNDIS_REQUEST_ID "RequestId";
  fld RNDIS_STATUS "Status";
  fld UINT32 "MajorVersion";
  fld UINT32 "MinorVersion";
  fld UINT32 "DeviceFlags";
  fld RNDIS_MEDIUM "Medium";
  fld UINT32 "MaxPacketsPerMessage";
  fld UINT32 "MaxTransferSize";
  fld UINT32 "PacketAlignmentFactor";
  fld UINT32 "AFListOffset";
  fld UINT32 "AFListSize"].
Definition RNDIS_HALT_REQUEST : cty := struct 0 [
  fld RNDIS_REQUEST_ID "RequestId"].
Definition RNDIS_QUERY_REQUEST : cty := struct 0 [
  fld RNDIS_REQUEST_ID "RequestId";
  fld RNDIS_OID "Oid";
  fld UINT32 "InformationBufferLength";
  fld UINT32 "InformationBufferOffset";
  fld RNDIS_HANDLE "DeviceVcHandle"].
Definition RNDIS_QUERY_COMPLETE : cty := struct 0 [
  fld RNDIS_REQUEST_ID "RequestId";
  fld RNDIS_STATUS "Status";
  fld UINT32 "InformationBufferLength";
  fld UINT32 "InformationBufferOffset"].
Definition RNDIS_SET_REQUEST : cty := struct 0 [
  fld RNDIS_REQUEST_ID "RequestId";
  fld RNDIS_OID "Oid";
  fld UINT32 "InformationBufferLength";
  fld UINT32 "InformationBufferOffset";
  fld RNDIS_HANDLE "DeviceVcHandle"].
Definition RNDIS_SET_COMPLETE : cty := struct 0 [
  fld RNDIS_REQUEST_ID "RequestId";
  fld RNDIS_STATUS "Status"].
Definition RNDIS_SET_EX_REQUEST : cty := struct 0 [
  fld RNDIS_REQUEST_ID "RequestId";
  fld RNDIS_OID "Oid";
  fld UINT32 "InformationBufferLength";
  fld UINT32 "InformationBufferOffset";
  fld RNDIS_HANDLE "DeviceVcHandle"].
Definition RNDIS_SET_EX_COMPLETE : cty := struct 0 [
  fld RNDIS_REQUEST_ID "RequestId";
  fld RNDIS_STATUS "Status";
  fld UINT32 "InformationBufferLength";
  fld UINT32 "InformationBufferOffset"].
Definition RNDIS_RESET_REQUEST : cty := struct 0 [
  fld UINT32 "Reserved"].
Definition RNDIS_RESET_COMPLETE : cty := struct 0 [
  fld RNDIS_STATUS "Status";
  fld UINT32 "AddressingReset"].
Definition RNDIS_INDICATE_STATUS : cty := struct 0 [
  fld RNDIS_STATUS "Status";
  fld UINT32 "StatusBufferLength";
  fld UINT32 "StatusBufferOffset"].
Definition RNDIS_DIAGNOSTIC_INFO : cty := struct 0 [
  fld RNDIS_STATUS "DiagStatus";
  fld UINT32 "ErrorOffset"].
Definition RNDIS_KEEPALIVE_REQUEST : cty := struct 0 [
  fld RNDIS_REQUEST_ID "RequestId"].
Definition RNDIS_KEEPALIVE_COMPLETE : cty := struct 0 [
  fld RNDIS_REQUEST_ID "RequestId";
  fld RNDIS_STATUS "Status"].
Definition RNDIS_PACKET : cty := struct 0 [
  fld UINT32 "DataOffset";
  fld UINT32 "DataLength";
  fld UINT32 "OOBDataOffset";
  fld UINT32 "OOBDataLength";
  fld UINT32 "NumOOBDataElements";
  fld UINT32 "PerPacketInfoOffset";
  fld UINT32 "PerPacketInfoLength";
  fld RNDIS_HANDLE "VcHandle";
  fld UINT32 "Reserved"].
Definition RNDIS_CONFIG_PARAMETER_INFO : cty := struct 0 [
  fld UINT32 "ParameterNameOffset";
  fld UINT32 "ParameterNameLength";
  fld UINT32 "ParameterType";
  fld UINT32 "ParameterValueOffset";
  fld UINT32 "ParameterValueLength"].
Definition RCONDIS_MP_CREATE_VC : cty := struct 0 [
  fld RNDIS_REQUEST_ID "RequestId";
  fld RNDIS_HANDLE "NdisVcHandle"].
Definition RCONDIS_MP_CREATE_VC_COMPLETE : cty := struct 0 [
  fld RNDIS_REQUEST_ID "RequestId";
  fld RNDIS_HANDLE "DeviceVcHandle";
  fld RNDIS_STATUS "Status"].
Definition RCONDIS_MP_DELETE_VC : cty := struct 0 [
  fld RNDIS_REQUEST_ID "RequestId";
  fld RNDIS_HANDLE "DeviceVcHandle"].
Definition RCONDIS_MP_DELETE_VC_COMPLETE : cty := struct 0 [
  fld RNDIS_REQUEST_ID "RequestId";
  fld RNDIS_STATUS "Status"].
Definition RCONDIS_MP_QUERY_REQUEST : cty := struct 0 [
  fld RNDIS_REQUEST_ID "RequestId";
  fld RNDIS_REQUEST_TYPE "RequestType";
  fld RNDIS_OID "Oid";
  fld RNDIS_HANDLE "DeviceVcHandle";
  fld UINT32 "InformationBufferLength";
  fld UINT32 "InformationBufferOffset"].
Definition RCONDIS_MP_SET_REQUEST : cty := struct 0 [
  fld RNDIS_REQUEST_ID "RequestId";
  fld RNDIS_REQUEST_TYPE "RequestType";
  fld RNDIS_OID "Oid";
  fld RNDIS_HANDLE "DeviceVcHandle";
  fld UINT32 "InformationBufferLength";
  fld UINT32 "InformationBufferOffset"].
Definition RCONDIS_INDICATE_STATUS : cty := struct 0 [
  fld RNDIS_HANDLE "NdisVcHandle";
  fld RNDIS_STATUS "Status";
  fld UINT32 "StatusBufferLength";
  fld UINT32 "StatusBufferOffset"].
Definition RCONDIS_SPECIFIC_PARAMETERS : cty := struct 0 [
  fld UINT32 "ParameterType";
  fld UINT32 "ParameterLength";
  fld UINT32 "ParameterOffset"].
Definition RCONDIS_MEDIA_PARAMETERS : cty := struct 0 [
  fld UINT32 "Flags";
  fld UINT32 "Reserved1";
  fld UINT32 "Reserved2";
  fld RCONDIS_SPECIFIC_PARAMETERS "MediaSpecific"].
Definition RNDIS_FLOWSPEC : cty := struct 0 [
  fld UINT32 "TokenRate";
  fld UINT32 "TokenBucketSize";
  fld UINT32 "PeakBandwidth";
  fld UINT32 "Latency";
  fld UINT32 "DelayVariation";
  fld UINT32 "ServiceType";
  fld UINT32 "MaxSduSize";
  fld UINT32 "MinimumPolicedSize"].
Definition RCONDIS_CALL_MANAGER_PARAMETERS : cty := struct 0 [
  fld RNDIS_FLOWSPEC "Transmit";
  fld RNDIS_FLOWSPEC "Receive";
  fld RCONDIS_SPECIFIC_PARAMETERS "CallMgrSpecific"].
Definition RCONDIS_MP_ACTIVATE_VC_REQUEST : cty := struct 0 [
  fld RNDIS_REQUEST_ID "RequestId";
  fld UINT32 "Flags";
  fld RNDIS_HANDLE "DeviceVcHandle";
  fld UINT32 "MediaParamsOffset";
  fld UINT32 "MediaParamsLength";
  fld UINT32 "CallMgrParamsOffset";
  fld UINT32 "CallMgrParamsLength"].
Definition RCONDIS_MP_ACTIVATE_VC_COMPLETE : cty := struct 0 [
  fld RNDIS_REQUEST_ID "RequestId";
  fld RNDIS_STATUS "Status"].
Definition RCONDIS_MP_DEACTIVATE_VC_REQUEST : cty := struct 0 [
  fld RNDIS_REQUEST_ID "RequestId";
  fld UINT32 "Flags";
  fld RNDIS_HANDLE "DeviceVcHandle"].
Definition RCONDIS_MP_DEACTIVATE_VC_COMPLETE : cty := struct 0 [
  fld RNDIS_REQUEST_ID "RequestId";
  fld RNDIS_STATUS "Status"].
Definition RNDIS_MESSAGE_CONTAINER : cty := union 0 [
  fld RNDIS_PACKET "Packet";
  fld RNDIS_INITIALIZE_REQUEST "InitializeRequest";
  fld RNDIS_HALT_REQUEST "HaltRequest";
  fld RNDIS_QUERY_REQUEST "QueryRequest";
  fld RNDIS_SET_REQUEST "SetRequest";
  fld RNDIS_SET_EX_REQUEST "SetExRequest";
  fld RNDIS_RESET_REQUEST "ResetRequest";
  fld RNDIS_KEEPALIVE_REQUEST "KeepaliveRequest";
  fld RNDIS_INDICATE_STATUS "IndicateStatus";
  fld RNDIS_INITIALIZE_COMPLETE "InitializeComplete";
  fld RNDIS_QUERY_COMPLETE "QueryComplete";
  fld RNDIS_SET_COMPLETE "SetComplete";
  fld RNDIS_SET_EX_COMPLETE "SetExComplete";
  fld RNDIS_RESET_COMPLETE "ResetComplete";
  fld RNDIS_KEEPALIVE_COMPLETE "KeepaliveComplete";
  fld RCONDIS_MP_CREATE_VC "CoMiniportCreateVc";
  fld RCONDIS_MP_DELETE_VC "CoMiniportDeleteVc";
  fld RCONDIS_INDICATE_STATUS "CoIndicateStatus";
  fld RCONDIS_MP_ACTIVATE_VC_REQUEST "CoMiniportActivateVc";
  fld RCONDIS_MP_DEACTIVATE_VC_REQUEST "CoMiniportDeactivateVc";
  fld RCONDIS_MP_CREATE_VC_COMPLETE "CoMiniportCreateVcComplete";
  fld RCONDIS_MP_DELETE_VC_COMPLETE "CoMiniportDeleteVcComplete";
  fld RCONDIS_MP_ACTIVATE_VC_COMPLETE "CoMiniportActivateVcComplete";
  fld RCONDIS_MP_DEACTIVATE_VC_COMPLETE "CoMiniportDeactivateVcComplete"].
Definition RNDIS_MESSAGE : cty := struct 0 [
  fld UINT32 "NdisMessageType";
  fld UINT32 "MessageLength";
  fld RNDIS_MESSAGE_CONTAINER "Message"].
Definition RNDIS_MESSAGE_SIZE (b : abi) (Message : cty) : Z :=
  sizeof b Message + (sizeof b RNDIS_MESSAGE - sizeof b RNDIS_MESSAGE_CONTAINER).
Definition VPCI_CLASS_ID : guid := Guid 0x44c4f61d 0x4444 0x4400 [0x9d; 0x52; 0x80; 0x2e; 0x27;
  0xed; 0xe1; 0x9f].
Definition CmResourceTypeNull : Z := 0.
Definition CmResourceTypeMemory : Z := 3.
Definition CM_RESOURCE_MEMORY_LARGE_40 : Z := 0x0200.
Definition CM_RESOURCE_MEMORY_LARGE_48 : Z := 0x0400.
Definition CM_RESOURCE_MEMORY_LARGE_64 : Z := 0x0800.
Definition CM_RESOURCE_MEMORY_LARGE_40_MAXLEN : Z := 0x000000ffffffff00.
Definition CM_RESOURCE_MEMORY_LARGE_48_MAXLEN : Z := 0x0000ffffffff0000.
Definition CM_RESOURCE_MEMORY_LARGE_64_MAXLEN : Z := 0xffffffff00000000.
Definition CM_PARTIAL_RESOURCE_DESCRIPTOR : cty := struct 4 [
  fld UINT8 "Type";
  fld UINT8 "ShareDisposition";
  fld UINT16 "Flags";
  fld (union 4 [
    fld (struct 4 [
      fld UINT64 "Start";
      fld UINT32 "Length"]) "Generic";
    fld (struct 4 [
      fld UINT64 "First";
      fld UINT64 "Second"]) "ForSize"]) "u"].
Definition static_assert_CM_PARTIAL_RESOURCE_DESCRIPTOR (b : abi) : bool := sizeof b
  CM_PARTIAL_RESOURCE_DESCRIPTOR =? 0x14.
Definition DEVICE_POWER_STATE : enum := [
  Is "PowerDeviceUnspecified" 0;
  Next "PowerDeviceD0";
  Next "PowerDeviceD1";
  Next "PowerDeviceD2";
  Next "PowerDeviceD3";
  Next "PowerDeviceMaximum"].
Definition PCI_SLOT_NUMBER : cty := struct 0 [
  fld (union 0 [
    fld (struct 0 [
      bit UINT32 "DeviceNumber" 5;
      bit UINT32 "FunctionNumber" 3;
      bit UINT32 "Reserved" 24]) "bits";
    fld UINT32 "AsULONG"]) "u"].
Definition ALIGN_VALUE (Value Alignment : Z) : Z := Value + (Z.land (Alignment - Value) (Alignment - 1)).
Definition ALIGN_UP (b : abi) (x : Z) (y : cty) : Z := ALIGN_VALUE x (sizeof b y).
Definition PCI_MAX_BAR : Z := 0x0006.
Definition VPCI_PNP_ID : cty := struct 0 [
  fld UINT16 "VendorID";
  fld UINT16 "DeviceID";
  fld UINT8 "RevisionID";
  fld UINT8 "ProgIf";
  fld UINT8 "SubClass";
  fld UINT8 "BaseClass";
  fld UINT16 "SubVendorID";
  fld UINT16 "SubSystemID"].
Definition VPCI_PROTOCOL_VERSION_RS1 : Z := 0x00010002.
Definition VPCI_PROTOCOL_VERSION_CURRENT : Z := VPCI_PROTOCOL_VERSION_RS1.
Definition VscSupportedVersions : list Z := [VPCI_PROTOCOL_VERSION_RS1].
Definition VPCI_MESSAGE : enum := [
  Is "VpciMsgBusRelations" 0x42490000;
  Next "VpciMsgQueryBusRelations";
  Next "VpciMsgInvalidateDevice";
  Next "VpciMsgInvalidateBus";
  Next "VpciMsgDevicePowerStateChange";
  Next "VpciMsgCurrentResourceRequirements";
  Next "VpciMsgGetResources";
  Next "VpciMsgFdoD0Entry";
  Next "VpciMsgFdoD0Exit";
  Next "VpciMsgReadBlock";
  Next "VpciMsgWriteBlock";
  Next "VpciMsgEject";
  Next "VpciMsgQueryStop";
  Next "VpciMsgReEnable";
  Next "VpciMsgQueryStopFailed";
  Next "VpciMsgEjectComplete";
  Next "VpciMsgAssignedResources";
  Next "VpciMsgReleaseResources";
  Next "VpciMsgInvalidateBlock";
  Next "VpciMsgQueryProtocolVersion";
  Next "VpciMsgCreateInterruptMessage";
  Next "VpciMsgDeleteInterruptMessage";
  Next "VpciMsgAssignedResources2";
  Next "VpciMsgCreateInterruptMessage2";
  Next "VpciMsgDeleteInterruptMessage2"].
Definition VPCI_PACKET_HEADER : cty := struct 0 [
  fld UINT32 "MessageType"].
Definition VPCI_REPLY_HEADER : cty := struct 0 [
  fld UINT32 "Status"].
Definition VPCI_DEVICE_DESCRIPTION : cty := struct 0 [
  fld VPCI_PNP_ID "IDs";
  fld UINT32 "Slot";
  fld UINT32 "SerialNumber"].
Definition VPCI_QUERY_BUS_RELATIONS : cty := struct 0 [
  fld VPCI_PACKET_HEADER "Header";
  fld UINT32 "DeviceCount";
  fld (CArr VPCI_DEVICE_DESCRIPTION HV_ANYSIZE_ARRAY) "Devices"].
Definition VPCI_MAX_DEVICES_PER_BUS : Z := 255.
Definition VPCI_MESSAGE_RESOURCE_2_MAX_CPU_COUNT : Z := 32.
Definition VPCI_MESSAGE_RESOURCE_2 : cty := struct 0 [
  fld (union 0 [
    fld (struct 0 [
      fld UINT16 "Reserved";
      fld UINT16 "MessageCount";
      fld UINT32 "DataPayload";
      fld UINT64 "Address";
      fld (CArr UINT16 27) "Reserved2"]) "Remapped";
    fld (struct 0 [
      fld UINT8 "Vector";
      fld UINT8 "DeliveryMode";
      fld UINT16 "VectorCount";
      fld UINT16 "ProcessorCount";
      fld (CArr UINT16 VPCI_MESSAGE_RESOURCE_2_MAX_CPU_COUNT) "ProcessorArray"]) "Descriptor"]) anonymous].
Definition VPCI_QUERY_PROTOCOL_VERSION : cty := struct 0 [
  fld VPCI_PACKET_HEADER "Header";
  fld UINT32 "ProtocolVersion"].
Definition VPCI_PROTOCOL_VERSION_REPLY : cty := struct 0 [
  fld VPCI_REPLY_HEADER "Header";
  fld UINT32 "ProtocolVersion"].
Definition VPCI_QUERY_RESOURCE_REQUIREMENTS : cty := struct 0 [
  fld VPCI_PACKET_HEADER "Header";
  fld PCI_SLOT_NUMBER "Slot"].
Definition VPCI_RESOURCE_REQUIREMENTS_REPLY : cty := struct 0 [
  fld VPCI_REPLY_HEADER "Header";
  fld (CArr UINT32 PCI_MAX_BAR) "Bars"].
Definition VPCI_DEVICE_POWER_CHANGE : cty := struct 0 [
  fld (union 0 [
    fld VPCI_PACKET_HEADER "Header";
    fld VPCI_REPLY_HEADER "ReplyHeader"]) anonymous;
  fld PCI_SLOT_NUMBER "Slot";
  fld (enum_type DEVICE_POWER_STATE) "TargetState"].
Definition VPCI_DEVICE_TRANSLATE_2 : cty := struct 0 [
  fld (union 0 [
    fld VPCI_PACKET_HEADER "Header";
    fld VPCI_REPLY_HEADER "ReplyHeader"]) anonymous;
  fld PCI_SLOT_NUMBER "Slot";
  fld (CArr CM_PARTIAL_RESOURCE_DESCRIPTOR PCI_MAX_BAR) "MmioResources";
  fld UINT32 "MsiResourceCount";
  fld (CArr VPCI_MESSAGE_RESOURCE_2 HV_ANYSIZE_ARRAY) "MsiResources"].
Definition VPCI_DEVICE_TRANSLATE_2_REPLY : cty := struct 0 [
  fld VPCI_REPLY_HEADER "Header";
  fld PCI_SLOT_NUMBER "Slot"].
Definition VPCI_FDO_D0_ENTRY : cty := struct 0 [
  fld VPCI_PACKET_HEADER "Header";
  fld UINT32 "Padding";
  fld UINT64 "MmioStart"].
Definition VPCI_FDO_D0_ENTRY_REPLY : cty := struct 0 [
  fld UINT32 "NtStatus";
  fld UINT32 "Pad"].
Definition PCI_BAR_FORMAT : cty := struct 0 [
  fld (union 0 [
    fld (struct 0 [
      bit UINT32 "MemorySpaceIndicator" 1;
      bit UINT32 "MemoryType" 2;
      bit UINT32 "Prefetchable" 1;
      bit UINT32 "Address" 28]) "Memory";
    fld (struct 0 [
      bit UINT32 "IoSpaceIndicator" 1;
      bit UINT32 "Reserved" 1;
      bit UINT32 "Address" 30]) anonymous;
    fld UINT32 "AsUINT32"]) anonymous].
Definition PCI_BAR_MEMORY_TYPE_64BIT : Z := 0x2.
Definition VMBFS_CLASS_ID : guid := Guid 0xc376c1c3 0xd276 0x48d2 [0x90; 0xa9; 0xc0; 0x47; 0x48;
  0x07; 0x2c; 0x60].
Definition VMBFS_MAXIMUM_MESSAGE_SIZE : Z := 12288.
Definition VMBFS_MAXIMUM_PAYLOAD_SIZE (b : abi) (Header : cty) : Z :=
  VMBFS_MAXIMUM_MESSAGE_SIZE - sizeof b Header.
Definition VMBFS_MAKE_VERSION (Major Minor : Z) : Z := Z.lor (u32 (Z.shiftl Major 16)) Minor.
Definition VMBFS_VERSION_WIN10 : Z := VMBFS_MAKE_VERSION 1 0.
Definition VMBFS_MESSAGE_TYPE : enum := [
  Is "VmbfsMessageTypeInvalid" 0;
  Next "VmbfsMessageTypeVersionRequest";
  Next "VmbfsMessageTypeVersionResponse";
  Next "VmbfsMessageTypeGetFileInfo";
  Next "VmbfsMessageTypeGetFileInfoResponse";
  Next "VmbfsMessageTypeReadFile";
  Next "VmbfsMessageTypeReadFileResponse";
  Next "VmbfsMessageTypeReadFileRdma";
  Next "VmbfsMessageTypeReadFileRdmaResponse";
  Next "VmbfsMessageTypeMax"].
Definition VMBFS_GET_FILE_INFO_FLAG_DIRECTORY : Z := 0x1.
Definition VMBFS_GET_FILE_INFO_FLAG_RDMA_CAPABLE : Z := 0x2.
Definition VMBFS_GET_FILE_INFO_FLAGS : Z := Z.lor VMBFS_GET_FILE_INFO_FLAG_DIRECTORY
  VMBFS_GET_FILE_INFO_FLAG_RDMA_CAPABLE.
Definition VMBFS_MESSAGE_HEADER : cty := struct 1 [
  fld (enum_type VMBFS_MESSAGE_TYPE) "Type";
  fld UINT32 "Reserved"].
Definition VMBFS_MESSAGE_VERSION_REQUEST : cty := struct 1 [
  fld VMBFS_MESSAGE_HEADER "Header";
  fld UINT32 "RequestedVersion"].
Definition VMBFS_STATUS_VERSION_RESPONSE : enum := [
  Is "VmbfsVersionSupported" 0;
  Is "VmbfsVersionUnsupported" 1].
Definition VMBFS_MESSAGE_VERSION_RESPONSE : cty := struct 1 [
  fld VMBFS_MESSAGE_HEADER "Header";
  fld UINT32 "Status"].
Definition VMBFS_MESSAGE_GET_FILE_INFO : cty := struct 1 [
  fld VMBFS_MESSAGE_HEADER "Header";
  fld (CArr HV_WCHAR HV_ANYSIZE_ARRAY) "FilePath"].
Definition VMBFS_STATUS_FILE_RESPONSE : enum := [
  Is "VmbfsFileSuccess" 0;
  Is "VmbfsFileNotFound" 1;
  Is "VmbfsFileEndOfFile" 2;
  Is "VmbfsFileError" 3].
Definition VMBFS_MESSAGE_GET_FILE_INFO_RESPONSE : cty := struct 1 [
  fld VMBFS_MESSAGE_HEADER "Header";
  fld UINT32 "Status";
  fld UINT32 "Flags";
  fld UINT64 "FileSize"].
Definition VMBFS_MESSAGE_READ_FILE : cty := struct 1 [
  fld VMBFS_MESSAGE_HEADER "Header";
  fld UINT32 "ByteCount";
  fld UINT64 "Offset";
  fld (CArr HV_WCHAR HV_ANYSIZE_ARRAY) "FilePath"].
Definition VMBFS_MESSAGE_READ_FILE_RESPONSE : cty := struct 1 [
  fld VMBFS_MESSAGE_HEADER "Header";
  fld UINT32 "Status";
  fld (CArr UINT8 HV_ANYSIZE_ARRAY) "Payload"].
Definition VMBFS_MESSAGE_READ_FILE_RDMA : cty := struct 1 [
  fld VMBFS_MESSAGE_HEADER "Header";
  fld UINT32 "Handle";
  fld UINT32 "ByteCount";
  fld UINT64 "FileOffset";
  fld UINT64 "TokenOffset";
  fld (CArr HV_WCHAR HV_ANYSIZE_ARRAY) "FilePath"].
Definition VMBFS_MESSAGE_READ_FILE_RDMA_RESPONSE : cty := struct 1 [
  fld VMBFS_MESSAGE_HEADER "Header";
  fld UINT32 "Status";
  fld UINT32 "ByteCount"].

(** ** The records and enumerations of the file *)

Definition GuestProtocols_types : list (string * cty) := [
  ("GPA_RANGE", GPA_RANGE);
  ("VMBUS_CHANNEL_MESSAGE_HEADER", VMBUS_CHANNEL_MESSAGE_HEADER);
  ("VMBUS_CHANNEL_OFFER_CHANNEL", VMBUS_CHANNEL_OFFER_CHANNEL);
  ("VMBUS_CHANNEL_RESCIND_OFFER", VMBUS_CHANNEL_RESCIND_OFFER);
  ("VMBUS_CHANNEL_OPEN_CHANNEL", VMBUS_CHANNEL_OPEN_CHANNEL);
  ("VMBUS_CHANNEL_OPEN_RESULT", VMBUS_CHANNEL_OPEN_RESULT);
  ("VMBUS_CHANNEL_CLOSE_CHANNEL", VMBUS_CHANNEL_CLOSE_CHANNEL);
  ("VMBUS_CHANNEL_MODIFY_CHANNEL", VMBUS_CHANNEL_MODIFY_CHANNEL);
  ("VMBUS_CHANNEL_MODIFY_CHANNEL_RESPONSE", VMBUS_CHANNEL_MODIFY_CHANNEL_RESPONSE);
  ("VMBUS_CHANNEL_GPADL_HEADER", VMBUS_CHANNEL_GPADL_HEADER);
  ("VMBUS_CHANNEL_GPADL_BODY", VMBUS_CHANNEL_GPADL_BODY);
  ("VMBUS_CHANNEL_GPADL_CREATED", VMBUS_CHANNEL_GPADL_CREATED);
  ("VMBUS_CHANNEL_GPADL_TEARDOWN", VMBUS_CHANNEL_GPADL_TEARDOWN);
  ("VMBUS_CHANNEL_GPADL_TORNDOWN", VMBUS_CHANNEL_GPADL_TORNDOWN);
  ("VMBUS_CHANNEL_RELID_RELEASED", VMBUS_CHANNEL_RELID_RELEASED);
  ("VMBUS_CHANNEL_INITIATE_CONTACT", VMBUS_CHANNEL_INITIATE_CONTACT);
  ("VMBUS_CHANNEL_VERSION_RESPONSE", VMBUS_CHANNEL_VERSION_RESPONSE);
  ("VMBUS_CHANNEL_OPEN_RESERVED_CHANNEL", VMBUS_CHANNEL_OPEN_RESERVED_CHANNEL);
  ("VMBUS_CHANNEL_CLOSE_RESERVED_CHANNEL", VMBUS_CHANNEL_CLOSE_RESERVED_CHANNEL);
  ("VMBUS_CHANNEL_CLOSE_RESERVED_RESPONSE", VMBUS_CHANNEL_CLOSE_RESERVED_RESPONSE);
  ("VMBUS_CHANNEL_TL_CONNECT_REQUEST", VMBUS_CHANNEL_TL_CONNECT_REQUEST);
  ("VMBUS_CHANNEL_TL_CONNECT_RESULT", VMBUS_CHANNEL_TL_CONNECT_RESULT);
  ("VMBUS_CHANNEL_MODIFY_CONNECTION", VMBUS_CHANNEL_MODIFY_CONNECTION);
  ("VMBUS_CHANNEL_MODIFY_CONNECTION_RESPONSE", VMBUS_CHANNEL_MODIFY_CONNECTION_RESPONSE);
  ("VMRCB", VMRCB);
  ("VMPACKET_DESCRIPTOR", VMPACKET_DESCRIPTOR);
  ("PREVIOUS_PACKET_OFFSET", PREVIOUS_PACKET_OFFSET);
  ("VMTRANSFER_PAGE_RANGE", VMTRANSFER_PAGE_RANGE);
  ("VMTRANSFER_PAGE_PACKET_HEADER", VMTRANSFER_PAGE_PACKET_HEADER);
  ("VMDATA_GPA_DIRECT", VMDATA_GPA_DIRECT);
  ("VMPIPE_PROTOCOL_HEADER", VMPIPE_PROTOCOL_HEADER);
  ("VMPIPE_SETUP_GPA_DIRECT_BODY", VMPIPE_SETUP_GPA_DIRECT_BODY);
  ("VMPIPE_TEARDOWN_GPA_DIRECT_BODY", VMPIPE_TEARDOWN_GPA_DIRECT_BODY);
  ("VMTRANSFER_PAGE_RANGES", VMTRANSFER_PAGE_RANGES);
  ("SYNTHVID_MESSAGE_HEADER", SYNTHVID_MESSAGE_HEADER);
  ("SYNTHVID_MESSAGE", SYNTHVID_MESSAGE);
  ("SYNTHVID_VERSION", SYNTHVID_VERSION);
  ("SYNTHVID_VERSION_REQUEST_MESSAGE", SYNTHVID_VERSION_REQUEST_MESSAGE);
  ("SYNTHVID_VERSION_RESPONSE_MESSAGE", SYNTHVID_VERSION_RESPONSE_MESSAGE);
  ("SYNTHVID_VRAM_LOCATION_MESSAGE", SYNTHVID_VRAM_LOCATION_MESSAGE);
  ("SYNTHVID_VRAM_LOCATION_ACK_MESSAGE", SYNTHVID_VRAM_LOCATION_ACK_MESSAGE);
  ("VIDEO_OUTPUT_SITUATION", VIDEO_OUTPUT_SITUATION);
  ("SYNTHVID_SITUATION_UPDATE_MESSAGE", SYNTHVID_SITUATION_UPDATE_MESSAGE);
  ("SYNTHVID_SITUATION_UPDATE_ACK_MESSAGE", SYNTHVID_SITUATION_UPDATE_ACK_MESSAGE);
  ("HK_MESSAGE_HEADER", HK_MESSAGE_HEADER);
  ("HK_MESSAGE_PROTOCOL_REQUEST", HK_MESSAGE_PROTOCOL_REQUEST);
  ("HK_MESSAGE_LED_INDICATORS_STATE", HK_MESSAGE_LED_INDICATORS_STATE);
  ("HK_MESSAGE_PROTOCOL_RESPONSE", HK_MESSAGE_PROTOCOL_RESPONSE);
  ("HK_MESSAGE_KEYSTROKE", HK_MESSAGE_KEYSTROKE);
  ("VMSCSI_REQUEST", VMSCSI_REQUEST);
  ("VMSTORAGE_CHANNEL_PROPERTIES", VMSTORAGE_CHANNEL_PROPERTIES);
  ("VMSTORAGE_OFFER_PROPERTIES", VMSTORAGE_OFFER_PROPERTIES);
  ("VMSTORAGE_PROTOCOL_VERSION", VMSTORAGE_PROTOCOL_VERSION);
  ("VMFC_WWN_PACKET", VMFC_WWN_PACKET);
  ("VSTOR_CLIENT_PROPERTIES", VSTOR_CLIENT_PROPERTIES);
  ("VSTOR_ASYNC_REGISTER_PACKET", VSTOR_ASYNC_REGISTER_PACKET);
  ("VSTOR_NOTIFICATION_PACKET", VSTOR_NOTIFICATION_PACKET);
  ("VSTOR_PACKET", VSTOR_PACKET);
  ("ADAPTER_ADDRESS", ADAPTER_ADDRESS);
  ("NVSP_MESSAGE_HEADER", NVSP_MESSAGE_HEADER);
  ("HV_NDIS_OBJECT_HEADER", HV_NDIS_OBJECT_HEADER);
  ("NVSP_MESSAGE_INIT", NVSP_MESSAGE_INIT);
  ("NVSP_MESSAGE_INIT_COMPLETE", NVSP_MESSAGE_INIT_COMPLETE);
  ("NVSP_MESSAGE_INIT_UBER", NVSP_MESSAGE_INIT_UBER);
  ("NVSP_1_MESSAGE_SEND_NDIS_VERSION", NVSP_1_MESSAGE_SEND_NDIS_VERSION);
  ("NVSP_1_MESSAGE_SEND_RECEIVE_BUFFER", NVSP_1_MESSAGE_SEND_RECEIVE_BUFFER);
  ("NVSP_1_RECEIVE_BUFFER_SECTION", NVSP_1_RECEIVE_BUFFER_SECTION);
  ("NVSP_1_MESSAGE_SEND_RECEIVE_BUFFER_COMPLETE", NVSP_1_MESSAGE_SEND_RECEIVE_BUFFER_COMPLETE);
  ("NVSP_1_MESSAGE_REVOKE_RECEIVE_BUFFER", NVSP_1_MESSAGE_REVOKE_RECEIVE_BUFFER);
  ("NVSP_1_MESSAGE_SEND_SEND_BUFFER", NVSP_1_MESSAGE_SEND_SEND_BUFFER);
  ("NVSP_1_MESSAGE_SEND_SEND_BUFFER_COMPLETE", NVSP_1_MESSAGE_SEND_SEND_BUFFER_COMPLETE);
  ("NVSP_1_MESSAGE_REVOKE_SEND_BUFFER", NVSP_1_MESSAGE_REVOKE_SEND_BUFFER);
  ("NVSP_1_MESSAGE_SEND_RNDIS_PACKET", NVSP_1_MESSAGE_SEND_RNDIS_PACKET);
  ("NVSP_1_MESSAGE_SEND_RNDIS_PACKET_COMPLETE", NVSP_1_MESSAGE_SEND_RNDIS_PACKET_COMPLETE);
  ("NVSP_2_NETVSC_CAPABILITIES", NVSP_2_NETVSC_CAPABILITIES);
  ("NVSP_2_MESSAGE_SEND_NDIS_CONFIG", NVSP_2_MESSAGE_SEND_NDIS_CONFIG);
  ("NVSP_TRANSFER_PAGE_RANGE", NVSP_TRANSFER_PAGE_RANGE);
  ("NVSP_4_MESSAGE_SEND_VF_ASSOCIATION", NVSP_4_MESSAGE_SEND_VF_ASSOCIATION);
  ("NVSP_4_MESSAGE_SWITCH_DATA_PATH", NVSP_4_MESSAGE_SWITCH_DATA_PATH);
  ("NVSP_5_MESSAGE_OID_QUERY_EX", NVSP_5_MESSAGE_OID_QUERY_EX);
  ("NVSP_5_MESSAGE_OID_QUERY_EX_COMPLETE", NVSP_5_MESSAGE_OID_QUERY_EX_COMPLETE);
  ("NVSP_5_MESSAGE_SUBCHANNEL_REQUEST", NVSP_5_MESSAGE_SUBCHANNEL_REQUEST);
  ("NVSP_5_MESSAGE_SUBCHANNEL_COMPLETE", NVSP_5_MESSAGE_SUBCHANNEL_COMPLETE);
  ("NVSP_5_MESSAGE_SEND_INDIRECTION_TABLE", NVSP_5_MESSAGE_SEND_INDIRECTION_TABLE);
  ("NVSP_1_MESSAGE_UBER", NVSP_1_MESSAGE_UBER);
  ("NVSP_2_MESSAGE_UBER", NVSP_2_MESSAGE_UBER);
  ("NVSP_4_MESSAGE_UBER", NVSP_4_MESSAGE_UBER);
  ("NVSP_5_MESSAGE_UBER", NVSP_5_MESSAGE_UBER);
  ("NVSP_ALL_MESSAGES", NVSP_ALL_MESSAGES);
  ("NVSP_MESSAGE", NVSP_MESSAGE);
  ("RNDIS_INITIALIZE_REQUEST", RNDIS_INITIALIZE_REQUEST);
  ("RNDIS_INITIALIZE_COMPLETE", RNDIS_INITIALIZE_COMPLETE);
  ("RNDIS_HALT_REQUEST", RNDIS_HALT_REQUEST);
  ("RNDIS_QUERY_REQUEST", RNDIS_QUERY_REQUEST);
  ("RNDIS_QUERY_COMPLETE", RNDIS_QUERY_COMPLETE);
  ("RNDIS_SET_REQUEST", RNDIS_SET_REQUEST);
  ("RNDIS_SET_COMPLETE", RNDIS_SET_COMPLETE);
  ("RNDIS_SET_EX_REQUEST", RNDIS_SET_EX_REQUEST);
  ("RNDIS_SET_EX_COMPLETE", RNDIS_SET_EX_COMPLETE);
  ("RNDIS_RESET_REQUEST", RNDIS_RESET_REQUEST);
  ("RNDIS_RESET_COMPLETE", RNDIS_RESET_COMPLETE);
  ("RNDIS_INDICATE_STATUS", RNDIS_INDICATE_STATUS);
  ("RNDIS_DIAGNOSTIC_INFO", RNDIS_DIAGNOSTIC_INFO);
  ("RNDIS_KEEPALIVE_REQUEST", RNDIS_KEEPALIVE_REQUEST);
  ("RNDIS_KEEPALIVE_COMPLETE", RNDIS_KEEPALIVE_COMPLETE);
  ("RNDIS_PACKET", RNDIS_PACKET);
  ("RNDIS_CONFIG_PARAMETER_INFO", RNDIS_CONFIG_PARAMETER_INFO);
  ("RCONDIS_MP_CREATE_VC", RCONDIS_MP_CREATE_VC);
  ("RCONDIS_MP_CREATE_VC_COMPLETE", RCONDIS_MP_CREATE_VC_COMPLETE);
  ("RCONDIS_MP_DELETE_VC", RCONDIS_MP_DELETE_VC);
  ("RCONDIS_MP_DELETE_VC_COMPLETE", RCONDIS_MP_DELETE_VC_COMPLETE);
  ("RCONDIS_MP_QUERY_REQUEST", RCONDIS_MP_QUERY_REQUEST);
  ("RCONDIS_MP_SET_REQUEST", RCONDIS_MP_SET_REQUEST);
  ("RCONDIS_INDICATE_STATUS", RCONDIS_INDICATE_STATUS);
  ("RCONDIS_SPECIFIC_PARAMETERS", RCONDIS_SPECIFIC_PARAMETERS);
  ("RCONDIS_MEDIA_PARAMETERS", RCONDIS_MEDIA_PARAMETERS);
  ("RNDIS_FLOWSPEC", RNDIS_FLOWSPEC);
  ("RCONDIS_CALL_MANAGER_PARAMETERS", RCONDIS_CALL_MANAGER_PARAMETERS);
  ("RCONDIS_MP_ACTIVATE_VC_REQUEST", RCONDIS_MP_ACTIVATE_VC_REQUEST);
  ("RCONDIS_MP_ACTIVATE_VC_COMPLETE", RCONDIS_MP_ACTIVATE_VC_COMPLETE);
  ("RCONDIS_MP_DEACTIVATE_VC_REQUEST", RCONDIS_MP_DEACTIVATE_VC_REQUEST);
  ("RCONDIS_MP_DEACTIVATE_VC_COMPLETE", RCONDIS_MP_DEACTIVATE_VC_COMPLETE);
  ("RNDIS_MESSAGE_CONTAINER", RNDIS_MESSAGE_CONTAINER);
  ("RNDIS_MESSAGE", RNDIS_MESSAGE);
  ("CM_PARTIAL_RESOURCE_DESCRIPTOR", CM_PARTIAL_RESOURCE_DESCRIPTOR);
  ("PCI_SLOT_NUMBER", PCI_SLOT_NUMBER);
  ("VPCI_PNP_ID", VPCI_PNP_ID);
  ("VPCI_PACKET_HEADER", VPCI_PACKET_HEADER);
  ("VPCI_REPLY_HEADER", VPCI_REPLY_HEADER);
  ("VPCI_DEVICE_DESCRIPTION", VPCI_DEVICE_DESCRIPTION);
  ("VPCI_QUERY_BUS_RELATIONS", VPCI_QUERY_BUS_RELATIONS);
  ("VPCI_MESSAGE_RESOURCE_2", VPCI_MESSAGE_RESOURCE_2);
  ("VPCI_QUERY_PROTOCOL_VERSION", VPCI_QUERY_PROTOCOL_VERSION);
  ("VPCI_PROTOCOL_VERSION_REPLY", VPCI_PROTOCOL_VERSION_REPLY);
  ("VPCI_QUERY_RESOURCE_REQUIREMENTS", VPCI_QUERY_RESOURCE_REQUIREMENTS);
  ("VPCI_RESOURCE_REQUIREMENTS_REPLY", VPCI_RESOURCE_REQUIREMENTS_REPLY);
  ("VPCI_DEVICE_POWER_CHANGE", VPCI_DEVICE_POWER_CHANGE);
  ("VPCI_DEVICE_TRANSLATE_2", VPCI_DEVICE_TRANSLATE_2);
  ("VPCI_DEVICE_TRANSLATE_2_REPLY", VPCI_DEVICE_TRANSLATE_2_REPLY);
  ("VPCI_FDO_D0_ENTRY", VPCI_FDO_D0_ENTRY);
  ("VPCI_FDO_D0_ENTRY_REPLY", VPCI_FDO_D0_ENTRY_REPLY);
  ("PCI_BAR_FORMAT", PCI_BAR_FORMAT);
  ("VMBFS_MESSAGE_HEADER", VMBFS_MESSAGE_HEADER);
  ("VMBFS_MESSAGE_VERSION_REQUEST", VMBFS_MESSAGE_VERSION_REQUEST);
  ("VMBFS_MESSAGE_VERSION_RESPONSE", VMBFS_MESSAGE_VERSION_RESPONSE);
  ("VMBFS_MESSAGE_GET_FILE_INFO", VMBFS_MESSAGE_GET_FILE_INFO);
  ("VMBFS_MESSAGE_GET_FILE_INFO_RESPONSE", VMBFS_MESSAGE_GET_FILE_INFO_RESPONSE);
  ("VMBFS_MESSAGE_READ_FILE", VMBFS_MESSAGE_READ_FILE);
  ("VMBFS_MESSAGE_READ_FILE_RESPONSE", VMBFS_MESSAGE_READ_FILE_RESPONSE);
  ("VMBFS_MESSAGE_READ_FILE_RDMA", VMBFS_MESSAGE_READ_FILE_RDMA);
  ("VMBFS_MESSAGE_READ_FILE_RDMA_RESPONSE", VMBFS_MESSAGE_READ_FILE_RDMA_RESPONSE)].
Definition GuestProtocols_enums : list (string * enum) := [
  ("VMBUS_CHANNEL_MESSAGE_TYPE", VMBUS_CHANNEL_MESSAGE_TYPE);
  ("VMBUS_CHANNEL_CONNECTION_STATE", VMBUS_CHANNEL_CONNECTION_STATE);
  ("ENDPOINT_TYPE", ENDPOINT_TYPE);
  ("VMPIPE_PROTOCOL_MESSAGE_TYPE", VMPIPE_PROTOCOL_MESSAGE_TYPE);
  ("VMBUS_PACKET_TYPE", VMBUS_PACKET_TYPE);
  ("SYNTHVID_MESSAGE_TYPE", SYNTHVID_MESSAGE_TYPE);
  ("HK_MESSAGE_TYPE", HK_MESSAGE_TYPE);
  ("VSTOR_PACKET_OPERATION", VSTOR_PACKET_OPERATION);
  ("NVSP_MESSAGE_TYPE", NVSP_MESSAGE_TYPE);
  ("NVSP_STATUS", NVSP_STATUS);
  ("NVSP_VM_DATA_PATH", NVSP_VM_DATA_PATH);
  ("NVSP_SUBCHANNEL_OPERATION", NVSP_SUBCHANNEL_OPERATION);
  ("DEVICE_POWER_STATE", DEVICE_POWER_STATE);
  ("VPCI_MESSAGE", VPCI_MESSAGE);
  ("VMBFS_MESSAGE_TYPE", VMBFS_MESSAGE_TYPE);
  ("VMBFS_STATUS_VERSION_RESPONSE", VMBFS_STATUS_VERSION_RESPONSE);
  ("VMBFS_STATUS_FILE_RESPONSE", VMBFS_STATUS_FILE_RESPONSE)].
(** The static assertions of the file. *)
Definition GuestProtocols_asserts (b : abi) : list bool := [
  static_assert_VMBUS_CHANNEL_OFFER_CHANNEL b;
  static_assert_VMRCB b;
  static_assert_VMSCSI_REQUEST b;
  static_assert_VMSTORAGE_SIZEOF_VMSCSI_REQUEST_REVISION_1 b;
  static_assert_VMSTORAGE_SIZEOF_VMSCSI_REQUEST_REVISION_2 b;
  static_assert_VMSTORAGE_CHANNEL_PROPERTIES b;
  static_assert_VMSTORAGE_PROTOCOL_VERSION b;
  static_assert_VMFC_WWN_PACKET b;
  static_assert_VSTOR_CLIENT_PROPERTIES b;
  static_assert_VSTOR_ASYNC_REGISTER_PACKET b;
  static_assert_VSTOR_NOTIFICATION_PACKET b;
  static_assert_VSTOR_PACKET b;
  static_assert_VMSTORAGE_SIZEOF_VSTOR_PACKET_REVISION_1 b;
  static_assert_VMSTORAGE_SIZEOF_VSTOR_PACKET_REVISION_2 b;
  static_assert_NVSP_MESSAGE b;
  static_assert_CM_PARTIAL_RESOURCE_DESCRIPTOR b].
(** Every GUID with the text of the comment above it. *)
Definition GuestProtocols_guids : list (string * guid) := [
  ("{DA0A7802-E377-4AAC-8E77-0558EB1073F8}", SYNTHVID_CLASS_ID);
  ("{F912AD6D-2B17-48EA-BD65-F927A61C7684}", HK_CLASS_ID);
  ("{BA6163D9-04A1-4D29-B605-72E2FFB1DC7F}", VMSCSI_CLASS_ID);
  ("{F8615163-DF3E-46C5-913F-F2D2F965ED0E}", NVSP_CLASS_ID);
  ("{44C4F61D-4444-4400-9D52-802E27EDE19F}", VPCI_CLASS_ID);
  ("{C376C1C3-D276-48D2-90A9-C04748072C60}", VMBFS_CLASS_ID)].
