(* ===== verification/TlfsBase.v ===== *)
(** * The hypervisor specification: base types

    The first part of [Mile.HyperV.TLFS.h], for x64: wide integers, status codes, trace
    groups, partition properties, processor features.  A long enumeration is written in parts. *)

From S2P Require Import Prelude CLayout GuestInterface GuestProtocols.

Definition HV_UINT256 : cty := aligned 32 (struct 0 [
  fld HV_UINT128 "Low128";
  fld HV_UINT128 "High128"]).
Definition HV_UINT512 : cty := aligned 64 (struct 0 [
  fld HV_UINT256 "Low128";
  fld HV_UINT256 "High128"]).
Definition HV_SPA : cty := UINT64.
Definition X64_PAGE_SIZE : Z := HV_X64_PAGE_SIZE.
Definition X64_LARGE_PAGE_SIZE : Z := HV_X64_LARGE_PAGE_SIZE.
Definition X64_1GB_PAGE_SIZE : Z := HV_X64_LARGE_PAGE_SIZE_1GB.
Definition HV_X64_MAX_PAGE_NUMBER : Z := UINT64_MAX / X64_PAGE_SIZE.
Definition HV_X64_MAX_LARGE_PAGE_NUMBER : Z := UINT64_MAX / X64_LARGE_PAGE_SIZE.
Definition HV_X64_MAX_1GB_PAGE_NUMBER : Z := UINT64_MAX / X64_1GB_PAGE_SIZE.
Definition HV_1GB_PAGE_SIZE : Z := X64_1GB_PAGE_SIZE.
Definition HV_PAGE_MASK : Z := HV_PAGE_SIZE - 1.
Definition HV_LARGE_PAGE_MASK : Z := HV_LARGE_PAGE_SIZE - 1.
Definition HV_1GB_PAGE_MASK : Z := HV_1GB_PAGE_SIZE - 1.
Definition HV_SPA_PAGE_NUMBER : cty := UINT64.
Definition HV_GVA_PAGE_NUMBER : cty := UINT64.
Definition HV_IO_PORT : cty := UINT16.
Definition HV_STATUS_PROCESSOR_FEATURE_SSE3_NOT_SUPPORTED : Z := u16 0x0020.
Definition HV_STATUS_PROCESSOR_FEATURE_LAHFSAHF_NOT_SUPPORTED : Z := u16 0x0021.
Definition HV_STATUS_PROCESSOR_FEATURE_SSSE3_NOT_SUPPORTED : Z := u16 0x0022.
Definition HV_STATUS_PROCESSOR_FEATURE_SSE4_1_NOT_SUPPORTED : Z := u16 0x0023.
Definition HV_STATUS_PROCESSOR_FEATURE_SSE4_2_NOT_SUPPORTED : Z := u16 0x0024.
Definition HV_STATUS_PROCESSOR_FEATURE_SSE4A_NOT_SUPPORTED : Z := u16 0x0025.
Definition HV_STATUS_PROCESSOR_FEATURE_SSE5_NOT_SUPPORTED : Z := u16 0x0026.
Definition HV_STATUS_PROCESSOR_FEATURE_POPCNT_NOT_SUPPORTED : Z := u16 0x0027.
Definition HV_STATUS_PROCESSOR_FEATURE_CMPXCHG16B_NOT_SUPPORTED : Z := u16 0x0028.
Definition HV_STATUS_PROCESSOR_FEATURE_ALTMOVCR8_NOT_SUPPORTED : Z := u16 0x0029.
Definition HV_STATUS_PROCESSOR_FEATURE_LZCNT_NOT_SUPPORTED : Z := u16 0x002a.
Definition HV_STATUS_PROCESSOR_FEATURE_MISALIGNED_SSE_NOT_SUPPORTED : Z := u16 0x002b.
Definition HV_STATUS_PROCESSOR_FEATURE_MMX_EXT_NOT_SUPPORTED : Z := u16 0x002c.
Definition HV_STATUS_PROCESSOR_FEATURE_3DNOW_NOT_SUPPORTED : Z := u16 0x002d.
Definition HV_STATUS_PROCESSOR_FEATURE_EXTENDED_3DNOW_NOT_SUPPORTED : Z := u16 0x002e.
Definition HV_STATUS_PROCESSOR_FEATURE_PAGE_1GB_NOT_SUPPORTED : Z := u16 0x002f.
Definition HV_STATUS_PROCESSOR_FEATURE_XSAVE_NOT_SUPPORTED : Z := u16 0x0031.
Definition HV_STATUS_PROCESSOR_FEATURE_XSAVEOPT_NOT_SUPPORTED : Z := u16 0x0032.
Definition HV_STATUS_PROCESSOR_FEATURE_XSAVE_LEGACY_SSE_NOT_SUPPORTED : Z := u16 0x0033.
Definition HV_STATUS_PROCESSOR_FEATURE_XSAVE_AVX_NOT_SUPPORTED : Z := u16 0x0034.
Definition HV_STATUS_PROCESSOR_FEATURE_XSAVE_UNKNOWN_FEATURE_NOT_SUPPORTED : Z := u16 0x0035.
Definition HV_STATUS_PROCESSOR_XSAVE_SAVE_AREA_INCOMPATIBLE : Z := u16 0x0036.
Definition HV_STATUS_EVENT_BUFFER_ALREADY_FREED : Z := u16 0x0074.
Definition HV_STATUS_CALL_PENDING : Z := u16 0x0079.
Definition HV_STATUS_VTL_ALREADY_ENABLED : Z := u16 0x0086.
Definition HV_X64_FP_REGISTER : cty := union 0 [
  fld HV_UINT128 "AsUINT128";
  fld (struct 0 [
    fld UINT64 "Mantissa";
    bit UINT64 "BiasedExponent" 15;
    bit UINT64 "Sign" 1;
    bit UINT64 "Reserved" 48]) anonymous].
Definition HV_X64_FP_CONTROL_STATUS_REGISTER : cty := union 0 [
  fld HV_UINT128 "AsUINT128";
  fld (struct 0 [
    fld UINT16 "FpControl";
    fld UINT16 "FpStatus";
    fld UINT8 "FpTag";
    bit UINT8 "IgnNe" 1;
    bit UINT8 "Reserved" 7;
    fld UINT16 "LastFpOp";
    fld (union 0 [
      fld UINT64 "LastFpRip";
      fld (struct 0 [
        fld UINT32 "LastFpEip";
        fld UINT16 "LastFpCs"]) anonymous]) anonymous]) anonymous].
Definition HV_X64_XMM_CONTROL_STATUS_REGISTER : cty := union 0 [
  fld HV_UINT128 "AsUINT128";
  fld (struct 0 [
    fld (union 0 [
      fld UINT64 "LastFpRdp";
      fld (struct 0 [
        fld UINT32 "LastFpDp";
        fld UINT16 "LastFpDs"]) anonymous]) anonymous;
    fld UINT32 "XmmStatusControl";
    fld UINT32 "XmmStatusControlMask"]) anonymous].
Definition HV_ARCHITECTURE : enum := [
  Next "HvArchitectureX64";
  Next "HvArchitectureX86";
  Next "HvArchitectureARM64";
  Next "HvArchitectureMaximum"].
Definition HV_X64_FP_MMX_REGISTER : cty := union 0 [
  fld HV_UINT128 "AsUINT128";
  fld HV_X64_FP_REGISTER "Fp";
  fld UINT64 "Mmx"].
Definition HV_X64_FXSAVE_AREA_SIZE : Z := 512.
Definition HV_X64_FX_REGISTERS : cty := aligned 16 (union 0 [
  fld (struct 0 [
    fld HV_X64_FP_CONTROL_STATUS_REGISTER "FpControlStatus";
    fld HV_X64_XMM_CONTROL_STATUS_REGISTER "XmmControlStatus";
    fld (CArr HV_X64_FP_MMX_REGISTER 8) "FpMmx";
    fld (CArr HV_UINT128 16) "Xmm"]) anonymous;
  fld (CArr UINT8 HV_X64_FXSAVE_AREA_SIZE) "FxSaveArea"]).
Definition HV_X64_XSAVE_XFEM_REGISTER : cty := union 0 [
  fld UINT64 "AsUINT64";
  fld (struct 0 [
    fld UINT32 "LowUINT32";
    fld UINT32 "HighUINT32"]) anonymous;
  fld (struct 0 [
    bit UINT64 "LegacyX87" 1;
    bit UINT64 "LegacySse" 1;
    bit UINT64 "Avx" 1;
    bit UINT64 "MpxBndreg" 1;
    bit UINT64 "MpxBndcsr" 1;
    bit UINT64 "Avx512OpMask" 1;
    bit UINT64 "Avx512Zmmhi" 1;
    bit UINT64 "Avx512Zmm16_31" 1;
    bit UINT64 "Reserved8_9" 2;
    bit UINT64 "Pasid" 1;
    bit UINT64 "CetU" 1;
    bit UINT64 "CetS" 1;
    bit UINT64 "Reserved13_16" 4;
    bit UINT64 "XtileCfg" 1;
    bit UINT64 "XtileData" 1;
    bit UINT64 "Reserved19_63" 45]) anonymous].
Definition HV_X64_XSAVE_HEADER : cty := aligned 64 (struct 0 [
  fld HV_X64_XSAVE_XFEM_REGISTER "XstateBv";
  fld HV_X64_XSAVE_XFEM_REGISTER "XcompBv";
  fld UINT16 "RevisionID";
  fld UINT16 "Reserved1MBZ";
  fld UINT32 "Reserved2";
  fld UINT64 "Reserved3";
  fld UINT64 "Reserved4";
  fld UINT64 "Reserved5";
  fld UINT64 "Reserved6";
  fld UINT64 "Reserved7"]).
Definition HV_X64_XSAVE_AREA_HEADER_SIZE : Z := 64.
Definition HV_X64_XSAVE_AREA_AVX_SIZE : Z := 256.
Definition HV_X64_XSAVE_AREA_MPX_SIZE : Z := 80.
Definition HV_X64_XSAVE_AREA_AVX512_SIZE : Z := 1600.
Definition HV_X64_XSAVE_AREA_PT_SIZE : Z := 72.
Definition HV_X64_XSAVE_AREA_PKRU_SIZE : Z := 4.
Definition HV_X64_XSAVE_AREA_HDC_SIZE : Z := 8.
Definition HV_X64_XSAVE_AREA_UNKNOWN_SIZE : Z := 92.
Definition HV_X64_XSAVE_AREA_SIZE : Z := (((((((HV_X64_FXSAVE_AREA_SIZE +
  HV_X64_XSAVE_AREA_HEADER_SIZE) + HV_X64_XSAVE_AREA_AVX_SIZE) + HV_X64_XSAVE_AREA_MPX_SIZE) +
  HV_X64_XSAVE_AREA_AVX512_SIZE) + HV_X64_XSAVE_AREA_PT_SIZE) + HV_X64_XSAVE_AREA_PKRU_SIZE) +
  HV_X64_XSAVE_AREA_HDC_SIZE) + HV_X64_XSAVE_AREA_UNKNOWN_SIZE.
Definition HV_X64_X_REGISTERS : cty := aligned 64 (union 0 [
  fld (struct 0 [
    fld HV_X64_FP_CONTROL_STATUS_REGISTER "FpControlStatus";
    fld HV_X64_XMM_CONTROL_STATUS_REGISTER "XmmControlStatus";
    fld (CArr HV_X64_FP_MMX_REGISTER 8) "FpMmx";
    fld (union 0 [
      fld (CArr HV_UINT128 16) "Xmm";
      fld (CArr HV_UINT128 16) "YmmLow"]) anonymous;
    fld (CArr HV_UINT128 6) "Reserved";
    fld HV_X64_XSAVE_HEADER "Header";
    fld (CArr HV_UINT128 16) "YmmHigh"]) anonymous;
  fld (CArr UINT8 HV_X64_XSAVE_AREA_SIZE) "XSaveArea"]).
Definition HV_X64_CONTEXT : cty := struct 0 [
  fld UINT64 "InitialApicId";
  fld UINT64 "Rax";
  fld UINT64 "Rbx";
  fld UINT64 "Rcx";
  fld UINT64 "Rdx";
  fld UINT64 "Rsi";
  fld UINT64 "Rdi";
  fld UINT64 "Rbp";
  fld UINT64 "Rsp";
  fld UINT64 "R8";
  fld UINT64 "R9";
  fld UINT64 "R10";
  fld UINT64 "R11";
  fld UINT64 "R12";
  fld UINT64 "R13";
  fld UINT64 "R14";
  fld UINT64 "R15";
  fld UINT64 "Rip";
  fld UINT64 "Rflags";
  fld UINT64 "Cr0";
  fld UINT64 "Cr2";
  fld UINT64 "Cr3";
  fld UINT64 "Cr4";
  fld UINT64 "Cr8";
  fld UINT64 "Efer";
  fld UINT64 "Xfem";
  fld UINT64 "Dr0";
  fld UINT64 "Dr1";
  fld UINT64 "Dr2";
  fld UINT64 "Dr3";
  fld UINT64 "Dr6";
  fld UINT64 "Dr7";
  fld HV_X64_TABLE_REGISTER "Idtr";
  fld HV_X64_TABLE_REGISTER "Gdtr";
  fld HV_X64_SEGMENT_REGISTER "Cs";
  fld HV_X64_SEGMENT_REGISTER "Ds";
  fld HV_X64_SEGMENT_REGISTER "Es";
  fld HV_X64_SEGMENT_REGISTER "Fs";
  fld HV_X64_SEGMENT_REGISTER "Gs";
  fld HV_X64_SEGMENT_REGISTER "Ss";
  fld HV_X64_SEGMENT_REGISTER "Tr";
  fld HV_X64_SEGMENT_REGISTER "Ldtr";
  fld UINT64 "KernelGsBase";
  fld UINT64 "Star";
  fld UINT64 "Lstar";
  fld UINT64 "Cstar";
  fld UINT64 "Sfmask";
  fld UINT64 "SysenterCs";
  fld UINT64 "SysenterEip";
  fld UINT64 "SysenterEsp";
  fld UINT64 "MsrCrPat";
  fld UINT32 "LocalApicId";
  fld UINT32 "LocalApicVersion";
  fld UINT32 "LocalApicLdr";
  fld UINT32 "LocalApicDfr";
  fld UINT32 "LocalApicSpurious";
  fld UINT32 "LocalApicIcrLow";
  fld UINT32 "LocalApicIcrHigh";
  fld (CArr UINT32 8) "LocalApicIsr";
  fld (CArr UINT32 8) "LocalApicTmr";
  fld UINT32 "LocalApicLvtTimer";
  fld UINT32 "LocalApicLvtPerfmon";
  fld UINT32 "LocalApicLvtLint0";
  fld UINT32 "LocalApicLvtLint1";
  fld UINT32 "LocalApicCurrentCount";
  fld UINT32 "LocalApicInitialCount";
  fld UINT32 "LocalApicDivider";
  fld UINT64 "LocalApicBaseMsr";
  fld (union 0 [
    fld HV_X64_FX_REGISTERS "FxRegisters";
    fld HV_X64_X_REGISTERS "XRegisters"]) anonymous].
Definition HV_VIRTUAL_PROCESSOR_REGISTERS_VERSION : Z := 1.
Definition HV_VP_CONTEXT : cty := struct 0 [
  fld (union 0 [
    fld (struct 0 [
      fld UINT32 "Version";
      fld (enum_type HV_ARCHITECTURE) "Architecture";
      fld (union 0 [
        fld HV_X64_CONTEXT "x64"]) anonymous]) anonymous]) anonymous].
Definition HV_STATISTICS_GROUP_TYPE : cty := UINT16.
Definition HV_STATISTICS_GROUP_LENGTH : cty := UINT16.
Definition HV_STATISTICS_GROUP_VERSION : cty := struct 0 [
  fld UINT16 "Minor";
  fld UINT16 "Major"].
Definition HV_STATISTICS_GROUP_HEADER : cty := aligned 2 (struct 0 [
  fld HV_STATISTICS_GROUP_TYPE "Type";
  fld HV_STATISTICS_GROUP_VERSION "Version";
  fld HV_STATISTICS_GROUP_LENGTH "Length"]).
Definition HV_STATISTICS_GROUP_END_OF_LIST : Z := 0.
Definition HV_STATISTICS_GROUP_END_OF_PAGE : Z := 1.
Definition HV_STATISTICS_GROUP_HYPERCALL_BASED : Z := 15.
Definition HV_STATISTICS_GROUP_HVA_ID : Z := 2.
Definition HV_STATISTICS_GROUP_HVA_VERSION : Z := 0x00010000.
Definition HV_STATISTICS_GROUP_HVV_ID : Z := 3.
Definition HV_STATISTICS_GROUP_HVV_VERSION : Z := 0x00010000.
Definition HV_STATISTICS_GROUP_HVI_ID : Z := 14.
Definition HV_STATISTICS_GROUP_HVI_VERSION : Z := 0x00010000.
Definition HV_STATISTICS_GROUP_LPA_ID : Z := 2.
Definition HV_STATISTICS_GROUP_LPA_VERSION : Z := 0x00010000.
Definition HV_STATISTICS_GROUP_LPV_ID : Z := 3.
Definition HV_STATISTICS_GROUP_LPV_VERSION : Z := 0x00010000.
Definition HV_STATISTICS_GROUP_LPI_ID : Z := 14.
Definition HV_STATISTICS_GROUP_LPI_VERSION : Z := 0x00010000.
Definition HV_STATISTICS_GROUP_PTA_ID : Z := 2.
Definition HV_STATISTICS_GROUP_PTA_VERSION : Z := 0x00010000.
Definition HV_STATISTICS_GROUP_PTV_ID : Z := 3.
Definition HV_STATISTICS_GROUP_PTV_VERSION : Z := 0x00010000.
Definition HV_STATISTICS_GROUP_PTI_ID : Z := 14.
Definition HV_STATISTICS_GROUP_PTI_VERSION : Z := 0x00010000.
Definition HV_STATISTICS_GROUP_VPA_ID : Z := 2.
Definition HV_STATISTICS_GROUP_VPA_VERSION : Z := 0x00010000.
Definition HV_STATISTICS_GROUP_VPV_ID : Z := 3.
Definition HV_STATISTICS_GROUP_VPV_VERSION : Z := 0x00010000.
Definition HV_STATISTICS_GROUP_VPI_ID : Z := 14.
Definition HV_STATISTICS_GROUP_VPI_VERSION : Z := 0x00010000.
Definition HV_ST_MAX_COUNTERS_PER_GROUP : Z := (HV_PAGE_SIZE - (2 * (sizeof SysV
  HV_STATISTICS_GROUP_HEADER))) / (sizeof SysV UINT64).
Definition HV_STATS_PAGE : cty := struct 0 [
  fld (CArr UINT64 (HV_PAGE_SIZE / (sizeof SysV UINT64))) "Data"].
Definition HV_STATS_OBJECT_TYPE : enum := [
  Is "HvStatsObjectHypervisor" 0x00000001;
  Is "HvStatsObjectLogicalProcessor" 0x00000002;
  Is "HvStatsObjectPartition" 0x00010001;
  Is "HvStatsObjectVp" 0x00010002].
Definition HV_ST_MAP_LOCATION : cty := union 0 [
  fld UINT64 "AsUINT64";
  fld (struct 0 [
    bit UINT64 "MapEnabled" 1;
    bit UINT64 "ReservedP" 11;
    bit UINT64 "BaseMapGpaPageNumber" 52]) anonymous].
Definition HV_HYPERVISOR_COUNTER : enum := [
  Is "StHvCounterLogicalProcessors" 1;
  Is "StHvCounterPartitions" 2;
  Is "StHvCounterTotalPages" 3;
  Is "StHvCounterVirtualProcessors" 4;
  Is "StHvCounterMonitoredNotifications" 5;
  Is "StCounterHvLogicalProcessors" 0x1;
  Is "StCounterHvPartitions" 0x2;
  Is "StCounterHvTotalPages" 0x3;
  Is "StCounterHvVirtualProcessors" 0x4;
  Is "StCounterHvMonitoredNotifications" 0x5;
  Is "StCounterHvModernStandbyEntries" 0x6;
  Is "StCounterHvPlatformIdleTransitions" 0x7;
  Is "StCounterHvHypervisorStartupCost" 0x8;
  Is "StCounterHvIOSpacePages" 0xa;
  Is "StCounterHvNonEssentialPagesForDump" 0xb;
  Is "StCounterHvSubsumedPages" 0xc;
  Is "StCounterHvMAXIMUM" 0xd].
Definition HV_STATISTICS_GROUP_HVA_LENGTH : Z := 40.
Definition HV_STATISTICS_GROUP_HVV_LENGTH : Z := 0.
Definition HV_CPU_COUNTER : enum := [
  Is "StLpCounterGlobalTime" 1;
  Is "StLpCounterTotalRunTime" 2;
  Is "StLpCounterHypervisorRunTime" 3;
  Is "StLpCounterHardwareInterrupts" 4;
  Is "StLpCounterContextSwitches" 5;
  Is "StLpCounterInterProcessorInterrupts" 6;
  Is "StLpCounterSchedulerInterrupts" 7;
  Is "StLpCounterTimerInterrupts" 8;
  Is "StLpCounterInterProcessorInterruptsSent" 9;
  Is "StLpCounterProcessorHalts" 10;
  Is "StLpCounterMonitorTransitionCost" 11;
  Is "StLpCounterContextSwitchTime" 12;
  Is "StLpCounterC1TransitionsCount" 13;
  Is "StLpCounterC1RunTime" 14;
  Is "StLpCounterC2TransitionsCount" 15;
  Is "StLpCounterC2RunTime" 16;
  Is "StLpCounterC3TransitionsCount" 17;
  Is "StLpCounterC3RunTime" 18;
  Next "StLpCounterMAXIMUM";
  Is "StCounterLpGlobalTime" 0x1;
  Is "StCounterLpTotalRunTime" 0x2;
  Is "StCounterLpHypervisorRunTime" 0x3;
  Is "StCounterLpHardwareInterrupts" 0x4;
  Is "StCounterLpContextSwitches" 0x5;
  Is "StCounterLpInterProcessorInterrupts" 0x6;
  Is "StCounterLpSchedulerInterrupts" 0x7;
  Is "StCounterLpTimerInterrupts" 0x8;
  Is "StCounterLpInterProcessorInterruptsSent" 0x9;
  Is "StCounterLpProcessorHalts" 0xa;
  Is "StCounterLpMonitorTransitionCost" 0xb;
  Is "StCounterLpContextSwitchTime" 0xc;
  Is "StCounterLpC1TransitionsCount" 0xd;
  Is "StCounterLpC1RunTime" 0xe;
  Is "StCounterLpC2TransitionsCount" 0xf;
  Is "StCounterLpC2RunTime" 0x10;
  Is "StCounterLpC3TransitionsCount" 0x11;
  Is "StCounterLpC3RunTime" 0x12;
  Is "StCounterLpRootVpIndex" 0x13;
  Is "StCounterLpIdleSequenceNumber" 0x14;
  Is "StCounterLpGlobalTscCount" 0x15;
  Is "StCounterLpActiveTscCount" 0x16;
  Is "StCounterLpIdleAccumulation" 0x17;
  Is "StCounterLpReferenceCycleCount0" 0x18;
  Is "StCounterLpActualCycleCount0" 0x19;
  Is "StCounterLpReferenceCycleCount1" 0x1a;
  Is "StCounterLpActualCycleCount1" 0x1b;
  Is "StCounterLpProximityDomainId" 0x1c;
  Is "StCounterLpPostedInterruptNotifications" 0x1d;
  Is "StCounterLpBranchPredictorFlushes" 0x1e;
  Is "StCounterLpCounterRefreshSequenceNumber" 0x1f;
  Is "StCounterLpCounterRefreshReferenceTime" 0x20;
  Is "StCounterLpIdleAccumulationSnapshot" 0x21;
  Is "StCounterLpActiveTscCountSnapshot" 0x22;
  Is "StCounterLpHwpRequestContextSwitches" 0x23;
  Is "StCounterLpPlaceholder2" 0x24;
  Is "StCounterLpPlaceholder3" 0x25;
  Is "StCounterLpPlaceholder4" 0x26;
  Is "StCounterLpPlaceholder5" 0x27;
  Is "StCounterLpPlaceholder6" 0x28;
  Is "StCounterLpPlaceholder7" 0x29;
  Is "StCounterLpPlaceholder8" 0x2a;
  Is "StCounterLpPlaceholder9" 0x2b;
  Is "StCounterLpSchLocalRunListSize" 0x2c;
  Is "StCounterLpReserveGroupId" 0x2d;
  Is "StCounterLpRunningPriority" 0x2e;
  Is "StCounterLpMAXIMUM" 0x2f].
Definition HV_STATISTICS_GROUP_LPA_LENGTH : Z := 144.
Definition HV_STATISTICS_GROUP_LPV_LENGTH : Z := 0.
Definition HV_PROCESS_COUNTER : enum := [
  Is "StPtCounterVirtualProcessors" 1;
  Is "StPtCounterTlbSize" 3;
  Is "StPtCounterAddressSpaces" 4;
  Is "StPtCounterDepositedPages" 5;
  Is "StPtCounterGpaPages" 6;
  Is "StPtCounterGpaSpaceModifications" 7;
  Is "StPtCounterVirtualTlbFlushEntires" 8;
  Is "StPtCounterRecommendedTlbSize" 9;
  Is "StPtCounterGpaPages4K" 10;
  Is "StPtCounterGpaPages2M" 11;
  Is "StPtCounterGpaPages1G" 12;
  Is "StPtCounterGpaPages512G" 13;
  Next "StPtCounterMAXIMUM";
  Is "StCounterPtVirtualProcessors" 0x1;
  Is "StCounterPtTlbSize" 0x3;
  Is "StCounterPtAddressSpaces" 0x4;
  Is "StCounterPtDepositedPages" 0x5;
  Is "StCounterPtGpaPages" 0x6;
  Is "StCounterPtGpaSpaceModifications" 0x7;
  Is "StCounterPtVirtualTlbFlushEntires" 0x8;
  Is "StCounterPtRecommendedTlbSize" 0x9;
  Is "StCounterPtGpaPages4K" 0xa;
  Is "StCounterPtGpaPages2M" 0xb;
  Is "StCounterPtGpaPages1G" 0xc;
  Is "StCounterPtGpaPages512G" 0xd;
  Is "StCounterPtDevicePages4K" 0xe;
  Is "StCounterPtDevicePages2M" 0xf;
  Is "StCounterPtDevicePages1G" 0x10;
  Is "StCounterPtDevicePages512G" 0x11;
  Is "StCounterPtAttachedDevices" 0x12;
  Is "StCounterPtDeviceInterruptMappings" 0x13;
  Is "StCounterPtIoTlbFlushes" 0x14;
  Is "StCounterPtIoTlbFlushCost" 0x15;
  Is "StCounterPtDeviceInterruptErrors" 0x16;
  Is "StCounterPtDeviceDmaErrors" 0x17;
  Is "StCounterPtDeviceInterruptThrottleEvents" 0x18;
  Is "StCounterPtSkippedTimerTicks" 0x19;
  Is "StCounterPtPartitionId" 0x1a;
  Is "StCounterPtHwpRequestValue" 0x1b;
  Is "StCounterPtMAXIMUM" 0x1c].
Definition HV_STATISTICS_GROUP_PTA_LENGTH : Z := 8.
Definition HV_STATISTICS_GROUP_PTV_LENGTH : Z := 88.
Definition HV_THREAD_COUNTER : enum := [
  Is "StVpCounterTotalRunTime" 1;
  Is "StVpCounterHypervisorRunTime" 2;
  Is "StVpCounterHypercallsCount" 4;
  Is "StVpCounterHypercallsTime" 5;
  Is "StVpCounterPageInvalidationsCount" 6;
  Is "StVpCounterPageInvalidationsTime" 7;
  Is "StVpCounterControlRegisterAccessesCount" 8;
  Is "StVpCounterControlRegisterAccessesTime" 9;
  Is "StVpCounterIoInstructionsCount" 10;
  Is "StVpCounterIoInstructionsTime" 11;
  Is "StVpCounterHltInstructionsCount" 12;
  Is "StVpCounterHltInstructionsTime" 13;
  Is "StVpCounterMwaitInstructionsCount" 14;
  Is "StVpCounterMwaitInstructionsTime" 15;
  Is "StVpCounterCpuidInstructionsCount" 16;
  Is "StVpCounterCpuidInstructionsTime" 17;
  Is "StVpCounterMsrAccessesCount" 18;
  Is "StVpCounterMsrAccessesTime" 19;
  Is "StVpCounterOtherInterceptsCount" 20;
  Is "StVpCounterOtherInterceptsTime" 21;
  Is "StVpCounterExternalInterruptsCount" 22;
  Is "StVpCounterExternalInterruptsTime" 23;
  Is "StVpCounterPendingInterruptsCount" 24;
  Is "StVpCounterPendingInterruptsTime" 25;
  Is "StVpCounterEmulatedInstructionsCount" 26;
  Is "StVpCounterEmulatedInstructionsTime" 27;
  Is "StVpCounterDebugRegisterAccessesCount" 28;
  Is "StVpCounterDebugRegisterAccessesTime" 29;
  Is "StVpCounterPageFaultInterceptsCount" 30;
  Is "StVpCounterPageFaultInterceptsTime" 31;
  Is "StVpCounterGuestPageTableMaps" 32;
  Is "StVpCounterLargePageTlbFills" 33;
  Is "StVpCounterSmallPageTlbFills" 34;
  Is "StVpCounterReflectedGuestPageFaults" 35;
  Is "StVpCounterApicMmioAccesses" 36;
  Is "StVpCounterIoInterceptMessages" 37;
  Is "StVpCounterMemoryInterceptMessages" 38;
  Is "StVpCounterApicEoiAccesses" 39;
  Is "StVpCounterOtherMessages" 40;
  Is "StVpCounterPageTableAllocations" 41;
  Is "StVpCounterLogicalProcessorMigrations" 42;
  Is "StVpCounterAddressSpaceEvictions" 43;
  Is "StVpCounterAddressSpaceSwitches" 44;
  Is "StVpCounterAddressDomainFlushes" 45;
  Is "StVpCounterAddressSpaceFlushes" 46;
  Is "StVpCounterGlobalGvaRangeFlushes" 47;
  Is "StVpCounterLocalGvaRangeFlushes" 48;
  Is "StVpCounterPageTableEvictions" 49;
  Is "StVpCounterPageTableReclamations" 50;
  Is "StVpCounterPageTableResets" 51;
  Is "StVpCounterPageTableValidations" 52;
  Is "StVpCounterApicTprAccesses" 53;
  Is "StVpCounterPageTableWriteIntercepts" 54;
  Is "StVpCounterSyntheticInterrupts" 55;
  Is "StVpCounterVirtualInterrupts" 56;
  Is "StVpCounterApicIpisSent" 57;
  Is "StVpCounterApicSelfIpisSent" 58;
  Is "StVpCounterGpaSpaceHypercalls" 59;
  Is "StVpCounterLogicalProcessorHypercalls" 60;
  Is "StVpCounterLongSpinWaitHypercalls" 61;
  Is "StVpCounterOtherHypercalls" 62;
  Is "StVpCounterSyntheticInterruptHypercalls" 63;
  Is "StVpCounterVirtualInterruptHypercalls" 64;
  Is "StVpCounterVirtualMmuHypercalls" 65;
  Is "StVpCounterVirtualProcessorHypercalls" 66;
  Next "StVpCounterMAXIMUM"].
Definition HV_STATISTICS_GROUP_VPA_LENGTH : Z := 16.
Definition HV_STATISTICS_GROUP_VPV_LENGTH : Z := 504.
Definition HV_TIME_STAMP : cty := UINT64.
Definition HV_LOGICAL_PROCESSOR_INDEX : cty := UINT32.
Definition HV_X64_PPM_IDLE_STATE_CHANGE_METHOD : enum := [
  Next "HvX64PowerChangeIssueHlt";
  Next "HvX64PowerChangeReadIoThenIssueHlt";
  Next "HvX64PowerChangeReadIo";
  Next "HvX64PowerChangeIssueMwait"].
Definition HV_INTERRUPT_TYPE : enum := [
  Is "HvX64InterruptTypeFixed" 0x0000;
  Is "HvX64InterruptTypeLowestPriority" 0x0001;
  Is "HvX64InterruptTypeSmi" 0x0002;
  Is "HvX64InterruptTypeRemoteRead" 0x0003;
  Is "HvX64InterruptTypeNmi" 0x0004;
  Is "HvX64InterruptTypeInit" 0x0005;
  Is "HvX64InterruptTypeSipi" 0x0006;
  Is "HvX64InterruptTypeExtInt" 0x0007;
  Is "HvX64InterruptTypeLocalInt0" 0x0008;
  Is "HvX64InterruptTypeLocalInt1" 0x0009;
  Is "HvX64InterruptTypeMaximum" 0x000a].
Definition HV_INTERRUPT_VECTOR : cty := UINT32.
Definition HV_INTERRUPT_VECTOR_NONE : Z := 0xffffffff.
Definition HV_PROFILE_SOURCE_1 : enum := [
  Next "HvProfileInvalid";
  Is "HvProfileCyclesNotHalted" 1;
  Next "HvProfileCacheMisses";
  Next "HvProfileBranchMispredictions";
  Is "HvProfileDispatchedFPUOps" 64;
  Next "HvProfileCyclesNoFPUOpsRetired";
  Next "HvProfileDispathedFPUOpsWithFastFlag";
  Next "HvProfileRetiredSSEOps";
  Next "HvProfileRetiredMoveOps";
  Next "HvProfileSegmentRegisterLoad";
  Next "HvProfileResyncBySelfModifyingCode";
  Next "HvProfileResyncBySnoop";
  Next "HvProfileBuffer2Full";
  Next "HvProfileLockedOperation";
  Next "HvProfileRetiredCLFLUSH";
  Next "HvProfileRetiredCPUID";
  Next "HvProfileLSDispatch";
  Next "HvProfileCancelledStoreToLoadFwdOperations";
  Next "HvProfileSMIReceived";
  Next "HvProfileDataAccess";
  Next "HvProfileDataMiss";
  Next "HvProfileDCRefillFromL2";
  Next "HvProfileDCRefillFromSystem";
  Next "HvProfileDCRefillCopyBack";
  Next "HvProfileDCL1DTLBMissL2DTLBHit";
  Next "HvProfileDCL1DTLBMissL2DTLBMiss";
  Next "HvProfileDCMisalignedDataReference";
  Next "HvProfileDCLateCancelOfAnAccess";
  Next "HvProfileDCEarlyCancelOfAnAccess";
  Next "HvProfileDCOneBitECCError";
  Next "HvProfileDCDispatchedPrefetchInstructions";
  Next "HvProfileDCacheMissByLockedInstructions";
  Next "HvProfileL1DTLBHit";
  Next "HvProfileL1DTLBReloadLatency";
  Next "HvProfileIneffectiveSoftwarePrefetches";
  Next "HvProfileGlobalTLBFlushes";
  Next "HvProfileRetiredINVLPGAndINVLPGA";
  Next "HvProfileMemoryAccessesToUC";
  Next "HvProfileMemoryAccessesToWCAndWCBufferFlushToWB";
  Next "HvProfileStreamStoreToWB";
  Next "HvProfileDataPrefetchCancelled";
  Next "HvProfileDataPrefetchAttempts";
  Next "HvProfileMABRequests";
  Next "HvProfileNBReadResponsesForForCacheRefill";
  Next "HvProfileOctwordsWriitenToSystem";
  Next "HvProfilePageTableWalkerPDPERefillHitInL2";
  Next "HvProfilePageTableWalkerPDPELookupMissedInPDC";
  Next "HvProfilePageTableWalkerPML4ERefillHitInL2";
  Next "HvProfilePageTableWalkerPML4ELookupMissedInPDC";
  Next "HvProfilePageTableWalkerPTERefillHitInL2";
  Next "HvProfilePageTableWalkerPDERefillHitInL2";
  Next "HvProfilePageTableWalkerPDELookupMissedInPDC";
  Next "HvProfilePageTableWalkerPDELookupInPDC";
  Next "HvProfileProbeHits";
  Next "HvProfileCacheCrossInvalidates";
  Next "HvProfileTLBFlushEvents";
  Next "HvProfileL2Request";
  Next "HvProfileL2CacheMisses";
  Next "HvProfileL2CacheMissesICFill";
  Next "HvProfileL2CacheMissesDCFill";
  Next "HvProfileL2CacheMissesTLBPageTableWalk";
  Next "HvProfileL2Fill";
  Next "HvProfileICFetch";
  Next "HvProfileICMiss";
  Next "HvProfileICRefillFromL2";
  Next "HvProfileICRefillFromSystem";
  Next "HvProfileICL1TLBMissL2TLBHit";
  Next "HvProfileICL1TLBMissL2TLBMiss";
  Next "HvProfileICResyncBySnoop";
  Next "HvProfileICInstructionFetchStall";
  Next "HvProfileICReturnStackHit";
  Next "HvProfileICReturnStackOverflow";
  Next "HvProfileInstructionCacheVictims";
  Next "HvProfileInstructionCacheLinesInvalidated";
  Next "HvProfileITLBReloads";
  Next "HvProfileITLBReloadsAborted";
  Next "HvProfileRetiredInstructions";
  Next "HvProfileRetireduops";
  Next "HvProfileRetiredBranches";
  Next "HvProfileRetiredBranchesMispredicted";
  Next "HvProfileTakenBranches";
  Next "HvProfileTakenBranchesMispredicted";
  Next "HvProfileRetiredFarControlTransfers";
  Next "HvProfileRetiredResyncsNonControlTransferBranches";
  Next "HvProfileRetiredNearReturns";
  Next "HvProfileRetiredNearReturnsMispredicted";
  Next "HvProfileTakenBranchesMispredictedByAddressMiscompare";
  Next "HvProfileRetiredFPUInstructions";
  Next "HvProfileRetiredFastpathDoubleOpInstructions";
  Next "HvProfileInterruptsMaskedCycles";
  Next "HvProfileInterruptsMaskedWhilePendingCycles";
  Next "HvProfileTakenHardwareInterrupts";
  Next "HvProfileNothingToDispatch";
  Next "HvProfileDispatchStalls";
  Next "HvProfileDispatchStallsFromBranchAbortToRetire";
  Next "HvProfileDispatchStallsForSerialization";
  Next "HvProfileDispatchStallsForSegmentLoad";
  Next "HvProfileDispatchStallsWhenReorderBufferFull";
  Next "HvProfileDispatchStallsWhenReservationStationsFull";
  Next "HvProfileDispatchStallsWhenFPUFull";
  Next "HvProfileDispatchStallsWhenLSFull";
  Next "HvProfileDispatchStallsWhenWaitingForAllQuiet";
  Next "HvProfileDispatchStallsWhenFarControlOrResyncBranchPending";
  Next "HvProfileFPUExceptions";
  Next "HvProfileNumberOfBreakPointsForDR0";
  Next "HvProfileNumberOfBreakPointsForDR1";
  Next "HvProfileNumberOfBreakPointsForDR2";
  Next "HvProfileNumberOfBreakPointsForDR3";
  Next "HvProfileDRAMAccess";
  Next "HvProfileDRAMPageTableOverflow";
  Next "HvProfileDRAMDRAMCommandSlotsMissed";
  Next "HvProfileMemoryControllerTurnAround";
  Next "HvProfileMemoryControllerBypassCounter";
  Next "HvProfileSizedCommands";
  Next "HvProfileProbeResult";
  Next "HvProfileUpstreamRequest";
  Next "HvProfileHyperTransportBus0Bandwidth";
  Next "HvProfileHyperTransportBus1Bandwidth";
  Next "HvProfileHyperTransportBus2Bandwidth";
  Next "HvProfileGuestTLBMissesAndInvalidates";
  Next "HvProfileGuestTLBMisses";
  Next "HvProfileGuestTLBInvalidates";
  Next "HvProfileHostPageLargerThanGuestPage_RevC";
  Next "HvProfilePageSizeMismatchCausedByMTRR_RevC";
  Next "HvProfileGuestPageLargerThanHostPage_RevC";
  Next "HvProfileInterruptChecks";
  Next "HvProfileRetiredLFENCE";
  Next "HvProfileRetiredSFENCE";
  Next "HvProfileRetiredMFENCE";
  Next "HvProfileCPUToDRAMRequestsLocalToNode0";
  Next "HvProfileCPUToDRAMRequestsLocalToNode1";
  Next "HvProfileCPUToDRAMRequestsLocalToNode2";
  Next "HvProfileCPUToDRAMRequestsLocalToNode3";
  Next "HvProfileCPUToDRAMRequestsLocalToNode4";
  Next "HvProfileCPUToDRAMRequestsLocalToNode5";
  Next "HvProfileCPUToDRAMRequestsLocalToNode6";
  Next "HvProfileCPUToDRAMRequestsLocalToNode7";
  Next "HvProfileIOToDRAMRequestsLocalToNode0"].
Definition HV_PROFILE_SOURCE_2 : enum := [
  Next "HvProfileIOToDRAMRequestsLocalToNode1";
  Next "HvProfileIOToDRAMRequestsLocalToNode2";
  Next "HvProfileIOToDRAMRequestsLocalToNode3";
  Next "HvProfileIOToDRAMRequestsLocalToNode4";
  Next "HvProfileIOToDRAMRequestsLocalToNode5";
  Next "HvProfileIOToDRAMRequestsLocalToNode6";
  Next "HvProfileIOToDRAMRequestsLocalToNode7";
  Next "HvProfileCPURequestsToAPIC";
  Is "HvProfileInstructionsRetired" 512;
  Next "HvProfileUnhaltedReferenceCycles";
  Next "HvProfileLLCReference";
  Next "HvProfileLLCMisses";
  Next "HvProfileBranchInstuctionRetired";
  Next "HvProfileBranchMispredict"].
Definition HV_PROFILE_SOURCE : enum := HV_PROFILE_SOURCE_1 ++ HV_PROFILE_SOURCE_2.
Definition HV_PROXIMITY_DOMAIN_ID : cty := UINT32.
Definition HV_PROXIMITY_DOMAIN_FLAGS : cty := struct 0 [
  bit UINT32 "ProximityPreferred" 1;
  bit UINT32 "Reserved" 30;
  bit UINT32 "ProximityInfoValid" 1].
Definition HV_PROXIMITY_DOMAIN_INFO : cty := struct 0 [
  fld HV_PROXIMITY_DOMAIN_ID "Id";
  fld HV_PROXIMITY_DOMAIN_FLAGS "Flags"].
Definition HV_PROCESSOR_HW_ID : cty := UINT64.
Definition HV_PROCESSOR_INFO : cty := struct 0 [
  fld UINT32 "LocalApicId";
  fld HV_PROXIMITY_DOMAIN_ID "ProximityDomainId"].
Definition HV_MEMORY_RANGE_INFO : cty := struct 0 [
  fld HV_SPA "BaseAddress";
  fld UINT64 "Length";
  fld (union 0 [
    fld HV_PROXIMITY_DOMAIN_ID "ProximityDomainId";
    fld (union 0 [
      fld UINT8 "AsUINT8";
      fld (struct 0 [
        bit UINT8 "IsRam" 1;
        bit UINT8 "IsNonRootRam" 1;
        bit UINT8 "IsHotAddableRam" 1;
        bit UINT8 "IsBadRam" 1;
        bit UINT8 "Reserved" 4]) anonymous]) "Attributes"]) anonymous].
Definition HV_EVENTLOG_BUFFER_INDEX_NONE : Z := 0xffffffff.
Definition HV_EVENTLOG_TYPE_PRIVATE : enum := [
  Is "HvEventLogTypeSystemDiagnostics" 0x00000002].
Definition HV_EVENTLOG_BUFFER_STATE : enum := [
  Is "HvEventLogBufferStateStandby" 0x0;
  Is "HvEventLogBufferStateFree" 0x1;
  Is "HvEventLogBufferStateInUse" 0x2;
  Is "HvEventLogBufferStateComplete" 0x3;
  Is "HvEventLogBufferStateReady" 0x4;
  Is "HvEventLogBufferStateUnmapping" 0x5;
  Is "HvEventLogBufferStateDeleting" 0x6;
  Is "HvEventLogBufferStateProcessorListInUse" 0x7].
Definition HV_EVENTLOG_ENTRY_TIME_BASIS : enum := [
  Is "HvEventLogEntryTimeReference" 0x0;
  Is "HvEventLogEntryTimeTsc" 0x1;
  Is "HvEventLogEntryTimeQpc" 0x2].
Definition HV_EVENTLOG_ENTRY_TIME : cty := union 0 [
  fld HV_NANO100_TIME "ReferenceTime";
  fld HV_TIME_STAMP "TimeStamp"].
Definition HV_EVENTLOG_BUFFER_HEADER : cty := struct 0 [
  fld UINT32 "BufferSize";
  fld HV_EVENTLOG_BUFFER_INDEX "BufferIndex";
  fld UINT32 "EventsLost";
  fld UINT32 "ReferenceCounter";
  fld (union 0 [
    fld HV_TIME_STAMP "TimeStamp";
    fld HV_NANO100_TIME "ReferenceTime"]) anonymous;
  fld UINT64 "Reserved1";
  fld UINT64 "Reserved2";
  fld UINT16 "LogicalProcessor";
  fld UINT16 "LoggerId";
  fld (enum_type HV_EVENTLOG_BUFFER_STATE) "BufferState";
  fld UINT32 "NextBufferOffset";
  fld (union 0 [
    fld (enum_type HV_EVENTLOG_TYPE) "Type";
    fld (struct 0 [
      fld UINT16 "BufferFlag";
      fld UINT16 "BufferType"]) anonymous]) anonymous;
  fld HV_EVENTLOG_BUFFER_INDEX "NextBufferIndex";
  fld UINT32 "LpSequenceNumber";
  fld (CArr UINT32 2) "Reserved4"].
Definition HV_EVENTLOG_ENTRY_HEADER : cty := struct 0 [
  fld UINT32 "Context";
  fld UINT16 "Size";
  fld UINT16 "Type";
  fld (union 0 [
    fld HV_TIME_STAMP "TimeStamp";
    fld HV_NANO100_TIME "ReferenceTime"]) anonymous].
Definition HV_TR_EVENTLOG_GROUP_HYPERVISOR : Z := 0x1d00.
Definition HV_TR_EVENTLOG_GROUP_HYPERVISORX : Z := 0x1e00.
Definition HV_TR_GROUP_NONE : Z := 0x0000000000000000.
Definition HV_EVENTLOG_ENABLE_AUDIT_SUCCESS : Z := 0x0000000000000001.
Definition HV_EVENTLOG_ENABLE_AUDIT_FAILURE : Z := 0x0000000000000002.
Definition HV_EVENTLOG_ENABLE_PARTITION : Z := 0x0000000000000004.
Definition HV_EVENTLOG_ENABLE_TEST : Z := 0x8000000000000000.
Definition HV_TR_GROUP_ADMIN : Z := 0x0000000000000001.
Definition HV_TR_GROUP_DIAG : Z := 0x0000000000000002.
Definition HV_TR_GROUP_WARN : Z := 0x0000000000000003.
Definition HV_TR_GROUP_BM : Z := 0x0000000000000100.
Definition HV_TR_GROUP_DM : Z := 0x0000000000000200.
Definition HV_TR_GROUP_HC : Z := 0x0000000000000400.
Definition HV_TR_GROUP_IM : Z := 0x0000000000000800.
Definition HV_TR_GROUP_IC : Z := 0x0000000000001000.
Definition HV_TR_GROUP_OB : Z := 0x0000000000002000.
Definition HV_TR_GROUP_PT : Z := 0x0000000000004000.
Definition HV_TR_GROUP_VP : Z := 0x0000000000008000.
Definition HV_TR_GROUP_SYNIC : Z := 0x0000000000010000.
Definition HV_TR_GROUP_SYNIC_TI : Z := 0x0000000000020000.
Definition HV_TR_GROUP_AM_GVA : Z := 0x0000000000040000.
Definition HV_TR_GROUP_AM : Z := 0x0000000000080000.
Definition HV_TR_GROUP_VAL : Z := 0x0000000000100000.
Definition HV_TR_GROUP_VM : Z := 0x0000000000200000.
Definition HV_TR_GROUP_SCH : Z := 0x0000000000400000.
Definition HV_TR_GROUP_TH : Z := 0x0000000000800000.
Definition HV_TR_GROUP_TI : Z := 0x0000000001000000.
Definition HV_TR_GROUP_KE : Z := 0x0000000002000000.
Definition HV_TR_GROUP_MM : Z := 0x0000000004000000.
Definition HV_TR_GROUP_PROFILER : Z := 0x0000000008000000.
Definition HV_TR_ALL_GROUPS : Z := Z.lor (Z.lor (Z.lor (Z.lor (Z.lor (Z.lor (Z.lor (Z.lor (Z.lor
  (Z.lor (Z.lor (Z.lor (Z.lor (Z.lor (Z.lor (Z.lor (Z.lor (Z.lor (Z.lor HV_TR_GROUP_BM
  HV_TR_GROUP_DM) HV_TR_GROUP_HC) HV_TR_GROUP_IM) HV_TR_GROUP_IC) HV_TR_GROUP_OB) HV_TR_GROUP_PT)
  HV_TR_GROUP_VP) HV_TR_GROUP_SYNIC) HV_TR_GROUP_SYNIC_TI) HV_TR_GROUP_AM_GVA) HV_TR_GROUP_AM)
  HV_TR_GROUP_VAL) HV_TR_GROUP_VM) HV_TR_GROUP_SCH) HV_TR_GROUP_TH) HV_TR_GROUP_TI) HV_TR_GROUP_KE)
  HV_TR_GROUP_MM) HV_TR_GROUP_PROFILER.
Definition HV_TR_IS_GROUP_RETAIL (_Group_ : Z) : bool := ((0 <? (u64 _Group_)) && (negb ((Z.land
  (u64 _Group_) HV_TR_ALL_GROUPS) =? 0))) && ((Z.land (u64 _Group_) ((u64 _Group_) - 1)) =? 0).
Definition HV_TR_GROUP_BM_INTERNAL : Z := 0x0000010000000000.
Definition HV_TR_GROUP_DM_INTERNAL : Z := 0x0000020000000000.
Definition HV_TR_GROUP_HC_INTERNAL : Z := 0x0000040000000000.
Definition HV_TR_GROUP_IM_INTERNAL : Z := 0x0000080000000000.
Definition HV_TR_GROUP_IC_INTERNAL : Z := 0x0000100000000000.
Definition HV_TR_GROUP_OB_INTERNAL : Z := 0x0000200000000000.
Definition HV_TR_GROUP_PT_INTERNAL : Z := 0x0000400000000000.
Definition HV_TR_GROUP_VP_INTERNAL : Z := 0x0000800000000000.
Definition HV_TR_GROUP_SYNIC_INTERNAL : Z := 0x0001000000000000.
Definition HV_TR_GROUP_SYNIC_TI_INTERNAL : Z := 0x0002000000000000.
Definition HV_TR_GROUP_AM_GVA_INTERNAL : Z := 0x0004000000000000.
Definition HV_TR_GROUP_AM_INTERNAL : Z := 0x0008000000000000.
Definition HV_TR_GROUP_VAL_INTERNAL : Z := 0x0010000000000000.
Definition HV_TR_GROUP_VM_INTERNAL : Z := 0x0020000000000000.
Definition HV_TR_GROUP_SCH_INTERNAL : Z := 0x0040000000000000.
Definition HV_TR_GROUP_TH_INTERNAL : Z := 0x0080000000000000.
Definition HV_TR_GROUP_TI_INTERNAL : Z := 0x0100000000000000.
Definition HV_TR_GROUP_KE_INTERNAL : Z := 0x0200000000000000.
Definition HV_TR_GROUP_MM_INTERNAL : Z := 0x0400000000000000.
Definition HV_TR_GROUP_TF : Z := 0x1000000000000000.
Definition HV_TR_GROUP_SIMULATE_FULL : Z := 0x2000000000000000.
Definition HV_TR_GROUP_CYCLIC : Z := 0x4000000000000000.
Definition HV_TR_GROUP_ICE : Z := 0x8000000000000000.
Definition HV_TR_ALL_GROUPS_INTERNAL : Z := Z.lor (Z.lor (Z.lor (Z.lor (Z.lor (Z.lor (Z.lor (Z.lor
  (Z.lor (Z.lor (Z.lor (Z.lor (Z.lor (Z.lor (Z.lor (Z.lor (Z.lor (Z.lor (Z.lor (Z.lor (Z.lor (Z.lor
  HV_TR_GROUP_BM_INTERNAL HV_TR_GROUP_DM_INTERNAL) HV_TR_GROUP_HC_INTERNAL) HV_TR_GROUP_IM_INTERNAL)
  HV_TR_GROUP_IC_INTERNAL) HV_TR_GROUP_OB_INTERNAL) HV_TR_GROUP_PT_INTERNAL)
  HV_TR_GROUP_VP_INTERNAL) HV_TR_GROUP_SYNIC_INTERNAL) HV_TR_GROUP_SYNIC_TI_INTERNAL)
  HV_TR_GROUP_AM_GVA_INTERNAL) HV_TR_GROUP_AM_INTERNAL) HV_TR_GROUP_VAL_INTERNAL)
  HV_TR_GROUP_VM_INTERNAL) HV_TR_GROUP_SCH_INTERNAL) HV_TR_GROUP_TH_INTERNAL)
  HV_TR_GROUP_TI_INTERNAL) HV_TR_GROUP_KE_INTERNAL) HV_TR_GROUP_MM_INTERNAL) HV_TR_GROUP_TF)
  HV_TR_GROUP_SIMULATE_FULL) HV_TR_GROUP_CYCLIC) HV_TR_GROUP_ICE.
Definition HV_TR_IS_GROUP_INTERNAL (_Group_ : Z) : bool := ((0 <? (u64 _Group_)) && (negb ((Z.land
  (u64 _Group_) HV_TR_ALL_GROUPS_INTERNAL) =? 0))) && ((Z.land (u64 _Group_) ((u64 _Group_) - 1)) =?
  0).
Definition HV_EVENTLOG_OPERATIONAL_PARTITION_CREATED : Z := 0x4101.
Definition HV_EVENTLOG_OPERATIONAL_PARTITION_DELETED : Z := 0x4102.
Definition HV_EVENTLOG_OPERATIONAL_PARTITION_CREATION_FAILED : Z := 0x2103.
Definition HV_EVENTLOG_ADMIN_TEST : Z := 0x4001.
Definition HV_TR_HC_HYPERCALL : Z := 0x1a.
Definition HV_TR_IM_GUEST_EXCEPTION : Z := 0x20.
Definition HV_TR_IM_MSR_READ : Z := 0x21.
Definition HV_TR_IM_MSR_WRITE : Z := 0x22.
Definition HV_TR_IM_CR_READ : Z := 0x23.
Definition HV_TR_IM_CR_WRITE : Z := 0x24.
Definition HV_TR_IM_HLT_INSTRUCTION : Z := 0x25.
Definition HV_TR_IM_MWAIT_INSTRUCTION : Z := 0x26.
Definition HV_TR_IM_CPUID_INSTRUCTION : Z := 0x27.
Definition HV_TR_IM_IO_PORT_READ : Z := 0x28.
Definition HV_TR_IM_IO_PORT_WRITE : Z := 0x29.
Definition HV_TR_IM_EXTERNAL_INTERRUPT : Z := 0x2a.
Definition HV_TR_IM_INTERRUPT_PENDING : Z := 0x2b.
Definition HV_TR_IM_GUEST_SHUTDOWN : Z := 0x2c.
Definition HV_TR_IM_EMULATED_INSTRUCTION : Z := 0x2d.
Definition HV_TR_IM_NMI_INTERRUPT : Z := 0x2e.
Definition HV_TR_IM_INVLPG_INSTRUCTION : Z := 0x2f.
Definition HV_TR_IM_IRET_INSTRUCTION : Z := 0x30.
Definition HV_TR_IM_TASK_SWITCH : Z := 0x31.
Definition HV_TR_IM_INVD_INSTRUCTION : Z := 0x32.
Definition HV_TR_IM_DR_ACCESS : Z := 0x33.
Definition HV_TR_IM_FERR_FREEZE : Z := 0x34.
Definition HV_TR_IM_REAL_MODE_INTERRUPT : Z := 0x35.
Definition HV_TR_IM_MEMORY_INTERCEPT : Z := 0x36.
Definition HV_TR_IM_REFLECTED_EXCEPTION : Z := 0x37.
Definition HV_TR_OB_CREATE_PARTITION : Z := 0x40.
Definition HV_TR_OB_DELETE_PARTITION : Z := 0x41.
Definition HV_TR_PT_REFERENCE_TIME : Z := 0x46.
Definition HV_TR_VP_CREATE_VP : Z := 0x4b.
Definition HV_TR_VP_DELETE_VP : Z := 0x4c.
Definition HV_TR_AM_GVA_GROW_VIRTUAL_TLB : Z := 0x70.
Definition HV_TR_AM_GVA_SHRINK_VIRTUAL_TLB : Z := 0x71.
Definition HV_TR_AM_GVA_FLUSH_VIRTUAL_TLB : Z := 0x72.
Definition HV_TR_SCH_CONTEXT_SWITCH : Z := 0xb0.
Definition HV_TR_KE_OVERRUN : Z := 0xe0.
Definition HV_TR_KE_OVERRUN_PARAMS : Z := 0xe1.
Definition HV_TR_PROFILER_SAMPLE : Z := 0xf0.
Definition HV_TR_PROFILER_HV_MODULE : Z := 0xf1.
Definition HV_TR_DMP_INTERCEPT : Z := 0x10.
Definition HV_TR_DMP_DISPATCH_EVENTS : Z := 0x11.
Definition HV_TR_IMP_SEND_INTERCEPT_MESSAGE : Z := 0x20.
Definition HV_TR_ICP_EMULATE_INSTR : Z := 0x3c.
Definition HV_TR_SYNICP_ASSERT : Z := 0x50.
Definition HV_TR_SYNICP_EVAL_LOW_PRI : Z := 0x51.
Definition HV_TR_SYNICP_EVAL_IMMEDIATE : Z := 0x52.
Definition HV_TR_SYNICP_EVAL_QUEUE : Z := 0x53.
Definition HV_TR_SYNICP_PENDING : Z := 0x54.
Definition HV_TR_SYNICP_EOI : Z := 0x55.
Definition HV_TR_SYNICP_LATENCY_EXCEEDED : Z := 0x56.
Definition HV_TR_SYNICP_MARK_PENDING : Z := 0x57.
Definition HV_TR_SYNICP_EVAL_APIC_INTS : Z := 0x58.
Definition HV_TR_SYNICP_READ_APIC_GPA : Z := 0x59.
Definition HV_TR_SYNICP_WRITE_APIC_GPA : Z := 0x5a.
Definition HV_TR_SYNICP_READ_APIC_MSR : Z := 0x5b.
Definition HV_TR_SYNICP_WRITE_APIC_MSR : Z := 0x5c.
Definition HV_TR_SYNICP_EXTERNAL_INT : Z := 0x5d.
Definition HV_TR_SYNICP_APIC_IPI : Z := 0x5e.
Definition HV_TR_SYNICP_SIGNAL_EVENT_PORT : Z := 0x5f.
Definition HV_TR_SYNICP_POST_MESSAGE : Z := 0x60.
Definition HV_TR_SYNICP_PERIODIC_TIMER_UPDATE : Z := 0x66.
Definition HV_TR_SYNICP_PERIODIC_TIMER_RESET : Z := 0x67.
Definition HV_TR_SYNICP_TIMER_SEND_MESSAGE : Z := 0x68.
Definition HV_TR_SYNICP_TIMER_SCAN_MESSAGE : Z := 0x69.
Definition HV_TR_SYNICP_TIMER_ASSIST_EXPIRE : Z := 0x6a.
Definition HV_TR_AMP_GVA_PAGE_FAULT : Z := 0x70.
Definition HV_TR_AMP_GVA_VTLB_WRITABILITY_CHANGE : Z := 0x71.
Definition HV_TR_AMP_GVA_SWITCH_SPACE : Z := 0x72.
Definition HV_TR_AMP_GVA_FLUSH_VA_LOCAL : Z := 0x73.
Definition HV_TR_AMP_GVA_FLUSH_VA_GLOBAL : Z := 0x74.
Definition HV_TR_AMP_GVA_FLUSH_VTLB_RANGE : Z := 0x75.
Definition HV_TR_AMP_GVA_FLUSH_SPACE : Z := 0x76.
Definition HV_TR_AMP_GVA_FLUSH_DOMAIN : Z := 0x77.
Definition HV_TR_AMP_GVA_RESET_DOMAIN : Z := 0x78.
Definition HV_TR_AMP_GVA_TRANSLATE_VA : Z := 0x79.
Definition HV_TR_AMP_GVA_READ_VM : Z := 0x7a.
Definition HV_TR_AMP_GVA_WRITE_VM : Z := 0x7b.
Definition HV_TR_AMP_GVA_RESET_PT : Z := 0x7c.
Definition HV_TR_AMP_GVA_UNLINK_PT : Z := 0x7d.
Definition HV_TR_AMP_GVA_UNLINK_PT_VALIDATE : Z := 0x7e.
Definition HV_TR_AMP_GVA_UNLINK_PT_FILL : Z := 0x7f.
Definition HV_TR_AMP_GVA_UNLINK_PT_LINK : Z := 0x80.
Definition HV_TR_AMP_GVA_UNLINK_PT_RESET : Z := 0x81.
Definition HV_TR_AMP_GVA_UNLINK_PT_EVICT : Z := 0x82.
Definition HV_TR_AMP_GVA_UNLINK_PT_CLEAN : Z := 0x83.
Definition HV_TR_AMP_GVA_CONSTRUCT_PT : Z := 0x84.
Definition HV_TR_AMP_GVA_DESTRUCT_PT : Z := 0x85.
Definition HV_TR_AMP_GVA_WALK_PT : Z := 0x86.
Definition HV_TR_AMP_GVA_WAIT_FOR_PT_FILL : Z := 0x87.
Definition HV_TR_AMP_GVA_CLEAN_SAS : Z := 0x88.
Definition HV_TR_AMP_GVA_CLEAN_SAS_OVERFLOW : Z := 0x89.
Definition HV_TR_AMP_GVA_EVICT_PTS : Z := 0x8a.
Definition HV_TR_AMP_GVA_RECLAIM_PTS : Z := 0x8b.
Definition HV_TR_AMP_GVA_FREE_RECLAIMED_PTS : Z := 0x8c.
Definition HV_TR_AMP_GVA_HASH_PROCESSED : Z := 0x8d.
Definition HV_TR_AMP_MAP_GPA : Z := 0x98.
Definition HV_TR_AMP_UNMAP_GPA : Z := 0x99.
Definition HV_TR_VALP_PAUSE_LOOP_EXIT : Z := 0xa0.
Definition HV_TR_SCHP_NEXT_THREAD : Z := 0xb0.
Definition HV_TR_SCHP_ADD_LOCAL : Z := 0xb1.
Definition HV_TR_SCHP_EVAL_PRI : Z := 0xb2.
Definition HV_TR_SCHP_TIMESLICE_MIN : Z := 0xb3.
Definition HV_TR_SCHP_AFFINITY_CHANGE : Z := 0xb4.
Definition HV_TR_SCHP_ADD_DEFERRED : Z := 0xb6.
Definition HV_TR_SCHP_DEFERRED_READY_THREAD : Z := 0xb7.
Definition HV_TR_SCHP_TIMESLICE_END : Z := 0xb8.
Definition HV_TR_SCHP_EVAL_SEND : Z := 0xb9.
Definition HV_TR_SCHP_EVAL_RECV : Z := 0xba.
Definition HV_TR_SCHP_YIELD : Z := 0xbb.
Definition HV_TR_SCHP_SET_PRI : Z := 0xbc.
Definition HV_TR_SCHP_COMPUTE_TIMESLICE : Z := 0xbd.
Definition HV_TR_SCHP_BLOCK_ON_EVENT : Z := 0xbe.
Definition HV_TR_SCHP_UNBLOCK_FROM_EVENT : Z := 0xbf.
Definition HV_TR_SCHP_SIGNAL_EVENT : Z := 0xc0.
Definition HV_TR_SCHP_WATCHDOG : Z := 0xc1.
Definition HV_TR_SCHP_LOAD_BALANCER : Z := 0xc2.
Definition HV_TR_SCHP_EVAL : Z := 0xc3.
Definition HV_TR_SCHP_CPU_IDLE : Z := 0xc4.
Definition HV_TR_SCHP_READY_UNBLOCKED_THREAD : Z := 0xc5.
Definition HV_TR_SCHP_EXPRESS_THREAD : Z := 0xc6.
Definition HV_TR_SCHP_EXPRESS_PROCESS : Z := 0xc7.
Definition HV_TR_SCHP_EVALUATE_CAPS : Z := 0xc8.
Definition HV_TR_SCHP_SET_CAPS_TIMER : Z := 0xc9.
Definition HV_TR_THP_SEND_WORK : Z := 0xce.
Definition HV_TR_TIP_SET_APIC : Z := 0xd0.
Definition HV_TR_TIP_INT : Z := 0xd1.
Definition HV_TR_TIP_NEW_TIMER : Z := 0xd2.
Definition HV_TR_TIP_INSERT_TIMER : Z := 0xd3.
Definition HV_TR_TIP_CALLBACK : Z := 0xd4.
Definition HV_TR_TIP_REMOTE_REMOVE_TIMER : Z := 0xd5.
Definition HV_TR_KEP_FLUSH_ENTIRE_HW_TLB : Z := 0xe0.
Definition HV_TR_KEP_FLUSH_HV_HW_TLB : Z := 0xe1.
Definition HV_TR_KEP_FLUSH_MULTIPLE_HW_TLB : Z := 0xe2.
Definition HV_TR_KEP_SIGNAL_PROCESSORS : Z := 0xe3.
Definition HV_TR_KEP_RUN_GUEST : Z := 0xe4.
Definition HV_TR_KEP_SEND_IPI : Z := 0xe5.
Definition HV_TR_KEP_SEND_IPI_NO_IPI : Z := 0xe6.
Definition HV_TR_KEP_WAIT_FOR_IPI_BARRIER : Z := 0xe7.
Definition HV_TR_KEP_FLUSH_ENTIRE_HW_CACHE : Z := 0xe8.
Definition HV_TR_TF_INTERCEPT : Z := 0xfa.
Definition HV_TR_ICE_CALL : Z := 0xf0.
Definition HV_TR_ICE_RETURN : Z := 0xf1.
Definition HV_TR_ICE_ACQUIRE : Z := 0xf2.
Definition HV_TR_ICE_RELEASE : Z := 0xf3.
Definition HV_TR_ICE_COMMENT : Z := 0xf8.
Definition HV_TR_THREAD_ID_IDLE : Z := 0.
Definition HV_TR_THREAD_ID_TEST : Z := 9.
Definition HV_PHYSICAL_NODE_INDEX : cty := UINT32.
Definition HV_PHYSICAL_NODE_INDEX_UNSPECIFIED : Z := 0xffffffff.
Definition HV_SAVE_RESTORE_STATE_RESULT : enum := [
  Is "HvStateComplete" 0;
  Is "HvStateIncomplete" 1;
  Is "HvStateRestorable" 2;
  Is "HvStateCorruptData" 3;
  Is "HvStateUnsupportedVersion" 4;
  Is "HvStateProcessorFeatureMismatch" 5;
  Is "HvStateHardwareFeatureMismatch" 6;
  Is "HvStateProcessorCountMismatch" 7;
  Is "HvStateProcessorFlagsMismatch" 8;
  Is "HvStateProcessorIndexMismatch" 9;
  Is "HvStateProcessorInsufficientMemory" 10;
  Is "HvStateIncompatibleProcessor" 11;
  Is "HvStateProcessorFeatureSse3Mismatch" 12;
  Is "HvStateProcessorFeatureLahfSahfMismatch" 13;
  Is "HvStateProcessorFeaturSsse3eMismatch" 14;
  Is "HvStateProcessorFeatureSse41Mismatch" 15;
  Is "HvStateProcessorFeatureSse42Mismatch" 16;
  Is "HvStateProcessorFeatureSse4aMismatch" 17;
  Is "HvStateProcessorFeatureSse5Mismatch" 18;
  Is "HvStateProcessorFeaturePopcntMismatch" 19;
  Is "HvStateProcessorFeatureCmpxchg16bMismatch" 20;
  Is "HvStateProcessorFeatureAltmovcr8Mismatch" 21;
  Is "HvStateProcessorFeatureLzcntMismatch" 22;
  Is "HvStateProcessorFeatureMisalignedSseMismatch" 23;
  Is "HvStateProcessorFeatureMmxExtMismatch" 24;
  Is "HvStateProcessorFeature3DNowMismatch" 25;
  Is "HvStateProcessorFeatureExtended3DNowMismatch" 26;
  Is "HvStateProcessorFeaturePage1GBMismatch" 27;
  Is "HvStateProcessorCacheLineFlushSizeMismatch" 28;
  Is "HvStateProcessorFeatureXsaveMismatch" 29;
  Is "HvStateProcessorFeatureXsaveoptMismatch" 30;
  Is "HvStateProcessorFeatureXsaveLegacySseMismatch" 31;
  Is "HvStateProcessorFeatureXsaveAvxMismatch" 32;
  Is "HvStateProcessorFeatureXsaveUnknownFeatureMismatch" 33;
  Is "HvStateProcessorXsaveSaveAreaMismatch" 34].
Definition HV_SAVE_RESTORE_STATE_FLAGS : cty := UINT32.
Definition HV_SAVE_RESTORE_STATE_START : Z := 0x00000001.
Definition HV_SAVE_RESTORE_STATE_SUMMARY : Z := 0x00000002.
Definition HV_PARTITION_PRIVILEGE_MASK_PRIVATE : cty := union 0 [
  fld UINT64 "AsUINT64";
  fld (struct 0 [
    bit UINT64 "Reserved0" 15;
    bit UINT64 "AccessTscInvariantControls" 1;
    bit UINT64 "Reserved1" 16;
    bit UINT64 "Reserved2" 32]) anonymous].
Definition HV_PROCESSOR_VENDOR : enum := [
  Is "HvProcessorVendorAmd" 0x0;
  Is "HvProcessorVendorIntel" 0x1;
  Is "HvProcessorVendorHygon" 0x2;
  Is "HvProcessorVendorArm" 0x10].
Definition HV_PARTITION_PROCESSOR_FEATURES_BANKS : Z := 2.
Definition HV_PARTITION_PROCESSOR_FEATURES : cty := union 0 [
  fld (CArr UINT64 HV_PARTITION_PROCESSOR_FEATURES_BANKS) "AsUINT64";
  fld (struct 0 [
    bit UINT64 "Sse3Support" 1;
    bit UINT64 "LahfSahfSupport" 1;
    bit UINT64 "Ssse3Support" 1;
    bit UINT64 "Sse4_1Support" 1;
    bit UINT64 "Sse4_2Support" 1;
    bit UINT64 "Sse4aSupport" 1;
    bit UINT64 "XopSupport" 1;
    bit UINT64 "PopCntSupport" 1;
    bit UINT64 "Cmpxchg16bSupport" 1;
    bit UINT64 "Altmovcr8Support" 1;
    bit UINT64 "LzcntSupport" 1;
    bit UINT64 "MisAlignSseSupport" 1;
    bit UINT64 "MmxExtSupport" 1;
    bit UINT64 "Amd3DNowSupport" 1;
    bit UINT64 "ExtendedAmd3DNowSupport" 1;
    bit UINT64 "Page1GBSupport" 1;
    bit UINT64 "AesSupport" 1;
    bit UINT64 "PclmulqdqSupport" 1;
    bit UINT64 "PcidSupport" 1;
    bit UINT64 "Fma4Support" 1;
    bit UINT64 "F16cSupport" 1;
    bit UINT64 "RdRandSupport" 1;
    bit UINT64 "RdWrFsGsSupport" 1;
    bit UINT64 "SmepSupport" 1;
    bit UINT64 "EnhancedFastStringSupport" 1;
    bit UINT64 "Bmi1Support" 1;
    bit UINT64 "Bmi2Support" 1;
    bit UINT64 "HleSupportDeprecated" 1;
    bit UINT64 "RtmSupportDeprecated" 1;
    bit UINT64 "MovbeSupport" 1;
    bit UINT64 "Npiep1Support" 1;
    bit UINT64 "DepX87FpuSaveSupport" 1;
    bit UINT64 "RdSeedSupport" 1;
    bit UINT64 "AdxSupport" 1;
    bit UINT64 "IntelPrefetchSupport" 1;
    bit UINT64 "SmapSupport" 1;
    bit UINT64 "HleSupport" 1;
    bit UINT64 "RtmSupport" 1;
    bit UINT64 "RdtscpSupport" 1;
    bit UINT64 "ClflushoptSupport" 1;
    bit UINT64 "ClwbSupport" 1;
    bit UINT64 "ShaSupport" 1;
    bit UINT64 "X87PointersSavedSupport" 1;
    bit UINT64 "InvpcidSupport" 1;
    bit UINT64 "IbrsSupport" 1;
    bit UINT64 "StibpSupport" 1;
    bit UINT64 "IbpbSupport" 1;
    bit UINT64 "UnrestrictedGuestSupport" 1;
    bit UINT64 "MddSupport" 1;
    bit UINT64 "FastShortRepMovSupport" 1;
    bit UINT64 "L1dcacheFlushSupport" 1;
    bit UINT64 "RdclNoSupport" 1;
    bit UINT64 "IbrsAllSupport" 1;
    bit UINT64 "SkipL1dfSupport" 1;
    bit UINT64 "SsbNoSupport" 1;
    bit UINT64 "RsbANoSupport" 1;
    bit UINT64 "VirtSpecCtrlSupport" 1;
    bit UINT64 "RdPidSupport" 1;
    bit UINT64 "UmipSupport" 1;
    bit UINT64 "MbsNoSupport" 1;
    bit UINT64 "MbClearSupport" 1;
    bit UINT64 "TaaNoSupport" 1;
    bit UINT64 "TsxCtrlSupport" 1;
    bit UINT64 "ReservedBank0" 1;
    bit UINT64 "AcountMcountSupport" 1;
    bit UINT64 "TscInvariantSupport" 1;
    bit UINT64 "ClZeroSupport" 1;
    bit UINT64 "RdpruSupport" 1;
    bit UINT64 "La57Support" 1;
    bit UINT64 "MbecSupport" 1;
    bit UINT64 "NestedVirtSupport" 1;
    bit UINT64 "PsfdSupport" 1;
    bit UINT64 "CetSsSupport" 1;
    bit UINT64 "CetIbtSupport" 1;
    bit UINT64 "VmxExceptionInjectSupport" 1;
    bit UINT64 "EnqcmdSupport" 1;
    bit UINT64 "UmwaitTpauseSupport" 1;
    bit UINT64 "MovdiriSupport" 1;
    bit UINT64 "Movdir64bSupport" 1;
    bit UINT64 "CldemoteSupport" 1;
    bit UINT64 "SerializeSupport" 1;
    bit UINT64 "TscDeadlineTmrSupport" 1;
    bit UINT64 "TscAdjustSupport" 1;
    bit UINT64 "FzlrepMovsb" 1;
    bit UINT64 "FsrepStosb" 1;
    bit UINT64 "FsrepCmpsb" 1;
    bit UINT64 "ReservedBank1" 42]) anonymous].
Definition HV_PARTITION_PROCESSOR_FEATURES_INTEL_COMPATIBILITY_MODE : list Z := [1; 1; 0; 0; 0; 0;
  0; 0; 1; 0; 0; 0; 0; 0; 0; 0; 0].
Definition HV_PARTITION_PROCESSOR_FEATURES_AMD_COMPATIBILITY_MODE : list Z := [1; 1; 0; 0; 0; 0; 0;
  0; 1; 1; 0; 0; 1; 0; 0; 0; 0].
Definition HV_PARTITION_PROCESSOR_XSAVE_FEATURES : cty := union 0 [
  fld (struct 0 [
    bit UINT64 "XsaveSupport" 1;
    bit UINT64 "XsaveoptSupport" 1;
    bit UINT64 "AvxSupport" 1;
    bit UINT64 "Reserved1" 61]) anonymous;
  fld UINT64 "AsUINT64"].
Definition HV_PARTITION_PROCESSOR_XSAVE_FEATURES_INTEL_COMPATIBILITY_MODE : list Z := [0; 0; 0; 0].
Definition HV_PARTITION_PROCESSOR_XSAVE_FEATURES_AMD_COMPATIBILITY_MODE : list Z := [0; 0; 0; 0].
Definition HV_PARTITION_PROCESSOR_CL_FLUSHSIZE_INTEL_COMPATIBILITY_MODE : Z := 8.
Definition HV_PARTITION_PROCESSOR_CL_FLUSHSIZE_AMD_COMPATIBILITY_MODE : Z := 8.
Definition HV_EXPLICIT_SUSPEND_REGISTER : cty := union 0 [
  fld UINT64 "AsUINT64";
  fld (struct 0 [
    bit UINT64 "Suspended" 1;
    bit UINT64 "Reserved" 63]) anonymous].
Definition HV_INTERCEPT_SUSPEND_REGISTER : cty := union 0 [
  fld UINT64 "AsUINT64";
  fld (struct 0 [
    bit UINT64 "Suspended" 1;
    bit UINT64 "TlbLocked" 1;
    bit UINT64 "Reserved" 62]) anonymous].
Definition HV_DISPATCH_SUSPEND_REGISTER : cty := union 0 [
  fld UINT64 "AsUINT64";
  fld (struct 0 [
    bit UINT64 "Suspended" 1;
    bit UINT64 "Reserved" 63]) anonymous].
Definition HV_X64_INTERRUPT_STATE_REGISTER : cty := union 0 [
  fld UINT64 "AsUINT64";
  fld (struct 0 [
    bit UINT64 "InterruptShadow" 1;
    bit UINT64 "NmiMasked" 1;
    bit UINT64 "GlobalInterruptDisable" 1;
    bit UINT64 "Reserved" 61]) anonymous].
Definition HV_X64_PENDING_INTERRUPTION_TYPE : enum := [
  Is "HvX64PendingInterrupt" 0;
  Is "HvX64PendingNmi" 2;
  Is "HvX64PendingException" 3;
  Is "HvX64PendingSoftwareInterrupt" 4;
  Is "HvX64PendingPrivilegedSoftwareException" 5;
  Is "HvX64PendingSoftwareException" 6].
Definition HV_X64_PENDING_INTERRUPTION_REGISTER : cty := union 0 [
  fld UINT64 "AsUINT64";
  fld (struct 0 [
    bit UINT32 "InterruptionPending" 1;
    bit UINT32 "InterruptionType" 3;
    bit UINT32 "DeliverErrorCode" 1;
    bit UINT32 "InstructionLength" 4;
    bit UINT32 "NestedEvent" 1;
    bit UINT32 "Reserved" 6;
    bit UINT32 "InterruptionVector" 16;
    fld UINT32 "ErrorCode"]) anonymous].
Definition HV_X64_MSR_NPIEP_CONFIG_CONTENTS : cty := union 0 [
  fld UINT64 "AsUINT64";
  fld (struct 0 [
    bit UINT64 "PreventsGdt" 1;
    bit UINT64 "PreventsIdt" 1;
    bit UINT64 "PreventsLdt" 1;
    bit UINT64 "PreventsTr" 1;
    bit UINT64 "Reserved" 60]) anonymous].
Definition HV_X64_PENDING_EXCEPTION_EVENT : cty := union 0 [
  fld (CArr UINT64 2) "AsUINT64";
  fld (struct 0 [
    bit UINT32 "EventPending" 1;
    bit UINT32 "EventType" 3;
    bit UINT32 "Reserved0" 4;
    bit UINT32 "DeliverErrorCode" 1;
    bit UINT32 "Reserved1" 7;
    bit UINT32 "Vector" 16;
    fld UINT32 "ErrorCode";
    fld UINT64 "ExceptionParameter"]) anonymous].
Definition HV_X64_PENDING_VIRTUALIZATION_FAULT_EVENT : cty := union 0 [
  fld (CArr UINT64 2) "AsUINT64";
  fld (struct 0 [
    bit UINT32 "EventPending" 1;
    bit UINT32 "EventType" 3;
    bit UINT32 "Reserved0" 4;
    bit UINT32 "Reserved1" 8;
    bit UINT32 "Parameter0" 16;
    fld UINT32 "Code";
    fld UINT64 "Parameter1"]) anonymous].
Definition HV_REGISTER_VALUE_PRIVATE : cty := union 0 [
  fld HV_EXPLICIT_SUSPEND_REGISTER "ExplicitSuspend";
  fld HV_INTERCEPT_SUSPEND_REGISTER "InterceptSuspend";
  fld HV_DISPATCH_SUSPEND_REGISTER "DispatchSuspend";
  fld HV_X64_FP_REGISTER "Fp";
  fld HV_X64_FP_CONTROL_STATUS_REGISTER "FpControlStatus";
  fld HV_X64_XMM_CONTROL_STATUS_REGISTER "XmmControlStatus";
  fld HV_X64_SEGMENT_REGISTER "Segment";
  fld HV_X64_TABLE_REGISTER "Table";
  fld HV_X64_INTERRUPT_STATE_REGISTER "InterruptState";
  fld HV_X64_PENDING_INTERRUPTION_REGISTER "PendingInterruption";
  fld HV_X64_MSR_NPIEP_CONFIG_CONTENTS "NpiepConfig";
  fld HV_X64_PENDING_EXCEPTION_EVENT "PendingExceptionEvent";
  fld HV_X64_PENDING_VIRTUALIZATION_FAULT_EVENT "PendingVirtualizationFaultEvent"].
Definition HV_INTERCEPT_ACCESS_READ : Z := 0.
Definition HV_INTERCEPT_ACCESS_WRITE : Z := 1.
Definition HV_INTERCEPT_ACCESS_EXECUTE : Z := 2.
Definition HV_INTERCEPT_ACCESS_TYPE_MASK : cty := UINT32.
Definition HV_INTERCEPT_ACCESS_MASK_NONE : Z := 0x00.
Definition HV_INTERCEPT_ACCESS_MASK_READ : Z := 0x01.
Definition HV_INTERCEPT_ACCESS_MASK_WRITE : Z := 0x02.
Definition HV_INTERCEPT_ACCESS_MASK_EXECUTE : Z := 0x04.
Definition HV_INTERCEPT_TYPE : enum := [
  Is "HvInterceptTypeX64IoPort" 0x00000000;
  Is "HvInterceptTypeX64Msr" 0x00000001;
  Is "HvInterceptTypeX64Cpuid" 0x00000002;
  Is "HvInterceptTypeX64Exception" 0x00000003;
  Is "HvInterceptTypeRegister" 0x00000004;
  Is "HvInterceptTypeMmio" 0x00000005;
  Is "HvInterceptTypeX64GlobalCpuid" 0x00000006;
  Is "HvInterceptTypeX64ApicSmi" 0x00000007;
  Is "HvInterceptTypeHypercall" 0x00000008;
  Is "HvInterceptTypeX64ApicInitSipi" 0x00000009;
  Is "HvInterceptTypeX64ApicWrite" 0x0000000b;
  Is "HvInterceptTypeX64MsrIndex" 0x0000000c;
  Next "HvInterceptTypeMax";
  Is "HvInterceptTypeInvalid" 0xffffffff].
Definition HV_X64_IO_PORT : cty := UINT16.
Definition HV_INTERCEPT_PARAMETERS : cty := union 0 [
  fld UINT64 "AsUINT64";
  fld HV_X64_IO_PORT "IoPort";
  fld UINT32 "CpuidIndex";
  fld UINT32 "ApicWriteMask";
  fld UINT16 "ExceptionVector";
  fld UINT32 "MsrIndex"].
Definition HV_INTERCEPT_PARAMETERS_EX : cty := union 0 [
  fld (CArr UINT64 16) "InterceptParamsRaw";
  fld (struct 0 [
    fld (enum_type HV_REGISTER_NAME) "RegisterName";
    fld UINT32 "AccessTypeMask";
    fld UINT64 "WriteInterceptMask";
    fld (CArr UINT64 14) "Reserved"]) "RegisterInterceptParams"].
Definition HV_INTERCEPT_DESCRIPTOR : cty := struct 0 [
  fld (enum_type HV_INTERCEPT_TYPE) "Type";
  fld HV_INTERCEPT_PARAMETERS "Parameters"].
Definition HV_MAX_VP_INDEX : Z := HV_MAXIMUM_PROCESSORS - 1.
Definition HV_FLUSH_FLAGS : cty := UINT64.
Definition HV_FLUSH_ALL_PROCESSORS : Z := 0x00000001.
Definition HV_FLUSH_ALL_VIRTUAL_ADDRESS_SPACES : Z := 0x00000002.
Definition HV_FLUSH_NON_GLOBAL_MAPPINGS_ONLY : Z := 0x00000004.
Definition HV_FLUSH_USE_EXTENDED_RANGE_FORMAT : Z := 0x00000008.
Definition HV_FLUSH_MASK : Z := Z.lor (Z.lor (Z.lor HV_FLUSH_ALL_PROCESSORS
  HV_FLUSH_ALL_VIRTUAL_ADDRESS_SPACES) HV_FLUSH_NON_GLOBAL_MAPPINGS_ONLY)
  HV_FLUSH_USE_EXTENDED_RANGE_FORMAT.
Definition HV_TRANSLATE_GVA_CONTROL_FLAGS : cty := UINT64.
Definition HV_TRANSLATE_GVA_VALIDATE_READ : Z := 0x0001.
Definition HV_TRANSLATE_GVA_VALIDATE_WRITE : Z := 0x0002.
Definition HV_TRANSLATE_GVA_VALIDATE_EXECUTE : Z := 0x0004.
Definition HV_TRANSLATE_GVA_PRIVILEGE_EXEMPT : Z := 0x0008.
Definition HV_TRANSLATE_GVA_SET_PAGE_TABLE_BITS : Z := 0x0010.
Definition HV_TRANSLATE_GVA_TLB_FLUSH_INHIBIT : Z := 0x0020.
Definition HV_TRANSLATE_GVA_CONTROL_MASK : Z := 0x003f.
Definition HV_TRANSLATE_GVA_INPUT_VTL_MASK : Z := 0xff00000000000000.
Definition HV_TRANSLATE_GVA_RESULT_CODE : enum := [
  Is "HvTranslateGvaSuccess" 0;
  Is "HvTranslateGvaPageNotPresent" 1;
  Is "HvTranslateGvaPrivilegeViolation" 2;
  Is "HvTranslateGvaInvalidPageTableFlags" 3;
  Is "HvTranslateGvaGpaUnmapped" 4;
  Is "HvTranslateGvaGpaNoReadAccess" 5;
  Is "HvTranslateGvaGpaNoWriteAccess" 6;
  Is "HvTranslateGvaGpaIllegalOverlayAccess" 7;
  Is "HvTranslateGvaIntercept" 8;
  Is "HvTranslateGvaGpaUnaccepted" 9].
Definition HV_TRANSLATE_GVA_RESULT : cty := union 0 [
  fld UINT64 "AsUINT64";
  fld (struct 0 [
    fld (enum_type HV_TRANSLATE_GVA_RESULT_CODE) "ResultCode";
    bit UINT32 "CacheType" 8;
    bit UINT32 "OverlayPage" 1;
    bit UINT32 "Reserved3" 23]) anonymous].
Definition HV_INPUT_VTL : cty := union 0 [
  fld UINT8 "AsUINT8";
  fld (struct 0 [
    bit UINT8 "TargetVtl" 4;
    bit UINT8 "UseTargetVtl" 1;
    bit UINT8 "ReservedZ" 3]) anonymous].
Definition HV_ACCESS_GPA_CONTROL_FLAGS : cty := union 0 [
  fld UINT64 "AsUINT64";
  fld (struct 0 [
    fld UINT8 "CacheType";
    fld HV_INPUT_VTL "InputVtl";
    fld UINT16 "ReservedZ0";
    fld UINT32 "ReservedZ1"]) anonymous].
Definition HV_ACCESS_GPA_RESULT_CODE : enum := [
  Is "HvAccessGpaSuccess" 0;
  Is "HvAccessGpaUnmapped" 1;
  Is "HvAccessGpaReadIntercept" 2;
  Is "HvAccessGpaWriteIntercept" 3;
  Is "HvAccessGpaIllegalOverlayAccess" 4].
Definition HV_ACCESS_GPA_RESULT : cty := union 0 [
  fld UINT64 "AsUINT64";
  fld (struct 0 [
    fld (enum_type HV_ACCESS_GPA_RESULT_CODE) "ResultCode";
    fld UINT32 "Reserved"]) anonymous].
Definition HV_CACHE_TYPE : enum := [
  Is "HvCacheTypeX64Uncached" 0;
  Is "HvCacheTypeUncached" 0;
  Is "HvCacheTypeX64WriteCombining" 1;
  Is "HvCacheTypeWriteCombining" 1;
  Is "HvCacheTypeX64WriteThrough" 4;
  Is "HvCacheTypeWriteThrough" 4;
  Is "HvCacheTypeX64WriteProtected" 5;
  Is "HvCacheTypeX64WriteBack" 6;
  Is "HvCacheTypeWriteBack" 6].
Definition HV_MAP_GPA_KERNEL_EXECUTABLE : Z := 0x00000004.
Definition HV_MAP_GPA_USER_EXECUTABLE : Z := 0x00000008.
Definition HV_MAP_GPA_EXECUTABLE : Z := 0x0000000c.
Definition HV_MAP_GPA_PERMISSIONS_MASK : Z := 0x0000000f.
Definition HV_GVA_RANGE_SIMPLE : cty := union 0 [
  fld UINT64 "AsUINT64";
  fld (struct 0 [
    bit UINT64 "AdditionalPages" 12;
    bit UINT64 "GvaPageNumber" 52]) anonymous].
Definition HV_GVA_RANGE_EXTENDED : cty := union 0 [
  fld UINT64 "AsUINT64";
  fld (struct 0 [
    bit UINT64 "AdditionalPages" 11;
    bit UINT64 "LargePage" 1;
    fld (union 0 [
      bit UINT64 "GvaPageNumber" 52;
      fld (struct 0 [
        bit UINT64 "PageSize" 1;
        bit UINT64 "Reserved" 8;
        bit UINT64 "GvaLargePageNumber" 43]) anonymous]) anonymous]) anonymous].
Definition HV_GVA_RANGE : cty := union 0 [
  fld UINT64 "AsUINT64";
  fld HV_GVA_RANGE_SIMPLE "Simple";
  fld HV_GVA_RANGE_EXTENDED "Extended"].
Definition HV_SYNIC_INTERCEPTION_SINT_INDEX : Z := u32 0.
Definition HV_SYNIC_IOMMU_FAULT_SINT_INDEX : Z := u32 1.
Definition HV_SYNIC_VMBUS_SINT_INDEX : Z := u32 2.
Definition HV_SYNIC_FIRST_UNUSED_SINT_INDEX : Z := u32 5.
Definition HV_SYNIC_DOORBELL_SINT_INDEX : Z := HV_SYNIC_FIRST_UNUSED_SINT_INDEX.

(** ** The records and enumerations of the file *)

Definition TlfsBase_types : list (string * cty) := [
  ("HV_UINT256", HV_UINT256);
  ("HV_UINT512", HV_UINT512);
  ("HV_X64_FP_REGISTER", HV_X64_FP_REGISTER);
  ("HV_X64_FP_CONTROL_STATUS_REGISTER", HV_X64_FP_CONTROL_STATUS_REGISTER);
  ("HV_X64_XMM_CONTROL_STATUS_REGISTER", HV_X64_XMM_CONTROL_STATUS_REGISTER);
  ("HV_X64_FP_MMX_REGISTER", HV_X64_FP_MMX_REGISTER);
  ("HV_X64_FX_REGISTERS", HV_X64_FX_REGISTERS);
  ("HV_X64_XSAVE_XFEM_REGISTER", HV_X64_XSAVE_XFEM_REGISTER);
  ("HV_X64_XSAVE_HEADER", HV_X64_XSAVE_HEADER);
  ("HV_X64_X_REGISTERS", HV_X64_X_REGISTERS);
  ("HV_X64_CONTEXT", HV_X64_CONTEXT);
  ("HV_VP_CONTEXT", HV_VP_CONTEXT);
  ("HV_STATISTICS_GROUP_VERSION", HV_STATISTICS_GROUP_VERSION);
  ("HV_STATISTICS_GROUP_HEADER", HV_STATISTICS_GROUP_HEADER);
  ("HV_STATS_PAGE", HV_STATS_PAGE);
  ("HV_ST_MAP_LOCATION", HV_ST_MAP_LOCATION);
  ("HV_PROXIMITY_DOMAIN_FLAGS", HV_PROXIMITY_DOMAIN_FLAGS);
  ("HV_PROXIMITY_DOMAIN_INFO", HV_PROXIMITY_DOMAIN_INFO);
  ("HV_PROCESSOR_INFO", HV_PROCESSOR_INFO);
  ("HV_MEMORY_RANGE_INFO", HV_MEMORY_RANGE_INFO);
  ("HV_EVENTLOG_ENTRY_TIME", HV_EVENTLOG_ENTRY_TIME);
  ("HV_EVENTLOG_BUFFER_HEADER", HV_EVENTLOG_BUFFER_HEADER);
  ("HV_EVENTLOG_ENTRY_HEADER", HV_EVENTLOG_ENTRY_HEADER);
  ("HV_PARTITION_PRIVILEGE_MASK_PRIVATE", HV_PARTITION_PRIVILEGE_MASK_PRIVATE);
  ("HV_PARTITION_PROCESSOR_FEATURES", HV_PARTITION_PROCESSOR_FEATURES);
  ("HV_PARTITION_PROCESSOR_XSAVE_FEATURES", HV_PARTITION_PROCESSOR_XSAVE_FEATURES);
  ("HV_EXPLICIT_SUSPEND_REGISTER", HV_EXPLICIT_SUSPEND_REGISTER);
  ("HV_INTERCEPT_SUSPEND_REGISTER", HV_INTERCEPT_SUSPEND_REGISTER);
  ("HV_DISPATCH_SUSPEND_REGISTER", HV_DISPATCH_SUSPEND_REGISTER);
  ("HV_X64_INTERRUPT_STATE_REGISTER", HV_X64_INTERRUPT_STATE_REGISTER);
  ("HV_X64_PENDING_INTERRUPTION_REGISTER", HV_X64_PENDING_INTERRUPTION_REGISTER);
  ("HV_X64_MSR_NPIEP_CONFIG_CONTENTS", HV_X64_MSR_NPIEP_CONFIG_CONTENTS);
  ("HV_X64_PENDING_EXCEPTION_EVENT", HV_X64_PENDING_EXCEPTION_EVENT);
  ("HV_X64_PENDING_VIRTUALIZATION_FAULT_EVENT", HV_X64_PENDING_VIRTUALIZATION_FAULT_EVENT);
  ("HV_REGISTER_VALUE_PRIVATE", HV_REGISTER_VALUE_PRIVATE);
  ("HV_INTERCEPT_PARAMETERS", HV_INTERCEPT_PARAMETERS);
  ("HV_INTERCEPT_PARAMETERS_EX", HV_INTERCEPT_PARAMETERS_EX);
  ("HV_INTERCEPT_DESCRIPTOR", HV_INTERCEPT_DESCRIPTOR);
  ("HV_TRANSLATE_GVA_RESULT", HV_TRANSLATE_GVA_RESULT);
  ("HV_INPUT_VTL", HV_INPUT_VTL);
  ("HV_ACCESS_GPA_CONTROL_FLAGS", HV_ACCESS_GPA_CONTROL_FLAGS);
  ("HV_ACCESS_GPA_RESULT", HV_ACCESS_GPA_RESULT);
  ("HV_GVA_RANGE_SIMPLE", HV_GVA_RANGE_SIMPLE);
  ("HV_GVA_RANGE_EXTENDED", HV_GVA_RANGE_EXTENDED);
  ("HV_GVA_RANGE", HV_GVA_RANGE)].
Definition TlfsBase_enums : list (string * enum) := [
  ("HV_ARCHITECTURE", HV_ARCHITECTURE);
  ("HV_STATS_OBJECT_TYPE", HV_STATS_OBJECT_TYPE);
  ("HV_HYPERVISOR_COUNTER", HV_HYPERVISOR_COUNTER);
  ("HV_CPU_COUNTER", HV_CPU_COUNTER);
  ("HV_PROCESS_COUNTER", HV_PROCESS_COUNTER);
  ("HV_THREAD_COUNTER", HV_THREAD_COUNTER);
  ("HV_X64_PPM_IDLE_STATE_CHANGE_METHOD", HV_X64_PPM_IDLE_STATE_CHANGE_METHOD);
  ("HV_INTERRUPT_TYPE", HV_INTERRUPT_TYPE);
  ("HV_PROFILE_SOURCE", HV_PROFILE_SOURCE);
  ("HV_EVENTLOG_TYPE_PRIVATE", HV_EVENTLOG_TYPE_PRIVATE);
  ("HV_EVENTLOG_BUFFER_STATE", HV_EVENTLOG_BUFFER_STATE);
  ("HV_EVENTLOG_ENTRY_TIME_BASIS", HV_EVENTLOG_ENTRY_TIME_BASIS);
  ("HV_SAVE_RESTORE_STATE_RESULT", HV_SAVE_RESTORE_STATE_RESULT);
  ("HV_PROCESSOR_VENDOR", HV_PROCESSOR_VENDOR);
  ("HV_X64_PENDING_INTERRUPTION_TYPE", HV_X64_PENDING_INTERRUPTION_TYPE);
  ("HV_INTERCEPT_TYPE", HV_INTERCEPT_TYPE);
  ("HV_TRANSLATE_GVA_RESULT_CODE", HV_TRANSLATE_GVA_RESULT_CODE);
  ("HV_ACCESS_GPA_RESULT_CODE", HV_ACCESS_GPA_RESULT_CODE);
  ("HV_CACHE_TYPE", HV_CACHE_TYPE)].
