(* ===== verification/TlfsState.v ===== *)
(** * The hypervisor specification: state and intercepts

    The second part of [Mile.HyperV.TLFS.h]: registers, intercept messages, saved
    processor state and statistics.  A long enumeration is written in parts. *)

From S2P Require Import Prelude CLayout GuestInterface GuestProtocols TlfsBase.

Definition HV_SYNIC_VERSION : Z := 1.
Definition HV_SYNIC_VERSION_1 : Z := 0x1.
Definition HV_ANY_VP : Z := 0xffffffff.
Definition HV_VP_INDEX_SELF : Z := 0xfffffffe.
Definition HV_SYNIC_APIC_MINIMUM_VECTOR : Z := 0x10.
Definition HV_MESSAGE_TYPE_PRIVATE : enum := [
  Is "HvMessageTypeEnablePartitionVtlIntercept" 0x80000005;
  Is "HvMessageTypeOpaqueIntercept" 0x8000003f;
  Is "HvMessageTypeSynicSintIntercept" 0x80000061;
  Is "HvMessageTypeSynicSintDeliverable" 0x80000062;
  Is "HvMessageInsufficientMemory" 0x80000071;
  Is "HvMessageMirroringNotification" 0x80000072;
  Is "HvMessageRestartCompletionNotification" 0x80000073;
  Is "HvMessageTypeAsyncCallCompletion" 0x80000070;
  Is "HvMessageTypeX64LegacyFpError" 0x80010005;
  Is "HvMessageTypeX64ProxyInterruptIntercept" 0x8001000f].
Definition HV_MESSAGE_TYPE_HYPERVISOR_MASK : Z := 0x80000000.
Definition HV_X64_APIC_EOI_MESSAGE : cty := struct 0 [
  fld HV_VP_INDEX "VpIndex";
  fld HV_INTERRUPT_VECTOR "InterruptVector"].
Definition HV_PORT_TYPE : enum := [
  Is "HvPortTypeMessage" 1;
  Is "HvPortTypeEvent" 2;
  Is "HvPortTypeMonitor" 3;
  Is "HvPortTypeDoorbell" 4].
Definition HV_PORT_INFO : cty := struct 0 [
  fld (enum_type HV_PORT_TYPE) "PortType";
  fld UINT32 "ReservedZ";
  fld (union 0 [
    fld (struct 0 [
      fld HV_SYNIC_SINT_INDEX "TargetSint";
      fld HV_VP_INDEX "TargetVp";
      fld UINT64 "RsvdZ"]) "MessagePortInfo";
    fld (struct 0 [
      fld HV_SYNIC_SINT_INDEX "TargetSint";
      fld HV_VP_INDEX "TargetVp";
      fld UINT16 "BaseFlagNumber";
      fld UINT16 "FlagCount";
      fld UINT32 "RsvdZ"]) "EventPortInfo";
    fld (struct 0 [
      fld HV_GPA "MonitorAddress";
      fld UINT64 "RsvdZ"]) "MonitorPortInfo";
    fld (struct 0 [
      fld UINT32 "TargetSint";
      fld HV_VP_INDEX "TargetVp";
      fld UINT64 "RsvdZ"]) "DoorbellPortInfo"]) anonymous].
Definition HV_DOORBELL_FLAG_TRIGGER_SIZE_MASK : Z := 0x00000007.
Definition HV_DOORBELL_FLAG_TRIGGER_SIZE_ANY : Z := 0x00000000.
Definition HV_DOORBELL_FLAG_TRIGGER_SIZE_BYTE : Z := 0x00000001.
Definition HV_DOORBELL_FLAG_TRIGGER_SIZE_WORD : Z := 0x00000002.
Definition HV_DOORBELL_FLAG_TRIGGER_SIZE_DWORD : Z := 0x00000003.
Definition HV_DOORBELL_FLAG_TRIGGER_SIZE_QWORD : Z := 0x00000004.
Definition HV_DOORBELL_FLAG_TRIGGER_ANY_VALUE : Z := 0x80000000.
Definition HV_CONNECTION_INFO : cty := struct 0 [
  fld (enum_type HV_PORT_TYPE) "PortType";
  fld UINT32 "Padding";
  fld (union 0 [
    fld (struct 0 [
      fld UINT64 "RsvdZ"]) "MessageConnectionInfo";
    fld (struct 0 [
      fld UINT64 "RsvdZ"]) "EventConnectionInfo";
    fld (struct 0 [
      fld HV_GPA "MonitorAddress"]) "MonitorConnectionInfo";
    fld (struct 0 [
      fld HV_GPA "GuestPhysicalAddress";
      fld UINT64 "TriggerValue";
      fld UINT64 "Flags"]) "DoorbellConnectionInfo"]) anonymous].
Definition HV_PORT_PROPERTY : cty := UINT64.
Definition HV_PORT_PROPERTY_CODE : enum := [
  Is "HvPortPropertyPostCount" 0x0;
  Is "HvPortPropertyPreferredTargetVp" 0x1;
  Is "HvPortPropertyMonitorAddress" 0x2;
  Is "HvPortPropertyUseRingBuffer" 0x3;
  Is "HvPortPropertyTargetVp" 0x4;
  Is "HvPortPropertyPreferredTargetDuration" 0x5;
  Is "HvPortPropertyRetryPostMessage" 0x6;
  Is "HvPortPropertyInterceptOnSignal" 0x7;
  Is "HvPortPropertySignalCount" 0x8;
  Is "HvPortPropertyPendingRing" 0x9].
Definition HV_MESSAGE_HEADER_PRIVATE : cty := struct 0 [
  fld UINT64 "Reversed";
  fld (union 0 [
    fld UINT64 "OriginationId"]) anonymous].
Definition HV_FAULT_DEVICE_ID : cty := union 0 [
  fld UINT64 "AsUINT64";
  fld UINT64 "StreamId"].
Definition HV_IOMMU_FAULT_MESSAGE_PAYLOAD_PRIVATE : cty := struct 0 [
  fld UINT64 "Reserved0";
  fld (struct 0 [
    bit UINT32 "Reserved1" 2;
    bit UINT32 "IsStage1Fault" 1]) "Flags";
  fld UINT64 "LogicalId";
  fld HV_FAULT_DEVICE_ID "DeviceId";
  fld UINT64 "FaultAddress";
  fld HV_GVA "IommuBaseAddress"].
Definition HV_SINT_NOTIFICATION_MESSAGE_PAYLOAD : cty := struct 0 [
  fld UINT32 "SintIndex"].
Definition HV_MESSAGE_PRIVATE : cty := aligned 16 (struct 0 [
  fld HV_MESSAGE_HEADER_PRIVATE "Header";
  fld (union 0 [
    fld HV_IOMMU_FAULT_MESSAGE_PAYLOAD_PRIVATE "IommuFaultPayload";
    fld HV_SINT_NOTIFICATION_MESSAGE_PAYLOAD "SintNotificationPayload"]) anonymous]).
Definition HV_PORT_MESSAGE_BUFFER_COUNT : Z := 16.
Definition HV_X64_MSR_APIC_ASSIST_CONTENTS : cty := union 0 [
  fld UINT64 "AsUINT64";
  fld (struct 0 [
    bit UINT64 "Enable" 1;
    bit UINT64 "ReservedP" 11;
    bit UINT64 "GpaPageNumber" 52]) anonymous].
Definition HV_VIRTUAL_APIC_NO_EOI_REQUIRED : Z := 0x0.
Definition HV_VIRTUAL_APIC_ASSIST : cty := union 0 [
  fld INT32 "ApicFlags";
  fld (struct 0 [
    bit UINT32 "NoEOIRequired" 1]) anonymous].
Definition HV_INTERRUPT_CONTROL : cty := struct 0 [
  fld UINT64 "AsUINT64";
  fld (struct 0 [
    fld (enum_type HV_INTERRUPT_TYPE) "InterruptType";
    bit UINT32 "LevelTriggered" 1;
    bit UINT32 "LogicalDestinationMode" 1;
    bit UINT32 "Reserved" 30]) anonymous].
Definition HV_EMULATED_TIMER_PERIOD : cty := union 0 [
  fld UINT64 "AsUINT64";
  fld HV_NANO100_DURATION "Period"].
Definition HV_EMULATED_TIMER_CONTROL : cty := union 0 [
  fld UINT64 "AsUINT64";
  fld (struct 0 [
    bit UINT32 "Vector" 8;
    bit UINT32 "DeliveryMode" 3;
    bit UINT32 "LogicalDestinationMode" 1;
    bit UINT32 "Enabled" 1;
    bit UINT32 "Reserved1" 19;
    bit UINT32 "Mda" 32]) anonymous].
Definition HV_PM_TIMER_INFO : cty := union 0 [
  fld UINT64 "AsUINT64";
  fld (struct 0 [
    bit UINT32 "Port" 16;
    bit UINT32 "Width24" 1;
    bit UINT32 "Enabled" 1;
    bit UINT32 "Reserved1" 14;
    bit UINT32 "Reserved2" 32]) anonymous].
Definition HV_MONITOR_TRIGGER_GROUP : cty := union 0 [
  fld UINT64 "AsUINT64";
  fld (struct 0 [
    fld UINT32 "Pending";
    fld UINT32 "Armed"]) anonymous].
Definition HV_MONITOR_PARAMETER : cty := struct 0 [
  fld HV_CONNECTION_ID "ConnectionId";
  fld UINT16 "FlagNumber";
  fld UINT16 "ReservedZ"].
Definition HV_MONITOR_TRIGGER_STATE : cty := union 0 [
  fld UINT32 "AsUINT32";
  fld (struct 0 [
    bit UINT32 "GroupEnable" 4;
    bit UINT32 "ReservedZ" 28]) anonymous].
Definition HV_MONITOR_PAGE : cty := struct 0 [
  fld HV_MONITOR_TRIGGER_STATE "TriggerState";
  fld UINT32 "RsvdZ1";
  fld (CArr HV_MONITOR_TRIGGER_GROUP 4) "TriggerGroup";
  fld (CArr UINT64 3) "RsvdZ2";
  fld (CArr (CArr INT32 4) 32) "NextCheckTime";
  fld (CArr (CArr UINT16 4) 32) "Latency";
  fld (CArr UINT64 32) "RsvdZ3";
  fld (CArr (CArr HV_MONITOR_PARAMETER 4) 32) "Parameter";
  fld (CArr UINT8 1984) "Reserved4"].
Definition HV_DEBUG_CHANNEL_IDENTIFIER : cty := UINT16.
Definition HV_DEBUG_MAXIMUM_DATA_SIZE : Z := 4088.
Definition HV_DEBUG_OPTIONS : cty := UINT32.
Definition HV_DEBUG_POST_LOOP : Z := 0x00000001.
Definition HV_DEBUG_RETRIEVE_LOOP : Z := 0x00000001.
Definition HV_DEBUG_RETRIEVE_TEST_ACTIVITY : Z := 0x00000002.
Definition HV_DEBUG_PURGE_INCOMING_DATA : Z := 0x00000001.
Definition HV_DEBUG_PURGE_OUTGOING_DATA : Z := 0x00000002.
Definition HV_MUX_PACKET_LEADER : Z := 0x11223344.
Definition HV_MUX_PACKET_TYPE_DATA : Z := 0x0001.
Definition HV_MUX_PACKET_TYPE_BREAKIN : Z := 0x0002.
Definition HV_MUX_PACKET_TYPE_QUERY_CHANNELS : Z := 0x0003.
Definition HV_MUX_PACKET_TYPE_MAXIMUM : Z := HV_MUX_PACKET_TYPE_QUERY_CHANNELS.
Definition HV_MUX_PACKET_HEADER : cty := struct 1 [
  fld UINT32 "Leader";
  fld UINT16 "Type";
  fld UINT16 "Length";
  fld UINT32 "CRC";
  fld HV_DEBUG_CHANNEL_IDENTIFIER "Channel";
  fld UINT16 "Reserved"].
Definition MUX_CHANNEL_DATA : cty := struct 1 [
  fld UINT32 "Count";
  fld (CArr HV_DEBUG_CHANNEL_IDENTIFIER 1) "ChannelIds"].
Definition HV_DEBUG_CHANNEL_ID_HYPERVISOR : Z := 0x00000000.
Definition HV_DEBUG_CHANNEL_ID_ROOT : Z := 0x00000001.
Definition HV_DEBUG_CHANNEL_ID_DEFAULT : Z := 0x0000bada.
Definition HV_DEBUG_CHANNEL_ID_ASSIGN_START : Z := 0x00000002.
Definition HV_DEBUG_CHANNEL_ID_FW_MAX : Z := 0x0000003e.
Definition HV_CRASHDUMP_AREA_VERSION : Z := 2.
Definition HV_IMAGE_NAME_MAX_LENGTH : Z := 32.
Definition HV_DEFAULT_CRASHDUMP_SPA_PAGES : Z := 5.
Definition HV_CRASHDUMP_AREA_V1 : cty := struct 0 [
  fld UINT32 "Version";
  fld (union 0 [
    fld UINT32 "FlagsAsUINT32";
    fld (struct 0 [
      bit UINT32 "Valid" 1;
      bit UINT32 "Reserved" 31]) anonymous]) anonymous;
  fld UINT64 "HypervisorBase";
  fld UINT32 "SizeOfImage";
  fld UINT16 "ImageNameLength";
  fld (CArr HV_WCHAR HV_IMAGE_NAME_MAX_LENGTH) "ImageName";
  fld (CArr UINT64 5) "BugCheckData";
  fld CPtr "BugCheckErrorReturnAddress";
  fld UINT64 "PageTableBase";
  fld UINT64 "PfnDataBase";
  fld UINT64 "DebuggerDataBlock";
  fld UINT32 "NumberProcessors";
  fld UINT32 "ProcessorStateOffset";
  fld UINT32 "ProcessorStateSize";
  fld UINT32 "CrashStackSize";
  fld UINT32 "CrashStackOffset";
  fld UINT64 "CrashStackAddress"].
Definition HV_CRASHDUMP_PROCESSOR_STATE : cty := struct 0 [
  fld UINT32 "RegisterStateOffset";
  fld UINT32 "RegisterStateSize";
  fld UINT32 "CrashStackSize";
  fld UINT32 "CrashStackOffset";
  fld UINT64 "CrashStackAddress";
  fld UINT32 "PlatformStateSize";
  fld UINT32 "PlatformStateOffset"].
Definition CODE_CHUNK_SIZE : Z := 0x200.
Definition HV_CRASHDUMP_AREA_V2 : cty := struct 0 [
  fld UINT32 "Version";
  fld (union 0 [
    fld UINT32 "FlagsAsUINT32";
    fld (struct 0 [
      bit UINT32 "Valid" 1;
      bit UINT32 "Reserved" 31]) anonymous]) anonymous;
  fld UINT64 "HypervisorBase";
  fld UINT32 "SizeOfImage";
  fld UINT32 "CheckSum";
  fld UINT64 "CurrentPartition";
  fld UINT64 "PartitionsCreated";
  fld UINT32 "PartitionsRunning";
  fld UINT64 "CompartmentFreePfns";
  fld UINT16 "ImageNameLength";
  fld (CArr HV_WCHAR HV_IMAGE_NAME_MAX_LENGTH) "ImageName";
  fld (CArr UINT64 5) "BugCheckData";
  fld UINT64 "BugCheckErrorReturnAddress";
  fld UINT64 "PageTableBase";
  fld UINT64 "PfnDataBase";
  fld UINT64 "DebuggerDataBlock";
  fld UINT32 "NumberProcessors";
  fld UINT32 "CurrentProcessor";
  fld UINT64 "CodeSpa";
  fld (CArr UINT8 CODE_CHUNK_SIZE) "CodeChunk";
  fld UINT32 "ContextCount";
  fld UINT32 "ContextOffset";
  fld UINT32 "ContextSize"].
Definition HV_CRASHDUMP_AREA_V3 : cty := struct 0 [
  fld UINT32 "Version";
  fld (union 0 [
    fld UINT32 "FlagsAsUINT32";
    fld (struct 0 [
      bit UINT32 "Valid" 1;
      bit UINT32 "Reserved" 31]) anonymous]) anonymous;
  fld UINT64 "HypervisorBase";
  fld UINT32 "SizeOfImage";
  fld UINT32 "CheckSum";
  fld UINT64 "CurrentPartition";
  fld UINT64 "PartitionsCreated";
  fld UINT32 "PartitionsRunning";
  fld UINT64 "CompartmentFreePfns";
  fld UINT16 "ImageNameLength";
  fld (CArr HV_WCHAR HV_IMAGE_NAME_MAX_LENGTH) "ImageName";
  fld (CArr UINT64 5) "BugCheckData";
  fld UINT64 "BugCheckErrorReturnAddress";
  fld UINT64 "PageTableBase";
  fld UINT64 "PfnDataBase";
  fld UINT64 "MaxPfn";
  fld UINT64 "DebuggerDataBlock";
  fld UINT32 "NumberProcessors";
  fld UINT32 "CurrentProcessor";
  fld UINT64 "CodeSpa";
  fld (CArr UINT8 CODE_CHUNK_SIZE) "CodeChunk";
  fld UINT32 "ContextCount";
  fld UINT32 "ContextOffset";
  fld UINT32 "ContextSize";
  fld UINT32 "PfnEntrySize";
  fld UINT16 "AllocatedPfnEntryMask"].
Definition HV_CRASHDUMP_AREA_V4 : cty := struct 0 [
  fld UINT32 "Version";
  fld (union 0 [
    fld UINT32 "FlagsAsUINT32";
    fld (struct 0 [
      bit UINT32 "Valid" 1;
      bit UINT32 "Reserved" 31]) anonymous]) anonymous;
  fld UINT64 "HypervisorBase";
  fld UINT32 "SizeOfImage";
  fld UINT32 "CheckSum";
  fld UINT64 "CurrentPartition";
  fld UINT64 "PartitionsCreated";
  fld UINT32 "PartitionsRunning";
  fld UINT64 "CompartmentFreePfns";
  fld UINT16 "ImageNameLength";
  fld (CArr HV_WCHAR HV_IMAGE_NAME_MAX_LENGTH) "ImageName";
  fld (CArr UINT64 5) "BugCheckData";
  fld UINT64 "BugCheckErrorReturnAddress";
  fld UINT64 "PageTableBase";
  fld UINT64 "PfnDataBase";
  fld UINT64 "MaxPfn";
  fld UINT64 "DebuggerDataBlock";
  fld UINT32 "NumberProcessors";
  fld UINT32 "CurrentProcessor";
  fld UINT64 "CodeSpa";
  fld (CArr UINT8 CODE_CHUNK_SIZE) "CodeChunk";
  fld UINT32 "ContextCount";
  fld UINT32 "ContextOffset";
  fld UINT32 "ContextSize";
  fld UINT32 "PfnEntrySize";
  fld UINT16 "AllocatedPfnEntryMask";
  fld UINT8 "Partial"].
Definition HV_CRASHDUMP_AREA : cty := struct 0 [
  fld UINT32 "Version";
  fld (union 0 [
    fld UINT32 "FlagsAsUINT32";
    fld (struct 0 [
      bit UINT32 "Valid" 1;
      bit UINT32 "NotAllProcessorsSuspended" 1;
      bit UINT32 "ExcludesNonEssentialPages" 1;
      bit UINT32 "Reserved" 29]) anonymous]) anonymous;
  fld (union 0 [
    fld (struct 0 [
      fld UINT64 "HypervisorBase";
      fld UINT32 "SizeOfImage";
      fld UINT32 "CheckSum"]) anonymous;
    fld (CArr (struct 0 [
      fld UINT64 "Base";
      fld UINT32 "Size";
      fld UINT32 "Checksum";
      fld UINT32 "Timestamp"]) 3) "ImageInfo"]) anonymous;
  fld UINT64 "CurrentPartition";
  fld UINT64 "PartitionsCreated";
  fld UINT32 "PartitionsRunning";
  fld UINT64 "CompartmentFreePfns";
  fld UINT16 "ImageNameLength";
  fld (CArr HV_WCHAR HV_IMAGE_NAME_MAX_LENGTH) "ImageName";
  fld (CArr UINT64 5) "BugCheckData";
  fld UINT64 "BugCheckErrorReturnAddress";
  fld UINT64 "PageTableBase";
  fld UINT64 "PfnDataBase";
  fld UINT64 "DebuggerDataBlock";
  fld UINT32 "NumberProcessors";
  fld UINT32 "CurrentProcessor";
  fld UINT64 "CodeSpa";
  fld (CArr UINT8 CODE_CHUNK_SIZE) "CodeChunk";
  fld UINT32 "ContextCount";
  fld UINT32 "ContextOffset";
  fld UINT32 "ContextSize";
  fld UINT8 "Partial"].
Definition HV_X64_VP_EXECUTION_STATE : cty := union 0 [
  fld UINT16 "AsUINT16";
  fld (struct 0 [
    bit UINT16 "Cpl" 2;
    bit UINT16 "Cr0Pe" 1;
    bit UINT16 "Cr0Am" 1;
    bit UINT16 "EferLma" 1;
    bit UINT16 "DebugActive" 1;
    bit UINT16 "InterruptionPending" 1;
    bit UINT16 "Vtl" 4;
    bit UINT16 "EnclaveMode" 1;
    bit UINT16 "InterruptShadow" 1;
    bit UINT16 "VirtualizationFaultActive" 1;
    bit UINT16 "Reserved" 2]) anonymous].
Definition HV_X64_INTERCEPT_MESSAGE_HEADER : cty := struct 0 [
  fld HV_VP_INDEX "VpIndex";
  bit UINT8 "InstructionLength" 4;
  bit UINT8 "Cr8" 4;
  fld UINT8 "InterceptAccessType";
  fld HV_X64_VP_EXECUTION_STATE "ExecutionState";
  fld HV_X64_SEGMENT_REGISTER "CsSegment";
  fld UINT64 "Rip";
  fld UINT64 "Rflags"].
Definition HV_X64_MEMORY_ACCESS_INFO : cty := union 0 [
  fld UINT8 "AsUINT8";
  fld (struct 0 [
    bit UINT8 "GvaValid" 1;
    bit UINT8 "GvaGpaValid" 1;
    bit UINT8 "HypercallOutputPending" 1;
    bit UINT8 "TlbLockedNoOverlay" 1;
    bit UINT8 "Reserved" 4]) anonymous].
Definition HV_X64_MEMORY_INTERCEPT_MESSAGE : cty := struct 0 [
  fld HV_X64_INTERCEPT_MESSAGE_HEADER "Header";
  fld (enum_type HV_CACHE_TYPE) "CacheType";
  fld UINT8 "InstructionByteCount";
  fld HV_X64_MEMORY_ACCESS_INFO "MemoryAccessInfo";
  fld UINT8 "TprPriority";
  fld UINT8 "Reserved1";
  fld UINT64 "GuestVirtualAddress";
  fld UINT64 "GuestPhysicalAddress";
  fld (CArr UINT8 16) "InstructionBytes";
  fld HV_X64_SEGMENT_REGISTER "DsSegment";
  fld HV_X64_SEGMENT_REGISTER "SsSegment";
  fld UINT64 "Rax";
  fld UINT64 "Rcx";
  fld UINT64 "Rdx";
  fld UINT64 "Rbx";
  fld UINT64 "Rsp";
  fld UINT64 "Rbp";
  fld UINT64 "Rsi";
  fld UINT64 "Rdi";
  fld UINT64 "R8";
  fld UINT64 "R9";
  fld UINT64 "R10";
  fld UINT64 "R11";
  fld UINT64 "R12";
  fld UINT64 "R13";
  fld UINT64 "R14";
  fld UINT64 "R15"].
Definition HV_X64_MSR_INTERCEPT_MESSAGE : cty := struct 0 [
  fld HV_X64_INTERCEPT_MESSAGE_HEADER "Header";
  fld UINT32 "MsrNumber";
  fld UINT32 "Reserved";
  fld UINT64 "Rdx";
  fld UINT64 "Rax"].
Definition HV_X64_EXCEPTION_INFO : cty := union 0 [
  fld UINT8 "AsUINT8";
  fld (struct 0 [
    bit UINT8 "ErrorCodeValid" 1;
    bit UINT8 "SoftwareException" 1;
    bit UINT8 "Reserved" 6]) anonymous].
Definition HV_X64_EXCEPTION_INTERCEPT_MESSAGE : cty := struct 0 [
  fld HV_X64_INTERCEPT_MESSAGE_HEADER "Header";
  fld UINT16 "ExceptionVector";
  fld HV_X64_EXCEPTION_INFO "ExceptionInfo";
  fld UINT8 "InstructionByteCount";
  fld UINT32 "ErrorCode";
  fld UINT64 "ExceptionParameter";
  fld UINT64 "Reserved";
  fld (CArr UINT8 16) "InstructionBytes";
  fld HV_X64_SEGMENT_REGISTER "DsSegment";
  fld HV_X64_SEGMENT_REGISTER "SsSegment";
  fld UINT64 "Rax";
  fld UINT64 "Rcx";
  fld UINT64 "Rdx";
  fld UINT64 "Rbx";
  fld UINT64 "Rsp";
  fld UINT64 "Rbp";
  fld UINT64 "Rsi";
  fld UINT64 "Rdi";
  fld UINT64 "R8";
  fld UINT64 "R9";
  fld UINT64 "R10";
  fld UINT64 "R11";
  fld UINT64 "R12";
  fld UINT64 "R13";
  fld UINT64 "R14";
  fld UINT64 "R15"].
Definition HV_X64_UNRECOVERABLE_EXCEPTION_MESSAGE : cty := struct 0 [
  fld HV_X64_INTERCEPT_MESSAGE_HEADER "Header"].
Definition HV_HYPERCALL_INTERCEPT_MAX_XMM_REGISTERS : Z := 6.
Definition HV_X64_HYPERCALL_INTERCEPT_MESSAGE : cty := struct 0 [
  fld HV_X64_INTERCEPT_MESSAGE_HEADER "Header";
  fld UINT64 "Rax";
  fld UINT64 "Rbx";
  fld UINT64 "Rcx";
  fld UINT64 "Rdx";
  fld UINT64 "R8";
  fld UINT64 "Rsi";
  fld UINT64 "Rdi";
  fld (CArr HV_UINT128 HV_HYPERCALL_INTERCEPT_MAX_XMM_REGISTERS) "Xmmregisters";
  fld (struct 0 [
    bit UINT32 "Isolated" 1;
    bit UINT32 "Reserved" 31]) anonymous].
Definition HV_X64_REGISTER_ACCESS_INFO : cty := union 0 [
  fld HV_REGISTER_VALUE "SourceValue";
  fld (enum_type HV_REGISTER_NAME) "DestinationRegister";
  fld UINT64 "SourceAddress";
  fld UINT64 "DestinationAddress"].
Definition HV_X64_REGISTER_INTERCEPT_MESSAGE : cty := struct 0 [
  fld HV_X64_INTERCEPT_MESSAGE_HEADER "Header";
  fld (struct 0 [
    bit UINT8 "IsMemoryOp" 1;
    bit UINT8 "Reserved" 7]) anonymous;
  fld (CArr UINT8 3) "Reserved1";
  fld (enum_type HV_REGISTER_NAME) "RegisterName";
  fld HV_X64_REGISTER_ACCESS_INFO "AccessInfo"].
Definition HV_X64_INVALID_VP_REGISTER_MESSAGE : cty := struct 0 [
  fld HV_VP_INDEX "VpIndex";
  fld UINT32 "Reserved"].
Definition HV_X64_UNSUPPORTED_FEATURE_CODE : enum := [
  Is "HvUnsupportedFeatureIntercept" 1;
  Is "HvUnsupportedFeatureTaskSwitchTss" 2].
Definition HV_X64_UNSUPPORTED_FEATURE_MESSAGE : cty := struct 0 [
  fld HV_VP_INDEX "VpIndex";
  fld (enum_type HV_X64_UNSUPPORTED_FEATURE_CODE) "FeatureCode";
  fld UINT64 "FeatureParameter"].
Definition HV_X64_IO_PORT_ACCESS_INFO : cty := union 0 [
  fld UINT8 "AsUINT8";
  fld (struct 0 [
    bit UINT8 "AccessSize" 3;
    bit UINT8 "StringOp" 1;
    bit UINT8 "RepPrefix" 1;
    bit UINT8 "Reserved" 3]) anonymous].
Definition HV_X64_CPUID_INTERCEPT_MESSAGE : cty := struct 0 [
  fld HV_X64_INTERCEPT_MESSAGE_HEADER "Header";
  fld UINT64 "Rax";
  fld UINT64 "Rcx";
  fld UINT64 "Rdx";
  fld UINT64 "Rbx";
  fld UINT64 "DefaultResultRax";
  fld UINT64 "DefaultResultRcx";
  fld UINT64 "DefaultResultRdx";
  fld UINT64 "DefaultResultRbx"].
Definition HV_X64_IO_PORT_INTERCEPT_MESSAGE : cty := struct 0 [
  fld HV_X64_INTERCEPT_MESSAGE_HEADER "Header";
  fld UINT16 "PortNumber";
  fld HV_X64_IO_PORT_ACCESS_INFO "AccessInfo";
  fld UINT8 "InstructionByteCount";
  fld UINT32 "Reserved";
  fld UINT64 "Rax";
  fld (CArr UINT8 16) "InstructionBytes";
  fld HV_X64_SEGMENT_REGISTER "DsSegment";
  fld HV_X64_SEGMENT_REGISTER "EsSegment";
  fld UINT64 "Rcx";
  fld UINT64 "Rsi";
  fld UINT64 "Rdi"].
Definition HV_X64_LEGACY_FP_ERROR_MESSAGE : cty := struct 0 [
  fld HV_VP_INDEX "VpIndex";
  fld UINT32 "Reserved"].
Definition HV_X64_HALT_MESSAGE : cty := struct 0 [
  fld HV_X64_INTERCEPT_MESSAGE_HEADER "Header"].
Definition HV_X64_PENDING_INTERRUPT : Z := 0.
Definition HV_X64_PENDING_NMI : Z := 2.
Definition HV_X64_PENDING_EXCEPTION : Z := 3.
Definition HV_X64_INTERRUPTION_DELIVERABLE_MESSAGE : cty := struct 0 [
  fld HV_X64_INTERCEPT_MESSAGE_HEADER "Header";
  fld UINT32 "DeliverableType";
  fld UINT32 "Rsvd"].
Definition HV_X64_SINT_DELIVERABLE_MESSAGE : cty := struct 0 [
  fld HV_X64_INTERCEPT_MESSAGE_HEADER "Header";
  fld UINT16 "DeliverableSints";
  fld (CArr UINT8 6) "Rsvd"].
Definition HV_X64_SIPI_INTERCEPT_MESSAGE : cty := struct 0 [
  fld HV_X64_INTERCEPT_MESSAGE_HEADER "Header";
  fld HV_VP_INDEX "TargetVpIndex";
  fld HV_INTERRUPT_VECTOR "InterruptVector"].
Definition HV_INPUT_GET_VP_REGISTER_CODE : cty := aligned HV_CALL_ALIGNMENT (struct 0 [
  fld HV_PARTITION_ID "PartitionId";
  fld UINT32 "RegisterIndex"]).
Definition HV_GUEST_OS_VENDOR_PRIVATE : enum := [
  Is "HvGuestOsVendorHPE" 0x0002;
  Is "HvGuestOsVendorLANCOM" 0x0200].
Definition HV_GUEST_OS_OPENSOURCE_IDS : enum := [
  Is "HvGuestOsOpenSourceUndefined" 0x0;
  Is "HvGuestOsOpenSourceLinux" 0x1;
  Is "HvGuestOsOpenSourceFreeBSD" 0x2;
  Is "HvGuestOsOpenSourceXen" 0x3;
  Is "HvGuestOsOpenSourceIllumos" 0x4].
Definition HV_PARTITION_PROPERTY : cty := UINT64.
Definition HV_PARTITION_PROPERTY_CODE : enum := [
  Is "HvPartitionPropertyPrivilegeFlags" 0x00010000;
  Is "HvPartitionPropertySyntheticProcFeatures" 0x00010001;
  Is "HvPartitionPropertyAllowedParentUserModeHypercalls" 0x00010002;
  Is "HvPartitionPropertySuspend" 0x00020000;
  Is "HvPartitionPropertyCpuReserve" 0x00020001;
  Is "HvPartitionPropertyCpuCap" 0x00020002;
  Is "HvPartitionPropertyCpuWeight" 0x00020003;
  Is "HvPartitionPropertyCpuGroupId" 0x00020004;
  Is "HvPartitionPropertyEmulatedTimerPeriod" 0x00030000;
  Is "HvPartitionPropertyEmulatedTimerControl" 0x00030001;
  Is "HvPartitionPropertyPmTimerAssist" 0x00030002;
  Is "HvPartitionPropertyTimeFreeze" 0x00030003;
  Is "HvPartitionPropertyApicFrequency" 0x00030004;
  Is "HvPartitionPropertyReferenceTime" 0x00030005;
  Is "HvPartitionPropertyDebugChannelId" 0x00040000;
  Is "HvPartitionPropertyVirtualTlbPageCount" 0x00050000;
  Is "HvPartitionPropertyVsmConfig" 0x00050001;
  Is "HvPartitionPropertyZeroMemoryOnReset" 0x00050002;
  Is "HvPartitionPropertyProcessorsPerSocket" 0x00050003;
  Is "HvPartitionPropertyNestedTlbSize" 0x00050004;
  Is "HvPartitionPropertyGpaPageAccessTracking" 0x00050005;
  Is "HvPartitionPropertyVsmPermissionsDirtySinceLastQuery" 0x00050006;
  Is "HvPartitionPropertySgxLaunchControlConfig" 0x00050007;
  Is "HvPartitionPropertyDefaultSgxLaunchControl0" 0x00050008;
  Is "HvPartitionPropertyDefaultSgxLaunchControl1" 0x00050009;
  Is "HvPartitionPropertyDefaultSgxLaunchControl2" 0x0005000a;
  Is "HvPartitionPropertyDefaultSgxLaunchControl3" 0x0005000b;
  Is "HvPartitionPropertyIsolationState" 0x0005000c;
  Is "HvPartitionPropertyIsolationControl" 0x0005000d;
  Is "HvPartitionPropertyAllocationId" 0x0005000e;
  Is "HvPartitionPropertyMonitoringId" 0x0005000f;
  Is "HvPartitionPropertyImplementedPhysicalAddressBits" 0x00050010;
  Is "HvPartitionPropertyNonArchitecturalCoreSharing" 0x00050011;
  Is "HvPartitionPropertyHypercallDoorbellPage" 0x00050012;
  Is "HvPartitionPropertyCppcRequestValue" 0x00050013;
  Is "HvPartitionPropertyIsolationPolicy" 0x00050014;
  Is "HvPartitionPropertyDmaCapableDevices" 0x00050015;
  Is "HvPartitionPropertyProcessorsPerL3" 0x00050016;
  Is "HvPartitionPropertyUnimplementedMsrAction" 0x00050017;
  Is "HvPartitionPropertyAmdNodesPerSocket" 0x00050018;
  Is "HvPartitionPropertyReferenceTscPageActive" 0x00050019;
  Is "HvPartitionPropertyAutoEoiEnabled" 0x0005001a;
  Is "HvPartitionPropertyL3CacheWays" 0x0005001b;
  Is "HvPartitionPropertyIsolationType" 0x0005001c;
  Is "HvPartitionPropertyPerfmonMode" 0x0005001d;
  Is "HvPartitionPropertyDepositStatus" 0x0005001e;
  Is "HvPartitionPropertyMirroring" 0x0005001f;
  Is "HvPartitionPropertyMirrorState" 0x00050020;
  Is "HvPartitionPropertyMgmtVtlMaxMemorySections" 0x00050021;
  Is "HvPartitionPropertySevVmgexitOffloads" 0x00050022;
  Is "HvPartitionPropertyPenalizeBusLock" 0x00050023;
  Is "HvPartitionPropertyTopologyApicIdOptIn" 0x00050024;
  Is "HvPartitionPropertyCppcResourcePrioritiesValue" 0x00050025;
  Is "HvPartitionPropertyPartitionDiagBufferConfig" 0x00050026;
  Is "HvPartitionPropertyTerminateOnInstructionTimeout" 0x00050027;
  Is "HvPartitionPropertyProcessorVendor" 0x00060000;
  Is "HvPartitionPropertyProcessorFeaturesDeprecated" 0x00060001;
  Is "HvPartitionPropertyProcessorXsaveFeatures" 0x00060002;
  Is "HvPartitionPropertyProcessorCLFlushSize" 0x00060003;
  Is "HvPartitionPropertyEnlightenmentModifications" 0x00060004;
  Is "HvPartitionPropertyCompatibilityVersion" 0x00060005;
  Is "HvPartitionPropertyPhysicalAddressWidth" 0x00060006;
  Is "HvPartitionPropertyXsaveStates" 0x00060007;
  Is "HvPartitionPropertyMaxXsaveDataSize" 0x00060008;
  Is "HvPartitionPropertyProcessorClockFrequency" 0x00060009;
  Is "HvPartitionPropertyProcessorFeatures0" 0x0006000a;
  Is "HvPartitionPropertyProcessorFeatures1" 0x0006000b;
  Is "HvPartitionPropertyProcessorInstructionCLFlushSize" 0x0006000c;
  Is "HvPartitionPropertyProcessorZeroDataCacheBs" 0x0006000d;
  Is "HvPartitionPropertyProcessorPREbits" 0x0006000e;
  Is "HvPartitionPropertyProcessorPRIbits" 0x0006000f;
  Is "HvPartitionPropertyRootProcessorFeatures0" 0x00060010;
  Is "HvPartitionPropertyRootProcessorFeatures1" 0x00060011;
  Is "HvPartitionPropertyRootProcessorXsaveFeatures" 0x00060012;
  Is "HvPartitionPropertyRootSyntheticProcFeatures" 0x00060013;
  Is "HvPartitionPropertyPhysicalAddressSize" 0x00060014;
  Is "HvPartitionPropertyGuestOsId" 0x00070000;
  Is "HvPartitionPropertyProcessorVirtualizationFeatures" 0x00080000;
  Is "HvPartitionPropertyMaxHardwareIsolatedGuests" 0x00080001;
  Is "HvPartitionPropertySnpEnabled" 0x00080002;
  Is "HvPartitionPropertyNestedVmxBasic" 0x00080003;
  Is "HvPartitionPropertyNestedVmxPinbasedCtls" 0x00080004;
  Is "HvPartitionPropertyNestedVmxProcbasedCtls" 0x00080005;
  Is "HvPartitionPropertyNestedVmxExitCtls" 0x00080006;
  Is "HvPartitionPropertyNestedVmxEntryCtls" 0x00080007;
  Is "HvPartitionPropertyNestedVmxMisc" 0x00080008;
  Is "HvPartitionPropertyNestedVmxCr0Fixed0" 0x00080009;
  Is "HvPartitionPropertyNestedVmxCr0Fixed1" 0x0008000a;
  Is "HvPartitionPropertyNestedVmxCr4Fixed0" 0x0008000b;
  Is "HvPartitionPropertyNestedVmxCr4Fixed1" 0x0008000c;
  Is "HvPartitionPropertyNestedVmxVmcsEnum" 0x0008000d;
  Is "HvPartitionPropertyNestedVmxProcbasedCtls2" 0x0008000e;
  Is "HvPartitionPropertyNestedVmxEptVpidCap" 0x0008000f;
  Is "HvPartitionPropertyNestedVmxTruePinbasedCtls" 0x00080010;
  Is "HvPartitionPropertyNestedVmxTrueProcbasedCtls" 0x00080011;
  Is "HvPartitionPropertyNestedVmxTrueExitCtls" 0x00080012;
  Is "HvPartitionPropertyNestedVmxTrueEntryCtls" 0x00080013;
  Is "HvPartitionPropertyVhChildrenState" 0x00080100;
  Is "HvPartitionPropertyMaxHierarchicalPartitionCount" 0x00080101;
  Is "HvPartitionPropertyMaxHierarchicalVpCount" 0x00080102;
  Is "HvPartitionPropertyInheritedDeviceDomainReservedRegions" 0x00090000;
  Is "HvPartitionPropertyTdMrConfigId" 0x00090001;
  Is "HvPartitionPropertyTdMrOwner" 0x00090002;
  Is "HvPartitionPropertyTdMrOwnerConfig" 0x00090003;
  Is "HvPartitionPropertyExRootProcessorFeaturesExperimental" 0x00090004;
  Is "HvPartitionPropertyRootVpSharedPages" 0x00090005;
  Is "HVPartitionPropertyExtendedProperyMax" 0x000a0000].
Definition HvPartitionPropertyMinimumCpuReserve : Z := Z.shiftl 0 16.
Definition HvPartitionPropertyMaximumCpuReserve : Z := Z.shiftl 1 16.
Definition HvPartitionPropertyMinimumCpuCap : Z := Z.shiftl 0 16.
Definition HvPartitionPropertyMaximumCpuCap : Z := Z.shiftl 1 16.
Definition HvPartitionPropertyMinimumCpuWeight : Z := 1.
Definition HvPartitionPropertyMaximumCpuWeight : Z := 10000.
Definition HV_REGISTER_NAME_PRIVATE_1 : enum := [
  Is "HvRegisterInternalActivityState" 0x00000004;
  Is "HvRegisterIptFeaturesInfo" 0x00000208;
  Is "HvRegisterSystemReset" 0x00000230;
  Is "HvRegisterDeliverabilityNotifications" 0x00010006;
  Is "HvRegisterPendingEvent2" 0x00010008;
  Is "HvRegisterPendingEvent3" 0x00010009;
  Is "HvRegisterVsmVpVtlControl" 0x000d0000;
  Is "HvRegisterGuestVsmPartitionConfig" 0x000d0008;
  Is "HvRegisterHvptControl" 0xd0000009;
  Is "HvX64RegisterMtrrCap" 0x0008000d;
  Is "HvX64RegisterMtrrDefType" 0x0008000e;
  Is "HvX64RegisterMtrrPhysBase0" 0x00080010;
  Is "HvX64RegisterMtrrPhysBase1" 0x00080011;
  Is "HvX64RegisterMtrrPhysBase2" 0x00080012;
  Is "HvX64RegisterMtrrPhysBase3" 0x00080013;
  Is "HvX64RegisterMtrrPhysBase4" 0x00080014;
  Is "HvX64RegisterMtrrPhysBase5" 0x00080015;
  Is "HvX64RegisterMtrrPhysBase6" 0x00080016;
  Is "HvX64RegisterMtrrPhysBase7" 0x00080017;
  Is "HvX64RegisterMtrrPhysBase8" 0x00080018;
  Is "HvX64RegisterMtrrPhysBase9" 0x00080019;
  Is "HvX64RegisterMtrrPhysBaseA" 0x0008001a;
  Is "HvX64RegisterMtrrPhysBaseB" 0x0008001b;
  Is "HvX64RegisterMtrrPhysBaseC" 0x0008001c;
  Is "HvX64RegisterMtrrPhysBaseD" 0x0008001d;
  Is "HvX64RegisterMtrrPhysBaseE" 0x0008001e;
  Is "HvX64RegisterMtrrPhysBaseF" 0x0008001f;
  Is "HvX64RegisterMtrrPhysMask0" 0x00080040;
  Is "HvX64RegisterMtrrPhysMask1" 0x00080041;
  Is "HvX64RegisterMtrrPhysMask2" 0x00080042;
  Is "HvX64RegisterMtrrPhysMask3" 0x00080043;
  Is "HvX64RegisterMtrrPhysMask4" 0x00080044;
  Is "HvX64RegisterMtrrPhysMask5" 0x00080045;
  Is "HvX64RegisterMtrrPhysMask6" 0x00080046;
  Is "HvX64RegisterMtrrPhysMask7" 0x00080047;
  Is "HvX64RegisterMtrrPhysMask8" 0x00080048;
  Is "HvX64RegisterMtrrPhysMask9" 0x00080049;
  Is "HvX64RegisterMtrrPhysMaskA" 0x0008004a;
  Is "HvX64RegisterMtrrPhysMaskB" 0x0008004b;
  Is "HvX64RegisterMtrrPhysMaskC" 0x0008004c;
  Is "HvX64RegisterMtrrPhysMaskD" 0x0008004d;
  Is "HvX64RegisterMtrrPhysMaskE" 0x0008004e;
  Is "HvX64RegisterMtrrPhysMaskF" 0x0008004f;
  Is "HvX64RegisterMtrrFix64k00000" 0x00080070;
  Is "HvX64RegisterMtrrFix16k80000" 0x00080071;
  Is "HvX64RegisterMtrrFix16kA0000" 0x00080072;
  Is "HvX64RegisterMtrrFix4kC0000" 0x00080073;
  Is "HvX64RegisterMtrrFix4kC8000" 0x00080074;
  Is "HvX64RegisterMtrrFix4kD0000" 0x00080075;
  Is "HvX64RegisterMtrrFix4kD8000" 0x00080076;
  Is "HvX64RegisterMtrrFix4kE0000" 0x00080077;
  Is "HvX64RegisterMtrrFix4kE8000" 0x00080078;
  Is "HvX64RegisterMtrrFix4kF0000" 0x00080079;
  Is "HvX64RegisterMtrrFix4kF8000" 0x0008007a;
  Is "HvX64RegisterMCount" 0x0008007e;
  Is "HvX64RegisterACount" 0x0008007f;
  Is "HvX64RegisterVirtSpecCtrl" 0x00080086;
  Is "HvX64RegisterTscVirtualOffset" 0x00080087;
  Is "HvX64RegisterTsxCtrl" 0x00080088;
  Is "HvX64RegisterMsrMcUpdatePatchLevel" 0x00080089;
  Is "HvX64RegisterAvailable1" 0x0008008a;
  Is "HvX64RegisterXss" 0x0008008b;
  Is "HvX64RegisterUCet" 0x0008008c;
  Is "HvX64RegisterSCet" 0x0008008d;
  Is "HvX64RegisterSsp" 0x0008008e;
  Is "HvX64RegisterPl0Ssp" 0x0008008f;
  Is "HvX64RegisterPl1Ssp" 0x00080090;
  Is "HvX64RegisterPl2Ssp" 0x00080091;
  Is "HvX64RegisterPl3Ssp" 0x00080092;
  Is "HvX64RegisterInterruptSspTableAddr" 0x00080093;
  Is "HvX64RegisterTscVirtualMultiplier" 0x00080094;
  Is "HvX64RegisterTscDeadline" 0x00080095;
  Is "HvX64RegisterTscAdjust" 0x00080096;
  Is "HvX64RegisterPasid" 0x00080097;
  Is "HvX64RegisterUmwaitControl" 0x00080098;
  Is "HvX64RegisterXfd" 0x00080099;
  Is "HvX64RegisterXfdErr" 0x0008009a;
  Is "HvX64RegisterVpRuntime" 0x00090000;
  Is "HvRegisterReferenceTsc" 0x00090017;
  Is "HvRegisterVpConfig" 0x00090018;
  Is "HvRegisterGhcb" 0x00090019;
  Is "HvRegisterReferenceTscSequence" 0x0009001a;
  Is "HvRegisterGuestSchedulerEvent" 0x0009001b;
  Is "HvX64RegisterRegPage" 0x0009001c;
  Is "HvX64RegisterSevControl" 0x00090040;
  Is "HvX64RegisterYmm0Low" 0x000c0000;
  Is "HvX64RegisterYmm1Low" 0x000c0001;
  Is "HvX64RegisterYmm2Low" 0x000c0002;
  Is "HvX64RegisterYmm3Low" 0x000c0003;
  Is "HvX64RegisterYmm4Low" 0x000c0004;
  Is "HvX64RegisterYmm5Low" 0x000c0005;
  Is "HvX64RegisterYmm6Low" 0x000c0006;
  Is "HvX64RegisterYmm7Low" 0x000c0007;
  Is "HvX64RegisterYmm8Low" 0x000c0008;
  Is "HvX64RegisterYmm9Low" 0x000c0009;
  Is "HvX64RegisterYmm10Low" 0x000c000a;
  Is "HvX64RegisterYmm11Low" 0x000c000b;
  Is "HvX64RegisterYmm12Low" 0x000c000c;
  Is "HvX64RegisterYmm13Low" 0x000c000d;
  Is "HvX64RegisterYmm14Low" 0x000c000e;
  Is "HvX64RegisterYmm15Low" 0x000c000f;
  Is "HvX64RegisterYmm0High" 0x000c0010;
  Is "HvX64RegisterYmm1High" 0x000c0011;
  Is "HvX64RegisterYmm2High" 0x000c0012;
  Is "HvX64RegisterYmm3High" 0x000c0013;
  Is "HvX64RegisterYmm4High" 0x000c0014;
  Is "HvX64RegisterYmm5High" 0x000c0015;
  Is "HvX64RegisterYmm6High" 0x000c0016;
  Is "HvX64RegisterYmm7High" 0x000c0017;
  Is "HvX64RegisterYmm8High" 0x000c0018].
Definition HV_REGISTER_NAME_PRIVATE_2 : enum := [
  Is "HvX64RegisterYmm9High" 0x000c0019;
  Is "HvX64RegisterYmm10High" 0x000c001a;
  Is "HvX64RegisterYmm11High" 0x000c001b;
  Is "HvX64RegisterYmm12High" 0x000c001c;
  Is "HvX64RegisterYmm13High" 0x000c001d;
  Is "HvX64RegisterYmm14High" 0x000c001e;
  Is "HvX64RegisterYmm15High" 0x000c001f].
Definition HV_REGISTER_NAME_PRIVATE : enum := HV_REGISTER_NAME_PRIVATE_1 ++ HV_REGISTER_NAME_PRIVATE_2.
Definition HV_STATS_OBJECT_FLAG : cty := UINT16.
Definition HvStatsObjectSelfStats : Z := 0x0001.
Definition HV_STATS_OBJECT_IDENTITY : cty := union 0 [
  fld (struct 0 [
    fld UINT64 "ReservedZ0";
    fld UINT32 "ReservedZ1";
    fld UINT16 "ReservedZ2";
    fld UINT8 "ReservedZ3";
    fld UINT8 "ReservedZ4"]) "Hypervisor";
  fld (struct 0 [
    fld HV_LOGICAL_PROCESSOR_INDEX "LogicalProcessorIndex";
    fld UINT32 "ReservedZ0";
    fld UINT32 "ReservedZ1";
    fld UINT16 "ReservedZ2";
    fld UINT8 "ReservedZ3";
    fld UINT8 "ReservedZ4"]) "LogicalProcessor";
  fld (struct 0 [
    fld HV_PARTITION_ID "PartitionId";
    fld UINT32 "ReservedZ1";
    fld HV_STATS_OBJECT_FLAG "Flags";
    fld UINT8 "ReservedZ3";
    fld UINT8 "ReservedZ4"]) "Partition";
  fld (struct 0 [
    fld HV_PARTITION_ID "PartitionId";
    fld HV_VP_INDEX "VpIndex";
    fld HV_STATS_OBJECT_FLAG "Flags";
    fld UINT8 "ReservedZ3";
    fld UINT8 "ReservedZ4"]) "Vp"].

(** ** The records and enumerations of the file *)

Definition TlfsState_types : list (string * cty) := [
  ("HV_X64_APIC_EOI_MESSAGE", HV_X64_APIC_EOI_MESSAGE);
  ("HV_PORT_INFO", HV_PORT_INFO);
  ("HV_CONNECTION_INFO", HV_CONNECTION_INFO);
  ("HV_MESSAGE_HEADER_PRIVATE", HV_MESSAGE_HEADER_PRIVATE);
  ("HV_FAULT_DEVICE_ID", HV_FAULT_DEVICE_ID);
  ("HV_IOMMU_FAULT_MESSAGE_PAYLOAD_PRIVATE", HV_IOMMU_FAULT_MESSAGE_PAYLOAD_PRIVATE);
  ("HV_SINT_NOTIFICATION_MESSAGE_PAYLOAD", HV_SINT_NOTIFICATION_MESSAGE_PAYLOAD);
  ("HV_MESSAGE_PRIVATE", HV_MESSAGE_PRIVATE);
  ("HV_X64_MSR_APIC_ASSIST_CONTENTS", HV_X64_MSR_APIC_ASSIST_CONTENTS);
  ("HV_VIRTUAL_APIC_ASSIST", HV_VIRTUAL_APIC_ASSIST);
  ("HV_INTERRUPT_CONTROL", HV_INTERRUPT_CONTROL);
  ("HV_EMULATED_TIMER_PERIOD", HV_EMULATED_TIMER_PERIOD);
  ("HV_EMULATED_TIMER_CONTROL", HV_EMULATED_TIMER_CONTROL);
  ("HV_PM_TIMER_INFO", HV_PM_TIMER_INFO);
  ("HV_MONITOR_TRIGGER_GROUP", HV_MONITOR_TRIGGER_GROUP);
  ("HV_MONITOR_PARAMETER", HV_MONITOR_PARAMETER);
  ("HV_MONITOR_TRIGGER_STATE", HV_MONITOR_TRIGGER_STATE);
  ("HV_MONITOR_PAGE", HV_MONITOR_PAGE);
  ("HV_MUX_PACKET_HEADER", HV_MUX_PACKET_HEADER);
  ("MUX_CHANNEL_DATA", MUX_CHANNEL_DATA);
  ("HV_CRASHDUMP_AREA_V1", HV_CRASHDUMP_AREA_V1);
  ("HV_CRASHDUMP_PROCESSOR_STATE", HV_CRASHDUMP_PROCESSOR_STATE);
  ("HV_CRASHDUMP_AREA_V2", HV_CRASHDUMP_AREA_V2);
  ("HV_CRASHDUMP_AREA_V3", HV_CRASHDUMP_AREA_V3);
  ("HV_CRASHDUMP_AREA_V4", HV_CRASHDUMP_AREA_V4);
  ("HV_CRASHDUMP_AREA", HV_CRASHDUMP_AREA);
  ("HV_X64_VP_EXECUTION_STATE", HV_X64_VP_EXECUTION_STATE);
  ("HV_X64_INTERCEPT_MESSAGE_HEADER", HV_X64_INTERCEPT_MESSAGE_HEADER);
  ("HV_X64_MEMORY_ACCESS_INFO", HV_X64_MEMORY_ACCESS_INFO);
  ("HV_X64_MEMORY_INTERCEPT_MESSAGE", HV_X64_MEMORY_INTERCEPT_MESSAGE);
  ("HV_X64_MSR_INTERCEPT_MESSAGE", HV_X64_MSR_INTERCEPT_MESSAGE);
  ("HV_X64_EXCEPTION_INFO", HV_X64_EXCEPTION_INFO);
  ("HV_X64_EXCEPTION_INTERCEPT_MESSAGE", HV_X64_EXCEPTION_INTERCEPT_MESSAGE);
  ("HV_X64_UNRECOVERABLE_EXCEPTION_MESSAGE", HV_X64_UNRECOVERABLE_EXCEPTION_MESSAGE);
  ("HV_X64_HYPERCALL_INTERCEPT_MESSAGE", HV_X64_HYPERCALL_INTERCEPT_MESSAGE);
  ("HV_X64_REGISTER_ACCESS_INFO", HV_X64_REGISTER_ACCESS_INFO);
  ("HV_X64_REGISTER_INTERCEPT_MESSAGE", HV_X64_REGISTER_INTERCEPT_MESSAGE);
  ("HV_X64_INVALID_VP_REGISTER_MESSAGE", HV_X64_INVALID_VP_REGISTER_MESSAGE);
  ("HV_X64_UNSUPPORTED_FEATURE_MESSAGE", HV_X64_UNSUPPORTED_FEATURE_MESSAGE);
  ("HV_X64_IO_PORT_ACCESS_INFO", HV_X64_IO_PORT_ACCESS_INFO);
  ("HV_X64_CPUID_INTERCEPT_MESSAGE", HV_X64_CPUID_INTERCEPT_MESSAGE);
  ("HV_X64_IO_PORT_INTERCEPT_MESSAGE", HV_X64_IO_PORT_INTERCEPT_MESSAGE);
  ("HV_X64_LEGACY_FP_ERROR_MESSAGE", HV_X64_LEGACY_FP_ERROR_MESSAGE);
  ("HV_X64_HALT_MESSAGE", HV_X64_HALT_MESSAGE);
  ("HV_X64_INTERRUPTION_DELIVERABLE_MESSAGE", HV_X64_INTERRUPTION_DELIVERABLE_MESSAGE);
  ("HV_X64_SINT_DELIVERABLE_MESSAGE", HV_X64_SINT_DELIVERABLE_MESSAGE);
  ("HV_X64_SIPI_INTERCEPT_MESSAGE", HV_X64_SIPI_INTERCEPT_MESSAGE);
  ("HV_INPUT_GET_VP_REGISTER_CODE", HV_INPUT_GET_VP_REGISTER_CODE);
  ("HV_STATS_OBJECT_IDENTITY", HV_STATS_OBJECT_IDENTITY)].
Definition TlfsState_enums : list (string * enum) := [
  ("HV_MESSAGE_TYPE_PRIVATE", HV_MESSAGE_TYPE_PRIVATE);
  ("HV_PORT_TYPE", HV_PORT_TYPE);
  ("HV_PORT_PROPERTY_CODE", HV_PORT_PROPERTY_CODE);
  ("HV_X64_UNSUPPORTED_FEATURE_CODE", HV_X64_UNSUPPORTED_FEATURE_CODE);
  ("HV_GUEST_OS_VENDOR_PRIVATE", HV_GUEST_OS_VENDOR_PRIVATE);
  ("HV_GUEST_OS_OPENSOURCE_IDS", HV_GUEST_OS_OPENSOURCE_IDS);
  ("HV_PARTITION_PROPERTY_CODE", HV_PARTITION_PROPERTY_CODE);
  ("HV_REGISTER_NAME_PRIVATE", HV_REGISTER_NAME_PRIVATE)].
