(* ===== verification/TlfsPartition.v ===== *)
(** * The hypervisor specification: partitions and schedulers

    The third part of [Mile.HyperV.TLFS.h]: the definitions beyond the driver kit and those
    of the Linux root partition. *)

From S2P Require Import Prelude CLayout GuestInterface GuestProtocols TlfsBase TlfsState.

Definition HV_BOOLEAN : cty := UINT8.
Definition HV_SPA_PAGE_OFFSET : cty := UINT32.
Definition HV_GPA_PAGE_OFFSET : cty := UINT32.
Definition HV_GVA_PAGE_OFFSET : cty := UINT32.
Definition X64_CR4_LA57 : Z := 0x0000000000001000.
Definition X64_PTE_PRESENT : Z := 0x1.
Definition X64_PTE_READ_WRITE : Z := 0x2.
Definition X64_PTE_ACCESSED : Z := 0x20.
Definition X64_PTE_DIRTY : Z := 0x40.
Definition X64_PTE_LARGE_PAGE : Z := 0x80.
Definition PAGE_TABLE_ENTRY_COUNT : Z := 512.
Definition X64_PAGE_SHIFT : Z := 12.
Definition X64_PTE_BITS : Z := 9.
Definition HV_GENERIC_SET_FORMAT : enum := [
  Next "HvGenericSetSparse4k";
  Next "HvGenericSetAll";
  Next "HvGenericSetInvalid"].
Definition HV_GENERIC_SET_HEADER : cty := struct 0 [
  fld UINT64 "Format";
  fld UINT64 "ValidBanksMask"].
Definition HV_GENERIC_SET : cty := struct 0 [
  fld UINT64 "Format";
  fld UINT64 "ValidBanksMask";
  fld (CArr UINT64 HV_ANYSIZE_ARRAY) "BankContents"].
Definition HV_APIC_ID : cty := UINT32.
Definition HV_NUM_VTLS : Z := 2.
Definition HV_INVALID_VTL : Z := u8 (- 1).
Definition HV_VTL_ALL : Z := 0xf.
Definition HV_X64_PENDING_EVENT_TYPE : enum := [
  Is "HvX64PendingEventException" 0x0;
  Is "HvX64PendingEventMemoryIntercept" 0x1;
  Is "HvX64PendingEventNestedMemoryIntercept" 0x2].
Definition HV_X64_PENDING_MEMORY_INTERCEPT_EVENT : cty := union 0 [
  fld (CArr UINT64 4) "AsUINT64";
  fld (struct 0 [
    bit UINT8 "EventPending" 1;
    bit UINT8 "EventType" 3;
    bit UINT8 "Reserved0" 4;
    fld HV_VTL "TargetVtl";
    fld UINT8 "AccessType";
    bit UINT8 "GuestLinearAddressValid" 1;
    bit UINT8 "Reserved1" 7;
    fld UINT32 "Reserved2";
    fld UINT64 "GuestLinearAddress";
    fld UINT64 "GuestPhysicalAddress";
    fld UINT64 "Reserved3"]) anonymous].
Definition HV_X64_PENDING_NESTED_MEMORY_INTERCEPT_EVENT : cty := union 0 [
  fld (CArr UINT64 4) "AsUINT64";
  fld (struct 0 [
    bit UINT8 "EventPending" 1;
    bit UINT8 "EventType" 3;
    bit UINT8 "Reserved0" 4;
    fld UINT8 "AccessType";
    fld UINT8 "GuestAccessPermission";
    bit UINT8 "GuestLinearAddressValid" 1;
    bit UINT8 "CausedByGpaAccess" 1;
    bit UINT8 "PageTableMisconfiguration" 1;
    bit UINT8 "Reserved1" 5;
    fld UINT32 "Reserved2";
    fld UINT64 "GuestLinearAddress";
    fld UINT64 "GuestNestedPhysicalAddress";
    fld UINT64 "Reserved3"]) anonymous].
Definition HV_X64_PENDING_EVENT : cty := union 0 [
  fld (struct 0 [
    fld HV_UINT128 "Reg0";
    fld HV_UINT128 "Reg1"]) anonymous;
  fld (struct 0 [
    bit UINT8 "EventPending" 1;
    bit UINT8 "EventType" 3;
    bit UINT8 "Reserved" 4;
    fld (CArr UINT8 15) "EventData"]) anonymous;
  fld HV_X64_PENDING_EXCEPTION_EVENT "Exception";
  fld HV_X64_PENDING_MEMORY_INTERCEPT_EVENT "MemoryIntercept";
  fld HV_X64_PENDING_NESTED_MEMORY_INTERCEPT_EVENT "NestedMemoryIntercept"].
Definition HV_TRANSLATE_GVA_RESULT_EX : cty := struct 0 [
  fld (enum_type HV_TRANSLATE_GVA_RESULT_CODE) "ResultCode";
  bit UINT32 "CacheType" 8;
  bit UINT32 "OverlayPage" 1;
  bit UINT32 "Reserved" 23;
  fld HV_X64_PENDING_EVENT "EventInfo"].
Definition HV_INTERRUPT_SOURCE : enum := [
  Is "HvInterruptSourceMsi" 1;
  Next "HvInterruptSourceIoApic";
  Next "HvInterruptSourceGicd"].
Definition HV_MSI_ADDRESS_REGISTER : cty := union 0 [
  fld UINT32 "AsUINT32";
  fld (struct 0 [
    bit UINT32 "Reserved1" 2;
    bit UINT32 "DestinationMode" 1;
    bit UINT32 "RedirectionHint" 1;
    bit UINT32 "Reserved2" 8;
    bit UINT32 "DestinationId" 8;
    bit UINT32 "MsiBase" 12]) anonymous].
Definition HV_MSI_DATA_REGISTER : cty := union 0 [
  fld UINT32 "AsUINT32";
  fld (struct 0 [
    bit UINT32 "Vector" 8;
    bit UINT32 "DeliveryMode" 3;
    bit UINT32 "Reserved1" 3;
    bit UINT32 "LevelAssert" 1;
    bit UINT32 "TriggerMode" 1;
    bit UINT32 "Reserved2" 16]) anonymous].
Definition HV_MSI_ENTRY : cty := union 0 [
  fld UINT64 "AsUINT64";
  fld (struct 0 [
    fld HV_MSI_ADDRESS_REGISTER "Address";
    fld HV_MSI_DATA_REGISTER "Data"]) anonymous].
Definition HV_IOAPIC_RTE : cty := union 0 [
  fld UINT64 "AsUINT64";
  fld (struct 0 [
    bit UINT32 "Vector" 8;
    bit UINT32 "DeliveryMode" 3;
    bit UINT32 "DestinationMode" 1;
    bit UINT32 "DeliveryStatus" 1;
    bit UINT32 "InterruptPolarity" 1;
    bit UINT32 "RemoteIRR" 1;
    bit UINT32 "TriggerMode" 1;
    bit UINT32 "InterruptMask" 1;
    bit UINT32 "Reserved1" 15;
    bit UINT32 "Reserved2" 24;
    bit UINT32 "DestinationId" 8]) anonymous;
  fld (struct 0 [
    fld UINT32 "LowUINT32";
    fld UINT32 "HighUINT32"]) anonymous].
Definition HV_GICD_ENTRY : cty := union 0 [
  fld UINT64 "AsUINT64";
  fld (struct 0 [
    bit UINT32 "Polarity" 1;
    bit UINT32 "TriggerMode" 1;
    bit UINT32 "Line" 10;
    bit UINT32 "ProcessorTarget" 3;
    bit UINT32 "Vector" 10;
    bit UINT32 "Priority" 7;
    bit UINT32 "UnitId" 24;
    bit UINT32 "Flags" 8]) anonymous;
  fld (struct 0 [
    fld UINT32 "LowUINT32";
    fld UINT32 "HighUINT32"]) anonymous].
Definition HV_INTERRUPT_ENTRY : cty := struct 0 [
  fld (enum_type HV_INTERRUPT_SOURCE) "InterruptSource";
  fld UINT32 "Reserved";
  fld (union 0 [
    fld HV_MSI_ENTRY "MsiEntry";
    fld HV_IOAPIC_RTE "IoApicRte";
    fld UINT64 "Data"]) anonymous].
Definition HV_DEVICE_INTERRUPT_TARGET_MULTICAST : Z := 1.
Definition HV_DEVICE_INTERRUPT_TARGET_PROCESSOR_SET : Z := 2.
Definition HV_DEVICE_INTERRUPT_TARGET_HEADER : cty := struct 0 [
  fld HV_INTERRUPT_VECTOR "Vector";
  fld UINT32 "Flags"].
Definition HV_DEVICE_INTERRUPT_TARGET : cty := struct 0 [
  fld HV_INTERRUPT_VECTOR "Vector";
  fld UINT32 "Flags";
  fld (union 0 [
    fld UINT64 "ProcessorMask";
    fld (CArr UINT64 HV_ANYSIZE_ARRAY) "ProcessorSet"]) anonymous].
Definition HV_REGISTER_VSM_PARTITION_STATUS : cty := union 0 [
  fld UINT64 "AsUINT64";
  fld (struct 0 [
    bit UINT64 "EnabledVtlSet" 16;
    bit UINT64 "MaximumVtl" 4;
    bit UINT64 "MbecEnabledVtlSet" 16;
    bit UINT64 "SupervisorShadowStackEnabledVtlSet" 4;
    bit UINT64 "ReservedZ" 24]) anonymous].
Definition HV_REGISTER_VSM_VP_STATUS : cty := union 0 [
  fld UINT64 "AsUINT64";
  fld (struct 0 [
    bit UINT64 "ActiveVtl" 4;
    bit UINT64 "ActiveMbecEnabled" 1;
    bit UINT64 "ReservedZ0" 11;
    bit UINT64 "EnabledVtlSet" 16;
    bit UINT64 "ReservedZ1" 32]) anonymous].
Definition HV_REGISTER_VSM_PARTITION_CONFIG : cty := union 0 [
  fld UINT64 "AsUINT64";
  fld (struct 0 [
    bit UINT64 "EnableVtlProtection" 1;
    bit UINT64 "DefaultVtlProtectionMask" 4;
    bit UINT64 "ZeroMemoryOnReset" 1;
    bit UINT64 "DenyLowerVtlStartup" 1;
    bit UINT64 "InterceptAcceptance" 1;
    bit UINT64 "InterceptEnableVtlProtection" 1;
    bit UINT64 "InterceptVpStartup" 1;
    bit UINT64 "InterceptCpuidUnimplemented" 1;
    bit UINT64 "InterceptUnrecoverableException" 1;
    bit UINT64 "InterceptPage" 1;
    bit UINT64 "InterceptRestorePartitionTime" 1;
    bit UINT64 "InterceptNotPresent" 1;
    bit UINT64 "ReservedZ" 49]) anonymous].
Definition HV_REGISTER_GUEST_VSM_PARTITION_CONFIG : cty := union 0 [
  fld UINT64 "AsUINT64";
  fld (struct 0 [
    bit UINT64 "MaximumVtl" 4;
    bit UINT64 "Vtl0InterruptInjectionPolicy" 2;
    bit UINT64 "Vtl1InterruptInjectionPolicy" 2;
    bit UINT64 "ReservedZ" 56]) anonymous].
Definition HV_REGISTER_VSM_VP_SECURE_VTL_CONFIG : cty := union 0 [
  fld UINT64 "AsUINT64";
  fld (struct 0 [
    bit UINT64 "MbecEnabled" 1;
    bit UINT64 "TlbLocked" 1;
    bit UINT64 "SupervisorShadowStackEnabled" 1;
    bit UINT64 "HardwareHvptEnabled" 1;
    bit UINT64 "ReservedZ" 60]) anonymous].
Definition HV_REGISTER_VSM_CODE_PAGE_OFFSETS : cty := union 0 [
  fld UINT64 "AsUINT64";
  fld (struct 0 [
    bit UINT64 "VtlCallOffset" 12;
    bit UINT64 "VtlReturnOffset" 12;
    bit UINT64 "ReservedZ" 40]) anonymous].
Definition HV_REGISTER_VSM_VINA : cty := union 0 [
  fld UINT64 "AsUINT64";
  fld (struct 0 [
    bit UINT64 "Vector" 8;
    bit UINT64 "Enabled" 1;
    bit UINT64 "AutoReset" 1;
    bit UINT64 "AutoEoi" 1;
    bit UINT64 "ReservedP" 53]) anonymous].
Definition HV_REGISTER_CR_INTERCEPT_CONTROL : cty := union 0 [
  fld UINT64 "AsUINT64";
  fld (struct 0 [
    bit UINT64 "Cr0Write" 1;
    bit UINT64 "Cr4Write" 1;
    bit UINT64 "XCr0Write" 1;
    bit UINT64 "IA32MiscEnableRead" 1;
    bit UINT64 "IA32MiscEnableWrite" 1;
    bit UINT64 "MsrLstarRead" 1;
    bit UINT64 "MsrLstarWrite" 1;
    bit UINT64 "MsrStarRead" 1;
    bit UINT64 "MsrStarWrite" 1;
    bit UINT64 "MsrCstarRead" 1;
    bit UINT64 "MsrCstarWrite" 1;
    bit UINT64 "ApicBaseMsrRead" 1;
    bit UINT64 "ApicBaseMsrWrite" 1;
    bit UINT64 "MsrEferRead" 1;
    bit UINT64 "MsrEferWrite" 1;
    bit UINT64 "GdtrWrite" 1;
    bit UINT64 "IdtrWrite" 1;
    bit UINT64 "LdtrWrite" 1;
    bit UINT64 "TrWrite" 1;
    bit UINT64 "MsrSysenterCsWrite" 1;
    bit UINT64 "MsrSysenterEipWrite" 1;
    bit UINT64 "MsrSysenterEspWrite" 1;
    bit UINT64 "MsrSfmaskWrite" 1;
    bit UINT64 "MsrTscAuxWrite" 1;
    bit UINT64 "MsrSgxLaunchControlWrite" 1;
    bit UINT64 "MsrXssWrite" 1;
    bit UINT64 "MsrSCetWrite" 1;
    bit UINT64 "MsrPlsSspWrite" 1;
    bit UINT64 "MsrInterruptSspTableAddrWrite" 1;
    bit UINT64 "RsvdZ" 35]) anonymous].
Definition VM_PARTITION_ASSIST_PAGE : cty := struct 0 [
  fld UINT32 "TlbLockCount"].
Definition HV_VMX_SYNTHETIC_EXIT_REASON_TRAP_AFTER_FLUSH : Z := 0x10000031.
Definition HV_GPA_PAGE_RANGE : cty := union 0 [
  fld UINT64 "AsUINT64";
  fld (struct 0 [
    bit UINT64 "AdditionalPages" 11;
    bit UINT64 "LargePage" 1;
    fld (union 0 [
      bit UINT64 "BasePfn" 52;
      fld (struct 0 [
        bit UINT64 "PageSize" 1;
        bit UINT64 "Reserved1" 8;
        bit UINT64 "BaseLargePfn" 43]) anonymous]) anonymous]) anonymous].
Definition HV_VMX_ENLIGHTENED_VMCS : cty := struct 0 [
  fld UINT32 "VersionNumber";
  fld UINT32 "AbortIndicator";
  fld UINT16 "HostEsSelector";
  fld UINT16 "HostCsSelector";
  fld UINT16 "HostSsSelector";
  fld UINT16 "HostDsSelector";
  fld UINT16 "HostFsSelector";
  fld UINT16 "HostGsSelector";
  fld UINT16 "HostTrSelector";
  fld UINT64 "HostPat";
  fld UINT64 "HostEfer";
  fld UINT64 "HostCr0";
  fld UINT64 "HostCr3";
  fld UINT64 "HostCr4";
  fld UINT64 "HostSysenterEspMsr";
  fld UINT64 "HostSysenterEipMsr";
  fld UINT64 "HostRip";
  fld UINT32 "HostSysenterCsMsr";
  fld UINT32 "PinControls";
  fld UINT32 "ExitControls";
  fld UINT32 "SecondaryProcessorControls";
  fld HV_GPA "IoBitmapA";
  fld HV_GPA "IoBitmapB";
  fld HV_GPA "MsrBitmap";
  fld UINT16 "GuestEsSelector";
  fld UINT16 "GuestCsSelector";
  fld UINT16 "GuestSsSelector";
  fld UINT16 "GuestDsSelector";
  fld UINT16 "GuestFsSelector";
  fld UINT16 "GuestGsSelector";
  fld UINT16 "GuestLdtrSelector";
  fld UINT16 "GuestTrSelector";
  fld UINT32 "GuestEsLimit";
  fld UINT32 "GuestCsLimit";
  fld UINT32 "GuestSsLimit";
  fld UINT32 "GuestDsLimit";
  fld UINT32 "GuestFsLimit";
  fld UINT32 "GuestGsLimit";
  fld UINT32 "GuestLdtrLimit";
  fld UINT32 "GuestTrLimit";
  fld UINT32 "GuestGdtrLimit";
  fld UINT32 "GuestIdtrLimit";
  fld UINT32 "GuestEsAttributes";
  fld UINT32 "GuestCsAttributes";
  fld UINT32 "GuestSsAttributes";
  fld UINT32 "GuestDsAttributes";
  fld UINT32 "GuestFsAttributes";
  fld UINT32 "GuestGsAttributes";
  fld UINT32 "GuestLdtrAttributes";
  fld UINT32 "GuestTrAttributes";
  fld UINT64 "GuestEsBase";
  fld UINT64 "GuestCsBase";
  fld UINT64 "GuestSsBase";
  fld UINT64 "GuestDsBase";
  fld UINT64 "GuestFsBase";
  fld UINT64 "GuestGsBase";
  fld UINT64 "GuestLdtrBase";
  fld UINT64 "GuestTrBase";
  fld UINT64 "GuestGdtrBase";
  fld UINT64 "GuestIdtrBase";
  fld (CArr UINT64 3) "Rsvd1";
  fld HV_GPA "ExitMsrStoreAddress";
  fld HV_GPA "ExitMsrLoadAddress";
  fld HV_GPA "EntryMsrLoadAddress";
  fld UINT64 "Cr3Target0";
  fld UINT64 "Cr3Target1";
  fld UINT64 "Cr3Target2";
  fld UINT64 "Cr3Target3";
  fld UINT32 "PfecMask";
  fld UINT32 "PfecMatch";
  fld UINT32 "Cr3TargetCount";
  fld UINT32 "ExitMsrStoreCount";
  fld UINT32 "ExitMsrLoadCount";
  fld UINT32 "EntryMsrLoadCount";
  fld UINT64 "TscOffset";
  fld HV_GPA "VirtualApicPage";
  fld HV_GPA "GuestWorkingVmcsPtr";
  fld UINT64 "GuestIa32DebugCtl";
  fld UINT64 "GuestPat";
  fld UINT64 "GuestEfer";
  fld UINT64 "GuestPdpte0";
  fld UINT64 "GuestPdpte1";
  fld UINT64 "GuestPdpte2";
  fld UINT64 "GuestPdpte3";
  fld UINT64 "GuestPendingDebugExceptions";
  fld UINT64 "GuestSysenterEspMsr";
  fld UINT64 "GuestSysenterEipMsr";
  fld UINT32 "GuestSleepState";
  fld UINT32 "GuestSysenterCsMsr";
  fld UINT64 "Cr0GuestHostMask";
  fld UINT64 "Cr4GuestHostMask";
  fld UINT64 "Cr0ReadShadow";
  fld UINT64 "Cr4ReadShadow";
  fld UINT64 "GuestCr0";
  fld UINT64 "GuestCr3";
  fld UINT64 "GuestCr4";
  fld UINT64 "GuestDr7";
  fld UINT64 "HostFsBase";
  fld UINT64 "HostGsBase";
  fld UINT64 "HostTrBase";
  fld UINT64 "HostGdtrBase";
  fld UINT64 "HostIdtrBase";
  fld UINT64 "HostRsp";
  fld UINT64 "EptRoot";
  fld UINT16 "Vpid";
  fld (CArr UINT16 3) "Rsvd2";
  fld (CArr UINT64 5) "Rsvd3";
  fld UINT64 "ExitEptFaultGpa";
  fld UINT32 "ExitInstructionError";
  fld UINT32 "ExitReason";
  fld UINT32 "ExitInterruptionInfo";
  fld UINT32 "ExitExceptionErrorCode";
  fld UINT32 "ExitIdtVectoringInfo";
  fld UINT32 "ExitIdtVectoringErrorCode";
  fld UINT32 "ExitInstructionLength";
  fld UINT32 "ExitInstructionInfo";
  fld UINT64 "ExitQualification";
  fld UINT64 "ExitIoInstructionEcx";
  fld UINT64 "ExitIoInstructionEsi";
  fld UINT64 "ExitIoInstructionEdi";
  fld UINT64 "ExitIoInstructionEip";
  fld UINT64 "GuestLinearAddress";
  fld UINT64 "GuestRsp";
  fld UINT64 "GuestRflags";
  fld UINT32 "GuestInterruptibility";
  fld UINT32 "ProcessorControls";
  fld UINT32 "ExceptionBitmap";
  fld UINT32 "EntryControls";
  fld UINT32 "EntryInterruptInfo";
  fld UINT32 "EntryExceptionErrorCode";
  fld UINT32 "EntryInstructionLength";
  fld UINT32 "TprThreshold";
  fld UINT64 "GuestRip";
  fld UINT32 "CleanFields";
  fld UINT32 "Rsvd4";
  fld UINT32 "SyntheticControls";
  fld (union 0 [
    fld UINT32 "AsUINT32";
    fld (struct 0 [
      bit UINT32 "NestedFlushVirtualHypercall" 1;
      bit UINT32 "MsrBitmap" 1;
      bit UINT32 "Reserved" 30]) anonymous]) "EnlightenmentsControl";
  fld UINT32 "VpId";
  fld UINT64 "VmId";
  fld UINT64 "PartitionAssistPage";
  fld (CArr UINT64 4) "Rsvd5";
  fld UINT64 "GuestBndcfgs";
  fld (CArr UINT64 7) "Rsvd6";
  fld UINT64 "XssExitingBitmap";
  fld UINT64 "EnclsExitingBitmap";
  fld (CArr UINT64 6) "Rsvd7"].
Definition HV_VMX_ENLIGHTENED_CLEAN_FIELD_NONE : Z := 0.
Definition HV_VMX_ENLIGHTENED_CLEAN_FIELD_IO_BITMAP : Z := Z.shiftl 1 0.
Definition HV_VMX_ENLIGHTENED_CLEAN_FIELD_MSR_BITMAP : Z := Z.shiftl 1 1.
Definition HV_VMX_ENLIGHTENED_CLEAN_FIELD_CONTROL_GRP2 : Z := Z.shiftl 1 2.
Definition HV_VMX_ENLIGHTENED_CLEAN_FIELD_CONTROL_GRP1 : Z := Z.shiftl 1 3.
Definition HV_VMX_ENLIGHTENED_CLEAN_FIELD_CONTROL_PROC : Z := Z.shiftl 1 4.
Definition HV_VMX_ENLIGHTENED_CLEAN_FIELD_CONTROL_EVENT : Z := Z.shiftl 1 5.
Definition HV_VMX_ENLIGHTENED_CLEAN_FIELD_CONTROL_ENTRY : Z := Z.shiftl 1 6.
Definition HV_VMX_ENLIGHTENED_CLEAN_FIELD_CONTROL_EXCPN : Z := Z.shiftl 1 7.
Definition HV_VMX_ENLIGHTENED_CLEAN_FIELD_CRDR : Z := Z.shiftl 1 8.
Definition HV_VMX_ENLIGHTENED_CLEAN_FIELD_CONTROL_XLAT : Z := Z.shiftl 1 9.
Definition HV_VMX_ENLIGHTENED_CLEAN_FIELD_GUEST_BASIC : Z := Z.shiftl 1 10.
Definition HV_VMX_ENLIGHTENED_CLEAN_FIELD_GUEST_GRP1 : Z := Z.shiftl 1 11.
Definition HV_VMX_ENLIGHTENED_CLEAN_FIELD_GUEST_GRP2 : Z := Z.shiftl 1 12.
Definition HV_VMX_ENLIGHTENED_CLEAN_FIELD_HOST_POINTER : Z := Z.shiftl 1 13.
Definition HV_VMX_ENLIGHTENED_CLEAN_FIELD_HOST_GRP1 : Z := Z.shiftl 1 14.
Definition HV_VMX_ENLIGHTENED_CLEAN_FIELD_ENLIGHTENMENTSCONTROL : Z := Z.shiftl 1 15.
Definition HV_NOTIFICATION_MESSAGE_PAYLOAD : cty := struct 0 [
  fld UINT32 "SintIndex"].
Definition HV_X64_PROXY_INTERRUPT_MESSAGE_PAYLOAD : cty := struct 0 [
  fld UINT8 "InterruptVtl";
  fld UINT8 "AssertMultiple";
  fld (CArr UINT8 2) "RsvdZ";
  fld (union 0 [
    fld UINT32 "AssertedVector";
    fld (CArr UINT32 8) "AssertedIrr"]) anonymous].
Definition HV_UNIMPLEMENTED_MSR_ACTION : enum := [
  Is "HvUnimplementedMsrActionFault" 0;
  Is "HvUnimplementedMsrActionIgnoreWriteReadZero" 1;
  Is "HvUnimplementedMsrActionCount" 2].
Definition HV_GENERIC_SET_SHIFT : Z := 6.
Definition HV_GENERIC_SET_MASK : Z := 63.
Definition HV_MAX_SPARSE_VCPU_BANKS : Z := 64.
Definition HV_VCPUS_PER_SPARSE_BANK : Z := 64.
Definition HV_SCHEDULER_TYPE : enum := [
  Is "HvSchedulerTypeLp" 1;
  Is "HvSchedulerTypeLpSmt" 2;
  Is "HvSchedulerTypeCoreSmt" 3;
  Is "HvSchedulerTypeRoot" 4;
  Next "HvSchedulerTypeMax"].
Definition HV_SYSTEM_PROPERTY : enum := [
  Is "HvPerfCounterProperty" 0x1;
  Is "HvDeprecatedLegacyPowerPolicySettingProperty" 0x2;
  Is "HvSleepStateProperty" 0x3;
  Is "HvMachineCheckProperty" 0x4;
  Is "HvIommuInitStatusProperty" 0x5;
  Is "HvHpetConfigProperty" 0x6;
  Is "HvHpetInterruptProperty" 0x7;
  Is "HvHpetEnabledProperty" 0x8;
  Is "HvHypervisorLaunchStatsProperty" 0x9;
  Is "HvHypervisorDebugProperty" 0xa;
  Is "HvRootPasidCapabilitiesProperty" 0xb;
  Is "HvRootNumaCostPagesProperty" 0xc;
  Is "HvHostPageTableRootProperty" 0xd;
  Is "HvTscSyncStatusProperty" 0xe;
  Is "HvSchedulerTypeProperty" 0xf;
  Is "HvPlatformVirtualizationSupportProperty" 0x10;
  Is "HvHostDebugTransferPages" 0x11;
  Is "HvHostTimelineBiasProperty" 0x12;
  Is "HvSmcDataPathProperty" 0x13;
  Is "HvDmaInitializeBlockedProperty" 0x14;
  Is "HvDynamicProcessorFeatureProperty" 0x15;
  Is "HvUnusedSystemProperty_22" 0x16;
  Is "HvRdtCatCosBitmaskProperty_Legacy" 0x17;
  Is "HvUnusedSystemProperty_24" 0x18;
  Is "HvGuestStateScrubbingStatusProperty" 0x19;
  Is "HvDmaUnblockedProperty" 0x1a;
  Is "HvRdtMbaCosThrottleProperty_Legacy" 0x1b;
  Is "HvSystemDiagnosticsLogBuffers" 0x1c;
  Is "HvSystemPageCombiningIntervalProperty" 0x1d;
  Is "HvIommuLiveHandoffProperty" 0x1e;
  Is "HvIommuDomainIdSelectorProperty" 0x1f;
  Is "HvIommuRootFaultReportingReady" 0x20;
  Is "HvGuestAssertProperty" 0x21;
  Is "HvLogicalProcessorCountProperty" 0x22;
  Is "HvSnpPspIdProperty" 0x23;
  Is "HvSchedulingIntervalProperty" 0x24;
  Is "HvSnpPspTcbVersionProperty" 0x25;
  Is "HvSubnodeInformationProperty" 0x26;
  Is "HvSnpPspDevicesProperty" 0x27;
  Is "HvProcessorLiveHandoffProperty" 0x28;
  Is "HvProcessorParkBlockProperty" 0x29;
  Is "HvBootConfigProperty" 0x2a;
  Is "HvVirtualizationFeaturesProperty" 0x2b;
  Is "HvSystemRebootCountProperty" 0x2c;
  Is "HvSystemMirroringProperty" 0x2d;
  Is "HvSystemProtoAbiVersionProperty" 0x2e;
  Is "HvCrashdumpAreaAddressProperty" 0x2f;
  Is "HvMicrocodeLatencyProperty" 0x30;
  Is "HvDefaultIoCacheBitmapProperty" 0x31;
  Is "HvHardwareIsolationEnabledProperty" 0x32;
  Is "HvFirmwareX2ApicProperty" 0x33;
  Is "HvCrashdumpTrampolineAddressProperty" 0x34;
  Is "HvResourceControlSupportProperty" 0x35;
  Is "HvResourceControlBitmaskProperty" 0x36;
  Is "HvResourceControlMonitorValueProperty" 0x37;
  Is "HvSgxEUpdateSvnProperty" 0x38].
Definition HV_GPA_PAGE_ACCESS_STATE_FLAGS : cty := union 0 [
  fld (struct 0 [
    bit UINT64 "ClearAccessed" 1;
    bit UINT64 "SetAccess" 1;
    bit UINT64 "ClearDirty" 1;
    bit UINT64 "SetDirty" 1;
    bit UINT64 "Reserved" 60]) anonymous;
  fld UINT64 "AsUINT64"].
Definition HV_GPA_PAGE_ACCESS_STATE : cty := union 0 [
  fld (struct 0 [
    bit UINT8 "Accessed" 1;
    bit UINT8 "Dirty" 1;
    bit UINT8 "Reserved" 6]) anonymous;
  fld UINT8 "AsUINT8"].
Definition HV_X64_REGISTER_CLASS_GENERAL : Z := 0.
Definition HV_X64_REGISTER_CLASS_IP : Z := 1.
Definition HV_X64_REGISTER_CLASS_XMM : Z := 2.
Definition HV_X64_REGISTER_CLASS_SEGMENT : Z := 3.
Definition HV_X64_REGISTER_CLASS_FLAGS : Z := 4.
Definition HV_VP_REGISTER_PAGE_VERSION_1 : Z := 1.
Definition HV_VP_REGISTER_PAGE : cty := struct 0 [
  fld UINT16 "Version";
  fld UINT8 "IsValid";
  fld HV_VTL "Vtl";
  fld UINT32 "Dirty";
  fld (union 0 [
    fld (struct 0 [
      fld (union 0 [
        fld (struct 0 [
          fld UINT64 "Rax";
          fld UINT64 "Rcx";
          fld UINT64 "Rdx";
          fld UINT64 "Rbx";
          fld UINT64 "Rsp";
          fld UINT64 "Rbp";
          fld UINT64 "Rsi";
          fld UINT64 "Rdi";
          fld UINT64 "R8";
          fld UINT64 "R9";
          fld UINT64 "R10";
          fld UINT64 "R11";
          fld UINT64 "R12";
          fld UINT64 "R13";
          fld UINT64 "R14";
          fld UINT64 "R15"]) anonymous;
        fld (CArr UINT64 16) "GpRegisters"]) anonymous;
      fld UINT64 "Rip";
      fld UINT64 "Rflags"]) anonymous;
    fld (CArr UINT64 18) "Registers"]) anonymous;
  fld (union 0 [
    fld (struct 0 [
      fld HV_UINT128 "Xmm0";
      fld HV_UINT128 "Xmm1";
      fld HV_UINT128 "Xmm2";
      fld HV_UINT128 "Xmm3";
      fld HV_UINT128 "Xmm4";
      fld HV_UINT128 "Xmm5"]) anonymous;
    fld (CArr HV_UINT128 6) "XmmRegisters"]) anonymous;
  fld (union 0 [
    fld (struct 0 [
      fld HV_X64_SEGMENT_REGISTER "Es";
      fld HV_X64_SEGMENT_REGISTER "Cs";
      fld HV_X64_SEGMENT_REGISTER "Ss";
      fld HV_X64_SEGMENT_REGISTER "Ds";
      fld HV_X64_SEGMENT_REGISTER "Fs";
      fld HV_X64_SEGMENT_REGISTER "Gs"]) anonymous;
    fld (CArr HV_X64_SEGMENT_REGISTER 6) "SegmentRegisters"]) anonymous;
  fld UINT64 "Cr0";
  fld UINT64 "Cr3";
  fld UINT64 "Cr4";
  fld UINT64 "Cr8";
  fld UINT64 "Efer";
  fld UINT64 "Dr7";
  fld HV_X64_PENDING_INTERRUPTION_REGISTER "PendingInterruption";
  fld HV_X64_INTERRUPT_STATE_REGISTER "InterruptState";
  fld UINT64 "InstructionEmulationHints"].
Definition HV_PARTITION_CREATION_PROPERTIES_V1 : cty := struct 0 [
  fld UINT64 "DisabledProcessorFeatures"].
Definition HV_PARTITION_CREATION_PROPERTIES_V2 : cty := struct 0 [
  fld HV_PARTITION_PROCESSOR_FEATURES "DisabledProcessorFeatures";
  fld HV_PARTITION_PROCESSOR_XSAVE_FEATURES "DisabledProcessorXsaveFeatures"].
Definition HV_PARTITION_CREATION_PROPERTIES : cty := struct 0 [
  fld HV_PARTITION_PROCESSOR_FEATURES "DisabledProcessorFeatures";
  fld HV_PARTITION_PROCESSOR_XSAVE_FEATURES "DisabledProcessorXsaveFeatures"].
Definition HV_PARTITION_ISOLATION_STATE : enum := [
  Is "HvPartitionIsolationInvalid" 0;
  Is "HvPartitionIsolationInsecureClean" 1;
  Is "HvPartitionIsolationInsecureDirty" 2;
  Is "HvPartitionIsolationSecure" 3;
  Is "HvPartitionIsolationSecureDirty" 4;
  Is "HvPartitionIsolationSecureTerminating" 5].
Definition HV_PARTITION_SYNTHETIC_PROCESSOR_FEATURES_BANKS : Z := 1.
Definition HV_PARTITION_SYNTHETIC_PROCESSOR_FEATURES : cty := union 0 [
  fld (CArr UINT64 HV_PARTITION_SYNTHETIC_PROCESSOR_FEATURES_BANKS) "AsUINT64";
  fld (struct 0 [
    bit UINT64 "HypervisorPresent" 1;
    bit UINT64 "Hv1" 1;
    bit UINT64 "AccessVpRunTimeReg" 1;
    bit UINT64 "AccessPartitionReferenceCounter" 1;
    bit UINT64 "AccessSynicRegs" 1;
    bit UINT64 "AccessSyntheticTimerRegs" 1;
    bit UINT64 "AccessIntrCtrlRegs" 1;
    bit UINT64 "AccessHypercallMsrs" 1;
    bit UINT64 "AccessVpIndex" 1;
    bit UINT64 "AccessPartitionReferenceTsc" 1;
    bit UINT64 "AccessGuestIdleReg" 1;
    bit UINT64 "AccessFrequencyRegs" 1;
    bit UINT64 "ReservedZ12" 1;
    bit UINT64 "ReservedZ13" 1;
    bit UINT64 "ReservedZ14" 1;
    bit UINT64 "EnableExtendedGvaRangesForFlushVirtualAddressList" 1;
    bit UINT64 "ReservedZ16" 1;
    bit UINT64 "ReservedZ17" 1;
    bit UINT64 "FastHypercallOutput" 1;
    bit UINT64 "ReservedZ19" 1;
    bit UINT64 "StartVirtualProcessor" 1;
    bit UINT64 "ReservedZ21" 1;
    bit UINT64 "DirectSyntheticTimers" 1;
    bit UINT64 "ReservedZ23" 1;
    bit UINT64 "ExtendedProcessorMasks" 1;
    bit UINT64 "TbFlushHypercalls" 1;
    bit UINT64 "SyntheticClusterIpi" 1;
    bit UINT64 "NotifyLongSpinWait" 1;
    bit UINT64 "QueryNumaDistance" 1;
    bit UINT64 "SignalEvents" 1;
    bit UINT64 "RetargetDeviceInterrupt" 1;
    bit UINT64 "RestoreTime" 1;
    bit UINT64 "EnlightenedVmcs" 1;
    bit UINT64 "ReservedZ33" 1;
    bit UINT64 "ReservedZ34" 1;
    bit UINT64 "ReservedZ35" 1;
    bit UINT64 "RegisterInterceptsV1" 1;
    bit UINT64 "WakeVps" 1;
    bit UINT64 "AccessVpRegs" 1;
    bit UINT64 "SyncContext" 1;
    bit UINT64 "ManagementVtlSynicSupport" 1;
    bit UINT64 "Reserved" 23]) anonymous].
Definition HV_MAKE_COMPATIBILITY_VERSION (Major Minor : Z) : Z := u32 (Z.lor (Z.shiftl Major 8) Minor).
Definition HV_COMPATIBILITY_21_H2 : Z := HV_MAKE_COMPATIBILITY_VERSION 0x6 0x9.
Definition HV_PARTITION_ISOLATION_PROPERTIES : cty := union 0 [
  fld UINT64 "AsUINT64";
  fld (struct 0 [
    bit UINT64 "IsolationType" 5;
    bit UINT64 "IsolationHostType" 2;
    bit UINT64 "RsvdZ" 5;
    bit UINT64 "SharedGpaBoundaryPageNumber" 52]) anonymous].
Definition HV_PARTITION_ISOLATION_HOST_TYPE_NONE : Z := 0x0.
Definition HV_PARTITION_ISOLATION_HOST_TYPE_HARDWARE : Z := 0x1.
Definition HV_PARTITION_ISOLATION_HOST_TYPE_RESERVED : Z := 0x2.
Definition HV_PARTITION_CREATION_FLAG_EXO_PARTITION : Z := Z.shiftl 1 8.
Definition HV_PARTITION_CREATION_FLAG_LAPIC_ENABLED : Z := Z.shiftl 1 13.
Definition HV_PARTITION_CREATION_FLAG_INTERCEPT_MESSAGE_PAGE_ENABLED : Z := Z.shiftl 1 19.
Definition HV_PARTITION_CREATION_FLAG_X2APIC_CAPABLE : Z := Z.shiftl 1 22.
Definition HV_VP_STATE_PAGE_TYPE : enum := [
  Is "HvVpStatePageRegisters" 0;
  Is "HvVpStatePageInterceptMessage" 1;
  Next "HvVpStatePageCount"].
Definition HV_CPUID_LEAF_INFO : cty := struct 0 [
  fld UINT32 "Eax";
  fld UINT32 "Ecx";
  fld UINT64 "Xfem";
  fld UINT64 "Xss"].
Definition HV_GET_VP_CPUID_VALUES_FLAGS : cty := union 0 [
  fld UINT32 "AsUINT32";
  fld (struct 0 [
    bit UINT32 "UseVpXfemXss" 1;
    bit UINT32 "ApplyRegisteredValues" 1;
    bit UINT32 "Reserved" 30]) anonymous].
Definition HV_OPAQUE_INTERCEPT_MESSAGE : cty := struct 0 [
  fld HV_VP_INDEX "VpIndex"].
Definition HV_SYNIC_EVENT_RING_MESSAGE_COUNT : Z := 63.
Definition HV_SYNIC_EVENT_RING : cty := struct 0 [
  fld UINT8 "SignalMasked";
  fld UINT8 "RingFull";
  fld UINT16 "ReservedZ";
  fld (CArr UINT32 HV_SYNIC_EVENT_RING_MESSAGE_COUNT) "Data"].
Definition HV_SYNIC_EVENT_RING_PAGE : cty := struct 0 [
  fld (CArr HV_SYNIC_EVENT_RING HV_SYNIC_SINT_COUNT) "SintEventRing"].
Definition HV_SYNIC_SIRBP : cty := union 0 [
  fld UINT64 "AsUINT64";
  fld (struct 0 [
    bit UINT64 "SirbpEnabled" 1;
    bit UINT64 "Preserved" 11;
    bit UINT64 "BaseSirbpGpa" 52]) anonymous].
Definition HV_LOCAL_INTERRUPT_CONTROLLER_STATE : cty := struct 0 [
  fld HV_APIC_ID "ApicId";
  fld UINT32 "ApicVersion";
  fld UINT32 "ApicLdr";
  fld UINT32 "ApicDfr";
  fld UINT32 "ApicSpurious";
  fld (CArr UINT32 8) "ApicIsr";
  fld (CArr UINT32 8) "ApicTmr";
  fld (CArr UINT32 8) "ApicIrr";
  fld UINT32 "ApicEsr";
  fld UINT32 "ApicIcrHigh";
  fld UINT32 "ApicIcrLow";
  fld UINT32 "ApicLvtTimer";
  fld UINT32 "ApicLvtThermal";
  fld UINT32 "ApicLvtPerfmon";
  fld UINT32 "ApicLvtLint0";
  fld UINT32 "ApicLvtLint1";
  fld UINT32 "ApicLvtError";
  fld UINT32 "ApicLvtCmci";
  fld UINT32 "ApicErrorStatus";
  fld UINT32 "ApicInitialCount";
  fld UINT32 "ApicCounterValue";
  fld UINT32 "ApicDivideConfiguration";
  fld UINT32 "ApicRemoteRead"].
Definition HV_STIMER_STATE : cty := struct 0 [
  fld (struct 0 [
    bit UINT32 "UndeliveredMessagePending" 1;
    bit UINT32 "Reserved" 31]) "Flags";
  fld UINT32 "Reserved";
  fld UINT64 "Config";
  fld UINT64 "Count";
  fld UINT64 "Adjustment";
  fld UINT64 "UndeliveredExpirationTime"].
Definition HV_SYNTHETIC_TIMERS_STATE : cty := struct 0 [
  fld (CArr HV_STIMER_STATE HV_SYNIC_STIMER_COUNT) "Timers";
  fld (CArr UINT64 5) "Reserved"].
Definition HV_REGISTER_X64_CPUID_RESULT_PARAMETERS : cty := struct 0 [
  fld (struct 0 [
    fld UINT32 "Eax";
    fld UINT32 "Ecx";
    fld UINT8 "SubleafSpecific";
    fld UINT8 "AlwaysOverride";
    fld UINT16 "Padding"]) "Input";
  fld (struct 0 [
    fld UINT32 "Eax";
    fld UINT32 "EaxMask";
    fld UINT32 "Ebx";
    fld UINT32 "EbxMask";
    fld UINT32 "Ecx";
    fld UINT32 "EcxMask";
    fld UINT32 "Edx";
    fld UINT32 "EdxMask"]) "Result"].
Definition HV_REGISTER_X64_MSR_RESULT_PARAMETERS : cty := struct 0 [
  fld UINT32 "MsrIndex";
  fld UINT32 "AccessType";
  fld (enum_type HV_UNIMPLEMENTED_MSR_ACTION) "Action"].
Definition HV_REGISTER_INTERCEPT_RESULT_PARAMETERS : cty := union 0 [
  fld HV_REGISTER_X64_CPUID_RESULT_PARAMETERS "Cpuid";
  fld HV_REGISTER_X64_MSR_RESULT_PARAMETERS "Msr"].
Definition HV_ASYNC_COMPLETION_MESSAGE_PAYLOAD : cty := struct 0 [
  fld HV_PARTITION_ID "PartitionId";
  fld UINT32 "Status";
  fld UINT32 "CompletionCount";
  fld UINT64 "SubStatus"].
Definition HV_GUEST_MAPPING_FLUSH_LIST : cty := struct 0 [
  fld UINT64 "AddressSpace";
  fld HV_FLUSH_FLAGS "Flags";
  fld (CArr HV_GPA_PAGE_RANGE 0) "GpaList"].
Definition HV_VP_STATE_DATA_XSAVE : cty := struct 0 [
  fld UINT64 "Flags";
  fld HV_X64_XSAVE_XFEM_REGISTER "States"].
Definition HV_GET_SET_VP_STATE_TYPE_PFN : Z := Z.shiftl 1 31.
Definition HV_GET_SET_VP_STATE_TYPE : enum := [
  Is "HvGetSetVpStateLocalInterruptControllerState" (Z.lor 0 HV_GET_SET_VP_STATE_TYPE_PFN);
  Is "HvGetSetVpStateXsave" (Z.lor 1 HV_GET_SET_VP_STATE_TYPE_PFN);
  Is "HvGetSetVpStateSimPage" (Z.lor 2 HV_GET_SET_VP_STATE_TYPE_PFN);
  Is "HvGetSetVpStateSiefPage" (Z.lor 3 HV_GET_SET_VP_STATE_TYPE_PFN);
  Is "HvGetSetVpStateSyntheticTimers" 4].
Definition HV_GET_SET_STATE_TYPE : cty := enum_type HV_GET_SET_VP_STATE_TYPE.
Definition HV_VP_STATE_DATA : cty := struct 0 [
  fld (enum_type HV_GET_SET_VP_STATE_TYPE) "Type";
  fld UINT32 "Reserved";
  fld HV_VP_STATE_DATA_XSAVE "Xsave"].
Definition HV_VP_DISPATCH_STATE : enum := [
  Is "HvVpDispatchStateInvalid" 0;
  Is "HvVpDispatchStateBlocked" 1;
  Is "HvVpDispatchStateReady" 2].
Definition HV_VP_DISPATCH_EVENT : enum := [
  Is "HvVpDispatchEventInvalid" 0x0;
  Is "HvVpDispatchEventSuspend" 0x1;
  Is "HvVpDispatchEventIntercept" 0x2;
  Is "HvVpDispatchEventInternal" 0x3;
  Is "HvVpDispatchEventPreempted" 0x4;
  Is "HvVpDispatchEventCancelled" 0x5;
  Is "HvVpDispatchEventScheduler" 0x6;
  Is "HvVpDispatchEventLongSpinWait" 0x7;
  Is "HvVpDispatchEventTimeSliceEnd" 0x8].
Definition HV_ROOT_SCHEDULER_MAX_VPS_PER_CHILD_PARTITION : Z := 1024.
Definition HV_GENERIC_SET_QWORD_COUNT (max : Z) : Z := ((Z.shiftr (max - 1) 6) + 1) + 2.
Definition BITSET_BUFFER_SIZE : Z := HV_GENERIC_SET_QWORD_COUNT HV_ROOT_SCHEDULER_MAX_VPS_PER_CHILD_PARTITION.
Definition HV_VP_SIGNAL_BITSET_SCHEDULER_MESSAGE : cty := struct 0 [
  fld HV_PARTITION_ID "PartitionId";
  fld UINT32 "OverflowCount";
  fld UINT16 "VpCount";
  fld (union 0 [
    fld HV_GENERIC_SET "Bitset";
    fld (CArr UINT64 BITSET_BUFFER_SIZE) "BitsetBuffer"]) "VpBitset"].
Definition static_assert_HV_VP_SIGNAL_BITSET_SCHEDULER_MESSAGE (b : abi) : bool := sizeof b
  HV_VP_SIGNAL_BITSET_SCHEDULER_MESSAGE <=? (sizeof b HV_MESSAGE - sizeof b HV_MESSAGE_HEADER).
Definition HV_MESSAGE_MAX_PARTITION_VP_PAIR_COUNT : Z := (((sizeof SysV HV_MESSAGE) - (sizeof SysV
  HV_MESSAGE_HEADER)) / ((sizeof SysV UINT64) + (sizeof SysV UINT32))) - 1.
Definition HV_VP_SIGNAL_PAIR_SCHEDULER_MESSAGE : cty := struct 0 [
  fld UINT32 "OverflowCount";
  fld UINT8 "VpCount";
  fld (CArr UINT8 3) "Reserved1";
  fld (CArr UINT64 HV_MESSAGE_MAX_PARTITION_VP_PAIR_COUNT) "PartitionIds";
  fld (CArr HV_VP_INDEX HV_MESSAGE_MAX_PARTITION_VP_PAIR_COUNT) "VpIndexes";
  fld (CArr UINT8 4) "Reserved2"].
Definition static_assert_HV_VP_SIGNAL_PAIR_SCHEDULER_MESSAGE (b : abi) : bool := sizeof b
  HV_VP_SIGNAL_PAIR_SCHEDULER_MESSAGE =? (sizeof b HV_MESSAGE - sizeof b HV_MESSAGE_HEADER).
Definition HV_DISPATCH_VP_FLAG_CLEAR_INTERCEPT_SUSPEND : Z := 0x1.
Definition HV_DISPATCH_VP_FLAG_ENABLE_CALLER_INTERRUPTS : Z := 0x2.
Definition HV_DISPATCH_VP_FLAG_SET_CALLER_SPEC_CTRL : Z := 0x4.
Definition HV_DISPATCH_VP_FLAG_SKIP_VP_SPEC_FLUSH : Z := 0x8.
Definition HV_DISPATCH_VP_FLAG_SKIP_CALLER_SPEC_FLUSH : Z := 0x10.
Definition HV_DISPATCH_VP_FLAG_SKIP_CALLER_USER_SPEC_FLUSH : Z := 0x20.

(** ** The records and enumerations of the file *)

Definition TlfsPartition_types : list (string * cty) := [
  ("HV_GENERIC_SET_HEADER", HV_GENERIC_SET_HEADER);
  ("HV_GENERIC_SET", HV_GENERIC_SET);
  ("HV_X64_PENDING_MEMORY_INTERCEPT_EVENT", HV_X64_PENDING_MEMORY_INTERCEPT_EVENT);
  ("HV_X64_PENDING_NESTED_MEMORY_INTERCEPT_EVENT", HV_X64_PENDING_NESTED_MEMORY_INTERCEPT_EVENT);
  ("HV_X64_PENDING_EVENT", HV_X64_PENDING_EVENT);
  ("HV_TRANSLATE_GVA_RESULT_EX", HV_TRANSLATE_GVA_RESULT_EX);
  ("HV_MSI_ADDRESS_REGISTER", HV_MSI_ADDRESS_REGISTER);
  ("HV_MSI_DATA_REGISTER", HV_MSI_DATA_REGISTER);
  ("HV_MSI_ENTRY", HV_MSI_ENTRY);
  ("HV_IOAPIC_RTE", HV_IOAPIC_RTE);
  ("HV_GICD_ENTRY", HV_GICD_ENTRY);
  ("HV_INTERRUPT_ENTRY", HV_INTERRUPT_ENTRY);
  ("HV_DEVICE_INTERRUPT_TARGET_HEADER", HV_DEVICE_INTERRUPT_TARGET_HEADER);
  ("HV_DEVICE_INTERRUPT_TARGET", HV_DEVICE_INTERRUPT_TARGET);
  ("HV_REGISTER_VSM_PARTITION_STATUS", HV_REGISTER_VSM_PARTITION_STATUS);
  ("HV_REGISTER_VSM_VP_STATUS", HV_REGISTER_VSM_VP_STATUS);
  ("HV_REGISTER_VSM_PARTITION_CONFIG", HV_REGISTER_VSM_PARTITION_CONFIG);
  ("HV_REGISTER_GUEST_VSM_PARTITION_CONFIG", HV_REGISTER_GUEST_VSM_PARTITION_CONFIG);
  ("HV_REGISTER_VSM_VP_SECURE_VTL_CONFIG", HV_REGISTER_VSM_VP_SECURE_VTL_CONFIG);
  ("HV_REGISTER_VSM_CODE_PAGE_OFFSETS", HV_REGISTER_VSM_CODE_PAGE_OFFSETS);
  ("HV_REGISTER_VSM_VINA", HV_REGISTER_VSM_VINA);
  ("HV_REGISTER_CR_INTERCEPT_CONTROL", HV_REGISTER_CR_INTERCEPT_CONTROL);
  ("VM_PARTITION_ASSIST_PAGE", VM_PARTITION_ASSIST_PAGE);
  ("HV_GPA_PAGE_RANGE", HV_GPA_PAGE_RANGE);
  ("HV_VMX_ENLIGHTENED_VMCS", HV_VMX_ENLIGHTENED_VMCS);
  ("HV_NOTIFICATION_MESSAGE_PAYLOAD", HV_NOTIFICATION_MESSAGE_PAYLOAD);
  ("HV_X64_PROXY_INTERRUPT_MESSAGE_PAYLOAD", HV_X64_PROXY_INTERRUPT_MESSAGE_PAYLOAD);
  ("HV_GPA_PAGE_ACCESS_STATE_FLAGS", HV_GPA_PAGE_ACCESS_STATE_FLAGS);
  ("HV_GPA_PAGE_ACCESS_STATE", HV_GPA_PAGE_ACCESS_STATE);
  ("HV_VP_REGISTER_PAGE", HV_VP_REGISTER_PAGE);
  ("HV_PARTITION_CREATION_PROPERTIES_V1", HV_PARTITION_CREATION_PROPERTIES_V1);
  ("HV_PARTITION_CREATION_PROPERTIES_V2", HV_PARTITION_CREATION_PROPERTIES_V2);
  ("HV_PARTITION_CREATION_PROPERTIES", HV_PARTITION_CREATION_PROPERTIES);
  ("HV_PARTITION_SYNTHETIC_PROCESSOR_FEATURES", HV_PARTITION_SYNTHETIC_PROCESSOR_FEATURES);
  ("HV_PARTITION_ISOLATION_PROPERTIES", HV_PARTITION_ISOLATION_PROPERTIES);
  ("HV_CPUID_LEAF_INFO", HV_CPUID_LEAF_INFO);
  ("HV_GET_VP_CPUID_VALUES_FLAGS", HV_GET_VP_CPUID_VALUES_FLAGS);
  ("HV_OPAQUE_INTERCEPT_MESSAGE", HV_OPAQUE_INTERCEPT_MESSAGE);
  ("HV_SYNIC_EVENT_RING", HV_SYNIC_EVENT_RING);
  ("HV_SYNIC_EVENT_RING_PAGE", HV_SYNIC_EVENT_RING_PAGE);
  ("HV_SYNIC_SIRBP", HV_SYNIC_SIRBP);
  ("HV_LOCAL_INTERRUPT_CONTROLLER_STATE", HV_LOCAL_INTERRUPT_CONTROLLER_STATE);
  ("HV_STIMER_STATE", HV_STIMER_STATE);
  ("HV_SYNTHETIC_TIMERS_STATE", HV_SYNTHETIC_TIMERS_STATE);
  ("HV_REGISTER_X64_CPUID_RESULT_PARAMETERS", HV_REGISTER_X64_CPUID_RESULT_PARAMETERS);
  ("HV_REGISTER_X64_MSR_RESULT_PARAMETERS", HV_REGISTER_X64_MSR_RESULT_PARAMETERS);
  ("HV_REGISTER_INTERCEPT_RESULT_PARAMETERS", HV_REGISTER_INTERCEPT_RESULT_PARAMETERS);
  ("HV_ASYNC_COMPLETION_MESSAGE_PAYLOAD", HV_ASYNC_COMPLETION_MESSAGE_PAYLOAD);
  ("HV_GUEST_MAPPING_FLUSH_LIST", HV_GUEST_MAPPING_FLUSH_LIST);
  ("HV_VP_STATE_DATA_XSAVE", HV_VP_STATE_DATA_XSAVE);
  ("HV_VP_STATE_DATA", HV_VP_STATE_DATA);
  ("HV_VP_SIGNAL_BITSET_SCHEDULER_MESSAGE", HV_VP_SIGNAL_BITSET_SCHEDULER_MESSAGE);
  ("HV_VP_SIGNAL_PAIR_SCHEDULER_MESSAGE", HV_VP_SIGNAL_PAIR_SCHEDULER_MESSAGE)].
Definition TlfsPartition_enums : list (string * enum) := [
  ("HV_GENERIC_SET_FORMAT", HV_GENERIC_SET_FORMAT);
  ("HV_X64_PENDING_EVENT_TYPE", HV_X64_PENDING_EVENT_TYPE);
  ("HV_INTERRUPT_SOURCE", HV_INTERRUPT_SOURCE);
  ("HV_UNIMPLEMENTED_MSR_ACTION", HV_UNIMPLEMENTED_MSR_ACTION);
  ("HV_SCHEDULER_TYPE", HV_SCHEDULER_TYPE);
  ("HV_SYSTEM_PROPERTY", HV_SYSTEM_PROPERTY);
  ("HV_PARTITION_ISOLATION_STATE", HV_PARTITION_ISOLATION_STATE);
  ("HV_VP_STATE_PAGE_TYPE", HV_VP_STATE_PAGE_TYPE);
  ("HV_GET_SET_VP_STATE_TYPE", HV_GET_SET_VP_STATE_TYPE);
  ("HV_VP_DISPATCH_STATE", HV_VP_DISPATCH_STATE);
  ("HV_VP_DISPATCH_EVENT", HV_VP_DISPATCH_EVENT)].
(** The static assertions of the file. *)
Definition TlfsPartition_asserts (b : abi) : list bool := [
  static_assert_HV_VP_SIGNAL_BITSET_SCHEDULER_MESSAGE b;
  static_assert_HV_VP_SIGNAL_PAIR_SCHEDULER_MESSAGE b].
