(* ===== verification/TlfsSymbols.v ===== *)
(** * The hypervisor specification: definitions from symbols

    The fourth part of [Mile.HyperV.TLFS.h]: loader, device, crash and statistics
    structures. *)

From S2P Require Import Prelude CLayout GuestInterface GuestProtocols TlfsBase TlfsState TlfsPartition.

Definition HV_LOGICAL_DEVICE_ID : cty := UINT64.
Definition HV_PASID : cty := UINT32.
Definition HV_PASID_SPACE_ID : cty := UINT32.
Definition HV_IOAPIC_ID : cty := UINT8.
Definition HV_PCI_SEGMENT : cty := UINT16.
Definition HV_DEVICE_VA : cty := UINT64.
Definition HV_PCI_RID : cty := UINT16.
Definition HV_DEVICE_PR_QUEUE_ID : cty := UINT32.
Definition HV_SUBNODE_TYPE : enum := [
  Is "HvSubnodeAny" 0x0;
  Is "HvSubnodeSocket" 0x1;
  Is "HvSubnodeCluster" 0x2;
  Is "HvSubnodeL3" 0x3;
  Is "HvSubnodeCount" 0x4;
  Is "HvSubnodeInvalid" 0xffffffff].
Definition HV_INPUT_FLUSH_VIRTUAL_ADDRESS_SPACE_HEADER : cty := struct 0 [
  fld HV_ADDRESS_SPACE_ID "AddressSpace";
  fld HV_FLUSH_FLAGS "Flags";
  fld UINT64 "ProcessorMask"].
Definition HV_INPUT_FLUSH_VIRTUAL_ADDRESS_SPACE_HEADER_EX : cty := struct 0 [
  fld HV_ADDRESS_SPACE_ID "AddressSpace";
  fld HV_FLUSH_FLAGS "Flags";
  fld HV_GENERIC_SET "ProcessorSet"].
Definition HV_GPA_PAGE_ATTRIBUTES : cty := union 0 [
  fld UINT64 "AsUINT64";
  fld (struct 0 [
    bit UINT64 "Protectable" 1;
    bit UINT64 "Reserved" 63]) anonymous].
Definition HV_NESTED_MSR_INTERCEPT_MODE : enum := [
  Is "HvNestedMsrInterceptModeSlow" 0x0;
  Is "HvNestedMsrInterceptModeFast" 0x1;
  Is "HvNestedMsrInterceptModeEnlightened" 0x2;
  Is "HvNestedMsrInterceptModeCount" 0x3].
Definition HV_STORE_DATA_RESULT : enum := [
  Is "StoreDataSuccess" 0x0;
  Is "StoreDataNoWritesRequired" 0x1;
  Is "StoreDataFailure" 0x2;
  Is "StoreDataResultMaximum" 0x3].
Definition HV_FILE_STATUS : enum := [
  Is "Shrunk" 0x0;
  Is "Grown" 0x1;
  Is "Unchanged" 0x2].
Definition HV_BACKING_STORAGE_TYPE : enum := [
  Is "HvStorageLoader" 0x0;
  Is "HvStoragePool" 0x1;
  Is "HvStorageSystemCache" 0x2].
Definition HV_LOG_SWAP_REASON : enum := [
  Is "HvLogSwapSpaceExhausted" 0x0;
  Is "HvLogSwapReconcile" 0x1].
Definition HV_LOGICAL_PROCESSOR_PROPERTY_TYPE : enum := [
  Is "HvLogicalProcessorPerfStateConfig" 0x0;
  Is "HvLogicalProcessorThrottleStateConfig" 0x1;
  Is "HvLogicalProcessorPccConfig" 0x2;
  Is "HvLogicalProcessorPerfStateCap" 0x3;
  Is "HvLogicalProcessorMachineCheckContextInfo" 0x4;
  Is "HvLogicalProcessorMcUpdateUpdateStatus" 0x5].
Definition HV_LOGICAL_PROCESSOR_REGISTER_TYPE : enum := [
  Is "HvX64LpRegisterTypeCpuid" 0x10000;
  Is "HvX64LpRegisterTypeMsr" 0x10001;
  Is "HvX64LpRegisterTypeWbinvd" 0x10002].
Definition HV_POWER_PROPERTY_TYPE : enum := [
  Is "HvPowerPropertyLpIdleStateConfig" 0x0;
  Is "HvPowerPropertyLpPerfFeedbackCounters" 0x1;
  Is "HvPowerPropertyLpPercentageFrequency" 0x2;
  Is "HvPowerPropertyLpNextPlatformStateIndex" 0x3;
  Is "HvPowerPropertyStatsOffsets" 0x4;
  Is "HvPowerPropertyPolicySetting" 0x5;
  Is "HvPowerPropertyLpCppcRequestValue" 0x6;
  Is "HvPowerPropertyLpCppcRequestRegister" 0x7;
  Is "HvPowerPropertyLpIdleStateConfigEx" 0x8].
Definition HV_PARTITION_EVENT : enum := [
  Is "HvPartitionEventDebugDeviceAvailable" 0x1;
  Is "HvPartitionEventRootCrashdump" 0x2;
  Is "HvPartitionEventAcpiReenabled" 0x3;
  Is "HvPartitionAllLogicalProcessorsStarted" 0x4;
  Is "HvPartitionCommitLpIndices" 0x5].
Definition HV_PPM_POWER_POLICY_SETTING_ID : enum := [
  Is "HvPowerPolicyIdleDisable" 0x0;
  Is "HvPowerPolicyIdleTimeCheck" 0x1;
  Is "HvPowerPolicyIdlePromoteThreshold" 0x2;
  Is "HvPowerPolicyIdleDemoteThreshold" 0x3;
  Is "HvPowerPolicyIdleStateMaximum" 0x4;
  Is "HvPowerPolicyThrottleMaximum" 0x5;
  Is "HvPowerPolicyThrottleMinimum" 0x6;
  Is "HvPowerPolicyPerfIncreaseThreshold" 0x7;
  Is "HvPowerPolicyPerfDecreaseThreshold" 0x8;
  Is "HvPowerPolicyPerfIncreasePolicy" 0x9;
  Is "HvPowerPolicyPerfDecreasePolicy" 0xa;
  Is "HvPowerPolicyCoreParkingIncreasePolicy" 0xb;
  Is "HvPowerPolicyCoreParkingDecreasePolicy" 0xc;
  Is "HvPowerPolicyCoreParkingMaxCores" 0xd;
  Is "HvPowerPolicyCoreParkingMinCores" 0xe;
  Is "HvPowerPolicyPerfTimeCheck" 0xf;
  Is "HvPowerPolicyPerfIncreaseTime" 0x10;
  Is "HvPowerPolicyPerfDecreaseTime" 0x11;
  Is "HvPowerPolicyPerfBoostPolicy" 0x12;
  Is "HvPowerPolicyPerfBoostMode" 0x13;
  Is "HvPowerPolicyMax" 0x14].
Definition HV_BOOT_DEBUG_PORT_TYPE : enum := [
  Is "HvBootDbgPortNone" 0x0;
  Is "HvBootDbgPortCom" 0x1;
  Is "HvBootDbgPortFirewire" 0x2;
  Is "HvBootDbgPortNet" 0x3].
Definition HV_CRASHDUMP_ACTION : enum := [
  Is "HvCrashdumpNone" 0x0;
  Is "HvCrashdumpSuspendAllVps" 0x1;
  Is "HvCrashdumpPrepareForStateSave" 0x2;
  Is "HvCrashdumpStateSaved" 0x3;
  Is "HvCrashdumpEntry" 0x4].
Definition HV_PHYSICAL_DEVICE_PROPERTY : enum := [
  Is "HvPhysicalDevicePropertyCapabilities" 0x0;
  Is "HvPhysicalDevicePropertyEnabled" 0x1;
  Is "HvPhysicalDevicePropertyDmaEnabled" 0x1;
  Is "HvPhysicalDevicePropertyAtsEnabled" 0x1;
  Is "HvPhysicalDevicePropertyFaultReporting" 0x2;
  Is "HvPhysicalDevicePropertyIrtRange" 0x4].
Definition HV_X64_PPM_PERF_STATE_PORT_ACCESS_SIZE : enum := [
  Is "HvX64PerfStatePort8Bit" 0x0;
  Is "HvX64PerfStatePort16Bit" 0x1;
  Is "HvX64PerfStatePort32Bit" 0x2].
Definition HV_MACHINE_CHECK_RECOVERY_FLAG : enum := [
  Is "InvalidRecoveryFlag" 0x0;
  Is "NewDeferredRecoveryQueued" 0x1;
  Is "DeferredRecoveryCompleted" 0x2].
Definition HV_MACHINE_CHECK_SOURCE : enum := [
  Is "HV_MACHINE_CHECK_SOURCE_NONE" 0x0;
  Is "HV_MACHINE_CHECK_SOURCE_HV" 0x1;
  Is "HV_MACHINE_CHECK_SOURCE_ROOT_VP" 0x2;
  Is "HV_MACHINE_CHECK_SOURCE_NON_ROOT_VP" 0x3].
Definition HV_DEVICE_TYPE : enum := [
  Is "HV_DEVICE_TYPE_LOGICAL" 0x0;
  Is "HV_DEVICE_TYPE_PCI" 0x1;
  Is "HV_DEVICE_TYPE_IOAPIC" 0x2;
  Is "HV_DEVICE_TYPE_ACPI" 0x3].
Definition HV_COVERAGE_OPERATION : enum := [
  Is "HvCoverageFetchInfo" 0x0;
  Is "HvCoverageFetchCovHeader" 0x1;
  Is "HvCoverageFetchCovSection" 0x2;
  Is "HvCoverageResetCovVector" 0x3].
Definition HV_BOOT_DEBUG_COM_PORT_TYPE : enum := [
  Is "HvBootDbgPortComIoPort" 0x0;
  Is "HvBootDbgPortComMemoryMapped" 0x1].
Definition HV_INTERRUPT_TRIGGER_MODE : enum := [
  Is "HvInterruptTriggerModeEdge" 0x0;
  Is "HvInterruptTriggerModeLevel" 0x1].
Definition HV_SLEEP_STATE : enum := [
  Is "HvSleepStateS1" 0x1;
  Is "HvSleepStateS2" 0x2;
  Is "HvSleepStateS3" 0x3;
  Is "HvSleepStateS4" 0x4;
  Is "HvSleepStateS5" 0x5;
  Is "HvSleepStateLock" 0x6].
Definition HV_DEVICE_PRQ_PROPERTY : enum := [
  Is "HvDevicePrqPropertyStalled" 0x0;
  Is "HvDevicePrqPropertyInterruptMasked" 0x1].
Definition HV_MACHINE_CHECK_PROPERTY_TYPE : enum := [
  Is "MachineCheckHandlerState" 0x1;
  Is "MachineCheckDeferredRecoveryState" 0x2].
Definition HV_PPM_PERF_STATE_REGISTER_TYPE : enum := [
  Is "HvPerfStateRegisterNone" 0x0;
  Is "HvPerfStateRegisterMsr" 0x1;
  Is "HvPerfStateRegisterIo" 0x2;
  Is "HvPerfStateRegisterMemory" 0x3].
Definition HV_X64_PPM_PERF_DOMAIN_COORDINATION : enum := [
  Is "HvX64PerfDomainCoordinationSwAll" 0x0;
  Is "HvX64PerfDomainCoordinationSwAny" 0x1;
  Is "HvX64PerfDomainCoordinationHwAll" 0x2].
Definition HV_ERROR_TYPES : enum := [
  Is "HV_MISCELLANEOUS_ERROR" 0x0;
  Is "HV_PERFORMANCE_COUNTER_DECREASED" 0x1;
  Is "HV_PERFORMANCE_COUNTER_SKIPPED" 0x2;
  Is "HV_FREED_TOO_MANY_COMMON_BUFFERS" 0x3;
  Is "HV_FREED_TOO_MANY_ADAPTER_CHANNELS" 0x4;
  Is "HV_FREED_TOO_MANY_MAP_REGISTERS" 0x5;
  Is "HV_FREED_TOO_MANY_SCATTER_GATHER_LISTS" 0x6;
  Is "HV_LEFTOVER_COMMON_BUFFERS" 0x7;
  Is "HV_LEFTOVER_ADAPTER_CHANNELS" 0x8;
  Is "HV_LEFTOVER_MAP_REGISTERS" 0x9;
  Is "HV_LEFTOVER_SCATTER_GATHER_LISTS" 0xa;
  Is "HV_TOO_MANY_ADAPTER_CHANNELS" 0xb;
  Is "HV_TOO_MANY_MAP_REGISTERS" 0xc;
  Is "HV_DID_NOT_FLUSH_ADAPTER_BUFFERS" 0xd;
  Is "HV_DMA_BUFFER_NOT_LOCKED" 0xe;
  Is "HV_BOUNDARY_OVERRUN" 0xf;
  Is "HV_CANNOT_FREE_MAP_REGISTERS" 0x10;
  Is "HV_DID_NOT_PUT_ADAPTER" 0x11;
  Is "HV_MDL_FLAGS_NOT_SET" 0x12;
  Is "HV_BAD_IRQL" 0x13;
  Is "HV_BAD_IRQL_JUST_WARN" 0x14;
  Is "HV_OUT_OF_MAP_REGISTERS" 0x15;
  Is "HV_FLUSH_EMPTY_BUFFERS" 0x16;
  Is "HV_MISMATCHED_MAP_FLUSH" 0x17;
  Is "HV_ADAPTER_ALREADY_RELEASED" 0x18;
  Is "HV_NULL_DMA_ADAPTER" 0x19;
  Is "HV_MAP_FLUSH_NO_TRANSFER" 0x1a;
  Is "HV_ADDRESS_NOT_IN_MDL" 0x1b;
  Is "HV_DATA_LOSS" 0x1c;
  Is "HV_DOUBLE_MAP_REGISTER" 0x1d;
  Is "HV_OBSOLETE_API" 0x1e;
  Is "HV_BAD_MDL" 0x1f;
  Is "HV_FLUSH_NOT_MAPPED" 0x20;
  Is "HV_MAP_ZERO_LENGTH_BUFFER" 0x21;
  Is "HV_BUFFER_NOT_MAPPED_IN_SYSTEM_VA" 0x22;
  Is "HV_INCOMPLETE_FLUSH" 0x23;
  Is "HV_INSUFFICIENT_BUFFER" 0x24;
  Is "HV_UNKNOWN_DEVICE_DESCRIPTION_VERSION" 0x25;
  Is "HV_MAX_ERROR_TYPES" 0x26;
  Is "HV_ERROR_HAS_SUBCODE" 0x10000000].
Definition HV_PPM_POWER_POLICY_SETTING : cty := struct 0 [
  fld (enum_type HV_PPM_POWER_POLICY_SETTING_ID) "SettingId";
  fld UINT32 "Value"].
Definition HV_IOMMU_INIT_STATUS : cty := struct 0 [
  fld UINT8 "HardwarePresent";
  fld UINT8 "Enabled";
  fld UINT64 "Policy";
  fld UINT64 "Features";
  fld UINT64 "InitStatus";
  fld UINT64 "Errors";
  fld UINT64 "Errata"].
Definition HV_TSC_SYNC_STATUS : cty := struct 0 [
  fld UINT8 "SyncFailed";
  fld UINT8 "SyncNeeded";
  fld INT64 "MaxDelta";
  fld INT64 "MinDelta"].
Definition HV_PCI_BDF : cty := union 0 [
  fld UINT16 "AsUINT16";
  fld (struct 0 [
    bit UINT8 "Function" 3;
    bit UINT8 "Device" 5;
    fld UINT8 "Bus"]) anonymous].
Definition HV_PCI_BUS_RANGE : cty := union 0 [
  fld UINT16 "AsUINT16";
  fld (struct 0 [
    fld UINT8 "SubordinateBus";
    fld UINT8 "SecondaryBus"]) anonymous].
Definition HV_DEVICE_ID : cty := union 0 [
  fld UINT64 "AsUINT64";
  fld (struct 0 [
    bit UINT64 "Id" 62;
    bit UINT64 "DeviceType" 2]) "Logical";
  fld (struct 0 [
    fld (union 0 [
      fld UINT16 "Rid";
      fld HV_PCI_BDF "Bdf"]) anonymous;
    fld UINT16 "Segment";
    bit UINT8 "DeviceType" 2;
    bit UINT8 "SourceShadow" 2;
    bit UINT8 "PhantomFunctionBits" 2;
    bit UINT8 "RsvdZ0" 2;
    fld HV_IOAPIC_ID "IoApicId";
    fld (union 0 [
      fld HV_PCI_BDF "ShadowBdf";
      fld HV_PCI_BUS_RANGE "ShadowBusRange"]) anonymous]) "Pci";
  fld (struct 0 [
    fld UINT32 "InputMappingBase";
    bit UINT32 "InputMappingsCount" 30;
    bit UINT32 "DeviceType" 2]) "Acpi";
  fld (struct 0 [
    bit UINT64 "_" 62;
    bit UINT64 "DeviceType" 2]) anonymous].
Definition HV_HPET_CONFIG_INFO : cty := struct 0 [
  fld UINT64 "BaseAddressDeprecated";
  fld UINT32 "TimerIndex";
  fld HV_DEVICE_ID "DeviceId";
  fld UINT8 "TimerInterruptPin"].
Definition HV_HPET_INTERRUPT_INFO : cty := struct 0 [
  fld HV_INTERRUPT_ENTRY "InterruptEntry"].
Definition HV_HPET_ENABLED_INFO : cty := struct 0 [
  bit UINT8 "HpetEnabled" 1;
  bit UINT8 "Reserved" 7].
Definition HV_HYPERVISOR_LAUNCH_STATS : cty := struct 0 [
  fld UINT64 "RootBspTscAdjustment"].
Definition HV_ROOT_SVM_CAPABILITIES_PROPERTY : cty := struct 0 [
  fld UINT32 "IommuCount";
  fld UINT32 "MinIommuPasidCount"].
Definition HV_NUMA_NODE_RESERVED_PAGE_INFO : cty := struct 0 [
  fld UINT64 "PhysicalAddress";
  fld UINT32 "ProximityDomainId"].
Definition HV_ROOT_NUMA_COST_PAGES_PROPERTY : cty := struct 0 [
  fld UINT32 "NumaNodeCount";
  fld UINT32 "ReservedP";
  fld (CArr HV_NUMA_NODE_RESERVED_PAGE_INFO 64) "NumaNodePfn"].
Definition HV_SLEEP_STATE_INFO : cty := struct 0 [
  fld (enum_type HV_SLEEP_STATE) "SleepState";
  fld UINT8 "Pm1a_SLP_TYP";
  fld UINT8 "Pm1b_SLP_TYP"].
Definition HV_MACHINE_CHECK_PROPERTY_INFO : cty := struct 0 [
  fld (enum_type HV_MACHINE_CHECK_PROPERTY_TYPE) "PropertyType";
  fld (union 0 [
    fld UINT8 "MachineCheckHandlerReady";
    fld (enum_type HV_MACHINE_CHECK_RECOVERY_FLAG) "MachineCheckRecoveryFlag"]) anonymous].
Definition HV_HYPERVISOR_DEBUG_PROPERTY : cty := struct 0 [
  fld UINT8 "PowerStateEnabled"].
Definition HV_PLATFORM_VIRTUALIZATION_SUPPORT_INFO : cty := struct 0 [
  fld UINT8 "NestedVirtualization";
  fld UINT8 "Sgx"].
Definition HV_SPA_PAGE_LIST_FLAGS : cty := union 0 [
  fld UINT64 "AsUINT64";
  fld (struct 0 [
    bit UINT64 "Deposited" 1;
    bit UINT64 "Minimal" 1;
    bit UINT64 "Hardware" 1;
    bit UINT64 "RsvdZ" 61]) anonymous].
Definition HV_X64_PPM_PERF_STATE : cty := struct 0 [
  fld UINT64 "Control";
  fld UINT64 "Status";
  fld UINT64 "ControlMask";
  fld UINT64 "StatusMask";
  fld UINT32 "Frequency";
  fld UINT32 "TransitionLatency";
  fld UINT32 "BusMasterLatency";
  fld UINT32 "PowerConsumption"].
Definition HV_PPM_PERF_STATE_REGISTER : cty := union 0 [
  fld UINT64 "AsUINT64";
  fld (struct 0 [
    bit UINT64 "TypeSpecific" 52;
    bit UINT64 "RegisterType" 12]) anonymous;
  fld (struct 0 [
    fld UINT32 "RegisterNumber";
    fld UINT8 "BitWidth";
    fld UINT8 "BitOffset";
    bit UINT16 "ReservedZ" 4]) "Msr";
  fld (struct 0 [
    fld UINT16 "Port";
    fld UINT16 "AccessSize";
    fld UINT8 "BitWidth";
    fld UINT8 "BitOffset";
    bit UINT16 "ReservedZ" 4]) "Io";
  fld (struct 0 [
    bit UINT64 "Address" 52]) "Memory"].
Definition HV_X64_PPM_PERF_STATE_CONFIG_PROPERTY : cty := struct 0 [
  fld UINT32 "StateCount";
  fld (CArr HV_X64_PPM_PERF_STATE 64) "States";
  fld UINT32 "DomainId";
  fld UINT32 "NumProcInDomain";
  fld (enum_type HV_X64_PPM_PERF_DOMAIN_COORDINATION) "Coordination";
  fld HV_PPM_PERF_STATE_REGISTER "ControlRegister";
  fld HV_PPM_PERF_STATE_REGISTER "StatusRegister"].
Definition HV_X64_PPM_THROTTLE_STATE : cty := struct 0 [
  fld UINT64 "Control";
  fld UINT64 "Status";
  fld UINT32 "PercentFrequency";
  fld UINT32 "TransitionLatency";
  fld UINT32 "PowerConsumption"].
Definition HV_X64_PPM_THROTTLE_STATE_CONFIG_PROPERTY : cty := struct 0 [
  fld UINT32 "StateCount";
  fld (CArr HV_X64_PPM_THROTTLE_STATE 100) "States";
  fld UINT32 "DomainId";
  fld UINT32 "NumProcInDomain";
  fld (enum_type HV_X64_PPM_PERF_DOMAIN_COORDINATION) "Coordination";
  fld HV_PPM_PERF_STATE_REGISTER "ControlRegister";
  fld HV_PPM_PERF_STATE_REGISTER "StatusRegister";
  fld UINT64 "ControlMask";
  fld UINT64 "StatusMask"].
Definition HV_X64_PPM_PCC_CONFIG_PROPERTY : cty := struct 0 [
  fld UINT32 "Flags";
  fld UINT32 "DomainId";
  fld UINT32 "NumProcInDomain";
  fld (enum_type HV_X64_PPM_PERF_DOMAIN_COORDINATION) "Coordination";
  fld UINT64 "SharedMemoryAddress";
  fld UINT32 "SharedMemoryLength";
  fld HV_PPM_PERF_STATE_REGISTER "Doorbell";
  fld UINT64 "DoorbellPreserve";
  fld UINT64 "DoorbellWrite";
  fld UINT64 "DoorbellMask";
  fld UINT32 "InputBufferOffset";
  fld UINT32 "OutputBufferOffset"].
Definition HV_X64_PPM_PERF_STATE_CAP_PROPERTY : cty := struct 0 [
  fld UINT32 "PStateCap";
  fld UINT32 "TStateCap";
  fld UINT32 "ThermalCap"].
Definition HV_MACHINE_CHECK_CONTEXT : cty := struct 0 [
  fld HV_PARTITION_ID "PartitionId";
  fld HV_VP_INDEX "VpIndex";
  fld HV_VTL "Vtl"].
Definition HV_MACHINE_CHECK_CONTEXT_INFO : cty := struct 0 [
  fld (enum_type HV_MACHINE_CHECK_SOURCE) "MachineCheckSource";
  fld HV_MACHINE_CHECK_CONTEXT "MachineCheckContext"].
Definition HV_MCUPDATE_UPDATE_STATUS : cty := struct 0 [
  fld HV_BOOLEAN "Valid";
  fld UINT32 "UpdateLoadStatus";
  fld UINT64 "UpdateRevision";
  fld UINT64 "PreviousUpdateRevision";
  fld UINT32 "PlatformSpecificField1";
  fld UINT32 "PlatformSpecificField2"].
Definition HV_LOGICAL_PROCESSOR_PROPERTY : cty := union 0 [
  fld HV_X64_PPM_PERF_STATE_CONFIG_PROPERTY "PerfStateConfig";
  fld HV_X64_PPM_THROTTLE_STATE_CONFIG_PROPERTY "ThrottleStateConfig";
  fld HV_X64_PPM_PCC_CONFIG_PROPERTY "PccConfig";
  fld HV_X64_PPM_PERF_STATE_CAP_PROPERTY "PerfStateCap";
  fld HV_MACHINE_CHECK_CONTEXT_INFO "MachineCheckContextInfo";
  fld HV_MCUPDATE_UPDATE_STATUS "UpdateStatus"].
Definition HV_DEVICE_DOMAIN_ID : cty := union 0 [
  fld UINT64 "AsUINT64";
  fld (struct 0 [
    bit UINT32 "Type" 4;
    bit UINT32 "Reserved" 28;
    fld UINT32 "Id"]) anonymous].
Definition HV_INPUT_DEVICE_DOMAIN : cty := struct 0 [
  fld HV_PARTITION_ID "PartitionId";
  fld HV_INPUT_VTL "OwnerVtl";
  fld HV_DEVICE_DOMAIN_ID "DomainId"].
Definition HV_FULL_PASID : cty := union 0 [
  fld UINT64 "AsUINT64";
  fld (struct 0 [
    fld HV_PASID "Pasid";
    fld HV_PASID_SPACE_ID "PasidSpaceId"]) anonymous].
Definition HV_DEVICE_ADDRESS_SPACE : cty := union 0 [
  fld UINT64 "AsUINT64";
  fld (struct 0 [
    bit UINT64 "Present" 1;
    bit UINT64 "Supervisor" 1;
    bit UINT64 "Reserved" 10;
    bit UINT64 "PageTableRootPfn" 52]) anonymous].
Definition HV_DEVICE_INTERRUPT_DESCRIPTOR_HEADER : cty := struct 0 [
  fld (enum_type HV_INTERRUPT_TYPE) "InterruptType";
  fld (enum_type HV_INTERRUPT_TRIGGER_MODE) "TriggerMode";
  fld UINT32 "VectorCount";
  fld UINT32 "Reserved"].
Definition HV_DEVICE_INTERRUPT_DESCRIPTOR : cty := struct 0 [
  fld (enum_type HV_INTERRUPT_TYPE) "InterruptType";
  fld (enum_type HV_INTERRUPT_TRIGGER_MODE) "TriggerMode";
  fld UINT32 "VectorCount";
  fld UINT32 "Reserved";
  fld HV_DEVICE_INTERRUPT_TARGET "Target"].
Definition HV_ATTACH_DEVICE_FLAGS : cty := union 0 [
  fld UINT32 "AsUINT32";
  fld (struct 0 [
    bit UINT32 "LogicalId" 1;
    bit UINT32 "PasidSupported" 1;
    bit UINT32 "PasidEnabled" 1;
    bit UINT32 "Reserved" 29]) anonymous].
Definition HV_DEVICE_PCI_CAPABILITIES : cty := union 0 [
  fld UINT32 "AsUINT32";
  fld (struct 0 [
    bit UINT32 "MaxPasidWidth" 5;
    bit UINT32 "InvalidateQueueDepth" 5;
    bit UINT32 "GlobalInvalidate" 1;
    bit UINT32 "PrgResponsePasidRequired" 1;
    bit UINT32 "Reserved" 20]) anonymous].
Definition HV_X64_PROC_STATE_GP_REGS : cty := struct 0 [
  fld UINT64 "Rip";
  fld UINT64 "Rsp";
  fld UINT64 "Rbp";
  fld UINT64 "Rbx";
  fld UINT64 "Rdi";
  fld UINT64 "Rsi";
  fld UINT64 "R12";
  fld UINT64 "R13";
  fld UINT64 "R14";
  fld UINT64 "R15"].
Definition HV_PARTITION_EVENT_ROOT_CRASHDUMP_INPUT : cty := struct 0 [
  fld (enum_type HV_CRASHDUMP_ACTION) "CrashdumpAction"].
Definition HV_PARTITION_EVENT_COMMIT_PROCESSOR_INDICES_INPUT : cty := struct 0 [
  fld UINT32 "SchedulableProcessorCount"].
Definition HV_PARTITION_EVENT_INPUT : cty := union 0 [
  fld HV_PARTITION_EVENT_ROOT_CRASHDUMP_INPUT "CrashdumpInput";
  fld HV_PARTITION_EVENT_COMMIT_PROCESSOR_INDICES_INPUT "CommitLpIndicesInput"].
Definition HV_PPM_IDLE_STATE_CONFIG : cty := union 0 [
  fld UINT64 "AsUINT64";
  fld (struct 0 [
    bit UINT64 "TypeSpecific" 52;
    bit UINT64 "ChangeType" 4;
    bit UINT64 "CheckBM_STS" 1;
    bit UINT64 "SetBM_RST" 1;
    bit UINT64 "ClearBM_RST" 1;
    bit UINT64 "SetARB_DIS" 1;
    bit UINT64 "ReservedZ" 4]) anonymous;
  fld (struct 0 [
    bit UINT64 "ReservedZ" 52]) "Hlt";
  fld (struct 0 [
    fld UINT16 "Port";
    fld UINT16 "ReservedZ1";
    bit UINT32 "ReservedZ2" 20]) "Io";
  fld (struct 0 [
    fld UINT32 "Hints";
    bit UINT32 "BreakOnMaskedInterrupt" 1;
    bit UINT32 "ReservedZ" 19]) "Mwait";
  fld (struct 0 [
    fld UINT32 "PowerState";
    fld UINT32 "Reserved"]) "Psci"].
Definition HV_PPM_IDLE_STATE : cty := struct 0 [
  fld HV_PPM_IDLE_STATE_CONFIG "Config";
  fld UINT32 "Type";
  fld UINT32 "HardwareLatency";
  fld UINT32 "PowerConsumption"].
Definition HV_X64_PPM_IDLE_STATE_CONFIG_PROPERTY : cty := struct 0 [
  fld UINT32 "StateCount";
  fld (CArr HV_PPM_IDLE_STATE 16) "States"].
Definition HV_PPM_FEEDBACK_REGISTER_PAIR : cty := struct 0 [
  fld HV_PPM_PERF_STATE_REGISTER "ReferenceCount";
  fld HV_PPM_PERF_STATE_REGISTER "ActualCount";
  fld UINT8 "ResetRegisters"].
Definition HV_PROCESSOR_PERF_FEEDBACK_COUNTERS_CONFIG : cty := struct 0 [
  fld UINT32 "Count";
  fld (CArr HV_PPM_FEEDBACK_REGISTER_PAIR 4) "FeedbackCounters"].
Definition HV_POWER_STATS_OFFSETS : cty := struct 0 [
  fld UINT32 "GlobalTime";
  fld UINT32 "TotalRunTime";
  fld UINT32 "IdleSequenceNumber";
  fld UINT32 "GlobalTscCount";
  fld UINT32 "ActiveTscCount";
  fld UINT32 "IdleAccumulation";
  fld (CArr (struct 0 [
    fld UINT32 "Reference";
    fld UINT32 "Actual"]) 2) "CycleCount";
  fld UINT32 "CounterRefreshSequenceNumber";
  fld UINT32 "CounterRefreshReferenceTime";
  fld UINT32 "IdleAccumulationSnapshot";
  fld UINT32 "ActiveTscCountSnapshot"].
Definition HV_IPV6_ADDRESS : cty := union 0 [
  fld (struct 0 [
    fld UINT64 "QW0";
    fld UINT64 "QW1"]) anonymous;
  fld (struct 0 [
    fld UINT32 "DW0";
    fld UINT32 "DW1";
    fld UINT32 "DW2";
    fld UINT32 "DW3"]) anonymous;
  fld (struct 0 [
    fld UINT16 "W0";
    fld UINT16 "W1";
    fld UINT16 "W2";
    fld UINT16 "W3";
    fld UINT16 "W4";
    fld UINT16 "W5";
    fld UINT16 "W6";
    fld UINT16 "W7"]) anonymous].
Definition HV_DEBUG_NET_DATA : cty := struct 0 [
  fld (struct 0 [
    fld UINT32 "HostIp";
    fld UINT32 "TargetIp";
    fld UINT16 "HostPort";
    fld UINT16 "TargetPort";
    fld (CArr UINT8 6) "HostMac";
    fld (CArr UINT8 6) "TargetMac"]) "Ipv4";
  fld (struct 0 [
    fld HV_IPV6_ADDRESS "HostIp";
    fld HV_IPV6_ADDRESS "TargetIp";
    fld UINT16 "HostPort";
    fld UINT16 "TargetPort";
    fld (CArr UINT8 6) "HostMac";
    fld (CArr UINT8 6) "TargetMac"]) "Ipv6"].
Definition HV_LP_STARTUP_STATUS : cty := struct 0 [
  fld UINT16 "Status";
  fld UINT64 "SubStatus1";
  fld UINT64 "SubStatus2";
  fld UINT64 "SubStatus3";
  fld UINT64 "SubStatus4";
  fld UINT64 "SubStatus5";
  fld UINT64 "SubStatus6"].
Definition HV_MEMORY_DESCRIPTOR : cty := struct 0 [
  fld UINT64 "Pages";
  fld UINT32 "Levels";
  fld UINT64 "PageTableRoot"].
Definition HV_PHYSICAL_DEVICE_PROPERTY_CAPABILITIES : cty := struct 0 [
  bit UINT32 "RootSvm" 1;
  bit UINT32 "Execute" 1;
  bit UINT32 "Privileged" 1;
  bit UINT32 "IovAts" 1;
  bit UINT32 "DeviceDomains" 1;
  bit UINT32 "S1DeviceDomains" 1;
  bit UINT32 "RootAts" 1;
  bit UINT32 "DomainTransitionSupported" 1;
  bit UINT32 "La57" 1;
  bit UINT32 "RootPasid" 1;
  bit UINT32 "RootDefaultDomainAts" 1;
  bit UINT32 "Reserved0" 21;
  fld UINT32 "PasidCount";
  fld UINT32 "RootSvmIommuIndex";
  fld UINT32 "Reserved1"].
Definition HV_PHYSICAL_DEVICE_PROPERTY_DMA_ENABLED : cty := struct 0 [
  fld UINT8 "PasidEnabled";
  fld UINT8 "Reserved0";
  fld UINT16 "Reserved1";
  fld UINT32 "Reserved2"].
Definition HV_PHYSICAL_DEVICE_PROPERTY_ATS_ENABLED : cty := HV_PHYSICAL_DEVICE_PROPERTY_DMA_ENABLED.
Definition HV_IOMMU_EXTENDED_STATUS : cty := struct 0 [
  fld UINT8 "Severity";
  fld UINT16 "Status";
  fld (CArr UINT64 4) "Params"].
Definition HV_IMAGE_COVERAGE_INFO : cty := struct 0 [
  fld UINT32 "HeaderSize";
  fld UINT32 "Size";
  fld (CArr HV_WCHAR HV_IMAGE_NAME_MAX_LENGTH) "ImageName"].
Definition HV_SPA_PAGE_RANGE : cty := union 0 [
  fld UINT64 "AsUINT64";
  fld (struct 0 [
    bit UINT64 "BasePfn" 40;
    bit UINT64 "AdditionalPages" 24]) anonymous].
Definition HV_REGISTER_NESTED_CONTROL : cty := union 0 [
  fld UINT64 "AsUINT64";
  fld (struct 0 [
    bit UINT64 "MsrInterceptMode" 2;
    bit UINT64 "MsrBitmapDirty" 1;
    bit UINT64 "RsvdZ" 61]) anonymous].
Definition HV_REGISTER_VSM_VP_VTL_CONTROL : cty := union 0 [
  fld UINT64 "AsUINT64";
  fld (struct 0 [
    bit UINT64 "Mapped" 1;
    bit UINT64 "ReservedP" 11;
    bit UINT64 "GpaPageNumber" 52]) anonymous].
Definition HV_X64_XSAVE_AREA : cty := union 0 [
  fld HV_X64_FX_REGISTERS "LegacyFxRegisters";
  fld HV_X64_X_REGISTERS "XRegisters"].
Definition HV_X64_REGISTER_VSM_CAPABILITIES : cty := union 0 [
  fld UINT64 "AsUINT64";
  fld (struct 0 [
    bit UINT64 "Dr6Shared" 1;
    bit UINT64 "MbecVtlMask" 16;
    bit UINT64 "ReservedZ" 47]) anonymous].
Definition HV_VTL_RETURN_INPUT : cty := union 0 [
  fld UINT64 "AsUINT64";
  fld (struct 0 [
    bit UINT64 "FastReturn" 1;
    bit UINT64 "ReservedZ" 63]) anonymous].
Definition HV_X64_LOGICAL_PROCESSOR_REGISTER_ADDRESS : cty := union 0 [
  fld UINT32 "MsrIndex";
  fld (struct 0 [
    fld UINT32 "Eax";
    fld UINT32 "Ecx"]) anonymous].
Definition HV_LOGICAL_PROCESSOR_REGISTER_ID : cty := struct 0 [
  fld HV_LOGICAL_PROCESSOR_INDEX "LpIndex";
  fld (enum_type HV_LOGICAL_PROCESSOR_REGISTER_TYPE) "Type";
  fld HV_X64_LOGICAL_PROCESSOR_REGISTER_ADDRESS "Address"].
Definition HV_MCUPDATE_DATA_HEADER : cty := struct 0 [
  fld UINT32 "DataSize";
  fld UINT32 "TableOffset"].
Definition HV_BOOT_DEBUG_PARAMETERS : cty := struct 0 [
  fld (enum_type HV_BOOT_DEBUG_PORT_TYPE) "PortType";
  fld UINT64 "TransferPagesSpa";
  fld UINT32 "TransferPagesCount";
  fld (union 0 [
    fld (struct 0 [
      fld (enum_type HV_BOOT_DEBUG_COM_PORT_TYPE) "ComPortType";
      fld UINT32 "InterfaceType";
      fld (union 0 [
        fld UINT16 "IoPort";
        fld UINT64 "RegistersSpa"]) anonymous;
      fld UINT32 "RegistersSize";
      fld UINT32 "BaudRate";
      fld HV_BOOLEAN "ExclusiveMode"]) "Com";
    fld (struct 0 [
      fld UINT32 "Bus";
      fld UINT32 "Slot";
      fld UINT16 "Flags";
      fld UINT8 "HvChannelId";
      fld UINT8 "RootChannelId";
      fld UINT64 "OhciRegistersSpa"]) "Firewire";
    fld (struct 0 [
      fld (CArr UINT64 4) "Key";
      fld HV_IPV6_ADDRESS "HostIP";
      fld HV_IPV6_ADDRESS "TargetIP";
      fld HV_IPV6_ADDRESS "GatewayIP";
      fld UINT16 "HostRootPort";
      fld UINT16 "HostHvPort";
      fld (CArr UINT8 6) "DefaultTargetMacAddress";
      fld UINT32 "Flags";
      fld UINT32 "Bus";
      fld UINT32 "Slot";
      fld UINT16 "Segment";
      fld UINT16 "VendorID";
      fld UINT16 "DeviceID";
      fld UINT8 "BaseClass";
      fld UINT8 "SubClass";
      fld UINT8 "ProgIf";
      fld (CArr UINT64 6) "BaseAddressRegisterSPA";
      fld (CArr UINT32 6) "BaseAddressRegisterByteCount";
      fld (CArr UINT16 6) "BaseAddressRegisterType";
      fld UINT64 "KdNetPciMmCfgAddr";
      fld UINT32 "Dbg2TableIndex";
      fld UINT16 "PortType";
      fld UINT16 "PortSubtype";
      fld UINT32 "NameSpace";
      fld UINT32 "KdNetDataSize"]) "Net"]) anonymous].
Definition HV_BOOT_PARAMETERS : cty := struct 0 [
  fld HV_BOOT_DEBUG_PARAMETERS "DebugParams";
  fld UINT64 "Flags"].
Definition HV_HARDWARE_DETAILS : cty := struct 0 [
  fld UINT32 "ErrataType";
  bit UINT32 "SupportPsci" 1;
  bit UINT32 "Reserved" 31].
Definition HV_IMAGE_SECTION_DETAIL : cty := struct 0 [
  fld UINT64 "SectionPhysicalAddress";
  fld UINT32 "SectionSize";
  bit UINT64 "Writeable" 1;
  bit UINT64 "Executable" 1].
Definition HV_IMAGE_DETAIL : cty := struct 0 [
  fld UINT32 "SectionCount";
  fld (CArr HV_IMAGE_SECTION_DETAIL 15) "Sections"].
Definition HV_MINI_LOADER_BLOCK : cty := struct 0 [
  fld UINT32 "LoaderBlockSize";
  fld UINT32 "LoaderBlockVersion";
  fld UINT64 "LoaderBlockPhysicalAddress";
  fld UINT64 "HypervisorEntryPoint";
  fld UINT64 "HypervisorTransTabBasePhys";
  fld HV_BOOT_PARAMETERS "BootParameters";
  fld UINT32 "RootPartitionProcessorCount";
  fld UINT32 "RootPartitionProcessorsContextsOffset";
  fld UINT32 "VpContextSize";
  fld UINT32 "MiniVpContextSize";
  fld UINT32 "HypervisorCrashdumpAreaPageCount";
  fld UINT64 "HypervisorCrashdumpAreaSpa";
  fld UINT32 "RuntimeServicesMemoryRangesCount";
  fld (CArr (struct 0 [
    fld UINT64 "BasePage";
    fld UINT64 "PageCount"]) 512) "RuntimeServicesMemoryRanges";
  fld HV_HARDWARE_DETAILS "HardwareDetails";
  fld HV_IMAGE_DETAIL "HypervisorImageDetail"].
Definition HV_CPU_MANAGEMENT_VERSION_REGISTER : cty := union 0 [
  fld UINT64 "AsUINT64";
  fld (struct 0 [
    bit UINT64 "VersionNumber" 8;
    bit UINT64 "RsvdZ" 54;
    bit UINT64 "Available" 1;
    bit UINT64 "Locked" 1]) anonymous].
Definition HV_PCI_ID : cty := union 0 [
  fld UINT32 "AsUINT32";
  fld (struct 0 [
    fld UINT16 "Rid";
    fld UINT16 "Segment"]) anonymous;
  fld HV_PCI_BDF "Bdf"].
Definition HV_MCA_FAULTING_LP_MSR : cty := union 0 [
  fld UINT64 "AsUINT64";
  fld (struct 0 [
    fld HV_LOGICAL_PROCESSOR_INDEX "LpIndex";
    fld UINT32 "Reserved"]) anonymous].
Definition HV_DEVICE_PAGE_REQUEST : cty := union 0 [
  fld (CArr UINT64 4) "AsUINT64";
  fld (struct 0 [
    fld HV_DEVICE_ID "DeviceId";
    fld (struct 0 [
      bit UINT64 "GroupIndex" 9;
      bit UINT64 "LastInGroup" 1;
      bit UINT64 "Virtual" 1;
      bit UINT64 "Pasid" 20;
      bit UINT64 "Reserved0" 33;
      bit UINT64 "Read" 1;
      bit UINT64 "Write" 1;
      bit UINT64 "Execute" 1;
      bit UINT64 "Privileged" 1;
      bit UINT64 "Reserved2" 8;
      bit UINT64 "PageNumber" 52;
      fld UINT64 "Reserved3"]) anonymous;
    fld (struct 0 [
      bit UINT64 "_" 31;
      bit UINT64 "Reserved1" 30;
      bit UINT64 "InvalidRequest" 1;
      bit UINT64 "ValidateGpa" 1;
      bit UINT64 "Overflow" 1]) anonymous;
    fld (struct 0 [
      bit UINT64 "_" 63;
      bit UINT64 "SendResponse" 1]) anonymous]) anonymous].
Definition HV_DEVICE_PRQ_PROPERTY_INTERRUPT_MASKED : cty := struct 0 [
  fld UINT8 "InterruptMasked";
  fld UINT8 "Reserved0";
  fld UINT16 "Reserved1";
  fld UINT32 "Reserved2"].
Definition HV_X64_VOLATILE_GP_REGS : cty := struct 0 [
  fld UINT64 "Rax";
  fld UINT64 "Rcx";
  fld UINT64 "Rdx";
  fld UINT64 "R8";
  fld UINT64 "R9";
  fld UINT64 "R10";
  fld UINT64 "R11"].
Definition HV_PCI_PATH : cty := struct 0 [
  fld UINT8 "PathLength";
  fld UINT16 "Segment";
  fld UINT8 "StartBus";
  fld (CArr (union 0 [
    fld UINT8 "AsUINT8";
    fld (struct 0 [
      bit UINT8 "Function" 3;
      bit UINT8 "Device" 5]) anonymous]) 0) "Path"].
Definition HV_DEVICE_PRQ_HEADER : cty := struct 0 [
  fld UINT32 "Head";
  fld UINT32 "Tail";
  fld UINT8 "Pending";
  fld UINT8 "Stalled";
  fld UINT8 "Error"].
Definition HV_CPU_GROUP_ID : cty := UINT64.
Definition HV_CPU_GROUP_PROPERTY : cty := UINT64.
Definition HV_INPUT_PARTITION_PROPERTY_ARG : cty := UINT64.
Definition HV_DEVICE_VA_PAGE_NUMBER : cty := UINT64.
Definition HV_MSI_ADDRESS : cty := UINT64.
Definition HV_MODIFY_SPA_PAGE_HOST_ACCESS_FLAGS : cty := UINT32.
Definition HV_LOCK_GPA_PAGE_MAPPING_FLAGS : cty := UINT32.
Definition HV_UNMAP_GPA_FLAGS : cty := UINT32.
Definition HV_KEY_ID : cty := UINT64.
Definition HV_IOMMU_STATUS_SEVERITY : cty := UINT8.
Definition HV_PRECOMMIT_GPA_FLAGS : cty := UINT32.
Definition HV_IOMMU_STATUS : cty := UINT16.
Definition HV_PARTITION_MIRRORING_POLICY : enum := [
  Is "HvPartitionMirroringNone" 0x0;
  Is "HvPartitionMirroringInclude" 0x1;
  Is "HvPartitionMirroringExclude" 0x2;
  Is "HvPartitionMirroringMax" 0x2].
Definition HV_IMAGE_QUERY_TYPE : enum := [
  Is "ImageQueryTypeModuleCount" 0x0;
  Is "ImageQueryTypeModuleTraits" 0x1;
  Is "ImageQueryTypeSlotVaMappings" 0x2;
  Is "ImageQueryTypeMax" 0x3].
Definition HV_COMPATIBILITY_VERSION : enum := [
  Is "HvCompatibilityVersionRedstone1" 0x600;
  Is "HvCompatibilityVersionRedstone2" 0x601;
  Is "HvCompatibilityVersionRedstone3" 0x602;
  Is "HvCompatibilityVersionRedstone4" 0x603;
  Is "HvCompatibilityVersionRedstone5" 0x604;
  Is "HvCompatibilityVersion19H1" 0x605;
  Is "HvCompatibilityVersionVibranium" 0x606;
  Is "HvCompatibilityVersionManganese" 0x607;
  Is "HvCompatibilityVersionIron" 0x608;
  Is "HvCompatibilityVersionNickel" 0x609;
  Is "HvCompatibilityVersionCopper" 0x60a;
  Is "HvCompatibilityVersionGermanium" 0x1000;
  Is "HvCompatibilityVersionPrerelease" 0xfe00;
  Is "HvCompatibilityVersionExperiment" 0xff00].
Definition HV_NON_ARCH_CORE_SHARING_TYPE : enum := [
  Is "HvNonArchCoreSharingUnreported" 0x0;
  Is "HvNonArchCoreSharingOff" 0x1;
  Is "HvNonArchCoreSharingOn" 0x2;
  Is "HvNonArchCoreSharingMax" 0x2].
Definition HV_CPU_GROUP_PROPERTY_CODE : enum := [
  Is "HvCpuGroupPropertyCpuCap" 0x10000;
  Is "HvCpuGroupPropertySchedulingPriority" 0x20000;
  Is "HvCpuGroupPropertyIdleLpReserve" 0x30000].
Definition HV_SNP_STATUS : enum := [
  Is "HvSnpStatusNone" 0x0;
  Is "HvSnpStatusAvailable" 0x1;
  Is "HvSnpStatusIncompatible" 0x2;
  Is "HvSnpStatusPspUnavailable" 0x3;
  Is "HvSnpStatusPspInitFailed" 0x4;
  Is "HvSnpStatusPspBadFwVersion" 0x5;
  Is "HvSnpStatusBadConfiguration" 0x6;
  Is "HvSnpStatusPspFwUpdateInProgress" 0x7;
  Is "HvSnpStatusPspRbInitFailed" 0x8;
  Is "HvSnpStatusPspPlatformStatusFailed" 0x9;
  Is "HvSnpStatusPspInitLateFailed" 0xa;
  Is "HvSnpStatusPspInitEarlyFailed" 0xb;
  Is "HvSnpStatusPspUnexpectedState" 0xc;
  Is "HvSnpStatusDisabled" 0xd].
Definition HV_PARTITION_PERFMON_MODE : enum := [
  Is "HvPartitionPerfmonModeUnsupported" 0x0;
  Is "HvPartitionPerfmonModeDynamicSystem" 0x1;
  Is "HvPartitionPerfmonModeGuest" 0x2;
  Is "HvPartitionPerfmonModeRemote" 0x3].
Definition HV_RESTART_COMPLETION_TYPE : enum := [
  Is "HvRestartCompletionSuccess" 0x0;
  Is "HvRestartCompletionCancelled" 0x1].
Definition HV_X64_PPM_CPPC_CONTEXT_SWITCH_POLICY : enum := [
  Is "HvX64CppcContextSwitchUnsupported" 0x0;
  Is "HvX64CppcContextSwitchLazy" 0x1;
  Is "HvX64CppcContextSwitchAggressive" 0x2].
Definition HV_PARTITION_VH_TARGET_CHILDREN_STATE : enum := [
  Is "HvVhDeleteChildren" 0x0;
  Is "HvVhSuspendChildren" 0x1;
  Is "HvVhResumeChildren" 0x2].
Definition HV_SEC_FW_UPDATE_STATUS : enum := [
  Is "HvSecFwUpdateStatusNone" 0x0;
  Is "HvSecFwUpdateStatusSuccess" 0x1;
  Is "HvSecFwUpdateStatusMissing" 0x2;
  Is "HvSecFwUpdateStatusOlder" 0x3;
  Is "HvSecFwUpdateStatusRejected" 0x4;
  Is "HvSecFwUpdateStatusSvnTooLow" 0x5;
  Is "HvSecFwUpdateStatusRollbackWrongVersion" 0x6;
  Is "HvSecFwUpdateStatusPreservingUnsupported" 0x7].
Definition HV_THREAD_HYPERCALLBASED_COUNTER : enum := [
  Is "StCounterHcVpGuestRunTime" 0x1;
  Is "StCounterHcVpTotalRunTimePercent" 0x2;
  Is "StCounterHcVpHypervisorRunTimePercent" 0x3;
  Is "StCounterHcVpGuestRunTimePercent" 0x4;
  Is "StCounterHcVpGuestRelativeUtilizationPercent" 0x5;
  Is "StCounterHcVpTotalCoreRunTimePercent" 0x6;
  Is "StCounterHcVpTotalMessages" 0x7;
  Is "StCounterHcVpTotalInterceptsBase" 0x8;
  Is "StCounterHcVpTotalIntercepts" 0x9;
  Is "StCounterHcVpTotalInterceptsCost" 0xa;
  Is "StCounterHcVpRemoteRunTimePercent" 0xb;
  Is "StCounterHcVpVtl1RunTimePercent" 0xc;
  Is "StCounterHcVpVtl2RunTimePercent" 0xd;
  Is "StCounterHcVpGlobalReferenceTime" 0xe;
  Is "StCounterHcVpMAXIMUM" 0xf].
Definition HV_EXT_MEMORY_HEAT_HINT_TYPE : enum := [
  Is "HvExtMemoryHeatHintTypeCold" 0x0;
  Is "HvExtMemoryHeatHintTypeHot" 0x1;
  Is "HvExtMemoryHeatHintTypeColdDiscard" 0x2;
  Is "HvExtMemoryHeatHintTypeMax" 0x3].
Definition HV_VP_DISPATCH_LOOP_EVENT : enum := [
  Is "HvVpDispatchLoopEventInvalid" 0x0;
  Is "HvVpDispatchLoopEventIntercept" 0x1;
  Is "HvVpDispatchLoopEventCancelled" 0x2;
  Is "HvVpDispatchLoopEventTerminated" 0x3].
Definition HV_PAGE_ACCESS_TRACKING_GRANULARITY : enum := [
  Is "HvPageAccessTrackingGranularitySmallPage" 0x0;
  Is "HvPageAccessTrackingGranularityLargePage" 0x1].
Definition HV_TDX_STATUS : enum := [
  Is "HvTdxStatusNone" 0x0;
  Is "HvTdxStatusAvailable" 0x1].
Definition HV_PARTITION_PERFMON_CONFIGURATION_STATUS : enum := [
  Is "HvPartitionPerfmonSuccess" 0x0;
  Is "HvPartitionPerfmonInUse" 0x1;
  Is "HvPartitionPerfmonInterrupted" 0x2].
Definition HV_ACCEPT_MEMORY_TYPE : enum := [
  Is "HvAcceptMemoryTypeAny" 0x0;
  Is "HvAcceptMemoryTypeRam" 0x1;
  Is "HvAcceptMemoryTypeCount" 0x2].
Definition HV_GPA_ACCESS_TRACKING_RANGE_SIZE : enum := [
  Is "HvGpaAccessTrackingRange4k" 0x0;
  Is "HvGpaAccessTrackingRange2m" 0x1;
  Is "HvGpaAccessTrackingRange1g" 0x2;
  Is "HvGpaAccessTrackingRange512g" 0x3;
  Is "HvGpaAccessTrackingRange256t" 0x4;
  Is "HvGpaAccessTrackingRangeMax" 0x5].
Definition HV_CPU_HYPERCALLBASED_COUNTER : enum := [
  Is "StCounterHcLpGuestRunTime" 0x1;
  Is "StCounterHcLpIdleTime" 0x2;
  Is "StCounterHcLpTotalRunTimePercent" 0x3;
  Is "StCounterHcLpHypervisorRunTimePercent" 0x4;
  Is "StCounterHcLpGuestRunTimePercent" 0x5;
  Is "StCounterHcLpIdleTimePercent" 0x6;
  Is "StCounterHcLpTotalInterrupts" 0x7;
  Is "StCounterHcLpMAXIMUM" 0x8].
Definition HV_PARTITION_MIRROR_STATE : enum := [
  Is "HvPartitionMirrorNotStarted" 0x0;
  Is "HvPartitionMirrorInProgress" 0x1;
  Is "HvPartitionMirrorComplete" 0x2].
Definition HV_EVENTLOG_EXTENDED_TRACE_MODE : enum := [
  Is "HvEventLogExtendedModeNone" 0x0;
  Is "HvEventLogExtendedModeLegacy" 0x1;
  Is "HvEventLogExtendedModeScenario" 0x2;
  Is "HvEventLogExtendedModeGranular" 0x3;
  Is "HvEventLogExtendedModeCount" 0x4].
Definition HV_EXT_VIRTUALIZATION_FAULT_CODE : enum := [
  Is "HvExtVirtualizationFaultNone" 0x0;
  Is "HvExtVirtualizationFaultEpf" 0x1;
  Is "HvExtVirtualizationFaultMax" 0x2].
Definition HV_PLATFORM_STATE_INDEX : enum := [
  Is "HvPlatformStateNonIdle" 0x0;
  Is "HvPlatformStateIdle" 0x1].
Definition HV_EVENTLOG_MODE : enum := [
  Is "HvEventLogModeRegular" 0x0;
  Is "HvEventLogModeCircular" 0x1;
  Is "HvEventLogModeMaximum" 0x1].
Definition HV_EVENTLOG_EXTENDED_GRANULAR_OPERATION : enum := [
  Is "HvEventLogGranularSet" 0x0;
  Is "HvEventLogGranularAdd" 0x1;
  Is "HvEventLogGranularRemove" 0x2;
  Is "HvEventLogGranularOperationCount" 0x3].
Definition HV_SPA_PAGE_OWNERSHIP : enum := [
  Is "HvSpaPageOwnershipShared" 0x0;
  Is "HvSpaPageOwnershipExclusive" 0x1].
Definition HV_CHECK_GPA_PAGE_VTL_ACCESS_RESULT_CODE : enum := [
  Is "HvCheckGpaPageVtlAccessSuccess" 0x0;
  Is "HvCheckGpaPageVtlAccessMemoryIntercept" 0x1].
Definition HV_RESOURCE_CONTROL_TYPE : enum := [
  Is "HvResourceControlProcessorCache" 0x0;
  Is "HvResourceControlMemoryBandwidth" 0x1;
  Is "HvResourceControlProcessorCacheMonitor" 0x2].
Definition HV_PPM_IDLE_STATE_CHANGE_METHOD : enum := [
  Is "HvPowerChangeIssueHlt" 0x0;
  Is "HvPowerChangeReadIoThenIssueHlt" 0x1;
  Is "HvPowerChangeReadIo" 0x2;
  Is "HvPowerChangeIssueMwait" 0x3;
  Is "HvPowerChangeIssueWfi" 0x4;
  Is "HvPowerChangeIssuePsci" 0x5].
Definition HV_HW_WATCHDOG_STATUS : enum := [
  Is "HvHwWatchdogUnsupported" 0x0;
  Is "HvHwWatchdogReady" 0x1;
  Is "HvHwWatchdogStaticAvailable" 0x2;
  Is "HvHwWatchdogDynamicAvailable" 0x3;
  Is "HvHwWatchdogStaticActive" 0x4;
  Is "HvHwWatchdogDynamicActive" 0x5].
Definition HV_PSP_STATUS : enum := [
  Is "HvPspStatusSuccess" 0x0;
  Is "HvPspStatusInvalidPlatformState" 0x1;
  Is "HvPspStatusInvalidGuestState" 0x2;
  Is "HvPspStatusInvalidConfig" 0x3;
  Is "HvPspStatusInvalidLength" 0x4;
  Is "HvPspStatusAlreadyOwned" 0x5;
  Is "HvPspStatusInvalidCertificate" 0x6;
  Is "HvPspStatusPolicyFailure" 0x7;
  Is "HvPspStatusInactive" 0x8;
  Is "HvPspStatusInvalidAddress" 0x9;
  Is "HvPspStatusBadSignature" 0xa;
  Is "HvPspStatusBadMeasurement" 0xb;
  Is "HvPspStatusAsidOwned" 0xc;
  Is "HvPspStatusInvalidAsid" 0xd;
  Is "HvPspStatusWbinvdRequired" 0xe;
  Is "HvPspStatusDfflushRequired" 0xf;
  Is "HvPspStatusInvalidGuest" 0x10;
  Is "HvPspStatusInvalidCommand" 0x11;
  Is "HvPspStatusActive" 0x12;
  Is "HvPspStatusHwerrorPlatform" 0x13;
  Is "HvPspStatusHwerrorUnsafe" 0x14;
  Is "HvPspStatusUnsupported" 0x15;
  Is "HvPspStatusInvalidParam" 0x16;
  Is "HvPspStatusNoResources" 0x17;
  Is "HvPspStatusSecureDataInvalid" 0x18;
  Is "HvPspStatusInvalidPageSize" 0x19;
  Is "HvPspStatusInvalidPageState" 0x1a;
  Is "HvPspStatusInvalidMdataEntry" 0x1b;
  Is "HvPspStatusInvalidPageOwner" 0x1c;
  Is "HvPspStatusAeadOverflow" 0x1d;
  Is "HvPspStatusRingbufferModeExited" 0x1f;
  Is "HvPspStatusRmpInitRequired" 0x20;
  Is "HvPspStatusBadSvn" 0x21;
  Is "HvPspStatusBadVersion" 0x22;
  Is "HvPspStatusShutdownRequired" 0x23;
  Is "HvPspStatusUpdateFailed" 0x24].
Definition HV_SUBNODE : cty := aligned 8 (struct 0 [
  fld UINT64 "SubnodeId";
  fld (enum_type HV_SUBNODE_TYPE) "SubnodeType"]).
Definition HV_PARTITION_PROPERTY_INHERITED_DEVICE_DOMAIN_REGIONS : cty := struct 0 [
  fld UINT64 "UnitSizePages";
  fld (CArr UINT32 16) "ReservedUnitMap"].
Definition HV_PARTITION_PROPERTY_SHA384 : cty := struct 0 [
  fld (CArr UINT8 48) "Data"].
Definition HV_PARTITION_PROPERTY_EX_ROOT_PROCESSOR_FEATURES_EXPERIMENTAL : cty := struct 0 [
  fld (CArr UINT64 2) "Banks"].
Definition HV_PARTITION_PROPERTY_VP_SHARED_PAGES : cty := struct 0 [
  fld UINT32 "Flags";
  fld UINT64 "VpAssistPage";
  fld UINT64 "SimPage"].
Definition HV_PARTITION_PROPERTY_EX : cty := union 0 [
  fld (CArr UINT8 4096) "Buffer";
  fld HV_PARTITION_PROPERTY "CommonProperty";
  fld HV_PARTITION_PROPERTY_INHERITED_DEVICE_DOMAIN_REGIONS "InheritedDeviceDomainRegions";
  fld HV_PARTITION_PROPERTY_SHA384 "Sha384";
  fld HV_PARTITION_PROPERTY_EX_ROOT_PROCESSOR_FEATURES_EXPERIMENTAL "RootProcessorFeaturesExp";
  fld HV_PARTITION_PROPERTY_VP_SHARED_PAGES "VpSharedPages"].
Definition HV_HOST_TIMELINE_INFO : cty := struct 0 [
  fld UINT64 "TimelineBias"].
Definition HV_SMC_DATA_PATH_PROPERTY : cty := struct 0 [
  fld UINT16 "LockState";
  fld UINT16 "Reserved"].
Definition HV_SYSTEM_MIRRORING_PROPERTY : cty := union 0 [
  fld UINT64 "AsUINT64";
  fld (struct 0 [
    bit UINT64 "MirroringPolicy" 1;
    bit UINT64 "HypervisorHotRestart" 1;
    bit UINT64 "Reserved" 62]) anonymous].
Definition HV_RESOURCE_CONTROL_MONITOR : cty := struct 0 [
  fld UINT16 "PartId";
  fld UINT8 "Pmg";
  fld UINT8 "Enable";
  fld UINT32 "Reserved"].
Definition HV_RESOURCE_CONTROL_VALUE_PROPERTY : cty := struct 0 [
  fld (enum_type HV_RESOURCE_CONTROL_TYPE) "Type";
  fld UINT32 "Index";
  fld (union 0 [
    fld UINT64 "Value";
    fld HV_RESOURCE_CONTROL_MONITOR "Monitor"]) anonymous].
Definition HV_RESOURCE_CONTROL_MONITOR_DATA : cty := struct 0 [
  fld (struct 0 [
    fld UINT8 "Valid";
    fld UINT64 "L3OccupancyBytes";
    fld UINT64 "L3TotalBwBytes";
    fld UINT64 "L3LocalBwBytes"]) "ProcessorCache"].
Definition HV_RESOURCE_CONTROL_SUPPORT_PROPERTY : cty := struct 0 [
  bit UINT32 "ProcessorCacheAllocationSupport" 1;
  bit UINT32 "ProcessorCacheMonitoringSupport" 1;
  bit UINT32 "ProcessorCacheOccupancySupport" 1;
  bit UINT32 "ProcessorCacheTotalBwSupport" 1;
  bit UINT32 "ProcessorCacheLocalBwSupport" 1;
  bit UINT32 "MemoryBandwidthAllocationSupport" 1;
  bit UINT32 "Reserved1" 26;
  fld UINT32 "ProcessorCacheMaskWidth";
  fld UINT32 "ProcessorCacheMaskHwReserved";
  fld UINT32 "ProcessorCacheMaskSlots";
  fld UINT32 "ProcessorCacheMonitorSlots";
  fld UINT32 "MemoryBandwidthSlots";
  fld UINT32 "MemoryBandwidthMaxValue";
  bit UINT32 "MemoryBandwidthLinear" 1;
  bit UINT32 "Reserved2" 31].
Definition HV_RESOURCE_CONTROL_VALUES_PROPERTY : cty := struct 0 [
  fld UINT32 "NumValues";
  fld (union 0 [
    fld (CArr UINT64 128) "Values";
    fld (CArr HV_RESOURCE_CONTROL_MONITOR 128) "Monitors"]) anonymous].
Definition HV_SYSTEM_DIAG_LOG_BUFFER_CONFIG : cty := struct 0 [
  fld UINT32 "BufferCount";
  fld UINT32 "BufferSizeInPages"].
Definition HV_SCHEDULING_INTERVAL_INFO : cty := struct 0 [
  fld UINT32 "MaxSchedulingIntervalInUs";
  fld UINT32 "MinimumSupportedSchedulingIntervalInUs";
  fld UINT32 "MaximumSupportedSchedulingIntervalInUs"].
Definition HV_VIRTUALIZATION_FEATURE_SET : cty := union 0 [
  fld (CArr UINT64 4) "AsUINT64";
  fld (struct 0 [
    fld UINT64 "ValFeatureSet";
    fld (union 0 [
      fld (struct 0 [
        fld UINT64 "FeatureSet"]) "Intel";
      fld (struct 0 [
        fld UINT64 "FeatureSet"]) "Amd";
      fld (struct 0 [
        fld UINT64 "FeatureSet"]) "Arm"]) anonymous]) anonymous].
Definition HV_BOOT_CONFIG_PROPERTY : cty := struct 0 [
  fld UINT64 "BootFlags";
  fld UINT64 "StartupModeNormal"].
Definition HV_PPM_IDLE_STATE_EX : cty := struct 0 [
  fld (union 0 [
    fld HV_PPM_IDLE_STATE "LegacyHvIdleState";
    fld (struct 0 [
      fld HV_PPM_IDLE_STATE_CONFIG "Config";
      fld UINT32 "Type";
      fld UINT32 "HardwareLatency";
      fld UINT32 "PowerConsumption"]) anonymous]) anonymous;
  fld UINT32 "MinimumResidency"].
Definition HV_X64_PPM_IDLE_STATE_CONFIG_PROPERTY_EX : cty := struct 0 [
  fld UINT32 "Version";
  fld UINT32 "StateCount";
  fld (CArr HV_PPM_IDLE_STATE_EX 16) "States"].
Definition HV_PROCESSOR_CPPC_REQUEST_REGISTER : cty := struct 0 [
  fld UINT64 "PhysicalAddress";
  fld UINT64 "Address";
  fld UINT64 "Mask";
  fld UINT8 "AccessSize"].
Definition HV_PHYSICAL_DEVICE_FLAGS : cty := union 0 [
  fld UINT64 "AsUINT64";
  fld (struct 0 [
    bit UINT64 "VirtualFunction" 1;
    bit UINT64 "PhysicalFunctionRid" 16;
    bit UINT64 "Reserved" 47]) anonymous].
Definition HV_PHYSICAL_DEVICE_PROPERTY_FAULT_REPORTING : cty := struct 0 [
  fld UINT8 "FaultReportingEnabled";
  fld UINT8 "Reserved0";
  fld UINT16 "Reserved1";
  fld UINT32 "Reserved2"].
Definition HV_PHYSICAL_DEVICE_PROPERTY_IRT_RANGE : cty := struct 0 [
  fld UINT32 "BaseIrtIndex";
  fld UINT32 "Count"].
Definition HV_VTL_PERMISSION_SET : cty := union 0 [
  fld UINT32 "AsUINT32";
  fld (CArr UINT16 2) "VtlPermissionFrom1"].
Definition HV_GPA_PAGE_MAPPING_DATA : cty := union 0 [
  fld UINT64 "AsUINT64";
  fld (struct 0 [
    bit UINT64 "Acceptance" 2;
    bit UINT64 "Vtl1Permission" 16;
    bit UINT64 "Vtl2Permission" 16]) anonymous].
Definition HV_X64_DELIVERABILITY_NOTIFICATIONS_REGISTER : cty := union 0 [
  fld UINT64 "AsUINT64";
  fld (struct 0 [
    bit UINT64 "NmiNotification" 1;
    bit UINT64 "InterruptNotification" 1;
    bit UINT64 "InterruptPriority" 4;
    bit UINT64 "RsvdZ" 42;
    bit UINT64 "Sint" 16]) anonymous].
Definition HV_INTERNAL_ACTIVITY_REGISTER : cty := union 0 [
  fld UINT64 "AsUINT64";
  fld (struct 0 [
    bit UINT64 "StartupSuspend" 1;
    bit UINT64 "HaltSuspend" 1;
    bit UINT64 "IdleSuspend" 1;
    bit UINT64 "RsvdZ" 61]) anonymous].
Definition HV_MIRRORING_NOTIFICATION_MESSAGE_PAYLOAD : cty := struct 0 [
  fld UINT16 "Status"].
Definition HV_X64_REGISTER_SEV_CONTROL : cty := union 0 [
  fld UINT64 "AsUINT64";
  fld (struct 0 [
    bit UINT64 "EnableEncryptedState" 1;
    bit UINT64 "ReservedZ" 11;
    bit UINT64 "VmsaGpaPageNumber" 52]) anonymous].
Definition HV_PARTITION_VSM_CONFIG : cty := union 0 [
  fld UINT64 "AsUINT64";
  fld (struct 0 [
    bit UINT64 "MaximumVtl" 4;
    bit UINT64 "Vtl0InterruptInjectionPolicy" 2;
    bit UINT64 "Vtl1InterruptInjectionPolicy" 2;
    bit UINT64 "ReservedZ" 56]) anonymous].
Definition HV_RDT_CAT_COS_BITMASK_PROPERTY : cty := struct 0 [
  fld UINT32 "CosIndex";
  fld UINT32 "CosBitmask"].
Definition HV_PARK_BLOCK_INFO : cty := struct 0 [
  fld UINT32 "ParkBlockOffset";
  fld UINT32 "ParkBlockSize"].
Definition HV_ENABLE_PARTITION_VTL_INTERCEPT_COMPLETION_DATA : cty := struct 0 [
  fld UINT16 "Status"].
Definition HV_X64_IO_PORT_READ_COMPLETION_DATA : cty := struct 0 [
  fld UINT32 "Value"].
Definition HV_PICO100_DURATION : cty := union 0 [
  fld UINT64 "AsUINT64"].
Definition HV_GPA_ATTRIBUTE_INTERCEPT_MESSAGE : cty := struct 0 [
  fld HV_VP_INDEX "VpIndex";
  bit UINT32 "RangeCount" 5;
  bit UINT32 "Adjust" 1;
  bit UINT32 "HostVisibility" 2;
  bit UINT32 "MemoryType" 6;
  bit UINT32 "Reserved" 18;
  fld (CArr HV_GPA_PAGE_RANGE 29) "Ranges"].
Definition HV_REGISTER_VSM_VP_WAIT_FOR_TLB_LOCK : cty := union 0 [
  fld UINT64 "AsUINT64";
  fld (struct 0 [
    bit UINT64 "Wait" 1;
    bit UINT64 "ReservedZ" 63]) anonymous].
Definition HV_SNP_PSP_TCB_VERSION : cty := struct 0 [
  fld (union 0 [
    fld (struct 0 [
      bit UINT64 "BootLoader" 8;
      bit UINT64 "Tee" 8;
      bit UINT64 "ReservedZ" 32;
      bit UINT64 "Snp" 8;
      bit UINT64 "Microcode" 8]) anonymous;
    fld UINT64 "AsUINT64"]) anonymous].
Definition HV_INPUT_PROTO_CREATE_PERSISTED_CPU_GROUP : cty := struct 0 [
  fld HV_CPU_GROUP_ID "CpuGroupId";
  fld UINT16 "LpIndexSetSize";
  fld UINT16 "LpIndexSetOffset"].
Definition HV_VP_ASSIST_PAGE_ACTION : cty := union 0 [
  fld UINT64 "AsUINT64";
  fld (struct 0 [
    bit UINT64 "Type" 8;
    bit UINT64 "Reserved" 56]) anonymous].
Definition HV_MINROOT_NUMA_LPS : cty := struct 0 [
  fld UINT32 "NodeIndex";
  fld (CArr UINT64 32) "Mask"].
Definition HV_X64_MSR_VP_EXIT_REASON_CONTENTS : cty := union 0 [
  fld UINT64 "AsUINT64";
  fld (struct 0 [
    fld UINT32 "AdditionalReason";
    fld UINT8 "Reason";
    fld (CArr UINT8 3) "ReservedZ"]) anonymous].
Definition HV_PARTITION_PROPERTY_ASSOC : cty := struct 0 [
  fld (enum_type HV_PARTITION_PROPERTY_CODE) "PropertyCode";
  fld HV_PARTITION_PROPERTY "PropertyValue"].
Definition HV_ROOT_PASID_CAPABILITIES_PROPERTY : cty := struct 0 [
  fld UINT32 "SvmIommuCount";
  fld UINT32 "MinIommuPasidCount"].
Definition HV_PSP_DEVICE : cty := struct 0 [
  fld (union 0 [
    fld (struct 0 [
      fld UINT64 "MmConfigAddress";
      fld HV_PCI_ID "PciId";
      fld UINT64 "BridgeMmConfigAddress";
      fld HV_PCI_ID "BridgePciId";
      fld (CArr (struct 0 [
        fld UINT32 "Spa";
        fld UINT32 "PageCount"]) 6) "Bar"]) "Pci";
    fld (struct 0 [
      fld UINT64 "FeatureRegister";
      fld UINT64 "InterruptEnableRegister";
      fld UINT64 "InterruptStatusRegister";
      fld UINT8 "SevMailboxInterruptId";
      fld (CArr UINT8 7) "RsvdZ";
      fld UINT64 "SevCmdRespRegister";
      fld UINT64 "SevCmdBufAddrLoRegister";
      fld UINT64 "SevCmdBufAddrHiRegister";
      fld UINT64 "AcpiCmdRespRegister"]) "AcpiV1";
    fld (struct 0 [
      fld UINT64 "RegisterBase";
      fld UINT32 "RegisterPages";
      fld UINT32 "FeatureRegister";
      fld UINT32 "InterruptEnableRegister";
      fld UINT32 "InterruptStatusRegister";
      fld UINT8 "SevMailboxInterruptId";
      fld (CArr UINT8 3) "RsvdZ";
      fld UINT32 "SevCmdRespRegister";
      fld UINT32 "SevCmdBufAddrLoRegister";
      fld UINT32 "SevCmdBufAddrHiRegister";
      fld UINT32 "AcpiCmdRespRegister"]) "AcpiV2"]) anonymous;
  bit UINT32 "IsInitialized" 1;
  bit UINT32 "IsPci" 1;
  bit UINT32 "Reserved0" 2;
  bit UINT32 "AcpiRevision" 4;
  bit UINT32 "Reserved1" 24].
Definition HV_SNP_PSP_DEVICES : cty := struct 0 [
  fld UINT8 "Count";
  fld (CArr HV_PSP_DEVICE 2) "PspDevice"].
Definition HV_EVENTLOG_EVENTGROUP_CONFIGURATION : cty := struct 0 [
  fld UINT32 "GroupId";
  fld UINT16 "RsvdZ";
  fld UINT16 "EventCount";
  fld (CArr UINT8 256) "EventId"].
Definition HV_INPUT_EVENTLOG_SET_EVENTS : cty := struct 0 [
  fld (enum_type HV_EVENTLOG_TYPE) "EventLogType";
  fld UINT32 "GroupCount";
  fld UINT64 "ConfigurationFlags";
  fld (CArr HV_EVENTLOG_EVENTGROUP_CONFIGURATION 2) "Groups"].
Definition HV_REGISTER_HVPT_CONTROL : cty := union 0 [
  fld UINT64 "AsUINT64";
  fld (struct 0 [
    bit UINT64 "Enabled" 1;
    bit UINT64 "HardwareEnforced" 1;
    bit UINT64 "HardwareRangeBits" 6;
    bit UINT64 "ReservedZ" 4;
    bit UINT64 "GpaPageNumber" 52]) anonymous].
Definition HV_PARTITION_PERFMON_MODE_CONFIG : cty := union 0 [
  fld UINT64 "AsUINT64";
  fld (struct 0 [
    bit UINT64 "PerfmonMode" 8;
    bit UINT64 "DisableCounting" 1;
    bit UINT64 "Reserved" 55]) anonymous].
Definition HV_REGISTER_REFERENCE_TSC : cty := union 0 [
  fld UINT64 "AsUINT64";
  fld (struct 0 [
    bit UINT64 "Enable" 1;
    bit UINT64 "ReservedP" 11;
    bit UINT64 "GpaPageNumber" 52]) anonymous].
Definition HV_ENABLE_PARTITION_VTL_INTERCEPT_MESSAGE : cty := struct 0 [
  fld HV_VP_INDEX "VpIndex";
  fld HV_VTL "TargetVtl";
  bit UINT8 "EnableMbec" 1;
  bit UINT8 "EnableSupervisorShadowStack" 1;
  bit UINT8 "EnableHardwareHvpt" 1].
Definition HV_REGISTER_PARTITION_INFO_PAGE : cty := union 0 [
  fld UINT64 "AsUINT64";
  fld (struct 0 [
    bit UINT64 "Enabled" 1;
    bit UINT64 "Reserved" 11;
    bit UINT64 "GpaPage" 52]) anonymous].
Definition HV_SEAM_TDMR_RESERVATION : cty := struct 0 [
  fld UINT64 "BaseAddress";
  fld UINT64 "Size"].
Definition HV_SEAM_TDMR : cty := struct 0 [
  fld UINT64 "BaseAddress";
  fld UINT64 "Size";
  fld UINT64 "Pamt1GBaseAddress";
  fld UINT64 "Pamt1GSize";
  fld UINT64 "Pamt2MBaseAddress";
  fld UINT64 "Pamt2MSize";
  fld UINT64 "Pamt4KBaseAddress";
  fld UINT64 "Pamt4KSize";
  fld UINT64 "NumReservedRegions";
  fld (CArr HV_SEAM_TDMR_RESERVATION 0) "ReservedRegions"].
Definition HV_X64_REGISTER_SEV_HV_DOORBELL : cty := union 0 [
  fld UINT64 "AsUINT64";
  fld (struct 0 [
    bit UINT64 "Enabled" 1;
    bit UINT64 "ReservedZ" 11;
    bit UINT64 "PageNumber" 52]) anonymous].
Definition HV_X64_REGISTER_SEV_GHCB : cty := union 0 [
  fld UINT64 "AsUINT64";
  fld (struct 0 [
    bit UINT64 "Enabled" 1;
    bit UINT64 "ReservedZ" 11;
    bit UINT64 "PageNumber" 52]) anonymous].
Definition HV_GPA_ATTRIBUTE_INTERCEPT_COMPLETION_DATA : cty := struct 0 [
  fld UINT16 "Status"].
Definition HV_EVENTLOG_EXTENDED_TRACE_FLAGS : cty := union 0 [
  fld (struct 0 [
    bit UINT64 "Rsvd" 8;
    bit UINT64 "Id" 8;
    bit UINT64 "RsvdZ" 48]) "Scenario";
  fld (struct 0 [
    bit UINT64 "Rsvd" 8;
    bit UINT64 "Operation" 8;
    bit UINT64 "RsvdZ" 48]) "Granular";
  fld (struct 0 [
    fld UINT64 "Flags"]) "Legacy";
  fld (struct 0 [
    bit UINT64 "Extended" 1;
    bit UINT64 "Mode" 7;
    bit UINT64 "Rsvd" 56]) "Common";
  fld UINT64 "AsUINT64"].
Definition HV_PARTITION_DIAG_LOG_BUFFER_CONFIG : cty := union 0 [
  fld UINT64 "AsUINT64";
  fld (struct 0 [
    fld UINT32 "BufferCount";
    fld UINT32 "BufferSizeInPages"]) anonymous].
Definition HV_PARTITION_ENLIGHTENMENT_MODIFICATIONS : cty := union 0 [
  fld (struct 0 [
    bit UINT64 "FavorAutoEoi" 1;
    bit UINT64 "FavorAutoEoiLegacyOs" 1;
    bit UINT64 "Rsvd" 62]) anonymous;
  fld UINT64 "AsUINT64"].
Definition HV_INSUFFICIENT_MEMORY_MESSAGE_PAYLOAD : cty := struct 0 [
  fld HV_VP_INDEX "VpIndex";
  fld UINT16 "Status";
  fld HV_PROXIMITY_DOMAIN_INFO "ProximityDomainInfo"].
Definition HV_ARM64_REGISTER_TLBI_CONTROL : cty := union 0 [
  fld UINT64 "AsUINT64";
  fld (struct 0 [
    bit UINT64 "TlbiEnlightened" 1;
    bit UINT64 "Reserved" 63]) anonymous].
Definition HV_SGX_LAUNCH_CONTROL_CONFIG : cty := union 0 [
  fld UINT64 "AsUINT64";
  fld (struct 0 [
    bit UINT64 "Readable" 1;
    bit UINT64 "Writable" 1;
    bit UINT64 "Reserved" 62]) anonymous].
Definition HV_LOADER_PCI_SEGMENT_ENTRY : cty := struct 0 [
  fld UINT16 "SegmentNumber";
  fld (CArr UINT64 1024) "ReservedDeviceBitmap";
  fld (struct 0 [
    fld (CArr UINT64 4) "AtsBusBitmap";
    fld (CArr UINT64 1024) "SecureIntegratedAtsDeviceBitmap"]) "Intel"].
Definition HV_VP_ASSIST_PAGE_ACTION_SIGNAL_EVENT : cty := union 0 [
  fld (CArr UINT64 2) "AsUINT64";
  fld (struct 0 [
    bit UINT64 "Type" 8;
    bit UINT64 "Reserved" 56;
    fld UINT32 "TargetVp";
    fld UINT8 "TargetVtl";
    fld UINT8 "TargetSint";
    fld UINT16 "FlagNumber"]) anonymous].
Definition HV_SYNIC_EVENT_INTERCEPT_MESSAGE : cty := struct 0 [
  fld HV_VP_INDEX "VpIndex";
  bit UINT32 "Vtl" 4;
  bit UINT32 "Reserved" 28;
  fld HV_CONNECTION_ID "ConnectionId";
  fld UINT32 "FlagNumber"].
Definition HV_INPUT_GET_PARTITION_RESERVED_PAGES : cty := struct 0 [
  fld UINT64 "PartitionId";
  fld (union 0 [
    fld UINT64 "AsUINT64";
    fld (struct 0 [
      bit UINT64 "Continue" 1]) anonymous]) anonymous].
Definition HV_RDT_MBA_COS_VALUE_PROPERTY : cty := struct 0 [
  fld UINT32 "CosIndex";
  fld UINT32 "CosThrottleValue"].
Definition HV_PARTITION_PROCESSOR_VIRTUALIZATION_FEATURES : cty := union 0 [
  fld (struct 0 [
    bit UINT64 "HideHypervisorPresent" 1;
    bit UINT64 "RsvdZ" 63]) anonymous;
  fld UINT64 "AsUINT64"].
Definition HV_INPUT_GPA_PAGE_PINNING : cty := struct 0 [
  fld UINT64 "Reserved";
  fld (CArr HV_GPA_PAGE_RANGE 0) "GpaRangeList"].
Definition HV_OUTPUT_GET_PARTITION_RESERVED_PAGES : cty := struct 0 [
  fld (union 0 [
    fld UINT64 "AsUINT64";
    fld UINT16 "RangeCount"]) anonymous;
  fld (CArr HV_SPA_PAGE_RANGE 511) "RangeList"].
Definition HV_PARTITION_ISOLATION_CONTROL : cty := union 0 [
  fld UINT64 "AsUINT64";
  fld (struct 0 [
    bit UINT64 "Runnable" 1;
    bit UINT64 "ReservedZ" 63]) anonymous].
Definition HV_X64_MSR_VP_EXIT_INTERRUPT_CONTROL_CONTENTS : cty := union 0 [
  fld UINT64 "AsUINT64";
  fld (struct 0 [
    fld UINT8 "Vector";
    fld UINT8 "SampleRate";
    fld (CArr UINT8 6) "ReservedZ"]) anonymous].
Definition HV_LOADER_IOMMU_ENTRY : cty := struct 0 [
  fld UINT16 "SegmentNumber";
  fld UINT64 "RegisterBaseAddress";
  fld UINT32 "Idr0";
  fld UINT32 "Idr1";
  fld UINT32 "Idr2";
  fld UINT32 "Idr3";
  fld UINT32 "Idr4";
  fld UINT32 "Idr5";
  fld UINT32 "Aidr";
  fld UINT64 "StreamTableBase";
  fld UINT32 "StreamTableSizeInPages";
  fld UINT32 "StrTabBaseCfg";
  fld UINT32 "Mpamidr"].
Definition HV_DEPRECATED_OUTPUT_QUERY_IOMMU_PROPERTIES : cty := struct 0 [
  fld (union 0 [
    fld (struct 0 [
      fld UINT32 "DeviceTableSizeInPages";
      fld UINT64 "DeviceTableSpaBasePage"]) "Amd";
    fld (struct 0 [
      fld UINT32 "ContextTableCount";
      fld UINT32 "InterruptRemappingTableSizeInPages";
      fld UINT64 "RootTableSpaPage";
      fld (CArr UINT64 256) "ContextTableSpaPages";
      fld UINT64 "InterruptRemappingTableSpaBasePage"]) "Intel"]) anonymous;
  fld (union 0 [
    fld (struct 0 [
      bit UINT32 "LiveDomainIdSelector" 1;
      bit UINT32 "Reserved" 31]) anonymous;
    fld UINT32 "AsUINT32"]) "Flags"].
Definition HV_CHECK_GPA_PAGE_VTL_ACCESS_RESULT : cty := union 0 [
  fld UINT64 "AsUINT64";
  fld (struct 0 [
    bit UINT32 "ResultCode" 8;
    bit UINT32 "DeniedAccess" 8;
    bit UINT32 "InterceptingVtl" 4;
    bit UINT32 "Reserved0" 12;
    fld UINT32 "Reserved1"]) anonymous].
Definition HV_INSTRUCTION_EMULATION_HINTS_REGISTER : cty := union 0 [
  fld UINT64 "AsUINT64";
  fld (struct 0 [
    bit UINT64 "PartitionSecureVtlEnabled" 1;
    bit UINT64 "MbecUserExecuteControl" 1]) anonymous].
Definition HV_PARTITION_ISOLATION_POLICY : cty := union 0 [
  fld UINT64 "AsUINT64"].
Definition HV_PSP_REQUEST_COMPLETION_DATA : cty := struct 0 [
  fld (enum_type HV_PSP_STATUS) "PspStatus"].
Definition HV_SNP_PSP_ID : cty := struct 0 [
  fld (CArr UINT8 512) "Id";
  fld UINT32 "Size";
  fld UINT8 "Count"].
Definition HV_USER_MODE_HYPERCALLS : cty := union 0 [
  fld (struct 0 [
    bit UINT64 "DispatchVp" 1;
    bit UINT64 "AssertVirtualInterrupt" 1;
    bit UINT64 "SignalEventDirect" 1;
    bit UINT64 "ReadGpa" 1;
    bit UINT64 "WriteGpa" 1;
    bit UINT64 "UnregisterInterceptResult" 1;
    bit UINT64 "TranslateVirtualAddressEx" 1;
    bit UINT64 "GetVpRegisters" 1;
    bit UINT64 "SetVpRegisters" 1;
    bit UINT64 "AssertDeviceInterrupt" 1;
    bit UINT64 "RetargetDeviceInterrupt" 1;
    bit UINT64 "PostMessageDirect" 1;
    bit UINT64 "GetVpCpuidValues" 1;
    bit UINT64 "GetVpSetFromMda" 1;
    bit UINT64 "Reserved" 50]) anonymous;
  fld UINT64 "AsUINT64"].
Definition HV_PARTITION_DEPOSIT_STATUS : cty := union 0 [
  fld UINT64 "AsUINT64";
  fld (struct 0 [
    bit UINT64 "Success" 1;
    bit UINT64 "Async" 1;
    bit UINT64 "Remote" 1;
    bit UINT64 "Reserved" 61]) anonymous].
Definition HV_IOMMU_GVA_RANGE : cty := union 0 [
  fld UINT64 "AsUINT64";
  fld (struct 0 [
    bit UINT64 "PageMaskShift" 6;
    bit UINT64 "Reserved" 6;
    bit UINT64 "PageNumber" 52]) anonymous].
Definition HV_PARTITION_INFO_PAGE : cty := union 0 [
  fld (CArr UINT8 4096) "Padding";
  fld UINT32 "TlbInUse"].
Definition HV_ARM64_TLB_PAGE_SIZE_MISMATCH_MESSAGE : cty := struct 0 [
  fld HV_VP_INDEX "VpIndex";
  fld UINT32 "Reserved"].
Definition HV_ARM64_VOLATILE_GP_REGS : cty := struct 0 [
  fld (CArr UINT64 18) "X"].
Definition HV_PARTITION_PAGE_ACCESS_TRACKING_CONFIG : cty := union 0 [
  fld UINT64 "AsUINT64";
  fld (struct 0 [
    bit UINT64 "Enabled" 1;
    bit UINT64 "Granularity" 2;
    bit UINT64 "RangeEnabled" 1;
    bit UINT64 "ReservedZ" 60]) anonymous].
Definition HV_MEMORY_PROXIMITY_INFO : cty := struct 0 [
  fld UINT64 "BaseAddress";
  fld UINT64 "EndAddress";
  fld HV_PROXIMITY_DOMAIN_ID "ProximityDomainId"].
Definition HV_DMA_RANGE : cty := struct 0 [
  fld UINT64 "StartPage";
  fld UINT32 "PageCount"].
Definition HV_VP_DISPATCH_LOOP_RESULT : cty := union 0 [
  fld UINT64 "AsUINT64";
  fld (struct 0 [
    fld (enum_type HV_VP_DISPATCH_LOOP_EVENT) "ExitEvent";
    fld UINT32 "Reserved"]) anonymous].
Definition HV_HYPERCALL_INTERCEPT_COMPLETION_DATA : cty := struct 0 [
  fld UINT16 "Status";
  fld (CArr UINT8 0) "OutputData"].
Definition HV_INPUT_NOTIFY_EVENT_RING_EMPTY : cty := struct 0 [
  fld UINT32 "SintIndex";
  fld UINT32 "RsvdZ"].
Definition HV_REGISTER_ISOLATION_CAPABILITIES : cty := union 0 [
  fld UINT64 "AsUINT64";
  fld (struct 0 [
    bit UINT64 "ReservedZ" 64]) anonymous].
Definition HV_SEC_FW_VERSION : cty := union 0 [
  fld (struct 0 [
    bit UINT64 "Build" 32;
    bit UINT64 "MinorVersion" 8;
    bit UINT64 "MajorVersion" 8;
    bit UINT64 "Reserved" 16]) "Snp";
  fld UINT64 "AsUINT64"].
Definition HV_RESTART_COMPLETION_MESSAGE_PAYLOAD : cty := struct 0 [
  fld HV_VP_INDEX "VpIndex";
  fld (enum_type HV_RESTART_COMPLETION_TYPE) "CompletionType"].

(** ** The records and enumerations of the file *)

Definition TlfsSymbols_types : list (string * cty) := [
  ("HV_INPUT_FLUSH_VIRTUAL_ADDRESS_SPACE_HEADER", HV_INPUT_FLUSH_VIRTUAL_ADDRESS_SPACE_HEADER);
  ("HV_INPUT_FLUSH_VIRTUAL_ADDRESS_SPACE_HEADER_EX", HV_INPUT_FLUSH_VIRTUAL_ADDRESS_SPACE_HEADER_EX);
  ("HV_GPA_PAGE_ATTRIBUTES", HV_GPA_PAGE_ATTRIBUTES);
  ("HV_PPM_POWER_POLICY_SETTING", HV_PPM_POWER_POLICY_SETTING);
  ("HV_IOMMU_INIT_STATUS", HV_IOMMU_INIT_STATUS);
  ("HV_TSC_SYNC_STATUS", HV_TSC_SYNC_STATUS);
  ("HV_PCI_BDF", HV_PCI_BDF);
  ("HV_PCI_BUS_RANGE", HV_PCI_BUS_RANGE);
  ("HV_DEVICE_ID", HV_DEVICE_ID);
  ("HV_HPET_CONFIG_INFO", HV_HPET_CONFIG_INFO);
  ("HV_HPET_INTERRUPT_INFO", HV_HPET_INTERRUPT_INFO);
  ("HV_HPET_ENABLED_INFO", HV_HPET_ENABLED_INFO);
  ("HV_HYPERVISOR_LAUNCH_STATS", HV_HYPERVISOR_LAUNCH_STATS);
  ("HV_ROOT_SVM_CAPABILITIES_PROPERTY", HV_ROOT_SVM_CAPABILITIES_PROPERTY);
  ("HV_NUMA_NODE_RESERVED_PAGE_INFO", HV_NUMA_NODE_RESERVED_PAGE_INFO);
  ("HV_ROOT_NUMA_COST_PAGES_PROPERTY", HV_ROOT_NUMA_COST_PAGES_PROPERTY);
  ("HV_SLEEP_STATE_INFO", HV_SLEEP_STATE_INFO);
  ("HV_MACHINE_CHECK_PROPERTY_INFO", HV_MACHINE_CHECK_PROPERTY_INFO);
  ("HV_HYPERVISOR_DEBUG_PROPERTY", HV_HYPERVISOR_DEBUG_PROPERTY);
  ("HV_PLATFORM_VIRTUALIZATION_SUPPORT_INFO", HV_PLATFORM_VIRTUALIZATION_SUPPORT_INFO);
  ("HV_SPA_PAGE_LIST_FLAGS", HV_SPA_PAGE_LIST_FLAGS);
  ("HV_X64_PPM_PERF_STATE", HV_X64_PPM_PERF_STATE);
  ("HV_PPM_PERF_STATE_REGISTER", HV_PPM_PERF_STATE_REGISTER);
  ("HV_X64_PPM_PERF_STATE_CONFIG_PROPERTY", HV_X64_PPM_PERF_STATE_CONFIG_PROPERTY);
  ("HV_X64_PPM_THROTTLE_STATE", HV_X64_PPM_THROTTLE_STATE);
  ("HV_X64_PPM_THROTTLE_STATE_CONFIG_PROPERTY", HV_X64_PPM_THROTTLE_STATE_CONFIG_PROPERTY);
  ("HV_X64_PPM_PCC_CONFIG_PROPERTY", HV_X64_PPM_PCC_CONFIG_PROPERTY);
  ("HV_X64_PPM_PERF_STATE_CAP_PROPERTY", HV_X64_PPM_PERF_STATE_CAP_PROPERTY);
  ("HV_MACHINE_CHECK_CONTEXT", HV_MACHINE_CHECK_CONTEXT);
  ("HV_MACHINE_CHECK_CONTEXT_INFO", HV_MACHINE_CHECK_CONTEXT_INFO);
  ("HV_MCUPDATE_UPDATE_STATUS", HV_MCUPDATE_UPDATE_STATUS);
  ("HV_LOGICAL_PROCESSOR_PROPERTY", HV_LOGICAL_PROCESSOR_PROPERTY);
  ("HV_DEVICE_DOMAIN_ID", HV_DEVICE_DOMAIN_ID);
  ("HV_INPUT_DEVICE_DOMAIN", HV_INPUT_DEVICE_DOMAIN);
  ("HV_FULL_PASID", HV_FULL_PASID);
  ("HV_DEVICE_ADDRESS_SPACE", HV_DEVICE_ADDRESS_SPACE);
  ("HV_DEVICE_INTERRUPT_DESCRIPTOR_HEADER", HV_DEVICE_INTERRUPT_DESCRIPTOR_HEADER);
  ("HV_DEVICE_INTERRUPT_DESCRIPTOR", HV_DEVICE_INTERRUPT_DESCRIPTOR);
  ("HV_ATTACH_DEVICE_FLAGS", HV_ATTACH_DEVICE_FLAGS);
  ("HV_DEVICE_PCI_CAPABILITIES", HV_DEVICE_PCI_CAPABILITIES);
  ("HV_X64_PROC_STATE_GP_REGS", HV_X64_PROC_STATE_GP_REGS);
  ("HV_PARTITION_EVENT_ROOT_CRASHDUMP_INPUT", HV_PARTITION_EVENT_ROOT_CRASHDUMP_INPUT);
  ("HV_PARTITION_EVENT_COMMIT_PROCESSOR_INDICES_INPUT", HV_PARTITION_EVENT_COMMIT_PROCESSOR_INDICES_INPUT);
  ("HV_PARTITION_EVENT_INPUT", HV_PARTITION_EVENT_INPUT);
  ("HV_PPM_IDLE_STATE_CONFIG", HV_PPM_IDLE_STATE_CONFIG);
  ("HV_PPM_IDLE_STATE", HV_PPM_IDLE_STATE);
  ("HV_X64_PPM_IDLE_STATE_CONFIG_PROPERTY", HV_X64_PPM_IDLE_STATE_CONFIG_PROPERTY);
  ("HV_PPM_FEEDBACK_REGISTER_PAIR", HV_PPM_FEEDBACK_REGISTER_PAIR);
  ("HV_PROCESSOR_PERF_FEEDBACK_COUNTERS_CONFIG", HV_PROCESSOR_PERF_FEEDBACK_COUNTERS_CONFIG);
  ("HV_POWER_STATS_OFFSETS", HV_POWER_STATS_OFFSETS);
  ("HV_IPV6_ADDRESS", HV_IPV6_ADDRESS);
  ("HV_DEBUG_NET_DATA", HV_DEBUG_NET_DATA);
  ("HV_LP_STARTUP_STATUS", HV_LP_STARTUP_STATUS);
  ("HV_MEMORY_DESCRIPTOR", HV_MEMORY_DESCRIPTOR);
  ("HV_PHYSICAL_DEVICE_PROPERTY_CAPABILITIES", HV_PHYSICAL_DEVICE_PROPERTY_CAPABILITIES);
  ("HV_PHYSICAL_DEVICE_PROPERTY_DMA_ENABLED", HV_PHYSICAL_DEVICE_PROPERTY_DMA_ENABLED);
  ("HV_IOMMU_EXTENDED_STATUS", HV_IOMMU_EXTENDED_STATUS);
  ("HV_IMAGE_COVERAGE_INFO", HV_IMAGE_COVERAGE_INFO);
  ("HV_SPA_PAGE_RANGE", HV_SPA_PAGE_RANGE);
  ("HV_REGISTER_NESTED_CONTROL", HV_REGISTER_NESTED_CONTROL);
  ("HV_REGISTER_VSM_VP_VTL_CONTROL", HV_REGISTER_VSM_VP_VTL_CONTROL);
  ("HV_X64_XSAVE_AREA", HV_X64_XSAVE_AREA);
  ("HV_X64_REGISTER_VSM_CAPABILITIES", HV_X64_REGISTER_VSM_CAPABILITIES);
  ("HV_VTL_RETURN_INPUT", HV_VTL_RETURN_INPUT);
  ("HV_X64_LOGICAL_PROCESSOR_REGISTER_ADDRESS", HV_X64_LOGICAL_PROCESSOR_REGISTER_ADDRESS);
  ("HV_LOGICAL_PROCESSOR_REGISTER_ID", HV_LOGICAL_PROCESSOR_REGISTER_ID);
  ("HV_MCUPDATE_DATA_HEADER", HV_MCUPDATE_DATA_HEADER);
  ("HV_BOOT_DEBUG_PARAMETERS", HV_BOOT_DEBUG_PARAMETERS);
  ("HV_BOOT_PARAMETERS", HV_BOOT_PARAMETERS);
  ("HV_HARDWARE_DETAILS", HV_HARDWARE_DETAILS);
  ("HV_IMAGE_SECTION_DETAIL", HV_IMAGE_SECTION_DETAIL);
  ("HV_IMAGE_DETAIL", HV_IMAGE_DETAIL);
  ("HV_MINI_LOADER_BLOCK", HV_MINI_LOADER_BLOCK);
  ("HV_CPU_MANAGEMENT_VERSION_REGISTER", HV_CPU_MANAGEMENT_VERSION_REGISTER);
  ("HV_PCI_ID", HV_PCI_ID);
  ("HV_MCA_FAULTING_LP_MSR", HV_MCA_FAULTING_LP_MSR);
  ("HV_DEVICE_PAGE_REQUEST", HV_DEVICE_PAGE_REQUEST);
  ("HV_DEVICE_PRQ_PROPERTY_INTERRUPT_MASKED", HV_DEVICE_PRQ_PROPERTY_INTERRUPT_MASKED);
  ("HV_X64_VOLATILE_GP_REGS", HV_X64_VOLATILE_GP_REGS);
  ("HV_PCI_PATH", HV_PCI_PATH);
  ("HV_DEVICE_PRQ_HEADER", HV_DEVICE_PRQ_HEADER);
  ("HV_SUBNODE", HV_SUBNODE);
  ("HV_PARTITION_PROPERTY_INHERITED_DEVICE_DOMAIN_REGIONS", HV_PARTITION_PROPERTY_INHERITED_DEVICE_DOMAIN_REGIONS);
  ("HV_PARTITION_PROPERTY_SHA384", HV_PARTITION_PROPERTY_SHA384);
  ("HV_PARTITION_PROPERTY_EX_ROOT_PROCESSOR_FEATURES_EXPERIMENTAL", HV_PARTITION_PROPERTY_EX_ROOT_PROCESSOR_FEATURES_EXPERIMENTAL);
  ("HV_PARTITION_PROPERTY_VP_SHARED_PAGES", HV_PARTITION_PROPERTY_VP_SHARED_PAGES);
  ("HV_PARTITION_PROPERTY_EX", HV_PARTITION_PROPERTY_EX);
  ("HV_HOST_TIMELINE_INFO", HV_HOST_TIMELINE_INFO);
  ("HV_SMC_DATA_PATH_PROPERTY", HV_SMC_DATA_PATH_PROPERTY);
  ("HV_SYSTEM_MIRRORING_PROPERTY", HV_SYSTEM_MIRRORING_PROPERTY);
  ("HV_RESOURCE_CONTROL_MONITOR", HV_RESOURCE_CONTROL_MONITOR);
  ("HV_RESOURCE_CONTROL_VALUE_PROPERTY", HV_RESOURCE_CONTROL_VALUE_PROPERTY);
  ("HV_RESOURCE_CONTROL_MONITOR_DATA", HV_RESOURCE_CONTROL_MONITOR_DATA);
  ("HV_RESOURCE_CONTROL_SUPPORT_PROPERTY", HV_RESOURCE_CONTROL_SUPPORT_PROPERTY);
  ("HV_RESOURCE_CONTROL_VALUES_PROPERTY", HV_RESOURCE_CONTROL_VALUES_PROPERTY);
  ("HV_SYSTEM_DIAG_LOG_BUFFER_CONFIG", HV_SYSTEM_DIAG_LOG_BUFFER_CONFIG);
  ("HV_SCHEDULING_INTERVAL_INFO", HV_SCHEDULING_INTERVAL_INFO);
  ("HV_VIRTUALIZATION_FEATURE_SET", HV_VIRTUALIZATION_FEATURE_SET);
  ("HV_BOOT_CONFIG_PROPERTY", HV_BOOT_CONFIG_PROPERTY);
  ("HV_PPM_IDLE_STATE_EX", HV_PPM_IDLE_STATE_EX);
  ("HV_X64_PPM_IDLE_STATE_CONFIG_PROPERTY_EX", HV_X64_PPM_IDLE_STATE_CONFIG_PROPERTY_EX);
  ("HV_PROCESSOR_CPPC_REQUEST_REGISTER", HV_PROCESSOR_CPPC_REQUEST_REGISTER);
  ("HV_PHYSICAL_DEVICE_FLAGS", HV_PHYSICAL_DEVICE_FLAGS);
  ("HV_PHYSICAL_DEVICE_PROPERTY_FAULT_REPORTING", HV_PHYSICAL_DEVICE_PROPERTY_FAULT_REPORTING);
  ("HV_PHYSICAL_DEVICE_PROPERTY_IRT_RANGE", HV_PHYSICAL_DEVICE_PROPERTY_IRT_RANGE);
  ("HV_VTL_PERMISSION_SET", HV_VTL_PERMISSION_SET);
  ("HV_GPA_PAGE_MAPPING_DATA", HV_GPA_PAGE_MAPPING_DATA);
  ("HV_X64_DELIVERABILITY_NOTIFICATIONS_REGISTER", HV_X64_DELIVERABILITY_NOTIFICATIONS_REGISTER);
  ("HV_INTERNAL_ACTIVITY_REGISTER", HV_INTERNAL_ACTIVITY_REGISTER);
  ("HV_MIRRORING_NOTIFICATION_MESSAGE_PAYLOAD", HV_MIRRORING_NOTIFICATION_MESSAGE_PAYLOAD);
  ("HV_X64_REGISTER_SEV_CONTROL", HV_X64_REGISTER_SEV_CONTROL);
  ("HV_PARTITION_VSM_CONFIG", HV_PARTITION_VSM_CONFIG);
  ("HV_RDT_CAT_COS_BITMASK_PROPERTY", HV_RDT_CAT_COS_BITMASK_PROPERTY);
  ("HV_PARK_BLOCK_INFO", HV_PARK_BLOCK_INFO);
  ("HV_ENABLE_PARTITION_VTL_INTERCEPT_COMPLETION_DATA", HV_ENABLE_PARTITION_VTL_INTERCEPT_COMPLETION_DATA);
  ("HV_X64_IO_PORT_READ_COMPLETION_DATA", HV_X64_IO_PORT_READ_COMPLETION_DATA);
  ("HV_PICO100_DURATION", HV_PICO100_DURATION);
  ("HV_GPA_ATTRIBUTE_INTERCEPT_MESSAGE", HV_GPA_ATTRIBUTE_INTERCEPT_MESSAGE);
  ("HV_REGISTER_VSM_VP_WAIT_FOR_TLB_LOCK", HV_REGISTER_VSM_VP_WAIT_FOR_TLB_LOCK);
  ("HV_SNP_PSP_TCB_VERSION", HV_SNP_PSP_TCB_VERSION);
  ("HV_INPUT_PROTO_CREATE_PERSISTED_CPU_GROUP", HV_INPUT_PROTO_CREATE_PERSISTED_CPU_GROUP);
  ("HV_VP_ASSIST_PAGE_ACTION", HV_VP_ASSIST_PAGE_ACTION);
  ("HV_MINROOT_NUMA_LPS", HV_MINROOT_NUMA_LPS);
  ("HV_X64_MSR_VP_EXIT_REASON_CONTENTS", HV_X64_MSR_VP_EXIT_REASON_CONTENTS);
  ("HV_PARTITION_PROPERTY_ASSOC", HV_PARTITION_PROPERTY_ASSOC);
  ("HV_ROOT_PASID_CAPABILITIES_PROPERTY", HV_ROOT_PASID_CAPABILITIES_PROPERTY);
  ("HV_PSP_DEVICE", HV_PSP_DEVICE);
  ("HV_SNP_PSP_DEVICES", HV_SNP_PSP_DEVICES);
  ("HV_EVENTLOG_EVENTGROUP_CONFIGURATION", HV_EVENTLOG_EVENTGROUP_CONFIGURATION);
  ("HV_INPUT_EVENTLOG_SET_EVENTS", HV_INPUT_EVENTLOG_SET_EVENTS);
  ("HV_REGISTER_HVPT_CONTROL", HV_REGISTER_HVPT_CONTROL);
  ("HV_PARTITION_PERFMON_MODE_CONFIG", HV_PARTITION_PERFMON_MODE_CONFIG);
  ("HV_REGISTER_REFERENCE_TSC", HV_REGISTER_REFERENCE_TSC);
  ("HV_ENABLE_PARTITION_VTL_INTERCEPT_MESSAGE", HV_ENABLE_PARTITION_VTL_INTERCEPT_MESSAGE);
  ("HV_REGISTER_PARTITION_INFO_PAGE", HV_REGISTER_PARTITION_INFO_PAGE);
  ("HV_SEAM_TDMR_RESERVATION", HV_SEAM_TDMR_RESERVATION);
  ("HV_SEAM_TDMR", HV_SEAM_TDMR);
  ("HV_X64_REGISTER_SEV_HV_DOORBELL", HV_X64_REGISTER_SEV_HV_DOORBELL);
  ("HV_X64_REGISTER_SEV_GHCB", HV_X64_REGISTER_SEV_GHCB);
  ("HV_GPA_ATTRIBUTE_INTERCEPT_COMPLETION_DATA", HV_GPA_ATTRIBUTE_INTERCEPT_COMPLETION_DATA);
  ("HV_EVENTLOG_EXTENDED_TRACE_FLAGS", HV_EVENTLOG_EXTENDED_TRACE_FLAGS);
  ("HV_PARTITION_DIAG_LOG_BUFFER_CONFIG", HV_PARTITION_DIAG_LOG_BUFFER_CONFIG);
  ("HV_PARTITION_ENLIGHTENMENT_MODIFICATIONS", HV_PARTITION_ENLIGHTENMENT_MODIFICATIONS);
  ("HV_INSUFFICIENT_MEMORY_MESSAGE_PAYLOAD", HV_INSUFFICIENT_MEMORY_MESSAGE_PAYLOAD);
  ("HV_ARM64_REGISTER_TLBI_CONTROL", HV_ARM64_REGISTER_TLBI_CONTROL);
  ("HV_SGX_LAUNCH_CONTROL_CONFIG", HV_SGX_LAUNCH_CONTROL_CONFIG);
  ("HV_LOADER_PCI_SEGMENT_ENTRY", HV_LOADER_PCI_SEGMENT_ENTRY);
  ("HV_VP_ASSIST_PAGE_ACTION_SIGNAL_EVENT", HV_VP_ASSIST_PAGE_ACTION_SIGNAL_EVENT);
  ("HV_SYNIC_EVENT_INTERCEPT_MESSAGE", HV_SYNIC_EVENT_INTERCEPT_MESSAGE);
  ("HV_INPUT_GET_PARTITION_RESERVED_PAGES", HV_INPUT_GET_PARTITION_RESERVED_PAGES);
  ("HV_RDT_MBA_COS_VALUE_PROPERTY", HV_RDT_MBA_COS_VALUE_PROPERTY);
  ("HV_PARTITION_PROCESSOR_VIRTUALIZATION_FEATURES", HV_PARTITION_PROCESSOR_VIRTUALIZATION_FEATURES);
  ("HV_INPUT_GPA_PAGE_PINNING", HV_INPUT_GPA_PAGE_PINNING);
  ("HV_OUTPUT_GET_PARTITION_RESERVED_PAGES", HV_OUTPUT_GET_PARTITION_RESERVED_PAGES);
  ("HV_PARTITION_ISOLATION_CONTROL", HV_PARTITION_ISOLATION_CONTROL);
  ("HV_X64_MSR_VP_EXIT_INTERRUPT_CONTROL_CONTENTS", HV_X64_MSR_VP_EXIT_INTERRUPT_CONTROL_CONTENTS);
  ("HV_LOADER_IOMMU_ENTRY", HV_LOADER_IOMMU_ENTRY);
  ("HV_DEPRECATED_OUTPUT_QUERY_IOMMU_PROPERTIES", HV_DEPRECATED_OUTPUT_QUERY_IOMMU_PROPERTIES);
  ("HV_CHECK_GPA_PAGE_VTL_ACCESS_RESULT", HV_CHECK_GPA_PAGE_VTL_ACCESS_RESULT);
  ("HV_INSTRUCTION_EMULATION_HINTS_REGISTER", HV_INSTRUCTION_EMULATION_HINTS_REGISTER);
  ("HV_PARTITION_ISOLATION_POLICY", HV_PARTITION_ISOLATION_POLICY);
  ("HV_PSP_REQUEST_COMPLETION_DATA", HV_PSP_REQUEST_COMPLETION_DATA);
  ("HV_SNP_PSP_ID", HV_SNP_PSP_ID);
  ("HV_USER_MODE_HYPERCALLS", HV_USER_MODE_HYPERCALLS);
  ("HV_PARTITION_DEPOSIT_STATUS", HV_PARTITION_DEPOSIT_STATUS);
  ("HV_IOMMU_GVA_RANGE", HV_IOMMU_GVA_RANGE);
  ("HV_PARTITION_INFO_PAGE", HV_PARTITION_INFO_PAGE);
  ("HV_ARM64_TLB_PAGE_SIZE_MISMATCH_MESSAGE", HV_ARM64_TLB_PAGE_SIZE_MISMATCH_MESSAGE);
  ("HV_ARM64_VOLATILE_GP_REGS", HV_ARM64_VOLATILE_GP_REGS);
  ("HV_PARTITION_PAGE_ACCESS_TRACKING_CONFIG", HV_PARTITION_PAGE_ACCESS_TRACKING_CONFIG);
  ("HV_MEMORY_PROXIMITY_INFO", HV_MEMORY_PROXIMITY_INFO);
  ("HV_DMA_RANGE", HV_DMA_RANGE);
  ("HV_VP_DISPATCH_LOOP_RESULT", HV_VP_DISPATCH_LOOP_RESULT);
  ("HV_HYPERCALL_INTERCEPT_COMPLETION_DATA", HV_HYPERCALL_INTERCEPT_COMPLETION_DATA);
  ("HV_INPUT_NOTIFY_EVENT_RING_EMPTY", HV_INPUT_NOTIFY_EVENT_RING_EMPTY);
  ("HV_REGISTER_ISOLATION_CAPABILITIES", HV_REGISTER_ISOLATION_CAPABILITIES);
  ("HV_SEC_FW_VERSION", HV_SEC_FW_VERSION);
  ("HV_RESTART_COMPLETION_MESSAGE_PAYLOAD", HV_RESTART_COMPLETION_MESSAGE_PAYLOAD)].
Definition TlfsSymbols_enums : list (string * enum) := [
  ("HV_SUBNODE_TYPE", HV_SUBNODE_TYPE);
  ("HV_NESTED_MSR_INTERCEPT_MODE", HV_NESTED_MSR_INTERCEPT_MODE);
  ("HV_STORE_DATA_RESULT", HV_STORE_DATA_RESULT);
  ("HV_FILE_STATUS", HV_FILE_STATUS);
  ("HV_BACKING_STORAGE_TYPE", HV_BACKING_STORAGE_TYPE);
  ("HV_LOG_SWAP_REASON", HV_LOG_SWAP_REASON);
  ("HV_LOGICAL_PROCESSOR_PROPERTY_TYPE", HV_LOGICAL_PROCESSOR_PROPERTY_TYPE);
  ("HV_LOGICAL_PROCESSOR_REGISTER_TYPE", HV_LOGICAL_PROCESSOR_REGISTER_TYPE);
  ("HV_POWER_PROPERTY_TYPE", HV_POWER_PROPERTY_TYPE);
  ("HV_PARTITION_EVENT", HV_PARTITION_EVENT);
  ("HV_PPM_POWER_POLICY_SETTING_ID", HV_PPM_POWER_POLICY_SETTING_ID);
  ("HV_BOOT_DEBUG_PORT_TYPE", HV_BOOT_DEBUG_PORT_TYPE);
  ("HV_CRASHDUMP_ACTION", HV_CRASHDUMP_ACTION);
  ("HV_PHYSICAL_DEVICE_PROPERTY", HV_PHYSICAL_DEVICE_PROPERTY);
  ("HV_X64_PPM_PERF_STATE_PORT_ACCESS_SIZE", HV_X64_PPM_PERF_STATE_PORT_ACCESS_SIZE);
  ("HV_MACHINE_CHECK_RECOVERY_FLAG", HV_MACHINE_CHECK_RECOVERY_FLAG);
  ("HV_MACHINE_CHECK_SOURCE", HV_MACHINE_CHECK_SOURCE);
  ("HV_DEVICE_TYPE", HV_DEVICE_TYPE);
  ("HV_COVERAGE_OPERATION", HV_COVERAGE_OPERATION);
  ("HV_BOOT_DEBUG_COM_PORT_TYPE", HV_BOOT_DEBUG_COM_PORT_TYPE);
  ("HV_INTERRUPT_TRIGGER_MODE", HV_INTERRUPT_TRIGGER_MODE);
  ("HV_SLEEP_STATE", HV_SLEEP_STATE);
  ("HV_DEVICE_PRQ_PROPERTY", HV_DEVICE_PRQ_PROPERTY);
  ("HV_MACHINE_CHECK_PROPERTY_TYPE", HV_MACHINE_CHECK_PROPERTY_TYPE);
  ("HV_PPM_PERF_STATE_REGISTER_TYPE", HV_PPM_PERF_STATE_REGISTER_TYPE);
  ("HV_X64_PPM_PERF_DOMAIN_COORDINATION", HV_X64_PPM_PERF_DOMAIN_COORDINATION);
  ("HV_ERROR_TYPES", HV_ERROR_TYPES);
  ("HV_PARTITION_MIRRORING_POLICY", HV_PARTITION_MIRRORING_POLICY);
  ("HV_IMAGE_QUERY_TYPE", HV_IMAGE_QUERY_TYPE);
  ("HV_COMPATIBILITY_VERSION", HV_COMPATIBILITY_VERSION);
  ("HV_NON_ARCH_CORE_SHARING_TYPE", HV_NON_ARCH_CORE_SHARING_TYPE);
  ("HV_CPU_GROUP_PROPERTY_CODE", HV_CPU_GROUP_PROPERTY_CODE);
  ("HV_SNP_STATUS", HV_SNP_STATUS);
  ("HV_PARTITION_PERFMON_MODE", HV_PARTITION_PERFMON_MODE);
  ("HV_RESTART_COMPLETION_TYPE", HV_RESTART_COMPLETION_TYPE);
  ("HV_X64_PPM_CPPC_CONTEXT_SWITCH_POLICY", HV_X64_PPM_CPPC_CONTEXT_SWITCH_POLICY);
  ("HV_PARTITION_VH_TARGET_CHILDREN_STATE", HV_PARTITION_VH_TARGET_CHILDREN_STATE);
  ("HV_SEC_FW_UPDATE_STATUS", HV_SEC_FW_UPDATE_STATUS);
  ("HV_THREAD_HYPERCALLBASED_COUNTER", HV_THREAD_HYPERCALLBASED_COUNTER);
  ("HV_EXT_MEMORY_HEAT_HINT_TYPE", HV_EXT_MEMORY_HEAT_HINT_TYPE);
  ("HV_VP_DISPATCH_LOOP_EVENT", HV_VP_DISPATCH_LOOP_EVENT);
  ("HV_PAGE_ACCESS_TRACKING_GRANULARITY", HV_PAGE_ACCESS_TRACKING_GRANULARITY);
  ("HV_TDX_STATUS", HV_TDX_STATUS);
  ("HV_PARTITION_PERFMON_CONFIGURATION_STATUS", HV_PARTITION_PERFMON_CONFIGURATION_STATUS);
  ("HV_ACCEPT_MEMORY_TYPE", HV_ACCEPT_MEMORY_TYPE);
  ("HV_GPA_ACCESS_TRACKING_RANGE_SIZE", HV_GPA_ACCESS_TRACKING_RANGE_SIZE);
  ("HV_CPU_HYPERCALLBASED_COUNTER", HV_CPU_HYPERCALLBASED_COUNTER);
  ("HV_PARTITION_MIRROR_STATE", HV_PARTITION_MIRROR_STATE);
  ("HV_EVENTLOG_EXTENDED_TRACE_MODE", HV_EVENTLOG_EXTENDED_TRACE_MODE);
  ("HV_EXT_VIRTUALIZATION_FAULT_CODE", HV_EXT_VIRTUALIZATION_FAULT_CODE);
  ("HV_PLATFORM_STATE_INDEX", HV_PLATFORM_STATE_INDEX);
  ("HV_EVENTLOG_MODE", HV_EVENTLOG_MODE);
  ("HV_EVENTLOG_EXTENDED_GRANULAR_OPERATION", HV_EVENTLOG_EXTENDED_GRANULAR_OPERATION);
  ("HV_SPA_PAGE_OWNERSHIP", HV_SPA_PAGE_OWNERSHIP);
  ("HV_CHECK_GPA_PAGE_VTL_ACCESS_RESULT_CODE", HV_CHECK_GPA_PAGE_VTL_ACCESS_RESULT_CODE);
  ("HV_RESOURCE_CONTROL_TYPE", HV_RESOURCE_CONTROL_TYPE);
  ("HV_PPM_IDLE_STATE_CHANGE_METHOD", HV_PPM_IDLE_STATE_CHANGE_METHOD);
  ("HV_HW_WATCHDOG_STATUS", HV_HW_WATCHDOG_STATUS);
  ("HV_PSP_STATUS", HV_PSP_STATUS)].
