(* ===== verification/TlfsCpuid.v ===== *)
(** * The hypervisor specification: CPUID and MSRs

    The fifth part of [Mile.HyperV.TLFS.h]. *)

From S2P Require Import Prelude CLayout GuestInterface GuestProtocols TlfsBase TlfsState TlfsPartition TlfsSymbols.

Definition HV_CPUID_FUNCTION_PRIVATE : enum := [
  Is "HvCpuIdFunctionMsHvPasidFeatures" 0x40000008;
  Is "HvCpuIdFunctionMsHvIsolationConfiguration" 0x40000009;
  Is "HvCpuidFunctionMsHvIptFeatures" 0x4000000b].
Definition HV_CPUID_HV_VENDOR_MICROSOFT : string := "Microsoft Hv".
Definition HV_CPUID_HV_VENDOR_MICROSOFT_EBX : Z := multi_char "rciM".
Definition HV_CPUID_HV_VENDOR_MICROSOFT_ECX : Z := multi_char "foso".
Definition HV_CPUID_HV_VENDOR_MICROSOFT_EDX : Z := multi_char "vH t".
Definition HV_HYPERVISOR_INTERFACE_PRIVATE : enum := [
  Is "HvMicrosoftXboxNanovisor" (multi_char "vnbX")].
Definition HV_SERVICE_BRANCH : enum := [
  Is "HvServiceBranchGdr" 0x00000000;
  Is "HvServiceBranchQfe" 0x00000001].
Definition HV_X64_HYPERVISOR_FEATURES_PRIVATE : cty := struct 0 [
  fld HV_PARTITION_PRIVILEGE_MASK_PRIVATE "PartitionPrivileges";
  bit UINT32 "Reserved0" 5;
  bit UINT32 "InvariantMperfAvailable" 1;
  bit UINT32 "SupervisorShadowStackAvailable" 1;
  bit UINT32 "ArchPmuAvailable" 1;
  bit UINT32 "ExceptionTrapInterceptAvailable" 1;
  bit UINT32 "Reserved1" 23;
  bit UINT32 "Reserved2" 26;
  bit UINT32 "LbrAvailable" 1;
  bit UINT32 "IptAvailable" 1;
  bit UINT32 "CrossVtlFlushAvailable" 1;
  bit UINT32 "IdleSpecCtrlAvailable" 1;
  bit UINT32 "TranslateGvaFlagsAvailable" 1;
  bit UINT32 "ApicEoiInterceptAvailable" 1].
Definition HV_HYPERVISOR_FEATURES_PRIVATE : cty := HV_X64_HYPERVISOR_FEATURES_PRIVATE.
Definition HV_X64_ENLIGHTENMENT_INFORMATION_PRIVATE : cty := struct 0 [
  bit UINT32 "Reserved0" 16;
  bit UINT32 "CoreSchedulerRequested" 1;
  bit UINT32 "Reserved1" 1;
  bit UINT32 "NoNonArchitecturalCoreSharing" 1;
  bit UINT32 "UseX2Apic" 1;
  bit UINT32 "RestoreTimeOnResume" 1;
  bit UINT32 "UseHypercallForMmioAccess" 1;
  bit UINT32 "UseGpaPinningHypercall" 1;
  bit UINT32 "WakeVps" 1;
  bit UINT32 "Reserved" 8;
  fld UINT32 "Reserved2";
  bit UINT32 "ImplementedPhysicalAddressBits" 7;
  bit UINT32 "ReservedEcx" 25;
  fld UINT32 "ReservedEdx"].
Definition HV_ENLIGHTENMENT_INFORMATION_PRIVATE : cty := HV_X64_ENLIGHTENMENT_INFORMATION_PRIVATE.
Definition HV_X64_HYPERVISOR_HARDWARE_FEATURES_PRIVATE : cty := struct 0 [
  bit UINT32 "Reserved0" 18;
  bit UINT32 "L3CachePartitioningSupported" 1;
  bit UINT32 "L3CacheMonitoringSupported" 1;
  bit UINT32 "Reserved1" 7;
  bit UINT32 "HardwareGpaAccessTrackingSupported" 1;
  bit UINT32 "Reserved2" 4;
  fld UINT32 "ReservedEbx";
  fld UINT32 "ReservedEcx";
  fld UINT32 "ReservedEdx"].
Definition HV_HYPERVISOR_HARDWARE_FEATURES_PRIVATE : cty := HV_X64_HYPERVISOR_HARDWARE_FEATURES_PRIVATE.
Definition HV_X64_HYPERVISOR_CPU_MANAGEMENT_FEATURES_PRIVATE : cty := struct 0 [
  fld UINT32 "ReservedEax";
  bit UINT32 "Reserved0" 3;
  bit UINT32 "DriveIdleTransitions" 1;
  bit UINT32 "Reserved1" 28;
  fld UINT32 "ReservedEcx";
  fld UINT32 "ReservedEdx"].
Definition HV_HYPERVISOR_CPU_MANAGEMENT_FEATURES_PRIVATE : cty :=
  HV_X64_HYPERVISOR_CPU_MANAGEMENT_FEATURES_PRIVATE.
Definition HV_HYPERVISOR_PASID_FEATURES : cty := struct 0 [
  bit UINT32 "Reserved0" 1;
  bit UINT32 "PasidSupported" 1;
  bit UINT32 "Reserved1" 30;
  fld UINT32 "MaxDevicePrqSize";
  fld UINT32 "Reserved2";
  fld UINT32 "Reserved3"].
Definition HV_HYPERVISOR_ISOLATION_CONFIGURATION_PRIVATE : cty := struct 0 [
  bit UINT32 "Reserved00" 1;
  bit UINT32 "Reserved01" 1;
  bit UINT32 "AccessSynicRegs" 1;
  bit UINT32 "Reserved02" 1;
  bit UINT32 "AccessIntrCtrlRegs" 1;
  bit UINT32 "AccessHypercallMsrs" 1;
  bit UINT32 "AccessVpIndex" 1;
  bit UINT32 "Reserved03" 5;
  bit UINT32 "AccessReenlightenmentControls" 1;
  bit UINT32 "Reserved04" 19;
  fld UINT32 "Reserved1";
  fld UINT32 "Reserved2";
  bit UINT32 "Reserved30" 4;
  bit UINT32 "XmmRegistersForFastHypercallAvailable" 1;
  bit UINT32 "Reserved31" 10;
  bit UINT32 "FastHypercallOutputAvailable" 1;
  bit UINT32 "Reserved32" 1;
  bit UINT32 "SintPollingModeAvailable" 1;
  bit UINT32 "Reserved33" 14].
Definition HV_HYPERVISOR_NESTED_VIRT_FEATURES_PRIVATE : cty := struct 0 [
  bit UINT32 "Reserved0" 21;
  bit UINT32 "DebugCtl" 1;
  bit UINT32 "EnlightenedNptTlb" 1;
  bit UINT32 "NoRmpTableRequired" 1;
  bit UINT32 "EnlightenedSevSwap" 1;
  bit UINT32 "Reserved1" 7;
  bit UINT32 "PerfGlobalCtrl" 1;
  bit UINT32 "Reserved2" 31;
  fld UINT32 "ReservedEcx";
  fld UINT32 "ReservedEdx"].
Definition HV_HYPERVISOR_IPT_FEATURES : cty := struct 0 [
  bit UINT32 "ChainedToPA" 1;
  bit UINT32 "Enlightened" 1;
  bit UINT32 "Reserved0" 10;
  bit UINT32 "MaxTraceBufferSizePerVtl" 20;
  fld UINT32 "Reserved1";
  fld UINT32 "Reserved2";
  bit UINT32 "HypervisorIpt" 1;
  bit UINT32 "Reserved3" 31].
Definition HV_CPUID_RESULT_PRIVATE : cty := union 0 [
  fld HV_HYPERVISOR_FEATURES_PRIVATE "MsHvFeatures";
  fld HV_ENLIGHTENMENT_INFORMATION_PRIVATE "MsHvEnlightenmentInformation";
  fld HV_HYPERVISOR_HARDWARE_FEATURES_PRIVATE "MsHvHardwareFeatures";
  fld HV_HYPERVISOR_CPU_MANAGEMENT_FEATURES_PRIVATE "MsHvCpuManagementFeatures";
  fld HV_HYPERVISOR_PASID_FEATURES "MsHvPasidFeatures";
  fld HV_HYPERVISOR_ISOLATION_CONFIGURATION_PRIVATE "MsHvIsolationConfiguration";
  fld HV_HYPERVISOR_NESTED_VIRT_FEATURES_PRIVATE "MsHvNestedVirtFeatures";
  fld HV_HYPERVISOR_IPT_FEATURES "MsHvIptFeatures"].
Definition HV_LOGICAL_PROCESSOR_REGISTER_VALUE : cty := union 0 [
  fld HV_UINT128 "Reg128";
  fld UINT64 "Reg64";
  fld UINT32 "Reg32";
  fld UINT16 "Reg16";
  fld UINT8 "Reg8";
  fld HV_CPUID_RESULT "Cpuid"].
Definition HV_LOGICAL_PROCESSOR_REGISTER_ASSOC : cty := struct 0 [
  fld HV_LOGICAL_PROCESSOR_REGISTER_ID "Id";
  fld HV_LOGICAL_PROCESSOR_REGISTER_VALUE "Value"].
Definition HV_X64_SYNTHETIC_MSR_PRIVATE : enum := [
  Is "XbSyntheticMsrDebugOutput" 0x4000000a;
  Is "XbSyntheticMsrFlushTbThreshold" 0x4000000b;
  Is "XbSyntheticMsrOsFlavor" 0x4000000c;
  Is "XbSyntheticMsrOsFrameOffset" 0x4000000e;
  Is "XbSyntheticMsrClearSignaturePage" 0x40000018;
  Is "XbSyntheticMsrPauseElementsCount" 0x40000019;
  Is "XbSyntheticMsrTbFlushAll" 0x4000001a;
  Is "XbSyntheticMsrUtcFields" 0x40000045;
  Is "HvSyntheticMsrVpConfig" 0x40000117;
  Is "HvSyntheticMsrTscInvariantControl" 0x40000118;
  Is "XbSyntheticMsrBootInfo" 0x40000130].
Definition HV_X64_MSR_VP_INDEX : Z := enum_value HV_X64_SYNTHETIC_MSR "HvSyntheticMsrVpIndex".
Definition HV_X64_MSR_SYNMC_STATUS_CONTENTS : cty := union 0 [
  fld UINT64 "AsUINT64";
  fld (struct 0 [
    fld UINT16 "McaErrorCode";
    fld (union 0 [
      fld UINT16 "ModelSpecificErrorCode";
      fld (struct 0 [
        bit UINT16 "ErrorDetail" 14;
        bit UINT16 "HypervisorError" 1;
        bit UINT16 "SoftwareError" 1]) anonymous]) anonymous;
    fld (struct 0 [
      bit UINT32 "Reserved" 23;
      bit UINT32 "ActionRequired" 1;
      bit UINT32 "Signaling" 1;
      bit UINT32 "ContextCorrupt" 1;
      bit UINT32 "AddressValid" 1;
      bit UINT32 "MiscValid" 1;
      bit UINT32 "ErrorEnabled" 1;
      bit UINT32 "Uncorrected" 1;
      bit UINT32 "Overflow" 1;
      bit UINT32 "Valid" 1]) anonymous]) anonymous].
Definition HV_SYNMC_MCA_ERROR_CODE : Z := 0x0001.
Definition HV_X64_MSR_SYNMC_ADDR_CONTENTS : cty := UINT64.
Definition HV_X64_MSR_SYNMC_MISC_CONTENTS : cty := UINT64.
Definition HV_SYNMC_X64_EVENT : cty := struct 0 [
  fld HV_X64_MSR_SYNMC_STATUS_CONTENTS "Status";
  fld HV_X64_MSR_SYNMC_ADDR_CONTENTS "Addr";
  fld HV_X64_MSR_SYNMC_MISC_CONTENTS "Misc";
  fld HV_BOOLEAN "RipValid";
  fld HV_BOOLEAN "EipValid"].
Definition HV_X64_MSR_RESET : Z := enum_value HV_X64_SYNTHETIC_MSR "HvSyntheticMsrReset".
Definition HV_X64_MSR_RESET_CONTENTS : cty := union 0 [
  fld UINT64 "AsUINT64";
  fld (struct 0 [
    bit UINT64 "Reset" 1;
    bit UINT64 "ReservedZ" 63]) anonymous].
Definition HV_X64_MSR_VP_RUNTIME : Z := enum_value HV_X64_SYNTHETIC_MSR "HvSyntheticMsrVpRuntime".
Definition HV_X64_MSR_TIME_REF_COUNT : Z := enum_value HV_X64_SYNTHETIC_MSR "HvSyntheticMsrTimeRefCount".
Definition HV_X64_MSR_REFERENCE_TSC : Z := enum_value HV_X64_SYNTHETIC_MSR "HvSyntheticMsrReferenceTsc".
Definition HV_X64_MSR_REFERENCE_TSC_CONTENTS : cty := union 0 [
  fld UINT64 "AsUINT64";
  fld (struct 0 [
    bit UINT64 "Enable" 1;
    bit UINT64 "ReservedP" 11;
    bit UINT64 "GpaPageNumber" 52]) anonymous].
Definition HV_REFERENCE_TSC_SEQUENCE_INVALID : Z := 0x00000000.
Definition HV_REFERENCE_TSC_PAGE : cty := struct 0 [
  fld UINT32 "TscSequence";
  fld UINT32 "Reserved1";
  fld UINT64 "TscScale";
  fld INT64 "TscOffset";
  fld UINT64 "TimelineBias";
  fld UINT64 "TscMultiplier";
  fld (CArr UINT64 507) "Reserved2"].
Definition HV_X64_MSR_TSC_FREQUENCY : Z := enum_value HV_X64_SYNTHETIC_MSR "HvSyntheticMsrTscFrequency".
Definition HV_X64_MSR_APIC_FREQUENCY : Z := enum_value HV_X64_SYNTHETIC_MSR "HvSyntheticMsrApicFrequency".
Definition HV_X64_MSR_NPIEP_CONFIG : Z := enum_value HV_X64_SYNTHETIC_MSR "HvSyntheticMsrNpiepConfig".
Definition HV_X64_MSR_EOI : Z := enum_value HV_X64_SYNTHETIC_MSR "HvSyntheticMsrEoi".
Definition HV_X64_MSR_ICR : Z := enum_value HV_X64_SYNTHETIC_MSR "HvSyntheticMsrIcr".
Definition HV_X64_MSR_TPR : Z := enum_value HV_X64_SYNTHETIC_MSR "HvSyntheticMsrTpr".
Definition HV_X64_MSR_VP_ASSIST_PAGE : Z := enum_value HV_X64_SYNTHETIC_MSR "HvSyntheticMsrVpAssistPage".
Definition HV_VTL_ENTRY_REASON : enum := [
  Is "HvVtlEntryReserved" 0;
  Is "HvVtlEntryVtlCall" 1;
  Is "HvVtlEntryInterrupt" 2;
  Is "HvVtlEntryIntercept" 3].
Definition HV_VP_VTL_CONTROL : cty := struct 0 [
  fld (enum_type HV_VTL_ENTRY_REASON) "EntryReason";
  fld (union 0 [
    fld UINT8 "AsUINT8";
    fld (struct 0 [
      bit UINT8 "VinaAsserted" 1;
      bit UINT8 "VinaReservedZ" 7]) anonymous]) "VinaStatus";
  fld UINT8 "ReservedZ00";
  fld UINT16 "ReservedZ01";
  fld (union 0 [
    fld (struct 0 [
      fld UINT64 "VtlReturnX64Rax";
      fld UINT64 "VtlReturnX64Rcx"]) anonymous;
    fld (struct 0 [
      fld UINT32 "VtlReturnX86Eax";
      fld UINT32 "VtlReturnX86Ecx";
      fld UINT32 "VtlReturnX86Edx";
      fld UINT32 "ReservedZ1"]) anonymous]) anonymous].
Definition HV_NESTED_ENLIGHTENMENTS_CONTROL : cty := struct 0 [
  fld (union 0 [
    fld UINT32 "AsUINT32";
    fld (struct 0 [
      bit UINT32 "DirectHypercall" 1;
      bit UINT32 "VirtualizationException" 1;
      bit UINT32 "Reserved" 30]) anonymous]) "Features";
  fld (union 0 [
    fld UINT32 "AsUINT32";
    fld (struct 0 [
      bit UINT32 "InterPartitionCommunication" 1;
      bit UINT32 "Reserved" 31]) anonymous]) "HypercallControls"].
Definition HV_VIRTUALIZATION_FAULT_INFORMATION : cty := union 0 [
  fld (struct 0 [
    fld UINT16 "Parameter0";
    fld UINT16 "Reserved0";
    fld UINT32 "Code";
    fld UINT64 "Parameter1"]) anonymous;
  fld (struct 0 [
    fld (CArr UINT8 34) "VeInformationArea";
    fld (CArr UINT8 6) "Reserved1"]) anonymous].
Definition HV_MINIMAL_INTERCEPT_INFORMATION : cty := struct 0 [
  fld (enum_type HV_MESSAGE_TYPE) "MessageType"].
Definition HV_VP_ASSIST_PAGE : cty := union 0 [
  fld (struct 0 [
    fld HV_VIRTUAL_APIC_ASSIST "ApicAssist";
    fld UINT32 "ReservedZ0";
    fld HV_VP_VTL_CONTROL "VtlControl";
    fld HV_NESTED_ENLIGHTENMENTS_CONTROL "NestedEnlightenmentsControl";
    fld HV_BOOLEAN "EnlightenVmEntry";
    fld (CArr UINT8 7) "ReservedZ1";
    fld HV_GPA "CurrentNestedVmcs";
    fld HV_BOOLEAN "SyntheticTimeUnhaltedTimerExpired";
    fld (CArr UINT8 7) "ReservedZ2";
    fld HV_VIRTUALIZATION_FAULT_INFORMATION "VirtualizationFaultInformation";
    fld (CArr UINT8 8) "ReservedZ3";
    fld HV_MESSAGE "InterceptMessage";
    fld (CArr UINT8 256) "VtlReturnActions"]) anonymous;
  fld (CArr UINT8 HV_PAGE_SIZE) "ReservedZBytePadding";
  fld (struct 0 [
    fld (CArr UINT8 112) "Padding";
    fld HV_MINIMAL_INTERCEPT_INFORMATION "MinimalIntercept"]) anonymous].
Definition HV_REGISTER_VP_ASSIST_PAGE : cty := union 0 [
  fld UINT64 "AsUINT64";
  fld (struct 0 [
    bit UINT64 "Enable" 1;
    bit UINT64 "ReservedP" 11;
    bit UINT64 "GpaPageNumber" 52]) anonymous].
Definition HV_X64_MSR_SCONTROL : Z := enum_value HV_X64_SYNTHETIC_MSR "HvSyntheticMsrSControl".
Definition HV_X64_MSR_SVERSION : Z := enum_value HV_X64_SYNTHETIC_MSR "HvSyntheticMsrSVersion".
Definition HV_X64_MSR_SIEFP : Z := enum_value HV_X64_SYNTHETIC_MSR "HvSyntheticMsrSiefp".
Definition HV_X64_MSR_SIMP : Z := enum_value HV_X64_SYNTHETIC_MSR "HvSyntheticMsrSimp".
Definition HV_X64_MSR_EOM : Z := enum_value HV_X64_SYNTHETIC_MSR "HvSyntheticMsrEom".
Definition HV_X64_MSR_SIRBP : Z := enum_value HV_X64_SYNTHETIC_MSR "HvSyntheticMsrSirb".
Definition HV_X64_MSR_SINT0 : Z := enum_value HV_X64_SYNTHETIC_MSR "HvSyntheticMsrSint0".
Definition HV_X64_MSR_SINT1 : Z := enum_value HV_X64_SYNTHETIC_MSR "HvSyntheticMsrSint1".
Definition HV_X64_MSR_SINT2 : Z := enum_value HV_X64_SYNTHETIC_MSR "HvSyntheticMsrSint2".
Definition HV_X64_MSR_SINT3 : Z := enum_value HV_X64_SYNTHETIC_MSR "HvSyntheticMsrSint3".
Definition HV_X64_MSR_SINT4 : Z := enum_value HV_X64_SYNTHETIC_MSR "HvSyntheticMsrSint4".
Definition HV_X64_MSR_SINT5 : Z := enum_value HV_X64_SYNTHETIC_MSR "HvSyntheticMsrSint5".
Definition HV_X64_MSR_SINT6 : Z := enum_value HV_X64_SYNTHETIC_MSR "HvSyntheticMsrSint6".
Definition HV_X64_MSR_SINT7 : Z := enum_value HV_X64_SYNTHETIC_MSR "HvSyntheticMsrSint7".
Definition HV_X64_MSR_SINT8 : Z := enum_value HV_X64_SYNTHETIC_MSR "HvSyntheticMsrSint8".
Definition HV_X64_MSR_SINT9 : Z := enum_value HV_X64_SYNTHETIC_MSR "HvSyntheticMsrSint9".
Definition HV_X64_MSR_SINT10 : Z := enum_value HV_X64_SYNTHETIC_MSR "HvSyntheticMsrSint10".
Definition HV_X64_MSR_SINT11 : Z := enum_value HV_X64_SYNTHETIC_MSR "HvSyntheticMsrSint11".
Definition HV_X64_MSR_SINT12 : Z := enum_value HV_X64_SYNTHETIC_MSR "HvSyntheticMsrSint12".
Definition HV_X64_MSR_SINT13 : Z := enum_value HV_X64_SYNTHETIC_MSR "HvSyntheticMsrSint13".
Definition HV_X64_MSR_SINT14 : Z := enum_value HV_X64_SYNTHETIC_MSR "HvSyntheticMsrSint14".
Definition HV_X64_MSR_SINT15 : Z := enum_value HV_X64_SYNTHETIC_MSR "HvSyntheticMsrSint15".
Definition HV_SYNIC_SCONTROL : cty := union 0 [
  fld UINT64 "AsUINT64";
  fld (struct 0 [
    bit UINT64 "Enable" 1;
    bit UINT64 "Preserved" 63]) anonymous].
Definition HV_X64_MSR_STIMER0_CONFIG : Z := enum_value HV_X64_SYNTHETIC_MSR "HvSyntheticMsrSTimer0Config".
Definition HV_X64_MSR_STIMER0_COUNT : Z := enum_value HV_X64_SYNTHETIC_MSR "HvSyntheticMsrSTimer0Count".
Definition HV_X64_MSR_STIMER1_CONFIG : Z := enum_value HV_X64_SYNTHETIC_MSR "HvSyntheticMsrSTimer1Config".
Definition HV_X64_MSR_STIMER1_COUNT : Z := enum_value HV_X64_SYNTHETIC_MSR "HvSyntheticMsrSTimer1Count".
Definition HV_X64_MSR_STIMER2_CONFIG : Z := enum_value HV_X64_SYNTHETIC_MSR "HvSyntheticMsrSTimer2Config".
Definition HV_X64_MSR_STIMER2_COUNT : Z := enum_value HV_X64_SYNTHETIC_MSR "HvSyntheticMsrSTimer2Count".
Definition HV_X64_MSR_STIMER3_CONFIG : Z := enum_value HV_X64_SYNTHETIC_MSR "HvSyntheticMsrSTimer3Config".
Definition HV_X64_MSR_STIMER3_COUNT : Z := enum_value HV_X64_SYNTHETIC_MSR "HvSyntheticMsrSTimer3Count".
Definition HV_MSR_EOM : Z := HV_X64_MSR_EOM.
Definition HV_MSR_TIME_REF_COUNT : Z := HV_X64_MSR_TIME_REF_COUNT.
Definition HV_MSR_STIMER0_CONFIG : Z := HV_X64_MSR_STIMER0_CONFIG.
Definition HV_MSR_STIMER0_COUNT : Z := HV_X64_MSR_STIMER0_COUNT.
Definition HV_MSR_SIMP : Z := HV_X64_MSR_SIMP.
Definition HV_MSR_SINT0 : Z := HV_X64_MSR_SINT0.
Definition HV_X64_MSR_POWER_STATE_TRIGGER_C1 : Z := 0x400000c1.
Definition HV_X64_MSR_POWER_STATE_TRIGGER_C2 : Z := 0x400000c2.
Definition HV_X64_MSR_POWER_STATE_TRIGGER_C3 : Z := 0x400000c3.
Definition HV_X64_MSR_POWER_STATE_TRIGGER : cty := union 0 [
  fld UINT64 "AsUINT64";
  fld (struct 0 [
    fld UINT8 "IdleEntryCount";
    fld (CArr UINT8 3) "Reserved";
    bit UINT32 "Reserved2" 31;
    bit UINT32 "ActiveBM_STS" 1]) anonymous].
Definition HV_X64_MSR_POWER_STATE_CONFIG_C1 : Z := 0x400000d1.
Definition HV_X64_MSR_POWER_STATE_CONFIG_C2 : Z := 0x400000d2.
Definition HV_X64_MSR_POWER_STATE_CONFIG_C3 : Z := 0x400000d3.
Definition HV_X64_MSR_POWER_STATE_CONFIG : cty := union 0 [
  fld UINT64 "AsUINT64";
  fld (struct 0 [
    bit UINT64 "TypeSpecific" 52;
    bit UINT64 "ChangeType" 4;
    bit UINT64 "CheckBM_STS" 1;
    bit UINT64 "SetBM_RST" 1;
    bit UINT64 "ClearBM_RST" 1;
    bit UINT64 "SetARB_DIS" 1;
    bit UINT64 "ReservedZ" 4]) anonymous;
  fld (struct 0 [
    bit UINT64 "ReservedZ" 52]) "Hlt";
  fld (struct 0 [
    fld UINT16 "Port";
    fld UINT16 "ReservedZ1";
    bit UINT32 "ReservedZ2" 20]) "Io";
  fld (struct 0 [
    bit UINT64 "Address" 52]) "Memory";
  fld (struct 0 [
    fld UINT32 "Hints";
    bit UINT32 "BreakOnMaskedInterrupt" 1;
    bit UINT32 "ReservedZ" 19]) "Mwait"].
Definition HV_X64_MSR_STATS_PARTITION_RETAIL_PAGE : Z := 0x400000e0.
Definition HV_X64_MSR_STATS_PARTITION_INTERNAL_PAGE : Z := 0x400000e1.
Definition HV_X64_MSR_STATS_VP_RETAIL_PAGE : Z := 0x400000e2.
Definition HV_X64_MSR_STATS_VP_INTERNAL_PAGE : Z := 0x400000e3.
Definition HV_X64_MSR_GUEST_IDLE : Z := enum_value HV_X64_SYNTHETIC_MSR "HvSyntheticMsrGuestIdle".
Definition HV_X64_MSR_SYNTH_DEBUG_BUFFER_CONTENTS : cty := union 0 [
  fld UINT64 "AsUINT64";
  fld (struct 0 [
    bit UINT64 "ReservedZ0" 12;
    bit UINT64 "GpaPageNumber" 40;
    bit UINT64 "ReservedZ1" 11;
    bit UINT64 "Disabled" 1]) anonymous].
Definition HV_X64_MSR_CRASH_P0 : Z := enum_value HV_X64_SYNTHETIC_MSR "HvSyntheticMsrCrashP0".
Definition HV_X64_MSR_CRASH_P1 : Z := enum_value HV_X64_SYNTHETIC_MSR "HvSyntheticMsrCrashP1".
Definition HV_X64_MSR_CRASH_P2 : Z := enum_value HV_X64_SYNTHETIC_MSR "HvSyntheticMsrCrashP2".
Definition HV_X64_MSR_CRASH_P3 : Z := enum_value HV_X64_SYNTHETIC_MSR "HvSyntheticMsrCrashP3".
Definition HV_X64_MSR_CRASH_P4 : Z := enum_value HV_X64_SYNTHETIC_MSR "HvSyntheticMsrCrashP4".
Definition HV_X64_MSR_CRASH_CTL : Z := enum_value HV_X64_SYNTHETIC_MSR "HvSyntheticMsrCrashCtl".
Definition HV_X64_MSR_REENLIGHTENMENT_CONTROL : Z := enum_value HV_X64_SYNTHETIC_MSR "HvSyntheticMsrReenlightenmentControl".
Definition HV_X64_MSR_TSC_EMULATION_CONTROL : Z := enum_value HV_X64_SYNTHETIC_MSR "HvSyntheticMsrTscEmulationControl".
Definition HV_X64_MSR_TSC_EMULATION_STATUS : Z := enum_value HV_X64_SYNTHETIC_MSR "HvSyntheticMsrTscEmulationStatus".
Definition HV_REENLIGHTENMENT_CONTROL : cty := union 0 [
  fld UINT64 "AsUINT64";
  fld (struct 0 [
    bit UINT64 "Vector" 8;
    bit UINT64 "RsvdZ1" 8;
    bit UINT64 "Enabled" 1;
    bit UINT64 "RsvdZ2" 15;
    bit UINT64 "TargetVp" 32]) anonymous].
Definition HV_TSC_EMULATION_CONTROL : cty := union 0 [
  fld UINT64 "AsUINT64";
  fld (struct 0 [
    bit UINT64 "Enabled" 1;
    bit UINT64 "RsvdZ" 63]) anonymous].
Definition HV_TSC_EMULATION_STATUS : cty := union 0 [
  fld UINT64 "AsUINT64";
  fld (struct 0 [
    bit UINT64 "InProgress" 1;
    bit UINT64 "RsvdP1" 63]) anonymous].
Definition HV_X64_MSR_STIME_UNHALTED_TIMER_CONFIG : Z := enum_value HV_X64_SYNTHETIC_MSR "HvSyntheticMsrSTimeUnhaltedTimerConfig".
Definition HV_X64_MSR_STIME_UNHALTED_TIMER_COUNT : Z := enum_value HV_X64_SYNTHETIC_MSR "HvSyntheticMsrSTimeUnhaltedTimerCount".
Definition HV_X64_MSR_STIME_UNHALTED_TIMER_CONFIG_CONTENTS : cty := union 0 [
  fld UINT64 "AsUINT64";
  fld (struct 0 [
    bit UINT64 "Vector" 8;
    bit UINT64 "Enabled" 1;
    bit UINT64 "Reserved" 55]) anonymous].
Definition HV_MEMORY_ZEROING_CTRL_REG_CONTENTS : cty := union 0 [
  fld UINT64 "AsUINT64";
  fld (struct 0 [
    bit UINT64 "ZeroMemoryOnReset" 1;
    bit UINT64 "Reserved" 63]) anonymous].
Definition HV_REGISTER_VP_CONFIG : cty := union 0 [
  fld UINT64 "AsUINT64";
  fld (struct 0 [
    bit UINT64 "Reserved" 64]) anonymous].
Definition HV_X64_MSR_TSC_INVARIANT_CONTROL : Z := enum_value HV_X64_SYNTHETIC_MSR_PRIVATE "HvSyntheticMsrTscInvariantControl".
Definition HV_TSC_INVARIANT_CONTROL : cty := union 0 [
  fld UINT64 "AsUINT64";
  fld (struct 0 [
    bit UINT64 "Enabled" 1;
    bit UINT64 "RsvdZ" 63]) anonymous].
Definition HV_X64_MSR_NESTED_SCONTROL : Z := enum_value HV_X64_SYNTHETIC_MSR "HvSyntheticMsrNestedSControl".
Definition HV_X64_MSR_NESTED_SVERSION : Z := enum_value HV_X64_SYNTHETIC_MSR "HvSyntheticMsrNestedSVersion".
Definition HV_X64_MSR_NESTED_SIEFP : Z := enum_value HV_X64_SYNTHETIC_MSR "HvSyntheticMsrNestedSiefp".
Definition HV_X64_MSR_NESTED_SIMP : Z := enum_value HV_X64_SYNTHETIC_MSR "HvSyntheticMsrNestedSimp".
Definition HV_X64_MSR_NESTED_EOM : Z := enum_value HV_X64_SYNTHETIC_MSR "HvSyntheticMsrNestedEom".
Definition HV_X64_MSR_NESTED_SINT0 : Z := enum_value HV_X64_SYNTHETIC_MSR "HvSyntheticMsrNestedSint0".
Definition HV_X64_MSR_NESTED_SINT1 : Z := enum_value HV_X64_SYNTHETIC_MSR "HvSyntheticMsrNestedSint1".
Definition HV_X64_MSR_NESTED_SINT2 : Z := enum_value HV_X64_SYNTHETIC_MSR "HvSyntheticMsrNestedSint2".
Definition HV_X64_MSR_NESTED_SINT3 : Z := enum_value HV_X64_SYNTHETIC_MSR "HvSyntheticMsrNestedSint3".
Definition HV_X64_MSR_NESTED_SINT4 : Z := enum_value HV_X64_SYNTHETIC_MSR "HvSyntheticMsrNestedSint4".
Definition HV_X64_MSR_NESTED_SINT5 : Z := enum_value HV_X64_SYNTHETIC_MSR "HvSyntheticMsrNestedSint5".
Definition HV_X64_MSR_NESTED_SINT6 : Z := enum_value HV_X64_SYNTHETIC_MSR "HvSyntheticMsrNestedSint6".
Definition HV_X64_MSR_NESTED_SINT7 : Z := enum_value HV_X64_SYNTHETIC_MSR "HvSyntheticMsrNestedSint7".
Definition HV_X64_MSR_NESTED_SINT8 : Z := enum_value HV_X64_SYNTHETIC_MSR "HvSyntheticMsrNestedSint8".
Definition HV_X64_MSR_NESTED_SINT9 : Z := enum_value HV_X64_SYNTHETIC_MSR "HvSyntheticMsrNestedSint9".
Definition HV_X64_MSR_NESTED_SINT10 : Z := enum_value HV_X64_SYNTHETIC_MSR "HvSyntheticMsrNestedSint10".
Definition HV_X64_MSR_NESTED_SINT11 : Z := enum_value HV_X64_SYNTHETIC_MSR "HvSyntheticMsrNestedSint11".
Definition HV_X64_MSR_NESTED_SINT12 : Z := enum_value HV_X64_SYNTHETIC_MSR "HvSyntheticMsrNestedSint12".
Definition HV_X64_MSR_NESTED_SINT13 : Z := enum_value HV_X64_SYNTHETIC_MSR "HvSyntheticMsrNestedSint13".
Definition HV_X64_MSR_NESTED_SINT14 : Z := enum_value HV_X64_SYNTHETIC_MSR "HvSyntheticMsrNestedSint14".
Definition HV_X64_MSR_NESTED_SINT15 : Z := enum_value HV_X64_SYNTHETIC_MSR "HvSyntheticMsrNestedSint15".
Definition HV_NESTED_STATE_REGISTER : cty := union 0 [
  fld UINT64 "AsUINT64";
  fld (struct 0 [
    bit UINT64 "NestedVirtActive" 1;
    bit UINT64 "NestedGuestMode" 1;
    bit UINT64 "VmEntryPending" 1;
    bit UINT64 "Reserved" 61]) anonymous].

(** ** The records and enumerations of the file *)

Definition TlfsCpuid_types : list (string * cty) := [
  ("HV_X64_HYPERVISOR_FEATURES_PRIVATE", HV_X64_HYPERVISOR_FEATURES_PRIVATE);
  ("HV_X64_ENLIGHTENMENT_INFORMATION_PRIVATE", HV_X64_ENLIGHTENMENT_INFORMATION_PRIVATE);
  ("HV_X64_HYPERVISOR_HARDWARE_FEATURES_PRIVATE", HV_X64_HYPERVISOR_HARDWARE_FEATURES_PRIVATE);
  ("HV_X64_HYPERVISOR_CPU_MANAGEMENT_FEATURES_PRIVATE", HV_X64_HYPERVISOR_CPU_MANAGEMENT_FEATURES_PRIVATE);
  ("HV_HYPERVISOR_PASID_FEATURES", HV_HYPERVISOR_PASID_FEATURES);
  ("HV_HYPERVISOR_ISOLATION_CONFIGURATION_PRIVATE", HV_HYPERVISOR_ISOLATION_CONFIGURATION_PRIVATE);
  ("HV_HYPERVISOR_NESTED_VIRT_FEATURES_PRIVATE", HV_HYPERVISOR_NESTED_VIRT_FEATURES_PRIVATE);
  ("HV_HYPERVISOR_IPT_FEATURES", HV_HYPERVISOR_IPT_FEATURES);
  ("HV_CPUID_RESULT_PRIVATE", HV_CPUID_RESULT_PRIVATE);
  ("HV_LOGICAL_PROCESSOR_REGISTER_VALUE", HV_LOGICAL_PROCESSOR_REGISTER_VALUE);
  ("HV_LOGICAL_PROCESSOR_REGISTER_ASSOC", HV_LOGICAL_PROCESSOR_REGISTER_ASSOC);
  ("HV_X64_MSR_SYNMC_STATUS_CONTENTS", HV_X64_MSR_SYNMC_STATUS_CONTENTS);
  ("HV_SYNMC_X64_EVENT", HV_SYNMC_X64_EVENT);
  ("HV_X64_MSR_RESET_CONTENTS", HV_X64_MSR_RESET_CONTENTS);
  ("HV_X64_MSR_REFERENCE_TSC_CONTENTS", HV_X64_MSR_REFERENCE_TSC_CONTENTS);
  ("HV_REFERENCE_TSC_PAGE", HV_REFERENCE_TSC_PAGE);
  ("HV_VP_VTL_CONTROL", HV_VP_VTL_CONTROL);
  ("HV_NESTED_ENLIGHTENMENTS_CONTROL", HV_NESTED_ENLIGHTENMENTS_CONTROL);
  ("HV_VIRTUALIZATION_FAULT_INFORMATION", HV_VIRTUALIZATION_FAULT_INFORMATION);
  ("HV_MINIMAL_INTERCEPT_INFORMATION", HV_MINIMAL_INTERCEPT_INFORMATION);
  ("HV_VP_ASSIST_PAGE", HV_VP_ASSIST_PAGE);
  ("HV_REGISTER_VP_ASSIST_PAGE", HV_REGISTER_VP_ASSIST_PAGE);
  ("HV_SYNIC_SCONTROL", HV_SYNIC_SCONTROL);
  ("HV_X64_MSR_POWER_STATE_TRIGGER", HV_X64_MSR_POWER_STATE_TRIGGER);
  ("HV_X64_MSR_POWER_STATE_CONFIG", HV_X64_MSR_POWER_STATE_CONFIG);
  ("HV_X64_MSR_SYNTH_DEBUG_BUFFER_CONTENTS", HV_X64_MSR_SYNTH_DEBUG_BUFFER_CONTENTS);
  ("HV_REENLIGHTENMENT_CONTROL", HV_REENLIGHTENMENT_CONTROL);
  ("HV_TSC_EMULATION_CONTROL", HV_TSC_EMULATION_CONTROL);
  ("HV_TSC_EMULATION_STATUS", HV_TSC_EMULATION_STATUS);
  ("HV_X64_MSR_STIME_UNHALTED_TIMER_CONFIG_CONTENTS", HV_X64_MSR_STIME_UNHALTED_TIMER_CONFIG_CONTENTS);
  ("HV_MEMORY_ZEROING_CTRL_REG_CONTENTS", HV_MEMORY_ZEROING_CTRL_REG_CONTENTS);
  ("HV_REGISTER_VP_CONFIG", HV_REGISTER_VP_CONFIG);
  ("HV_TSC_INVARIANT_CONTROL", HV_TSC_INVARIANT_CONTROL);
  ("HV_NESTED_STATE_REGISTER", HV_NESTED_STATE_REGISTER)].
Definition TlfsCpuid_enums : list (string * enum) := [
  ("HV_CPUID_FUNCTION_PRIVATE", HV_CPUID_FUNCTION_PRIVATE);
  ("HV_HYPERVISOR_INTERFACE_PRIVATE", HV_HYPERVISOR_INTERFACE_PRIVATE);
  ("HV_SERVICE_BRANCH", HV_SERVICE_BRANCH);
  ("HV_X64_SYNTHETIC_MSR_PRIVATE", HV_X64_SYNTHETIC_MSR_PRIVATE);
  ("HV_VTL_ENTRY_REASON", HV_VTL_ENTRY_REASON)].
