(* ===== verification/TlfsCalls.v ===== *)
(** * The hypervisor specification: hypercalls

    The last part of [Mile.HyperV.TLFS.h]: the input and output structures of the
    hypercalls. *)

From S2P Require Import Prelude CLayout GuestInterface GuestProtocols TlfsBase TlfsState TlfsPartition TlfsSymbols TlfsCpuid.

Definition HV_X64_HYPERCALL_INPUT : cty := HV_HYPERCALL_INPUT.
Definition HV_X64_HYPERCALL_OUTPUT : cty := HV_HYPERCALL_OUTPUT.
Definition HV_HYPERCALL_INPUT_PRIVATE : cty := union 0 [
  fld UINT64 "AsUINT64";
  fld (struct 0 [
    bit UINT32 "CallCode" 14;
    bit UINT32 "IsIsolated" 1;
    bit UINT32 "IsExtended" 1;
    bit UINT32 "IsFast" 1;
    bit UINT32 "VariableHeaderSize" 9;
    bit UINT32 "Reserved1" 4;
    bit UINT32 "AddressesAreVirtual" 1;
    bit UINT32 "IsNested" 1;
    bit UINT32 "CountOfElements" 12;
    bit UINT32 "Reserved2" 4;
    bit UINT32 "RepStartIndex" 12;
    bit UINT32 "Reserved3" 4]) anonymous].
Definition HV_CALL_CODE_PRIVATE : enum := [
  Is "HvCallSyncContext" 0x0019;
  Is "HvCallSyncContextEx" 0x001a;
  Is "HvCallSetPerfRegister" 0x001b;
  Is "HvCallGetPerfRegister" 0x001c;
  Is "HvCallFlushCache" 0x001d;
  Is "HvCallLaunchHypervisor" 0x008f;
  Is "HvCallReserved0098" 0x0098;
  Is "HvCallSignalEventDirect" 0x00c0;
  Is "HvCallPostMessageDirect" 0x00c1;
  Is "HvCallReserved00d5" 0x00d5;
  Is "HvCallQueryDeviceInterruptTarget" 0x00e0;
  Is "HvCallMapVpStatePage" 0x00e1;
  Is "HvCallUnmapVpStatePage" 0x00e2;
  Is "HvCallGetVpState" 0x00e3;
  Is "HvCallSetVpState" 0x00e4;
  Is "HvCallGetVpSetFromMda" 0x00e5;
  Is "HvCallReserved00e6" 0x00e6;
  Is "HvCallCreateIptBuffers" 0x00e7;
  Is "HvCallDeleteIptBuffers" 0x00e8;
  Is "HvCallControlHypervisorIptTrace" 0x00e9;
  Is "HvCallReserveDeviceInterrupt" 0x00ea;
  Is "HvCallPersistDevice" 0x00eb;
  Is "HvCallUnpersistDevice" 0x00ec;
  Is "HvCallPersistDeviceInterrupt" 0x00ed;
  Is "HvCallRefreshPerformanceCounters" 0x00ee;
  Is "HvCallImportIsolatedPages" 0x00ef;
  Is "HvCallReserved00f0" 0x00f0;
  Is "HvCallCompleteIsolatedImport" 0x00f1;
  Is "HvCallIssueSnpPspGuestRequest" 0x00f2;
  Is "HvCallRootSignalEvent" 0x00f3;
  Is "HvCallGetVpCpuidValues" 0x00f4;
  Is "HvCallReadSystemMemory" 0x00f5;
  Is "HvCallSetHwWatchdogConfig" 0x00f6;
  Is "HvCallRemovePhysicalMemory" 0x00f7;
  Is "HvCallLogHypervisorSystemConfig" 0x00f8;
  Is "HvCallIssueNestedSnpPspRequests" 0x00f9;
  Is "HvCallReserved00fa" 0x00fa;
  Is "HvCallSubsumeInitializedMemory" 0x00fb;
  Is "HvCallSubsumeVp" 0x00fc;
  Is "HvCallDestroySubsumedContext" 0x00fd;
  Is "HvCallWriteSysDiagEvent" 0x00fe;
  Is "HvCallDepositMemoryMirroring" 0x00ff;
  Is "HvCallSetDeviceCapabilities" 0x0100;
  Is "HvCallGetPartitionPropertyEx" 0x0101;
  Is "HvCallGetGpaRangesAccessState" 0x0102;
  Is "HvCallRestorePartitionTime" 0x0103;
  Is "HvCallQueryAssociatedLpsForMcaEx" 0x0104;
  Is "HvCallQueryPartitionReservedPages" 0x0105;
  Is "HvCallMemoryMappedIoRead" 0x0106;
  Is "HvCallMemoryMappedIoWrite" 0x0107;
  Is "HvCallMapDmaRange" 0x0108;
  Is "HvCallUnmapDmaRange" 0x0109;
  Is "HvCallSetPartitionPropertyEx" 0x010a;
  Is "HvCallAttachDevicePrQueue" 0x010b;
  Is "HvCallDetachDevicePrQueue" 0x010c;
  Is "HvCallReserveDeviceDomainAttachment" 0x010d;
  Is "HvCallUnreserveDeviceDomainAttachment" 0x010e;
  Is "HvCallDisableHypervisorEx" 0x010f;
  Is "HvCallInstallInterceptEx" 0x0110;
  Is "HvCallMapVpStatePageEx" 0x0111;
  Is "HvCallPinGpaPageRanges" 0x0112;
  Is "HvCallUnpinGpaPageRanges" 0x0113;
  Is "HvCallWakeVps" 0x0114;
  Is "HvCallSetCpuGroupAffinity" 0x0115;
  Is "HvCallMapPartitionEventLogBuffer" 0x0116;
  Next "HvCallPrivateCount"].
Definition HV_INPUT_FLUSH_VIRTUAL_ADDRESS_SPACE : cty := aligned HV_CALL_ALIGNMENT (struct 0 [
  fld HV_INPUT_FLUSH_VIRTUAL_ADDRESS_SPACE_HEADER "Header"]).
Definition HV_INPUT_FLUSH_VIRTUAL_ADDRESS_LIST : cty := aligned HV_CALL_ALIGNMENT (struct 0 [
  fld HV_INPUT_FLUSH_VIRTUAL_ADDRESS_SPACE_HEADER "Header";
  fld (CArr HV_GVA 0) "GvaList"]).
Definition HV_INPUT_GET_LOGICAL_PROCESSOR_RUN_TIME : cty := aligned HV_CALL_ALIGNMENT (struct 0 [
  fld HV_LOGICAL_PROCESSOR_INDEX "LpIndex"]).
Definition HV_OUTPUT_GET_LOGICAL_PROCESSOR_RUN_TIME : cty := aligned HV_CALL_ALIGNMENT (struct 0 [
  fld HV_NANO100_TIME "GlobalTime";
  fld HV_NANO100_TIME "LocalRunTime";
  fld UINT64 "RsvdZ";
  fld HV_NANO100_TIME "HypervisorTime"]).
Definition HV_INPUT_UPDATE_PROCESSOR_FEATURES : cty := aligned HV_CALL_ALIGNMENT (struct 0 [
  fld UINT32 "Property";
  fld UINT32 "RsvdZ";
  fld UINT64 "Value"]).
Definition HV_INPUT_NOTIFY_LONG_SPINWAIT : cty := aligned HV_CALL_ALIGNMENT (struct 0 [
  fld UINT64 "InitialLongSpinWait"]).
Definition HV_INPUT_PARK_LOGICAL_PROCESSORS : cty := aligned HV_CALL_ALIGNMENT (struct 0 [
  fld UINT64 "ProcessorMask"]).
Definition HV_INPUT_PARKED_VIRTUAL_PROCESSORS : cty := aligned HV_CALL_ALIGNMENT (struct 0 [
  fld HV_GENERIC_SET "ProcessorSet"]).
Definition HV_DEBUG_INVOKE_REASON_CLOCK_WATCHDOG : Z := 0x01.
Definition HV_DEBUG_INVOKE_REASON_DPC_WATCHDOG : Z := 0x02.
Definition HV_DEBUG_INVOKE_REASON_DPC_TIMEOUT : Z := 0x03.
Definition HV_INPUT_INVOKE_HYPERVISOR_DEBUGGER : cty := aligned HV_CALL_ALIGNMENT (struct 0 [
  fld UINT64 "Reason";
  fld UINT64 "SupplementalCode"]).
Definition HV_INPUT_SEND_SYNTHETIC_CLUSTER_IPI : cty := aligned HV_CALL_ALIGNMENT (struct 0 [
  fld HV_INTERRUPT_VECTOR "Vector";
  fld HV_INPUT_VTL "TargetVtl";
  fld UINT8 "RsvdZ0";
  fld UINT16 "RsvdZ1";
  fld UINT64 "ProcessorMask"]).
Definition HV_INPUT_MODIFY_VTL_PROTECTION_MASK : cty := aligned HV_CALL_ALIGNMENT (struct 0 [
  fld HV_PARTITION_ID "TargetPartitionId";
  fld HV_MAP_GPA_FLAGS "MapFlags";
  fld HV_INPUT_VTL "TargetVtl";
  fld UINT8 "RsvdZ8";
  fld UINT16 "RsvdZ16";
  fld (CArr HV_GPA_PAGE_NUMBER 0) "GpaPageList"]).
Definition HV_ENABLE_PARTITION_VTL_FLAGS : cty := union 0 [
  fld UINT8 "AsUINT8";
  fld (struct 0 [
    bit UINT8 "EnableMbec" 1;
    bit UINT8 "EnableSupervisorShadowStack" 1;
    bit UINT8 "EnableHardwareHvpt" 1;
    bit UINT8 "Reserved" 5]) anonymous].
Definition HV_INPUT_ENABLE_PARTITION_VTL : cty := aligned HV_CALL_ALIGNMENT (struct 0 [
  fld HV_PARTITION_ID "TargetPartitionId";
  fld HV_VTL "TargetVtl";
  fld HV_ENABLE_PARTITION_VTL_FLAGS "Flags";
  fld UINT16 "ReservedZ0";
  fld UINT32 "ReservedZ1"]).
Definition HV_DISABLE_PARTITION_VTL_FLAGS : cty := union 0 [
  fld UINT8 "AsUINT8";
  fld (struct 0 [
    bit UINT8 "ScrubOnly" 1;
    bit UINT8 "Reserved" 7]) anonymous].
Definition HV_INPUT_DISABLE_PARTITION_VTL : cty := aligned HV_CALL_ALIGNMENT (struct 0 [
  fld HV_PARTITION_ID "PartitionId";
  fld HV_VTL "TargetVtl";
  fld HV_DISABLE_PARTITION_VTL_FLAGS "Flags";
  fld UINT16 "ReservedZ0";
  fld UINT32 "ReservedZ1"]).
Definition HV_INPUT_ENABLE_VP_VTL : cty := aligned HV_CALL_ALIGNMENT (struct 0 [
  fld HV_PARTITION_ID "PartitionId";
  fld HV_VP_INDEX "VpIndex";
  fld HV_VTL "TargetVtl";
  fld UINT8 "ReservedZ0";
  fld UINT16 "ReservedZ1";
  fld HV_INITIAL_VP_CONTEXT "VpVtlContext"]).
Definition HV_DISABLE_VP_VTL_FLAGS : cty := union 0 [
  fld UINT8 "AsUINT8";
  fld (struct 0 [
    bit UINT8 "ScrubOnly" 1;
    bit UINT8 "Reserved" 7]) anonymous].
Definition HV_INPUT_DISABLE_VP_VTL : cty := aligned HV_CALL_ALIGNMENT (struct 0 [
  fld HV_PARTITION_ID "PartitionId";
  fld HV_VP_INDEX "VpIndex";
  fld HV_VTL "TargetVtl";
  fld HV_DISABLE_VP_VTL_FLAGS "Flags";
  fld UINT16 "ReservedZ0"]).
Definition HV_INPUT_FLUSH_VIRTUAL_ADDRESS_SPACE_EX : cty := aligned HV_CALL_ALIGNMENT (struct 0 [
  fld HV_INPUT_FLUSH_VIRTUAL_ADDRESS_SPACE_HEADER_EX "Header"]).
Definition HV_INPUT_FLUSH_VIRTUAL_ADDRESS_LIST_EX : cty := aligned HV_CALL_ALIGNMENT (struct 0 [
  fld HV_INPUT_FLUSH_VIRTUAL_ADDRESS_SPACE_HEADER_EX "Header"]).
Definition HV_INPUT_SEND_SYNTHETIC_CLUSTER_IPI_EX : cty := aligned HV_CALL_ALIGNMENT (struct 0 [
  fld HV_INTERRUPT_VECTOR "Vector";
  fld HV_INPUT_VTL "TargetVtl";
  fld UINT8 "RsvdZ0";
  fld UINT16 "RsvdZ1";
  fld HV_GENERIC_SET "ProcessorSet"]).
Definition HV_SLOT_TRAITS : cty := struct 0 [
  fld UINT64 "StartVa";
  fld UINT32 "Size";
  bit UINT32 "IsPrimarySlot" 1;
  bit UINT32 "IsSlotActive" 1;
  bit UINT32 "IsSlotCommitted" 1;
  bit UINT32 "ReservedZ0" 29;
  fld UINT32 "Checksum";
  fld UINT32 "Timestamp"].
Definition HV_MODULE_TRAITS : cty := struct 0 [
  fld (CArr HV_WCHAR 8) "ModuleName";
  fld (CArr HV_SLOT_TRAITS 3) "SlotTraits"].
Definition HV_GPA_PAGE_PERMISSION : cty := union 0 [
  fld UINT64 "AsUINT64";
  fld (struct 0 [
    bit UINT64 "Valid" 1;
    bit UINT64 "Writable" 1;
    bit UINT64 "Executable" 1;
    bit UINT64 "ReservedZ0" 9;
    bit UINT64 "GpaPage" 40;
    bit UINT64 "ReservedZ1" 12]) anonymous].
Definition HV_INPUT_QUERY_IMAGE_INFO : cty := aligned HV_CALL_ALIGNMENT (struct 0 [
  fld (enum_type HV_IMAGE_QUERY_TYPE) "QueryType";
  fld UINT32 "ReservedZ0";
  fld (union 0 [
    fld UINT64 "ModuleIndex";
    fld (struct 0 [
      bit UINT64 "ModuleIndex" 4;
      bit UINT64 "SlotIndex" 2;
      bit UINT64 "PageCount" 16;
      bit UINT64 "ReservedZ0" 42;
      fld UINT64 "StartVa"]) "Mapping"]) anonymous]).
Definition HV_OUTPUT_QUERY_IMAGE_INFO : cty := aligned HV_CALL_ALIGNMENT (union 0 [
  fld UINT32 "ModuleCount";
  fld HV_MODULE_TRAITS "ModuleTraits";
  fld (CArr HV_GPA_PAGE_PERMISSION 512) "GpaPagePerm"]).
Definition HV_VA_PERMISSION : cty := union 0 [
  fld UINT64 "AsUINT64";
  fld (struct 0 [
    bit UINT64 "Valid" 1;
    bit UINT64 "Writable" 1;
    bit UINT64 "Executable" 1;
    bit UINT64 "ReservedZ0" 9;
    bit UINT64 "VirtualPageFrame" 52]) anonymous].
Definition HV_INPUT_MAP_IMAGE_PAGES : cty := aligned HV_CALL_ALIGNMENT (struct 0 [
  bit UINT64 "ModuleIndex" 4;
  bit UINT64 "SlotIndex" 2;
  bit UINT64 "ReservedZ0" 58;
  fld (CArr HV_VA_PERMISSION 0) "VirtualPageFramePerm"]).
Definition HV_INPUT_COMMIT_PATCH : cty := aligned HV_CALL_ALIGNMENT (struct 0 [
  bit UINT64 "ModuleIndex" 4;
  bit UINT64 "SlotIndex" 2;
  bit UINT64 "UseTargetPatch" 1;
  bit UINT64 "ReservedZ0" 57;
  fld UINT64 "PatchRoutineVa";
  fld HV_MEMORY_DESCRIPTOR "Descriptor"]).
Definition HV_INPUT_SYNC_CONTEXT : cty := aligned HV_CALL_ALIGNMENT (struct 0 [
  fld UINT64 "Flags";
  fld UINT64 "ProcessorMask"]).
Definition HV_INPUT_SYNC_CONTEXT_EX : cty := aligned HV_CALL_ALIGNMENT (struct 0 [
  fld UINT64 "Flags";
  fld HV_GENERIC_SET "ProcessorSet"]).
Definition HV_INPUT_SET_PERF_REGISTER : cty := aligned HV_CALL_ALIGNMENT (struct 0 [
  fld UINT32 "ProcessorIndex";
  fld HV_PPM_PERF_STATE_REGISTER "Register";
  fld UINT64 "PreserveMask";
  fld UINT64 "Value"]).
Definition HV_INPUT_GET_PERF_REGISTER : cty := aligned HV_CALL_ALIGNMENT (struct 0 [
  fld UINT32 "ProcessorIndex";
  fld HV_PPM_PERF_STATE_REGISTER "Register"]).
Definition HV_OUTPUT_GET_PERF_REGISTER : cty := aligned HV_CALL_ALIGNMENT (struct 0 [
  fld UINT64 "Value"]).
Definition HV_INPUT_CREATE_PARTITION_V1 : cty := aligned HV_CALL_ALIGNMENT (struct 0 [
  fld UINT64 "Flags";
  fld HV_PROXIMITY_DOMAIN_INFO "ProximityDomainInfo";
  fld (enum_type HV_COMPATIBILITY_VERSION) "CompatibilityVersion";
  fld HV_PARTITION_CREATION_PROPERTIES_V1 "V1Properties"]).
Definition HV_INPUT_CREATE_PARTITION_V2 : cty := aligned HV_CALL_ALIGNMENT (struct 0 [
  fld UINT64 "Flags";
  fld HV_PROXIMITY_DOMAIN_INFO "ProximityDomainInfo";
  fld (enum_type HV_COMPATIBILITY_VERSION) "CompatibilityVersion";
  fld HV_PARTITION_CREATION_PROPERTIES_V2 "Properties"]).
Definition HV_INPUT_CREATE_PARTITION : cty := aligned HV_CALL_ALIGNMENT (struct 0 [
  fld UINT64 "Flags";
  fld HV_PROXIMITY_DOMAIN_INFO "ProximityDomainInfo";
  fld (enum_type HV_COMPATIBILITY_VERSION) "CompatibilityVersion";
  fld HV_PARTITION_CREATION_PROPERTIES "PartitionCreationProperties";
  fld HV_PARTITION_ISOLATION_PROPERTIES "IsolationProperties"]).
Definition HV_OUTPUT_CREATE_PARTITION : cty := aligned HV_CALL_ALIGNMENT (struct 0 [
  fld HV_PARTITION_ID "NewPartitionId"]).
Definition HV_INPUT_INITIALIZE_PARTITION : cty := aligned HV_CALL_ALIGNMENT (struct 0 [
  fld HV_PARTITION_ID "PartitionId"]).
Definition HV_INPUT_FINALIZE_PARTITION : cty := aligned HV_CALL_ALIGNMENT (struct 0 [
  fld HV_PARTITION_ID "PartitionId"]).
Definition HV_INPUT_DELETE_PARTITION : cty := aligned HV_CALL_ALIGNMENT (struct 0 [
  fld HV_PARTITION_ID "PartitionId"]).
Definition HV_INPUT_GET_PARTITION_PROPERTY : cty := aligned HV_CALL_ALIGNMENT (struct 0 [
  fld HV_PARTITION_ID "PartitionId";
  fld (enum_type HV_PARTITION_PROPERTY_CODE) "PropertyCode"]).
Definition HV_OUTPUT_GET_PARTITION_PROPERTY : cty := aligned HV_CALL_ALIGNMENT (struct 0 [
  fld HV_PARTITION_PROPERTY "PropertyValue"]).
Definition HV_INPUT_SET_PARTITION_PROPERTY : cty := aligned HV_CALL_ALIGNMENT (struct 0 [
  fld HV_PARTITION_ID "PartitionId";
  fld (enum_type HV_PARTITION_PROPERTY_CODE) "PropertyCode";
  fld HV_PARTITION_PROPERTY "PropertyValue"]).
Definition HV_OUTPUT_GET_PARTITION_ID : cty := aligned HV_CALL_ALIGNMENT (struct 0 [
  fld HV_PARTITION_ID "PartitionId"]).
Definition HV_INPUT_GET_NEXT_CHILD_PARTITION : cty := aligned HV_CALL_ALIGNMENT (struct 0 [
  fld HV_PARTITION_ID "ParentId";
  fld HV_PARTITION_ID "PreviousChildId"]).
Definition HV_OUTPUT_GET_NEXT_CHILD_PARTITION : cty := aligned HV_CALL_ALIGNMENT (struct 0 [
  fld HV_PARTITION_ID "NextChildId"]).
Definition HV_INPUT_DEPOSIT_MEMORY : cty := aligned HV_CALL_ALIGNMENT (struct 0 [
  fld HV_PARTITION_ID "PartitionId";
  fld (CArr HV_GPA_PAGE_NUMBER 0) "GpaPageList"]).
Definition HV_INPUT_WITHDRAW_MEMORY : cty := aligned HV_CALL_ALIGNMENT (struct 0 [
  fld HV_PARTITION_ID "PartitionId";
  fld HV_PROXIMITY_DOMAIN_INFO "ProximityDomainInfo"]).
Definition HV_OUTPUT_WITHDRAW_MEMORY : cty := aligned HV_CALL_ALIGNMENT (struct 0 [
  fld (CArr HV_GPA_PAGE_NUMBER HV_ANYSIZE_ARRAY) "GpaPageList"]).
Definition HV_INPUT_GET_MEMORY_BALANCE : cty := aligned HV_CALL_ALIGNMENT (struct 0 [
  fld HV_PARTITION_ID "PartitionId";
  fld HV_PROXIMITY_DOMAIN_INFO "ProximityDomainInfo"]).
Definition HV_OUTPUT_GET_MEMORY_BALANCE : cty := aligned HV_CALL_ALIGNMENT (struct 0 [
  fld UINT64 "PagesAvailable";
  fld UINT64 "PagesInUse"]).
Definition HV_INPUT_MAP_GPA_PAGES : cty := aligned HV_CALL_ALIGNMENT (struct 0 [
  fld HV_PARTITION_ID "TargetPartitionId";
  fld HV_GPA_PAGE_NUMBER "TargetGpaBase";
  fld HV_MAP_GPA_FLAGS "MapFlags";
  fld (CArr HV_GPA_PAGE_NUMBER 0) "SourceGpaPageList"]).
Definition HV_INPUT_UNMAP_GPA_PAGES : cty := aligned HV_CALL_ALIGNMENT (struct 0 [
  fld HV_PARTITION_ID "TargetPartitionId";
  fld HV_GPA_PAGE_NUMBER "TargetGpaBase";
  fld UINT32 "UnmapFlags"]).
Definition HV_INPUT_INSTALL_INTERCEPT : cty := aligned HV_CALL_ALIGNMENT (struct 0 [
  fld HV_PARTITION_ID "PartitionId";
  fld HV_INTERCEPT_ACCESS_TYPE_MASK "AccessType";
  fld (enum_type HV_INTERCEPT_TYPE) "InterceptType";
  fld HV_INTERCEPT_PARAMETERS "InterceptParameter"]).
Definition HV_INPUT_CREATE_VP_V1 : cty := aligned HV_CALL_ALIGNMENT (struct 0 [
  fld HV_PARTITION_ID "PartitionId";
  fld HV_VP_INDEX "VpIndex";
  fld UINT32 "Padding";
  fld HV_PROXIMITY_DOMAIN_INFO "ProximityDomainInfo";
  fld UINT64 "Flags"]).
Definition HV_INPUT_CREATE_VP : cty := aligned HV_CALL_ALIGNMENT (struct 0 [
  fld HV_PARTITION_ID "PartitionId";
  fld HV_VP_INDEX "VpIndex";
  fld (CArr UINT8 3) "Padding";
  fld UINT8 "SubnodeType";
  fld UINT64 "SubnodeId";
  fld HV_PROXIMITY_DOMAIN_INFO "ProximityDomainInfo";
  fld UINT64 "Flags"]).
Definition HV_INPUT_DELETE_VP : cty := aligned HV_CALL_ALIGNMENT (struct 0 [
  fld HV_PARTITION_ID "PartitionId";
  fld HV_VP_INDEX "VpIndex"]).
Definition HV_INPUT_GET_VP_REGISTERS : cty := aligned HV_CALL_ALIGNMENT (struct 0 [
  fld HV_PARTITION_ID "PartitionId";
  fld HV_VP_INDEX "VpIndex";
  fld HV_INPUT_VTL "InputVtl";
  fld UINT8 "RsvdZ8";
  fld UINT16 "RsvdZ16";
  fld (CArr (enum_type HV_REGISTER_NAME) 0) "Names"]).
Definition HV_OUTPUT_GET_VP_REGISTERS : cty := aligned 16 (struct 0 [
  fld (CArr HV_REGISTER_VALUE HV_ANYSIZE_ARRAY) "Values"]).
Definition HV_REGISTER_ASSOC : cty := struct 0 [
  fld (enum_type HV_REGISTER_NAME) "Name";
  fld UINT32 "Reserved1";
  fld UINT64 "Reserved2";
  fld HV_REGISTER_VALUE "Value"].
Definition HV_INPUT_SET_VP_REGISTERS : cty := aligned 16 (struct 0 [
  fld HV_PARTITION_ID "PartitionId";
  fld HV_VP_INDEX "VpIndex";
  fld HV_INPUT_VTL "InputVtl";
  fld UINT8 "RsvdZ8";
  fld UINT16 "RsvdZ16";
  fld (CArr HV_REGISTER_ASSOC 0) "Elements"]).
Definition HV_INPUT_TRANSLATE_VIRTUAL_ADDRESS : cty := aligned HV_CALL_ALIGNMENT (struct 0 [
  fld HV_PARTITION_ID "PartitionId";
  fld HV_VP_INDEX "VpIndex";
  fld HV_TRANSLATE_GVA_CONTROL_FLAGS "ControlFlags";
  fld HV_GVA_PAGE_NUMBER "GvaPage"]).
Definition HV_OUTPUT_TRANSLATE_VIRTUAL_ADDRESS : cty := aligned HV_CALL_ALIGNMENT (struct 0 [
  fld HV_TRANSLATE_GVA_RESULT "TranslationResult";
  fld HV_GPA_PAGE_NUMBER "GpaPage"]).
Definition HV_INPUT_READ_GPA : cty := aligned HV_CALL_ALIGNMENT (struct 0 [
  fld HV_PARTITION_ID "PartitionId";
  fld HV_VP_INDEX "VpIndex";
  fld UINT32 "ByteCount";
  fld HV_GPA "BaseGpa";
  fld HV_ACCESS_GPA_CONTROL_FLAGS "ControlFlags"]).
Definition HV_OUTPUT_READ_GPA : cty := aligned HV_CALL_ALIGNMENT (struct 0 [
  fld HV_ACCESS_GPA_RESULT "AccessResult";
  fld (CArr UINT8 16) "Data"]).
Definition HV_INPUT_WRITE_GPA : cty := aligned HV_CALL_ALIGNMENT (struct 0 [
  fld HV_PARTITION_ID "PartitionId";
  fld HV_VP_INDEX "VpIndex";
  fld UINT32 "ByteCount";
  fld HV_GPA "BaseGpa";
  fld HV_ACCESS_GPA_CONTROL_FLAGS "ControlFlags";
  fld (CArr UINT8 16) "Data"]).
Definition HV_OUTPUT_WRITE_GPA : cty := aligned HV_CALL_ALIGNMENT (struct 0 [
  fld HV_ACCESS_GPA_RESULT "AccessResult"]).
Definition HV_INPUT_ASSERT_VIRTUAL_INTERRUPT_DEPRECATED : cty := aligned HV_CALL_ALIGNMENT (struct 0 [
  fld HV_PARTITION_ID "TargetPartition";
  fld HV_INTERRUPT_CONTROL "InterruptControl";
  fld UINT64 "DestinationAddress";
  fld HV_INTERRUPT_VECTOR "RequestedVector";
  fld UINT32 "Reserved"]).
Definition HV_INPUT_CLEAR_VIRTUAL_INTERRUPT : cty := aligned HV_CALL_ALIGNMENT (struct 0 [
  fld HV_PARTITION_ID "TargetPartition"]).
Definition HV_INPUT_CREATE_PORT_DEPRECATED : cty := aligned HV_CALL_ALIGNMENT (struct 0 [
  fld HV_PARTITION_ID "PortPartition";
  fld HV_PORT_ID "PortId";
  fld UINT32 "Padding";
  fld HV_PARTITION_ID "ConnectionPartition";
  fld HV_PORT_INFO "PortInfo"]).
Definition HV_INPUT_DELETE_PORT : cty := aligned HV_CALL_ALIGNMENT (struct 0 [
  fld HV_PARTITION_ID "PortPartition";
  fld HV_PORT_ID "PortId";
  fld UINT32 "Reserved"]).
Definition HV_INPUT_CONNECT_PORT_DEPRECATED : cty := aligned HV_CALL_ALIGNMENT (struct 0 [
  fld HV_PARTITION_ID "ConnectionPartition";
  fld HV_CONNECTION_ID "ConnectionId";
  fld UINT32 "Reserved1";
  fld HV_PARTITION_ID "PortPartition";
  fld HV_PORT_ID "PortId";
  fld UINT32 "Reserved2";
  fld HV_CONNECTION_INFO "ConnectionInfo"]).
Definition HV_INPUT_GET_PORT_PROPERTY : cty := aligned HV_CALL_ALIGNMENT (struct 0 [
  fld HV_PARTITION_ID "PortPartition";
  fld HV_PORT_ID "PortId";
  fld UINT32 "Reserved";
  fld (enum_type HV_PORT_PROPERTY_CODE) "PropertyCode"]).
Definition HV_OUTPUT_GET_PORT_PROPERTY : cty := aligned HV_CALL_ALIGNMENT (struct 0 [
  fld HV_PORT_PROPERTY "PropertyValue"]).
Definition HV_INPUT_DISCONNECT_PORT : cty := aligned HV_CALL_ALIGNMENT (struct 0 [
  fld HV_PARTITION_ID "ConnectionPartition";
  fld HV_CONNECTION_ID "ConnectionId";
  bit UINT32 "IsDoorbell" 1;
  bit UINT32 "Reserved" 31]).
Definition HV_INPUT_SAVE_PARTITION_STATE : cty := aligned HV_CALL_ALIGNMENT (struct 0 [
  fld HV_PARTITION_ID "PartitionId";
  fld HV_SAVE_RESTORE_STATE_FLAGS "Flags"]).
Definition HV_OUTPUT_SAVE_PARTITION_STATE : cty := aligned HV_CALL_ALIGNMENT (struct 0 [
  fld UINT32 "SaveDataCount";
  fld (enum_type HV_SAVE_RESTORE_STATE_RESULT) "SaveState";
  fld (CArr UINT8 4080) "SaveData"]).
Definition HV_INPUT_RESTORE_PARTITION_STATE : cty := aligned HV_CALL_ALIGNMENT (struct 0 [
  fld HV_PARTITION_ID "PartitionId";
  fld HV_SAVE_RESTORE_STATE_FLAGS "Flags";
  fld UINT32 "RestoreDataCount";
  fld (CArr UINT8 4080) "RestoreData"]).
Definition HV_OUTPUT_RESTORE_PARTITION_STATE : cty := aligned HV_CALL_ALIGNMENT (struct 0 [
  fld (enum_type HV_SAVE_RESTORE_STATE_RESULT) "RestoreState";
  fld UINT32 "RestoreDataConsumed"]).
Definition HV_EVENTLOG_INIT_TYPE : cty := struct 0 [
  fld UINT16 "EventLogType";
  fld UINT16 "EventLogMode"].
Definition HV_INPUT_INITIALIZE_EVENTLOG_BUFFER_GROUP : cty := aligned HV_CALL_ALIGNMENT (struct 0 [
  fld HV_EVENTLOG_INIT_TYPE "EventLogInitType";
  fld UINT32 "MaximumBufferCount";
  fld UINT32 "BufferSizeInPages";
  fld UINT32 "Threshold";
  fld (enum_type HV_EVENTLOG_ENTRY_TIME_BASIS) "TimeBasis";
  fld HV_NANO100_TIME "SystemTime"]).
Definition HV_INPUT_FINALIZE_EVENTLOG_BUFFER_GROUP : cty := aligned HV_CALL_ALIGNMENT (struct 0 [
  fld (enum_type HV_EVENTLOG_TYPE) "EventLogType"]).
Definition HV_INPUT_CREATE_EVENTLOG_BUFFER : cty := aligned HV_CALL_ALIGNMENT (struct 0 [
  fld (enum_type HV_EVENTLOG_TYPE) "EventLogType";
  fld HV_EVENTLOG_BUFFER_INDEX "BufferIndex";
  fld HV_PROXIMITY_DOMAIN_INFO "ProximityInfo"]).
Definition HV_INPUT_DELETE_EVENTLOG_BUFFER : cty := aligned HV_CALL_ALIGNMENT (struct 0 [
  fld (enum_type HV_EVENTLOG_TYPE) "EventLogType";
  fld HV_EVENTLOG_BUFFER_INDEX "BufferIndex"]).
Definition HV_INPUT_MAP_EVENTLOG_BUFFER : cty := aligned HV_CALL_ALIGNMENT (struct 0 [
  fld (enum_type HV_EVENTLOG_TYPE) "EventLogType";
  fld HV_EVENTLOG_BUFFER_INDEX "BufferIndex"]).
Definition HV_OUTPUT_MAP_EVENTLOG_BUFFER : cty := aligned HV_CALL_ALIGNMENT (struct 0 [
  fld (CArr HV_GPA_PAGE_NUMBER 512) "GpaPageNumbers"]).
Definition HV_INPUT_UNMAP_EVENTLOG_BUFFER : cty := aligned HV_CALL_ALIGNMENT (struct 0 [
  fld (enum_type HV_EVENTLOG_TYPE) "EventLogType";
  fld HV_EVENTLOG_BUFFER_INDEX "BufferIndex"]).
Definition HV_INPUT_EVENTLOG_GROUP_EVENTS : cty := aligned HV_CALL_ALIGNMENT (struct 0 [
  fld (enum_type HV_EVENTLOG_TYPE) "EventLogType";
  fld UINT64 "EnableFlags"]).
Definition HV_INPUT_EVENTLOG_RELEASE_BUFFER : cty := aligned HV_CALL_ALIGNMENT (struct 0 [
  fld (enum_type HV_EVENTLOG_TYPE) "EventLogType";
  fld HV_EVENTLOG_BUFFER_INDEX "BufferIndex"]).
Definition HV_INPUT_FLUSH_EVENTLOG_BUFFER : cty := aligned HV_CALL_ALIGNMENT (struct 0 [
  fld (enum_type HV_EVENTLOG_TYPE) "EventLogType";
  fld HV_EVENTLOG_BUFFER_INDEX "BufferIndex"]).
Definition HV_INPUT_POST_DEBUG_DATA : cty := aligned HV_CALL_ALIGNMENT (struct 0 [
  fld UINT32 "Count";
  fld HV_DEBUG_OPTIONS "Options";
  fld (CArr UINT8 HV_DEBUG_MAXIMUM_DATA_SIZE) "Data"]).
Definition HV_OUTPUT_POST_DEBUG_DATA : cty := aligned HV_CALL_ALIGNMENT (struct 0 [
  fld UINT32 "PendingCount"]).
Definition HV_INPUT_RETRIEVE_DEBUG_DATA : cty := aligned HV_CALL_ALIGNMENT (struct 0 [
  fld UINT32 "Count";
  fld HV_DEBUG_OPTIONS "Options";
  fld HV_NANO100_DURATION "Timeout"]).
Definition HV_OUTPUT_RETRIEVE_DEBUG_DATA : cty := aligned HV_CALL_ALIGNMENT (struct 0 [
  fld UINT32 "RetrievedCount";
  fld UINT32 "RemainingCount";
  fld (CArr UINT8 HV_DEBUG_MAXIMUM_DATA_SIZE) "Data"]).
Definition HV_INPUT_RESET_DEBUG_SESSION : cty := aligned HV_CALL_ALIGNMENT (struct 0 [
  fld HV_DEBUG_OPTIONS "Options"]).
Definition HV_OUTPUT_RESET_DEBUG_SESSION : cty := aligned HV_CALL_ALIGNMENT (struct 0 [
  fld HV_DEBUG_NET_DATA "NetData"]).
Definition HV_INPUT_MAP_STATS_PAGE : cty := aligned HV_CALL_ALIGNMENT (struct 0 [
  fld (enum_type HV_STATS_OBJECT_TYPE) "StatsType";
  fld HV_STATS_OBJECT_IDENTITY "ObjectIdentity";
  fld HV_GPA_PAGE_NUMBER "MapLocation"]).
Definition HV_OUTPUT_MAP_STATS_PAGE : cty := aligned HV_CALL_ALIGNMENT (struct 0 [
  fld UINT64 "MapLocation"]).
Definition HV_INPUT_UNMAP_STATS_PAGE : cty := aligned HV_CALL_ALIGNMENT (struct 0 [
  fld (enum_type HV_STATS_OBJECT_TYPE) "StatsType";
  fld HV_STATS_OBJECT_IDENTITY "ObjectIdentity";
  fld HV_GPA_PAGE_NUMBER "MapLocation"]).
Definition HV_GPA_MAPPING : cty := struct 0 [
  fld HV_GPA_PAGE_NUMBER "TargetGpaPageNumber";
  fld HV_GPA_PAGE_NUMBER "SourceGpaPageNumber"].
Definition HV_INPUT_MAP_SPARSE_GPA_PAGES : cty := aligned HV_CALL_ALIGNMENT (struct 0 [
  fld HV_PARTITION_ID "TargetPartitionId";
  fld HV_MAP_GPA_FLAGS "MapFlags";
  fld (CArr HV_GPA_MAPPING 0) "PageList"]).
Definition HV_INPUT_SET_SYSTEM_PROPERTY : cty := aligned HV_CALL_ALIGNMENT (struct 0 [
  fld (enum_type HV_SYSTEM_PROPERTY) "PropertyId";
  fld UINT32 "Reserved";
  fld (union 0 [
    fld (struct 0 [
      fld UINT16 "EventType";
      fld UINT16 "ReservedZ1";
      fld UINT32 "ReservedZ2";
      fld UINT64 "Period"]) "PerfCounter";
    fld UINT8 "IommuLiveHandoff";
    fld HV_SLEEP_STATE_INFO "SetSleepStateInformation";
    fld HV_MACHINE_CHECK_PROPERTY_INFO "MachineCheckStateInformation";
    fld HV_HYPERVISOR_DEBUG_PROPERTY "Debug";
    fld HV_PPM_POWER_POLICY_SETTING "PowerPolicySetting";
    fld HV_HPET_CONFIG_INFO "HpetConfigInfo";
    fld HV_HPET_ENABLED_INFO "HpetEnabledInfo";
    fld HV_HOST_TIMELINE_INFO "HostTimeline";
    fld HV_SMC_DATA_PATH_PROPERTY "SmcDataPath";
    fld HV_SYSTEM_MIRRORING_PROPERTY "SystemMirroring";
    fld HV_RESOURCE_CONTROL_VALUE_PROPERTY "ResourceControl";
    fld UINT8 "GuestAssert";
    fld UINT32 "MaxSchedulingIntervalInUs";
    fld UINT32 "ProtoAbiVersion";
    fld HV_SPA_PAGE_RANGE "CrashdumpAreaAddress";
    fld UINT64 "DefaultIoCacheBitmap";
    fld UINT8 "HardwareIsolationEnabled"]) "Property"]).
Definition HV_INPUT_SET_PORT_PROPERTY : cty := aligned HV_CALL_ALIGNMENT (struct 0 [
  fld HV_PARTITION_ID "PortPartition";
  fld HV_PORT_ID "PortId";
  fld UINT32 "Reserved";
  fld (enum_type HV_PORT_PROPERTY_CODE) "PropertyCode";
  fld HV_PORT_PROPERTY "PropertyValue"]).
Definition HV_INPUT_ADD_LOGICAL_PROCESSOR : cty := aligned HV_CALL_ALIGNMENT (struct 0 [
  fld HV_LOGICAL_PROCESSOR_INDEX "LpIndex";
  fld HV_APIC_ID "ApicId";
  fld HV_PROXIMITY_DOMAIN_INFO "ProximityDomainInfo";
  fld UINT64 "Flags"]).
Definition HV_OUTPUT_ADD_LOGICAL_PROCESSOR : cty := aligned HV_CALL_ALIGNMENT (struct 0 [
  fld HV_LP_STARTUP_STATUS "StartupStatus"]).
Definition HV_INPUT_REMOVE_LOGICAL_PROCESSOR : cty := aligned HV_CALL_ALIGNMENT (struct 0 [
  fld HV_LOGICAL_PROCESSOR_INDEX "LpIndex";
  fld UINT64 "Flags"]).
Definition HV_INPUT_QUERY_NUMA_DISTANCE : cty := aligned HV_CALL_ALIGNMENT (struct 0 [
  fld UINT32 "CpuProximityId";
  fld UINT32 "MemoryProximityId"]).
Definition HV_OUTPUT_QUERY_NUMA_DISTANCE : cty := aligned HV_CALL_ALIGNMENT (struct 0 [
  fld UINT64 "Distance"]).
Definition HV_INPUT_SET_LOGICAL_PROCESSOR_PROPERTY : cty := aligned HV_CALL_ALIGNMENT (struct 0 [
  fld HV_LOGICAL_PROCESSOR_INDEX "LpIndex";
  fld (enum_type HV_LOGICAL_PROCESSOR_PROPERTY_TYPE) "Type";
  fld HV_LOGICAL_PROCESSOR_PROPERTY "Property"]).
Definition HV_INPUT_GET_LOGICAL_PROCESSOR_PROPERTY : cty := aligned HV_CALL_ALIGNMENT (struct 0 [
  fld HV_LOGICAL_PROCESSOR_INDEX "LpIndex";
  fld (enum_type HV_LOGICAL_PROCESSOR_PROPERTY_TYPE) "Type"]).
Definition HV_OUTPUT_GET_LOGICAL_PROCESSOR_PROPERTY : cty := aligned HV_CALL_ALIGNMENT (struct 0 [
  fld HV_LOGICAL_PROCESSOR_PROPERTY "Property"]).
Definition HV_INPUT_GET_SYSTEM_PROPERTY : cty := aligned HV_CALL_ALIGNMENT (struct 0 [
  fld (enum_type HV_SYSTEM_PROPERTY) "PropertyId";
  fld (union 0 [
    fld (enum_type HV_PPM_POWER_POLICY_SETTING_ID) "SettingId"]) "Property"]).
Definition HV_OUTPUT_GET_SYSTEM_PROPERTY : cty := aligned HV_CALL_ALIGNMENT (union 0 [
  fld (struct 0 [
    fld UINT16 "EventType";
    fld UINT16 "ReservedZ1";
    fld UINT32 "ReservedZ2";
    fld UINT64 "Period"]) "PerfCounter";
  fld HV_IOMMU_INIT_STATUS "IommuInitStatus";
  fld HV_HYPERVISOR_LAUNCH_STATS "HvLaunchStats";
  fld (enum_type HV_SCHEDULER_TYPE) "SchedulerType";
  fld HV_PLATFORM_VIRTUALIZATION_SUPPORT_INFO "VirtualizationInfo";
  fld HV_PPM_POWER_POLICY_SETTING "PowerPolicySetting";
  fld HV_TSC_SYNC_STATUS "TscSyncStatus";
  fld HV_HPET_CONFIG_INFO "HpetConfigInfo";
  fld HV_HPET_INTERRUPT_INFO "HpetInterruptInfo";
  fld HV_HPET_ENABLED_INFO "HpetEnabledInfo";
  fld HV_ROOT_SVM_CAPABILITIES_PROPERTY "RootSvmCapabilities";
  fld HV_ROOT_NUMA_COST_PAGES_PROPERTY "RootNumaCostPages";
  fld UINT64 "HvHostPageTableRoot";
  fld HV_SPA_PAGE_RANGE "HvHostDbgTransferPagesRange";
  fld HV_SMC_DATA_PATH_PROPERTY "SmcDataPath";
  fld UINT8 "DmaInitializeBlocked";
  fld HV_RESOURCE_CONTROL_MONITOR_DATA "ResourceMonitorData";
  fld HV_RESOURCE_CONTROL_SUPPORT_PROPERTY "ResourceControlSupport";
  fld HV_RESOURCE_CONTROL_VALUES_PROPERTY "ResourceControlValues";
  fld UINT32 "GuestStateScrubbingStatus";
  fld HV_SYSTEM_DIAG_LOG_BUFFER_CONFIG "SystemDiagnosticsLog";
  fld UINT8 "IommuLiveHandoff";
  fld UINT32 "IommuDomainIdSelector";
  fld UINT8 "GuestAssert";
  fld UINT32 "LogicalProcessorCount";
  fld HV_SCHEDULING_INTERVAL_INFO "SchedulingInterval";
  fld (CArr HV_SUBNODE 16) "SubnodeInfo";
  fld HV_VIRTUALIZATION_FEATURE_SET "VirtualizationFeatures";
  fld HV_BOOT_CONFIG_PROPERTY "BootConfig";
  fld UINT32 "RebootCount";
  fld UINT32 "ProtoAbiVersion";
  fld HV_SYSTEM_MIRRORING_PROPERTY "SystemMirroring";
  fld UINT64 "MicrocodeLatencyTime";
  fld HV_SPA_PAGE_RANGE "CrashdumpAreaAddress"]).
Definition HV_INPUT_MAP_DEVICE_INTERRUPT : cty := aligned HV_CALL_ALIGNMENT (struct 0 [
  fld HV_PARTITION_ID "PartitionId";
  fld HV_DEVICE_ID "DeviceId";
  fld UINT64 "Flags";
  fld HV_DEVICE_INTERRUPT_DESCRIPTOR "InterruptDescriptor"]).
Definition HV_OUTPUT_MAP_DEVICE_INTERRUPT : cty := aligned HV_CALL_ALIGNMENT (struct 0 [
  fld HV_INTERRUPT_ENTRY "InterruptEntry";
  fld HV_IOMMU_EXTENDED_STATUS "ExtendedStatus"]).
Definition HV_INPUT_UNMAP_DEVICE_INTERRUPT : cty := aligned HV_CALL_ALIGNMENT (struct 0 [
  fld HV_PARTITION_ID "PartitionId";
  fld HV_DEVICE_ID "DeviceId";
  fld HV_INTERRUPT_ENTRY "InterruptEntry"]).
Definition HV_INPUT_RETARGET_DEVICE_INTERRUPT : cty := aligned HV_CALL_ALIGNMENT (struct 0 [
  fld HV_PARTITION_ID "PartitionId";
  fld HV_DEVICE_ID "DeviceId";
  fld HV_INTERRUPT_ENTRY "InterruptEntry";
  fld UINT64 "Reserved";
  fld HV_DEVICE_INTERRUPT_TARGET "InterruptTarget"]).
Definition HV_OUTPUT_RETARGET_ROOT_DEVICE_INTERRUPT : cty := aligned HV_CALL_ALIGNMENT (struct 0 [
  fld HV_INTERRUPT_ENTRY "InterruptEntry"]).
Definition HV_INPUT_ASSERT_DEVICE_INTERRUPT : cty := aligned HV_CALL_ALIGNMENT (struct 0 [
  fld HV_PARTITION_ID "PartitionId";
  fld HV_LOGICAL_DEVICE_ID "LogicalDeviceId";
  fld HV_INTERRUPT_ENTRY "InterruptEntry"]).
Definition HV_INPUT_ATTACH_DEVICE : cty := aligned HV_CALL_ALIGNMENT (struct 0 [
  fld HV_PARTITION_ID "PartitionId";
  fld HV_DEVICE_ID "DeviceId";
  fld HV_ATTACH_DEVICE_FLAGS "Flags";
  fld HV_VTL "Vtl";
  fld UINT8 "Reserved0";
  fld UINT16 "Reserved1";
  fld HV_LOGICAL_DEVICE_ID "LogicalDeviceId";
  fld HV_DEVICE_PCI_CAPABILITIES "PciCapabilities";
  fld UINT32 "Reserved2"]).
Definition HV_INPUT_DETACH_DEVICE : cty := aligned HV_CALL_ALIGNMENT (struct 0 [
  fld HV_PARTITION_ID "PartitionId";
  fld HV_DEVICE_ID "DeviceId"]).
Definition HV_INPUT_ENTER_SLEEP_STATE : cty := aligned HV_CALL_ALIGNMENT (struct 0 [
  fld (enum_type HV_SLEEP_STATE) "SleepState"]).
Definition HV_INPUT_PREPARE_FOR_SLEEP : cty := aligned HV_CALL_ALIGNMENT (struct 0 [
  fld HV_BOOLEAN "Entering";
  fld HV_BOOLEAN "ModernStandby"]).
Definition HV_INPUT_PREPARE_FOR_HIBERNATE : cty := aligned HV_CALL_ALIGNMENT (struct 0 [
  fld HV_X64_PROC_STATE_GP_REGS "ResumeGpRegs";
  fld HV_VTL "RestrictApVtl"]).
Definition HV_X64_OUTPUT_PREPARE_FOR_HIBERNATE : cty := aligned HV_CALL_ALIGNMENT (struct 0 [
  fld UINT64 "HvCr3";
  fld UINT64 "HvEntryPoint";
  fld UINT64 "HvReservedTransitionAddress";
  fld UINT64 "HvReservedTransitionAddressSize"]).
Definition HV_INPUT_NOTIFY_PARTITION_EVENT : cty := aligned HV_CALL_ALIGNMENT (struct 0 [
  fld (enum_type HV_PARTITION_EVENT) "Event";
  fld HV_PARTITION_EVENT_INPUT "Input"]).
Definition HV_INPUT_QUERY_ASSOCIATED_LP_FOR_MCA : cty := aligned HV_CALL_ALIGNMENT (struct 0 [
  fld HV_VP_INDEX "VpIndex"]).
Definition HV_OUTPUT_QUERY_ASSOCIATED_LP_FOR_MCA : cty := aligned HV_CALL_ALIGNMENT (struct 0 [
  fld UINT32 "Count";
  fld (CArr UINT16 320) "AssociatedLpList"]).
Definition HV_INPUT_NOTIFY_PORT_RING_EMPTY : cty := aligned HV_CALL_ALIGNMENT (union 0 [
  fld UINT64 "AsUINT64";
  fld (struct 0 [
    fld UINT32 "SintIndex";
    fld UINT32 "Reserved"]) anonymous]).
Definition HV_INPUT_INJECT_SYNTHETIC_MACHINE_CHECK : cty := aligned HV_CALL_ALIGNMENT (struct 0 [
  fld HV_PARTITION_ID "PartitionId";
  fld HV_VP_INDEX "VpIndex"]).
Definition HV_INPUT_SCRUB_PARTITION : cty := aligned HV_CALL_ALIGNMENT (struct 0 [
  fld HV_PARTITION_ID "PartitionId"]).
Definition HV_INPUT_COLLECT_LIVE_DUMP : cty := aligned HV_CALL_ALIGNMENT (struct 0 [
  fld UINT64 "Flags";
  fld HV_MEMORY_DESCRIPTOR "Descriptor"]).
Definition HV_OUTPUT_COLLECT_LIVE_DUMP : cty := aligned HV_CALL_ALIGNMENT (struct 0 [
  fld UINT64 "PagesCopied";
  fld UINT64 "DepositedPages"]).
Definition HV_X64_INPUT_DISABLE_HYPERVISOR : cty := aligned HV_CALL_ALIGNMENT (struct 0 [
  fld UINT64 "TrampolineCr3";
  fld UINT64 "KernelCr3";
  fld UINT64 "Rip"]).
Definition HV_ARM64_INPUT_LAUNCH_HYPERVISOR : cty := aligned HV_CALL_ALIGNMENT (struct 0 [
  fld UINT64 "HvEntryPoint"]).
Definition HV_INPUT_MODIFY_SPARSE_GPA_PAGES : cty := aligned HV_CALL_ALIGNMENT (struct 0 [
  fld HV_PARTITION_ID "TargetPartitionId";
  fld UINT32 "MapFlags";
  fld UINT32 "Rsvdz";
  fld (CArr HV_GPA_PAGE_NUMBER 0) "GpaPageList"]).
Definition HV_INPUT_REGISTER_INTERCEPT_RESULT : cty := aligned HV_CALL_ALIGNMENT (struct 0 [
  fld HV_PARTITION_ID "PartitionId";
  fld HV_VP_INDEX "VpIndex";
  fld (enum_type HV_INTERCEPT_TYPE) "InterceptType";
  fld HV_REGISTER_INTERCEPT_RESULT_PARAMETERS "Parameters"]).
Definition HV_INPUT_GET_COVERAGE_VECTOR : cty := aligned HV_CALL_ALIGNMENT (struct 0 [
  fld (enum_type HV_COVERAGE_OPERATION) "CoverageOp";
  fld UINT32 "PageCount";
  fld (CArr HV_GPA_PAGE_NUMBER 128) "GpaPageNumbers"]).
Definition HV_OUTPUT_GET_COVERAGE_VECTOR : cty := aligned HV_CALL_ALIGNMENT (struct 0 [
  fld HV_IMAGE_COVERAGE_INFO "CoverageInfo"]).
Definition HV_INPUT_ASSERT_VIRTUAL_INTERRUPT : cty := aligned HV_CALL_ALIGNMENT (struct 0 [
  fld HV_PARTITION_ID "TargetPartition";
  fld HV_INTERRUPT_CONTROL "InterruptControl";
  fld UINT64 "DestinationAddress";
  fld HV_INTERRUPT_VECTOR "RequestedVector";
  fld HV_VTL "TargetVtl";
  fld UINT8 "ReservedZ0";
  fld UINT16 "ReservedZ1"]).
Definition HV_INPUT_CREATE_PORT : cty := aligned HV_CALL_ALIGNMENT (struct 0 [
  fld HV_PARTITION_ID "PortPartition";
  fld HV_PORT_ID "PortId";
  fld HV_VTL "PortVtl";
  fld HV_VTL "MinConnectionVtl";
  fld UINT16 "ReservedZ0";
  fld HV_PARTITION_ID "ConnectionPartition";
  fld HV_PORT_INFO "PortInfo";
  fld HV_PROXIMITY_DOMAIN_INFO "ProximityDomainInfo"]).
Definition HV_INPUT_CONNECT_PORT : cty := aligned HV_CALL_ALIGNMENT (struct 0 [
  fld HV_PARTITION_ID "ConnectionPartition";
  fld HV_CONNECTION_ID "ConnectionId";
  fld HV_VTL "ConnectionVtl";
  fld UINT8 "ReservedZ0";
  fld UINT16 "ReservedZ1";
  fld HV_PARTITION_ID "PortPartition";
  fld HV_PORT_ID "PortId";
  fld UINT32 "ReservedZ2";
  fld HV_CONNECTION_INFO "ConnectionInfo";
  fld HV_PROXIMITY_DOMAIN_INFO "ProximityDomainInfo"]).
Definition HV_INPUT_GET_SPA_PAGE_LIST : cty := aligned HV_CALL_ALIGNMENT (struct 0 [
  fld UINT64 "StartPage";
  fld UINT64 "EndPage";
  fld HV_SPA_PAGE_LIST_FLAGS "Flags"]).
Definition HV_OUTPUT_GET_SPA_PAGE_LIST : cty := aligned HV_CALL_ALIGNMENT (struct 0 [
  fld UINT64 "NextPageToScan";
  fld UINT16 "RangeCount";
  fld (CArr UINT16 3) "Rsvd";
  fld (CArr HV_SPA_PAGE_RANGE 510) "RangeList"]).
Definition HV_INPUT_GET_VP_INDEX_FROM_APIC_ID : cty := aligned HV_CALL_ALIGNMENT (struct 0 [
  fld HV_PARTITION_ID "PartitionId";
  fld HV_VTL "TargetVtl";
  fld UINT8 "ReservedZ0";
  fld UINT16 "ReservedZ1";
  fld UINT32 "ReservedZ2";
  fld (CArr HV_APIC_ID 0) "ApicIds"]).
Definition HV_OUTPUT_GET_VP_INDEX_FROM_APIC_ID : cty := aligned HV_CALL_ALIGNMENT (struct 0 [
  fld (CArr HV_VP_INDEX HV_ANYSIZE_ARRAY) "VpIndexs"]).
Definition HV_INPUT_GET_POWER_PROPERTY : cty := aligned HV_CALL_ALIGNMENT (struct 0 [
  fld (enum_type HV_POWER_PROPERTY_TYPE) "Type";
  fld (union 0 [
    fld (union 0 [
      fld (enum_type HV_PPM_POWER_POLICY_SETTING_ID) "PolicySettingId"]) "Global";
    fld (struct 0 [
      fld HV_LOGICAL_PROCESSOR_INDEX "LpIndex"]) "Processor"]) anonymous]).
Definition HV_OUTPUT_GET_POWER_PROPERTY : cty := aligned HV_CALL_ALIGNMENT (union 0 [
  fld HV_X64_PPM_IDLE_STATE_CONFIG_PROPERTY "IdleStateConfig";
  fld UINT32 "PercentFrequency";
  fld UINT32 "NextPlatformStateIndex";
  fld HV_PROCESSOR_PERF_FEEDBACK_COUNTERS_CONFIG "FeedbackCounterConfig";
  fld (struct 0 [
    fld UINT32 "Value"]) "Policy";
  fld HV_POWER_STATS_OFFSETS "StatsOffsets";
  fld HV_X64_PPM_IDLE_STATE_CONFIG_PROPERTY_EX "IdleStateConfigEx"]).
Definition HV_INPUT_SET_POWER_PROPERTY : cty := aligned HV_CALL_ALIGNMENT (struct 0 [
  fld (enum_type HV_POWER_PROPERTY_TYPE) "Type";
  fld (union 0 [
    fld (struct 0 [
      fld HV_LOGICAL_PROCESSOR_INDEX "LpIndex";
      fld (union 0 [
        fld HV_X64_PPM_IDLE_STATE_CONFIG_PROPERTY "IdleStateConfig";
        fld HV_X64_PPM_IDLE_STATE_CONFIG_PROPERTY_EX "IdleStateConfigEx";
        fld UINT32 "PercentFrequency";
        fld (enum_type HV_PLATFORM_STATE_INDEX) "NextPlatformStateIndex";
        fld HV_PROCESSOR_PERF_FEEDBACK_COUNTERS_CONFIG "FeedbackCounterConfig";
        fld UINT32 "CppcRequestValue";
        fld HV_PROCESSOR_CPPC_REQUEST_REGISTER "CppcRequestRegister"]) anonymous]) "Processor";
    fld (union 0 [
      fld HV_PPM_POWER_POLICY_SETTING "Policy"]) "Global"]) anonymous]).
Definition HV_INPUT_CREATE_PASID_SPACE : cty := aligned HV_CALL_ALIGNMENT (struct 0 [
  fld HV_PARTITION_ID "PartitionId";
  fld HV_PASID_SPACE_ID "PasidSpaceId";
  fld UINT32 "PasidCount";
  fld UINT64 "Pat";
  fld UINT32 "Flags";
  fld UINT32 "Reserved"]).
Definition HV_INPUT_DELETE_PASID_SPACE : cty := aligned HV_CALL_ALIGNMENT (struct 0 [
  fld HV_PARTITION_ID "PartitionId";
  fld HV_PASID_SPACE_ID "PasidSpaceId";
  fld UINT32 "Reserved"]).
Definition HV_INPUT_SET_PASID_ADDRESS_SPACE : cty := aligned HV_CALL_ALIGNMENT (struct 0 [
  fld HV_PARTITION_ID "PartitionId";
  fld HV_FULL_PASID "FullPasid";
  fld HV_DEVICE_ADDRESS_SPACE "AddressSpace"]).
Definition HV_INPUT_FLUSH_PASID_ADDRESS_SPACE : cty := aligned HV_CALL_ALIGNMENT (struct 0 [
  fld HV_FULL_PASID "FullPasid";
  fld UINT32 "Flags";
  fld UINT32 "Reserved"]).
Definition HV_INPUT_FLUSH_PASID_ADDRESS_LIST : cty := aligned HV_CALL_ALIGNMENT (struct 0 [
  fld HV_FULL_PASID "FullPasid";
  fld UINT32 "Flags";
  fld UINT32 "VaCount";
  fld (CArr HV_GVA_RANGE_EXTENDED 0) "VaList"]).
Definition HV_INPUT_ATTACH_PASID_SPACE : cty := aligned HV_CALL_ALIGNMENT (struct 0 [
  fld HV_PARTITION_ID "PartitionId";
  fld HV_LOGICAL_DEVICE_ID "LogicalDeviceId";
  fld HV_PASID_SPACE_ID "PasidSpaceId";
  fld UINT32 "Reserved"]).
Definition HV_INPUT_DETACH_PASID_SPACE : cty := aligned HV_CALL_ALIGNMENT (struct 0 [
  fld HV_PARTITION_ID "PartitionId";
  fld HV_LOGICAL_DEVICE_ID "LogicalDeviceId"]).
Definition HV_INPUT_ENABLE_PASID : cty := aligned HV_CALL_ALIGNMENT (struct 0 [
  fld HV_PARTITION_ID "PartitionId";
  fld HV_LOGICAL_DEVICE_ID "LogicalDeviceId";
  fld HV_PASID "Pasid";
  fld UINT32 "Reserved"]).
Definition HV_INPUT_DISABLE_PASID : cty := aligned HV_CALL_ALIGNMENT (struct 0 [
  fld HV_PARTITION_ID "PartitionId";
  fld HV_LOGICAL_DEVICE_ID "LogicalDeviceId";
  fld HV_PASID "Pasid";
  fld UINT32 "Reserved"]).
Definition HV_INPUT_CREATE_DEVICE_PR_QUEUE : cty := aligned HV_CALL_ALIGNMENT (struct 0 [
  fld HV_PARTITION_ID "PartitionId";
  fld UINT32 "QueueId";
  fld UINT32 "Size";
  fld HV_GPA_PAGE_NUMBER "BaseGpaPage";
  fld HV_INTERRUPT_VECTOR "InterruptVector";
  fld HV_VP_INDEX "InterruptVpIndex";
  fld UINT32 "Flags";
  fld UINT32 "Reserved"]).
Definition HV_INPUT_DELETE_DEVICE_PR_QUEUE : cty := aligned HV_CALL_ALIGNMENT (struct 0 [
  fld HV_PARTITION_ID "PartitionId";
  fld UINT32 "QueueId";
  fld UINT32 "Reserved"]).
Definition HV_INPUT_SET_DEVICE_PRQ_PROPERTY_HEADER : cty := aligned HV_CALL_ALIGNMENT (struct 0 [
  fld UINT32 "QueueId";
  fld (enum_type HV_DEVICE_PRQ_PROPERTY) "Property"]).
Definition HV_INPUT_GET_PHYSICAL_DEVICE_PROPERTY : cty := aligned HV_CALL_ALIGNMENT (struct 0 [
  fld HV_DEVICE_ID "PhysicalDeviceId";
  fld HV_PHYSICAL_DEVICE_FLAGS "Flags";
  fld (enum_type HV_PHYSICAL_DEVICE_PROPERTY) "Property";
  fld UINT32 "Reserved"]).
Definition HV_OUTPUT_GET_PHYSICAL_DEVICE_PROPERTY : cty := aligned HV_CALL_ALIGNMENT (union 0 [
  fld HV_PHYSICAL_DEVICE_PROPERTY_CAPABILITIES "Capabilities";
  fld HV_PHYSICAL_DEVICE_PROPERTY_DMA_ENABLED "DmaEnabled";
  fld HV_PHYSICAL_DEVICE_PROPERTY_ATS_ENABLED "AtsEnabled";
  fld HV_PHYSICAL_DEVICE_PROPERTY_FAULT_REPORTING "FaultReporting";
  fld HV_PHYSICAL_DEVICE_PROPERTY_IRT_RANGE "IrtRange"]).
Definition HV_INPUT_SET_PHYSICAL_DEVICE_PROPERTY_HEADER : cty := aligned HV_CALL_ALIGNMENT (struct 0 [
  fld HV_DEVICE_ID "PhysicalDeviceId";
  fld (enum_type HV_PHYSICAL_DEVICE_PROPERTY) "Property";
  fld UINT32 "Reserved"]).
Definition HV_OUTPUT_TRANSLATE_VIRTUAL_ADDRESS_EX : cty := aligned HV_CALL_ALIGNMENT (struct 0 [
  fld HV_TRANSLATE_GVA_RESULT_EX "TranslationResult";
  fld HV_GPA_PAGE_NUMBER "GpaPage"]).
Definition HV_INPUT_CHECK_FOR_IO_INTERCEPT : cty := aligned HV_CALL_ALIGNMENT (struct 0 [
  fld HV_PARTITION_ID "PartitionId";
  fld HV_VP_INDEX "VpIndex";
  fld HV_INPUT_VTL "TargetVtl";
  fld UINT16 "Port";
  fld UINT8 "Size";
  fld UINT8 "IsWrite"]).
Definition HV_OUTPUT_CHECK_FOR_IO_INTERCEPT : cty := aligned HV_CALL_ALIGNMENT (struct 0 [
  fld UINT8 "Intercept"]).
Definition HV_INPUT_SET_GPA_PAGE_ATTRIBUTES : cty := aligned HV_CALL_ALIGNMENT (struct 0 [
  fld HV_PARTITION_ID "PartitionId";
  fld HV_GPA_PAGE_ATTRIBUTES "Attributes";
  fld (CArr HV_GPA_PAGE_NUMBER 0) "GpaPageList"]).
Definition HV_INPUT_FLUSH_GUEST_PHYSICAL_ADDRESS_SPACE : cty := aligned HV_CALL_ALIGNMENT (struct 0 [
  fld HV_SPA "AddressSpace";
  fld HV_FLUSH_FLAGS "Flags"]).
Definition HV_INPUT_FLUSH_GUEST_PHYSICAL_ADDRESS_LIST : cty := aligned HV_CALL_ALIGNMENT (struct 0 [
  fld HV_SPA "AddressSpace";
  fld HV_FLUSH_FLAGS "Flags";
  fld (CArr HV_GPA_PAGE_RANGE 0) "GpaRangeList"]).
Definition HV_CREATE_DEVICE_DOMAIN_FLAGS : cty := union 0 [
  fld (struct 0 [
    bit UINT32 "ForwardProgressRequired" 1;
    bit UINT32 "InheritOwningVtl" 1;
    bit UINT32 "Reserved" 30]) anonymous;
  fld UINT32 "AsUINT32"].
Definition HV_INPUT_CREATE_DEVICE_DOMAIN : cty := aligned HV_CALL_ALIGNMENT (struct 0 [
  fld HV_INPUT_DEVICE_DOMAIN "DeviceDomain";
  fld HV_CREATE_DEVICE_DOMAIN_FLAGS "CreateDeviceDomainFlags"]).
Definition HV_INPUT_ATTACH_DEVICE_DOMAIN : cty := aligned HV_CALL_ALIGNMENT (struct 0 [
  fld HV_INPUT_DEVICE_DOMAIN "DeviceDomain";
  fld HV_DEVICE_ID "DeviceId"]).
Definition HV_INPUT_MAP_DEVICE_GPA_PAGES : cty := aligned HV_CALL_ALIGNMENT (struct 0 [
  fld HV_INPUT_DEVICE_DOMAIN "DeviceDomain";
  fld HV_INPUT_VTL "TargetVtl";
  fld UINT32 "MapFlags";
  fld HV_DEVICE_VA "TargetDeviceVaBase";
  fld (CArr HV_GPA_PAGE_NUMBER 0) "GpaPageList"]).
Definition HV_INPUT_UNMAP_DEVICE_GPA_PAGES : cty := aligned HV_CALL_ALIGNMENT (struct 0 [
  fld HV_INPUT_DEVICE_DOMAIN "DeviceDomain";
  fld HV_DEVICE_VA "TargetDeviceVaBase"]).
Definition HV_OUTPUT_CREATE_CPU_GROUP : cty := aligned HV_CALL_ALIGNMENT (struct 0 [
  fld HV_CPU_GROUP_ID "NewCpuGroupId"]).
Definition HV_INPUT_DELETE_CPU_GROUP : cty := aligned HV_CALL_ALIGNMENT (struct 0 [
  fld HV_CPU_GROUP_ID "CpuGroupId"]).
Definition HV_INPUT_GET_CPU_GROUP_PROPERTY : cty := aligned HV_CALL_ALIGNMENT (struct 0 [
  fld HV_CPU_GROUP_ID "CpuGroupId";
  fld (enum_type HV_CPU_GROUP_PROPERTY_CODE) "PropertyCode"]).
Definition HV_OUTPUT_GET_CPU_GROUP_PROPERTY : cty := aligned HV_CALL_ALIGNMENT (struct 0 [
  fld HV_CPU_GROUP_PROPERTY "PropertyValue"]).
Definition HV_INPUT_SET_CPU_GROUP_PROPERTY : cty := aligned HV_CALL_ALIGNMENT (struct 0 [
  fld HV_CPU_GROUP_ID "CpuGroupId";
  fld (enum_type HV_CPU_GROUP_PROPERTY_CODE) "PropertyCode";
  fld HV_CPU_GROUP_PROPERTY "PropertyValue"]).
Definition HV_INPUT_GET_CPU_GROUP_AFFINITY : cty := aligned HV_CALL_ALIGNMENT (struct 0 [
  fld HV_CPU_GROUP_ID "CpuGroupId"]).
Definition HV_OUTPUT_GET_CPU_GROUP_AFFINITY : cty := aligned HV_CALL_ALIGNMENT (struct 0 [
  fld UINT32 "LpCount";
  fld (union 0 [
    fld HV_GENERIC_SET "Bitset";
    fld (CArr UINT64 7) "BitsetBuffer"]) "CpuGroupAffinity"]).
Definition HV_INPUT_GET_NEXT_CPU_GROUP : cty := aligned HV_CALL_ALIGNMENT (struct 0 [
  fld HV_CPU_GROUP_ID "PreviousCpuGroupId"]).
Definition HV_OUTPUT_GET_NEXT_CPU_GROUP : cty := aligned HV_CALL_ALIGNMENT (struct 0 [
  fld HV_CPU_GROUP_ID "NextCpuGroupId"]).
Definition HV_INPUT_GET_NEXT_CPU_GROUP_PARTITION : cty := aligned HV_CALL_ALIGNMENT (struct 0 [
  fld HV_CPU_GROUP_ID "CpuGroupId";
  fld HV_PARTITION_ID "PreviousPartitionId"]).
Definition HV_OUTPUT_GET_NEXT_CPU_GROUP_PARTITION : cty := aligned HV_CALL_ALIGNMENT (struct 0 [
  fld HV_PARTITION_ID "NextPartitionId"]).
Definition HV_INPUT_ADD_PHYSICAL_MEMORY : cty := aligned HV_CALL_ALIGNMENT (struct 0 [
  fld UINT8 "Prepare";
  fld UINT8 "LargePage";
  fld UINT16 "Reserved1";
  fld UINT32 "Reserved2";
  fld HV_GPA_PAGE_NUMBER "StartPage"]).
Definition HV_OUTPUT_ADD_PHYSICAL_MEMORY : cty := aligned HV_CALL_ALIGNMENT (struct 0 [
  fld UINT64 "PagesProcessed"]).
Definition HV_INPUT_COMPLETE_INTERCEPT : cty := aligned HV_CALL_ALIGNMENT (struct 0 [
  fld HV_PARTITION_ID "PartitionId";
  fld HV_VP_INDEX "VpIndex";
  fld UINT32 "DataSize";
  fld (CArr UINT8 0) "Data"]).
Definition HV_INPUT_PRECOMMIT_GPA_PAGES : cty := aligned HV_CALL_ALIGNMENT (struct 0 [
  fld HV_PARTITION_ID "TargetPartitionId";
  fld UINT32 "Flags";
  fld HV_GPA "TargetGpaBase"]).
Definition HV_INPUT_UNCOMMIT_GPA_PAGES : cty := aligned HV_CALL_ALIGNMENT (struct 0 [
  fld HV_PARTITION_ID "TargetPartitionId";
  fld HV_GPA "TargetGpaBase"]).
Definition HV_INPUT_SIGNAL_EVENT_DIRECT : cty := aligned HV_CALL_ALIGNMENT (struct 0 [
  fld UINT64 "TargetPartition";
  fld HV_VP_INDEX "TargetVp";
  fld HV_VTL "TargetVtl";
  fld UINT8 "TargetSint";
  fld UINT16 "FlagNumber"]).
Definition HV_OUTPUT_SIGNAL_EVENT_DIRECT : cty := aligned HV_CALL_ALIGNMENT (struct 0 [
  fld UINT8 "NewlySignaled";
  fld (CArr UINT8 7) "Reserved"]).
Definition HV_INPUT_POST_MESSAGE_DIRECT : cty := aligned HV_CALL_ALIGNMENT (struct 0 [
  fld HV_PARTITION_ID "PartitionId";
  fld HV_VP_INDEX "VpIndex";
  fld HV_VTL "Vtl";
  fld UINT32 "SintIndex";
  fld (CArr UINT8 HV_MESSAGE_SIZE) "Message"]).
Definition HV_INPUT_DISPATCH_VP : cty := aligned HV_CALL_ALIGNMENT (struct 0 [
  fld HV_PARTITION_ID "PartitionId";
  fld HV_VP_INDEX "VpIndex";
  fld UINT32 "Flags";
  fld HV_NANO100_DURATION "TimeSlice";
  fld UINT64 "SpecCtrl"]).
Definition HV_OUTPUT_DISPATCH_VP : cty := aligned HV_CALL_ALIGNMENT (struct 0 [
  fld (enum_type HV_VP_DISPATCH_STATE) "DispatchState";
  fld (enum_type HV_VP_DISPATCH_EVENT) "DispatchEvent"]).
Definition HV_INPUT_PROCESS_IOMMU_PRQ : cty := aligned HV_CALL_ALIGNMENT (struct 0 [
  fld HV_IOMMU_ID "IommuId"]).
Definition HV_INPUT_DETACH_DEVICE_DOMAIN : cty := aligned HV_CALL_ALIGNMENT (struct 0 [
  fld HV_PARTITION_ID "PartitionId";
  fld HV_DEVICE_ID "DeviceId"]).
Definition HV_INPUT_DELETE_DEVICE_DOMAIN : cty := aligned HV_CALL_ALIGNMENT (struct 0 [
  fld HV_INPUT_DEVICE_DOMAIN "DeviceDomain"]).
Definition HV_INPUT_QUERY_DEVICE_DOMAIN : cty := aligned HV_CALL_ALIGNMENT (struct 0 [
  fld HV_INPUT_DEVICE_DOMAIN "DeviceDomain";
  fld (CArr HV_DEVICE_VA 0) "TargetDeviceVaList"]).
Definition HV_DEVICE_VA_MAPPING : cty := struct 0 [
  fld HV_DEVICE_VA "TargetDeviceVa";
  fld HV_GPA_PAGE_NUMBER "GpaPageNumber"].
Definition HV_INPUT_MAP_SPARSE_DEVICE_GPA_PAGES : cty := aligned HV_CALL_ALIGNMENT (struct 0 [
  fld HV_INPUT_DEVICE_DOMAIN "DeviceDomain";
  fld HV_INPUT_VTL "TargetVtl";
  fld UINT32 "MapFlags";
  fld (CArr HV_DEVICE_VA_MAPPING 0) "PageList"]).
Definition HV_INPUT_UNMAP_SPARSE_DEVICE_GPA_PAGES : cty := aligned HV_CALL_ALIGNMENT (struct 0 [
  fld HV_INPUT_DEVICE_DOMAIN "DeviceDomain";
  fld (CArr HV_DEVICE_VA 0) "TargetDeviceVaList"]).
Definition HV_INPUT_GET_GPA_PAGES_ACCESS_STATE : cty := aligned HV_CALL_ALIGNMENT (struct 0 [
  fld HV_PARTITION_ID "TargetPartitionId";
  fld HV_GPA_PAGE_ACCESS_STATE_FLAGS "Flags";
  fld HV_GPA_PAGE_NUMBER "TargetGpaBase"]).
Definition HV_INPUT_GET_SPARSE_GPA_PAGES_ACCESS_STATE : cty := aligned HV_CALL_ALIGNMENT (struct 0 [
  fld HV_PARTITION_ID "TargetPartitionId";
  fld HV_GPA_PAGE_ACCESS_STATE_FLAGS "Flags";
  fld (CArr HV_GPA_PAGE_NUMBER 0) "GpaPageList"]).
Definition HV_INPUT_QUERY_VTL_PROTECTION_MASK_RANGE : cty := aligned HV_CALL_ALIGNMENT (struct 0 [
  fld HV_PARTITION_ID "TargetPartitionId";
  fld HV_GPA "TargetGpaBase";
  fld UINT16 "TargetVtlSet";
  fld UINT16 "Reserved0";
  fld UINT32 "Reserved1"]).
Definition HV_INPUT_MODIFY_VTL_PROTECTION_MASK_RANGE : cty := aligned HV_CALL_ALIGNMENT (struct 0 [
  fld HV_PARTITION_ID "TargetPartitionId";
  fld HV_GPA "TargetGpaBase";
  fld UINT16 "TargetVtlSet";
  fld UINT16 "Reserved0";
  fld UINT32 "Reserved1";
  fld (CArr HV_VTL_PERMISSION_SET 0) "VtlPermissionList"]).
Definition HV_DEVICE_DOMAIN_SETTINGS : cty := struct 0 [
  fld (struct 0 [
    bit UINT64 "TranslationEnabled" 1;
    bit UINT64 "CoherentTableWalks" 1;
    bit UINT64 "Reserved" 62]) "Flags";
  fld UINT64 "PageTableRoot0";
  fld UINT64 "PageTableRoot1";
  fld UINT8 "InputSize0";
  fld UINT8 "InputSize1";
  fld UINT32 "Mair0";
  fld UINT32 "Mair1";
  fld UINT16 "Asid"].
Definition HV_INPUT_CONFIGURE_DEVICE_DOMAIN : cty := aligned HV_CALL_ALIGNMENT (struct 0 [
  fld HV_INPUT_DEVICE_DOMAIN "DeviceDomain";
  fld HV_DEVICE_DOMAIN_SETTINGS "Settings"]).
Definition HV_INPUT_FLUSH_DEVICE_DOMAIN : cty := aligned HV_CALL_ALIGNMENT (struct 0 [
  fld HV_INPUT_DEVICE_DOMAIN "DeviceDomain";
  fld UINT32 "Flags";
  fld UINT32 "Reserved"]).
Definition HV_INPUT_FLUSH_DEVICE_DOMAIN_LIST : cty := aligned HV_CALL_ALIGNMENT (struct 0 [
  fld HV_INPUT_DEVICE_DOMAIN "DeviceDomain";
  fld UINT32 "Flags";
  fld UINT32 "Reserved";
  fld (CArr HV_GVA_RANGE_EXTENDED 0) "VaList"]).
Definition HV_INPUT_MODIFY_SPARSE_GPA_PAGE_HOST_ACCESS : cty := aligned HV_CALL_ALIGNMENT (struct 0 [
  fld HV_PARTITION_ID "TargetPartitionId";
  bit UINT32 "HostAccess" 2;
  bit UINT32 "Reserved0" 30;
  fld UINT32 "Reserved1";
  fld (CArr HV_GPA_PAGE_NUMBER 0) "GpaPageList"]).
Definition HV_INPUT_CHECK_SPARSE_GPA_PAGE_VTL_ACCESS : cty := aligned HV_CALL_ALIGNMENT (struct 0 [
  fld HV_PARTITION_ID "TargetPartitionId";
  fld HV_INPUT_VTL "TargetVtl";
  fld UINT8 "DesiredAccess";
  fld UINT16 "Reserved0";
  fld UINT32 "Reserved1";
  fld (CArr HV_GPA_PAGE_NUMBER 0) "GpaPageList"]).
Definition HV_INPUT_MODIFY_SPARSE_SPA_PAGE_HOST_ACCESS : cty := aligned HV_CALL_ALIGNMENT (struct 0 [
  bit UINT32 "HostAccess" 2;
  bit UINT32 "Reserved" 30;
  fld UINT32 "Flags";
  fld HV_PARTITION_ID "TargetPartitionId";
  fld (CArr HV_SPA_PAGE_NUMBER 0) "SpaPageList"]).
Definition HV_INPUT_ACCEPT_GPA_PAGES : cty := aligned HV_CALL_ALIGNMENT (struct 0 [
  fld HV_PARTITION_ID "TargetPartitionId";
  bit UINT32 "MemoryType" 6;
  bit UINT32 "HostVisibility" 2;
  bit UINT32 "VtlSet" 3;
  bit UINT32 "Reserved" 21;
  fld HV_VTL_PERMISSION_SET "VtlPermissionSet";
  fld HV_GPA_PAGE_NUMBER "GpaPageBase"]).
Definition HV_INPUT_UNACCEPT_GPA_PAGES : cty := aligned HV_CALL_ALIGNMENT (struct 0 [
  fld HV_PARTITION_ID "TargetPartitionId";
  bit UINT32 "VtlSet" 3;
  bit UINT32 "Reserved" 29;
  fld HV_VTL_PERMISSION_SET "VtlPermissionSet";
  fld HV_GPA_PAGE_NUMBER "GpaPageBase"]).
Definition HV_GPA_PAGE_MAPPING_LOCK_INPUT : cty := union 0 [
  fld UINT64 "AsUINT64";
  fld (struct 0 [
    bit UINT64 "AcceptPrivate" 1;
    bit UINT64 "Reserved0" 11;
    bit UINT64 "GpaPage" 40;
    bit UINT64 "Reserved1" 12]) anonymous].
Definition HV_GPA_PAGE_MAPPING_LOCK_OUTPUT : cty := struct 0 [
  bit UINT64 "SpaPageOwnership" 1;
  bit UINT64 "SpaPageMemoryType" 4;
  bit UINT64 "RootReadable" 1;
  bit UINT64 "RootWritable" 1;
  bit UINT64 "RootAdjustable" 1;
  bit UINT64 "UntrustedOverlay" 1;
  bit UINT64 "Reserved0" 3;
  bit UINT64 "SpaPage" 40;
  bit UINT64 "Reserved1" 12;
  fld HV_GPA_PAGE_MAPPING_DATA "Data"].
Definition HV_INPUT_LOCK_SPARSE_GPA_PAGE_MAPPING : cty := aligned HV_CALL_ALIGNMENT (struct 0 [
  fld HV_PARTITION_ID "TargetPartitionId";
  fld UINT32 "Flags";
  fld UINT32 "Reserved";
  fld (CArr HV_GPA_PAGE_MAPPING_LOCK_INPUT 0) "LockList"]).
Definition HV_GPA_PAGE_MAPPING_UNLOCK_INPUT : cty := struct 0 [
  bit UINT64 "SetAttributes" 1;
  bit UINT64 "Reserved0" 11;
  bit UINT64 "GpaPage" 40;
  bit UINT64 "Reserved1" 12;
  fld HV_GPA_PAGE_MAPPING_DATA "Data"].
Definition HV_INPUT_UNLOCK_SPARSE_GPA_PAGE_MAPPING : cty := aligned HV_CALL_ALIGNMENT (struct 0 [
  fld HV_PARTITION_ID "TargetPartitionId";
  fld (CArr HV_GPA_PAGE_MAPPING_UNLOCK_INPUT 0) "UnlockList"]).
Definition HV_INPUT_REQUEST_PROCESSOR_HALT_FLAGS : cty := union 0 [
  fld UINT32 "AsUINT32";
  fld (struct 0 [
    bit UINT32 "UseDefaultSuspend" 1;
    bit UINT32 "RsvdZ" 31]) anonymous].
Definition HV_PPM_IDLE_STATE_REQUEST : cty := struct 0 [
  fld HV_PPM_IDLE_STATE_CONFIG "Config";
  fld UINT32 "CStateType";
  fld HV_INPUT_REQUEST_PROCESSOR_HALT_FLAGS "Flags"].
Definition HV_INPUT_REQUEST_PROCESSOR_HALT : cty := aligned HV_CALL_ALIGNMENT (union 0 [
  fld HV_PPM_IDLE_STATE_REQUEST "IdleRequest";
  fld (CArr UINT64 2) "AsUINT64"]).
Definition HV_INPUT_GET_INTERCEPT_DATA : cty := aligned HV_CALL_ALIGNMENT (struct 0 [
  fld HV_PARTITION_ID "PartitionId";
  fld HV_VP_INDEX "VpIndex"]).
Definition HV_INPUT_QUERY_DEVICE_INTERRUPT_TARGET : cty := aligned HV_CALL_ALIGNMENT (struct 0 [
  fld HV_PARTITION_ID "PartitionId";
  fld HV_LOGICAL_DEVICE_ID "LogicalDeviceId";
  fld HV_INTERRUPT_ENTRY "InterruptEntry"]).
Definition HV_OUTPUT_QUERY_DEVICE_INTERRUPT_TARGET : cty := aligned HV_CALL_ALIGNMENT (struct 0 [
  fld UINT32 "InterruptTargetSize";
  fld (union 0 [
    fld HV_DEVICE_INTERRUPT_TARGET "InterruptTarget";
    fld (struct 0 [
      fld HV_DEVICE_INTERRUPT_TARGET_HEADER "InterruptTargetHeader";
      fld (union 0 [
        fld HV_GENERIC_SET "InterruptTargetProcessorSet";
        fld HV_GENERIC_SET_HEADER "InterruptTargetProcessorSetHeader"]) anonymous]) anonymous]) anonymous;
  fld (CArr UINT64 4) "InterruptTargetProcessorSetBankContents";
  fld HV_INTERRUPT_ENTRY "InterruptEntry"]).
Definition HV_INPUT_MAP_VP_STATE_PAGE : cty := aligned HV_CALL_ALIGNMENT (struct 0 [
  fld HV_PARTITION_ID "PartitionId";
  fld HV_VP_INDEX "VpIndex";
  fld (enum_type HV_VP_STATE_PAGE_TYPE) "Type"]).
Definition HV_OUTPUT_MAP_VP_STATE_PAGE : cty := aligned HV_CALL_ALIGNMENT (struct 0 [
  fld HV_GPA_PAGE_NUMBER "MapLocation"]).
Definition HV_INPUT_UNMAP_VP_STATE_PAGE : cty := aligned HV_CALL_ALIGNMENT (struct 0 [
  fld HV_PARTITION_ID "PartitionId";
  fld HV_VP_INDEX "VpIndex";
  fld (enum_type HV_VP_STATE_PAGE_TYPE) "Type"]).
Definition HV_INPUT_GET_VP_STATE : cty := aligned HV_CALL_ALIGNMENT (struct 0 [
  fld HV_PARTITION_ID "PartitionId";
  fld HV_VP_INDEX "VpIndex";
  fld HV_VTL "InputVtl";
  fld UINT8 "Reserved0";
  fld UINT16 "Reserved1";
  fld HV_VP_STATE_DATA "StateData";
  fld (CArr UINT64 0) "OutputDataPfns"]).
Definition HV_OUTPUT_GET_VP_STATE : cty := aligned HV_CALL_ALIGNMENT (union 0 [
  fld HV_LOCAL_INTERRUPT_CONTROLLER_STATE "InterruptControllerState";
  fld HV_SYNTHETIC_TIMERS_STATE "SyntheticTimersState"]).
Definition HV_INPUT_SET_VP_STATE_DATA : cty := union 0 [
  fld UINT64 "Pfns";
  fld UINT8 "Bytes"].
Definition HV_INPUT_SET_VP_STATE : cty := aligned HV_CALL_ALIGNMENT (struct 0 [
  fld HV_PARTITION_ID "PartitionId";
  fld HV_VP_INDEX "VpIndex";
  fld HV_VTL "InputVtl";
  fld UINT8 "Reserved0";
  fld UINT16 "Reserved1";
  fld HV_VP_STATE_DATA "StateData";
  fld (CArr HV_INPUT_SET_VP_STATE_DATA 0) "Data"]).
Definition HV_INPUT_RESERVE_DEVICE_INTERRUPT : cty := aligned HV_CALL_ALIGNMENT (struct 0 [
  fld HV_PARTITION_ID "PartitionId";
  fld HV_LOGICAL_DEVICE_ID "LogicalDeviceId";
  fld UINT32 "VectorCount";
  fld UINT64 "Flags";
  fld HV_INTERRUPT_ENTRY "LogicalInterruptEntry";
  fld UINT32 "BaseIrtIndex"]).
Definition HV_INPUT_PERSIST_DEVICE : cty := aligned HV_CALL_ALIGNMENT (struct 0 [
  fld HV_PARTITION_ID "PartitionId";
  fld HV_DEVICE_ID "DeviceId";
  fld HV_ATTACH_DEVICE_FLAGS "Flags";
  fld HV_LOGICAL_DEVICE_ID "LogicalDeviceId";
  fld HV_DEVICE_PCI_CAPABILITIES "PciCapabilities";
  fld UINT16 "PhysicalFunctionRid"]).
Definition HV_INPUT_UNPERSIST_DEVICE : cty := aligned HV_CALL_ALIGNMENT (struct 0 [
  fld HV_PARTITION_ID "PartitionId";
  fld HV_LOGICAL_DEVICE_ID "LogicalDeviceId"]).
Definition HV_INPUT_PERSIST_DEVICE_INTERRUPT : cty := aligned HV_CALL_ALIGNMENT (struct 0 [
  fld HV_PARTITION_ID "PartitionId";
  fld HV_LOGICAL_DEVICE_ID "LogicalDeviceId";
  fld HV_INTERRUPT_ENTRY "InterruptEntry";
  fld UINT32 "VectorCount";
  fld UINT64 "Flags"]).
Definition HV_OUTPUT_PERSIST_DEVICE_INTERRUPT : cty := aligned HV_CALL_ALIGNMENT (struct 0 [
  fld UINT32 "BaseIrtIndex"]).
Definition HV_INPUT_REFRESH_PERFORMANCE_COUNTERS : cty := aligned HV_CALL_ALIGNMENT (struct 0 [
  fld HV_LOGICAL_PROCESSOR_INDEX "LpIndex"]).
Definition HV_PARTITION_COMPLETE_ISOLATED_IMPORT_DATA : cty := union 0 [
  fld UINT64 "Reserved"].
Definition HV_INPUT_COMPLETE_ISOLATED_IMPORT : cty := aligned HV_CALL_ALIGNMENT (struct 0 [
  fld HV_PARTITION_ID "PartitionId";
  fld HV_PARTITION_COMPLETE_ISOLATED_IMPORT_DATA "ImportData"]).
Definition HV_INPUT_ROOT_SIGNAL_EVENT : cty := aligned HV_CALL_ALIGNMENT (struct 0 [
  fld HV_CONNECTION_ID "ConnectionId";
  fld UINT16 "FlagNumber";
  fld UINT16 "RsvdZ"]).
Definition HV_OUTPUT_ROOT_SIGNAL_EVENT : cty := aligned HV_CALL_ALIGNMENT (struct 0 [
  fld HV_PARTITION_ID "DestinationPartitionId";
  fld HV_VP_INDEX "DestinationVpIndex";
  fld UINT8 "NewlySignalled"]).
Definition HV_INPUT_GET_VP_CPUID_VALUES : cty := aligned HV_CALL_ALIGNMENT (struct 0 [
  fld HV_PARTITION_ID "PartitionId";
  fld HV_VP_INDEX "VpIndex";
  fld HV_GET_VP_CPUID_VALUES_FLAGS "Flags";
  fld UINT32 "ReservedZ";
  fld (CArr HV_CPUID_LEAF_INFO 0) "CpuidLeafInfo"]).
Definition HV_OUTPUT_GET_VP_CPUID_VALUES : cty := aligned HV_CALL_ALIGNMENT (union 0 [
  fld (CArr UINT32 4) "AsUINT32";
  fld (struct 0 [
    fld UINT32 "Eax";
    fld UINT32 "Ebx";
    fld UINT32 "Ecx";
    fld UINT32 "Edx"]) anonymous]).
Definition HV_INPUT_READ_SYSTEM_MEMORY : cty := aligned HV_CALL_ALIGNMENT (union 0 [
  fld UINT64 "AsUINT64";
  fld (struct 0 [
    bit UINT64 "Spa" 52;
    bit UINT64 "Uncached" 1;
    bit UINT64 "Size" 4;
    bit UINT64 "ReservedZ0" 7]) anonymous]).
Definition HV_OUTPUT_READ_SYSTEM_MEMORY : cty := aligned HV_CALL_ALIGNMENT (union 0 [
  fld UINT64 "Reg64";
  fld UINT32 "Reg32";
  fld UINT16 "Reg16";
  fld UINT8 "Reg8"]).
Definition HV_INPUT_SET_HW_WATCHDOG_CONFIG : cty := aligned HV_CALL_ALIGNMENT (union 0 [
  fld (CArr UINT8 HV_ANYSIZE_ARRAY) "Data"]).
Definition HV_INPUT_REMOVE_PHYSICAL_MEMORY : cty := aligned HV_CALL_ALIGNMENT (struct 0 [
  fld UINT8 "Prepare";
  fld UINT8 "LargePage";
  fld UINT16 "Reserved1";
  fld UINT32 "Reserved2";
  fld UINT64 "StartPage"]).
Definition HV_INPUT_SUBSUME_VP : cty := aligned HV_CALL_ALIGNMENT (struct 0 [
  fld HV_PARTITION_ID "PartitionId";
  fld HV_VP_INDEX "VpIndex"]).
Definition HV_INPUT_WRITE_SYS_DIAG_EVENT : cty := aligned HV_CALL_ALIGNMENT (struct 0 [
  fld HV_EVENTLOG_ENTRY_HEADER "Header";
  fld UINT32 "DataSize";
  fld (CArr UINT8 0) "Data"]).
Definition HV_SET_DEVICE_CAPABILITIES_FLAGS : cty := aligned HV_CALL_ALIGNMENT (union 0 [
  fld UINT32 "AsUINT32";
  fld (struct 0 [
    bit UINT32 "Clear" 1;
    bit UINT32 "Set" 1;
    bit UINT32 "SvmSupported" 1;
    bit UINT32 "DmaEnabled" 1;
    bit UINT32 "AtsEnabled" 1;
    bit UINT32 "PasidSupported" 1;
    bit UINT32 "Reserved" 26]) anonymous]).
Definition HV_INPUT_SET_DEVICE_CAPABILITIES : cty := aligned HV_CALL_ALIGNMENT (struct 0 [
  fld HV_PARTITION_ID "PartitionId";
  fld HV_LOGICAL_DEVICE_ID "LogicalDeviceId";
  fld HV_SET_DEVICE_CAPABILITIES_FLAGS "Flags";
  fld HV_DEVICE_PCI_CAPABILITIES "PciCapabilities"]).
Definition HV_INPUT_GET_PARTITION_PROPERTY_EX : cty := aligned HV_CALL_ALIGNMENT (struct 0 [
  fld HV_PARTITION_ID "PartitionId";
  fld (enum_type HV_PARTITION_PROPERTY_CODE) "PropertyCode";
  fld HV_INPUT_PARTITION_PROPERTY_ARG "Arg"]).
Definition HV_OUTPUT_GET_PARTITION_PROPERTY_EX : cty := aligned HV_CALL_ALIGNMENT (struct 0 [
  fld HV_PARTITION_PROPERTY_EX "PropertyValue"]).
Definition HV_INPUT_GET_GPA_RANGES_ACCESS_STATE : cty := aligned HV_CALL_ALIGNMENT (struct 0 [
  fld UINT64 "PartitionId";
  fld HV_GPA_PAGE_ACCESS_STATE_FLAGS "Flags";
  fld UINT64 "BaseGpaPage";
  fld (enum_type HV_GPA_ACCESS_TRACKING_RANGE_SIZE) "RangeSize";
  fld UINT32 "Reserved"]).
Definition HV_INPUT_RESTORE_PARTITION_TIME : cty := aligned HV_CALL_ALIGNMENT (struct 0 [
  fld UINT64 "PartitionId";
  fld UINT32 "TscSequence";
  fld UINT32 "ReservedZ";
  fld UINT64 "ReferenceTime";
  fld UINT64 "Tsc"]).
Definition HV_OUTPUT_QUERY_ASSOCIATED_LP_FOR_MCA_EX : cty := aligned HV_CALL_ALIGNMENT (union 0 [
  fld HV_GENERIC_SET "AssociatedLpSet";
  fld (CArr UINT64 7) "AssociatedLpSetBuffer"]).
Definition HV_INPUT_SET_PARTITION_PROPERTY_EX : cty := aligned HV_CALL_ALIGNMENT (struct 0 [
  fld HV_PARTITION_ID "PartitionId";
  fld (enum_type HV_PARTITION_PROPERTY_CODE) "PropertyCode";
  fld HV_INPUT_PARTITION_PROPERTY_ARG "Arg";
  fld (CArr HV_PARTITION_PROPERTY_EX 0) "PropertyValue"]).
Definition HV_INPUT_ATTACH_DEVICE_PR_QUEUE : cty := aligned HV_CALL_ALIGNMENT (struct 0 [
  fld HV_PARTITION_ID "PartitionId";
  fld HV_LOGICAL_DEVICE_ID "LogicalDeviceId";
  fld HV_DEVICE_PR_QUEUE_ID "PrQueueId";
  fld UINT32 "Reserved"]).
Definition HV_INPUT_DETACH_DEVICE_PR_QUEUE : cty := aligned HV_CALL_ALIGNMENT (struct 0 [
  fld HV_PARTITION_ID "PartitionId";
  fld HV_LOGICAL_DEVICE_ID "LogicalDeviceId"]).
Definition HV_INPUT_RESERVE_DEVICE_DOMAIN_ATTACHMENT : cty := aligned HV_CALL_ALIGNMENT (struct 0 [
  fld HV_INPUT_DEVICE_DOMAIN "DeviceDomain";
  fld HV_LOGICAL_DEVICE_ID "LogicalDeviceId"]).
Definition HV_INPUT_UNRESERVE_DEVICE_DOMAIN_ATTACHMENT : cty := aligned HV_CALL_ALIGNMENT (struct 0 [
  fld HV_PARTITION_ID "PartitionId";
  fld HV_LOGICAL_DEVICE_ID "LogicalDeviceId"]).
Definition HV_X64_INPUT_DISABLE_HYPERVISOR_EX : cty := aligned HV_CALL_ALIGNMENT (struct 0 [
  fld UINT64 "Rip";
  fld (union 0 [
    fld UINT64 "AsUINT64";
    fld (struct 0 [
      bit UINT64 "LongMode" 1]) anonymous]) "Flags";
  fld UINT64 "Arg"]).
Definition HV_INPUT_INSTALL_INTERCEPT_EX : cty := aligned HV_CALL_ALIGNMENT (struct 0 [
  fld HV_PARTITION_ID "PartitionId";
  fld HV_INPUT_VTL "InterceptingInputVtl";
  fld (enum_type HV_INTERCEPT_TYPE) "InterceptType";
  fld (CArr UINT64 4) "Reserved";
  fld (CArr HV_INTERCEPT_PARAMETERS_EX 0) "InterceptParameters"]).
Definition HV_INPUT_WAKE_VPS : cty := aligned HV_CALL_ALIGNMENT (struct 0 [
  fld HV_PARTITION_ID "PartitionId";
  fld HV_GENERIC_SET "VpsToWake"]).
Definition HV_INPUT_SET_CPU_GROUP_AFFINITY : cty := aligned HV_CALL_ALIGNMENT (struct 0 [
  fld HV_CPU_GROUP_ID "CpuGroupId";
  fld (union 0 [
    fld HV_GENERIC_SET "Bitset";
    fld (CArr UINT64 7) "BitsetBuffer"]) "CpuGroupAffinity"]).
Definition HV_INPUT_MAP_PARTITION_EVENTLOG_BUFFER : cty := aligned HV_CALL_ALIGNMENT (struct 0 [
  fld HV_PARTITION_ID "PartitionId";
  fld (enum_type HV_EVENTLOG_TYPE) "EventLogType";
  fld UINT32 "BufferIndex";
  fld HV_GPA_PAGE_RANGE "GpaRange"]).
Definition HV_EXT_CALL : enum := [
  Is "HvExtCallReserved" 0x8000;
  Is "HvExtCallQueryCapabilities" 0x8001;
  Is "HvExtCallGetBootZeroedMemory" 0x8002;
  Is "HvExtCallMemoryHeatHint" 0x8003;
  Is "HvExtCallEpfSetup" 0x8004;
  Is "HvExtCallSchedulerAssistSetup" 0x8005;
  Is "HvExtCallMemoryHeatHintAsync" 0x8006;
  Is "HvExtCallMax" 0x8007].
Definition HV_EXT_OUTPUT_QUERY_CAPABILITIES : cty := aligned HV_CALL_ALIGNMENT (union 0 [
  fld UINT64 "AsUINT64";
  fld (struct 0 [
    bit UINT64 "GetBootZeroedMemory" 1;
    bit UINT64 "MemoryHotHint" 1;
    bit UINT64 "MemoryColdHint" 1;
    bit UINT64 "Epf" 1;
    bit UINT64 "RootScheduler" 1;
    bit UINT64 "PowerSchedulerQos" 1;
    bit UINT64 "AsyncMemoryHint" 1;
    bit UINT64 "MemoryColdHintLargeOnly" 1;
    bit UINT64 "MemoryColdDiscardHint" 1;
    bit UINT64 "Reserved" 55]) anonymous]).
Definition HV_EXT_OUTPUT_BOOT_ZEROED_MEMORY_RANGE : cty := struct 0 [
  fld HV_GPA "StartGpa";
  fld UINT64 "PageCount"].
Definition HV_EXT_OUTPUT_BOOT_ZEROED_MEMORY : cty := aligned HV_CALL_ALIGNMENT (struct 0 [
  fld UINT64 "RangeCount";
  fld (CArr HV_EXT_OUTPUT_BOOT_ZEROED_MEMORY_RANGE 255) "ZeroedRanges"]).
Definition HV_EXT_INPUT_MEMORY_HEAT_HINT : cty := aligned HV_CALL_ALIGNMENT (struct 0 [
  bit UINT64 "Heat" 2;
  bit UINT64 "Reserved" 62;
  fld (CArr HV_GPA_PAGE_RANGE 0) "Ranges"]).
Definition HV_EXT_EPF_MODE : enum := [
  Is "HvExtEpfModeMin" 0x0;
  Is "HvExtEpfModeNt" 0x0;
  Is "HvExtEpfModeMax" 0x1].
Definition HV_EXT_EPF_COMPLETION_QUEUE : cty := struct 0 [
  fld UINT64 "ReadCursor";
  fld UINT64 "WriteCursor";
  fld (CArr UINT64 HV_ANYSIZE_ARRAY) "Queue"].
Definition HV_EXT_INPUT_EPF_SETUP : cty := aligned HV_CALL_ALIGNMENT (struct 0 [
  fld UINT32 "Version";
  fld (enum_type HV_EXT_EPF_MODE) "Mode";
  fld HV_GPA "CompletionQueueGpaPage";
  fld UINT64 "CompletionQueuePageCount"]).
Definition HV_EXT_OUTPUT_EPF_SETUP : cty := aligned HV_CALL_ALIGNMENT (struct 0 [
  fld UINT64 "CompletionQueuePageCount"]).
Definition HV_EXT_SCHEDULER_ASSIST_MODE : enum := [
  Is "HvExtSchedulerAssistModeNone" 0x0;
  Is "HvExtSchedulerAssistModeNt" 0x1;
  Is "HvExtSchedulerAssistModeMax" 0x2].
Definition HV_EXT_SCHEDULER_ASSIST_ACTION : enum := [
  Is "HvExtSchedulerAssistSetDataPage" 0x0;
  Is "HvExtSchedulerAssistUpdateBamQos" 0x1;
  Is "HvExtSchedulerAssistUpdatePriority" 0x2;
  Is "HvExtSchedulerAssistRemoveSystemWorkBoost" 0x3;
  Is "HvExtSchedulerAssistEventSignalled" 0x4;
  Is "HvExtSchedulerAssistActionMax" 0x5].
Definition HV_EXT_SCHEDULER_ASSIST_DATA : cty := struct 0 [
  fld (union 0 [
    fld UINT32 "PriorityState";
    fld (struct 0 [
      bit UINT32 "RootPriority" 8;
      bit UINT32 "GuestPriority" 8;
      bit UINT32 "Spare" 1;
      bit UINT32 "LowPriorityOverride" 1;
      bit UINT32 "RootRequiresPriorityKick" 1;
      bit UINT32 "HrTimerActive" 1;
      bit UINT32 "RootProcessingAssistData" 1;
      bit UINT32 "InterruptsDisabled" 1;
      bit UINT32 "Reserved" 10]) anonymous]) anonymous;
  fld UINT32 "BamQosLevel";
  fld HV_VP_INDEX "TargetVpIndex";
  fld (enum_type HV_EXT_SCHEDULER_ASSIST_ACTION) "SchedulerAssistAction";
  fld UINT8 "DoNotPreempt";
  fld UINT32 "SystemIrqlMask";
  fld UINT32 "Spare2";
  fld UINT32 "DpcInsertedCount";
  fld UINT32 "IpiInsertedCount";
  fld UINT64 "EventsSignalledCount";
  fld UINT64 "EventsAcknowledgedCount";
  fld (CAlign 128 UINT8) "RootIsRunning";
  fld UINT8 "RootInHvCallDispatchVp"].
Definition HV_EXT_INPUT_SETUP_SCHEDULER_ASSIST : cty := aligned HV_CALL_ALIGNMENT (struct 0 [
  fld UINT32 "Version";
  fld (enum_type HV_EXT_SCHEDULER_ASSIST_MODE) "Mode";
  fld HV_GPA "SchedulerAssistDataGpa"]).

(** ** The records and enumerations of the file *)

Definition TlfsCalls_types : list (string * cty) := [
  ("HV_HYPERCALL_INPUT_PRIVATE", HV_HYPERCALL_INPUT_PRIVATE);
  ("HV_INPUT_FLUSH_VIRTUAL_ADDRESS_SPACE", HV_INPUT_FLUSH_VIRTUAL_ADDRESS_SPACE);
  ("HV_INPUT_FLUSH_VIRTUAL_ADDRESS_LIST", HV_INPUT_FLUSH_VIRTUAL_ADDRESS_LIST);
  ("HV_INPUT_GET_LOGICAL_PROCESSOR_RUN_TIME", HV_INPUT_GET_LOGICAL_PROCESSOR_RUN_TIME);
  ("HV_OUTPUT_GET_LOGICAL_PROCESSOR_RUN_TIME", HV_OUTPUT_GET_LOGICAL_PROCESSOR_RUN_TIME);
  ("HV_INPUT_UPDATE_PROCESSOR_FEATURES", HV_INPUT_UPDATE_PROCESSOR_FEATURES);
  ("HV_INPUT_NOTIFY_LONG_SPINWAIT", HV_INPUT_NOTIFY_LONG_SPINWAIT);
  ("HV_INPUT_PARK_LOGICAL_PROCESSORS", HV_INPUT_PARK_LOGICAL_PROCESSORS);
  ("HV_INPUT_PARKED_VIRTUAL_PROCESSORS", HV_INPUT_PARKED_VIRTUAL_PROCESSORS);
  ("HV_INPUT_INVOKE_HYPERVISOR_DEBUGGER", HV_INPUT_INVOKE_HYPERVISOR_DEBUGGER);
  ("HV_INPUT_SEND_SYNTHETIC_CLUSTER_IPI", HV_INPUT_SEND_SYNTHETIC_CLUSTER_IPI);
  ("HV_INPUT_MODIFY_VTL_PROTECTION_MASK", HV_INPUT_MODIFY_VTL_PROTECTION_MASK);
  ("HV_ENABLE_PARTITION_VTL_FLAGS", HV_ENABLE_PARTITION_VTL_FLAGS);
  ("HV_INPUT_ENABLE_PARTITION_VTL", HV_INPUT_ENABLE_PARTITION_VTL);
  ("HV_DISABLE_PARTITION_VTL_FLAGS", HV_DISABLE_PARTITION_VTL_FLAGS);
  ("HV_INPUT_DISABLE_PARTITION_VTL", HV_INPUT_DISABLE_PARTITION_VTL);
  ("HV_INPUT_ENABLE_VP_VTL", HV_INPUT_ENABLE_VP_VTL);
  ("HV_DISABLE_VP_VTL_FLAGS", HV_DISABLE_VP_VTL_FLAGS);
  ("HV_INPUT_DISABLE_VP_VTL", HV_INPUT_DISABLE_VP_VTL);
  ("HV_INPUT_FLUSH_VIRTUAL_ADDRESS_SPACE_EX", HV_INPUT_FLUSH_VIRTUAL_ADDRESS_SPACE_EX);
  ("HV_INPUT_FLUSH_VIRTUAL_ADDRESS_LIST_EX", HV_INPUT_FLUSH_VIRTUAL_ADDRESS_LIST_EX);
  ("HV_INPUT_SEND_SYNTHETIC_CLUSTER_IPI_EX", HV_INPUT_SEND_SYNTHETIC_CLUSTER_IPI_EX);
  ("HV_SLOT_TRAITS", HV_SLOT_TRAITS);
  ("HV_MODULE_TRAITS", HV_MODULE_TRAITS);
  ("HV_GPA_PAGE_PERMISSION", HV_GPA_PAGE_PERMISSION);
  ("HV_INPUT_QUERY_IMAGE_INFO", HV_INPUT_QUERY_IMAGE_INFO);
  ("HV_OUTPUT_QUERY_IMAGE_INFO", HV_OUTPUT_QUERY_IMAGE_INFO);
  ("HV_VA_PERMISSION", HV_VA_PERMISSION);
  ("HV_INPUT_MAP_IMAGE_PAGES", HV_INPUT_MAP_IMAGE_PAGES);
  ("HV_INPUT_COMMIT_PATCH", HV_INPUT_COMMIT_PATCH);
  ("HV_INPUT_SYNC_CONTEXT", HV_INPUT_SYNC_CONTEXT);
  ("HV_INPUT_SYNC_CONTEXT_EX", HV_INPUT_SYNC_CONTEXT_EX);
  ("HV_INPUT_SET_PERF_REGISTER", HV_INPUT_SET_PERF_REGISTER);
  ("HV_INPUT_GET_PERF_REGISTER", HV_INPUT_GET_PERF_REGISTER);
  ("HV_OUTPUT_GET_PERF_REGISTER", HV_OUTPUT_GET_PERF_REGISTER);
  ("HV_INPUT_CREATE_PARTITION_V1", HV_INPUT_CREATE_PARTITION_V1);
  ("HV_INPUT_CREATE_PARTITION_V2", HV_INPUT_CREATE_PARTITION_V2);
  ("HV_INPUT_CREATE_PARTITION", HV_INPUT_CREATE_PARTITION);
  ("HV_OUTPUT_CREATE_PARTITION", HV_OUTPUT_CREATE_PARTITION);
  ("HV_INPUT_INITIALIZE_PARTITION", HV_INPUT_INITIALIZE_PARTITION);
  ("HV_INPUT_FINALIZE_PARTITION", HV_INPUT_FINALIZE_PARTITION);
  ("HV_INPUT_DELETE_PARTITION", HV_INPUT_DELETE_PARTITION);
  ("HV_INPUT_GET_PARTITION_PROPERTY", HV_INPUT_GET_PARTITION_PROPERTY);
  ("HV_OUTPUT_GET_PARTITION_PROPERTY", HV_OUTPUT_GET_PARTITION_PROPERTY);
  ("HV_INPUT_SET_PARTITION_PROPERTY", HV_INPUT_SET_PARTITION_PROPERTY);
  ("HV_OUTPUT_GET_PARTITION_ID", HV_OUTPUT_GET_PARTITION_ID);
  ("HV_INPUT_GET_NEXT_CHILD_PARTITION", HV_INPUT_GET_NEXT_CHILD_PARTITION);
  ("HV_OUTPUT_GET_NEXT_CHILD_PARTITION", HV_OUTPUT_GET_NEXT_CHILD_PARTITION);
  ("HV_INPUT_DEPOSIT_MEMORY", HV_INPUT_DEPOSIT_MEMORY);
  ("HV_INPUT_WITHDRAW_MEMORY", HV_INPUT_WITHDRAW_MEMORY);
  ("HV_OUTPUT_WITHDRAW_MEMORY", HV_OUTPUT_WITHDRAW_MEMORY);
  ("HV_INPUT_GET_MEMORY_BALANCE", HV_INPUT_GET_MEMORY_BALANCE);
  ("HV_OUTPUT_GET_MEMORY_BALANCE", HV_OUTPUT_GET_MEMORY_BALANCE);
  ("HV_INPUT_MAP_GPA_PAGES", HV_INPUT_MAP_GPA_PAGES);
  ("HV_INPUT_UNMAP_GPA_PAGES", HV_INPUT_UNMAP_GPA_PAGES);
  ("HV_INPUT_INSTALL_INTERCEPT", HV_INPUT_INSTALL_INTERCEPT);
  ("HV_INPUT_CREATE_VP_V1", HV_INPUT_CREATE_VP_V1);
  ("HV_INPUT_CREATE_VP", HV_INPUT_CREATE_VP);
  ("HV_INPUT_DELETE_VP", HV_INPUT_DELETE_VP);
  ("HV_INPUT_GET_VP_REGISTERS", HV_INPUT_GET_VP_REGISTERS);
  ("HV_OUTPUT_GET_VP_REGISTERS", HV_OUTPUT_GET_VP_REGISTERS);
  ("HV_REGISTER_ASSOC", HV_REGISTER_ASSOC);
  ("HV_INPUT_SET_VP_REGISTERS", HV_INPUT_SET_VP_REGISTERS);
  ("HV_INPUT_TRANSLATE_VIRTUAL_ADDRESS", HV_INPUT_TRANSLATE_VIRTUAL_ADDRESS);
  ("HV_OUTPUT_TRANSLATE_VIRTUAL_ADDRESS", HV_OUTPUT_TRANSLATE_VIRTUAL_ADDRESS);
  ("HV_INPUT_READ_GPA", HV_INPUT_READ_GPA);
  ("HV_OUTPUT_READ_GPA", HV_OUTPUT_READ_GPA);
  ("HV_INPUT_WRITE_GPA", HV_INPUT_WRITE_GPA);
  ("HV_OUTPUT_WRITE_GPA", HV_OUTPUT_WRITE_GPA);
  ("HV_INPUT_ASSERT_VIRTUAL_INTERRUPT_DEPRECATED", HV_INPUT_ASSERT_VIRTUAL_INTERRUPT_DEPRECATED);
  ("HV_INPUT_CLEAR_VIRTUAL_INTERRUPT", HV_INPUT_CLEAR_VIRTUAL_INTERRUPT);
  ("HV_INPUT_CREATE_PORT_DEPRECATED", HV_INPUT_CREATE_PORT_DEPRECATED);
  ("HV_INPUT_DELETE_PORT", HV_INPUT_DELETE_PORT);
  ("HV_INPUT_CONNECT_PORT_DEPRECATED", HV_INPUT_CONNECT_PORT_DEPRECATED);
  ("HV_INPUT_GET_PORT_PROPERTY", HV_INPUT_GET_PORT_PROPERTY);
  ("HV_OUTPUT_GET_PORT_PROPERTY", HV_OUTPUT_GET_PORT_PROPERTY);
  ("HV_INPUT_DISCONNECT_PORT", HV_INPUT_DISCONNECT_PORT);
  ("HV_INPUT_SAVE_PARTITION_STATE", HV_INPUT_SAVE_PARTITION_STATE);
  ("HV_OUTPUT_SAVE_PARTITION_STATE", HV_OUTPUT_SAVE_PARTITION_STATE);
  ("HV_INPUT_RESTORE_PARTITION_STATE", HV_INPUT_RESTORE_PARTITION_STATE);
  ("HV_OUTPUT_RESTORE_PARTITION_STATE", HV_OUTPUT_RESTORE_PARTITION_STATE);
  ("HV_EVENTLOG_INIT_TYPE", HV_EVENTLOG_INIT_TYPE);
  ("HV_INPUT_INITIALIZE_EVENTLOG_BUFFER_GROUP", HV_INPUT_INITIALIZE_EVENTLOG_BUFFER_GROUP);
  ("HV_INPUT_FINALIZE_EVENTLOG_BUFFER_GROUP", HV_INPUT_FINALIZE_EVENTLOG_BUFFER_GROUP);
  ("HV_INPUT_CREATE_EVENTLOG_BUFFER", HV_INPUT_CREATE_EVENTLOG_BUFFER);
  ("HV_INPUT_DELETE_EVENTLOG_BUFFER", HV_INPUT_DELETE_EVENTLOG_BUFFER);
  ("HV_INPUT_MAP_EVENTLOG_BUFFER", HV_INPUT_MAP_EVENTLOG_BUFFER);
  ("HV_OUTPUT_MAP_EVENTLOG_BUFFER", HV_OUTPUT_MAP_EVENTLOG_BUFFER);
  ("HV_INPUT_UNMAP_EVENTLOG_BUFFER", HV_INPUT_UNMAP_EVENTLOG_BUFFER);
  ("HV_INPUT_EVENTLOG_GROUP_EVENTS", HV_INPUT_EVENTLOG_GROUP_EVENTS);
  ("HV_INPUT_EVENTLOG_RELEASE_BUFFER", HV_INPUT_EVENTLOG_RELEASE_BUFFER);
  ("HV_INPUT_FLUSH_EVENTLOG_BUFFER", HV_INPUT_FLUSH_EVENTLOG_BUFFER);
  ("HV_INPUT_POST_DEBUG_DATA", HV_INPUT_POST_DEBUG_DATA);
  ("HV_OUTPUT_POST_DEBUG_DATA", HV_OUTPUT_POST_DEBUG_DATA);
  ("HV_INPUT_RETRIEVE_DEBUG_DATA", HV_INPUT_RETRIEVE_DEBUG_DATA);
  ("HV_OUTPUT_RETRIEVE_DEBUG_DATA", HV_OUTPUT_RETRIEVE_DEBUG_DATA);
  ("HV_INPUT_RESET_DEBUG_SESSION", HV_INPUT_RESET_DEBUG_SESSION);
  ("HV_OUTPUT_RESET_DEBUG_SESSION", HV_OUTPUT_RESET_DEBUG_SESSION);
  ("HV_INPUT_MAP_STATS_PAGE", HV_INPUT_MAP_STATS_PAGE);
  ("HV_OUTPUT_MAP_STATS_PAGE", HV_OUTPUT_MAP_STATS_PAGE);
  ("HV_INPUT_UNMAP_STATS_PAGE", HV_INPUT_UNMAP_STATS_PAGE);
  ("HV_GPA_MAPPING", HV_GPA_MAPPING);
  ("HV_INPUT_MAP_SPARSE_GPA_PAGES", HV_INPUT_MAP_SPARSE_GPA_PAGES);
  ("HV_INPUT_SET_SYSTEM_PROPERTY", HV_INPUT_SET_SYSTEM_PROPERTY);
  ("HV_INPUT_SET_PORT_PROPERTY", HV_INPUT_SET_PORT_PROPERTY);
  ("HV_INPUT_ADD_LOGICAL_PROCESSOR", HV_INPUT_ADD_LOGICAL_PROCESSOR);
  ("HV_OUTPUT_ADD_LOGICAL_PROCESSOR", HV_OUTPUT_ADD_LOGICAL_PROCESSOR);
  ("HV_INPUT_REMOVE_LOGICAL_PROCESSOR", HV_INPUT_REMOVE_LOGICAL_PROCESSOR);
  ("HV_INPUT_QUERY_NUMA_DISTANCE", HV_INPUT_QUERY_NUMA_DISTANCE);
  ("HV_OUTPUT_QUERY_NUMA_DISTANCE", HV_OUTPUT_QUERY_NUMA_DISTANCE);
  ("HV_INPUT_SET_LOGICAL_PROCESSOR_PROPERTY", HV_INPUT_SET_LOGICAL_PROCESSOR_PROPERTY);
  ("HV_INPUT_GET_LOGICAL_PROCESSOR_PROPERTY", HV_INPUT_GET_LOGICAL_PROCESSOR_PROPERTY);
  ("HV_OUTPUT_GET_LOGICAL_PROCESSOR_PROPERTY", HV_OUTPUT_GET_LOGICAL_PROCESSOR_PROPERTY);
  ("HV_INPUT_GET_SYSTEM_PROPERTY", HV_INPUT_GET_SYSTEM_PROPERTY);
  ("HV_OUTPUT_GET_SYSTEM_PROPERTY", HV_OUTPUT_GET_SYSTEM_PROPERTY);
  ("HV_INPUT_MAP_DEVICE_INTERRUPT", HV_INPUT_MAP_DEVICE_INTERRUPT);
  ("HV_OUTPUT_MAP_DEVICE_INTERRUPT", HV_OUTPUT_MAP_DEVICE_INTERRUPT);
  ("HV_INPUT_UNMAP_DEVICE_INTERRUPT", HV_INPUT_UNMAP_DEVICE_INTERRUPT);
  ("HV_INPUT_RETARGET_DEVICE_INTERRUPT", HV_INPUT_RETARGET_DEVICE_INTERRUPT);
  ("HV_OUTPUT_RETARGET_ROOT_DEVICE_INTERRUPT", HV_OUTPUT_RETARGET_ROOT_DEVICE_INTERRUPT);
  ("HV_INPUT_ASSERT_DEVICE_INTERRUPT", HV_INPUT_ASSERT_DEVICE_INTERRUPT);
  ("HV_INPUT_ATTACH_DEVICE", HV_INPUT_ATTACH_DEVICE);
  ("HV_INPUT_DETACH_DEVICE", HV_INPUT_DETACH_DEVICE);
  ("HV_INPUT_ENTER_SLEEP_STATE", HV_INPUT_ENTER_SLEEP_STATE);
  ("HV_INPUT_PREPARE_FOR_SLEEP", HV_INPUT_PREPARE_FOR_SLEEP);
  ("HV_INPUT_PREPARE_FOR_HIBERNATE", HV_INPUT_PREPARE_FOR_HIBERNATE);
  ("HV_X64_OUTPUT_PREPARE_FOR_HIBERNATE", HV_X64_OUTPUT_PREPARE_FOR_HIBERNATE);
  ("HV_INPUT_NOTIFY_PARTITION_EVENT", HV_INPUT_NOTIFY_PARTITION_EVENT);
  ("HV_INPUT_QUERY_ASSOCIATED_LP_FOR_MCA", HV_INPUT_QUERY_ASSOCIATED_LP_FOR_MCA);
  ("HV_OUTPUT_QUERY_ASSOCIATED_LP_FOR_MCA", HV_OUTPUT_QUERY_ASSOCIATED_LP_FOR_MCA);
  ("HV_INPUT_NOTIFY_PORT_RING_EMPTY", HV_INPUT_NOTIFY_PORT_RING_EMPTY);
  ("HV_INPUT_INJECT_SYNTHETIC_MACHINE_CHECK", HV_INPUT_INJECT_SYNTHETIC_MACHINE_CHECK);
  ("HV_INPUT_SCRUB_PARTITION", HV_INPUT_SCRUB_PARTITION);
  ("HV_INPUT_COLLECT_LIVE_DUMP", HV_INPUT_COLLECT_LIVE_DUMP);
  ("HV_OUTPUT_COLLECT_LIVE_DUMP", HV_OUTPUT_COLLECT_LIVE_DUMP);
  ("HV_X64_INPUT_DISABLE_HYPERVISOR", HV_X64_INPUT_DISABLE_HYPERVISOR);
  ("HV_ARM64_INPUT_LAUNCH_HYPERVISOR", HV_ARM64_INPUT_LAUNCH_HYPERVISOR);
  ("HV_INPUT_MODIFY_SPARSE_GPA_PAGES", HV_INPUT_MODIFY_SPARSE_GPA_PAGES);
  ("HV_INPUT_REGISTER_INTERCEPT_RESULT", HV_INPUT_REGISTER_INTERCEPT_RESULT);
  ("HV_INPUT_GET_COVERAGE_VECTOR", HV_INPUT_GET_COVERAGE_VECTOR);
  ("HV_OUTPUT_GET_COVERAGE_VECTOR", HV_OUTPUT_GET_COVERAGE_VECTOR);
  ("HV_INPUT_ASSERT_VIRTUAL_INTERRUPT", HV_INPUT_ASSERT_VIRTUAL_INTERRUPT);
  ("HV_INPUT_CREATE_PORT", HV_INPUT_CREATE_PORT);
  ("HV_INPUT_CONNECT_PORT", HV_INPUT_CONNECT_PORT);
  ("HV_INPUT_GET_SPA_PAGE_LIST", HV_INPUT_GET_SPA_PAGE_LIST);
  ("HV_OUTPUT_GET_SPA_PAGE_LIST", HV_OUTPUT_GET_SPA_PAGE_LIST);
  ("HV_INPUT_GET_VP_INDEX_FROM_APIC_ID", HV_INPUT_GET_VP_INDEX_FROM_APIC_ID);
  ("HV_OUTPUT_GET_VP_INDEX_FROM_APIC_ID", HV_OUTPUT_GET_VP_INDEX_FROM_APIC_ID);
  ("HV_INPUT_GET_POWER_PROPERTY", HV_INPUT_GET_POWER_PROPERTY);
  ("HV_OUTPUT_GET_POWER_PROPERTY", HV_OUTPUT_GET_POWER_PROPERTY);
  ("HV_INPUT_SET_POWER_PROPERTY", HV_INPUT_SET_POWER_PROPERTY);
  ("HV_INPUT_CREATE_PASID_SPACE", HV_INPUT_CREATE_PASID_SPACE);
  ("HV_INPUT_DELETE_PASID_SPACE", HV_INPUT_DELETE_PASID_SPACE);
  ("HV_INPUT_SET_PASID_ADDRESS_SPACE", HV_INPUT_SET_PASID_ADDRESS_SPACE);
  ("HV_INPUT_FLUSH_PASID_ADDRESS_SPACE", HV_INPUT_FLUSH_PASID_ADDRESS_SPACE);
  ("HV_INPUT_FLUSH_PASID_ADDRESS_LIST", HV_INPUT_FLUSH_PASID_ADDRESS_LIST);
  ("HV_INPUT_ATTACH_PASID_SPACE", HV_INPUT_ATTACH_PASID_SPACE);
  ("HV_INPUT_DETACH_PASID_SPACE", HV_INPUT_DETACH_PASID_SPACE);
  ("HV_INPUT_ENABLE_PASID", HV_INPUT_ENABLE_PASID);
  ("HV_INPUT_DISABLE_PASID", HV_INPUT_DISABLE_PASID);
  ("HV_INPUT_CREATE_DEVICE_PR_QUEUE", HV_INPUT_CREATE_DEVICE_PR_QUEUE);
  ("HV_INPUT_DELETE_DEVICE_PR_QUEUE", HV_INPUT_DELETE_DEVICE_PR_QUEUE);
  ("HV_INPUT_SET_DEVICE_PRQ_PROPERTY_HEADER", HV_INPUT_SET_DEVICE_PRQ_PROPERTY_HEADER);
  ("HV_INPUT_GET_PHYSICAL_DEVICE_PROPERTY", HV_INPUT_GET_PHYSICAL_DEVICE_PROPERTY);
  ("HV_OUTPUT_GET_PHYSICAL_DEVICE_PROPERTY", HV_OUTPUT_GET_PHYSICAL_DEVICE_PROPERTY);
  ("HV_INPUT_SET_PHYSICAL_DEVICE_PROPERTY_HEADER", HV_INPUT_SET_PHYSICAL_DEVICE_PROPERTY_HEADER);
  ("HV_OUTPUT_TRANSLATE_VIRTUAL_ADDRESS_EX", HV_OUTPUT_TRANSLATE_VIRTUAL_ADDRESS_EX);
  ("HV_INPUT_CHECK_FOR_IO_INTERCEPT", HV_INPUT_CHECK_FOR_IO_INTERCEPT);
  ("HV_OUTPUT_CHECK_FOR_IO_INTERCEPT", HV_OUTPUT_CHECK_FOR_IO_INTERCEPT);
  ("HV_INPUT_SET_GPA_PAGE_ATTRIBUTES", HV_INPUT_SET_GPA_PAGE_ATTRIBUTES);
  ("HV_INPUT_FLUSH_GUEST_PHYSICAL_ADDRESS_SPACE", HV_INPUT_FLUSH_GUEST_PHYSICAL_ADDRESS_SPACE);
  ("HV_INPUT_FLUSH_GUEST_PHYSICAL_ADDRESS_LIST", HV_INPUT_FLUSH_GUEST_PHYSICAL_ADDRESS_LIST);
  ("HV_CREATE_DEVICE_DOMAIN_FLAGS", HV_CREATE_DEVICE_DOMAIN_FLAGS);
  ("HV_INPUT_CREATE_DEVICE_DOMAIN", HV_INPUT_CREATE_DEVICE_DOMAIN);
  ("HV_INPUT_ATTACH_DEVICE_DOMAIN", HV_INPUT_ATTACH_DEVICE_DOMAIN);
  ("HV_INPUT_MAP_DEVICE_GPA_PAGES", HV_INPUT_MAP_DEVICE_GPA_PAGES);
  ("HV_INPUT_UNMAP_DEVICE_GPA_PAGES", HV_INPUT_UNMAP_DEVICE_GPA_PAGES);
  ("HV_OUTPUT_CREATE_CPU_GROUP", HV_OUTPUT_CREATE_CPU_GROUP);
  ("HV_INPUT_DELETE_CPU_GROUP", HV_INPUT_DELETE_CPU_GROUP);
  ("HV_INPUT_GET_CPU_GROUP_PROPERTY", HV_INPUT_GET_CPU_GROUP_PROPERTY);
  ("HV_OUTPUT_GET_CPU_GROUP_PROPERTY", HV_OUTPUT_GET_CPU_GROUP_PROPERTY);
  ("HV_INPUT_SET_CPU_GROUP_PROPERTY", HV_INPUT_SET_CPU_GROUP_PROPERTY);
  ("HV_INPUT_GET_CPU_GROUP_AFFINITY", HV_INPUT_GET_CPU_GROUP_AFFINITY);
  ("HV_OUTPUT_GET_CPU_GROUP_AFFINITY", HV_OUTPUT_GET_CPU_GROUP_AFFINITY);
  ("HV_INPUT_GET_NEXT_CPU_GROUP", HV_INPUT_GET_NEXT_CPU_GROUP);
  ("HV_OUTPUT_GET_NEXT_CPU_GROUP", HV_OUTPUT_GET_NEXT_CPU_GROUP);
  ("HV_INPUT_GET_NEXT_CPU_GROUP_PARTITION", HV_INPUT_GET_NEXT_CPU_GROUP_PARTITION);
  ("HV_OUTPUT_GET_NEXT_CPU_GROUP_PARTITION", HV_OUTPUT_GET_NEXT_CPU_GROUP_PARTITION);
  ("HV_INPUT_ADD_PHYSICAL_MEMORY", HV_INPUT_ADD_PHYSICAL_MEMORY);
  ("HV_OUTPUT_ADD_PHYSICAL_MEMORY", HV_OUTPUT_ADD_PHYSICAL_MEMORY);
  ("HV_INPUT_COMPLETE_INTERCEPT", HV_INPUT_COMPLETE_INTERCEPT);
  ("HV_INPUT_PRECOMMIT_GPA_PAGES", HV_INPUT_PRECOMMIT_GPA_PAGES);
  ("HV_INPUT_UNCOMMIT_GPA_PAGES", HV_INPUT_UNCOMMIT_GPA_PAGES);
  ("HV_INPUT_SIGNAL_EVENT_DIRECT", HV_INPUT_SIGNAL_EVENT_DIRECT);
  ("HV_OUTPUT_SIGNAL_EVENT_DIRECT", HV_OUTPUT_SIGNAL_EVENT_DIRECT);
  ("HV_INPUT_POST_MESSAGE_DIRECT", HV_INPUT_POST_MESSAGE_DIRECT);
  ("HV_INPUT_DISPATCH_VP", HV_INPUT_DISPATCH_VP);
  ("HV_OUTPUT_DISPATCH_VP", HV_OUTPUT_DISPATCH_VP);
  ("HV_INPUT_PROCESS_IOMMU_PRQ", HV_INPUT_PROCESS_IOMMU_PRQ);
  ("HV_INPUT_DETACH_DEVICE_DOMAIN", HV_INPUT_DETACH_DEVICE_DOMAIN);
  ("HV_INPUT_DELETE_DEVICE_DOMAIN", HV_INPUT_DELETE_DEVICE_DOMAIN);
  ("HV_INPUT_QUERY_DEVICE_DOMAIN", HV_INPUT_QUERY_DEVICE_DOMAIN);
  ("HV_DEVICE_VA_MAPPING", HV_DEVICE_VA_MAPPING);
  ("HV_INPUT_MAP_SPARSE_DEVICE_GPA_PAGES", HV_INPUT_MAP_SPARSE_DEVICE_GPA_PAGES);
  ("HV_INPUT_UNMAP_SPARSE_DEVICE_GPA_PAGES", HV_INPUT_UNMAP_SPARSE_DEVICE_GPA_PAGES);
  ("HV_INPUT_GET_GPA_PAGES_ACCESS_STATE", HV_INPUT_GET_GPA_PAGES_ACCESS_STATE);
  ("HV_INPUT_GET_SPARSE_GPA_PAGES_ACCESS_STATE", HV_INPUT_GET_SPARSE_GPA_PAGES_ACCESS_STATE);
  ("HV_INPUT_QUERY_VTL_PROTECTION_MASK_RANGE", HV_INPUT_QUERY_VTL_PROTECTION_MASK_RANGE);
  ("HV_INPUT_MODIFY_VTL_PROTECTION_MASK_RANGE", HV_INPUT_MODIFY_VTL_PROTECTION_MASK_RANGE);
  ("HV_DEVICE_DOMAIN_SETTINGS", HV_DEVICE_DOMAIN_SETTINGS);
  ("HV_INPUT_CONFIGURE_DEVICE_DOMAIN", HV_INPUT_CONFIGURE_DEVICE_DOMAIN);
  ("HV_INPUT_FLUSH_DEVICE_DOMAIN", HV_INPUT_FLUSH_DEVICE_DOMAIN);
  ("HV_INPUT_FLUSH_DEVICE_DOMAIN_LIST", HV_INPUT_FLUSH_DEVICE_DOMAIN_LIST);
  ("HV_INPUT_MODIFY_SPARSE_GPA_PAGE_HOST_ACCESS", HV_INPUT_MODIFY_SPARSE_GPA_PAGE_HOST_ACCESS);
  ("HV_INPUT_CHECK_SPARSE_GPA_PAGE_VTL_ACCESS", HV_INPUT_CHECK_SPARSE_GPA_PAGE_VTL_ACCESS);
  ("HV_INPUT_MODIFY_SPARSE_SPA_PAGE_HOST_ACCESS", HV_INPUT_MODIFY_SPARSE_SPA_PAGE_HOST_ACCESS);
  ("HV_INPUT_ACCEPT_GPA_PAGES", HV_INPUT_ACCEPT_GPA_PAGES);
  ("HV_INPUT_UNACCEPT_GPA_PAGES", HV_INPUT_UNACCEPT_GPA_PAGES);
  ("HV_GPA_PAGE_MAPPING_LOCK_INPUT", HV_GPA_PAGE_MAPPING_LOCK_INPUT);
  ("HV_GPA_PAGE_MAPPING_LOCK_OUTPUT", HV_GPA_PAGE_MAPPING_LOCK_OUTPUT);
  ("HV_INPUT_LOCK_SPARSE_GPA_PAGE_MAPPING", HV_INPUT_LOCK_SPARSE_GPA_PAGE_MAPPING);
  ("HV_GPA_PAGE_MAPPING_UNLOCK_INPUT", HV_GPA_PAGE_MAPPING_UNLOCK_INPUT);
  ("HV_INPUT_UNLOCK_SPARSE_GPA_PAGE_MAPPING", HV_INPUT_UNLOCK_SPARSE_GPA_PAGE_MAPPING);
  ("HV_INPUT_REQUEST_PROCESSOR_HALT_FLAGS", HV_INPUT_REQUEST_PROCESSOR_HALT_FLAGS);
  ("HV_PPM_IDLE_STATE_REQUEST", HV_PPM_IDLE_STATE_REQUEST);
  ("HV_INPUT_REQUEST_PROCESSOR_HALT", HV_INPUT_REQUEST_PROCESSOR_HALT);
  ("HV_INPUT_GET_INTERCEPT_DATA", HV_INPUT_GET_INTERCEPT_DATA);
  ("HV_INPUT_QUERY_DEVICE_INTERRUPT_TARGET", HV_INPUT_QUERY_DEVICE_INTERRUPT_TARGET);
  ("HV_OUTPUT_QUERY_DEVICE_INTERRUPT_TARGET", HV_OUTPUT_QUERY_DEVICE_INTERRUPT_TARGET);
  ("HV_INPUT_MAP_VP_STATE_PAGE", HV_INPUT_MAP_VP_STATE_PAGE);
  ("HV_OUTPUT_MAP_VP_STATE_PAGE", HV_OUTPUT_MAP_VP_STATE_PAGE);
  ("HV_INPUT_UNMAP_VP_STATE_PAGE", HV_INPUT_UNMAP_VP_STATE_PAGE);
  ("HV_INPUT_GET_VP_STATE", HV_INPUT_GET_VP_STATE);
  ("HV_OUTPUT_GET_VP_STATE", HV_OUTPUT_GET_VP_STATE);
  ("HV_INPUT_SET_VP_STATE_DATA", HV_INPUT_SET_VP_STATE_DATA);
  ("HV_INPUT_SET_VP_STATE", HV_INPUT_SET_VP_STATE);
  ("HV_INPUT_RESERVE_DEVICE_INTERRUPT", HV_INPUT_RESERVE_DEVICE_INTERRUPT);
  ("HV_INPUT_PERSIST_DEVICE", HV_INPUT_PERSIST_DEVICE);
  ("HV_INPUT_UNPERSIST_DEVICE", HV_INPUT_UNPERSIST_DEVICE);
  ("HV_INPUT_PERSIST_DEVICE_INTERRUPT", HV_INPUT_PERSIST_DEVICE_INTERRUPT);
  ("HV_OUTPUT_PERSIST_DEVICE_INTERRUPT", HV_OUTPUT_PERSIST_DEVICE_INTERRUPT);
  ("HV_INPUT_REFRESH_PERFORMANCE_COUNTERS", HV_INPUT_REFRESH_PERFORMANCE_COUNTERS);
  ("HV_PARTITION_COMPLETE_ISOLATED_IMPORT_DATA", HV_PARTITION_COMPLETE_ISOLATED_IMPORT_DATA);
  ("HV_INPUT_COMPLETE_ISOLATED_IMPORT", HV_INPUT_COMPLETE_ISOLATED_IMPORT);
  ("HV_INPUT_ROOT_SIGNAL_EVENT", HV_INPUT_ROOT_SIGNAL_EVENT);
  ("HV_OUTPUT_ROOT_SIGNAL_EVENT", HV_OUTPUT_ROOT_SIGNAL_EVENT);
  ("HV_INPUT_GET_VP_CPUID_VALUES", HV_INPUT_GET_VP_CPUID_VALUES);
  ("HV_OUTPUT_GET_VP_CPUID_VALUES", HV_OUTPUT_GET_VP_CPUID_VALUES);
  ("HV_INPUT_READ_SYSTEM_MEMORY", HV_INPUT_READ_SYSTEM_MEMORY);
  ("HV_OUTPUT_READ_SYSTEM_MEMORY", HV_OUTPUT_READ_SYSTEM_MEMORY);
  ("HV_INPUT_SET_HW_WATCHDOG_CONFIG", HV_INPUT_SET_HW_WATCHDOG_CONFIG);
  ("HV_INPUT_REMOVE_PHYSICAL_MEMORY", HV_INPUT_REMOVE_PHYSICAL_MEMORY);
  ("HV_INPUT_SUBSUME_VP", HV_INPUT_SUBSUME_VP);
  ("HV_INPUT_WRITE_SYS_DIAG_EVENT", HV_INPUT_WRITE_SYS_DIAG_EVENT);
  ("HV_SET_DEVICE_CAPABILITIES_FLAGS", HV_SET_DEVICE_CAPABILITIES_FLAGS);
  ("HV_INPUT_SET_DEVICE_CAPABILITIES", HV_INPUT_SET_DEVICE_CAPABILITIES);
  ("HV_INPUT_GET_PARTITION_PROPERTY_EX", HV_INPUT_GET_PARTITION_PROPERTY_EX);
  ("HV_OUTPUT_GET_PARTITION_PROPERTY_EX", HV_OUTPUT_GET_PARTITION_PROPERTY_EX);
  ("HV_INPUT_GET_GPA_RANGES_ACCESS_STATE", HV_INPUT_GET_GPA_RANGES_ACCESS_STATE);
  ("HV_INPUT_RESTORE_PARTITION_TIME", HV_INPUT_RESTORE_PARTITION_TIME);
  ("HV_OUTPUT_QUERY_ASSOCIATED_LP_FOR_MCA_EX", HV_OUTPUT_QUERY_ASSOCIATED_LP_FOR_MCA_EX);
  ("HV_INPUT_SET_PARTITION_PROPERTY_EX", HV_INPUT_SET_PARTITION_PROPERTY_EX);
  ("HV_INPUT_ATTACH_DEVICE_PR_QUEUE", HV_INPUT_ATTACH_DEVICE_PR_QUEUE);
  ("HV_INPUT_DETACH_DEVICE_PR_QUEUE", HV_INPUT_DETACH_DEVICE_PR_QUEUE);
  ("HV_INPUT_RESERVE_DEVICE_DOMAIN_ATTACHMENT", HV_INPUT_RESERVE_DEVICE_DOMAIN_ATTACHMENT);
  ("HV_INPUT_UNRESERVE_DEVICE_DOMAIN_ATTACHMENT", HV_INPUT_UNRESERVE_DEVICE_DOMAIN_ATTACHMENT);
  ("HV_X64_INPUT_DISABLE_HYPERVISOR_EX", HV_X64_INPUT_DISABLE_HYPERVISOR_EX);
  ("HV_INPUT_INSTALL_INTERCEPT_EX", HV_INPUT_INSTALL_INTERCEPT_EX);
  ("HV_INPUT_WAKE_VPS", HV_INPUT_WAKE_VPS);
  ("HV_INPUT_SET_CPU_GROUP_AFFINITY", HV_INPUT_SET_CPU_GROUP_AFFINITY);
  ("HV_INPUT_MAP_PARTITION_EVENTLOG_BUFFER", HV_INPUT_MAP_PARTITION_EVENTLOG_BUFFER);
  ("HV_EXT_OUTPUT_QUERY_CAPABILITIES", HV_EXT_OUTPUT_QUERY_CAPABILITIES);
  ("HV_EXT_OUTPUT_BOOT_ZEROED_MEMORY_RANGE", HV_EXT_OUTPUT_BOOT_ZEROED_MEMORY_RANGE);
  ("HV_EXT_OUTPUT_BOOT_ZEROED_MEMORY", HV_EXT_OUTPUT_BOOT_ZEROED_MEMORY);
  ("HV_EXT_INPUT_MEMORY_HEAT_HINT", HV_EXT_INPUT_MEMORY_HEAT_HINT);
  ("HV_EXT_EPF_COMPLETION_QUEUE", HV_EXT_EPF_COMPLETION_QUEUE);
  ("HV_EXT_INPUT_EPF_SETUP", HV_EXT_INPUT_EPF_SETUP);
  ("HV_EXT_OUTPUT_EPF_SETUP", HV_EXT_OUTPUT_EPF_SETUP);
  ("HV_EXT_SCHEDULER_ASSIST_DATA", HV_EXT_SCHEDULER_ASSIST_DATA);
  ("HV_EXT_INPUT_SETUP_SCHEDULER_ASSIST", HV_EXT_INPUT_SETUP_SCHEDULER_ASSIST)].
Definition TlfsCalls_enums : list (string * enum) := [
  ("HV_CALL_CODE_PRIVATE", HV_CALL_CODE_PRIVATE);
  ("HV_EXT_CALL", HV_EXT_CALL);
  ("HV_EXT_EPF_MODE", HV_EXT_EPF_MODE);
  ("HV_EXT_SCHEDULER_ASSIST_MODE", HV_EXT_SCHEDULER_ASSIST_MODE);
  ("HV_EXT_SCHEDULER_ASSIST_ACTION", HV_EXT_SCHEDULER_ASSIST_ACTION)].
