(* ===== verification/VMBusDevices.v ===== *)
(** * The VMBus devices

    Private messages of the VMBus services and the integration components of
    [Mile.HyperV.VMBus.h]. *)

From S2P Require Import Prelude CLayout GuestInterface GuestProtocols TlfsBase TlfsState TlfsPartition TlfsSymbols TlfsCpuid TlfsCalls.

Definition HV_RECT : cty := struct 0 [
  fld INT32 "Left";
  fld INT32 "Top";
  fld INT32 "Right";
  fld INT32 "Bottom"].
Definition SYNTHVID_CONTROL_CLASS_ID : guid := SYNTHVID_CLASS_ID.
Definition SYNTHVID_MESSAGE_TYPE_PRIVATE : enum := [
  Is "SynthvidSupportedResolutionsRequest" 13;
  Is "SynthvidSupportedResolutionsResponse" 14;
  Is "SynthvidCapabilityRequest" 15;
  Is "SynthvidCapabilityResponse" 16;
  Is "SynthvidPrivateMax" 17].
Definition SYNTHVID_MAKE_VERSION (Major Minor : Z) : Z := Z.lor (Z.shiftl Minor 16) Major.
Definition SYNTHVID_MAKE_VERSION_MAJOR (Version : Z) : Z := Z.land Version 0x0000ffff.
Definition SYNTHVID_MAKE_VERSION_MINOR (Version : Z) : Z := Z.shiftr (Z.land Version 0xffff0000) 16.
Definition SYNTHVID_VERSION_WIN7 : Z := SYNTHVID_MAKE_VERSION 3 0.
Definition SYNTHVID_VERSION_WIN8 : Z := SYNTHVID_MAKE_VERSION 3 2.
Definition SYNTHVID_VERSION_WINBLUE : Z := SYNTHVID_MAKE_VERSION 3 3.
Definition SYNTHVID_VERSION_WINTHRESHOLD_M1 : Z := SYNTHVID_MAKE_VERSION 3 4.
Definition SYNTHVID_VERSION_WINTHRESHOLD_M2 : Z := SYNTHVID_MAKE_VERSION 3 5.
Definition SYNTHVID_VERSION_WIN10 : Z := SYNTHVID_VERSION_WINTHRESHOLD_M2.
Definition SYNTHVID_MAKE_FEATURE (Version : Z) : Z := Z.lor (Z.shiftl (SYNTHVID_MAKE_VERSION_MAJOR
  Version) 16) (SYNTHVID_MAKE_VERSION_MINOR Version).
Definition SYNTHVID_FEATURE_WIN7 : Z := SYNTHVID_MAKE_FEATURE SYNTHVID_VERSION_WIN7.
Definition SYNTHVID_FEATURE_WIN8 : Z := SYNTHVID_MAKE_FEATURE SYNTHVID_VERSION_WIN8.
Definition SYNTHVID_FEATURE_WINBLUE : Z := SYNTHVID_MAKE_FEATURE SYNTHVID_VERSION_WINBLUE.
Definition SYNTHVID_FEATURE_WINTHRESHOLD_M1 : Z := SYNTHVID_MAKE_FEATURE SYNTHVID_VERSION_WINTHRESHOLD_M1.
Definition SYNTHVID_FEATURE_WINTHRESHOLD_M2 : Z := SYNTHVID_MAKE_FEATURE SYNTHVID_VERSION_WINTHRESHOLD_M2.
Definition SYNTHVID_FEATURE : enum := [
  Is "SynthVidFeatureWin7Rtm" SYNTHVID_FEATURE_WIN7;
  As "SynthVidFeatureBasic" "SynthVidFeatureWin7Rtm";
  Is "SynthVidFeatureWin8Rtm" SYNTHVID_FEATURE_WIN8;
  As "SynthVidFeatureHighResolutions" "SynthVidFeatureWin8Rtm";
  As "SynthVidFeatureSupportsReinit" "SynthVidFeatureWin8Rtm";
  Is "SynthVidFeatureWinBlue" SYNTHVID_FEATURE_WINBLUE;
  As "SynthVidFeatureQueryBiosInfo" "SynthVidFeatureWinBlue";
  Is "SynthVidFeatureWinThresholdM1" SYNTHVID_FEATURE_WINTHRESHOLD_M1;
  As "SynthVidFeatureResolutionSetByHost" "SynthVidFeatureWinThresholdM1";
  Is "SynthVidFeatureWinThresholdM2" SYNTHVID_FEATURE_WINTHRESHOLD_M2;
  As "SynthVidFeatureLockOnDisconnect" "SynthVidFeatureWinThresholdM2"].
Definition HVD_SCREEN_INFO : cty := struct 0 [
  fld UINT16 "Width";
  fld UINT16 "Height"].
Definition SYNTHVID_POINTER_POSITION_MESSAGE : cty := struct 1 [
  fld SYNTHVID_MESSAGE_HEADER "Header";
  fld UINT8 "IsVisible";
  fld UINT8 "VideoOutput";
  fld INT32 "ImageX";
  fld INT32 "ImageY"].
Definition SYNTHVID_POINTER_SHAPE_MESSAGE : cty := struct 1 [
  fld SYNTHVID_MESSAGE_HEADER "Header";
  fld UINT8 "PartialIndex";
  fld UINT8 "CursorFlags";
  fld UINT32 "WidthPixels";
  fld UINT32 "HeightPixels";
  fld UINT32 "HotspotX";
  fld UINT32 "HotspotY";
  fld (CArr UINT8 HV_ANYSIZE_ARRAY) "PixelData"].
Definition SYNTHVID_FEATURE_CHANGE_MESSAGE_V2 : cty := struct 0 [
  fld SYNTHVID_MESSAGE_HEADER "Header";
  fld UINT8 "IsDirtNeeded";
  fld UINT8 "IsPointerPositionUpdatesNeeded";
  fld UINT8 "IsPointerShapeUpdatesNeeded";
  fld UINT8 "IsVideoSituationUpdatesNeeded";
  fld (CArr UINT8 128) "EdidBlock"].
Definition SYNTHVID_DIRT_MESSAGE : cty := struct 1 [
  fld SYNTHVID_MESSAGE_HEADER "Header";
  fld UINT8 "VideoOutput";
  fld UINT8 "DirtCount";
  fld (CArr HV_RECT HV_ANYSIZE_ARRAY) "Dirt"].
Definition SYNTHVID_BIOS_INFO_REQUEST_MESSAGE : cty := struct 0 [
  fld SYNTHVID_MESSAGE_HEADER "Header"].
Definition SYNTHVID_BIOS_INFO_RESPONSE_MESSAGE : cty := struct 0 [
  fld SYNTHVID_MESSAGE_HEADER "Header";
  fld UINT32 "VmGeneration";
  fld UINT32 "ReservedInt32";
  fld UINT64 "ReservedInt64"].
Definition SYNTHVID_SUPPORTED_RESOLUTIONS_REQUEST_MESSAGE : cty := struct 1 [
  fld SYNTHVID_MESSAGE_HEADER "Header";
  fld UINT8 "MaximumResolutionCount"].
Definition SYNTHVID_SUPPORTED_RESOLUTIONS_RESPONSE_MESSAGE : cty := struct 1 [
  fld SYNTHVID_MESSAGE_HEADER "Header";
  fld (CArr UINT8 128) "EdidBlock";
  fld UINT8 "ResolutionCount";
  fld UINT8 "DefaultResolutionIndex";
  fld UINT8 "IsStandard";
  fld (CArr HVD_SCREEN_INFO HV_ANYSIZE_ARRAY) "SupportedResolution"].
Definition SYNTHVID_CAPABILITY_REQUEST_MESSAGE : cty := struct 0 [
  fld SYNTHVID_MESSAGE_HEADER "Header"].
Definition SYNTHVID_CAPABILITY_RESPONSE_MESSAGE : cty := struct 0 [
  fld SYNTHVID_MESSAGE_HEADER "Header";
  bit UINT32 "LockOnDisconnect" 1;
  bit UINT32 "Reserved" 31;
  fld (CArr UINT32 15) "Reserved2"].
Definition HK_CONTROL_CLASS_ID : guid := HK_CLASS_ID.
Definition HK_VERSION_MAJOR (Version : Z) : Z := Z.shiftr (Z.land Version 0xffff0000) 16.
Definition HK_VERSION_MINOR (Version : Z) : Z := Z.land Version 0x0000ffff.
Definition HK_VERSION_CURRENT : Z := HK_VERSION_WIN8.
Definition SYNTHHID_CLASS_ID : guid := Guid 0xcfa8b69e 0x5b4a 0x4cc0 [0xb9; 0x8b; 0x8b; 0xa1; 0xa1;
  0xf3; 0xf9; 0x5a].
Definition SYNTHHID_CONTROL_CLASS_ID : guid := SYNTHHID_CLASS_ID.
Definition SYNTHHID_MESSAGE_TYPE : enum := [
  Is "SynthHidProtocolRequest" 0;
  Is "SynthHidProtocolResponse" 1;
  Is "SynthHidInitialDeviceInfo" 2;
  Is "SynthHidInitialDeviceInfoAck" 3;
  Is "SynthHidInputReport" 4;
  Is "SynthHidMax" 5].
Definition SYNTHHID_MESSAGE_HEADER : cty := struct 0 [
  fld (enum_type SYNTHHID_MESSAGE_TYPE) "Type";
  fld UINT32 "Size"].
Definition SYNTHHID_MAKE_VERSION (Major Minor : Z) : Z := Z.lor (Z.shiftl Major 16) Minor.
Definition SYNTHHID_VERSION_MAJOR (Version : Z) : Z := Z.shiftr (Z.land Version 0xffff0000) 16.
Definition SYNTHHID_VERSION_MINOR (Version : Z) : Z := Z.land Version 0x0000ffff.
Definition SYNTHHID_VERSION_CURRENT : Z := SYNTHHID_MAKE_VERSION 2 0.
Definition SYNTHHID_VERSION : cty := union 0 [
  fld UINT32 "AsDWord";
  fld (struct 0 [
    fld UINT16 "Minor";
    fld UINT16 "Major"]) anonymous].
Definition HV_HID_DEVICE_ATTRIBUTES : cty := struct 0 [
  fld UINT32 "Size";
  fld UINT16 "VendorID";
  fld UINT16 "ProductID";
  fld UINT16 "VersionNumber";
  fld (CArr UINT16 11) "Reserved"].
Definition HV_HID_DESCRIPTOR_DESC_LIST : cty := struct 1 [
  fld UINT8 "bReportType";
  fld UINT16 "wReportLength"].
Definition HV_HID_DESCRIPTOR : cty := struct 1 [
  fld UINT8 "bLength";
  fld UINT8 "bDescriptorType";
  fld UINT16 "bcdHID";
  fld UINT8 "bCountry";
  fld UINT8 "bNumDescriptors";
  fld (CArr HV_HID_DESCRIPTOR_DESC_LIST HV_ANYSIZE_ARRAY) "DescriptorList"].
Definition SYNTHHID_PROTOCOL_REQUEST : cty := struct 0 [
  fld SYNTHHID_MESSAGE_HEADER "Header";
  fld SYNTHHID_VERSION "VersionRequested"].
Definition SYNTHHID_PROTOCOL_RESPONSE : cty := struct 1 [
  fld SYNTHHID_MESSAGE_HEADER "Header";
  fld SYNTHHID_VERSION "VersionRequested";
  fld UINT8 "Approved"].
Definition SYNTHHID_DEVICE_INFO : cty := struct 1 [
  fld SYNTHHID_MESSAGE_HEADER "Header";
  fld HV_HID_DEVICE_ATTRIBUTES "HidDeviceAttributes";
  fld (CArr UINT8 HV_ANYSIZE_ARRAY) "HidDescriptorInformation"].
Definition SYNTHHID_DEVICE_INFO_ACK : cty := struct 1 [
  fld SYNTHHID_MESSAGE_HEADER "Header";
  fld UINT8 "Reserved"].
Definition SYNTHHID_MESSAGE : cty := struct 1 [
  fld SYNTHHID_MESSAGE_HEADER "Header";
  fld (CArr UINT8 HV_ANYSIZE_ARRAY) "Data"].
Definition VMFC_CLASS_ID : guid := Guid 0x2f9bcc4a 0x0069 0x4af3 [0xb7; 0x6b; 0x6f; 0xd0; 0xbe;
  0x52; 0x8c; 0xda].
Definition VMSCSI_CONTROL_CLASS_ID : guid := VMSCSI_CLASS_ID.
Definition VMFC_CONTROL_CLASS_ID : guid := VMFC_CLASS_ID.
Definition VSTOR_SCSI_CONTROL_CLASS_ID : guid := VMSCSI_CONTROL_CLASS_ID.
Definition VSTOR_FC_CONTROL_CLASS_ID : guid := VMFC_CONTROL_CLASS_ID.
Definition VMSTORAGE_MAKE_VERSION := VMSTOR_PROTOCOL_VERSION.
Definition VMSTORAGE_VERSION_MAJOR := VMSTOR_PROTOCOL_MAJOR.
Definition VMSTORAGE_VERSION_MINOR := VMSTOR_PROTOCOL_MINOR.
Definition VMSTORAGE_VERSION_WIN6 : Z := VMSTOR_PROTOCOL_VERSION_WIN6.
Definition VMSTORAGE_VERSION_WIN7 : Z := VMSTOR_PROTOCOL_VERSION_WIN7.
Definition VMSTORAGE_VERSION_WIN8 : Z := VMSTOR_PROTOCOL_VERSION_WIN8.
Definition VMSTORAGE_VERSION_WINBLUE : Z := VMSTOR_PROTOCOL_VERSION_BLUE.
Definition VMSTORAGE_VERSION_WIN10 : Z := VMSTOR_PROTOCOL_VERSION 6 2.
Definition NVSP_CONTROL_CLASS_ID : guid := NVSP_CLASS_ID.
Definition NVSP_MESSAGE_TYPE_PRIVATE : enum := [
  Is "NvspMessage6TypePdApi" 135;
  Is "NvspMessage6TypePdPostBatch" 136;
  Is "NvspMessage6Max" 136].
Definition NVSP_6_MESSAGE_PD_API_OPERATION : enum := [
  Is "PdApiOpConfiguration" 0x1;
  Is "PdApiOpSwitchDatapath" 0x2;
  Is "PdApiOpOpenProvider" 0x3;
  Is "PdApiOpCloseProvider" 0x4;
  Is "PdApiOpCreateQueue" 0x5;
  Is "PdApiOpFlushQueue" 0x6;
  Is "PdApiOpFreeQueue" 0x7;
  Is "PdApiOpAllocateCommonBuffer" 0x8;
  Is "PdApiOpFreeCommonBuffer" 0x9;
  Is "PdApiOpMax" 0xa].
Definition HV_GROUP_AFFINITY : cty := struct 0 [
  fld UINT32 "Mask";
  fld UINT16 "Group";
  fld (CArr UINT16 3) "Reserved"].
Definition NVSP_6_PD_BUFFER : cty := struct 0 [
  fld UINT32 "RegionOffset";
  fld UINT16 "RegionId";
  bit UINT16 "IsPartial" 1;
  bit UINT16 "ReservedMbz" 15].
Definition NVSP_MAKE_VERSION := NVSP_PROTOCOL_VERSION.
Definition NVSP_VERSION_MAJOR := NVSP_PROTOCOL_MAJOR.
Definition NVSP_VERSION_MINOR := NVSP_PROTOCOL_MINOR.
Definition NVSP_VERSION_1 : Z := NVSP_PROTOCOL_VERSION_1.
Definition NVSP_VERSION_2 : Z := NVSP_PROTOCOL_VERSION_2.
Definition NVSP_VERSION_4 : Z := NVSP_PROTOCOL_VERSION_4.
Definition NVSP_VERSION_5 : Z := NVSP_PROTOCOL_VERSION_5.
Definition NVSP_VERSION_6 : Z := NVSP_PROTOCOL_VERSION 6 0.
Definition NVSP_VERSION_61 : Z := NVSP_PROTOCOL_VERSION 6 1.
Definition NVSP_6_MESSAGE_PD_API_REQUEST : cty := struct 1 [
  fld (enum_type NVSP_6_MESSAGE_PD_API_OPERATION) "Operation";
  fld (union 1 [
    fld (struct 1 [
      fld INT64 "MmioPhysicalAddress";
      fld UINT32 "MmioLength";
      fld UINT16 "NumPdQueues"]) "Configuration";
    fld (struct 1 [
      fld UINT8 "HostDatapathIsPacketDirect";
      fld UINT8 "GuestPacketDirectIsEnabled"]) "SwitchDatapath";
    fld (struct 1 [
      fld UINT32 "ProviderId";
      fld UINT32 "Flags"]) "OpenProvider";
    fld (struct 1 [
      fld UINT32 "ProviderId"]) "CloseProvider";
    fld (struct 1 [
      fld UINT32 "ProviderId";
      fld UINT16 "QueueId";
      fld UINT16 "QueueSize";
      fld UINT8 "IsReceiveQueue";
      fld UINT8 "IsRssQueue";
      fld UINT32 "ReceiveDataLength";
      fld HV_GROUP_AFFINITY "Affinity"]) "CreateQueue";
    fld (struct 1 [
      fld UINT32 "ProviderId";
      fld UINT16 "QueueId"]) "DeleteQueue";
    fld (struct 1 [
      fld UINT32 "ProviderId";
      fld UINT16 "QueueId"]) "FlushQueue";
    fld (struct 1 [
      fld UINT32 "Length";
      fld UINT32 "PreferredNode";
      fld UINT16 "RegionId"]) "AllocateCommonBuffer";
    fld (struct 1 [
      fld UINT32 "Length";
      fld UINT64 "PhysicalAddress";
      fld UINT32 "PreferredNode";
      fld UINT16 "RegionId";
      fld UINT8 "CacheType"]) "FreeCommonBuffer"]) anonymous].
Definition NVSP_6_MESSAGE_PD_API_COMPLETE : cty := struct 1 [
  fld (enum_type NVSP_6_MESSAGE_PD_API_OPERATION) "Operation";
  fld (enum_type NVSP_STATUS) "Status";
  fld (union 1 [
    fld (struct 1 [
      fld UINT16 "NumPdQueues";
      fld UINT8 "NumReceiveRssPDQueues";
      fld UINT8 "IsSupportedByVSP";
      fld UINT8 "IsEnabledByVSP"]) "Configuration";
    fld (struct 1 [
      fld UINT32 "ProviderId"]) "OpenProvider";
    fld (struct 1 [
      fld UINT32 "ProviderId";
      fld UINT16 "QueueId";
      fld UINT16 "QueueSize";
      fld UINT32 "ReceiveDataLength";
      fld HV_GROUP_AFFINITY "Affinity"]) "CreateQueue";
    fld (struct 1 [
      fld UINT64 "PhysicalAddress";
      fld UINT32 "Length";
      fld UINT32 "PreferredNode";
      fld UINT16 "RegionId";
      fld UINT8 "CacheType"]) "AllocateCommonBuffer"]) anonymous].
Definition NVSP_6_MESSAGE_PD_BATCH_MESSAGE : cty := struct 0 [
  fld NVSP_MESSAGE_HEADER "Header";
  fld UINT16 "Count";
  bit UINT16 "GuestToHost" 1;
  bit UINT16 "IsReceive" 1;
  bit UINT16 "ReservedMbz" 14;
  fld (CArr NVSP_6_PD_BUFFER 0) "PdBuffer"].
Definition NVSP_MESSAGE_1_UBER : cty := NVSP_1_MESSAGE_UBER.
Definition NVSP_MESSAGE_2_UBER : cty := NVSP_2_MESSAGE_UBER.
Definition NVSP_MESSAGE_4_UBER : cty := NVSP_4_MESSAGE_UBER.
Definition NVSP_MESSAGE_5_UBER : cty := NVSP_5_MESSAGE_UBER.
Definition NVSP_MESSAGE_6_UBER : cty := union 0 [
  fld NVSP_6_MESSAGE_PD_API_REQUEST "PdApiRequest";
  fld NVSP_6_MESSAGE_PD_API_COMPLETE "PdApiComplete"].
Definition NVSP_ALL_MESSAGES_PRIVATE : cty := union 0 [
  fld NVSP_MESSAGE_6_UBER "Version6Messages"].
Definition NVSP_MESSAGE_PRIVATE : cty := struct 0 [
  fld NVSP_MESSAGE_HEADER "Header";
  fld NVSP_ALL_MESSAGES_PRIVATE "Messages"].
Definition VPCI_CONTROL_CLASS_ID : guid := VPCI_CLASS_ID.
Definition VMBFS_CONTROL_CLASS_ID : guid := VMBFS_CLASS_ID.
Definition VMBFS_INSTANCE_ID : guid := Guid 0xc63c9bdf 0x5fa5 0x4208 [0xb0; 0x3f; 0x6b; 0x45; 0x8b;
  0x36; 0x55; 0x92].
Definition IC_NEGOTIATE_CLASS_ID : guid := Guid 0x9722c3e7 0x8f86 0x456d [0x8b; 0x6c; 0x60; 0x09;
  0xda; 0x4c; 0xcd; 0x0b].
Definition IC_NEGOTIATE_INSTANCE_ID : guid := Guid 0x77b80a1a 0xc226 0x427b [0xb6; 0x5b; 0xdb; 0xa0;
  0xdf; 0x85; 0xc8; 0x12].
Definition IC_HEARTBEAT_CLASS_ID : guid := Guid 0x57164f39 0x9115 0x4e78 [0xab; 0x55; 0x38; 0x2f;
  0x3b; 0xd5; 0x42; 0x2d].
Definition IC_HEARTBEAT_INSTANCE_ID : guid := Guid 0xfd149e91 0x82e0 0x4a7d [0xaf; 0xa6; 0x2a; 0x41;
  0x66; 0xcb; 0xd7; 0xc0].
Definition IC_KVP_EXCHANGE_CLASS_ID : guid := Guid 0xa9a0f4e7 0x5a45 0x4d96 [0xb8; 0x27; 0x8a; 0x84;
  0x1e; 0x8c; 0x03; 0xe6].
Definition IC_KVP_EXCHANGE_INSTANCE_ID : guid := Guid 0x242ff919 0x07db 0x4180 [0x9c; 0x2e; 0xb8;
  0x6c; 0xb6; 0x8c; 0x8c; 0x55].
Definition IC_SHUTDOWN_CLASS_ID : guid := Guid 0x0e0b6031 0x5213 0x4934 [0x81; 0x8b; 0x38; 0xd9;
  0x0c; 0xed; 0x39; 0xdb].
Definition IC_SHUTDOWN_INSTANCE_ID : guid := Guid 0xb6650ff7 0x33bc 0x4840 [0x80; 0x48; 0xe0; 0x67;
  0x67; 0x86; 0xf3; 0x93].
Definition IC_TIMESYNC_CLASS_ID : guid := Guid 0x9527e630 0xd0ae 0x497b [0xad; 0xce; 0xe8; 0x0a;
  0xb0; 0x17; 0x5c; 0xaf].
Definition IC_TIMESYNC_INSTANCE_ID : guid := Guid 0x2dd1ce17 0x079e 0x403c [0xb3; 0x52; 0xa1; 0x92;
  0x1e; 0xe2; 0x07; 0xee].
Definition IC_VSS_CLASS_ID : guid := Guid 0x35fa2e29 0xea23 0x4236 [0x96; 0xae; 0x3a; 0x6e; 0xba;
  0xcb; 0xa4; 0x40].
Definition IC_VSS_INSTANCE_ID : guid := Guid 0x2450ee40 0x33bf 0x4fbd [0x89; 0x2e; 0x9f; 0xb0; 0x6e;
  0x92; 0x14; 0xcf].
Definition IC_RDV_CLASS_ID : guid := Guid 0x276aacf4 0xac15 0x426c [0x98; 0xdd; 0x75; 0x21; 0xad;
  0x3f; 0x01; 0xfe].
Definition IC_RDV_INSTANCE_ID : guid := Guid 0xf5bee29c 0x1741 0x4aad [0xa4; 0xc2; 0x8f; 0xde; 0xdb;
  0x46; 0xdc; 0xc2].
Definition IC_GUESTSVC_CLASS_ID : guid := Guid 0x34d14be3 0xdee4 0x41c8 [0x9a; 0xe7; 0x6b; 0x17;
  0x49; 0x77; 0xc1; 0x92].
Definition IC_GUESTSVC_INSTANCE_ID : guid := Guid 0xeb765408 0x105f 0x49b6 [0xb4; 0xaa; 0xc1; 0x23;
  0xb6; 0x4d; 0x17; 0xd4].
Definition IC_NEGOTIATE_CONTROL_CLASS_ID : guid := IC_NEGOTIATE_CLASS_ID.
Definition IC_HEARTBEAT_CONTROL_CLASS_ID : guid := IC_HEARTBEAT_CLASS_ID.
Definition IC_KVP_EXCHANGE_CONTROL_CLASS_ID : guid := IC_KVP_EXCHANGE_CLASS_ID.
Definition IC_SHUTDOWN_CONTROL_CLASS_ID : guid := IC_SHUTDOWN_CLASS_ID.
Definition IC_TIMESYNC_CONTROL_CLASS_ID : guid := IC_TIMESYNC_CLASS_ID.
Definition IC_VSS_CONTROL_CLASS_ID : guid := IC_VSS_CLASS_ID.
Definition IC_RDV_CONTROL_CLASS_ID : guid := IC_RDV_CLASS_ID.
Definition IC_GUESTSVC_CONTROL_CLASS_ID : guid := IC_GUESTSVC_CLASS_ID.
Definition IC_VERSION_FIELD : cty := UINT16.
Definition IC_VERSION : cty := struct 0 [
  fld IC_VERSION_FIELD "Major";
  fld IC_VERSION_FIELD "Minor"].
Definition IC_VERSION_NULL : list Z := [0; 0].
Definition IC_FRAMEWORK_VERSION_1 : list Z := [1; 0].
Definition IC_FRAMEWORK_VERSION_3 : list Z := [3; 0].
Definition IC_HEARTBEAT_VERSION_3 : list Z := [3; 0].
Definition IC_HEARTBEAT_VERSION_31 : list Z := [3; 1].
Definition IC_KVP_EXCHANGE_VERSION_3 : list Z := [3; 0].
Definition IC_KVP_EXCHANGE_VERSION_4 : list Z := [4; 0].
Definition IC_KVP_EXCHANGE_VERSION_5 : list Z := [5; 0].
Definition IC_SHUTDOWN_VERSION_1 : list Z := [1; 0].
Definition IC_SHUTDOWN_VERSION_3 : list Z := [3; 0].
Definition IC_SHUTDOWN_VERSION_31 : list Z := [3; 1].
Definition IC_TIMESYNC_VERSION_1 : list Z := [1; 0].
Definition IC_TIMESYNC_VERSION_3 : list Z := [3; 0].
Definition IC_TIMESYNC_VERSION_4 : list Z := [4; 0].
Definition IC_VSS_VERSION_6 : list Z := [6; 0].
Definition IC_VSS_VERSION_7 : list Z := [7; 0].
Definition IC_RDV_VERSION_1 : list Z := [1; 0].
Definition IC_RDV_VERSION_3 : list Z := [3; 0].
Definition IC_GUESTIFACE_VERSION_11 : list Z := [1; 1].
Definition IC_FEATURE_IDX : enum := [
  Is "ICFeatureVersionNegotiation" 0;
  Is "ICFeatureIdxHeartbeat" 1;
  Is "ICFeatureIdxKvpExchange" 2;
  Is "ICFeatureIdxShutdown" 3;
  Is "ICFeatureIdxTimeSync" 4;
  Is "ICFeatureIdxVss" 5;
  Is "ICFeatureIdxRdv" 6;
  Is "ICFeatureIdxGuestInterface" 7;
  Is "ICFeatureIdxVMSession" 8;
  Is "ICFeatureCount" 9].
Definition IC_MSG_TYPE : cty := UINT16.
Definition IC_MSG_TRANS_ID : cty := UINT8.
Definition IC_MSG_HDR_FLAG : cty := UINT8.
Definition IC_MSG_HDR : cty := struct 0 [
  fld IC_VERSION "ICVerFramework";
  fld IC_MSG_TYPE "ICMsgType";
  fld IC_VERSION "ICVerMessage";
  fld UINT16 "ICMsgSize";
  fld UINT32 "Status";
  fld IC_MSG_TRANS_ID "ICTransactionId";
  fld IC_MSG_HDR_FLAG "ICFlags";
  fld (CArr UINT8 2) "RESERVED"].
Definition GUEST_APPLICATION_STATE : enum := [
  Is "GuestApplicationStateUnknown" 0;
  Is "GuestApplicationStateHealthy" 1;
  Is "GuestApplicationStateCritical" 2].
Definition IC_KVP_EXCHANGE_OPERATION : enum := [
  Is "ICKvpExchangeOperationGet" 0;
  Is "ICKvpExchangeOperationSet" 1;
  Is "ICKvpExchangeOperationDelete" 2;
  Is "ICKvpExchangeOperationEnumerate" 3;
  Is "ICKvpExchangeOperationGetIpAddressInfo" 4;
  Is "ICKvpExchangeOperationSetIpAddressInfo" 5;
  Is "ICKvpExchangeOperationCount" 6].
Definition IC_KVP_EXCHANGE_MSG_HDR : cty := struct 0 [
  fld UINT8 "Operation";
  fld UINT8 "Pool"].
Definition IC_KVP_EXCHANGE_MSG_VALUE : cty := struct 0 [
  fld UINT32 "ValueType";
  fld UINT32 "KeySize";
  fld UINT32 "ValueSize";
  fld (CArr UINT8 512) "Key";
  fld (CArr UINT8 2048) "Value"].
Definition IC_KVP_EXCHANGE_MSG_GET : cty := struct 0 [
  fld IC_KVP_EXCHANGE_MSG_VALUE "Value"].
Definition IC_KVP_EXCHANGE_MSG_SET : cty := struct 0 [
  fld IC_KVP_EXCHANGE_MSG_VALUE "Value"].
Definition IC_KVP_EXCHANGE_MSG_DELETE : cty := struct 0 [
  fld UINT32 "KeySize";
  fld (CArr UINT8 512) "Key"].
Definition IC_KVP_EXCHANGE_MSG_ENUMERATE : cty := struct 0 [
  fld UINT32 "Index";
  fld IC_KVP_EXCHANGE_MSG_VALUE "Value"].
Definition IC_KVP_EXCHANGE_IP_ADDRESS_VALUE : cty := struct 0 [
  fld (CArr HV_WCHAR 128) "AdapterId";
  fld UINT8 "AddressFamily";
  fld UINT8 "DHCPEnabled";
  fld (CArr HV_WCHAR 1024) "IPAddress";
  fld (CArr HV_WCHAR 1024) "Subnet";
  fld (CArr HV_WCHAR 512) "Gateway";
  fld (CArr HV_WCHAR 1024) "DNSServerAddresses"].
Definition IC_KVP_EXCHANGE_MSG_IP_ADDRESS_INFO : cty := struct 0 [
  fld IC_KVP_EXCHANGE_MSG_HDR "Header";
  fld IC_KVP_EXCHANGE_IP_ADDRESS_VALUE "Value"].
Definition IC_KVP_EXCHANGE_IP_ADDRESS_BINARY_HEADER : cty := struct 0 [
  fld UINT32 "IPv4AddressCount";
  fld UINT32 "IPv6AddressCount";
  fld UINT32 "IPv4GatewayCount";
  fld UINT32 "IPv6GatewayCount";
  fld UINT32 "IPv4DNSServerCount";
  fld UINT32 "IPv6DNSServerCount"].
Definition IC_KVP_EXCHANGE_IP_ADDRESS_VALUE_BINARY : cty := struct 0 [
  fld IC_KVP_EXCHANGE_IP_ADDRESS_BINARY_HEADER "Header";
  fld (CArr HV_WCHAR 128) "AdapterId";
  fld UINT8 "AddressFamily";
  fld UINT8 "DHCPEnabled";
  fld (CArr UINT32 64) "IPv4Addresses";
  fld (CArr HV_IPV6_ADDRESS 64) "IPv6Addresses";
  fld (CArr UINT32 64) "IPv4Subnets";
  fld (CArr UINT32 64) "IPv6Subnets";
  fld (CArr UINT32 5) "IPv4Gateways";
  fld (CArr HV_IPV6_ADDRESS 5) "IPv6Gateways";
  fld (CArr UINT32 64) "IPv4DNSServers";
  fld (CArr HV_IPV6_ADDRESS 64) "IPv6DNSServers";
  fld (CArr UINT16 128) "IPAddressOrigins"].
Definition IC_KVP_EXCHANGE_MSG_IP_ADDRESS_INFO_BINARY : cty := struct 0 [
  fld IC_KVP_EXCHANGE_MSG_HDR "Header";
  fld IC_KVP_EXCHANGE_IP_ADDRESS_VALUE_BINARY "Value"].
Definition IC_VSS_OPERATION : enum := [
  Is "ICVssOperationCreate" 0;
  Is "ICVssOperationDelete" 1;
  Is "ICVssOperationCheckHotBackup" 2;
  Is "ICVssOperationGetDirectMappedDevicesInfo" 3;
  Is "ICVssOperationBackupComplete" 4;
  Is "ICVssOperationFreezeApplications" 5;
  Is "ICVssOperationThawApplications" 6;
  Is "ICVssOperationAutoRecover" 7;
  Is "ICVssOperationQueryGuestClusterInformation" 8;
  Is "ICVssOperationCount" 9].
Definition IC_VSS_MSG_HDR : cty := struct 0 [
  fld UINT8 "Operation";
  fld (CArr UINT8 4) "Reserved"].
Definition IC_VSS_MSG_DELETE : cty := struct 0 [
  fld HV_GUID "SnapshotSetId"].
Definition IC_VSS_MSG_CHECK_HOT_BACKUP : cty := struct 0 [
  fld UINT32 "Flags"].
Definition IC_VSS_MSG_DIRECT_MAPPED_DEVICES_INFO : cty := struct 0 [
  fld UINT32 "Flags"].
Definition IC_VSS_MSG_BACKUP_COMPLETE : cty := struct 0 [
  fld UINT32 "Flags"].
Definition IC_VSS_MSG_CREATE_V2 : cty := struct 0 [
  fld HV_GUID "SnapshotSetId";
  fld UINT32 "BackupType"].
Definition IC_VSS_MSG_THAW_APPLICATIONS : cty := struct 0 [
  fld UINT32 "Flags"].
Definition IC_VSS_LUN_INFO_BUS_TYPE : enum := [
  Is "IcVssLunInfoBusTypeInvalid" 0;
  Is "IcVssLunInfoBusTypeSCSI" 1;
  Is "IcVssLunInfoBusTypeIDE" 2].
Definition IC_VSS_LUN_INFO : cty := struct 0 [
  fld UINT8 "BusType";
  fld HV_GUID "Controller";
  fld UINT8 "Port";
  fld UINT8 "Target";
  fld UINT8 "Lun"].
Definition IC_VSS_LUN_OFFSET : cty := struct 0 [
  fld UINT32 "DiskNumber";
  fld INT64 "StartingOffset"].
Definition IC_VSS_DISK_SIGNATURE : cty := struct 0 [
  fld UINT32 "PartitionStyle";
  fld (union 0 [
    fld (struct 0 [
      fld UINT32 "Signature"]) "Mbr";
    fld (struct 0 [
      fld HV_GUID "DiskId"]) "Gpt"]) anonymous].
Definition IC_VSS_FREEZE_FLAGS : enum := [
  Is "IcVssFreezeFlagNone" 0;
  Is "IcVssFreezeFlagAutoRecovery" 1;
  Is "IcVssFreezeFlagIncludesSharedLuns" 2].
Definition IC_VSS_CLIENT_STATE : enum := [
  Is "ICVssClientStateNone" 0;
  Is "ICVssClientStateFreeze" 1;
  Is "ICVssClientStateThaw" 2;
  Is "ICVssClientStateAutoRecovery" 3;
  Is "ICVssClientStateBackupComplete" 4;
  Is "ICVssClientStateCount" 5].
Definition IC_TRANSPORT_ROLE : enum := [
  Is "ICTransportRoleClient" 0x0;
  Is "ICTransportRoleServer" 0x1;
  Is "ICTransportRoleCount" 0x2].
Definition IC_TRANSPORT_PROTO : enum := [
  Is "ICTransportProtoVMBus" 0x0;
  Is "ICTransportProtoNamed" 0x1;
  Is "ICTransportProtoCount" 0x2].
Definition IC_TRANSPORT_FLAG : cty := UINT8.
Definition IC_MSG_NEGOTIATE : cty := struct 0 [
  fld UINT16 "ICFrameworkVersionCount";
  fld UINT16 "ICMessageVersionCount";
  fld UINT32 "Reserved";
  fld (CArr IC_VERSION HV_ANYSIZE_ARRAY) "ICVersionData"].
Definition IC_HEARTBEAT_MSG_DATA : cty := struct 0 [
  fld UINT64 "SeqNum";
  fld (enum_type GUEST_APPLICATION_STATE) "ApplicationState";
  fld (CArr UINT8 4) "Reserved"].
Definition IC_KVP_EXCHANGE_MSG : cty := struct 0 [
  fld IC_KVP_EXCHANGE_MSG_HDR "Header";
  fld (union 0 [
    fld IC_KVP_EXCHANGE_MSG_GET "Get";
    fld IC_KVP_EXCHANGE_MSG_SET "Set";
    fld IC_KVP_EXCHANGE_MSG_DELETE "Delete";
    fld IC_KVP_EXCHANGE_MSG_ENUMERATE "Enumerate"]) "Body"].
Definition IC_KVP_EXCHANGE_MSG2 : cty := struct 0 [
  fld (union 0 [
    fld IC_KVP_EXCHANGE_MSG_HDR "Header";
    fld IC_KVP_EXCHANGE_MSG_IP_ADDRESS_INFO "IpAddressInfo";
    fld IC_KVP_EXCHANGE_MSG_IP_ADDRESS_INFO_BINARY "IpAddressInfoBinary"]) "IpMsg"].
Definition IC_SHUTDOWN_MSG_DATA : cty := struct 0 [
  fld UINT32 "ReasonCode";
  fld UINT32 "TimeoutInSeconds";
  fld UINT32 "Flags";
  fld (CArr UINT8 2048) "Message"].
Definition IC_TIMESYNC_PROVIDER_MSG_DATA : cty := struct 0 [
  fld INT64 "Offset";
  fld UINT64 "Delay";
  fld UINT64 "Dispersion";
  fld UINT32 "Flags";
  fld UINT8 "LeapFlags";
  fld UINT8 "Stratum";
  fld (CArr UINT8 3) "Reserved"].
Definition IC_TIMESYNC_MSG_DATA : cty := struct 0 [
  fld UINT64 "ParentTime";
  fld UINT64 "ChildTime";
  fld UINT64 "RoundTripTime";
  fld UINT8 "Flags"].
Definition IC_TIMESYNC_REFERENCE_MSG_DATA : cty := struct 0 [
  fld UINT64 "ParentTime";
  fld UINT64 "VmReferenceTime";
  fld UINT8 "Flags";
  fld UINT8 "LeapFlags";
  fld UINT8 "Stratum";
  fld (CArr UINT8 3) "Reserved"].
Definition IC_VSS_MSG : cty := struct 0 [
  fld IC_VSS_MSG_HDR "Header";
  fld (union 0 [
    fld IC_VSS_MSG_DELETE "Delete";
    fld IC_VSS_MSG_CHECK_HOT_BACKUP "CheckHotBackup";
    fld IC_VSS_MSG_DIRECT_MAPPED_DEVICES_INFO "DirectMapInfo";
    fld IC_VSS_MSG_BACKUP_COMPLETE "BackupComplete";
    fld IC_VSS_MSG_CREATE_V2 "CreateV2";
    fld IC_VSS_MSG_THAW_APPLICATIONS "ThawApplications"]) "Body";
  fld (CArr UINT8 4) "Reserved"].
Definition IC_VSS_MSG2 : cty := struct 0 [
  fld IC_VSS_MSG_HDR "Header";
  fld UINT32 "BackupType";
  fld UINT32 "Flags";
  fld UINT32 "LunCount";
  fld (CArr IC_VSS_LUN_INFO 260) "Luns"].
Definition IC_VSS_MSG2_EX : cty := struct 0 [
  fld IC_VSS_MSG_HDR "Header";
  fld UINT32 "BackupType";
  fld UINT32 "Flags";
  fld UINT32 "LunCount";
  fld (CArr IC_VSS_LUN_INFO 260) "Luns";
  fld (CArr IC_VSS_LUN_INFO 260) "ShadowLuns"].
Definition IC_VSS_MSG3 : cty := struct 0 [
  fld IC_VSS_MSG_HDR "Header";
  fld HV_GUID "ClusterId";
  fld UINT32 "ClusterSize";
  fld UINT32 "LunCount";
  fld (CArr IC_VSS_LUN_INFO 260) "SharedLuns";
  fld (CArr UINT32 260) "SharedLunStatus"].
Definition IC_VSS_MSG3_EX : cty := struct 0 [
  fld IC_VSS_MSG_HDR "Header";
  fld HV_GUID "ClusterId";
  fld UINT32 "ClusterSize";
  fld UINT32 "LunCount";
  fld (CArr IC_VSS_LUN_INFO 260) "SharedLuns";
  fld (CArr UINT32 260) "SharedLunStatus";
  fld UINT64 "LastMoveTime"].
Definition IC_RDV_MSG_DATA : cty := struct 0 [
  fld UINT32 "Flags";
  fld (CArr UINT8 2048) "Message"].
Definition IC_GUESTSVC_OPERATION : enum := [
  Is "ICGuestSvcOperationStartFileCopy" 0;
  Is "ICGuestSvcOperationWriteToFile" 1;
  Is "ICGuestSvcOperationCompleteFileCopy" 2;
  Is "ICGuestSvcOperationCancelFileCopy" 3].
Definition IC_GUESTSVC_MSG_HEADER : cty := struct 0 [
  fld (enum_type IC_GUESTSVC_OPERATION) "Operation";
  fld HV_GUID "ServiceID";
  fld HV_GUID "SessionID"].
Definition IC_GUESTSVC_FLAGS : enum := [
  Is "ICGuestSvcStartFileCopyFlagsOverwrite" 1;
  Is "ICGuestSvcStartFileCopyFlagsCreateFullPath" 2].
Definition IC_GUESTIFACE_START_OPERATION_MESSAGE : cty := struct 0 [
  fld IC_GUESTSVC_MSG_HEADER "Header";
  fld (CArr HV_WCHAR 260) "SourceFileName";
  fld (CArr HV_WCHAR 260) "DestinationFilePath";
  fld (enum_type IC_GUESTSVC_FLAGS) "Flags";
  fld UINT64 "FileSizeInBytes"].
Definition IC_GUESTIFACE_COPY_OPERATION_MESSAGE : cty := struct 0 [
  fld IC_GUESTSVC_MSG_HEADER "Header";
  fld INT64 "Offset";
  fld UINT32 "Size";
  fld (CArr UINT8 6144) "Data"].
Definition SYNTHRDP_CONTROL_CLASS_ID : guid := Guid 0xf8e65716 0x3cb3 0x4a06 [0x9a; 0x60; 0x18;
  0x89; 0xc5; 0xcc; 0xca; 0xb5].
Definition SYNTHRDP_CONTROL_INSTANCE_ID : guid := Guid 0x99221fa0 0x24ad 0x11e2 [0xbe; 0x98; 0x00;
  0x1a; 0xa0; 0x1b; 0xbf; 0x6e].
Definition SYNTHRDP_DATA_CLASS_ID : guid := Guid 0xf9e9c0d3 0xb511 0x4a48 [0x80; 0x46; 0xd3; 0x80;
  0x79; 0xa8; 0x83; 0x0c].
Definition SYNTHRDP_DATA_INSTANCE_ID_1 : guid := Guid 0x99221fa1 0x24ad 0x11e2 [0xbe; 0x98; 0x00;
  0x1a; 0xa0; 0x1b; 0xbf; 0x6e].
Definition SYNTHRDP_DATA_INSTANCE_ID_2 : guid := Guid 0x99221fa2 0x24ad 0x11e2 [0xbe; 0x98; 0x00;
  0x1a; 0xa0; 0x1b; 0xbf; 0x6e].
Definition SYNTHRDP_DATA_INSTANCE_ID_3 : guid := Guid 0x99221fa3 0x24ad 0x11e2 [0xbe; 0x98; 0x00;
  0x1a; 0xa0; 0x1b; 0xbf; 0x6e].
Definition SYNTHRDP_DATA_INSTANCE_ID_4 : guid := Guid 0x99221fa4 0x24ad 0x11e2 [0xbe; 0x98; 0x00;
  0x1a; 0xa0; 0x1b; 0xbf; 0x6e].
Definition SYNTHRDP_DATA_INSTANCE_ID_5 : guid := Guid 0x99221fa5 0x24ad 0x11e2 [0xbe; 0x98; 0x00;
  0x1a; 0xa0; 0x1b; 0xbf; 0x6e].
Definition SYNTHRDP_MESSAGE_TYPE : enum := [
  Is "SynthrdpError" 0;
  Is "SynthrdpVersionRequest" 1;
  Is "SynthrdpVersionResponse" 2;
  Is "SynthrdpMax" 3].
Definition SYNTHRDP_MESSAGE_HEADER : cty := struct 0 [
  fld (enum_type SYNTHRDP_MESSAGE_TYPE) "Type";
  fld UINT32 "Size"].
Definition SYNTHRDP_MAKE_VERSION (Major Minor : Z) : Z := Z.lor (Z.shiftl Minor 16) Major.
Definition SYNTHRDP_VERSION_MAJOR (Version : Z) : Z := Z.land Version 0x0000ffff.
Definition SYNTHRDP_VERSION_MINOR (Version : Z) : Z := Z.shiftr (Z.land Version 0xffff0000) 16.
Definition SYNTHRDP_VERSION_WINBLUE : Z := SYNTHRDP_MAKE_VERSION 1 0.
Definition SYNTHRDP_VERSION : cty := union 0 [
  fld UINT32 "AsDWORD";
  fld (struct 0 [
    fld UINT16 "MajorVersion";
    fld UINT16 "MinorVersion"]) anonymous].
Definition SYNTHRDP_VERSION_REQUEST_MESSAGE : cty := struct 0 [
  fld SYNTHRDP_MESSAGE_HEADER "Header";
  fld SYNTHRDP_VERSION "Version";
  fld UINT32 "Reserved"].
Definition SYNTHRDP_TRUE_WITH_VERSION_EXCHANGE : Z := TRUE_WITH_VERSION_EXCHANGE.
Definition SYNTHRDP_VERSION_RESPONSE_MESSAGE : cty := struct 1 [
  fld SYNTHRDP_MESSAGE_HEADER "Header";
  fld SYNTHRDP_VERSION "Version";
  fld UINT32 "Reserved";
  fld UINT8 "IsAccepted"].
Definition VSMB_CLASS_ID : guid := Guid 0x4d12e519 0x17a0 0x4ae4 [0x8e; 0xaa; 0x52; 0x70; 0xfc;
  0x6a; 0xbd; 0xb7].
Definition VSMB_INSTANCE_ID : guid := Guid 0xdcc079ae 0x60ba 0x4d07 [0x84; 0x7c; 0x34; 0x93; 0x60;
  0x9c; 0x08; 0x70].

(** ** The records and enumerations of the file *)

Definition VMBusDevices_types : list (string * cty) := [
  ("HV_RECT", HV_RECT);
  ("HVD_SCREEN_INFO", HVD_SCREEN_INFO);
  ("SYNTHVID_POINTER_POSITION_MESSAGE", SYNTHVID_POINTER_POSITION_MESSAGE);
  ("SYNTHVID_POINTER_SHAPE_MESSAGE", SYNTHVID_POINTER_SHAPE_MESSAGE);
  ("SYNTHVID_FEATURE_CHANGE_MESSAGE_V2", SYNTHVID_FEATURE_CHANGE_MESSAGE_V2);
  ("SYNTHVID_DIRT_MESSAGE", SYNTHVID_DIRT_MESSAGE);
  ("SYNTHVID_BIOS_INFO_REQUEST_MESSAGE", SYNTHVID_BIOS_INFO_REQUEST_MESSAGE);
  ("SYNTHVID_BIOS_INFO_RESPONSE_MESSAGE", SYNTHVID_BIOS_INFO_RESPONSE_MESSAGE);
  ("SYNTHVID_SUPPORTED_RESOLUTIONS_REQUEST_MESSAGE", SYNTHVID_SUPPORTED_RESOLUTIONS_REQUEST_MESSAGE);
  ("SYNTHVID_SUPPORTED_RESOLUTIONS_RESPONSE_MESSAGE", SYNTHVID_SUPPORTED_RESOLUTIONS_RESPONSE_MESSAGE);
  ("SYNTHVID_CAPABILITY_REQUEST_MESSAGE", SYNTHVID_CAPABILITY_REQUEST_MESSAGE);
  ("SYNTHVID_CAPABILITY_RESPONSE_MESSAGE", SYNTHVID_CAPABILITY_RESPONSE_MESSAGE);
  ("SYNTHHID_MESSAGE_HEADER", SYNTHHID_MESSAGE_HEADER);
  ("SYNTHHID_VERSION", SYNTHHID_VERSION);
  ("HV_HID_DEVICE_ATTRIBUTES", HV_HID_DEVICE_ATTRIBUTES);
  ("HV_HID_DESCRIPTOR_DESC_LIST", HV_HID_DESCRIPTOR_DESC_LIST);
  ("HV_HID_DESCRIPTOR", HV_HID_DESCRIPTOR);
  ("SYNTHHID_PROTOCOL_REQUEST", SYNTHHID_PROTOCOL_REQUEST);
  ("SYNTHHID_PROTOCOL_RESPONSE", SYNTHHID_PROTOCOL_RESPONSE);
  ("SYNTHHID_DEVICE_INFO", SYNTHHID_DEVICE_INFO);
  ("SYNTHHID_DEVICE_INFO_ACK", SYNTHHID_DEVICE_INFO_ACK);
  ("SYNTHHID_MESSAGE", SYNTHHID_MESSAGE);
  ("HV_GROUP_AFFINITY", HV_GROUP_AFFINITY);
  ("NVSP_6_PD_BUFFER", NVSP_6_PD_BUFFER);
  ("NVSP_6_MESSAGE_PD_API_REQUEST", NVSP_6_MESSAGE_PD_API_REQUEST);
  ("NVSP_6_MESSAGE_PD_API_COMPLETE", NVSP_6_MESSAGE_PD_API_COMPLETE);
  ("NVSP_6_MESSAGE_PD_BATCH_MESSAGE", NVSP_6_MESSAGE_PD_BATCH_MESSAGE);
  ("NVSP_MESSAGE_6_UBER", NVSP_MESSAGE_6_UBER);
  ("NVSP_ALL_MESSAGES_PRIVATE", NVSP_ALL_MESSAGES_PRIVATE);
  ("NVSP_MESSAGE_PRIVATE", NVSP_MESSAGE_PRIVATE);
  ("IC_VERSION", IC_VERSION);
  ("IC_MSG_HDR", IC_MSG_HDR);
  ("IC_KVP_EXCHANGE_MSG_HDR", IC_KVP_EXCHANGE_MSG_HDR);
  ("IC_KVP_EXCHANGE_MSG_VALUE", IC_KVP_EXCHANGE_MSG_VALUE);
  ("IC_KVP_EXCHANGE_MSG_GET", IC_KVP_EXCHANGE_MSG_GET);
  ("IC_KVP_EXCHANGE_MSG_SET", IC_KVP_EXCHANGE_MSG_SET);
  ("IC_KVP_EXCHANGE_MSG_DELETE", IC_KVP_EXCHANGE_MSG_DELETE);
  ("IC_KVP_EXCHANGE_MSG_ENUMERATE", IC_KVP_EXCHANGE_MSG_ENUMERATE);
  ("IC_KVP_EXCHANGE_IP_ADDRESS_VALUE", IC_KVP_EXCHANGE_IP_ADDRESS_VALUE);
  ("IC_KVP_EXCHANGE_MSG_IP_ADDRESS_INFO", IC_KVP_EXCHANGE_MSG_IP_ADDRESS_INFO);
  ("IC_KVP_EXCHANGE_IP_ADDRESS_BINARY_HEADER", IC_KVP_EXCHANGE_IP_ADDRESS_BINARY_HEADER);
  ("IC_KVP_EXCHANGE_IP_ADDRESS_VALUE_BINARY", IC_KVP_EXCHANGE_IP_ADDRESS_VALUE_BINARY);
  ("IC_KVP_EXCHANGE_MSG_IP_ADDRESS_INFO_BINARY", IC_KVP_EXCHANGE_MSG_IP_ADDRESS_INFO_BINARY);
  ("IC_VSS_MSG_HDR", IC_VSS_MSG_HDR);
  ("IC_VSS_MSG_DELETE", IC_VSS_MSG_DELETE);
  ("IC_VSS_MSG_CHECK_HOT_BACKUP", IC_VSS_MSG_CHECK_HOT_BACKUP);
  ("IC_VSS_MSG_DIRECT_MAPPED_DEVICES_INFO", IC_VSS_MSG_DIRECT_MAPPED_DEVICES_INFO);
  ("IC_VSS_MSG_BACKUP_COMPLETE", IC_VSS_MSG_BACKUP_COMPLETE);
  ("IC_VSS_MSG_CREATE_V2", IC_VSS_MSG_CREATE_V2);
  ("IC_VSS_MSG_THAW_APPLICATIONS", IC_VSS_MSG_THAW_APPLICATIONS);
  ("IC_VSS_LUN_INFO", IC_VSS_LUN_INFO);
  ("IC_VSS_LUN_OFFSET", IC_VSS_LUN_OFFSET);
  ("IC_VSS_DISK_SIGNATURE", IC_VSS_DISK_SIGNATURE);
  ("IC_MSG_NEGOTIATE", IC_MSG_NEGOTIATE);
  ("IC_HEARTBEAT_MSG_DATA", IC_HEARTBEAT_MSG_DATA);
  ("IC_KVP_EXCHANGE_MSG", IC_KVP_EXCHANGE_MSG);
  ("IC_KVP_EXCHANGE_MSG2", IC_KVP_EXCHANGE_MSG2);
  ("IC_SHUTDOWN_MSG_DATA", IC_SHUTDOWN_MSG_DATA);
  ("IC_TIMESYNC_PROVIDER_MSG_DATA", IC_TIMESYNC_PROVIDER_MSG_DATA);
  ("IC_TIMESYNC_MSG_DATA", IC_TIMESYNC_MSG_DATA);
  ("IC_TIMESYNC_REFERENCE_MSG_DATA", IC_TIMESYNC_REFERENCE_MSG_DATA);
  ("IC_VSS_MSG", IC_VSS_MSG);
  ("IC_VSS_MSG2", IC_VSS_MSG2);
  ("IC_VSS_MSG2_EX", IC_VSS_MSG2_EX);
  ("IC_VSS_MSG3", IC_VSS_MSG3);
  ("IC_VSS_MSG3_EX", IC_VSS_MSG3_EX);
  ("IC_RDV_MSG_DATA", IC_RDV_MSG_DATA);
  ("IC_GUESTSVC_MSG_HEADER", IC_GUESTSVC_MSG_HEADER);
  ("IC_GUESTIFACE_START_OPERATION_MESSAGE", IC_GUESTIFACE_START_OPERATION_MESSAGE);
  ("IC_GUESTIFACE_COPY_OPERATION_MESSAGE", IC_GUESTIFACE_COPY_OPERATION_MESSAGE);
  ("SYNTHRDP_MESSAGE_HEADER", SYNTHRDP_MESSAGE_HEADER);
  ("SYNTHRDP_VERSION", SYNTHRDP_VERSION);
  ("SYNTHRDP_VERSION_REQUEST_MESSAGE", SYNTHRDP_VERSION_REQUEST_MESSAGE);
  ("SYNTHRDP_VERSION_RESPONSE_MESSAGE", SYNTHRDP_VERSION_RESPONSE_MESSAGE)].
Definition VMBusDevices_enums : list (string * enum) := [
  ("SYNTHVID_MESSAGE_TYPE_PRIVATE", SYNTHVID_MESSAGE_TYPE_PRIVATE);
  ("SYNTHVID_FEATURE", SYNTHVID_FEATURE);
  ("SYNTHHID_MESSAGE_TYPE", SYNTHHID_MESSAGE_TYPE);
  ("NVSP_MESSAGE_TYPE_PRIVATE", NVSP_MESSAGE_TYPE_PRIVATE);
  ("NVSP_6_MESSAGE_PD_API_OPERATION", NVSP_6_MESSAGE_PD_API_OPERATION);
  ("IC_FEATURE_IDX", IC_FEATURE_IDX);
  ("GUEST_APPLICATION_STATE", GUEST_APPLICATION_STATE);
  ("IC_KVP_EXCHANGE_OPERATION", IC_KVP_EXCHANGE_OPERATION);
  ("IC_VSS_OPERATION", IC_VSS_OPERATION);
  ("IC_VSS_LUN_INFO_BUS_TYPE", IC_VSS_LUN_INFO_BUS_TYPE);
  ("IC_VSS_FREEZE_FLAGS", IC_VSS_FREEZE_FLAGS);
  ("IC_VSS_CLIENT_STATE", IC_VSS_CLIENT_STATE);
  ("IC_TRANSPORT_ROLE", IC_TRANSPORT_ROLE);
  ("IC_TRANSPORT_PROTO", IC_TRANSPORT_PROTO);
  ("IC_GUESTSVC_OPERATION", IC_GUESTSVC_OPERATION);
  ("IC_GUESTSVC_FLAGS", IC_GUESTSVC_FLAGS);
  ("SYNTHRDP_MESSAGE_TYPE", SYNTHRDP_MESSAGE_TYPE)].
(** Every GUID with the text of the comment above it. *)
Definition VMBusDevices_guids : list (string * guid) := [
  ("{CFA8B69E-5B4A-4CC0-B98B-8BA1A1F3F95A}", SYNTHHID_CLASS_ID);
  ("{2F9BCC4A-0069-4AF3-B76B-6FD0BE528CDA}", VMFC_CLASS_ID);
  ("{C63C9BDF-5FA5-4208-B03F-6B458B365592}", VMBFS_INSTANCE_ID);
  ("{9722C3E7-8F86-456D-8B6C-6009DA4CCD0B}", IC_NEGOTIATE_CLASS_ID);
  ("{77B80A1A-C226-427B-B65B-DBA0DF85C812}", IC_NEGOTIATE_INSTANCE_ID);
  ("{57164F39-9115-4E78-AB55-382F3BD5422D}", IC_HEARTBEAT_CLASS_ID);
  ("{FD149E91-82E0-4A7D-AFA6-2A4166CBD7C0}", IC_HEARTBEAT_INSTANCE_ID);
  ("{A9A0F4E7-5A45-4D96-B827-8A841E8C03E6}", IC_KVP_EXCHANGE_CLASS_ID);
  ("{242FF919-07DB-4180-9C2E-B86CB68C8C55}", IC_KVP_EXCHANGE_INSTANCE_ID);
  ("{0E0B6031-5213-4934-818B-38D90CED39DB}", IC_SHUTDOWN_CLASS_ID);
  ("{B6650FF7-33BC-4840-8048-E0676786F393}", IC_SHUTDOWN_INSTANCE_ID);
  ("{9527E630-D0AE-497B-ADCE-E80AB0175CAF}", IC_TIMESYNC_CLASS_ID);
  ("{2DD1CE17-079E-403C-B352-A1921EE207EE}", IC_TIMESYNC_INSTANCE_ID);
  ("{35FA2E29-EA23-4236-96AE-3A6EBACBA440}", IC_VSS_CLASS_ID);
  ("{2450EE40-33BF-4FBD-892E-9FB06E9214CF}", IC_VSS_INSTANCE_ID);
  ("{276AACF4-AC15-426C-98DD-7521AD3F01FE}", IC_RDV_CLASS_ID);
  ("{F5BEE29C-1741-4AAD-A4C2-8FDEDB46DCC2}", IC_RDV_INSTANCE_ID);
  ("{34D14BE3-DEE4-41C8-9AE7-6B174977C192}", IC_GUESTSVC_CLASS_ID);
  ("{EB765408-105F-49B6-B4AA-C123B64D17D4}", IC_GUESTSVC_INSTANCE_ID);
  ("{F8E65716-3CB3-4A06-9A60-1889C5CCCAB5}", SYNTHRDP_CONTROL_CLASS_ID);
  ("{99221FA0-24AD-11E2-BE98-001AA01BBF6E}", SYNTHRDP_CONTROL_INSTANCE_ID);
  ("{F9E9C0D3-B511-4A48-8046-D38079A8830C}", SYNTHRDP_DATA_CLASS_ID);
  ("{99221FA1-24AD-11E2-BE98-001AA01BBF6E}", SYNTHRDP_DATA_INSTANCE_ID_1);
  ("{99221FA2-24AD-11E2-BE98-001AA01BBF6E}", SYNTHRDP_DATA_INSTANCE_ID_2);
  ("{99221FA3-24AD-11E2-BE98-001AA01BBF6E}", SYNTHRDP_DATA_INSTANCE_ID_3);
  ("{99221FA4-24AD-11E2-BE98-001AA01BBF6E}", SYNTHRDP_DATA_INSTANCE_ID_4);
  ("{99221FA5-24AD-11E2-BE98-001AA01BBF6E}", SYNTHRDP_DATA_INSTANCE_ID_5);
  ("{4D12E519-17A0-4AE4-8EAA-5270FC6ABDB7}", VSMB_CLASS_ID);
  ("{DCC079AE-60BA-4D07-847C-3493609C0870}", VSMB_INSTANCE_ID)].
