(* ===== verification/HypervLayout.v ===== *)
(** * The records of the VMBus core

    The monitor page and the message input of [hyperv_vmbus.h], which the driver
    maps to user space, the records the core keeps for itself, and the debug hooks of a kernel without
    [CONFIG_HYPERV_TESTING].  [union hv_connection_id] is a type of the kernel's
    headers; the records use no more of it than that it is one 32-bit word. *)

From S2P Require Import Prelude CLayout CLayoutSpec.

Definition u64_t := UINT64.
Definition u32_t := UINT32.
Definition u16_t := UINT16.
Definition u8_t := UINT8.
Definition s32_t := INT32.

(** [HV_MESSAGE_PAYLOAD_QWORD_COUNT] of the kernel's headers is an argument. *)
Section records.
Context (hv_connection_id : cty).

Definition hv_monitor_trigger_group : cty := union 0 [
  fld u64_t "as_uint64";
  fld (struct 0 [fld u32_t "pending"; fld u32_t "armed"]) anonymous].

Definition hv_monitor_parameter : cty := struct 0 [
  fld hv_connection_id "connectionid";
  fld u16_t "flagnumber";
  fld u16_t "rsvdz"].

Definition hv_monitor_trigger_state : cty := union 0 [
  fld u32_t "asu32";
  fld (struct 0 [bit u32_t "group_enable" 4; bit u32_t "rsvdz" 28]) anonymous].

Definition hv_monitor_page : cty := struct 0 [
  fld hv_monitor_trigger_state "trigger_state";
  fld u32_t "rsvdz1";
  fld (CArr hv_monitor_trigger_group 4) "trigger_group";
  fld (CArr u64_t 3) "rsvdz2";
  fld (CArr (CArr s32_t 32) 4) "next_checktime";
  fld (CArr (CArr u16_t 32) 4) "latency";
  fld (CArr u64_t 32) "rsvdz3";
  fld (CArr (CArr hv_monitor_parameter 32) 4) "parameter";
  fld (CArr u8_t 1984) "rsvdz4"].

Definition hv_input_post_message (HV_MESSAGE_PAYLOAD_QWORD_COUNT : Z) : cty := struct 0 [
  fld hv_connection_id "connectionid";
  fld u32_t "reserved";
  fld u32_t "message_type";
  fld u32_t "payload_size";
  fld (CArr u64_t HV_MESSAGE_PAYLOAD_QWORD_COUNT) "payload"].
End records.

(** The state the VMBus core keeps per CPU and for the machine, its queued messages and its
    table of handlers; [tasklet_struct], [list_head] and [enum vmbus_channel_message_type]
    are types of the kernel's headers. *)
Section core_records.
Context (tasklet_struct list_head vmbus_channel_message_type : cty).

Definition hv_per_cpu_context : cty := struct 0 [
  fld CPtr "synic_message_page";
  fld CPtr "synic_event_page";
  fld CPtr "post_msg_page";
  fld tasklet_struct "msg_dpc"].

Definition hv_context : cty := struct 0 [
  fld u64_t "guestid";
  fld CPtr "cpu_context";
  fld CPtr "hv_numa_map"].

Definition vmbus_msginfo : cty := struct 0 [
  fld list_head "msglist_entry";
  fld (CArr u8_t 0) "msg"].

Definition vmbus_channel_message_table_entry : cty := struct 0 [
  fld vmbus_channel_message_type "message_type";
  fld u32_t "handler_type";
  fld CPtr "message_handler";
  fld u32_t "min_payload_len"].
End core_records.

(** [HV_MESSAGE_PAYLOAD_BYTE_COUNT] of the kernel's headers is an argument. *)
Definition MAX_SIZE_CHANNEL_MESSAGE (HV_MESSAGE_PAYLOAD_BYTE_COUNT : Z) : Z := HV_MESSAGE_PAYLOAD_BYTE_COUNT.

Definition HV_HYPERCALL_PARAM_ALIGN (b : abi) : Z := sizeof b u64_t.

(** The stubs of the debug interface do nothing; the two that report a result fail. *)
Definition hv_debug_rm_dev_dir (dev : Z) : unit := tt.
Definition hv_debug_rm_all_dir : unit := tt.
Definition hv_debug_delay_test (channel delay_type : Z) : unit := tt.
Definition hv_debug_init : Z := -1.
Definition hv_debug_add_dev_dir (dev : Z) : Z := -1.

(** ** Facts for any type of one aligned word *)

Section facts.
Context (b : abi) (hv_connection_id : cty) (Hconn : measure b hv_connection_id = (4, 4)).

Lemma measure_parameter : measure b (hv_monitor_parameter hv_connection_id) = (8, 4).
Proof using Hconn. cbn. rewrite Hconn. done. Qed.

Lemma measure_parameters : measure b (CArr (CArr (hv_monitor_parameter hv_connection_id) 32) 4) = (1024, 4).
Proof using Hconn. cbn -[hv_monitor_parameter]. by rewrite measure_parameter. Qed.

(** The page is the page of 32-bit connection identifiers, to the layout. *)
Lemma page_places : sizeof b (hv_monitor_page hv_connection_id) = sizeof b (hv_monitor_page u32_t) /\
  map (fun m => (p_name m, p_off m, p_width m)) (members_of b (hv_monitor_page hv_connection_id)) =
  map (fun m => (p_name m, p_off m, p_width m)) (members_of b (hv_monitor_page u32_t)).
Proof using Hconn.
  assert (E : measure b (CArr (CArr (hv_monitor_parameter u32_t) 32) 4) = (1024, 4)) by (destruct b; reflexivity).
  unfold hv_monitor_page, struct, decl, fld, sizeof. cbn [foldr members_of]. split.
  - change (measure b (CRec ?k ?p ?al ?ms)) with (close_rec al (place_all b k p ms cursor0)).
    cbn [place_all]. by rewrite measure_parameters, E.
  - cbn [placed_all]. unfold sizeof. rewrite measure_parameters, E.
    repeat match goal with |- context [let '(_, _) := ?x in _] => destruct x end. reflexivity.
Qed.

Lemma locate_flagnumber :
  locate b (hv_monitor_parameter hv_connection_id) [Dot "flagnumber"] = Some (32, 16, u16_t).
Proof using Hconn. cbn. rewrite Hconn. done. Qed.
End facts.
