(* ===== verification/Arm64.v ===== *)
(** * The headers for ARM64

    What the headers declare when [_M_ARM64] is defined, where it differs from x64: the
    declarations of the ARM64 branches, those with such a branch inside, and those that
    refer to one of them.  Everything else is as in the files of the x64 headers. *)

From S2P Require Import Prelude CLayout GuestInterface GuestProtocols TlfsBase TlfsState TlfsPartition TlfsSymbols TlfsCpuid TlfsCalls.

(** ** [Mile.HyperV.Guest.Interface.h] *)

Definition HV_ARM64_PAGE_SIZE : Z := 4096.
Definition HV_ARM64_LARGE_PAGE_SIZE : Z := 0x200000.
Definition HV_ARM64_LARGE_PAGE_SIZE_1GB : Z := 0x40000000.
Definition HV_PAGE_SIZE : Z := HV_ARM64_PAGE_SIZE.
Definition HV_LARGE_PAGE_SIZE : Z := HV_ARM64_LARGE_PAGE_SIZE.
Definition HV_LARGE_PAGE_SIZE_1GB : Z := HV_ARM64_LARGE_PAGE_SIZE_1GB.
Definition HV_ARM64_HVC_IMM16 : Z := 1.
Definition HV_ARM64_HVC_VTLENTRY_IMM16 : Z := 2.
Definition HV_ARM64_HVC_VTLEXIT_IMM16 : Z := 3.
Definition HV_ARM64_HVC_LAUNCH_IMM16 : Z := 4.
Definition HV_ARM64_HVC_LAUNCH_SL_IMM16 : Z := 5.
Definition HV_ARM64_ENABLE_SRE : Z := 2.
Definition HV_ARM64_SYSTEM_RESET2_FIRMWARE_CRASH : Z := 0x80000001.
Definition HV_INITIAL_VP_CONTEXT : cty := struct 0 [
  fld UINT64 "Pc";
  fld UINT64 "Sp_ELh";
  fld UINT64 "SCTLR_EL1";
  fld UINT64 "MAIR_EL1";
  fld UINT64 "TCR_EL1";
  fld UINT64 "VBAR_EL1";
  fld UINT64 "TTBR0_EL1";
  fld UINT64 "TTBR1_EL1";
  fld UINT64 "X18"].
Definition HV_ARM64_HYPERVISOR_FEATURES : cty := struct 0 [
  fld HV_PARTITION_PRIVILEGE_MASK "PartitionPrivileges";
  bit UINT32 "GuestDebuggingAvailable" 1;
  bit UINT32 "PerformanceMonitorsAvailable" 1;
  bit UINT32 "CpuDynamicPartitioningAvailable" 1;
  bit UINT32 "GuestIdleAvailable" 1;
  bit UINT32 "HypervisorSleepStateSupportAvailable" 1;
  bit UINT32 "NumaDistanceQueryAvailable" 1;
  bit UINT32 "FrequencyRegsAvailable" 1;
  bit UINT32 "SyntheticMachineCheckAvailable" 1;
  bit UINT32 "GuestCrashRegsAvailable" 1;
  bit UINT32 "DebugRegsAvailable" 1;
  bit UINT32 "DisableHypervisorAvailable" 1;
  bit UINT32 "ExtendedGvaRangesForFlushVirtualAddressListAvailable" 1;
  bit UINT32 "SintPollingModeAvailable" 1;
  bit UINT32 "DirectSyntheticTimers" 1;
  bit UINT32 "DeviceDomainsAvailable" 1;
  bit UINT32 "S1DeviceDomainsAvailable" 1;
  bit UINT32 "Reserved1" 16].
Definition HV_HYPERVISOR_FEATURES : cty := HV_ARM64_HYPERVISOR_FEATURES.
Definition HV_ARM64_ENLIGHTENMENT_INFORMATION : cty := struct 0 [
  bit UINT32 "UseHvRegisterForReset" 1;
  bit UINT32 "UseRelaxedTiming" 1;
  bit UINT32 "UseSyntheticClusterIpi" 1;
  bit UINT32 "UseExProcessorMasks" 1;
  bit UINT32 "Nested" 1;
  bit UINT32 "UseSyncedTimeline" 1;
  bit UINT32 "Reserved" 26;
  fld UINT32 "LongSpinWaitCount";
  fld UINT32 "Reserved0";
  fld UINT32 "Reserved1"].
Definition HV_ENLIGHTENMENT_INFORMATION : cty := HV_ARM64_ENLIGHTENMENT_INFORMATION.
Definition HV_ARM64_HYPERVISOR_HARDWARE_FEATURES : cty := struct 0 [
  bit UINT32 "ArchitecturalPerformanceCountersInUse" 1;
  bit UINT32 "SecondLevelAddressTranslationInUse" 1;
  bit UINT32 "DmaRemappingInUse" 1;
  bit UINT32 "InterruptRemappingInUse" 1;
  bit UINT32 "MemoryPatrolScrubberPresent" 1;
  bit UINT32 "DmaProtectionInUse" 1;
  bit UINT32 "SyntheticTimersVolatile" 1;
  bit UINT32 "HvRegisterForMemoryZeroingSupported" 1;
  bit UINT32 "Reserved" 24;
  fld UINT32 "Reserved0";
  fld UINT32 "Reserved1";
  fld UINT32 "Reserved2"].
Definition HV_HYPERVISOR_HARDWARE_FEATURES : cty := HV_ARM64_HYPERVISOR_HARDWARE_FEATURES.
Definition HV_ARM64_HYPERVISOR_CPU_MANAGEMENT_FEATURES : cty := struct 0 [
  bit UINT32 "StartLogicalProcessor" 1;
  bit UINT32 "CreateRootVirtualProcessor" 1;
  bit UINT32 "PerformanceCounterSync" 1;
  bit UINT32 "Reserved0" 28;
  bit UINT32 "ReservedIdentityBit" 1;
  bit UINT32 "ProcessorPowerManagement" 1;
  bit UINT32 "RootManagedIdleStates" 1;
  bit UINT32 "Reserved1" 30;
  fld UINT32 "ReservedEcx";
  fld UINT32 "ReservedEdx"].
Definition HV_HYPERVISOR_CPU_MANAGEMENT_FEATURES : cty := HV_ARM64_HYPERVISOR_CPU_MANAGEMENT_FEATURES.
Definition HV_CPUID_RESULT : cty := union 0 [
  fld (CArr UINT32 4) "AsUINT32";
  fld HV_VENDOR_AND_MAX_FUNCTION "HvVendorAndMaxFunction";
  fld HV_HYPERVISOR_INTERFACE_INFO "HvInterface";
  fld HV_HYPERVISOR_VERSION_INFO "MsHvVersion";
  fld HV_HYPERVISOR_FEATURES "MsHvFeatures";
  fld HV_ENLIGHTENMENT_INFORMATION "MsHvEnlightenmentInformation";
  fld HV_IMPLEMENTATION_LIMITS "MsHvImplementationLimits";
  fld HV_HYPERVISOR_HARDWARE_FEATURES "MsHvHardwareFeatures";
  fld HV_HYPERVISOR_CPU_MANAGEMENT_FEATURES "MsHvCpuManagementFeatures";
  fld HV_HYPERVISOR_SVM_FEATURES "MsHvSvmFeatures";
  fld HV_HYPERVISOR_ISOLATION_CONFIGURATION "MsHvIsolationConfiguration"].
Definition HV_SYNIC_SINT : cty := union 0 [
  fld UINT64 "AsUINT64";
  fld (struct 0 [
    bit UINT64 "Vector" 10;
    bit UINT64 "ReservedP1" 6;
    bit UINT64 "Masked" 1;
    bit UINT64 "AutoEoi" 1;
    bit UINT64 "Polling" 1;
    bit UINT64 "AsIntercept" 1;
    bit UINT64 "Proxy" 1;
    bit UINT64 "ReservedP2" 43]) anonymous].
Definition HV_MESSAGE_TYPE : enum := [
  Is "HvMessageTypeNone" 0x00000000;
  Is "HvMessageTypeUnmappedGpa" 0x80000000;
  Is "HvMessageTypeGpaIntercept" 0x80000001;
  Is "HvMessageTypeMmioIntercept" 0x80000002;
  Is "HvMessageTypeUnacceptedGpa" 0x80000003;
  Is "HvMessageTypeGpaAttributeIntercept" 0x80000004;
  Is "HvMessageTimerExpired" 0x80000010;
  Is "HvMessageTypeInvalidVpRegisterValue" 0x80000020;
  Is "HvMessageTypeUnrecoverableException" 0x80000021;
  Is "HvMessageTypeUnsupportedFeature" 0x80000022;
  Is "HvMessageTypeTlbPageSizeMismatch" 0x80000023;
  Is "HvMessageTypeIommuFault" 0x80000024;
  Is "HvMessageTypeEventLogBufferComplete" 0x80000040;
  Is "HvMessageTypeHypercallIntercept" 0x80000050;
  Is "HvMessageTypeSynicEventIntercept" 0x80000060;
  Is "HvMessageTypeSchedulerIdRangeStart" 0x80000100;
  Is "HvMessageTypeSchedulerVpSignalBitset" 0x80000100;
  Is "HvMessageTypeSchedulerVpSignalPair" 0x80000101;
  Is "HvMessageTypeSchedulerIdRangeEnd" 0x800001ff;
  Is "HvMessageTypeMsrIntercept" 0x80010001;
  Is "HvMessageTypeExceptionIntercept" 0x80010003;
  Is "HvMessageTypeRegisterIntercept" 0x80010006;
  Is "HvMessageTypeArm64ResetIntercept" 0x80010000].
Definition HV_MESSAGE_HEADER : cty := struct 0 [
  fld (enum_type HV_MESSAGE_TYPE) "MessageType";
  fld UINT8 "PayloadSize";
  fld HV_MESSAGE_FLAGS "MessageFlags";
  fld (CArr UINT8 2) "Reserved";
  fld (union 0 [
    fld HV_PARTITION_ID "Sender";
    fld HV_PORT_ID "Port"]) anonymous].
Definition HV_IOMMU_FAULT_TYPE : enum := [
  Next "HvIommuTranslationFault";
  Next "HvIommuTranslationBlocked";
  Next "HvIommuInterruptFault";
  Next "HvIommuPermissionFault";
  Next "HvIommuAddressSizeFault";
  Next "HvIommuTlbMatchConflict";
  Next "HvIommuExternalFault";
  Next "HvIommuUnsupportedUpstreamTransaction"].
Definition HV_IOMMU_FAULT_MESSAGE_PAYLOAD : cty := struct 0 [
  fld (enum_type HV_IOMMU_FAULT_TYPE) "Type";
  fld HV_INTERCEPT_ACCESS_TYPE "AccessType";
  fld (struct 0 [
    bit UINT32 "FaultAddressValid" 1;
    bit UINT32 "DeviceIdValid" 1]) "Flags";
  fld UINT64 "LogicalDeviceId";
  fld HV_GVA "FaultAddress"].
Definition HV_MESSAGE : cty := aligned 16 (struct 0 [
  fld HV_MESSAGE_HEADER "Header";
  fld (union 0 [
    fld (CArr UINT64 HV_MESSAGE_PAYLOAD_QWORD_COUNT) "Payload";
    fld HV_TIMER_MESSAGE_PAYLOAD "TimerPayload";
    fld HV_EVENTLOG_MESSAGE_PAYLOAD "TracePayload";
    fld HV_IOMMU_PRQ_MESSAGE_PAYLOAD "IommuPrqPayload";
    fld HV_IOMMU_FAULT_MESSAGE_PAYLOAD "IommuFaultPayload"]) anonymous]).
Definition HV_MESSAGE_PAGE : cty := struct 0 [
  fld (CArr HV_MESSAGE HV_SYNIC_SINT_COUNT) "SintMessage"].
Definition HV_INPUT_POST_MESSAGE : cty := aligned HV_CALL_ALIGNMENT (struct 0 [
  fld HV_CONNECTION_ID "ConnectionId";
  fld UINT32 "Reserved";
  fld (enum_type HV_MESSAGE_TYPE) "MessageType";
  fld UINT32 "PayloadSize";
  fld (CArr UINT64 HV_MESSAGE_PAYLOAD_QWORD_COUNT) "Payload"]).
Definition HV_REGISTER_NAME_2 : enum := [
  Is "HvRegisterStimer0Count" 0x000b0001;
  Is "HvRegisterStimer1Config" 0x000b0002;
  Is "HvRegisterStimer1Count" 0x000b0003;
  Is "HvRegisterStimer2Config" 0x000b0004;
  Is "HvRegisterStimer2Count" 0x000b0005;
  Is "HvRegisterStimer3Config" 0x000b0006;
  Is "HvRegisterStimer3Count" 0x000b0007;
  Is "HvRegisterStimeUnhaltedTimerConfig" 0x000b0100;
  Is "HvRegisterStimeUnhaltedTimerCount" 0x000b0101;
  Is "HvRegisterVsmCodePageOffsets" 0x000d0002;
  Is "HvRegisterVsmVpStatus" 0x000d0003;
  Is "HvRegisterVsmPartitionStatus" 0x000d0004;
  Is "HvRegisterVsmVina" 0x000d0005;
  Is "HvRegisterVsmCapabilities" 0x000d0006;
  Is "HvRegisterVsmPartitionConfig" 0x000d0007;
  Is "HvRegisterVsmVpSecureConfigVtl0" 0x000d0010;
  Is "HvRegisterVsmVpSecureConfigVtl1" 0x000d0011;
  Is "HvRegisterVsmVpSecureConfigVtl2" 0x000d0012;
  Is "HvRegisterVsmVpSecureConfigVtl3" 0x000d0013;
  Is "HvRegisterVsmVpSecureConfigVtl4" 0x000d0014;
  Is "HvRegisterVsmVpSecureConfigVtl5" 0x000d0015;
  Is "HvRegisterVsmVpSecureConfigVtl6" 0x000d0016;
  Is "HvRegisterVsmVpSecureConfigVtl7" 0x000d0017;
  Is "HvRegisterVsmVpSecureConfigVtl8" 0x000d0018;
  Is "HvRegisterVsmVpSecureConfigVtl9" 0x000d0019;
  Is "HvRegisterVsmVpSecureConfigVtl10" 0x000d001a;
  Is "HvRegisterVsmVpSecureConfigVtl11" 0x000d001b;
  Is "HvRegisterVsmVpSecureConfigVtl12" 0x000d001c;
  Is "HvRegisterVsmVpSecureConfigVtl13" 0x000d001d;
  Is "HvRegisterVsmVpSecureConfigVtl14" 0x000d001e;
  Is "HvRegisterVsmVpWaitForTlbLock" 0x000d0020;
  Is "HvRegisterIsolationCapabilities" 0x000d0100].
Definition HV_REGISTER_NAME_3 : enum := [
  Is "HvArm64RegisterX0" 0x00020000;
  Is "HvArm64RegisterX1" 0x00020001;
  Is "HvArm64RegisterX2" 0x00020002;
  Is "HvArm64RegisterX3" 0x00020003;
  Is "HvArm64RegisterX4" 0x00020004;
  Is "HvArm64RegisterX5" 0x00020005;
  Is "HvArm64RegisterX6" 0x00020006;
  Is "HvArm64RegisterX7" 0x00020007;
  Is "HvArm64RegisterX8" 0x00020008;
  Is "HvArm64RegisterX9" 0x00020009;
  Is "HvArm64RegisterX10" 0x0002000a;
  Is "HvArm64RegisterX11" 0x0002000b;
  Is "HvArm64RegisterX12" 0x0002000c;
  Is "HvArm64RegisterX13" 0x0002000d;
  Is "HvArm64RegisterX14" 0x0002000e;
  Is "HvArm64RegisterX15" 0x0002000f;
  Is "HvArm64RegisterX16" 0x00020010;
  Is "HvArm64RegisterX17" 0x00020011;
  Is "HvArm64RegisterX18" 0x00020012;
  Is "HvArm64RegisterX19" 0x00020013;
  Is "HvArm64RegisterX20" 0x00020014;
  Is "HvArm64RegisterX21" 0x00020015;
  Is "HvArm64RegisterX22" 0x00020016;
  Is "HvArm64RegisterX23" 0x00020017;
  Is "HvArm64RegisterX24" 0x00020018;
  Is "HvArm64RegisterX25" 0x00020019;
  Is "HvArm64RegisterX26" 0x0002001a;
  Is "HvArm64RegisterX27" 0x0002001b;
  Is "HvArm64RegisterX28" 0x0002001c;
  Is "HvArm64RegisterXFp" 0x0002001d;
  Is "HvArm64RegisterXLr" 0x0002001e;
  Is "HvArm64RegisterXSp" 0x0002001f;
  Is "HvArm64RegisterXSpEl0" 0x00020020;
  Is "HvArm64RegisterXSpElx" 0x00020021;
  Is "HvArm64RegisterXPc" 0x00020022;
  Is "HvArm64RegisterCpsr" 0x00020023;
  Is "HvArm64RegisterQ0" 0x00030000;
  Is "HvArm64RegisterQ1" 0x00030001;
  Is "HvArm64RegisterQ2" 0x00030002;
  Is "HvArm64RegisterQ3" 0x00030003;
  Is "HvArm64RegisterQ4" 0x00030004;
  Is "HvArm64RegisterQ5" 0x00030005;
  Is "HvArm64RegisterQ6" 0x00030006;
  Is "HvArm64RegisterQ7" 0x00030007;
  Is "HvArm64RegisterQ8" 0x00030008;
  Is "HvArm64RegisterQ9" 0x00030009;
  Is "HvArm64RegisterQ10" 0x0003000a;
  Is "HvArm64RegisterQ11" 0x0003000b;
  Is "HvArm64RegisterQ12" 0x0003000c;
  Is "HvArm64RegisterQ13" 0x0003000d;
  Is "HvArm64RegisterQ14" 0x0003000e;
  Is "HvArm64RegisterQ15" 0x0003000f;
  Is "HvArm64RegisterQ16" 0x00030010;
  Is "HvArm64RegisterQ17" 0x00030011;
  Is "HvArm64RegisterQ18" 0x00030012;
  Is "HvArm64RegisterQ19" 0x00030013;
  Is "HvArm64RegisterQ20" 0x00030014;
  Is "HvArm64RegisterQ21" 0x00030015;
  Is "HvArm64RegisterQ22" 0x00030016;
  Is "HvArm64RegisterQ23" 0x00030017;
  Is "HvArm64RegisterQ24" 0x00030018;
  Is "HvArm64RegisterQ25" 0x00030019;
  Is "HvArm64RegisterQ26" 0x0003001a;
  Is "HvArm64RegisterQ27" 0x0003001b;
  Is "HvArm64RegisterQ28" 0x0003001c;
  Is "HvArm64RegisterQ29" 0x0003001d;
  Is "HvArm64RegisterQ30" 0x0003001e;
  Is "HvArm64RegisterQ31" 0x0003001f;
  Is "HvArm64RegisterFpControl" 0x00030020;
  Is "HvArm64RegisterFpStatus" 0x00030021;
  Is "HvArm64RegisterBcr0" 0x00050000;
  Is "HvArm64RegisterBcr1" 0x00050001;
  Is "HvArm64RegisterBcr2" 0x00050002;
  Is "HvArm64RegisterBcr3" 0x00050003;
  Is "HvArm64RegisterBcr4" 0x00050004;
  Is "HvArm64RegisterBcr5" 0x00050005;
  Is "HvArm64RegisterBcr6" 0x00050006;
  Is "HvArm64RegisterBcr7" 0x00050007;
  Is "HvArm64RegisterBcr8" 0x00050008;
  Is "HvArm64RegisterBcr9" 0x00050009;
  Is "HvArm64RegisterBcr10" 0x0005000a;
  Is "HvArm64RegisterBcr11" 0x0005000b;
  Is "HvArm64RegisterBcr12" 0x0005000c;
  Is "HvArm64RegisterBcr13" 0x0005000d;
  Is "HvArm64RegisterBcr14" 0x0005000e;
  Is "HvArm64RegisterBcr15" 0x0005000f;
  Is "HvArm64RegisterWcr0" 0x00050010;
  Is "HvArm64RegisterWcr1" 0x00050011;
  Is "HvArm64RegisterWcr2" 0x00050012;
  Is "HvArm64RegisterWcr3" 0x00050013;
  Is "HvArm64RegisterWcr4" 0x00050014;
  Is "HvArm64RegisterWcr5" 0x00050015;
  Is "HvArm64RegisterWcr6" 0x00050016;
  Is "HvArm64RegisterWcr7" 0x00050017;
  Is "HvArm64RegisterWcr8" 0x00050018;
  Is "HvArm64RegisterWcr9" 0x00050019;
  Is "HvArm64RegisterWcr10" 0x0005001a;
  Is "HvArm64RegisterWcr11" 0x0005001b;
  Is "HvArm64RegisterWcr12" 0x0005001c;
  Is "HvArm64RegisterWcr13" 0x0005001d;
  Is "HvArm64RegisterWcr14" 0x0005001e;
  Is "HvArm64RegisterWcr15" 0x0005001f;
  Is "HvArm64RegisterBvr0" 0x00050020;
  Is "HvArm64RegisterBvr1" 0x00050021;
  Is "HvArm64RegisterBvr2" 0x00050022;
  Is "HvArm64RegisterBvr3" 0x00050023;
  Is "HvArm64RegisterBvr4" 0x00050024;
  Is "HvArm64RegisterBvr5" 0x00050025;
  Is "HvArm64RegisterBvr6" 0x00050026;
  Is "HvArm64RegisterBvr7" 0x00050027;
  Is "HvArm64RegisterBvr8" 0x00050028;
  Is "HvArm64RegisterBvr9" 0x00050029;
  Is "HvArm64RegisterBvr10" 0x0005002a;
  Is "HvArm64RegisterBvr11" 0x0005002b;
  Is "HvArm64RegisterBvr12" 0x0005002c;
  Is "HvArm64RegisterBvr13" 0x0005002d;
  Is "HvArm64RegisterBvr14" 0x0005002e;
  Is "HvArm64RegisterBvr15" 0x0005002f;
  Is "HvArm64RegisterWvr0" 0x00050030;
  Is "HvArm64RegisterWvr1" 0x00050031;
  Is "HvArm64RegisterWvr2" 0x00050032;
  Is "HvArm64RegisterWvr3" 0x00050033;
  Is "HvArm64RegisterWvr4" 0x00050034;
  Is "HvArm64RegisterWvr5" 0x00050035;
  Is "HvArm64RegisterWvr6" 0x00050036;
  Is "HvArm64RegisterWvr7" 0x00050037;
  Is "HvArm64RegisterWvr8" 0x00050038;
  Is "HvArm64RegisterWvr9" 0x00050039;
  Is "HvArm64RegisterWvr10" 0x0005003a;
  Is "HvArm64RegisterWvr11" 0x0005003b;
  Is "HvArm64RegisterWvr12" 0x0005003c;
  Is "HvArm64RegisterWvr13" 0x0005003d;
  Is "HvArm64RegisterWvr14" 0x0005003e;
  Is "HvArm64RegisterWvr15" 0x0005003f].
Definition HV_REGISTER_NAME_4 : enum := [
  Is "HvArm64RegisterMidr" 0x00040000;
  Is "HvArm64RegisterMpidr" 0x00040001;
  Is "HvArm64RegisterSctlr" 0x00040002;
  Is "HvArm64RegisterActlr" 0x00040003;
  Is "HvArm64RegisterCpacr" 0x00040004;
  Is "HvArm64RegisterTtbr0" 0x00040005;
  Is "HvArm64RegisterTtbr1" 0x00040006;
  Is "HvArm64RegisterTcr" 0x00040007;
  Is "HvArm64RegisterEsrEl1" 0x00040008;
  Is "HvArm64RegisterFarEl1" 0x00040009;
  Is "HvArm64RegisterParEl1" 0x0004000a;
  Is "HvArm64RegisterMair" 0x0004000b;
  Is "HvArm64RegisterVbar" 0x0004000c;
  Is "HvArm64RegisterContextIdr" 0x0004000d;
  Is "HvArm64RegisterTpidr" 0x0004000e;
  Is "HvArm64RegisterCntkctl" 0x0004000f;
  Is "HvArm64RegisterTpidrroEl0" 0x00040010;
  Is "HvArm64RegisterTpidrEl0" 0x00040011;
  Is "HvArm64RegisterFpcrEl1" 0x00040012;
  Is "HvArm64RegisterFpsrEl1" 0x00040013;
  Is "HvArm64RegisterSpsrEl1" 0x00040014;
  Is "HvArm64RegisterElrEl1" 0x00040015;
  Is "HvArm64RegisterAfsr0" 0x00040016;
  Is "HvArm64RegisterAfsr1" 0x00040017;
  Is "HvArm64RegisterAMair" 0x00040018;
  Is "HvArm64RegisterMdscr" 0x00040019;
  Is "HvArm64RegisterMdcr" 0x00040101;
  Is "HvArm64RegisterCptr" 0x00040102;
  Is "HvArm64RegisterHstr" 0x00040103;
  Is "HvArm64RegisterHacr" 0x00040104;
  Is "HvArm64RegisterCnthCtl" 0x000b0400;
  Is "HvArm64RegisterCntkCtl" 0x000b0401;
  Is "HvArm64RegisterCntpCtl" 0x000b0402;
  Is "HvArm64RegisterCntpCval" 0x000b0403;
  Is "HvArm64RegisterCntvOffset" 0x000b0404;
  Is "HvArm64RegisterCntvCtl" 0x000b0405;
  Is "HvArm64RegisterCntvCval" 0x000b0406;
  Is "HvArm64RegisterCtr" 0x00040300;
  Is "HvArm64RegisterDczid" 0x00040301;
  Is "HvArm64RegisterRevidr" 0x00040302;
  Is "HvArm64RegisterIdAa64pfr0" 0x00040303;
  Is "HvArm64RegisterIdAa64pfr1" 0x00040304;
  Is "HvArm64RegisterIdAa64dfr0" 0x00040305;
  Is "HvArm64RegisterIdAa64dfr1" 0x00040306;
  Is "HvArm64RegisterIdAa64afr0" 0x00040307;
  Is "HvArm64RegisterIdAa64afr1" 0x00040308;
  Is "HvArm64RegisterIdAa64isar0" 0x00040309;
  Is "HvArm64RegisterIdAa64isar1" 0x0004030a;
  Is "HvArm64RegisterIdAa64mmfr0" 0x0004030b;
  Is "HvArm64RegisterIdAa64mmfr1" 0x0004030c;
  Is "HvArm64RegisterClidr" 0x0004030d;
  Is "HvArm64RegisterAidr" 0x0004030e;
  Is "HvArm64RegisterCsselr" 0x0004030f;
  Is "HvArm64RegisterCcsidr" 0x00040310;
  Is "HvArm64RegisterSyntheticException" 0x00040400;
  Is "HvArm64RegisterInterfaceVersion" 0x00090006;
  Is "HvArm64RegisterPartitionInfoPage" 0x00090015;
  Is "HvArm64RegisterTlbiControl" 0x00090016].
Definition HV_REGISTER_NAME : enum := HV_REGISTER_NAME_1 ++ HV_REGISTER_NAME_2 ++ HV_REGISTER_NAME_3
  ++ HV_REGISTER_NAME_4.
Definition HV_INPUT_START_VIRTUAL_PROCESSOR : cty := aligned HV_CALL_ALIGNMENT (struct 0 [
  fld HV_PARTITION_ID "PartitionId";
  fld HV_VP_INDEX "VpIndex";
  fld HV_VTL "TargetVtl";
  fld UINT8 "ReservedZ0";
  fld UINT16 "ReservedZ1";
  fld HV_INITIAL_VP_CONTEXT "VpContext"]).
(** ** [Mile.HyperV.TLFS.h] *)

Definition HV_ARM64_CONTEXT : cty := struct 0 [
  fld UINT64 "X0";
  fld UINT64 "X1";
  fld UINT64 "X2";
  fld UINT64 "X3";
  fld UINT64 "X4";
  fld UINT64 "X5";
  fld UINT64 "X6";
  fld UINT64 "X7";
  fld UINT64 "X8";
  fld UINT64 "X9";
  fld UINT64 "X10";
  fld UINT64 "X11";
  fld UINT64 "X12";
  fld UINT64 "X13";
  fld UINT64 "X14";
  fld UINT64 "X15";
  fld HV_UINT128 "Q0";
  fld HV_UINT128 "Q1";
  fld HV_UINT128 "Q2";
  fld HV_UINT128 "Q3";
  fld HV_UINT128 "Q4";
  fld HV_UINT128 "Q5";
  fld HV_UINT128 "Q6";
  fld HV_UINT128 "Q7";
  fld HV_UINT128 "Q16";
  fld HV_UINT128 "Q17";
  fld HV_UINT128 "Q18";
  fld HV_UINT128 "Q19";
  fld HV_UINT128 "Q20";
  fld HV_UINT128 "Q21";
  fld HV_UINT128 "Q22";
  fld HV_UINT128 "Q23";
  fld HV_UINT128 "Q24";
  fld HV_UINT128 "Q25";
  fld HV_UINT128 "Q26";
  fld HV_UINT128 "Q27";
  fld HV_UINT128 "Q28";
  fld HV_UINT128 "Q29";
  fld HV_UINT128 "Q30";
  fld HV_UINT128 "Q31";
  fld UINT64 "X16";
  fld UINT64 "X17";
  fld UINT64 "X18";
  fld UINT64 "X19";
  fld UINT64 "X20";
  fld UINT64 "X21";
  fld UINT64 "X22";
  fld UINT64 "X23";
  fld UINT64 "X24";
  fld UINT64 "X25";
  fld UINT64 "X26";
  fld UINT64 "X27";
  fld UINT64 "X28";
  fld UINT64 "XFp";
  fld UINT64 "XLr";
  fld HV_UINT128 "Q8";
  fld HV_UINT128 "Q9";
  fld HV_UINT128 "Q10";
  fld HV_UINT128 "Q11";
  fld HV_UINT128 "Q12";
  fld HV_UINT128 "Q13";
  fld HV_UINT128 "Q14";
  fld HV_UINT128 "Q15";
  fld UINT32 "Cpsr";
  fld UINT64 "Sp";
  fld UINT64 "Pc";
  fld UINT64 "SCTLR_EL1";
  fld UINT64 "ACTLR_EL1";
  fld UINT64 "CPACR_EL1";
  fld UINT64 "TPIDRRO_EL0";
  fld UINT64 "TPIDR_EL0";
  fld UINT64 "TTBR0_EL1";
  fld UINT64 "TTBR1_EL1";
  fld UINT64 "TCR_EL1";
  fld UINT64 "ESR_EL1";
  fld UINT64 "FAR_EL1";
  fld UINT64 "PAR_EL1";
  fld UINT64 "MAIR_EL1";
  fld UINT64 "VBAR_EL1";
  fld UINT64 "CONTEXTIDR_EL1";
  fld UINT64 "TPIDR_EL1";
  fld UINT64 "SPSR_EL1";
  fld UINT64 "ELR_EL1";
  fld UINT64 "AFSR0_EL1";
  fld UINT64 "AFSR1_EL1";
  fld UINT64 "AMAIR_EL1"].
Definition HV_VP_CONTEXT : cty := struct 0 [
  fld (union 0 [
    fld (struct 0 [
      fld UINT32 "Version";
      fld (enum_type HV_ARCHITECTURE) "Architecture";
      fld (union 0 [
        fld HV_ARM64_CONTEXT "aa64"]) anonymous]) anonymous;
    fld (struct 0 [
      fld UINT64 "Pc";
      fld UINT64 "Sctlr";
      fld UINT64 "Ttbr0";
      fld UINT64 "Ttbr1";
      fld UINT64 "Tcr";
      fld UINT64 "Mair"]) anonymous]) anonymous].
Definition HV_ST_MAX_COUNTERS_PER_GROUP : Z := (HV_PAGE_SIZE - (2 * (sizeof SysV
  HV_STATISTICS_GROUP_HEADER))) / (sizeof SysV UINT64).
Definition HV_STATS_PAGE : cty := struct 0 [
  fld (CArr UINT64 (HV_PAGE_SIZE / (sizeof SysV UINT64))) "Data"].
Definition HV_THREAD_COUNTER : enum := [
  Is "StCounterVpTotalRunTime" 0x1;
  Is "StCounterVpHypervisorRunTime" 0x2;
  Is "StCounterVpRemoteNodeRunTime" 0x3;
  Is "StCounterVpNormalizedRunTime" 0x4;
  Is "StCounterVpIdealCpu" 0x5;
  Is "StCounterVpHypercallsCount" 0x7;
  Is "StCounterVpHypercallsTime" 0x8;
  Is "StCounterVpSysRegAccessesCount" 0x9;
  Is "StCounterVpSysRegAccessesTime" 0xa;
  Is "StCounterVpSmcInstructionsCount" 0xb;
  Is "StCounterVpSmcInstructionsTime" 0xc;
  Is "StCounterVpOtherInterceptsCount" 0xd;
  Is "StCounterVpOtherInterceptsTime" 0xe;
  Is "StCounterVpExternalInterruptsCount" 0xf;
  Is "StCounterVpExternalInterruptsTime" 0x10;
  Is "StCounterVpPendingInterruptsCount" 0x11;
  Is "StCounterVpPendingInterruptsTime" 0x12;
  Is "StCounterVpGuestPageTableMaps" 0x13;
  Is "StCounterVpLargePageTlbFills" 0x14;
  Is "StCounterVpSmallPageTlbFills" 0x15;
  Is "StCounterVpReflectedGuestPageFaults" 0x16;
  Is "StCounterVpMemoryInterceptMessages" 0x17;
  Is "StCounterVpOtherMessages" 0x18;
  Is "StCounterVpLogicalProcessorMigrations" 0x19;
  Is "StCounterVpAddressDomainFlushes" 0x1a;
  Is "StCounterVpAddressSpaceFlushes" 0x1b;
  Is "StCounterVpSyntheticInterrupts" 0x1c;
  Is "StCounterVpVirtualInterrupts" 0x1d;
  Is "StCounterVpApicSelfIpisSent" 0x1e;
  Is "StCounterVpGpaSpaceHypercalls" 0x1f;
  Is "StCounterVpLogicalProcessorHypercalls" 0x20;
  Is "StCounterVpLongSpinWaitHypercalls" 0x21;
  Is "StCounterVpOtherHypercalls" 0x22;
  Is "StCounterVpSyntheticInterruptHypercalls" 0x23;
  Is "StCounterVpVirtualInterruptHypercalls" 0x24;
  Is "StCounterVpVirtualMmuHypercalls" 0x25;
  Is "StCounterVpVirtualProcessorHypercalls" 0x26;
  Is "StCounterVpHardwareInterrupts" 0x27;
  Is "StCounterVpNestedPageFaultInterceptsCount" 0x28;
  Is "StCounterVpNestedPageFaultInterceptsTime" 0x29;
  Is "StCounterVpLogicalProcessorDispatches" 0x2a;
  Is "StCounterVpWaitingForCpuTime" 0x2b;
  Is "StCounterVpExtendedHypercalls" 0x2c;
  Is "StCounterVpExtendedHypercallInterceptMessages" 0x2d;
  Is "StCounterVpMbecNestedPageTableSwitches" 0x2e;
  Is "StCounterVpOtherReflectedGuestExceptions" 0x2f;
  Is "StCounterVpGlobalIoTlbFlushes" 0x30;
  Is "StCounterVpGlobalIoTlbFlushCost" 0x31;
  Is "StCounterVpLocalIoTlbFlushes" 0x32;
  Is "StCounterVpLocalIoTlbFlushCost" 0x33;
  Is "StCounterVpFlushGuestPhysicalAddressSpaceHypercalls" 0x34;
  Is "StCounterVpFlushGuestPhysicalAddressListHypercalls" 0x35;
  Is "StCounterVpPostedInterruptNotifications" 0x36;
  Is "StCounterVpPostedInterruptScans" 0x37;
  Is "StCounterVpTotalCoreRunTime" 0x38;
  Is "StCounterVpMaximumRunTime" 0x39;
  Is "StCounterVpWaitingForCpuTimeBucket0" 0x3a;
  Is "StCounterVpWaitingForCpuTimeBucket1" 0x3b;
  Is "StCounterVpWaitingForCpuTimeBucket2" 0x3c;
  Is "StCounterVpWaitingForCpuTimeBucket3" 0x3d;
  Is "StCounterVpWaitingForCpuTimeBucket4" 0x3e;
  Is "StCounterVpWaitingForCpuTimeBucket5" 0x3f;
  Is "StCounterVpWaitingForCpuTimeBucket6" 0x40;
  Is "StCounterVpHwpRequestContextSwitches" 0x41;
  Is "StCounterVpPlaceholder2" 0x42;
  Is "StCounterVpPlaceholder3" 0x43;
  Is "StCounterVpPlaceholder4" 0x44;
  Is "StCounterVpPlaceholder5" 0x45;
  Is "StCounterVpPlaceholder6" 0x46;
  Is "StCounterVpPlaceholder7" 0x47;
  Is "StCounterVpPlaceholder8" 0x48;
  Is "StCounterVpContentionTime" 0x49;
  Is "StCounterVpWakeUpTime" 0x4a;
  Is "StCounterVpSchedulingPriority" 0x4b;
  Is "StCounterVpVtl1DispatchCount" 0x4c;
  Is "StCounterVpVtl2DispatchCount" 0x4d;
  Is "StCounterVpVtl2DispatchBucket0" 0x4e;
  Is "StCounterVpVtl2DispatchBucket1" 0x4f;
  Is "StCounterVpVtl2DispatchBucket2" 0x50;
  Is "StCounterVpVtl2DispatchBucket3" 0x51;
  Is "StCounterVpVtl2DispatchBucket4" 0x52;
  Is "StCounterVpVtl2DispatchBucket5" 0x53;
  Is "StCounterVpVtl2DispatchBucket6" 0x54;
  Is "StCounterVpVtl1RunTime" 0x55;
  Is "StCounterVpVtl2RunTime" 0x56;
  Is "StCounterVpIommuHypercalls" 0x57;
  Is "StCounterVpCpuGroupHypercalls" 0x58;
  Is "StCounterVpVsmHypercalls" 0x59;
  Is "StCounterVpEventLogHypercalls" 0x5a;
  Is "StCounterVpDeviceDomainHypercalls" 0x5b;
  Is "StCounterVpDepositHypercalls" 0x5c;
  Is "StCounterVpSvmHypercalls" 0x5d;
  Is "StCounterVpMAXIMUM" 0x5e].
Definition HV_INTERRUPT_TYPE : enum := [
  Is "HvArm64InterruptTypeFixed" 0x0000;
  Is "HvArm64InterruptTypeMaximum" 0x0008].
Definition HV_PROCESSOR_INFO : cty := struct 0 [
  fld HV_PROCESSOR_HW_ID "ProcessorHwId";
  fld HV_PROXIMITY_DOMAIN_ID "ProximityDomainId"].
Definition HV_SAVE_RESTORE_STATE_RESULT : enum := [
  Is "HvStateComplete" 0;
  Is "HvStateIncomplete" 1;
  Is "HvStateCorruptData" 2;
  Is "HvStateUnsupportedVersion" 3;
  Is "HvStateProcessorFeatureMismatch" 4;
  Is "HvStateIncompatibleProcessor" 5;
  Is "HvStateProcessorCacheLineFlushSizeMismatch" 6].
Definition HV_PARTITION_PROCESSOR_FEATURES_BANKS : Z := 1.
Definition HV_PARTITION_PROCESSOR_FEATURES : cty := union 0 [
  fld (CArr UINT64 HV_PARTITION_PROCESSOR_FEATURES_BANKS) "AsUINT64";
  fld (struct 0 [
    bit UINT64 "Asid16" 1;
    bit UINT64 "TGran16" 1;
    bit UINT64 "TGran64" 1;
    bit UINT64 "Haf" 1;
    bit UINT64 "Hdbs" 1;
    bit UINT64 "Pan" 1;
    bit UINT64 "AtS1E1" 1;
    bit UINT64 "Uao" 1;
    bit UINT64 "El0Aarch32" 1;
    bit UINT64 "Fp" 1;
    bit UINT64 "FpHp" 1;
    bit UINT64 "AdvSimd" 1;
    bit UINT64 "AdvSimdHp" 1;
    bit UINT64 "GicV3V4" 1;
    bit UINT64 "GicV4P1" 1;
    bit UINT64 "Ras" 1;
    bit UINT64 "PmuV3" 1;
    bit UINT64 "PmuV3ArmV81" 1;
    bit UINT64 "PmuV3ArmV84" 1;
    bit UINT64 "PmuV3ArmV85" 1;
    bit UINT64 "Aes" 1;
    bit UINT64 "PolyMul" 1;
    bit UINT64 "Sha1" 1;
    bit UINT64 "Sha256" 1;
    bit UINT64 "Sha512" 1;
    bit UINT64 "Crc32" 1;
    bit UINT64 "Atomic" 1;
    bit UINT64 "Rdm" 1;
    bit UINT64 "Sha3" 1;
    bit UINT64 "Sm3" 1;
    bit UINT64 "Sm4" 1;
    bit UINT64 "Dp" 1;
    bit UINT64 "Fhm" 1;
    bit UINT64 "DcCvap" 1;
    bit UINT64 "DcCvadp" 1;
    bit UINT64 "ApaBase" 1;
    bit UINT64 "ApaEp" 1;
    bit UINT64 "ApaEp2" 1;
    bit UINT64 "ApaEp2Fp" 1;
    bit UINT64 "ApaEp2Fpc" 1;
    bit UINT64 "Jscvt" 1;
    bit UINT64 "Fcma" 1;
    bit UINT64 "RcpcV83" 1;
    bit UINT64 "RcpcV84" 1;
    bit UINT64 "Gpa" 1;
    bit UINT64 "L1ipPipt" 1;
    bit UINT64 "DzPermitted" 1;
    bit UINT64 "Ssbs" 1;
    bit UINT64 "SsbsRw" 1;
    bit UINT64 "SmcccW1Supported" 1;
    bit UINT64 "SmcccW1Mitigated" 1;
    bit UINT64 "SmcccW2Supported" 1;
    bit UINT64 "SmcccW2Mitigated" 1;
    bit UINT64 "Csv2" 1;
    bit UINT64 "Csv3" 1;
    bit UINT64 "Sb" 1;
    bit UINT64 "Idc" 1;
    bit UINT64 "Dic" 1;
    bit UINT64 "TlbiOs" 1;
    bit UINT64 "TlbiOsRange" 1;
    bit UINT64 "FlagsM" 1;
    bit UINT64 "FlagsM2" 1;
    bit UINT64 "Bf16" 1;
    bit UINT64 "Ebf16" 1;
    bit UINT64 "SveBf16" 1;
    bit UINT64 "SveEbf16" 1;
    bit UINT64 "I8mm" 1;
    bit UINT64 "SveI8mm" 1;
    bit UINT64 "Frintts" 1;
    bit UINT64 "Specres" 1;
    bit UINT64 "Mtpmu" 1;
    bit UINT64 "Rpres" 1;
    bit UINT64 "Exs" 1;
    bit UINT64 "SpecSei" 1;
    bit UINT64 "Ets" 1;
    bit UINT64 "Afp" 1;
    bit UINT64 "Iesb" 1;
    bit UINT64 "Rng" 1;
    bit UINT64 "Lse2" 1;
    bit UINT64 "Idst" 1;
    bit UINT64 "RasV1P1" 1;
    bit UINT64 "RasFracV1P1" 1;
    bit UINT64 "Sel2" 1;
    bit UINT64 "AmuV1" 1;
    bit UINT64 "AmuV1P1" 1;
    bit UINT64 "Dit" 1;
    bit UINT64 "Ccidx" 1;
    bit UINT64 "FgtForIntercepts" 1;
    bit UINT64 "L1ipVpipt" 1;
    bit UINT64 "L1ipVipt" 1;
    bit UINT64 "DebugV8" 1;
    bit UINT64 "DebugV8P2" 1;
    bit UINT64 "DebugV8P4" 1;
    bit UINT64 "PmuV3ArmV87" 1;
    bit UINT64 "DoubleLock" 1;
    bit UINT64 "Clrbhb" 1;
    bit UINT64 "Spe" 1;
    bit UINT64 "SpeV1P1" 1;
    bit UINT64 "SpeV1P2" 1;
    bit UINT64 "TtCnp" 1;
    bit UINT64 "Hpds" 1;
    bit UINT64 "Sve" 1;
    bit UINT64 "SveV2" 1;
    bit UINT64 "SveV2P1" 1;
    bit UINT64 "SpecFpacc" 1;
    bit UINT64 "ReservedBank1" 23]) anonymous].
Definition HV_PARTITION_PROCESSOR_XSAVE_FEATURES : cty := union 0 [
  fld UINT64 "AsUINT64"].
Definition HV_INTERCEPT_SUSPEND_REGISTER : cty := union 0 [
  fld UINT64 "AsUINT64";
  fld (struct 0 [
    bit UINT64 "Suspended" 1;
    bit UINT64 "Reserved" 63]) anonymous].
Definition HV_ARM64_PENDING_EXCEPTION_EVENT : cty := union 0 [
  fld (CArr UINT64 3) "AsUINT64";
  fld (struct 0 [
    bit UINT8 "EventPending" 1;
    bit UINT8 "EventType" 3;
    bit UINT8 "Reserved" 4;
    fld UINT64 "EsrElx";
    fld UINT64 "FarElx"]) anonymous].
Definition HV_ARM64_PENDING_INTERRUPTION_TYPE : enum := [
  Is "HvArm64PendingInterrupt" 0;
  Is "HvArm64PendingException" 1].
Definition HV_ARM64_PENDING_INTERRUPTION_REGISTER : cty := union 0 [
  fld UINT64 "AsUINT64";
  fld (struct 0 [
    bit UINT64 "InterruptionPending" 1;
    bit UINT64 "InterruptionType" 1;
    bit UINT64 "Reserved" 30;
    bit UINT64 "ErrorCode" 32]) anonymous].
Definition HV_ARM64_INTERRUPT_STATE_REGISTER : cty := union 0 [
  fld UINT64 "AsUINT64";
  fld (struct 0 [
    bit UINT64 "InterruptShadow" 1;
    bit UINT64 "Reserved" 63]) anonymous].
Definition HV_ARM64_PENDING_SYNTHETIC_EXCEPTION_EVENT : cty := union 0 [
  fld (CArr UINT64 2) "AsUINT64";
  fld (struct 0 [
    bit UINT8 "EventPending" 1;
    bit UINT8 "EventType" 3;
    bit UINT8 "Reserved" 4;
    fld UINT32 "ExceptionType";
    fld UINT64 "Context"]) anonymous].
Definition HV_REGISTER_VALUE_PRIVATE : cty := union 0 [
  fld HV_EXPLICIT_SUSPEND_REGISTER "ExplicitSuspend";
  fld HV_INTERCEPT_SUSPEND_REGISTER "InterceptSuspend";
  fld HV_DISPATCH_SUSPEND_REGISTER "DispatchSuspend";
  fld HV_ARM64_PENDING_INTERRUPTION_REGISTER "PendingInterruption";
  fld HV_ARM64_INTERRUPT_STATE_REGISTER "InterruptState";
  fld HV_ARM64_PENDING_SYNTHETIC_EXCEPTION_EVENT "PendingSyntheticExceptionEvent"].
Definition HV_INTERCEPT_TYPE : enum := [
  Is "HvInterceptTypeException" 0x00000003;
  Is "HvInterceptTypeReserved0" 0x00000004;
  Is "HvInterceptTypeMmio" 0x00000005;
  Is "HvInterceptTypeHypercall" 0x00000008;
  Is "HvInterceptTypeUnknownSynicConnection" 0x0000000d;
  Is "HvInterceptTypeRetargetInterruptWithUnknownDeviceId" 0x0000000f;
  Is "HvInterceptTypeRegister" 0x00000012;
  Is "HvInterceptTypeMax" 0x00000013;
  Is "HvInterceptTypeInvalid" 0xffffffff].
Definition HV_INTERCEPT_PARAMETERS : cty := union 0 [
  fld UINT64 "AsUINT64";
  fld UINT16 "ExceptionVector"].
Definition HV_INTERCEPT_PARAMETERS_EX : cty := union 0 [
  fld (CArr UINT64 16) "InterceptParamsRaw";
  fld (struct 0 [
    fld (enum_type HV_REGISTER_NAME) "RegisterName";
    fld UINT32 "AccessTypeMask";
    fld UINT64 "WriteInterceptMask";
    fld (CArr UINT64 14) "Reserved"]) "RegisterInterceptParams"].
Definition HV_INTERCEPT_DESCRIPTOR : cty := struct 0 [
  fld (enum_type HV_INTERCEPT_TYPE) "Type";
  fld HV_INTERCEPT_PARAMETERS "Parameters"].
(** ** [Mile.HyperV.TLFS.h] *)

Definition HV_MESSAGE_TYPE_PRIVATE : enum := [
  Is "HvMessageTypeEnablePartitionVtlIntercept" 0x80000005;
  Is "HvMessageTypeOpaqueIntercept" 0x8000003f;
  Is "HvMessageTypeSynicSintIntercept" 0x80000061;
  Is "HvMessageTypeSynicSintDeliverable" 0x80000062;
  Is "HvMessageInsufficientMemory" 0x80000071;
  Is "HvMessageMirroringNotification" 0x80000072;
  Is "HvMessageRestartCompletionNotification" 0x80000073;
  Is "HvMessageTypeAsyncCallCompletion" 0x80000070;
  Is "HvMessageTypeArm64ResetInterceptUndocumented" 0x8001000c].
Definition HV_INTERRUPT_CONTROL : cty := struct 0 [
  fld UINT64 "AsUINT64";
  fld (struct 0 [
    fld (enum_type HV_INTERRUPT_TYPE) "InterruptType";
    bit UINT32 "LevelTriggered" 1;
    bit UINT32 "LogicalDestinationMode" 1;
    bit UINT32 "Asserted" 1;
    bit UINT32 "Reserved" 29]) anonymous].
Definition HV_ARM64_VP_EXECUTION_STATE : cty := union 0 [
  fld UINT16 "AsUINT16";
  fld (struct 0 [
    bit UINT16 "Cpl" 2;
    bit UINT16 "DebugActive" 1;
    bit UINT16 "InterruptionPending" 1;
    bit UINT16 "Vtl" 4;
    bit UINT16 "VirtualizationFaultActive" 1;
    bit UINT16 "Reserved" 7]) anonymous].
Definition HV_ARM64_INTERCEPT_MESSAGE_HEADER : cty := struct 0 [
  fld HV_VP_INDEX "VpIndex";
  fld UINT8 "InstructionLength";
  fld UINT8 "InterceptAccessType";
  fld HV_ARM64_VP_EXECUTION_STATE "ExecutionState";
  fld UINT64 "Pc";
  fld UINT64 "Cpsr"].
Definition HV_ARM64_MEMORY_ACCESS_INFO : cty := union 0 [
  fld UINT8 "AsUINT8";
  fld (struct 0 [
    bit UINT8 "GvaValid" 1;
    bit UINT8 "GvaGpaValid" 1;
    bit UINT8 "HypercallOutputPending" 1;
    bit UINT8 "Reserved" 5]) anonymous].
Definition HV_ARM64_MEMORY_INTERCEPT_MESSAGE : cty := struct 0 [
  fld HV_ARM64_INTERCEPT_MESSAGE_HEADER "Header";
  fld (enum_type HV_CACHE_TYPE) "CacheType";
  fld UINT8 "InstructionByteCount";
  fld HV_ARM64_MEMORY_ACCESS_INFO "MemoryAccessInfo";
  fld UINT16 "Reserved1";
  fld (CArr UINT8 4) "InstructionBytes";
  fld UINT32 "Reserved2";
  fld UINT64 "GuestVirtualAddress";
  fld UINT64 "GuestPhysicalAddress";
  fld UINT64 "Syndrome"].
Definition HV_ARM64_MSR_INTERCEPT_MESSAGE : cty := struct 0 [
  fld HV_ARM64_INTERCEPT_MESSAGE_HEADER "Header";
  fld UINT64 "VirtualRegisterNumber";
  fld UINT64 "X0";
  fld UINT64 "X1"].
Definition HV_ARM64_EXCEPTION_INFO : cty := union 0 [
  fld UINT8 "AsUINT8";
  fld (struct 0 [
    bit UINT8 "ErrorCodeValid" 1;
    bit UINT8 "Reserved" 7]) anonymous].
Definition HV_ARM64_SYNTHETIC_EXCEPTION_TYPE : enum := [
  Is "HvArm64SyntheticExceptionTypeSmc" 0x0;
  Is "HvArm64SyntheticExceptionTypeSecure" 0x1;
  Is "HvArm64SyntheticExceptionTypeCrashdump" 0x2;
  Is "HvArm64SyntheticExceptionTypeVirtualizationFault" 0x3;
  Is "HvArm64SyntheticExceptionTypeMax" 0x40].
Definition HV_ARM64_EXCEPTION_INTERCEPT_MESSAGE : cty := struct 0 [
  fld HV_ARM64_INTERCEPT_MESSAGE_HEADER "Header";
  fld (enum_type HV_ARM64_SYNTHETIC_EXCEPTION_TYPE) "ExceptionType";
  fld UINT64 "ExceptionSyndrome";
  fld UINT64 "FaultGVA";
  fld UINT64 "FaultGPA";
  fld UINT64 "FaultSPA"].
Definition HV_ARM64_UNRECOVERABLE_EXCEPTION_MESSAGE : cty := struct 0 [
  fld HV_ARM64_INTERCEPT_MESSAGE_HEADER "Header"].
Definition HV_ARM64_HYPERCALL_INTERCEPT_MESSAGE : cty := struct 0 [
  fld HV_ARM64_INTERCEPT_MESSAGE_HEADER "Header";
  fld UINT16 "Immediate";
  fld UINT16 "Reserved";
  bit UINT32 "Isolated" 1;
  bit UINT32 "Reserved2" 31;
  fld (CArr UINT64 18) "X"].
Definition HV_ARM64_REGISTER_ACCESS_INFO : cty := union 0 [
  fld HV_REGISTER_VALUE "SourceValue";
  fld (enum_type HV_REGISTER_NAME) "DestinationRegister"].
Definition HV_ARM64_REGISTER_INTERCEPT_MESSAGE : cty := struct 0 [
  fld HV_ARM64_INTERCEPT_MESSAGE_HEADER "Header";
  bit UINT8 "IsMemoryOp" 1;
  bit UINT8 "Reserved" 7;
  fld UINT8 "Reserved8";
  fld UINT16 "Reserved16";
  fld (enum_type HV_REGISTER_NAME) "RegisterName";
  fld HV_ARM64_REGISTER_ACCESS_INFO "AccessInfo"].
Definition HV_ARM64_INVALID_VP_REGISTER_MESSAGE : cty := struct 0 [
  fld HV_VP_INDEX "VpIndex";
  fld UINT32 "Reserved"].
Definition HV_ARM64_UNSUPPORTED_FEATURE_CODE : enum := [
  Is "HvUnsupportedFeatureIntercept" 0x1;
  Is "HvUnsupportedFeatureMemoryIntercept" 0x2].
Definition HV_ARM64_UNSUPPORTED_FEATURE_MESSAGE : cty := struct 0 [
  fld HV_VP_INDEX "VpIndex";
  fld (enum_type HV_ARM64_UNSUPPORTED_FEATURE_CODE) "FeatureCode";
  fld UINT64 "FeatureParameter"].
Definition HV_ARM64_RESET_TYPE : enum := [
  Is "HvArm64ResetTypePowerOff" 0x0;
  Is "HvArm64ResetTypeReboot" 0x1;
  Is "HvArm64ResetTypeMax" 0x2].
Definition HV_ARM64_RESET_INTERCEPT_MESSAGE : cty := struct 0 [
  fld HV_ARM64_INTERCEPT_MESSAGE_HEADER "Header";
  fld (enum_type HV_ARM64_RESET_TYPE) "ResetType"].
Definition HV_ARM64_MMIO_INTERCEPT_MESSAGE : cty := struct 0 [
  fld HV_ARM64_INTERCEPT_MESSAGE_HEADER "Header";
  fld UINT64 "GuestPhysicalAddress";
  fld UINT32 "AccessSize";
  fld (CArr UINT8 32) "Data"].
Definition HV_SYNIC_SINT_DELIVERABLE_MESSAGE : cty := struct 0 [
  fld HV_ARM64_INTERCEPT_MESSAGE_HEADER "Header";
  fld UINT16 "DeliverableSints";
  fld UINT16 "Rsvd1";
  fld UINT32 "Rsvd2"].
Definition HV_REGISTER_NAME_PRIVATE_1 : enum := [
  Is "HvRegisterInternalActivityState" 0x00000004;
  Is "HvRegisterIptFeaturesInfo" 0x00000208;
  Is "HvRegisterSystemReset" 0x00000230;
  Is "HvRegisterDeliverabilityNotifications" 0x00010006;
  Is "HvRegisterPendingEvent2" 0x00010008;
  Is "HvRegisterPendingEvent3" 0x00010009;
  Is "HvRegisterVsmVpVtlControl" 0x000d0000;
  Is "HvRegisterGuestVsmPartitionConfig" 0x000d0008;
  Is "HvRegisterHvptControl" 0xd0000009].
Definition HV_REGISTER_NAME_PRIVATE_2 : enum := [
  Is "HvArm64RegisterSp" 0x0002001f;
  Is "HvArm64RegisterSpEl0" 0x00020020;
  Is "HvArm64RegisterSpEl1" 0x00020021;
  Is "HvArm64RegisterPstate" 0x00020023;
  Is "HvArm64RegisterSpEl2" 0x00021000;
  Is "HvArm64RegisterElrEl2" 0x00021001;
  Is "HvArm64RegisterSpsrEl2" 0x00021002;
  Is "HvArm64RegisterCurrentEl" 0x00021003;
  Is "HvArm64RegisterDaif" 0x00021004;
  Is "HvArm64RegisterDit" 0x00021005;
  Is "HvArm64RegisterNzcv" 0x00021006;
  Is "HvArm64RegisterPan" 0x00021007;
  Is "HvArm64RegisterSpSel" 0x00021008;
  Is "HvArm64RegisterSsbs" 0x00021009;
  Is "HvArm64RegisterTco" 0x0002100a;
  Is "HvArm64RegisterUao" 0x0002100b;
  Is "HvArm64RegisterElrElx" 0x0002100c;
  Is "HvArm64RegisterSpsrElx" 0x0002100d;
  Is "HvArm64RegisterIdRes00El1" 0x00022000;
  Is "HvArm64RegisterIdRes01El1" 0x00022001;
  Is "HvArm64RegisterIdRes02El1" 0x00022002;
  Is "HvArm64RegisterIdRes03El1" 0x00022003;
  Is "HvArm64RegisterIdRes04El1" 0x00022004;
  Is "HvArm64RegisterIdRes05El1" 0x00022005;
  Is "HvArm64RegisterIdRes06El1" 0x00022006;
  Is "HvArm64RegisterIdRes07El1" 0x00022007;
  Is "HvArm64RegisterIdPfr0El1" 0x00022008;
  Is "HvArm64RegisterIdPfr1El1" 0x00022009;
  Is "HvArm64RegisterIdDfr0El1" 0x0002200a;
  Is "HvArm64RegisterIdRes13El1" 0x0002200b;
  Is "HvArm64RegisterIdMmfr0El1" 0x0002200c;
  Is "HvArm64RegisterIdMmfr1El1" 0x0002200d;
  Is "HvArm64RegisterIdMmfr2El1" 0x0002200e;
  Is "HvArm64RegisterIdMmfr3El1" 0x0002200f;
  Is "HvArm64RegisterIdIsar0El1" 0x00022010;
  Is "HvArm64RegisterIdIsar1El1" 0x00022011;
  Is "HvArm64RegisterIdIsar2El1" 0x00022012;
  Is "HvArm64RegisterIdIsar3El1" 0x00022013;
  Is "HvArm64RegisterIdIsar4El1" 0x00022014;
  Is "HvArm64RegisterIdIsar5El1" 0x00022015;
  Is "HvArm64RegisterIdRes26El1" 0x00022016;
  Is "HvArm64RegisterIdRes27El1" 0x00022017;
  Is "HvArm64RegisterIdRes30El1" 0x00022018;
  Is "HvArm64RegisterIdRes31El1" 0x00022019;
  Is "HvArm64RegisterIdRes32El1" 0x0002201a;
  Is "HvArm64RegisterIdRes33El1" 0x0002201b;
  Is "HvArm64RegisterIdPfr2El1" 0x0002201c;
  Is "HvArm64RegisterIdRes35El1" 0x0002201d;
  Is "HvArm64RegisterIdRes36El1" 0x0002201e;
  Is "HvArm64RegisterIdRes37El1" 0x0002201f;
  Is "HvArm64RegisterIdAa64Pfr0El1" 0x00022020;
  Is "HvArm64RegisterIdAa64Pfr1El1" 0x00022021;
  Is "HvArm64RegisterIdAa64Pfr2El1" 0x00022022;
  Is "HvArm64RegisterIdRes43El1" 0x00022023;
  Is "HvArm64RegisterIdAa64Zfr0El1" 0x00022024;
  Is "HvArm64RegisterIdAa64Smfr0El1" 0x00022025;
  Is "HvArm64RegisterIdRes46El1" 0x00022026;
  Is "HvArm64RegisterIdRes47El1" 0x00022027;
  Is "HvArm64RegisterIdAa64Dfr0El1" 0x00022028;
  Is "HvArm64RegisterIdAa64Dfr1El1" 0x00022029;
  Is "HvArm64RegisterIdRes52El1" 0x0002202a;
  Is "HvArm64RegisterIdRes53El1" 0x0002202b;
  Is "HvArm64RegisterIdRes54El1" 0x0002202c;
  Is "HvArm64RegisterIdRes55El1" 0x0002202d;
  Is "HvArm64RegisterIdRes56El1" 0x0002202e;
  Is "HvArm64RegisterIdRes57El1" 0x0002202f;
  Is "HvArm64RegisterIdAa64Isar0El1" 0x00022030;
  Is "HvArm64RegisterIdAa64Isar1El1" 0x00022031;
  Is "HvArm64RegisterIdAa64Isar2El1" 0x00022032;
  Is "HvArm64RegisterIdRes63El1" 0x00022033;
  Is "HvArm64RegisterIdRes64El1" 0x00022034;
  Is "HvArm64RegisterIdRes65El1" 0x00022035;
  Is "HvArm64RegisterIdRes66El1" 0x00022036;
  Is "HvArm64RegisterIdRes67El1" 0x00022037;
  Is "HvArm64RegisterIdAa64Mmfr0El1" 0x00022038;
  Is "HvArm64RegisterIdAa64Mmfr1El1" 0x00022039;
  Is "HvArm64RegisterIdAa64Mmfr2El1" 0x0002203a;
  Is "HvArm64RegisterIdAa64Mmfr3El1" 0x0002203b;
  Is "HvArm64RegisterIdAa64Mmfr4El1" 0x0002203c;
  Is "HvArm64RegisterIdRes75El1" 0x0002203d;
  Is "HvArm64RegisterIdRes76El1" 0x0002203e;
  Is "HvArm64RegisterIdRes77El1" 0x0002203f;
  Is "HvArm64RegisterIdRes80El1" 0x00022040;
  Is "HvArm64RegisterIdRes81El1" 0x00022041;
  Is "HvArm64RegisterIdRes82El1" 0x00022042;
  Is "HvArm64RegisterIdRes83El1" 0x00022043;
  Is "HvArm64RegisterIdRes84El1" 0x00022044;
  Is "HvArm64RegisterIdRes85El1" 0x00022045;
  Is "HvArm64RegisterIdRes86El1" 0x00022046;
  Is "HvArm64RegisterIdRes87El1" 0x00022047;
  Is "HvArm64RegisterIdRes90El1" 0x00022048;
  Is "HvArm64RegisterIdRes91El1" 0x00022049;
  Is "HvArm64RegisterIdRes92El1" 0x0002204a;
  Is "HvArm64RegisterIdRes93El1" 0x0002204b;
  Is "HvArm64RegisterIdRes94El1" 0x0002204c;
  Is "HvArm64RegisterIdRes95El1" 0x0002204d;
  Is "HvArm64RegisterIdRes96El1" 0x0002204e;
  Is "HvArm64RegisterIdRes97El1" 0x0002204f;
  Is "HvArm64RegisterIdRes100El1" 0x00022050;
  Is "HvArm64RegisterIdRes101El1" 0x00022051;
  Is "HvArm64RegisterIdRes102El1" 0x00022052;
  Is "HvArm64RegisterIdRes103El1" 0x00022053;
  Is "HvArm64RegisterIdRes104El1" 0x00022054;
  Is "HvArm64RegisterIdRes105El1" 0x00022055;
  Is "HvArm64RegisterIdRes106El1" 0x00022056;
  Is "HvArm64RegisterIdRes107El1" 0x00022057;
  Is "HvArm64RegisterIdRes110El1" 0x00022058;
  Is "HvArm64RegisterIdRes111El1" 0x00022059;
  Is "HvArm64RegisterIdRes112El1" 0x0002205a;
  Is "HvArm64RegisterIdRes113El1" 0x0002205b;
  Is "HvArm64RegisterIdRes114El1" 0x0002205c;
  Is "HvArm64RegisterIdRes115El1" 0x0002205d;
  Is "HvArm64RegisterIdRes116El1" 0x0002205e;
  Is "HvArm64RegisterIdRes117El1" 0x0002205f;
  Is "HvArm64RegisterIdRes120El1" 0x00022060;
  Is "HvArm64RegisterIdRes121El1" 0x00022061;
  Is "HvArm64RegisterIdRes122El1" 0x00022062;
  Is "HvArm64RegisterIdRes123El1" 0x00022063;
  Is "HvArm64RegisterIdRes124El1" 0x00022064;
  Is "HvArm64RegisterIdRes125El1" 0x00022065;
  Is "HvArm64RegisterIdRes126El1" 0x00022066;
  Is "HvArm64RegisterIdRes127El1" 0x00022067;
  Is "HvArm64RegisterIdRes130El1" 0x00022068;
  Is "HvArm64RegisterIdRes131El1" 0x00022069;
  Is "HvArm64RegisterIdRes132El1" 0x0002206a;
  Is "HvArm64RegisterIdRes133El1" 0x0002206b;
  Is "HvArm64RegisterIdRes134El1" 0x0002206c;
  Is "HvArm64RegisterIdRes135El1" 0x0002206d;
  Is "HvArm64RegisterIdRes136El1" 0x0002206e;
  Is "HvArm64RegisterIdRes137El1" 0x0002206f;
  Is "HvArm64RegisterIdRes140El1" 0x00022070;
  Is "HvArm64RegisterIdRes141El1" 0x00022071;
  Is "HvArm64RegisterIdRes142El1" 0x00022072;
  Is "HvArm64RegisterIdRes143El1" 0x00022073;
  Is "HvArm64RegisterIdRes144El1" 0x00022074;
  Is "HvArm64RegisterIdRes145El1" 0x00022075;
  Is "HvArm64RegisterIdRes146El1" 0x00022076;
  Is "HvArm64RegisterIdRes147El1" 0x00022077;
  Is "HvArm64RegisterIdRes150El1" 0x00022078].
Definition HV_REGISTER_NAME_PRIVATE_3 : enum := [
  Is "HvArm64RegisterIdRes151El1" 0x00022079;
  Is "HvArm64RegisterIdRes152El1" 0x0002207a;
  Is "HvArm64RegisterIdRes153El1" 0x0002207b;
  Is "HvArm64RegisterIdRes154El1" 0x0002207c;
  Is "HvArm64RegisterIdRes155El1" 0x0002207d;
  Is "HvArm64RegisterIdRes156El1" 0x0002207e;
  Is "HvArm64RegisterIdRes157El1" 0x0002207f;
  Is "HvArm64RegisterXzr" 0x0002fffe;
  Is "HvArm64RegisterZ0" 0x00030100;
  Is "HvArm64RegisterZ1" 0x00030101;
  Is "HvArm64RegisterZ2" 0x00030102;
  Is "HvArm64RegisterZ3" 0x00030103;
  Is "HvArm64RegisterZ4" 0x00030104;
  Is "HvArm64RegisterZ5" 0x00030105;
  Is "HvArm64RegisterZ6" 0x00030106;
  Is "HvArm64RegisterZ7" 0x00030107;
  Is "HvArm64RegisterZ8" 0x00030108;
  Is "HvArm64RegisterZ9" 0x00030109;
  Is "HvArm64RegisterZ10" 0x0003010a;
  Is "HvArm64RegisterZ11" 0x0003010b;
  Is "HvArm64RegisterZ12" 0x0003010c;
  Is "HvArm64RegisterZ13" 0x0003010d;
  Is "HvArm64RegisterZ14" 0x0003010e;
  Is "HvArm64RegisterZ15" 0x0003010f;
  Is "HvArm64RegisterZ16" 0x00030110;
  Is "HvArm64RegisterZ17" 0x00030111;
  Is "HvArm64RegisterZ18" 0x00030112;
  Is "HvArm64RegisterZ19" 0x00030113;
  Is "HvArm64RegisterZ20" 0x00030114;
  Is "HvArm64RegisterZ21" 0x00030115;
  Is "HvArm64RegisterZ22" 0x00030116;
  Is "HvArm64RegisterZ23" 0x00030117;
  Is "HvArm64RegisterZ24" 0x00030118;
  Is "HvArm64RegisterZ25" 0x00030119;
  Is "HvArm64RegisterZ26" 0x0003011a;
  Is "HvArm64RegisterZ27" 0x0003011b;
  Is "HvArm64RegisterZ28" 0x0003011c;
  Is "HvArm64RegisterZ29" 0x0003011d;
  Is "HvArm64RegisterZ30" 0x0003011e;
  Is "HvArm64RegisterZ31" 0x0003011f;
  Is "HvArm64RegisterP0" 0x00030120;
  Is "HvArm64RegisterP1" 0x00030121;
  Is "HvArm64RegisterP2" 0x00030122;
  Is "HvArm64RegisterP3" 0x00030123;
  Is "HvArm64RegisterP4" 0x00030124;
  Is "HvArm64RegisterP5" 0x00030125;
  Is "HvArm64RegisterP6" 0x00030126;
  Is "HvArm64RegisterP7" 0x00030127;
  Is "HvArm64RegisterP8" 0x00030128;
  Is "HvArm64RegisterP9" 0x00030129;
  Is "HvArm64RegisterP10" 0x0003012a;
  Is "HvArm64RegisterP11" 0x0003012b;
  Is "HvArm64RegisterP12" 0x0003012c;
  Is "HvArm64RegisterP13" 0x0003012d;
  Is "HvArm64RegisterP14" 0x0003012e;
  Is "HvArm64RegisterP15" 0x0003012f;
  Is "HvArm64RegisterFFR" 0x00030130;
  Is "HvArm64RegisterMpidrEl1" 0x00040001;
  Is "HvArm64RegisterSctlrEl1" 0x00040002;
  Is "HvArm64RegisterActlrEl1" 0x00040003;
  Is "HvArm64RegisterCpacrEl1" 0x00040004;
  Is "HvArm64RegisterTtbr0El1" 0x00040005;
  Is "HvArm64RegisterTtbr1El1" 0x00040006;
  Is "HvArm64RegisterTcrEl1" 0x00040007;
  Is "HvArm64RegisterMairEl1" 0x0004000b;
  Is "HvArm64RegisterVbarEl1" 0x0004000c;
  Is "HvArm64RegisterContextidrEl1" 0x0004000d;
  Is "HvArm64RegisterTpidrEl1" 0x0004000e;
  Is "HvArm64RegisterFpcr" 0x00040012;
  Is "HvArm64RegisterFpsr" 0x00040013;
  Is "HvArm64RegisterAfsr0El1" 0x00040016;
  Is "HvArm64RegisterAfsr1El1" 0x00040017;
  Is "HvArm64RegisterAmairEl1" 0x00040018;
  Is "HvArm64RegisterAccdataEl1" 0x00040020;
  Is "HvArm64RegisterActlrEl2" 0x00040021;
  Is "HvArm64RegisterAfsr0El2" 0x00040022;
  Is "HvArm64RegisterAfsr1El2" 0x00040023;
  Is "HvArm64RegisterAidrEl1" 0x00040024;
  Is "HvArm64RegisterAmairEl2" 0x00040025;
  Is "HvArm64RegisterApdAKeyHiEl1" 0x00040026;
  Is "HvArm64RegisterApdAKeyLoEl1" 0x00040027;
  Is "HvArm64RegisterApdBKeyHiEl1" 0x00040028;
  Is "HvArm64RegisterApdBKeyLoEl1" 0x00040029;
  Is "HvArm64RegisterApgAKeyHiEl1" 0x0004002a;
  Is "HvArm64RegisterApgAKeyLoEl1" 0x0004002b;
  Is "HvArm64RegisterApiAKeyHiEl1" 0x0004002c;
  Is "HvArm64RegisterApiAKeyLoEl1" 0x0004002d;
  Is "HvArm64RegisterApiBKeyHiEl1" 0x0004002e;
  Is "HvArm64RegisterApiBKeyLoEl1" 0x0004002f;
  Is "HvArm64RegisterCcsidrEl1" 0x00040030;
  Is "HvArm64RegisterCcsidr2El1" 0x00040031;
  Is "HvArm64RegisterClidrEl1" 0x00040032;
  Is "HvArm64RegisterContextidrEl2" 0x00040033;
  Is "HvArm64RegisterCptrEl2" 0x00040034;
  Is "HvArm64RegisterCsselrEl1" 0x00040035;
  Is "HvArm64RegisterCtrEl0" 0x00040036;
  Is "HvArm64RegisterDacr32El2" 0x00040037;
  Is "HvArm64RegisterDczidEl0" 0x00040038;
  Is "HvArm64RegisterEsrEl2" 0x00040039;
  Is "HvArm64RegisterFarEl2" 0x0004003a;
  Is "HvArm64RegisterFpexc32El2" 0x0004003b;
  Is "HvArm64RegisterGcrEl1" 0x0004003c;
  Is "HvArm64RegisterGmidEl1" 0x0004003d;
  Is "HvArm64RegisterHacrEl2" 0x0004003e;
  Is "HvArm64RegisterHafgrtrEl2" 0x0004003f;
  Is "HvArm64RegisterHcrEl2" 0x00040040;
  Is "HvArm64RegisterHcrxEl2" 0x00040041;
  Is "HvArm64RegisterHdfgrtrEl2" 0x00040042;
  Is "HvArm64RegisterHdfgwtrEl2" 0x00040043;
  Is "HvArm64RegisterHfgitrEl2" 0x00040044;
  Is "HvArm64RegisterHfgrtrEl2" 0x00040045;
  Is "HvArm64RegisterHfgwtrEl2" 0x00040046;
  Is "HvArm64RegisterHpfarEl2" 0x00040047;
  Is "HvArm64RegisterHstrEl2" 0x00040048;
  Is "HvArm64RegisterIfsr32El2" 0x00040049;
  Is "HvArm64RegisterIsrEl1" 0x0004004a;
  Is "HvArm64RegisterLorcEl1" 0x0004004b;
  Is "HvArm64RegisterLoreaEl1" 0x0004004c;
  Is "HvArm64RegisterLoridEl1" 0x0004004d;
  Is "HvArm64RegisterLornEl1" 0x0004004e;
  Is "HvArm64RegisterLorsaEl1" 0x0004004f;
  Is "HvArm64RegisterMairEl2" 0x00040050;
  Is "HvArm64RegisterMidrEl1" 0x00040051;
  Is "HvArm64RegisterMvfr0El1" 0x00040052;
  Is "HvArm64RegisterMvfr1El1" 0x00040053;
  Is "HvArm64RegisterMvfr2El1" 0x00040054;
  Is "HvArm64RegisterRevidrEl1" 0x00040055;
  Is "HvArm64RegisterRgsrEl1" 0x00040056;
  Is "HvArm64RegisterRndr" 0x00040057;
  Is "HvArm64RegisterRndrrs" 0x00040058;
  Is "HvArm64RegisterSctlrEl2" 0x00040059;
  Is "HvArm64RegisterScxtnumEl0" 0x0004005a;
  Is "HvArm64RegisterScxtnumEl1" 0x0004005b;
  Is "HvArm64RegisterScxtnumEl2" 0x0004005c;
  Is "HvArm64RegisterSmcrEl1" 0x0004005d;
  Is "HvArm64RegisterSmcrEl2" 0x0004005e].
Definition HV_REGISTER_NAME_PRIVATE_4 : enum := [
  Is "HvArm64RegisterSmidrEl1" 0x0004005f;
  Is "HvArm64RegisterSmpriEl1" 0x00040060;
  Is "HvArm64RegisterSmprimapEl2" 0x00040061;
  Is "HvArm64RegisterTcrEl2" 0x00040062;
  Is "HvArm64RegisterTfsre0El1" 0x00040063;
  Is "HvArm64RegisterTfsrEl1" 0x00040064;
  Is "HvArm64RegisterTfsrEl2" 0x00040065;
  Is "HvArm64RegisterTpidr2El0" 0x00040066;
  Is "HvArm64RegisterTpidrEl2" 0x00040067;
  Is "HvArm64RegisterTtbr0El2" 0x00040068;
  Is "HvArm64RegisterVbarEl2" 0x00040069;
  Is "HvArm64RegisterVmpidrEl2" 0x0004006a;
  Is "HvArm64RegisterVncrEl2" 0x0004006b;
  Is "HvArm64RegisterVpidrEl2" 0x0004006c;
  Is "HvArm64RegisterVstcrEl2" 0x0004006d;
  Is "HvArm64RegisterVsttbrEl2" 0x0004006e;
  Is "HvArm64RegisterVtcrEl2" 0x0004006f;
  Is "HvArm64RegisterVttbrEl2" 0x00040070;
  Is "HvArm64RegisterZcrEl1" 0x00040071;
  Is "HvArm64RegisterZcrEl2" 0x00040072;
  Is "HvArm64RegisterAfsr0Elx" 0x00040073;
  Is "HvArm64RegisterAfsr1Elx" 0x00040074;
  Is "HvArm64RegisterAmairElx" 0x00040075;
  Is "HvArm64RegisterContextidrElx" 0x00040076;
  Is "HvArm64RegisterCpacrElx" 0x00040077;
  Is "HvArm64RegisterEsrElx" 0x00040078;
  Is "HvArm64RegisterFarElx" 0x00040079;
  Is "HvArm64RegisterMairElx" 0x0004007a;
  Is "HvArm64RegisterSctlrElx" 0x0004007b;
  Is "HvArm64RegisterTcrElx" 0x0004007c;
  Is "HvArm64RegisterTtbr0Elx" 0x0004007d;
  Is "HvArm64RegisterTtbr1El2" 0x0004007e;
  Is "HvArm64RegisterTtbr1Elx" 0x0004007f;
  Is "HvArm64RegisterVbarElx" 0x00040080;
  Is "HvArm64RegisterZcrElx" 0x00040081;
  Is "HvArm64RegisterSyntheticVbarEl1" 0x00040400;
  Is "HvArm64RegisterSyntheticEsrEl1" 0x00040401;
  Is "HvArm64RegisterDbgbcr0El1" 0x00050000;
  Is "HvArm64RegisterDbgbcr1El1" 0x00050001;
  Is "HvArm64RegisterDbgbcr2El1" 0x00050002;
  Is "HvArm64RegisterDbgbcr3El1" 0x00050003;
  Is "HvArm64RegisterDbgbcr4El1" 0x00050004;
  Is "HvArm64RegisterDbgbcr5El1" 0x00050005;
  Is "HvArm64RegisterDbgbcr6El1" 0x00050006;
  Is "HvArm64RegisterDbgbcr7El1" 0x00050007;
  Is "HvArm64RegisterDbgbcr8El1" 0x00050008;
  Is "HvArm64RegisterDbgbcr9El1" 0x00050009;
  Is "HvArm64RegisterDbgbcr10El1" 0x0005000a;
  Is "HvArm64RegisterDbgbcr11El1" 0x0005000b;
  Is "HvArm64RegisterDbgbcr12El1" 0x0005000c;
  Is "HvArm64RegisterDbgbcr13El1" 0x0005000d;
  Is "HvArm64RegisterDbgbcr14El1" 0x0005000e;
  Is "HvArm64RegisterDbgbcr15El1" 0x0005000f;
  Is "HvArm64RegisterDbgwcr0El1" 0x00050010;
  Is "HvArm64RegisterDbgwcr1El1" 0x00050011;
  Is "HvArm64RegisterDbgwcr2El1" 0x00050012;
  Is "HvArm64RegisterDbgwcr3El1" 0x00050013;
  Is "HvArm64RegisterDbgwcr4El1" 0x00050014;
  Is "HvArm64RegisterDbgwcr5El1" 0x00050015;
  Is "HvArm64RegisterDbgwcr6El1" 0x00050016;
  Is "HvArm64RegisterDbgwcr7El1" 0x00050017;
  Is "HvArm64RegisterDbgwcr8El1" 0x00050018;
  Is "HvArm64RegisterDbgwcr9El1" 0x00050019;
  Is "HvArm64RegisterDbgwcr10El1" 0x0005001a;
  Is "HvArm64RegisterDbgwcr11El1" 0x0005001b;
  Is "HvArm64RegisterDbgwcr12El1" 0x0005001c;
  Is "HvArm64RegisterDbgwcr13El1" 0x0005001d;
  Is "HvArm64RegisterDbgwcr14El1" 0x0005001e;
  Is "HvArm64RegisterDbgwcr15El1" 0x0005001f;
  Is "HvArm64RegisterDbgbvr0El1" 0x00050020;
  Is "HvArm64RegisterDbgbvr1El1" 0x00050021;
  Is "HvArm64RegisterDbgbvr2El1" 0x00050022;
  Is "HvArm64RegisterDbgbvr3El1" 0x00050023;
  Is "HvArm64RegisterDbgbvr4El1" 0x00050024;
  Is "HvArm64RegisterDbgbvr5El1" 0x00050025;
  Is "HvArm64RegisterDbgbvr6El1" 0x00050026;
  Is "HvArm64RegisterDbgbvr7El1" 0x00050027;
  Is "HvArm64RegisterDbgbvr8El1" 0x00050028;
  Is "HvArm64RegisterDbgbvr9El1" 0x00050029;
  Is "HvArm64RegisterDbgbvr10El1" 0x0005002a;
  Is "HvArm64RegisterDbgbvr11El1" 0x0005002b;
  Is "HvArm64RegisterDbgbvr12El1" 0x0005002c;
  Is "HvArm64RegisterDbgbvr13El1" 0x0005002d;
  Is "HvArm64RegisterDbgbvr14El1" 0x0005002e;
  Is "HvArm64RegisterDbgbvr15El1" 0x0005002f;
  Is "HvArm64RegisterDbgwvr0El1" 0x00050030;
  Is "HvArm64RegisterDbgwvr1El1" 0x00050031;
  Is "HvArm64RegisterDbgwvr2El1" 0x00050032;
  Is "HvArm64RegisterDbgwvr3El1" 0x00050033;
  Is "HvArm64RegisterDbgwvr4El1" 0x00050034;
  Is "HvArm64RegisterDbgwvr5El1" 0x00050035;
  Is "HvArm64RegisterDbgwvr6El1" 0x00050036;
  Is "HvArm64RegisterDbgwvr7El1" 0x00050037;
  Is "HvArm64RegisterDbgwvr8El1" 0x00050038;
  Is "HvArm64RegisterDbgwvr9El1" 0x00050039;
  Is "HvArm64RegisterDbgwvr10El1" 0x0005003a;
  Is "HvArm64RegisterDbgwvr11El1" 0x0005003b;
  Is "HvArm64RegisterDbgwvr12El1" 0x0005003c;
  Is "HvArm64RegisterDbgwvr13El1" 0x0005003d;
  Is "HvArm64RegisterDbgwvr14El1" 0x0005003e;
  Is "HvArm64RegisterDbgwvr15El1" 0x0005003f;
  Is "HvArm64RegisterDbgauthstatusEl1" 0x00050040;
  Is "HvArm64RegisterDbgclaimclrEl1" 0x00050041;
  Is "HvArm64RegisterDbgclaimsetEl1" 0x00050042;
  Is "HvArm64RegisterDbgdtrrxEl0" 0x00050043;
  Is "HvArm64RegisterDbgdtrtxEl0" 0x00050044;
  Is "HvArm64RegisterDbgprcrEl1" 0x00050045;
  Is "HvArm64RegisterDbgvcr32El2" 0x00050046;
  Is "HvArm64RegisterDlrEl0" 0x00050047;
  Is "HvArm64RegisterDspsrEl0" 0x00050048;
  Is "HvArm64RegisterMdccintEl1" 0x00050049;
  Is "HvArm64RegisterMdccsrEl0" 0x0005004a;
  Is "HvArm64RegisterMdcrEl2" 0x0005004b;
  Is "HvArm64RegisterMdrarEl1" 0x0005004c;
  Is "HvArm64RegisterMdscrEl1" 0x0005004d;
  Is "HvArm64RegisterOsdlrEl1" 0x0005004e;
  Is "HvArm64RegisterOsdtrrxEl1" 0x0005004f;
  Is "HvArm64RegisterOsdtrtxEl1" 0x00050050;
  Is "HvArm64RegisterOseccrEl1" 0x00050051;
  Is "HvArm64RegisterOslarEl1" 0x00050052;
  Is "HvArm64RegisterOslsrEl1" 0x00050053;
  Is "HvArm64RegisterSder32El2" 0x00050054;
  Is "HvArm64RegisterTrfcrEl1" 0x00050055;
  Is "HvArm64RegisterTrfcrEl2" 0x00050056;
  Is "HvArm64RegisterTrfcrElx" 0x00050057;
  Is "HvArm64RegisterPmccfiltrEl0" 0x00052000;
  Is "HvArm64RegisterPmccntrEl0" 0x00052001;
  Is "HvArm64RegisterPmceid0El0" 0x00052002;
  Is "HvArm64RegisterPmceid1El0" 0x00052003;
  Is "HvArm64RegisterPmcntenclrEl0" 0x00052004;
  Is "HvArm64RegisterPmcntensetEl0" 0x00052005;
  Is "HvArm64RegisterPmcrEl0" 0x00052006;
  Is "HvArm64RegisterPmevcntr0El0" 0x00052007;
  Is "HvArm64RegisterPmevcntr1El0" 0x00052008;
  Is "HvArm64RegisterPmevcntr2El0" 0x00052009;
  Is "HvArm64RegisterPmevcntr3El0" 0x0005200a;
  Is "HvArm64RegisterPmevcntr4El0" 0x0005200b;
  Is "HvArm64RegisterPmevcntr5El0" 0x0005200c].
Definition HV_REGISTER_NAME_PRIVATE_5 : enum := [
  Is "HvArm64RegisterPmevcntr6El0" 0x0005200d;
  Is "HvArm64RegisterPmevcntr7El0" 0x0005200e;
  Is "HvArm64RegisterPmevcntr8El0" 0x0005200f;
  Is "HvArm64RegisterPmevcntr9El0" 0x00052010;
  Is "HvArm64RegisterPmevcntr10El0" 0x00052011;
  Is "HvArm64RegisterPmevcntr11El0" 0x00052012;
  Is "HvArm64RegisterPmevcntr12El0" 0x00052013;
  Is "HvArm64RegisterPmevcntr13El0" 0x00052014;
  Is "HvArm64RegisterPmevcntr14El0" 0x00052015;
  Is "HvArm64RegisterPmevcntr15El0" 0x00052016;
  Is "HvArm64RegisterPmevcntr16El0" 0x00052017;
  Is "HvArm64RegisterPmevcntr17El0" 0x00052018;
  Is "HvArm64RegisterPmevcntr18El0" 0x00052019;
  Is "HvArm64RegisterPmevcntr19El0" 0x0005201a;
  Is "HvArm64RegisterPmevcntr20El0" 0x0005201b;
  Is "HvArm64RegisterPmevcntr21El0" 0x0005201c;
  Is "HvArm64RegisterPmevcntr22El0" 0x0005201d;
  Is "HvArm64RegisterPmevcntr23El0" 0x0005201e;
  Is "HvArm64RegisterPmevcntr24El0" 0x0005201f;
  Is "HvArm64RegisterPmevcntr25El0" 0x00052020;
  Is "HvArm64RegisterPmevcntr26El0" 0x00052021;
  Is "HvArm64RegisterPmevcntr27El0" 0x00052022;
  Is "HvArm64RegisterPmevcntr28El0" 0x00052023;
  Is "HvArm64RegisterPmevcntr29El0" 0x00052024;
  Is "HvArm64RegisterPmevcntr30El0" 0x00052025;
  Is "HvArm64RegisterPmevtyper0El0" 0x00052026;
  Is "HvArm64RegisterPmevtyper1El0" 0x00052027;
  Is "HvArm64RegisterPmevtyper2El0" 0x00052028;
  Is "HvArm64RegisterPmevtyper3El0" 0x00052029;
  Is "HvArm64RegisterPmevtyper4El0" 0x0005202a;
  Is "HvArm64RegisterPmevtyper5El0" 0x0005202b;
  Is "HvArm64RegisterPmevtyper6El0" 0x0005202c;
  Is "HvArm64RegisterPmevtyper7El0" 0x0005202d;
  Is "HvArm64RegisterPmevtyper8El0" 0x0005202e;
  Is "HvArm64RegisterPmevtyper9El0" 0x0005202f;
  Is "HvArm64RegisterPmevtyper10El0" 0x00052030;
  Is "HvArm64RegisterPmevtyper11El0" 0x00052031;
  Is "HvArm64RegisterPmevtyper12El0" 0x00052032;
  Is "HvArm64RegisterPmevtyper13El0" 0x00052033;
  Is "HvArm64RegisterPmevtyper14El0" 0x00052034;
  Is "HvArm64RegisterPmevtyper15El0" 0x00052035;
  Is "HvArm64RegisterPmevtyper16El0" 0x00052036;
  Is "HvArm64RegisterPmevtyper17El0" 0x00052037;
  Is "HvArm64RegisterPmevtyper18El0" 0x00052038;
  Is "HvArm64RegisterPmevtyper19El0" 0x00052039;
  Is "HvArm64RegisterPmevtyper20El0" 0x0005203a;
  Is "HvArm64RegisterPmevtyper21El0" 0x0005203b;
  Is "HvArm64RegisterPmevtyper22El0" 0x0005203c;
  Is "HvArm64RegisterPmevtyper23El0" 0x0005203d;
  Is "HvArm64RegisterPmevtyper24El0" 0x0005203e;
  Is "HvArm64RegisterPmevtyper25El0" 0x0005203f;
  Is "HvArm64RegisterPmevtyper26El0" 0x00052040;
  Is "HvArm64RegisterPmevtyper27El0" 0x00052041;
  Is "HvArm64RegisterPmevtyper28El0" 0x00052042;
  Is "HvArm64RegisterPmevtyper29El0" 0x00052043;
  Is "HvArm64RegisterPmevtyper30El0" 0x00052044;
  Is "HvArm64RegisterPmintenclrEl1" 0x00052045;
  Is "HvArm64RegisterPmintensetEl1" 0x00052046;
  Is "HvArm64RegisterPmmirEl1" 0x00052047;
  Is "HvArm64RegisterPmovsclrEl0" 0x00052048;
  Is "HvArm64RegisterPmovssetEl0" 0x00052049;
  Is "HvArm64RegisterPmselrEl0" 0x0005204a;
  Is "HvArm64RegisterPmswincEl0" 0x0005204b;
  Is "HvArm64RegisterPmuserenrEl0" 0x0005204c;
  Is "HvArm64RegisterPmxevcntrEl0" 0x0005204d;
  Is "HvArm64RegisterPmxevtyperEl0" 0x0005204e;
  Is "HvArm64RegisterAmevcntr00El0" 0x00053000;
  Is "HvArm64RegisterAmevcntr01El0" 0x00053001;
  Is "HvArm64RegisterAmevcntr02El0" 0x00053002;
  Is "HvArm64RegisterAmevcntr03El0" 0x00053003;
  Is "HvArm64RegisterPmbidrEl1" 0x00054000;
  Is "HvArm64RegisterPmblimitrEl1" 0x00054001;
  Is "HvArm64RegisterPmbptrEl1" 0x00054002;
  Is "HvArm64RegisterPmbsrEl1" 0x00054003;
  Is "HvArm64RegisterPmscrEl1" 0x00054004;
  Is "HvArm64RegisterPmscrEl2" 0x00054005;
  Is "HvArm64RegisterPmsevfrEl1" 0x00054006;
  Is "HvArm64RegisterPmsfcrEl1" 0x00054007;
  Is "HvArm64RegisterPmsicrEl1" 0x00054008;
  Is "HvArm64RegisterPmsidrEl1" 0x00054009;
  Is "HvArm64RegisterPmsirrEl1" 0x0005400a;
  Is "HvArm64RegisterPmslatfrEl1" 0x0005400b;
  Is "HvArm64RegisterPmsnevfrEl1" 0x0005400c;
  Is "HvArm64RegisterDisrEl1" 0x00056000;
  Is "HvArm64RegisterErridrEl1" 0x00056001;
  Is "HvArm64RegisterErrselrEl1" 0x00056002;
  Is "HvArm64RegisterErxaddrEl1" 0x00056003;
  Is "HvArm64RegisterErxctlrEl1" 0x00056004;
  Is "HvArm64RegisterErrxfrEl1" 0x00056005;
  Is "HvArm64RegisterErxmisc0El1" 0x00056006;
  Is "HvArm64RegisterErxmisc1El1" 0x00056007;
  Is "HvArm64RegisterErxmisc2El1" 0x00056008;
  Is "HvArm64RegisterErxmisc3El1" 0x00056009;
  Is "HvArm64RegisterErxpfgcdnEl1" 0x0005600a;
  Is "HvArm64RegisterErxpfgctlEl1" 0x0005600b;
  Is "HvArm64RegisterErxpfgfEl1" 0x0005600c;
  Is "HvArm64RegisterErxstatusEl1" 0x0005600d;
  Is "HvArm64RegisterVdisrEl2" 0x0005600e;
  Is "HvArm64RegisterVsesrEl2" 0x0005600f;
  Is "HvArm64RegisterCntfrqEl0" 0x00058000;
  Is "HvArm64RegisterCnthctlEl2" 0x00058001;
  Is "HvArm64RegisterCnthpCtlEl2" 0x00058002;
  Is "HvArm64RegisterCnthpCvalEl2" 0x00058003;
  Is "HvArm64RegisterCnthpTvalEl2" 0x00058004;
  Is "HvArm64RegisterCnthvCtlEl2" 0x00058005;
  Is "HvArm64RegisterCnthvCvalEl2" 0x00058006;
  Is "HvArm64RegisterCnthvTvalEl2" 0x00058007;
  Is "HvArm64RegisterCntkctlEl1" 0x00058008;
  Is "HvArm64RegisterCntpCtlEl0" 0x00058009;
  Is "HvArm64RegisterCntpCvalEl0" 0x0005800a;
  Is "HvArm64RegisterCntpTvalEl0" 0x0005800b;
  Is "HvArm64RegisterCntpctEl0" 0x0005800c;
  Is "HvArm64RegisterCntpoffEl2" 0x0005800d;
  Is "HvArm64RegisterCntvCtlEl0" 0x0005800e;
  Is "HvArm64RegisterCntvCvalEl0" 0x0005800f;
  Is "HvArm64RegisterCntvTvalEl0" 0x00058010;
  Is "HvArm64RegisterCntvctEl0" 0x00058011;
  Is "HvArm64RegisterCntvoffEl2" 0x00058012;
  Is "HvArm64RegisterCntkctlElx" 0x00058013;
  Is "HvArm64RegisterCntpCtlElx" 0x00058014;
  Is "HvArm64RegisterCntpCvalElx" 0x00058015;
  Is "HvArm64RegisterCntpTvalElx" 0x00058016;
  Is "HvArm64RegisterCntvCtlElx" 0x00058017;
  Is "HvArm64RegisterCntvCvalElx" 0x00058018;
  Is "HvArm64RegisterCntvTvalElx" 0x00058019;
  Is "HvArm64RegisterIccAp1R0El1" 0x00060000;
  Is "HvArm64RegisterIccAp1R1El1" 0x00060001;
  Is "HvArm64RegisterIccAp1R2El1" 0x00060002;
  Is "HvArm64RegisterIccAp1R3El1" 0x00060003;
  Is "HvArm64RegisterIccAsgi1REl1" 0x00060004;
  Is "HvArm64RegisterIccBpr1El1" 0x00060005;
  Is "HvArm64RegisterIccCtlrEl1" 0x00060006;
  Is "HvArm64RegisterIccDirEl1" 0x00060007;
  Is "HvArm64RegisterIccEoir1El1" 0x00060008;
  Is "HvArm64RegisterIccHppir1El1" 0x00060009;
  Is "HvArm64RegisterIccIar1El1" 0x0006000a].
Definition HV_REGISTER_NAME_PRIVATE_6 : enum := [
  Is "HvArm64RegisterIccIgrpen1El1" 0x0006000b;
  Is "HvArm64RegisterIccPmrEl1" 0x0006000c;
  Is "HvArm64RegisterIccRprEl1" 0x0006000d;
  Is "HvArm64RegisterIccSgi1REl1" 0x0006000e;
  Is "HvArm64RegisterIccSreEl1" 0x0006000f;
  Is "HvArm64RegisterIccSreEl2" 0x00060010;
  Is "HvArm64RegisterIchAp1R0El2" 0x00061000;
  Is "HvArm64RegisterIchAp1R1El2" 0x00061001;
  Is "HvArm64RegisterIchAp1R2El2" 0x00061002;
  Is "HvArm64RegisterIchAp1R3El2" 0x00061003;
  Is "HvArm64RegisterIchEisrEl2" 0x00061004;
  Is "HvArm64RegisterIchElrsrEl2" 0x00061005;
  Is "HvArm64RegisterIchHcrEl2" 0x00061006;
  Is "HvArm64RegisterIchLr0El2" 0x00061007;
  Is "HvArm64RegisterIchLr1El2" 0x00061008;
  Is "HvArm64RegisterIchLr2El2" 0x00061009;
  Is "HvArm64RegisterIchLr3El2" 0x0006100a;
  Is "HvArm64RegisterIchLr4El2" 0x0006100b;
  Is "HvArm64RegisterIchLr5El2" 0x0006100c;
  Is "HvArm64RegisterIchLr6El2" 0x0006100d;
  Is "HvArm64RegisterIchLr7El2" 0x0006100e;
  Is "HvArm64RegisterIchLr8El2" 0x0006100f;
  Is "HvArm64RegisterIchLr9El2" 0x00061010;
  Is "HvArm64RegisterIchLr10El2" 0x00061011;
  Is "HvArm64RegisterIchLr11El2" 0x00061012;
  Is "HvArm64RegisterIchLr12El2" 0x00061013;
  Is "HvArm64RegisterIchLr13El2" 0x00061014;
  Is "HvArm64RegisterIchLr14El2" 0x00061015;
  Is "HvArm64RegisterIchLr15El2" 0x00061016;
  Is "HvArm64RegisterIchMisrEl2" 0x00061017;
  Is "HvArm64RegisterIchVmcrEl2" 0x00061018;
  Is "HvArm64RegisterIchVtrEl2" 0x00061019;
  Is "HvArm64RegisterMpam0El1" 0x00071000;
  Is "HvArm64RegisterMpam1El1" 0x00071001;
  Is "HvArm64RegisterMpam2El2" 0x00071002;
  Is "HvArm64RegisterMpamhcrEl2" 0x00071003;
  Is "HvArm64RegisterMpamidrEl1" 0x00071004;
  Is "HvArm64RegisterMpamsmEl1" 0x00071005;
  Is "HvArm64RegisterMpamvpm0El2" 0x00071006;
  Is "HvArm64RegisterMpamvpm1El2" 0x00071007;
  Is "HvArm64RegisterMpamvpm2El2" 0x00071008;
  Is "HvArm64RegisterMpamvpm3El2" 0x00071009;
  Is "HvArm64RegisterMpamvpm4El2" 0x0007100a;
  Is "HvArm64RegisterMpamvpm5El2" 0x0007100b;
  Is "HvArm64RegisterMpamvpm6El2" 0x0007100c;
  Is "HvArm64RegisterMpamvpm7El2" 0x0007100d;
  Is "HvArm64RegisterMpamvpmvEl2" 0x0007100e;
  Is "HvArm64RegisterS3ImpldefinedRegMin" 0x00072000;
  Is "HvArm64RegisterS3ImpldefinedRegMax" 0x00072fff;
  Is "HvArm64RegisterGicrPropbaser" 0x00090100;
  Is "HvArm64RegisterGicrPendbaser" 0x00090101].
Definition HV_REGISTER_NAME_PRIVATE : enum := HV_REGISTER_NAME_PRIVATE_1 ++
  HV_REGISTER_NAME_PRIVATE_2 ++ HV_REGISTER_NAME_PRIVATE_3 ++ HV_REGISTER_NAME_PRIVATE_4 ++
  HV_REGISTER_NAME_PRIVATE_5 ++ HV_REGISTER_NAME_PRIVATE_6.
(** ** [Mile.HyperV.TLFS.h] *)

Definition HV_ARM64_PENDING_EVENT_TYPE : enum := [
  Is "HvArm64PendingEventException" 0x0;
  Is "HvArm64PendingEventSyntheticException" 0x1;
  Is "HvArm64PendingEventHypercallOutput" 0x2].
Definition HV_ARM64_PENDING_HYPERCALL_OUTPUT_EVENT : cty := union 0 [
  fld (CArr UINT64 2) "AsUINT64";
  fld (struct 0 [
    bit UINT8 "EventPending" 1;
    bit UINT8 "EventType" 3;
    bit UINT8 "Reserved" 4;
    bit UINT8 "Retired" 1;
    bit UINT8 "Reserved1" 7;
    fld UINT16 "Reserved2";
    fld UINT32 "OutputSize";
    fld UINT64 "OutputGpa"]) anonymous].
Definition HV_ARM64_PENDING_EVENT : cty := union 0 [
  fld (struct 0 [
    fld HV_UINT128 "Reg0";
    fld HV_UINT128 "Reg1"]) anonymous;
  fld (struct 0 [
    bit UINT8 "EventPending" 1;
    bit UINT8 "EventType" 3;
    bit UINT8 "Reserved" 4;
    fld (CArr UINT8 15) "EventData"]) anonymous;
  fld HV_ARM64_PENDING_EXCEPTION_EVENT "Exception";
  fld HV_ARM64_PENDING_SYNTHETIC_EXCEPTION_EVENT "SyntheticException";
  fld HV_ARM64_PENDING_HYPERCALL_OUTPUT_EVENT "HypercallOutput"].
Definition HV_TRANSLATE_GVA_RESULT_EX : cty := struct 0 [
  fld (enum_type HV_TRANSLATE_GVA_RESULT_CODE) "ResultCode";
  bit UINT32 "CacheType" 8;
  bit UINT32 "OverlayPage" 1;
  bit UINT32 "Reserved" 23;
  fld HV_ARM64_PENDING_EVENT "EventInfo"].
Definition HV_MSI_ENTRY : cty := union 0 [
  fld (CArr UINT64 2) "AsUINT64";
  fld (struct 0 [
    fld UINT64 "Address";
    fld HV_MSI_DATA_REGISTER "Data";
    fld UINT32 "Reserved"]) anonymous].
Definition HV_INTERRUPT_ENTRY : cty := struct 0 [
  fld (enum_type HV_INTERRUPT_SOURCE) "InterruptSource";
  fld UINT32 "Reserved";
  fld (union 0 [
    fld HV_MSI_ENTRY "MsiEntry";
    fld HV_GICD_ENTRY "GicdEntry";
    fld (CArr UINT64 2) "Data"]) anonymous].
Definition HV_VP_REGISTER_PAGE : cty := struct 0 [
  fld UINT16 "Version";
  fld UINT8 "IsValid";
  fld HV_VTL "Vtl";
  fld UINT32 "Dirty"].
Definition HV_PARTITION_CREATION_PROPERTIES_V2 : cty := struct 0 [
  fld HV_PARTITION_PROCESSOR_FEATURES "DisabledProcessorFeatures"].
Definition HV_PARTITION_CREATION_PROPERTIES : cty := struct 0 [
  fld HV_PARTITION_PROCESSOR_FEATURES "DisabledProcessorFeatures"].
Definition HV_VP_STATE_DATA : cty := struct 0 [
  fld (enum_type HV_GET_SET_VP_STATE_TYPE) "Type";
  fld UINT32 "Reserved"].
Definition static_assert_HV_VP_SIGNAL_BITSET_SCHEDULER_MESSAGE (b : abi) : bool := sizeof b
  HV_VP_SIGNAL_BITSET_SCHEDULER_MESSAGE <=? (sizeof b HV_MESSAGE - sizeof b HV_MESSAGE_HEADER).
Definition HV_MESSAGE_MAX_PARTITION_VP_PAIR_COUNT : Z := (((sizeof SysV HV_MESSAGE) - (sizeof SysV
  HV_MESSAGE_HEADER)) / ((sizeof SysV UINT64) + (sizeof SysV UINT32))) - 1.
Definition HV_VP_SIGNAL_PAIR_SCHEDULER_MESSAGE : cty := struct 0 [
  fld UINT32 "OverflowCount";
  fld UINT8 "VpCount";
  fld (CArr UINT8 3) "Reserved1";
  fld (CArr UINT64 HV_MESSAGE_MAX_PARTITION_VP_PAIR_COUNT) "PartitionIds";
  fld (CArr HV_VP_INDEX HV_MESSAGE_MAX_PARTITION_VP_PAIR_COUNT) "VpIndexes";
  fld (CArr UINT8 4) "Reserved2"].
Definition static_assert_HV_VP_SIGNAL_PAIR_SCHEDULER_MESSAGE (b : abi) : bool := sizeof b
  HV_VP_SIGNAL_PAIR_SCHEDULER_MESSAGE =? (sizeof b HV_MESSAGE - sizeof b HV_MESSAGE_HEADER).
(** ** [Mile.HyperV.TLFS.h] *)

Definition HV_LOGICAL_PROCESSOR_PROPERTY_TYPE : enum := [
  Is "HvLogicalProcessorMachineCheckContextInfo" 0x0;
  Is "HvLogicalProcessorMcUpdateUpdateStatus" 0x1;
  Is "HvLogicalProcessorUpdateLpIndex" 0x2;
  Is "HvLogicalProcessorProcHwId" 0x3;
  Is "HvLogicalProcessorProximityDomainId" 0x4].
Definition HV_LOGICAL_PROCESSOR_REGISTER_TYPE : enum := [
  Is "HvArm64LpRegisterTypeHvRegister" 0x10000].
Definition HV_PPM_POWER_POLICY_SETTING_ID : enum := [
  Is "HvPowerPolicyIdleDisable" 0x0;
  Is "HvPowerPolicyIdleTimeCheck" 0x1;
  Is "HvPowerPolicyIdleScalingAllow" 0x2;
  Is "HvPowerPolicyIdlePromoteThreshold" 0x3;
  Is "HvPowerPolicyIdleDemoteThreshold" 0x4;
  Is "HvPowerPolicyIdleStateMaximum" 0x5;
  Is "HvPowerPolicyMax" 0x6].
Definition HV_PPM_POWER_POLICY_SETTING : cty := struct 0 [
  fld (enum_type HV_PPM_POWER_POLICY_SETTING_ID) "SettingId";
  fld UINT32 "Value"].
Definition HV_DEVICE_ID : cty := union 0 [
  fld UINT64 "AsUINT64";
  fld (struct 0 [
    bit UINT64 "Id" 62;
    bit UINT64 "DeviceType" 2]) "Logical";
  fld (struct 0 [
    fld (union 0 [
      fld UINT16 "Rid";
      fld HV_PCI_BDF "Bdf"]) anonymous;
    fld UINT16 "Segment";
    fld UINT16 "RsvdZ0";
    bit UINT16 "PhantomFunctionBits" 2;
    bit UINT16 "RsvdZ1" 12;
    bit UINT16 "DeviceType" 2]) "Pci";
  fld (struct 0 [
    fld UINT32 "InputMappingBase";
    bit UINT32 "InputMappingsCount" 30;
    bit UINT32 "DeviceType" 2]) "Acpi";
  fld (struct 0 [
    bit UINT64 "_" 62;
    bit UINT64 "DeviceType" 2]) anonymous].
Definition HV_HPET_CONFIG_INFO : cty := struct 0 [
  fld UINT64 "BaseAddressDeprecated";
  fld UINT32 "TimerIndex";
  fld HV_DEVICE_ID "DeviceId";
  fld UINT8 "TimerInterruptPin"].
Definition HV_HPET_INTERRUPT_INFO : cty := struct 0 [
  fld HV_INTERRUPT_ENTRY "InterruptEntry"].
Definition HV_PPM_PERF_STATE_REGISTER : cty := union 0 [
  fld UINT64 "AsUINT64";
  fld (struct 0 [
    bit UINT64 "TypeSpecific" 52;
    bit UINT64 "RegisterType" 12]) anonymous;
  fld (struct 0 [
    fld UINT32 "RegisterNumber";
    fld UINT8 "BitWidth";
    fld UINT8 "BitOffset";
    bit UINT16 "ReservedZ" 4]) "Msr";
  fld (struct 0 [
    fld UINT16 "Port";
    fld UINT16 "AccessSize";
    fld UINT8 "BitWidth";
    fld UINT8 "BitOffset";
    bit UINT16 "ReservedZ" 4]) "Io"].
Definition HV_X64_PPM_PERF_STATE_CONFIG_PROPERTY : cty := struct 0 [
  fld UINT32 "StateCount";
  fld (CArr HV_X64_PPM_PERF_STATE 64) "States";
  fld UINT32 "DomainId";
  fld UINT32 "NumProcInDomain";
  fld (enum_type HV_X64_PPM_PERF_DOMAIN_COORDINATION) "Coordination";
  fld HV_PPM_PERF_STATE_REGISTER "ControlRegister";
  fld HV_PPM_PERF_STATE_REGISTER "StatusRegister"].
Definition HV_X64_PPM_THROTTLE_STATE_CONFIG_PROPERTY : cty := struct 0 [
  fld UINT32 "StateCount";
  fld (CArr HV_X64_PPM_THROTTLE_STATE 100) "States";
  fld UINT32 "DomainId";
  fld UINT32 "NumProcInDomain";
  fld (enum_type HV_X64_PPM_PERF_DOMAIN_COORDINATION) "Coordination";
  fld HV_PPM_PERF_STATE_REGISTER "ControlRegister";
  fld HV_PPM_PERF_STATE_REGISTER "StatusRegister";
  fld UINT64 "ControlMask";
  fld UINT64 "StatusMask"].
Definition HV_X64_PPM_PCC_CONFIG_PROPERTY : cty := struct 0 [
  fld UINT32 "Flags";
  fld UINT32 "DomainId";
  fld UINT32 "NumProcInDomain";
  fld (enum_type HV_X64_PPM_PERF_DOMAIN_COORDINATION) "Coordination";
  fld UINT64 "SharedMemoryAddress";
  fld UINT32 "SharedMemoryLength";
  fld HV_PPM_PERF_STATE_REGISTER "Doorbell";
  fld UINT64 "DoorbellPreserve";
  fld UINT64 "DoorbellWrite";
  fld UINT64 "DoorbellMask";
  fld UINT32 "InputBufferOffset";
  fld UINT32 "OutputBufferOffset"].
Definition HV_LOGICAL_PROCESSOR_PROPERTY : cty := union 0 [
  fld UINT32 "UpdateLpIndex";
  fld HV_PROCESSOR_HW_ID "ProcHwId";
  fld HV_PROXIMITY_DOMAIN_ID "ProximityDomainId";
  fld HV_MACHINE_CHECK_CONTEXT_INFO "MachineCheckContextInfo";
  fld HV_MCUPDATE_UPDATE_STATUS "UpdateStatus"].
Definition HV_DEVICE_INTERRUPT_DESCRIPTOR_HEADER : cty := struct 0 [
  fld (enum_type HV_INTERRUPT_TYPE) "InterruptType";
  fld (enum_type HV_INTERRUPT_TRIGGER_MODE) "TriggerMode";
  fld UINT32 "VectorCount";
  fld UINT32 "Reserved"].
Definition HV_DEVICE_INTERRUPT_DESCRIPTOR : cty := struct 0 [
  fld (enum_type HV_INTERRUPT_TYPE) "InterruptType";
  fld (enum_type HV_INTERRUPT_TRIGGER_MODE) "TriggerMode";
  fld UINT32 "VectorCount";
  fld UINT32 "Reserved";
  fld HV_DEVICE_INTERRUPT_TARGET "Target"].
Definition HV_ATTACH_DEVICE_FLAGS : cty := union 0 [
  fld UINT32 "AsUINT32";
  fld (struct 0 [
    bit UINT32 "LogicalId" 1;
    bit UINT32 "Reserved0" 1;
    bit UINT32 "AtsEnabled" 1;
    bit UINT32 "VirtualFunction" 1;
    bit UINT32 "SharedInterruptsChild" 1;
    bit UINT32 "VirtualDevice" 1;
    bit UINT32 "AtsSupported" 1;
    bit UINT32 "SmallIrt" 1;
    bit UINT32 "Reserved1" 24]) anonymous].
Definition HV_ARM64_PROC_STATE_GP_REGS : cty := struct 0 [
  fld (CArr UINT64 13) "X";
  fld UINT64 "Sp";
  fld UINT64 "Pc"].
Definition HV_PPM_FEEDBACK_REGISTER_PAIR : cty := struct 0 [
  fld HV_PPM_PERF_STATE_REGISTER "ReferenceCount";
  fld HV_PPM_PERF_STATE_REGISTER "ActualCount";
  fld UINT8 "ResetRegisters"].
Definition HV_PROCESSOR_PERF_FEEDBACK_COUNTERS_CONFIG : cty := struct 0 [
  fld UINT32 "Count";
  fld (CArr HV_PPM_FEEDBACK_REGISTER_PAIR 4) "FeedbackCounters"].
Definition HV_ARM64_REGISTER_VSM_CAPABILITIES : cty := union 0 [
  fld UINT64 "AsUINT64";
  fld (struct 0 [
    bit UINT64 "ReservedZ0" 1;
    bit UINT64 "MbecVtlMask" 16;
    bit UINT64 "DenyLowerVtlStartup" 1;
    bit UINT64 "SupervisorShadowStack" 1;
    bit UINT64 "HardwareHvptAvailable" 1;
    bit UINT64 "SoftwareHvptAvailable" 1;
    bit UINT64 "HardwareHvptRangeBits" 6;
    bit UINT64 "InterceptPageAvailable" 1;
    bit UINT64 "ReturnActionAvailable" 1;
    bit UINT64 "Vtl0AliasMapAvailable" 1;
    bit UINT64 "InterceptNotPresentAvailable" 1;
    bit UINT64 "InstallInterceptEx" 1;
    bit UINT64 "ReservedZ" 32]) anonymous].
Definition HV_ARM64_LOGICAL_PROCESSOR_REGISTER_ADDRESS : cty := union 0 [
  fld (enum_type HV_REGISTER_NAME) "HvRegisterName"].
Definition HV_LOGICAL_PROCESSOR_REGISTER_ID : cty := struct 0 [
  fld HV_LOGICAL_PROCESSOR_INDEX "LpIndex";
  fld (enum_type HV_LOGICAL_PROCESSOR_REGISTER_TYPE) "Type";
  fld HV_ARM64_LOGICAL_PROCESSOR_REGISTER_ADDRESS "Address"].
Definition HV_DEVICE_PAGE_REQUEST : cty := union 0 [
  fld (CArr UINT64 4) "AsUINT64";
  fld (struct 0 [
    fld HV_DEVICE_ID "DeviceId";
    fld (struct 0 [
      bit UINT64 "GroupIndex" 9;
      bit UINT64 "LastInGroup" 1;
      bit UINT64 "Virtual" 1;
      bit UINT64 "Pasid" 20;
      bit UINT64 "Reserved0" 33;
      bit UINT64 "Read" 1;
      bit UINT64 "Write" 1;
      bit UINT64 "Execute" 1;
      bit UINT64 "Privileged" 1;
      bit UINT64 "Reserved2" 8;
      bit UINT64 "PageNumber" 52;
      fld UINT64 "Reserved3"]) anonymous;
    fld (struct 0 [
      bit UINT64 "_" 31;
      bit UINT64 "Reserved1" 30;
      bit UINT64 "InvalidRequest" 1;
      bit UINT64 "ValidateGpa" 1;
      bit UINT64 "Overflow" 1]) anonymous;
    fld (struct 0 [
      bit UINT64 "_" 63;
      bit UINT64 "SendResponse" 1]) anonymous]) anonymous].
Definition HV_PARTITION_PROCESSOR_FEATURES_FIELD_INDEX : enum := [
  Is "HvPartitionProcessorFeaturesAsid16Index" 0x0;
  Is "HvPartitionProcessorFeaturesTGran16Index" 0x1;
  Is "HvPartitionProcessorFeaturesTGran64Index" 0x2;
  Is "HvPartitionProcessorFeaturesHafIndex" 0x3;
  Is "HvPartitionProcessorFeaturesHdbsIndex" 0x4;
  Is "HvPartitionProcessorFeaturesPanIndex" 0x5;
  Is "HvPartitionProcessorFeaturesAtS1E1Index" 0x6;
  Is "HvPartitionProcessorFeaturesUaoIndex" 0x7;
  Is "HvPartitionProcessorFeaturesEl0Aarch32Index" 0x8;
  Is "HvPartitionProcessorFeaturesFpIndex" 0x9;
  Is "HvPartitionProcessorFeaturesFpHpIndex" 0xa;
  Is "HvPartitionProcessorFeaturesAdvSimdIndex" 0xb;
  Is "HvPartitionProcessorFeaturesAdvSimdHpIndex" 0xc;
  Is "HvPartitionProcessorFeaturesGicV3V4Index" 0xd;
  Is "HvPartitionProcessorFeaturesGicV4P1Index" 0xe;
  Is "HvPartitionProcessorFeaturesRasIndex" 0xf;
  Is "HvPartitionProcessorFeaturesPmuV3Index" 0x10;
  Is "HvPartitionProcessorFeaturesPmuV3ArmV81Index" 0x11;
  Is "HvPartitionProcessorFeaturesPmuV3ArmV84Index" 0x12;
  Is "HvPartitionProcessorFeaturesPmuV3ArmV85Index" 0x13;
  Is "HvPartitionProcessorFeaturesAesIndex" 0x14;
  Is "HvPartitionProcessorFeaturesPolyMulIndex" 0x15;
  Is "HvPartitionProcessorFeaturesSha1Index" 0x16;
  Is "HvPartitionProcessorFeaturesSha256Index" 0x17;
  Is "HvPartitionProcessorFeaturesSha512Index" 0x18;
  Is "HvPartitionProcessorFeaturesCrc32Index" 0x19;
  Is "HvPartitionProcessorFeaturesAtomicIndex" 0x1a;
  Is "HvPartitionProcessorFeaturesRdmIndex" 0x1b;
  Is "HvPartitionProcessorFeaturesSha3Index" 0x1c;
  Is "HvPartitionProcessorFeaturesSm3Index" 0x1d;
  Is "HvPartitionProcessorFeaturesSm4Index" 0x1e;
  Is "HvPartitionProcessorFeaturesDpIndex" 0x1f;
  Is "HvPartitionProcessorFeaturesFhmIndex" 0x20;
  Is "HvPartitionProcessorFeaturesDcCvapIndex" 0x21;
  Is "HvPartitionProcessorFeaturesDcCvadpIndex" 0x22;
  Is "HvPartitionProcessorFeaturesApaBaseIndex" 0x23;
  Is "HvPartitionProcessorFeaturesApaEpIndex" 0x24;
  Is "HvPartitionProcessorFeaturesApaEp2Index" 0x25;
  Is "HvPartitionProcessorFeaturesApaEp2FpIndex" 0x26;
  Is "HvPartitionProcessorFeaturesApaEp2FpcIndex" 0x27;
  Is "HvPartitionProcessorFeaturesJscvtIndex" 0x28;
  Is "HvPartitionProcessorFeaturesFcmaIndex" 0x29;
  Is "HvPartitionProcessorFeaturesRcpcV83Index" 0x2a;
  Is "HvPartitionProcessorFeaturesRcpcV84Index" 0x2b;
  Is "HvPartitionProcessorFeaturesGpaIndex" 0x2c;
  Is "HvPartitionProcessorFeaturesL1ipPiptIndex" 0x2d;
  Is "HvPartitionProcessorFeaturesDzPermittedIndex" 0x2e;
  Is "HvPartitionProcessorFeaturesSsbsIndex" 0x2f;
  Is "HvPartitionProcessorFeaturesSsbsRwIndex" 0x30;
  Is "HvPartitionProcessorFeaturesSmcccW1SupportedIndex" 0x31;
  Is "HvPartitionProcessorFeaturesSmcccW1MitigatedIndex" 0x32;
  Is "HvPartitionProcessorFeaturesSmcccW2SupportedIndex" 0x33;
  Is "HvPartitionProcessorFeaturesSmcccW2MitigatedIndex" 0x34;
  Is "HvPartitionProcessorFeaturesCsv2Index" 0x35;
  Is "HvPartitionProcessorFeaturesCsv3Index" 0x36;
  Is "HvPartitionProcessorFeaturesSbIndex" 0x37;
  Is "HvPartitionProcessorFeaturesIdcIndex" 0x38;
  Is "HvPartitionProcessorFeaturesDicIndex" 0x39;
  Is "HvPartitionProcessorFeaturesTlbiOsIndex" 0x3a;
  Is "HvPartitionProcessorFeaturesTlbiOsRangeIndex" 0x3b;
  Is "HvPartitionProcessorFeaturesFlagsMIndex" 0x3c;
  Is "HvPartitionProcessorFeaturesFlagsM2Index" 0x3d;
  Is "HvPartitionProcessorFeaturesBf16Index" 0x3e;
  Is "HvPartitionProcessorFeaturesEbf16Index" 0x3f;
  Is "HvPartitionProcessorFeaturesSveBf16Index" 0x40;
  Is "HvPartitionProcessorFeaturesSveEbf16Index" 0x41;
  Is "HvPartitionProcessorFeaturesI8mmIndex" 0x42;
  Is "HvPartitionProcessorFeaturesSveI8mmIndex" 0x43;
  Is "HvPartitionProcessorFeaturesFrinttsIndex" 0x44;
  Is "HvPartitionProcessorFeaturesSpecresIndex" 0x45;
  Is "HvPartitionProcessorFeaturesMtpmuIndex" 0x46;
  Is "HvPartitionProcessorFeaturesRpresIndex" 0x47;
  Is "HvPartitionProcessorFeaturesExsIndex" 0x48;
  Is "HvPartitionProcessorFeaturesSpecSeiIndex" 0x49;
  Is "HvPartitionProcessorFeaturesEtsIndex" 0x4a;
  Is "HvPartitionProcessorFeaturesAfpIndex" 0x4b;
  Is "HvPartitionProcessorFeaturesIesbIndex" 0x4c;
  Is "HvPartitionProcessorFeaturesRngIndex" 0x4d;
  Is "HvPartitionProcessorFeaturesLse2Index" 0x4e;
  Is "HvPartitionProcessorFeaturesIdstIndex" 0x4f;
  Is "HvPartitionProcessorFeaturesRasV1P1Index" 0x50;
  Is "HvPartitionProcessorFeaturesRasFracV1P1Index" 0x51;
  Is "HvPartitionProcessorFeaturesSel2Index" 0x52;
  Is "HvPartitionProcessorFeaturesAmuV1Index" 0x53;
  Is "HvPartitionProcessorFeaturesAmuV1P1Index" 0x54;
  Is "HvPartitionProcessorFeaturesDitIndex" 0x55;
  Is "HvPartitionProcessorFeaturesCcidxIndex" 0x56;
  Is "HvPartitionProcessorFeaturesFgtForInterceptsIndex" 0x57;
  Is "HvPartitionProcessorFeaturesL1ipVpiptIndex" 0x58;
  Is "HvPartitionProcessorFeaturesL1ipViptIndex" 0x59;
  Is "HvPartitionProcessorFeaturesDebugV8Index" 0x5a;
  Is "HvPartitionProcessorFeaturesDebugV8P2Index" 0x5b;
  Is "HvPartitionProcessorFeaturesDebugV8P4Index" 0x5c;
  Is "HvPartitionProcessorFeaturesPmuV3ArmV87Index" 0x5d;
  Is "HvPartitionProcessorFeaturesDoubleLockIndex" 0x5e;
  Is "HvPartitionProcessorFeaturesClrbhbIndex" 0x5f;
  Is "HvPartitionProcessorFeaturesSpeIndex" 0x60;
  Is "HvPartitionProcessorFeaturesSpeV1P1Index" 0x61;
  Is "HvPartitionProcessorFeaturesSpeV1P2Index" 0x62;
  Is "HvPartitionProcessorFeaturesTtCnpIndex" 0x63;
  Is "HvPartitionProcessorFeaturesHpdsIndex" 0x64;
  Is "HvPartitionProcessorFeaturesSveIndex" 0x65;
  Is "HvPartitionProcessorFeaturesSveV2Index" 0x66;
  Is "HvPartitionProcessorFeaturesSveV2P1Index" 0x67;
  Is "HvPartitionProcessorFeaturesSpecFpaccIndex" 0x68].
Definition HV_SMC_DATA_PATH_LOCK_STATE : enum := [
  Is "HvSmcDataPathUnlocked" 0x0;
  Is "HvSmcDataPathLockedByHvx" 0x1;
  Is "HvSmcDataPathLockedByVtl1" 0x2].
Definition HV_ARM64_SYNTHETIC_MSR : enum := [
  Is "HvSyntheticMsrGuestOsId" 0x40000000;
  Is "HvSyntheticMsrHypercall" 0x40000001;
  Is "HvSyntheticMsrVpIndex" 0x40000002;
  Is "HvSyntheticMsrReset" 0x40000003;
  Is "HvSyntheticMsrCpuMgmtVersion" 0x40000004;
  Is "HvSyntheticMsrTimeRefCount" 0x40000020;
  Is "HvSyntheticMsrReferenceTsc" 0x40000021;
  Is "HvSyntheticMsrTscFrequency" 0x40000022;
  Is "HvSyntheticMsrVpAssistPage" 0x40000073;
  Is "HvSyntheticMsrSControl" 0x40000080;
  Is "HvSyntheticMsrSVersion" 0x40000081;
  Is "HvSyntheticMsrSiefp" 0x40000082;
  Is "HvSyntheticMsrSimp" 0x40000083;
  Is "HvSyntheticMsrEom" 0x40000084;
  Is "HvSyntheticMsrSirb" 0x40000085;
  Is "HvSyntheticMsrSint0" 0x40000090;
  Is "HvSyntheticMsrSint1" 0x40000091;
  Is "HvSyntheticMsrSint2" 0x40000092;
  Is "HvSyntheticMsrSint3" 0x40000093;
  Is "HvSyntheticMsrSint4" 0x40000094;
  Is "HvSyntheticMsrSint5" 0x40000095;
  Is "HvSyntheticMsrSint6" 0x40000096;
  Is "HvSyntheticMsrSint7" 0x40000097;
  Is "HvSyntheticMsrSint8" 0x40000098;
  Is "HvSyntheticMsrSint9" 0x40000099;
  Is "HvSyntheticMsrSint10" 0x4000009a;
  Is "HvSyntheticMsrSint11" 0x4000009b;
  Is "HvSyntheticMsrSint12" 0x4000009c;
  Is "HvSyntheticMsrSint13" 0x4000009d;
  Is "HvSyntheticMsrSint14" 0x4000009e;
  Is "HvSyntheticMsrSint15" 0x4000009f;
  Is "HvSyntheticMsrSTimer0Config" 0x400000b0;
  Is "HvSyntheticMsrSTimer0Count" 0x400000b1;
  Is "HvSyntheticMsrSTimer1Config" 0x400000b2;
  Is "HvSyntheticMsrSTimer1Count" 0x400000b3;
  Is "HvSyntheticMsrSTimer2Config" 0x400000b4;
  Is "HvSyntheticMsrSTimer2Count" 0x400000b5;
  Is "HvSyntheticMsrSTimer3Config" 0x400000b6;
  Is "HvSyntheticMsrSTimer3Count" 0x400000b7;
  Is "HvSyntheticMsrReserved400000C1" 0x400000c1;
  Is "HvSyntheticMsrGuestSchedulerEvent" 0x400000c2;
  Is "HvSyntheticMsrGuestIdle" 0x400000f0;
  Is "HvSyntheticMsrDebugDeviceOptions" 0x400000ff;
  Is "HvSyntheticMsrCrashP0" 0x40000100;
  Is "HvSyntheticMsrCrashP1" 0x40000101;
  Is "HvSyntheticMsrCrashP2" 0x40000102;
  Is "HvSyntheticMsrCrashP3" 0x40000103;
  Is "HvSyntheticMsrCrashP4" 0x40000104;
  Is "HvSyntheticMsrCrashCtl" 0x40000105;
  Is "HvSyntheticMsrReenlightenmentControl" 0x40000106;
  Is "HvSyntheticMsrTscEmulationControl" 0x40000107;
  Is "HvSyntheticMsrTscEmulationStatus" 0x40000108;
  Is "HvSyntheticMsrSWatchdogConfig" 0x40000110;
  Is "HvSyntheticMsrSWatchdogCount" 0x40000111;
  Is "HvSyntheticMsrSWatchdogStatus" 0x40000112;
  Is "HvSyntheticMsrSTimeUnhaltedTimerConfig" 0x40000114;
  Is "HvSyntheticMsrSTimeUnhaltedTimerCount" 0x40000115;
  Is "HvSyntheticMsrMemoryZeroingControl" 0x40000116].
Definition HV_SYNMC_ARM64_EVENT : cty := union 0 [
  fld UINT16 "ModelSpecificErrorCode";
  fld (struct 0 [
    bit UINT16 "ErrorDetail" 14;
    bit UINT16 "HypervisorError" 1;
    bit UINT16 "SoftwareError" 1]) anonymous].
Definition HV_SYNMC_EVENT : cty := HV_SYNMC_ARM64_EVENT.
Definition HV_ARM64_DELIVERABILITY_NOTIFICATIONS_REGISTER : cty := union 0 [
  fld UINT64 "AsUINT64";
  fld (struct 0 [
    bit UINT64 "RsvdZ" 48;
    bit UINT64 "Sint" 16]) anonymous].
(** ** [Mile.HyperV.TLFS.h] *)

Definition HV_ARM64_HYPERVISOR_FEATURES_PRIVATE : cty := struct 0 [
  fld HV_PARTITION_PRIVILEGE_MASK_PRIVATE "PartitionPrivileges";
  bit UINT32 "Reserved0" 16;
  bit UINT32 "CrossVtlFlushAvailable" 1;
  bit UINT32 "S1ExtendedAsidsAvailable" 1;
  bit UINT32 "Reserved1" 14].
Definition HV_HYPERVISOR_FEATURES_PRIVATE : cty := HV_ARM64_HYPERVISOR_FEATURES_PRIVATE.
Definition HV_ARM64_ENLIGHTENMENT_INFORMATION_PRIVATE : cty := struct 0 [
  bit UINT32 "Reserved01" 21;
  bit UINT32 "UseHypercallForMmioAccess" 1;
  bit UINT32 "UseGpaPinningHypercall" 1;
  bit UINT32 "WakeVps" 1;
  bit UINT32 "SyncContext" 1;
  bit UINT32 "Reserved02" 7;
  fld UINT32 "Reserved1";
  fld UINT32 "Reserved2";
  fld UINT32 "Reserved3"].
Definition HV_ENLIGHTENMENT_INFORMATION_PRIVATE : cty := HV_ARM64_ENLIGHTENMENT_INFORMATION_PRIVATE.
Definition HV_ARM64_HYPERVISOR_HARDWARE_FEATURES_PRIVATE : cty := struct 0 [
  bit UINT32 "Reserved0" 8;
  bit UINT32 "ApicEmulationSupported" 1;
  bit UINT32 "DeviceAccessTrackingSupported" 1;
  bit UINT32 "DeviceDomainInputWidth" 8;
  bit UINT32 "HardwareGpaAccessTrackingSupported" 1;
  bit UINT32 "Reserved1" 13;
  fld UINT32 "Reserved2";
  fld UINT32 "Reserved3";
  fld UINT32 "Reserved4"].
Definition HV_HYPERVISOR_HARDWARE_FEATURES_PRIVATE : cty := HV_ARM64_HYPERVISOR_HARDWARE_FEATURES_PRIVATE.
Definition HV_ARM64_HYPERVISOR_CPU_MANAGEMENT_FEATURES_PRIVATE : cty := struct 0 [
  fld UINT32 "ReservedEax";
  bit UINT32 "ReservedEbx0" 3;
  bit UINT32 "DriveIdleTransitions" 1;
  bit UINT32 "ReservedEbx1" 28;
  fld UINT32 "ReservedEcx";
  fld UINT32 "ReservedEdx"].
Definition HV_HYPERVISOR_CPU_MANAGEMENT_FEATURES_PRIVATE : cty :=
  HV_ARM64_HYPERVISOR_CPU_MANAGEMENT_FEATURES_PRIVATE.
Definition HV_CPUID_RESULT_PRIVATE : cty := union 0 [
  fld HV_HYPERVISOR_FEATURES_PRIVATE "MsHvFeatures";
  fld HV_ENLIGHTENMENT_INFORMATION_PRIVATE "MsHvEnlightenmentInformation";
  fld HV_HYPERVISOR_HARDWARE_FEATURES_PRIVATE "MsHvHardwareFeatures";
  fld HV_HYPERVISOR_CPU_MANAGEMENT_FEATURES_PRIVATE "MsHvCpuManagementFeatures";
  fld HV_HYPERVISOR_PASID_FEATURES "MsHvPasidFeatures";
  fld HV_HYPERVISOR_ISOLATION_CONFIGURATION_PRIVATE "MsHvIsolationConfiguration";
  fld HV_HYPERVISOR_NESTED_VIRT_FEATURES_PRIVATE "MsHvNestedVirtFeatures";
  fld HV_HYPERVISOR_IPT_FEATURES "MsHvIptFeatures"].
Definition HV_LOGICAL_PROCESSOR_REGISTER_VALUE : cty := union 0 [
  fld HV_UINT128 "Reg128";
  fld UINT64 "Reg64";
  fld UINT32 "Reg32";
  fld UINT16 "Reg16";
  fld UINT8 "Reg8"].
Definition HV_LOGICAL_PROCESSOR_REGISTER_ASSOC : cty := struct 0 [
  fld HV_LOGICAL_PROCESSOR_REGISTER_ID "Id";
  fld HV_LOGICAL_PROCESSOR_REGISTER_VALUE "Value"].
Definition HV_X64_MSR_VP_INDEX : Z := enum_value HV_ARM64_SYNTHETIC_MSR "HvSyntheticMsrVpIndex".
Definition HV_X64_MSR_RESET : Z := enum_value HV_ARM64_SYNTHETIC_MSR "HvSyntheticMsrReset".
Definition HV_ARM64_MSR_RESET_CONTENTS : cty := union 0 [
  fld UINT64 "AsUINT64";
  fld (struct 0 [
    bit UINT64 "Reset" 1;
    bit UINT64 "ReservedZ" 63]) anonymous].
Definition HV_X64_MSR_TIME_REF_COUNT : Z := enum_value HV_ARM64_SYNTHETIC_MSR "HvSyntheticMsrTimeRefCount".
Definition HV_X64_MSR_REFERENCE_TSC : Z := enum_value HV_ARM64_SYNTHETIC_MSR "HvSyntheticMsrReferenceTsc".
Definition HV_X64_MSR_TSC_FREQUENCY : Z := enum_value HV_ARM64_SYNTHETIC_MSR "HvSyntheticMsrTscFrequency".
Definition HV_X64_MSR_VP_ASSIST_PAGE : Z := enum_value HV_ARM64_SYNTHETIC_MSR "HvSyntheticMsrVpAssistPage".
Definition HV_VP_VTL_CONTROL : cty := struct 0 [
  fld (enum_type HV_VTL_ENTRY_REASON) "EntryReason";
  fld (union 0 [
    fld UINT8 "AsUINT8";
    fld (struct 0 [
      bit UINT8 "VinaAsserted" 1;
      bit UINT8 "VinaReservedZ" 7]) anonymous]) "VinaStatus";
  fld UINT8 "ReservedZ00";
  fld UINT16 "ReservedZ01";
  fld (union 0 [
    fld (struct 0 [
      fld UINT64 "ReservedZ2";
      fld UINT64 "ReservedZ3"]) anonymous]) anonymous].
Definition HV_MINIMAL_INTERCEPT_INFORMATION : cty := struct 0 [
  fld (enum_type HV_MESSAGE_TYPE) "MessageType"].
Definition HV_VP_ASSIST_PAGE : cty := union 0 [
  fld (struct 0 [
    fld HV_VIRTUAL_APIC_ASSIST "ApicAssist";
    fld UINT32 "ReservedZ0";
    fld HV_VP_VTL_CONTROL "VtlControl";
    fld HV_NESTED_ENLIGHTENMENTS_CONTROL "NestedEnlightenmentsControl";
    fld HV_BOOLEAN "EnlightenVmEntry";
    fld (CArr UINT8 7) "ReservedZ1";
    fld HV_GPA "CurrentNestedVmcs";
    fld HV_BOOLEAN "SyntheticTimeUnhaltedTimerExpired";
    fld (CArr UINT8 7) "ReservedZ2";
    fld HV_VIRTUALIZATION_FAULT_INFORMATION "VirtualizationFaultInformation";
    fld (CArr UINT8 8) "ReservedZ3";
    fld HV_MESSAGE "InterceptMessage";
    fld (CArr UINT8 256) "VtlReturnActions"]) anonymous;
  fld (CArr UINT8 HV_PAGE_SIZE) "ReservedZBytePadding";
  fld (struct 0 [
    fld (CArr UINT8 112) "Padding";
    fld HV_MINIMAL_INTERCEPT_INFORMATION "MinimalIntercept"]) anonymous].
Definition HV_X64_MSR_SCONTROL : Z := enum_value HV_ARM64_SYNTHETIC_MSR "HvSyntheticMsrSControl".
Definition HV_X64_MSR_SVERSION : Z := enum_value HV_ARM64_SYNTHETIC_MSR "HvSyntheticMsrSVersion".
Definition HV_X64_MSR_SIEFP : Z := enum_value HV_ARM64_SYNTHETIC_MSR "HvSyntheticMsrSiefp".
Definition HV_X64_MSR_SIMP : Z := enum_value HV_ARM64_SYNTHETIC_MSR "HvSyntheticMsrSimp".
Definition HV_X64_MSR_EOM : Z := enum_value HV_ARM64_SYNTHETIC_MSR "HvSyntheticMsrEom".
Definition HV_X64_MSR_SIRBP : Z := enum_value HV_ARM64_SYNTHETIC_MSR "HvSyntheticMsrSirb".
Definition HV_X64_MSR_SINT0 : Z := enum_value HV_ARM64_SYNTHETIC_MSR "HvSyntheticMsrSint0".
Definition HV_X64_MSR_SINT1 : Z := enum_value HV_ARM64_SYNTHETIC_MSR "HvSyntheticMsrSint1".
Definition HV_X64_MSR_SINT2 : Z := enum_value HV_ARM64_SYNTHETIC_MSR "HvSyntheticMsrSint2".
Definition HV_X64_MSR_SINT3 : Z := enum_value HV_ARM64_SYNTHETIC_MSR "HvSyntheticMsrSint3".
Definition HV_X64_MSR_SINT4 : Z := enum_value HV_ARM64_SYNTHETIC_MSR "HvSyntheticMsrSint4".
Definition HV_X64_MSR_SINT5 : Z := enum_value HV_ARM64_SYNTHETIC_MSR "HvSyntheticMsrSint5".
Definition HV_X64_MSR_SINT6 : Z := enum_value HV_ARM64_SYNTHETIC_MSR "HvSyntheticMsrSint6".
Definition HV_X64_MSR_SINT7 : Z := enum_value HV_ARM64_SYNTHETIC_MSR "HvSyntheticMsrSint7".
Definition HV_X64_MSR_SINT8 : Z := enum_value HV_ARM64_SYNTHETIC_MSR "HvSyntheticMsrSint8".
Definition HV_X64_MSR_SINT9 : Z := enum_value HV_ARM64_SYNTHETIC_MSR "HvSyntheticMsrSint9".
Definition HV_X64_MSR_SINT10 : Z := enum_value HV_ARM64_SYNTHETIC_MSR "HvSyntheticMsrSint10".
Definition HV_X64_MSR_SINT11 : Z := enum_value HV_ARM64_SYNTHETIC_MSR "HvSyntheticMsrSint11".
Definition HV_X64_MSR_SINT12 : Z := enum_value HV_ARM64_SYNTHETIC_MSR "HvSyntheticMsrSint12".
Definition HV_X64_MSR_SINT13 : Z := enum_value HV_ARM64_SYNTHETIC_MSR "HvSyntheticMsrSint13".
Definition HV_X64_MSR_SINT14 : Z := enum_value HV_ARM64_SYNTHETIC_MSR "HvSyntheticMsrSint14".
Definition HV_X64_MSR_SINT15 : Z := enum_value HV_ARM64_SYNTHETIC_MSR "HvSyntheticMsrSint15".
Definition HV_X64_MSR_STIMER0_CONFIG : Z := enum_value HV_ARM64_SYNTHETIC_MSR "HvSyntheticMsrSTimer0Config".
Definition HV_X64_MSR_STIMER0_COUNT : Z := enum_value HV_ARM64_SYNTHETIC_MSR "HvSyntheticMsrSTimer0Count".
Definition HV_X64_MSR_STIMER1_CONFIG : Z := enum_value HV_ARM64_SYNTHETIC_MSR "HvSyntheticMsrSTimer1Config".
Definition HV_X64_MSR_STIMER1_COUNT : Z := enum_value HV_ARM64_SYNTHETIC_MSR "HvSyntheticMsrSTimer1Count".
Definition HV_X64_MSR_STIMER2_CONFIG : Z := enum_value HV_ARM64_SYNTHETIC_MSR "HvSyntheticMsrSTimer2Config".
Definition HV_X64_MSR_STIMER2_COUNT : Z := enum_value HV_ARM64_SYNTHETIC_MSR "HvSyntheticMsrSTimer2Count".
Definition HV_X64_MSR_STIMER3_CONFIG : Z := enum_value HV_ARM64_SYNTHETIC_MSR "HvSyntheticMsrSTimer3Config".
Definition HV_X64_MSR_STIMER3_COUNT : Z := enum_value HV_ARM64_SYNTHETIC_MSR "HvSyntheticMsrSTimer3Count".
Definition HV_MSR_SINT0 : Z := enum_value HV_REGISTER_NAME "HvRegisterSint0".
Definition HV_MSR_EOM : Z := enum_value HV_REGISTER_NAME "HvRegisterEom".
Definition HV_MSR_TIME_REF_COUNT : Z := enum_value HV_REGISTER_NAME "HvRegisterTimeRefCount".
Definition HV_MSR_STIMER0_CONFIG : Z := enum_value HV_REGISTER_NAME "HvRegisterStimer0Config".
Definition HV_MSR_STIMER0_COUNT : Z := enum_value HV_REGISTER_NAME "HvRegisterStimer0Count".
Definition HV_MSR_SIMP : Z := enum_value HV_REGISTER_NAME "HvRegisterSipp".
Definition HV_X64_MSR_GUEST_IDLE : Z := enum_value HV_ARM64_SYNTHETIC_MSR "HvSyntheticMsrGuestIdle".
Definition HV_X64_MSR_CRASH_P0 : Z := enum_value HV_ARM64_SYNTHETIC_MSR "HvSyntheticMsrCrashP0".
Definition HV_X64_MSR_CRASH_P1 : Z := enum_value HV_ARM64_SYNTHETIC_MSR "HvSyntheticMsrCrashP1".
Definition HV_X64_MSR_CRASH_P2 : Z := enum_value HV_ARM64_SYNTHETIC_MSR "HvSyntheticMsrCrashP2".
Definition HV_X64_MSR_CRASH_P3 : Z := enum_value HV_ARM64_SYNTHETIC_MSR "HvSyntheticMsrCrashP3".
Definition HV_X64_MSR_CRASH_P4 : Z := enum_value HV_ARM64_SYNTHETIC_MSR "HvSyntheticMsrCrashP4".
Definition HV_X64_MSR_CRASH_CTL : Z := enum_value HV_ARM64_SYNTHETIC_MSR "HvSyntheticMsrCrashCtl".
Definition HV_X64_MSR_REENLIGHTENMENT_CONTROL : Z := enum_value HV_ARM64_SYNTHETIC_MSR "HvSyntheticMsrReenlightenmentControl".
Definition HV_X64_MSR_TSC_EMULATION_CONTROL : Z := enum_value HV_ARM64_SYNTHETIC_MSR "HvSyntheticMsrTscEmulationControl".
Definition HV_X64_MSR_TSC_EMULATION_STATUS : Z := enum_value HV_ARM64_SYNTHETIC_MSR "HvSyntheticMsrTscEmulationStatus".
Definition HV_X64_MSR_STIME_UNHALTED_TIMER_CONFIG : Z := enum_value HV_ARM64_SYNTHETIC_MSR "HvSyntheticMsrSTimeUnhaltedTimerConfig".
Definition HV_X64_MSR_STIME_UNHALTED_TIMER_COUNT : Z := enum_value HV_ARM64_SYNTHETIC_MSR "HvSyntheticMsrSTimeUnhaltedTimerCount".
(** ** [Mile.HyperV.TLFS.h] *)

Definition HV_INPUT_ENABLE_VP_VTL : cty := aligned HV_CALL_ALIGNMENT (struct 0 [
  fld HV_PARTITION_ID "PartitionId";
  fld HV_VP_INDEX "VpIndex";
  fld HV_VTL "TargetVtl";
  fld UINT8 "ReservedZ0";
  fld UINT16 "ReservedZ1";
  fld HV_INITIAL_VP_CONTEXT "VpVtlContext"]).
Definition HV_INPUT_SET_PERF_REGISTER : cty := aligned HV_CALL_ALIGNMENT (struct 0 [
  fld UINT32 "ProcessorIndex";
  fld HV_PPM_PERF_STATE_REGISTER "Register";
  fld UINT64 "PreserveMask";
  fld UINT64 "Value"]).
Definition HV_INPUT_GET_PERF_REGISTER : cty := aligned HV_CALL_ALIGNMENT (struct 0 [
  fld UINT32 "ProcessorIndex";
  fld HV_PPM_PERF_STATE_REGISTER "Register"]).
Definition HV_INPUT_CREATE_PARTITION_V2 : cty := aligned HV_CALL_ALIGNMENT (struct 0 [
  fld UINT64 "Flags";
  fld HV_PROXIMITY_DOMAIN_INFO "ProximityDomainInfo";
  fld (enum_type HV_COMPATIBILITY_VERSION) "CompatibilityVersion";
  fld HV_PARTITION_CREATION_PROPERTIES_V2 "Properties"]).
Definition HV_INPUT_CREATE_PARTITION : cty := aligned HV_CALL_ALIGNMENT (struct 0 [
  fld UINT64 "Flags";
  fld HV_PROXIMITY_DOMAIN_INFO "ProximityDomainInfo";
  fld (enum_type HV_COMPATIBILITY_VERSION) "CompatibilityVersion";
  fld HV_PARTITION_CREATION_PROPERTIES "PartitionCreationProperties";
  fld HV_PARTITION_ISOLATION_PROPERTIES "IsolationProperties"]).
Definition HV_INPUT_INSTALL_INTERCEPT : cty := aligned HV_CALL_ALIGNMENT (struct 0 [
  fld HV_PARTITION_ID "PartitionId";
  fld HV_INTERCEPT_ACCESS_TYPE_MASK "AccessType";
  fld (enum_type HV_INTERCEPT_TYPE) "InterceptType";
  fld HV_INTERCEPT_PARAMETERS "InterceptParameter"]).
Definition HV_INPUT_GET_VP_REGISTERS : cty := aligned HV_CALL_ALIGNMENT (struct 0 [
  fld HV_PARTITION_ID "PartitionId";
  fld HV_VP_INDEX "VpIndex";
  fld HV_INPUT_VTL "InputVtl";
  fld UINT8 "RsvdZ8";
  fld UINT16 "RsvdZ16";
  fld (CArr (enum_type HV_REGISTER_NAME) 0) "Names"]).
Definition HV_REGISTER_ASSOC : cty := struct 0 [
  fld (enum_type HV_REGISTER_NAME) "Name";
  fld UINT32 "Reserved1";
  fld UINT64 "Reserved2";
  fld HV_REGISTER_VALUE "Value"].
Definition HV_INPUT_SET_VP_REGISTERS : cty := aligned 16 (struct 0 [
  fld HV_PARTITION_ID "PartitionId";
  fld HV_VP_INDEX "VpIndex";
  fld HV_INPUT_VTL "InputVtl";
  fld UINT8 "RsvdZ8";
  fld UINT16 "RsvdZ16";
  fld (CArr HV_REGISTER_ASSOC 0) "Elements"]).
Definition HV_INPUT_ASSERT_VIRTUAL_INTERRUPT_DEPRECATED : cty := aligned HV_CALL_ALIGNMENT (struct 0 [
  fld HV_PARTITION_ID "TargetPartition";
  fld HV_INTERRUPT_CONTROL "InterruptControl";
  fld UINT64 "DestinationAddress";
  fld HV_INTERRUPT_VECTOR "RequestedVector";
  fld UINT32 "Reserved"]).
Definition HV_OUTPUT_SAVE_PARTITION_STATE : cty := aligned HV_CALL_ALIGNMENT (struct 0 [
  fld UINT32 "SaveDataCount";
  fld (enum_type HV_SAVE_RESTORE_STATE_RESULT) "SaveState";
  fld (CArr UINT8 4080) "SaveData"]).
Definition HV_OUTPUT_RESTORE_PARTITION_STATE : cty := aligned HV_CALL_ALIGNMENT (struct 0 [
  fld (enum_type HV_SAVE_RESTORE_STATE_RESULT) "RestoreState";
  fld UINT32 "RestoreDataConsumed"]).
Definition HV_INPUT_SET_SYSTEM_PROPERTY : cty := aligned HV_CALL_ALIGNMENT (struct 0 [
  fld (enum_type HV_SYSTEM_PROPERTY) "PropertyId";
  fld UINT32 "Reserved";
  fld (union 0 [
    fld (struct 0 [
      fld UINT16 "EventType";
      fld UINT16 "ReservedZ1";
      fld UINT32 "ReservedZ2";
      fld UINT64 "Period"]) "PerfCounter";
    fld UINT8 "IommuLiveHandoff";
    fld HV_SLEEP_STATE_INFO "SetSleepStateInformation";
    fld HV_MACHINE_CHECK_PROPERTY_INFO "MachineCheckStateInformation";
    fld HV_HYPERVISOR_DEBUG_PROPERTY "Debug";
    fld HV_PPM_POWER_POLICY_SETTING "PowerPolicySetting";
    fld HV_HPET_CONFIG_INFO "HpetConfigInfo";
    fld HV_HPET_ENABLED_INFO "HpetEnabledInfo";
    fld HV_HOST_TIMELINE_INFO "HostTimeline";
    fld HV_SMC_DATA_PATH_PROPERTY "SmcDataPath";
    fld HV_SYSTEM_MIRRORING_PROPERTY "SystemMirroring";
    fld HV_RESOURCE_CONTROL_VALUE_PROPERTY "ResourceControl";
    fld UINT8 "GuestAssert";
    fld UINT32 "MaxSchedulingIntervalInUs";
    fld UINT32 "ProtoAbiVersion";
    fld HV_SPA_PAGE_RANGE "CrashdumpAreaAddress";
    fld UINT64 "DefaultIoCacheBitmap";
    fld UINT8 "HardwareIsolationEnabled"]) "Property"]).
Definition HV_INPUT_ADD_LOGICAL_PROCESSOR : cty := aligned HV_CALL_ALIGNMENT (struct 0 [
  fld HV_LOGICAL_PROCESSOR_INDEX "LpIndex";
  fld HV_PROCESSOR_HW_ID "ProcHwId";
  fld HV_PROXIMITY_DOMAIN_INFO "ProximityDomainInfo"]).
Definition HV_INPUT_SET_LOGICAL_PROCESSOR_PROPERTY : cty := aligned HV_CALL_ALIGNMENT (struct 0 [
  fld HV_LOGICAL_PROCESSOR_INDEX "LpIndex";
  fld (enum_type HV_LOGICAL_PROCESSOR_PROPERTY_TYPE) "Type";
  fld HV_LOGICAL_PROCESSOR_PROPERTY "Property"]).
Definition HV_INPUT_GET_LOGICAL_PROCESSOR_PROPERTY : cty := aligned HV_CALL_ALIGNMENT (struct 0 [
  fld HV_LOGICAL_PROCESSOR_INDEX "LpIndex";
  fld (enum_type HV_LOGICAL_PROCESSOR_PROPERTY_TYPE) "Type"]).
Definition HV_OUTPUT_GET_LOGICAL_PROCESSOR_PROPERTY : cty := aligned HV_CALL_ALIGNMENT (struct 0 [
  fld HV_LOGICAL_PROCESSOR_PROPERTY "Property"]).
Definition HV_INPUT_GET_SYSTEM_PROPERTY : cty := aligned HV_CALL_ALIGNMENT (struct 0 [
  fld (enum_type HV_SYSTEM_PROPERTY) "PropertyId";
  fld UINT32 "Reserved";
  fld (union 0 [
    fld UINT64 "AsUINT64";
    fld HV_LOGICAL_PROCESSOR_INDEX "LpIndex";
    fld (struct 0 [
      fld (enum_type HV_RESOURCE_CONTROL_TYPE) "Type";
      fld UINT32 "Id"]) "Resource"]) "Property"]).
Definition HV_OUTPUT_GET_SYSTEM_PROPERTY : cty := aligned HV_CALL_ALIGNMENT (union 0 [
  fld (struct 0 [
    fld UINT16 "EventType";
    fld UINT16 "ReservedZ1";
    fld UINT32 "ReservedZ2";
    fld UINT64 "Period"]) "PerfCounter";
  fld HV_IOMMU_INIT_STATUS "IommuInitStatus";
  fld HV_HYPERVISOR_LAUNCH_STATS "HvLaunchStats";
  fld (enum_type HV_SCHEDULER_TYPE) "SchedulerType";
  fld HV_PLATFORM_VIRTUALIZATION_SUPPORT_INFO "VirtualizationInfo";
  fld HV_PPM_POWER_POLICY_SETTING "PowerPolicySetting";
  fld HV_TSC_SYNC_STATUS "TscSyncStatus";
  fld HV_HPET_CONFIG_INFO "HpetConfigInfo";
  fld HV_HPET_INTERRUPT_INFO "HpetInterruptInfo";
  fld HV_HPET_ENABLED_INFO "HpetEnabledInfo";
  fld HV_ROOT_SVM_CAPABILITIES_PROPERTY "RootSvmCapabilities";
  fld HV_ROOT_NUMA_COST_PAGES_PROPERTY "RootNumaCostPages";
  fld UINT64 "HvHostPageTableRoot";
  fld HV_SPA_PAGE_RANGE "HvHostDbgTransferPagesRange";
  fld HV_SMC_DATA_PATH_PROPERTY "SmcDataPath";
  fld UINT8 "DmaInitializeBlocked";
  fld HV_RESOURCE_CONTROL_MONITOR_DATA "ResourceMonitorData";
  fld HV_RESOURCE_CONTROL_SUPPORT_PROPERTY "ResourceControlSupport";
  fld HV_RESOURCE_CONTROL_VALUES_PROPERTY "ResourceControlValues";
  fld UINT32 "GuestStateScrubbingStatus";
  fld HV_SYSTEM_DIAG_LOG_BUFFER_CONFIG "SystemDiagnosticsLog";
  fld UINT8 "IommuLiveHandoff";
  fld UINT32 "IommuDomainIdSelector";
  fld UINT8 "GuestAssert";
  fld UINT32 "LogicalProcessorCount";
  fld HV_SCHEDULING_INTERVAL_INFO "SchedulingInterval";
  fld (CArr HV_SUBNODE 16) "SubnodeInfo";
  fld HV_VIRTUALIZATION_FEATURE_SET "VirtualizationFeatures";
  fld HV_BOOT_CONFIG_PROPERTY "BootConfig";
  fld UINT32 "RebootCount";
  fld UINT32 "ProtoAbiVersion";
  fld HV_SYSTEM_MIRRORING_PROPERTY "SystemMirroring";
  fld UINT64 "MicrocodeLatencyTime";
  fld HV_SPA_PAGE_RANGE "CrashdumpAreaAddress"]).
Definition HV_INPUT_MAP_DEVICE_INTERRUPT : cty := aligned HV_CALL_ALIGNMENT (struct 0 [
  fld HV_PARTITION_ID "PartitionId";
  fld HV_DEVICE_ID "DeviceId";
  fld UINT32 "Flags";
  fld UINT32 "BaseIrtIndex";
  fld HV_INTERRUPT_ENTRY "LogicalInterruptEntry";
  fld HV_DEVICE_INTERRUPT_DESCRIPTOR "InterruptDescriptor"]).
Definition HV_OUTPUT_MAP_DEVICE_INTERRUPT : cty := aligned HV_CALL_ALIGNMENT (struct 0 [
  fld HV_INTERRUPT_ENTRY "InterruptEntry";
  fld HV_IOMMU_EXTENDED_STATUS "ExtendedStatus"]).
Definition HV_INPUT_UNMAP_DEVICE_INTERRUPT : cty := aligned HV_CALL_ALIGNMENT (struct 0 [
  fld HV_PARTITION_ID "PartitionId";
  fld HV_DEVICE_ID "DeviceId";
  fld HV_INTERRUPT_ENTRY "InterruptEntry";
  fld UINT32 "Flags"]).
Definition HV_INPUT_RETARGET_DEVICE_INTERRUPT : cty := aligned HV_CALL_ALIGNMENT (struct 0 [
  fld HV_PARTITION_ID "PartitionId";
  fld HV_DEVICE_ID "DeviceId";
  fld HV_INTERRUPT_ENTRY "InterruptEntry";
  fld UINT64 "Reserved";
  fld HV_DEVICE_INTERRUPT_TARGET "InterruptTarget"]).
Definition HV_OUTPUT_RETARGET_ROOT_DEVICE_INTERRUPT : cty := aligned HV_CALL_ALIGNMENT (struct 0 [
  fld HV_INTERRUPT_ENTRY "InterruptEntry"]).
Definition HV_INPUT_ASSERT_DEVICE_INTERRUPT : cty := aligned HV_CALL_ALIGNMENT (struct 0 [
  fld HV_PARTITION_ID "PartitionId";
  fld HV_LOGICAL_DEVICE_ID "LogicalDeviceId";
  fld HV_INTERRUPT_ENTRY "InterruptEntry"]).
Definition HV_INPUT_ATTACH_DEVICE : cty := aligned HV_CALL_ALIGNMENT (struct 0 [
  fld HV_PARTITION_ID "PartitionId";
  fld HV_DEVICE_ID "DeviceId";
  fld HV_ATTACH_DEVICE_FLAGS "Flags";
  fld HV_VTL "Vtl";
  fld UINT8 "Reserved0";
  fld UINT16 "Reserved1";
  fld HV_LOGICAL_DEVICE_ID "LogicalDeviceId";
  fld HV_DEVICE_PCI_CAPABILITIES "PciCapabilities";
  fld UINT32 "Reserved2"]).
Definition HV_INPUT_DETACH_DEVICE : cty := aligned HV_CALL_ALIGNMENT (struct 0 [
  fld HV_PARTITION_ID "PartitionId";
  fld HV_DEVICE_ID "DeviceId"]).
Definition HV_INPUT_PREPARE_FOR_HIBERNATE : cty := aligned HV_CALL_ALIGNMENT (struct 0 [
  fld HV_ARM64_PROC_STATE_GP_REGS "ResumeGpRegs";
  fld HV_VTL "RestrictApVtl"]).
Definition HV_INPUT_INJECT_SYNTHETIC_MACHINE_CHECK : cty := aligned HV_CALL_ALIGNMENT (struct 0 [
  fld HV_PARTITION_ID "PartitionId";
  fld HV_VP_INDEX "VpIndex";
  fld HV_SYNMC_EVENT "SynmcEvent"]).
Definition HV_INPUT_ASSERT_VIRTUAL_INTERRUPT : cty := aligned HV_CALL_ALIGNMENT (struct 0 [
  fld HV_PARTITION_ID "TargetPartition";
  fld HV_INTERRUPT_CONTROL "InterruptControl";
  fld UINT64 "DestinationAddress";
  fld HV_INTERRUPT_VECTOR "RequestedVector";
  fld HV_VTL "TargetVtl";
  fld UINT8 "ReservedZ0";
  fld UINT16 "ReservedZ1"]).
Definition HV_INPUT_GET_VP_INDEX_FROM_APIC_ID : cty := aligned HV_CALL_ALIGNMENT (struct 0 [
  fld HV_PARTITION_ID "PartitionId";
  fld HV_VTL "TargetVtl";
  fld UINT8 "ReservedZ0";
  fld UINT16 "ReservedZ1";
  fld UINT32 "ReservedZ2";
  fld (CArr HV_PROCESSOR_HW_ID 0) "ProcHwIds"]).
Definition HV_INPUT_GET_POWER_PROPERTY : cty := aligned HV_CALL_ALIGNMENT (struct 0 [
  fld (enum_type HV_POWER_PROPERTY_TYPE) "Type";
  fld (union 0 [
    fld (union 0 [
      fld (enum_type HV_PPM_POWER_POLICY_SETTING_ID) "PolicySettingId"]) "Global";
    fld (struct 0 [
      fld HV_LOGICAL_PROCESSOR_INDEX "LpIndex"]) "Processor"]) anonymous]).
Definition HV_OUTPUT_GET_POWER_PROPERTY : cty := aligned HV_CALL_ALIGNMENT (union 0 [
  fld HV_X64_PPM_IDLE_STATE_CONFIG_PROPERTY "IdleStateConfig";
  fld UINT32 "PercentFrequency";
  fld UINT32 "NextPlatformStateIndex";
  fld HV_PROCESSOR_PERF_FEEDBACK_COUNTERS_CONFIG "FeedbackCounterConfig";
  fld (struct 0 [
    fld UINT32 "Value"]) "Policy";
  fld HV_POWER_STATS_OFFSETS "StatsOffsets";
  fld HV_X64_PPM_IDLE_STATE_CONFIG_PROPERTY_EX "IdleStateConfigEx"]).
Definition HV_INPUT_SET_POWER_PROPERTY : cty := aligned HV_CALL_ALIGNMENT (struct 0 [
  fld (enum_type HV_POWER_PROPERTY_TYPE) "Type";
  fld (union 0 [
    fld (struct 0 [
      fld HV_LOGICAL_PROCESSOR_INDEX "LpIndex";
      fld (union 0 [
        fld HV_X64_PPM_IDLE_STATE_CONFIG_PROPERTY "IdleStateConfig";
        fld HV_X64_PPM_IDLE_STATE_CONFIG_PROPERTY_EX "IdleStateConfigEx";
        fld UINT32 "PercentFrequency";
        fld (enum_type HV_PLATFORM_STATE_INDEX) "NextPlatformStateIndex";
        fld HV_PROCESSOR_PERF_FEEDBACK_COUNTERS_CONFIG "FeedbackCounterConfig";
        fld UINT32 "CppcRequestValue";
        fld HV_PROCESSOR_CPPC_REQUEST_REGISTER "CppcRequestRegister"]) anonymous]) "Processor";
    fld (union 0 [
      fld HV_PPM_POWER_POLICY_SETTING "Policy"]) "Global"]) anonymous]).
Definition HV_INPUT_GET_PHYSICAL_DEVICE_PROPERTY : cty := aligned HV_CALL_ALIGNMENT (struct 0 [
  fld HV_DEVICE_ID "PhysicalDeviceId";
  fld HV_PHYSICAL_DEVICE_FLAGS "Flags";
  fld (enum_type HV_PHYSICAL_DEVICE_PROPERTY) "Property";
  fld UINT32 "Reserved"]).
Definition HV_INPUT_SET_PHYSICAL_DEVICE_PROPERTY_HEADER : cty := aligned HV_CALL_ALIGNMENT (struct 0 [
  fld HV_DEVICE_ID "PhysicalDeviceId";
  fld (enum_type HV_PHYSICAL_DEVICE_PROPERTY) "Property";
  fld UINT32 "Reserved"]).
Definition HV_OUTPUT_TRANSLATE_VIRTUAL_ADDRESS_EX : cty := aligned HV_CALL_ALIGNMENT (struct 0 [
  fld HV_TRANSLATE_GVA_RESULT_EX "TranslationResult";
  fld HV_GPA_PAGE_NUMBER "GpaPage"]).
Definition HV_INPUT_ATTACH_DEVICE_DOMAIN : cty := aligned HV_CALL_ALIGNMENT (struct 0 [
  fld HV_INPUT_DEVICE_DOMAIN "DeviceDomain";
  fld HV_DEVICE_ID "DeviceId"]).
Definition HV_INPUT_DETACH_DEVICE_DOMAIN : cty := aligned HV_CALL_ALIGNMENT (struct 0 [
  fld HV_PARTITION_ID "PartitionId";
  fld HV_DEVICE_ID "DeviceId"]).
Definition HV_INPUT_QUERY_DEVICE_INTERRUPT_TARGET : cty := aligned HV_CALL_ALIGNMENT (struct 0 [
  fld HV_PARTITION_ID "PartitionId";
  fld HV_LOGICAL_DEVICE_ID "LogicalDeviceId";
  fld HV_INTERRUPT_ENTRY "InterruptEntry"]).
Definition HV_OUTPUT_QUERY_DEVICE_INTERRUPT_TARGET : cty := aligned HV_CALL_ALIGNMENT (struct 0 [
  fld UINT32 "InterruptTargetSize";
  fld (union 0 [
    fld HV_DEVICE_INTERRUPT_TARGET "InterruptTarget";
    fld (struct 0 [
      fld HV_DEVICE_INTERRUPT_TARGET_HEADER "InterruptTargetHeader";
      fld (union 0 [
        fld HV_GENERIC_SET "InterruptTargetProcessorSet";
        fld HV_GENERIC_SET_HEADER "InterruptTargetProcessorSetHeader"]) anonymous]) anonymous]) anonymous;
  fld (CArr UINT64 4) "InterruptTargetProcessorSetBankContents";
  fld HV_INTERRUPT_ENTRY "InterruptEntry"]).
Definition HV_INPUT_GET_VP_STATE : cty := aligned HV_CALL_ALIGNMENT (struct 0 [
  fld HV_PARTITION_ID "PartitionId";
  fld HV_VP_INDEX "VpIndex";
  fld HV_VTL "InputVtl";
  fld UINT8 "Reserved0";
  fld UINT16 "Reserved1";
  fld HV_VP_STATE_DATA "StateData";
  fld (CArr UINT64 0) "OutputDataPfns"]).
Definition HV_OUTPUT_GET_VP_STATE : cty := aligned HV_CALL_ALIGNMENT (union 0 [
  fld UINT64 "Reserved0"]).
Definition HV_INPUT_SET_VP_STATE : cty := aligned HV_CALL_ALIGNMENT (struct 0 [
  fld HV_PARTITION_ID "PartitionId";
  fld HV_VP_INDEX "VpIndex";
  fld HV_VTL "InputVtl";
  fld UINT8 "Reserved0";
  fld UINT16 "Reserved1";
  fld HV_VP_STATE_DATA "StateData";
  fld (CArr HV_INPUT_SET_VP_STATE_DATA 0) "Data"]).
Definition HV_INPUT_RESERVE_DEVICE_INTERRUPT : cty := aligned HV_CALL_ALIGNMENT (struct 0 [
  fld HV_PARTITION_ID "PartitionId";
  fld HV_LOGICAL_DEVICE_ID "LogicalDeviceId";
  fld UINT32 "VectorCount";
  fld UINT64 "Flags";
  fld HV_INTERRUPT_ENTRY "LogicalInterruptEntry";
  fld UINT32 "BaseIrtIndex"]).
Definition HV_INPUT_PERSIST_DEVICE : cty := aligned HV_CALL_ALIGNMENT (struct 0 [
  fld HV_PARTITION_ID "PartitionId";
  fld HV_DEVICE_ID "DeviceId";
  fld HV_ATTACH_DEVICE_FLAGS "Flags";
  fld HV_LOGICAL_DEVICE_ID "LogicalDeviceId";
  fld HV_DEVICE_PCI_CAPABILITIES "PciCapabilities";
  fld UINT16 "PhysicalFunctionRid"]).
Definition HV_INPUT_PERSIST_DEVICE_INTERRUPT : cty := aligned HV_CALL_ALIGNMENT (struct 0 [
  fld HV_PARTITION_ID "PartitionId";
  fld HV_LOGICAL_DEVICE_ID "LogicalDeviceId";
  fld HV_INTERRUPT_ENTRY "InterruptEntry";
  fld UINT32 "VectorCount";
  fld UINT64 "Flags"]).
Definition HV_INPUT_INSTALL_INTERCEPT_EX : cty := aligned HV_CALL_ALIGNMENT (struct 0 [
  fld HV_PARTITION_ID "PartitionId";
  fld HV_INPUT_VTL "InterceptingInputVtl";
  fld (enum_type HV_INTERCEPT_TYPE) "InterceptType";
  fld (CArr UINT64 4) "Reserved";
  fld (CArr HV_INTERCEPT_PARAMETERS_EX 0) "InterceptParameters"]).

(** ** The records and enumerations of the file *)

Definition Arm64_types : list (string * cty) := [
  ("HV_INITIAL_VP_CONTEXT", HV_INITIAL_VP_CONTEXT);
  ("HV_ARM64_HYPERVISOR_FEATURES", HV_ARM64_HYPERVISOR_FEATURES);
  ("HV_ARM64_ENLIGHTENMENT_INFORMATION", HV_ARM64_ENLIGHTENMENT_INFORMATION);
  ("HV_ARM64_HYPERVISOR_HARDWARE_FEATURES", HV_ARM64_HYPERVISOR_HARDWARE_FEATURES);
  ("HV_ARM64_HYPERVISOR_CPU_MANAGEMENT_FEATURES", HV_ARM64_HYPERVISOR_CPU_MANAGEMENT_FEATURES);
  ("HV_CPUID_RESULT", HV_CPUID_RESULT);
  ("HV_SYNIC_SINT", HV_SYNIC_SINT);
  ("HV_MESSAGE_HEADER", HV_MESSAGE_HEADER);
  ("HV_IOMMU_FAULT_MESSAGE_PAYLOAD", HV_IOMMU_FAULT_MESSAGE_PAYLOAD);
  ("HV_MESSAGE", HV_MESSAGE);
  ("HV_MESSAGE_PAGE", HV_MESSAGE_PAGE);
  ("HV_INPUT_POST_MESSAGE", HV_INPUT_POST_MESSAGE);
  ("HV_INPUT_START_VIRTUAL_PROCESSOR", HV_INPUT_START_VIRTUAL_PROCESSOR);
  ("HV_ARM64_CONTEXT", HV_ARM64_CONTEXT);
  ("HV_VP_CONTEXT", HV_VP_CONTEXT);
  ("HV_STATS_PAGE", HV_STATS_PAGE);
  ("HV_PROCESSOR_INFO", HV_PROCESSOR_INFO);
  ("HV_PARTITION_PROCESSOR_FEATURES", HV_PARTITION_PROCESSOR_FEATURES);
  ("HV_PARTITION_PROCESSOR_XSAVE_FEATURES", HV_PARTITION_PROCESSOR_XSAVE_FEATURES);
  ("HV_INTERCEPT_SUSPEND_REGISTER", HV_INTERCEPT_SUSPEND_REGISTER);
  ("HV_ARM64_PENDING_EXCEPTION_EVENT", HV_ARM64_PENDING_EXCEPTION_EVENT);
  ("HV_ARM64_PENDING_INTERRUPTION_REGISTER", HV_ARM64_PENDING_INTERRUPTION_REGISTER);
  ("HV_ARM64_INTERRUPT_STATE_REGISTER", HV_ARM64_INTERRUPT_STATE_REGISTER);
  ("HV_ARM64_PENDING_SYNTHETIC_EXCEPTION_EVENT", HV_ARM64_PENDING_SYNTHETIC_EXCEPTION_EVENT);
  ("HV_REGISTER_VALUE_PRIVATE", HV_REGISTER_VALUE_PRIVATE);
  ("HV_INTERCEPT_PARAMETERS", HV_INTERCEPT_PARAMETERS);
  ("HV_INTERCEPT_PARAMETERS_EX", HV_INTERCEPT_PARAMETERS_EX);
  ("HV_INTERCEPT_DESCRIPTOR", HV_INTERCEPT_DESCRIPTOR);
  ("HV_INTERRUPT_CONTROL", HV_INTERRUPT_CONTROL);
  ("HV_ARM64_VP_EXECUTION_STATE", HV_ARM64_VP_EXECUTION_STATE);
  ("HV_ARM64_INTERCEPT_MESSAGE_HEADER", HV_ARM64_INTERCEPT_MESSAGE_HEADER);
  ("HV_ARM64_MEMORY_ACCESS_INFO", HV_ARM64_MEMORY_ACCESS_INFO);
  ("HV_ARM64_MEMORY_INTERCEPT_MESSAGE", HV_ARM64_MEMORY_INTERCEPT_MESSAGE);
  ("HV_ARM64_MSR_INTERCEPT_MESSAGE", HV_ARM64_MSR_INTERCEPT_MESSAGE);
  ("HV_ARM64_EXCEPTION_INFO", HV_ARM64_EXCEPTION_INFO);
  ("HV_ARM64_EXCEPTION_INTERCEPT_MESSAGE", HV_ARM64_EXCEPTION_INTERCEPT_MESSAGE);
  ("HV_ARM64_UNRECOVERABLE_EXCEPTION_MESSAGE", HV_ARM64_UNRECOVERABLE_EXCEPTION_MESSAGE);
  ("HV_ARM64_HYPERCALL_INTERCEPT_MESSAGE", HV_ARM64_HYPERCALL_INTERCEPT_MESSAGE);
  ("HV_ARM64_REGISTER_ACCESS_INFO", HV_ARM64_REGISTER_ACCESS_INFO);
  ("HV_ARM64_REGISTER_INTERCEPT_MESSAGE", HV_ARM64_REGISTER_INTERCEPT_MESSAGE);
  ("HV_ARM64_INVALID_VP_REGISTER_MESSAGE", HV_ARM64_INVALID_VP_REGISTER_MESSAGE);
  ("HV_ARM64_UNSUPPORTED_FEATURE_MESSAGE", HV_ARM64_UNSUPPORTED_FEATURE_MESSAGE);
  ("HV_ARM64_RESET_INTERCEPT_MESSAGE", HV_ARM64_RESET_INTERCEPT_MESSAGE);
  ("HV_ARM64_MMIO_INTERCEPT_MESSAGE", HV_ARM64_MMIO_INTERCEPT_MESSAGE);
  ("HV_SYNIC_SINT_DELIVERABLE_MESSAGE", HV_SYNIC_SINT_DELIVERABLE_MESSAGE);
  ("HV_ARM64_PENDING_HYPERCALL_OUTPUT_EVENT", HV_ARM64_PENDING_HYPERCALL_OUTPUT_EVENT);
  ("HV_ARM64_PENDING_EVENT", HV_ARM64_PENDING_EVENT);
  ("HV_TRANSLATE_GVA_RESULT_EX", HV_TRANSLATE_GVA_RESULT_EX);
  ("HV_MSI_ENTRY", HV_MSI_ENTRY);
  ("HV_INTERRUPT_ENTRY", HV_INTERRUPT_ENTRY);
  ("HV_VP_REGISTER_PAGE", HV_VP_REGISTER_PAGE);
  ("HV_PARTITION_CREATION_PROPERTIES_V2", HV_PARTITION_CREATION_PROPERTIES_V2);
  ("HV_PARTITION_CREATION_PROPERTIES", HV_PARTITION_CREATION_PROPERTIES);
  ("HV_VP_STATE_DATA", HV_VP_STATE_DATA);
  ("HV_VP_SIGNAL_PAIR_SCHEDULER_MESSAGE", HV_VP_SIGNAL_PAIR_SCHEDULER_MESSAGE);
  ("HV_PPM_POWER_POLICY_SETTING", HV_PPM_POWER_POLICY_SETTING);
  ("HV_DEVICE_ID", HV_DEVICE_ID);
  ("HV_HPET_CONFIG_INFO", HV_HPET_CONFIG_INFO);
  ("HV_HPET_INTERRUPT_INFO", HV_HPET_INTERRUPT_INFO);
  ("HV_PPM_PERF_STATE_REGISTER", HV_PPM_PERF_STATE_REGISTER);
  ("HV_X64_PPM_PERF_STATE_CONFIG_PROPERTY", HV_X64_PPM_PERF_STATE_CONFIG_PROPERTY);
  ("HV_X64_PPM_THROTTLE_STATE_CONFIG_PROPERTY", HV_X64_PPM_THROTTLE_STATE_CONFIG_PROPERTY);
  ("HV_X64_PPM_PCC_CONFIG_PROPERTY", HV_X64_PPM_PCC_CONFIG_PROPERTY);
  ("HV_LOGICAL_PROCESSOR_PROPERTY", HV_LOGICAL_PROCESSOR_PROPERTY);
  ("HV_DEVICE_INTERRUPT_DESCRIPTOR_HEADER", HV_DEVICE_INTERRUPT_DESCRIPTOR_HEADER);
  ("HV_DEVICE_INTERRUPT_DESCRIPTOR", HV_DEVICE_INTERRUPT_DESCRIPTOR);
  ("HV_ATTACH_DEVICE_FLAGS", HV_ATTACH_DEVICE_FLAGS);
  ("HV_ARM64_PROC_STATE_GP_REGS", HV_ARM64_PROC_STATE_GP_REGS);
  ("HV_PPM_FEEDBACK_REGISTER_PAIR", HV_PPM_FEEDBACK_REGISTER_PAIR);
  ("HV_PROCESSOR_PERF_FEEDBACK_COUNTERS_CONFIG", HV_PROCESSOR_PERF_FEEDBACK_COUNTERS_CONFIG);
  ("HV_ARM64_REGISTER_VSM_CAPABILITIES", HV_ARM64_REGISTER_VSM_CAPABILITIES);
  ("HV_ARM64_LOGICAL_PROCESSOR_REGISTER_ADDRESS", HV_ARM64_LOGICAL_PROCESSOR_REGISTER_ADDRESS);
  ("HV_LOGICAL_PROCESSOR_REGISTER_ID", HV_LOGICAL_PROCESSOR_REGISTER_ID);
  ("HV_DEVICE_PAGE_REQUEST", HV_DEVICE_PAGE_REQUEST);
  ("HV_SYNMC_ARM64_EVENT", HV_SYNMC_ARM64_EVENT);
  ("HV_ARM64_DELIVERABILITY_NOTIFICATIONS_REGISTER", HV_ARM64_DELIVERABILITY_NOTIFICATIONS_REGISTER);
  ("HV_ARM64_HYPERVISOR_FEATURES_PRIVATE", HV_ARM64_HYPERVISOR_FEATURES_PRIVATE);
  ("HV_ARM64_ENLIGHTENMENT_INFORMATION_PRIVATE", HV_ARM64_ENLIGHTENMENT_INFORMATION_PRIVATE);
  ("HV_ARM64_HYPERVISOR_HARDWARE_FEATURES_PRIVATE", HV_ARM64_HYPERVISOR_HARDWARE_FEATURES_PRIVATE);
  ("HV_ARM64_HYPERVISOR_CPU_MANAGEMENT_FEATURES_PRIVATE", HV_ARM64_HYPERVISOR_CPU_MANAGEMENT_FEATURES_PRIVATE);
  ("HV_CPUID_RESULT_PRIVATE", HV_CPUID_RESULT_PRIVATE);
  ("HV_LOGICAL_PROCESSOR_REGISTER_VALUE", HV_LOGICAL_PROCESSOR_REGISTER_VALUE);
  ("HV_LOGICAL_PROCESSOR_REGISTER_ASSOC", HV_LOGICAL_PROCESSOR_REGISTER_ASSOC);
  ("HV_ARM64_MSR_RESET_CONTENTS", HV_ARM64_MSR_RESET_CONTENTS);
  ("HV_VP_VTL_CONTROL", HV_VP_VTL_CONTROL);
  ("HV_MINIMAL_INTERCEPT_INFORMATION", HV_MINIMAL_INTERCEPT_INFORMATION);
  ("HV_VP_ASSIST_PAGE", HV_VP_ASSIST_PAGE);
  ("HV_INPUT_ENABLE_VP_VTL", HV_INPUT_ENABLE_VP_VTL);
  ("HV_INPUT_SET_PERF_REGISTER", HV_INPUT_SET_PERF_REGISTER);
  ("HV_INPUT_GET_PERF_REGISTER", HV_INPUT_GET_PERF_REGISTER);
  ("HV_INPUT_CREATE_PARTITION_V2", HV_INPUT_CREATE_PARTITION_V2);
  ("HV_INPUT_CREATE_PARTITION", HV_INPUT_CREATE_PARTITION);
  ("HV_INPUT_INSTALL_INTERCEPT", HV_INPUT_INSTALL_INTERCEPT);
  ("HV_INPUT_GET_VP_REGISTERS", HV_INPUT_GET_VP_REGISTERS);
  ("HV_REGISTER_ASSOC", HV_REGISTER_ASSOC);
  ("HV_INPUT_SET_VP_REGISTERS", HV_INPUT_SET_VP_REGISTERS);
  ("HV_INPUT_ASSERT_VIRTUAL_INTERRUPT_DEPRECATED", HV_INPUT_ASSERT_VIRTUAL_INTERRUPT_DEPRECATED);
  ("HV_OUTPUT_SAVE_PARTITION_STATE", HV_OUTPUT_SAVE_PARTITION_STATE);
  ("HV_OUTPUT_RESTORE_PARTITION_STATE", HV_OUTPUT_RESTORE_PARTITION_STATE);
  ("HV_INPUT_SET_SYSTEM_PROPERTY", HV_INPUT_SET_SYSTEM_PROPERTY);
  ("HV_INPUT_ADD_LOGICAL_PROCESSOR", HV_INPUT_ADD_LOGICAL_PROCESSOR);
  ("HV_INPUT_SET_LOGICAL_PROCESSOR_PROPERTY", HV_INPUT_SET_LOGICAL_PROCESSOR_PROPERTY);
  ("HV_INPUT_GET_LOGICAL_PROCESSOR_PROPERTY", HV_INPUT_GET_LOGICAL_PROCESSOR_PROPERTY);
  ("HV_OUTPUT_GET_LOGICAL_PROCESSOR_PROPERTY", HV_OUTPUT_GET_LOGICAL_PROCESSOR_PROPERTY);
  ("HV_INPUT_GET_SYSTEM_PROPERTY", HV_INPUT_GET_SYSTEM_PROPERTY);
  ("HV_OUTPUT_GET_SYSTEM_PROPERTY", HV_OUTPUT_GET_SYSTEM_PROPERTY);
  ("HV_INPUT_MAP_DEVICE_INTERRUPT", HV_INPUT_MAP_DEVICE_INTERRUPT);
  ("HV_OUTPUT_MAP_DEVICE_INTERRUPT", HV_OUTPUT_MAP_DEVICE_INTERRUPT);
  ("HV_INPUT_UNMAP_DEVICE_INTERRUPT", HV_INPUT_UNMAP_DEVICE_INTERRUPT);
  ("HV_INPUT_RETARGET_DEVICE_INTERRUPT", HV_INPUT_RETARGET_DEVICE_INTERRUPT);
  ("HV_OUTPUT_RETARGET_ROOT_DEVICE_INTERRUPT", HV_OUTPUT_RETARGET_ROOT_DEVICE_INTERRUPT);
  ("HV_INPUT_ASSERT_DEVICE_INTERRUPT", HV_INPUT_ASSERT_DEVICE_INTERRUPT);
  ("HV_INPUT_ATTACH_DEVICE", HV_INPUT_ATTACH_DEVICE);
  ("HV_INPUT_DETACH_DEVICE", HV_INPUT_DETACH_DEVICE);
  ("HV_INPUT_PREPARE_FOR_HIBERNATE", HV_INPUT_PREPARE_FOR_HIBERNATE);
  ("HV_INPUT_INJECT_SYNTHETIC_MACHINE_CHECK", HV_INPUT_INJECT_SYNTHETIC_MACHINE_CHECK);
  ("HV_INPUT_ASSERT_VIRTUAL_INTERRUPT", HV_INPUT_ASSERT_VIRTUAL_INTERRUPT);
  ("HV_INPUT_GET_VP_INDEX_FROM_APIC_ID", HV_INPUT_GET_VP_INDEX_FROM_APIC_ID);
  ("HV_INPUT_GET_POWER_PROPERTY", HV_INPUT_GET_POWER_PROPERTY);
  ("HV_OUTPUT_GET_POWER_PROPERTY", HV_OUTPUT_GET_POWER_PROPERTY);
  ("HV_INPUT_SET_POWER_PROPERTY", HV_INPUT_SET_POWER_PROPERTY);
  ("HV_INPUT_GET_PHYSICAL_DEVICE_PROPERTY", HV_INPUT_GET_PHYSICAL_DEVICE_PROPERTY);
  ("HV_INPUT_SET_PHYSICAL_DEVICE_PROPERTY_HEADER", HV_INPUT_SET_PHYSICAL_DEVICE_PROPERTY_HEADER);
  ("HV_OUTPUT_TRANSLATE_VIRTUAL_ADDRESS_EX", HV_OUTPUT_TRANSLATE_VIRTUAL_ADDRESS_EX);
  ("HV_INPUT_ATTACH_DEVICE_DOMAIN", HV_INPUT_ATTACH_DEVICE_DOMAIN);
  ("HV_INPUT_DETACH_DEVICE_DOMAIN", HV_INPUT_DETACH_DEVICE_DOMAIN);
  ("HV_INPUT_QUERY_DEVICE_INTERRUPT_TARGET", HV_INPUT_QUERY_DEVICE_INTERRUPT_TARGET);
  ("HV_OUTPUT_QUERY_DEVICE_INTERRUPT_TARGET", HV_OUTPUT_QUERY_DEVICE_INTERRUPT_TARGET);
  ("HV_INPUT_GET_VP_STATE", HV_INPUT_GET_VP_STATE);
  ("HV_OUTPUT_GET_VP_STATE", HV_OUTPUT_GET_VP_STATE);
  ("HV_INPUT_SET_VP_STATE", HV_INPUT_SET_VP_STATE);
  ("HV_INPUT_RESERVE_DEVICE_INTERRUPT", HV_INPUT_RESERVE_DEVICE_INTERRUPT);
  ("HV_INPUT_PERSIST_DEVICE", HV_INPUT_PERSIST_DEVICE);
  ("HV_INPUT_PERSIST_DEVICE_INTERRUPT", HV_INPUT_PERSIST_DEVICE_INTERRUPT);
  ("HV_INPUT_INSTALL_INTERCEPT_EX", HV_INPUT_INSTALL_INTERCEPT_EX)].
Definition Arm64_enums : list (string * enum) := [
  ("HV_MESSAGE_TYPE", HV_MESSAGE_TYPE);
  ("HV_IOMMU_FAULT_TYPE", HV_IOMMU_FAULT_TYPE);
  ("HV_REGISTER_NAME", HV_REGISTER_NAME);
  ("HV_THREAD_COUNTER", HV_THREAD_COUNTER);
  ("HV_INTERRUPT_TYPE", HV_INTERRUPT_TYPE);
  ("HV_SAVE_RESTORE_STATE_RESULT", HV_SAVE_RESTORE_STATE_RESULT);
  ("HV_ARM64_PENDING_INTERRUPTION_TYPE", HV_ARM64_PENDING_INTERRUPTION_TYPE);
  ("HV_INTERCEPT_TYPE", HV_INTERCEPT_TYPE);
  ("HV_MESSAGE_TYPE_PRIVATE", HV_MESSAGE_TYPE_PRIVATE);
  ("HV_ARM64_SYNTHETIC_EXCEPTION_TYPE", HV_ARM64_SYNTHETIC_EXCEPTION_TYPE);
  ("HV_ARM64_UNSUPPORTED_FEATURE_CODE", HV_ARM64_UNSUPPORTED_FEATURE_CODE);
  ("HV_ARM64_RESET_TYPE", HV_ARM64_RESET_TYPE);
  ("HV_REGISTER_NAME_PRIVATE", HV_REGISTER_NAME_PRIVATE);
  ("HV_ARM64_PENDING_EVENT_TYPE", HV_ARM64_PENDING_EVENT_TYPE);
  ("HV_LOGICAL_PROCESSOR_PROPERTY_TYPE", HV_LOGICAL_PROCESSOR_PROPERTY_TYPE);
  ("HV_LOGICAL_PROCESSOR_REGISTER_TYPE", HV_LOGICAL_PROCESSOR_REGISTER_TYPE);
  ("HV_PPM_POWER_POLICY_SETTING_ID", HV_PPM_POWER_POLICY_SETTING_ID);
  ("HV_PARTITION_PROCESSOR_FEATURES_FIELD_INDEX", HV_PARTITION_PROCESSOR_FEATURES_FIELD_INDEX);
  ("HV_SMC_DATA_PATH_LOCK_STATE", HV_SMC_DATA_PATH_LOCK_STATE);
  ("HV_ARM64_SYNTHETIC_MSR", HV_ARM64_SYNTHETIC_MSR)].
(** The static assertions of the file. *)
Definition Arm64_asserts (b : abi) : list bool := [
  static_assert_HV_VP_SIGNAL_BITSET_SCHEDULER_MESSAGE b;
  static_assert_HV_VP_SIGNAL_PAIR_SCHEDULER_MESSAGE b].
