(* ===== verification/HeaderFacts.v ===== *)
(** * The tables of the header declarations

    All records, enumerations and GUIDs of the four headers, for x64 and for ARM64, and
    the decision procedures the properties of [HeaderProps] evaluate on them.  [Arm64]
    is imported first, so that a bare name is the one of x64. *)

From S2P Require Import Arm64 Prelude CLayout CLayoutSpec GuestInterface GuestProtocols TlfsBase TlfsState TlfsPartition TlfsSymbols TlfsCpuid TlfsCalls VMBusDevices.

Definition x64_types : list (string * cty) :=
  GuestInterface_types ++ GuestProtocols_types ++ TlfsBase_types ++ TlfsState_types ++ TlfsPartition_types ++
  TlfsSymbols_types ++ TlfsCpuid_types ++ TlfsCalls_types ++ VMBusDevices_types.

Definition header_types : list (string * cty) := x64_types ++ Arm64_types.

(** The records that exist for both architectures and mention something that differs:
    name, declaration for x64, declaration for ARM64. *)
Definition both_architectures : list (string * cty * cty) :=
  omap (fun p => (fun q => (p.1, q.2, p.2)) <$> List.find (fun q => String.eqb p.1 q.1) x64_types) Arm64_types.

Definition header_enums : list (string * enum) :=
  GuestInterface_enums ++ GuestProtocols_enums ++ TlfsBase_enums ++ TlfsState_enums ++ TlfsPartition_enums ++
  TlfsSymbols_enums ++ TlfsCpuid_enums ++ TlfsCalls_enums ++ VMBusDevices_enums ++ Arm64_enums.

Definition header_guids : list (string * guid) := GuestProtocols_guids ++ VMBusDevices_guids.

(** A declared record. *)
Definition declared (n : string) (t : cty) : Prop := (n, t) ∈ header_types.

Lemma declared_check (P : cty -> bool) n t :
  forallb (fun p => P p.2) header_types = true -> declared n t -> P t = true.
Proof.
  intros H Hd. rewrite forallb_forall in H. apply (H (n, t)). by apply list_elem_of_In.
Qed.

Lemma header_types_wf : forallb (fun p => wf p.2) header_types = true.
Proof. vm_compute. reflexivity. Qed.

Lemma declared_wf n t : declared n t -> wf t = true.
Proof. apply declared_check, header_types_wf. Qed.

(** ** Where the ABIs differ *)

(** The records that contain a [long], or a bit-field the two ABIs place differently. *)
Definition abi_dependent : list string :=
  ["VMBUS_CHANNEL_MODIFY_CHANNEL_RESPONSE"; "VMBUS_CHANNEL_TL_CONNECT_RESULT"; "HK_MESSAGE_KEYSTROKE";
   "HV_IMAGE_SECTION_DETAIL"; "HV_IMAGE_DETAIL"; "HV_MINI_LOADER_BLOCK"].

Lemma agree_elsewhere :
  forallb (fun p => agree p.2 && same_size p.2 || existsb (String.eqb p.1) abi_dependent) header_types = true.
Proof. vm_compute. reflexivity. Qed.

Lemma declared_agree n t : declared n t -> existsb (String.eqb n) abi_dependent = false -> agree t = true /\ same_size t = true.
Proof.
  intros Hd Hn. pose proof agree_elsewhere as H. rewrite forallb_forall in H.
  specialize (H (n, t) (proj1 (list_elem_of_In _ _) Hd)). cbn [fst snd] in H. rewrite Hn, orb_false_r in H.
  by apply andb_true_iff.
Qed.

(** ** Enumerations *)

(** No two enumerators of a list have the same value. *)
Fixpoint distinct (l : list Z) : bool :=
  match l with [] => true | x :: l => negb (existsb (Z.eqb x) l) && distinct l end.

Lemma distinct_nodup l : distinct l = true -> NoDup l.
Proof.
  induction l as [|x l IH]; cbn; [constructor|]. rewrite andb_true_iff, negb_true_iff. intros [Hx Hl].
  constructor; [|by apply IH]. intros Hin. apply list_elem_of_In in Hin.
  assert (existsb (Z.eqb x) l = true); [|congruence]. apply existsb_exists. exists x. split; [done|apply Z.eqb_refl].
Qed.

(** ** Unions with an integer view *)

(** The members by which a union is read as one integer or as integers: their names begin
    with [As]. *)
Definition integer_view (x : string) : bool :=
  existsb (String.eqb x) ["AsUINT8"; "AsUINT16"; "AsUINT32"; "AsUINT64"; "AsDWORD"; "AsDWord"; "AsULONG"].

(** The first such view of a union that does not cover it. *)
Definition short_views (b : abi) (t : cty) : list (string * Z * Z) :=
  match t with
  | CRec Union _ _ _ =>
      map (fun m => (p_name m, p_width m, 8 * sizeof b t))
        (filter (fun m => integer_view (p_name m) && negb (p_width m =? 8 * sizeof b t) = true) (members_of b t))
  | _ => []
  end.

Definition all_short_views (b : abi) : list (string * list (string * Z * Z)) :=
  filter (fun x => x.2 <> []) (map (fun p => (p.1, short_views b p.2)) header_types).

(** ** GUIDs as text *)

Definition hex_upper (d : Z) : Ascii.ascii := Ascii.ascii_of_N (Z.to_N (if d <? 10 then 48 + d else 55 + d)).
Definition hex_lower (d : Z) : Ascii.ascii := hex_digit d.

(** [n] hexadecimal digits of [z], the most significant first: [%08x] and the like for a
    value that fits. *)
Fixpoint hex_n (dig : Z -> Ascii.ascii) (n : nat) (z : Z) : string :=
  match n with
  | O => EmptyString
  | S n => String (dig (Z.land (Z.shiftr z (4 * Z.of_nat n)) 15)) (hex_n dig n z)
  end.

(** The text of a GUID; a GUID without eight bytes at the end does not exist. *)
Definition guid_text (dig : Z -> Ascii.ascii) (g : guid) : string :=
  let b2 i := hex_n dig 2 (nth i (Data4 g) 0) in
  hex_n dig 8 (Data1 g) +:+ "-" +:+ hex_n dig 4 (Data2 g) +:+ "-" +:+ hex_n dig 4 (Data3 g) +:+ "-" +:+
  b2 0%nat +:+ b2 1%nat +:+ "-" +:+ b2 2%nat +:+ b2 3%nat +:+ b2 4%nat +:+ b2 5%nat +:+ b2 6%nat +:+ b2 7%nat.

(** The values a GUID can hold. *)
Definition guid_ok (g : guid) : Prop :=
  0 <= Data1 g < 2 ^ 32 /\ 0 <= Data2 g < 2 ^ 16 /\ 0 <= Data3 g < 2 ^ 16 /\
  length (Data4 g) = 8%nat /\ Forall (fun x => 0 <= x < 2 ^ 8) (Data4 g).

Lemma hex_n_length dig n z : String.length (hex_n dig n z) = n.
Proof. induction n as [|n IH]; cbn; [done|]. by rewrite IH. Qed.

Lemma hex_lower_inj x y : 0 <= x < 16 -> 0 <= y < 16 -> hex_lower x = hex_lower y -> x = y.
Proof.
  intros Hx Hy H.
  assert (E : forallb (fun x => forallb (fun y => negb (Ascii.eqb (hex_lower x) (hex_lower y)) || (x =? y))
    (seqZ 0 16)) (seqZ 0 16) = true) by (vm_compute; reflexivity).
  rewrite forallb_forall in E. specialize (E x ltac:(apply list_elem_of_In, elem_of_seqZ; lia)).
  rewrite forallb_forall in E. specialize (E y ltac:(apply list_elem_of_In, elem_of_seqZ; lia)).
  rewrite H, Ascii.eqb_refl in E. cbn in E. by apply Z.eqb_eq.
Qed.

(** [n] digits determine a value below [16 ^ n]. *)
Lemma hex_n_inj n x y : 0 <= x < 2 ^ (4 * Z.of_nat n) -> 0 <= y < 2 ^ (4 * Z.of_nat n) ->
  hex_n hex_lower n x = hex_n hex_lower n y -> x = y.
Proof.
  intros Hx Hy H. apply Z.bits_inj'. intros i Hi.
  destruct (decide (i < 4 * Z.of_nat n)) as [Hlt|Hge].
  - clear Hx Hy. induction n as [|n IH]; [lia|]. cbn [hex_n] in H. injection H as Hd Hr.
    destruct (decide (i < 4 * Z.of_nat n)) as [Hn|Hn]; [by apply IH|].
    change 15 with (Z.ones 4) in Hd.
    apply hex_lower_inj in Hd; [|rewrite Z.land_ones by lia; apply Z.mod_pos_bound; lia..].
    pose proof (f_equal (fun v => Z.testbit v (i - 4 * Z.of_nat n)) Hd) as Hb. cbn beta in Hb.
    rewrite !Z.land_spec, !Z.shiftr_spec, !Z.ones_spec_low, !andb_true_r in Hb by lia.
    by replace (i - 4 * Z.of_nat n + 4 * Z.of_nat n) with i in Hb by lia.
  - rewrite <- (Z.mod_small x _ Hx), <- (Z.mod_small y _ Hy).
    by rewrite !Z.mod_pow2_bits_high by lia.
Qed.

Lemma append_inj s s' t t' : String.length s = String.length s' -> s +:+ t = s' +:+ t' -> s = s' /\ t = t'.
Proof.
  revert s'. induction s as [|c s IH]; intros [|c' s'] Hl H; cbn in *; try done.
  injection H as -> H. injection Hl as Hl. destruct (IH _ Hl H) as [-> ->]. done.
Qed.

Lemma hex_app_inj n x y s t : 0 <= x < 2 ^ (4 * Z.of_nat n) -> 0 <= y < 2 ^ (4 * Z.of_nat n) ->
  hex_n hex_lower n x +:+ s = hex_n hex_lower n y +:+ t -> x = y /\ s = t.
Proof.
  intros Hx Hy H. apply append_inj in H as [H ->]; [|by rewrite !hex_n_length]. split; [|done]. by apply (hex_n_inj n).
Qed.

Lemma dash_inj s t : "-" +:+ s = "-" +:+ t -> s = t.
Proof. intros H. by injection H. Qed.

Lemma length_append s t : String.length (s +:+ t) = (String.length s + String.length t)%nat.
Proof. induction s as [|c s IH]; [done|]. exact (f_equal S IH). Qed.

Lemma guid_text_length dig g : String.length (guid_text dig g) = 36%nat.
Proof. unfold guid_text. rewrite !length_append, !hex_n_length. done. Qed.

(** The text determines the GUID. *)
Lemma guid_text_inj g h : guid_ok g -> guid_ok h -> guid_text hex_lower g = guid_text hex_lower h -> g = h.
Proof.
  destruct g as [a b c d], h as [a' b' c' d']. unfold guid_ok, guid_text. cbn [Data1 Data2 Data3 Data4].
  intros (Ha & Hb & Hc & Hd & Hf) (Ha' & Hb' & Hc' & Hd' & Hf') H.
  apply hex_app_inj in H as [-> H]; [|done..]. apply dash_inj in H. apply hex_app_inj in H as [-> H]; [|done..].
  apply dash_inj in H. apply hex_app_inj in H as [-> H]; [|done..]. apply dash_inj in H.
  do 8 (destruct d as [|? d]; [done|]). do 8 (destruct d' as [|? d']; [done|]).
  destruct d as [|? ?]; [|done]. destruct d' as [|? ?]; [|done].
  repeat match goal with Hx : Forall _ (_ :: _) |- _ => inversion Hx; subst; clear Hx end. cbn [nth] in H.
  do 2 (apply hex_app_inj in H as [-> H]; [|done..]). apply dash_inj in H.
  do 5 (apply hex_app_inj in H as [-> H]; [|done..]).
  apply (f_equal (fun s => s +:+ EmptyString)) in H. by apply hex_app_inj in H as [-> _].
Qed.
