(* ===== verification/HeaderProps.v ===== *)
(** * Properties of the message declarations *)

From S2P Require Import Arm64 Prelude CLayout CLayoutSpec CAccess GuestInterface GuestProtocols TlfsBase TlfsState TlfsPartition TlfsSymbols TlfsCpuid TlfsCalls VMBusDevices HypervLayout HeaderFacts.

(** ** Every record of the headers *)

(** Whatever members and array elements an access path goes through, the bits it
    ends at lie inside the object. *)
Theorem header_paths_inside b n t path o w r :
  declared n t -> locate b t path = Some (o, w, r) -> 0 <= o /\ 0 <= w /\ o + w <= 8 * sizeof b t.
Proof.
  intros Hd Hl. pose proof (locate_inside b t path (declared_wf _ _ Hd)) as H. rewrite Hl in H.
  cbn in H. tauto.
Qed.

(** C34. A record compiled by GCC in the Linux guest and by MSVC means the same bytes:
    outside six records every access path that can be written leads to the same
    bits under the two ABIs. *)
Theorem header_abi_agree n t path :
  declared n t -> existsb (String.eqb n) abi_dependent = false -> named path ->
  locate SysV t path = locate MSVC t path /\ sizeof SysV t = sizeof MSVC t.
Proof.
  intros Hd Hn Hp. destruct (declared_agree _ _ Hd Hn) as [Ha Hs].
  split; [by apply locate_agree|by apply same_sizeof].
Qed.

(** All static assertions of the headers hold, under both ABIs. *)
Theorem static_asserts_hold b :
  Forall (fun x => x = true) (GuestProtocols_asserts b ++ TlfsPartition_asserts b ++ Arm64_asserts b).
Proof. destruct b; vm_compute; repeat constructor. Qed.

(** ** Where the declarations do not mean what they say *)

(** A keystroke: the host's compiler puts the flags in the 32-bit word after the
    padding behind [MakeCode], GCC puts them into that padding.  Whatever flag the
    host sets, the guest's flag reads what was there before. *)
Theorem keystroke_flags_lost x v buf :
  x ∈ ["IsUnicode"; "IsBreak"; "IsE0"; "IsE1"] -> length buf = 12%nat ->
  exists buf', write MSVC HK_MESSAGE_KEYSTROKE [Dot x] v buf = Some buf' /\
    read SysV HK_MESSAGE_KEYSTROKE [Dot x] buf' = read SysV HK_MESSAGE_KEYSTROKE [Dot x] buf.
Proof.
  intros Hx Hl. assert (E : exists o, locate MSVC HK_MESSAGE_KEYSTROKE [Dot x] = Some (64 + o, 1, UINT32) /\
    locate SysV HK_MESSAGE_KEYSTROKE [Dot x] = Some (48 + o, 1, UINT32) /\ 0 <= o < 4).
  { rewrite !elem_of_cons, elem_of_nil in Hx.
    destruct Hx as [->|[->|[->|[->|[]]]]]; [exists 0|exists 1|exists 2|exists 3]; vm_compute; done. }
  destruct E as (o & E1 & E2 & Ho). unfold write, read. rewrite E1, E2.
  eexists. split; [reflexivity|]. cbn. f_equal. apply load_store_other; [unfold within; rewrite Hl; lia..|lia].
Qed.

(** [NT_SUCCESS] tells errors from successes where [long] has 32 bits; where it has
    64, as under GCC for Linux, every error status counts as a success. *)
Theorem nt_success_by_abi status :
  0 <= status < 2 ^ 32 ->
  NT_SUCCESS SysV status = true /\ NT_SUCCESS MSVC status = (status <? 2 ^ 31).
Proof.
  intros Hs. unfold NT_SUCCESS, to_NTSTATUS, to_signed, NTSTATUS. cbn [sizeof measure fst].
  change (sizeof SysV (CLong true)) with 8. change (sizeof MSVC (CLong true)) with 4.
  change (8 * 8) with 64. change (8 * 4) with 32. change (64 - 1) with 63. change (32 - 1) with 31. split.
  - rewrite Z.mod_small by lia. apply Z.leb_le. lia.
  - destruct (Z.ltb_spec status (2 ^ 31)).
    + rewrite Z.mod_small by lia. apply Z.leb_le. lia.
    + replace (status + 2 ^ 31) with (status - 2 ^ 31 + 1 * 2 ^ 32) by lia.
      rewrite Z.mod_add, Z.mod_small by lia. apply Z.leb_gt. lia.
Qed.

(** The integer view of a union covers the union, except in six: a [union] inside
    the bit-fields of the page ranges starts a new unit, so that the ranges are twice
    as long as their 64-bit view, the device page request, for x64 as for ARM64, lists
    its three overlays one after the other, and for ARM64 the view of the processor
    features has one word where the features need two. *)
Theorem integer_views_cover b :
  map fst (all_short_views b) =
    ["HV_GVA_RANGE_EXTENDED"; "HV_GVA_RANGE"; "HV_GPA_PAGE_RANGE"; "HV_DEVICE_PAGE_REQUEST";
     "HV_SET_DEVICE_CAPABILITIES_FLAGS"; "HV_PARTITION_PROCESSOR_FEATURES"; "HV_DEVICE_PAGE_REQUEST"] /\
  sizeof b Arm64.HV_PARTITION_PROCESSOR_FEATURES = 16 /\
  locate b Arm64.HV_PARTITION_PROCESSOR_FEATURES [Dot "AsUINT64"] = Some (0, 64, CArr UINT64 Arm64.HV_PARTITION_PROCESSOR_FEATURES_BANKS) /\
  sizeof b HV_GPA_PAGE_RANGE = 16 /\ locate b HV_GPA_PAGE_RANGE [Dot "BasePfn"] = Some (64, 52, UINT64) /\
  sizeof b HV_DEVICE_PAGE_REQUEST = 48 /\ locate b HV_DEVICE_PAGE_REQUEST [Dot "AsUINT64"] = Some (0, 256, CArr UINT64 4) /\
  sizeof b HV_MESSAGE - sizeof b HV_MESSAGE_HEADER < sizeof b HV_GPA_ATTRIBUTE_INTERCEPT_MESSAGE.
Proof. destruct b; vm_compute; repeat split. Qed.

(** ** Sizes the protocols rely on *)

(** The records whose size depends on the architecture. *)
Definition architecture_dependent : list string :=
  ["HV_INITIAL_VP_CONTEXT"; "HV_INPUT_START_VIRTUAL_PROCESSOR"; "HV_VP_CONTEXT"; "HV_PROCESSOR_INFO"; "HV_MSI_ENTRY";
   "HV_INTERRUPT_ENTRY"; "HV_VP_REGISTER_PAGE"; "HV_PARTITION_CREATION_PROPERTIES_V2"; "HV_PARTITION_CREATION_PROPERTIES";
   "HV_VP_STATE_DATA"; "HV_HPET_INTERRUPT_INFO"; "HV_LOGICAL_PROCESSOR_PROPERTY"; "HV_LOGICAL_PROCESSOR_REGISTER_ID";
   "HV_INPUT_ENABLE_VP_VTL"; "HV_INPUT_CREATE_PARTITION_V2"; "HV_INPUT_CREATE_PARTITION";
   "HV_INPUT_SET_LOGICAL_PROCESSOR_PROPERTY"; "HV_OUTPUT_GET_LOGICAL_PROCESSOR_PROPERTY"; "HV_INPUT_GET_SYSTEM_PROPERTY";
   "HV_INPUT_MAP_DEVICE_INTERRUPT"; "HV_OUTPUT_MAP_DEVICE_INTERRUPT"; "HV_INPUT_UNMAP_DEVICE_INTERRUPT";
   "HV_INPUT_RETARGET_DEVICE_INTERRUPT"; "HV_OUTPUT_RETARGET_ROOT_DEVICE_INTERRUPT"; "HV_INPUT_ASSERT_DEVICE_INTERRUPT";
   "HV_INPUT_PREPARE_FOR_HIBERNATE"; "HV_INPUT_QUERY_DEVICE_INTERRUPT_TARGET"; "HV_OUTPUT_QUERY_DEVICE_INTERRUPT_TARGET";
   "HV_INPUT_GET_VP_STATE"; "HV_OUTPUT_GET_VP_STATE"; "HV_INPUT_SET_VP_STATE"; "HV_INPUT_RESERVE_DEVICE_INTERRUPT";
   "HV_INPUT_PERSIST_DEVICE_INTERRUPT"].

(** A record declared differently for x64 and for ARM64 has the same size on both unless it is
    one of these. *)
Theorem architecture_sizes b n x a :
  (n, x, a) ∈ both_architectures -> n ∉ architecture_dependent -> sizeof b x = sizeof b a.
Proof.
  intros Hin Hn. assert (E : forallb (fun t => bool_decide (t.1.1 ∈ architecture_dependent) || (sizeof b t.1.2 =? sizeof b t.2))
    both_architectures = true) by (destruct b; vm_compute; reflexivity).
  rewrite forallb_forall in E. specialize (E _ (proj1 (list_elem_of_In _ _) Hin)). cbn [fst snd] in E.
  rewrite bool_decide_false in E by done. by apply Z.eqb_eq.
Qed.


(** The monitor page is one page, and its parts are where the table above its
    declaration in [hyperv_vmbus.h] puts them, whatever one-word type the connection
    identifiers have. *)
Theorem monitor_page_layout b hv_connection_id :
  measure b hv_connection_id = (4, 4) ->
  sizeof b (hv_monitor_page hv_connection_id) = 4096 /\
  map (fun m => (p_name m, p_off m / 8)) (members_of b (hv_monitor_page hv_connection_id)) =
    [("trigger_state", 0x0); ("rsvdz1", 0x4); ("trigger_group", 0x8); ("rsvdz2", 0x28); ("next_checktime", 0x40);
     ("latency", 0x240); ("rsvdz3", 0x340); ("parameter", 0x440); ("rsvdz4", 0x840)] /\
  locate b (hv_monitor_parameter hv_connection_id) [Dot "flagnumber"] = Some (32, 16, u16_t) /\
  sizeof b (hv_input_post_message hv_connection_id 30) mod HV_HYPERCALL_PARAM_ALIGN b = 0.
Proof.
  intros Hc. destruct (page_places b _ Hc) as [E1 E2]. split_and!.
  - rewrite E1. by destruct b.
  - apply (f_equal (map (fun x => (x.1.1, x.1.2 / 8)))) in E2. rewrite !map_map in E2. cbn [fst snd] in E2.
    rewrite E2. destruct b; vm_compute; reflexivity.
  - by apply locate_flagnumber.
  - unfold sizeof. cbn. rewrite Hc. by destruct b.
Qed.

(** ** Witnesses *)

Module Witness.

Lemma declared_vmrcb : declared "VMRCB" VMRCB.
Proof. apply (list_elem_of_lookup_2 _ 69). vm_compute. reflexivity. Qed.

Lemma header_paths_inside_witness : 0 <= 512 /\ 0 <= 1 /\ 512 + 1 <= 8 * sizeof SysV VMRCB.
Proof.
  exact (header_paths_inside SysV "VMRCB" VMRCB [Dot "FeatureBits"; Dot "SupportsPendingSendSize"] 512 1 UINT32
    declared_vmrcb eq_refl).
Defined.

Lemma header_abi_agree_witness :
  locate SysV VMRCB [Dot "Reserved"; Idx 3] = locate MSVC VMRCB [Dot "Reserved"; Idx 3] /\ sizeof SysV VMRCB = sizeof MSVC VMRCB.
Proof.
  refine (header_abi_agree "VMRCB" VMRCB [Dot "Reserved"; Idx 3] declared_vmrcb eq_refl _).
  repeat constructor; discriminate.
Defined.

Lemma keystroke_flags_lost_witness :
  exists buf', write MSVC HK_MESSAGE_KEYSTROKE [Dot "IsBreak"] 1 (replicate 12 0) = Some buf' /\
    read SysV HK_MESSAGE_KEYSTROKE [Dot "IsBreak"] buf' = read SysV HK_MESSAGE_KEYSTROKE [Dot "IsBreak"] (replicate 12 0).
Proof.
  refine (keystroke_flags_lost "IsBreak" 1 (replicate 12 0) _ eq_refl).
  apply (list_elem_of_lookup_2 _ 1). reflexivity.
Defined.

(** The error status the header itself defines. *)
Lemma nt_success_by_abi_witness : NT_SUCCESS SysV 0xc0000059 = true /\ NT_SUCCESS MSVC 0xc0000059 = (0xc0000059 <? 2 ^ 31).
Proof. refine (nt_success_by_abi 0xc0000059 _). lia. Defined.

Lemma monitor_page_layout_witness :
  sizeof SysV (hv_monitor_page HV_CONNECTION_ID) = 4096 /\
  map (fun m => (p_name m, p_off m / 8)) (members_of SysV (hv_monitor_page HV_CONNECTION_ID)) =
    [("trigger_state", 0x0); ("rsvdz1", 0x4); ("trigger_group", 0x8); ("rsvdz2", 0x28); ("next_checktime", 0x40);
     ("latency", 0x240); ("rsvdz3", 0x340); ("parameter", 0x440); ("rsvdz4", 0x840)] /\
  locate SysV (hv_monitor_parameter HV_CONNECTION_ID) [Dot "flagnumber"] = Some (32, 16, u16_t) /\
  sizeof SysV (hv_input_post_message HV_CONNECTION_ID 30) mod HV_HYPERCALL_PARAM_ALIGN SysV = 0.
Proof. exact (monitor_page_layout SysV HV_CONNECTION_ID eq_refl). Defined.
End Witness.
