(* ===== verification/Ring.v ===== *)
(** * The user-space side of a VMBus ring

    [UioHvDevice] of the C# application reads and writes the two rings the driver
    maps: [PushPipePacket] and [PopPipePacket] of [HvGin/UioHvDevice.cs], with the
    packet and pipe headers of [PacketDescriptor.cs] and [PipeHeader.cs].  An
    exception is [None]. *)

From S2P Require Import Prelude CLayout CLayoutSpec CAccess.

(** ** The headers *)

(** Sequential layout with [Pack = 1]. *)
Definition PacketDescriptor : cty := struct 1 [
  fld UINT16 "RawType"; fld UINT16 "RawDataOffset8"; fld UINT16 "RawLength8"; fld UINT16 "RawFlags";
  fld UINT64 "TransactionId"].
Definition PipeHeader : cty := struct 1 [fld UINT32 "RawPacketType"; fld UINT32 "RawDataSize"].
Definition RingControlBlock : cty := struct 1 [
  fld UINT32 "In"; fld UINT32 "Out"; fld UINT32 "InterruptMask"; fld UINT32 "PendingSendSize";
  fld (CArr UINT32 12) "Reserved"; fld UINT32 "FeatureBitsValue"].

Definition PacketDescriptorSize : Z := sizeof SysV PacketDescriptor.
Definition PipeHeaderSize : Z := sizeof SysV PipeHeader.
Definition PipePacketHeaderSize : Z := PacketDescriptorSize + PipeHeaderSize.

(** [PacketType.DataInBand], [PipeMessageType.Data]; a raw value without a name reads as
    [Invalid], 0. *)
Definition PacketType_of (raw : Z) : Z := if existsb (Z.eqb raw) [0; 6; 7; 9; 10; 11] then raw else 0.
Definition PipeMessageType_of (raw : Z) : Z := if existsb (Z.eqb raw) [0; 1; 2; 3; 4; 5] then raw else 0.
Definition DataInBand := 6.
Definition Data := 1.

Definition GetAlignedSize (Size Alignment : Z) : Z := Z.land (Size + Alignment - 1) (Z.lnot (Alignment - 1)).

(** [Convert.ToUInt16], [Convert.ToInt32], which throw out of range. *)
Definition ToUInt16 (z : Z) : option Z := if (0 <=? z) && (z <? 2 ^ 16) then Some z else None.
Definition ToInt32 (z : Z) : option Z := if (- 2 ^ 31 <=? z) && (z <? 2 ^ 31) then Some z else None.
Definition ToUInt32 (z : Z) : option Z := if (0 <=? z) && (z <? 2 ^ 32) then Some z else None.

(** ** A ring: the two offsets of its control block and its data area *)

Record ring := Ring { In : Z; Out : Z; data : list Z }.
Definition DataMaximumSize (r : ring) : Z := Z.of_nat (length (data r)).

(** Readable and writable bytes; the difference of the offsets must fit an [int]. *)
Definition GetAvailableSizeInformation (r : ring) : option (Z * Z) :=
  if Out r <=? In r then
    ReadableSize ← ToInt32 (In r - Out r);
    Some (ReadableSize, DataMaximumSize r - ReadableSize)
  else
    WritableSize ← ToInt32 (Out r - In r);
    Some (DataMaximumSize r - WritableSize, WritableSize).

(** [DataMaximumSize - Convert.ToInt32(Offset)], computed when the ring is wrapped only; it
    is not looked at otherwise. *)
Definition FragileSize (wrapped : bool) (r : ring) (Offset : Z) : option Z :=
  if wrapped then Offset ← ToInt32 Offset; Some (DataMaximumSize r - Offset) else Some 0.

(** [n] bytes from offset [i]. *)
Definition slice (l : list Z) (i n : Z) : list Z := take (Z.to_nat n) (drop (Z.to_nat i) l).

(** [Array.CopyTo] and [WriteArray]: overwrite from offset [i]. *)
Definition overwrite (l : list Z) (i : Z) (s : list Z) : list Z :=
  take (Z.to_nat i) l ++ s ++ drop (Z.to_nat i + length s) l.

Definition u16_at (l : list Z) (i : Z) : Z := le_num (slice l i 2).
Definition u32_at (l : list Z) (i : Z) : Z := le_num (slice l i 4).

(** ** Push *)

Definition descriptor_bytes (raw_length : Z) : list Z :=
  le_bytes 2 DataInBand ++ le_bytes 2 (Z.shiftr (GetAlignedSize PacketDescriptorSize 8) 3) ++ le_bytes 2 raw_length ++
  le_bytes 2 0 ++ le_bytes 8 (2 ^ 64 - 1).
Definition pipe_header_bytes (size : Z) : list Z := le_bytes 4 Data ++ le_bytes 4 size.

(** The bytes of a packet of [size] bytes pushed at offset [ring_in]. *)
Definition packet_bytes (ring_in raw_length size : Z) (Content : list Z) : list Z :=
  let b := replicate (Z.to_nat size) 0 in
  let b := overwrite b 0 (descriptor_bytes raw_length) in
  let b := overwrite b PacketDescriptorSize (pipe_header_bytes (Z.of_nat (length Content))) in
  let b := overwrite b PipePacketHeaderSize Content in
  overwrite b (size - 8) (le_bytes 4 ring_in).

Definition PushPipePacket (r : ring) (Content : list Z) : option ring :=
  raw_length ← ToUInt16 (Z.shiftr (GetAlignedSize (PipePacketHeaderSize + Z.of_nat (length Content)) 8) 3);
  let PacketSize := Z.shiftl raw_length 3 + 8 in
  sizes ← GetAvailableSizeInformation r;
  if snd sizes <? PacketSize then None
  else
    let PacketBytes := packet_bytes (In r) raw_length PacketSize Content in
    let wrapped := Out r <=? In r in
    Fragile ← FragileSize wrapped r (In r);
    let wraps := wrapped && (Fragile <? PacketSize) in
    let FirstWriteSize := if wraps then Fragile else PacketSize in
    let SecondWriteSize := if wraps then PacketSize - Fragile else 0 in
    let d := overwrite (data r) (In r) (slice PacketBytes 0 FirstWriteSize) in
    let d := if 0 <? SecondWriteSize then overwrite d 0 (slice PacketBytes FirstWriteSize SecondWriteSize) else d in
    FinalOffset ← ToUInt32 (if 0 <? SecondWriteSize then SecondWriteSize else In r + PacketSize);
    Some (Ring FinalOffset (Out r) d).

Definition MaximumPushSize := 16384.
Definition GetMaximumPushSize (r : ring) : option Z :=
  sizes ← GetAvailableSizeInformation r;
  let AvailableSize := snd sizes - (PipePacketHeaderSize + 8) in
  let AvailableSize := AvailableSize - Z.rem AvailableSize 8 in
  Some (if AvailableSize <? 0 then 0 else Z.min AvailableSize MaximumPushSize).

(** ** Pop *)

(** [PipeHeaderSize + PipeDataSize] is an unchecked sum of [int]s. *)
Definition PopPipePacket (r : ring) : option (list Z * ring) :=
  sizes ← GetAvailableSizeInformation r;
  let AvailableSize := fst sizes in
  if AvailableSize <? PipePacketHeaderSize then Some ([], r)
  else
    let wrapped := In r <? Out r in
    Fragile ← FragileSize wrapped r (Out r);
    let split := wrapped && (Fragile <? AvailableSize) in
    let FirstReadSize := if split then Fragile else AvailableSize in
    let SecondReadSize := if split then AvailableSize - Fragile else 0 in
    let AvailableBytes := slice (data r) (Out r) FirstReadSize ++
      (if 0 <? SecondReadSize then slice (data r) 0 SecondReadSize else []) in
    let Length := Z.shiftl (u16_at AvailableBytes 4) 3 in
    let DataOffset := Z.shiftl (u16_at AvailableBytes 2) 3 in
    if negb (PacketType_of (u16_at AvailableBytes 0) =? DataInBand) then None
    else if (DataOffset <? PacketDescriptorSize) || (AvailableSize <? DataOffset) || (Length <? DataOffset) then None
    else
      let ActualPacketSize := Length + 8 in
      if AvailableSize <? ActualPacketSize then None
      else
        let Rest := drop (Z.to_nat DataOffset) AvailableBytes in
        if negb (PipeMessageType_of (u32_at Rest 0) =? Data) then None
        else
          PipeDataSize ← ToInt32 (u32_at Rest 4);
          if Z.of_nat (length Rest) <? s32 (PipeHeaderSize + PipeDataSize) then None
          else
            let Content := slice Rest PipeHeaderSize PipeDataSize in
            let wraps := wrapped && (Fragile <? ActualPacketSize) in
            FinalOffset ← ToUInt32 (Out r + ActualPacketSize);
            FinalOffset ← (if wraps then ToUInt32 (ActualPacketSize - Fragile) else Some FinalOffset);
            Some (Content, Ring (In r) FinalOffset (data r)).

(** ** The host *)

(** The other side of the rings: the host puts a packet into one and takes one from the other.
    Its code is not in the repository. *)
Class Host := { host_push : list Z -> ring -> option ring; host_take : ring -> option (list Z * ring) }.
