(* ===== verification/RingSpec.v ===== *)
(** * The ring is a queue

    The bytes between the two offsets of a ring, taken around its end, are the
    packets pushed and not yet popped, in order. *)

From S2P Require Import Prelude CLayout CLayoutSpec CAccess Ring.

(** ** Slices *)

Section slices.
Implicit Types (l s : list Z) (i j n m : Z).

Lemma slice_length l i n : 0 <= i -> 0 <= n -> i + n <= Z.of_nat (length l) -> length (slice l i n) = Z.to_nat n.
Proof. intros. unfold slice. rewrite length_take, length_drop. lia. Qed.

Lemma slice_all l n : n = Z.of_nat (length l) -> slice l 0 n = l.
Proof. intros ->. unfold slice. rewrite Nat2Z.id. change (Z.to_nat 0) with 0%nat. by rewrite drop_0, firstn_all. Qed.

Lemma slice_split l i n m : 0 <= i -> 0 <= n -> 0 <= m -> slice l i (n + m) = slice l i n ++ slice l (i + n) m.
Proof.
  intros. unfold slice. rewrite !Z2Nat.inj_add by lia. rewrite <- drop_drop.
  rewrite <- (take_drop (Z.to_nat n) (drop (Z.to_nat i) l)) at 1.
  destruct (decide (Z.to_nat n <= length (drop (Z.to_nat i) l))%nat) as [Hle|Hgt].
  - rewrite take_app, length_take, Nat.min_l by lia. rewrite take_take.
    rewrite Nat.min_r by lia. by replace (Z.to_nat n + Z.to_nat m - Z.to_nat n)%nat with (Z.to_nat m) by lia.
  - rewrite (drop_ge _ (Z.to_nat n)) by lia. rewrite app_nil_r, take_nil, app_nil_r.
    rewrite take_take. f_equal. lia.
Qed.

Lemma slice_drop l k i n : 0 <= k -> 0 <= i -> slice (drop (Z.to_nat k) l) i n = slice l (k + i) n.
Proof. intros. unfold slice. rewrite drop_drop. do 2 f_equal. lia. Qed.

Lemma slice_app_l l s i n : 0 <= i -> 0 <= n -> i + n <= Z.of_nat (length l) -> slice (l ++ s) i n = slice l i n.
Proof.
  intros. unfold slice. rewrite drop_app_le by lia. rewrite take_app_le; [done|]. rewrite length_drop. lia.
Qed.

Lemma overwrite_length l i s : 0 <= i -> i + Z.of_nat (length s) <= Z.of_nat (length l) ->
  length (overwrite l i s) = length l.
Proof. intros. unfold overwrite. rewrite !length_app, length_take, length_drop. lia. Qed.

Lemma slice_overwrite_before l i s j n : 0 <= i <= Z.of_nat (length l) -> 0 <= j -> 0 <= n -> j + n <= i ->
  slice (overwrite l i s) j n = slice l j n.
Proof.
  intros. unfold overwrite. rewrite slice_app_l; [|lia|lia|rewrite length_take; lia].
  unfold slice. rewrite <- (take_drop (Z.to_nat i) l) at 2.
  rewrite drop_app_le by (rewrite length_take; lia). rewrite take_app_le; [done|].
  rewrite length_drop, length_take. lia.
Qed.

Lemma slice_overwrite_in l i s j n : 0 <= i <= Z.of_nat (length l) -> i <= j -> 0 <= n ->
  j + n <= i + Z.of_nat (length s) -> slice (overwrite l i s) j n = slice s (j - i) n.
Proof.
  intros. unfold overwrite, slice. rewrite drop_app_ge by (rewrite length_take; lia).
  rewrite length_take, Nat.min_l by lia. rewrite drop_app_le by lia.
  rewrite take_app_le by (rewrite length_drop; lia). do 2 f_equal. lia.
Qed.

Lemma slice_overwrite_after l i s j n : 0 <= i -> i + Z.of_nat (length s) <= Z.of_nat (length l) ->
  i + Z.of_nat (length s) <= j -> slice (overwrite l i s) j n = slice l j n.
Proof.
  intros. unfold overwrite, slice. rewrite app_assoc, drop_app_ge by (rewrite length_app, length_take; lia).
  rewrite length_app, length_take, Nat.min_l, drop_drop by lia. do 2 f_equal. lia.
Qed.

Lemma slice_overwrite_same l i s n : 0 <= i <= Z.of_nat (length l) -> n = Z.of_nat (length s) ->
  slice (overwrite l i s) i n = s.
Proof. intros Hi ->. rewrite slice_overwrite_in by lia. rewrite Z.sub_diag. by apply slice_all. Qed.
End slices.

(** ** Rings *)

Record ring_ok (r : ring) : Prop := {
  ro_in : 0 <= In r <= DataMaximumSize r;
  ro_out : 0 <= Out r <= DataMaximumSize r;
  ro_size : DataMaximumSize r < 2 ^ 31 }.

(** The bytes pushed and not yet popped. *)
Definition stream (r : ring) : list Z :=
  if Out r <=? In r then slice (data r) (Out r) (In r - Out r)
  else slice (data r) (Out r) (DataMaximumSize r - Out r) ++ slice (data r) 0 (In r).

(** The conversions do not throw. *)
Lemma ToInt32_id z : - 2 ^ 31 <= z < 2 ^ 31 -> ToInt32 z = Some z.
Proof. intros Hz. unfold ToInt32. rewrite (proj2 (Z.leb_le _ _)), (proj2 (Z.ltb_lt _ _)) by lia. done. Qed.
Lemma ToUInt16_id z : 0 <= z < 2 ^ 16 -> ToUInt16 z = Some z.
Proof. intros Hz. unfold ToUInt16. rewrite (proj2 (Z.leb_le _ _)), (proj2 (Z.ltb_lt _ _)) by lia. done. Qed.
Lemma ToUInt32_id z : 0 <= z < 2 ^ 32 -> ToUInt32 z = Some z.
Proof. intros Hz. unfold ToUInt32. rewrite (proj2 (Z.leb_le _ _)), (proj2 (Z.ltb_lt _ _)) by lia. done. Qed.

Lemma ToUInt32_Some z o : ToUInt32 z = Some o -> o = z.
Proof. unfold ToUInt32. destruct (_ && _); [by intros [= ->]|done]. Qed.

Lemma converted_if (b : bool) x y o : (if b then ToUInt32 x else Some y) = Some o -> o = if b then x else y.
Proof. destruct b; [apply ToUInt32_Some|by intros [= ->]]. Qed.

Lemma convert_if (b : bool) x y : 0 <= (if b then x else y) < 2 ^ 32 ->
  (if b then ToUInt32 x else Some y) = Some (if b then x else y).
Proof. destruct b; [apply ToUInt32_id|done]. Qed.

(** Readable and writable bytes. *)
Definition ring_sizes (r : ring) : Z * Z :=
  if Out r <=? In r then (In r - Out r, DataMaximumSize r - (In r - Out r))
  else (DataMaximumSize r - (Out r - In r), Out r - In r).

Lemma sizes_ok r : ring_ok r -> GetAvailableSizeInformation r = Some (ring_sizes r).
Proof.
  intros [Hi Ho Hs]. unfold GetAvailableSizeInformation, ring_sizes.
  destruct (Z.leb_spec (Out r) (In r)); by rewrite ToInt32_id by lia.
Qed.

Lemma fragile_ok wrapped r i : ring_ok r -> 0 <= i <= DataMaximumSize r ->
  FragileSize wrapped r i = Some (if wrapped then DataMaximumSize r - i else 0).
Proof. intros [_ _ Hs] Hb. unfold FragileSize. destruct wrapped; [|done]. by rewrite ToInt32_id by lia. Qed.

(** Room for writing [n] bytes that keeps the ring from looking empty. *)
Definition room (r : ring) (n : Z) : Prop := n < (ring_sizes r).2.

Lemma stream_length r : ring_ok r -> Z.of_nat (length (stream r)) = (ring_sizes r).1.
Proof.
  intros [Hi Ho Hs]. unfold stream, ring_sizes, DataMaximumSize in *.
  destruct (Out r <=? In r) eqn:E; zify_bool; cbn [fst].
  - rewrite slice_length; lia.
  - rewrite length_app, !slice_length; lia.
Qed.

(** What [PopPipePacket] reads. *)
Lemma stream_read r : ring_ok r ->
  let A := (ring_sizes r).1 in let F := DataMaximumSize r - Out r in
  let split := (In r <? Out r) && (F <? A) in
  slice (data r) (Out r) (if split then F else A) ++
    (if 0 <? (if split then A - F else 0) then slice (data r) 0 (if split then A - F else 0) else []) = stream r.
Proof.
  intros [Hi Ho Hs]. unfold stream, ring_sizes. cbn zeta.
  destruct (Out r <=? In r) eqn:E; zify_bool; cbn [fst].
  - replace (In r <? Out r) with false by (symmetry; apply Z.ltb_ge; lia). cbn. by rewrite app_nil_r.
  - replace (In r <? Out r) with true by (symmetry; apply Z.ltb_lt; lia). cbn [andb].
    replace (DataMaximumSize r - (Out r - In r)) with (DataMaximumSize r - Out r + In r) by lia.
    destruct (Z.ltb_spec (DataMaximumSize r - Out r) (DataMaximumSize r - Out r + In r)).
    + replace (DataMaximumSize r - Out r + In r - (DataMaximumSize r - Out r)) with (In r) by lia.
      by replace (0 <? In r) with true by (symmetry; apply Z.ltb_lt; lia).
    + assert (In r = 0) as -> by lia. cbn. by rewrite Z.add_0_r.
Qed.

(** Writing [P] at the [In] offset, around the end if need be. *)
Lemma stream_write r P : ring_ok r -> room r (Z.of_nat (length P)) ->
  let n := Z.of_nat (length P) in let F := DataMaximumSize r - In r in
  let wraps := (Out r <=? In r) && (F <? n) in
  let n1 := if wraps then F else n in let n2 := if wraps then n - F else 0 in
  let d := overwrite (data r) (In r) (slice P 0 n1) in
  let d := if 0 <? n2 then overwrite d 0 (slice P n1 n2) else d in
  let r' := Ring (if 0 <? n2 then n2 else In r + n) (Out r) d in
  ring_ok r' /\ stream r' = stream r ++ P.
Proof.
  intros [Hi Ho Hs]. unfold room, ring_sizes, DataMaximumSize in *. intros Hroom. cbn zeta.
  set (n := Z.of_nat (length P)) in *. set (D := Z.of_nat (length (data r))) in *.
  destruct (Out r <=? In r) eqn:E; zify_bool; cbn [andb snd] in *.
  - destruct (Z.ltb_spec (D - In r) n).
    + replace (0 <? n - (D - In r)) with true by (symmetry; apply Z.ltb_lt; lia).
      set (P1 := slice P 0 (D - In r)). set (P2 := slice P (D - In r) (n - (D - In r))).
      assert (H1 : Z.of_nat (length P1) = D - In r) by (unfold P1; rewrite slice_length; lia).
      assert (H2 : Z.of_nat (length P2) = n - (D - In r)) by (unfold P2; rewrite slice_length; lia).
      assert (HP : P1 ++ P2 = P).
      { unfold P1, P2. pose proof (slice_split P 0 (D - In r) (n - (D - In r)) ltac:(lia) ltac:(lia) ltac:(lia)) as Hsp.
        rewrite Z.add_0_l in Hsp. rewrite <- Hsp. apply slice_all. unfold n. lia. }
      assert (L1 : length (overwrite (data r) (In r) P1) = length (data r)) by (apply overwrite_length; lia).
      assert (L2 : length (overwrite (overwrite (data r) (In r) P1) 0 P2) = length (data r)).
      { rewrite overwrite_length; [done|lia|]. rewrite L1. lia. }
      split; [split; unfold DataMaximumSize; cbn [In Out data]; rewrite ?L2; lia|].
      unfold stream, DataMaximumSize. cbn [In Out data]. rewrite L2. fold D.
      replace (Out r <=? n - (D - In r)) with false by (symmetry; apply Z.leb_gt; lia).
      replace (Out r <=? In r) with true by (symmetry; apply Z.leb_le; lia).
      rewrite slice_overwrite_after by lia. rewrite slice_overwrite_same by lia.
      replace (D - Out r) with ((In r - Out r) + (D - In r)) by lia.
      rewrite slice_split by lia. rewrite slice_overwrite_before by lia.
      replace (Out r + (In r - Out r)) with (In r) by lia. rewrite slice_overwrite_same by lia.
      by rewrite <- app_assoc, HP.
    + cbn. rewrite (slice_all P n) by done.
      assert (L1 : length (overwrite (data r) (In r) P) = length (data r)) by (apply overwrite_length; lia).
      split; [split; unfold DataMaximumSize; cbn [In Out data]; rewrite ?L1; lia|].
      unfold stream, DataMaximumSize. cbn [In Out data].
      replace (Out r <=? In r + n) with true by (symmetry; apply Z.leb_le; lia).
      replace (Out r <=? In r) with true by (symmetry; apply Z.leb_le; lia).
      replace (In r + n - Out r) with ((In r - Out r) + n) by lia. rewrite slice_split by lia.
      rewrite slice_overwrite_before by lia. replace (Out r + (In r - Out r)) with (In r) by lia.
      by rewrite slice_overwrite_same by lia.
  - cbn. rewrite (slice_all P n) by done.
    assert (L1 : length (overwrite (data r) (In r) P) = length (data r)) by (apply overwrite_length; lia).
    split; [split; unfold DataMaximumSize; cbn [In Out data]; rewrite ?L1; lia|].
    unfold stream, DataMaximumSize. cbn [In Out data]. rewrite L1. fold D.
    replace (Out r <=? In r + n) with false by (symmetry; apply Z.leb_gt; lia).
    replace (Out r <=? In r) with false by (symmetry; apply Z.leb_gt; lia).
    rewrite slice_overwrite_after by lia. rewrite (slice_split _ 0 (In r) n) by lia.
    rewrite slice_overwrite_before by lia. cbn. rewrite slice_overwrite_same by lia. by rewrite app_assoc.
Qed.

(** Moving the [Out] offset over [n] readable bytes. *)
Lemma stream_consume r n : ring_ok r -> 0 <= n <= (ring_sizes r).1 ->
  let F := DataMaximumSize r - Out r in
  let r' := Ring (In r) (if (In r <? Out r) && (F <? n) then n - F else Out r + n) (data r) in
  ring_ok r' /\ stream r' = drop (Z.to_nat n) (stream r) /\ 0 <= Out r' < 2 ^ 32.
Proof.
  intros [Hi Ho Hs]. unfold ring_sizes, DataMaximumSize in *. cbn zeta.
  set (D := Z.of_nat (length (data r))) in *. intros Hn.
  destruct (Out r <=? In r) eqn:E; zify_bool; cbn [fst] in Hn.
  - replace (In r <? Out r) with false by (symmetry; apply Z.ltb_ge; lia). cbn [andb].
    split; [split; unfold DataMaximumSize; cbn; lia|]. split; [|cbn; lia].
    unfold stream, DataMaximumSize. cbn [In Out data].
    replace (Out r + n <=? In r) with true by (symmetry; apply Z.leb_le; lia).
    replace (Out r <=? In r) with true by (symmetry; apply Z.leb_le; lia).
    replace (In r - Out r) with (n + (In r - (Out r + n))) by lia. rewrite (slice_split _ (Out r) n) by lia.
    rewrite drop_app_length' by (rewrite slice_length; lia). done.
  - replace (In r <? Out r) with true by (symmetry; apply Z.ltb_lt; lia). cbn [andb].
    destruct (Z.ltb_spec (D - Out r) n).
    + split; [split; unfold DataMaximumSize; cbn; lia|]. split; [|cbn; lia].
      unfold stream, DataMaximumSize. cbn [In Out data]. fold D.
      replace (n - (D - Out r) <=? In r) with true by (symmetry; apply Z.leb_le; lia).
      replace (Out r <=? In r) with false by (symmetry; apply Z.leb_gt; lia).
      rewrite drop_app_ge by (rewrite slice_length; lia). rewrite slice_length by lia.
      replace (In r) with ((n - (D - Out r)) + (In r - (n - (D - Out r)))) at 2 by lia.
      rewrite (slice_split _ 0 (n - (D - Out r))) by lia.
      rewrite drop_app_length' by (rewrite slice_length; lia). done.
    + split; [split; unfold DataMaximumSize; cbn; lia|]. split; [|cbn; lia].
      unfold stream, DataMaximumSize. cbn [In Out data]. fold D.
      replace (Out r + n <=? In r) with false by (symmetry; apply Z.leb_gt; lia).
      replace (Out r <=? In r) with false by (symmetry; apply Z.leb_gt; lia).
      replace (D - Out r) with (n + (D - (Out r + n))) by lia. rewrite (slice_split _ (Out r) n) by lia.
      rewrite <- app_assoc, drop_app_length' by (rewrite slice_length; lia). done.
Qed.

(** ** Packets *)

Lemma GetAlignedSize_8 s : 0 <= s -> GetAlignedSize s 8 = round_up s 8.
Proof.
  intros Hs. unfold GetAlignedSize, round_up. change (8 - 1) with (Z.ones 3). change (Z.lnot (Z.ones 3)) with (Z.lnot (Z.ones 3)).
  rewrite <- Z.ldiff_land, Z.ldiff_ones_r by lia. rewrite Z.shiftr_div_pow2, Z.shiftl_mul_pow2 by lia. done.
Qed.

(** The [Length8] field of a packet with [n] bytes of content, and the packet's size. *)
Definition raw_length_of (n : Z) : Z := round_up (24 + n) 8 / 8.
Definition packet_size (n : Z) : Z := 8 * raw_length_of n + 8.

Lemma raw_length_eq n : 0 <= n -> Z.shiftr (GetAlignedSize (PipePacketHeaderSize + n) 8) 3 = raw_length_of n.
Proof. intros Hn. change PipePacketHeaderSize with 24. rewrite GetAlignedSize_8, Z.shiftr_div_pow2 by lia. done. Qed.

Lemma raw_length_bounds n : 0 <= n -> 24 + n <= 8 * raw_length_of n < 32 + n.
Proof.
  intros Hn. unfold raw_length_of. pose proof (round_up_le (24 + n) 8 ltac:(lia)). pose proof (round_up_lt (24 + n) 8 ltac:(lia)).
  destruct (round_up_divide (24 + n) 8) as [k Hk]. rewrite Hk in *. rewrite Z.div_mul by lia. lia.
Qed.

(** The content fits a packet's 16-bit length field. *)
Definition content_ok (c : list Z) : Prop := raw_length_of (Z.of_nat (length c)) < 2 ^ 16.

Definition packet (ring_in : Z) (c : list Z) : list Z :=
  packet_bytes ring_in (raw_length_of (Z.of_nat (length c))) (packet_size (Z.of_nat (length c))) c.

Section packet.
Context (i : Z) (c : list Z).
Abbreviation n := (Z.of_nat (length c)).
Abbreviation raw := (raw_length_of n).
Abbreviation size := (packet_size n).

(** The stages of the packet, each as long as the packet. *)
Definition stage1 : list Z := overwrite (replicate (Z.to_nat size) 0) 0 (descriptor_bytes raw).
Definition stage2 : list Z := overwrite stage1 16 (pipe_header_bytes n).
Definition stage3 : list Z := overwrite stage2 24 c.

Lemma packet_stages : packet i c = overwrite stage3 (size - 8) (le_bytes 4 i).
Proof. reflexivity. Qed.

Lemma size_bounds : 32 + n <= size.
Proof. pose proof (raw_length_bounds n ltac:(lia)). unfold packet_size. lia. Qed.

Lemma stage1_length : Z.of_nat (length stage1) = size.
Proof.
  pose proof size_bounds. unfold stage1. rewrite overwrite_length; rewrite ?length_replicate; [lia|lia|].
  change (length (descriptor_bytes raw)) with 16%nat. lia.
Qed.
Lemma stage2_length : Z.of_nat (length stage2) = size.
Proof.
  pose proof size_bounds. pose proof stage1_length. unfold stage2. rewrite overwrite_length; [lia|lia|].
  change (length (pipe_header_bytes n)) with 8%nat. lia.
Qed.
Lemma stage3_length : Z.of_nat (length stage3) = size.
Proof. pose proof size_bounds. pose proof stage2_length. unfold stage3. rewrite overwrite_length; lia. Qed.
Lemma packet_length : Z.of_nat (length (packet i c)) = size.
Proof.
  pose proof size_bounds. pose proof stage3_length. rewrite packet_stages, overwrite_length; [lia|lia|].
  rewrite length_le_bytes. lia.
Qed.

(** The fields of the packet. *)
Lemma packet_front j m : 0 <= j -> 0 <= m -> j + m <= size - 8 -> slice (packet i c) j m = slice stage3 j m.
Proof.
  intros. pose proof stage3_length. pose proof size_bounds. rewrite packet_stages.
  apply slice_overwrite_before; lia.
Qed.

Lemma packet_content : slice (packet i c) 24 n = c.
Proof.
  pose proof size_bounds. pose proof stage2_length. rewrite packet_front by lia. unfold stage3.
  apply slice_overwrite_same; lia.
Qed.

Lemma packet_header j m : 0 <= j -> 0 <= m -> j + m <= 8 -> slice (packet i c) (16 + j) m = slice (pipe_header_bytes n) j m.
Proof.
  intros. pose proof size_bounds. pose proof stage2_length. pose proof stage1_length.
  rewrite packet_front by lia. unfold stage3. rewrite slice_overwrite_before by lia.
  unfold stage2. rewrite slice_overwrite_in; [f_equal; lia|lia|lia|lia|].
  change (length (pipe_header_bytes n)) with 8%nat. lia.
Qed.

Lemma packet_descriptor j m : 0 <= j -> 0 <= m -> j + m <= 16 -> slice (packet i c) j m = slice (descriptor_bytes raw) j m.
Proof.
  intros. pose proof size_bounds. pose proof stage2_length. pose proof stage1_length.
  rewrite packet_front by lia. unfold stage3. rewrite slice_overwrite_before by lia.
  unfold stage2. rewrite slice_overwrite_before by lia. unfold stage1.
  rewrite slice_overwrite_in; [f_equal; lia|rewrite length_replicate; lia|lia|lia|].
  change (length (descriptor_bytes raw)) with 16%nat. lia.
Qed.

Context (Hc : content_ok c) (rest : list Z).

(** What [PopPipePacket] finds at the front of a stream. *)
Lemma packet_fields :
  let bytes := packet i c ++ rest in
  u16_at bytes 0 = 6 /\ u16_at bytes 2 = 2 /\ u16_at bytes 4 = raw /\
  u32_at (drop 16 bytes) 0 = 1 /\ u32_at (drop 16 bytes) 4 = n /\ slice (drop 16 bytes) 8 n = c.
Proof using Hc.
  cbn zeta. pose proof size_bounds. pose proof packet_length. pose proof (raw_length_bounds n ltac:(lia)). unfold content_ok in Hc.
  assert (Hn : n < 2 ^ 32) by lia.
  unfold u16_at, u32_at. change 16%nat with (Z.to_nat 16). rewrite !slice_drop by lia.
  rewrite !slice_app_l by lia. rewrite (packet_header 0 4), (packet_header 4 4) by lia.
  rewrite (packet_descriptor 0 2), (packet_descriptor 2 2), (packet_descriptor 4 2) by lia.
  change (slice (descriptor_bytes raw) 0 2) with (le_bytes 2 6). change (slice (descriptor_bytes raw) 2 2) with (le_bytes 2 2).
  change (slice (descriptor_bytes raw) 4 2) with (le_bytes 2 raw). change (slice (pipe_header_bytes n) 0 4) with (le_bytes 4 1).
  change (slice (pipe_header_bytes n) 4 4) with (le_bytes 4 n).
  rewrite !le_num_bytes. split_and!; try reflexivity.
  - apply Z.mod_small. lia.
  - apply Z.mod_small. lia.
  - exact packet_content.
Qed.
End packet.

(** ** The operations *)

(** Pushing into a ring with room appends the packet to the stream. *)
Lemma push_stream r c : ring_ok r -> content_ok c -> room r (packet_size (Z.of_nat (length c))) ->
  exists r', PushPipePacket r c = Some r' /\ ring_ok r' /\ stream r' = stream r ++ packet (In r) c.
Proof.
  intros Hr Hc Hroom. set (n := Z.of_nat (length c)) in *.
  pose proof (raw_length_bounds n ltac:(lia)) as Hb.
  pose proof (packet_length (In r) c) as Hl. fold n in Hl.
  rewrite <- Hl in Hroom. destruct (stream_write r (packet (In r) c) Hr Hroom) as [Hok Hst].
  rewrite Hl in Hok, Hst, Hroom. unfold PushPipePacket. rewrite raw_length_eq by lia. fold n. unfold content_ok in Hc. fold n in Hc.
  rewrite ToUInt16_id by lia. cbn [mbind option_bind].
  rewrite Z.shiftl_mul_pow2 by lia. replace (raw_length_of n * 2 ^ 3 + 8) with (packet_size n) by (unfold packet_size; lia).
  change (packet_bytes (In r) (raw_length_of n) (packet_size n) c) with (packet (In r) c).
  rewrite (sizes_ok r Hr). cbn [mbind option_bind]. unfold room in Hroom. rewrite (proj2 (Z.ltb_ge _ _)) by lia.
  rewrite fragile_ok by (done || apply Hr). cbn [mbind option_bind]. cbn zeta in *.
  pose proof (ro_in _ Hok) as H1. pose proof (ro_size _ Hok) as H2. cbn [In] in H1.
  destruct (Out r <=? In r); cbn [andb] in *; rewrite ToUInt32_id by lia; cbn [mbind option_bind];
    (eexists; split; [reflexivity|]; split; [exact Hok|exact Hst]).
Qed.

(** [PopPipePacket] in terms of the stream. *)
Lemma pop_eq r : ring_ok r -> PopPipePacket r =
  let A := (ring_sizes r).1 in let F := DataMaximumSize r - Out r in
  let Length := Z.shiftl (u16_at (stream r) 4) 3 in let DataOffset := Z.shiftl (u16_at (stream r) 2) 3 in
  if A <? PipePacketHeaderSize then Some ([], r)
  else if negb (PacketType_of (u16_at (stream r) 0) =? DataInBand) then None
  else if (DataOffset <? PacketDescriptorSize) || (A <? DataOffset) || (Length <? DataOffset) then None
  else if A <? Length + 8 then None
  else
    let Rest := drop (Z.to_nat DataOffset) (stream r) in
    if negb (PipeMessageType_of (u32_at Rest 0) =? Data) then None
    else
      PipeDataSize ← ToInt32 (u32_at Rest 4);
      if Z.of_nat (length Rest) <? s32 (PipeHeaderSize + PipeDataSize) then None
      else
        FinalOffset ← ToUInt32 (Out r + (Length + 8));
        FinalOffset ← (if (In r <? Out r) && (F <? Length + 8) then ToUInt32 (Length + 8 - F) else Some FinalOffset);
        Some (slice Rest PipeHeaderSize PipeDataSize, Ring (In r) FinalOffset (data r)).
Proof.
  intros Hr. pose proof (stream_read r Hr) as Hread. cbn zeta in *. unfold PopPipePacket.
  rewrite (sizes_ok r Hr). cbn [mbind option_bind]. destruct (_ <? PipePacketHeaderSize); [done|].
  rewrite fragile_ok by (done || apply Hr). cbn [mbind option_bind].
  destruct (In r <? Out r); cbn [andb] in *; rewrite !Hread; reflexivity.
Qed.

(** What [GetMaximumPushSize] grants. *)
Lemma maximum_push_ok r : ring_ok r -> exists m, GetMaximumPushSize r = Some m /\ m <= MaximumPushSize.
Proof.
  intros Hr. unfold GetMaximumPushSize. rewrite (sizes_ok r Hr). eexists. split; [reflexivity|].
  cbn zeta. case_match; [done|lia].
Qed.

(** Popping from a ring whose stream starts with a packet returns its content and
    removes it. *)
Lemma pop_stream r i c rest : ring_ok r -> content_ok c -> stream r = packet i c ++ rest ->
  exists r', PopPipePacket r = Some (c, r') /\ ring_ok r' /\ stream r' = rest.
Proof.
  intros Hr Hc Hs. set (n := Z.of_nat (length c)) in *.
  pose proof (raw_length_bounds n ltac:(lia)) as Hb. pose proof (packet_length i c) as Hl. fold n in Hl.
  pose proof (stream_length r Hr) as Hav. rewrite Hs, length_app, Nat2Z.inj_add, Hl in Hav.
  destruct (packet_fields i c Hc rest) as (F0 & F2 & F4 & H0 & H4 & Hcont). rewrite <- Hs in F0, F2, F4, H0, H4, Hcont. fold n in F4, H4, Hcont.
  assert (Hps : packet_size n = 8 * raw_length_of n + 8) by done.
  rewrite (pop_eq r Hr). cbn zeta. set (A := (ring_sizes r).1) in *.
  change PipePacketHeaderSize with 24. change PacketDescriptorSize with 16. change PipeHeaderSize with 8.
  replace (A <? 24) with false by (symmetry; apply Z.ltb_ge; lia).
  rewrite F0, F2, F4. change (negb (PacketType_of 6 =? DataInBand)) with false. change (Z.shiftl 2 3) with 16.
  rewrite Z.shiftl_mul_pow2 by lia. change (2 ^ 3) with 8. change (16 <? 16) with false.
  replace (A <? 16) with false by (symmetry; apply Z.ltb_ge; lia).
  replace (raw_length_of n * 8 <? 16) with false by (symmetry; apply Z.ltb_ge; lia). cbn [orb].
  replace (A <? raw_length_of n * 8 + 8) with false by (symmetry; apply Z.ltb_ge; lia).
  change (Z.to_nat 16) with 16%nat. rewrite H0, H4. change (negb (PipeMessageType_of 1 =? Data)) with false.
  unfold content_ok in Hc. fold n in Hc. rewrite ToInt32_id by lia. cbn [mbind option_bind]. rewrite s32_id by lia.
  replace (Z.of_nat (length (drop 16 (stream r))) <? 8 + n) with false
    by (symmetry; apply Z.ltb_ge; rewrite length_drop, Hs, length_app; lia).
  rewrite Hcont. destruct (stream_consume r (packet_size n) Hr) as (Hok & Hst & Hu); [fold A; lia|]. cbn zeta in *.
  replace (raw_length_of n * 8 + 8) with (packet_size n) by lia.
  cbn [Out] in Hu. destruct Hr as [_ Ho Hsize]. rewrite (ToUInt32_id (Out r + _)) by lia. cbn [mbind option_bind]. rewrite convert_if by lia. cbn [mbind option_bind].
  eexists. split; [reflexivity|]. split; [exact Hok|]. rewrite Hst, Hs. rewrite drop_app_length' by lia. done.
Qed.

(** An empty stream pops nothing. *)
Lemma pop_empty r : ring_ok r -> stream r = [] -> PopPipePacket r = Some ([], r).
Proof.
  intros Hr Hs. pose proof (stream_length r Hr) as Hl. rewrite Hs in Hl. cbn in Hl.
  rewrite (pop_eq r Hr). cbn zeta. by rewrite <- Hl.
Qed.

(** ** The queue *)

(** The ring holds the packets of the contents [q]. *)
Inductive holds_queue : list Z -> list (list Z) -> Prop :=
  | hq_nil : holds_queue [] []
  | hq_cons i c s q : content_ok c -> holds_queue s q -> holds_queue (packet i c ++ s) (c :: q).

Lemma holds_queue_snoc s q i c : holds_queue s q -> content_ok c -> holds_queue (s ++ packet i c) (q ++ [c]).
Proof.
  intros Hq Hc. induction Hq as [|i' c' s q Hc' Hq IH]; cbn.
  - rewrite <- (app_nil_r (packet i c)). constructor; [done|constructor].
  - rewrite <- app_assoc. by constructor.
Qed.

Definition represents (r : ring) (q : list (list Z)) : Prop := ring_ok r /\ holds_queue (stream r) q.

Inductive ring_op := Push (c : list Z) | Pop.

(** A run of operations, with what each pop returned; [None] when one throws. *)
Fixpoint run_ring (ops : list ring_op) (r : ring) : option (list (list Z) * ring) :=
  match ops with
  | [] => Some ([], r)
  | Push c :: ops => match PushPipePacket r c with Some r' => run_ring ops r' | None => None end
  | Pop :: ops =>
      match PopPipePacket r with
      | Some (c, r') => match run_ring ops r' with Some (out, r'') => Some (c :: out, r'') | None => None end
      | None => None
      end
  end.

(** The same operations on a queue; popping an empty queue gives the empty content. *)
Fixpoint run_queue (ops : list ring_op) (q : list (list Z)) : list (list Z) * list (list Z) :=
  match ops with
  | [] => ([], q)
  | Push c :: ops => run_queue ops (q ++ [c])
  | Pop :: ops => let '(out, q') := run_queue ops (tail q) in (hd [] q :: out, q')
  end.

(** Every push finds room when its turn comes. *)
Fixpoint pushes_fit (ops : list ring_op) (r : ring) : Prop :=
  match ops with
  | [] => True
  | Push c :: ops => content_ok c /\ room r (packet_size (Z.of_nat (length c))) /\
      match PushPipePacket r c with Some r' => pushes_fit ops r' | None => True end
  | Pop :: ops => match PopPipePacket r with Some (_, r') => pushes_fit ops r' | None => True end
  end.

Lemma run_ring_queue ops r q : represents r q -> pushes_fit ops r ->
  exists r', run_ring ops r = Some ((run_queue ops q).1, r') /\ represents r' (run_queue ops q).2.
Proof.
  revert r q. induction ops as [|[c|] ops IH]; intros r q [Hr Hq] Hf; cbn in *.
  - by exists r.
  - destruct Hf as (Hc & Hroom & Hf). destruct (push_stream r c Hr Hc Hroom) as (r' & E & Hok & Hst).
    rewrite E in *. apply IH; [|done]. split; [done|]. rewrite Hst. by apply holds_queue_snoc.
  - inversion Hq as [Hs Hq0|i c s q0 Hc Hq0 Hs Hq1]; subst q.
    + rewrite (pop_empty r Hr (eq_sym Hs)) in *.
      destruct (IH r [] (conj Hr Hq)) as (r' & E & Hrep); [done|]. cbn [tail hd].
      destruct (run_queue ops []) as [out q']. cbn in *. rewrite E. by exists r'.
    + destruct (pop_stream r i c s Hr Hc (eq_sym Hs)) as (r1 & E1 & Hok & Hst). rewrite E1 in *.
      destruct (IH r1 q0) as (r' & E & Hrep); [split; [done|by rewrite Hst]|done|]. cbn [tail hd].
      destruct (run_queue ops q0) as [out q']. cbn in *. rewrite E. by exists r'.
Qed.

(** ** The host *)

(** A host that follows the protocol of pipe packets: a packet that fits goes behind what the ring
    holds, and what it takes is the oldest packet, nothing when the ring is empty. *)
Class HostOk `{Host} := {
  host_push_ok r x : ring_ok r -> content_ok x -> room r (packet_size (Z.of_nat (length x))) ->
    exists i r', host_push x r = Some r' /\ ring_ok r' /\ stream r' = stream r ++ packet i x;
  host_take_ok r i x rest : ring_ok r -> content_ok x -> stream r = packet i x ++ rest ->
    exists r', host_take r = Some (x, r') /\ ring_ok r' /\ stream r' = rest;
  host_take_empty r : ring_ok r -> stream r = [] -> host_take r = Some ([], r) }.

(** A host that does with its side what the application does. *)
#[local] Instance pipe_host : Host := { host_push x r := PushPipePacket r x; host_take := PopPipePacket }.

#[local] Instance pipe_host_ok : HostOk.
Proof.
  split.
  - intros r x Hr Hx Hroom. exists (In r). by apply push_stream.
  - intros r i x rest. apply pop_stream.
  - intros r. apply pop_empty.
Qed.
