(* ===== verification/RingProps.v ===== *)
(** * Properties of the user-space rings *)

From S2P Require Import Prelude CLayout CLayoutSpec CAccess GuestInterface GuestProtocols TlfsBase TlfsState TlfsPartition TlfsSymbols TlfsCpuid TlfsCalls VMBusDevices Ring RingSpec.

(** C24. A ring that starts empty and on which any sequence of pushes and pops runs, each
    push finding more room than its packet needs, behaves as a first-in first-out
    queue of message contents: no operation throws, every pop returns the oldest
    content, and the bytes left in the ring are the packets of the contents left
    in the queue. *)
Theorem ring_refines_queue ops r q :
  represents r q -> pushes_fit ops r ->
  exists r', run_ring ops r = Some ((run_queue ops q).1, r') /\ represents r' (run_queue ops q).2.
Proof. apply run_ring_queue. Qed.

(** What is pushed into an empty ring is what the next pop returns, wherever in
    the ring the packet falls and whatever the data area held before, and the ring
    is empty again. *)
Theorem push_pop_roundtrip r c :
  ring_ok r -> In r = Out r -> content_ok c -> room r (packet_size (Z.of_nat (length c))) ->
  exists r1 r2, PushPipePacket r c = Some r1 /\ PopPipePacket r1 = Some (c, r2) /\
    ring_ok r2 /\ stream r2 = [].
Proof.
  intros Hr He Hc Hroom. destruct (push_stream r c Hr Hc Hroom) as (r1 & E1 & H1 & S1).
  assert (S0 : stream r = []).
  { unfold stream. rewrite He, Z.leb_refl, Z.sub_diag. unfold slice. apply take_0. }
  rewrite S0 in S1. cbn in S1. rewrite <- (app_nil_r (packet _ _)) in S1.
  destruct (pop_stream r1 _ c [] H1 Hc S1) as (r2 & E2 & H2 & S2). by exists r1, r2.
Qed.

(** A pop never reads past the packets in the ring: on a ring whose offsets are in
    range it either throws, or returns no content and changes nothing, or returns a
    content that lies in the readable bytes and frees only readable bytes. *)
Theorem pop_in_bounds r c r' :
  ring_ok r -> PopPipePacket r = Some (c, r') ->
  ring_ok r' /\ In r' = In r /\ data r' = data r /\
  (exists k, (k <= length (stream r))%nat /\ stream r' = drop k (stream r)) /\
  (c = [] \/ exists i, (i + length c <= length (stream r))%nat /\ c = take (length c) (drop i (stream r))).
Proof.
  intros Hr. pose proof (stream_length r Hr) as Hl.
  rewrite (pop_eq r Hr). cbn zeta. set (A := (ring_sizes r).1) in *.
  destruct (A <? PipePacketHeaderSize) eqn:E0.
  { intros [= <- <-]. split_and!; try done; [|by left]. exists 0%nat. split; [lia|done]. }
  destruct (negb (PacketType_of _ =? _)) eqn:E1; [done|]. destruct (_ || _) eqn:E2; [done|].
  set (L := Z.shiftl (u16_at (stream r) 4) 3) in *.
  destruct (A <? L + 8) eqn:E3; [done|]. set (off := Z.shiftl (u16_at (stream r) 2) 3) in *.
  destruct (negb (PipeMessageType_of _ =? _)) eqn:E4; [done|].
  intros H. apply bind_Some in H as (n & E5 & H). destruct (_ <? s32 (PipeHeaderSize + n)) eqn:E6; [done|].
  apply bind_Some in H as (o1 & E7 & H). apply bind_Some in H as (o & E8 & H). injection H as <- <-.
  zify_bool. change PipePacketHeaderSize with 24 in *. change PacketDescriptorSize with 16 in *.
  change PipeHeaderSize with 8 in *.
  destruct (stream_consume r (L + 8) Hr) as (Hok & Hst & _); [fold A; lia|]. cbn zeta in *.
  apply ToUInt32_Some in E7 as ->. apply converted_if in E8 as ->.
  split_and!; [exact Hok|done|done| |].
  - exists (Z.to_nat (L + 8)). split; [lia|exact Hst].
  - right. exists (Z.to_nat off + 8)%nat. unfold slice. rewrite drop_drop.
    change (Z.to_nat 8) with 8%nat. rewrite length_take, length_drop. split; [lia|].
    rewrite <- (take_drop (Z.to_nat n) (drop (Z.to_nat off + 8) (stream r))) at 2.
    rewrite take_app_length'; [done|]. by rewrite length_take, length_drop.
Qed.

(** A ring whose offsets are equal looks empty. *)
Lemma full_ring_empty o d : exists r', Some (Ring o o d) = Some r' /\ In r' = Out r' /\ PopPipePacket r' = Some ([], r').
Proof.
  eexists. split; [reflexivity|]. split; [done|]. unfold PopPipePacket, GetAvailableSizeInformation. cbn [In Out].
  rewrite Z.leb_refl, Z.sub_diag, ToInt32_id by lia. reflexivity.
Qed.

(** C39. [GetMaximumPushSize] lets a packet fill the ring to the last byte.  Pushing that
    many bytes into a ring whose [Out] offset is not 0 succeeds and makes the two
    offsets equal: the ring looks empty, the packet and all that were in the ring
    before are lost. *)
Theorem push_maximum_empties r c R W :
  ring_ok r -> 0 < Out r -> GetAvailableSizeInformation r = Some (R, W) -> W mod 8 = 0 -> 32 <= W <= MaximumPushSize + 32 ->
  GetMaximumPushSize r = Some (Z.of_nat (length c)) ->
  exists r', PushPipePacket r c = Some r' /\ In r' = Out r' /\ PopPipePacket r' = Some ([], r').
Proof.
  intros Hr Hout Hav Hmod HW Hlen. unfold MaximumPushSize in *.
  assert (Hn : Z.of_nat (length c) = W - 32).
  { unfold GetMaximumPushSize in Hlen. rewrite Hav in Hlen. cbn [mbind option_bind snd] in Hlen. injection Hlen as <-.
    change (PipePacketHeaderSize + 8) with 32.
    assert (Z.rem (W - 32) 8 = 0) as ->.
    { rewrite Z.rem_mod_nonneg by lia. replace (W - 32) with (W + (-4) * 8) by lia. rewrite Z.mod_add by lia. done. }
    rewrite Z.sub_0_r, (proj2 (Z.ltb_ge _ _)) by lia. unfold MaximumPushSize. lia. }
  set (n := Z.of_nat (length c)) in *.
  assert (Hraw : 8 * raw_length_of n = 24 + n).
  { apply Z.mod_divide in Hmod as [k Hk]; [|lia]. unfold raw_length_of. rewrite round_up_id; [|lia|exists (k - 1); lia].
    replace (24 + n) with ((k - 1) * 8) by lia. rewrite Z.div_mul; lia. }
  pose proof (sizes_ok r Hr) as Es. rewrite Hav in Es. injection Es as Es.
  pose proof (packet_length (In r) c) as Hl. fold n in Hl. pose proof Hr as [Hi Ho Hs].
  unfold PushPipePacket. rewrite raw_length_eq by lia. fold n. rewrite ToUInt16_id by lia. cbn [mbind option_bind].
  rewrite Z.shiftl_mul_pow2 by lia. replace (raw_length_of n * 2 ^ 3 + 8) with W by lia.
  rewrite Hav. cbn [mbind option_bind snd]. rewrite Z.ltb_irrefl, fragile_ok by done. cbn [mbind option_bind].
  unfold ring_sizes in Es. destruct (Z.leb_spec (Out r) (In r)) as [E|E]; injection Es as -> ->; cbn [andb].
  - rewrite (proj2 (Z.ltb_lt (DataMaximumSize r - In r) _)) by lia.
    replace (DataMaximumSize r - (In r - Out r) - (DataMaximumSize r - In r)) with (Out r) by lia.
    rewrite (proj2 (Z.ltb_lt 0 (Out r))), ToUInt32_id by lia. by apply full_ring_empty.
  - change (0 <? 0) with false. replace (In r + (Out r - In r)) with (Out r) by lia.
    rewrite ToUInt32_id by lia. by apply full_ring_empty.
Qed.

(** The structures of the C# application lie in memory as the C declarations do: the
    ring's control block, the packet descriptor, the pipe header. *)
Theorem csharp_layouts b :
  let shape t := (sizeof b t, map (fun m => (p_off m, p_width m)) (members_of b t)) in
  shape PacketDescriptor = shape VMPACKET_DESCRIPTOR /\
  shape RingControlBlock = shape VMRCB /\
  sizeof b PipeHeader = sizeof b VMPIPE_PROTOCOL_HEADER /\
  locate b PipeHeader [Dot "RawPacketType"] = Some (0, 32, UINT32) /\
  locate b VMPIPE_PROTOCOL_HEADER [Dot "PacketType"] = Some (0, 32, UINT32) /\
  locate b PipeHeader [Dot "RawDataSize"] = locate b VMPIPE_PROTOCOL_HEADER [Dot "DataSize"] /\
  enum_value VMBUS_PACKET_TYPE "VmbusPacketTypeDataInBand" = DataInBand /\
  enum_value VMPIPE_PROTOCOL_MESSAGE_TYPE "VmPipeMessageData" = Data.
Proof. destruct b; vm_compute; repeat split. Qed.

(** ** Witnesses *)

Module Witness.

Definition r0 : ring := Ring 100 100 (replicate 128 0).
Lemma r0_ok : ring_ok r0.
Proof. by split. Qed.

Definition ops : list ring_op := [Push [1; 2; 3]; Pop; Push []; Push [7]; Pop; Pop; Pop].
Lemma ops_fit : pushes_fit ops r0.
Proof. vm_compute. repeat split. Qed.

Lemma r0_empty : represents r0 [].
Proof. split; [exact r0_ok|exact hq_nil]. Qed.

Lemma ring_refines_queue_witness :
  exists r', run_ring ops r0 = Some (([[1; 2; 3]; []; [7]; []] : list (list Z)), r') /\ represents r' [].
Proof. exact (ring_refines_queue ops r0 [] r0_empty ops_fit). Defined.

Lemma room_3 : room r0 (packet_size 3).
Proof. vm_compute. reflexivity. Qed.
Lemma content_3 : content_ok [1; 2; 3].
Proof. vm_compute. reflexivity. Qed.

Lemma push_pop_roundtrip_witness :
  exists r1 r2, PushPipePacket r0 [1; 2; 3] = Some r1 /\ PopPipePacket r1 = Some ([1; 2; 3], r2) /\
    ring_ok r2 /\ stream r2 = [].
Proof. exact (push_pop_roundtrip r0 [1; 2; 3] r0_ok eq_refl content_3 room_3). Defined.

Lemma pop_in_bounds_witness : ring_ok r0 /\ In r0 = In r0 /\ data r0 = data r0 /\
  (exists k, (k <= length (stream r0))%nat /\ stream r0 = drop k (stream r0)) /\
  (([] : list Z) = [] \/ exists i, (i + @length Z [] <= length (stream r0))%nat /\ ([] : list Z) = take (@length Z []) (drop i (stream r0))).
Proof. exact (pop_in_bounds r0 [] r0 r0_ok eq_refl). Defined.

Lemma push_maximum_empties_witness :
  exists r', PushPipePacket r0 (replicate 96 7) = Some r' /\ In r' = Out r' /\ PopPipePacket r' = Some ([], r').
Proof.
  refine (push_maximum_empties r0 (replicate 96 7) 0 128 r0_ok _ _ _ _ _); try (vm_compute; reflexivity).
  split; vm_compute; congruence.
Defined.
End Witness.
