(* ===== verification/HvTrace.v ===== *)
(** * The trace points of the VMBus core ([hv_trace.h])

    Each [TRACE_EVENT] declares a record that is stored in the trace buffer, how it is
    filled from the message that is sent or received, and how it is printed.  The
    messages are structures of the kernel's headers; their records here have the
    fields the trace points read.  [%pUl], the kernel's own conversion for GUIDs, is
    a parameter. *)

From Stdlib Require Import Ascii.
From S2P Require Import Prelude CLayout.

(** ** printf *)

(** An argument after the default promotions: 32 bits unsigned or signed, 64 bits, or
    a pointer to the 16 bytes of a GUID. *)
Inductive arg := AUint (v : Z) | AInt (v : Z) | AUlong (v : Z) | AGuid (b : list Z).

Class Printk := { fmt_pUl : list Z -> string }.

(** A format string is literal characters and the conversions [%d], [%u], [%x], [%llx]
    and [%pUl]; others are not used. *)
Inductive conv := Cd | Cu | Cx | Cllx | CpUl.
Inductive piece := Lit (c : Ascii.ascii) | Conv (k : conv).

Definition conv_of (s : string) : option conv :=
  if String.eqb s "d" then Some Cd else if String.eqb s "u" then Some Cu else if String.eqb s "x" then Some Cx
  else if String.eqb s "llx" then Some Cllx else if String.eqb s "pUl" then Some CpUl else None.

(** [conv] is what has been read of a conversion. *)
Fixpoint pieces (conv : option string) (fmt : string) : option (list piece) :=
  match fmt, conv with
  | EmptyString, None => Some []
  | EmptyString, Some _ => None
  | String c fmt, None =>
      if Ascii.eqb c "%"%char then pieces (Some EmptyString) fmt
      else ps ← pieces None fmt; Some (Lit c :: ps)
  | String c fmt, Some s =>
      let s := s +:+ String c EmptyString in
      match conv_of s with
      | Some k => ps ← pieces None fmt; Some (Conv k :: ps)
      | None => pieces (Some s) fmt
      end
  end.

Section printk.
Context `{Printk}.

Definition fmt_arg (k : conv) (a : arg) : option string :=
  match k, a with
  | Cd, (AUint v | AInt v) => Some (fmt_d (s32 v))
  | Cu, (AUint v | AInt v) => Some (fmt_d (u32 v))
  | Cx, (AUint v | AInt v) => Some (fmt_x (u32 v))
  | Cllx, AUlong v => Some (fmt_x (u64 v))
  | CpUl, AGuid b => Some (fmt_pUl b)
  | _, _ => None
  end.

(** An argument of another type, a missing or a spare argument is undefined
    behaviour. *)
Fixpoint fmt_pieces (ps : list piece) (args : list arg) : option string :=
  match ps, args with
  | [], [] => Some EmptyString
  | Lit c :: ps, _ => s ← fmt_pieces ps args; Some (String c s)
  | Conv k :: ps, a :: args => t ← fmt_arg k a; s ← fmt_pieces ps args; Some (t +:+ s)
  | _, _ => None
  end.

Definition printk (fmt : string) (args : list arg) : option string :=
  ps ← pieces None fmt; fmt_pieces ps args.
End printk.

(** [export_guid]: the 16 bytes of a [guid_t]. *)
Definition guid_t := list Z.
Definition export_guid (g : guid_t) : list Z := take 16 g.

(** ** The messages *)

Record vmbus_channel_message_header := Mk_message_header {
  message_header_msgtype : Z }.
Record vmbus_channel_offer := Mk_offer {
  offer_if_type : guid_t;
  offer_if_instance : guid_t;
  offer_chn_flags : Z;
  offer_mmio_megabytes : Z;
  offer_sub_channel_index : Z }.
Record vmbus_channel_offer_channel := Mk_offer_channel {
  offer_channel_offer : vmbus_channel_offer;
  offer_channel_child_relid : Z;
  offer_channel_monitorid : Z;
  offer_channel_is_dedicated_interrupt : Z;
  offer_channel_connection_id : Z }.
Record vmbus_channel_rescind_offer := Mk_rescind_offer {
  rescind_offer_child_relid : Z }.
Record vmbus_channel_open_result := Mk_open_result {
  open_result_child_relid : Z; open_result_openid : Z; open_result_status : Z }.
Record vmbus_channel_gpadl_created := Mk_gpadl_created {
  gpadl_created_child_relid : Z; gpadl_created_gpadl : Z; gpadl_created_creation_status : Z }.
Record vmbus_channel_modifychannel_response := Mk_modifychannel_response {
  modifychannel_response_child_relid : Z; modifychannel_response_status : Z }.
Record vmbus_channel_gpadl_torndown := Mk_gpadl_torndown {
  gpadl_torndown_gpadl : Z }.
Record vmbus_channel_version_response := Mk_version_response {
  version_response_version_supported : Z }.
Record vmbus_channel_open_channel := Mk_open_channel {
  open_channel_child_relid : Z;
  open_channel_openid : Z;
  open_channel_ringbuffer_gpadlhandle : Z;
  open_channel_target_vp : Z;
  open_channel_downstream_ringbuffer_pageoffset : Z }.
Record vmbus_channel_close_channel := Mk_close_channel {
  close_channel_child_relid : Z }.
Record vmbus_channel_gpadl_header := Mk_gpadl_header {
  gpadl_header_child_relid : Z;
  gpadl_header_gpadl : Z;
  gpadl_header_range_buflen : Z;
  gpadl_header_rangecount : Z }.
Record vmbus_channel_gpadl_body := Mk_gpadl_body {
  gpadl_body_msgnumber : Z; gpadl_body_gpadl : Z }.
Record vmbus_channel_gpadl_teardown := Mk_gpadl_teardown {
  gpadl_teardown_child_relid : Z; gpadl_teardown_gpadl : Z }.
Record vmbus_channel_initiate_contact := Mk_initiate_contact {
  initiate_contact_vmbus_version_requested : Z;
  initiate_contact_target_vcpu : Z;
  initiate_contact_interrupt_page : Z;
  initiate_contact_monitor_page1 : Z;
  initiate_contact_monitor_page2 : Z }.
Record vmbus_channel_relid_released := Mk_relid_released {
  relid_released_child_relid : Z }.
Record vmbus_channel_tl_connect_request := Mk_tl_connect_request {
  tl_connect_request_guest_endpoint_id : guid_t; tl_connect_request_host_service_id : guid_t }.
Record vmbus_channel_modifychannel := Mk_modifychannel {
  modifychannel_child_relid : Z; modifychannel_target_vp : Z }.
(** [struct vmbus_channel], as far as the trace points read it: [offermsg]. *)
Record traced_channel := Mk_traced_channel { offermsg : vmbus_channel_offer_channel }.

(** ** The events *)

Section events.
Context `{Printk}.

Record vmbus_hdr_msg_entry := Mk_vmbus_hdr_msg { vmbus_hdr_msg__msgtype : Z }.
Definition vmbus_hdr_msg_assign (hdr : vmbus_channel_message_header) : vmbus_hdr_msg_entry :=
  Mk_vmbus_hdr_msg (u32 (message_header_msgtype hdr)).
Definition vmbus_hdr_msg_printk (e : vmbus_hdr_msg_entry) : option string :=
  printk "msgtype=%u"
    [AUint (vmbus_hdr_msg__msgtype e)].

Record vmbus_onoffer_entry := Mk_vmbus_onoffer {
  vmbus_onoffer__child_relid : Z;
  vmbus_onoffer__monitorid : Z;
  vmbus_onoffer__is_ddc_int : Z;
  vmbus_onoffer__connection_id : Z;
  vmbus_onoffer__if_type : list Z;
  vmbus_onoffer__if_instance : list Z;
  vmbus_onoffer__chn_flags : Z;
  vmbus_onoffer__mmio_mb : Z;
  vmbus_onoffer__sub_idx : Z }.
Definition vmbus_onoffer_assign (offer : vmbus_channel_offer_channel) : vmbus_onoffer_entry :=
  Mk_vmbus_onoffer
    (u32 (offer_channel_child_relid offer))
    (u8 (offer_channel_monitorid offer))
    (u16 (offer_channel_is_dedicated_interrupt offer))
    (u32 (offer_channel_connection_id offer))
    (export_guid (offer_if_type (offer_channel_offer offer)))
    (export_guid (offer_if_instance (offer_channel_offer offer)))
    (u16 (offer_chn_flags (offer_channel_offer offer)))
    (u16 (offer_mmio_megabytes (offer_channel_offer offer)))
    (u16 (offer_sub_channel_index (offer_channel_offer offer))).
Definition vmbus_onoffer_printk (e : vmbus_onoffer_entry) : option string :=
  printk "child_relid 0x%x, monitorid 0x%x, is_dedicated %d, connection_id 0x%x, if_type %pUl, if_instance %pUl, chn_flags 0x%x, mmio_megabytes %d, sub_channel_index %d"
    [AUint (vmbus_onoffer__child_relid e);
     AUint (vmbus_onoffer__monitorid e);
     AUint (vmbus_onoffer__is_ddc_int e);
     AUint (vmbus_onoffer__connection_id e);
     AGuid (vmbus_onoffer__if_type e);
     AGuid (vmbus_onoffer__if_instance e);
     AUint (vmbus_onoffer__chn_flags e);
     AUint (vmbus_onoffer__mmio_mb e);
     AUint (vmbus_onoffer__sub_idx e)].

Record vmbus_onoffer_rescind_entry := Mk_vmbus_onoffer_rescind { vmbus_onoffer_rescind__child_relid : Z }.
Definition vmbus_onoffer_rescind_assign (offer : vmbus_channel_rescind_offer) : vmbus_onoffer_rescind_entry :=
  Mk_vmbus_onoffer_rescind (u32 (rescind_offer_child_relid offer)).
Definition vmbus_onoffer_rescind_printk (e : vmbus_onoffer_rescind_entry) : option string :=
  printk "child_relid 0x%x"
    [AUint (vmbus_onoffer_rescind__child_relid e)].

Record vmbus_onopen_result_entry := Mk_vmbus_onopen_result {
  vmbus_onopen_result__child_relid : Z;
  vmbus_onopen_result__openid : Z;
  vmbus_onopen_result__status : Z }.
Definition vmbus_onopen_result_assign (result : vmbus_channel_open_result) : vmbus_onopen_result_entry :=
  Mk_vmbus_onopen_result (u32 (open_result_child_relid result)) (u32 (open_result_openid result)) (u32 (open_result_status result)).
Definition vmbus_onopen_result_printk (e : vmbus_onopen_result_entry) : option string :=
  printk "child_relid 0x%x, openid %d, status %d"
    [AUint (vmbus_onopen_result__child_relid e);
     AUint (vmbus_onopen_result__openid e);
     AUint (vmbus_onopen_result__status e)].

Record vmbus_ongpadl_created_entry := Mk_vmbus_ongpadl_created {
  vmbus_ongpadl_created__child_relid : Z;
  vmbus_ongpadl_created__gpadl : Z;
  vmbus_ongpadl_created__status : Z }.
Definition vmbus_ongpadl_created_assign (gpadlcreated : vmbus_channel_gpadl_created) : vmbus_ongpadl_created_entry :=
  Mk_vmbus_ongpadl_created (u32 (gpadl_created_child_relid gpadlcreated)) (u32 (gpadl_created_gpadl gpadlcreated)) (u32 (gpadl_created_creation_status gpadlcreated)).
Definition vmbus_ongpadl_created_printk (e : vmbus_ongpadl_created_entry) : option string :=
  printk "child_relid 0x%x, gpadl 0x%x, creation_status %d"
    [AUint (vmbus_ongpadl_created__child_relid e);
     AUint (vmbus_ongpadl_created__gpadl e);
     AUint (vmbus_ongpadl_created__status e)].

Record vmbus_onmodifychannel_response_entry := Mk_vmbus_onmodifychannel_response { vmbus_onmodifychannel_response__child_relid : Z; vmbus_onmodifychannel_response__status : Z }.
Definition vmbus_onmodifychannel_response_assign (response : vmbus_channel_modifychannel_response) : vmbus_onmodifychannel_response_entry :=
  Mk_vmbus_onmodifychannel_response (u32 (modifychannel_response_child_relid response)) (u32 (modifychannel_response_status response)).
Definition vmbus_onmodifychannel_response_printk (e : vmbus_onmodifychannel_response_entry) : option string :=
  printk "child_relid 0x%x, status %d"
    [AUint (vmbus_onmodifychannel_response__child_relid e);
     AUint (vmbus_onmodifychannel_response__status e)].

Record vmbus_ongpadl_torndown_entry := Mk_vmbus_ongpadl_torndown { vmbus_ongpadl_torndown__gpadl : Z }.
Definition vmbus_ongpadl_torndown_assign (gpadltorndown : vmbus_channel_gpadl_torndown) : vmbus_ongpadl_torndown_entry :=
  Mk_vmbus_ongpadl_torndown (u32 (gpadl_torndown_gpadl gpadltorndown)).
Definition vmbus_ongpadl_torndown_printk (e : vmbus_ongpadl_torndown_entry) : option string :=
  printk "gpadl 0x%x"
    [AUint (vmbus_ongpadl_torndown__gpadl e)].

Record vmbus_onversion_response_entry := Mk_vmbus_onversion_response { vmbus_onversion_response__ver : Z }.
Definition vmbus_onversion_response_assign (response : vmbus_channel_version_response) : vmbus_onversion_response_entry :=
  Mk_vmbus_onversion_response (u8 (version_response_version_supported response)).
Definition vmbus_onversion_response_printk (e : vmbus_onversion_response_entry) : option string :=
  printk "version_supported %d"
    [AUint (vmbus_onversion_response__ver e)].

Record vmbus_request_offers_entry := Mk_vmbus_request_offers { vmbus_request_offers__ret : Z }.
Definition vmbus_request_offers_assign (ret : Z) : vmbus_request_offers_entry :=
  Mk_vmbus_request_offers (s32 ret).
Definition vmbus_request_offers_printk (e : vmbus_request_offers_entry) : option string :=
  printk "sending ret %d"
    [AInt (vmbus_request_offers__ret e)].

Record vmbus_open_entry := Mk_vmbus_open {
  vmbus_open__child_relid : Z;
  vmbus_open__openid : Z;
  vmbus_open__gpadlhandle : Z;
  vmbus_open__target_vp : Z;
  vmbus_open__offset : Z;
  vmbus_open__ret : Z }.
Definition vmbus_open_assign (msg : vmbus_channel_open_channel) (ret : Z) : vmbus_open_entry :=
  Mk_vmbus_open
    (u32 (open_channel_child_relid msg))
    (u32 (open_channel_openid msg))
    (u32 (open_channel_ringbuffer_gpadlhandle msg))
    (u32 (open_channel_target_vp msg))
    (u32 (open_channel_downstream_ringbuffer_pageoffset msg))
    (s32 ret).
Definition vmbus_open_printk (e : vmbus_open_entry) : option string :=
  printk "sending child_relid 0x%x, openid %d, gpadlhandle 0x%x, target_vp 0x%x, offset 0x%x, ret %d"
    [AUint (vmbus_open__child_relid e);
     AUint (vmbus_open__openid e);
     AUint (vmbus_open__gpadlhandle e);
     AUint (vmbus_open__target_vp e);
     AUint (vmbus_open__offset e);
     AInt (vmbus_open__ret e)].

Record vmbus_close_internal_entry := Mk_vmbus_close_internal { vmbus_close_internal__child_relid : Z; vmbus_close_internal__ret : Z }.
Definition vmbus_close_internal_assign (msg : vmbus_channel_close_channel) (ret : Z) : vmbus_close_internal_entry :=
  Mk_vmbus_close_internal (u32 (close_channel_child_relid msg)) (s32 ret).
Definition vmbus_close_internal_printk (e : vmbus_close_internal_entry) : option string :=
  printk "sending child_relid 0x%x, ret %d"
    [AUint (vmbus_close_internal__child_relid e); AInt (vmbus_close_internal__ret e)].

Record vmbus_establish_gpadl_header_entry := Mk_vmbus_establish_gpadl_header {
  vmbus_establish_gpadl_header__child_relid : Z;
  vmbus_establish_gpadl_header__gpadl : Z;
  vmbus_establish_gpadl_header__range_buflen : Z;
  vmbus_establish_gpadl_header__rangecount : Z;
  vmbus_establish_gpadl_header__ret : Z }.
Definition vmbus_establish_gpadl_header_assign (msg : vmbus_channel_gpadl_header) (ret : Z) : vmbus_establish_gpadl_header_entry :=
  Mk_vmbus_establish_gpadl_header
    (u32 (gpadl_header_child_relid msg))
    (u32 (gpadl_header_gpadl msg))
    (u16 (gpadl_header_range_buflen msg))
    (u16 (gpadl_header_rangecount msg))
    (s32 ret).
Definition vmbus_establish_gpadl_header_printk (e : vmbus_establish_gpadl_header_entry) : option string :=
  printk "sending child_relid 0x%x, gpadl 0x%x, range_buflen %d rangecount %d, ret %d"
    [AUint (vmbus_establish_gpadl_header__child_relid e);
     AUint (vmbus_establish_gpadl_header__gpadl e);
     AUint (vmbus_establish_gpadl_header__range_buflen e);
     AUint (vmbus_establish_gpadl_header__rangecount e);
     AInt (vmbus_establish_gpadl_header__ret e)].

Record vmbus_establish_gpadl_body_entry := Mk_vmbus_establish_gpadl_body {
  vmbus_establish_gpadl_body__msgnumber : Z;
  vmbus_establish_gpadl_body__gpadl : Z;
  vmbus_establish_gpadl_body__ret : Z }.
Definition vmbus_establish_gpadl_body_assign (msg : vmbus_channel_gpadl_body) (ret : Z) : vmbus_establish_gpadl_body_entry :=
  Mk_vmbus_establish_gpadl_body (u32 (gpadl_body_msgnumber msg)) (u32 (gpadl_body_gpadl msg)) (s32 ret).
Definition vmbus_establish_gpadl_body_printk (e : vmbus_establish_gpadl_body_entry) : option string :=
  printk "sending msgnumber %d, gpadl 0x%x, ret %d"
    [AUint (vmbus_establish_gpadl_body__msgnumber e);
     AUint (vmbus_establish_gpadl_body__gpadl e);
     AInt (vmbus_establish_gpadl_body__ret e)].

Record vmbus_teardown_gpadl_entry := Mk_vmbus_teardown_gpadl {
  vmbus_teardown_gpadl__child_relid : Z;
  vmbus_teardown_gpadl__gpadl : Z;
  vmbus_teardown_gpadl__ret : Z }.
Definition vmbus_teardown_gpadl_assign (msg : vmbus_channel_gpadl_teardown) (ret : Z) : vmbus_teardown_gpadl_entry :=
  Mk_vmbus_teardown_gpadl (u32 (gpadl_teardown_child_relid msg)) (u32 (gpadl_teardown_gpadl msg)) (s32 ret).
Definition vmbus_teardown_gpadl_printk (e : vmbus_teardown_gpadl_entry) : option string :=
  printk "sending child_relid 0x%x, gpadl 0x%x, ret %d"
    [AUint (vmbus_teardown_gpadl__child_relid e);
     AUint (vmbus_teardown_gpadl__gpadl e);
     AInt (vmbus_teardown_gpadl__ret e)].

Record vmbus_negotiate_version_entry := Mk_vmbus_negotiate_version {
  vmbus_negotiate_version__ver : Z;
  vmbus_negotiate_version__target_vcpu : Z;
  vmbus_negotiate_version__ret : Z;
  vmbus_negotiate_version__int_page : Z;
  vmbus_negotiate_version__mon_page1 : Z;
  vmbus_negotiate_version__mon_page2 : Z }.
Definition vmbus_negotiate_version_assign (msg : vmbus_channel_initiate_contact) (ret : Z) : vmbus_negotiate_version_entry :=
  Mk_vmbus_negotiate_version
    (u32 (initiate_contact_vmbus_version_requested msg))
    (u32 (initiate_contact_target_vcpu msg))
    (s32 ret)
    (u64 (initiate_contact_interrupt_page msg))
    (u64 (initiate_contact_monitor_page1 msg))
    (u64 (initiate_contact_monitor_page2 msg)).
Definition vmbus_negotiate_version_printk (e : vmbus_negotiate_version_entry) : option string :=
  printk "sending vmbus_version_requested %d, target_vcpu 0x%x, pages %llx:%llx:%llx, ret %d"
    [AUint (vmbus_negotiate_version__ver e);
     AUint (vmbus_negotiate_version__target_vcpu e);
     AUlong (vmbus_negotiate_version__int_page e);
     AUlong (vmbus_negotiate_version__mon_page1 e);
     AUlong (vmbus_negotiate_version__mon_page2 e);
     AInt (vmbus_negotiate_version__ret e)].

Record vmbus_release_relid_entry := Mk_vmbus_release_relid { vmbus_release_relid__child_relid : Z; vmbus_release_relid__ret : Z }.
Definition vmbus_release_relid_assign (msg : vmbus_channel_relid_released) (ret : Z) : vmbus_release_relid_entry :=
  Mk_vmbus_release_relid (u32 (relid_released_child_relid msg)) (s32 ret).
Definition vmbus_release_relid_printk (e : vmbus_release_relid_entry) : option string :=
  printk "sending child_relid 0x%x, ret %d"
    [AUint (vmbus_release_relid__child_relid e); AInt (vmbus_release_relid__ret e)].

Record vmbus_send_tl_connect_request_entry := Mk_vmbus_send_tl_connect_request {
  vmbus_send_tl_connect_request__guest_id : list Z;
  vmbus_send_tl_connect_request__host_id : list Z;
  vmbus_send_tl_connect_request__ret : Z }.
Definition vmbus_send_tl_connect_request_assign (msg : vmbus_channel_tl_connect_request) (ret : Z) : vmbus_send_tl_connect_request_entry :=
  Mk_vmbus_send_tl_connect_request (export_guid (tl_connect_request_guest_endpoint_id msg)) (export_guid (tl_connect_request_host_service_id msg)) (s32 ret).
Definition vmbus_send_tl_connect_request_printk (e : vmbus_send_tl_connect_request_entry) : option string :=
  printk "sending guest_endpoint_id %pUl, host_service_id %pUl, ret %d"
    [AGuid (vmbus_send_tl_connect_request__guest_id e);
     AGuid (vmbus_send_tl_connect_request__host_id e);
     AInt (vmbus_send_tl_connect_request__ret e)].

Record vmbus_send_modifychannel_entry := Mk_vmbus_send_modifychannel {
  vmbus_send_modifychannel__child_relid : Z;
  vmbus_send_modifychannel__target_vp : Z;
  vmbus_send_modifychannel__ret : Z }.
Definition vmbus_send_modifychannel_assign (msg : vmbus_channel_modifychannel) (ret : Z) : vmbus_send_modifychannel_entry :=
  Mk_vmbus_send_modifychannel (u32 (modifychannel_child_relid msg)) (u32 (modifychannel_target_vp msg)) (s32 ret).
Definition vmbus_send_modifychannel_printk (e : vmbus_send_modifychannel_entry) : option string :=
  printk "binding child_relid 0x%x to target_vp 0x%x, ret %d"
    [AUint (vmbus_send_modifychannel__child_relid e);
     AUint (vmbus_send_modifychannel__target_vp e);
     AInt (vmbus_send_modifychannel__ret e)].

Record vmbus_channel_entry := Mk_vmbus_channel { vmbus_channel__relid : Z }.
Definition vmbus_channel_assign (channel : traced_channel) : vmbus_channel_entry :=
  Mk_vmbus_channel (u32 (offer_channel_child_relid (offermsg channel))).
Definition vmbus_channel_printk (e : vmbus_channel_entry) : option string :=
  printk "relid 0x%x"
    [AUint (vmbus_channel__relid e)].
End events.

(** ** The trace buffer *)

(** What is stored, and the calls that store it: the events of a class share a record. *)
Inductive trace_entry :=
| E_vmbus_hdr_msg (e : vmbus_hdr_msg_entry)
| E_vmbus_onoffer (e : vmbus_onoffer_entry)
| E_vmbus_onoffer_rescind (e : vmbus_onoffer_rescind_entry)
| E_vmbus_onopen_result (e : vmbus_onopen_result_entry)
| E_vmbus_ongpadl_created (e : vmbus_ongpadl_created_entry)
| E_vmbus_onmodifychannel_response (e : vmbus_onmodifychannel_response_entry)
| E_vmbus_ongpadl_torndown (e : vmbus_ongpadl_torndown_entry)
| E_vmbus_onversion_response (e : vmbus_onversion_response_entry)
| E_vmbus_request_offers (e : vmbus_request_offers_entry)
| E_vmbus_open (e : vmbus_open_entry)
| E_vmbus_close_internal (e : vmbus_close_internal_entry)
| E_vmbus_establish_gpadl_header (e : vmbus_establish_gpadl_header_entry)
| E_vmbus_establish_gpadl_body (e : vmbus_establish_gpadl_body_entry)
| E_vmbus_teardown_gpadl (e : vmbus_teardown_gpadl_entry)
| E_vmbus_negotiate_version (e : vmbus_negotiate_version_entry)
| E_vmbus_release_relid (e : vmbus_release_relid_entry)
| E_vmbus_send_tl_connect_request (e : vmbus_send_tl_connect_request_entry)
| E_vmbus_send_modifychannel (e : vmbus_send_modifychannel_entry)
| E_vmbus_channel (e : vmbus_channel_entry).

Inductive trace_call :=
| trace_vmbus_on_msg_dpc (hdr : vmbus_channel_message_header)
| trace_vmbus_on_message (hdr : vmbus_channel_message_header)
| trace_vmbus_onoffer (offer : vmbus_channel_offer_channel)
| trace_vmbus_onoffer_rescind (offer : vmbus_channel_rescind_offer)
| trace_vmbus_onopen_result (result : vmbus_channel_open_result)
| trace_vmbus_ongpadl_created (gpadlcreated : vmbus_channel_gpadl_created)
| trace_vmbus_onmodifychannel_response (response : vmbus_channel_modifychannel_response)
| trace_vmbus_ongpadl_torndown (gpadltorndown : vmbus_channel_gpadl_torndown)
| trace_vmbus_onversion_response (response : vmbus_channel_version_response)
| trace_vmbus_request_offers (ret : Z)
| trace_vmbus_open (msg : vmbus_channel_open_channel) (ret : Z)
| trace_vmbus_close_internal (msg : vmbus_channel_close_channel) (ret : Z)
| trace_vmbus_establish_gpadl_header (msg : vmbus_channel_gpadl_header) (ret : Z)
| trace_vmbus_establish_gpadl_body (msg : vmbus_channel_gpadl_body) (ret : Z)
| trace_vmbus_teardown_gpadl (msg : vmbus_channel_gpadl_teardown) (ret : Z)
| trace_vmbus_negotiate_version (msg : vmbus_channel_initiate_contact) (ret : Z)
| trace_vmbus_release_relid (msg : vmbus_channel_relid_released) (ret : Z)
| trace_vmbus_send_tl_connect_request (msg : vmbus_channel_tl_connect_request) (ret : Z)
| trace_vmbus_send_modifychannel (msg : vmbus_channel_modifychannel) (ret : Z)
| trace_vmbus_chan_sched (channel : traced_channel)
| trace_vmbus_setevent (channel : traced_channel)
| trace_vmbus_on_event (channel : traced_channel).

Definition trace_record (t : trace_call) : trace_entry :=
  match t with
  | trace_vmbus_on_msg_dpc hdr => E_vmbus_hdr_msg (vmbus_hdr_msg_assign hdr)
  | trace_vmbus_on_message hdr => E_vmbus_hdr_msg (vmbus_hdr_msg_assign hdr)
  | trace_vmbus_onoffer offer => E_vmbus_onoffer (vmbus_onoffer_assign offer)
  | trace_vmbus_onoffer_rescind offer => E_vmbus_onoffer_rescind (vmbus_onoffer_rescind_assign offer)
  | trace_vmbus_onopen_result result => E_vmbus_onopen_result (vmbus_onopen_result_assign result)
  | trace_vmbus_ongpadl_created gpadlcreated => E_vmbus_ongpadl_created (vmbus_ongpadl_created_assign gpadlcreated)
  | trace_vmbus_onmodifychannel_response response => E_vmbus_onmodifychannel_response (vmbus_onmodifychannel_response_assign response)
  | trace_vmbus_ongpadl_torndown gpadltorndown => E_vmbus_ongpadl_torndown (vmbus_ongpadl_torndown_assign gpadltorndown)
  | trace_vmbus_onversion_response response => E_vmbus_onversion_response (vmbus_onversion_response_assign response)
  | trace_vmbus_request_offers ret => E_vmbus_request_offers (vmbus_request_offers_assign ret)
  | trace_vmbus_open msg ret => E_vmbus_open (vmbus_open_assign msg ret)
  | trace_vmbus_close_internal msg ret => E_vmbus_close_internal (vmbus_close_internal_assign msg ret)
  | trace_vmbus_establish_gpadl_header msg ret => E_vmbus_establish_gpadl_header (vmbus_establish_gpadl_header_assign msg ret)
  | trace_vmbus_establish_gpadl_body msg ret => E_vmbus_establish_gpadl_body (vmbus_establish_gpadl_body_assign msg ret)
  | trace_vmbus_teardown_gpadl msg ret => E_vmbus_teardown_gpadl (vmbus_teardown_gpadl_assign msg ret)
  | trace_vmbus_negotiate_version msg ret => E_vmbus_negotiate_version (vmbus_negotiate_version_assign msg ret)
  | trace_vmbus_release_relid msg ret => E_vmbus_release_relid (vmbus_release_relid_assign msg ret)
  | trace_vmbus_send_tl_connect_request msg ret => E_vmbus_send_tl_connect_request (vmbus_send_tl_connect_request_assign msg ret)
  | trace_vmbus_send_modifychannel msg ret => E_vmbus_send_modifychannel (vmbus_send_modifychannel_assign msg ret)
  | trace_vmbus_chan_sched channel => E_vmbus_channel (vmbus_channel_assign channel)
  | trace_vmbus_setevent channel => E_vmbus_channel (vmbus_channel_assign channel)
  | trace_vmbus_on_event channel => E_vmbus_channel (vmbus_channel_assign channel)
  end.

Definition trace_print `{Printk} (e : trace_entry) : option string :=
  match e with
  | E_vmbus_hdr_msg e => vmbus_hdr_msg_printk e
  | E_vmbus_onoffer e => vmbus_onoffer_printk e
  | E_vmbus_onoffer_rescind e => vmbus_onoffer_rescind_printk e
  | E_vmbus_onopen_result e => vmbus_onopen_result_printk e
  | E_vmbus_ongpadl_created e => vmbus_ongpadl_created_printk e
  | E_vmbus_onmodifychannel_response e => vmbus_onmodifychannel_response_printk e
  | E_vmbus_ongpadl_torndown e => vmbus_ongpadl_torndown_printk e
  | E_vmbus_onversion_response e => vmbus_onversion_response_printk e
  | E_vmbus_request_offers e => vmbus_request_offers_printk e
  | E_vmbus_open e => vmbus_open_printk e
  | E_vmbus_close_internal e => vmbus_close_internal_printk e
  | E_vmbus_establish_gpadl_header e => vmbus_establish_gpadl_header_printk e
  | E_vmbus_establish_gpadl_body e => vmbus_establish_gpadl_body_printk e
  | E_vmbus_teardown_gpadl e => vmbus_teardown_gpadl_printk e
  | E_vmbus_negotiate_version e => vmbus_negotiate_version_printk e
  | E_vmbus_release_relid e => vmbus_release_relid_printk e
  | E_vmbus_send_tl_connect_request e => vmbus_send_tl_connect_request_printk e
  | E_vmbus_send_modifychannel e => vmbus_send_modifychannel_printk e
  | E_vmbus_channel e => vmbus_channel_printk e
  end.

(** The name of the event, the first word of a line in the trace. *)
Definition trace_event (t : trace_call) : string :=
  match t with
  | trace_vmbus_on_msg_dpc _ => "vmbus_on_msg_dpc"
  | trace_vmbus_on_message _ => "vmbus_on_message"
  | trace_vmbus_onoffer _ => "vmbus_onoffer"
  | trace_vmbus_onoffer_rescind _ => "vmbus_onoffer_rescind"
  | trace_vmbus_onopen_result _ => "vmbus_onopen_result"
  | trace_vmbus_ongpadl_created _ => "vmbus_ongpadl_created"
  | trace_vmbus_onmodifychannel_response _ => "vmbus_onmodifychannel_response"
  | trace_vmbus_ongpadl_torndown _ => "vmbus_ongpadl_torndown"
  | trace_vmbus_onversion_response _ => "vmbus_onversion_response"
  | trace_vmbus_request_offers _ => "vmbus_request_offers"
  | trace_vmbus_open _ _ => "vmbus_open"
  | trace_vmbus_close_internal _ _ => "vmbus_close_internal"
  | trace_vmbus_establish_gpadl_header _ _ => "vmbus_establish_gpadl_header"
  | trace_vmbus_establish_gpadl_body _ _ => "vmbus_establish_gpadl_body"
  | trace_vmbus_teardown_gpadl _ _ => "vmbus_teardown_gpadl"
  | trace_vmbus_negotiate_version _ _ => "vmbus_negotiate_version"
  | trace_vmbus_release_relid _ _ => "vmbus_release_relid"
  | trace_vmbus_send_tl_connect_request _ _ => "vmbus_send_tl_connect_request"
  | trace_vmbus_send_modifychannel _ _ => "vmbus_send_modifychannel"
  | trace_vmbus_chan_sched _ => "vmbus_chan_sched"
  | trace_vmbus_setevent _ => "vmbus_setevent"
  | trace_vmbus_on_event _ => "vmbus_on_event"
  end.
