(* ===== verification/HvTraceProps.v ===== *)
(** * The text of the trace points

    The printed line of an event determines what its record holds. *)

From Stdlib Require Import Ascii.
From S2P Require Import Prelude CLayout HeaderFacts HvTrace.

(** ** Numbers in a text *)

(** The characters of a printed number. *)
Definition num_char (c : ascii) : bool :=
  existsb (Ascii.eqb c) (String.list_ascii_of_string "0123456789abcdef-").

Fixpoint all_num (s : string) : bool :=
  match s with EmptyString => true | String c s => num_char c && all_num s end.

(** A text that cannot continue a number. *)
Definition plain (s : string) : bool :=
  match s with EmptyString => true | String c _ => negb (num_char c) end.

Lemma number_split t1 t2 r1 r2 :
  all_num t1 = true -> all_num t2 = true -> plain r1 = true -> plain r2 = true ->
  t1 +:+ r1 = t2 +:+ r2 -> t1 = t2 /\ r1 = r2.
Proof.
  revert t2. induction t1 as [|c t1 IH]; intros [|d t2] H1 H2 P1 P2 E.
  - done.
  - change (r1 = String d (t2 +:+ r2)) in E. subst r1. cbn in P1, H2. apply andb_true_iff in H2 as [H2 _].
    by rewrite H2 in P1.
  - change (String c (t1 +:+ r1) = r2) in E. subst r2. cbn in P2, H1. apply andb_true_iff in H1 as [H1 _].
    by rewrite H1 in P2.
  - change (String c (t1 +:+ r1) = String d (t2 +:+ r2)) in E. injection E as -> E. cbn in H1, H2.
    apply andb_true_iff in H1 as [_ H1]. apply andb_true_iff in H2 as [_ H2].
    by destruct (IH _ H1 H2 P1 P2 E) as [-> ->].
Qed.

Lemma hex_digit_num d : 0 <= d < 16 -> num_char (hex_digit d) = true.
Proof.
  intros Hd. assert (E : forallb (fun d => num_char (hex_digit d)) (seqZ 0 16) = true) by (vm_compute; reflexivity).
  rewrite forallb_forall in E. apply E, list_elem_of_In, elem_of_seqZ. lia.
Qed.

Lemma hex_go_num n : forall z acc, all_num acc = true -> all_num (hex_go n z acc) = true.
Proof.
  induction n as [|n IH]; intros z acc Ha; cbn [hex_go]; [done|].
  assert (all_num (String (hex_digit (z mod 16)) acc) = true).
  { cbn [all_num]. rewrite hex_digit_num, Ha; [done|apply Z.mod_pos_bound; lia]. }
  case_match; [done|by apply IH].
Qed.

Lemma fmt_x_num z : all_num (fmt_x z) = true.
Proof. by apply hex_go_num. Qed.

(** The value of a hexadecimal text. *)
Definition hex_val (c : ascii) : Z := let n := Z.of_N (N_of_ascii c) in if n <? 58 then n - 48 else n - 87.
Fixpoint hex_value (s : string) (v : Z) : Z :=
  match s with EmptyString => v | String c s => hex_value s (16 * v + hex_val c) end.

Lemma hex_val_digit d : 0 <= d < 16 -> hex_val (hex_digit d) = d.
Proof.
  intros Hd. assert (E : forallb (fun d => hex_val (hex_digit d) =? d) (seqZ 0 16) = true) by (vm_compute; reflexivity).
  rewrite forallb_forall in E. apply Z.eqb_eq, E, list_elem_of_In, elem_of_seqZ. lia.
Qed.

Lemma hex_value_go n : forall z acc, (0 < n)%nat -> 0 <= z < 16 ^ Z.of_nat n ->
  hex_value (hex_go n z acc) 0 = hex_value acc z.
Proof.
  induction n as [|n IH]; intros z acc Hn Hz; [lia|]. cbn [hex_go].
  pose proof (Z.div_mod z 16) as E. pose proof (Z.mod_pos_bound z 16) as B.
  rewrite Nat2Z.inj_succ, Z.pow_succ_r in Hz by lia.
  destruct (Z.eqb_spec (z / 16) 0) as [Hd|Hd].
  - cbn [hex_value]. rewrite hex_val_digit by lia. f_equal. lia.
  - destruct n as [|n].
    { change (16 ^ Z.of_nat 0) with 1 in Hz. rewrite Z.div_small in Hd by lia. done. }
    rewrite IH; [|lia|split; [apply Z.div_pos; lia|apply Z.div_lt_upper_bound; lia]].
    cbn [hex_value]. rewrite hex_val_digit by lia. f_equal. lia.
Qed.

Lemma fmt_x_inj x y : 0 <= x < 2 ^ 64 -> 0 <= y < 2 ^ 64 -> fmt_x x = fmt_x y -> x = y.
Proof.
  intros Hx Hy H. change (2 ^ 64) with (16 ^ Z.of_nat 16) in *.
  apply (f_equal (fun s => hex_value s 0)) in H. unfold fmt_x in H. by rewrite !hex_value_go in H by (done || lia).
Qed.

Lemma pretty_N_num (n : N) : all_num (pretty n) = true.
Proof.
  destruct (decide (n = 0%N)) as [->|Hn]; [done|]. unfold pretty, pretty_N. rewrite decide_False by done.
  assert (H : forall n acc, all_num acc = true -> all_num (pretty_N_go n acc) = true); [|by apply H].
  clear. intros n. induction (N.lt_wf_0 n) as [n _ IH]. intros acc Ha. destruct (decide (0 < n)%N) as [H|H].
  - rewrite pretty_N_go_step by done. apply IH; [by apply N.div_lt|]. cbn [all_num]. rewrite Ha, andb_true_r.
    assert (Hd : (n `mod` 10 < 10)%N) by by apply N.mod_lt. clear -Hd. revert Hd. generalize (n `mod` 10)%N. intros d Hd.
    assert (E : forallb (fun d => num_char (pretty_N_char (N.of_nat d))) (seq 0 10) = true) by (vm_compute; reflexivity).
    rewrite forallb_forall in E. rewrite <- (N2Nat.id d). apply E, in_seq. lia.
  - replace n with 0%N by lia. by rewrite pretty_N_go_0.
Qed.

Lemma fmt_d_num z : all_num (fmt_d z) = true.
Proof.
  unfold fmt_d. destruct z as [|p|p]; cbn; [done|apply pretty_N_num|]. apply (pretty_N_num (Npos p)).
Qed.

Lemma fmt_d_inj x y : fmt_d x = fmt_d y -> x = y.
Proof. apply (inj pretty). Qed.

(** ** Formats *)

(** What is documented of [%pUl]: the 36 characters of a GUID, different for different
    GUIDs. *)
Definition guid_bytes (b : list Z) : Prop := length b = 16%nat /\ Forall (fun x => 0 <= x < 2 ^ 8) b.

Class PrintkOk `{Printk} := {
  pUl_length b : guid_bytes b -> String.length (fmt_pUl b) = 36%nat;
  pUl_inj a b : guid_bytes a -> guid_bytes b -> fmt_pUl a = fmt_pUl b -> a = b }.

(** The values an argument can hold. *)
Definition arg_ok (a : arg) : Prop :=
  match a with
  | AUint v => 0 <= v < 2 ^ 32
  | AInt v => - 2 ^ 31 <= v < 2 ^ 31
  | AUlong v => 0 <= v < 2 ^ 64
  | AGuid b => guid_bytes b
  end.

Definition same_kind (a b : arg) : Prop :=
  match a, b with
  | AUint _, AUint _ | AInt _, AInt _ | AUlong _, AUlong _ | AGuid _, AGuid _ => True
  | _, _ => False
  end.

(** Every conversion is followed by the end or by a character no number contains. *)
Fixpoint separated (ps : list piece) : bool :=
  match ps with
  | [] => true
  | Lit _ :: ps => separated ps
  | Conv _ :: ps => match ps with [] => true | Lit c :: _ => negb (num_char c) | Conv _ :: _ => false end && separated ps
  end.

(** The arguments are the ones the conversions expect. *)
Definition arg_fits (k : conv) (a : arg) : bool :=
  match k, a with
  | (Cd | Cu | Cx), (AUint _ | AInt _) | Cllx, AUlong _ | CpUl, AGuid _ => true
  | _, _ => false
  end.

Fixpoint args_fit (ps : list piece) (args : list arg) : bool :=
  match ps, args with
  | [], [] => true
  | Lit _ :: ps, _ => args_fit ps args
  | Conv k :: ps, a :: args => arg_fits k a && args_fit ps args
  | _, _ => false
  end.

Section formats.
Context `{HP : Printk, HPok : !PrintkOk}.
Set Default Proof Using "All".

Lemma fmt_pieces_some ps : forall args, args_fit ps args = true -> exists s, fmt_pieces ps args = Some s.
Proof.
  induction ps as [|[c|k] ps IH]; intros args H; cbn in H |- *.
  - destruct args; [by eexists|done].
  - destruct (IH _ H) as [s ->]. by eexists.
  - destruct args as [|a args]; [done|]. apply andb_true_iff in H as [H1 H2]. destruct (IH _ H2) as [s ->].
    destruct k, a; try done; by eexists.
Qed.

Lemma u32_inj x y : (0 <= x < 2 ^ 32 /\ 0 <= y < 2 ^ 32) \/ (- 2 ^ 31 <= x < 2 ^ 31 /\ - 2 ^ 31 <= y < 2 ^ 31) ->
  u32 x = u32 y -> x = y.
Proof.
  intros H E. assert (Hm : (x - y) mod 2 ^ 32 = 0).
  { unfold u32 in E. by rewrite Zminus_mod, E, Z.sub_diag. }
  apply Z.mod_divide in Hm as [q Hq]; [|lia]. nia.
Qed.

Lemma s32_inj x y : (0 <= x < 2 ^ 32 /\ 0 <= y < 2 ^ 32) \/ (- 2 ^ 31 <= x < 2 ^ 31 /\ - 2 ^ 31 <= y < 2 ^ 31) ->
  s32 x = s32 y -> x = y.
Proof.
  intros H E%s32_eq_iff. apply Z.mod_divide in E as [q Hq]; [|lia]. nia.
Qed.

(** One conversion: what is printed can be told from what follows, and determines the
    argument. *)
Lemma fmt_arg_split k a b t1 t2 r1 r2 :
  arg_ok a -> arg_ok b -> same_kind a b -> fmt_arg k a = Some t1 -> fmt_arg k b = Some t2 ->
  plain r1 = true -> plain r2 = true -> t1 +:+ r1 = t2 +:+ r2 -> a = b /\ r1 = r2.
Proof.
  intros Ha Hb Hs H1 H2 P1 P2 E.
  assert (X : forall x y, fmt_x x +:+ r1 = fmt_x y +:+ r2 -> fmt_x x = fmt_x y /\ r1 = r2).
  { intros x y. apply number_split; auto using fmt_x_num. }
  assert (Dd : forall x y, fmt_d x +:+ r1 = fmt_d y +:+ r2 -> x = y /\ r1 = r2).
  { intros x y Hxy. apply number_split in Hxy as [Hx ->]; auto using fmt_d_num. split; [by apply fmt_d_inj|done]. }
  destruct k, a as [x|x|x|x], b as [y|y|y|y]; try done; cbn [arg_ok] in Ha, Hb; injection H1 as <-; injection H2 as <-.
  1-4: apply Dd in E as [E ->]; split; [f_equal|done]; first [by apply s32_inj; auto | by apply u32_inj; auto].
  1-3: apply X in E as [E ->]; split; [f_equal|done].
  - apply fmt_x_inj in E; [by apply u32_inj; auto|pose proof (u32_range x); lia|pose proof (u32_range y); lia].
  - apply fmt_x_inj in E; [by apply u32_inj; auto|pose proof (u32_range x); lia|pose proof (u32_range y); lia].
  - apply fmt_x_inj in E; [|apply u64_range..]. by rewrite !u64_id in E.
  - apply append_inj in E as [E ->]; [|by rewrite !pUl_length]. split; [f_equal; by apply pUl_inj|done].
Qed.

Lemma fmt_pieces_plain c ps args s :
  num_char c = false -> fmt_pieces (Lit c :: ps) args = Some s -> plain s = true.
Proof.
  intros Hc H. cbn in H. destruct (fmt_pieces ps args); [|done]. injection H as <-. cbn [plain]. by rewrite Hc.
Qed.

Lemma fmt_pieces_inj ps : forall xs ys s, separated ps = true -> Forall arg_ok xs -> Forall arg_ok ys ->
  Forall2 same_kind xs ys -> fmt_pieces ps xs = Some s -> fmt_pieces ps ys = Some s -> xs = ys.
Proof.
  assert (P : forall ps xs s, separated (Conv Cd :: ps) = true -> fmt_pieces ps xs = Some s -> plain s = true).
  { intros ps' xs s Hs H. destruct ps' as [|[c|k] ps']; [|cbn [separated] in Hs|done].
    - destruct xs; [|done]. by injection H as <-.
    - apply andb_true_iff in Hs as [Hs _]. apply negb_true_iff in Hs. by eapply fmt_pieces_plain. }
  induction ps as [|[c|k] ps IH]; intros xs ys s Hs Hx Hy Hk H1 H2.
  - destruct xs, ys; done.
  - cbn in H1, H2. cbn [separated] in Hs. destruct (fmt_pieces ps xs) as [s1|] eqn:E1; [|done]. destruct (fmt_pieces ps ys) as [s2|] eqn:E2; [|done].
    injection H1 as H1. injection H2 as H2. assert (s1 = s2) as <- by congruence. by eapply IH.
  - destruct Hk as [|x y xs ys Hxy Hk]; [done|]. inversion Hx; inversion Hy; subst. cbn in H1, H2.
    destruct (fmt_arg k x) as [t1|] eqn:T1; [|done]. destruct (fmt_arg k y) as [t2|] eqn:T2; [|done].
    destruct (fmt_pieces ps xs) as [s1|] eqn:E1; [|done]. destruct (fmt_pieces ps ys) as [s2|] eqn:E2; [|done].
    injection H1 as H1. injection H2 as H2.
    destruct (fmt_arg_split k x y t1 t2 s1 s2) as [-> ->]; try done; [by eapply P|by eapply P|congruence|].
    f_equal. cbn [separated] in Hs. apply andb_true_iff in Hs as [_ Hs]. by eapply IH.
Qed.

(** A format whose conversions are separated prints different arguments differently. *)
Lemma printk_inj fmt ps xs ys :
  pieces None fmt = Some ps -> separated ps = true -> args_fit ps xs = true ->
  Forall arg_ok xs -> Forall arg_ok ys -> Forall2 same_kind xs ys -> printk fmt xs = printk fmt ys -> xs = ys.
Proof.
  intros Hp Hs Hf Hx Hy Hk H. unfold printk in H. rewrite Hp in H. cbn in H.
  destruct (fmt_pieces_some _ _ Hf) as [s Es]. rewrite Es in H. by eapply fmt_pieces_inj.
Qed.
End formats.

(** ** The events *)

(** The GUIDs of a traced message are 16 bytes. *)
Definition traced_ok (t : trace_call) : Prop :=
  match t with
  | trace_vmbus_onoffer offer =>
      guid_bytes (offer_if_type (offer_channel_offer offer)) /\ guid_bytes (offer_if_instance (offer_channel_offer offer))
  | trace_vmbus_send_tl_connect_request msg _ =>
      guid_bytes (tl_connect_request_guest_endpoint_id msg) /\ guid_bytes (tl_connect_request_host_service_id msg)
  | _ => True
  end.

Lemma guid_bytes_export g : guid_bytes g -> guid_bytes (export_guid g).
Proof. intros [Hl Hf]. unfold export_guid. rewrite take_ge by lia. by split. Qed.

Lemma u8_32 z : 0 <= u8 z < 2 ^ 32.
Proof. unfold u8. pose proof (Z.mod_pos_bound z (2 ^ 8)). lia. Qed.
Lemma u16_32 z : 0 <= u16 z < 2 ^ 32.
Proof. unfold u16. pose proof (Z.mod_pos_bound z (2 ^ 16)). lia. Qed.

Ltac trace_unfold :=
  unfold
    vmbus_hdr_msg_printk, vmbus_onoffer_printk, vmbus_onoffer_rescind_printk, vmbus_onopen_result_printk,
    vmbus_ongpadl_created_printk, vmbus_onmodifychannel_response_printk, vmbus_ongpadl_torndown_printk,
    vmbus_onversion_response_printk, vmbus_request_offers_printk, vmbus_open_printk,
    vmbus_close_internal_printk, vmbus_establish_gpadl_header_printk, vmbus_establish_gpadl_body_printk,
    vmbus_teardown_gpadl_printk, vmbus_negotiate_version_printk, vmbus_release_relid_printk,
    vmbus_send_tl_connect_request_printk, vmbus_send_modifychannel_printk, vmbus_channel_printk in *.

Ltac assign_unfold :=
  unfold
    vmbus_hdr_msg_assign, vmbus_onoffer_assign, vmbus_onoffer_rescind_assign, vmbus_onopen_result_assign,
    vmbus_ongpadl_created_assign, vmbus_onmodifychannel_response_assign, vmbus_ongpadl_torndown_assign,
    vmbus_onversion_response_assign, vmbus_request_offers_assign, vmbus_open_assign,
    vmbus_close_internal_assign, vmbus_establish_gpadl_header_assign, vmbus_establish_gpadl_body_assign,
    vmbus_teardown_gpadl_assign, vmbus_negotiate_version_assign, vmbus_release_relid_assign,
    vmbus_send_tl_connect_request_assign, vmbus_send_modifychannel_assign, vmbus_channel_assign in *.

Ltac arg_fact :=
  cbn [arg_ok same_kind]; first
    [ exact I | apply u32_range | apply s32_range | apply u64_range | apply u8_32 | apply u16_32
    | apply guid_bytes_export; tauto ].

(** One event: the arguments of two lines with the same text agree. *)
Ltac trace_case :=
  match goal with
  | H : printk _ _ = printk _ _ |- _ =>
      eapply printk_inj in H;
      [ injection H; intros; assign_unfold; cbn in *; congruence
      | vm_compute; reflexivity | vm_compute; reflexivity | reflexivity
      | repeat constructor; arg_fact | repeat constructor; arg_fact | repeat constructor; arg_fact ]
  end.

Section events.
Context `{HP : Printk, HPok : !PrintkOk}.
Set Default Proof Using "All".

(** C37. Every event is printed, and two lines of the same event with the same text come from
    equal records: nothing that was recorded is lost in the text, neither by the
    conversions nor because the end of one number runs into the next. *)
Theorem trace_text_determines x y :
  traced_ok x -> traced_ok y -> trace_event x = trace_event y ->
  trace_print (trace_record x) = trace_print (trace_record y) ->
  trace_record x = trace_record y /\ exists s, trace_print (trace_record x) = Some s.
Proof.
  intros Hx Hy He H. split.
  - destruct x, y; try discriminate He; clear He; cbn [trace_record trace_print traced_ok] in *; trace_unfold; trace_case.
  - clear. destruct x; cbn [trace_record trace_print]; trace_unfold; eexists; reflexivity.
Qed.
End events.

(** ** The property at a concrete line *)

Module Witness.

(** [%pUl]: the bytes of the first three fields in reverse. *)
#[local] Instance sample_printk : Printk := {|
  fmt_pUl b :=
    let n i := nth i b 0 in
    guid_text hex_lower
      (Guid (n 0%nat + 256 * n 1%nat + 65536 * n 2%nat + 16777216 * n 3%nat) (n 4%nat + 256 * n 5%nat)
            (n 6%nat + 256 * n 7%nat) (drop 8 b)) |}.

Lemma sixteen b : guid_bytes b -> exists x0 x1 x2 x3 x4 x5 x6 x7 l,
  b = x0 :: x1 :: x2 :: x3 :: x4 :: x5 :: x6 :: x7 :: l /\ length l = 8%nat /\ Forall (fun x => 0 <= x < 2 ^ 8) l /\
  Forall (fun x => 0 <= x < 2 ^ 8) [x0; x1; x2; x3; x4; x5; x6; x7].
Proof.
  intros [Hl Hf]. do 8 (destruct b as [|? b]; [done|]). do 9 eexists. split; [done|].
  injection Hl as Hl. split; [done|].
  repeat match goal with Hx : Forall _ (_ :: _) |- _ => inversion Hx; subst; clear Hx end. split; [done|].
  repeat (apply List.Forall_cons; [assumption|]). apply List.Forall_nil.
Qed.

#[local] Instance sample_printk_ok : PrintkOk.
Proof.
  split; [intros b _; apply guid_text_length|]. intros a b Ha Hb H.
  destruct (sixteen a Ha) as (a0 & a1 & a2 & a3 & a4 & a5 & a6 & a7 & l & -> & Hl & Fl & Fa).
  destruct (sixteen b Hb) as (b0 & b1 & b2 & b3 & b4 & b5 & b6 & b7 & m & -> & Hm & Fm & Fb).
  repeat match goal with Hx : Forall _ (_ :: _) |- _ => inversion Hx; subst; clear Hx end.
  cbn [fmt_pUl sample_printk nth drop] in H. apply guid_text_inj in H.
  - injection H as E1 E2 E3 E4. rewrite !drop_0 in E4. subst m. repeat f_equal; lia.
  - unfold guid_ok; cbn [Data1 Data2 Data3 Data4]; split_and!; first [done | lia].
  - unfold guid_ok; cbn [Data1 Data2 Data3 Data4]; split_and!; first [done | lia].
Qed.

Definition request (a b : list Z) : trace_call := trace_vmbus_send_tl_connect_request (Mk_tl_connect_request a b) (-22).

Example trace_text :
  trace_print (trace_record (request (seqZ 0 16) (seqZ 16 16))) =
  Some "sending guest_endpoint_id 03020100-0504-0706-0809-0a0b0c0d0e0f, host_service_id 13121110-1514-1716-1819-1a1b1c1d1e1f, ret -22".
Proof. vm_compute. reflexivity. Qed.

Lemma guid_seq n : 0 <= n -> n <= 240 -> guid_bytes (seqZ n 16).
Proof. intros H1 H2. split; [by rewrite length_seqZ|]. apply Forall_seqZ. intros x Hx. lia. Qed.

Example trace_text_determines_witness :
  trace_print (trace_record (request (seqZ 0 16) (seqZ 16 16))) <> trace_print (trace_record (request (seqZ 0 16) (seqZ 17 16))).
Proof.
  intros H. assert (G : forall a b, guid_bytes a -> guid_bytes b -> traced_ok (request a b)) by (intros a b Ha Hb; split; assumption).
  assert (E : trace_record (request (seqZ 0 16) (seqZ 16 16)) = trace_record (request (seqZ 0 16) (seqZ 17 16))).
  { apply trace_text_determines; [apply G; apply guid_seq; lia|apply G; apply guid_seq; lia|reflexivity|exact H]. }
  vm_compute in E. discriminate E.
Defined.
End Witness.
