(* ===== verification/Native.v ===== *)
(** * The native library

    [Native/HvGin/main.cpp]: registering a device class with the driver, mounting a
    Plan 9 share over a VM socket, and the check for the hypervisor.  The C
    library's calls are arguments: what each of them answers. *)

From S2P Require Import Prelude CLayout CAccess GuestInterface TlfsBase TlfsCalls HeaderFacts.

(** ** HvGinUioRegisterDevice *)

(** What [fopen], [fprintf] and [errno] after them give. *)
Record stdio := Stdio { fopen_error : option Z; fprintf_result : string -> Z; fprintf_errno : Z }.

Inductive file_call := Fopen (path mode : string) | Fprintf (text : string) | Fclose.

Definition new_id : string := "/sys/bus/vmbus/drivers/uio_hv_generic/new_id".
Definition GuidStringLength := 36.

(** The error code, and the calls made. *)
Definition HvGinUioRegisterDevice (io : stdio) (ClassId : option guid) : Z * list file_call :=
  match ClassId with
  | None => (EINVAL, [])
  | Some g =>
      match fopen_error io with
      | Some e => (e, [Fopen new_id "w"])
      | None =>
          let text := guid_text hex_lower g in
          let Result := fprintf_result io text in
          let ErrorCode := if Result <? 0 then fprintf_errno io else if negb (GuidStringLength =? Result) then EIO else 0 in
          (ErrorCode, [Fopen new_id "w"; Fprintf text; Fclose])
      end
  end.

(** ** HvGinMountHcsPlan9Share *)

Inductive socket_call := Socket | Connect (s port : Z) | SetSockOpt (s size : Z) | Mount (source target options : string) (read_only : bool) | Close (s : Z).

(** What each call answers: the socket or an error, and the error of each other call, if any. *)
Record net := Net { net_socket : Z + Z; net_connect : option Z; net_setsockopt : option Z; net_mount : option Z }.

Definition mount_options (s size : Z) (AccessName : string) : string :=
  "trans=fd,rfdno=" +:+ fmt_d s +:+ ",wfdno=" +:+ fmt_d s +:+ ",msize=" +:+ fmt_d (s32 size) +:+ ",noload,aname=" +:+ AccessName.

Definition HvGinMountHcsPlan9Share (n : net) (Port : Z) (AccessName MountPoint : string) (ReadOnly : bool)
    (BufferSize : Z) : Z * list socket_call :=
  match net_socket n with
  | inr e => (e, [Socket])
  | inl s =>
      let '(ErrorCode, calls) :=
        match net_connect n with
        | Some e => (e, [Connect s Port])
        | None =>
            match net_setsockopt n with
            | Some e => (e, [Connect s Port; SetSockOpt s BufferSize])
            | None =>
                (match net_mount n with Some e => e | None => 0 end,
                 [Connect s Port; SetSockOpt s BufferSize; Mount AccessName MountPoint (mount_options s BufferSize AccessName) ReadOnly])
            end
        end in
      (ErrorCode, Socket :: calls ++ [Close s])
  end.

(** ** main *)

(** The test of [main] on the four registers [cpuid] leaves in [HvCpuIdResult]. *)
Definition runs_on_hyperv (regs : list Z) : option bool :=
  let start := replicate (Z.to_nat (sizeof SysV HV_CPUID_RESULT)) 0 in
  match write SysV HV_CPUID_RESULT [Dot "Eax"] (nth 0 regs 0) start with None => None | Some b1 =>
  match write SysV HV_CPUID_RESULT [Dot "Ebx"] (nth 1 regs 0) b1 with None => None | Some b2 =>
  match write SysV HV_CPUID_RESULT [Dot "Ecx"] (nth 2 regs 0) b2 with None => None | Some b3 =>
  match write SysV HV_CPUID_RESULT [Dot "Edx"] (nth 3 regs 0) b3 with None => None | Some b4 =>
  match read SysV HV_CPUID_RESULT [Dot "HvInterface"; Dot "Interface"] b4 with None => None | Some x =>
    Some (x =? enum_value HV_HYPERVISOR_INTERFACE "HvMicrosoftHypervisorInterface")
  end end end end end.

(** ** The identifiers of the C# service, [SynthRdp.cs] *)

Definition ControlClassId : string := "f8e65716-3cb3-4a06-9a60-1889c5cccab5".
Definition ControlInstanceId : string := "99221fa0-24ad-11e2-be98-001aa01bbf6e".
Definition DataClassId : string := "f9e9c0d3-b511-4a48-8046-d38079a8830c".
Definition DataInstanceIds : list string :=
  ["99221fa1-24ad-11e2-be98-001aa01bbf6e"; "99221fa2-24ad-11e2-be98-001aa01bbf6e"; "99221fa3-24ad-11e2-be98-001aa01bbf6e";
   "99221fa4-24ad-11e2-be98-001aa01bbf6e"; "99221fa5-24ad-11e2-be98-001aa01bbf6e"].
