(* ===== verification/ProtocolProps.v ===== *)
(** * Properties of the protocol constants and of the native library *)

From S2P Require Import Prelude CLayout CLayoutSpec CAccess GuestInterface GuestProtocols TlfsBase TlfsState TlfsPartition TlfsSymbols TlfsCpuid TlfsCalls VMBusDevices HeaderFacts Native.

(** ** Two halves of a word *)

Section halves.
Context (k hi lo : Z) (Hk : 0 <= k) (Hlo : 0 <= lo < 2 ^ k).

Lemma high_bits v i : 0 <= v < 2 ^ k -> k <= i -> Z.testbit v i = false.
Proof using Hk. intros Hv Hi. rewrite <- (Z.mod_small v _ Hv). by rewrite Z.mod_pow2_bits_high by lia. Qed.

Lemma halves_bits i : 0 <= i ->
  Z.testbit (Z.lor (Z.shiftl hi k) lo) i = if i <? k then Z.testbit lo i else Z.testbit hi (i - k).
Proof using Hk Hlo.
  intros Hi. rewrite Z.lor_spec, Z.shiftl_spec by done. destruct (Z.ltb_spec i k).
  - by rewrite (Z.testbit_neg_r _ (i - k)) by lia.
  - by rewrite (high_bits lo), orb_false_r by done.
Qed.

Lemma low_half : Z.land (Z.lor (Z.shiftl hi k) lo) (Z.ones k) = lo.
Proof using Hk Hlo.
  apply Z.bits_inj'. intros i Hi. rewrite Z.land_spec, halves_bits, ones_testbit by lia.
  destruct (Z.ltb_spec i k); [apply andb_true_r|]. by rewrite andb_false_r, high_bits.
Qed.

Context (Hhi : 0 <= hi < 2 ^ k).

Lemma high_half : Z.shiftr (Z.land (Z.lor (Z.shiftl hi k) lo) (Z.shiftl (Z.ones k) k)) k = hi.
Proof using Hk Hlo Hhi.
  apply Z.bits_inj'. intros i Hi. rewrite Z.shiftr_spec, Z.land_spec, halves_bits, Z.shiftl_spec, ones_testbit by lia.
  replace (i + k <? k) with false by (symmetry; apply Z.ltb_ge; lia). replace (i + k - k) with i by lia.
  destruct (Z.ltb_spec i k); [apply andb_true_r|]. by rewrite andb_false_r, high_bits.
Qed.

Lemma high_half' : Z.land (Z.shiftr (Z.lor (Z.shiftl hi k) lo) k) (Z.ones k) = hi.
Proof using Hk Hlo Hhi.
  apply Z.bits_inj'. intros i Hi. rewrite Z.land_spec, Z.shiftr_spec, halves_bits, ones_testbit by lia.
  replace (i + k <? k) with false by (symmetry; apply Z.ltb_ge; lia). replace (i + k - k) with i by lia.
  destruct (Z.ltb_spec i k); [apply andb_true_r|]. by rewrite andb_false_r, high_bits.
Qed.
End halves.

Lemma land_mask_range z k : 0 <= k -> 0 <= Z.land z (Z.ones k) < 2 ^ k.
Proof. intros Hk. rewrite Z.land_ones by done. apply Z.mod_pos_bound. by apply Z.pow_pos_nonneg. Qed.

(** The version numbers of every service come apart into what they were made of:
    for the video, input, keyboard and remote desktop services for all 16-bit
    halves, for the network and storage services for all numbers, cut to the
    field's width. *)
Theorem version_roundtrip major minor :
  (0 <= major < 2 ^ 16 -> 0 <= minor < 2 ^ 16 ->
   SYNTHVID_MAKE_VERSION_MAJOR (SYNTHVID_MAKE_VERSION major minor) = major /\
   SYNTHVID_MAKE_VERSION_MINOR (SYNTHVID_MAKE_VERSION major minor) = minor /\
   SYNTHRDP_VERSION_MAJOR (SYNTHRDP_MAKE_VERSION major minor) = major /\
   SYNTHRDP_VERSION_MINOR (SYNTHRDP_MAKE_VERSION major minor) = minor /\
   SYNTHHID_VERSION_MAJOR (SYNTHHID_MAKE_VERSION major minor) = major /\
   SYNTHHID_VERSION_MINOR (SYNTHHID_MAKE_VERSION major minor) = minor /\
   HK_VERSION_MAJOR (HK_MAKE_VERSION major minor) = major /\
   HK_VERSION_MINOR (HK_MAKE_VERSION major minor) = minor) /\
  NVSP_PROTOCOL_MAJOR (NVSP_PROTOCOL_VERSION major minor) = major mod 2 ^ 16 /\
  NVSP_PROTOCOL_MINOR (NVSP_PROTOCOL_VERSION major minor) = minor mod 2 ^ 16 /\
  VMSTOR_PROTOCOL_MAJOR (VMSTOR_PROTOCOL_VERSION major minor) = major mod 2 ^ 8 /\
  VMSTOR_PROTOCOL_MINOR (VMSTOR_PROTOCOL_VERSION major minor) = minor mod 2 ^ 8.
Proof.
  split; [intros Hma Hmi|].
  - unfold SYNTHVID_MAKE_VERSION_MAJOR, SYNTHVID_MAKE_VERSION_MINOR, SYNTHVID_MAKE_VERSION, SYNTHRDP_VERSION_MAJOR,
      SYNTHRDP_VERSION_MINOR, SYNTHRDP_MAKE_VERSION, SYNTHHID_VERSION_MAJOR, SYNTHHID_VERSION_MINOR, SYNTHHID_MAKE_VERSION,
      HK_VERSION_MAJOR, HK_VERSION_MINOR, HK_MAKE_VERSION.
    rewrite !u32_id by lia. change 0x0000ffff with (Z.ones 16). change 0xffff0000 with (Z.shiftl (Z.ones 16) 16).
    rewrite !(low_half 16), !(high_half 16) by (lia || done). done.
  - unfold NVSP_PROTOCOL_MAJOR, NVSP_PROTOCOL_MINOR, NVSP_PROTOCOL_VERSION, VMSTOR_PROTOCOL_MAJOR, VMSTOR_PROTOCOL_MINOR,
      VMSTOR_PROTOCOL_VERSION.
    change 0xffff with (Z.ones 16). change 0xff with (Z.ones 8).
    rewrite (high_half' 16), (low_half 16), (high_half' 8), (low_half 8) by (lia || by apply land_mask_range).
    by rewrite !Z.land_ones by lia.
Qed.

(** Replace the place of a member by the numbers it evaluates to. *)
Ltac eval_locate b t p := let r := eval vm_compute in (locate b t p) in change (locate b t p) with r.

(** Writing the two halves of a version through the structure inside its union and
    reading the union as one word gives the number the version macro makes. *)
Theorem version_views major minor buf :
  0 <= major < 2 ^ 16 -> 0 <= minor < 2 ^ 16 -> length buf = 4%nat ->
  let fill t x y := match write SysV t [Dot x] major buf with Some b => write SysV t [Dot y] minor b | None => None end in
  (exists b, fill SYNTHVID_VERSION "MajorVersion" "MinorVersion" = Some b /\
     read SysV SYNTHVID_VERSION [Dot "AsDWORD"] b = Some (SYNTHVID_MAKE_VERSION major minor)) /\
  (exists b, fill SYNTHRDP_VERSION "MajorVersion" "MinorVersion" = Some b /\
     read SysV SYNTHRDP_VERSION [Dot "AsDWORD"] b = Some (SYNTHRDP_MAKE_VERSION major minor)) /\
  (exists b, fill SYNTHHID_VERSION "Major" "Minor" = Some b /\
     read SysV SYNTHHID_VERSION [Dot "AsDWord"] b = Some (SYNTHHID_MAKE_VERSION major minor)).
Proof.
  intros Hma Hmi Hl. cbn zeta.
  assert (Hword : forall o1 o2 v1 v2, (o1 = 0 /\ o2 = 16) \/ (o1 = 16 /\ o2 = 0) -> 0 <= v1 < 2 ^ 16 -> 0 <= v2 < 2 ^ 16 ->
    load (store (store buf o1 16 v1) o2 16 v2) 0 32 = if o1 =? 0 then Z.lor (Z.shiftl v2 16) v1 else Z.lor (Z.shiftl v1 16) v2).
  { intros o1 o2 v1 v2 Ho H1 H2. unfold load, store. rewrite length_le_bytes, Hl, !le_num_bytes.
    change (8 * Z.of_nat 4) with 32. rewrite get_bits_mod by lia. apply Z.bits_inj'. intros i Hi.
    rewrite get_bits_testbit, set_bits_testbit, <- Z.land_ones, Z.land_spec, set_bits_testbit, ones_testbit by lia.
    rewrite Z.add_0_r.
    destruct Ho as [[-> ->]|[-> ->]]; cbn [Z.eqb]; rewrite (halves_bits 16) by (lia || done);
    destruct (Z.ltb_spec i 16), (Z.ltb_spec i 32); try lia;
      repeat match goal with |- context [?a <=? ?b] => destruct (Z.leb_spec a b); try lia
             | |- context [?a <? ?b] => destruct (Z.ltb_spec a b); try lia end;
      cbn [andb]; rewrite ?andb_true_r, ?andb_false_r, ?Z.sub_0_r; try done;
      by rewrite (high_bits 16) by lia. }
  unfold write, read. repeat match goal with |- context [locate ?b ?t ?p] => eval_locate b t p end.
  split_and!; (eexists; split; [reflexivity|]); cbn iota beta; rewrite (Hword _ _ major minor) by (lia || done); reflexivity.
Qed.

(** ** Trace groups *)

(** [x & (x - 1)] is 0 for powers of two only. *)
Lemma single_bit v : 0 < v -> Z.land v (v - 1) = 0 -> v = 2 ^ Z.log2 v.
Proof.
  intros Hv H. pose proof (Z.log2_spec v Hv) as [Hlo Hhi]. set (i := Z.log2 v) in *.
  pose proof (Z.log2_nonneg v : 0 <= i). destruct (decide (v = 2 ^ i)) as [|Hne]; [done|exfalso].
  assert (Hb : forall w, 2 ^ i <= w < 2 ^ Z.succ i -> Z.testbit w i = true).
  { intros w Hw. rewrite <- (Z.log2_unique w i) by (lia || done). apply Z.bit_log2. lia. }
  apply (f_equal (fun z => Z.testbit z i)) in H. rewrite Z.land_spec, !Hb, Z.bits_0 in H by lia. done.
Qed.

Definition retail_groups : list Z :=
  [HV_TR_GROUP_BM; HV_TR_GROUP_DM; HV_TR_GROUP_HC; HV_TR_GROUP_IM; HV_TR_GROUP_IC; HV_TR_GROUP_OB; HV_TR_GROUP_PT;
   HV_TR_GROUP_VP; HV_TR_GROUP_SYNIC; HV_TR_GROUP_SYNIC_TI; HV_TR_GROUP_AM_GVA; HV_TR_GROUP_AM; HV_TR_GROUP_VAL;
   HV_TR_GROUP_VM; HV_TR_GROUP_SCH; HV_TR_GROUP_TH; HV_TR_GROUP_TI; HV_TR_GROUP_KE; HV_TR_GROUP_MM; HV_TR_GROUP_PROFILER].

Definition internal_groups : list Z :=
  [HV_TR_GROUP_BM_INTERNAL; HV_TR_GROUP_DM_INTERNAL; HV_TR_GROUP_HC_INTERNAL; HV_TR_GROUP_IM_INTERNAL;
   HV_TR_GROUP_IC_INTERNAL; HV_TR_GROUP_OB_INTERNAL; HV_TR_GROUP_PT_INTERNAL; HV_TR_GROUP_VP_INTERNAL;
   HV_TR_GROUP_SYNIC_INTERNAL; HV_TR_GROUP_SYNIC_TI_INTERNAL; HV_TR_GROUP_AM_GVA_INTERNAL; HV_TR_GROUP_AM_INTERNAL;
   HV_TR_GROUP_VAL_INTERNAL; HV_TR_GROUP_VM_INTERNAL; HV_TR_GROUP_SCH_INTERNAL; HV_TR_GROUP_TH_INTERNAL;
   HV_TR_GROUP_TI_INTERNAL; HV_TR_GROUP_KE_INTERNAL; HV_TR_GROUP_MM_INTERNAL; HV_TR_GROUP_TF;
   HV_TR_GROUP_SIMULATE_FULL; HV_TR_GROUP_CYCLIC; HV_TR_GROUP_ICE].

(** A test of that shape is decided by its 64 powers of two. *)
Lemma group_test (test : Z -> bool) (mask : Z) (groups : list Z) g :
  (forall g, test g = (0 <? u64 g) && negb (Z.land (u64 g) mask =? 0) && (Z.land (u64 g) (u64 g - 1) =? 0)) ->
  forallb (fun i => eqb (negb (Z.land (2 ^ i) mask =? 0)) (existsb (Z.eqb (2 ^ i)) groups)) (seqZ 0 64) = true ->
  forallb (fun x => (0 <? x) && (x =? 2 ^ Z.log2 x)) groups = true ->
  test g = true <-> u64 g ∈ groups.
Proof.
  intros Ht He Hp. rewrite Ht, !andb_true_iff, Z.ltb_lt, Z.eqb_eq. rewrite forallb_forall in He, Hp.
  pose proof (u64_range g) as Hr. split.
  - intros [[Hpos Hm] Hs]. apply single_bit in Hs; [|done].
    assert (Hi : Z.log2 (u64 g) ∈ seqZ 0 64).
    { apply elem_of_seqZ. split; [apply Z.log2_nonneg|]. apply Z.log2_lt_pow2; [done|]. lia. }
    specialize (He _ (proj1 (list_elem_of_In _ _) Hi)). rewrite <- Hs, Hm in He. apply eqb_prop in He.
    symmetry in He. apply existsb_exists in He as (x & Hx & Heq). apply Z.eqb_eq in Heq. rewrite Heq. by apply list_elem_of_In.
  - intros Hin. pose proof (Hp _ (proj1 (list_elem_of_In _ _) Hin)) as Hx. apply andb_true_iff in Hx as [Hpos Hs].
    apply Z.ltb_lt in Hpos. apply Z.eqb_eq in Hs. rewrite Hs at 3 4. split_and!; [done| |].
    + assert (Hi : Z.log2 (u64 g) ∈ seqZ 0 64).
      { apply elem_of_seqZ. split; [apply Z.log2_nonneg|]. apply Z.log2_lt_pow2; [done|]. lia. }
      specialize (He _ (proj1 (list_elem_of_In _ _) Hi)). rewrite <- Hs in He. apply eqb_prop in He. rewrite He.
      apply existsb_exists. exists (u64 g). split; [by apply list_elem_of_In|apply Z.eqb_refl].
    + replace (2 ^ Z.log2 (u64 g) - 1) with (Z.ones (Z.log2 (u64 g))) by (rewrite Z.ones_equiv; lia).
      rewrite Z.land_ones by apply Z.log2_nonneg. apply Z.mod_same. apply Z.pow_nonzero; [done|apply Z.log2_nonneg].
Qed.

(** The two tests for a trace group accept exactly the single groups that are listed
    in their mask, whatever 64-bit value they are given. *)
Theorem trace_group_tests g :
  (HV_TR_IS_GROUP_RETAIL g = true <-> u64 g ∈ retail_groups) /\
  (HV_TR_IS_GROUP_INTERNAL g = true <-> u64 g ∈ internal_groups).
Proof.
  split.
  - by apply (group_test HV_TR_IS_GROUP_RETAIL HV_TR_ALL_GROUPS); [|vm_compute; reflexivity..].
  - by apply (group_test HV_TR_IS_GROUP_INTERNAL HV_TR_ALL_GROUPS_INTERNAL); [|vm_compute; reflexivity..].
Qed.

(** ** Alignment *)

(** [ALIGN_VALUE] rounds up to the next multiple of a power of two. *)
Theorem align_value_least k v y :
  0 <= k ->
  let a := 2 ^ k in
  (a | ALIGN_VALUE v a) /\ v <= ALIGN_VALUE v a < v + a /\ ALIGN_VALUE v a = round_up v a /\
  ((a | y) -> v <= y -> ALIGN_VALUE v a <= y).
Proof.
  intros Hk a. assert (Ha : 0 < a) by (by apply Z.pow_pos_nonneg).
  assert (Hup : ALIGN_VALUE v a = round_up v a).
  { unfold ALIGN_VALUE. replace (a - 1) with (Z.ones k) by (rewrite Z.ones_equiv; lia). rewrite Z.land_ones by done. fold a.
    pose proof (Z.mod_pos_bound (a - v) a Ha). pose proof (Z_div_mod_eq_full (a - v) a) as Hd.
    pose proof (round_up_le v a Ha). pose proof (round_up_lt v a Ha). destruct (round_up_divide v a) as [j Hj].
    assert (j = 1 - (a - v) / a) by nia. nia. }
  rewrite Hup. split_and!; [apply round_up_divide|by apply round_up_le|by apply round_up_lt|done|]. by apply round_up_least.
Qed.

(** ** Identifiers *)

(** The text in the comment above every GUID of the headers is that GUID, no two of
    them are the same, and the identifiers the C# service looks for are the ones the
    header gives to remote desktop. *)
Theorem identifiers_agree :
  Forall (fun p => p.1 = "{" +:+ guid_text hex_upper p.2 +:+ "}") header_guids /\ NoDup (map snd header_guids) /\
  ControlClassId = guid_text hex_lower SYNTHRDP_CONTROL_CLASS_ID /\
  ControlInstanceId = guid_text hex_lower SYNTHRDP_CONTROL_INSTANCE_ID /\
  DataClassId = guid_text hex_lower SYNTHRDP_DATA_CLASS_ID /\
  DataInstanceIds = map (guid_text hex_lower)
    [SYNTHRDP_DATA_INSTANCE_ID_1; SYNTHRDP_DATA_INSTANCE_ID_2; SYNTHRDP_DATA_INSTANCE_ID_3; SYNTHRDP_DATA_INSTANCE_ID_4;
     SYNTHRDP_DATA_INSTANCE_ID_5].
Proof.
  assert (Hf : Forall (fun p => p.1 = "{" +:+ guid_text hex_upper p.2 +:+ "}") header_guids).
  { apply Forall_forall. intros p Hp.
    assert (E : forallb (fun p => String.eqb p.1 ("{" +:+ guid_text hex_upper p.2 +:+ "}")) header_guids = true)
      by (vm_compute; reflexivity).
    rewrite forallb_forall in E. apply String.eqb_eq. by apply E, list_elem_of_In. }
  split_and!; [done| |vm_compute; reflexivity..].
  apply (NoDup_fmap_1 (fun g => "{" +:+ guid_text hex_upper g +:+ "}")).
  assert (E : bool_decide (NoDup (map fst header_guids)) = true) by (vm_compute; reflexivity).
  apply bool_decide_eq_true in E.
  replace ((fun g => "{" +:+ guid_text hex_upper g +:+ "}") <$> map snd header_guids) with (map fst header_guids); [done|].
  clear E. induction Hf as [|p l Hp _ IH]; [done|]. cbn [map fmap list_fmap]. by rewrite Hp, IH.
Qed.

(** Registering a device class reports success exactly when the file opened and all
    36 characters of the identifier were written, never for no identifier; it closes
    what it opened; and two different identifiers are never written as the same text. *)
Theorem register_device_result io g :
  guid_ok g -> (forall e, fopen_error io = Some e -> e <> 0) ->
  (forall t, fprintf_result io t < 0 -> fprintf_errno io <> 0) ->
  ((HvGinUioRegisterDevice io (Some g)).1 = 0 <->
     fopen_error io = None /\ fprintf_result io (guid_text hex_lower g) = Z.of_nat (String.length (guid_text hex_lower g))) /\
  (fopen_error io = None <-> Fclose ∈ (HvGinUioRegisterDevice io (Some g)).2) /\
  HvGinUioRegisterDevice io None = (EINVAL, []) /\
  (forall h, guid_ok h -> (HvGinUioRegisterDevice io (Some g)).2 = (HvGinUioRegisterDevice io (Some h)).2 ->
     fopen_error io = None -> g = h).
Proof.
  intros Hg Ho Hp. unfold HvGinUioRegisterDevice. rewrite guid_text_length. split_and!.
  - destruct (fopen_error io) as [e|] eqn:E; cbn [fst].
    + specialize (Ho e eq_refl). split; [done|]. by intros [? _].
    + destruct (Z.ltb_spec (fprintf_result io (guid_text hex_lower g)) 0) as [Hn|Hn].
      * specialize (Hp _ Hn). split; [done|]. intros [_ H]. lia.
      * unfold GuidStringLength. destruct (Z.eqb_spec 36 (fprintf_result io (guid_text hex_lower g))) as [Heq|Hne]; cbn [negb].
        -- rewrite <- Heq. done.
        -- split; [done|]. intros [_ H]. rewrite H in Hne. done.
  - destruct (fopen_error io); cbn [snd]; rewrite !elem_of_cons, elem_of_nil; split; try done; [intros [?|[]]; congruence|].
    intros _. by right; right; left.
  - done.
  - intros h Hh H E. rewrite E in H. cbn [snd] in H.
    apply (f_equal (fun l => match l with _ :: Fprintf t :: _ => t | _ => new_id end)) in H. by apply guid_text_inj.
Qed.

Definition is_close (c : socket_call) : bool := match c with Close _ => true | _ => false end.

(** C40. Mounting a share: the socket that was created is closed on every path and no
    other is; the file system is mounted only over a connected socket whose buffer size
    was set; and the result is 0 exactly when every call succeeded. *)
Theorem mount_share_result n Port AccessName MountPoint ReadOnly BufferSize :
  (forall e, net_socket n = inr e \/ net_connect n = Some e \/ net_setsockopt n = Some e \/ net_mount n = Some e -> e <> 0) ->
  let r := HvGinMountHcsPlan9Share n Port AccessName MountPoint ReadOnly BufferSize in
  (r.1 = 0 <-> (exists s, net_socket n = inl s) /\ net_connect n = None /\ net_setsockopt n = None /\ net_mount n = None) /\
  (forall s, last r.2 = Some (Close s) <-> net_socket n = inl s) /\
  length (filter (fun c => is_close c = true) r.2) =
    match net_socket n with inl _ => 1%nat | inr _ => 0%nat end /\
  (forall src tgt o ro, Mount src tgt o ro ∈ r.2 -> net_connect n = None /\ net_setsockopt n = None).
Proof.
  intros He r. unfold r, HvGinMountHcsPlan9Share. destruct (net_socket n) as [s|e] eqn:Es.
  - destruct (net_connect n) as [e1|] eqn:E1; [|destruct (net_setsockopt n) as [e2|] eqn:E2;
      [|destruct (net_mount n) as [e3|] eqn:E3]]; cbn; split_and!; try done.
    all: try (split; [intros ->; exfalso; eapply He; [|reflexivity]; eauto|intros ([? ?] & ? & ? & ?); congruence]).
    all: try (intros s'; split; [by intros [= ->]|by intros [= ->]]).
    all: try (intros src tgt o ro; rewrite !elem_of_cons, elem_of_nil; intros H; exfalso; decompose [or] H; first [congruence | by inversion H0]).
    all: split; [eauto|done].
  - cbn. split_and!; try done.
    + split; [intros ->; exfalso; eapply He; [|reflexivity]; eauto|intros ([? ?] & ? & ? & ?); congruence].
    + intros src tgt o ro. rewrite !elem_of_cons, elem_of_nil. intros H; exfalso; decompose [or] H; first [congruence | by inversion H0].
Qed.

(** The program takes the host for Hyper-V exactly when [eax] of the interface leaf
    holds the signature, whatever the other registers hold. *)
Theorem runs_on_hyperv_iff eax ebx ecx edx :
  0 <= eax < 2 ^ 32 ->
  runs_on_hyperv [eax; ebx; ecx; edx] = Some (eax =? enum_value HV_HYPERVISOR_INTERFACE "HvMicrosoftHypervisorInterface").
Proof.
  intros He. unfold runs_on_hyperv, write, read.
  repeat match goal with |- context [locate ?b ?t ?p] => eval_locate b t p end. cbn iota beta.
  cbn [nth]. do 2 f_equal.
  change (replicate (Z.to_nat (sizeof SysV HV_CPUID_RESULT)) 0) with (replicate 16 0).
  rewrite !load_store_other, load_store_same by (unfold within; rewrite ?length_store; cbn; lia).
  by apply Z.mod_small.
Qed.

(** ** Enumerations *)

(** The enumerations in which a value has more than one name. *)
Definition with_synonyms : list string :=
  ["HV_CPUID_FUNCTION"; "HV_MESSAGE_TYPE"; "HV_EVENTLOG_TYPE"; "VSTOR_PACKET_OPERATION"; "NVSP_MESSAGE_TYPE";
   "HV_HYPERVISOR_COUNTER"; "HV_CPU_COUNTER"; "HV_PROCESS_COUNTER"; "HV_CACHE_TYPE"; "HV_PHYSICAL_DEVICE_PROPERTY";
   "HV_PARTITION_MIRRORING_POLICY"; "HV_NON_ARCH_CORE_SHARING_TYPE"; "HV_EVENTLOG_MODE"; "HV_EXT_EPF_MODE";
   "SYNTHVID_FEATURE"; "NVSP_MESSAGE_TYPE_PRIVATE"].

(** Everywhere else the value of an enumerator names it: two enumerators with the same
    value are the same one.  The enumerators have the 32 bits the host's compiler gives
    an enumeration, and among the exceptions the type of a message does not tell a
    register intercept from a page request of the IOMMU. *)
Theorem enumerators_distinct n e x y v :
  (n, e) ∈ header_enums -> existsb (String.eqb n) with_synonyms = false ->
  (x, v) ∈ enum_values e -> (y, v) ∈ enum_values e ->
  x = y /\ sizeof SysV (enum_type e) = 4 /\
  enum_value HV_MESSAGE_TYPE "HvMessageTypeX64IommuPrq" = enum_value HV_MESSAGE_TYPE "HvMessageTypeRegisterIntercept".
Proof.
  intros Hd Hn Hx Hy.
  assert (E : forallb (fun p => (distinct (map snd (enum_values p.2)) || existsb (String.eqb p.1) with_synonyms)
    && (sizeof SysV (enum_type p.2) =? 4)) header_enums = true) by (vm_compute; reflexivity).
  rewrite forallb_forall in E. specialize (E _ (proj1 (list_elem_of_In _ _) Hd)). cbn [fst snd] in E.
  rewrite Hn, orb_false_r in E. apply andb_true_iff in E as [E Es]. split_and!; [|by apply Z.eqb_eq|vm_compute; reflexivity].
  apply distinct_nodup in E. change (map snd (enum_values e)) with ((enum_values e).*2) in E.
  apply list_elem_of_lookup in Hx as [i Hi]. apply list_elem_of_lookup in Hy as [j Hj].
  assert (i = j) as <-.
  { eapply (NoDup_lookup _ i j v E); rewrite list_lookup_fmap; [by rewrite Hi|by rewrite Hj]. }
  congruence.
Qed.

(** ** The properties at concrete inputs *)

Module Witness.

Example version_roundtrip_witness :
  SYNTHVID_MAKE_VERSION_MINOR (SYNTHVID_MAKE_VERSION 3 2) = 2 /\ NVSP_PROTOCOL_MAJOR (NVSP_PROTOCOL_VERSION 6 1) = 6.
Proof.
  destruct (version_roundtrip 3 2) as [H _]. destruct H as (_ & H & _); [lia..|].
  destruct (version_roundtrip 6 1) as (_ & K & _). split; [exact H|exact K].
Defined.

Example version_views_witness :
  exists b, read SysV SYNTHRDP_VERSION [Dot "AsDWORD"] b = Some (SYNTHRDP_MAKE_VERSION 1 7).
Proof.
  destruct (version_views 1 7 [1; 2; 3; 4]) as (_ & (b & _ & H) & _); [lia|lia|reflexivity|]. exists b. exact H.
Defined.

Example align_value_witness : (8 | ALIGN_VALUE 13 (2 ^ 3)) /\ ALIGN_VALUE 13 8 = 16.
Proof. destruct (align_value_least 3 13 16) as [H _]; [lia|]. split; [exact H|reflexivity]. Defined.

Definition io_ok : stdio := Stdio None (fun _ => 36) 0.

Example guid_ok_hk : guid_ok HK_CLASS_ID.
Proof. unfold guid_ok, HK_CLASS_ID. cbn. repeat split; try lia. repeat constructor; lia. Defined.

Example register_device_witness : (HvGinUioRegisterDevice io_ok (Some HK_CLASS_ID)).1 = 0.
Proof.
  destruct (register_device_result io_ok HK_CLASS_ID) as [H _]; [apply guid_ok_hk|done|cbn; lia|].
  apply H. split; reflexivity.
Defined.

Example mount_share_witness :
  last (HvGinMountHcsPlan9Share (Net (inl 3) None (Some 22) None) 50001 "share" "/mnt" true 65536).2 = Some (Close 3).
Proof.
  destruct (mount_share_result (Net (inl 3) None (Some 22) None) 50001 "share" "/mnt" true 65536) as (_ & H & _).
  - cbn. intros e He. decompose [or] He; simplify_eq; lia.
  - apply H. reflexivity.
Defined.

Example runs_on_hyperv_witness : runs_on_hyperv [0x31237648; 7; 0; 0] = Some true.
Proof. rewrite (runs_on_hyperv_iff 0x31237648 7 0 0); [reflexivity|lia]. Defined.

Example enumerators_distinct_witness :
  "HvCallPostMessage" = "HvCallPostMessage" /\ sizeof SysV (enum_type HV_CALL_CODE) = 4.
Proof.
  destruct (enumerators_distinct "HV_CALL_CODE" HV_CALL_CODE "HvCallPostMessage" "HvCallPostMessage" 0x5c) as (H & K & _);
    [|reflexivity| | |exact (conj H K)].
  - apply (list_elem_of_lookup_2 _ 8). reflexivity.
  - apply (bool_decide_unpack _); vm_compute; reflexivity.
  - apply (bool_decide_unpack _); vm_compute; reflexivity.
Defined.

End Witness.
