(* ===== verification/UserDevice.v ===== *)
(** * The user-space side of a UIO device

    The C# application: finding a device in sysfs and mapping its rings
    ([UioHv.cs], the constructor of [UioHvDevice.cs]), signalling and waiting
    through its file, and the remote-desktop service on top ([SynthRdp*.cs]).
    What the file system, the socket and the kernel answer are arguments. *)

From Stdlib Require Import Ascii.
From S2P Require Import Prelude CLayout CLayoutSpec CAccess Ring.

(** ** Exceptions

    A C# computation returns or throws; [OutOfFuel] is not a behaviour of the
    program. *)
Inductive cs (A : Type) := Ret (a : A) | Throw (message : string) | OutOfFuel.
Arguments Ret {A} a. Arguments Throw {A} message. Arguments OutOfFuel {A}.

#[export] Instance cs_ret : MRet cs := @Ret.
#[export] Instance cs_bind : MBind cs := fun A B f m =>
  match m with Ret a => f a | Throw e => Throw e | OutOfFuel => OutOfFuel end.

(** The operations of [Ring], whose exceptions are [None]. *)
Definition or_throw {A} (message : string) (o : option A) : cs A := match o with Some a => Ret a | None => Throw message end.

(** ** The .NET library's part *)

Definition s64 (z : Z) : Z := (z + 2 ^ 63) mod 2 ^ 64 - 2 ^ 63.

(** The value of a hexadecimal digit. *)
Definition hex_digit_value (c : ascii) : option Z :=
  let n := Z.of_N (N_of_ascii c) in
  if (48 <=? n) && (n <? 58) then Some (n - 48)
  else if (97 <=? n) && (n <? 103) then Some (n - 87)
  else if (65 <=? n) && (n <? 71) then Some (n - 55) else None.

Fixpoint parse_hex (s : string) (v : Z) : option Z :=
  match s with
  | EmptyString => Some v
  | String c s => match hex_digit_value c with Some d => parse_hex s (16 * v + d) | None => None end
  end.

(** [Convert.ToInt64(s, 16)]: an optional 0x, at least one digit, at most 64 bits, read in
    two's complement. *)
Definition ToInt64_16 (s : string) : cs Z :=
  let digits := match s with
    | String "0" (String "x" t) | String "0" (String "X" t) => t
    | _ => s
    end in
  match digits with
  | EmptyString => Throw "ArgumentOutOfRangeException"
  | _ => v ← or_throw "FormatException" (parse_hex digits 0);
         if v <? 2 ^ 64 then mret (s64 v) else Throw "OverflowException"
  end.

(** [File.ReadAllLines] on a text: lines end at a line feed, a carriage return or both. *)
Fixpoint lines_of (s line : string) : list string :=
  match s with
  | EmptyString => if line is EmptyString then [] else [line]
  | String c t =>
      if Ascii.eqb c "010" then line :: lines_of t EmptyString
      else if Ascii.eqb c "013" then
        line :: match t with String "010" t' => lines_of t' EmptyString | _ => lines_of t EmptyString end
      else lines_of t (line +:+ String c EmptyString)
  end.

(** The file system, as the program looks at it; a missing directory or file is [None]. *)
Record filesystem := Filesystem {
  GetDirectories : string -> option (list string);
  File_Exists : string -> bool;
  Directory_Exists : string -> bool;
  file_text : string -> option string }.

(** [File.ReadAllLines(path)[0]] *)
Definition first_line (fs : filesystem) (path : string) : cs string :=
  t ← or_throw "FileNotFoundException" (file_text fs path);
  match lines_of t EmptyString with
  | line :: _ => mret line
  | [] => Throw "IndexOutOfRangeException"
  end.

(** ** UioHv *)

Record UioDeviceMemoryMapItem := MapItem { mi_Name : string; mi_Offset : Z; mi_Size : Z }.
Record UioDeviceInformation := DeviceInformation { DeviceObjectPath : string; MemoryMap : list UioDeviceMemoryMapItem }.

(** The loop over [maps/mapN]: [FullName] is the device's directory. *)
Fixpoint read_maps (fuel : nat) (fs : filesystem) (PageSize : Z) (FullName : string) (i : Z) : cs (list UioDeviceMemoryMapItem) :=
  match fuel with
  | O => OutOfFuel
  | S fuel =>
      let CurrentPath := FullName +:+ "/maps/map" +:+ fmt_d i in
      if negb (Directory_Exists fs CurrentPath) then mret [] else
      name ← first_line fs (CurrentPath +:+ "/name");
      size ← first_line fs (CurrentPath +:+ "/size");
      Size ← ToInt64_16 size;
      rest ← read_maps fuel fs PageSize FullName (i + 1);
      mret (MapItem name (s32 (i * PageSize)) Size :: rest)
  end.

Definition uio_directory (InstanceId : string) : string := "/sys/bus/vmbus/devices/" +:+ InstanceId +:+ "/uio".

Fixpoint first_device (fuel : nat) (fs : filesystem) (PageSize : Z) (dir : string) (names : list string) : cs UioDeviceInformation :=
  match names with
  | [] => Throw "Hyper-V VMBus device not found."
  | name :: names =>
      let InstanceName := "/dev/" +:+ name in
      if File_Exists fs InstanceName then
        maps ← read_maps fuel fs PageSize (dir +:+ "/" +:+ name) 0;
        mret (DeviceInformation InstanceName maps)
      else first_device fuel fs PageSize dir names
  end.

Definition GetDeviceInformation (fuel : nat) (fs : filesystem) (PageSize : Z) (InstanceId : string) : cs UioDeviceInformation :=
  let dir := uio_directory InstanceId in
  names ← or_throw "DirectoryNotFoundException" (GetDirectories fs dir);
  first_device fuel fs PageSize dir names.

(** [HResult] of the exception of [File.WriteAllText], if any. *)
Definition RegisterDevice (HResult : option Z) : cs unit :=
  match HResult with
  | None => mret tt
  | Some e => if negb (e =? EEXIST) then Throw "rethrown" else mret tt
  end.

(** ** UioHvDevice *)

(** The private fields; [mapped] is the offset and length the file is mapped with, [init_write] the
    store of the constructor: where, and what. *)
Record UioHvDevice := HvDeviceFields {
  RingBufferSize : Z; ControlMaximumSize : Z; DataMaximumSize_field : Z;
  OutgoingControlOffset : Z; OutgoingDataOffset : Z; IncomingControlOffset : Z; IncomingDataOffset : Z;
  mapped : Z * Z; init_write : Z * Z }.

Definition ring_fields (PageSize Offset Size RingBufferSize : Z) : UioHvDevice :=
  let ControlMaximumSize := PageSize in
  let DataMaximumSize := s32 (RingBufferSize - ControlMaximumSize) in
  let OutgoingControlOffset := 0 in
  let OutgoingDataOffset := s32 (OutgoingControlOffset + ControlMaximumSize) in
  let IncomingControlOffset := s32 (OutgoingControlOffset + RingBufferSize) in
  let IncomingDataOffset := s32 (IncomingControlOffset + ControlMaximumSize) in
  HvDeviceFields RingBufferSize ControlMaximumSize DataMaximumSize
    OutgoingControlOffset OutgoingDataOffset IncomingControlOffset IncomingDataOffset
    (Offset, Size) (IncomingControlOffset + 2 * 4, 0).

(** The constructor; [map_fails] says whether opening or mapping the file throws. *)
Fixpoint find_rings (PageSize : Z) (map_fails : bool) (MemoryMap : list UioDeviceMemoryMapItem) : cs UioHvDevice :=
  match MemoryMap with
  | [] => Throw "Failed to create UioHvDevice"
  | MapItem Name Offset Size :: rest =>
      if negb (String.eqb Name "txrx_rings") || negb (Offset =? 0) then find_rings PageSize map_fails rest else
      RingBufferSize ← or_throw "OverflowException" (ToInt32 (Z.quot Size 2));
      if map_fails then Throw "IOException" else
      mret (ring_fields PageSize Offset Size RingBufferSize)
  end.

Definition new_UioHvDevice (fuel : nat) (fs : filesystem) (PageSize : Z) (map_fails : bool) (InstanceId : string) : cs UioHvDevice :=
  info ← GetDeviceInformation fuel fs PageSize InstanceId;
  find_rings PageSize map_fails (MemoryMap info).

(** The interrupt word, and what [write] answers to it. *)
Definition interrupt_bytes (Enable : bool) : list Z := le_bytes 4 (if Enable then 1 else 0).

Definition InterruptControl (PosixWrite : list Z -> Z) (Enable : bool) : cs unit :=
  let RawBytes := interrupt_bytes Enable in
  let Result := PosixWrite RawBytes in
  if negb (Result =? Z.of_nat (length RawBytes)) then Throw "InterruptControl Failed" else mret tt.

(** [Result] and [errno] of [read]. *)
Definition WaitInterrupt (Result ErrorCode : Z) : cs bool :=
  if Result <? 0 then
    if negb (ErrorCode =? EINTR) && negb (ErrorCode =? EAGAIN) then Throw "WaitInterrupt Failed" else mret false
  else mret true.

Definition SignalHost (PosixWrite : list Z -> Z) : cs unit := InterruptControl PosixWrite true.

(** [Send] pushes onto the outgoing ring, [Receive] pops from the incoming one. *)
Definition Send (PosixWrite : list Z -> Z) (Content : list Z) (outgoing : ring) : cs ring :=
  outgoing ← or_throw "PushPipePacket" (PushPipePacket outgoing Content);
  SignalHost PosixWrite ≫= fun _ => mret outgoing.

Definition Receive (PosixWrite : list Z -> Z) (wait : Z * Z) (incoming : ring) : cs (list Z * ring) :=
  p ← or_throw "PopPipePacket" (PopPipePacket incoming);
  let '(Content, incoming) := p in
  if Z.of_nat (length Content) =? 0 then
    WaitInterrupt wait.1 wait.2 ≫= fun _ => mret ([], incoming)
  else
    SignalHost PosixWrite ≫= fun _ => mret (Content, incoming).
