(* ===== verification/UserSpec.v ===== *)
(** * What user space finds in sysfs

    The files the show functions of [uio.c] serve, as the file system the C#
    application reads, and that it reads back what the driver described. *)

From Stdlib Require Import Ascii.
From S2P Require Import Prelude Kernel UioTypes UioAttr UioDevice KLogic UioInv UioAttrSpec UioSysfs CLayout CLayoutSpec CAccess HeaderFacts HvTrace HvTraceProps Ring UserDevice.

(** ** Texts *)

Definition line_char (c : ascii) : bool := negb (Ascii.eqb c "010") && negb (Ascii.eqb c "013").
Fixpoint one_line (s : string) : bool :=
  match s with EmptyString => true | String c s => line_char c && one_line s end.

Lemma one_line_app s t : one_line (s +:+ t) = one_line s && one_line t.
Proof. induction s as [|c s IH]; [done|]. change (String c s +:+ t) with (String c (s +:+ t)). cbn [one_line]. by rewrite IH, andb_assoc. Qed.

Lemma num_line c : num_char c = true -> line_char c = true.
Proof.
  unfold line_char. intros Hc. destruct (Ascii.eqb_spec c "010") as [->|]; [done|].
  by destruct (Ascii.eqb_spec c "013") as [->|].
Qed.

Lemma all_num_line s : all_num s = true -> one_line s = true.
Proof.
  induction s as [|c s IH]; [done|]. cbn [all_num one_line]. intros [Hc Hs]%andb_true_iff. by rewrite num_line, IH.
Qed.

Lemma one_line_substring s : forall n k, one_line s = true -> one_line (String.substring n k s) = true.
Proof.
  induction s as [|c s IH]; intros n k; [by destruct n, k|]. cbn [one_line]. intros [Hc Hs]%andb_true_iff.
  destruct n as [|n]; [destruct k as [|k]|]; cbn [String.substring one_line]; [done| |by apply IH]. by rewrite Hc, IH.
Qed.

Lemma string_app_assoc (a b c : string) : (a +:+ b) +:+ c = a +:+ (b +:+ c).
Proof. induction a as [|x a IH]; [done|]. change (String x ((a +:+ b) +:+ c) = String x (a +:+ (b +:+ c))). by rewrite IH. Qed.

Lemma string_app_nil_r (a : string) : a +:+ EmptyString = a.
Proof. induction a as [|x a IH]; [done|]. change (String x (a +:+ EmptyString) = String x a). by rewrite IH. Qed.

(** The first line of a text the kernel ended with a line feed. *)
Lemma lines_of_nl s : forall line, one_line s = true -> lines_of (s +:+ nl) line = [line +:+ s].
Proof.
  induction s as [|c s IH]; intros line Hs.
  - cbn. by rewrite string_app_nil_r.
  - cbn [one_line] in Hs. apply andb_true_iff in Hs as [Hc Hs]. unfold line_char in Hc.
    apply andb_true_iff in Hc as [H1%negb_true_iff H2%negb_true_iff].
    change (lines_of (String c (s +:+ nl)) line = [line +:+ String c s]). cbn [lines_of]. rewrite H1, H2.
    rewrite IH by done. f_equal. by rewrite string_app_assoc.
Qed.

(** ** Hexadecimal numbers *)

Fixpoint zeros (s : string) : bool := match s with EmptyString => true | String c s => Ascii.eqb c "0" && zeros s end.

Lemma hex_digit_value_digit d : 0 <= d < 16 -> hex_digit_value (hex_digit d) = Some d.
Proof.
  intros Hd. assert (E : forallb (fun d => match hex_digit_value (hex_digit d) with Some x => x =? d | None => false end)
    (seqZ 0 16) = true) by (vm_compute; reflexivity).
  rewrite forallb_forall in E. specialize (E d). destruct (hex_digit_value (hex_digit d)) as [x|].
  - f_equal. apply Z.eqb_eq, E, list_elem_of_In, elem_of_seqZ. lia.
  - discriminate E. apply list_elem_of_In, elem_of_seqZ. lia.
Qed.

Lemma parse_hex_go n : forall z acc, (0 < n)%nat -> 0 <= z < 16 ^ Z.of_nat n ->
  parse_hex (hex_go n z acc) 0 = parse_hex acc z.
Proof.
  induction n as [|n IH]; intros z acc Hn Hz; [lia|]. cbn [hex_go].
  pose proof (Z.div_mod z 16) as E. pose proof (Z.mod_pos_bound z 16) as B.
  rewrite Nat2Z.inj_succ, Z.pow_succ_r in Hz by lia.
  destruct (Z.eqb_spec (z / 16) 0) as [Hd|Hd].
  - cbn [parse_hex]. rewrite hex_digit_value_digit by lia. f_equal. lia.
  - destruct n as [|n].
    { change (16 ^ Z.of_nat 0) with 1 in Hz. rewrite Z.div_small in Hd by lia. done. }
    rewrite IH; [|lia|split; [apply Z.div_pos; lia|apply Z.div_lt_upper_bound; lia]].
    cbn [parse_hex]. rewrite hex_digit_value_digit by lia. f_equal. lia.
Qed.

Lemma parse_hex_zeros pad s : zeros pad = true -> parse_hex (pad +:+ s) 0 = parse_hex s 0.
Proof.
  induction pad as [|c pad IH]; [done|]. cbn [zeros]. intros [Hc%Ascii.eqb_eq Hp]%andb_true_iff. subst c.
  change (parse_hex (String "0" (pad +:+ s)) 0 = parse_hex s 0). cbn [parse_hex].
  change (hex_digit_value "0") with (Some 0). by apply IH.
Qed.

Lemma zeros_num pad : zeros pad = true -> all_num pad = true.
Proof.
  induction pad as [|c pad IH]; [done|]. cbn [zeros all_num]. intros [Hc%Ascii.eqb_eq Hp]%andb_true_iff. subst c.
  by rewrite IH.
Qed.

Lemma hex_go_nonempty n z acc : acc <> EmptyString \/ (0 < n)%nat -> hex_go n z acc <> EmptyString.
Proof.
  revert z acc. induction n as [|n IH]; intros z acc H; cbn [hex_go]; [by destruct H; [|lia]|].
  destruct (_ =? 0); [done|]. apply IH. by left.
Qed.

(** What is documented of [%pa]: 0x and the digits, padded with zeros. *)
Class FmtPaOk `{Uapi} := fmt_pa_spec a : 0 <= a < 2 ^ 64 -> exists pad, zeros pad = true /\ fmt_pa a = "0x" +:+ pad +:+ fmt_x a.

Lemma fmt_pa_read `{FmtPaOk} a : 0 <= a < 2 ^ 64 -> one_line (fmt_pa a) = true /\ ToInt64_16 (fmt_pa a) = Ret (s64 a).
Proof.
  intros Ha. destruct (fmt_pa_spec a Ha) as (pad & Hp & ->). split.
  - rewrite !one_line_app, (all_num_line pad), (all_num_line (fmt_x a)); [done|apply fmt_x_num|by apply zeros_num].
  - change ("0x" +:+ pad +:+ fmt_x a) with (String "0" (String "x" (pad +:+ fmt_x a))). unfold ToInt64_16.
    assert (Hne : pad +:+ fmt_x a <> EmptyString).
    { destruct pad; [|done]. apply hex_go_nonempty. right. lia. }
    assert (Hv : parse_hex (pad +:+ fmt_x a) 0 = Some a).
    { rewrite parse_hex_zeros by done. unfold fmt_x. by rewrite parse_hex_go by (done || lia). }
    rewrite Hv. destruct (pad +:+ fmt_x a) eqn:E; [done|]. cbn [or_throw mbind cs_bind].
    by rewrite (proj2 (Z.ltb_lt a (2 ^ 64))) by lia.
Qed.

(** ** The files of a device *)

Section files.
Context `{HK : Kernel, HU : Uapi} {D : Type}.
Set Default Proof Using "All".
Implicit Types w : world D.

(** The text a show function stores, when it returns no error. *)
Definition shown (m : K D (Z * string)) w : option string :=
  match m w with Some (n, s, _) => if 0 <=? n then Some s else None | None => None end.

Definition uio_name (d : uio_device) : string := "uio" +:+ fmt_d (d_minor d).
Definition device_path (inst : string) (d : uio_device) : string := uio_directory inst +:+ "/" +:+ uio_name d.
Definition map_path (inst : string) (d : uio_device) (j : nat) : string :=
  device_path inst d +:+ "/maps/map" +:+ fmt_d (Z.of_nat j).

(** The directories in [maps]. *)
Definition map_dirs w (d : uio_device) : list string :=
  if d_map_dir d =? NULL then [] else dir_entries (d_map_dir d) (w_hist w).

(** The attribute files that can exist in them. *)
Definition map_files : list (nat * map_sysfs_entry (D:=D)) := list_prod (seq 0 MAX_UIO_MAPS) map_attrs.
Definition is_file (inst : string) (d : uio_device) (path : string) (f : nat * map_sysfs_entry (D:=D)) : bool :=
  String.eqb path (map_path inst d f.1 +:+ "/" +:+ me_name f.2).

(** The file system with the device [d] of the VMBus device [inst] in the state [w]. *)
Definition fs_of w (d : uio_device) (inst : string) : filesystem := {|
  GetDirectories p := if String.eqb p (uio_directory inst) then Some [uio_name d] else None;
  File_Exists p := String.eqb p ("/dev/" +:+ uio_name d);
  Directory_Exists p := existsb (fun nm => String.eqb p (device_path inst d +:+ "/maps/" +:+ nm)) (map_dirs w d);
  file_text p :=
    match List.find (is_file inst d p) map_files with
    | Some (j, e) =>
        if existsb (String.eqb ("map" +:+ fmt_d (Z.of_nat j))) (map_dirs w d) then
          match me_show e with Some show => shown (show (d_info d, j)) w | None => None end
        else None
    | None => None
    end |}.

Lemma map_path_inj inst d j n j' n' : map_path inst d j +:+ "/" +:+ n = map_path inst d j' +:+ "/" +:+ n' -> j = j' /\ n = n'.
Proof.
  unfold map_path. rewrite !string_app_assoc. intros E%(inj (String.append _))%(inj (String.append _)).
  apply number_split in E as [E1 E2]; try apply fmt_d_num; try done.
  split; [apply fmt_d_inj in E1; lia|by injection E2].
Qed.

Lemma map_attrs_inj e e' : e ∈ map_attrs (D:=D) -> e' ∈ map_attrs (D:=D) -> me_name e = me_name e' -> e = e'.
Proof.
  unfold map_attrs. intros He He'. repeat (apply elem_of_cons in He as [->|He]); [..|by apply elem_of_nil in He];
    repeat (apply elem_of_cons in He' as [->|He']); done || (by apply elem_of_nil in He').
Qed.

Lemma find_file inst d j (e : map_sysfs_entry (D:=D)) : (j < MAX_UIO_MAPS)%nat -> e ∈ map_attrs ->
  List.find (is_file inst d (map_path inst d j +:+ "/" +:+ me_name e)) map_files = Some (j, e).
Proof.
  intros Hj He. destruct (List.find _ _) as [[j' e']|] eqn:E.
  - apply find_some in E as [Hin Heq]. apply in_prod_iff in Hin as [_ Hin%list_elem_of_In].
    unfold is_file in Heq. apply String.eqb_eq in Heq. cbn [fst snd] in Heq. apply map_path_inj in Heq as [-> Hn].
    f_equal. f_equal. symmetry. by apply map_attrs_inj.
  - exfalso. pose proof (find_none _ _ E (j, e)) as Hf.
    unfold is_file in Hf. cbn [fst snd] in Hf. rewrite String.eqb_refl in Hf. discriminate Hf.
    apply in_prod_iff. split; [apply in_seq; lia|by apply list_elem_of_In].
Qed.

(** The directory of a number exists exactly for the leading regions. *)
Lemma numbered_elem prefix k j : (prefix +:+ fmt_d (Z.of_nat j)) ∈ numbered prefix k <-> (j < k)%nat.
Proof.
  unfold numbered. rewrite list_elem_of_fmap. split.
  - intros (j' & E%(inj (String.append _))%fmt_d_inj & Hj%elem_of_seq). lia.
  - intros Hj. exists j. split; [done|]. apply elem_of_seq. lia.
Qed.

Lemma map_dirs_elem w d k j : dir_ok "map" (d_map_dir d) k (w_hist w) ->
  ("map" +:+ fmt_d (Z.of_nat j)) ∈ map_dirs w d <-> (j < k)%nat.
Proof.
  intros Hk. unfold map_dirs, NULL. rewrite <- (numbered_elem "map"). destruct k as [|k]; cbn [dir_ok] in Hk.
  - rewrite Hk. cbn [Z.eqb]. split; intros H; [by apply not_elem_of_nil in H|].
    unfold numbered in H. by apply not_elem_of_nil in H.
  - destruct Hk as [H1 ->]. rewrite (proj2 (Z.eqb_neq _ _) H1). by rewrite !list_elem_of_In, <- in_rev.
Qed.

(** ** Reading them *)

(** What the driver has to have filled in for a region to be read back: a name of one line, a
    size that fits 64 bits. *)
Definition readable_mem (m : uio_mem) : Prop :=
  exists s, m_name m = Some s /\ one_line s = true /\ 0 <= m_size m < 2 ^ 64.

(** The item user space makes of region [j]. *)
Definition item_of (PageSize : Z) (j : nat) (m : uio_mem) : UioDeviceMemoryMapItem :=
  MapItem (c_string (m_name m)) (s32 (Z.of_nat j * PageSize)) (s64 (m_size m)).

Context w (d : uio_device) (i : uio_info) (inst : string) (PageSize : Z) `{HF : !FmtPaOk}.
Hypothesis Hinfo : w_info w !! d_info d = Some i.
Hypothesis Hshape : info_shape i.
Hypothesis Hdirs : dir_ok "map" (d_map_dir d) (map_count i) (w_hist w).
Hypothesis Hmems : forall j m, (j < map_count i)%nat -> i_mem i !! j = Some m -> readable_mem m.

Lemma map_exists j : Directory_Exists (fs_of w d inst) (map_path inst d j) = true <-> (j < map_count i)%nat.
Proof.
  cbn [fs_of Directory_Exists]. rewrite existsb_exists, <- (map_dirs_elem w d (map_count i) j Hdirs). split.
  - intros (nm & Hin%list_elem_of_In & E%String.eqb_eq). unfold map_path in E. apply (inj (String.append _)) in E.
    change ("/maps/map" +:+ fmt_d (Z.of_nat j)) with ("/maps/" +:+ ("map" +:+ fmt_d (Z.of_nat j))) in E.
    apply (inj (String.append _)) in E. by rewrite E.
  - intros Hin%list_elem_of_In. eexists. split; [exact Hin|]. by apply String.eqb_eq.
Qed.

Lemma map_text j m e show : (j < map_count i)%nat -> i_mem i !! j = Some m -> e ∈ map_attrs -> me_show e = Some show ->
  file_text (fs_of w d inst) (map_path inst d j +:+ "/" +:+ me_name e) = shown (show (d_info d, j)) w.
Proof.
  intros Hj Hm He Hs. cbn [fs_of file_text]. destruct (map_count_le i Hshape) as [Hle _].
  rewrite find_file by (done || lia). apply (map_dirs_elem w d (map_count i) j Hdirs) in Hj.
  assert (existsb (String.eqb ("map" +:+ fmt_d (Z.of_nat j))) (map_dirs w d) = true) as ->; [|by rewrite Hs].
  apply existsb_exists. eexists. split; [by apply list_elem_of_In|apply String.eqb_refl].
Qed.

Lemma load_mem_run j m : i_mem i !! j = Some m -> load_mem (d_info d, j) w = Some (m, w).
Proof.
  intros Hm. unfold load_mem, load_info, get_some, mbind, K_bind. cbn [fst snd]. by rewrite Hinfo, Hm.
Qed.

Lemma first_name j m : (j < map_count i)%nat -> i_mem i !! j = Some m ->
  first_line (fs_of w d inst) (map_path inst d j +:+ "/name") = Ret (c_string (m_name m)).
Proof.
  intros Hj Hm. destruct (Hmems j m Hj Hm) as (s & Hs & Hl & _). unfold first_line.
  change (map_path inst d j +:+ "/name") with (map_path inst d j +:+ "/" +:+ me_name (D:=D) name_attribute).
  rewrite (map_text j m name_attribute map_name_show) by (done || by left).
  unfold shown, map_name_show. cbn [mbind K_bind]. unfold mbind, K_bind. rewrite (load_mem_run j m Hm), Hs.
  cbn [mret K_ret]. unfold mret, K_ret. rewrite (load_mem_run j m Hm). unfold sprintf. rewrite Hs.
  rewrite (proj2 (Z.leb_le 0 _)) by lia. cbn [or_throw mbind cs_bind c_string default from_option]. unfold mbind, cs_bind.
  by rewrite lines_of_nl.
Qed.

Lemma first_size j m : (j < map_count i)%nat -> i_mem i !! j = Some m ->
  first_line (fs_of w d inst) (map_path inst d j +:+ "/size") ≫= ToInt64_16 = Ret (s64 (m_size m)).
Proof.
  intros Hj Hm. destruct (Hmems j m Hj Hm) as (s & _ & _ & Hsz). destruct (fmt_pa_read _ Hsz) as [Hl Hr]. unfold first_line.
  change (map_path inst d j +:+ "/size") with (map_path inst d j +:+ "/" +:+ me_name (D:=D) size_attribute).
  rewrite (map_text j m size_attribute map_size_show) by (done || (right; right; by left)).
  unfold shown, map_size_show. unfold mbind at 3, K_bind. rewrite (load_mem_run j m Hm).
  unfold mret, K_ret, sprintf. rewrite (proj2 (Z.leb_le 0 _)) by lia. cbn [or_throw mbind cs_bind]. unfold mbind, cs_bind.
  by rewrite lines_of_nl.
Qed.

(** The regions from [j] on, as items. *)
Definition items_from (j : nat) : list UioDeviceMemoryMapItem :=
  imap (fun k m => item_of PageSize (j + k) m) (drop j (take (map_count i) (i_mem i))).

Lemma read_maps_from n : forall j fuel, (j + n = map_count i)%nat -> (n < fuel)%nat ->
  read_maps fuel (fs_of w d inst) PageSize (device_path inst d) (Z.of_nat j) = Ret (items_from j).
Proof.
  destruct (map_count_le i Hshape) as [Hle _]. destruct Hshape as [Hlen _].
  induction n as [|n IH]; intros j fuel Hj Hf; (destruct fuel as [|fuel]; [lia|]); cbn [read_maps].
  - change (device_path inst d +:+ "/maps/map" +:+ fmt_d (Z.of_nat j)) with (map_path inst d j).
    assert (Directory_Exists (fs_of w d inst) (map_path inst d j) = false) as ->.
    { apply not_true_iff_false. rewrite map_exists. lia. }
    unfold items_from. rewrite drop_ge; [done|]. rewrite length_take. lia.
  - change (device_path inst d +:+ "/maps/map" +:+ fmt_d (Z.of_nat j)) with (map_path inst d j).
    assert (Hlt : (j < map_count i)%nat) by lia. rewrite (proj2 (map_exists j) Hlt). cbn [negb].
    destruct (lookup_lt_is_Some_2 (i_mem i) j) as [m Hm]; [lia|].
    rewrite (first_name j m Hlt Hm). pose proof (first_size j m Hlt Hm) as Hs.
    unfold mbind in *. cbn [cs_bind] in *. destruct (first_line _ (map_path inst d j +:+ "/size")) as [t| |]; try discriminate Hs.
    cbn [cs_bind] in Hs |- *. rewrite Hs. replace (Z.of_nat j + 1) with (Z.of_nat (S j)) by lia. rewrite IH by lia.
    unfold mret, cs_ret, items_from. cbn [cs_bind].
    rewrite (drop_S (take (map_count i) (i_mem i)) m j) by by rewrite lookup_take_lt.
    cbn [imap]. rewrite Nat.add_0_r. unfold item_of at 2. do 2 f_equal. apply imap_ext. intros k x _. cbn [compose].
    f_equal. lia.
Qed.

(** User space gets the regions the driver described, in their order, with their names and sizes. *)
Lemma GetDeviceInformation_maps fuel : (map_count i < fuel)%nat ->
  GetDeviceInformation fuel (fs_of w d inst) PageSize inst =
  Ret (DeviceInformation ("/dev/" +:+ uio_name d) (imap (item_of PageSize) (take (map_count i) (i_mem i)))).
Proof.
  intros Hf. unfold GetDeviceInformation. cbn [fs_of GetDirectories]. rewrite String.eqb_refl.
  unfold or_throw, mbind, cs_bind. cbn [first_device]. fold (fs_of w d inst).
  change (File_Exists (fs_of w d inst) ("/dev/" +:+ uio_name d)) with (String.eqb ("/dev/" +:+ uio_name d) ("/dev/" +:+ uio_name d)).
  rewrite String.eqb_refl. unfold mbind, cs_bind. change 0 with (Z.of_nat 0).
  change (uio_directory inst +:+ "/" +:+ uio_name d) with (device_path inst d).
  rewrite (read_maps_from (map_count i) 0 fuel) by lia. done.
Qed.
End files.
