(* ===== verification/SynthRdp.v ===== *)
(** * The remote-desktop service

    [SynthRdp.cs] and its messages: the exchange of versions on the control
    channel, the search for a data channel, and one turn of each of the two
    threads that forward bytes between the data channel and a TCP connection. *)

From S2P Require Import Prelude CLayout CLayoutSpec CAccess Ring UserDevice Native.

(** ** Messages *)

(** [SynthRdpMessageType]; a raw value without a name reads as [Error]. *)
Definition SynthRdpMessageType_Error := 0.
Definition VersionRequest := 1.
Definition VersionResponse := 2.
Definition SynthRdpMessageType_Max := 3.
Definition SynthRdpMessageType_of (RawType : Z) : Z :=
  if existsb (Z.eqb RawType) [SynthRdpMessageType_Error; VersionRequest; VersionResponse; SynthRdpMessageType_Max] then RawType
  else SynthRdpMessageType_Error.

Record SynthRdpHeader := RdpHeader { rh_RawType : Z; rh_Size : Z }.

(** The setters of [SynthRdpVersion] only set bits. *)
Definition MajorVersion (AsDWORD : Z) : Z := Z.land AsDWORD 0x0000FFFF.
Definition MinorVersion (AsDWORD : Z) : Z := Z.shiftr (Z.land AsDWORD 0xFFFF0000) 16.
Definition set_MajorVersion (value AsDWORD : Z) : cs Z :=
  v ← or_throw "OverflowException" (ToUInt32 value); mret (Z.lor AsDWORD v).
Definition set_MinorVersion (value AsDWORD : Z) : cs Z :=
  v ← or_throw "OverflowException" (ToUInt32 (s32 (Z.shiftl value 16))); mret (Z.lor AsDWORD v).

Record SynthRdpVersionRequest := RdpVersionRequest { rq_Header : SynthRdpHeader; rq_Version : Z; rq_Reserved : Z }.
Record SynthRdpVersionResponse := RdpVersionResponse {
  rs_Header : SynthRdpHeader; rs_Version : Z; rs_Reserved : Z; rs_IsAccepted : Z }.

Definition IsAcceptedWithVersionExchange (r : SynthRdpVersionResponse) : bool := rs_IsAccepted r =? 2.
Definition SetAcceptedWithVersionExchange (r : SynthRdpVersionResponse) : SynthRdpVersionResponse :=
  RdpVersionResponse (rs_Header r) (rs_Version r) (rs_Reserved r) 2.

(** [Marshal.SizeOf]: packed, without gaps. *)
Definition SizeOf_VersionRequest := 16.
Definition SizeOf_VersionResponse := 17.

(** [Utilities.StructureToBytes] and [BytesToStructure]. The second reads the size of the
    structure from the address of the array, whatever the length of the array is: [beyond] is
    the memory after it. *)
Definition header_bytes (h : SynthRdpHeader) : list Z := le_bytes 4 (rh_RawType h) ++ le_bytes 4 (rh_Size h).
Definition StructureToBytes (r : SynthRdpVersionRequest) : list Z :=
  header_bytes (rq_Header r) ++ le_bytes 4 (rq_Version r) ++ le_bytes 4 (rq_Reserved r).
Definition response_bytes (r : SynthRdpVersionResponse) : list Z :=
  header_bytes (rs_Header r) ++ le_bytes 4 (rs_Version r) ++ le_bytes 4 (rs_Reserved r) ++ [rs_IsAccepted r].
Definition BytesToStructure (Bytes beyond : list Z) : SynthRdpVersionResponse :=
  let b := Bytes ++ beyond in
  RdpVersionResponse (RdpHeader (u32_at b 0) (s32 (u32_at b 4))) (u32_at b 8) (u32_at b 12) (nth 16 b 0).

(** ** The service up to its loop *)

Definition version_request : cs SynthRdpVersionRequest :=
  v ← set_MajorVersion 1 0;
  v ← set_MinorVersion 0 v;
  mret (RdpVersionRequest (RdpHeader VersionRequest SizeOf_VersionRequest) v 0).

(** What the environment answers: the two registrations, the file system, whether the mapping
    fails, the write and the wait on the device's file. *)
Record rdp_env := RdpEnv {
  env_register : option Z * option Z;
  env_fs : filesystem; env_PageSize : Z; env_map_fails : bool;
  env_write : list Z -> Z; env_wait : Z * Z }.

(** [outgoing] and [incoming] are the rings of the control channel, [incoming] as it is when
    [Receive] looks at it. *)
Definition ServiceMain_init (fuel : nat) (e : rdp_env) (outgoing incoming : ring) (beyond : list Z) : cs (ring * ring) :=
  RegisterDevice (env_register e).1 ≫= fun _ =>
  RegisterDevice (env_register e).2 ≫= fun _ =>
  Device ← new_UioHvDevice fuel (env_fs e) (env_PageSize e) (env_map_fails e) ControlInstanceId;
  Request ← version_request;
  outgoing ← Send (env_write e) (StructureToBytes Request) outgoing;
  p ← Receive (env_write e) (env_wait e) incoming;
  let '(Bytes, incoming) := p in
  let Response := BytesToStructure Bytes beyond in
  if negb (IsAcceptedWithVersionExchange Response) then Throw "SynthRdpVersionResponse Invalid"
  else mret (outgoing, incoming).

(** ** Looking for a data channel *)

(** One pass over [DataInstanceIds]: [found] says whether [GetDeviceInformation] returns. *)
Definition data_pass (found : string -> bool) : option string := List.find found DataInstanceIds.

(** The outer loop; [found n] is how the search would go in the [n]-th pass. *)
Fixpoint WaitForDataChannel (fuel : nat) (found : nat -> string -> bool) (n : nat) : option string :=
  match fuel with
  | O => None
  | S fuel =>
      match data_pass (found n) with
      | Some InstanceId => Some InstanceId
      | None => WaitForDataChannel fuel found (S n)
      end
  end.

(** ** Forwarding *)

(** The first packet from the client: byte 15, the requested protocols, becomes 0. *)
Definition patch_request (Content : list Z) : cs (list Z) :=
  if 15 <? Z.of_nat (length Content) then mret (<[15%nat := 0]> Content) else Throw "IndexOutOfRangeException".

(** A turn of [Vmbus2TcpThread]: what it sends to the socket. *)
Definition vmbus_to_tcp (r : ring) : cs (list Z * ring) := or_throw "PopPipePacket" (PopPipePacket r).

(** A turn of [Tcp2VmbusThread]: [Available] bytes wait in the socket, [recv n] are those that
    [Receive] delivers into a buffer of [n]. *)
Definition tcp_to_vmbus (Available : Z) (recv : Z -> list Z) (PosixWrite : list Z -> Z) (r : ring) : cs (list Z * ring) :=
  MaximumPush ← or_throw "GetMaximumPushSize" (GetMaximumPushSize r);
  let MaximumSendSize := Z.min Available MaximumPush in
  if 0 <? MaximumSendSize then
    let SendContent := recv MaximumSendSize in
    r ← or_throw "PushPipePacket" (PushPipePacket r SendContent);
    SignalHost PosixWrite ≫= fun _ => mret (SendContent, r)
  else mret ([], r).

(** ** Start and Stop *)

(** The state of the service: whether its thread exists, and [IsRunning]. *)
Definition Start (s : bool * bool) : cs (bool * bool) :=
  if s.1 then Throw "SynthRdp Service is already running" else mret (true, true).
Definition Stop (s : bool * bool) : cs (bool * bool) :=
  if negb s.1 then Throw "SynthRdp Service is not running" else mret (false, false).
