(* ===== verification/SynthRdpLoop.v ===== *)
(** * The loop of the remote-desktop service

    The loop of [ServiceMain] in [SynthRdp.cs] and the threads it starts, as a state machine: every
    action is one step of one thread, of the host, of the RDP server or of the caller of
    [Stop], and they interleave freely.  The step of a thread between two tests of
    [ShouldRunning] is one action: within it the thread touches only the rings of its
    channel and its own socket. *)

From S2P Require Import Prelude CLayout CLayoutSpec CAccess Ring UserDevice Native SynthRdp.

(** ** The state *)

(** Where a forwarding thread is: not started, before the test of [ShouldRunning], inside the
    [try], or at its end. *)
Inductive thread := Unstarted | AtTest | InTurn | Ended.
#[export] Instance thread_eq_dec : EqDecision thread.
Proof. solve_decision. Defined.

(** One pass of the loop: the data channel, [ShouldRunning], whether the socket is open, the
    threads, the bytes from the server that wait in the socket, the bytes sent to it. *)
Record conn := Conn {
  c_channel : string; ShouldRunning : bool; c_open : bool; Vmbus2TcpThread : thread; Tcp2VmbusThread : thread;
  c_socket : list Z; c_sent : list Z }.

(** Where [ServiceMain] is: at the test of [IsRunning], looking for a data channel, connecting,
    before the first packet, waiting for the host in [Receive], in the loop that watches
    the threads, before [Close], at its end, or ended by an exception, and the process with it. *)
Inductive main_at :=
  | AtRunning | Searching | Connecting (channel : string) | AtRequest (k : nat) | WaitingHost (k : nat)
  | Watching (k : nat) | Closing (k : nat) | Exited | Crashed.
#[export] Instance main_at_eq_dec : EqDecision main_at.
Proof. solve_decision. Defined.

(** The rings of a data channel are shared by every object that was ever opened on it. *)
Record service := Service {
  IsRunning : bool; s_main : main_at; s_conns : list conn; s_incoming : gmap string ring; s_outgoing : gmap string ring }.

Definition set_IsRunning b s := Service b (s_main s) (s_conns s) (s_incoming s) (s_outgoing s).
Definition set_main m s := Service (IsRunning s) m (s_conns s) (s_incoming s) (s_outgoing s).
Definition set_conns c s := Service (IsRunning s) (s_main s) c (s_incoming s) (s_outgoing s).
Definition set_conn k c s := set_conns (<[k := c]> (s_conns s)) s.
Definition set_incoming ch r s := Service (IsRunning s) (s_main s) (s_conns s) (<[ch := r]> (s_incoming s)) (s_outgoing s).
Definition set_outgoing ch r s := Service (IsRunning s) (s_main s) (s_conns s) (s_incoming s) (<[ch := r]> (s_outgoing s)).

Definition with_running b c := Conn (c_channel c) b (c_open c) (Vmbus2TcpThread c) (Tcp2VmbusThread c) (c_socket c) (c_sent c).
Definition with_open b c := Conn (c_channel c) (ShouldRunning c) b (Vmbus2TcpThread c) (Tcp2VmbusThread c) (c_socket c) (c_sent c).
Definition with_vmbus2tcp t c := Conn (c_channel c) (ShouldRunning c) (c_open c) t (Tcp2VmbusThread c) (c_socket c) (c_sent c).
Definition with_tcp2vmbus t c := Conn (c_channel c) (ShouldRunning c) (c_open c) (Vmbus2TcpThread c) t (c_socket c) (c_sent c).
Definition with_socket l c := Conn (c_channel c) (ShouldRunning c) (c_open c) (Vmbus2TcpThread c) (Tcp2VmbusThread c) l (c_sent c).
Definition add_sent l c :=
  Conn (c_channel c) (ShouldRunning c) (c_open c) (Vmbus2TcpThread c) (Tcp2VmbusThread c) (c_socket c) (c_sent c ++ l).

(** [Socket.Send] on a socket that does not block: an exception ([None]), or the number of bytes it
    takes, which may be less than all of them; a closed socket always throws. *)
Definition socket_send (send : option nat) (Content : list Z) (c : conn) : option conn :=
  if c_open c then (fun n => add_sent (take n Content) c) <$> send else None.

(** ** The forwarding threads *)

(** The [try] of [Vmbus2TcpThread]; [false] when it ends by an exception. *)
Definition vmbus2tcp_turn (send : option nat) (r : ring) (c : conn) : ring * conn * bool :=
  match PopPipePacket r with
  | None => (r, c, false)
  | Some (ReceiveContent, r) =>
      if Z.of_nat (length ReceiveContent) =? 0 then (r, c, true)
      else match socket_send send ReceiveContent c with
           | Some c => (r, c, true)
           | None => (r, c, false)
           end
  end.

(** The [try] of [Tcp2VmbusThread]: the socket hands out what it has, up to the size of the buffer. *)
Definition tcp2vmbus_turn (PosixWrite : list Z -> Z) (r : ring) (c : conn) : ring * conn * bool :=
  if negb (c_open c) then (r, c, false)
  else match GetMaximumPushSize r with
  | None => (r, c, false)
  | Some MaximumPush =>
    let MaximumSendSize := Z.min (Z.of_nat (length (c_socket c))) MaximumPush in
    if 0 <? MaximumSendSize then
      let SendContent := take (Z.to_nat MaximumSendSize) (c_socket c) in
      let c := with_socket (drop (Z.to_nat MaximumSendSize) (c_socket c)) c in
      match PushPipePacket r SendContent with
      | None => (r, c, false)
      | Some r => match SignalHost PosixWrite with Ret _ => (r, c, true) | _ => (r, c, false) end
      end
    else (r, c, true)
  end.

(** Back to the test, or out of the loop. *)
Definition after_turn (ok : bool) : thread := if ok then AtTest else Ended.

Definition vmbus2tcp_step (k : nat) (send : option nat) (s : service) : option service :=
  c ← s_conns s !! k;
  match Vmbus2TcpThread c with
  | AtTest => Some (set_conn k (with_vmbus2tcp (if ShouldRunning c then InTurn else Ended) c) s)
  | InTurn =>
      r ← s_incoming s !! c_channel c;
      let '(r, c, ok) := vmbus2tcp_turn send r c in
      Some (set_conn k (with_vmbus2tcp (after_turn ok) c) (set_incoming (c_channel c) r s))
  | Unstarted | Ended => None
  end.

Definition tcp2vmbus_step (k : nat) (PosixWrite : list Z -> Z) (s : service) : option service :=
  c ← s_conns s !! k;
  match Tcp2VmbusThread c with
  | AtTest => Some (set_conn k (with_tcp2vmbus (if ShouldRunning c then InTurn else Ended) c) s)
  | InTurn =>
      r ← s_outgoing s !! c_channel c;
      let '(r, c, ok) := tcp2vmbus_turn PosixWrite r c in
      Some (set_conn k (with_tcp2vmbus (after_turn ok) c) (set_outgoing (c_channel c) r s))
  | Unstarted | Ended => None
  end.

(** ** [ServiceMain] *)

(** What the step of [ServiceMain] is answered: which channels exist, whether the device opens and
    the server accepts, the write and the wait on the device's file, [Send]. *)
Record main_env := MainEnv {
  me_found : string -> bool; me_opens : bool; me_connects : bool; me_write : list Z -> Z; me_wait : Z * Z; me_send : option nat }.

(** The rest of the first [try] once [Receive] has its result: whatever is thrown is printed. *)
Definition forward_request (send : option nat) (Received : cs (list Z)) (c : conn) : conn :=
  match (Content ← Received; patch_request Content) with
  | Ret Content => default c (socket_send send Content c)
  | _ => c
  end.

(** [bool ShouldRunning = true] and the start of the two threads. *)
Definition start_threads (c : conn) : conn := with_running true (with_vmbus2tcp AtTest (with_tcp2vmbus AtTest c)).

Definition begin_watching (k : nat) (c : conn) (s : service) : service := set_main (Watching k) (set_conn k (start_threads c) s).

Definition ended (t : thread) : bool := bool_decide (t = Ended).

Definition main_step (e : main_env) (s : service) : option service :=
  match s_main s with
  | AtRunning => Some (set_main (if IsRunning s then Searching else Exited) s)
  | Searching =>
      match data_pass (me_found e) with
      | None => Some s
      | Some channel => Some (set_main (if me_opens e then Connecting channel else Crashed) s)
      end
  | Connecting channel =>
      if me_connects e then
        Some (set_main (AtRequest (length (s_conns s)))
          (set_conns (s_conns s ++ [Conn channel false true Unstarted Unstarted [] []]) s))
      else Some (set_main Crashed s)
  | AtRequest k =>
      c ← s_conns s !! k; r ← s_incoming s !! c_channel c;
      match PopPipePacket r with
      | None => Some (begin_watching k c s)
      | Some (Content, r) =>
          let s := set_incoming (c_channel c) r s in
          if Z.of_nat (length Content) =? 0 then Some (set_main (WaitingHost k) s)
          else Some (begin_watching k (forward_request (me_send e) (SignalHost (me_write e) ≫= fun _ => mret Content) c) s)
      end
  | WaitingHost k =>
      c ← s_conns s !! k;
      Some (begin_watching k
        (forward_request (me_send e) (WaitInterrupt (me_wait e).1 (me_wait e).2 ≫= fun _ => mret []) c) s)
  | Watching k =>
      c ← s_conns s !! k;
      if ended (Vmbus2TcpThread c) || ended (Tcp2VmbusThread c)
      then Some (set_main (Closing k) (set_conn k (with_running false c) s))
      else Some s
  | Closing k => c ← s_conns s !! k; Some (set_main AtRunning (set_conn k (with_open false c) s))
  | Exited | Crashed => None
  end.

(** ** Actions *)

(** A step of [ServiceMain], of a forwarding thread of the [k]-th connection, of the host (which
    puts a packet into the incoming ring of a channel or takes one from the outgoing one, in its own way),
    bytes from the server, [Stop] up to its [Join]. *)
Inductive action :=
  | Main (e : main_env) | Vmbus2Tcp (k : nat) (send : option nat) | Tcp2Vmbus (k : nat) (PosixWrite : list Z -> Z)
  | HostPush (channel : string) (Content : list Z) | HostTake (channel : string) | ServerBytes (k : nat) (bytes : list Z)
  | StopCalled.

(** [None] where the action cannot happen. *)
Definition act `{Host} (a : action) (s : service) : option service :=
  if bool_decide (s_main s = Crashed) then None else
  match a with
  | Main e => main_step e s
  | Vmbus2Tcp k send => vmbus2tcp_step k send s
  | Tcp2Vmbus k PosixWrite => tcp2vmbus_step k PosixWrite s
  | HostPush ch Content => r ← s_incoming s !! ch; r ← host_push Content r; Some (set_incoming ch r s)
  | HostTake ch => r ← s_outgoing s !! ch; p ← host_take r; Some (set_outgoing ch p.2 s)
  | ServerBytes k bytes =>
      c ← s_conns s !! k; if c_open c then Some (set_conn k (with_socket (c_socket c ++ bytes) c) s) else None
  | StopCalled => Some (set_IsRunning false s)
  end.

Fixpoint run `{Host} (l : list action) (s : service) : option service :=
  match l with [] => Some s | a :: l => act a s ≫= run l end.

(** The service as its loop begins. *)
Definition loop_start (incoming outgoing : gmap string ring) : service := Service true AtRunning [] incoming outgoing.

(** [Join] in [Stop] returns. *)
Definition stop_returns (s : service) : bool := bool_decide (s_main s = Exited).

Inductive reachable `{Host} (s0 : service) : service -> Prop :=
  | reachable_start : reachable s0 s0
  | reachable_act s a s' : reachable s0 s -> act a s = Some s' -> reachable s0 s'.
