(* ===== verification/UserProps.v ===== *)
(** * Properties of the user-space side

    From the driver's probe to the rings the C# application finds, the exchange
    of versions, and the forwarding of bytes. *)

From S2P Require Import Prelude Kernel UioTypes UioAttr UioDevice HypervVmbus HvUio UioFile KLogic UioInv UioSpec UioAttrSpec UioSysfs CoreStep UioReg HvSpec HvProbe HvProbeSpec HvSystem Scenario CLayout CLayoutSpec CAccess HeaderFacts HvTrace HvTraceProps Ring RingSpec UserDevice UserSpec Native SynthRdp HvProps.

Section discovery.
Context `{HK : Kernel, HKok : !KernelOk, HU : Uapi, HUok : !UapiOk, HA : HvApi, HHk : !HvKernelOk, HP : !FmtPaOk}.
Set Default Proof Using "All".
Implicit Types (w : world hv_state) (σ : gmap Z nat) (F : gset Z).

(** The bytes of the two rings of a channel. *)
Definition ring_bytes (c : vmbus_channel) : Z := u32 (Z.shiftl (ch_ringbuffer_pagecount c) PAGE_SHIFT).

Lemma page_size_pos : 0 < PAGE_SIZE < 2 ^ 64.
Proof.
  unfold PAGE_SIZE. pose proof page_shift_ok as H. rewrite Z.shiftl_1_l. split; [apply Z.pow_pos_nonneg; lia|].
  apply Z.pow_lt_mono_r; lia.
Qed.

Lemma hv_mem_readable name a size t : one_line name = true -> 0 <= size < 2 ^ 64 -> readable_mem (hv_mem name a size t).
Proof. intros Hn Hs. exists name. split; [done|]. split; [exact Hn|exact Hs]. Qed.

Lemma map_count_5 a b c x y p : m_size a <> 0 -> m_size b <> 0 -> m_size c <> 0 -> m_size x <> 0 -> m_size y <> 0 ->
  map_count (hv_info [a; b; c; x; y] p) = 5%nat.
Proof.
  intros. unfold map_count. cbn [hv_info i_mem fmap list_fmap leading].
  by rewrite !(proj2 (Z.eqb_neq _ 0)) by done.
Qed.

Lemma port_count_0 mems p : port_count (hv_info mems p) = 0%nat.
Proof. unfold port_count. cbn [hv_info i_port]. destruct MAX_UIO_PORT_REGIONS; done. Qed.
(** What user space reads depends on what the driver filled in only. *)
Definition static_item (PageSize : Z) (j : nat) (t : option string * Z * Z * Z * Z * memtype * Z) : UioDeviceMemoryMapItem :=
  let '(name, _, _, _, size, _, _) := t in MapItem (c_string name) (s32 (Z.of_nat j * PageSize)) (s64 size).

Lemma imap_static PageSize l l' : map mem_static l = map mem_static l' ->
  imap (item_of PageSize) l = imap (item_of PageSize) l'.
Proof.
  intros E. assert (H : forall l, imap (item_of PageSize) l = imap (static_item PageSize) (map mem_static l)).
  { intros k. change (map mem_static k) with (mem_static <$> k). rewrite imap_fmap. by apply imap_ext. }
  by rewrite !H, E.
Qed.

Lemma static_sizes l l' : map mem_static l = map mem_static l' -> m_size <$> l = m_size <$> l'.
Proof.
  revert l'. induction l as [|m l IH]; intros [|m' l']; try done. cbn. intros E. injection E as E1 E2 E3 E4 E5 E6 E7 E.
  rewrite E5. f_equal. by apply IH.
Qed.

Lemma static_readable l l' j m : map mem_static l = map mem_static l' -> l !! j = Some m ->
  (forall m', l' !! j = Some m' -> readable_mem m') -> readable_mem m.
Proof.
  intros E Hm Hr. assert (Hs : (mem_static <$> l) !! j = (mem_static <$> l') !! j) by (change (map mem_static l !! j = map mem_static l' !! j); by rewrite E).
  rewrite !list_lookup_fmap, Hm in Hs. destruct (l' !! j) as [m'|]; [|done]. cbn in Hs. injection Hs as E1 _ _ _ E5 _ _.
  destruct (Hr m' eq_refl) as (s & H1 & H2 & H3). exists s. rewrite E1, E5. split; [done|]. split; [exact H2|exact H3].
Qed.

(** The regions of a probed device, as user space reads them. *)
Lemma probed_maps w0 F σ dev d p mems w' q dd inst PageSize fuel :
  probed w0 F σ dev d p mems w' -> length mems = MAX_UIO_MAPS -> dirs_listed dd (hv_info mems p) (w_hist w') ->
  d_info dd = p -> Forall readable_mem mems -> (map_count (hv_info mems p) < fuel)%nat ->
  w_heap w' !! q = Some (HIdev dd) ->
  GetDeviceInformation fuel (fs_of w' dd inst) PageSize inst =
  Ret (DeviceInformation ("/dev/" +:+ uio_name dd) (imap (item_of PageSize) (take (map_count (hv_info mems p)) mems))).
Proof.
  intros Hp Hlen [_ Hdl] Hdd Hr Hf Hq. destruct (pb_info _ _ _ _ _ _ _ _ Hp) as (i & Hi & Hs).
  assert (Hst : map mem_static (i_mem i) = map mem_static mems /\ map port_static (i_port i) = map port_static (i_port (hv_info mems p))).
  { unfold info_static in Hs. cbn [hv_info i_mem] in Hs. injection Hs. intros. by split. }
  destruct Hst as [Hst Hsp]. assert (Hc : map_count i = map_count (hv_info mems p)).
  { unfold map_count. cbn [hv_info i_mem]. by rewrite (static_sizes _ _ Hst). }
  assert (Hl : length (i_mem i) = length mems) by (rewrite <- (length_map mem_static), Hst; apply length_map).
  assert (Hshape : info_shape i).
  { split; [by rewrite Hl|]. rewrite <- (length_map port_static), Hsp, length_map. apply length_replicate. }
  rewrite (GetDeviceInformation_maps w' dd i inst PageSize); rewrite ?Hc; try done.
  - do 2 f_equal. apply imap_static. by rewrite <- !firstn_map, Hst.
  - by rewrite Hdd.
  - unfold maps_kept in Hdl. rewrite port_count_0 in Hdl. apply Hdl. by left.
  - intros j m _ Hm. eapply static_readable; [exact Hst|exact Hm|]. intros m' Hm'. by eapply Forall_lookup_1.
Qed.
(** The five regions: what user space reads of them. *)
Definition recv_name (handle : Z) : string := snprintf 32 ("recv:" +:+ fmt_d handle).
Definition send_name (handle : Z) : string := snprintf 32 ("send:" +:+ fmt_d handle).

Lemma buffer_name_line prefix handle : one_line prefix = true -> one_line (snprintf 32 (prefix +:+ fmt_d handle)) = true.
Proof. intros Hp. apply one_line_substring. rewrite one_line_app, Hp, all_num_line; [done|apply fmt_d_num]. Qed.

(** Both halves of a region of [2 * n] pages: control page, then data. *)
Lemma ring_fields_tile n R : 0 < n -> R = 2 * n * PAGE_SIZE -> (n + 1) * PAGE_SIZE < 2 ^ 31 ->
  let f := ring_fields PAGE_SIZE 0 R (Z.quot R 2) in
  OutgoingControlOffset f = 0 /\ OutgoingDataOffset f = PAGE_SIZE /\
  OutgoingDataOffset f + DataMaximumSize_field f = IncomingControlOffset f /\ IncomingControlOffset f = n * PAGE_SIZE /\
  IncomingDataOffset f = IncomingControlOffset f + PAGE_SIZE /\ IncomingDataOffset f + DataMaximumSize_field f = R.
Proof.
  intros Hn HR Hlt f. pose proof page_size_pos as Hps.
  assert (HQ : Z.quot R 2 = n * PAGE_SIZE).
  { rewrite HR. replace (2 * n * PAGE_SIZE) with ((n * PAGE_SIZE) * 2) by lia. apply Z.quot_mul. lia. }
  assert (Hb : PAGE_SIZE <= n * PAGE_SIZE) by nia. assert (Hu : n * PAGE_SIZE + PAGE_SIZE < 2 ^ 31) by lia.
  subst f. unfold ring_fields. rewrite HQ. cbn [OutgoingControlOffset OutgoingDataOffset DataMaximumSize_field
    IncomingControlOffset IncomingDataOffset]. rewrite !Z.add_0_l.
  rewrite (s32_id (n * PAGE_SIZE)), (s32_id PAGE_SIZE), (s32_id (n * PAGE_SIZE - PAGE_SIZE)), (s32_id (n * PAGE_SIZE + PAGE_SIZE)) by lia.
  split_and!; try done; lia.
Qed.

Lemma s64_id z : 0 <= z < 2 ^ 63 -> s64 z = z.
Proof. intros. unfold s64. rewrite Z.mod_small; lia. Qed.

Lemma five_items R a b c r s x y : 0 <= R < 2 ^ 63 -> PAGE_SIZE < 2 ^ 31 ->
  imap (item_of PAGE_SIZE) [hv_mem "txrx_rings" a R UIO_MEM_IOVA; page_mem "int_page" b; page_mem "monitor_page" c;
    hv_mem (recv_name r) x RECV_BUFFER_SIZE UIO_MEM_VIRTUAL; hv_mem (send_name s) y SEND_BUFFER_SIZE UIO_MEM_VIRTUAL] =
  [MapItem "txrx_rings" 0 R; MapItem "int_page" (s32 (1 * PAGE_SIZE)) PAGE_SIZE;
   MapItem "monitor_page" (s32 (2 * PAGE_SIZE)) PAGE_SIZE; MapItem (recv_name r) (s32 (3 * PAGE_SIZE)) RECV_BUFFER_SIZE;
   MapItem (send_name s) (s32 (4 * PAGE_SIZE)) SEND_BUFFER_SIZE].
Proof.
  intros HR HS. pose proof page_size_pos. cbn [imap compose]. unfold page_mem, item_of, hv_mem.
  cbn [m_name m_size c_string default from_option]. unfold id. by rewrite !s64_id by (done || lia).
Qed.

(** C22. User space finds what the driver set up.  After a successful probe whose ring holds
    [2 * n] pages, the C# application, reading the attribute files the UIO core
    serves, gets the five regions with their names and sizes, opens the device, and
    its two rings are the two halves of the ring region: a control page and the data
    after it, the outgoing ring first, without a gap and up to the end. *)
Theorem hv_rings_reach_user_space w F σ dev d inst fuel :
  probe_pre w F σ dev d -> (5 < fuel)%nat ->
  wp (hv_uio_probe dev) w (fun r w' => r = 0 -> exists c q dd,
    hs_chan (w_drv w') !! hd_channel d = Some c /\ w_heap w' !! q = Some (HIdev dd) /\ registered w' q dd /\
    forall n, 0 < n -> ring_bytes c = 2 * n * PAGE_SIZE -> (n + 1) * PAGE_SIZE < 2 ^ 31 ->
    let fs := fs_of w' dd inst in
    (exists maps, GetDeviceInformation fuel fs PAGE_SIZE inst = Ret (DeviceInformation ("/dev/" +:+ uio_name dd) maps) /\
      (exists recv send, mi_Name <$> maps = ["txrx_rings"; "int_page"; "monitor_page"; recv_name recv; send_name send]) /\
      mi_Size <$> maps = [ring_bytes c; PAGE_SIZE; PAGE_SIZE; RECV_BUFFER_SIZE; SEND_BUFFER_SIZE]) /\
    exists f, new_UioHvDevice fuel fs PAGE_SIZE false inst = Ret f /\
      mapped f = (0, ring_bytes c) /\
      OutgoingControlOffset f = 0 /\ OutgoingDataOffset f = PAGE_SIZE /\
      OutgoingDataOffset f + DataMaximumSize_field f = IncomingControlOffset f /\ IncomingControlOffset f = n * PAGE_SIZE /\
      IncomingDataOffset f = IncomingControlOffset f + PAGE_SIZE /\ IncomingDataOffset f + DataMaximumSize_field f = ring_bytes c).
Proof.
  intros Hpre Hfuel. eapply wp_mono; [by apply wp_hv_uio_probe|]. cbn zeta beta. intros r w' [Hok _] E.
  destruct (Hok E) as (c & phys & x & y & Hc & Hp).
  pose proof (pb_reg _ _ _ _ _ _ _ _ Hp) as (q & dd & Hq & Hreg & Hdd & _ & _ & _ & _ & _ & Hdl).
  pose proof (pb_pd _ _ _ _ _ _ _ _ Hp) as (pd & _ & _ & _ & _ & _ & _ & _ & Hx & Hy).
  cbn in Hx, Hy. injection Hx as ->. injection Hy as ->.
  exists c, q, dd. split_and!; [done..|]. intros n Hn HR Hlt. pose proof page_size_pos as Hps.
  assert (HRb : 0 < ring_bytes c < 2 ^ 32) by (split; [nia|apply u32_range]).
  match type of Hp with probed _ _ _ _ _ _ ?M _ => set (mems := M) in * end.
  assert (Hcount : map_count (hv_info mems (kernel (w_hist w) (DevmKzalloc dev))) = 5%nat).
  { apply map_count_5; cbn [ring_mem page_mem hv_mem m_size]; try done; try lia. fold (ring_bytes c). lia. }
  assert (Hmaps : GetDeviceInformation fuel (fs_of w' dd inst) PAGE_SIZE inst =
    Ret (DeviceInformation ("/dev/" +:+ uio_name dd) (imap (item_of PAGE_SIZE) mems))).
  { rewrite (probed_maps _ _ _ _ _ _ mems w' q dd inst PAGE_SIZE fuel Hp); try done; rewrite ?Hcount; try done.
    - by rewrite max_maps_ok.
    - subst mems. repeat apply Forall_cons_2; try apply Forall_nil_2; apply hv_mem_readable; try reflexivity;
        try (by apply buffer_name_line); try lia; try done. fold (ring_bytes c). lia. }
  cbn zeta. unfold new_UioHvDevice. rewrite Hmaps.
  assert (Hps2 : PAGE_SIZE < 2 ^ 31) by nia. 
  assert (Hit := five_items (ring_bytes c) phys (vc_int_page (hs_conn (w_drv w))) (snd (vc_monitor_pages (hs_conn (w_drv w))))
    (gpadl_handle (pd_recv_gpadl pd)) (gpadl_handle (pd_send_gpadl pd)) (pd_recv_buf pd) (pd_send_buf pd) ltac:(lia) Hps2).
  match type of Hit with _ = ?L => change (imap (item_of PAGE_SIZE) mems = L) in Hit end. rewrite Hit. split.
  - eexists. split; [reflexivity|]. split; [|reflexivity]. do 2 eexists. reflexivity.
  - destruct (ring_fields_tile n (ring_bytes c) Hn HR Hlt) as (F1 & F2 & F3 & F4 & F5 & F6).
    exists (ring_fields PAGE_SIZE 0 (ring_bytes c) (Z.quot (ring_bytes c) 2)). split; [|by split_and!].
    unfold mbind, cs_bind. cbn [MemoryMap find_rings String.eqb Ascii.eqb Bool.eqb negb orb Z.eqb].
    unfold ToInt32. rewrite HR at 1 2. replace (2 * n * PAGE_SIZE) with ((n * PAGE_SIZE) * 2) by lia. rewrite Z.quot_mul by lia.
    rewrite (proj2 (Z.leb_le _ _)), (proj2 (Z.ltb_lt _ _)) by nia. cbn [andb or_throw]. unfold mbind, cs_bind.
    reflexivity.
Qed.

(** ** The interrupt word *)

(** The values a file's write is refused with. *)
Lemma write_check_value w f e : write_check w f = Some e -> e = 0 \/ e < 0.
Proof.
  unfold write_check, mbind, option_bind. destruct (dev_of w f) as [q|]; [|done].
  destruct (as_idev (w_heap w !! q)) as [x|]; [|done]. case_match; [intros [= <-]; right; done|].
  destruct (w_info w !! d_info x) as [i|]; [|done]. repeat case_match; intros [= <-]; (by left) || (by right).
Qed.

(** What a write that passes the checks does in the driver, and that it returns 4. *)
Definition word_delivered w f (Enable : bool) (r : Z) (w' : world hv_state) : Prop :=
  r = 4 /\ exists q x pd dv c,
    dev_of w f = Some q /\ w_heap w !! q = Some (HIdev x) /\ hs_pdata (w_drv w) !! d_info x = Some pd /\
    hs_dev (w_drv w) !! pd_device pd = Some dv /\ hs_chan (w_drv w) !! hd_channel dv = Some c /\
    hs_chan (w_drv w') !! hd_channel dv = Some (set_ch_inbound (Some (if Enable then 0 else 1)) c) /\
    map ev_call (w_hist w') =
      [MutexUnlock (InfoLock q)] ++
      (if negb (ch_monitor_allocated c) && Enable then [VmbusSetevent (hd_channel dv)] else []) ++
      [VirtMb; StoreInterruptMask (hd_channel dv) (if Enable then 0 else 1); MutexLock (InfoLock q); CopyFromUser 4] ++
      map ev_call (w_hist w).

(** The word of an [int] the kernel copies in. *)
Lemma word_value (Enable : bool) : s32 (out_word [le_num (interrupt_bytes Enable)] 0) = if Enable then 1 else 0.
Proof using Type. by destruct Enable. Qed.

Lemma wp_write_delivers w F σ f Enable :
  core_inv w F σ -> f ∈ F -> kernel (w_hist w) (CopyFromUser 4) = 0 ->
  kernel_out (w_hist w) (CopyFromUser 4) = [le_num (interrupt_bytes Enable)] -> write_check w f = Some 0 ->
  wp (uio_write f sizeof_s32) w (word_delivered w f Enable).
Proof using HK HKok HU HUok HA HHk.
  intros Hi Hf Hcopy Hout Hck. destruct (open_file_full _ _ _ _ Hi Hf) as (l & lst & d & Hp & Hl & Hd & Hdev & Hr).
  unfold write_check in Hck. rewrite Hdev in Hck. cbn [mbind option_bind] in Hck. rewrite Hd in Hck. cbn [mbind option_bind as_idev] in Hck.
  destruct (Z.eqb_spec (d_info d) 0) as [?|Hn]; [done|]. destruct (Hr Hn) as (i & n & Hreg & Hinfo & Hu & Hs & Hσ).
  rewrite Hinfo in Hck. cbn [mbind option_bind] in Hck. destruct (Z.eqb_spec (i_irq i) 0) as [?|Hirq]; [done|].
  pose proof (ci_drv _ _ _ Hi) as Hdrv. destruct (hv_callbacks _ _ _ (Hdrv _ _ Hσ) i Hinfo) as (_ & _ & _ & _ & Hfn).
  unfold uio_write. ksteps. change (negb (sizeof_s32 =? sizeof_s32)) with false. cbn iota. kstep. apply wp_call_out.
  cbn [fst snd]. change (CopyFromUser sizeof_s32) with (CopyFromUser 4). rewrite Hcopy, Hout. cbn [Z.eqb negb]. ksteps.
  unfold NULL. rewrite (proj2 (Z.eqb_neq _ _) Hn). ksteps. rewrite (proj2 (Z.eqb_neq _ _) Hirq), Hfn. cbn [Z.eqb hv_uio_irqcontrol_fn].
  cbn [drv_irqcontrol hv_uio_driver]. cbn [Z.eqb Pos.eqb hv_uio_irqcontrol_fn].
  eapply wp_mono.
  { apply (wp_hv_uio_irqcontrol σ _ (d_info d) n); [exact Hσ|].
    assert (Hq : calm w (logged (MutexLock (InfoLock (l_dev lst))) (logged (CopyFromUser 4) w))) by (repeat calm_step).
    refine (drv_inv_quiet (UioDriverOk0:=hv_driver_ok) σ w _ Hq _ Hdrv). by wsimpl_goal. }
  cbn beta. intros r w2 (Hfr & _ & -> & pd & dv & c & D1 & D2 & D3 & D4 & D5). autorewrite with world in D1, D2, D3. ksteps.
  unfold word_delivered. split; [done|]. exists (l_dev lst), d, pd, dv, c. rewrite !word_value in *.
  split_and!; try done; [rewrite drv_logged, D4|rewrite ?hist_logged in D5 |- *; cbn [map ev_call] in D5 |- *; rewrite D5]; by destruct Enable.
Qed.

(** C38. The interrupt word travels from the C# application to the interrupt mask of the channel.
    On an open file, [InterruptControl] writes 4 bytes.  While the driver is bound the
    call succeeds; the mask becomes the opposite of [Enable], behind a barrier, and only
    then the host is signalled, exactly when interrupts are enabled and the channel has
    no monitor; all of it under the lock of the device.  After the driver is gone, or
    without an interrupt, the application gets "InterruptControl Failed" and no state of
    the driver changes. *)
Theorem interrupt_control_reaches_host w F σ f Enable :
  core_inv w F σ -> f ∈ F -> kernel (w_hist w) (CopyFromUser 4) = 0 ->
  kernel_out (w_hist w) (CopyFromUser 4) = [le_num (interrupt_bytes Enable)] ->
  exists r w', uio_write f sizeof_s32 w = Some (r, w') /\ core_inv w' F σ /\
    (write_check w f = Some 0 -> word_delivered w f Enable r w' /\ InterruptControl (fun _ => r) Enable = Ret tt) /\
    (forall err, write_check w f = Some err -> err <> 0 ->
       InterruptControl (fun _ => r) Enable = Throw "InterruptControl Failed" /\ w_drv w' = w_drv w).
Proof.
  intros Hi Hf Hcopy Hout. destruct (wp_uio_write w F σ f sizeof_s32 Hi Hf) as (r & w' & Hrun & Hi' & _ & _ & Herr).
  exists r, w'. split; [done|]. split; [done|]. split.
  - intros Hck. destruct (wp_write_delivers w F σ f Enable Hi Hf Hcopy Hout Hck) as (r2 & w2 & Hrun2 & Hd).
    rewrite Hrun in Hrun2. injection Hrun2 as <- <-. split; [done|]. destruct Hd as [-> _]. by destruct Enable.
  - intros err Hck Hn. destruct (Herr eq_refl err Hck Hn) as [Hr Hd].
    assert (Hneg : r < 0).
    { destruct (write_check_value _ _ _ Hck) as [?|?]; [done|]. destruct Hr as [->| ->]; [done|done]. }
    split; [|done]. unfold InterruptControl. rewrite (proj2 (Z.eqb_neq _ _)); [done|]. unfold interrupt_bytes. rewrite length_le_bytes. lia.
Qed.
End discovery.

(** ** The exchange of versions *)

Section exchange.
Context (fuel : nat) (e : rdp_env) (outgoing incoming : ring) (beyond : list Z) (f : UioHvDevice).

(** The service gets as far as its first [Receive]: the classes are registered or were
    already, the device opens, the outgoing ring has room and signalling works. *)
Record reaches_receive : Prop := {
  rr_register : Forall (fun o => o = None \/ o = Some EEXIST) [(env_register e).1; (env_register e).2];
  rr_device : new_UioHvDevice fuel (env_fs e) (env_PageSize e) (env_map_fails e) ControlInstanceId = Ret f;
  rr_room : ring_ok outgoing /\ room outgoing (packet_size 16);
  rr_write bytes : length bytes = 4%nat -> env_write e bytes = 4;
  rr_wait : 0 <= (env_wait e).1 \/ (env_wait e).2 = EINTR \/ (env_wait e).2 = EAGAIN }.

Lemma signal_ok : reaches_receive -> SignalHost (env_write e) = Ret tt.
Proof.
  intros [_ _ _ Hw _]. unfold SignalHost, InterruptControl. rewrite Hw by done. done.
Qed.

Lemma register_ok o : o = None \/ o = Some EEXIST -> RegisterDevice o = Ret tt.
Proof. by intros [->| ->]. Qed.

Lemma wait_ok : reaches_receive -> exists b, WaitInterrupt (env_wait e).1 (env_wait e).2 = Ret b.
Proof.
  intros [_ _ _ _ Hw]. unfold WaitInterrupt. destruct (Z.ltb_spec (env_wait e).1 0) as [H|H]; [|by eexists].
  destruct Hw as [?|[->| ->]]; [lia|by eexists..].
Qed.

(** The request goes out. *)
Lemma init_run : reaches_receive -> exists out', ring_ok out' /\
  stream out' = stream outgoing ++ packet (In outgoing) (le_bytes 4 1 ++ le_bytes 4 16 ++ le_bytes 4 1 ++ le_bytes 4 0) /\
  ServiceMain_init fuel e outgoing incoming beyond =
    (p ← Receive (env_write e) (env_wait e) incoming;
     if negb (IsAcceptedWithVersionExchange (BytesToStructure p.1 beyond)) then Throw "SynthRdpVersionResponse Invalid"
     else mret (out', p.2)).
Proof.
  intros Hr. pose proof Hr as [Hreg Hdev [Hok Hroom] Hw _]. apply Forall_cons in Hreg as [H1 Hreg]. apply Forall_cons in Hreg as [H2 _].
  set (req := le_bytes 4 1 ++ le_bytes 4 16 ++ le_bytes 4 1 ++ le_bytes 4 0).
  assert (Hc : content_ok req) by (vm_compute; reflexivity).
  destruct (push_stream outgoing req Hok Hc Hroom) as (out' & Ep & Hok' & Hst). exists out'. split; [done|]. split; [exact Hst|].
  unfold ServiceMain_init. rewrite !register_ok, Hdev by done.
  assert (Hq : exists rq, version_request = Ret rq /\ StructureToBytes rq = req).
  { eexists. split; [vm_compute; reflexivity|vm_compute; reflexivity]. }
  destruct Hq as (rq & Hq1 & Hq2). rewrite Hq1. unfold Send. unfold mbind. cbn [cs_bind]. rewrite Hq2, Ep. cbn [or_throw cs_bind].
  rewrite signal_ok by done. cbn [cs_bind mret]. unfold mret, cs_ret. cbn [cs_bind].
  by destruct (Receive _ _ _) as [[b i]| |].
Qed.

(** C30. The version exchange looks at the incoming ring once.  If the host's answer is there, the
    service goes on exactly when the answer's last byte is 2, and the answer is consumed.
    If the ring is still empty, [Receive] waits for an interrupt and then returns an empty
    array all the same: the answer is read from the memory after that array, and whether
    the service goes on depends on what is there. *)
Theorem version_exchange_unread :
  reaches_receive -> ring_ok incoming ->
  (forall i answer rest, stream incoming = packet i (response_bytes answer) ++ rest ->
     exists out' in', ring_ok in' /\ stream in' = rest /\ ServiceMain_init fuel e outgoing incoming beyond =
       if rs_IsAccepted answer =? 2 then Ret (out', in') else Throw "SynthRdpVersionResponse Invalid") /\
  (stream incoming = [] -> exists out', ServiceMain_init fuel e outgoing incoming beyond =
     if nth 16 beyond 0 =? 2 then Ret (out', incoming) else Throw "SynthRdpVersionResponse Invalid").
Proof.
  intros Hr Hin. destruct (init_run Hr) as (out' & _ & _ & Hrun). split.
  - intros i answer rest Hs. assert (Hc : content_ok (response_bytes answer)) by (vm_compute; reflexivity).
    destruct (pop_stream incoming i _ rest Hin Hc Hs) as (in' & Ep & Hok & Hst). exists out', in'. split; [done|]. split; [done|].
    rewrite Hrun. unfold Receive. rewrite Ep. cbn [or_throw]. unfold mbind. cbn [cs_bind].
    change (Z.of_nat (length (response_bytes answer)) =? 0) with false. rewrite signal_ok by done.
    unfold mret, cs_ret. cbn [cs_bind]. unfold IsAcceptedWithVersionExchange. cbn [BytesToStructure rs_IsAccepted fst snd].
    change (nth 16 (response_bytes answer ++ beyond) 0) with (rs_IsAccepted answer).
    by destruct (rs_IsAccepted answer =? 2).
  - intros Hs. exists out'. rewrite Hrun. unfold Receive. rewrite (pop_empty incoming Hin Hs). cbn [or_throw].
    unfold mbind. cbn [cs_bind]. change (Z.of_nat (length []) =? 0) with true. cbn iota. destruct (wait_ok Hr) as [b Hb]. rewrite Hb.
    unfold mret, cs_ret. cbn [cs_bind]. unfold IsAcceptedWithVersionExchange. cbn [BytesToStructure rs_IsAccepted fst snd app].
    by destruct (nth 16 beyond 0 =? 2).
Qed.
End exchange.

(** ** Forwarding *)

(** The client sends bytes, the thread takes a turn, the host takes a packet. *)
Inductive fwd := Arrive (bytes : list Z) | Turn | HostPop.

(** The bytes in the socket, the outgoing ring, and what the host received. *)
Fixpoint run_forward `{Host} (PosixWrite : list Z -> Z) (evs : list fwd) (socket : list Z) (r : ring) : cs (list Z * list Z * ring) :=
  match evs with
  | [] => mret ([], socket, r)
  | Arrive bytes :: evs => run_forward PosixWrite evs (socket ++ bytes) r
  | Turn :: evs =>
      p ← tcp_to_vmbus (Z.of_nat (length socket)) (fun n => take (Z.to_nat n) socket) PosixWrite r;
      run_forward PosixWrite evs (drop (length p.1) socket) p.2
  | HostPop :: evs =>
      p ← or_throw "host" (host_take r);
      q ← run_forward PosixWrite evs socket p.2;
      mret (p.1 ++ q.1.1, q.1.2, q.2)
  end.

(** Every turn that pushes leaves the ring with a free byte. *)
Fixpoint leaves_room `{Host} (evs : list fwd) (socket : list Z) (r : ring) : Prop :=
  match evs with
  | [] => True
  | Arrive bytes :: evs => leaves_room evs (socket ++ bytes) r
  | Turn :: evs =>
      let n := Z.min (Z.of_nat (length socket)) (default 0 (GetMaximumPushSize r)) in
      if 0 <? n then room r (packet_size n) /\
        match PushPipePacket r (take (Z.to_nat n) socket) with Some r' => leaves_room evs (drop (Z.to_nat n) socket) r' | None => True end
      else leaves_room evs socket r
  | HostPop :: evs => match host_take r with Some (_, r') => leaves_room evs socket r' | None => True end
  end.

Definition arrived (evs : list fwd) : list Z := concat (map (fun e => match e with Arrive b => b | _ => [] end) evs).

Lemma turn_content (socket : list Z) m n : n = Z.min (Z.of_nat (length socket)) m -> m <= MaximumPushSize -> 0 < n ->
  length (take (Z.to_nat n) socket) = Z.to_nat n /\ content_ok (take (Z.to_nat n) socket).
Proof.
  intros Hn Hm Hpos. assert (Hl : length (take (Z.to_nat n) socket) = Z.to_nat n) by (rewrite length_take; lia).
  split; [done|]. unfold content_ok. rewrite Hl, Z2Nat.id by lia.
  unfold MaximumPushSize in *. pose proof (raw_length_bounds n ltac:(lia)). lia.
Qed.

(** C25. Forwarding loses and reorders nothing: over any sequence of arrivals on the socket, turns
    of the forwarding thread and packets taken by the host in which no turn fills the ring
    to its last byte, no turn throws, and the bytes that arrived are those the host
    received, then those in the ring, then those still in the socket. *)
Theorem forwarding_keeps_stream `{HostOk} PosixWrite evs :
  (forall bytes, length bytes = 4%nat -> PosixWrite bytes = 4) -> forall socket r q,
  represents r q -> leaves_room evs socket r ->
  exists received socket' r' q', run_forward PosixWrite evs socket r = Ret (received, socket', r') /\
    represents r' q' /\ concat q ++ socket ++ arrived evs = received ++ concat q' ++ socket'.
Proof.
  intros Hw. induction evs as [|[bytes| |] evs IH]; intros socket r q [Hr Hq] Hroom; cbn [run_forward leaves_room] in *.
  - exists [], socket, r, q. split; [done|]. split; [done|]. unfold arrived. cbn. by rewrite app_nil_r.
  - destruct (IH (socket ++ bytes) r q) as (o & s' & r' & q' & E1 & E2 & E3); [done..|]. exists o, s', r', q'.
    split; [done|]. split; [done|]. rewrite <- E3. unfold arrived. cbn. by rewrite !app_assoc.
  - destruct (maximum_push_ok r Hr) as (m & Em & Hm). unfold tcp_to_vmbus. rewrite Em in *. cbn [or_throw default from_option] in *.
    unfold mbind at 2. cbn [cs_bind]. change (id m) with m in Hroom. set (n := Z.min _ m) in *. destruct (Z.ltb_spec 0 n) as [Hn|Hn].
    + destruct Hroom as [Hroom Hrest]. destruct (turn_content socket m n eq_refl Hm Hn) as [Hl Hc].
      assert (Hroom' : room r (packet_size (Z.of_nat (length (take (Z.to_nat n) socket))))) by (by rewrite Hl, Z2Nat.id by lia).
      destruct (push_stream r _ Hr Hc Hroom') as (r1 & E & Hok & Hst). rewrite E in *. cbn [or_throw].
      assert (Hsig : SignalHost PosixWrite = Ret tt) by (unfold SignalHost, InterruptControl; by rewrite Hw).
      unfold mbind, mret, cs_ret. cbn [cs_bind]. rewrite Hsig. cbn [cs_bind fst snd]. rewrite Hl.
      destruct (IH (drop (Z.to_nat n) socket) r1 (q ++ [take (Z.to_nat n) socket])) as (o & s' & r' & q' & E1 & E2 & E3); [|done|].
      { split; [done|]. rewrite Hst. by apply holds_queue_snoc. }
      exists o, s', r', q'. split; [done|]. split; [done|]. rewrite <- E3, concat_app. cbn [concat]. rewrite app_nil_r.
      rewrite <- app_assoc. f_equal. rewrite app_assoc, take_drop. done.
    + unfold mbind, mret, cs_ret. cbn [cs_bind fst snd length]. rewrite drop_0. by apply IH.
  - inversion Hq as [Hs Hq0|i c s q0 Hc Hq0 Hs Hq1]; subst q.
    + rewrite (host_take_empty r Hr (eq_sym Hs)) in *. cbn [or_throw]. unfold mbind. cbn [cs_bind fst snd].
      destruct (IH socket r [] (conj Hr Hq) Hroom) as (o & s' & r' & q' & E1 & E2 & E3). rewrite E1. by exists o, s', r', q'.
    + destruct (host_take_ok r i c s Hr Hc (eq_sym Hs)) as (r1 & Ep & Hok & Hst). rewrite Ep in *. cbn [or_throw].
      unfold mbind. cbn [cs_bind fst snd].
      destruct (IH socket r1 q0) as (o & s' & r' & q' & E1 & E2 & E3); [split; [done|by rewrite Hst]|done|]. rewrite E1.
      exists (c ++ o), s', r', q'. split; [done|]. split; [done|]. cbn [concat]. rewrite <- !app_assoc, <- E3.
      unfold arrived. cbn. done.
Qed.

(** ** Instances *)

Module Witness.
#[local] Existing Instance pipe_host.
#[local] Existing Instance pipe_host_ok.
#[export] Instance linux_fmt : FmtPaOk.
Proof. intros a Ha. by exists EmptyString. Qed.

(** The answer of probe on the sample device, and the pages of its ring. *)
Lemma probe_facts : (fun p => (p.1, ch_ringbuffer_pagecount <$> hs_chan (w_drv p.2) !! 600)) <$> hv_uio_probe 500 w0 = Some (0, Some 1024).
Proof. vm_compute. reflexivity. Qed.

Lemma hv_rings_reach_user_space_witness : exists w' dd f, hv_uio_probe 500 w0 = Some (0, w') /\
  new_UioHvDevice 6 (fs_of w' dd ControlInstanceId) PAGE_SIZE false ControlInstanceId = Ret f /\
  mapped f = (0, 4194304) /\ IncomingControlOffset f = 2097152.
Proof.
  destruct (hv_rings_reach_user_space w0 ∅ ∅ 500 (HvDevice 600) ControlInstanceId 6 pre0 ltac:(lia)) as (r & w' & Hrun & H).
  pose proof probe_facts as Hf. rewrite Hrun in Hf. cbn [fmap option_fmap option_map fst snd] in Hf. injection Hf as Hr0 Hpc. subst r.
  destruct (H eq_refl) as (c & q & dd & Hc & _ & _ & Hn). cbn [hd_channel] in Hc. rewrite Hc in Hpc. injection Hpc as Hpc.
  assert (HR : ring_bytes c = 4194304) by (unfold ring_bytes; rewrite Hpc; reflexivity).
  destruct (Hn 512 ltac:(lia)) as (_ & f & H1 & H2 & _ & _ & _ & H3 & _); [rewrite HR; reflexivity|reflexivity|].
  exists w', dd, f. split; [exact Hrun|]. split; [exact H1|]. split; [rewrite H2, HR; reflexivity|rewrite H3; reflexivity].
Defined.

(** The application enables interrupts through the file opened on the sample device. *)
Lemma interrupt_control_reaches_host_witness : exists r w', uio_write 9 sizeof_s32 w2 = Some (r, w') /\
  InterruptControl (fun _ => r) true = Ret tt /\ word_delivered w2 9 true r w'.
Proof.
  destruct inv2 as [σ Hi]. assert (Hck : write_check w2 9 = Some 0) by (vm_compute; reflexivity).
  destruct (interrupt_control_reaches_host w2 _ σ 9 true Hi open_9 eq_refl eq_refl) as (r & w' & Hrun & _ & H & _).
  destruct (H Hck) as [H1 H2]. exists r, w'. split; [exact Hrun|]. split; [exact H2|exact H1].
Defined.

(** A control device with one region, and rings of 128 bytes. *)
Definition control_fs : filesystem := {|
  GetDirectories _ := Some ["uio0"]; File_Exists _ := true;
  Directory_Exists p := String.eqb p (uio_directory ControlInstanceId +:+ "/uio0/maps/map0");
  file_text p := Some (if String.eqb p (uio_directory ControlInstanceId +:+ "/uio0/maps/map0/name")
    then "txrx_rings" +:+ nl else "0x400000" +:+ nl) |}.
Definition env0 : rdp_env := RdpEnv (None, Some EEXIST) control_fs 4096 false (fun b => Z.of_nat (length b)) (4, 0).
Definition ring0 : ring := Ring 0 0 (replicate 128 0).
Definition control_device : UioHvDevice := ring_fields 4096 0 4194304 2097152.

Lemma ring0_ok : ring_ok ring0.
Proof. by split. Qed.

Lemma env0_reaches : reaches_receive 2 env0 ring0 control_device.
Proof.
  split.
  - apply Forall_cons_2; [by left|]. apply Forall_cons_2; [by right|apply Forall_nil_2].
  - vm_compute. reflexivity.
  - split; [exact ring0_ok|vm_compute; reflexivity].
  - intros bytes Hb. cbn. by rewrite Hb.
  - left. cbn. lia.
Qed.

(** With an empty ring the memory after the empty array decides. *)
Lemma version_exchange_unread_witness :
  (exists out', ServiceMain_init 2 env0 ring0 ring0 (replicate 17 2) = Ret (out', ring0)) /\
  ServiceMain_init 2 env0 ring0 ring0 (replicate 17 0) = Throw "SynthRdpVersionResponse Invalid".
Proof.
  split.
  - destruct (proj2 (version_exchange_unread 2 env0 ring0 ring0 (replicate 17 2) control_device env0_reaches ring0_ok) eq_refl) as (out' & E).
    exists out'. exact E.
  - destruct (proj2 (version_exchange_unread 2 env0 ring0 ring0 (replicate 17 0) control_device env0_reaches ring0_ok) eq_refl) as (out' & E).
    exact E.
Defined.

Definition forward_run : list fwd := [Arrive [1; 2; 3]; Turn; Arrive [4]; HostPop; Turn; Arrive [5; 6]; HostPop].

Lemma forward_room : leaves_room forward_run [] ring0.
Proof. vm_compute. repeat split. Qed.

Lemma forwarding_keeps_stream_witness : exists received socket' r' q',
  run_forward (fun b => Z.of_nat (length b)) forward_run [] ring0 = Ret (received, socket', r') /\
  represents r' q' /\ [1; 2; 3; 4; 5; 6] = received ++ concat q' ++ socket'.
Proof.
  apply (forwarding_keeps_stream (fun b => Z.of_nat (length b)) forward_run) with (socket := []) (q := []).
  - intros bytes ->. reflexivity.
  - split; [exact ring0_ok|constructor].
  - exact forward_room.
Defined.
End Witness.
