(* ===== verification/InterruptProps.v ===== *)
(** * One interrupt, from the host to the application and back

    The host signals, [hv_uio_channel_cb] masks the channel and counts the event, the
    application waits in [WaitInterrupt], that is in [uio_read], and signals back with
    [SignalHost], that is with [uio_write] and the driver's [irqcontrol], which unmasks
    the channel. *)

From S2P Require Import Prelude Kernel UioTypes UioAttr UioDevice HypervVmbus HvUio UioFile UioTables KLogic UioInv UioSpec UioSystem ModuleSpec UioEvents UioAbstract HvSpec HvCallbacks HvSystem Scenario HvProps CAccess Ring UserDevice UserProps.

Section cycle.
Context `{HK : Kernel, HKok : !KernelOk, HU : Uapi, HUok : !UapiOk, HA : HvApi, HHk : !HvKernelOk}.
Set Default Proof Using "All".
Implicit Types (w : world hv_state) (σ : gmap Z nat) (F : gset Z).

(** ** A read with an event pending *)

(** The world a read leaves that finds an event of device [p] at once. *)
Lemma wp_read_pending others fuel w F σ f l lst d nb :
  core_inv w F σ -> f ∈ F -> w_priv w !! f = Some l -> w_heap w !! l = Some (HLsn lst) ->
  w_heap w !! l_dev lst = Some (HIdev d) -> idev_gone w (l_dev lst) = false -> d_event d <> l_event_count lst ->
  (forall h, kernel h (CopyToUser (d_event d) sizeof_s32) = 0) ->
  wp (uio_read others (S fuel) f sizeof_s32 nb) w (fun r w' => r = Some sizeof_s32 /\ core_inv w' F σ /\
    w_drv w' = w_drv w /\ w_info w' = w_info w /\ w_priv w' = w_priv w /\
    w_heap w' = <[l := HLsn (UioListener (l_dev lst) (d_event d))]> (w_heap w) /\
    drvdata_of (w_hist w') = drvdata_of (w_hist w)).
Proof.
  intros Hi Hf Hp Hl Hd Hg Hne Hcopy. destruct (open_file_full _ _ _ _ Hi Hf) as (l' & lst' & d' & Hp' & Hl' & Hd' & Hdev & Hr).
  assert (l' = l) as -> by congruence. assert (lst' = lst) as -> by congruence. assert (d' = d) as -> by congruence.
  unfold uio_read. ksteps. change (negb (sizeof_s32 =? sizeof_s32)) with false. cbn iota. ksteps. cbn [read_loop]. ksteps.
  unfold read_iter. ksteps. eapply wp_no_irq; [wlookup| |].
  { intros Hn. destruct (Hr Hn) as (i & n & _ & Hinfo & _). exists i. by wsimpl_goal. }
  rewrite !idev_gone_logged, Hg. cbn iota. ksteps. rewrite (proj2 (Z.eqb_neq _ _) Hne). cbn [negb]. ksteps.
  rewrite Hcopy. cbn [Z.eqb negb]. ksteps. split; [done|].
  split; [|split_and!; try (by wsimpl_goal); by gsimpl].
  apply (inv_quiet_drv w); [exact Hi|quiet_tac|by wsimpl_goal].
Qed.

(** What an operation that keeps the core's objects keeps of a file. *)
Lemma still_pending w w' f : still w w' -> event_pending w' f = event_pending w f.
Proof.
  intros Hs. destruct (spares_free _ _ _ _ _ _ Hs) as [_ H2 _ _ _ H6]. specialize (H6 f I).
  assert (Hc : forall p, hcore (w_heap w' !! p) = hcore (w_heap w !! p)) by (intros p; by apply H2).
  assert (Hl : forall l, as_lsn (w_heap w' !! l) = as_lsn (w_heap w !! l)).
  { intros l. generalize (Hc l). destruct (w_heap w' !! l) as [[?|[]|?|?]|], (w_heap w !! l) as [[?|[]|?|?]|]; cbn; congruence. }
  assert (Hd : forall p, d_event <$> as_idev (w_heap w' !! p) = d_event <$> as_idev (w_heap w !! p)).
  { intros p. generalize (Hc p). destruct (w_heap w' !! p) as [[]|], (w_heap w !! p) as [[]|]; cbn; congruence. }
  unfold event_pending, dev_event_count, seen_event_count, dev_of. rewrite H6.
  destruct (w_priv w !! f) as [l|]; [|done]. cbn. rewrite Hl. destruct (as_lsn _); [|done]. cbn. by rewrite Hd.
Qed.

Lemma write_check_bound w F σ f p i x : core_inv w F σ -> f ∈ F -> dev_of w f = Some (i_uio_dev i) ->
  w_heap w !! i_uio_dev i = Some (HIdev x) -> d_info x = p -> p <> 0 -> w_info w !! p = Some i -> i_irq i <> 0 ->
  write_check w f = Some 0.
Proof.
  intros Hi Hf Hdev Hx <- Hn Hinfo Hirq.
  destruct (open_file_full _ _ _ _ Hi Hf) as (l & lst & d & Hp & Hl & Hd & Hdev' & Hr).
  assert (l_dev lst = i_uio_dev i) as E by congruence. assert (d = x) as -> by congruence.
  destruct (Hr Hn) as (i' & n & _ & Hi' & _ & _ & Hσ). assert (i' = i) as -> by congruence.
  destruct (hv_callbacks _ _ _ (ci_drv _ _ _ Hi _ _ Hσ) i Hinfo) as (_ & _ & _ & _ & Hfn).
  unfold write_check. rewrite Hdev. cbn [mbind option_bind]. rewrite Hx. cbn [mbind option_bind as_idev].
  rewrite (proj2 (Z.eqb_neq _ _) Hn), Hinfo. cbn [mbind option_bind].
  by rewrite (proj2 (Z.eqb_neq _ _) Hirq), Hfn.
Qed.

(** ** The round *)

(** The driver is bound to device [p] of channel [ctx], whose file [f] has seen all events. *)
Record attached w F σ ctx c p i x pd dv f : Prop := Attached {
  at_inv : core_inv w F σ;
  at_chan : hs_chan (w_drv w) !! ctx = Some c;
  at_mapped : ch_inbound c <> None;
  at_bound : bound_to w (ch_device_obj c) p i x;
  at_info : d_info x = p /\ p <> 0;
  at_irq : i_irq i <> 0;
  at_pdata : hs_pdata (w_drv w) !! p = Some pd;
  at_dev : hs_dev (w_drv w) !! pd_device pd = Some dv;
  at_ctx : hd_channel dv = ctx;
  at_file : f ∈ F;
  at_open : dev_of w f = Some (i_uio_dev i);
  at_seen : event_pending w f = false }.

(** The mask of the channel in the control page of its ring. *)
Definition mask_of w ctx : option Z := hs_chan (w_drv w) !! ctx ≫= ch_inbound.

(** User memory can be read and written; the application writes the word of [SignalHost]. *)
Record user_memory : Prop := UserMemory {
  um_to h e : kernel h (CopyToUser e sizeof_s32) = 0;
  um_from h : kernel h (CopyFromUser 4) = 0;
  um_word h : kernel_out h (CopyFromUser 4) = [le_num (interrupt_bytes true)] }.

(** C23. One interrupt.  The host's signal masks the channel, and only then counts the
    event, wakes the readers and makes the file readable; [WaitInterrupt] then returns
    without sleeping and has seen the event; [SignalHost] succeeds, and the channel is
    unmasked again: every object is as before, with one event more counted and seen, so
    that the next signal is delivered in the same way.  While the application has not
    signalled back the channel stays masked. *)
Theorem interrupt_round_trip w F σ ctx c p i x pd dv f others fuel errno :
  attached w F σ ctx c p i x pd dv f -> user_memory ->
  exists w1 w2 w3,
    hv_uio_channel_cb ctx w = Some (tt, w1) /\ mask_of w1 ctx = Some 1 /\ event_pending w1 f = true /\
    map ev_call (w_hist w1) =
      [KillFasync (i_uio_dev i) POLL_IN; WakeUpInterruptible (i_uio_dev i); VirtMb; StoreInterruptMask ctx 1;
       DevGetDrvdata (ch_device_obj c)] ++ map ev_call (w_hist w) /\
    uio_read others (S fuel) f sizeof_s32 false w1 = Some (Some sizeof_s32, w2) /\ WaitInterrupt sizeof_s32 errno = Ret true /\
    mask_of w2 ctx = Some 1 /\ event_pending w2 f = false /\
    uio_write f sizeof_s32 w2 = Some (4, w3) /\ SignalHost (fun _ => 4) = Ret tt /\ mask_of w3 ctx = Some 0 /\
    dev_event_count w3 f = Some (atomic_inc (d_event x)) /\
    exists c' i' x' pd', attached w3 F σ ctx c' p i' x' pd' dv f.
Proof.
  intros [Hi Hc Hm Hb Hx Hirq Hpd Hdv Hctx Hf Hdev Hseen] [Uto Ufrom Uword].
  destruct (wp_hv_uio_channel_cb w F σ ctx c p i x Hi Hc Hm Hb) as ([] & w1 & Hr1 & Hi1 & Ed1 & Ei1 & Ep1 & Eh1 & Ehist1).
  destruct Hb as [Bd Bi Bx]. destruct Hx as [Hx Hn].
  destruct (open_file _ _ _ _ Hi Hf) as (l & lst & d & Hp & Hl & _ & Hdev' & _).
  assert (El : l_dev lst = i_uio_dev i) by congruence. assert (Hle : i_uio_dev i <> l) by congruence.
  pose proof (one_more_event w w1 f _ x l lst Hp Hl El Bx Ep1 Eh1 Hseen) as Hpend1.
  rewrite (event_pending_eq w f _ x l lst Hdev Bx Hp Hl) in Hseen. apply negb_false_iff, Z.eqb_eq in Hseen.
  set (y := upd_event atomic_inc x) in *.
  assert (Hl1 : w_heap w1 !! l = Some (HLsn lst)) by (by rewrite Eh1, lookup_insert_ne).
  assert (Hx1 : w_heap w1 !! i_uio_dev i = Some (HIdev y)) by (by rewrite Eh1, lookup_insert_eq).
  assert (Hp1 : w_priv w1 !! f = Some l) by (by rewrite Ep1).
  destruct (wp_read_pending others fuel w1 F σ f l lst y false Hi1 Hf Hp1 Hl1) as (r & w2 & Hr2 & -> & Hi2 & Ed2 & Ei2 & Ep2 & Eh2 & Edd2).
  { by rewrite El. }
  { rewrite El, (idev_gone_eq w1 _ y i Hx1); [by apply Z.eqb_neq| |]; cbn; by rewrite Hx, ?Ei1. }
  { rewrite Hseen. apply atomic_inc_neq. }
  { intros h. apply Uto. }
  assert (Hx2 : w_heap w2 !! i_uio_dev i = Some (HIdev y)) by (rewrite Eh2, lookup_insert_ne; done).
  assert (Hl2 : w_heap w2 !! l = Some (HLsn (UioListener (l_dev lst) (d_event y)))) by (by rewrite Eh2, lookup_insert_eq).
  assert (Hp2 : w_priv w2 !! f = Some l) by (by rewrite Ep2).
  assert (Hdev2 : dev_of w2 f = Some (i_uio_dev i)) by (rewrite <- El; exact (dev_of_some w2 f l _ Hp2 Hl2)).
  assert (Hinfo2 : w_info w2 !! p = Some i) by (by rewrite Ei2, Ei1).
  assert (Hseen2 : event_pending w2 f = false).
  { rewrite (event_pending_eq w2 f _ y l _ Hdev2 Hx2 Hp2 Hl2). cbn. by rewrite Z.eqb_refl. }
  assert (Hck : write_check w2 f = Some 0) by by apply (write_check_bound w2 F σ f p i y).
  destruct (wp_write_delivers w2 F σ f true Hi2 Hf (Ufrom _) (Uword _) Hck) as (r & w3 & Hr3 & -> & q & x3 & pd3 & dv3 & c3 & W1 & W2 & W3 & W4 & W5 & W6 & W7).
  destruct (wp_run _ _ _ _ _ (wp_uio_write w2 F σ f sizeof_s32 Hi2 Hf) Hr3) as (Hi3 & _).
  pose proof (still_write f sizeof_s32 w2 _ w3 Hr3) as Hst. destruct (spares_free _ _ _ _ _ _ Hst) as [_ S2 _ S4 S5 S6].
  assert (Hc1 : hs_chan (w_drv w2) !! ctx = Some (set_ch_inbound (Some 1) c)) by (rewrite Ed2, Ed1; apply lookup_insert_eq).
  assert (Hpd2 : hs_pdata (w_drv w2) !! p = Some pd) by (by rewrite Ed2, Ed1).
  assert (Hdv2 : hs_dev (w_drv w2) !! pd_device pd = Some dv) by (by rewrite Ed2, Ed1).
  assert (q = i_uio_dev i) as -> by congruence. assert (x3 = y) as -> by congruence. change (d_info y) with (d_info x) in W3. rewrite Hx in W3.
  assert (pd3 = pd) as -> by congruence. assert (dv3 = dv) as -> by congruence. rewrite Hctx in W5, W6. assert (c3 = set_ch_inbound (Some 1) c) as -> by congruence.
  assert (Hm3 : mask_of w3 ctx = Some 0) by (unfold mask_of; by rewrite W6).
  exists w1, w2, w3. split; [done|]. split; [unfold mask_of; by rewrite <- Ed2, Hc1|]. split; [done|]. split; [exact Ehist1|]. split; [exact Hr2|].
  split; [done|]. split; [unfold mask_of; by rewrite Hc1|]. split; [done|]. split; [exact Hr3|]. split; [done|]. split; [exact Hm3|].
  pose proof (stp_hv_op (HvSignal ctx) F w F w1 (ex_intro _ c (ex_intro _ p (ex_intro _ i (ex_intro _ x
    (conj Hc (conj Hm (BoundTo _ _ _ _ _ Bd Bi Bx))))))) ltac:(cbn [do_hv_op]; unfold mbind, K_bind; by rewrite Hr1)) as T1.
  pose proof (stp_op (OpWrite f sizeof_s32) F eq_refl w2 F w3 ltac:(cbn [do_op uio_fops fop_write]; unfold mbind, K_bind; by rewrite Hr3)) as T3.
  assert (exists x', w_heap w3 !! i_uio_dev i = Some (HIdev x') /\ d_info x' = d_info y /\ d_event x' = d_event y) as (x' & X1 & X2 & X3).
  { specialize (S2 (i_uio_dev i) I). rewrite Hx2 in S2. destruct (w_heap w3 !! i_uio_dev i) as [[x'| | |]|]; cbn in S2; try done.
    exists x'. split; [done|]. by injection S2. }
  assert (exists i', w_info w3 !! p = Some i' /\ i_irq i' = i_irq i /\ i_uio_dev i' = i_uio_dev i) as (i' & I1 & I2 & I3).
  { specialize (S4 p). specialize (S5 p I). rewrite Hinfo2 in S4, S5. destruct (w_info w3 !! p) as [i'|]; [|done].
    exists i'. split; [done|]. cbn in S4, S5. split; congruence. }
  assert (exists pd', hs_pdata (w_drv w3) !! p = Some pd' /\ pd_device pd' = pd_device pd) as (pd' & P1 & P2).
  { pose proof (hs_pd _ _ T3 p) as E. rewrite Hpd2 in E. destruct (hs_pdata (w_drv w3) !! p) as [pd'|]; [|done].
    exists pd'. split; [done|]. by injection E. }
  assert (Hdev3 : dev_of w3 f = Some (i_uio_dev i)).
  { specialize (S2 l I). rewrite Hl2 in S2. destruct (w_heap w3 !! l) as [[|lst'| |]|] eqn:E3; cbn in S2; try done.
    rewrite (dev_of_some w3 f l lst' ltac:(by rewrite S6) E3). injection S2 as -> _. congruence. }
  split; [rewrite (dev_event_count_eq w3 f _ x' Hdev3 X1), X3; done|].
  exists (set_ch_inbound (Some 0) (set_ch_inbound (Some 1) c)), i', x', pd'. split; try done.
  - split; [|done|by rewrite I3]. change (ch_device_obj _) with (ch_device_obj c). by rewrite (hs_data _ _ T3), Edd2, (hs_data _ _ T1).
  - split; [|done]. rewrite X2. exact Hx.
  - by rewrite I2.
  - rewrite P2. by rewrite (hs_devs _ _ T3).
  - by rewrite I3.
  - by rewrite (still_pending w2 w3 f Hst).
Qed.
End cycle.

(** ** The sample device *)

Module Witness.
Import HvProps.Witness.

Lemma data_2 : exists pd dv, hs_pdata (w_drv w2) !! p1 = Some pd /\ hs_dev (w_drv w2) !! pd_device pd = Some dv /\ hd_channel dv = 600.
Proof. do 2 eexists. split; [vm_compute; reflexivity|]. split; vm_compute; reflexivity. Qed.
Lemma info_bound_2 : d_info UioProps.Witness.d2 = p1 /\ p1 <> 0.
Proof. apply (bool_decide_unpack _). vm_compute. exact I. Qed.
Lemma irq_2 : i_irq i1 <> 0.
Proof. apply (bool_decide_unpack _). vm_compute. exact I. Qed.

Lemma attached_2 σ : core_inv w2 ({[9]} ∪ ∅) σ ->
  exists pd dv, attached w2 ({[9]} ∪ ∅) σ 600 chan2 p1 i1 UioProps.Witness.d2 pd dv 9.
Proof.
  intros Hi. destruct data_2 as (pd & dv & H1 & H2 & H3). exists pd, dv.
  exact (Attached _ _ _ _ _ _ _ _ _ _ _ Hi chan_2 mapped_2 bound_2 info_bound_2 irq_2 H1 H2 H3 open_9 dev_2 idle_2).
Qed.

Lemma sample_memory : user_memory.
Proof. by split. Qed.

(** The host signals, the application waits and signals back. *)
Lemma interrupt_round_trip_witness : exists w' w'' w''', hv_uio_channel_cb 600 w2 = Some (tt, w') /\
  uio_read (fun w => w) 1 9 sizeof_s32 false w' = Some (Some sizeof_s32, w'') /\
  uio_write 9 sizeof_s32 w'' = Some (4, w''') /\ mask_of w''' 600 = Some 0 /\ event_pending w''' 9 = false.
Proof.
  destruct inv2 as [σ Hi]. destruct (attached_2 σ Hi) as (pd & dv & Ha).
  destruct (interrupt_round_trip w2 _ σ 600 chan2 p1 i1 UioProps.Witness.d2 pd dv 9 (fun w => w) 0 0 Ha sample_memory)
    as (v1 & v2 & v3 & H1 & _ & _ & _ & H2 & _ & _ & _ & H3 & _ & H4 & _ & c' & i' & x' & pd' & H5).
  exists v1, v2, v3. split; [exact H1|]. split; [exact H2|]. split; [exact H3|]. split; [exact H4|].
  exact (at_seen _ _ _ _ _ _ _ _ _ _ _ H5).
Defined.
End Witness.
