(* ===== verification/RdpLoopProps.v ===== *)
(** * Properties of the service's loop *)

From S2P Require Import Prelude CLayout CLayoutSpec CAccess Ring RingSpec UserDevice Native SynthRdp SynthRdpLoop.

(** The host is any. *)
Section service.
Context `{host : Host}.

(** ** One action *)

(** The connection [ServiceMain] is busy with. *)
Definition current (s : service) : option nat :=
  match s_main s with
  | AtRequest k | WaitingHost k | Watching k | Closing k => Some k
  | AtRunning | Searching | Connecting _ | Exited | Crashed => None
  end.


Lemma turn_frame_vmbus send r c r' c' ok : vmbus2tcp_turn send r c = (r', c', ok) ->
  c_channel c' = c_channel c /\ ShouldRunning c' = ShouldRunning c /\ c_open c' = c_open c /\
  Vmbus2TcpThread c' = Vmbus2TcpThread c /\ Tcp2VmbusThread c' = Tcp2VmbusThread c /\ c_socket c' = c_socket c /\
  (c_open c = false -> c_sent c' = c_sent c).
Proof.
  unfold vmbus2tcp_turn, socket_send. destruct (PopPipePacket r) as [[x r1]|]; [|intros [= <- <- <-]; done].
  destruct (_ =? 0); [intros [= <- <- <-]; done|]. destruct (c_open c) eqn:Ho; [|intros [= <- <- <-]; done].
  destruct send; cbn; intros [= <- <- <-]; done.
Qed.

Lemma turn_frame_tcp w r c r' c' ok : tcp2vmbus_turn w r c = (r', c', ok) ->
  c_channel c' = c_channel c /\ ShouldRunning c' = ShouldRunning c /\ c_open c' = c_open c /\
  Vmbus2TcpThread c' = Vmbus2TcpThread c /\ Tcp2VmbusThread c' = Tcp2VmbusThread c /\ c_sent c' = c_sent c.
Proof.
  unfold tcp2vmbus_turn. destruct (negb (c_open c)); [intros [= <- <- <-]; done|].
  destruct (GetMaximumPushSize r); [|intros [= <- <- <-]; done]. cbn zeta. destruct (0 <? _); [|intros [= <- <- <-]; done].
  destruct (PushPipePacket _ _); [destruct (SignalHost w)|]; intros [= <- <- <-]; done.
Qed.

Lemma forward_request_frame send m c : let c' := forward_request send m c in
  c_channel c' = c_channel c /\ ShouldRunning c' = ShouldRunning c /\ c_open c' = c_open c /\
  Vmbus2TcpThread c' = Vmbus2TcpThread c /\ Tcp2VmbusThread c' = Tcp2VmbusThread c.
Proof.
  unfold forward_request, socket_send. destruct (m ≫= _); try done. destruct (c_open c) eqn:E; [|done].
  destruct send; cbn; by rewrite ?E.
Qed.

(** ** The life of a connection *)

Definition started (t : thread) : bool := bool_decide (t <> Unstarted).

(** [ShouldRunning], the socket, and which threads were started. *)
Definition shape (c : conn) : bool * bool * bool * bool :=
  (ShouldRunning c, c_open c, started (Vmbus2TcpThread c), started (Tcp2VmbusThread c)).

Definition closed_shape := (false, false, true, true).

(** What the place of [ServiceMain] says about a connection. *)
Definition shape_at (m : main_at) (k : nat) : bool * bool * bool * bool :=
  match m with
  | AtRequest k' | WaitingHost k' => if decide (k = k') then (false, true, false, false) else closed_shape
  | Watching k' => if decide (k = k') then (true, true, true, true) else closed_shape
  | Closing k' => if decide (k = k') then (false, true, true, true) else closed_shape
  | AtRunning | Searching | Connecting _ | Exited | Crashed => closed_shape
  end.

Record loop_inv (s : service) : Prop := {
  li_shape k c : s_conns s !! k = Some c -> shape c = shape_at (s_main s) k;
  li_current k : current s = Some k -> (k < length (s_conns s))%nat }.

Lemma loop_inv_same s s' : s_conns s' = s_conns s -> s_main s' = s_main s -> loop_inv s -> loop_inv s'.
Proof. intros E1 E2 [H1 H2]. split; unfold current in *; by rewrite E1, E2. Qed.

(** A connection changes without changing shape. *)
Lemma loop_inv_conn s s' k c c' :
  s_conns s !! k = Some c -> s_conns s' = <[k := c']> (s_conns s) -> s_main s' = s_main s -> shape c' = shape c ->
  loop_inv s -> loop_inv s'.
Proof.
  intros Hk E1 E2 Hc [H1 H2]. split.
  - intros j d. rewrite E1, E2. destruct (decide (j = k)) as [->|Hne].
    + rewrite list_lookup_insert_eq by (by eapply lookup_lt_Some). intros [= <-]. rewrite Hc. by apply H1.
    + rewrite list_lookup_insert_ne by done. apply H1.
  - intros j. unfold current in *. rewrite E1, E2, length_insert. apply H2.
Qed.

(** [ServiceMain] moves on, and with it the shape of the connection it is busy with. *)
Lemma loop_inv_main s s' k c c' m :
  s_conns s !! k = Some c -> s_conns s' = <[k := c']> (s_conns s) -> s_main s' = m -> shape c' = shape_at m k ->
  (forall j, j <> k -> shape_at m j = shape_at (s_main s) j) -> (current s' = None \/ current s' = Some k) ->
  loop_inv s -> loop_inv s'.
Proof.
  intros Hk E1 E2 Hc Hm Hcur [H1 H2]. assert (Hl := lookup_lt_Some _ _ _ Hk). split.
  - intros j d. rewrite E1, E2. destruct (decide (j = k)) as [->|Hne].
    + rewrite list_lookup_insert_eq by done. by intros [= <-].
    + rewrite list_lookup_insert_ne, Hm by done. apply H1.
  - intros j Hj. rewrite E1, length_insert. destruct Hcur as [E|E]; congruence.
Qed.

Lemma loop_inv_place s s' : s_conns s' = s_conns s -> (forall j, shape_at (s_main s') j = shape_at (s_main s) j) ->
  current s' = None \/ current s' = current s -> loop_inv s -> loop_inv s'.
Proof.
  intros E1 Hm Hcur [H1 H2]. split; [intros j d; rewrite E1, Hm; apply H1|].
  intros j Hj. rewrite E1. apply H2. destruct Hcur; congruence.
Qed.

Lemma after_turn_started ok : started (after_turn ok) = true.
Proof. by destruct ok. Qed.

Lemma shape_vmbus2tcp t c : started t = true -> Vmbus2TcpThread c <> Unstarted -> shape (with_vmbus2tcp t c) = shape c.
Proof. intros Ht Hc. unfold shape. cbn. rewrite Ht. unfold started at 2. by rewrite (bool_decide_true (_ <> _)). Qed.

Lemma shape_tcp2vmbus t c : started t = true -> Tcp2VmbusThread c <> Unstarted -> shape (with_tcp2vmbus t c) = shape c.
Proof. intros Ht Hc. unfold shape. cbn. rewrite Ht. unfold started at 3. by rewrite (bool_decide_true (_ <> _)). Qed.

Lemma vmbus2tcp_step_inv k send s s' : vmbus2tcp_step k send s = Some s' -> loop_inv s -> loop_inv s'.
Proof.
  unfold vmbus2tcp_step. intros H Hi. apply bind_Some in H as (c & Hk & H). destruct (Vmbus2TcpThread c) eqn:Et; [done| | |done].
  - injection H as <-. eapply loop_inv_conn; [exact Hk|reflexivity..| |exact Hi]. apply shape_vmbus2tcp; [by destruct (ShouldRunning c)|congruence].
  - apply bind_Some in H as (r & Hr & H). destruct (vmbus2tcp_turn send r c) as [[r1 c1] ok] eqn:E.
    injection H as <-. destruct (turn_frame_vmbus _ _ _ _ _ _ E) as (E1 & E2 & E3 & E4 & E5 & _).
    eapply loop_inv_conn; [exact Hk|reflexivity..| |exact Hi].
    rewrite shape_vmbus2tcp by (apply after_turn_started || congruence). unfold shape. by rewrite E2, E3, E4, E5.
Qed.

Lemma tcp2vmbus_step_inv k w s s' : tcp2vmbus_step k w s = Some s' -> loop_inv s -> loop_inv s'.
Proof.
  unfold tcp2vmbus_step. intros H Hi. apply bind_Some in H as (c & Hk & H). destruct (Tcp2VmbusThread c) eqn:Et; [done| | |done].
  - injection H as <-. eapply loop_inv_conn; [exact Hk|reflexivity..| |exact Hi]. apply shape_tcp2vmbus; [by destruct (ShouldRunning c)|congruence].
  - apply bind_Some in H as (r & Hr & H). destruct (tcp2vmbus_turn w r c) as [[r1 c1] ok] eqn:E.
    injection H as <-. destruct (turn_frame_tcp _ _ _ _ _ _ E) as (E1 & E2 & E3 & E4 & E5 & _).
    eapply loop_inv_conn; [exact Hk|reflexivity..| |exact Hi].
    rewrite shape_tcp2vmbus by (apply after_turn_started || congruence). unfold shape. by rewrite E2, E3, E4, E5.
Qed.

(** The start of the threads, whatever became of the first packet. *)
Lemma begin_watching_inv s0 s k c c' :
  s_conns s0 !! k = Some c -> s_conns s = s_conns s0 -> s_main s0 = AtRequest k \/ s_main s0 = WaitingHost k ->
  c_open c' = c_open c -> loop_inv s0 -> loop_inv (begin_watching k c' s).
Proof.
  intros Hk Ec Hm Ho Hi. eapply loop_inv_main with (m := Watching k); [exact Hk| |reflexivity| | |by right|exact Hi].
  - cbn. by rewrite Ec.
  - unfold shape, shape_at. rewrite decide_True by done. cbn. rewrite Ho.
    pose proof (li_shape _ Hi _ _ Hk) as Hs. unfold shape, shape_at in Hs. destruct Hm as [Hm|Hm]; rewrite Hm, decide_True in Hs by done; by injection Hs as _ -> _ _.
  - intros j Hj. destruct Hm as [-> | ->]; cbn; by rewrite !decide_False by done.
Qed.

Lemma main_step_inv e s s' : main_step e s = Some s' -> loop_inv s -> loop_inv s'.
Proof.
  unfold main_step. intros H Hi. destruct (s_main s) as [| |ch|k|k|k|k| |] eqn:Em; [| | | | | | |done|done].
  - injection H as <-. apply (loop_inv_place s); [reflexivity| |left; by destruct (IsRunning s)|exact Hi].
    intros j. rewrite Em. by destruct (IsRunning s).
  - destruct (data_pass _); injection H as <-; [|done]. apply (loop_inv_place s); [reflexivity| |left; by destruct (me_opens e)|exact Hi].
    intros j. rewrite Em. by destruct (me_opens e).
  - destruct (me_connects e); injection H as <-.
    + split.
      * intros j d. cbn. intros Hd. destruct (decide (j = length (s_conns s))) as [->|Hne].
        -- rewrite lookup_app_r, Nat.sub_diag in Hd by lia. injection Hd as <-. done.
        -- apply lookup_lt_Some in Hd as Hl. rewrite length_app in Hl. cbn in Hl. rewrite lookup_app_l in Hd by lia.
           rewrite (li_shape _ Hi _ _ Hd), Em. done.
      * intros j. cbn. intros [= <-]. rewrite length_app. cbn. lia.
    + apply (loop_inv_place s); [reflexivity| |by left|exact Hi]. intros j. by rewrite Em.
  - apply bind_Some in H as (c & Hk & H). apply bind_Some in H as (r & Hr & H). destruct (PopPipePacket r) as [[x r1]|].
    + cbn zeta in H. destruct (_ =? 0); injection H as <-.
      * apply (loop_inv_place s); [reflexivity| | |exact Hi]; [intros j; by rewrite Em|right; unfold current; by rewrite Em].
      * eapply begin_watching_inv; [exact Hk|reflexivity|by left| |exact Hi]. by apply forward_request_frame.
    + injection H as <-. eapply begin_watching_inv; [exact Hk|reflexivity|by left|reflexivity|exact Hi].
  - apply bind_Some in H as (c & Hk & H). injection H as <-.
    eapply begin_watching_inv; [exact Hk|reflexivity|by right| |exact Hi]. by apply forward_request_frame.
  - apply bind_Some in H as (c & Hk & H). destruct (_ || _); injection H as <-; [|done].
    pose proof (li_shape _ Hi _ _ Hk) as Hs. rewrite Em in Hs. unfold shape, shape_at in Hs. rewrite decide_True in Hs by done.
    injection Hs as _ Ho H1 H2. eapply loop_inv_main with (m := Closing k); [exact Hk|reflexivity..| | |by right|exact Hi].
    + unfold shape, shape_at. rewrite decide_True by done. cbn. by rewrite Ho, H1, H2.
    + intros j Hj. rewrite Em. cbn. by rewrite !decide_False by done.
  - apply bind_Some in H as (c & Hk & H). injection H as <-.
    pose proof (li_shape _ Hi _ _ Hk) as Hs. rewrite Em in Hs. unfold shape, shape_at in Hs. rewrite decide_True in Hs by done.
    injection Hs as Hr Ho H1 H2. eapply loop_inv_main with (m := AtRunning); [exact Hk|reflexivity..| | |by left|exact Hi].
    + unfold shape, shape_at, closed_shape. cbn. by rewrite Hr, H1, H2.
    + intros j Hj. rewrite Em. cbn. by rewrite !decide_False by done.
Qed.

Lemma act_inv a s s' : act a s = Some s' -> loop_inv s -> loop_inv s'.
Proof.
  unfold act. case_bool_decide as Hc; [done|]. destruct a as [e|k send|k w|ch x|ch|k bytes|]; intros H Hi.
  - by eapply main_step_inv.
  - by eapply vmbus2tcp_step_inv.
  - by eapply tcp2vmbus_step_inv.
  - apply bind_Some in H as (r & _ & H). apply bind_Some in H as (r' & _ & [= <-]). by apply (loop_inv_same s).
  - apply bind_Some in H as (r & _ & H). apply bind_Some in H as (r' & _ & [= <-]). by apply (loop_inv_same s).
  - apply bind_Some in H as (c & Hk & H). destruct (c_open c) eqn:Ho; [|done]. injection H as <-.
    by apply (loop_inv_conn s _ k c (with_socket (c_socket c ++ bytes) c)).
  - injection H as <-. by apply (loop_inv_same s).
Qed.

Lemma loop_start_inv i o : loop_inv (loop_start i o).
Proof. split; [intros k c; cbn; by rewrite lookup_nil|done]. Qed.

(** In every reachable state each connection has the shape the place of [ServiceMain] gives it: only
    the one it is busy with is open, and only while it is watched do its threads go on. *)
Lemma loop_reachable_inv i o s : reachable (loop_start i o) s -> loop_inv s.
Proof. induction 1 as [|s a s' _ IH Ha]; [apply loop_start_inv|by eapply act_inv]. Qed.

Lemma run_reachable s0 l s s' : reachable s0 s -> run l s = Some s' -> reachable s0 s'.
Proof.
  revert s. induction l as [|a l IH]; intros s Hs; cbn; [by intros [= <-]|].
  intros H. apply bind_Some in H as (s1 & Ha & H). apply (IH s1); [|done]. by apply reachable_act with s a.
Qed.

(** ** Stopping *)

(** A turn of a thread of connection [k] that ends by an exception. *)
Definition turn_fails (k : nat) (a : action) (s : service) : bool :=
  match a with
  | Vmbus2Tcp j send =>
      match s_conns s !! j with
      | Some c => match s_incoming s !! c_channel c with
                  | Some r => bool_decide (j = k /\ Vmbus2TcpThread c = InTurn) && negb (vmbus2tcp_turn send r c).2
                  | None => false
                  end
      | None => false
      end
  | Tcp2Vmbus j PosixWrite =>
      match s_conns s !! j with
      | Some c => match s_outgoing s !! c_channel c with
                  | Some r => bool_decide (j = k /\ Tcp2VmbusThread c = InTurn) && negb (tcp2vmbus_turn PosixWrite r c).2
                  | None => false
                  end
      | None => false
      end
  | _ => false
  end.

Fixpoint no_failure (k : nat) (l : list action) (s : service) : Prop :=
  match l with
  | [] => True
  | a :: l => turn_fails k a s = false /\ match act a s with Some s' => no_failure k l s' | None => True end
  end.

(** Neither thread of the connection has ended. *)
Definition alive (k : nat) (s : service) : Prop :=
  exists c, s_conns s !! k = Some c /\ ended (Vmbus2TcpThread c) = false /\ ended (Tcp2VmbusThread c) = false.

Lemma alive_same k s s' : s_conns s' = s_conns s -> alive k s -> alive k s'.
Proof. intros E. unfold alive. by rewrite E. Qed.

Lemma alive_insert k j s s' c c' : s_conns s !! j = Some c -> s_conns s' = <[j := c']> (s_conns s) -> alive k s ->
  (j = k -> ended (Vmbus2TcpThread c') = false /\ ended (Tcp2VmbusThread c') = false) -> alive k s'.
Proof.
  intros Hj E (d & Hd & H1 & H2) Hc. unfold alive. rewrite E. destruct (decide (j = k)) as [->|Hne].
  - exists c'. rewrite list_lookup_insert_eq by (by eapply lookup_lt_Some). by destruct (Hc eq_refl).
  - exists d. by rewrite list_lookup_insert_ne.
Qed.

Lemma watched k s c : loop_inv s -> s_main s = Watching k -> alive k s -> s_conns s !! k = Some c ->
  ended (Vmbus2TcpThread c) = false /\ ended (Tcp2VmbusThread c) = false /\ ShouldRunning c = true.
Proof.
  intros Hi Hm (d & Hd & H1 & H2) Hc. rewrite Hd in Hc. injection Hc as ->. split_and!; [done..|].
  pose proof (li_shape _ Hi _ _ Hd) as Hs. rewrite Hm in Hs. unfold shape, shape_at in Hs. rewrite decide_True in Hs by done. by injection Hs.
Qed.

Lemma vmbus2tcp_alive k j send s s' : loop_inv s -> s_main s = Watching k -> alive k s ->
  turn_fails k (Vmbus2Tcp j send) s = false -> vmbus2tcp_step j send s = Some s' -> s_main s' = Watching k /\ alive k s'.
Proof.
  intros Hi Hm Ha Hf H. unfold vmbus2tcp_step in H. apply bind_Some in H as (c & Hc & H).
  assert (Hend : j = k -> ended (Vmbus2TcpThread c) = false /\ ended (Tcp2VmbusThread c) = false /\ ShouldRunning c = true).
  { intros ->. by apply (watched k s). }
  destruct (Vmbus2TcpThread c) eqn:Et; [done| | |done].
  - injection H as <-. split; [done|]. eapply alive_insert; [exact Hc|reflexivity|exact Ha|]. intros E. destruct (Hend E) as (_ & H2 & Hr).
    cbn. by rewrite Hr, H2.
  - apply bind_Some in H as (r & Hr & H). cbn [turn_fails] in Hf. rewrite Hc, Hr in Hf.
    destruct (vmbus2tcp_turn send r c) as [[r1 c1] ok] eqn:E. injection H as <-. split; [done|].
    eapply alive_insert; [exact Hc|reflexivity|exact Ha|]. intros Ej. destruct (Hend Ej) as (_ & H2 & _).
    rewrite bool_decide_true in Hf by done. cbn in Hf. apply negb_false_iff in Hf as ->.
    destruct (turn_frame_vmbus _ _ _ _ _ _ E) as (_ & _ & _ & _ & E5 & _). cbn. by rewrite E5.
Qed.

Lemma tcp2vmbus_alive k j w s s' : loop_inv s -> s_main s = Watching k -> alive k s ->
  turn_fails k (Tcp2Vmbus j w) s = false -> tcp2vmbus_step j w s = Some s' -> s_main s' = Watching k /\ alive k s'.
Proof.
  intros Hi Hm Ha Hf H. unfold tcp2vmbus_step in H. apply bind_Some in H as (c & Hc & H).
  assert (Hend : j = k -> ended (Vmbus2TcpThread c) = false /\ ended (Tcp2VmbusThread c) = false /\ ShouldRunning c = true).
  { intros ->. by apply (watched k s). }
  destruct (Tcp2VmbusThread c) eqn:Et; [done| | |done].
  - injection H as <-. split; [done|]. eapply alive_insert; [exact Hc|reflexivity|exact Ha|]. intros E. destruct (Hend E) as (H2 & _ & Hr).
    cbn. by rewrite Hr, H2.
  - apply bind_Some in H as (r & Hr & H). cbn [turn_fails] in Hf. rewrite Hc, Hr in Hf.
    destruct (tcp2vmbus_turn w r c) as [[r1 c1] ok] eqn:E. injection H as <-. split; [done|].
    eapply alive_insert; [exact Hc|reflexivity|exact Ha|]. intros Ej. destruct (Hend Ej) as (H2 & _ & _).
    rewrite bool_decide_true in Hf by done. cbn in Hf. apply negb_false_iff in Hf as ->.
    destruct (turn_frame_tcp _ _ _ _ _ _ E) as (_ & _ & _ & E4 & _ & _). cbn. by rewrite E4.
Qed.

Lemma act_running a s : s_main s <> Crashed -> act a s =
  match a with
  | Main e => main_step e s
  | Vmbus2Tcp k send => vmbus2tcp_step k send s
  | Tcp2Vmbus k PosixWrite => tcp2vmbus_step k PosixWrite s
  | HostPush ch Content => r ← s_incoming s !! ch; r ← host_push Content r; Some (set_incoming ch r s)
  | HostTake ch => r ← s_outgoing s !! ch; p ← host_take r; Some (set_outgoing ch p.2 s)
  | ServerBytes k bytes =>
      c ← s_conns s !! k; if c_open c then Some (set_conn k (with_socket (c_socket c ++ bytes) c) s) else None
  | StopCalled => Some (set_IsRunning false s)
  end.
Proof. intros H. unfold act. by rewrite bool_decide_false. Qed.

Lemma act_alive k a s s' : loop_inv s -> s_main s = Watching k -> alive k s -> turn_fails k a s = false -> act a s = Some s' ->
  s_main s' = Watching k /\ alive k s'.
Proof.
  unfold act. case_bool_decide as Hc; [done|]. intros Hi Hm Ha Hf H. destruct a as [e|j send|j w|ch x|ch|j bytes|].
  - unfold main_step in H. rewrite Hm in H. apply bind_Some in H as (c & Hk & H).
    destruct (watched k s c Hi Hm Ha Hk) as (E1 & E2 & _). rewrite E1, E2 in H. by injection H as <-.
  - by apply (vmbus2tcp_alive k j send s s').
  - by apply (tcp2vmbus_alive k j w s s').
  - apply bind_Some in H as (r & _ & H). apply bind_Some in H as (r' & _ & [= <-]). done.
  - apply bind_Some in H as (r & _ & H). apply bind_Some in H as (r' & _ & [= <-]). done.
  - apply bind_Some in H as (c & Hk & H). destruct (c_open c) eqn:Ho; [|done]. injection H as <-. split; [done|].
    eapply alive_insert; [exact Hk|reflexivity|exact Ha|]. intros ->. destruct (watched k s c Hi Hm Ha Hk) as (? & ? & _). by split.
  - by injection H as <-.
Qed.

(** C28. [Stop] waits for an exception.  While the service serves a connection whose threads run, nothing
    but an exception in one of the two threads ends the connection: whatever else happens, and
    however often, a [Join] after [IsRunning] was cleared does not return.  Once one of the
    threads has ended, three steps of [ServiceMain] are enough. *)
Theorem stop_waits_for_exception i o s k :
  reachable (loop_start i o) s -> s_main s = Watching k ->
  (alive k s -> forall l s', no_failure k l s -> run l s = Some s' -> s_main s' = Watching k /\ alive k s' /\ stop_returns s' = false) /\
  (~ alive k s -> forall e, exists s', run [StopCalled; Main e; Main e; Main e] s = Some s' /\ stop_returns s' = true).
Proof.
  intros Hr Hm. pose proof (loop_reachable_inv _ _ _ Hr) as Hi. clear Hr. split.
  - intros Ha l. revert s Hm Hi Ha. induction l as [|a l IH]; intros s Hm Hi Ha s' Hf; cbn.
    + intros [= <-]. split_and!; [done..|]. unfold stop_returns. by rewrite Hm.
    + intros H. apply bind_Some in H as (s1 & E & H). destruct Hf as [Hf1 Hf]. rewrite E in Hf.
      destruct (act_alive k a s s1) as [Hm1 Ha1]; [done..|]. apply (IH s1); [done|by eapply act_inv|done..].
  - intros Hd e. destruct (lookup_lt_is_Some_2 (s_conns s) k) as [c Hk]; [apply (li_current _ Hi); unfold current; by rewrite Hm|].
    assert (He : ended (Vmbus2TcpThread c) || ended (Tcp2VmbusThread c) = true).
    { destruct (_ || _) eqn:E; [done|]. apply orb_false_iff in E as [E1 E2]. destruct Hd. by exists c. }
    assert (Hl := lookup_lt_Some _ _ _ Hk).
    exists (set_main Exited (set_conn k (with_open false (with_running false c)) (set_conn k (with_running false c) (set_IsRunning false s)))).
    split; [|reflexivity]. cbn [run]. rewrite act_running by congruence. cbn [mbind option_bind].
    rewrite act_running by (cbn; congruence). unfold main_step at 1. cbn [s_main set_IsRunning s_conns]. rewrite Hm, Hk. cbn [mbind option_bind].
    rewrite He. cbn [mbind option_bind]. rewrite act_running by done. unfold main_step at 1.
    cbn [s_main set_main set_conn set_conns s_conns set_IsRunning]. rewrite list_lookup_insert_eq by done. reflexivity.
Qed.

(** ** What is left of a closed connection *)

Definition in_turn (t : thread) : nat := if decide (t = InTurn) then 1 else 0.

(** The threads of the connection that are inside their [try]. *)
Definition turns_begun (c : conn) : nat := in_turn (Vmbus2TcpThread c) + in_turn (Tcp2VmbusThread c).

(** 1 when the action is a turn of a thread of connection [k]. *)
Definition is_turn (k : nat) (a : action) (s : service) : nat :=
  match a with
  | Vmbus2Tcp j _ => if decide (j = k) then from_option (fun c => in_turn (Vmbus2TcpThread c)) 0%nat (s_conns s !! k) else 0
  | Tcp2Vmbus j _ => if decide (j = k) then from_option (fun c => in_turn (Tcp2VmbusThread c)) 0%nat (s_conns s !! k) else 0
  | _ => 0
  end.

Fixpoint turns (k : nat) (l : list action) (s : service) : nat :=
  match l with
  | [] => 0
  | a :: l => is_turn k a s + from_option (turns k l) 0%nat (act a s)
  end.

(** [c] was connection [k] and [Close] was called on its socket. *)
Definition closed (k : nat) (c : conn) (s : service) : Prop :=
  s_conns s !! k = Some c /\ current s <> Some k.

Lemma closed_shape_of k c s : loop_inv s -> closed k c s ->
  ShouldRunning c = false /\ c_open c = false /\ Vmbus2TcpThread c <> Unstarted /\ Tcp2VmbusThread c <> Unstarted.
Proof.
  intros Hi [Hk Hc]. pose proof (li_shape _ Hi _ _ Hk) as Hs. unfold shape in Hs.
  assert (E : shape_at (s_main s) k = closed_shape).
  { unfold current, shape_at in *. destruct (s_main s); try done; by rewrite decide_False by congruence. }
  rewrite E in Hs. injection Hs as -> -> H1 H2. unfold started in *. apply bool_decide_eq_true in H1, H2. done.
Qed.

(** An action leaves a connection alone or is a step of one of its threads. *)
Lemma closed_other k c s s' : closed k c s -> s_conns s' !! k = Some c -> current s' = current s \/ current s' = None -> closed k c s'.
Proof. intros [H1 H2] H3 [E|E]; split; congruence. Qed.

Definition quieter (k : nat) (a : action) (s s' : service) (c : conn) : Prop :=
  exists c', closed k c' s' /\ c_sent c' = c_sent c /\ (is_turn k a s + turns_begun c' <= turns_begun c)%nat.

Lemma quieter_other k a s s' c : is_turn k a s = 0%nat -> closed k c s -> s_conns s' !! k = Some c ->
  current s' = current s \/ current s' = None -> quieter k a s s' c.
Proof. intros H Hc Hk Hcur. exists c. split_and!; [by eapply closed_other|done|]. rewrite H. lia. Qed.

Lemma main_step_closed k e s s' c : loop_inv s -> closed k c s -> main_step e s = Some s' -> quieter k (Main e) s s' c.
Proof.
  intros Hi Hcl H. pose proof Hcl as [Hk Hc]. unfold main_step in H. unfold current in Hc.
  destruct (s_main s) as [| |ch|j|j|j|j| |] eqn:Em; [| | | | | | |done|done].
  - injection H as <-. apply quieter_other; [done..|]. right. by destruct (IsRunning s).
  - destruct (data_pass _); injection H as <-; apply quieter_other; try done; [right; by destruct (me_opens e)|by left].
  - destruct (me_connects e); injection H as <-; [|apply quieter_other; try done; by right].
    exists c. split_and!; [split|done|cbn; lia].
    + cbn. rewrite lookup_app_l; [done|by eapply lookup_lt_Some].
    + cbn. apply lookup_lt_Some in Hk. intros [= E]. lia.
  - apply bind_Some in H as (d & Hj & H). apply bind_Some in H as (r & Hr & H).
    assert (Hne : j <> k) by congruence. destruct (PopPipePacket r) as [[x r1]|]; [cbn zeta in H; destruct (_ =? 0)|];
      injection H as <-; (apply quieter_other; [done..| |left; unfold current; by rewrite Em]); cbn; by rewrite ?list_lookup_insert_ne by done.
  - apply bind_Some in H as (d & Hj & H). assert (Hne : j <> k) by congruence. injection H as <-.
    apply quieter_other; [done..| |left; unfold current; by rewrite Em]. cbn. by rewrite list_lookup_insert_ne by done.
  - apply bind_Some in H as (d & Hj & H). assert (Hne : j <> k) by congruence. destruct (_ || _); injection H as <-;
      (apply quieter_other; [done..| |left; unfold current; by rewrite ?Em]); cbn; by rewrite ?list_lookup_insert_ne by done.
  - apply bind_Some in H as (d & Hj & H). assert (Hne : j <> k) by congruence. injection H as <-.
    apply quieter_other; [done..| |by right]. cbn. by rewrite list_lookup_insert_ne by done.
Qed.

(** A step of a thread of the closed connection or of another one. *)
Lemma thread_closed k a j s s' c d d' : closed k c s -> s_conns s !! j = Some d -> s_conns s' = <[j := d']> (s_conns s) ->
  s_main s' = s_main s -> (j <> k -> is_turn k a s = 0%nat) ->
  (j = k -> c_sent d' = c_sent d /\ (is_turn k a s + turns_begun d' <= turns_begun d)%nat) -> quieter k a s s' c.
Proof.
  intros Hcl Hj E Em H0 H1. pose proof Hcl as [Hk Hc]. assert (Hcur : current s' = current s) by (unfold current; by rewrite Em).
  destruct (decide (j = k)) as [->|Hne].
  - rewrite Hj in Hk. injection Hk as ->. destruct (H1 eq_refl) as [Hs Ht]. exists d'. split_and!; [|done|done].
    split; [rewrite E; apply list_lookup_insert_eq; by eapply lookup_lt_Some|congruence].
  - apply quieter_other; [by apply H0|done| |by left]. by rewrite E, list_lookup_insert_ne.
Qed.

Lemma in_turn_after ok : in_turn (after_turn ok) = 0%nat.
Proof. by destruct ok. Qed.

Lemma vmbus2tcp_closed k j send s s' c : loop_inv s -> closed k c s -> vmbus2tcp_step j send s = Some s' ->
  quieter k (Vmbus2Tcp j send) s s' c.
Proof.
  intros Hi Hcl H. unfold vmbus2tcp_step in H. apply bind_Some in H as (d & Hj & H).
  assert (Ht : is_turn k (Vmbus2Tcp j send) s = if decide (j = k) then in_turn (Vmbus2TcpThread d) else 0%nat).
  { cbn. destruct (decide (j = k)) as [<-|]; [|done]. by rewrite Hj. }
  assert (Hd : j = k -> ShouldRunning d = false /\ c_open d = false).
  { intros ->. destruct (closed_shape_of k d s Hi) as (? & ? & _); [|done]. destruct Hcl. split; [done|done]. }
  destruct (Vmbus2TcpThread d) eqn:Et; [done| | |done].
  - injection H as <-. eapply thread_closed; [exact Hcl|exact Hj|reflexivity..| |].
    + intros Hn. by rewrite Ht, decide_False.
    + intros E. rewrite Ht, decide_True by done. destruct (Hd E) as [-> _]. split; [done|]. unfold turns_begun.
      cbn [with_vmbus2tcp Vmbus2TcpThread Tcp2VmbusThread]. change (in_turn Ended) with 0%nat. change (in_turn AtTest) with 0%nat. lia.
  - apply bind_Some in H as (r & Hr & H). destruct (vmbus2tcp_turn send r d) as [[r1 d1] ok] eqn:E. injection H as <-.
    destruct (turn_frame_vmbus _ _ _ _ _ _ E) as (_ & _ & _ & _ & E5 & _ & E6).
    eapply thread_closed; [exact Hcl|exact Hj|reflexivity..| |].
    + intros Hn. by rewrite Ht, decide_False.
    + intros Ej. rewrite Ht, decide_True by done. destruct (Hd Ej) as [_ Ho]. split; [by apply E6|].
      unfold turns_begun. cbn [with_vmbus2tcp Vmbus2TcpThread Tcp2VmbusThread]. rewrite in_turn_after, E5, Et. change (in_turn InTurn) with 1%nat. lia.
Qed.

Lemma tcp2vmbus_closed k j w s s' c : loop_inv s -> closed k c s -> tcp2vmbus_step j w s = Some s' ->
  quieter k (Tcp2Vmbus j w) s s' c.
Proof.
  intros Hi Hcl H. unfold tcp2vmbus_step in H. apply bind_Some in H as (d & Hj & H).
  assert (Ht : is_turn k (Tcp2Vmbus j w) s = if decide (j = k) then in_turn (Tcp2VmbusThread d) else 0%nat).
  { cbn. destruct (decide (j = k)) as [<-|]; [|done]. by rewrite Hj. }
  assert (Hd : j = k -> ShouldRunning d = false).
  { intros ->. destruct (closed_shape_of k d s Hi) as (? & _); [|done]. destruct Hcl. split; [done|done]. }
  destruct (Tcp2VmbusThread d) eqn:Et; [done| | |done].
  - injection H as <-. eapply thread_closed; [exact Hcl|exact Hj|reflexivity..| |].
    + intros Hn. by rewrite Ht, decide_False.
    + intros E. rewrite Ht, decide_True by done. rewrite (Hd E). split; [done|]. unfold turns_begun.
      cbn [with_tcp2vmbus Vmbus2TcpThread Tcp2VmbusThread]. change (in_turn Ended) with 0%nat. change (in_turn AtTest) with 0%nat. lia.
  - apply bind_Some in H as (r & Hr & H). destruct (tcp2vmbus_turn w r d) as [[r1 d1] ok] eqn:E. injection H as <-.
    destruct (turn_frame_tcp _ _ _ _ _ _ E) as (_ & _ & _ & E4 & _ & E6).
    eapply thread_closed; [exact Hcl|exact Hj|reflexivity..| |].
    + intros Hn. by rewrite Ht, decide_False.
    + intros Ej. rewrite Ht, decide_True by done. split; [exact E6|].
      unfold turns_begun. cbn [with_tcp2vmbus Vmbus2TcpThread Tcp2VmbusThread]. rewrite in_turn_after, E4, Et. change (in_turn InTurn) with 1%nat. lia.
Qed.

Lemma act_closed k a s s' c : loop_inv s -> closed k c s -> act a s = Some s' -> quieter k a s s' c.
Proof.
  intros Hi Hcl H. assert (Hne : s_main s <> Crashed) by (intros E; unfold act in H; by rewrite bool_decide_true in H).
  rewrite act_running in H by done. destruct a as [e|j send|j w|ch x|ch|j bytes|].
  - by apply main_step_closed.
  - by apply vmbus2tcp_closed.
  - by apply tcp2vmbus_closed.
  - apply bind_Some in H as (r & _ & H). apply bind_Some in H as (r' & _ & [= <-]). destruct Hcl. by apply quieter_other; [|split|..|left].
  - apply bind_Some in H as (r & _ & H). apply bind_Some in H as (r' & _ & [= <-]). destruct Hcl. by apply quieter_other; [|split|..|left].
  - apply bind_Some in H as (d & Hj & H). destruct (c_open d); [|done]. injection H as <-.
    eapply thread_closed; [exact Hcl|exact Hj|reflexivity..|done|]. intros _. split; [done|]. unfold turns_begun. cbn. lia.
  - injection H as <-. destruct Hcl. by apply quieter_other; [|split|..|left].
Qed.

Lemma turns_begun_two c : (turns_begun c <= 2)%nat.
Proof. unfold turns_begun, in_turn. repeat case_decide; lia. Qed.

(** C27. What is left of a connection after [Close].  However the service goes on, its threads take at
    most the turns they had begun, one each, and nothing more is sent on its socket.  But
    nobody waits for them, and the ring of the data channel is the one the next
    connection uses: a turn of [Vmbus2TcpThread] that had begun takes the next
    connection's packet out of the ring, and the packet reaches no server. *)
Theorem closed_connection_turns i o s k c :
  reachable (loop_start i o) s -> closed k c s ->
  (forall l s', run l s = Some s' -> (turns k l s <= turns_begun c <= 2)%nat /\
     exists c', s_conns s' !! k = Some c' /\ c_sent c' = c_sent c) /\
  (Vmbus2TcpThread c = InTurn -> s_main s <> Crashed -> forall r n x rest send,
     s_incoming s !! c_channel c = Some r -> ring_ok r -> content_ok x -> x <> [] -> stream r = packet n x ++ rest ->
     exists s' r', act (Vmbus2Tcp k send) s = Some s' /\ s_incoming s' !! c_channel c = Some r' /\ stream r' = rest /\
       map c_sent (s_conns s') = map c_sent (s_conns s)).
Proof.
  intros Hr Hcl. pose proof (loop_reachable_inv _ _ _ Hr) as Hi. clear Hr. split.
  - intros l. revert s c Hi Hcl. induction l as [|a l IH]; intros s c Hi Hcl s'; cbn [run turns].
    + intros [= <-]. split; [pose proof (turns_begun_two c); lia|]. exists c. by destruct Hcl.
    + intros H. apply bind_Some in H as (s1 & E & H). rewrite E. cbn [from_option].
      destruct (act_closed k a s s1 c Hi Hcl E) as (c1 & Hcl1 & Hs & Ht).
      destruct (IH s1 c1 (act_inv _ _ _ E Hi) Hcl1 s' H) as ([Hn _] & c2 & Hk2 & Hs2).
      split; [pose proof (turns_begun_two c); lia|]. exists c2. split; [done|congruence].
  - intros Ht Hne r n x rest send Hr Hok Hx Hnil Hs. destruct (closed_shape_of k c s Hi Hcl) as (_ & Ho & _).
    destruct Hcl as [Hk _]. destruct (pop_stream r n x rest Hok Hx Hs) as (r1 & Ep & Hok1 & Hs1).
    exists (set_conn k (with_vmbus2tcp Ended c) (set_incoming (c_channel c) r1 s)), r1. split_and!.
    + rewrite act_running by done. unfold vmbus2tcp_step. rewrite Hk. cbn [mbind option_bind]. rewrite Ht, Hr. cbn [mbind option_bind].
      unfold vmbus2tcp_turn, socket_send. rewrite Ep, Ho. destruct x as [|b x]; [done|].
      replace (_ =? 0) with false by (symmetry; apply Z.eqb_neq; cbn [length]; lia). done.
    + cbn. apply lookup_insert_eq.
    + done.
    + cbn. change (map c_sent) with (fmap c_sent : list conn -> _). rewrite list_fmap_insert. apply list_insert_id.
      by rewrite list_lookup_fmap, Hk.
Qed.

(** ** The first packet *)







(** ** From the client to the server *)

Section delivery.
Context (k : nat) (ch : string).












End delivery.

End service.

(** ** Instances *)

Module Witness.
#[local] Existing Instance pipe_host.
#[local] Existing Instance pipe_host_ok.

Definition chan1 : string := default EmptyString (head DataInstanceIds).
Definition rings : gmap string ring := {[ chan1 := Ring 0 0 (replicate 256 0) ]}.
Definition echo (b : list Z) : Z := Z.of_nat (length b).
Definition env1 : main_env := MainEnv (fun _ => true) true true echo (4, 0) (Some 100%nat).
Definition request : list Z := [3; 0; 0; 19; 14; 224; 0; 0; 0; 0; 0; 1; 0; 8; 0; 3; 0; 0; 0].
Definition start : service := loop_start rings rings.

Definition after (l : list action) : service := default start (run l start).

(** A data channel was found and the server is connected. *)
Definition to_request : list action := [Main env1; Main env1; Main env1].
(** The first packet went to the server. *)
Definition to_watch : list action := to_request ++ [HostPush chan1 request; Main env1].
(** [Tcp2VmbusThread] ends by an exception while [Vmbus2TcpThread] is inside its turn; the service
    closes the connection, serves the next one on the same channel, and its client sends. *)
Definition to_stale : list action := to_watch ++
  [Vmbus2Tcp 0 (Some 100%nat); ServerBytes 0 [9]; Tcp2Vmbus 0 echo; Tcp2Vmbus 0 (fun _ => -1); Main env1; Main env1] ++
  to_request ++ [HostPush chan1 request; Main env1; HostPush chan1 [7; 7; 7]].

Lemma run_to_watch : run to_watch start = Some (after to_watch).
Proof. vm_compute. reflexivity. Qed.
Lemma run_to_stale : run to_stale start = Some (after to_stale).
Proof. vm_compute. reflexivity. Qed.

Lemma reached l : run l start = Some (after l) -> reachable start (after l).
Proof. apply run_reachable. constructor. Qed.

Definition conn_at (k : nat) (s : service) : conn := default (Conn EmptyString false false Unstarted Unstarted [] []) (s_conns s !! k).
Definition ring_at (s : service) : ring := default (Ring 0 0 []) (s_incoming s !! chan1).




Lemma alive_watch : alive 0 (after to_watch).
Proof. exists (conn_at 0 (after to_watch)). by vm_compute. Qed.

(** [Stop] is called; both threads turn, the watch looks twice, the client sends. *)
Definition stop_run : list action :=
  [StopCalled; Vmbus2Tcp 0 None; Tcp2Vmbus 0 echo; Main env1; Vmbus2Tcp 0 None; Tcp2Vmbus 0 echo; HostPush chan1 [5]; Main env1].

Lemma stop_waits_for_exception_witness : exists s', run stop_run (after to_watch) = Some s' /\ stop_returns s' = false.
Proof.
  eexists. split; [vm_compute; reflexivity|].
  refine (proj2 (proj2 (proj1 (stop_waits_for_exception rings rings (after to_watch) 0 (reached _ run_to_watch) eq_refl) alive_watch stop_run _ _ _))).
  - vm_compute. repeat split.
  - vm_compute. reflexivity.
Defined.

Definition stale_rest : list Z := [].
Lemma stale_stream : stream (ring_at (after to_stale)) = packet 112 [7; 7; 7] ++ stale_rest.
Proof. vm_compute. reflexivity. Qed.

Lemma stale_closed : closed 0 (conn_at 0 (after to_stale)) (after to_stale).
Proof. split; [vm_compute; reflexivity|vm_compute; discriminate]. Qed.

(** The packet of the second connection is gone, and no server has it. *)
Lemma closed_connection_turns_witness : exists s' r',
  act (Vmbus2Tcp 0 (Some 100%nat)) (after to_stale) = Some s' /\ s_main (after to_stale) = Watching 1 /\
  s_incoming s' !! chan1 = Some r' /\ stream r' = [] /\ map c_sent (s_conns s') = [<[15%nat := 0]> request; <[15%nat := 0]> request].
Proof.
  destruct (proj2 (closed_connection_turns rings rings (after to_stale) 0 (conn_at 0 (after to_stale)) (reached _ run_to_stale) stale_closed)
    eq_refl ltac:(vm_compute; discriminate) (ring_at (after to_stale)) 112 [7; 7; 7] stale_rest (Some 100%nat)) as (s' & r' & H1 & H2 & H3 & H4).
  - reflexivity.
  - vm_compute. repeat split; discriminate.
  - vm_compute. reflexivity.
  - discriminate.
  - exact stale_stream.
  - exists s', r'. split; [exact H1|]. split; [reflexivity|]. split; [exact H2|]. split; [exact H3|]. rewrite H4. vm_compute. reflexivity.
Defined.









End Witness.
