(* ===== verification/PosixHelpers.v ===== *)
(** * Mile.Posix.Helpers

    [Mile.Helpers.CppBase.cpp] and the scope guard of its header: formatting into
    a string of the right size, and reading integers from text.  [vsnprintf] is an
    argument; [strtol] and its relatives are the C library's, as the standard
    defines them for 64-bit Linux. *)

From Stdlib Require Import Ascii.
From S2P Require Import Prelude CLayout CLayoutSpec CAccess Ring UserDevice.

(** ** Formatting *)

(** [vsnprintf(buffer, size, ...)] for a fixed format and arguments: the result, and the
    characters stored before the terminating zero. *)
Definition vsnprintf_fun : Type := Z -> Z * string.

Fixpoint nuls (n : nat) : string := match n with O => EmptyString | S n => String Ascii.zero (nuls n) end.

(** [std::string::resize] *)
Definition resize (n : nat) (s : string) : string :=
  String.substring 0 n s +:+ nuls (n - String.length s).

(** [text], and the terminating zero while it falls inside [s], written over the start of [s]. *)
Definition write_text (text s : string) : string :=
  let t := text +:+ String Ascii.zero EmptyString in
  String.substring 0 (String.length s) t +:+ String.substring (String.length t) (String.length s - String.length t) s.

(** [first] and [second] are the two calls. *)
Definition VFormatString (first second : vsnprintf_fun) : string :=
  let Length := (first 0).1 in
  if 0 <? Length then
    let Buffer := resize (Z.to_nat Length) EmptyString in
    let '(Length, text) := second (Z.of_nat (String.length Buffer) + 1) in
    let Buffer := write_text text Buffer in
    if 0 <? Length then resize (Z.to_nat Length) Buffer else EmptyString
  else EmptyString.

Definition FormatString (vsnprintf : vsnprintf_fun) : string := VFormatString vsnprintf vsnprintf.

(** What the standard says of [vsnprintf] when the formatted text is [text]: its length, and as much
    of it as fits. *)
Definition vsnprintf_of (text : string) : vsnprintf_fun := fun size =>
  (Z.of_nat (String.length text), String.substring 0 (Z.to_nat (size - 1)) text).

(** ** Reading integers *)

Definition isspace (c : ascii) : bool := let n := Z.of_N (N_of_ascii c) in (n =? 32) || ((9 <=? n) && (n <=? 13)).
Fixpoint skip_space (s : string) : string :=
  match s with String c t => if isspace c then skip_space t else s | EmptyString => EmptyString end.

(** The value of a digit, letters counting from 10. *)
Definition digit_value (c : ascii) : option Z :=
  let n := Z.of_N (N_of_ascii c) in
  if (48 <=? n) && (n <? 58) then Some (n - 48)
  else if (97 <=? n) && (n <? 123) then Some (n - 87)
  else if (65 <=? n) && (n <? 91) then Some (n - 55) else None.

(** The number the longest prefix of digits denotes, after [v]. *)
Fixpoint digits (base : Z) (s : string) (v : Z) : Z :=
  match s with
  | EmptyString => v
  | String c t => match digit_value c with Some d => if d <? base then digits base t (base * v + d) else v | None => v end
  end.

Definition split_sign (s : string) : bool * string :=
  match s with String "-" t => (true, t) | String "+" t => (false, t) | _ => (false, s) end.

Definition strip_0x (s : string) : option string :=
  match s with String "0" (String "x" t) | String "0" (String "X" t) => Some t | _ => None end.

(** The magnitude: bases 0 and 16 take the prefix 0x, base 0 a leading 0 for octal; a base that does
    not exist reads nothing. *)
Definition magnitude (base : Z) (s : string) : Z :=
  if base =? 0 then
    match strip_0x s with
    | Some t => digits 16 t 0
    | None => match s with String "0" _ => digits 8 s 0 | _ => digits 10 s 0 end
    end
  else if (base <? 2) || (36 <? base) then 0
  else if base =? 16 then match strip_0x s with Some t => digits 16 t 0 | None => digits 16 s 0 end
  else digits base s 0.

Definition signed_magnitude (base : Z) (s : string) : bool * Z :=
  let '(negative, t) := split_sign (skip_space s) in (negative, magnitude base t).

(** [strtol], [strtoll]: saturating at 64 bits. *)
Definition strtoll (s : string) (base : Z) : Z :=
  let '(negative, m) := signed_magnitude base s in
  Z.max (- 2 ^ 63) (Z.min (2 ^ 63 - 1) (if negative then - m else m)).

(** [strtoul], [strtoull]: a minus sign negates modulo 2^64, a number too large gives the maximum. *)
Definition strtoull (s : string) (base : Z) : Z :=
  let '(negative, m) := signed_magnitude base s in
  if 2 ^ 64 <=? m then 2 ^ 64 - 1 else u64 (if negative then - m else m).

Definition ToInt32 (Source : string) (Radix : Z) : Z := s32 (strtoll Source Radix).
Definition ToInt64 (Source : string) (Radix : Z) : Z := strtoll Source Radix.
Definition ToUInt32 (Source : string) (Radix : Z) : Z := u32 (strtoull Source Radix).
Definition ToUInt64 (Source : string) (Radix : Z) : Z := strtoull Source Radix.

(** ** ScopeExitTaskHandler

    [run] is the effect of the handler on a state; the destructor runs it unless the task was
    cancelled. *)
Record ScopeExitTaskHandler (S : Type) := ScopeExit { m_Canceled : bool; m_TaskHandler : S -> S }.
Arguments ScopeExit {S}. Arguments m_Canceled {S}. Arguments m_TaskHandler {S}.

Definition new_scope_exit {S} (EventHandler : S -> S) : ScopeExitTaskHandler S := ScopeExit false EventHandler.
Definition Cancel {S} (h : ScopeExitTaskHandler S) : ScopeExitTaskHandler S := ScopeExit true (m_TaskHandler h).
Definition delete_scope_exit {S} (h : ScopeExitTaskHandler S) (s : S) : S :=
  if negb (m_Canceled h) then m_TaskHandler h s else s.

(** ** What they do *)

Lemma string_length_nuls n : String.length (nuls n) = n.
Proof. induction n; cbn; congruence. Qed.

Lemma string_length_app a b : String.length (a +:+ b) = (String.length a + String.length b)%nat.
Proof. induction a as [|c a IH]; [done|]. change (S (String.length (a +:+ b)) = S (String.length a + String.length b)). by rewrite IH. Qed.

Lemma substring_full s n : (String.length s <= n)%nat -> String.substring 0 n s = s.
Proof.
  revert n. induction s as [|c s IH]; intros n Hn; [by destruct n|]. cbn in Hn. destruct n as [|n]; [lia|].
  cbn. f_equal. apply IH. lia.
Qed.

Lemma substring_app_l s t : String.substring 0 (String.length s) (s +:+ t) = s.
Proof.
  induction s as [|c s IH]; [by destruct t|].
  change (String c (String.substring 0 (String.length s) (s +:+ t)) = String c s). by rewrite IH.
Qed.

Lemma substring_zero n s : String.substring n 0 s = EmptyString.
Proof. revert n. induction s as [|c s IH]; intros n; [by destruct n|]. destruct n as [|n]; [done|]. apply IH. Qed.

Lemma resize_same s : resize (String.length s) s = s.
Proof.
  unfold resize. rewrite substring_full, Nat.sub_diag by done. cbn [nuls].
  induction s as [|c s IH]; [done|]. change (String c (s +:+ EmptyString) = String c s). by rewrite IH.
Qed.

(** The decimal text of a number. *)
Lemma digits_pretty_go (n : N) : forall acc, digits 10 (pretty_N_go n acc) 0 = digits 10 acc (Z.of_N n).
Proof.
  induction (N.lt_wf_0 n) as [n _ IH]. intros acc. destruct (decide (0 < n)%N) as [H|H].
  - rewrite pretty_N_go_step by done. rewrite IH by (by apply N.div_lt). cbn [digits].
    assert (Hd : (n `mod` 10 < 10)%N) by by apply N.mod_lt.
    assert (Hv : digit_value (pretty_N_char (n `mod` 10)%N) = Some (Z.of_N (n `mod` 10)%N)).
    { clear -Hd. revert Hd. generalize (n `mod` 10)%N. intros d Hd.
      assert (E : forallb (fun d => match digit_value (pretty_N_char (N.of_nat d)) with Some x => x =? Z.of_nat d | None => false end)
        (seq 0 10) = true) by (vm_compute; reflexivity).
      rewrite forallb_forall in E. specialize (E (N.to_nat d)). rewrite N2Nat.id in E.
      destruct (digit_value (pretty_N_char d)) as [x|]; [|discriminate E; apply in_seq; lia].
      f_equal. rewrite <- N_nat_Z. apply Z.eqb_eq, E, in_seq. lia. }
    rewrite Hv, (proj2 (Z.ltb_lt _ 10)) by lia. f_equal. pose proof (N.div_mod n 10 ltac:(done)). lia.
  - replace n with 0%N by lia. by rewrite pretty_N_go_0.
Qed.

Lemma digits_pretty (n : N) : digits 10 (pretty n) 0 = Z.of_N n.
Proof.
  unfold pretty, pretty_N. case_decide as H; [by subst n|]. by rewrite digits_pretty_go.
Qed.

(** No sign and no space in front. *)
Definition starts_plain (s : string) : bool :=
  match s with EmptyString => true | String c _ => match digit_value c with Some d => d <? 10 | None => false end end.

Lemma starts_plain_go (n : N) : forall acc, starts_plain acc = true -> starts_plain (pretty_N_go n acc) = true.
Proof.
  induction (N.lt_wf_0 n) as [n _ IH]. intros acc Ha. destruct (decide (0 < n)%N) as [H|H].
  - rewrite pretty_N_go_step by done. apply IH; [by apply N.div_lt|].
    unfold pretty_N_char. by repeat case_match.
  - replace n with 0%N by lia. by rewrite pretty_N_go_0.
Qed.

Lemma starts_plain_pretty (n : N) : starts_plain (pretty n) = true.
Proof. unfold pretty, pretty_N. case_decide; [done|]. by apply starts_plain_go. Qed.

Lemma plain_sign s : starts_plain s = true -> split_sign (skip_space s) = (false, s).
Proof.
  destruct s as [|c s]; [done|]. cbn [starts_plain]. intros Hc.
  assert (E : forall c, (if digit_value c is Some d then d <? 10 else false) = true ->
    isspace c = false /\ Ascii.eqb c "-" = false /\ Ascii.eqb c "+" = false).
  { clear. intros c. destruct c as [[] [] [] [] [] [] [] []]; vm_compute; intros H; discriminate H || by split_and!. }
  destruct (E c Hc) as (E1 & E2 & E3). cbn [skip_space]. rewrite E1. unfold split_sign.
  destruct c as [[] [] [] [] [] [] [] []]; try done; discriminate.
Qed.

Lemma signed_fmt_d z : signed_magnitude 10 (fmt_d z) = (z <? 0, Z.abs z).
Proof.
  unfold signed_magnitude, fmt_d. destruct z as [|p|p]; [reflexivity| |].
  - change (pretty (Z.pos p)) with (pretty (N.pos p)). rewrite plain_sign by apply starts_plain_pretty.
    cbn [magnitude Z.eqb Z.ltb Z.compare orb]. by rewrite digits_pretty.
  - change (pretty (Z.neg p)) with ("-" +:+ pretty (N.pos p)).
    change (skip_space ("-" +:+ pretty (N.pos p))) with (String "-" (pretty (N.pos p))). cbn [split_sign].
    cbn [magnitude Z.eqb Z.ltb Z.compare orb]. by rewrite digits_pretty.
Qed.

(** Reading back the decimal text of any integer: [ToInt64] and [ToUInt64] give the number where
    it fits, and the nearest bound or, for a negative one read as unsigned, the number modulo 2^64
    where it does not.  [ToInt32] and [ToUInt32] cut that to 32 bits: they give numbers of 32
    bits back, and do not saturate on others: 2^32 reads as 0. *)
Theorem to_integer_of_text z :
  ToInt64 (fmt_d z) 10 = Z.max (- 2 ^ 63) (Z.min (2 ^ 63 - 1) z) /\
  ToUInt64 (fmt_d z) 10 = (if Z.abs z <? 2 ^ 64 then u64 z else 2 ^ 64 - 1) /\
  (- 2 ^ 31 <= z < 2 ^ 31 -> ToInt32 (fmt_d z) 10 = z) /\ (0 <= z < 2 ^ 32 -> ToUInt32 (fmt_d z) 10 = z) /\
  (- 2 ^ 63 <= z < 2 ^ 63 -> ToInt32 (fmt_d z) 10 = s32 z) /\ (Z.abs z < 2 ^ 64 -> ToUInt32 (fmt_d z) 10 = u32 z).
Proof.
  assert (HL : strtoll (fmt_d z) 10 = Z.max (- 2 ^ 63) (Z.min (2 ^ 63 - 1) z)).
  { unfold strtoll. rewrite signed_fmt_d. destruct (Z.ltb_spec z 0); [rewrite Z.abs_neq by lia|rewrite Z.abs_eq by lia]; lia. }
  assert (HU : strtoull (fmt_d z) 10 = if Z.abs z <? 2 ^ 64 then u64 z else 2 ^ 64 - 1).
  { unfold strtoull. rewrite signed_fmt_d. rewrite Z.leb_antisym. destruct (Z.abs z <? 2 ^ 64); cbn [negb]; [|done].
    f_equal. destruct (Z.ltb_spec z 0); lia. }
  unfold ToInt64, ToUInt64, ToInt32, ToUInt32. rewrite HL, HU. split_and!; [done..| | | |].
  - intros H. rewrite Z.min_r, Z.max_r by lia. by apply s32_id.
  - intros H. rewrite (proj2 (Z.ltb_lt _ _)), u64_id by lia. by apply u32_id.
  - intros H. by rewrite Z.min_r, Z.max_r by lia.
  - intros H. rewrite (proj2 (Z.ltb_lt _ _)) by done. unfold u32, u64.
    apply Z.mod_mod_divide. exists (2 ^ 32). lia.
Qed.

(** The result of [FormatString] is the formatted text, for any text [vsnprintf] can format and
    report the length of. *)
Theorem FormatString_text text : FormatString (vsnprintf_of text) = text.
Proof.
  unfold FormatString, VFormatString, vsnprintf_of. cbn [fst]. destruct text as [|c t] eqn:E; [done|]. rewrite <- E.
  assert (Hl : (0 < String.length text)%nat) by (rewrite E; cbn; lia).
  rewrite (proj2 (Z.ltb_lt 0 _)) by lia. rewrite Nat2Z.id.
  assert (HB : String.length (resize (String.length text) EmptyString) = String.length text).
  { unfold resize. rewrite string_length_app, string_length_nuls. cbn [String.length]. rewrite Nat.sub_0_r.
    by destruct (String.length text). }
  rewrite HB. replace (Z.of_nat (String.length text) + 1 - 1) with (Z.of_nat (String.length text)) by lia.
  rewrite Nat2Z.id, substring_full by done. unfold write_text. rewrite HB, substring_app_l, string_length_app. cbn [String.length].
  replace (String.length text - (String.length text + 1))%nat with 0%nat by lia. rewrite substring_zero.
  assert (Happ : text +:+ EmptyString = text).
  { clear. induction text as [|c s IH]; [done|]. change (String c (s +:+ EmptyString) = String c s). by rewrite IH. }
  rewrite Happ. apply resize_same.
Qed.

(** A guard that is not cancelled runs its task once, a cancelled one never. *)
Theorem scope_exit_runs {S} (task : S -> S) s :
  delete_scope_exit (new_scope_exit task) s = task s /\ delete_scope_exit (Cancel (new_scope_exit task)) s = s.
Proof. done. Qed.
