(* ===== verification/PortableTypes.v ===== *)
(** * The portable type headers

    [Mile.Mobility.Portable.Types.h], and the names [Mile.HyperV.Portable.Types.h]
    gives them: integer types and their limits, the arithmetic macros, and the
    reading of variable arguments where the header does it itself. *)

From S2P Require Import Prelude CLayout CLayoutSpec CAccess Ring RingSpec.

(** ** Types *)

Definition MO_INT8 : cty := INT8.
Definition MO_INT16 : cty := INT16.
Definition MO_INT32 : cty := INT32.
Definition MO_INT64 : cty := INT64.
Definition MO_UINT8 : cty := UINT8.
Definition MO_UINT16 : cty := UINT16.
Definition MO_UINT32 : cty := UINT32.
Definition MO_UINT64 : cty := UINT64.

(** Both targets have 64-bit addresses. *)
Definition MO_INTN : cty := MO_INT64.
Definition MO_UINTN : cty := MO_UINT64.
Definition MO_BOOL : cty := MO_UINT8.
(** [char], which is signed for both compilers. *)
Definition MO_CHAR : cty := CInt true 1.
Definition MO_WIDE_CHAR : cty := MO_UINT16.
Definition MO_STRING : cty := CPtr.
Definition MO_WIDE_STRING : cty := CPtr.
Definition MO_CONSTANT_STRING : cty := CPtr.
Definition MO_CONSTANT_WIDE_STRING : cty := CPtr.
Definition MO_POINTER : cty := CPtr.
Definition MO_CONSTANT_POINTER : cty := CPtr.
Definition MO_GUID : cty :=
  struct 0 [fld MO_UINT32 "Data1"; fld MO_UINT16 "Data2"; fld MO_UINT16 "Data3"; fld (CArr MO_UINT8 8) "Data4"].

Definition HV_INT8 : cty := MO_INT8.
Definition HV_INT16 : cty := MO_INT16.
Definition HV_INT32 : cty := MO_INT32.
Definition HV_INT64 : cty := MO_INT64.
Definition HV_UINT8 : cty := MO_UINT8.
Definition HV_UINT16 : cty := MO_UINT16.
Definition HV_UINT32 : cty := MO_UINT32.
Definition HV_UINT64 : cty := MO_UINT64.

(** ** Limits *)

Definition MO_INT8_MAX : Z := 0x7F.
Definition MO_INT16_MAX : Z := 0x7FFF.
Definition MO_INT32_MAX : Z := 0x7FFFFFFF.
Definition MO_INT64_MAX : Z := 0x7FFFFFFFFFFFFFFF.
Definition MO_INT8_MIN : Z := - MO_INT8_MAX - 1.
Definition MO_INT16_MIN : Z := - MO_INT16_MAX - 1.
Definition MO_INT32_MIN : Z := - MO_INT32_MAX - 1.
Definition MO_INT64_MIN : Z := - MO_INT64_MAX - 1.
Definition MO_UINT8_MAX : Z := 0xFF.
Definition MO_UINT16_MAX : Z := 0xFFFF.
Definition MO_UINT32_MAX : Z := 0xFFFFFFFF.
Definition MO_UINT64_MAX : Z := 0xFFFFFFFFFFFFFFFF.
Definition MO_INTN_MIN : Z := MO_INT64_MIN.
Definition MO_INTN_MAX : Z := MO_INT64_MAX.
Definition MO_UINTN_MAX : Z := MO_UINT64_MAX.
Definition MO_FALSE : Z := 0.
Definition MO_TRUE : Z := 1.
Definition MO_CHAR_MIN : Z := 0x00.
Definition MO_CHAR_MAX : Z := 0xFF.
Definition MO_WIDE_CHAR_MIN : Z := 0x0000.
Definition MO_WIDE_CHAR_MAX : Z := 0xFFFF.

(** The values of an integer type. *)
Definition int_range (t : cty) : option (Z * Z) :=
  match t with
  | CInt true n => Some (- 2 ^ (8 * n - 1), 2 ^ (8 * n - 1) - 1)
  | CInt false n => Some (0, 2 ^ (8 * n) - 1)
  | _ => None
  end.

(** ** Macros *)

Definition MO_FIELD_OFFSET (b : abi) (t : cty) (x : string) : option Z := HV_FIELD_OFFSET b t x.
Definition MO_FIELD_SIZE (b : abi) (t : cty) (x : string) : option Z := HV_FIELD_SIZE b t x.
Definition MO_FIELD_SIZE_THROUGH (b : abi) (t : cty) (x : string) : option Z :=
  option_add (MO_FIELD_OFFSET b t x) (MO_FIELD_SIZE b t x).
Definition MO_FIELD_CONTAINS (b : abi) (t : cty) (addr size : Z) (x : string) : option bool :=
  option_map (fun through => addr + through <=? addr + size) (MO_FIELD_SIZE_THROUGH b t x).

(** The length of the array of the assertion, and whether the declaration compiles. *)
Definition MO_C_STATIC_ASSERT (Expression : bool) : Z := if Expression then 1 else -1.
Definition HV_STATIC_ASSERT (Expression : bool) : Z := MO_C_STATIC_ASSERT Expression.
Definition compiles (array_length : Z) : bool := 0 <? array_length.

Definition MO_DECLARE_HANDLE : cty := struct 0 [fld MO_UINTN "Unused"].
Definition MO_DECLSPEC_ALIGN (x : Z) (t : cty) : cty := aligned x t.
Definition HV_DECLSPEC_ALIGN (x : Z) (t : cty) : cty := MO_DECLSPEC_ALIGN x t.
Definition MO_ANYSIZE_ARRAY : Z := 1.

(** The operands after the usual conversions; the negation of the least [w]-bit integer is
    undefined. *)
Definition MO_MAX (Left Right : Z) : Z := if Right <? Left then Left else Right.
Definition MO_MIN (Left Right : Z) : Z := if Left <? Right then Left else Right.
Definition MO_ABS (w Value : Z) : option Z :=
  if Value <? 0 then if Value =? - 2 ^ (w - 1) then None else Some (- Value) else Some Value.
Definition MO_ARRAY_SIZE (b : abi) (t : cty) : option Z :=
  match t with CArr t' n => Some (sizeof b (CArr t' n) / sizeof b t') | _ => None end.

(** Unsigned operands of [w] bits. *)
Definition MO_GET_ALIGNED_SIZE (w Size Alignment : Z) : Z :=
  Z.land ((Size + Alignment - 1) mod 2 ^ w) ((Z.lnot (Alignment - 1)) mod 2 ^ w).

(** ** Variable arguments

    Memory is a list of bytes, a marker an address in it, [W] is [sizeof(MO_UINTN)].  The
    variants for x86 and for compilers the header does not know: *)
Definition slot_size (W n : Z) : Z := MO_GET_ALIGNED_SIZE 64 n W.
Definition MO_VARIABLE_ARGUMENT_START (W address size : Z) : Z := address + slot_size W size.
Definition MO_VARIABLE_ARGUMENT_READ (W : Z) (mem : list Z) (Marker n : Z) : list Z * Z :=
  let Marker := Marker + slot_size W n in (slice mem (Marker - slot_size W n) n, Marker).
Definition MO_VARIABLE_ARGUMENT_END : Z := 0.
Definition MO_VARIABLE_ARGUMENT_COPY (Source : Z) : Z := Source.

(** The variant for MSVC and x64: what is larger than a word or no power of two is read through a
    pointer. *)
Definition by_reference (n : Z) : bool := (8 <? n) || negb (Z.land n (n - 1) =? 0).
Definition MO_VARIABLE_ARGUMENT_READ_x64 (mem : list Z) (Marker n : Z) : list Z * Z :=
  let Marker := Marker + 8 in
  (if by_reference n then slice mem (le_num (slice mem (Marker - 8) 8)) n else slice mem (Marker - 8) n, Marker).

(** Reading arguments of these sizes one after the other. *)
Fixpoint read_arguments (read : Z -> Z -> list Z * Z) (Marker : Z) (sizes : list Z) : list (list Z) * Z :=
  match sizes with
  | [] => ([], Marker)
  | n :: sizes =>
      let '(a, Marker) := read Marker n in
      let '(rest, Marker) := read_arguments read Marker sizes in (a :: rest, Marker)
  end.

(** ** What they promise *)

Definition limits : list (string * cty * Z * Z) := [
  ("MO_INT8", MO_INT8, MO_INT8_MIN, MO_INT8_MAX); ("MO_INT16", MO_INT16, MO_INT16_MIN, MO_INT16_MAX);
  ("MO_INT32", MO_INT32, MO_INT32_MIN, MO_INT32_MAX); ("MO_INT64", MO_INT64, MO_INT64_MIN, MO_INT64_MAX);
  ("MO_UINT8", MO_UINT8, 0, MO_UINT8_MAX); ("MO_UINT16", MO_UINT16, 0, MO_UINT16_MAX);
  ("MO_UINT32", MO_UINT32, 0, MO_UINT32_MAX); ("MO_UINT64", MO_UINT64, 0, MO_UINT64_MAX);
  ("MO_INTN", MO_INTN, MO_INTN_MIN, MO_INTN_MAX); ("MO_UINTN", MO_UINTN, 0, MO_UINTN_MAX);
  ("MO_CHAR", MO_CHAR, MO_CHAR_MIN, MO_CHAR_MAX); ("MO_WIDE_CHAR", MO_WIDE_CHAR, MO_WIDE_CHAR_MIN, MO_WIDE_CHAR_MAX)].

(** The limits of every integer type are its range, but for [MO_CHAR]: [char] is signed, its limits
    are those of an unsigned one. *)
Theorem limits_are_ranges :
  (fun l => l.1.1.1) <$> filter (fun l : string * cty * Z * Z => int_range l.1.1.2 <> Some (l.1.2, l.2)) limits = ["MO_CHAR"].
Proof. vm_compute. reflexivity. Qed.

(** The macros of the two headers agree, and so does the layout of the GUIDs. *)
Theorem hv_macros_are_mo b t x addr size :
  HV_FIELD_SIZE_THROUGH b t x = MO_FIELD_SIZE_THROUGH b t x /\ HV_FIELD_CONTAINS b t addr size x = MO_FIELD_CONTAINS b t addr size x /\
  HV_GUID = MO_GUID /\ HV_ANYSIZE_ARRAY = MO_ANYSIZE_ARRAY.
Proof.
  unfold HV_FIELD_SIZE_THROUGH, HV_FIELD_CONTAINS, MO_FIELD_CONTAINS, MO_FIELD_SIZE_THROUGH, MO_FIELD_OFFSET, MO_FIELD_SIZE.
  destruct (HV_FIELD_OFFSET b t x), (HV_FIELD_SIZE b t x); cbn [option_add option_map]; split_and!; try done.
  by rewrite Z.add_assoc.
Qed.

Lemma land_aligned k w x : 0 <= k < w -> 0 <= x < 2 ^ w ->
  Z.land x ((Z.lnot (2 ^ k - 1)) mod 2 ^ w) = x / 2 ^ k * 2 ^ k.
Proof.
  intros Hk Hx. assert (E : 2 ^ k - 1 = Z.ones k) by (rewrite Z.ones_equiv; lia). rewrite E.
  transitivity (Z.ldiff x (Z.ones k)).
  - apply Z.bits_inj'. intros n Hn. rewrite Z.land_spec, Z.ldiff_spec.
    destruct (Z.ltb_spec n w) as [Hlt|Hge].
    + rewrite Z.mod_pow2_bits_low by lia. by rewrite Z.lnot_spec.
    + assert (Hz : Z.testbit x n = false).
      { destruct (Z.eq_dec x 0) as [->|Hnz]; [apply Z.bits_0|]. apply Z.bits_above_log2; [lia|].
        apply Z.log2_lt_pow2; [lia|]. eapply Z.lt_le_trans; [apply Hx|]. apply Z.pow_le_mono_r; lia. }
      by rewrite Hz.
  - rewrite Z.ldiff_ones_r, Z.shiftr_div_pow2, Z.shiftl_mul_pow2 by lia. done.
Qed.

(** Rounding a [w]-bit size up to a power of two: the macro gives the least multiple of the
    alignment that is not below the size while the sum fits [w] bits, and 0 when it does not,
    less than was asked for. *)
Theorem aligned_size_exact w k Size : 0 <= k < w -> 0 <= Size < 2 ^ w ->
  let r := MO_GET_ALIGNED_SIZE w Size (2 ^ k) in
  (Size + 2 ^ k - 1 < 2 ^ w -> Size <= r /\ (2 ^ k | r) /\ forall y, (2 ^ k | y) -> Size <= y -> r <= y) /\
  (2 ^ w <= Size + 2 ^ k - 1 -> r = 0).
Proof.
  intros Hk Hs r. assert (Hp : 0 < 2 ^ k) by (apply Z.pow_pos_nonneg; lia).
  assert (Hw : 2 ^ k < 2 ^ w) by (apply Z.pow_lt_mono_r; lia).
  assert (Hr : r = ((Size + 2 ^ k - 1) mod 2 ^ w) / 2 ^ k * 2 ^ k).
  { apply land_aligned; [done|]. apply Z.mod_pos_bound. lia. }
  clearbody r. subst r. split; intros H.
  - rewrite Z.mod_small by lia. change ((Size + 2 ^ k - 1) / 2 ^ k * 2 ^ k) with (round_up Size (2 ^ k)). split_and!.
    + by apply round_up_le.
    + apply round_up_divide.
    + intros y. by apply round_up_least.
  - replace ((Size + 2 ^ k - 1) mod 2 ^ w) with (Size + 2 ^ k - 1 - 2 ^ w).
    2: { rewrite <- (Z.mod_small (Size + 2 ^ k - 1 - 2 ^ w) (2 ^ w)) by lia.
         rewrite Zminus_mod, Z.mod_same, Z.sub_0_r, Z.mod_mod by lia. done. }
    rewrite Z.div_small by lia. done.
Qed.

(** How a caller lays arguments out for x86: each one padded to whole words. *)
Inductive laid_out (W : Z) : list Z -> list (list Z) -> Prop :=
  | laid_nil rest : laid_out W rest []
  | laid_cons a padding rest args :
      Z.of_nat (length (a ++ padding)) = round_up (Z.of_nat (length a)) W -> laid_out W rest args ->
      laid_out W (a ++ padding ++ rest) (a :: args).

Definition word_sized (n : nat) : bool := existsb (Nat.eqb n) [1; 2; 4; 8]%nat.

(** And for x64: 1, 2, 4 or 8 bytes in a word of their own, anything else in memory with its
    address in the word. *)
Inductive laid_out_x64 (mem : list Z) : Z -> list (list Z) -> Prop :=
  | laid64_nil m : laid_out_x64 mem m []
  | laid64_direct m a args : word_sized (length a) = true -> slice mem m (Z.of_nat (length a)) = a ->
      laid_out_x64 mem (m + 8) args -> laid_out_x64 mem m (a :: args)
  | laid64_reference m a args : word_sized (length a) = false -> (0 < length a)%nat ->
      slice mem (le_num (slice mem m 8)) (Z.of_nat (length a)) = a ->
      laid_out_x64 mem (m + 8) args -> laid_out_x64 mem m (a :: args).

Definition sizes_of_args (args : list (list Z)) : list Z := (fun a => Z.of_nat (length a)) <$> args.

Lemma by_reference_spec n : (0 < n)%nat -> by_reference (Z.of_nat n) = negb (word_sized n).
Proof.
  intros Hn. destruct (decide (n <= 8)%nat) as [H|H].
  - do 9 (destruct n as [|n]; [lia || (vm_compute; reflexivity)|]). lia.
  - unfold by_reference. rewrite (proj2 (Z.ltb_lt 8 _)) by lia. symmetry. apply negb_true_iff.
    apply not_true_iff_false. unfold word_sized. rewrite existsb_exists. intros (x & Hx & ->%Nat.eqb_eq). cbn in Hx. lia.
Qed.

(** Reading variable arguments with the types they were passed with gives the arguments, in
    order: for the x86 variant, whatever the padding, with the marker behind the last one; for
    the x64 variant, through the pointer exactly for what the caller passed by reference. *)
Theorem va_read_roundtrip j before area args :
  0 <= j < 32 -> laid_out (2 ^ j) area args -> Forall (fun a => Z.of_nat (length a) < 2 ^ 32) args ->
  (exists Marker, read_arguments (MO_VARIABLE_ARGUMENT_READ (2 ^ j) (before ++ area)) (Z.of_nat (length before)) (sizes_of_args args) =
    (args, Marker) /\ Z.of_nat (length before) <= Marker <= Z.of_nat (length (before ++ area))) /\
  (forall mem m, laid_out_x64 mem m args ->
    read_arguments (MO_VARIABLE_ARGUMENT_READ_x64 mem) m (sizes_of_args args) = (args, m + 8 * Z.of_nat (length args))).
Proof.
  intros Hj Hl Hs. split.
  - revert before. induction Hl as [rest|a padding rest args Hlen Hl IH]; intros before.
    { exists (Z.of_nat (length before)). split; [done|]. rewrite length_app. lia. }
    apply Forall_cons in Hs as [Ha Hs]. cbn [sizes_of_args fmap list_fmap read_arguments].
    assert (Hp : 0 < 2 ^ j <= 2 ^ 31) by (split; [apply Z.pow_pos_nonneg; lia|apply Z.pow_le_mono_r; lia]).
    assert (Hslot : slot_size (2 ^ j) (Z.of_nat (length a)) = Z.of_nat (length (a ++ padding))).
    { rewrite Hlen. unfold slot_size, MO_GET_ALIGNED_SIZE. rewrite Z.mod_small by lia.
      rewrite land_aligned; [done|lia|lia]. }
    unfold MO_VARIABLE_ARGUMENT_READ at 1. rewrite Hslot.
    replace (Z.of_nat (length before) + Z.of_nat (length (a ++ padding)) - Z.of_nat (length (a ++ padding)))
      with (Z.of_nat (length before)) by lia.
    destruct (IH Hs (before ++ a ++ padding)) as (Marker & E & Hm).
    replace (Z.of_nat (length (before ++ a ++ padding))) with (Z.of_nat (length before) + Z.of_nat (length (a ++ padding))) in E, Hm
      by (rewrite !length_app; lia).
    rewrite <- !app_assoc in E. unfold sizes_of_args in E. rewrite E. exists Marker. split.
    + f_equal. f_equal. unfold slice. rewrite !Nat2Z.id, drop_app_length. apply take_app_length.
    + rewrite <- !app_assoc in Hm. lia.
  - intros mem m H. clear Hl Hs. induction H as [m|m a args Ha Hm H IH|m a args Ha Hpos Hm H IH]; cbn [sizes_of_args fmap list_fmap read_arguments].
    + by rewrite Z.add_0_r.
    + unfold MO_VARIABLE_ARGUMENT_READ_x64 at 1. unfold sizes_of_args in IH.
      assert (Hpos : (0 < length a)%nat) by (destruct a; [discriminate Ha|cbn; lia]).
      rewrite by_reference_spec, Ha by done. cbn [negb]. rewrite Z.add_simpl_r, Hm, IH. f_equal. cbn [length]. lia.
    + unfold MO_VARIABLE_ARGUMENT_READ_x64 at 1. unfold sizes_of_args in IH.
      rewrite by_reference_spec, Ha by done. cbn [negb]. rewrite Z.add_simpl_r, Hm, IH. f_equal. cbn [length]. lia.
Qed.

(** Three arguments of 1, 4 and 8 bytes on 32-bit words, with padding 255, after two other bytes. *)
Lemma va_read_roundtrip_witness :
  (exists Marker, read_arguments (MO_VARIABLE_ARGUMENT_READ (2 ^ 2)
     ([9; 9] ++ [1; 255; 255; 255; 2; 0; 0; 0; 3; 0; 0; 0; 0; 0; 0; 4; 77])) 2 [1; 4; 8] =
   ([[1]; [2; 0; 0; 0]; [3; 0; 0; 0; 0; 0; 0; 4]], Marker) /\ 2 <= Marker <= 19).
Proof.
  assert (L : laid_out (2 ^ 2) [1; 255; 255; 255; 2; 0; 0; 0; 3; 0; 0; 0; 0; 0; 0; 4; 77] [[1]; [2; 0; 0; 0]; [3; 0; 0; 0; 0; 0; 0; 4]]).
  { apply (laid_cons _ [1] [255; 255; 255]); [reflexivity|]. apply (laid_cons _ [2; 0; 0; 0] []); [reflexivity|].
    apply (laid_cons _ [3; 0; 0; 0; 0; 0; 0; 4] []); [reflexivity|]. apply laid_nil. }
  refine (proj1 (va_read_roundtrip 2 [9; 9] _ _ _ L _)); [lia|].
  repeat (apply Forall_cons_2; [cbn; lia|]). apply Forall_nil_2.
Defined.

Lemma aligned_size_exact_witness :
  (13 <= MO_GET_ALIGNED_SIZE 32 13 (2 ^ 3) /\ (2 ^ 3 | MO_GET_ALIGNED_SIZE 32 13 (2 ^ 3)) /\
   forall y, (2 ^ 3 | y) -> 13 <= y -> MO_GET_ALIGNED_SIZE 32 13 (2 ^ 3) <= y) /\
  MO_GET_ALIGNED_SIZE 32 (2 ^ 32 - 1) (2 ^ 3) = 0.
Proof.
  split.
  - apply (proj1 (aligned_size_exact 32 3 13 ltac:(lia) ltac:(lia))). lia.
  - apply (proj2 (aligned_size_exact 32 3 (2 ^ 32 - 1) ltac:(lia) ltac:(lia))). lia.
Defined.
